(* ===== verification/_CoqProject ===== *)
-Q . S2P
Prelude.v
Interfaces.v
Memory.v
Pmm.v
Ring.v
Chain.v
Signals.v
Serial.v
Gdt.v
Idt.v
Keyboard.v
HeapInterface.v
Kmalloc.v
Heap.v
Paging.v
Process.v
ProcessSpace.v
ProcessTable.v
ProcessSignals.v
ProcessLife.v
Scheduler.v
Fork.v
Fairness.v
System.v
Syscall.v
Timer.v
Interrupts.v
Terminal.v
Text.v
Panic.v
LiveSpace.v
Vmalloc.v
Regions.v
HeapDump.v
World.v
Shell.v
Runs.v
Prints.v
Commands.v
MemoryTests.v
HeapTest.v
EventTests.v
LineEditor.v
Boot.v
Booted.v
