(* ===== verification/Prelude.v ===== *)
(** * kfs3: a verification of the kernel of this repository

    The program is a 32-bit x86 kernel: a boot sequence, memory managers (frames,
    pages, heap), processes with signals, sockets and a round-robin scheduler,
    interrupts and system calls, and drivers for the keyboard, the timer, the
    serial line and the text screen.  This library translates the C sources under
    src/kernel/ into Rocq functions and proves what they do.  Theorems that are
    properties of the program carry a claim number ([C1], [C2], ...).

    ** How the code is represented

    - A [uint32_t] is a [Z] in [[0, 2^32)], every addition or product that can
      leave the range is reduced with [u32] (and [i32] where the code converts to
      [int]); flags and descriptors use [Z.land], [Z.lor], [Z.shiftl], [Z.shiftr].
    - Static variables of a file are the fields of a record, a function of the file
      is a function on it.  A function that can panic, fault or run for ever returns
      an [outcome] ([Ret], [Panicked], which also stands for a fault of the processor,
      [OutOfFuel]), with its monad notation.
    - Physical memory is a finite map from addresses to bytes with little-endian
      accesses (Memory.v): heap headers, page tables and page contents are bytes in it.
    - A pointer into a static array of the source ([process_t *]) is the index of
      the slot, with [NULLP] for NULL.
    - Port I/O is the sequence of accesses ([io_event]); what a device answers is a
      function of the accesses before it, a parameter.
    - The registers of the processor, and what the stack holds when a panic reads
      it, are parameters; an interrupt frame is the record the assembly stubs push.
    - Assembly that only moves registers, the reference implementations of
      callbacks and the bodies of user processes are parameters.

    ** Files

    - Prelude.v: machine integers, list updates with integer indices, counted loops
      ([for_range]), [outcome], the hint database [kfs] and the tactics [divlia],
      [zbool], [range_induction] that the other files use.
    - Interfaces.v: the classes [FrameAllocator] (what paging, processes and system
      calls ask of the frame allocator) and [BoundedFifo] (what the four queues of the
      kernel promise), and the lemmas that follow from their laws.
    - Memory.v: bytes, 32-bit words, [memset] and [memcpy].
    - Pmm.v: src/kernel/src/pmm.c.  The bitmap and its counters, allocation of one
      frame or of a run of frames, the multiboot map at boot; [pmm_frame_allocator]
      is the instance of [FrameAllocator].
    - Ring.v: the head/tail/count ring buffer that keyboard.c, signals.c and
      process.c each write out, once, as an instance of [BoundedFifo].
    - Chain.v: the linked lists of process.c threaded through the slots of an array.
    - Kmalloc.v: src/kernel/src/kmalloc.c over byte memory: first fit, splitting,
      growing with [kbrk], coalescing, statistics.
    - HeapInterface.v: the class [HeapAllocator], what the kernel heap promises to the
      code that allocates from it; Heap.v: kmalloc.c as its instance.
    - Paging.v: src/kernel/src/paging.c on a machine with an MMU (walk of the two
      levels), a translation cache and the frame allocator of the interface.
    - Signals.v and Keyboard.v: src/kernel/src/signals.c and keyboard.c.
    - Serial.v, Gdt.v, Idt.v, Timer.v: port I/O and serial.c, gdt.c, idt.c, timer.c.
    - Process.v: the operations of src/kernel/src/process.c; then ProcessTable.v (the
      invariant of the table and its lists), ProcessSpace.v (address spaces),
      ProcessSignals.v (exit, signals, sockets), ProcessLife.v (creation, wait,
      release), Scheduler.v (picking and one turn), Fork.v, Fairness.v (runs of the
      scheduler over time) and System.v (every sequence of operations).
    - Syscall.v: src/kernel/src/syscall.c, the dispatcher over the process operations.
    - Interrupts.v: the handlers of keyboard.c, timer.c and syscall.c behind the
      dispatcher of idt.c, with the registrations of the boot.
    - Text.v: the string and number routines of shell.c and main.c.
    - Terminal.v: the screen half of main.c: scroll-back buffer, VGA memory, cursor.
    - Panic.v: src/kernel/src/panic.c.
    - LiveSpace.v: mapping, writing and unmapping pages in the address space the
      processor runs on.
    - Vmalloc.v: src/kernel/src/vmalloc.c over [HeapAllocator], [FrameAllocator] and
      the MMU; Regions.v: its invariant and the theorems, proved against the two
      interfaces.
    - HeapDump.v: the dump of kmalloc.c.
    - World.v: the state of the whole kernel and of the shell, programs over it as a
      state monad ([cmd]), the output, interrupts with the handlers of the shell.
    - Shell.v: src/kernel/src/shell.c, one definition for each command, the reading
      of keys, the line editor, the chain of comparisons ([shell_execute]) and the loop.
    - Runs.v: [runs], a program of that monad that prints a text and returns, with
      one rule for each operation and the tactic [run] that applies them; Prints.v:
      [prints], what is shown on the screen and on a serial line that is on, the port
      accesses in between left open.
    - Commands.v (the dispatch, the dumps, [peek] and [poke]), MemoryTests.v ([pmmtest],
      [pagetest]), HeapTest.v ([heaptest]), EventTests.v ([div0], [invop], [sigtest])
      and LineEditor.v (the line and a turn of the loop): the theorems on the shell,
      each from those of the components it calls.
    - Boot.v: [kernel_main] of src/kernel/src/main.c; Booted.v: what it establishes.

    ** What the theorems show

    - Kernel heap: the heap of every reachable state is a chain of well-formed blocks;
      payloads are disjoint, aligned, inside the heap and keep their bytes; [kmalloc]
      is first fit with splitting on the list of blocks; [kfree] merges neighbours;
      sizes near [2^32] wrap.
    - Frames: an allocation returns the lowest free frame of the bitmap and nothing
      else changes; after boot the free frames are those of the multiboot map.
    - Paging: mapping, unmapping and copying act on exactly one translation (all of
      them for a copy) and keep an invariant that covers the cache; the software walk
      agrees with the MMU; the error paths.
    - Virtual memory allocator: a region is a run of fresh zeroed pages at the
      break, described in the heap; allocation, failure and release leave the
      other regions, the heap's other payloads and every other translation alone,
      and no frame is lost.
    - Processes: the table, address spaces and lists stay well formed from
      [process_init] through every sequence of operations ([System.v]); creation,
      fork, wait, exit, signals and sockets do what their callers expect; a turn of
      the scheduler touches only the pages of the process that ran; every process
      that can run gets the processor.
    - Interrupts and system calls: the dispatcher implements a specification of the
      calls; with the registrations of the boot every interrupt reaches its handler.
    - Drivers: the keyboard queue under interleaving of interrupts and reads, the
      serial line, the screen and its scroll-back, the descriptors in memory.
    - Panic: what is saved and reported, and that the machine halts.
    - Boot: on a plausible machine [kernel_main] comes to wait for a key, and the
      invariants of the components, from which the theorems above start, hold
      together in the state it leaves.
    - Shell: every line runs the command it spells and no other; the line buffer is
      never overrun; what is typed ahead on the keyboard is carried out, with the
      serial line on as the boot leaves it; [poke] and [peek] agree on memory that is
      nobody else's; the tests of the shell print
      the verdicts the theorems of the components predict and leave the memory as
      they found it, with the exceptions stated.

    ** Bounds and fuel

    Every [while] of the source that is not a counted loop is a recursion on a bound,
    and the theorems prove the bound is enough, so that [OutOfFuel] is never reached from a
    well-formed state: the walks of the heap use [heap_fuel] (a block has at least the
    24 bytes of its header), the walks of the process lists [walk_fuel] (16 slots and
    one), the delivery of signals [deliver_fuel] (a queue of 16), the dispatch of
    kernel signals the length of the queue, the loop over the multiboot map the
    number of its entries, the printing of a number its ten digits, the walks of the
    regions their number and one, the dispatch of the shell [dispatch_fuel] (64, one
    more than the queue holds).  The waits for a device take the bound as a parameter,
    [fuel] or [polls], with the hypothesis that the device answers within it.  The
    loops that wait for a key take the list of the interrupts that arrive
    ([arrival]); the kernel is [stuck] when it still waits at its end, and a line of
    [n] keys that are queued takes [n + 1] of them.

    ** Not modelled

    - The boot entry in assembly, the linker script and the interrupt stubs: they
      move registers and build the frame that the dispatcher receives; the addresses
      they fix are the record [linked] and parameters.
    - An interrupt between two arbitrary instructions of the shell: interrupts arrive
      where the code waits for input, except for the tests of interleaving in
      Keyboard.v.
    - A read or a write of the user ([peek], [poke], [hexdump]) where the kernel has
      its variables, its code or its stack: the records of the model hold those, not
      the memory.  The addresses are the parameter [held], and such an access is
      [stuck].  The screen at 0xB8000 is modelled: the cells of the terminal are read
      and written there, and a dump reads each byte when it prints it.
    - A line typed on the serial side: [read_line] accepts it, and its bound is proved
      for it, but the echo is stated for the keyboard only.
    - After [reboot] the machine is the controller's: the model goes on as the code
      would.
    - The build rules and the scripts under src/tools: no code of the kernel. *)

From stdpp Require Export base numbers list list_numbers strings gmap.
From Stdlib Require Export ZArith Lia Bool.

#[global] Open Scope Z_scope.

(** ** Machine integers

    An i386 [uint32_t] is a [Z] in [0, 2^32); arithmetic that can leave that
    range is written with its wrap-around. *)

Definition u32 (x : Z) : Z := x mod 4294967296.
Definition u16 (x : Z) : Z := x mod 65536.
Definition u8 (x : Z) : Z := x mod 256.

(** Conversion of an unsigned 32-bit value to [int32_t] (two's complement). *)
Definition i32 (x : Z) : Z :=
  if u32 x <? 2147483648 then u32 x else u32 x - 4294967296.

Definition is_u32 (x : Z) : Prop := 0 <= x < 4294967296.
Definition is_u8 (x : Z) : Prop := 0 <= x < 256.

Declare Scope kfs_scope.
Delimit Scope kfs_scope with kfs.
Notation "x +32 y" := (u32 (x + y)) (at level 50, left associativity) : kfs_scope.
Notation "x -32 y" := (u32 (x - y)) (at level 50, left associativity) : kfs_scope.
Notation "x *32 y" := (u32 (x * y)) (at level 40, left associativity) : kfs_scope.

(** [lia] after turning every [/] and [mod] into its defining equations. *)
Ltac divlia := Z.to_euclidean_division_equations; lia.

Ltac unfold_ints := unfold u32, u16, u8, is_u32, is_u8 in *.

Create HintDb kfs.
Create Rewrite HintDb kfs.

Lemma u32_id x : is_u32 x -> u32 x = x.
Proof. intros. unfold u32. apply Z.mod_small. done. Qed.

Lemma u8_id x : is_u8 x -> u8 x = x.
Proof. intros. unfold u8. apply Z.mod_small. done. Qed.

Lemma u32_range x : is_u32 (u32 x).
Proof. apply Z.mod_pos_bound. lia. Qed.

Lemma u8_range x : is_u8 (u8 x).
Proof. apply Z.mod_pos_bound. lia. Qed.

Lemma u32_idemp x : u32 (u32 x) = u32 x.
Proof. apply u32_id, u32_range. Qed.

Lemma i32_small x : 0 <= x < 2147483648 -> i32 x = x.
Proof.
  intros. unfold i32. rewrite u32_id by (unfold is_u32; lia).
  destruct (Z.ltb_spec x 2147483648); lia.
Qed.

#[export] Hint Resolve u32_range u8_range : kfs.
#[export] Hint Rewrite u32_idemp : kfs.

(** ** Lists as C arrays, indexed by [Z]

    [getZ d l i] is [l[i]]; [setZ l i v] is [l[i] = v].  An index outside the
    array reads [d] and writes nothing: the C behaviour is undefined there, and
    every invariant below keeps the indices inside. *)

Definition getZ {A} (d : A) (l : list A) (i : Z) : A :=
  if i <? 0 then d else default d (l !! Z.to_nat i).

Definition setZ {A} (l : list A) (i : Z) (v : A) : list A :=
  if i <? 0 then l else <[Z.to_nat i := v]> l.

Definition lenZ {A} (l : list A) : Z := Z.of_nat (length l).

Section arrays.
Context {A : Type} (d : A).
Implicit Types l : list A.

Lemma lenZ_setZ l i v : lenZ (setZ l i v) = lenZ l.
Proof. unfold lenZ, setZ. case_match; [done|]. by rewrite length_insert. Qed.

Lemma lenZ_replicate n v : lenZ (replicate n v : list A) = Z.of_nat n.
Proof. unfold lenZ. by rewrite length_replicate. Qed.

Lemma getZ_setZ_eq l i v : 0 <= i < lenZ l -> getZ d (setZ l i v) i = v.
Proof.
  unfold getZ, setZ, lenZ. intros. destruct (Z.ltb_spec i 0); [lia|].
  rewrite list_lookup_insert_eq by lia. done.
Qed.

Lemma getZ_setZ_ne l i j v : i <> j -> getZ d (setZ l i v) j = getZ d l j.
Proof.
  unfold getZ, setZ. intros.
  destruct (Z.ltb_spec i 0); destruct (Z.ltb_spec j 0); try done.
  rewrite list_lookup_insert_ne by lia. done.
Qed.

Lemma getZ_setZ l i j v :
  0 <= i < lenZ l ->
  getZ d (setZ l i v) j = if j =? i then v else getZ d l j.
Proof.
  intros. destruct (Z.eqb_spec j i) as [->|].
  - by apply getZ_setZ_eq.
  - by apply getZ_setZ_ne.
Qed.

Lemma getZ_replicate n v i :
  0 <= i < Z.of_nat n -> getZ d (replicate n v) i = v.
Proof.
  intros. unfold getZ. destruct (Z.ltb_spec i 0); [lia|].
  rewrite lookup_replicate_2 by lia. done.
Qed.

Lemma getZ_out l i : lenZ l <= i -> getZ d l i = d.
Proof.
  unfold getZ, lenZ. intros. destruct (Z.ltb_spec i 0); [done|].
  rewrite lookup_ge_None_2 by lia. done.
Qed.

Lemma getZ_Forall (P : A -> Prop) l i :
  Forall P l -> P d -> P (getZ d l i).
Proof.
  intros Hl Hd. unfold getZ. case_match; [done|].
  destruct (l !! Z.to_nat i) eqn:E; simpl; [|done].
  by eapply Forall_lookup_1.
Qed.

Lemma setZ_Forall (P : A -> Prop) l i v :
  Forall P l -> P v -> Forall P (setZ l i v).
Proof. intros. unfold setZ. case_match; [done|]. by apply Forall_insert. Qed.

Lemma getZ_lookup l i :
  0 <= i < lenZ l -> l !! Z.to_nat i = Some (getZ d l i).
Proof.
  unfold getZ, lenZ. intros. destruct (Z.ltb_spec i 0); [lia|].
  destruct (lookup_lt_is_Some_2 l (Z.to_nat i)) as [x ->]; [lia|done].
Qed.

Lemma list_eq_getZ l1 l2 :
  lenZ l1 = lenZ l2 ->
  (forall i, 0 <= i < lenZ l1 -> getZ d l1 i = getZ d l2 i) -> l1 = l2.
Proof.
  unfold lenZ. intros Hlen Hget. apply list_eq. intros i.
  destruct (decide (i < length l1)%nat) as [Hi|Hi].
  - pose proof (getZ_lookup l1 (Z.of_nat i)) as H1.
    pose proof (getZ_lookup l2 (Z.of_nat i)) as H2.
    rewrite Nat2Z.id in H1, H2. unfold lenZ in *.
    rewrite H1, H2 by lia. f_equal. apply Hget. lia.
  - rewrite !lookup_ge_None_2 by lia. done.
Qed.
End arrays.

#[export] Hint Rewrite @lenZ_setZ @lenZ_replicate : kfs.
#[export] Hint Resolve setZ_Forall : kfs.

(** ** C [for] loops

    [for_range lo hi body s] is
    [for (i = lo; i < hi; i++) s = body(i, s)]. *)

Definition for_range {S} (lo hi : Z) (body : Z -> S -> S) (s : S) : S :=
  foldl (fun s i => body i s) s (seqZ lo (hi - lo)).

Section for_range.
Context {S : Type} (body : Z -> S -> S).

Lemma for_range_nil lo hi s : hi <= lo -> for_range lo hi body s = s.
Proof. intros. unfold for_range. rewrite seqZ_nil by lia. done. Qed.

Lemma for_range_cons lo hi s :
  lo < hi -> for_range lo hi body s = for_range (lo + 1) hi body (body lo s).
Proof.
  intros. unfold for_range. rewrite seqZ_cons by lia. simpl.
  do 2 f_equal; lia.
Qed.

Lemma for_range_snoc lo hi s :
  lo <= hi ->
  for_range lo (hi + 1) body s = body hi (for_range lo hi body s).
Proof.
  intros. unfold for_range.
  replace (hi + 1 - lo) with ((hi - lo) + 1) by lia.
  rewrite seqZ_app by lia. rewrite foldl_app.
  replace (lo + (hi - lo)) with hi by lia. done.
Qed.

(** The invariant rule: [P i s] holds before iteration [i]. *)
Lemma for_range_ind (P : Z -> S -> Prop) lo hi s :
  lo <= hi -> P lo s ->
  (forall i s, lo <= i < hi -> P i s -> P (i + 1) (body i s)) ->
  P hi (for_range lo hi body s).
Proof.
  intros Hle H0 Hstep.
  cut (forall n, 0 <= n -> lo + n <= hi -> P (lo + n) (for_range lo (lo + n) body s)).
  { intros H. specialize (H (hi - lo)). replace (lo + (hi - lo)) with hi in H by lia.
    apply H; lia. }
  intros n Hn. pattern n. apply natlike_ind; [| |done].
  - intros _. rewrite Z.add_0_r, for_range_nil by lia. done.
  - intros m Hm IH Hb. replace (lo + Z.succ m) with (lo + m + 1) by lia.
    rewrite for_range_snoc by lia. apply Hstep; [lia|]. apply IH. lia.
Qed.

(** The weaker form for an index-free invariant; no bound on the range. *)
Lemma for_range_inv (P : S -> Prop) lo hi s :
  P s -> (forall i s, lo <= i < hi -> P s -> P (body i s)) ->
  P (for_range lo hi body s).
Proof.
  intros. destruct (Z.le_gt_cases hi lo).
  - by rewrite for_range_nil.
  - apply (for_range_ind (fun _ => P)); auto with lia.
Qed.
End for_range.

Lemma for_range_ext {S} (f g : Z -> S -> S) lo hi s :
  (forall i s, lo <= i < hi -> f i s = g i s) ->
  for_range lo hi f s = for_range lo hi g s.
Proof.
  intros Hfg. destruct (Z.le_gt_cases hi lo).
  - by rewrite !for_range_nil.
  - apply (for_range_ind f (fun i s' => s' = for_range lo i g s)); [lia| |].
    + by rewrite for_range_nil.
    + intros i s' Hi ->. rewrite for_range_snoc by lia. by apply Hfg.
Qed.

(** A C [for] loop that returns from its body: the first [Some]. *)

Fixpoint list_first {A} (f : Z -> option A) (l : list Z) : option A :=
  match l with
  | [] => None
  | i :: l => match f i with Some a => Some a | None => list_first f l end
  end.

Definition first_in {A} (lo hi : Z) (f : Z -> option A) : option A :=
  list_first f (seqZ lo (hi - lo)).

Section first_in.
Context {A : Type} (f : Z -> option A).

Lemma first_in_nil lo hi : hi <= lo -> first_in lo hi f = None.
Proof. intros. unfold first_in. rewrite seqZ_nil by lia. done. Qed.

Lemma first_in_cons lo hi :
  lo < hi ->
  first_in lo hi f =
    match f lo with Some a => Some a | None => first_in (lo + 1) hi f end.
Proof.
  intros. unfold first_in. rewrite seqZ_cons by lia. simpl.
  replace (Z.pred (hi - lo)) with (hi - (lo + 1)) by lia.
  replace (Z.succ lo) with (lo + 1) by lia. done.
Qed.

Lemma first_in_None lo hi :
  first_in lo hi f = None <-> forall i, lo <= i < hi -> f i = None.
Proof.
  unfold first_in. split.
  - intros H i Hi.
    assert (i ∈ seqZ lo (hi - lo)) as Hin by (apply elem_of_seqZ; lia).
    clear Hi. induction (seqZ lo (hi - lo)) as [|j l IH]; simpl in *;
      [by apply not_elem_of_nil in Hin|].
    destruct (f j) eqn:E; [done|].
    apply elem_of_cons in Hin as [->|Hin]; [done|]. by apply IH.
  - intros H.
    assert (forall i, i ∈ seqZ lo (hi - lo) -> f i = None) as H'.
    { intros i Hi%elem_of_seqZ. apply H. lia. }
    clear H. induction (seqZ lo (hi - lo)) as [|j l IH]; simpl; [done|].
    rewrite H' by left. apply IH. intros. apply H'. by right.
Qed.

Lemma first_in_Some lo hi a :
  first_in lo hi f = Some a ->
  exists i, lo <= i < hi /\ f i = Some a /\ forall j, lo <= j < i -> f j = None.
Proof.
  destruct (Z.le_gt_cases hi lo) as [|Hlt]; [by rewrite first_in_nil|].
  assert (exists n, hi = lo + Z.of_nat n) as [n ->]
    by (exists (Z.to_nat (hi - lo)); lia).
  clear Hlt. revert lo. induction n as [|n IH]; intros lo.
  { rewrite first_in_nil by lia. done. }
  rewrite first_in_cons by lia. destruct (f lo) eqn:E.
  - intros [= ->]. exists lo. split; [lia|]. split; [done|]. lia.
  - replace (lo + Z.of_nat (Datatypes.S n)) with (lo + 1 + Z.of_nat n) by lia.
    intros (i & Hi & Hf & Hno)%IH. exists i. split; [lia|]. split; [done|].
    intros j Hj. destruct (decide (j = lo)) as [->|]; [done|]. apply Hno. lia.
Qed.
End first_in.

(** Induction on the distance of [lo] to the upper bound [hi] of a range. *)
Lemma range_ind_from (R : Z -> Prop) hi lo :
  (forall i, hi <= i -> R i) -> (forall i, i < hi -> R (i + 1) -> R i) -> R lo.
Proof.
  intros Hnil Hcons. destruct (Z.le_gt_cases hi lo) as [|H]; [by apply Hnil|].
  assert (exists n, lo = hi - Z.of_nat n) as [n ->]
    by (exists (Z.to_nat (hi - lo)); lia).
  clear H. induction n as [|n IH]; [apply Hnil; lia|].
  apply Hcons; [lia|].
  by replace (hi - Z.of_nat (S n) + 1) with (hi - Z.of_nat n) by lia.
Qed.

Ltac range_induction lo hi :=
  pattern lo; apply (range_ind_from _ hi); clear lo.

(** ** Counting *)

Definition countZ (P : Z -> bool) (lo hi : Z) : Z :=
  foldr (fun i n => (if P i then 1 else 0) + n) 0 (seqZ lo (hi - lo)).

Section countZ.
Implicit Types P Q : Z -> bool.

Lemma countZ_nil P lo hi : hi <= lo -> countZ P lo hi = 0.
Proof. intros. unfold countZ. rewrite seqZ_nil by lia. done. Qed.

Lemma countZ_cons P lo hi :
  lo < hi -> countZ P lo hi = (if P lo then 1 else 0) + countZ P (lo + 1) hi.
Proof.
  intros. unfold countZ. rewrite seqZ_cons by lia. simpl.
  replace (Z.pred (hi - lo)) with (hi - (lo + 1)) by lia.
  replace (Z.succ lo) with (lo + 1) by lia. done.
Qed.

Lemma countZ_ext P Q lo hi :
  (forall i, lo <= i < hi -> P i = Q i) -> countZ P lo hi = countZ Q lo hi.
Proof.
  range_induction lo hi.
  - intros i Hi _. by rewrite !countZ_nil.
  - intros i Hi IH H. rewrite (countZ_cons P), (countZ_cons Q), H by lia.
    f_equal. apply IH. intros. apply H. lia.
Qed.

Lemma countZ_bound P lo hi : lo <= hi -> 0 <= countZ P lo hi <= hi - lo.
Proof.
  range_induction lo hi.
  - intros i Hi ?. rewrite countZ_nil by lia. lia.
  - intros i Hi IH ?. rewrite countZ_cons by lia. specialize (IH ltac:(lia)).
    destruct (P i); lia.
Qed.

Lemma countZ_all P lo hi :
  lo <= hi -> (forall i, lo <= i < hi -> P i = true) -> countZ P lo hi = hi - lo.
Proof.
  range_induction lo hi.
  - intros i Hi ? _. rewrite countZ_nil by lia. lia.
  - intros i Hi IH ? H. rewrite countZ_cons, H by lia. rewrite IH; [lia|lia|].
    intros. apply H. lia.
Qed.

Lemma countZ_negb P lo hi :
  lo <= hi -> countZ (fun i => negb (P i)) lo hi = hi - lo - countZ P lo hi.
Proof.
  range_induction lo hi.
  - intros i Hi ?. rewrite !countZ_nil by lia. lia.
  - intros i Hi IH ?. rewrite (countZ_cons P), (countZ_cons (fun i => negb (P i))) by lia.
    rewrite IH by lia. destruct (P i); simpl; lia.
Qed.

(** Changing the predicate at one point of the range moves the count by one. *)
Lemma countZ_update P Q lo hi k :
  lo <= k < hi -> (forall i, i <> k -> P i = Q i) ->
  countZ P lo hi - countZ Q lo hi =
    (if P k then 1 else 0) - (if Q k then 1 else 0).
Proof.
  intros Hk Hne. revert Hk. range_induction lo hi.
  - intros. lia.
  - intros i Hi IH Hk. rewrite (countZ_cons P), (countZ_cons Q) by lia.
    destruct (decide (i = k)) as [->|].
    + rewrite (countZ_ext P Q (k + 1) hi) by (intros; apply Hne; lia). lia.
    + rewrite (Hne i) by done. specialize (IH ltac:(lia)). lia.
Qed.

Lemma countZ_same P Q lo hi k :
  ~ lo <= k < hi -> (forall i, i <> k -> P i = Q i) ->
  countZ P lo hi = countZ Q lo hi.
Proof. intros ? H. apply countZ_ext. intros. apply H. lia. Qed.
End countZ.

(** ** Outcomes of kernel code

    [Panicked] is a call of [panic], which halts the machine; [OutOfFuel] is
    the result of a loop whose bound was not enough (every operation is shown
    not to return it). *)

Inductive outcome (A : Type) : Type :=
| Ret (a : A)
| Panicked (msg : string)
| OutOfFuel.
Arguments Ret {A} a.
Arguments Panicked {A} msg.
Arguments OutOfFuel {A}.

#[export] Instance outcome_ret : MRet outcome := fun A a => Ret a.
#[export] Instance outcome_bind : MBind outcome := fun A B f m =>
  match m with
  | Ret a => f a
  | Panicked msg => Panicked msg
  | OutOfFuel => OutOfFuel
  end.

(** [for (i = lo; i < hi; i++)] with a body that can panic. *)
Definition for_rangeM {S} (lo hi : Z) (body : Z -> S -> outcome S) (s : S) : outcome S :=
  foldl (fun acc i => s ← acc; body i s) (Ret s) (seqZ lo (hi - lo)).

Lemma for_rangeM_ind {S} (body : Z -> S -> outcome S) (P : Z -> S -> Prop) lo hi s :
  lo <= hi -> P lo s ->
  (forall i s, lo <= i < hi -> P i s -> exists s', body i s = Ret s' /\ P (i + 1) s') ->
  exists s', for_rangeM lo hi body s = Ret s' /\ P hi s'.
Proof.
  intros Hle H0 Hstep. unfold for_rangeM.
  cut (forall n, 0 <= n -> lo + n <= hi -> exists s',
    foldl (fun acc i => s ← acc; body i s) (Ret s) (seqZ lo n) = Ret s' /\ P (lo + n) s').
  { intros H. specialize (H (hi - lo)). replace (lo + (hi - lo)) with hi in H by lia.
    apply H; lia. }
  intros n Hn. pattern n. apply natlike_ind; [| |done].
  - intros _. rewrite Z.add_0_r, seqZ_nil by lia. eauto.
  - intros m Hm IH Hb. destruct (IH ltac:(lia)) as (s1 & E & HP).
    destruct (Hstep (lo + m) s1 ltac:(lia) HP) as (s2 & E2 & HP2).
    exists s2. replace (Z.succ m) with (m + 1) by lia. rewrite seqZ_app by lia.
    rewrite foldl_app, E. cbn. split; [done|]. by rewrite Z.add_assoc.
Qed.

(** ** Booleans *)

Lemma eqb_sym_neg (x y : Z) : x <> y -> (x =? y) = false.
Proof. apply Z.eqb_neq. Qed.

Lemma bool_eq_iff (a b : bool) : (a = true <-> b = true) -> a = b.
Proof. destruct a, b; intuition congruence. Qed.

(** Case split on the boolean integer comparisons in the goal. *)
Ltac zbool :=
  repeat match goal with
  | |- context [?x <? ?y] => destruct (Z.ltb_spec x y)
  | |- context [?x <=? ?y] => destruct (Z.leb_spec x y)
  | |- context [?x =? ?y] => destruct (Z.eqb_spec x y)
  end.

Ltac zbool_in H :=
  repeat match type of H with
  | context [?x <? ?y] => destruct (Z.ltb_spec x y)
  | context [?x <=? ?y] => destruct (Z.leb_spec x y)
  | context [?x =? ?y] => destruct (Z.eqb_spec x y)
  end.

(** ** Pages (kernel/include/pmm.h) *)

Definition PAGE_SIZE : Z := 4096.
Definition PAGE_SHIFT : Z := 12.

Definition PAGE_ALIGN_DOWN (addr : Z) : Z := Z.land addr (u32 (Z.lnot (PAGE_SIZE - 1))).
Definition PAGE_ALIGN_UP (addr : Z) : Z :=
  Z.land (u32 (addr + PAGE_SIZE - 1)) (u32 (Z.lnot (PAGE_SIZE - 1))).

Definition ADDR_TO_PFN (addr : Z) : Z := Z.shiftr addr PAGE_SHIFT.
Definition PFN_TO_ADDR (pfn : Z) : Z := u32 (Z.shiftl pfn PAGE_SHIFT).

(** Masking with [~(2^k - 1)] rounds down to a multiple of [2^k]. *)
Lemma land_align_mask k x :
  0 <= k <= 32 -> is_u32 x -> Z.land x (u32 (Z.lnot (2 ^ k - 1))) = x / 2 ^ k * 2 ^ k.
Proof.
  intros Hk Hx.
  assert (u32 (Z.lnot (2 ^ k - 1)) = Z.shiftl (Z.ones (32 - k)) k) as ->.
  { rewrite Z.shiftl_mul_pow2, Z.ones_equiv by lia. unfold u32, Z.lnot.
    pose proof (Z.pow_pos_nonneg 2 k ltac:(lia) ltac:(lia)).
    pose proof (Z.pow_le_mono_r 2 k 32 ltac:(lia) ltac:(lia)).
    change (2 ^ 32) with 4294967296 in *.
    replace (Z.pred (2 ^ (32 - k)) * 2 ^ k) with (2 ^ (32 - k + k) - 2 ^ k)
      by (rewrite Z.pow_add_r by lia; lia).
    replace (32 - k + k) with 32 by lia. change (2 ^ 32) with 4294967296.
    rewrite <- (Z.mod_add _ 1) by lia. rewrite Z.mod_small by lia. lia. }
  rewrite <- Z.shiftr_div_pow2, <- Z.shiftl_mul_pow2 by lia.
  apply Z.bits_inj'. intros n Hn.
  rewrite Z.land_spec, !Z.shiftl_spec by lia.
  destruct (Z.ltb_spec n k).
  - rewrite !(Z.testbit_neg_r _ (n - k)) by lia. apply andb_false_r.
  - rewrite Z.shiftr_spec by lia. replace (n - k + k) with n by lia.
    destruct (Z.ltb_spec (n - k) (32 - k)).
    + rewrite Z.ones_spec_low by lia. apply andb_true_r.
    + rewrite Z.ones_spec_high by lia. rewrite andb_false_r. symmetry.
      rewrite <- (Z.mod_small x (2 ^ 32)) by apply Hx.
      apply Z.mod_pow2_bits_high. lia.
Qed.

Lemma land_page_mask x : is_u32 x -> Z.land x 4294963200 = x / 4096 * 4096.
Proof. apply (land_align_mask 12). lia. Qed.

Lemma PAGE_ALIGN_DOWN_eq a : is_u32 a -> PAGE_ALIGN_DOWN a = a / 4096 * 4096.
Proof. apply land_page_mask. Qed.

Lemma PAGE_ALIGN_UP_eq a :
  0 <= a -> a + 4095 < 4294967296 -> PAGE_ALIGN_UP a = (a + 4095) / 4096 * 4096.
Proof.
  intros. unfold PAGE_ALIGN_UP, PAGE_SIZE.
  replace (a + 4096 - 1) with (a + 4095) by lia.
  rewrite u32_id by (unfold is_u32; lia). apply land_page_mask. unfold is_u32. lia.
Qed.

Lemma ADDR_TO_PFN_eq a : ADDR_TO_PFN a = a / 4096.
Proof. unfold ADDR_TO_PFN. by rewrite Z.shiftr_div_pow2. Qed.

Lemma PFN_TO_ADDR_eq f : 0 <= f < 1048576 -> PFN_TO_ADDR f = f * 4096.
Proof.
  intros. unfold PFN_TO_ADDR. rewrite Z.shiftl_mul_pow2 by done.
  apply u32_id. unfold is_u32, PAGE_SHIFT. lia.
Qed.

Lemma ADDR_TO_PFN_TO_ADDR f : 0 <= f < 1048576 -> ADDR_TO_PFN (PFN_TO_ADDR f) = f.
Proof. intros. rewrite PFN_TO_ADDR_eq, ADDR_TO_PFN_eq by done. divlia. Qed.
