(* ===== verification/Interfaces.v ===== *)
(** * What one component promises to another

    [FrameAllocator] is the contract of the physical memory manager as
    kernel/src/paging.c, kernel/src/vmalloc.c and kernel/src/process.c use it;
    [BoundedFifo] is the contract of the interrupt-safe queues (keyboard
    characters, kernel signals, process signals, process sockets).  Clients are
    proved against the class, Pmm.v and Ring.v provide the instances. *)

From S2P Require Import Prelude.

(** Frames are numbered from 0 up to [fa_frames]; an allocation returns the
    physical address [4096 * frame], or 0 when there is none.  [fa_ok] is the
    allocator's invariant, which keeps frame 0 out of circulation. *)
Class FrameAllocator (S : Type) := {
  fa_alloc : S -> Z * S;
  fa_free : S -> Z -> S;
  fa_used : S -> Z -> bool;
  fa_frames : S -> Z;
  fa_ok : S -> Prop;
  fa_frames_bound s : fa_ok s -> fa_frames s <= 32768;
  fa_alloc_fail s s' : fa_ok s -> fa_alloc s = (0, s') -> s' = s;
  fa_alloc_some s a s' :
    fa_ok s -> fa_alloc s = (a, s') -> a <> 0 ->
    exists f, a = 4096 * f /\ 0 < f < fa_frames s /\ fa_used s f = false /\
      fa_ok s' /\ fa_frames s' = fa_frames s /\
      forall g, 0 <= g -> fa_used s' g = (g =? f) || fa_used s g;
  fa_free_ok s f :
    fa_ok s -> 0 < f ->
    fa_ok (fa_free s (4096 * f)) /\ fa_frames (fa_free s (4096 * f)) = fa_frames s;
  fa_free_used s f g :
    fa_ok s -> 0 < f < fa_frames s -> 0 <= g ->
    fa_used (fa_free s (4096 * f)) g = negb (g =? f) && fa_used s g;
}.

(** A queue of capacity [fifo_cap] seen as the list of its elements, oldest
    first.  [fifo_push] is [None] exactly when the queue is full. *)
Class BoundedFifo (Q A : Type) := {
  fifo_cap : nat;
  fifo_ok : Q -> Prop;
  fifo_items : Q -> list A;
  fifo_push : A -> Q -> option Q;
  fifo_pop : Q -> option (A * Q);
  fifo_bounded q : fifo_ok q -> (length (fifo_items q) <= fifo_cap)%nat;
  fifo_push_full x q :
    fifo_ok q -> fifo_push x q = None <-> length (fifo_items q) = fifo_cap;
  fifo_push_ok x q q' :
    fifo_ok q -> fifo_push x q = Some q' ->
    fifo_ok q' /\ fifo_items q' = fifo_items q ++ [x];
  fifo_pop_empty q : fifo_ok q -> fifo_pop q = None <-> fifo_items q = [];
  fifo_pop_ok x q q' :
    fifo_ok q -> fifo_pop q = Some (x, q') ->
    fifo_ok q' /\ fifo_items q = x :: fifo_items q';
}.

(** Instances stay folded under [simpl]. *)
Arguments fa_alloc : simpl never.
Arguments fa_free : simpl never.
Arguments fa_used : simpl never.
Arguments fa_frames : simpl never.
Arguments fifo_ok : simpl never.
Arguments fifo_items : simpl never.
Arguments fifo_push : simpl never.
Arguments fifo_pop : simpl never.
