(* ===== verification/Memory.v ===== *)
(** * Byte-addressed memory

    The i386 memory the kernel reads and writes through pointers: a finite map
    from addresses to bytes (an address never written reads 0), with the
    little-endian 32-bit accesses of the code's [uint32_t], [size_t] and
    pointer fields, and the byte loops [memset] and [memcpy] that
    kernel/src/paging.c, kernel/src/kmalloc.c, kernel/src/vmalloc.c and
    kernel/src/process.c each define for themselves.  The objects the kernel
    accesses do not straddle the end of the address space, so field offsets are
    added without wrap-around; pointer arithmetic that the source computes
    wraps where it is computed. *)

From S2P Require Import Prelude.

Definition mem := gmap Z Z.

Definition load8 (m : mem) (a : Z) : Z := u8 (default 0 ((m : gmap Z Z) !! a)).
Definition store8 (m : mem) (a v : Z) : mem := <[a := u8 v]> (m : gmap Z Z).

Definition load32 (m : mem) (a : Z) : Z :=
  load8 m a + 256 * load8 m (a + 1) + 65536 * load8 m (a + 2)
    + 16777216 * load8 m (a + 3).

Definition store32 (m : mem) (a v : Z) : mem :=
  store8 (store8 (store8 (store8 m a v) (a + 1) (v / 256))
    (a + 2) (v / 65536)) (a + 3) (v / 16777216).

(** [while (size--) *p++ = (uint8_t)value;] *)
Definition memset (m : mem) (ptr value size : Z) : mem :=
  for_range 0 size (fun i m => store8 m (ptr + i) value) m.

(** [while (size-- > 0) *destination++ = *source++;] *)
Definition memcpy (m : mem) (dest src size : Z) : mem :=
  for_range 0 size (fun i m => store8 m (dest + i) (load8 m (src + i))) m.

(** Two memories agree on the bytes of [[lo, hi)]. *)
Definition agree (m m' : mem) (lo hi : Z) : Prop :=
  forall a, lo <= a < hi -> load8 m' a = load8 m a.

Lemma load8_range m a : is_u8 (load8 m a).
Proof. apply u8_range. Qed.

Lemma load32_range m a : is_u32 (load32 m a).
Proof.
  unfold load32, is_u32.
  pose proof (load8_range m a). pose proof (load8_range m (a + 1)).
  pose proof (load8_range m (a + 2)). pose proof (load8_range m (a + 3)).
  unfold is_u8 in *. lia.
Qed.

#[export] Hint Resolve load8_range load32_range : kfs.

Lemma load8_store8 m a v b :
  load8 (store8 m a v) b = if b =? a then u8 v else load8 m b.
Proof.
  unfold load8, store8. destruct (Z.eqb_spec b a) as [->|].
  - rewrite lookup_insert_eq. simpl. by rewrite u8_id by apply u8_range.
  - by rewrite lookup_insert_ne by done.
Qed.

Lemma load8_store8_eq m a v : load8 (store8 m a v) a = u8 v.
Proof. by rewrite load8_store8, Z.eqb_refl. Qed.

Lemma load8_store8_ne m a v b : b <> a -> load8 (store8 m a v) b = load8 m b.
Proof. intros. rewrite load8_store8. by rewrite eqb_sym_neg. Qed.

Lemma load8_store32_ne m a v b :
  b < a \/ a + 4 <= b -> load8 (store32 m a v) b = load8 m b.
Proof. intros. unfold store32. rewrite !load8_store8_ne by lia. done. Qed.

Lemma bytes_u32 v :
  u8 v + 256 * u8 (v / 256) + 65536 * u8 (v / 65536) + 16777216 * u8 (v / 16777216)
  = u32 v.
Proof.
  unfold u8, u32.
  change 65536 with (256 * 256). change 16777216 with (256 * 256 * 256).
  rewrite <- !Z.div_div by lia.
  pose proof (Z.div_mod v 256 ltac:(lia)).
  pose proof (Z.div_mod (v / 256) 256 ltac:(lia)).
  pose proof (Z.div_mod (v / 256 / 256) 256 ltac:(lia)).
  divlia.
Qed.

Lemma load32_store32_eq m a v : load32 (store32 m a v) a = u32 v.
Proof.
  rewrite <- bytes_u32. unfold load32, store32. rewrite !load8_store8.
  zbool; lia.
Qed.

Lemma load32_store32_ne m a v b :
  b + 4 <= a \/ a + 4 <= b -> load32 (store32 m a v) b = load32 m b.
Proof. intros. unfold load32. rewrite !load8_store32_ne by lia. done. Qed.

Lemma load32_store8_ne m a v b :
  b + 4 <= a \/ a + 1 <= b -> load32 (store8 m a v) b = load32 m b.
Proof. intros. unfold load32. rewrite !load8_store8_ne by lia. done. Qed.

Lemma load32_agree m m' lo hi a :
  agree m m' lo hi -> lo <= a -> a + 4 <= hi -> load32 m' a = load32 m a.
Proof. intros H ??. unfold load32. rewrite !H by lia. done. Qed.

Lemma agree_refl m lo hi : agree m m lo hi.
Proof. by intros a Ha. Qed.

Lemma agree_trans m1 m2 m3 lo hi :
  agree m1 m2 lo hi -> agree m2 m3 lo hi -> agree m1 m3 lo hi.
Proof. intros H1 H2 a Ha. rewrite H2, H1 by done. done. Qed.

Lemma agree_weaken m m' lo hi lo' hi' :
  agree m m' lo hi -> lo <= lo' -> hi' <= hi -> agree m m' lo' hi'.
Proof. intros H ?? a Ha. apply H. lia. Qed.

Lemma agree_store32 m a v lo hi :
  hi <= a \/ a + 4 <= lo -> agree m (store32 m a v) lo hi.
Proof. intros H b Hb. apply load8_store32_ne. lia. Qed.

Lemma agree_store8 m a v lo hi :
  hi <= a \/ a + 1 <= lo -> agree m (store8 m a v) lo hi.
Proof. intros H b Hb. apply load8_store8_ne. lia. Qed.

#[export] Hint Resolve agree_refl : kfs.

(** ** The byte loops *)

Lemma load8_memset m p v n b :
  0 <= n ->
  load8 (memset m p v n) b =
    if (p <=? b) && (b <? p + n) then u8 v else load8 m b.
Proof.
  intros Hn. unfold memset.
  apply (for_range_ind _ (fun i m' =>
    load8 m' b = if (p <=? b) && (b <? p + i) then u8 v else load8 m b)); [done| |].
  - zbool; simpl; try lia; done.
  - intros i m' Hi IH. rewrite load8_store8, IH. zbool; simpl; try lia; done.
Qed.

Lemma load8_memset_out m p v n b :
  0 <= n -> b < p \/ p + n <= b -> load8 (memset m p v n) b = load8 m b.
Proof. intros. rewrite load8_memset by lia. zbool; simpl; try lia; done. Qed.

Lemma agree_memset m p v n lo hi :
  0 <= n -> hi <= p \/ p + n <= lo -> agree m (memset m p v n) lo hi.
Proof. intros ?? b ?. apply load8_memset_out; lia. Qed.

Lemma load32_memset_zero m p n b :
  p <= b -> b + 4 <= p + n -> load32 (memset m p 0 n) b = 0.
Proof.
  intros. unfold load32. rewrite !load8_memset by lia.
  zbool; simpl; try lia; done.
Qed.

Lemma load32_memset_out m p v n b :
  0 <= n -> b + 4 <= p \/ p + n <= b -> load32 (memset m p v n) b = load32 m b.
Proof. intros. unfold load32. rewrite !load8_memset_out by lia. done. Qed.

Lemma load8_memcpy m d s n b :
  0 <= n -> d + n <= s \/ s + n <= d ->
  load8 (memcpy m d s n) b =
    if (d <=? b) && (b <? d + n) then load8 m (s + (b - d)) else load8 m b.
Proof.
  intros Hn Hdis. unfold memcpy.
  apply (for_range_ind _ (fun i m' => forall b,
    load8 m' b = if (d <=? b) && (b <? d + i) then load8 m (s + (b - d))
                 else load8 m b)); [done| |].
  - intros c. zbool; simpl; try lia; done.
  - intros i m' Hi IH c. rewrite load8_store8, !IH.
    pose proof (load8_range m (s + i)).
    zbool; simpl; try lia; subst; rewrite ?u8_id by done;
      try (f_equal; lia); done.
Qed.
