(* ===== verification/Pmm.v ===== *)
(** * The physical memory manager: kernel/src/pmm.c

    One bit per page frame ([frame_bitmap], 1 = used) with the counters
    [total_memory], [total_frames] and [used_frames].  The file holds the
    bitmap helpers, the single-frame and contiguous allocators, the region
    marking used at boot, [pmm_init] over the multiboot memory map read from
    memory, and the statistics. *)

From S2P Require Import Prelude Interfaces Memory.

Definition MAX_MEMORY : Z := 128 * 1024 * 1024.
Definition MAX_FRAMES : Z := MAX_MEMORY / PAGE_SIZE.
Definition BITMAP_SIZE : Z := MAX_FRAMES / 8.

(** ** The bitmap *)

Definition bitmap_set (frame_bitmap : list Z) (frame : Z) : list Z :=
  setZ frame_bitmap (frame / 8)
    (u8 (Z.lor (getZ 0 frame_bitmap (frame / 8)) (Z.shiftl 1 (frame mod 8)))).

Definition bitmap_clear (frame_bitmap : list Z) (frame : Z) : list Z :=
  setZ frame_bitmap (frame / 8)
    (u8 (Z.land (getZ 0 frame_bitmap (frame / 8)) (Z.lnot (Z.shiftl 1 (frame mod 8))))).

Definition bitmap_test (frame_bitmap : list Z) (frame : Z) : bool :=
  negb (Z.land (getZ 0 frame_bitmap (frame / 8)) (Z.shiftl 1 (frame mod 8)) =? 0).

(** ** State *)

Record pmm := Pmm {
  frame_bitmap : list Z;
  total_memory : Z;
  total_frames : Z;
  used_frames : Z;
}.

Definition is_used (p : pmm) (frame : Z) : bool := bitmap_test (frame_bitmap p) frame.

(** [bitmap_find_free]: the outer loop scans [total_frames / 8] bytes. *)
Definition bitmap_find_free (p : pmm) : Z :=
  default (-1)
    (first_in 0 (total_frames p / 8) (fun i =>
       if negb (getZ 0 (frame_bitmap p) i =? 255) then
         first_in 0 8 (fun j =>
           let frame := i * 8 + j in
           if (frame <? total_frames p) && negb (bitmap_test (frame_bitmap p) frame)
           then Some frame else None)
       else None)).

(** The loop of [bitmap_find_free_region], [n] iterations from [frame]. *)
Fixpoint find_free_region_loop (p : pmm) (count : Z) (n : nat)
    (frame consecutive start_frame : Z) : Z :=
  match n with
  | O => -1
  | S n =>
      if negb (bitmap_test (frame_bitmap p) frame) then
        let start_frame := if consecutive =? 0 then frame else start_frame in
        let consecutive := consecutive + 1 in
        if count <=? consecutive then start_frame
        else find_free_region_loop p count n (frame + 1) consecutive start_frame
      else find_free_region_loop p count n (frame + 1) 0 start_frame
  end.

Definition bitmap_find_free_region (p : pmm) (count : Z) : Z :=
  find_free_region_loop p count (Z.to_nat (total_frames p)) 0 0 0.

(** ** Single frames *)

Definition set_used (p : pmm) (frame : Z) : pmm :=
  Pmm (bitmap_set (frame_bitmap p) frame) (total_memory p) (total_frames p)
    (u32 (used_frames p + 1)).

Definition set_free (p : pmm) (frame : Z) : pmm :=
  Pmm (bitmap_clear (frame_bitmap p) frame) (total_memory p) (total_frames p)
    (u32 (used_frames p - 1)).

Definition pmm_alloc_frame (p : pmm) : Z * pmm :=
  let frame := bitmap_find_free p in
  if frame <? 0 then (0, p)
  else (PFN_TO_ADDR frame, set_used p frame).

Definition pmm_free_frame (p : pmm) (addr : Z) : pmm :=
  let frame := ADDR_TO_PFN addr in
  if total_frames p <=? frame then p
  else if is_used p frame then set_free p frame else p.

Definition pmm_is_frame_allocated (p : pmm) (addr : Z) : bool :=
  let frame := ADDR_TO_PFN addr in
  if total_frames p <=? frame then true else is_used p frame.

Definition pmm_mark_frame_used (p : pmm) (addr : Z) : pmm :=
  let frame := ADDR_TO_PFN addr in
  if (frame <? total_frames p) && negb (is_used p frame) then set_used p frame else p.

(** ** Contiguous frames *)

Definition pmm_alloc_frames (p : pmm) (count : Z) : Z * pmm :=
  if count =? 0 then (0, p) else
  let start := bitmap_find_free_region p count in
  if start <? 0 then (0, p) else
  let bm := for_range 0 count (fun i bm => bitmap_set bm (start + i)) (frame_bitmap p) in
  (PFN_TO_ADDR start,
   Pmm bm (total_memory p) (total_frames p) (u32 (used_frames p + count))).

Definition pmm_free_frames (p : pmm) (addr count : Z) : pmm :=
  let frame := ADDR_TO_PFN addr in
  for_range 0 count (fun i p =>
    let f := u32 (frame + i) in
    if (f <? total_frames p) && is_used p f then set_free p f else p) p.

(** ** Regions: [frame < end_frame && frame < total_frames] bounds the loop *)

Definition pmm_mark_region_used (p : pmm) (base length : Z) : pmm :=
  let start_frame := ADDR_TO_PFN base in
  let end_frame := ADDR_TO_PFN (PAGE_ALIGN_UP (u32 (base + length))) in
  for_range start_frame (Z.min end_frame (total_frames p)) (fun frame p =>
    if negb (is_used p frame) then set_used p frame else p) p.

Definition pmm_mark_region_free (p : pmm) (base length : Z) : pmm :=
  let start_frame := ADDR_TO_PFN (PAGE_ALIGN_UP base) in
  let end_frame := ADDR_TO_PFN (u32 (base + length)) in
  for_range start_frame (Z.min end_frame (total_frames p)) (fun frame p =>
    if is_used p frame then set_free p frame else p) p.

(** ** Boot: the multiboot information (kernel/include/multiboot.h)

    Only the fields [pmm_init] reads. *)

Definition MULTIBOOT_INFO_MEMORY : Z := 1.
Definition MULTIBOOT_INFO_MEM_MAP : Z := 64.
Definition MULTIBOOT_MEMORY_AVAILABLE : Z := 1.

Record multiboot_info := {
  mb_flags : Z;
  mem_upper : Z;
  mmap_length : Z;
  mmap_addr : Z;
}.

Record mmap_entry := {
  entry_size : Z;
  addr_low : Z;
  addr_high : Z;
  len_low : Z;
  len_high : Z;
  entry_type : Z;
}.

(** The packed [multiboot_mmap_entry_t] at address [a]. *)
Definition read_mmap_entry (m : mem) (a : Z) : mmap_entry := {|
  entry_size := load32 m a;
  addr_low := load32 m (a + 4);
  addr_high := load32 m (a + 8);
  len_low := load32 m (a + 12);
  len_high := load32 m (a + 16);
  entry_type := load32 m (a + 20);
|}.

Definition MMAP_ENTRY_NEXT (m : mem) (a : Z) : Z :=
  u32 (a + u32 (load32 m a + 4)).

Definition process_mmap_entry (e : mmap_entry) (p : pmm) : pmm :=
  if entry_type e =? MULTIBOOT_MEMORY_AVAILABLE
  then pmm_mark_region_free p (addr_low e) (len_low e) else p.

(** [while (mmap < mmap_end)]; the fuel bounds the number of entries. *)
Fixpoint mmap_loop (fuel : nat) (m : mem) (mmap mmap_end : Z) (p : pmm) : outcome pmm :=
  match fuel with
  | O => OutOfFuel
  | S fuel =>
      if mmap <? mmap_end then
        mmap_loop fuel m (MMAP_ENTRY_NEXT m mmap) mmap_end
          (process_mmap_entry (read_mmap_entry m mmap) p)
      else Ret p
  end.

Section init.
(** Linker symbols [kernel_start], [kernel_end]. *)
Context (kernel_start kernel_end : Z).

Definition detect_memory (mbi : multiboot_info) : Z :=
  if negb (Z.land (mb_flags mbi) MULTIBOOT_INFO_MEMORY =? 0) then
    let total := u32 (u32 (mem_upper mbi + 1024) * 1024) in
    if MAX_MEMORY <? total then MAX_MEMORY else total
  else 16 * 1024 * 1024.

Definition pmm_boot_state (mbi : multiboot_info) : pmm :=
  let total := detect_memory mbi in
  Pmm (replicate (Z.to_nat BITMAP_SIZE) 255) total (total / PAGE_SIZE)
    (total / PAGE_SIZE).

Definition pmm_init (fuel : nat) (m : mem) (mbi : multiboot_info) : outcome pmm :=
  let p := pmm_boot_state mbi in
  p ← (if negb (Z.land (mb_flags mbi) MULTIBOOT_INFO_MEM_MAP =? 0) then
         mmap_loop fuel m (mmap_addr mbi) (u32 (mmap_addr mbi + mmap_length mbi)) p
       else Ret (pmm_mark_region_free p 1048576 (u32 (total_memory p - 1048576))));
  let p := pmm_mark_region_used p 0 1048576 in
  let kernel_size := u32 (kernel_end - kernel_start) in
  let p := pmm_mark_region_used p kernel_start kernel_size in
  Ret (pmm_mark_region_used p kernel_end (64 * 1024)).
End init.

(** ** Statistics *)

Record pmm_stats := {
  st_total_frames : Z;
  st_used_frames : Z;
  st_free_frames : Z;
  st_total_memory : Z;
  st_free_memory : Z;
}.

Definition pmm_get_stats (p : pmm) : pmm_stats := {|
  st_total_frames := total_frames p;
  st_used_frames := used_frames p;
  st_free_frames := u32 (total_frames p - used_frames p);
  st_total_memory := total_memory p;
  st_free_memory := u32 (u32 (total_frames p - used_frames p) * PAGE_SIZE);
|}.

Definition pmm_get_total_memory (p : pmm) : Z := total_memory p.

Definition pmm_get_free_memory (p : pmm) : Z :=
  u32 (u32 (total_frames p - used_frames p) * PAGE_SIZE).

(** ** Lemmas: single bits *)

Lemma land_bit_test x k :
  0 <= k -> negb (Z.land x (Z.shiftl 1 k) =? 0) = Z.testbit x k.
Proof.
  intros Hk. apply bool_eq_iff. rewrite negb_true_iff, Z.eqb_neq. split.
  - intros Hne. destruct (Z.testbit x k) eqn:E; [done|]. exfalso. apply Hne.
    apply Z.bits_inj'. intros n Hn. rewrite Z.land_spec, Z.bits_0, Z.shiftl_spec by lia.
    destruct (decide (n = k)) as [->|]; [by rewrite E|].
    destruct (Z.ltb_spec n k); [by rewrite (Z.testbit_neg_r 1) by lia; apply andb_false_r|].
    rewrite Z.bits_above_log2 with (a := 1) by (simpl; lia). apply andb_false_r.
  - intros Ht H0. assert (Z.testbit (Z.land x (Z.shiftl 1 k)) k = true) as H.
    { rewrite Z.land_spec, Ht, Z.shiftl_spec, Z.sub_diag by lia. done. }
    by rewrite H0, Z.bits_0 in H.
Qed.

Lemma testbit_shiftl1 k n : 0 <= k -> 0 <= n -> Z.testbit (Z.shiftl 1 k) n = (n =? k).
Proof.
  intros. rewrite Z.shiftl_spec by lia. zbool; subst.
  - by rewrite Z.sub_diag.
  - destruct (Z.ltb_spec n k); [by rewrite Z.testbit_neg_r by lia|].
    rewrite Z.bits_above_log2; simpl; lia || done.
Qed.

Lemma testbit_u8 x k : 0 <= k < 8 -> Z.testbit (u8 x) k = Z.testbit x k.
Proof. intros. unfold u8. change 256 with (2 ^ 8). apply Z.mod_pow2_bits_low. lia. Qed.

Lemma bitmap_test_eq bm f :
  0 <= f -> bitmap_test bm f = Z.testbit (getZ 0 bm (f / 8)) (f mod 8).
Proof. intros. apply land_bit_test. divlia. Qed.

Lemma frame_eq_split f g :
  0 <= f -> 0 <= g -> (g =? f) = (g / 8 =? f / 8) && (g mod 8 =? f mod 8).
Proof. intros. apply bool_eq_iff. rewrite andb_true_iff, !Z.eqb_eq. divlia. Qed.

Lemma bitmap_test_set bm f g :
  0 <= f < 8 * lenZ bm -> 0 <= g ->
  bitmap_test (bitmap_set bm f) g = (g =? f) || bitmap_test bm g.
Proof.
  intros Hf Hg. rewrite frame_eq_split by lia. rewrite !bitmap_test_eq by lia.
  assert (0 <= f / 8 < lenZ bm /\ 0 <= f mod 8 < 8 /\ 0 <= g mod 8 < 8) by divlia.
  unfold bitmap_set. rewrite getZ_setZ by lia.
  destruct (Z.eqb_spec (g / 8) (f / 8)) as [->|]; simpl; [|done].
  rewrite testbit_u8, Z.lor_spec, testbit_shiftl1 by lia. apply orb_comm.
Qed.

Lemma bitmap_test_clear bm f g :
  0 <= f < 8 * lenZ bm -> 0 <= g ->
  bitmap_test (bitmap_clear bm f) g = negb (g =? f) && bitmap_test bm g.
Proof.
  intros Hf Hg. rewrite frame_eq_split by lia. rewrite !bitmap_test_eq by lia.
  assert (0 <= f / 8 < lenZ bm /\ 0 <= f mod 8 < 8 /\ 0 <= g mod 8 < 8) by divlia.
  unfold bitmap_clear. rewrite getZ_setZ by lia.
  destruct (Z.eqb_spec (g / 8) (f / 8)) as [->|]; simpl; [|done].
  rewrite testbit_u8, Z.land_spec, Z.lnot_spec, testbit_shiftl1 by lia. apply andb_comm.
Qed.

Lemma lenZ_bitmap_set bm f : lenZ (bitmap_set bm f) = lenZ bm.
Proof. apply lenZ_setZ. Qed.

Lemma lenZ_bitmap_clear bm f : lenZ (bitmap_clear bm f) = lenZ bm.
Proof. apply lenZ_setZ. Qed.

(** ** The invariant

    The bitmap has its static size, the frame count fits it and [used_frames]
    counts the set bits below [total_frames]. *)

Record pmm_wf (p : pmm) : Prop := {
  wf_len : lenZ (frame_bitmap p) = BITMAP_SIZE;
  wf_total : 0 <= total_frames p <= MAX_FRAMES;
  wf_used : used_frames p = countZ (is_used p) 0 (total_frames p);
}.

Lemma BITMAP_SIZE_eq : BITMAP_SIZE = 4096. Proof. done. Qed.
Lemma MAX_FRAMES_eq : MAX_FRAMES = 32768. Proof. done. Qed.

(** Usable in-range facts of a well-formed state. *)
Lemma pmm_wf_bounds p :
  pmm_wf p ->
  8 * lenZ (frame_bitmap p) = 32768 /\ 0 <= total_frames p <= 32768 /\
  0 <= used_frames p <= total_frames p.
Proof.
  intros [Hl Ht Hu]. rewrite Hl, BITMAP_SIZE_eq. rewrite MAX_FRAMES_eq in Ht.
  pose proof (countZ_bound (is_used p) 0 (total_frames p)). lia.
Qed.

(** The effect of one frame changing state, shared by every operation. *)
Lemma set_used_spec p f :
  pmm_wf p -> 0 <= f < total_frames p -> is_used p f = false ->
  pmm_wf (set_used p f) /\ total_frames (set_used p f) = total_frames p /\
  used_frames (set_used p f) = used_frames p + 1 /\
  forall g, 0 <= g -> is_used (set_used p f) g = (g =? f) || is_used p g.
Proof.
  intros Hwf Hf Hfree. pose proof (pmm_wf_bounds p Hwf) as (Hl & Ht & Hu).
  assert (forall g, 0 <= g ->
    is_used (set_used p f) g = (g =? f) || is_used p g) as Htest
    by (intros; apply bitmap_test_set; lia).
  assert (used_frames (set_used p f) = used_frames p + 1) as Hused.
  { simpl. apply u32_id. unfold is_u32. lia. }
  split; [|done]. split.
  - simpl. rewrite lenZ_bitmap_set. apply Hwf.
  - apply Hwf.
  - rewrite Hused, (wf_used p Hwf). simpl total_frames.
    pose proof (countZ_update (fun g => (g =? f) || is_used p g) (is_used p) 0
      (total_frames p) f Hf) as Hc.
    rewrite (countZ_ext (is_used (set_used p f)) (fun g => (g =? f) || is_used p g)).
    + cbn beta in Hc. rewrite Z.eqb_refl, Hfree in Hc. simpl in Hc.
      assert (forall i, i <> f -> (i =? f) || is_used p i = is_used p i) as Hne
        by (intros; rewrite eqb_sym_neg by done; done).
      specialize (Hc Hne). lia.
    + intros. apply Htest. lia.
Qed.

Lemma set_free_spec p f :
  pmm_wf p -> 0 <= f < total_frames p -> is_used p f = true ->
  pmm_wf (set_free p f) /\ total_frames (set_free p f) = total_frames p /\
  used_frames (set_free p f) = used_frames p - 1 /\
  forall g, 0 <= g -> is_used (set_free p f) g = negb (g =? f) && is_used p g.
Proof.
  intros Hwf Hf Hset. pose proof (pmm_wf_bounds p Hwf) as (Hl & Ht & Hu).
  assert (forall g, 0 <= g ->
    is_used (set_free p f) g = negb (g =? f) && is_used p g) as Htest
    by (intros; apply bitmap_test_clear; lia).
  pose proof (countZ_update (fun g => negb (g =? f) && is_used p g) (is_used p) 0
    (total_frames p) f Hf) as Hc.
  cbn beta in Hc. rewrite Z.eqb_refl, Hset in Hc. simpl in Hc.
  assert (forall i, i <> f -> negb (i =? f) && is_used p i = is_used p i) as Hne
    by (intros; rewrite eqb_sym_neg by done; done).
  specialize (Hc Hne). rewrite <- (wf_used p Hwf) in Hc.
  pose proof (countZ_bound (fun g => negb (g =? f) && is_used p g) 0 (total_frames p)).
  assert (used_frames (set_free p f) = used_frames p - 1) as Hused.
  { simpl. apply u32_id. unfold is_u32. lia. }
  split; [|done]. split.
  - simpl. rewrite lenZ_bitmap_clear. apply Hwf.
  - apply Hwf.
  - rewrite Hused. simpl total_frames.
    rewrite (countZ_ext (is_used (set_free p f)) (fun g => negb (g =? f) && is_used p g));
      [lia|]. intros. apply Htest. lia.
Qed.

(** ** Lemmas: the searches *)

(** Frames [bitmap_find_free] can return: the outer loop stops after
    [total_frames / 8] whole bytes. *)
Definition scan_limit (p : pmm) : Z := 8 * (total_frames p / 8).

Lemma find_free_some p f :
  bitmap_find_free p = f -> 0 <= f ->
  0 <= f < scan_limit p /\ f < total_frames p /\ is_used p f = false /\
  forall g, 0 <= g < f -> is_used p g = true.
Proof.
  unfold bitmap_find_free, scan_limit, is_used. intros Hf Hge.
  destruct (first_in 0 _ _) as [f'|] eqn:E; simpl in Hf; [subst f'|lia].
  apply first_in_Some in E as (i & Hi & Hbyte & Hbefore).
  destruct (negb (getZ 0 (frame_bitmap p) i =? 255)); [|done].
  apply first_in_Some in Hbyte as (j & Hj & Hsome & Hbj). simpl in Hsome.
  destruct (Z.ltb_spec (i * 8 + j) (total_frames p)); simpl in Hsome; [|done].
  destruct (bitmap_test (frame_bitmap p) (i * 8 + j)) eqn:Et; simpl in Hsome; [done|].
  injection Hsome as <-. split; [lia|]. split; [done|]. split; [done|].
  intros g Hg. assert (exists i' j', g = i' * 8 + j' /\ 0 <= i' /\ 0 <= j' < 8) as
    (i' & j' & -> & Hi' & Hj') by (exists (g / 8), (g mod 8); divlia).
  destruct (decide (i' = i)) as [->|].
  - specialize (Hbj j' ltac:(lia)). simpl in Hbj.
    destruct (Z.ltb_spec (i * 8 + j') (total_frames p)); [|lia]. simpl in Hbj.
    by destruct (bitmap_test _ (i * 8 + j')).
  - specialize (Hbefore i' ltac:(lia)).
    rewrite bitmap_test_eq by lia.
    replace ((i' * 8 + j') / 8) with i' by divlia.
    replace ((i' * 8 + j') mod 8) with j' by divlia.
    destruct (Z.eqb_spec (getZ 0 (frame_bitmap p) i') 255) as [->|]; simpl in Hbefore.
    + change 255 with (Z.ones 8). apply Z.ones_spec_low. lia.
    + rewrite first_in_None in Hbefore. specialize (Hbefore j' ltac:(lia)). simpl in Hbefore.
      destruct (Z.ltb_spec (i' * 8 + j') (total_frames p)); [|lia]. simpl in Hbefore.
      rewrite bitmap_test_eq in Hbefore by lia.
      replace ((i' * 8 + j') / 8) with i' in Hbefore by divlia.
      replace ((i' * 8 + j') mod 8) with j' in Hbefore by divlia.
      by destruct (Z.testbit _ j').
Qed.

Lemma find_free_none p :
  0 <= total_frames p -> bitmap_find_free p < 0 ->
  forall g, 0 <= g < scan_limit p -> is_used p g = true.
Proof.
  unfold bitmap_find_free, scan_limit, is_used. intros Ht Hneg g Hg.
  destruct (first_in 0 _ _) as [f'|] eqn:E; simpl in Hneg.
  - apply first_in_Some in E as (i & Hi & Hbyte & _).
    destruct (negb _); [|done]. apply first_in_Some in Hbyte as (j & Hj & Hs & _).
    simpl in Hs. destruct (_ && _); [|done]. injection Hs as <-. lia.
  - rewrite first_in_None in E. specialize (E (g / 8) ltac:(divlia)).
    rewrite bitmap_test_eq by lia.
    destruct (Z.eqb_spec (getZ 0 (frame_bitmap p) (g / 8)) 255) as [->|]; simpl in E.
    + change 255 with (Z.ones 8). apply Z.ones_spec_low. divlia.
    + rewrite first_in_None in E. specialize (E (g mod 8) ltac:(divlia)). simpl in E.
      replace (g / 8 * 8 + g mod 8) with g in E by divlia.
      destruct (Z.ltb_spec g (total_frames p)); [|divlia]. simpl in E.
      rewrite bitmap_test_eq in E by lia. by destruct (Z.testbit _ _).
Qed.

(** A window of [count] frames from [s] that holds a used frame. *)
Definition blocked (p : pmm) (count s : Z) : Prop :=
  exists f, s <= f < s + count /\ is_used p f = true.

Lemma find_free_region_loop_spec p count n frame c start :
  0 < count -> 0 <= c < count -> 0 <= frame - c ->
  frame + Z.of_nat n = total_frames p ->
  (0 < c -> start = frame - c) ->
  (forall f, frame - c <= f < frame -> is_used p f = false) ->
  (forall s, 0 <= s < frame - c -> blocked p count s) ->
  let r := find_free_region_loop p count n frame c start in
  (r = -1 /\ forall s, 0 <= s -> s + count <= total_frames p -> blocked p count s) \/
  (0 <= r /\ r + count <= total_frames p /\
   (forall f, r <= f < r + count -> is_used p f = false) /\
   forall s, 0 <= s < r -> blocked p count s).
Proof.
  intros Hcount. revert frame c start.
  induction n as [|n IH]; intros frame c start Hc Hfr Htot Hst Hfree Hblk; simpl.
  { left. split; [done|]. intros s ??. apply Hblk. lia. }
  fold (is_used p frame). destruct (is_used p frame) eqn:E; simpl.
  - apply IH; try lia.
    intros s Hs. destruct (Z.lt_ge_cases s (frame - c)); [by apply Hblk; lia|].
    exists frame. split; [lia|done].
  - assert (forall f, frame + 1 - (c + 1) <= f < frame + 1 -> is_used p f = false) as Hfree'.
    { intros f Hf. destruct (decide (f = frame)) as [->|]; [done|]. apply Hfree. lia. }
    assert ((if c =? 0 then frame else start) = frame - c) as Hst'.
    { destruct (Z.eqb_spec c 0); [lia|]. apply Hst. lia. }
    rewrite Hst'. destruct (Z.leb_spec count (c + 1)).
    + right. split; [lia|]. split; [lia|]. split.
      * intros f Hf. apply Hfree'. lia.
      * intros s Hs. apply Hblk. lia.
    + apply IH; try lia.
      * intros f Hf. apply Hfree'. lia.
      * intros s Hs. apply Hblk. lia.
Qed.

Lemma find_free_region_spec p count :
  0 <= total_frames p -> 0 < count ->
  let r := bitmap_find_free_region p count in
  (r = -1 /\ forall s, 0 <= s -> s + count <= total_frames p -> blocked p count s) \/
  (0 <= r /\ r + count <= total_frames p /\
   (forall f, r <= f < r + count -> is_used p f = false) /\
   forall s, 0 <= s < r -> blocked p count s).
Proof.
  intros. unfold bitmap_find_free_region.
  apply find_free_region_loop_spec; try lia.
Qed.

(** ** Lemmas: ranges of frames *)

(** [p'] is [p] with the frames satisfying [R] used (resp. free). *)
Definition marks (p p' : pmm) (R : Z -> bool) (v : bool) : Prop :=
  pmm_wf p' /\ total_frames p' = total_frames p /\ total_memory p' = total_memory p /\
  forall g, 0 <= g -> is_used p' g = if R g then v else is_used p g.

Lemma marks_refl p v : pmm_wf p -> marks p p (fun _ => false) v.
Proof. done. Qed.

Lemma marks_ext p p' R R' v :
  (forall g, 0 <= g -> R g = R' g) -> marks p p' R v -> marks p p' R' v.
Proof.
  intros HR (? & ? & ? & H). repeat (split; [done|]). intros. rewrite <- HR; auto.
Qed.

Definition in_range (lo hi g : Z) : bool := (lo <=? g) && (g <? hi).

Lemma mark_used_step p f :
  pmm_wf p -> 0 <= f < total_frames p ->
  marks p (if negb (is_used p f) then set_used p f else p) (fun g => g =? f) true.
Proof.
  intros Hwf Hf. destruct (is_used p f) eqn:E; simpl.
  - repeat (split; [done|]). intros g Hg. by destruct (Z.eqb_spec g f) as [->|].
  - destruct (set_used_spec p f Hwf Hf E) as (? & ? & _ & H).
    repeat (split; [done|]). intros g Hg. rewrite H by done. by destruct (g =? f).
Qed.

Lemma mark_free_step p f :
  pmm_wf p -> 0 <= f < total_frames p ->
  marks p (if is_used p f then set_free p f else p) (fun g => g =? f) false.
Proof.
  intros Hwf Hf. destruct (is_used p f) eqn:E; simpl.
  - destruct (set_free_spec p f Hwf Hf E) as (? & ? & _ & H).
    repeat (split; [done|]). intros g Hg. rewrite H by done. by destruct (g =? f).
  - repeat (split; [done|]). intros g Hg. by destruct (Z.eqb_spec g f) as [->|].
Qed.

(** A loop whose body marks its own index marks the whole range. *)
Lemma marks_loop (body : Z -> pmm -> pmm) v p lo hi :
  (forall p f, pmm_wf p -> 0 <= f < total_frames p ->
     marks p (body f p) (fun g => g =? f) v) ->
  pmm_wf p -> 0 <= lo -> hi <= total_frames p ->
  marks p (for_range lo hi body p) (in_range lo hi) v.
Proof.
  intros Hbody Hwf Hlo Hhi. destruct (Z.le_gt_cases hi lo).
  { rewrite for_range_nil by done. eapply marks_ext, marks_refl; [|done].
    intros g _. unfold in_range. zbool; simpl; lia || done. }
  apply (for_range_ind body (fun i p' => marks p p' (in_range lo i) v)); [lia| |].
  - eapply marks_ext, marks_refl; [|done].
    intros g _. unfold in_range. zbool; simpl; lia || done.
  - intros i p' Hi (Hwf' & Ht & Hm & Hu).
    destruct (Hbody p' i Hwf' ltac:(lia)) as (Hwf2 & Ht2 & Hm2 & Hu2).
    split; [done|]. split; [congruence|]. split; [congruence|].
    intros g Hg. rewrite Hu2, Hu by done. unfold in_range. zbool; simpl; lia || done.
Qed.

Lemma mark_region_used_spec p base length :
  pmm_wf p -> 0 <= base ->
  marks p (pmm_mark_region_used p base length)
    (in_range (ADDR_TO_PFN base)
       (Z.min (ADDR_TO_PFN (PAGE_ALIGN_UP (u32 (base + length)))) (total_frames p))) true.
Proof.
  intros. apply (marks_loop (fun f p => if negb (is_used p f) then set_used p f else p));
    [apply mark_used_step|done| |lia].
  rewrite ADDR_TO_PFN_eq. divlia.
Qed.

Lemma mark_region_free_spec p base length :
  pmm_wf p -> 0 <= base ->
  marks p (pmm_mark_region_free p base length)
    (in_range (ADDR_TO_PFN (PAGE_ALIGN_UP base))
       (Z.min (ADDR_TO_PFN (u32 (base + length))) (total_frames p))) false.
Proof.
  intros. apply (marks_loop (fun f p => if is_used p f then set_free p f else p));
    [apply mark_free_step|done| |lia].
  rewrite ADDR_TO_PFN_eq. apply Z.div_pos; [|done]. apply Z.land_nonneg. left. apply u32_range.
Qed.

(** ** Lemmas: the allocators *)

Lemma scan_limit_bounds p : pmm_wf p -> 0 <= scan_limit p <= total_frames p.
Proof.
  intros Hwf. pose proof (pmm_wf_bounds p Hwf). unfold scan_limit. divlia.
Qed.

Lemma alloc_frame_cases p :
  pmm_wf p ->
  (pmm_alloc_frame p = (0, p) /\
   forall g, 0 <= g < scan_limit p -> is_used p g = true) \/
  (exists f, pmm_alloc_frame p = (4096 * f, set_used p f) /\ 0 <= f < scan_limit p /\
     is_used p f = false /\ forall g, 0 <= g < f -> is_used p g = true).
Proof.
  intros Hwf. pose proof (pmm_wf_bounds p Hwf). pose proof (scan_limit_bounds p Hwf).
  unfold pmm_alloc_frame. destruct (Z.ltb_spec (bitmap_find_free p) 0).
  - left. split; [done|]. apply find_free_none; lia.
  - right. exists (bitmap_find_free p).
    destruct (find_free_some p _ eq_refl H1) as (Hr & Ht & Hfree & Hlow).
    split; [|done]. f_equal. rewrite PFN_TO_ADDR_eq by lia. lia.
Qed.

Lemma alloc_frames_loop p start count :
  pmm_wf p -> 0 <= start -> start + count <= total_frames p -> 0 <= count ->
  (forall f, start <= f < start + count -> is_used p f = false) ->
  marks p
    (Pmm (for_range 0 count (fun i bm => bitmap_set bm (start + i)) (frame_bitmap p))
       (total_memory p) (total_frames p) (u32 (used_frames p + count)))
    (in_range start (start + count)) true.
Proof.
  intros Hwf Hs Hb Hc Hfree. pose proof (pmm_wf_bounds p Hwf) as (_ & Ht & Hu).
  set (state i bm := Pmm bm (total_memory p) (total_frames p) (u32 (used_frames p + i))).
  apply (for_range_ind (fun i bm => bitmap_set bm (start + i)) (fun i bm =>
    marks p (state i bm) (in_range start (start + i)) true)); [done| |].
  - eapply marks_ext.
    + intros g _. instantiate (1 := fun _ => false).
      unfold in_range. zbool; simpl; lia || done.
    + unfold state. rewrite Z.add_0_r, u32_id by (unfold is_u32; lia).
      destruct p. by apply marks_refl.
  - intros i bm Hi (Hwf' & _ & _ & Hus).
    assert (is_used (state i bm) (start + i) = false) as Hf.
    { rewrite Hus by lia. unfold in_range. zbool; simpl; try lia; apply Hfree; lia. }
    destruct (set_used_spec (state i bm) (start + i) Hwf' ltac:(simpl; lia) Hf)
      as (Hwf2 & _ & Hcnt & Hus2).
    replace (state (i + 1) (bitmap_set bm (start + i)))
      with (set_used (state i bm) (start + i)).
    + split; [done|]. split; [done|]. split; [done|]. intros g Hg. rewrite Hus2, Hus by done.
      unfold in_range. zbool; simpl; lia || done.
    + unfold set_used, state. simpl. f_equal. unfold u32.
      rewrite Zplus_mod_idemp_l. f_equal. lia.
Qed.

Lemma free_frame_cases p addr :
  pmm_wf p -> 0 <= addr ->
  marks p (pmm_free_frame p addr)
    (fun g => (g =? addr / 4096) && (addr / 4096 <? total_frames p)) false.
Proof.
  intros Hwf Ha. pose proof (pmm_wf_bounds p Hwf). unfold pmm_free_frame.
  rewrite ADDR_TO_PFN_eq. destruct (Z.leb_spec (total_frames p) (addr / 4096)).
  - eapply marks_ext, marks_refl; [|done]. intros g _.
    destruct (Z.ltb_spec (addr / 4096) (total_frames p)); [lia|]. by rewrite andb_false_r.
  - eapply marks_ext, mark_free_step; [|done|divlia]. intros g _. simpl.
    destruct (Z.ltb_spec (addr / 4096) (total_frames p)); [|lia]. by rewrite andb_true_r.
Qed.

Lemma free_frames_marks p addr count :
  pmm_wf p -> is_u32 addr -> 0 <= count -> addr / 4096 + count <= 4294967296 ->
  marks p (pmm_free_frames p addr count)
    (fun g => in_range (addr / 4096) (addr / 4096 + count) g && (g <? total_frames p)) false.
Proof.
  intros Hwf Ha Hc Hnw. unfold pmm_free_frames. rewrite ADDR_TO_PFN_eq.
  assert (0 <= addr / 4096) by (unfold is_u32 in Ha; divlia).
  apply (for_range_ind _ (fun i p' => marks p p'
    (fun g => in_range (addr / 4096) (addr / 4096 + i) g && (g <? total_frames p)) false));
    [done| |].
  - eapply marks_ext, marks_refl; [|done]. intros g _. unfold in_range.
    zbool; simpl; lia || done.
  - intros i p' Hi (Hwf' & Ht & Hm & Hu). rewrite u32_id by (unfold is_u32; lia).
    destruct (Z.ltb_spec (addr / 4096 + i) (total_frames p')); simpl.
    + destruct (mark_free_step p' (addr / 4096 + i) Hwf' ltac:(lia)) as (? & ? & ? & Hu2).
      split; [done|]. split; [congruence|]. split; [congruence|].
      intros g Hg. rewrite Hu2, Hu by done. unfold in_range. zbool; simpl; lia || done.
    + split; [done|]. split; [done|]. split; [done|].
      intros g Hg. rewrite Hu by done. unfold in_range. zbool; simpl; lia || done.
Qed.

(** ** Lemmas: boot *)

(** [es] are the entries the loop visits from [cur], none of which wraps the
    entry pointer. *)
Inductive mmap_walk (m : mem) (mmap_end : Z) : Z -> list mmap_entry -> Prop :=
| walk_done cur : mmap_end <= cur -> mmap_walk m mmap_end cur []
| walk_entry cur es :
    cur < mmap_end -> cur + load32 m cur + 4 < 4294967296 ->
    mmap_walk m mmap_end (cur + load32 m cur + 4) es ->
    mmap_walk m mmap_end cur (read_mmap_entry m cur :: es).

Lemma mmap_next_eq m a :
  0 <= a -> a + load32 m a + 4 < 4294967296 -> MMAP_ENTRY_NEXT m a = a + load32 m a + 4.
Proof.
  intros. pose proof (load32_range m a) as Hr. unfold is_u32 in Hr.
  unfold MMAP_ENTRY_NEXT. rewrite (u32_id (load32 m a + 4)) by (unfold is_u32; lia).
  rewrite u32_id by (unfold is_u32; lia). lia.
Qed.

Lemma mmap_loop_walk m mmap_end cur es fuel p :
  mmap_walk m mmap_end cur es -> 0 <= cur ->
  (Z.to_nat (mmap_end - cur) < fuel)%nat ->
  mmap_loop fuel m cur mmap_end p = Ret (foldl (fun p e => process_mmap_entry e p) p es).
Proof.
  intros Hw. revert fuel p. induction Hw as [cur Hge|cur es Hlt Hnw Hw IH];
    intros fuel p H0 Hfuel; destruct fuel as [|fuel]; try lia; simpl.
  - destruct (Z.ltb_spec cur mmap_end); [lia|done].
  - destruct (Z.ltb_spec cur mmap_end); [|lia].
    pose proof (load32_range m cur) as Hr. unfold is_u32 in Hr.
    rewrite mmap_next_eq by lia. apply IH; lia.
Qed.

(** The address interval [[base, base+length)] of an available entry contains
    the whole page [f]. *)
Definition entry_frees (e : mmap_entry) (f : Z) : bool :=
  (entry_type e =? MULTIBOOT_MEMORY_AVAILABLE) &&
  (addr_low e <=? 4096 * f) && (4096 * (f + 1) <=? addr_low e + len_low e).

(** Entries whose low-32-bit interval does not wrap. *)
Definition entry_nowrap (e : mmap_entry) : Prop :=
  0 <= addr_low e /\ 0 <= len_low e /\ addr_low e + len_low e < 4294967296 /\
  addr_low e + 4095 < 4294967296.

Lemma process_entry_marks e p :
  pmm_wf p -> entry_nowrap e ->
  marks p (process_mmap_entry e p)
    (fun g => entry_frees e g && (g <? total_frames p)) false.
Proof.
  intros Hwf (Hb & Hl & Hsum & Hup). unfold process_mmap_entry, entry_frees.
  destruct (entry_type e =? MULTIBOOT_MEMORY_AVAILABLE); simpl; [|by apply marks_refl].
  eapply marks_ext, mark_region_free_spec; [|done|done].
  intros g Hg. rewrite !ADDR_TO_PFN_eq, PAGE_ALIGN_UP_eq by lia.
  rewrite u32_id by (unfold is_u32; lia). unfold in_range.
  apply bool_eq_iff. rewrite !andb_true_iff, !Z.leb_le, !Z.ltb_lt. divlia.
Qed.

Lemma process_entries_marks es p :
  pmm_wf p -> Forall entry_nowrap es ->
  marks p (foldl (fun p e => process_mmap_entry e p) p es)
    (fun g => existsb (fun e => entry_frees e g) es && (g <? total_frames p)) false.
Proof.
  intros Hwf Hes. revert p Hwf. induction Hes as [|e es He Hes IH]; intros p Hwf; simpl.
  { by apply marks_refl. }
  destruct (process_entry_marks e p Hwf He) as (Hwf1 & Ht1 & Hm1 & Hu1).
  destruct (IH _ Hwf1) as (Hwf2 & Ht2 & Hm2 & Hu2).
  split; [done|]. split; [congruence|]. split; [congruence|].
  intros g Hg. rewrite Hu2, Hu1, Ht1 by done.
  destruct (entry_frees e g), (existsb (fun e => entry_frees e g) es),
    (g <? total_frames p); done.
Qed.

Lemma full_bitmap_used total_mem total used f :
  0 <= f < 32768 ->
  is_used (Pmm (replicate (Z.to_nat BITMAP_SIZE) 255) total_mem total used) f = true.
Proof.
  intros Hf. unfold is_used. cbn [frame_bitmap]. rewrite bitmap_test_eq, getZ_replicate.
  - change 255 with (Z.ones 8). apply Z.ones_spec_low. divlia.
  - rewrite Z2Nat.id by by compute. rewrite BITMAP_SIZE_eq. divlia.
  - lia.
Qed.

Lemma boot_state_wf mbi : pmm_wf (pmm_boot_state mbi).
Proof.
  assert (0 <= detect_memory mbi <= MAX_MEMORY) as Hd.
  { unfold detect_memory. case_match; [|by compute].
    destruct (Z.ltb_spec MAX_MEMORY (u32 (u32 (mem_upper mbi + 1024) * 1024))) as [|Hle].
    - by compute.
    - split; [apply u32_range|done]. }
  assert (0 <= detect_memory mbi / PAGE_SIZE <= MAX_FRAMES) as Ht.
  { unfold MAX_FRAMES, MAX_MEMORY, PAGE_SIZE in *. divlia. }
  unfold pmm_boot_state. split; cbn [frame_bitmap total_frames used_frames].
  - rewrite lenZ_replicate, Z2Nat.id; [done|by compute].
  - done.
  - rewrite countZ_all; [lia|lia|]. intros f Hf. apply full_bitmap_used.
    rewrite MAX_FRAMES_eq in Ht. lia.
Qed.

Lemma boot_state_used mbi f :
  0 <= f < total_frames (pmm_boot_state mbi) -> is_used (pmm_boot_state mbi) f = true.
Proof.
  intros Hf. pose proof (boot_state_wf mbi) as Hwf.
  pose proof (pmm_wf_bounds _ Hwf) as (_ & Ht & _).
  apply full_bitmap_used. lia.
Qed.

(** The page [f] meets the address interval [[base, base+length)]. *)
Definition meets (base length f : Z) : bool :=
  (base <? 4096 * (f + 1)) && (4096 * f <? base + length).

Lemma mark_used_meets p base length :
  pmm_wf p -> 0 <= base -> 0 < length -> base + length + 4095 < 4294967296 ->
  marks p (pmm_mark_region_used p base length)
    (fun g => meets base length g && (g <? total_frames p)) true.
Proof.
  intros Hwf Hb Hl Hnw. eapply marks_ext, mark_region_used_spec; [|done|done].
  intros g Hg. rewrite u32_id by (unfold is_u32; lia).
  rewrite !ADDR_TO_PFN_eq, PAGE_ALIGN_UP_eq by lia. unfold in_range, meets.
  apply bool_eq_iff. rewrite !andb_true_iff, !Z.leb_le, !Z.ltb_lt. divlia.
Qed.

(** ** The allocator's contract *)

Definition pmm_ok (p : pmm) : Prop := pmm_wf p /\ is_used p 0 = true.

Lemma alloc_frame_ok p :
  pmm_ok p ->
  (pmm_alloc_frame p = (0, p) /\
   forall g, 0 <= g < scan_limit p -> is_used p g = true) \/
  (exists f p', pmm_alloc_frame p = (4096 * f, p') /\ 0 < f < scan_limit p /\
     is_used p f = false /\ (forall g, 0 <= g < f -> is_used p g = true) /\
     used_frames p' = used_frames p + 1 /\ marks p p' (fun g => g =? f) true).
Proof.
  intros [Hwf H0]. pose proof (scan_limit_bounds p Hwf).
  destruct (alloc_frame_cases p Hwf) as [?|(f & Ha & Hf & Hfree & Hlow)]; [by left|right].
  assert (f <> 0) by congruence.
  destruct (set_used_spec p f Hwf ltac:(lia) Hfree) as (Hwf' & Ht & Hu & Hus).
  exists f, (set_used p f). split; [done|]. split; [lia|]. split; [done|]. split; [done|].
  split; [done|]. split; [done|]. split; [done|]. split; [done|].
  intros g Hg. rewrite Hus by done. by destruct (g =? f).
Qed.

#[export] Program Instance pmm_frame_allocator : FrameAllocator pmm := {|
  fa_alloc := pmm_alloc_frame;
  fa_free := pmm_free_frame;
  fa_used := is_used;
  fa_frames := total_frames;
  fa_ok := pmm_ok;
|}.
Next Obligation. intros p [Hwf _]. apply pmm_wf_bounds in Hwf. lia. Qed.
Next Obligation.
  intros p p' Hok Ha. destruct (alloc_frame_ok p Hok) as [[E _]|(f & p'' & E & Hf & _)];
    rewrite E in Ha; injection Ha; intros; [done|lia].
Qed.
Next Obligation.
  intros p a p' Hok Ha Hne. pose proof (scan_limit_bounds p (proj1 Hok)).
  destruct (alloc_frame_ok p Hok) as [[E _]|(f & p'' & E & Hf & Hfree & _ & _ & Hm)];
    rewrite E in Ha; injection Ha as <- <-; [done|].
  destruct Hm as (Hwf' & Ht & _ & Hu).
  exists f. split; [done|]. split; [lia|]. split; [done|]. split; [|split; [done|]].
  - split; [done|]. rewrite Hu by done. destruct (0 =? f); [done|]. apply Hok.
  - intros g Hg. rewrite Hu by done. by destruct (g =? f).
Qed.
Next Obligation.
  intros p f [Hwf H0] Hf. destruct (free_frame_cases p (4096 * f) Hwf ltac:(lia))
    as (Hwf' & Ht & _ & Hu).
  split; [|done]. split; [done|]. rewrite Hu, H0 by done. zbool; done || divlia.
Qed.
Next Obligation.
  intros p f g [Hwf H0] Hf Hg.
  destruct (free_frame_cases p (4096 * f) Hwf ltac:(lia)) as (_ & _ & _ & Hu).
  rewrite Hu by done. replace (4096 * f / 4096) with f by divlia.
  destruct (Z.ltb_spec f (total_frames p)); [|lia]. by destruct (g =? f).
Qed.

(** ** Properties *)

(** [pmm_alloc_frame] either fails with 0, leaving the state alone, when every
    frame of the scanned range is used, or returns the address of the lowest
    free frame: exactly that frame becomes used and [used_frames] grows by 1. *)
Theorem pmm_alloc_frame_correct p :
  pmm_ok p ->
  (pmm_alloc_frame p = (0, p) /\
   forall g, 0 <= g < 8 * (total_frames p / 8) -> is_used p g = true) \/
  (exists f p', pmm_alloc_frame p = (4096 * f, p') /\
     0 < f < total_frames p /\ is_used p f = false /\
     (forall g, 0 <= g < f -> is_used p g = true) /\
     pmm_ok p' /\ used_frames p' = used_frames p + 1 /\
     forall g, 0 <= g -> is_used p' g = (g =? f) || is_used p g).
Proof.
  intros Hok. pose proof (scan_limit_bounds p (proj1 Hok)).
  destruct (alloc_frame_ok p Hok) as [?|(f & p' & Ha & Hf & Hfree & Hlow & Hcnt & Hm)];
    [by left|right].
  destruct Hm as (Hwf' & _ & _ & Hu). exists f, p'.
  assert (forall g, 0 <= g -> is_used p' g = (g =? f) || is_used p g) as Hu'.
  { intros g Hg. rewrite Hu by done. by destruct (g =? f). }
  repeat (split; [done || lia|]). split; [|done].
  split; [done|]. rewrite Hu' by done. rewrite (proj2 Hok). apply orb_true_r.
Qed.

(** A well-formed allocator over [total] frames with only frame 0 used. *)
Definition pmm_small (total : Z) : pmm :=
  Pmm (setZ (replicate (Z.to_nat BITMAP_SIZE) 0) 0 1) (4096 * total) total 1.

Lemma pmm_small_ok : pmm_ok (pmm_small 12).
Proof. split; [split|]; by vm_compute. Qed.

Lemma pmm_alloc_frame_correct_witness :
  (pmm_alloc_frame (pmm_small 12) = (0, pmm_small 12) /\
   forall g, 0 <= g < 8 * (12 / 8) -> is_used (pmm_small 12) g = true) \/
  (exists f p', pmm_alloc_frame (pmm_small 12) = (4096 * f, p') /\
     0 < f < 12 /\ is_used (pmm_small 12) f = false /\
     (forall g, 0 <= g < f -> is_used (pmm_small 12) g = true) /\
     pmm_ok p' /\ used_frames p' = 1 + 1 /\
     forall g, 0 <= g -> is_used p' g = (g =? f) || is_used (pmm_small 12) g).
Proof. apply (pmm_alloc_frame_correct (pmm_small 12)), pmm_small_ok. Defined.

(** Allocating a frame and freeing it restores every bit of the bitmap and
    the usage counter, whatever the state. *)
Theorem pmm_alloc_free_roundtrip p a p' :
  pmm_ok p -> pmm_alloc_frame p = (a, p') -> a <> 0 ->
  pmm_ok (pmm_free_frame p' a) /\
  used_frames (pmm_free_frame p' a) = used_frames p /\
  forall g, 0 <= g -> is_used (pmm_free_frame p' a) g = is_used p g.
Proof.
  intros Hok Ha Hne. pose proof (scan_limit_bounds p (proj1 Hok)).
  destruct (alloc_frame_ok p Hok) as [[E _]|(f & p'' & E & Hf & Hfree & _ & Hcnt & Hm)];
    rewrite E in Ha; injection Ha as <- <-; [done|].
  destruct Hm as (Hwf' & Ht & _ & Hu).
  destruct (free_frame_cases p'' (4096 * f) Hwf' ltac:(lia)) as (Hwf2 & Ht2 & _ & Hu2).
  replace (4096 * f / 4096) with f in Hu2 by divlia.
  destruct (Z.ltb_spec f (total_frames p'')); [|lia].
  assert (forall g, 0 <= g -> is_used (pmm_free_frame p'' (4096 * f)) g = is_used p g) as Hu3.
  { intros g Hg. rewrite Hu2, Hu by done. destruct (Z.eqb_spec g f) as [->|]; done. }
  split; [split; [done|]|split; [|done]].
  - rewrite Hu3 by done. apply Hok.
  - rewrite (wf_used _ Hwf2), (wf_used _ (proj1 Hok)), Ht2, Ht.
    apply countZ_ext. intros. apply Hu3. lia.
Qed.

Lemma pmm_alloc_free_roundtrip_witness :
  let p' := snd (pmm_alloc_frame (pmm_small 12)) in
  pmm_ok (pmm_free_frame p' 4096) /\
  used_frames (pmm_free_frame p' 4096) = used_frames (pmm_small 12) /\
  forall g, 0 <= g -> is_used (pmm_free_frame p' 4096) g = is_used (pmm_small 12) g.
Proof.
  apply (pmm_alloc_free_roundtrip (pmm_small 12)); [apply pmm_small_ok| |done].
  by vm_compute.
Defined.

(** [pmm_alloc_frames count] fails, leaving the state alone, exactly when
    every window of [count] frames holds a used one; otherwise it returns the
    address of the lowest free window, marks exactly that window used and
    counts it. *)
Theorem pmm_alloc_frames_correct p count :
  pmm_ok p -> 0 < count ->
  (pmm_alloc_frames p count = (0, p) /\
   forall s, 0 <= s -> s + count <= total_frames p -> blocked p count s) \/
  (exists s p', pmm_alloc_frames p count = (4096 * s, p') /\ 0 < s /\
     s + count <= total_frames p /\
     (forall f, s <= f < s + count -> is_used p f = false) /\
     (forall s', 0 <= s' < s -> blocked p count s') /\
     pmm_wf p' /\
     forall g, 0 <= g -> is_used p' g = if in_range s (s + count) g then true else is_used p g).
Proof.
  intros [Hwf H0] Hc. pose proof (pmm_wf_bounds p Hwf) as (_ & Ht & _).
  unfold pmm_alloc_frames. destruct (Z.eqb_spec count 0); [lia|].
  destruct (find_free_region_spec p count) as [[-> Hno]|(Hr & Hb & Hfree & Hlow)];
    [lia|done|by left|right].
  destruct (Z.ltb_spec (bitmap_find_free_region p count) 0); [lia|].
  assert (bitmap_find_free_region p count <> 0).
  { intros E. rewrite E in Hfree. rewrite Hfree in H0 by lia. done. }
  pose proof (alloc_frames_loop p (bitmap_find_free_region p count) count Hwf ltac:(lia)
    ltac:(lia) ltac:(lia) Hfree) as (Hwf' & _ & _ & Hu).
  eexists (bitmap_find_free_region p count), _.
  split; [f_equal; rewrite PFN_TO_ADDR_eq by lia; lia|].
  split; [lia|]. repeat (split; [done|]). done.
Qed.

Lemma pmm_alloc_frames_correct_witness :
  (pmm_alloc_frames (pmm_small 12) 4 = (0, pmm_small 12) /\
   forall s, 0 <= s -> s + 4 <= 12 -> blocked (pmm_small 12) 4 s) \/
  (exists s p', pmm_alloc_frames (pmm_small 12) 4 = (4096 * s, p') /\ 0 < s /\
     s + 4 <= 12 /\
     (forall f, s <= f < s + 4 -> is_used (pmm_small 12) f = false) /\
     (forall s', 0 <= s' < s -> blocked (pmm_small 12) 4 s') /\
     pmm_wf p' /\
     forall g, 0 <= g -> is_used p' g =
       if in_range s (s + 4) g then true else is_used (pmm_small 12) g).
Proof. apply (pmm_alloc_frames_correct (pmm_small 12) 4); [apply pmm_small_ok|lia]. Defined.

(** What [pmm_init] leaves marked. *)
Lemma pmm_init_spec kernel_start kernel_end m mbi es fuel :
  Z.land (mb_flags mbi) MULTIBOOT_INFO_MEM_MAP <> 0 ->
  0 <= mmap_addr mbi -> 0 <= mmap_length mbi ->
  mmap_addr mbi + mmap_length mbi < 4294967296 ->
  mmap_walk m (mmap_addr mbi + mmap_length mbi) (mmap_addr mbi) es ->
  Forall entry_nowrap es ->
  0 <= kernel_start < kernel_end -> kernel_end + 65536 + 4095 < 4294967296 ->
  (Z.to_nat (mmap_length mbi) < fuel)%nat ->
  exists p, pmm_init kernel_start kernel_end fuel m mbi = Ret p /\ pmm_wf p /\
    total_frames p = detect_memory mbi / 4096 /\
    forall f, 0 <= f < total_frames p ->
      is_used p f =
        negb (existsb (fun e => entry_frees e f) es) || meets 0 1048576 f ||
        meets kernel_start (kernel_end - kernel_start) f || meets kernel_end 65536 f.
Proof.
  intros Hfl Ha Hl Hnw Hwalk Hes Hk Hke Hfuel. unfold pmm_init.
  apply Z.eqb_neq in Hfl. rewrite Hfl. simpl negb. cbv iota.
  rewrite (u32_id (mmap_addr mbi + mmap_length mbi)) by (unfold is_u32; lia).
  rewrite (mmap_loop_walk _ _ _ _ _ _ Hwalk) by lia. simpl mbind. cbv beta zeta.
  pose proof (process_entries_marks es _ (boot_state_wf mbi) Hes) as (Hwf1 & Ht1 & _ & Hu1).
  set (p1 := foldl _ _ _) in *.
  pose proof (mark_used_meets p1 0 1048576 Hwf1 ltac:(lia) ltac:(lia) ltac:(lia))
    as (Hwf2 & Ht2 & _ & Hu2).
  set (p2 := pmm_mark_region_used p1 _ _) in *.
  rewrite (u32_id (kernel_end - kernel_start)) by (unfold is_u32; lia).
  pose proof (mark_used_meets p2 kernel_start (kernel_end - kernel_start) Hwf2 ltac:(lia)
    ltac:(lia) ltac:(lia)) as (Hwf3 & Ht3 & _ & Hu3).
  set (p3 := pmm_mark_region_used p2 _ _) in *.
  pose proof (mark_used_meets p3 kernel_end (64 * 1024) Hwf3 ltac:(lia) ltac:(lia) ltac:(lia))
    as (Hwf4 & Ht4 & _ & Hu4).
  eexists. split; [done|]. split; [done|]. split; [by rewrite Ht4, Ht3, Ht2, Ht1|].
  intros f Hf. rewrite Hu4, Hu3, Hu2, Hu1 by lia.
  rewrite boot_state_used by (rewrite <- Ht1, <- Ht2, <- Ht3, <- Ht4; lia).
  rewrite Ht3, Ht2, Ht1. rewrite Ht4, Ht3, Ht2, Ht1 in Hf.
  destruct (Z.ltb_spec f (total_frames (pmm_boot_state mbi))); [|lia].
  rewrite !andb_true_r. change (64 * 1024) with 65536.
  destruct (existsb _ _), (meets 0 _ f), (meets kernel_start _ f), (meets kernel_end _ f); done.
Qed.

(** C36. After boot a frame below [total_frames] is free exactly when an
    available entry of the multiboot map covers its whole page and the page
    meets neither the first megabyte, nor the kernel image, nor the 64 KB after
    it; the loop over the map terminates and the counters are consistent. *)
Theorem pmm_init_correct kernel_start kernel_end m mbi es fuel :
  Z.land (mb_flags mbi) MULTIBOOT_INFO_MEM_MAP <> 0 ->
  0 <= mmap_addr mbi -> 0 <= mmap_length mbi ->
  mmap_addr mbi + mmap_length mbi < 4294967296 ->
  mmap_walk m (mmap_addr mbi + mmap_length mbi) (mmap_addr mbi) es ->
  Forall entry_nowrap es ->
  0 <= kernel_start < kernel_end -> kernel_end + 65536 + 4095 < 4294967296 ->
  (Z.to_nat (mmap_length mbi) < fuel)%nat ->
  exists p, pmm_init kernel_start kernel_end fuel m mbi = Ret p /\ pmm_wf p /\
    total_frames p = detect_memory mbi / 4096 /\
    forall f, 0 <= f < total_frames p ->
      is_used p f =
        negb (existsb (fun e => entry_frees e f) es) || meets 0 1048576 f ||
        meets kernel_start (kernel_end - kernel_start) f || meets kernel_end 65536 f.
Proof. exact (pmm_init_spec kernel_start kernel_end m mbi es fuel). Qed.

(** Two 24-byte map entries at 0x9000 describing a machine with 3 MB. *)
Definition demo_mmap : mem :=
  let entry m a base len ty :=
    store32 (store32 (store32 (store32 (store32 (store32 m a 20) (a + 4) base)
      (a + 8) 0) (a + 12) len) (a + 16) 0) (a + 20) ty in
  entry (entry ∅ 36864 0 654336 1) 36888 1048576 2097152 1.

Definition demo_mbi : multiboot_info :=
  {| mb_flags := 65; mem_upper := 2048; mmap_length := 48; mmap_addr := 36864 |}.

Lemma pmm_init_correct_witness :
  exists p, pmm_init 1048576 1200128 49 demo_mmap demo_mbi = Ret p /\ pmm_wf p /\
    total_frames p = detect_memory demo_mbi / 4096 /\
    forall f, 0 <= f < total_frames p ->
      is_used p f =
        negb (existsb (fun e => entry_frees e f)
          [read_mmap_entry demo_mmap 36864; read_mmap_entry demo_mmap 36888]) ||
        meets 0 1048576 f ||
        meets 1048576 (1200128 - 1048576) f || meets 1200128 65536 f.
Proof.
  apply (pmm_init_correct 1048576 1200128 demo_mmap demo_mbi
    [read_mmap_entry demo_mmap 36864; read_mmap_entry demo_mmap 36888] 49);
    try done; try (simpl; lia).
  - apply walk_entry; [by vm_compute..|]. change (36864 + load32 demo_mmap 36864 + 4) with 36888.
    apply walk_entry; [by vm_compute..|]. apply walk_done. by vm_compute.
  - repeat constructor; by vm_compute.
Defined.

(** The statistics: [free_memory] is 4096 times the number of free frames,
    without overflow, and used and free frames add up to the total. *)
Theorem pmm_stats_correct p :
  pmm_wf p ->
  pmm_get_free_memory p = 4096 * countZ (fun f => negb (is_used p f)) 0 (total_frames p) /\
  st_free_memory (pmm_get_stats p) = pmm_get_free_memory p /\
  st_used_frames (pmm_get_stats p) + st_free_frames (pmm_get_stats p) =
    st_total_frames (pmm_get_stats p).
Proof.
  intros Hwf. pose proof (pmm_wf_bounds p Hwf) as (_ & Ht & Hu).
  assert (countZ (fun f => negb (is_used p f)) 0 (total_frames p)
    = total_frames p - used_frames p) as Hc.
  { rewrite countZ_negb by lia. rewrite <- (wf_used p Hwf). lia. }
  unfold pmm_get_free_memory, pmm_get_stats, PAGE_SIZE. simpl.
  rewrite Hc, (u32_id (total_frames p - used_frames p)) by (unfold is_u32; lia).
  rewrite u32_id by (unfold is_u32; lia). lia.
Qed.

Lemma pmm_stats_correct_witness :
  pmm_get_free_memory (pmm_small 12)
    = 4096 * countZ (fun f => negb (is_used (pmm_small 12) f)) 0 12 /\
  st_free_memory (pmm_get_stats (pmm_small 12)) = pmm_get_free_memory (pmm_small 12) /\
  st_used_frames (pmm_get_stats (pmm_small 12)) + st_free_frames (pmm_get_stats (pmm_small 12)) =
    st_total_frames (pmm_get_stats (pmm_small 12)).
Proof. apply (pmm_stats_correct (pmm_small 12)), pmm_small_ok. Defined.

(** The single-frame allocator never hands out the frames after the last
    whole byte of the bitmap: when only those are free it reports exhaustion,
    although they are counted as free memory and [pmm_alloc_frames] finds them. *)
Theorem pmm_alloc_frame_skips_tail :
  exists p, pmm_ok p /\ pmm_alloc_frame p = (0, p) /\
    pmm_get_free_memory p = 4 * 4096 /\ fst (pmm_alloc_frames p 4) = 8 * 4096.
Proof.
  exists (Pmm (setZ (replicate (Z.to_nat BITMAP_SIZE) 0) 0 255) (12 * 4096) 12 8).
  split; [split; [split|]; by vm_compute|]. repeat (split; [by vm_compute|]). by vm_compute.
Qed.
