(* ===== verification/Ring.v ===== *)
(** * Ring buffers

    The kernel keeps four queues in the same way: a static array of [N] slots
    with a [head] and a [tail] index, one slot always left empty
    (keyboard_buffer in kernel/src/keyboard.c, pending_signals in
    kernel/src/signals.c, pending_process_signals and process_socket in
    kernel/src/process.c).  This file holds that representation once, its
    abstraction to the list of queued elements and the proof that it implements
    [BoundedFifo] with capacity [N - 1]. *)

From S2P Require Import Prelude Interfaces.

Record ring (A : Type) := Ring {
  rb_buf : list A;
  rb_head : Z;
  rb_tail : Z;
}.
Arguments Ring {A} _ _ _.
Arguments rb_buf {A} _.
Arguments rb_head {A} _.
Arguments rb_tail {A} _.

(** [next_tail = (tail + 1) % N; if (next_tail == head) fail; buf[tail] = x] *)
Definition ring_push {A} (N : Z) (x : A) (r : ring A) : option (ring A) :=
  let next_tail := u32 (rb_tail r + 1) mod N in
  if next_tail =? rb_head r then None
  else Some (Ring (setZ (rb_buf r) (rb_tail r) x) (rb_head r) next_tail).

(** [if (head == tail) fail; x = buf[head]; head = (head + 1) % N] *)
Definition ring_pop {A} (N : Z) (d : A) (r : ring A) : option (A * ring A) :=
  if rb_head r =? rb_tail r then None
  else Some (getZ d (rb_buf r) (rb_head r),
             Ring (rb_buf r) (u32 (rb_head r + 1) mod N) (rb_tail r)).

(** [tail >= head ? tail - head : N - head + tail] *)
Definition ring_count {A} (N : Z) (r : ring A) : Z :=
  if rb_head r <=? rb_tail r then u32 (rb_tail r - rb_head r)
  else u32 (u32 (N - rb_head r) + rb_tail r).

(** The queued elements, oldest first. *)
Definition ring_items {A} (N : Z) (d : A) (r : ring A) : list A :=
  map (fun i => getZ d (rb_buf r) ((rb_head r + i) mod N)) (seqZ 0 (ring_count N r)).

Definition ring_empty {A} (N : Z) (d : A) : ring A :=
  Ring (replicate (Z.to_nat N) d) 0 0.

Section ring.
Context {A : Type} (d : A) (N : Z) (HN : 1 < N < 2147483648).
Implicit Types r : ring A.

Definition ring_ok r : Prop :=
  lenZ (rb_buf r) = N /\ 0 <= rb_head r < N /\ 0 <= rb_tail r < N.

Lemma ring_empty_ok : ring_ok (ring_empty N d).
Proof. unfold ring_ok, ring_empty. simpl. rewrite lenZ_replicate. lia. Qed.

Lemma ring_empty_items : ring_items N d (ring_empty N d) = [].
Proof. done. Qed.

(** One wrap-around of an index sum. *)
Lemma mod_wrap x : 0 <= x < 2 * N -> x mod N = if x <? N then x else x - N.
Proof.
  intros. zbool; [apply Z.mod_small; lia|].
  replace x with ((x - N) + 1 * N) at 1 by lia. rewrite Z_mod_plus_full.
  apply Z.mod_small. lia.
Qed.

(** The successor of an index, without the modulo. *)
Lemma ring_next i : 0 <= i < N -> u32 (i + 1) mod N = if i =? N - 1 then 0 else i + 1.
Proof.
  intros. rewrite u32_id by (unfold is_u32; lia). zbool.
  - subst. replace (N - 1 + 1) with N by lia. by rewrite Z.mod_same by lia.
  - apply Z.mod_small. lia.
Qed.

Lemma ring_count_eq r :
  ring_ok r ->
  ring_count N r = (if rb_head r <=? rb_tail r then 0 else N) + rb_tail r - rb_head r.
Proof.
  intros (_ & Hh & Ht). unfold ring_count. zbool.
  - rewrite u32_id; [lia|]. unfold is_u32. lia.
  - rewrite (u32_id (N - rb_head r)) by (unfold is_u32; lia).
    rewrite u32_id; [lia|]. unfold is_u32. lia.
Qed.

Lemma ring_count_bound r : ring_ok r -> 0 <= ring_count N r <= N - 1.
Proof. intros Hok. rewrite ring_count_eq by done. destruct Hok. zbool; lia. Qed.

Lemma length_ring_items r : length (ring_items N d r) = Z.to_nat (ring_count N r).
Proof. unfold ring_items. by rewrite length_map, length_seqZ. Qed.

Lemma ring_count_items r : ring_ok r -> ring_count N r = lenZ (ring_items N d r).
Proof.
  intros Hok. pose proof (ring_count_bound r Hok).
  unfold lenZ. rewrite length_ring_items. lia.
Qed.

Lemma ring_tail_eq r : ring_ok r -> rb_tail r = (rb_head r + ring_count N r) mod N.
Proof.
  intros Hok. rewrite ring_count_eq by done. destruct Hok as (_ & Hh & Ht). zbool.
  - rewrite Z.mod_small; lia.
  - replace (rb_head r + (N + rb_tail r - rb_head r)) with (rb_tail r + 1 * N) by lia.
    rewrite Z_mod_plus_full, Z.mod_small; lia.
Qed.

Lemma ring_push_full x r : ring_ok r -> ring_push N x r = None <-> ring_count N r = N - 1.
Proof.
  intros Hok. rewrite ring_count_eq by done. destruct Hok as (_ & Hh & Ht).
  unfold ring_push. rewrite ring_next by done.
  destruct (Z.eqb_spec (rb_tail r) (N - 1)); zbool; split; intros; try done; lia.
Qed.

Lemma ring_push_ok x r r' :
  ring_ok r -> ring_push N x r = Some r' ->
  ring_ok r' /\ ring_items N d r' = ring_items N d r ++ [x].
Proof.
  intros Hok Hp. assert (ring_push N x r <> None) as Hnf by congruence.
  rewrite ring_push_full in Hnf by done.
  pose proof (ring_count_bound r Hok) as Hb. pose proof (ring_tail_eq r Hok) as Ht.
  pose proof (ring_count_eq r Hok) as Hc.
  unfold ring_push in Hp. rewrite ring_next in Hp by apply Hok.
  destruct (_ =? rb_head r) eqn:E; [done|]. apply Z.eqb_neq in E. injection Hp as <-.
  assert (ring_ok (Ring (setZ (rb_buf r) (rb_tail r) x) (rb_head r)
    (if rb_tail r =? N - 1 then 0 else rb_tail r + 1))) as Hok'.
  { destruct Hok as (Hl & Hh & Htl). split; simpl; [by rewrite lenZ_setZ|].
    split; [done|]. zbool; lia. }
  split; [done|]. unfold ring_items at 1.
  assert (ring_count N (Ring (setZ (rb_buf r) (rb_tail r) x) (rb_head r)
    (if rb_tail r =? N - 1 then 0 else rb_tail r + 1)) = ring_count N r + 1) as ->.
  { rewrite ring_count_eq, Hc by done. simpl. destruct Hok as (_ & Hh & Htl).
    revert E. zbool; lia. }
  rewrite seqZ_app, map_app by lia. simpl. f_equal.
  - apply map_ext_in. intros i Hi%list_elem_of_In%elem_of_seqZ.
    apply getZ_setZ_ne. rewrite Ht. destruct Hok as (_ & Hh & _).
    rewrite !mod_wrap by lia. zbool; lia.
  - replace (Z.of_nat 0 + (0 + ring_count N r)) with (ring_count N r) by lia.
    rewrite <- Ht, getZ_setZ_eq by (destruct Hok as (-> & _ & ?); lia). done.
Qed.

Lemma ring_pop_empty r : ring_ok r -> ring_pop N d r = None <-> ring_items N d r = [].
Proof.
  intros Hok. rewrite <- length_zero_iff_nil, length_ring_items.
  pose proof (ring_count_eq r Hok) as Hc. destruct Hok as (_ & Hh & Ht). unfold ring_pop.
  revert Hc. zbool; split; intros; try done; lia.
Qed.

Lemma ring_pop_ok x r r' :
  ring_ok r -> ring_pop N d r = Some (x, r') ->
  ring_ok r' /\ ring_items N d r = x :: ring_items N d r'.
Proof.
  intros Hok Hp. pose proof (ring_count_eq r Hok) as Hc.
  pose proof (ring_count_bound r Hok) as Hb.
  unfold ring_pop in Hp. destruct (rb_head r =? rb_tail r) eqn:E; [done|].
  apply Z.eqb_neq in E. injection Hp as <- <-. pose proof Hok as (Hl & Hh & Ht).
  rewrite ring_next by done.
  assert (ring_ok (Ring (rb_buf r)
    (if rb_head r =? N - 1 then 0 else rb_head r + 1) (rb_tail r))) as Hok'.
  { split; [done|]. simpl. zbool; lia. }
  split; [done|]. unfold ring_items at 2. rewrite (ring_count_eq _ Hok'). simpl.
  assert ((if (if rb_head r =? N - 1 then 0 else rb_head r + 1) <=? rb_tail r then 0 else N)
    + rb_tail r - (if rb_head r =? N - 1 then 0 else rb_head r + 1)
    = ring_count N r - 1) as ->.
  { rewrite Hc. zbool; lia. }
  unfold ring_items. rewrite seqZ_cons by (rewrite Hc; zbool; lia). simpl. f_equal.
  - f_equal. rewrite Z.add_0_r, Z.mod_small; lia.
  - change (Z.succ 0) with (1 + 0). rewrite <- fmap_add_seqZ.
    rewrite map_map. apply map_ext_in. intros i Hi%list_elem_of_In%elem_of_seqZ.
    f_equal. rewrite !mod_wrap by (repeat case_match; lia). zbool; lia.
Qed.

#[export] Program Instance ring_fifo : BoundedFifo (ring A) A := {|
  fifo_cap := Z.to_nat (N - 1);
  fifo_ok := ring_ok;
  fifo_items := ring_items N d;
  fifo_push := ring_push N;
  fifo_pop := ring_pop N d;
|}.
Next Obligation.
  intros r Hok. rewrite length_ring_items. pose proof (ring_count_bound r Hok). lia.
Qed.
Next Obligation.
  intros x r Hok. rewrite ring_push_full, length_ring_items by done.
  pose proof (ring_count_bound r Hok). lia.
Qed.
Next Obligation. intros. by apply ring_push_ok. Qed.
Next Obligation. intros. by apply ring_pop_empty. Qed.
Next Obligation. intros. by apply ring_pop_ok. Qed.
End ring.

(** ** Properties *)

(** C37. The ring buffer refines the bounded queue of [N - 1] elements: seen as
    the list of its elements, a push appends or is refused exactly when full, a
    pop takes the oldest element, and the count is the length of the list. *)
Theorem ring_refines_bounded_queue {A} (d : A) (N : Z) (r : ring A) :
  1 < N < 2147483648 -> ring_ok N r ->
  (forall x, ring_items N d <$> ring_push N x r =
     if lenZ (ring_items N d r) =? N - 1 then None else Some (ring_items N d r ++ [x])) /\
  (prod_map id (ring_items N d) <$> ring_pop N d r =
     match ring_items N d r with [] => None | x :: l => Some (x, l) end) /\
  ring_count N r = lenZ (ring_items N d r).
Proof.
  intros HN Hok. split; [|split; [|by apply ring_count_items]].
  - intros x. pose proof (ring_push_full N HN x r Hok) as Hfull.
    rewrite (ring_count_items d N HN r Hok) in Hfull.
    destruct (ring_push N x r) as [r'|] eqn:E; simpl.
    + destruct (ring_push_ok d N HN x r r' Hok E) as [_ ->].
      destruct (Z.eqb_spec (lenZ (ring_items N d r)) (N - 1)) as [H|]; [|done].
      by apply Hfull in H.
    + by rewrite (proj2 (Z.eqb_eq _ _) (proj1 Hfull eq_refl)).
  - pose proof (ring_pop_empty d N HN r Hok) as He.
    destruct (ring_pop N d r) as [[x r']|] eqn:E; simpl.
    + by destruct (ring_pop_ok d N HN x r r' Hok E) as [_ ->].
    + by rewrite (proj1 He eq_refl).
Qed.

Lemma ring_refines_bounded_queue_witness :
  let r := Ring [7; 0; 5; 6] 2 1 in
  (forall x, ring_items 4 0 <$> ring_push 4 x r =
     if lenZ (ring_items 4 0 r) =? 3 then None else Some (ring_items 4 0 r ++ [x])) /\
  (prod_map id (ring_items 4 0) <$> ring_pop 4 0 r =
     match ring_items 4 0 r with [] => None | x :: l => Some (x, l) end) /\
  ring_count 4 r = lenZ (ring_items 4 0 r).
Proof.
  intros r. apply (ring_refines_bounded_queue 0 4 r); [lia|].
  unfold ring_ok, lenZ. simpl. lia.
Defined.
