(* ===== verification/Chain.v ===== *)
(** * Linked lists threaded through an array

    kernel/src/process.c links its table slots by two pointer fields, [next]
    (the list of all processes) and [next_sibling] (the children of one
    process).  A pointer is a slot number; [chain nxt p l] says that following
    the field [nxt] from [p] visits the slots [l] and then ends. *)

From S2P Require Import Prelude.

(** The null pointer. *)
Definition NULLP : Z := -1.

Fixpoint chain (nxt : Z -> Z) (p : Z) (l : list Z) : Prop :=
  match l with
  | [] => p = NULLP
  | q :: l => p = q /\ 0 <= q /\ chain nxt (nxt q) l
  end.

(** The first element of [l] that satisfies [f]. *)
Fixpoint first_such (f : Z -> bool) (l : list Z) : Z :=
  match l with
  | [] => NULLP
  | q :: l => if f q then q else first_such f l
  end.

Lemma last_cons {A} (x d : A) l : List.last (x :: l) d = List.last l x.
Proof.
  revert x d. induction l as [|y l IH]; intros x d; [done|].
  change (List.last (x :: y :: l) d) with (List.last (y :: l) d). by rewrite !IH.
Qed.

Section chain.
Implicit Types (nxt : Z -> Z) (l : list Z).

Lemma chain_ext nxt nxt' p l :
  (forall q, q ∈ l -> nxt' q = nxt q) -> chain nxt p l -> chain nxt' p l.
Proof.
  revert p. induction l as [|q l IH]; intros p Hext; simpl; [done|].
  intros (-> & Hq & Hc). repeat split; [done|].
  rewrite Hext by apply list_elem_of_here. apply IH; [|done].
  intros x Hx. apply Hext. by apply list_elem_of_further.
Qed.

Lemma chain_nonneg nxt p l q : chain nxt p l -> q ∈ l -> 0 <= q.
Proof.
  revert p. induction l as [|x l IH]; intros p Hc Hq; [set_solver|].
  destruct Hc as (-> & ? & Hc). apply elem_of_cons in Hq as [->|Hq]; eauto.
Qed.

Lemma chain_not_null nxt p l : chain nxt p l -> NULLP ∉ l.
Proof. intros Hc Hin. pose proof (chain_nonneg _ _ _ _ Hc Hin). unfold NULLP in *. lia. Qed.

Lemma chain_null nxt l : chain nxt NULLP l -> l = [].
Proof. destruct l as [|q l]; [done|]. intros (<- & ? & _). unfold NULLP in *. lia. Qed.

Lemma chain_cons_inv nxt p l : chain nxt p l -> p <> NULLP -> exists l', l = p :: l'.
Proof. destruct l as [|q l]; [done|]. intros (-> & _) _. eauto. Qed.

Lemma chain_fun nxt p l l' : chain nxt p l -> chain nxt p l' -> l = l'.
Proof.
  revert p l'. induction l as [|q l IH]; intros p l' Hl Hl'.
  - simpl in Hl. subst. symmetry. by eapply chain_null.
  - destruct Hl as (-> & Hq & Hc). destruct l' as [|q' l'].
    + simpl in Hl'. unfold NULLP in *. lia.
    + destruct Hl' as (<- & _ & Hc'). f_equal. eauto.
Qed.


Lemma chain_suffix nxt p l1 q l2 : chain nxt p (l1 ++ q :: l2) -> chain nxt q (q :: l2).
Proof.
  revert p. induction l1 as [|x l1 IH]; intros p; simpl; [by intros (-> & ?)|].
  intros (-> & _ & Hc). exact (IH _ Hc).
Qed.

(** The last slot of a chain ends it. *)
Lemma chain_last nxt p l t : chain nxt p (l ++ [t]) -> nxt t = NULLP.
Proof. intros Hc. by apply chain_suffix in Hc as (_ & _ & ?). Qed.

(** Changing the field of one slot [q]: the part of the chain before it stays,
    and the chain goes on from the new value. *)
Lemma chain_redirect nxt nxt' p l1 q l2 l2' :
  (forall x, x ∈ l1 -> nxt' x = nxt x) ->
  chain nxt p (l1 ++ q :: l2) -> chain nxt' (nxt' q) l2' -> chain nxt' p (l1 ++ q :: l2').
Proof.
  intros Hext Hc Hc'. revert p Hc. induction l1 as [|x l1 IH]; intros p; simpl.
  - intros (-> & ? & _). done.
  - intros (-> & ? & Hc). repeat split; [done|].
    rewrite Hext by set_solver. apply IH; [set_solver|done].
Qed.

Lemma chain_snoc nxt nxt' p l t q :
  (forall x, x ∈ l -> nxt' x = nxt x) -> nxt' t = q -> nxt' q = NULLP -> 0 <= q ->
  chain nxt p (l ++ [t]) -> chain nxt' p (l ++ [t; q]).
Proof. intros Hext Ht Hq ? Hc. eapply chain_redirect; [exact Hext|exact Hc|]. simpl. by rewrite Ht. Qed.

(** Unlinking [q]: its predecessor, if it has one, takes over its field. *)
Lemma chain_unlink_head nxt nxt' q l :
  (forall x, x ∈ l -> nxt' x = nxt x) -> chain nxt q (q :: l) -> chain nxt' (nxt q) l.
Proof. intros Hext (_ & _ & Hc). eapply chain_ext; eauto. Qed.

Lemma chain_unlink_mid nxt nxt' p l1 r q l2 :
  (forall x, x ∈ l1 -> nxt' x = nxt x) -> (forall x, x ∈ l2 -> nxt' x = nxt x) ->
  nxt' r = nxt q -> chain nxt p (l1 ++ r :: q :: l2) -> chain nxt' p (l1 ++ r :: l2).
Proof.
  intros H1 H2 Hr Hc. eapply chain_redirect; [exact H1|exact Hc|]. rewrite Hr.
  eapply chain_unlink_head; [exact H2|]. apply (chain_suffix nxt p (l1 ++ [r])).
  by rewrite <- app_assoc.
Qed.

Lemma first_such_spec f l :
  (first_such f l = NULLP /\ forall q, q ∈ l -> f q = false) \/
  (first_such f l ∈ l /\ f (first_such f l) = true).
Proof.
  induction l as [|q l IH]; simpl; [left; split; [done|set_solver]|].
  destruct (f q) eqn:E; [right; split; [set_solver|done]|].
  destruct IH as [[-> IH]|[? ?]]; [left|right; set_solver].
  split; [done|]. intros x [->|?]%elem_of_cons; auto.
Qed.

(** The slots of a table of [n] entries, listed once, are at most [n]. *)
Lemma NoDup_slots l n :
  0 <= n -> NoDup l -> (forall q, q ∈ l -> 0 <= q < n) -> (length l <= Z.to_nat n)%nat.
Proof.
  intros Hn Hnd Hr. transitivity (length (seqZ 0 n)).
  - apply submseteq_length, NoDup_submseteq; [done|].
    intros q Hq. apply elem_of_seqZ. specialize (Hr q Hq). lia.
  - rewrite length_seqZ. lia.
Qed.
End chain.
