(* ===== verification/Signals.v ===== *)
(** * Kernel signals: kernel/src/signals.c

    A table of callbacks, one per signal number, and a ring of pending signals
    filled by [schedule_signal] (also from interrupt handlers) and drained by
    [signal_dispatch_pending].  Callbacks are function pointers: what they do to
    the kernel is the parameter [run_callback].  The EFLAGS register is part of
    the state, for the critical sections of kernel/include/io.h. *)

From S2P Require Import Prelude Interfaces Ring.

Definition MAX_KERNEL_SIGNALS : Z := 32.
Definition KERNEL_SIGNAL_TEST : Z := 1.
Definition KERNEL_SIGNAL_KEYBOARD : Z := 2.
Definition KERNEL_SIGNAL_PANIC : Z := 3.
Definition SIGNAL_QUEUE_CAPACITY : Z := 64.

Record pending_signal := PendingSignal {
  ps_signal : Z;
  ps_value : Z;
  ps_context : Z;
}.

Definition no_signal : pending_signal := PendingSignal 0 0 0.

Record sig_state := SigState {
  signal_handlers : list Z;   (** 0 is [NULL] *)
  pending_signals : ring pending_signal;
  eflags : Z;
}.

(** ** Critical sections (kernel/include/io.h) *)

Definition EFLAGS_IF : Z := 512.

Definition interrupts_disable (s : sig_state) : sig_state :=
  SigState (signal_handlers s) (pending_signals s) (Z.land (eflags s) (Z.lnot EFLAGS_IF)).

Definition interrupts_save (s : sig_state) : Z * sig_state :=
  (eflags s, interrupts_disable s).

Definition interrupts_restore (flags : Z) (s : sig_state) : sig_state :=
  SigState (signal_handlers s) (pending_signals s) flags.

Definition interrupts_enabled (s : sig_state) : bool :=
  negb (Z.land (eflags s) EFLAGS_IF =? 0).

(** ** Operations *)

Definition set_handlers (h : list Z) (s : sig_state) : sig_state :=
  SigState h (pending_signals s) (eflags s).

Definition set_pending (q : ring pending_signal) (s : sig_state) : sig_state :=
  SigState (signal_handlers s) q (eflags s).

Definition signals_init (s : sig_state) : sig_state :=
  SigState (replicate (Z.to_nat MAX_KERNEL_SIGNALS) 0)
    (Ring (rb_buf (pending_signals s)) 0 0) (eflags s).

Definition valid_signal (signal : Z) : bool :=
  negb ((signal <=? 0) || (MAX_KERNEL_SIGNALS <=? signal)).

Definition register_signal_handler (signal handler : Z) (s : sig_state) : Z * sig_state :=
  if negb (valid_signal signal) then (-1, s) else
  let '(flags, s) := interrupts_save s in
  let s := set_handlers (setZ (signal_handlers s) signal handler) s in
  (0, interrupts_restore flags s).

Definition schedule_signal (signal value context : Z) (s : sig_state) : Z * sig_state :=
  if negb (valid_signal signal) then (-1, s) else
  let '(flags, s) := interrupts_save s in
  match ring_push SIGNAL_QUEUE_CAPACITY (PendingSignal (u8 signal) value context)
          (pending_signals s) with
  | None => (-1, interrupts_restore flags s)
  | Some q => (0, interrupts_restore flags (set_pending q s))
  end.

Definition signal_pending_count (s : sig_state) : Z * sig_state :=
  let '(flags, s) := interrupts_save s in
  let count := ring_count SIGNAL_QUEUE_CAPACITY (pending_signals s) in
  (count, interrupts_restore flags s).

Section dispatch.
(** [W] is the rest of the kernel state; [run_callback f signal value context]
    is the call of the function at address [f]. *)
Context {W : Type} (run_callback : Z -> Z -> Z -> Z -> sig_state * W -> sig_state * W).

(** The [while (1)] loop; the fuel bounds the number of iterations. *)
Fixpoint signal_dispatch_loop (fuel : nat) (dispatched : Z) (sw : sig_state * W)
    : outcome (Z * (sig_state * W)) :=
  match fuel with
  | O => OutOfFuel
  | S fuel =>
      let '(flags, s) := interrupts_save (fst sw) in
      match ring_pop SIGNAL_QUEUE_CAPACITY no_signal (pending_signals s) with
      | None => Ret (dispatched, (interrupts_restore flags s, snd sw))
      | Some (pending, q) =>
          let s := set_pending q s in
          let callback := getZ 0 (signal_handlers s) (ps_signal pending) in
          let s := interrupts_restore flags s in
          let sw :=
            if negb (callback =? 0)
            then run_callback callback (ps_signal pending) (ps_value pending)
                   (ps_context pending) (s, snd sw)
            else (s, snd sw) in
          signal_dispatch_loop fuel (dispatched + 1) sw
      end
  end.

Definition signal_dispatch_pending (fuel : nat) (sw : sig_state * W)
    : outcome (Z * (sig_state * W)) := signal_dispatch_loop fuel 0 sw.
End dispatch.

(** ** Lemmas *)

Lemma capacity_ok : 1 < SIGNAL_QUEUE_CAPACITY < 2147483648.
Proof. by compute. Qed.

#[export] Instance signal_fifo : BoundedFifo (ring pending_signal) pending_signal :=
  ring_fifo no_signal SIGNAL_QUEUE_CAPACITY capacity_ok.

Abbreviation pending s := (fifo_items (pending_signals s)).

Record sig_wf (s : sig_state) : Prop := {
  wf_handlers : lenZ (signal_handlers s) = MAX_KERNEL_SIGNALS;
  wf_pending : fifo_ok (pending_signals s);
}.

Lemma restore_save s : interrupts_restore (fst (interrupts_save s)) (snd (interrupts_save s)) = s.
Proof. by destruct s. Qed.

Lemma schedule_signal_cases signal value context s :
  sig_wf s ->
  let r := schedule_signal signal value context s in
  if valid_signal signal && negb (length (pending s) =? 63)%nat
  then fst r = 0 /\ sig_wf (snd r) /\ signal_handlers (snd r) = signal_handlers s /\
       eflags (snd r) = eflags s /\
       pending (snd r) = pending s ++ [PendingSignal signal value context]
  else r = (-1, s).
Proof.
  intros [Hh Hq]. unfold schedule_signal, interrupts_save.
  destruct (valid_signal signal) eqn:Hv; simpl negb; cbv iota beta; [|done].
  simpl pending_signals.
  pose proof (fifo_push_full (PendingSignal (u8 signal) value context) _ Hq) as Hfull.
  change (@fifo_push _ _ signal_fifo) with (@ring_push pending_signal SIGNAL_QUEUE_CAPACITY)
    in Hfull.
  change (@fifo_cap _ _ signal_fifo) with 63%nat in Hfull.
  assert (u8 signal = signal) as Hu8.
  { apply u8_id. unfold valid_signal, MAX_KERNEL_SIGNALS in Hv. unfold is_u8.
    destruct (Z.leb_spec signal 0), (Z.leb_spec 32 signal); simpl in Hv; try done; lia. }
  rewrite Hu8 in *.
  destruct (ring_push _ _ _) as [q|] eqn:E.
  - assert (length (pending s) <> 63%nat) as Hne by (intros H; by apply Hfull in H).
    destruct (fifo_push_ok _ _ _ Hq E) as [Hq' Hitems].
    rewrite (proj2 (Nat.eqb_neq _ _) Hne). simpl. split; [done|].
    split; [by split|done].
  - rewrite (proj2 (Nat.eqb_eq _ _) (proj1 Hfull eq_refl)). simpl. by destruct s.
Qed.

Lemma signals_init_ok s :
  lenZ (rb_buf (pending_signals s)) = SIGNAL_QUEUE_CAPACITY ->
  sig_wf (signals_init s) /\ pending (signals_init s) = [].
Proof.
  intros Hl. split; [|done]. split; [done|].
  unfold fifo_ok. simpl. unfold ring_ok, signals_init, SIGNAL_QUEUE_CAPACITY in *. simpl. lia.
Qed.

Section dispatch_lemmas.
Context {W : Type} (run_callback : Z -> Z -> Z -> Z -> sig_state * W -> sig_state * W).

(** The world after delivering [ps] in order, for callbacks that leave the
    signal state alone. *)
Definition deliver (handlers : list Z) (s : sig_state) (w : W) (p : pending_signal) : W :=
  let callback := getZ 0 handlers (ps_signal p) in
  if negb (callback =? 0)
  then snd (run_callback callback (ps_signal p) (ps_value p) (ps_context p) (s, w))
  else w.

(** Callbacks that do not touch the signal state, and whose effect on the rest
    of the kernel does not depend on it. *)
Definition quiet : Prop :=
  forall f sg v c s s' w, fst (run_callback f sg v c (s, w)) = s /\
    snd (run_callback f sg v c (s, w)) = snd (run_callback f sg v c (s', w)).

Lemma dispatch_loop_fifo (Hquiet : quiet) s0 fuel n s w :
  sig_wf s -> (length (pending s) < fuel)%nat ->
  exists s', signal_dispatch_loop run_callback fuel n (s, w) =
    Ret (n + lenZ (pending s),
         (s', foldl (deliver (signal_handlers s) s0) w (pending s))) /\
    sig_wf s' /\ pending s' = [] /\ signal_handlers s' = signal_handlers s /\
    eflags s' = eflags s.
Proof.
  revert n s w. induction fuel as [|fuel IH]; intros n s w [Hh Hq] Hf; [lia|].
  simpl. change (@ring_pop pending_signal SIGNAL_QUEUE_CAPACITY no_signal)
    with (@fifo_pop _ _ signal_fifo).
  pose proof (fifo_pop_empty _ Hq) as Hemp.
  destruct (fifo_pop (pending_signals s)) as [[x q]|] eqn:E.
  - destruct (fifo_pop_ok _ _ _ Hq E) as [Hq' Hitems].
    rewrite Hitems in Hf |- *. simpl in Hf. unfold interrupts_restore, set_pending. simpl.
    set (s1 := SigState (signal_handlers s) q (eflags s)).
    assert (forall w, (if negb (getZ 0 (signal_handlers s) (ps_signal x) =? 0)
      then run_callback (getZ 0 (signal_handlers s) (ps_signal x)) (ps_signal x)
             (ps_value x) (ps_context x) (s1, w) else (s1, w))
      = (s1, deliver (signal_handlers s) s0 w x)) as ->.
    { intros w'. unfold deliver. case_match; [|done].
      destruct (Hquiet (getZ 0 (signal_handlers s) (ps_signal x)) (ps_signal x)
        (ps_value x) (ps_context x) s1 s0 w') as [H1 <-].
      rewrite <- H1 at 2. by destruct (run_callback _ _ _ _ _). }
    destruct (IH (n + 1) s1 (deliver (signal_handlers s) s0 w x)) as
      (s' & Hrun & Hwf' & Hempty & Hhs & Hfl); [by split|simpl; lia|].
    exists s'. split; [|done]. rewrite Hrun. f_equal. f_equal. unfold lenZ. simpl. lia.
  - rewrite (proj1 Hemp eq_refl). unfold interrupts_restore. simpl.
    exists s. split; [destruct s; simpl; f_equal; f_equal; unfold lenZ; simpl; lia|].
    by rewrite (proj1 Hemp eq_refl).
Qed.
End dispatch_lemmas.

(** ** The callback of the shell (kernel/src/shell.c)

    [shell_signal_handler] records the last signal and counts the deliveries;
    its terminal output is left out. *)

Record shell_signals := {
  shell_last_signal : Z;
  shell_last_signal_value : Z;
  shell_signal_count : Z;
}.

Definition shell_signal_handler (signal value context : Z) (w : shell_signals)
    : shell_signals := {|
  shell_last_signal := signal;
  shell_last_signal_value := value;
  shell_signal_count := u32 (shell_signal_count w + 1);
|}.

(** The only callback the kernel registers, wherever the linker puts it. *)
Definition shell_callbacks (f signal value context : Z) (sw : sig_state * shell_signals)
    : sig_state * shell_signals :=
  (fst sw, shell_signal_handler signal value context (snd sw)).

Lemma shell_callbacks_quiet : quiet shell_callbacks.
Proof. done. Qed.

(** ** Properties *)

(** [schedule_signal] accepts exactly the signals 1 to 31 while fewer than 63
    are pending; an accepted signal goes to the end of the queue, a refused one
    changes nothing, and the interrupt flag is restored in every case. *)
Theorem schedule_signal_correct signal value context s :
  sig_wf s ->
  let r := schedule_signal signal value context s in
  (fst r = 0 <-> 1 <= signal <= 31 /\ lenZ (pending s) < 63) /\
  (fst r = 0 -> sig_wf (snd r) /\
     pending (snd r) = pending s ++ [PendingSignal signal value context]) /\
  (fst r <> 0 -> r = (-1, s)) /\
  eflags (snd r) = eflags s.
Proof.
  intros Hwf r. pose proof (schedule_signal_cases signal value context s Hwf) as H.
  pose proof (fifo_bounded _ (wf_pending s Hwf)) as Hb.
  change (length (pending s) <= 63)%nat in Hb. fold r in H.
  assert (valid_signal signal = true <-> 1 <= signal <= 31) as Hv.
  { unfold valid_signal, MAX_KERNEL_SIGNALS. zbool; simpl; split; intros; try done; lia. }
  unfold lenZ. destruct (valid_signal signal); simpl in H.
  - destruct (Nat.eqb_spec (length (pending s)) 63); simpl in H.
    + rewrite H. simpl. intuition (done || lia).
    + destruct H as (-> & ? & _ & ? & ?). intuition lia.
  - rewrite H. simpl. intuition (done || congruence).
Qed.

Definition boot_signals : sig_state :=
  signals_init (SigState [] (ring_empty SIGNAL_QUEUE_CAPACITY no_signal) 514).

Lemma boot_signals_wf : sig_wf boot_signals.
Proof. by apply signals_init_ok. Qed.

Lemma schedule_signal_correct_witness :
  let r := schedule_signal KERNEL_SIGNAL_TEST 3235779124 0 boot_signals in
  (fst r = 0 <-> 1 <= 1 <= 31 /\ lenZ (pending boot_signals) < 63) /\
  (fst r = 0 -> sig_wf (snd r) /\
     pending (snd r) = pending boot_signals ++ [PendingSignal 1 3235779124 0]) /\
  (fst r <> 0 -> r = (-1, boot_signals)) /\
  eflags (snd r) = eflags boot_signals.
Proof.
  apply (schedule_signal_correct KERNEL_SIGNAL_TEST 3235779124 0 boot_signals),
    boot_signals_wf.
Defined.

(** C39. With callbacks that do not schedule signals themselves,
    [signal_dispatch_pending] terminates after the signals pending at the call,
    delivers each of them exactly once, in the order they were scheduled, to the
    callback registered for its number, returns their number and leaves an empty
    queue with the interrupt flag restored. *)
Theorem signal_dispatch_delivers_in_order {W} run_callback s (w : W) :
  quiet run_callback -> sig_wf s ->
  exists s', signal_dispatch_pending run_callback 64 (s, w) =
    Ret (lenZ (pending s),
         (s', foldl (deliver run_callback (signal_handlers s) s) w (pending s))) /\
    sig_wf s' /\ pending s' = [] /\ signal_handlers s' = signal_handlers s /\
    eflags s' = eflags s.
Proof.
  intros Hq Hwf. apply (dispatch_loop_fifo run_callback Hq s 64 0 s w Hwf).
  pose proof (fifo_bounded _ (wf_pending s Hwf)) as Hb.
  change (length (pending s) <= 63)%nat in Hb. lia.
Qed.

Lemma signal_dispatch_delivers_in_order_witness :
  let s := snd (schedule_signal 1 5 0 boot_signals) in
  let w := {| shell_last_signal := 0; shell_last_signal_value := 0;
              shell_signal_count := 0 |} in
  exists s', signal_dispatch_pending shell_callbacks 64 (s, w) =
    Ret (lenZ (pending s),
         (s', foldl (deliver shell_callbacks (signal_handlers s) s) w (pending s))) /\
    sig_wf s' /\ pending s' = [] /\ signal_handlers s' = signal_handlers s /\
    eflags s' = eflags s.
Proof.
  intros s w.
  apply (signal_dispatch_delivers_in_order shell_callbacks s w shell_callbacks_quiet).
  apply (schedule_signal_cases 1 5 0 boot_signals boot_signals_wf).
Defined.
