(* ===== verification/Serial.v ===== *)
(** * Port I/O and the serial line: kernel/include/io.h, kernel/src/serial.c

    The machine's ports are seen through the sequence of the accesses made, the
    oldest first; what a port answers is given by [device], a function of the
    accesses made so far, which stands for the hardware. *)

From S2P Require Import Prelude.

Inductive io_event :=
| In (port value : Z)
| Out (port value : Z).

Abbreviation trace := (list io_event).

#[export] Instance io_event_eq_dec : EqDecision io_event.
Proof. solve_decision. Defined.

Definition outb (port value : Z) (t : trace) : trace := t ++ [Out port (u8 value)].
Definition io_wait (t : trace) : trace := outb 128 0 t.

(** A sequence of [outb]. *)
Definition outs (l : list (Z * Z)) : trace := (fun pv => Out pv.1 pv.2) <$> l.

Definition SERIAL_COM1 : Z := 1016.
Definition SERIAL_DATA_PORT : Z := SERIAL_COM1 + 0.
Definition SERIAL_INTERRUPT_ENABLE_PORT : Z := SERIAL_COM1 + 1.
Definition SERIAL_FIFO_CONTROL_PORT : Z := SERIAL_COM1 + 2.
Definition SERIAL_LINE_CONTROL_PORT : Z := SERIAL_COM1 + 3.
Definition SERIAL_MODEM_CONTROL_PORT : Z := SERIAL_COM1 + 4.
Definition SERIAL_LINE_STATUS_PORT : Z := SERIAL_COM1 + 5.

(** Characters as bytes: ['\n'], ['\r'], ['\b'], [' ']. *)
Definition NEWLINE : Z := 10.
Definition RETURN : Z := 13.
Definition BACKSPACE : Z := 8.
Definition SPACE : Z := 32.

Section serial.
(** What the hardware answers, and how many times a busy wait may poll. *)
Context (device : trace -> Z -> Z) (fuel : nat).
Implicit Types t : trace.

Definition inb (port : Z) t : Z * trace :=
  let v := u8 (device t port) in (v, t ++ [In port v]).

Definition serial_transmit_ready t : bool * trace :=
  let '(v, t) := inb SERIAL_LINE_STATUS_PORT t in (negb (Z.land v 32 =? 0), t).

(** [serial_enabled] is the result beside the trace. *)
Definition serial_init t : Z * trace :=
  let t := outb SERIAL_INTERRUPT_ENABLE_PORT 0 t in
  let t := outb SERIAL_LINE_CONTROL_PORT 128 t in
  let t := outb SERIAL_DATA_PORT 3 t in
  let t := outb SERIAL_INTERRUPT_ENABLE_PORT 0 t in
  let t := outb SERIAL_LINE_CONTROL_PORT 3 t in
  let t := outb SERIAL_FIFO_CONTROL_PORT 199 t in
  let t := outb SERIAL_MODEM_CONTROL_PORT 15 t in
  (1, t).

Definition serial_is_enabled (serial_enabled : Z) : Z := serial_enabled.

Definition serial_has_data (serial_enabled : Z) t : bool * trace :=
  if serial_enabled =? 0 then (false, t) else
  let '(v, t) := inb SERIAL_LINE_STATUS_PORT t in (negb (Z.land v 1 =? 0), t).

Fixpoint wait_data (n : nat) (serial_enabled : Z) t : outcome trace :=
  match n with
  | O => OutOfFuel
  | S n => let '(b, t) := serial_has_data serial_enabled t in
      if b then Ret t else wait_data n serial_enabled t
  end.

Definition serial_read_char (serial_enabled : Z) t : outcome (Z * trace) :=
  t ← wait_data fuel serial_enabled t;
  Ret (inb SERIAL_DATA_PORT t).

(** [while (!serial_transmit_ready()) {}] *)
Fixpoint wait_ready (n : nat) t : outcome trace :=
  match n with
  | O => OutOfFuel
  | S n => let '(b, t) := serial_transmit_ready t in if b then Ret t else wait_ready n t
  end.

(** Wait, then send a byte. *)
Definition transmit (c : Z) t : outcome trace :=
  t ← wait_ready fuel t; Ret (outb SERIAL_DATA_PORT c t).

Definition serial_write_char (serial_enabled c : Z) t : outcome trace :=
  if serial_enabled =? 0 then Ret t else
  if c =? NEWLINE then t ← transmit RETURN t; transmit (u8 c) t
  else if c =? BACKSPACE then
    t ← transmit BACKSPACE t; t ← transmit SPACE t; transmit BACKSPACE t
  else transmit (u8 c) t.

(** A C string is the list of its characters, up to the first 0 or the end of
    the list; [None] is a null pointer. *)
Fixpoint serial_write_loop (serial_enabled : Z) (str : list Z) t : outcome trace :=
  match str with
  | [] => Ret t
  | c :: str => if c =? 0 then Ret t else
      t ← serial_write_char serial_enabled c t; serial_write_loop serial_enabled str t
  end.

Definition serial_write (serial_enabled : Z) (str : option (list Z)) t : outcome trace :=
  match str with
  | Some str => if serial_enabled =? 0 then Ret t else serial_write_loop serial_enabled str t
  | None => Ret t
  end.

(** ** What the other end of the line sees

    A byte written to the data port while the divisor latch is closed is sent;
    it is lost unless the line status register has said, since the last one,
    that the transmitter is free. *)

Record line := Line { latch : bool; free : bool; sent : list Z; lost : bool }.

Definition line_step (x : line) (e : io_event) : line :=
  match e with
  | In p v => if p =? 1021 then Line (latch x) (Z.testbit v 5) (sent x) (lost x) else x
  | Out p v =>
      if p =? 1019 then Line (Z.testbit v 7) (free x) (sent x) (lost x)
      else if p =? 1016 then
        if latch x then x
        else if free x then Line false false (sent x ++ [v]) (lost x)
        else Line false false (sent x) true
      else x
  end.

Definition line_of t : line := foldl line_step (Line false false [] false) t.

(** The trace after [n] more polls of the line status. *)
Fixpoint polled (n : nat) t : trace :=
  match n with O => t | S n => polled n (serial_transmit_ready t).2 end.

(** The transmitter becomes free within [fuel] polls, whenever they start. *)
Definition responsive : Prop :=
  forall t, exists n, (n < fuel)%nat /\ Z.testbit (device (polled n t) SERIAL_LINE_STATUS_PORT) 5 = true.

(** What is sent for a character. *)
Definition on_line (c : Z) : list Z :=
  if c =? NEWLINE then [RETURN; NEWLINE]
  else if c =? BACKSPACE then [BACKSPACE; SPACE; BACKSPACE] else [c].

(** ** Lemmas *)

Lemma line_of_snoc t e : line_of (t ++ [e]) = line_step (line_of t) e.
Proof. unfold line_of. by rewrite foldl_app. Qed.

Lemma testbit_land v i : 0 <= i -> Z.testbit v i = negb (Z.land v (2 ^ i) =? 0).
Proof.
  intros Hi. destruct (Z.eqb_spec (Z.land v (2 ^ i)) 0) as [E|E]; simpl.
  - apply (f_equal (fun x => Z.testbit x i)) in E.
    by rewrite Z.land_spec, Z.pow2_bits_true, andb_true_r, Z.bits_0 in E.
  - destruct (Z.testbit v i) eqn:B; [done|]. destruct E. apply Z.bits_inj'. intros n Hn.
    rewrite Z.land_spec, Z.bits_0, Z.pow2_bits_eqb by done.
    destruct (Z.eqb_spec i n) as [<-|]; [by rewrite B|apply andb_false_r].
Qed.

Lemma serial_bit v i : 0 <= i < 8 -> Z.testbit (u8 v) i = Z.testbit v i.
Proof. intros. unfold u8. change 256 with (2 ^ 8). apply Z.mod_pow2_bits_low. lia. Qed.

Lemma serial_transmit_ready_eq t :
  serial_transmit_ready t = (Z.testbit (device t SERIAL_LINE_STATUS_PORT) 5,
    t ++ [In SERIAL_LINE_STATUS_PORT (u8 (device t SERIAL_LINE_STATUS_PORT))]).
Proof.
  unfold serial_transmit_ready, inb. rewrite <- (serial_bit _ 5), (testbit_land _ 5) by lia. done.
Qed.

(** Two traces that differ by polls: the line sees the same bytes. *)
Definition after_polls t t' : Prop :=
  latch (line_of t') = latch (line_of t) /\ sent (line_of t') = sent (line_of t) /\
  lost (line_of t') = lost (line_of t).

Lemma after_poll t v : after_polls t (t ++ [In SERIAL_LINE_STATUS_PORT v]).
Proof. unfold after_polls. rewrite line_of_snoc. by destruct (line_of t). Qed.

Lemma wait_ready_spec n : forall k t,
  (k < n)%nat -> Z.testbit (device (polled k t) SERIAL_LINE_STATUS_PORT) 5 = true ->
  exists t', wait_ready n t = Ret t' /\ after_polls t t' /\ free (line_of t') = true.
Proof.
  induction n as [|n IH]; intros k t Hk Hready; [lia|]. cbn [wait_ready].
  rewrite serial_transmit_ready_eq.
  set (v := device t SERIAL_LINE_STATUS_PORT). set (t1 := t ++ _).
  destruct (Z.testbit v 5) eqn:E.
  - exists t1. split; [done|]. split; [apply after_poll|]. unfold t1. rewrite line_of_snoc. cbn [line_step].
    change (SERIAL_LINE_STATUS_PORT =? 1021) with true. cbn [free]. by rewrite serial_bit by lia.
  - destruct k as [|k]; [unfold v in E; cbn [polled] in Hready; congruence|].
    destruct (IH k t1) as (t' & E' & (A1 & A2 & A3) & Hf).
    + lia.
    + cbn [polled] in Hready. rewrite serial_transmit_ready_eq in Hready. exact Hready.
    + exists t'. split; [exact E'|]. split; [|done]. destruct (after_poll t (u8 v)) as (B1 & B2 & B3).
      fold t1 in B1, B2, B3. split; [|split]; congruence.
Qed.

(** The divisor latch is closed and nothing has been lost. *)
Definition sane t : Prop := latch (line_of t) = false /\ lost (line_of t) = false.

Lemma transmit_spec c t : responsive -> sane t -> is_u8 c ->
  exists t', transmit c t = Ret t' /\ sane t' /\ sent (line_of t') = sent (line_of t) ++ [c].
Proof.
  intros Hr [Hl Hn] Hc. destruct (Hr t) as (k & Hk & Hb).
  destruct (wait_ready_spec fuel k t Hk Hb) as (t1 & E & (A1 & A2 & A3) & Hf).
  unfold transmit. rewrite E. cbn [mbind outcome_bind]. eexists. split; [done|].
  unfold outb, sane. rewrite line_of_snoc. cbn [line_step]. change (SERIAL_DATA_PORT =? 1019) with false.
  change (SERIAL_DATA_PORT =? 1016) with true. cbn [negb]. rewrite A1, Hl, Hf, u8_id by done.
  cbn [latch lost sent]. rewrite A2, A3. done.
Qed.

Lemma serial_write_char_spec e c t : responsive -> sane t -> e <> 0 -> is_u8 c ->
  exists t', serial_write_char e c t = Ret t' /\ sane t' /\ sent (line_of t') = sent (line_of t) ++ on_line c.
Proof.
  intros Hr Hs He Hc. unfold serial_write_char, on_line. rewrite eqb_sym_neg, (u8_id c) by done.
  assert (is_u8 RETURN /\ is_u8 BACKSPACE /\ is_u8 SPACE) as (H1 & H2 & H3)
    by (unfold is_u8, RETURN, BACKSPACE, SPACE; lia).
  destruct (Z.eqb_spec c NEWLINE) as [->|].
  - destruct (transmit_spec RETURN t Hr Hs H1) as (t1 & -> & Hs1 & E1). cbn [mbind outcome_bind].
    destruct (transmit_spec NEWLINE t1 Hr Hs1 Hc) as (t2 & -> & Hs2 & E2).
    exists t2. split; [done|]. split; [done|]. by rewrite E2, E1, <- app_assoc.
  - destruct (c =? BACKSPACE); [|by apply transmit_spec].
    destruct (transmit_spec BACKSPACE t Hr Hs H2) as (t1 & -> & Hs1 & E1). cbn [mbind outcome_bind].
    destruct (transmit_spec SPACE t1 Hr Hs1 H3) as (t2 & -> & Hs2 & E2). cbn [mbind outcome_bind].
    destruct (transmit_spec BACKSPACE t2 Hr Hs2 H2) as (t3 & -> & Hs3 & E3).
    exists t3. split; [done|]. split; [done|]. by rewrite E3, E2, E1, <- !app_assoc.
Qed.

Lemma serial_write_spec e str t : responsive -> sane t -> e <> 0 ->
  Forall (fun c => is_u8 c /\ c <> 0) str ->
  exists t', serial_write e (Some str) t = Ret t' /\ sane t' /\
    sent (line_of t') = sent (line_of t) ++ concat (on_line <$> str).
Proof.
  intros Hr Hs He Hstr. unfold serial_write. rewrite eqb_sym_neg by done. revert t Hs.
  induction Hstr as [|c str [Hc Hc0] _ IH]; intros t Hs; cbn [serial_write_loop].
  - exists t. split; [done|]. split; [done|]. by rewrite app_nil_r.
  - rewrite eqb_sym_neg by done.
    destruct (serial_write_char_spec e c t Hr Hs He Hc) as (t1 & -> & Hs1 & E1). cbn [mbind outcome_bind].
    destruct (IH t1 Hs1) as (t2 & -> & Hs2 & E2). exists t2. split; [done|]. split; [done|].
    rewrite E2, E1, <- app_assoc. done.
Qed.

Lemma serial_init_sane t : lost (line_of t) = false -> sane (serial_init t).2 /\
  sent (line_of (serial_init t).2) = sent (line_of t).
Proof.
  intros Hl. unfold serial_init, outb, sane. cbn [snd].
  rewrite !line_of_snoc. destruct (line_of t) as [la fr se lo]. cbn [lost] in Hl. subst lo. by vm_compute.
Qed.

(** A string written to the serial line after [serial_init] arrives: if the
    transmitter becomes free within the polls allowed, the writing ends, the
    bytes sent are those of the string with [\n] sent as [\r\n] and [\b] as
    [\b \b], in order, and none is written while the transmitter is busy or
    while the divisor latch is open. *)
Theorem serial_write_correct str t :
  responsive -> lost (line_of t) = false -> Forall (fun c => is_u8 c /\ c <> 0) str ->
  let '(enabled, t0) := serial_init t in
  exists t', serial_write enabled (Some str) t0 = Ret t' /\ lost (line_of t') = false /\
    sent (line_of t') = sent (line_of t) ++ concat (on_line <$> str).
Proof.
  intros Hr Hl Hstr. destruct (serial_init t) as [e t0] eqn:E.
  assert (e = 1 /\ t0 = (serial_init t).2) as [-> Et] by (rewrite E; by injection E).
  destruct (serial_init_sane t Hl) as [Hs Hsent]. rewrite <- Et in Hs, Hsent.
  destruct (serial_write_spec 1 str t0 Hr Hs ltac:(lia) Hstr) as (t' & E' & [_ Hl'] & Hs').
  exists t'. split; [done|]. split; [done|]. by rewrite Hs', Hsent.
Qed.
End serial.

(** A transmitter that answers every other poll. *)
Definition slow_uart (t : trace) (port : Z) : Z :=
  match last t with Some (In _ 0) => 32 | _ => 0 end.

Lemma slow_uart_responsive : responsive slow_uart 2.
Proof.
  intros t. unfold slow_uart at 1. destruct (last t) as [[p v|p v]|] eqn:E.
  - destruct (decide (v = 0)) as [->|Hv].
    + exists 0%nat. split; [lia|]. cbn [polled]. by rewrite E.
    + exists 1%nat. split; [lia|]. cbn [polled]. rewrite serial_transmit_ready_eq. cbn [snd].
      rewrite last_snoc. unfold slow_uart. rewrite E. destruct v; done.
  - exists 1%nat. split; [lia|]. cbn [polled]. rewrite serial_transmit_ready_eq. cbn [snd].
    rewrite last_snoc. unfold slow_uart. by rewrite E.
  - exists 1%nat. split; [lia|]. cbn [polled]. rewrite serial_transmit_ready_eq. cbn [snd].
    rewrite last_snoc. unfold slow_uart. by rewrite E.
Qed.

Lemma serial_write_correct_witness :
  let t0 := (serial_init []).2 in
  exists t', serial_write slow_uart 2 1 (Some [72; 105; 10]) t0 = Ret t' /\ lost (line_of t') = false /\
    sent (line_of t') = [72; 105; 13; 10].
Proof.
  apply (serial_write_correct slow_uart 2 [72; 105; 10] []).
  - exact slow_uart_responsive.
  - reflexivity.
  - repeat constructor; done.
Defined.
