(* ===== verification/Gdt.v ===== *)
(** * Segments: kernel/src/gdt.c, kernel/include/gdt.h

    The descriptors are built in a table in ordinary storage, copied byte by
    byte to physical address 0x800 and loaded from there.  [segment_at] reads a
    descriptor the way the processor does. *)

From S2P Require Import Prelude Memory.

Definition GDT_BASE_ADDRESS : Z := 2048.
Definition GDT_ENTRY_COUNT : Z := 7.
Definition GDT_KERNEL_CODE_SELECTOR : Z := 8.
Definition GDT_KERNEL_DATA_SELECTOR : Z := 16.
Definition GDT_KERNEL_STACK_SELECTOR : Z := 24.
Definition GDT_USER_CODE_SELECTOR : Z := 32.
Definition GDT_USER_DATA_SELECTOR : Z := 40.
Definition GDT_USER_STACK_SELECTOR : Z := 48.

(** The fields of the packed [struct gdt_entry], in order. *)
Record gdt_entry := GdtEntry {
  limit_low : Z;
  base_low : Z;
  base_middle : Z;
  access : Z;
  granularity : Z;
  base_high : Z;
}.

Definition zero_entry : gdt_entry := GdtEntry 0 0 0 0 0 0.

(** Its eight bytes. *)
Definition entry_bytes (e : gdt_entry) : list Z :=
  [u8 (limit_low e); u8 (limit_low e / 256); u8 (base_low e); u8 (base_low e / 256);
   base_middle e; access e; granularity e; base_high e].

(** [gdt_descriptor] is the operand of [lgdt], segment registers as loaded. *)
Record gdt := Gdt {
  gdt_entries : list gdt_entry;
  descriptor_limit : Z;
  descriptor_base : Z;
}.

Definition with_entries (l : list gdt_entry) (g : gdt) : gdt :=
  Gdt l (descriptor_limit g) (descriptor_base g).

(** Only the code selector is loaded by the far jump, the stack selector into
    [ss], the data selector into the four others. *)
Record segment_registers := Segments { cs_ : Z; ds_ : Z; es_ : Z; fs_ : Z; gs_ : Z; ss_ : Z }.

Definition make_entry (base limit acc gran : Z) : gdt_entry :=
  GdtEntry (u16 (Z.land limit 65535)) (u16 (Z.land base 65535))
    (u8 (Z.land (Z.shiftr base 16) 255)) (u8 acc)
    (u8 (Z.lor (Z.land (Z.shiftr limit 16) 15) (Z.land gran 240)))
    (u8 (Z.land (Z.shiftr base 24) 255)).

Definition gdt_set_gate (num base limit acc gran : Z) (g : gdt) : gdt :=
  with_entries (setZ (gdt_entries g) num (make_entry base limit acc gran)) g.

(** [rep movsb] from [gdt_entries]. *)
Definition gdt_copy_to_low_memory (g : gdt) (m : mem) : mem :=
  let src := concat (entry_bytes <$> gdt_entries g) in
  for_range 0 (8 * GDT_ENTRY_COUNT) (fun i m => store8 m (GDT_BASE_ADDRESS + i) (getZ 0 src i)) m.

Definition init_gdt (g : gdt) (m : mem) : gdt * mem * segment_registers :=
  let g := Gdt (gdt_entries g) (8 * GDT_ENTRY_COUNT - 1) GDT_BASE_ADDRESS in
  let g := gdt_set_gate 0 0 0 0 0 g in
  let g := gdt_set_gate 1 0 4294967295 154 207 g in
  let g := gdt_set_gate 2 0 4294967295 146 207 g in
  let g := gdt_set_gate 3 0 4294967295 146 207 g in
  let g := gdt_set_gate 4 0 4294967295 250 207 g in
  let g := gdt_set_gate 5 0 4294967295 242 207 g in
  let g := gdt_set_gate 6 0 4294967295 242 207 g in
  let m := gdt_copy_to_low_memory g m in
  (g, m, Segments GDT_KERNEL_CODE_SELECTOR GDT_KERNEL_DATA_SELECTOR GDT_KERNEL_DATA_SELECTOR
           GDT_KERNEL_DATA_SELECTOR GDT_KERNEL_DATA_SELECTOR GDT_KERNEL_STACK_SELECTOR).

(** ** The processor's reading of a descriptor *)

Record segment := Segment {
  seg_base : Z;
  seg_limit : Z; (** in bytes *)
  seg_access : Z;
  seg_flags : Z;
}.

(** Bytes [b0 .. b7] of a descriptor; the limit counts 4 KB units when bit 7 of
    byte 6 is set. *)
Definition decode (b : Z -> Z) : segment :=
  let limit := b 0 + 256 * b 1 + 65536 * (b 6 mod 16) in
  Segment (b 2 + 256 * b 3 + 65536 * b 4 + 16777216 * b 7)
    (if Z.testbit (b 6) 7 then 4096 * limit + 4095 else limit) (b 5) (b 6 / 16).

Definition segment_at (m : mem) (base selector : Z) : segment :=
  decode (fun i => load8 m (base + selector / 8 * 8 + i)).

(** Present, flat over the 4 GB, 32-bit, at privilege [dpl]. *)
Definition flat (dpl : Z) (code : bool) (s : segment) : Prop :=
  seg_base s = 0 /\ seg_limit s = 4294967295 /\ seg_flags s = 12 /\
  seg_access s = 128 + 32 * dpl + (if code then 26 else 18).

(** ** Lemmas *)

Lemma land_ones k x : 0 <= k -> Z.land x (2 ^ k - 1) = x mod 2 ^ k.
Proof. intros. rewrite <- Z.land_ones, Z.ones_equiv by done. f_equal. Qed.

Lemma shiftr_div x k : 0 <= k -> Z.shiftr x k = x / 2 ^ k.
Proof. apply Z.shiftr_div_pow2. Qed.

Lemma lor_nibbles a b : 0 <= a < 16 -> 0 <= b < 256 -> Z.lor a (Z.land b 240) = a + b / 16 * 16.
Proof.
  intros Ha Hb. rewrite Z.lor_land_distr_r. change 240 with (Z.shiftl 15 4).
  assert (Z.land b (Z.shiftl 15 4) = b / 16 * 16) as E.
  { apply Z.bits_inj'. intros n Hn. rewrite Z.land_spec, Z.shiftl_spec by done.
    replace (b / 16 * 16) with (Z.shiftl (Z.shiftr b 4) 4) by (by rewrite Z.shiftl_mul_pow2, Z.shiftr_div_pow2).
    rewrite Z.shiftl_spec by done. destruct (Z.ltb_spec n 4).
    - rewrite !(Z.testbit_neg_r _ (n - 4)) by lia. apply andb_false_r.
    - rewrite Z.shiftr_spec by lia. replace (n - 4 + 4) with n by lia.
      change 15 with (Z.ones 4). destruct (Z.ltb_spec n 8).
      + rewrite Z.ones_spec_low by lia. apply andb_true_r.
      + rewrite Z.ones_spec_high by lia. rewrite andb_false_r. symmetry.
        rewrite <- (Z.mod_small b (2 ^ 8)) by done. apply Z.mod_pow2_bits_high. lia. }
  rewrite <- Z.lor_land_distr_r, E. rewrite <- Z.add_lor_land.
  assert (Z.land a (b / 16 * 16) = 0) as ->; [|lia].
  apply Z.bits_inj'. intros n Hn. rewrite Z.land_spec, Z.bits_0.
  replace (b / 16 * 16) with (Z.shiftl (b / 16) 4) by (by rewrite Z.shiftl_mul_pow2).
  rewrite Z.shiftl_spec by done. destruct (Z.ltb_spec n 4).
  - rewrite (Z.testbit_neg_r _ (n - 4)) by lia. apply andb_false_r.
  - rewrite <- (Z.mod_small a (2 ^ 4)), Z.mod_pow2_bits_high by lia. done.
Qed.

Lemma make_entry_eq base limit acc gran :
  is_u32 base -> is_u32 limit -> is_u8 acc -> is_u8 gran ->
  make_entry base limit acc gran =
    GdtEntry (limit mod 65536) (base mod 65536) (base / 65536 mod 256) acc
      (limit / 65536 mod 16 + gran / 16 * 16) (base / 16777216).
Proof.
  intros Hb Hl Ha Hg. unfold make_entry. unfold_ints.
  change 65535 with (2 ^ 16 - 1). change 255 with (2 ^ 8 - 1). change 15 with (2 ^ 4 - 1).
  rewrite !land_ones, !shiftr_div, lor_nibbles by (try lia; apply Z.mod_pos_bound; lia).
  change (2 ^ 16) with 65536. change (2 ^ 8) with 256. change (2 ^ 4) with 16. change (2 ^ 24) with 16777216.
  f_equal; try divlia; try (apply Z.mod_small; divlia).
Qed.

Lemma decode_ext b b' : (forall i, b i = b' i) -> decode b = decode b'.
Proof. intros H. unfold decode. by rewrite !H. Qed.

Lemma decode_bytes b0 b1 b2 b3 b4 b5 b6 b7 : decode (getZ 0 [b0; b1; b2; b3; b4; b5; b6; b7]) =
  Segment (b2 + 256 * b3 + 65536 * b4 + 16777216 * b7)
    (let limit := b0 + 256 * b1 + 65536 * (b6 mod 16) in
     if Z.testbit b6 7 then 4096 * limit + 4095 else limit) b5 (b6 / 16).
Proof. done. Qed.

(** The bytes copied, and nothing else. *)
Lemma load8_copy g m a : lenZ (gdt_entries g) = GDT_ENTRY_COUNT ->
  Forall (fun e => Forall is_u8 (entry_bytes e)) (gdt_entries g) ->
  load8 (gdt_copy_to_low_memory g m) a =
    if (GDT_BASE_ADDRESS <=? a) && (a <? GDT_BASE_ADDRESS + 56)
    then getZ 0 (concat (entry_bytes <$> gdt_entries g)) (a - GDT_BASE_ADDRESS) else load8 m a.
Proof.
  intros Hlen Hb. unfold gdt_copy_to_low_memory. set (src := concat _).
  assert (Forall is_u8 src) as Hsrc.
  { apply Forall_concat, Forall_fmap. exact Hb. }
  change (8 * GDT_ENTRY_COUNT) with 56.
  apply (for_range_ind _ (fun i m' => load8 m' a =
    if (GDT_BASE_ADDRESS <=? a) && (a <? GDT_BASE_ADDRESS + i) then getZ 0 src (a - GDT_BASE_ADDRESS) else load8 m a)).
  - lia.
  - zbool; simpl; try lia; done.
  - intros i m' Hi IH. rewrite load8_store8, IH.
    assert (is_u8 (getZ 0 src i)) by (apply getZ_Forall; [done|unfold is_u8; lia]).
    zbool; simpl; try lia; try done; subst; rewrite u8_id by done; f_equal; lia.
Qed.

(** A descriptor written by [gdt_set_gate] is read back by the processor with
    the base, the access byte and the flags given, and the low 20 bits of the
    limit. *)
Theorem gdt_set_gate_roundtrip num base limit acc gran g :
  0 <= num < lenZ (gdt_entries g) -> is_u32 base -> is_u32 limit -> is_u8 acc -> is_u8 gran ->
  decode (getZ 0 (entry_bytes (getZ zero_entry (gdt_entries (gdt_set_gate num base limit acc gran g)) num))) =
    Segment base (if 128 <=? gran then 4096 * (limit mod 1048576) + 4095 else limit mod 1048576) acc (gran / 16).
Proof.
  intros Hn Hb Hl Ha Hg. unfold gdt_set_gate, with_entries. cbn [gdt_entries].
  rewrite getZ_setZ_eq, make_entry_eq by done. unfold entry_bytes. cbn [limit_low Gdt.base_low base_middle access
    granularity base_high]. rewrite decode_bytes. cbv zeta.
  assert (0 <= limit / 65536 mod 16 < 16) by (apply Z.mod_pos_bound; lia).
  assert (Z.testbit (limit / 65536 mod 16 + gran / 16 * 16) 7 = (128 <=? gran)) as ->.
  { rewrite Z.testbit_eqb by lia. change (2 ^ 7) with 128. unfold_ints. zbool; divlia. }
  unfold_ints. f_equal; [divlia| |divlia]. destruct (128 <=? gran); divlia.
Qed.

(** After [init_gdt] the table of seven descriptors lies at 0x800 and nothing
    else in memory has changed: the null descriptor, then flat 4 GB segments,
    kernel code, data and stack at privilege 0 and user code, data and stack at
    privilege 3, each under its selector; every selector is inside the limit,
    and the segment registers hold the kernel's. *)
Theorem init_gdt_correct g m : lenZ (gdt_entries g) = GDT_ENTRY_COUNT ->
  let '(g', m', r) := init_gdt g m in
  let at' sel := segment_at m' (descriptor_base g') sel in
  descriptor_base g' = GDT_BASE_ADDRESS /\
  (forall sel, sel ∈ [cs_ r; ds_ r; es_ r; fs_ r; gs_ r; ss_ r; GDT_USER_CODE_SELECTOR; GDT_USER_DATA_SELECTOR;
     GDT_USER_STACK_SELECTOR] -> 0 < sel /\ sel / 8 * 8 + 7 <= descriptor_limit g') /\
  at' 0 = Segment 0 0 0 0 /\ flat 0 true (at' (cs_ r)) /\ flat 0 false (at' (ss_ r)) /\
  (forall sel, sel ∈ [ds_ r; es_ r; fs_ r; gs_ r] -> flat 0 false (at' sel)) /\
  flat 3 true (at' GDT_USER_CODE_SELECTOR) /\ flat 3 false (at' GDT_USER_DATA_SELECTOR) /\
  flat 3 false (at' GDT_USER_STACK_SELECTOR) /\
  forall a, ~ GDT_BASE_ADDRESS <= a < GDT_BASE_ADDRESS + 56 -> load8 m' a = load8 m a.
Proof.
  intros Hlen. destruct g as [es lim base]. simpl in Hlen.
  destruct es as [|e0 [|e1 [|e2 [|e3 [|e4 [|e5 [|e6 [|e7 es]]]]]]]]; try done; [|unfold lenZ, GDT_ENTRY_COUNT in Hlen; simpl in Hlen; lia].
  set (g' := (init_gdt (Gdt [e0; e1; e2; e3; e4; e5; e6] lim base) m).1.1).
  set (seen a := if (GDT_BASE_ADDRESS <=? a) && (a <? GDT_BASE_ADDRESS + 56)
    then getZ 0 (concat (entry_bytes <$> gdt_entries g')) (a - GDT_BASE_ADDRESS) else load8 m a).
  assert (forall a, load8 (gdt_copy_to_low_memory g' m) a = seen a) as Hload.
  { intros a. apply load8_copy; [done|]. vm_compute. repeat constructor; congruence. }
  assert (forall sel, segment_at (gdt_copy_to_low_memory g' m) GDT_BASE_ADDRESS sel =
    decode (fun i => seen (GDT_BASE_ADDRESS + sel / 8 * 8 + i))) as Hseg by (intros sel; apply decode_ext; done).
  change (init_gdt _ m) with (g', gdt_copy_to_low_memory g' m, Segments GDT_KERNEL_CODE_SELECTOR GDT_KERNEL_DATA_SELECTOR
    GDT_KERNEL_DATA_SELECTOR GDT_KERNEL_DATA_SELECTOR GDT_KERNEL_DATA_SELECTOR GDT_KERNEL_STACK_SELECTOR).
  cbv beta iota zeta. change (descriptor_base g') with GDT_BASE_ADDRESS. rewrite !Hseg. cbn [cs_ ds_ es_ fs_ gs_ ss_].
  split; [done|]. split; [intros sel Hsel; rewrite !elem_of_cons, elem_of_nil in Hsel;
    decompose [or] Hsel; subst; try done; by vm_compute|].
  split; [by vm_compute|]. split; [by vm_compute|]. split; [by vm_compute|].
  split; [intros sel Hsel; rewrite !elem_of_cons, elem_of_nil in Hsel; rewrite Hseg; decompose [or] Hsel; subst; try done; by vm_compute|].
  do 3 (split; [by vm_compute|]). intros a Ha. rewrite Hload. unfold seen. zbool; simpl; try lia; done.
Qed.

Lemma gdt_set_gate_roundtrip_witness :
  decode (getZ 0 (entry_bytes (getZ zero_entry
    (gdt_entries (gdt_set_gate 1 305419896 703710 154 79 (Gdt [zero_entry; zero_entry] 0 0))) 1))) =
    Segment 305419896 703710 154 4.
Proof. apply (gdt_set_gate_roundtrip 1 305419896 703710 154 79 (Gdt [zero_entry; zero_entry] 0 0)); by vm_compute. Defined.

Lemma init_gdt_correct_witness :
  let '(g', m', r) := init_gdt (Gdt (replicate 7 zero_entry) 0 0) ∅ in
  flat 0 true (segment_at m' (descriptor_base g') (cs_ r)) /\ flat 3 true (segment_at m' (descriptor_base g') 32).
Proof.
  pose proof (init_gdt_correct (Gdt (replicate 7 zero_entry) 0 0) ∅ eq_refl) as H.
  destruct (init_gdt _ _) as [[g' m'] r]. destruct H as (_ & _ & _ & H & _ & _ & H' & _). exact (conj H H').
Defined.
