(* ===== verification/Idt.v ===== *)
(** * Interrupts: kernel/src/idt.c, kernel/include/idt.h

    The gates, the two interrupt controllers (seen through the port accesses)
    and the dispatch of an interrupt to its handler.  Handlers are named; what
    they do to the rest of the system is given by [call], which Interrupts.v
    instantiates with the handlers of the source. *)

From S2P Require Import Prelude Serial Gdt.

Definition IDT_ENTRY_COUNT : Z := 256.
Definition IRQ_BASE_VECTOR : Z := 32.
Definition IRQ0_VECTOR : Z := 32.
Definition IRQ1_VECTOR : Z := 33.
Definition SYSCALL_VECTOR : Z := 128.
Definition IDT_FLAG_INTERRUPT_GATE : Z := 142.
Definition IDT_FLAG_SYSCALL_GATE : Z := 238.

Definition PIC1_COMMAND_PORT : Z := 32.
Definition PIC1_DATA_PORT : Z := 33.
Definition PIC2_COMMAND_PORT : Z := 160.
Definition PIC2_DATA_PORT : Z := 161.
Definition PIC_ICW1_INIT : Z := 16.
Definition PIC_ICW1_ICW4 : Z := 1.
Definition PIC_ICW4_8086 : Z := 1.
Definition PIC_EOI : Z := 32.

Record idt_entry := IdtEntry {
  base_low : Z;
  selector : Z;
  zero : Z;
  flags : Z;
  base_high : Z;
}.
Definition empty_gate : idt_entry := IdtEntry 0 0 0 0 0.

(** The frame built by the interrupt stubs. *)
Record cpu_registers := Registers {
  gs : Z; fs : Z; es : Z; ds : Z;
  edi : Z; esi : Z; ebp : Z; esp : Z; ebx : Z; edx : Z; ecx : Z; eax : Z;
  int_no : Z; err_code : Z; eip : Z; cs : Z; eflags : Z;
}.

(** The functions the source registers, and any other. *)
Inductive interrupt_handler :=
| timer_interrupt
| keyboard_interrupt
| syscall_interrupt
| OtherHandler (id : Z).

#[export] Instance interrupt_handler_eq_dec : EqDecision interrupt_handler.
Proof. solve_decision. Defined.

Record idt := Idt {
  idt_entries : list idt_entry;
  descriptor_limit : Z;
  descriptor_base : Z;
  interrupt_handlers : list (option interrupt_handler);
}.

Definition exception_messages : list string := [
  "Division by zero"; "Debugger"; "Non-maskable interrupt"; "Breakpoint"; "Overflow";
  "Bound range exceeded"; "Invalid opcode"; "Device not available"; "Double fault";
  "Coprocessor segment overrun"; "Invalid task state segment"; "Segment not present";
  "Stack fault"; "General protection fault"; "Page fault"; "Reserved exception";
  "Math fault"; "Alignment check"; "Machine check"; "SIMD floating-point exception";
  "Reserved exception"; "Reserved exception"; "Reserved exception"; "Reserved exception";
  "Reserved exception"; "Reserved exception"; "Reserved exception"; "Reserved exception";
  "Reserved exception"; "Reserved exception"; "Reserved exception"; "Reserved exception"]%string.

Definition with_gates (l : list idt_entry) (i : idt) : idt :=
  Idt l (descriptor_limit i) (descriptor_base i) (interrupt_handlers i).
Definition with_handlers (l : list (option interrupt_handler)) (i : idt) : idt :=
  Idt (idt_entries i) (descriptor_limit i) (descriptor_base i) l.

Definition make_gate (base sel fl : Z) : idt_entry :=
  IdtEntry (u16 (Z.land base 65535)) sel 0 fl (u16 (Z.land (Z.shiftr base 16) 65535)).

Definition idt_set_gate (vector base sel fl : Z) (i : idt) : idt :=
  with_gates (setZ (idt_entries i) vector (make_gate base sel fl)) i.

Definition idt_clear_tables (i : idt) : idt :=
  for_range 0 IDT_ENTRY_COUNT (fun k i =>
    with_handlers (setZ (interrupt_handlers i) k None) (with_gates (setZ (idt_entries i) k empty_gate) i)) i.

Definition idt_register_handler (vector : Z) (handler : option interrupt_handler) (i : idt) : idt :=
  with_handlers (setZ (interrupt_handlers i) vector handler) i.

Definition idt_unregister_handler (vector : Z) (i : idt) : idt :=
  with_handlers (setZ (interrupt_handlers i) vector None) i.

(** Both results; the source skips the null pointers. *)
Definition idt_get_descriptor (i : idt) : Z * Z := (descriptor_base i, descriptor_limit i).

(** ** The interrupt controllers *)

(** The tables cleared, then the gates of the 48 stubs of [interrupt_stub_table]. *)
Definition stub_table (stub : Z -> Z) (i : idt) : idt :=
  for_range 0 48 (fun v i => idt_set_gate v (stub v) GDT_KERNEL_CODE_SELECTOR IDT_FLAG_INTERRUPT_GATE i)
    (idt_clear_tables i).

Section pic.
Context (device : trace -> Z -> Z).
Implicit Types t : trace.

Definition pic_remap (master_offset slave_offset : Z) t : trace :=
  let '(master_mask, t) := inb device PIC1_DATA_PORT t in
  let '(slave_mask, t) := inb device PIC2_DATA_PORT t in
  let t := io_wait (outb PIC1_COMMAND_PORT (Z.lor PIC_ICW1_INIT PIC_ICW1_ICW4) t) in
  let t := io_wait (outb PIC2_COMMAND_PORT (Z.lor PIC_ICW1_INIT PIC_ICW1_ICW4) t) in
  let t := io_wait (outb PIC1_DATA_PORT master_offset t) in
  let t := io_wait (outb PIC2_DATA_PORT slave_offset t) in
  let t := io_wait (outb PIC1_DATA_PORT 4 t) in
  let t := io_wait (outb PIC2_DATA_PORT 2 t) in
  let t := io_wait (outb PIC1_DATA_PORT PIC_ICW4_8086 t) in
  let t := io_wait (outb PIC2_DATA_PORT PIC_ICW4_8086 t) in
  let t := outb PIC1_DATA_PORT master_mask t in
  outb PIC2_DATA_PORT slave_mask t.

Definition pic_send_eoi (irq : Z) t : trace :=
  let t := if 8 <=? irq then outb PIC2_COMMAND_PORT PIC_EOI t else t in
  outb PIC1_COMMAND_PORT PIC_EOI t.

(** The port and the bit of an interrupt line. *)
Definition pic_line (irq : Z) : Z * Z :=
  if irq <? 8 then (PIC1_DATA_PORT, irq) else (PIC2_DATA_PORT, irq - 8).

Definition pic_set_mask (irq : Z) t : trace :=
  let '(port, irq) := pic_line irq in
  let '(v, t) := inb device port t in
  outb port (Z.lor v (u8 (Z.shiftl 1 irq))) t.

Definition pic_clear_mask (irq : Z) t : trace :=
  let '(port, irq) := pic_line irq in
  let '(v, t) := inb device port t in
  outb port (Z.land v (u8 (Z.lnot (Z.shiftl 1 irq)))) t.

(** [stub] is [interrupt_stub_table], [isr128] the address of the system call
    stub, [table] that of [idt_entries]. *)
Definition idt_init (stub : Z -> Z) (isr128 table : Z) (i : idt) t : idt * trace :=
  let i := stub_table stub i in
  let i := idt_set_gate SYSCALL_VECTOR isr128 GDT_KERNEL_CODE_SELECTOR IDT_FLAG_SYSCALL_GATE i in
  let i := Idt (idt_entries i) (8 * IDT_ENTRY_COUNT - 1) table (interrupt_handlers i) in
  let t := pic_remap IRQ_BASE_VECTOR (IRQ_BASE_VECTOR + 8) t in
  let t := outb PIC1_DATA_PORT 249 t in
  (i, outb PIC2_DATA_PORT 255 t).
End pic.

Section dispatch.
(** The rest of the system, and what the handlers do to it. *)
Context {W : Type} (call : interrupt_handler -> cpu_registers -> trace -> W -> outcome (cpu_registers * trace * W)).

(** [panic_with_registers] halts.  The end of interrupt is sent after the
    handler has returned. *)
Definition idt_handle_interrupt (i : idt) (registers : cpu_registers) (t : trace) (w : W)
    : outcome (cpu_registers * trace * W) :=
  let vector := Z.land (int_no registers) 255 in
  '(registers, t, w) ←
    match getZ None (interrupt_handlers i) vector with
    | Some h => call h registers t w
    | None => if vector <? 32 then Panicked (getZ EmptyString exception_messages vector)
              else Ret (registers, t, w)
    end;
  if (IRQ_BASE_VECTOR <=? vector) && (vector <? IRQ_BASE_VECTOR + 16)
  then Ret (registers, pic_send_eoi (u8 (vector - IRQ_BASE_VECTOR)) t, w)
  else Ret (registers, t, w).
End dispatch.

(** ** Lemmas *)

(** Where the processor goes through a gate that is present. *)
Definition gate_offset (g : idt_entry) : Z := base_low g + 65536 * base_high g.
Definition gate_present (g : idt_entry) : bool := Z.testbit (flags g) 7.
(** The privilege from which software may raise it. *)
Definition gate_dpl (g : idt_entry) : Z := flags g / 32 mod 4.

Lemma gate_offset_make base sel fl : is_u32 base -> gate_offset (make_gate base sel fl) = base.
Proof.
  intros Hb. unfold gate_offset, make_gate. cbn [base_low base_high].
  change 65535 with (2 ^ 16 - 1). rewrite !land_ones, shiftr_div by lia.
  change (2 ^ 16) with 65536. unfold_ints. divlia.
Qed.

Lemma getZ_outside {A} (d : A) l k : ~ 0 <= k < lenZ l -> getZ d l k = d.
Proof.
  intros Hk. destruct (Z.ltb_spec k 0); [|apply getZ_out; lia]. unfold getZ. by destruct (Z.ltb_spec k 0); [|lia].
Qed.

Lemma for_range_setZ {A B} (get : A -> list B) (step : Z -> A -> A) (d : B) f n s k :
  (forall i s, 0 <= i < n -> get (step i s) = setZ (get s) i (f i)) -> 0 <= n <= lenZ (get s) ->
  let s' := for_range 0 n step s in
  lenZ (get s') = lenZ (get s) /\ getZ d (get s') k = if (0 <=? k) && (k <? n) then f k else getZ d (get s) k.
Proof.
  intros Hstep Hn. cbv zeta. apply (for_range_ind _ (fun i s' =>
    lenZ (get s') = lenZ (get s) /\ getZ d (get s') k = if (0 <=? k) && (k <? i) then f k else getZ d (get s) k)).
  - lia.
  - split; [done|]. zbool; simpl; try lia; done.
  - intros i s' Hi [Hl IH]. rewrite Hstep by done. rewrite lenZ_setZ. split; [done|].
    rewrite getZ_setZ, IH by lia. zbool; simpl; try lia; subst; done.
Qed.

Lemma vector_mod v : Z.land v 255 = v mod 256.
Proof. apply (Z.land_ones v 8). lia. Qed.

Lemma stub_table_handlers stub i : interrupt_handlers (stub_table stub i) = interrupt_handlers (idt_clear_tables i).
Proof.
  unfold stub_table. apply (for_range_inv _ (fun s => interrupt_handlers s = interrupt_handlers (idt_clear_tables i))).
  - reflexivity.
  - intros v s _ E. exact E.
Qed.

Lemma clear_tables_handlers i : lenZ (interrupt_handlers i) = IDT_ENTRY_COUNT ->
  lenZ (interrupt_handlers (idt_clear_tables i)) = 256 /\
  forall v, getZ None (interrupt_handlers (idt_clear_tables i)) v = None.
Proof.
  intros Hh. unfold idt_clear_tables. set (step := fun k i => with_handlers _ _).
  pose proof (for_range_setZ interrupt_handlers step None (fun _ => None) IDT_ENTRY_COUNT i) as H.
  rewrite Hh in H. cbv zeta in H. unfold IDT_ENTRY_COUNT in *. split; [by apply (H 0)|].
  intros k. destruct (H k) as [_ ->]; [done|done|]. zbool; simpl; try done; apply getZ_outside; lia.
Qed.

(** [idt_init] once the tables are filled. *)
Definition finish_init device isr128 at_ i t : idt * trace :=
  let i := idt_set_gate SYSCALL_VECTOR isr128 GDT_KERNEL_CODE_SELECTOR IDT_FLAG_SYSCALL_GATE i in
  let i := Idt (idt_entries i) (8 * IDT_ENTRY_COUNT - 1) at_ (interrupt_handlers i) in
  let t := pic_remap device IRQ_BASE_VECTOR (IRQ_BASE_VECTOR + 8) t in
  let t := outb PIC1_DATA_PORT 249 t in
  (i, outb PIC2_DATA_PORT 255 t).

Lemma idt_init_finish device stub isr128 at_ i t :
  idt_init device stub isr128 at_ i t = finish_init device isr128 at_ (stub_table stub i) t.
Proof. reflexivity. Qed.

Lemma finish_init_handlers device isr128 at_ i t :
  interrupt_handlers (finish_init device isr128 at_ i t).1 = interrupt_handlers i.
Proof. reflexivity. Qed.

Lemma idt_init_handlers device stub isr128 at_ i t :
  lenZ (interrupt_handlers i) = IDT_ENTRY_COUNT -> lenZ (interrupt_handlers (idt_init device stub isr128 at_ i t).1) = 256 /\
  forall v, getZ None (interrupt_handlers (idt_init device stub isr128 at_ i t).1) v = None.
Proof.
  intros Hl. rewrite idt_init_finish, finish_init_handlers, stub_table_handlers. by apply clear_tables_handlers.
Qed.

(** What [pic_remap] writes: the initialisation words of both controllers, each
    followed by a short wait, and the masks found. *)
Definition pic_words (master slave mask1 mask2 : Z) : list (Z * Z) :=
  [(32, 17); (128, 0); (160, 17); (128, 0); (33, master); (128, 0); (161, slave); (128, 0);
   (33, 4); (128, 0); (161, 2); (128, 0); (33, 1); (128, 0); (161, 1); (128, 0); (33, mask1); (161, mask2)].

Lemma clear_tables_spec i :
  lenZ (idt_entries i) = IDT_ENTRY_COUNT -> lenZ (interrupt_handlers i) = IDT_ENTRY_COUNT ->
  lenZ (idt_entries (idt_clear_tables i)) = 256 /\
  (forall k, getZ empty_gate (idt_entries (idt_clear_tables i)) k = empty_gate) /\
  (forall k, getZ None (interrupt_handlers (idt_clear_tables i)) k = None).
Proof.
  intros Hg Hh. unfold idt_clear_tables. set (step := fun k i => with_handlers _ _).
  pose proof (for_range_setZ idt_entries step empty_gate (fun _ => empty_gate) IDT_ENTRY_COUNT i) as H1.
  pose proof (for_range_setZ interrupt_handlers step None (fun _ => None) IDT_ENTRY_COUNT i) as H2.
  rewrite Hg in H1. rewrite Hh in H2. cbv zeta in H1, H2. unfold IDT_ENTRY_COUNT in *.
  split; [|split].
  - by apply (H1 0).
  - intros k. destruct (H1 k) as [_ ->]; [done|done|]. zbool; simpl; try done; apply getZ_outside; lia.
  - intros k. destruct (H2 k) as [_ ->]; [done|done|]. zbool; simpl; try done; apply getZ_outside; lia.
Qed.

Lemma stub_gates_spec stub i : lenZ (idt_entries i) = 256 ->
  let step v i := idt_set_gate v (stub v) GDT_KERNEL_CODE_SELECTOR IDT_FLAG_INTERRUPT_GATE i in
  lenZ (idt_entries (for_range 0 48 step i)) = 256 /\
  (forall k, getZ empty_gate (idt_entries (for_range 0 48 step i)) k =
     if (0 <=? k) && (k <? 48) then make_gate (stub k) GDT_KERNEL_CODE_SELECTOR IDT_FLAG_INTERRUPT_GATE
     else getZ empty_gate (idt_entries i) k) /\
  interrupt_handlers (for_range 0 48 step i) = interrupt_handlers i.
Proof.
  intros Hl step.
  pose proof (for_range_setZ idt_entries step empty_gate
    (fun v => make_gate (stub v) GDT_KERNEL_CODE_SELECTOR IDT_FLAG_INTERRUPT_GATE) 48 i) as H.
  rewrite Hl in H. cbv zeta in H. split; [by apply (H 0)|]. split; [intros k; by apply H|].
  by apply (for_range_inv step (fun s => interrupt_handlers s = interrupt_handlers i)).
Qed.

Lemma stub_table_spec stub i :
  lenZ (idt_entries i) = IDT_ENTRY_COUNT -> lenZ (interrupt_handlers i) = IDT_ENTRY_COUNT ->
  lenZ (idt_entries (stub_table stub i)) = 256 /\
  (forall k, getZ empty_gate (idt_entries (stub_table stub i)) k =
     if (0 <=? k) && (k <? 48) then make_gate (stub k) GDT_KERNEL_CODE_SELECTOR IDT_FLAG_INTERRUPT_GATE else empty_gate) /\
  (forall k, getZ None (interrupt_handlers (stub_table stub i)) k = None).
Proof.
  intros Hg Hh. destruct (clear_tables_spec i Hg Hh) as (H0 & H1 & H2).
  destruct (stub_gates_spec stub _ H0) as (Hl & H3 & H4). unfold stub_table. split; [exact Hl|]. split.
  - intros k. rewrite H3, H1. reflexivity.
  - intros k. rewrite H4. apply H2.
Qed.

(** The gate of the system calls over the other tables. *)
Lemma syscall_gate_spec stub isr128 i k :
  lenZ (idt_entries i) = IDT_ENTRY_COUNT -> lenZ (interrupt_handlers i) = IDT_ENTRY_COUNT ->
  let i' := idt_set_gate SYSCALL_VECTOR isr128 GDT_KERNEL_CODE_SELECTOR IDT_FLAG_SYSCALL_GATE (stub_table stub i) in
  lenZ (idt_entries i') = 256 /\ getZ None (interrupt_handlers i') k = None /\
  getZ empty_gate (idt_entries i') k =
    if k =? 128 then make_gate isr128 GDT_KERNEL_CODE_SELECTOR IDT_FLAG_SYSCALL_GATE
    else if (0 <=? k) && (k <? 48) then make_gate (stub k) GDT_KERNEL_CODE_SELECTOR IDT_FLAG_INTERRUPT_GATE else empty_gate.
Proof.
  intros Hg Hh. destruct (stub_table_spec stub i Hg Hh) as (Hl & H3 & H4). generalize dependent (stub_table stub i).
  intros i2 Hl H3 H4. cbv zeta. cbn [idt_entries interrupt_handlers idt_set_gate with_gates].
  rewrite lenZ_setZ, getZ_setZ by (rewrite Hl; done). split; [exact Hl|]. split; [apply H4|].
  unfold SYSCALL_VECTOR. destruct (k =? 128); [reflexivity|apply H3].
Qed.

Lemma idt_init_trace device t : exists m1 m2,
  outb PIC2_DATA_PORT 255 (outb PIC1_DATA_PORT 249 (pic_remap device IRQ_BASE_VECTOR (IRQ_BASE_VECTOR + 8) t)) =
    t ++ [In 33 m1; In 161 m2] ++ outs (pic_words 32 40 m1 m2 ++ [(33, 249); (161, 255)]).
Proof.
  unfold pic_remap, inb, io_wait, outb. set (m1 := u8 (device t PIC1_DATA_PORT)).
  set (m2 := u8 (device (t ++ [In PIC1_DATA_PORT m1]) PIC2_DATA_PORT)).
  exists m1, m2. rewrite (u8_id m1), (u8_id m2) by apply u8_range.
  clearbody m2. clearbody m1. rewrite <- !app_assoc. reflexivity.
Qed.

(** After [idt_init], whatever the tables held: vectors 0 to 47 have present
    kernel gates that lead to their stubs, vector 0x80 a present gate that user
    code may raise, no other vector has a gate and no handler is registered; the
    controllers have been initialised with the vectors 32 to 39 and 40 to 47
    and, in the end, only the keyboard and the cascade line are unmasked. *)
Theorem idt_init_correct device stub isr128 table i t :
  lenZ (idt_entries i) = IDT_ENTRY_COUNT -> lenZ (interrupt_handlers i) = IDT_ENTRY_COUNT ->
  (forall v, 0 <= v < 48 -> is_u32 (stub v)) -> is_u32 isr128 ->
  let '(i', t') := idt_init device stub isr128 table i t in
  let gate v := getZ empty_gate (idt_entries i') v in
  (forall v, 0 <= v < 48 -> gate_offset (gate v) = stub v /\ selector (gate v) = GDT_KERNEL_CODE_SELECTOR /\
     gate_present (gate v) = true /\ gate_dpl (gate v) = 0) /\
  (gate_offset (gate 128) = isr128 /\ selector (gate 128) = GDT_KERNEL_CODE_SELECTOR /\
     gate_present (gate 128) = true /\ gate_dpl (gate 128) = 3) /\
  (forall v, 48 <= v < 256 -> v <> 128 -> gate_present (gate v) = false) /\
  (forall v, getZ None (interrupt_handlers i') v = None) /\
  idt_get_descriptor i' = (table, 2047) /\ lenZ (idt_entries i') = 256 /\
  exists m1 m2, t' = t ++ [In 33 m1; In 161 m2] ++ outs (pic_words 32 40 m1 m2 ++ [(33, 249); (161, 255)]).
Proof.
  intros Hg Hh Hstub Hisr. unfold idt_init.
  pose proof (fun k => syscall_gate_spec stub isr128 i k Hg Hh) as H. cbv zeta in H.
  generalize dependent (idt_set_gate SYSCALL_VECTOR isr128 GDT_KERNEL_CODE_SELECTOR IDT_FLAG_SYSCALL_GATE (stub_table stub i)).
  intros i2 H. cbv zeta. cbn [idt_entries interrupt_handlers].
  split; [|split; [|split; [|split; [|split; [|split]]]]].
  - intros v Hv. destruct (H v) as (_ & _ & ->). rewrite (eqb_sym_neg v 128) by lia.
    destruct (Z.leb_spec 0 v); [|lia]. destruct (Z.ltb_spec v 48); [|lia]. cbn [andb].
    by rewrite gate_offset_make by auto.
  - destruct (H 128) as (_ & _ & ->). by rewrite Z.eqb_refl, gate_offset_make.
  - intros v Hv Hne. destruct (H v) as (_ & _ & ->). rewrite (eqb_sym_neg v 128) by lia.
    destruct (Z.ltb_spec v 48); [lia|]. by rewrite andb_false_r.
  - intros v. apply (H v).
  - reflexivity.
  - apply (H 0).
  - apply idt_init_trace.
Qed.

(** An interrupt goes to the handler registered for its vector; without one,
    an exception panics with its message and any other vector is ignored.  The
    end of interrupt is sent once the handler has returned: to the slave and
    the master controller for the vectors 40 to 47, to the master alone for 32
    to 39, to none for any other vector. *)
Theorem idt_handle_interrupt_correct {W : Type} call i r t (w : W) :
  let v := int_no r mod 256 in
  let eoi t := if (32 <=? v) && (v <? 48) then t ++ outs ((if 40 <=? v then [(160, 32)] else []) ++ [(32, 32)]) else t in
  idt_handle_interrupt call i r t w =
    match getZ None (interrupt_handlers i) v with
    | Some h => '(r', t', w') ← call h r t w; Ret (r', eoi t', w')
    | None => if v <? 32 then Panicked (getZ EmptyString exception_messages v) else Ret (r, eoi t, w)
    end.
Proof.
  cbv zeta. unfold idt_handle_interrupt. rewrite vector_mod. set (v := int_no r mod 256).
  assert (forall t' : trace, 32 <= v < 48 -> pic_send_eoi (u8 (v - IRQ_BASE_VECTOR)) t' =
    t' ++ outs ((if 40 <=? v then [(160, 32)] else []) ++ [(32, 32)])) as Heoi.
  { intros t' Hv. unfold pic_send_eoi, IRQ_BASE_VECTOR, outb. rewrite (u8_id (v - 32)) by (unfold is_u8; lia).
    destruct (Z.leb_spec 8 (v - 32)); destruct (Z.leb_spec 40 v); try lia; [|done]. by rewrite <- app_assoc. }
  assert (forall (r' : cpu_registers) (t' : trace) (w' : W), (if (IRQ_BASE_VECTOR <=? v) && (v <? IRQ_BASE_VECTOR + 16)
    then Ret (r', pic_send_eoi (u8 (v - IRQ_BASE_VECTOR)) t', w') else Ret (r', t', w')) =
    Ret (r', if (32 <=? v) && (v <? 48) then t' ++ outs ((if 40 <=? v then [(160, 32)] else []) ++ [(32, 32)]) else t', w'))
    as Hend.
  { intros r' t' w'. change (IRQ_BASE_VECTOR + 16) with 48. change IRQ_BASE_VECTOR with 32 at 1.
    destruct (Z.leb_spec 32 v); destruct (Z.ltb_spec v 48); cbn [andb]; try done. by rewrite Heoi. }
  destruct (getZ None _ v) as [h|].
  - destruct (call h r t w) as [[[r' t'] w']| |]; cbn [mbind outcome_bind]; [apply Hend|done|done].
  - destruct (v <? 32); [done|]. cbn [mbind outcome_bind]. apply Hend.
Qed.

Lemma u8_lnot_bit i n : 0 <= i -> 0 <= n < 8 -> Z.testbit (u8 (Z.lnot (Z.shiftl 1 i))) n = negb (n =? i).
Proof.
  intros Hi Hn. rewrite serial_bit, Z.lnot_spec, Z.shiftl_spec by lia. f_equal.
  destruct (Z.eqb_spec n i) as [->|]; [by rewrite Z.sub_diag|].
  destruct (Z.ltb_spec n i); [by apply Z.testbit_neg_r; lia|].
  change 1 with (2 ^ 0). apply Z.pow2_bits_false. lia.
Qed.

(** Masking or unmasking a line reads the mask of its controller and writes
    it back with the bit of that line set or cleared and the other seven bits
    as they were. *)
Theorem pic_mask_correct device irq t : 0 <= irq < 16 ->
  let port := if irq <? 8 then 33 else 161 in
  let old := u8 (device t port) in
  exists set clear, pic_set_mask device irq t = t ++ [In port old; Out port set] /\
    pic_clear_mask device irq t = t ++ [In port old; Out port clear] /\ is_u8 set /\ is_u8 clear /\
    forall n, 0 <= n < 8 ->
      Z.testbit set n = (n =? irq mod 8) || Z.testbit old n /\
      Z.testbit clear n = negb (n =? irq mod 8) && Z.testbit old n.
Proof.
  intros Hirq. cbv zeta. unfold pic_set_mask, pic_clear_mask.
  assert (pic_line irq = (if irq <? 8 then 33 else 161, irq mod 8)) as ->.
  { unfold pic_line, PIC1_DATA_PORT, PIC2_DATA_PORT. zbool; f_equal; divlia. }
  set (port := if irq <? 8 then 33 else 161). unfold inb, outb. set (old := u8 (device t port)).
  assert (0 <= irq mod 8 < 8) as Hb by (apply Z.mod_pos_bound; lia). set (b := irq mod 8) in *.
  eexists _, _. split; [by rewrite <- app_assoc|]. split; [by rewrite <- app_assoc|].
  split; [apply u8_range|]. split; [apply u8_range|].
  intros n Hn. rewrite !(serial_bit _ n), Z.lor_spec, Z.land_spec by done. split.
  - rewrite serial_bit by done. rewrite orb_comm. f_equal. rewrite Z.shiftl_spec by lia.
    destruct (Z.eqb_spec n b) as [->|]; [by rewrite Z.sub_diag|].
    destruct (Z.ltb_spec n b); [by apply Z.testbit_neg_r; lia|]. change 1 with (2 ^ 0). apply Z.pow2_bits_false. lia.
  - rewrite u8_lnot_bit by lia. apply andb_comm.
Qed.

Lemma idt_init_correct_witness :
  let i := Idt (replicate 256 empty_gate) 0 0 (replicate 256 (Some timer_interrupt)) in
  let '(i', t') := idt_init (fun _ _ => 184) (fun v => 1048576 + 16 * v) 1052672 4096 i [] in
  gate_offset (getZ empty_gate (idt_entries i') 33) = 1049104 /\ getZ None (interrupt_handlers i') 33 = None.
Proof.
  cbv zeta. pose proof (idt_init_correct (fun _ _ => 184) (fun v => 1048576 + 16 * v) 1052672 4096
    (Idt (replicate 256 empty_gate) 0 0 (replicate 256 (Some timer_interrupt))) [] eq_refl eq_refl) as H.
  destruct (idt_init _ _ _ _ _ _) as [i' t']. cbv zeta in H.
  destruct H as (H & _ & _ & Hn & _); [intros v Hv; unfold is_u32; lia|unfold is_u32; lia|].
  exact (conj (proj1 (H 33 ltac:(lia))) (Hn 33)).
Defined.

Lemma pic_mask_correct_witness :
  pic_clear_mask (fun _ _ => 249) 0 [] = [In 33 249; Out 33 248] /\
  exists set, pic_set_mask (fun _ _ => 249) 0 [] = [In 33 249; Out 33 set].
Proof.
  split; [reflexivity|].
  destruct (pic_mask_correct (fun _ _ => 249) 0 [] ltac:(lia)) as (set & clear & E & _). exists set. exact E.
Defined.
