(* ===== verification/Keyboard.v ===== *)
(** * The keyboard driver: kernel/src/keyboard.c

    The IRQ1 handler decodes one scancode per interrupt (shift state, 0xE0
    prefix, two ASCII tables), queues the character in a 256-slot ring and
    schedules [KERNEL_SIGNAL_KEYBOARD]; the shell reads characters with
    [keyboard_try_read_char] and whole lines with [keyboard_get_line].
    Characters are the byte values 0..255 of the C [char]s.  The scancode is
    the value [inb(KEYBOARD_DATA_PORT)] returned. *)

From S2P Require Import Prelude Interfaces Ring Signals.

Definition KEYBOARD_BUFFER_SIZE : Z := 256.

Definition KEY_PAGE_UP : Z := 128.
Definition KEY_PAGE_DOWN : Z := 129.
Definition KEY_ARROW_UP : Z := 130.
Definition KEY_ARROW_DOWN : Z := 131.

(** The C tables as byte values; 34 is the double quote, 39 the quote. *)
Definition ascii_codes (s : string) : list Z :=
  map (fun c => Z.of_N (Ascii.N_of_ascii c)) (String.list_ascii_of_string s).

Definition scancode_to_ascii : list Z :=
  [0; 0] ++ ascii_codes "1234567890-=" ++ [8] ++
  [9] ++ ascii_codes "qwertyuiop[]" ++ [10] ++
  [0] ++ ascii_codes "asdfghjkl;'`" ++
  [0] ++ ascii_codes "\zxcvbnm,./" ++ [0] ++
  ascii_codes "*" ++ [0] ++ ascii_codes " ".

Definition scancode_to_ascii_shift : list Z :=
  [0; 0] ++ ascii_codes "!@#$%^&*()_+" ++ [8] ++
  [9] ++ ascii_codes "QWERTYUIOP{}" ++ [10] ++
  [0] ++ ascii_codes "ASDFGHJKL:" ++ [34] ++ ascii_codes "~" ++
  [0] ++ ascii_codes "|ZXCVBNM<>?" ++ [0] ++
  ascii_codes "*" ++ [0] ++ ascii_codes " ".

Record kbd := Kbd {
  keyboard_buffer : ring Z;
  shift_held : bool;
  extended_prefix : bool;
}.

Definition set_buffer (q : ring Z) (k : kbd) : kbd :=
  Kbd q (shift_held k) (extended_prefix k).
Definition set_shift (b : bool) (k : kbd) : kbd :=
  Kbd (keyboard_buffer k) b (extended_prefix k).
Definition set_prefix (b : bool) (k : kbd) : kbd :=
  Kbd (keyboard_buffer k) (shift_held k) b.

(** ** Operations *)

Definition init_keyboard (k : kbd) : kbd :=
  set_buffer (Ring (rb_buf (keyboard_buffer k)) 0 0) k.

Definition keyboard_queue_char (c : Z) (k : kbd) : kbd :=
  match ring_push KEYBOARD_BUFFER_SIZE c (keyboard_buffer k) with
  | None => k
  | Some q => set_buffer q k
  end.

(** Queue a key and schedule its signal; the results are ignored. *)
Definition keyboard_deliver (c : Z) (k : kbd) (s : sig_state) : kbd * sig_state :=
  (keyboard_queue_char c k, snd (schedule_signal KERNEL_SIGNAL_KEYBOARD (u8 c) 0 s)).

Definition extended_key (scancode : Z) : Z :=
  if scancode =? 72 then KEY_ARROW_UP
  else if scancode =? 80 then KEY_ARROW_DOWN
  else if scancode =? 73 then KEY_PAGE_UP
  else if scancode =? 81 then KEY_PAGE_DOWN
  else 0.

Definition keyboard_handler (scancode : Z) (k : kbd) (s : sig_state) : kbd * sig_state :=
  if (scancode =? 42) || (scancode =? 54) then (set_shift true k, s) else
  if (scancode =? 170) || (scancode =? 182) then (set_shift false k, s) else
  if scancode =? 224 then (set_prefix true k, s) else
  if extended_prefix k then
    let k := set_prefix false k in
    if negb (Z.land scancode 128 =? 0) then (k, s) else
    let key := extended_key scancode in
    if negb (key =? 0) then keyboard_deliver key k s else (k, s)
  else
  if negb (Z.land scancode 128 =? 0) || (lenZ scancode_to_ascii <=? scancode) then (k, s) else
  let table := if shift_held k then scancode_to_ascii_shift else scancode_to_ascii in
  let c := getZ 0 table scancode in
  if negb (c =? 0) then keyboard_deliver c k s else (k, s).

Definition keyboard_shift_held (k : kbd) : bool := shift_held k.

Definition keyboard_has_char (k : kbd) : bool :=
  negb (rb_head (keyboard_buffer k) =? rb_tail (keyboard_buffer k)).

(** [out_char] is the caller's; the result is [None] when nothing was read. *)
Definition keyboard_try_read_char (k : kbd) (s : sig_state) : option Z * kbd * sig_state :=
  let '(flags, s) := interrupts_save s in
  match ring_pop KEYBOARD_BUFFER_SIZE 0 (keyboard_buffer k) with
  | None => (None, k, interrupts_restore flags s)
  | Some (c, q) => (Some c, set_buffer q k, interrupts_restore flags s)
  end.

(** [keyboard_get_line] against the characters [keyboard_getchar] will return,
    in order; [None] when it is still waiting after the last of them.  The loop
    runs [while (position + 1 < buffer_size)]. *)
Fixpoint get_line_loop (input : list Z) (buffer_size position : Z) (buffer : list Z)
    : option (Z * list Z * list Z) :=
  if negb (u32 (position + 1) <? buffer_size)
  then Some (position, setZ buffer position 0, input) else
  match input with
  | [] => None
  | c :: input =>
      if c =? 8 then
        get_line_loop input buffer_size (if 0 <? position then position - 1 else position) buffer
      else
        let buffer := setZ buffer position c in
        if c =? 10 then Some (position + 1, setZ buffer (position + 1) 0, input)
        else get_line_loop input buffer_size (position + 1) buffer
  end.

Definition keyboard_get_line (input : list Z) (buffer_size : Z) (buffer : list Z)
    : option (Z * list Z * list Z) :=
  if buffer_size =? 0 then Some (-1, buffer, input)
  else get_line_loop input buffer_size 0 buffer.

(** ** Lemmas *)

Lemma kbd_capacity_ok : 1 < KEYBOARD_BUFFER_SIZE < 2147483648.
Proof. by compute. Qed.

#[export] Instance keyboard_fifo : BoundedFifo (ring Z) Z :=
  ring_fifo 0 KEYBOARD_BUFFER_SIZE kbd_capacity_ok.

Abbreviation typed k := (fifo_items (keyboard_buffer k)).

Definition kbd_wf (k : kbd) : Prop := fifo_ok (keyboard_buffer k).

Lemma keyboard_queue_char_cases c k :
  kbd_wf k ->
  kbd_wf (keyboard_queue_char c k) /\
  typed (keyboard_queue_char c k) =
    typed k ++ (if (length (typed k) =? 255)%nat then [] else [c]) /\
  shift_held (keyboard_queue_char c k) = shift_held k /\
  extended_prefix (keyboard_queue_char c k) = extended_prefix k.
Proof.
  intros Hk. unfold keyboard_queue_char.
  pose proof (fifo_push_full c _ Hk) as Hfull.
  change (@ring_push Z KEYBOARD_BUFFER_SIZE) with (@fifo_push _ _ keyboard_fifo).
  change (@fifo_cap _ _ keyboard_fifo) with 255%nat in Hfull.
  destruct (fifo_push c (keyboard_buffer k)) as [q|] eqn:E.
  - assert (length (typed k) <> 255%nat) as Hne by (intros H; by apply Hfull in H).
    destruct (fifo_push_ok _ _ _ Hk E) as [Hq Hitems].
    by rewrite (proj2 (Nat.eqb_neq _ _) Hne).
  - rewrite (proj2 (Nat.eqb_eq _ _) (proj1 Hfull eq_refl)). by rewrite app_nil_r.
Qed.

Lemma keyboard_try_read_char_cases k s :
  kbd_wf k ->
  match typed k with
  | [] => keyboard_try_read_char k s = (None, k, s)
  | c :: l => exists k', keyboard_try_read_char k s = (Some c, k', s) /\ kbd_wf k' /\
      typed k' = l /\ shift_held k' = shift_held k /\ extended_prefix k' = extended_prefix k
  end.
Proof.
  intros Hk. unfold keyboard_try_read_char, interrupts_save.
  pose proof (fifo_pop_empty _ Hk) as Hemp.
  change (@ring_pop Z KEYBOARD_BUFFER_SIZE 0) with (@fifo_pop _ _ keyboard_fifo).
  destruct (fifo_pop (keyboard_buffer k)) as [[c q]|] eqn:E.
  - destruct (fifo_pop_ok _ _ _ Hk E) as [Hq ->]. exists (set_buffer q k).
    by destruct s.
  - rewrite (proj1 Hemp eq_refl). by destruct s.
Qed.

(** What a scancode means in a given decoder state: the character it types, 0
    for none, and the next decoder state (shift, prefix). *)
Definition decode (scancode : Z) (shift prefix : bool) : Z * bool * bool :=
  if (scancode =? 42) || (scancode =? 54) then (0, true, prefix) else
  if (scancode =? 170) || (scancode =? 182) then (0, false, prefix) else
  if scancode =? 224 then (0, shift, true) else
  if prefix then
    (if negb (Z.land scancode 128 =? 0) then 0 else extended_key scancode, shift, false)
  else
    (if negb (Z.land scancode 128 =? 0) || (58 <=? scancode) then 0
     else getZ 0 (if shift then scancode_to_ascii_shift else scancode_to_ascii) scancode,
     shift, false).

Lemma keyboard_handler_decode scancode k s :
  let '(c, shift, prefix) := decode scancode (shift_held k) (extended_prefix k) in
  let k' := Kbd (keyboard_buffer k) shift prefix in
  keyboard_handler scancode k s = if c =? 0 then (k', s) else keyboard_deliver c k' s.
Proof.
  unfold decode, keyboard_handler. change (lenZ scancode_to_ascii) with 58.
  destruct k as [q shift prefix]. simpl shift_held. simpl extended_prefix.
  destruct ((scancode =? 42) || (scancode =? 54)); [done|].
  destruct ((scancode =? 170) || (scancode =? 182)); [done|].
  destruct (scancode =? 224); [done|].
  destruct prefix.
  - destruct (negb (Z.land scancode 128 =? 0)); [done|].
    by destruct (extended_key scancode =? 0).
  - destruct (negb (Z.land scancode 128 =? 0) || (58 <=? scancode)); [done|].
    by destruct (getZ 0 _ scancode =? 0).
Qed.

(** ** Interrupts and reads interleaved

    Each IRQ1 and each [keyboard_try_read_char] is one atomic step (the reader
    disables interrupts), in any order. *)

Inductive kbd_label :=
| Irq (scancode : Z)
| TryRead (result : option Z).

Inductive kbd_step : kbd * sig_state -> kbd_label -> kbd * sig_state -> Prop :=
| step_irq scancode k s :
    kbd_step (k, s) (Irq scancode) (keyboard_handler scancode k s)
| step_read k s r k' s' :
    keyboard_try_read_char k s = (r, k', s') ->
    kbd_step (k, s) (TryRead r) (k', s').

Inductive kbd_run : kbd * sig_state -> list kbd_label -> kbd * sig_state -> Prop :=
| run_nil c : kbd_run c [] c
| run_cons c1 l c2 ls c3 :
    kbd_step c1 l c2 -> kbd_run c2 ls c3 -> kbd_run c1 (l :: ls) c3.

(** The characters the reader got, and the characters typed by the scancodes. *)
Definition reads (ls : list kbd_label) : list Z :=
  omap (fun l => match l with TryRead r => r | Irq _ => None end) ls.

Fixpoint decode_all (shift prefix : bool) (ls : list kbd_label) : list Z :=
  match ls with
  | [] => []
  | TryRead _ :: ls => decode_all shift prefix ls
  | Irq scancode :: ls =>
      let '(c, shift, prefix) := decode scancode shift prefix in
      (if c =? 0 then [] else [c]) ++ decode_all shift prefix ls
  end.

Lemma keyboard_handler_queue scancode k s k' s' :
  kbd_wf k -> keyboard_handler scancode k s = (k', s') ->
  let '(c, shift, prefix) := decode scancode (shift_held k) (extended_prefix k) in
  kbd_wf k' /\ shift_held k' = shift /\ extended_prefix k' = prefix /\
  typed k' = typed k ++
    (if (c =? 0) || (length (typed k) =? 255)%nat then [] else [c]).
Proof.
  intros Hk Hh. pose proof (keyboard_handler_decode scancode k s) as H.
  destruct (decode _ _ _) as [[c shift] prefix]. rewrite Hh in H.
  destruct (c =? 0); simpl.
  - injection H as -> ->. by rewrite app_nil_r.
  - unfold keyboard_deliver in H. injection H as -> _.
    destruct (keyboard_queue_char_cases c (Kbd (keyboard_buffer k) shift prefix))
      as (? & ? & ? & ?); done.
Qed.

Lemma kbd_run_queue c1 ls c2 :
  kbd_run c1 ls c2 -> kbd_wf (fst c1) ->
  let typed_all := typed (fst c1) ++
    decode_all (shift_held (fst c1)) (extended_prefix (fst c1)) ls in
  kbd_wf (fst c2) /\ sublist (reads ls ++ typed (fst c2)) typed_all /\
  ((length typed_all <= 255)%nat -> reads ls ++ typed (fst c2) = typed_all).
Proof.
  induction 1 as [c|c1 l c2 ls c3 Hstep Hrun IH]; intros Hk.
  { simpl. rewrite app_nil_r. done. }
  destruct Hstep as [scancode k s|k s r k' s' Hr]; simpl in *.
  - destruct (keyboard_handler scancode k s) as [k' s'] eqn:E. simpl in *.
    pose proof (keyboard_handler_queue _ _ _ _ _ Hk E) as H.
    destruct (decode _ _ _) as [[c shift] prefix]. destruct H as (Hk' & <- & <- & Ht).
    destruct (IH Hk') as (Hk2 & Hsub & Heq). rewrite Ht, <- app_assoc in Hsub, Heq.
    split; [done|]. split.
    + etrans; [exact Hsub|]. apply sublist_app; [done|]. apply sublist_app; [|done].
      destruct (c =? 0), (_ =? 255)%nat; simpl; try done; apply sublist_nil_l.
    + intros Hlen. rewrite !length_app in Hlen.
      destruct (c =? 0); simpl in *; [by apply Heq; rewrite !length_app; simpl|].
      destruct (Nat.eqb_spec (length (typed k)) 255); simpl in *; [lia|].
      apply Heq. rewrite length_app. simpl. lia.
  - pose proof (keyboard_try_read_char_cases k s Hk) as H.
    destruct (typed k) as [|c l] eqn:E.
    + rewrite Hr in H. injection H as -> -> ->. simpl. rewrite E in IH. by apply IH.
    + destruct H as (k2 & Hr2 & Hk2 & Hl & Hs & Hp). rewrite Hr in Hr2.
      injection Hr2 as -> -> ->. simpl.
      destruct (IH Hk2) as (Hk3 & Hsub & Heq). rewrite Hl, Hs, Hp in *.
      split; [done|]. split; [by apply sublist_skip|].
      intros Hlen. f_equal. apply Heq. lia.
Qed.

(** ** Line editing *)

(** The line that the consumed characters leave: backspace erases. *)
Definition edit_line (cs : list Z) : list Z :=
  foldl (fun line c => if c =? 8 then take (length line - 1) line else line ++ [c]) [] cs.

Lemma edit_line_snoc cs c :
  edit_line (cs ++ [c]) =
    if c =? 8 then take (length (edit_line cs) - 1) (edit_line cs) else edit_line cs ++ [c].
Proof. unfold edit_line. by rewrite foldl_app. Qed.

(** The buffer holds [line] and then the terminator. *)
Definition holds_line (buffer line : list Z) : Prop :=
  take (length line) buffer = line /\ getZ 0 buffer (lenZ line) = 0.

Lemma take_setZ_le (l : list Z) n i v : (n <= i)%nat -> take n (setZ l (Z.of_nat i) v) = take n l.
Proof.
  intros. unfold setZ. case_match; [done|]. rewrite Nat2Z.id. by apply take_insert_ge.
Qed.

Lemma take_setZ_snoc (l line : list Z) v :
  take (length line) l = line -> (length line < length l)%nat ->
  take (length (line ++ [v])) (setZ l (lenZ line) v) = line ++ [v].
Proof.
  intros Hl Hlt. rewrite length_app. simpl. rewrite Nat.add_1_r.
  unfold setZ, lenZ. destruct (Z.ltb_spec (Z.of_nat (length line)) 0); [lia|].
  rewrite Nat2Z.id.
  rewrite (take_S_r _ _ v) by (apply list_lookup_insert_eq; lia).
  rewrite take_insert_ge by lia. by rewrite Hl.
Qed.

Lemma take_prefix (buffer line : list Z) :
  take (length line) buffer = line ->
  take (length (take (length line - 1) line)) buffer = take (length line - 1) line.
Proof.
  intros H. rewrite length_take.
  replace (_ `min` _)%nat with ((length line - 1) `min` length line)%nat by lia.
  rewrite <- take_take, H. done.
Qed.

Lemma holds_line_terminate buffer line :
  take (length line) buffer = line -> lenZ line < lenZ buffer ->
  holds_line (setZ buffer (lenZ line) 0) line.
Proof.
  intros Ht Hl. split.
  - unfold lenZ. by rewrite take_setZ_le by lia.
  - apply getZ_setZ_eq. unfold lenZ in *. lia.
Qed.

Lemma get_line_loop_spec input size done_ buffer :
  0 < size <= lenZ buffer -> size < 4294967296 ->
  lenZ (edit_line done_) < size ->
  take (length (edit_line done_)) buffer = edit_line done_ ->
  match get_line_loop input size (lenZ (edit_line done_)) buffer with
  | None => ~ In 10 input
  | Some (n, buffer', rest) =>
      exists consumed, input = consumed ++ rest /\
        let line := edit_line (done_ ++ consumed) in
        n = lenZ line /\ lenZ line < size /\ lenZ buffer' = lenZ buffer /\
        holds_line buffer' line
  end.
Proof.
  revert done_ buffer. induction input as [|c input IH]; intros done_ buffer Hsz Hu Hlt Htake.
  all: simpl; rewrite u32_id by (unfold is_u32, lenZ in *; lia).
  all: destruct (Z.ltb_spec (lenZ (edit_line done_) + 1) size); simpl negb; cbv iota.
  - by intros [].
  - exists []. cbv zeta. rewrite (app_nil_r done_), lenZ_setZ. repeat (split; [done|]).
    apply holds_line_terminate; done || lia.
  - destruct (Z.eqb_spec c 8) as [->|Hc].
    + assert ((if 0 <? lenZ (edit_line done_) then lenZ (edit_line done_) - 1
        else lenZ (edit_line done_)) = lenZ (edit_line (done_ ++ [8]))) as ->.
      { rewrite edit_line_snoc. simpl. unfold lenZ. rewrite length_take. zbool; lia. }
      specialize (IH (done_ ++ [8]) buffer Hsz Hu).
      rewrite edit_line_snoc in IH |- *. simpl in IH |- *.
      destruct (get_line_loop _ _ _ _) as [[[n b] rest]|].
      * destruct IH as (consumed & -> & H'); [unfold lenZ in *; rewrite length_take; lia| |].
        { by apply take_prefix. }
        exists (8 :: consumed). by rewrite <- app_assoc in H'.
      * intros [?|Hin]; [done|]. revert Hin. apply IH; [unfold lenZ in *; rewrite length_take; lia|].
        by apply take_prefix.
    + assert (edit_line (done_ ++ [c]) = edit_line done_ ++ [c]) as Hed.
      { rewrite edit_line_snoc. by rewrite (eqb_sym_neg _ _ Hc). }
      assert (take (length (edit_line (done_ ++ [c]))) (setZ buffer (lenZ (edit_line done_)) c)
        = edit_line (done_ ++ [c])) as Htake'.
      { rewrite Hed. apply take_setZ_snoc; [done|]. unfold lenZ in *. lia. }
      assert (lenZ (edit_line (done_ ++ [c])) = lenZ (edit_line done_) + 1) as Hlen.
      { rewrite Hed. unfold lenZ. rewrite length_app. simpl. lia. }
      rewrite <- Hlen. destruct (Z.eqb_spec c 10) as [->|].
      * exists [10]. split; [done|]. cbv zeta. split; [done|]. split; [lia|].
        rewrite !lenZ_setZ. split; [done|].
        apply holds_line_terminate; [done|rewrite lenZ_setZ; lia].
      * specialize (IH (done_ ++ [c]) (setZ buffer (lenZ (edit_line done_)) c)).
        rewrite lenZ_setZ in IH.
        destruct (get_line_loop _ _ _ _) as [[[n' b] rest]|].
        -- destruct IH as (consumed & -> & H'); try done; [lia|].
           exists (c :: consumed). by rewrite <- app_assoc in H'.
        -- intros [?|Hin]; [done|]. revert Hin. apply IH; done || lia.
  - exists []. cbv zeta. rewrite (app_nil_r done_), lenZ_setZ. repeat (split; [done|]).
    apply holds_line_terminate; done || lia.
Qed.

(** ** Properties *)

Definition boot_kbd : kbd := Kbd (ring_empty KEYBOARD_BUFFER_SIZE 0) false false.

Lemma boot_kbd_wf : kbd_wf boot_kbd.
Proof. apply (ring_empty_ok 0 256). lia. Qed.

(** C38. Whatever the interleaving of keyboard interrupts and reads, the
    characters read, followed by those still queued, are in typing order and
    none is invented or duplicated; when at most 255 characters are involved
    none is lost either. *)
Theorem keyboard_fifo_interleaving c1 ls c2 :
  kbd_run c1 ls c2 -> kbd_wf (fst c1) ->
  let typed_all := typed (fst c1) ++
    decode_all (shift_held (fst c1)) (extended_prefix (fst c1)) ls in
  sublist (reads ls ++ typed (fst c2)) typed_all /\
  (lenZ typed_all <= 255 -> reads ls ++ typed (fst c2) = typed_all).
Proof.
  intros Hrun Hk. destruct (kbd_run_queue c1 ls c2 Hrun Hk) as (_ & Hsub & Heq).
  split; [done|]. unfold lenZ. intros. apply Heq. lia.
Qed.

(** One step as a function, for concrete runs. *)
Definition irq_of (sc : Z) (c : kbd * sig_state) : kbd * sig_state :=
  keyboard_handler sc (fst c) (snd c).

Definition read_of (c : kbd * sig_state) : kbd * sig_state :=
  let '(_, k, s) := keyboard_try_read_char (fst c) (snd c) in (k, s).

Lemma irq_of_step sc c : kbd_step c (Irq sc) (irq_of sc c).
Proof. destruct c. apply step_irq. Qed.

(** Shift down, A, shift up, a read, B. *)
Lemma keyboard_fifo_interleaving_witness :
  let ls := [Irq 42; Irq 30; Irq 170; TryRead (Some 65); Irq 48] in
  let c2 := irq_of 48 (read_of (irq_of 170 (irq_of 30 (irq_of 42 (boot_kbd, boot_signals))))) in
  sublist (reads ls ++ typed (fst c2)) [65; 98] /\
  (lenZ [65; 98] <= 255 -> reads ls ++ typed (fst c2) = [65; 98]).
Proof.
  intros ls c2.
  apply (keyboard_fifo_interleaving (boot_kbd, boot_signals) ls c2); [|apply boot_kbd_wf].
  do 3 (eapply run_cons; [apply irq_of_step|]).
  eapply run_cons; [apply step_read; by vm_compute|].
  eapply run_cons; [apply irq_of_step|]. apply run_nil.
Defined.

(** [keyboard_get_line] returns the edited line: it consumes a prefix of the
    input, stores the characters left after the backspaces and a terminating 0,
    never writes past [buffer_size], and is still waiting only if no newline
    arrived. *)
Theorem keyboard_get_line_correct input buffer_size buffer :
  0 < buffer_size <= lenZ buffer -> buffer_size < 4294967296 ->
  match keyboard_get_line input buffer_size buffer with
  | None => ~ In 10 input
  | Some (n, buffer', rest) =>
      exists consumed, input = consumed ++ rest /\
        n = lenZ (edit_line consumed) /\ n < buffer_size /\
        lenZ buffer' = lenZ buffer /\
        take (Z.to_nat n) buffer' = edit_line consumed /\ getZ 0 buffer' n = 0
  end.
Proof.
  intros Hs Hu. unfold keyboard_get_line. destruct (Z.eqb_spec buffer_size 0); [lia|].
  pose proof (get_line_loop_spec input buffer_size [] buffer Hs Hu (proj1 Hs) eq_refl) as H.
  change (lenZ (edit_line [])) with 0 in H.
  destruct (get_line_loop _ _ _ _) as [[[n' b] rest]|]; [|done].
  destruct H as (consumed & ? & -> & ? & ? & Ht & Hz).
  exists consumed. simpl in *. repeat (split; [done|]). split; [|done].
    unfold lenZ. by rewrite Nat2Z.id.
Qed.

(** "ab<backspace>c<newline>" *)
Lemma keyboard_get_line_correct_witness :
  match keyboard_get_line [97; 98; 8; 99; 10; 120] 80 (replicate 80 0) with
  | None => ~ In 10 [97; 98; 8; 99; 10; 120]
  | Some (n, buffer', rest) =>
      exists consumed, [97; 98; 8; 99; 10; 120] = consumed ++ rest /\
        n = lenZ (edit_line consumed) /\ n < 80 /\
        lenZ buffer' = lenZ (replicate 80 0) /\
        take (Z.to_nat n) buffer' = edit_line consumed /\ getZ 0 buffer' n = 0
  end.
Proof.
  apply (keyboard_get_line_correct [97; 98; 8; 99; 10; 120] 80 (replicate 80 0)); [|done].
  by vm_compute.
Defined.

(** Every printable ASCII character can be typed: some scancode, with or
    without shift, decodes to it. *)
Theorem keyboard_types_printable_ascii c :
  32 <= c <= 126 ->
  exists scancode shift, 0 <= scancode < 128 /\
    decode scancode shift false = (c, shift, false).
Proof.
  intros Hc.
  set (hits sc sh := let '(c', sh', p') := decode sc sh false in
    (c' =? c) && Bool.eqb sh' sh && Bool.eqb p' false).
  cut (existsb (fun sc => hits sc false || hits sc true) (seqZ 0 58) = true).
  { intros H%existsb_exists. destruct H as (sc & Hin%list_elem_of_In%elem_of_seqZ & Hor).
    assert (exists sh, hits sc sh = true) as [sh Hh].
    { apply orb_true_iff in Hor as [|]; eauto. }
    exists sc, sh. split; [lia|]. unfold hits in Hh. destruct (decode sc sh false) as [[c' sh'] p'].
    rewrite !andb_true_iff, Z.eqb_eq, !Bool.eqb_true_iff in Hh. by destruct Hh as [[-> ->] ->]. }
  assert (forallb (fun c => existsb (fun sc =>
    (let '(c', sh', p') := decode sc false false in
       (c' =? c) && Bool.eqb sh' false && Bool.eqb p' false) ||
    (let '(c', sh', p') := decode sc true false in
       (c' =? c) && Bool.eqb sh' true && Bool.eqb p' false)) (seqZ 0 58)) (seqZ 32 95) = true)
    as H by (by vm_compute).
  rewrite forallb_forall in H. apply H, list_elem_of_In, elem_of_seqZ. lia.
Qed.

Lemma keyboard_types_printable_ascii_witness :
  exists scancode shift, 0 <= scancode < 128 /\
    decode scancode shift false = (64, shift, false).
Proof. apply (keyboard_types_printable_ascii 64). lia. Defined.

(** The fake shift codes [E0 2A] and [E0 AA] that keyboards send around
    navigation keys leave the extended prefix set, so that the next ordinary key
    is decoded as an extended one and lost. *)
Theorem keyboard_fake_shift_loses_key k s :
  extended_prefix k = false -> shift_held k = false ->
  let '(k1, s1) := keyboard_handler 224 k s in
  let '(k2, s2) := keyboard_handler 170 k1 s1 in
  extended_prefix k2 = true /\ keyboard_handler 30 k2 s2 = (k, s).
Proof. destruct k as [q sh pr]. simpl. intros -> ->. done. Qed.

Lemma keyboard_fake_shift_loses_key_witness :
  let '(k1, s1) := keyboard_handler 224 boot_kbd boot_signals in
  let '(k2, s2) := keyboard_handler 170 k1 s1 in
  extended_prefix k2 = true /\ keyboard_handler 30 k2 s2 = (boot_kbd, boot_signals).
Proof. by apply (keyboard_fake_shift_loses_key boot_kbd boot_signals). Defined.
