(* ===== verification/HeapInterface.v ===== *)
(** * What the kernel heap promises to the code that allocates from it

    [HeapAllocator] is the contract of kernel/src/kmalloc.c as
    kernel/src/vmalloc.c relies on it.  The heap keeps its own headers in the
    memory everybody shares, so that its operations act on the memory and on the
    variables of the allocator together; Heap.v provides the instance. *)

From S2P Require Import Prelude Memory.

(** The byte at [a] belongs to one of the payloads. *)
Definition in_payload (ps : list (Z * Z)) (a : Z) : Prop := exists q t, In (q, t) ps /\ q <= a < q + t.

(** Two ranges, given as address and size, have no byte in common. *)
Definition apart_from (x y : Z * Z) : Prop := x.1 + x.2 <= y.1 \/ y.1 + y.2 <= x.1.

(** The memory is changed only in [[lo, hi)]. *)
Definition only_in (lo hi : Z) (m m' : mem) : Prop :=
  forall a, a < lo \/ hi <= a -> load8 m' a = load8 m a.

(** The given payloads keep their bytes. *)
Definition keep_payloads (ps : list (Z * Z)) (m m' : mem) : Prop :=
  forall q t, In (q, t) ps -> agree m m' q (q + t).

(** [ha_ok m g ps]: the heap with variables [g] is intact in [m], and [ps] are the
    payloads it has handed out, in any order. *)
Class HeapAllocator (G : Type) := {
  ha_alloc : Z -> mem -> G -> outcome (Z * mem * G);
  ha_free : Z -> mem -> G -> outcome (mem * G);
  ha_start : G -> Z;
  ha_limit : G -> Z;
  ha_ok : mem -> G -> list (Z * Z) -> Prop;
  ha_area m g ps : ha_ok m g ps -> 0 < ha_start g /\ ha_limit g < 2147483648;
  ha_inside m g ps p k : ha_ok m g ps -> In (p, k) ps ->
    ha_start g < p /\ p + k <= ha_limit g /\ 0 < k /\ p mod 8 = 0;
  ha_perm m g ps ps' : ps ≡ₚ ps' -> ha_ok m g ps -> ha_ok m g ps';
  ha_apart m g x ps : ha_ok m g (x :: ps) -> Forall (apart_from x) ps;
  (** Clients write their payloads, and whatever lies outside the heap. *)
  ha_write m m' g ps : ha_ok m g ps ->
    (forall a, ha_start g <= a < ha_limit g -> ~ in_payload ps a -> load8 m' a = load8 m a) -> ha_ok m' g ps;
  ha_alloc_spec m g ps size : ha_ok m g ps -> 0 < size <= 2147483584 ->
    exists p m' g', ha_alloc size m g = Ret (p, m', g') /\
      ha_start g' = ha_start g /\ ha_limit g' = ha_limit g /\
      only_in (ha_start g) (ha_limit g) m m' /\ keep_payloads ps m m' /\
      (p = 0 /\ ha_ok m' g' ps \/ exists k, size <= k /\ ha_ok m' g' ((p, k) :: ps));
  ha_free_spec m g ps p k : ha_ok m g ((p, k) :: ps) ->
    exists m' g', ha_free p m g = Ret (m', g') /\
      ha_start g' = ha_start g /\ ha_limit g' = ha_limit g /\
      only_in (ha_start g) (ha_limit g) m m' /\ keep_payloads ps m m' /\ ha_ok m' g' ps;
}.

Arguments ha_alloc : simpl never.
Arguments ha_free : simpl never.
Arguments ha_start : simpl never.
Arguments ha_limit : simpl never.
Arguments ha_ok : simpl never.

Lemma only_in_refl lo hi m : only_in lo hi m m. Proof. done. Qed.
Lemma only_in_trans lo hi m1 m2 m3 : only_in lo hi m1 m2 -> only_in lo hi m2 m3 -> only_in lo hi m1 m3.
Proof. intros H1 H2 a Ha. rewrite H2 by done. by apply H1. Qed.
Lemma only_in_agree lo hi m m' a b : only_in lo hi m m' -> b <= lo \/ hi <= a -> agree m m' a b.
Proof. intros H Hab x Hx. apply H. lia. Qed.
#[export] Hint Resolve only_in_refl : kfs.

(** A payload can be taken from anywhere in the list. *)
Section payloads.
Context {G : Type} `{HA : HeapAllocator G}.

Lemma ha_payload_range m g ps p k : ha_ok m g ps -> In (p, k) ps -> 0 < p /\ p + k < 2147483648 /\ 0 < k.
Proof. intros H Hin. destruct (ha_area _ _ _ H). destruct (ha_inside _ _ _ _ _ H Hin) as (? & ? & ? & _). lia. Qed.

Lemma ha_distinct m g p k q t ps : ha_ok m g ((p, k) :: ps) -> In (q, t) ps -> p + k <= q \/ q + t <= p.
Proof.
  intros H Hin. pose proof (ha_apart _ _ _ _ H) as Ha. rewrite List.Forall_forall in Ha. exact (Ha _ Hin).
Qed.
End payloads.
