(* ===== verification/Kmalloc.v ===== *)
(** * The kernel heap: kernel/src/kmalloc.c

    A first-fit allocator over one contiguous area, the blocks chained by
    headers stored in the heap memory itself (size, free byte, next, prev,
    magic at offsets 0, 4, 8, 12, 16 of 20 bytes, padded to 24).  The state is
    the memory with the C globals; every header access is a load or a store of
    that memory.  The specification is the list of blocks in address order. *)

From S2P Require Import Prelude Interfaces Memory Pmm.

Definition BLOCK_MAGIC : Z := 3735928559.   (** 0xDEADBEEF *)
Definition MIN_BLOCK_SIZE : Z := 16.
Definition ALIGNMENT : Z := 8.
Definition ALIGN (size : Z) : Z :=
  Z.land (u32 (size + (ALIGNMENT - 1))) (u32 (Z.lnot (ALIGNMENT - 1))).
Definition HEADER_SIZE : Z := ALIGN 20.

(** ** Header fields *)

Definition hdr_size (m : mem) (b : Z) : Z := load32 m b.
Definition hdr_free (m : mem) (b : Z) : bool := negb (load8 m (b + 4) =? 0).
Definition hdr_next (m : mem) (b : Z) : Z := load32 m (b + 8).
Definition hdr_prev (m : mem) (b : Z) : Z := load32 m (b + 12).
Definition hdr_magic (m : mem) (b : Z) : Z := load32 m (b + 16).

Definition put_size (b v : Z) (m : mem) : mem := store32 m b v.
Definition put_free (b v : Z) (m : mem) : mem := store8 m (b + 4) v.
Definition put_next (b v : Z) (m : mem) : mem := store32 m (b + 8) v.
Definition put_prev (b v : Z) (m : mem) : mem := store32 m (b + 12) v.
Definition put_magic (b v : Z) (m : mem) : mem := store32 m (b + 16) v.

(** ** State *)

Record kheap := KHeap {
  hmem : mem;
  heap_start : Z;
  heap_end : Z;
  heap_max : Z;
  block_list : Z;
  total_allocations : Z;
  total_frees : Z;
  warnings : list string;   (** what [warn] printed, newest first *)
}.

Definition with_mem (f : mem -> mem) (h : kheap) : kheap :=
  KHeap (f (hmem h)) (heap_start h) (heap_end h) (heap_max h) (block_list h)
    (total_allocations h) (total_frees h) (warnings h).
Definition with_end (e : Z) (h : kheap) : kheap :=
  KHeap (hmem h) (heap_start h) e (heap_max h) (block_list h)
    (total_allocations h) (total_frees h) (warnings h).
Definition with_list (b : Z) (h : kheap) : kheap :=
  KHeap (hmem h) (heap_start h) (heap_end h) (heap_max h) b
    (total_allocations h) (total_frees h) (warnings h).
Definition count_allocation (h : kheap) : kheap :=
  KHeap (hmem h) (heap_start h) (heap_end h) (heap_max h) (block_list h)
    (u32 (total_allocations h + 1)) (total_frees h) (warnings h).
Definition count_free (h : kheap) : kheap :=
  KHeap (hmem h) (heap_start h) (heap_end h) (heap_max h) (block_list h)
    (total_allocations h) (u32 (total_frees h + 1)) (warnings h).
Definition heap_warn (msg : string) (h : kheap) : kheap :=
  KHeap (hmem h) (heap_start h) (heap_end h) (heap_max h) (block_list h)
    (total_allocations h) (total_frees h) (msg :: warnings h).

(** Bound on the walks along the block list: headers do not overlap. *)
Definition heap_fuel (h : kheap) : nat :=
  S (Z.to_nat ((heap_end h - heap_start h) / HEADER_SIZE)).

(** ** Operations *)

(** [kernel_end] is the linker symbol; the heap is reserved in the PMM. *)
Definition kmalloc_init (kernel_end : Z) (h : kheap) (p : pmm) : kheap * pmm :=
  let start := PAGE_ALIGN_UP (u32 (kernel_end + 65536)) in
  let max := u32 (start + 8 * 1024 * 1024) in
  (KHeap (hmem h) start start max 0 0 0 (warnings h),
   pmm_mark_region_used p start (u32 (max - start))).

(** [increment] is a C [int]; the failure value, pointer -1, is 0xFFFFFFFF. *)
Definition kbrk (increment : Z) (h : kheap) : Z * kheap :=
  let old_end := heap_end h in
  if increment =? 0 then (heap_end h, h) else
  if 0 <? increment then
    let new_end := u32 (heap_end h + increment) in
    if heap_max h <? new_end
    then (u32 (-1), heap_warn "kbrk: Heap would exceed maximum size" h)
    else (old_end, with_end new_end h)
  else
    let new_end := u32 (heap_end h + increment) in
    let new_end := if new_end <? heap_start h then heap_start h else new_end in
    (old_end, with_end new_end h).

Fixpoint find_free_loop (fuel : nat) (m : mem) (size current : Z) : outcome Z :=
  match fuel with
  | O => OutOfFuel
  | S fuel =>
      if current =? 0 then Ret 0
      else if hdr_free m current && (size <=? hdr_size m current) then Ret current
      else find_free_loop fuel m size (hdr_next m current)
  end.

Definition find_free_block (h : kheap) (size : Z) : outcome Z :=
  find_free_loop (heap_fuel h) (hmem h) size (block_list h).

Definition split_block (block size : Z) (m : mem) : mem :=
  if u32 (u32 (size + HEADER_SIZE) + MIN_BLOCK_SIZE) <=? hdr_size m block then
    let new_block := u32 (u32 (block + HEADER_SIZE) + size) in
    let m := put_size new_block (u32 (u32 (hdr_size m block - size) - HEADER_SIZE)) m in
    let m := put_free new_block 1 m in
    let m := put_magic new_block BLOCK_MAGIC m in
    let m := put_next new_block (hdr_next m block) m in
    let m := put_prev new_block block m in
    let m := if negb (hdr_next m block =? 0)
             then put_prev (hdr_next m block) new_block m else m in
    let m := put_next block new_block m in
    put_size block size m
  else m.

(** The two halves of [coalesce_blocks]: with the next block, with the previous. *)
Definition coalesce_with_next (block : Z) (m : mem) : mem :=
  if negb (hdr_next m block =? 0) && hdr_free m (hdr_next m block) then
    let m := put_size block
      (u32 (hdr_size m block + u32 (HEADER_SIZE + hdr_size m (hdr_next m block)))) m in
    let m := put_next block (hdr_next m (hdr_next m block)) m in
    if negb (hdr_next m block =? 0) then put_prev (hdr_next m block) block m else m
  else m.

Definition coalesce_with_prev (block : Z) (m : mem) : mem :=
  if negb (hdr_prev m block =? 0) && hdr_free m (hdr_prev m block) then
    let m := put_size (hdr_prev m block)
      (u32 (hdr_size m (hdr_prev m block) + u32 (HEADER_SIZE + hdr_size m block))) m in
    let m := put_next (hdr_prev m block) (hdr_next m block) m in
    if negb (hdr_next m block =? 0) then put_prev (hdr_next m block) (hdr_prev m block) m else m
  else m.

Definition coalesce_blocks (block : Z) (m : mem) : mem :=
  coalesce_with_prev block (coalesce_with_next block m).

(** [while (last->next) last = last->next;] *)
Fixpoint last_block_loop (fuel : nat) (m : mem) (last : Z) : outcome Z :=
  match fuel with
  | O => OutOfFuel
  | S fuel =>
      if negb (hdr_next m last =? 0) then last_block_loop fuel m (hdr_next m last)
      else Ret last
  end.

Definition init_block (block size : Z) (m : mem) : mem :=
  put_prev block 0 (put_next block 0 (put_magic block BLOCK_MAGIC
    (put_free block 0 (put_size block size m)))).

Definition append_block (block : Z) (h : kheap) : outcome kheap :=
  if block_list h =? 0 then Ret (with_list block h) else
  last ← last_block_loop (heap_fuel h) (hmem h) (block_list h);
  Ret (with_mem (fun m => put_prev block last (put_next last block m)) h).

Definition request_size (size : Z) : Z :=
  let size := ALIGN size in
  if size <? MIN_BLOCK_SIZE then MIN_BLOCK_SIZE else size.

Definition kmalloc (size : Z) (h : kheap) : outcome (Z * kheap) :=
  if size =? 0 then Ret (0, h) else
  let size := request_size size in
  block ← find_free_block h size;
  if negb (block =? 0) then
    let h := with_mem (fun m => put_free block 0 (split_block block size m)) h in
    Ret (u32 (block + HEADER_SIZE), count_allocation h)
  else
    let total_size := u32 (HEADER_SIZE + size) in
    let '(new_memory, h) := kbrk (i32 total_size) h in
    if new_memory =? u32 (-1) then Ret (0, h) else
    let block := new_memory in
    h ← append_block block (with_mem (init_block block size) h);
    Ret (u32 (block + HEADER_SIZE), count_allocation h).

Definition kmalloc_aligned (size alignment : Z) (h : kheap) : outcome (Z * kheap) :=
  '(ptr, h) ← kmalloc (u32 (size + alignment)) h;
  if ptr =? 0 then Ret (0, h) else
  Ret (Z.land (u32 (u32 (ptr + alignment) - 1)) (u32 (Z.lnot (u32 (alignment - 1)))), h).

Definition kfree (ptr : Z) (h : kheap) : outcome kheap :=
  if ptr =? 0 then Ret h else
  let block := u32 (ptr - HEADER_SIZE) in
  if negb (hdr_magic (hmem h) block =? BLOCK_MAGIC)
  then Panicked "kfree: Invalid block (corrupted or double-free)" else
  if hdr_free (hmem h) block
  then Ret (heap_warn "kfree: Block already free (double-free attempt)" h) else
  Ret (with_mem (coalesce_blocks block) (count_free (with_mem (put_free block 1) h))).

Definition ksize (ptr : Z) (h : kheap) : Z :=
  if ptr =? 0 then 0 else
  let block := u32 (ptr - HEADER_SIZE) in
  if negb (hdr_magic (hmem h) block =? BLOCK_MAGIC) then 0 else hdr_size (hmem h) block.

Record kmalloc_stats := KStats {
  ks_heap_size : Z;
  ks_used_size : Z;
  ks_free_size : Z;
  ks_num_allocations : Z;
  ks_num_free_blocks : Z;
}.

Definition stats_block (m : mem) (b : Z) (s : kmalloc_stats) : kmalloc_stats :=
  if hdr_free m b then
    KStats (ks_heap_size s) (ks_used_size s) (u32 (ks_free_size s + hdr_size m b))
      (ks_num_allocations s) (u32 (ks_num_free_blocks s + 1))
  else
    KStats (ks_heap_size s) (u32 (ks_used_size s + u32 (hdr_size m b + HEADER_SIZE)))
      (ks_free_size s) (u32 (ks_num_allocations s + 1)) (ks_num_free_blocks s).

Fixpoint stats_loop (fuel : nat) (m : mem) (current : Z) (s : kmalloc_stats)
    : outcome kmalloc_stats :=
  match fuel with
  | O => OutOfFuel
  | S fuel =>
      if current =? 0 then Ret s
      else stats_loop fuel m (hdr_next m current) (stats_block m current s)
  end.

Definition kmalloc_get_stats (h : kheap) : outcome kmalloc_stats :=
  stats_loop (heap_fuel h) (hmem h) (block_list h)
    (KStats (u32 (heap_end h - heap_start h)) 0 0 0 0).

(** ** Specification: the blocks in address order *)

Record blk := Blk { bsize : Z; bfree : bool }.

Definition span (bs : list blk) : Z := foldr (fun b n => HEADER_SIZE + bsize b + n) 0 bs.

(** First fit; a block with room for another header and 16 bytes is split. *)
Definition carve (n : Z) (b : blk) : list blk :=
  if n + HEADER_SIZE + MIN_BLOCK_SIZE <=? bsize b
  then [Blk n false; Blk (bsize b - n - HEADER_SIZE) true]
  else [Blk (bsize b) false].

Definition fits (n : Z) (b : blk) : bool := bfree b && (n <=? bsize b).

Fixpoint spec_fit (n a : Z) (bs : list blk) : option (Z * list blk) :=
  match bs with
  | [] => None
  | b :: bs =>
      if fits n b then Some (a + HEADER_SIZE, carve n b ++ bs)
      else prod_map id (cons b) <$> spec_fit n (a + HEADER_SIZE + bsize b) bs
  end.

Definition spec_malloc (n start max : Z) (bs : list blk) : Z * list blk :=
  match spec_fit n start bs with
  | Some r => r
  | None =>
      if start + span bs + HEADER_SIZE + n <=? max
      then (start + span bs + HEADER_SIZE, bs ++ [Blk n false])
      else (0, bs)
  end.

(** Freeing the block between [l] and [r]: merge with free neighbours. *)
Definition merge_next (n : Z) (r : list blk) : list blk :=
  match r with
  | Blk s true :: r => Blk (n + HEADER_SIZE + s) true :: r
  | _ => Blk n true :: r
  end.

Fixpoint merge_prev (l : list blk) (r : list blk) : list blk :=
  match l, r with
  | [], _ => r
  | [Blk s true], Blk n true :: r => Blk (s + HEADER_SIZE + n) true :: r
  | b :: l, r => b :: merge_prev l r
  end.

Definition spec_free (l : list blk) (n : Z) (r : list blk) : list blk :=
  merge_prev l (merge_next n r).

(** The payloads handed out: address and size of every used block. *)
Fixpoint live (a : Z) (bs : list blk) : list (Z * Z) :=
  match bs with
  | [] => []
  | b :: bs =>
      (if bfree b then [] else [(a + HEADER_SIZE, bsize b)]) ++
      live (a + HEADER_SIZE + bsize b) bs
  end.

(** ** Lemmas: headers *)

Record hdr := Hdr { h_size : Z; h_free : Z; h_next : Z; h_prev : Z; h_magic : Z }.

Definition read_hdr (m : mem) (b : Z) : hdr :=
  Hdr (load32 m b) (load8 m (b + 4)) (load32 m (b + 8)) (load32 m (b + 12))
    (load32 m (b + 16)).

Lemma HEADER_SIZE_eq : HEADER_SIZE = 24. Proof. done. Qed.

(** The 20 header bytes at [a] and [b] do not overlap. *)
Definition apart (a b : Z) : Prop := a + 20 <= b \/ b + 20 <= a.

Lemma read_hdr_agree m m' b : agree m m' b (b + 20) -> read_hdr m' b = read_hdr m b.
Proof.
  intros H. unfold read_hdr.
  rewrite !(load32_agree m m' b (b + 20)) by (done || lia). rewrite H by lia. done.
Qed.

Lemma read_hdr_store32_apart m x v b :
  x + 4 <= b \/ b + 20 <= x -> read_hdr (store32 m x v) b = read_hdr m b.
Proof. intros. apply read_hdr_agree, agree_store32. lia. Qed.

Lemma read_hdr_store8_apart m x v b :
  x + 1 <= b \/ b + 20 <= x -> read_hdr (store8 m x v) b = read_hdr m b.
Proof. intros. apply read_hdr_agree, agree_store8. lia. Qed.

Lemma load8_store32_out m a v b : b < a \/ a + 4 <= b -> load8 (store32 m a v) b = load8 m b.
Proof. apply load8_store32_ne. Qed.

Ltac hdr_field :=
  intros; unfold read_hdr, put_size, put_free, put_next, put_prev, put_magic;
  rewrite ?load32_store32_eq, ?load8_store8_eq, ?load32_store32_ne, ?load32_store8_ne,
    ?load8_store32_out by lia; f_equal; try (apply u32_id; done).

Section header_writes.
Context (m : mem) (a v : Z).

Lemma read_put_size : is_u32 v ->
  read_hdr (put_size a v m) a =
    Hdr v (h_free (read_hdr m a)) (h_next (read_hdr m a)) (h_prev (read_hdr m a)) (h_magic (read_hdr m a)).
Proof. hdr_field. Qed.

Lemma read_put_free : is_u8 v ->
  read_hdr (put_free a v m) a =
    Hdr (h_size (read_hdr m a)) v (h_next (read_hdr m a)) (h_prev (read_hdr m a)) (h_magic (read_hdr m a)).
Proof. hdr_field. by apply u8_id. Qed.

Lemma read_put_next : is_u32 v ->
  read_hdr (put_next a v m) a =
    Hdr (h_size (read_hdr m a)) (h_free (read_hdr m a)) v (h_prev (read_hdr m a)) (h_magic (read_hdr m a)).
Proof. hdr_field. Qed.

Lemma read_put_prev : is_u32 v ->
  read_hdr (put_prev a v m) a =
    Hdr (h_size (read_hdr m a)) (h_free (read_hdr m a)) (h_next (read_hdr m a)) v (h_magic (read_hdr m a)).
Proof. hdr_field. Qed.

Lemma read_put_magic : is_u32 v ->
  read_hdr (put_magic a v m) a =
    Hdr (h_size (read_hdr m a)) (h_free (read_hdr m a)) (h_next (read_hdr m a)) (h_prev (read_hdr m a)) v.
Proof. hdr_field. Qed.

Lemma read_put_apart b : apart a b ->
  read_hdr (put_size a v m) b = read_hdr m b /\ read_hdr (put_free a v m) b = read_hdr m b /\
  read_hdr (put_next a v m) b = read_hdr m b /\ read_hdr (put_prev a v m) b = read_hdr m b /\
  read_hdr (put_magic a v m) b = read_hdr m b.
Proof.
  unfold apart, put_size, put_free, put_next, put_prev, put_magic. intros.
  rewrite !read_hdr_store32_apart, read_hdr_store8_apart by lia. done.
Qed.

Lemma read_put_size_ne b : apart a b -> read_hdr (put_size a v m) b = read_hdr m b.
Proof. intros. by apply read_put_apart. Qed.
Lemma read_put_free_ne b : apart a b -> read_hdr (put_free a v m) b = read_hdr m b.
Proof. intros. by apply read_put_apart. Qed.
Lemma read_put_next_ne b : apart a b -> read_hdr (put_next a v m) b = read_hdr m b.
Proof. intros. by apply read_put_apart. Qed.
Lemma read_put_prev_ne b : apart a b -> read_hdr (put_prev a v m) b = read_hdr m b.
Proof. intros. by apply read_put_apart. Qed.
Lemma read_put_magic_ne b : apart a b -> read_hdr (put_magic a v m) b = read_hdr m b.
Proof. intros. by apply read_put_apart. Qed.
End header_writes.

(** Reduce every header read of an updated memory; the side conditions are
    ranges and distances. *)
Ltac hdr_side := unfold apart, is_u32, is_u8, BLOCK_MAGIC; lia.

Ltac hdr_step :=
  first [ rewrite read_put_size by hdr_side | rewrite read_put_free by hdr_side
        | rewrite read_put_next by hdr_side | rewrite read_put_prev by hdr_side
        | rewrite read_put_magic by hdr_side
        | rewrite read_put_size_ne by hdr_side | rewrite read_put_free_ne by hdr_side
        | rewrite read_put_next_ne by hdr_side | rewrite read_put_prev_ne by hdr_side
        | rewrite read_put_magic_ne by hdr_side ].

Ltac hdr_reduce := repeat (hdr_step; cbn [h_size h_free h_next h_prev h_magic]).

(** The code's field reads are projections of the header. *)
Lemma hdr_fields m b :
  hdr_size m b = h_size (read_hdr m b) /\
  hdr_free m b = negb (h_free (read_hdr m b) =? 0) /\
  hdr_next m b = h_next (read_hdr m b) /\ hdr_prev m b = h_prev (read_hdr m b) /\
  hdr_magic m b = h_magic (read_hdr m b).
Proof. done. Qed.

Lemma hdr_size_eq m b : hdr_size m b = h_size (read_hdr m b). Proof. done. Qed.
Lemma hdr_free_eq m b : hdr_free m b = negb (h_free (read_hdr m b) =? 0). Proof. done. Qed.
Lemma hdr_next_eq m b : hdr_next m b = h_next (read_hdr m b). Proof. done. Qed.
Lemma hdr_prev_eq m b : hdr_prev m b = h_prev (read_hdr m b). Proof. done. Qed.
Lemma hdr_magic_eq m b : hdr_magic m b = h_magic (read_hdr m b). Proof. done. Qed.

(** ** Lemmas: block lists and segments of the chain *)

Definition blk_ok (b : blk) : Prop := MIN_BLOCK_SIZE <= bsize b /\ bsize b mod 8 = 0.

Lemma span_app l r : span (l ++ r) = span l + span r.
Proof. induction l as [|b l IH]; simpl; [done|]. rewrite IH. lia. Qed.

Lemma span_cons b l : span (b :: l) = 24 + bsize b + span l.
Proof. done. Qed.

Lemma span_nil : span [] = 0.
Proof. done. Qed.

Lemma span_nonneg bs : Forall blk_ok bs -> 0 <= span bs.
Proof.
  induction 1 as [|b bs [Hb _] _ IH]; [done|]. rewrite span_cons. unfold MIN_BLOCK_SIZE in Hb. lia.
Qed.

Definition first_addr (a : Z) (bs : list blk) (fin : Z) : Z :=
  match bs with [] => fin | _ => a end.

Fixpoint last_addr (p a : Z) (bs : list blk) : Z :=
  match bs with [] => p | b :: bs => last_addr a (a + 24 + bsize b) bs end.

Fixpoint addrs (a : Z) (bs : list blk) : list Z :=
  match bs with [] => [] | b :: bs => a :: addrs (a + 24 + bsize b) bs end.

(** The headers of [bs], laid out from [a], linked to [p] before and [fin] after. *)
Fixpoint hseg (m : mem) (p a : Z) (bs : list blk) (fin : Z) : Prop :=
  match bs with
  | [] => True
  | b :: bs =>
      read_hdr m a = Hdr (bsize b) (Z.b2z (bfree b)) (first_addr (a + 24 + bsize b) bs fin)
                       p BLOCK_MAGIC /\
      hseg m a (a + 24 + bsize b) bs fin
  end.

Lemma first_addr_app a l r fin :
  first_addr a (l ++ r) fin = first_addr a l (first_addr (a + span l) r fin).
Proof. destruct l; simpl; [|done]. by rewrite Z.add_0_r. Qed.

Lemma addrs_app a l r : addrs a (l ++ r) = addrs a l ++ addrs (a + span l) r.
Proof.
  revert a. induction l as [|b l IH]; intros a; [by rewrite Z.add_0_r|].
  cbn [addrs app]. rewrite IH, span_cons. cbn [app]. do 3 f_equal. lia.
Qed.

Lemma hseg_app m p a l r fin :
  hseg m p a (l ++ r) fin <->
  hseg m p a l (first_addr (a + span l) r fin) /\
  hseg m (last_addr p a l) (a + span l) r fin.
Proof.
  revert p a. induction l as [|b l IH]; intros p a.
  - simpl. rewrite Z.add_0_r. tauto.
  - simpl app. cbn [hseg last_addr]. rewrite IH, first_addr_app, span_cons.
    replace (a + (24 + bsize b + span l)) with (a + 24 + bsize b + span l) by lia. tauto.
Qed.

Lemma addrs_bounds a bs x :
  Forall blk_ok bs -> In x (addrs a bs) -> a <= x /\ x + 40 <= a + span bs.
Proof.
  intros Hok. revert a. induction Hok as [|b bs [Hb _] Hok IH]; intros a; simpl; [done|].
  pose proof (span_nonneg bs Hok). unfold MIN_BLOCK_SIZE, HEADER_SIZE in *.
  change (ALIGN 20) with 24. intros [<-|Hin]; [lia|]. apply IH in Hin. lia.
Qed.

Lemma hseg_ext m m' p a bs fin :
  (forall x, In x (addrs a bs) -> read_hdr m' x = read_hdr m x) ->
  hseg m p a bs fin -> hseg m' p a bs fin.
Proof.
  revert p a. induction bs as [|b bs IH]; intros p a Hx; simpl; [done|].
  intros [Hh Hs]. split; [rewrite Hx by (by left); done|].
  apply IH; [|done]. intros x Hin. apply Hx. by right.
Qed.

(** Relinking the first header of a segment. *)
Lemma hseg_relink m m' p p' a bs fin :
  Forall blk_ok bs ->
  (bs <> [] -> read_hdr m' a =
     Hdr (h_size (read_hdr m a)) (h_free (read_hdr m a)) (h_next (read_hdr m a)) p'
       (h_magic (read_hdr m a))) ->
  (forall x, a + 40 <= x -> x + 40 <= a + span bs -> read_hdr m' x = read_hdr m x) ->
  hseg m p a bs fin -> hseg m' p' a bs fin.
Proof.
  intros Hok Hfirst Hrest. destruct bs as [|b bs]; [done|]. simpl. intros [Hh Hs].
  rewrite Hfirst, Hh by done. split; [done|]. eapply hseg_ext, Hs.
  inversion_clear Hok as [|? ? [Hb _] Hok']. unfold MIN_BLOCK_SIZE in Hb.
  intros x Hin. apply addrs_bounds in Hin as [??]; [|done].
  apply Hrest; rewrite ?span_cons; lia.
Qed.

Lemma last_addr_bounds p a bs :
  Forall blk_ok bs -> bs <> [] -> a <= last_addr p a bs /\ last_addr p a bs + 40 <= a + span bs.
Proof.
  intros Hok. revert p a. induction Hok as [|b bs [Hb _] Hok IH]; intros p a Hne; [done|].
  unfold MIN_BLOCK_SIZE in Hb. rewrite span_cons. simpl. pose proof (span_nonneg bs Hok).
  destruct bs as [|c bs]; [simpl in *; lia|].
  specialize (IH a (a + 24 + bsize b) ltac:(done)). lia.
Qed.

Lemma last_addr_snoc p a l b : last_addr p a (l ++ [b]) = a + span l.
Proof.
  revert p a. induction l as [|c l IH]; intros p a; [simpl; lia|].
  simpl app. cbn [last_addr]. rewrite IH, span_cons. lia.
Qed.

(** Two free blocks are never adjacent. *)
Fixpoint coalesced (bs : list blk) : Prop :=
  match bs with
  | [] => True
  | b :: bs =>
      match bs with [] => True | c :: _ => bfree b && bfree c = false end /\ coalesced bs
  end.

(** ** Lemmas: rewriting a segment in place *)

Definition with_prev (p : Z) (x : hdr) : hdr :=
  Hdr (h_size x) (h_free x) (h_next x) p (h_magic x).

(** The blocks [mid] at the end of [l] become [mid'], of the same extent; the
    only other header that may change is the back link of what follows. *)
Lemma hseg_splice m m' p a l mid mid' r fin :
  Forall blk_ok l -> Forall blk_ok r -> mid <> [] -> mid' <> [] -> span mid' = span mid ->
  hseg m p a (l ++ mid ++ r) fin ->
  (forall x, x + 40 <= a + span l -> read_hdr m' x = read_hdr m x) ->
  (forall x, a + span l + span mid + 40 <= x -> read_hdr m' x = read_hdr m x) ->
  (r <> [] -> read_hdr m' (a + span l + span mid) =
     with_prev (last_addr (last_addr p a l) (a + span l) mid')
       (read_hdr m (a + span l + span mid))) ->
  hseg m' (last_addr p a l) (a + span l) mid' (first_addr (a + span l + span mid) r fin) ->
  hseg m' p a (l ++ mid' ++ r) fin.
Proof.
  intros Hl Hr Hmid Hmid' Hspan H Hlow Hhigh Hback Hnew.
  apply hseg_app in H as [H1 H2]. apply hseg_app in H2 as [_ H3].
  apply hseg_app. split; [|apply hseg_app; split; [by rewrite Hspan|]].
  - rewrite first_addr_app in H1. rewrite first_addr_app.
    replace (first_addr (a + span l) mid' (first_addr (a + span l + span mid') r fin))
      with (first_addr (a + span l) mid (first_addr (a + span l + span mid) r fin))
      by (destruct mid, mid'; done).
    eapply hseg_ext, H1. intros x Hx%addrs_bounds; [|done]. apply Hlow. lia.
  - rewrite Hspan. eapply (hseg_relink m m'); [done|..|exact H3].
    + intros Hne. by apply Hback.
    + intros x Hx _. apply Hhigh. lia.
Qed.

Lemma hseg_mid_header m p a l b r fin :
  hseg m p a (l ++ b :: r) fin ->
  read_hdr m (a + span l) =
    Hdr (bsize b) (Z.b2z (bfree b)) (first_addr (a + span l + 24 + bsize b) r fin)
      (last_addr p a l) BLOCK_MAGIC.
Proof. rewrite hseg_app. intros [_ [H _]]. exact H. Qed.

(** Extents as sums of sizes, in the goal and the hypotheses. *)
Ltac span_norm := rewrite ?span_app, ?span_cons, ?span_nil in *; cbn [bsize bfree] in *.

Lemma last_addr_app p a l r : last_addr p a (l ++ r) = last_addr (last_addr p a l) (a + span l) r.
Proof.
  revert p a. induction l as [|b l IH]; intros p a; [by rewrite span_nil, Z.add_0_r|].
  cbn [app last_addr]. rewrite IH, span_cons. f_equal. lia.
Qed.

Lemma hseg_after m p a l mid c r fin :
  hseg m p a (l ++ mid ++ c :: r) fin ->
  read_hdr m (a + span l + span mid) =
    Hdr (bsize c) (Z.b2z (bfree c)) (first_addr (a + span l + span mid + 24 + bsize c) r fin)
      (last_addr p a (l ++ mid)) BLOCK_MAGIC.
Proof.
  rewrite app_assoc. intros H%hseg_mid_header. rewrite span_app in H.
  by rewrite Z.add_assoc in H.
Qed.

(** What [coalesce_blocks] does to a block [b] and the block [c] after it. *)
Definition absorb (b c : Z) (m : mem) : mem :=
  let m := put_size b (u32 (hdr_size m b + u32 (HEADER_SIZE + hdr_size m c))) m in
  let m := put_next b (hdr_next m c) m in
  if negb (hdr_next m b =? 0) then put_prev (hdr_next m b) b m else m.

Definition link_back (nx b : Z) (m : mem) : mem := if nx =? 0 then m else put_prev nx b m.

Lemma absorb_eq b c m s f nb pb t g nx pc :
  read_hdr m b = Hdr s f nb pb BLOCK_MAGIC -> read_hdr m c = Hdr t g nx pc BLOCK_MAGIC ->
  b + 24 <= c -> 0 <= s -> 0 <= t -> s + 24 + t < 4294967296 -> is_u32 nx ->
  absorb b c m = link_back nx b (put_next b nx (put_size b (s + 24 + t) m)).
Proof.
  intros Hb Hc ?????. unfold absorb, link_back. rewrite !hdr_next_eq, !hdr_size_eq, Hb, Hc.
  cbn [h_size]. rewrite HEADER_SIZE_eq.
  rewrite (u32_id (24 + t)), (u32_id (s + (24 + t))) by (unfold is_u32; lia).
  replace (s + (24 + t)) with (s + 24 + t) by lia.
  rewrite (read_put_size_ne _ _ _ c) by hdr_side. rewrite Hc. cbn [h_next].
  rewrite read_put_next by done. cbn [h_next]. by destruct (nx =? 0).
Qed.

Lemma split_eq b n m s f nx pb :
  read_hdr m b = Hdr s f nx pb BLOCK_MAGIC ->
  0 < b -> 0 <= n -> n + 40 <= s -> b + 24 + s < 4294967296 -> (nx = 0 \/ nx = b + 24 + s) ->
  split_block b n m =
    let N := b + 24 + n in
    put_size b n (put_next b N (link_back nx N (put_prev N b (put_next N nx
      (put_magic N BLOCK_MAGIC (put_free N 1 (put_size N (s - n - 24) m))))))).
Proof.
  intros Hb ??? Hlim Hnx. unfold split_block, MIN_BLOCK_SIZE.
  rewrite !hdr_next_eq, !hdr_size_eq, Hb, HEADER_SIZE_eq. cbn [h_size].
  rewrite (u32_id (n + 24)), (u32_id (n + 24 + 16)), (u32_id (b + 24)), (u32_id (b + 24 + n)),
    (u32_id (s - n)), (u32_id (s - n - 24)) by (unfold is_u32; lia).
  destruct (Z.leb_spec (n + 24 + 16) s); [|lia]. cbv zeta. unfold link_back.
  set (N := b + 24 + n) in *.
  assert (is_u32 nx) by (unfold is_u32; lia).
  rewrite (read_put_magic_ne _ _ _ b), (read_put_free_ne _ _ _ b), (read_put_size_ne _ _ _ b), Hb
    by hdr_side. cbn [h_next].
  rewrite (read_put_prev_ne _ _ _ b), (read_put_next_ne _ _ _ b), (read_put_magic_ne _ _ _ b),
    (read_put_free_ne _ _ _ b), (read_put_size_ne _ _ _ b), Hb by hdr_side. cbn [h_next].
  by destruct (nx =? 0).
Qed.

Lemma hseg_back m p a l mid r fin :
  hseg m p a (l ++ mid ++ r) fin -> r <> [] ->
  read_hdr m (a + span l + span mid) =
    with_prev (last_addr p a (l ++ mid)) (read_hdr m (a + span l + span mid)).
Proof. destruct r; [done|]. intros H _. by rewrite (hseg_after _ _ _ _ _ _ _ _ H). Qed.

Section segment_updates.
Context (m : mem) (p a : Z) (l r : list blk).
Context (Ha : 0 < a) (Hl : Forall blk_ok l) (Hr : Forall blk_ok r).

Lemma hseg_set_free n f v :
  MIN_BLOCK_SIZE <= n ->
  hseg m p a (l ++ Blk n f :: r) 0 ->
  hseg (put_free (a + span l) (Z.b2z v) m) p a (l ++ Blk n v :: r) 0.
Proof.
  unfold MIN_BLOCK_SIZE. intros Hn H. pose proof (hseg_mid_header _ _ _ _ _ _ _ H) as Hh.
  assert (is_u8 (Z.b2z v)) by (destruct v; unfold is_u8; simpl; lia).
  eapply (hseg_splice m _ p a l [Blk n f] [Blk n v] r 0); try done; span_norm; intros.
  - apply read_put_free_ne. hdr_side.
  - apply read_put_free_ne. hdr_side.
  - rewrite read_put_free_ne by hdr_side.
    destruct r as [|c r']; [done|].
    pose proof (hseg_after m p a l [Blk n f] c r' 0 H) as Hx. span_norm.
    rewrite Hx. cbn. by rewrite last_addr_app.
  - split; [|done]. rewrite read_put_free by done. rewrite Hh. cbn.
    f_equal. f_equal. lia.
Qed.

Lemma hseg_absorb s f t g :
  MIN_BLOCK_SIZE <= s -> MIN_BLOCK_SIZE <= t -> a + span (l ++ Blk s f :: Blk t g :: r) < 2147483648 ->
  hseg m p a (l ++ Blk s f :: Blk t g :: r) 0 ->
  hseg (absorb (a + span l) (a + span l + 24 + s) m) p a (l ++ Blk (s + 24 + t) f :: r) 0.
Proof.
  unfold MIN_BLOCK_SIZE. intros Hs Ht Hmax H. pose proof (hseg_mid_header _ _ _ _ _ _ _ H) as Hh.
  pose proof (hseg_after m p a l [Blk s f] (Blk t g) r 0 H) as Hc.
  pose proof (hseg_back m p a l [Blk s f; Blk t g] r 0 H) as Hn.
  pose proof (span_nonneg l Hl). pose proof (span_nonneg r Hr). span_norm.
  rewrite last_addr_app in *. rewrite Z.add_0_r, Z.add_assoc in Hc.
  cbn [last_addr bsize first_addr] in *.
  set (A := a + span l) in *. set (C := A + 24 + s) in *. set (D := C + 24 + t) in *.
  replace (A + (24 + s + (24 + t + 0))) with D in Hn by lia.
  assert (first_addr D r 0 = 0 /\ r = [] \/ first_addr D r 0 = D /\ r <> []) as Hnx
    by (destruct r; [left | right]; done).
  rewrite (absorb_eq A C m s (Z.b2z f) C _ t (Z.b2z g) (first_addr D r 0) _ Hh Hc) by (unfold is_u32; lia).
  eapply (hseg_splice m _ p a l [Blk s f; Blk t g] [Blk (s + 24 + t) f] r 0);
    try done; span_norm; try lia; fold A; try replace (A + (24 + s + (24 + t + 0))) with D by lia.
  - intros x Hx. unfold link_back. destruct Hnx as [[-> ?]|[-> ?]]; zbool; try lia; by hdr_reduce.
  - intros x Hx. unfold link_back. destruct Hnx as [[-> ?]|[-> ?]]; zbool; try lia; by hdr_reduce.
  - intros Hne. rewrite Hn by done. unfold link_back.
    destruct Hnx as [[-> ?]|[-> _]]; [done|]. zbool; [lia|]. hdr_reduce. by rewrite Hn.
  - split; [|done]. unfold link_back. destruct Hnx as [[-> ?]|[-> _]]; zbool; try lia; hdr_reduce;
      rewrite Hh; cbn; f_equal. 
Qed.

Lemma hseg_split n s f :
  MIN_BLOCK_SIZE <= n -> n + HEADER_SIZE + MIN_BLOCK_SIZE <= s ->
  a + span (l ++ Blk s f :: r) < 2147483648 ->
  hseg m p a (l ++ Blk s f :: r) 0 ->
  hseg (split_block (a + span l) n m) p a (l ++ [Blk n f; Blk (s - n - HEADER_SIZE) true] ++ r) 0.
Proof.
  unfold MIN_BLOCK_SIZE. rewrite HEADER_SIZE_eq. intros Hn Hs Hmax H.
  pose proof (hseg_mid_header _ _ _ _ _ _ _ H) as Hh.
  pose proof (hseg_back m p a l [Blk s f] r 0 H) as Hb.
  pose proof (span_nonneg l Hl). pose proof (span_nonneg r Hr). span_norm.
  set (A := a + span l) in *. set (D := A + 24 + s) in *. set (N := A + 24 + n).
  replace (A + (24 + s + 0)) with D in Hb by lia.
  assert (first_addr D r 0 = 0 /\ r = [] \/ first_addr D r 0 = D /\ r <> []) as Hnx
    by (destruct r; [left | right]; done).
  rewrite (split_eq A n m s (Z.b2z f) (first_addr D r 0) _ Hh) by (unfold is_u32; lia).
  fold N. cbv zeta.
  eapply (hseg_splice m _ p a l [Blk s f] [Blk n f; Blk (s - n - 24) true] r 0);
    try done; span_norm; try lia; fold A; try replace (A + (24 + s + 0)) with D by lia.
  - intros x Hx. unfold link_back. destruct Hnx as [[-> ?]|[-> ?]]; zbool; try lia; by hdr_reduce.
  - intros x Hx. unfold link_back. destruct Hnx as [[-> ?]|[-> ?]]; zbool; try lia; by hdr_reduce.
  - intros Hne. rewrite Hb by done. unfold link_back.
    destruct Hnx as [[-> ?]|[-> _]]; [done|]. zbool; [lia|]. hdr_reduce. by rewrite Hb.
  - split; [|split; [|done]]; unfold link_back; cbn [bsize first_addr]; fold N;
      destruct Hnx as [[-> ?]|[-> _]]; zbool; try lia; hdr_reduce; rewrite ?Hh; cbn; done.
Qed.
End segment_updates.

(** ** The representation invariant *)

Record heap_rep (h : kheap) (bs : list blk) : Prop := {
  hr_aligned : heap_start h mod 8 = 0;
  hr_low : 0 < heap_start h;
  hr_max : heap_max h < 2147483648;
  hr_end : heap_end h = heap_start h + span bs;
  hr_room : heap_end h <= heap_max h;
  hr_list : block_list h = first_addr (heap_start h) bs 0;
  hr_seg : hseg (hmem h) 0 (heap_start h) bs 0;
  hr_blks : Forall blk_ok bs;
  hr_coalesced : coalesced bs;
}.

Lemma span_length bs : Forall blk_ok bs -> 40 * Z.of_nat (length bs) <= span bs.
Proof.
  induction 1 as [|b bs [Hb _] _ IH]; [done|]. unfold MIN_BLOCK_SIZE in Hb.
  rewrite span_cons, length_cons. lia.
Qed.

Lemma heap_fuel_enough h bs : heap_rep h bs -> (length bs < heap_fuel h)%nat.
Proof.
  intros H. pose proof (span_length bs (hr_blks _ _ H)). unfold heap_fuel.
  rewrite HEADER_SIZE_eq, (hr_end _ _ H).
  replace (heap_start h + span bs - heap_start h) with (span bs) by lia.
  assert (Z.of_nat (length bs) <= span bs / 24) by (apply Z.div_le_lower_bound; lia). lia.
Qed.

Lemma span_mod8 bs : Forall blk_ok bs -> span bs mod 8 = 0.
Proof.
  induction 1 as [|b bs [_ Hb] _ IH]; [done|]. rewrite span_cons. divlia.
Qed.

(** ** Lemmas: the walks along the list *)

Lemma find_free_loop_spec m n p a bs fuel :
  Forall blk_ok bs -> 0 < a -> hseg m p a bs 0 -> (length bs < fuel)%nat ->
  (Forall (fun b => fits n b = false) bs /\
   find_free_loop fuel m n (first_addr a bs 0) = Ret 0) \/
  (exists l b r, bs = l ++ b :: r /\ Forall (fun b => fits n b = false) l /\ fits n b = true /\
   find_free_loop fuel m n (first_addr a bs 0) = Ret (a + span l)).
Proof.
  intros Hok. revert p a fuel. induction Hok as [|b bs [Hb _] Hok IH]; intros p a fuel Ha Hs Hf.
  - left. split; [done|]. by destruct fuel; simpl in *; [lia|].
  - destruct fuel as [|fuel]; simpl in Hf; [lia|]. destruct Hs as [Hh Hs].
    unfold MIN_BLOCK_SIZE in Hb. cbn [first_addr find_free_loop].
    rewrite hdr_free_eq, hdr_size_eq, hdr_next_eq, Hh. cbn [h_size h_next h_free].
    destruct (Z.eqb_spec a 0); [lia|].
    change (negb (Z.b2z (bfree b) =? 0) && (n <=? bsize b)) with
      (negb (Z.b2z (bfree b) =? 0) && (n <=? bsize b)).
    replace (negb (Z.b2z (bfree b) =? 0) && (n <=? bsize b)) with (fits n b)
      by (unfold fits; by destruct (bfree b)).
    destruct (fits n b) eqn:E.
    + right. exists [], b, bs. rewrite span_nil, Z.add_0_r. auto.
    + destruct (IH a (a + 24 + bsize b) fuel ltac:(lia) Hs ltac:(lia))
        as [[H1 H2]|(l & c & r & -> & H1 & H2 & H3)].
      * left. auto.
      * right. exists (b :: l), c, r. split; [done|]. split; [by constructor|].
        split; [done|]. rewrite H3, span_cons. f_equal. lia.
Qed.

Lemma last_block_loop_spec m p a bs fuel :
  Forall blk_ok bs -> 0 < a -> hseg m p a bs 0 -> bs <> [] -> (length bs <= fuel)%nat ->
  last_block_loop fuel m a = Ret (last_addr p a bs).
Proof.
  intros Hok. revert p a fuel. induction Hok as [|b bs [Hb _] Hok IH]; intros p a fuel Ha Hs Hne Hf;
    [done|].
  destruct fuel as [|fuel]; simpl in Hf; [lia|]. destruct Hs as [Hh Hs].
  unfold MIN_BLOCK_SIZE in Hb. cbn [last_block_loop last_addr].
  rewrite hdr_next_eq, Hh. cbn [h_next]. destruct bs as [|c bs]; [done|].
  cbn [first_addr]. destruct (Z.eqb_spec (a + 24 + bsize b) 0); [lia|]. cbn [negb].
  by rewrite <- (IH a (a + 24 + bsize b) fuel ltac:(lia) Hs ltac:(done) ltac:(lia)).
Qed.

Lemma spec_fit_none n a bs : Forall (fun b => fits n b = false) bs -> spec_fit n a bs = None.
Proof.
  intros H. revert a. induction H as [|b bs Hb _ IH]; intros a; [done|].
  simpl. by rewrite Hb, IH.
Qed.

Lemma spec_fit_some n a l b r :
  Forall (fun b => fits n b = false) l -> fits n b = true ->
  spec_fit n a (l ++ b :: r) = Some (a + span l + 24, l ++ carve n b ++ r).
Proof.
  intros Hl Hb. revert a. induction Hl as [|c l Hc _ IH]; intros a.
  - cbn [spec_fit app]. rewrite Hb, span_nil, HEADER_SIZE_eq. do 2 f_equal. lia.
  - cbn [spec_fit app]. rewrite Hc, IH, HEADER_SIZE_eq, span_cons. simpl. do 2 f_equal. lia.
Qed.

Lemma ALIGN_eq n : 0 <= n -> n + 7 < 4294967296 -> ALIGN n = (n + 7) / 8 * 8.
Proof.
  intros. unfold ALIGN, ALIGNMENT. rewrite u32_id by (unfold is_u32; lia).
  change (8 - 1) with 7. apply (land_align_mask 3); unfold is_u32; lia.
Qed.

Lemma request_size_spec n :
  0 < n <= 2147483584 ->
  n <= request_size n /\ MIN_BLOCK_SIZE <= request_size n /\ request_size n mod 8 = 0 /\
  request_size n <= 2147483584 /\ (n <= request_size n < n + 16).
Proof.
  intros. unfold request_size, MIN_BLOCK_SIZE. rewrite ALIGN_eq by lia. zbool; divlia.
Qed.

(** ** Lemmas: adjacent free blocks *)

Lemma coalesced_mid l b r :
  coalesced (l ++ b :: r) <-> coalesced (l ++ [b]) /\ coalesced (b :: r).
Proof.
  induction l as [|c l IH]; simpl; [tauto|]. rewrite IH. destruct l; simpl; tauto.
Qed.

Lemma coalesced_snoc l b :
  coalesced (l ++ [b]) <->
  coalesced l /\ match last l with None => True | Some c => bfree c && bfree b = false end.
Proof.
  induction l as [|c l IH]; [simpl; tauto|]. cbn [app coalesced]. rewrite IH.
  destruct l; simpl; tauto.
Qed.

Lemma coalesced_cons b r :
  coalesced (b :: r) <->
  match r with [] => True | c :: _ => bfree b && bfree c = false end /\ coalesced r.
Proof. done. Qed.

(** A used block in place of any other keeps the list coalesced. *)
Lemma coalesced_use l b b' r :
  bfree b' = false -> coalesced (l ++ b :: r) -> coalesced (l ++ b' :: r).
Proof.
  intros Hb. rewrite (coalesced_mid l b r), (coalesced_mid l b' r), !coalesced_snoc,
    !coalesced_cons, Hb.
  intros [[Hl _] [_ Hr]]. repeat split; auto.
  - destruct (last l); [apply andb_false_r|done].
  - by destruct r.
Qed.

(** The block list of [l ++ b :: r] when [b] is split into a used and a free part. *)
Lemma coalesced_carve n l b r :
  bfree b = true -> coalesced (l ++ b :: r) -> coalesced (l ++ carve n b ++ r).
Proof.
  intros Hb H. unfold carve. case_match; [|by eapply coalesced_use].
  cbn [app]. rewrite coalesced_mid, coalesced_snoc, !coalesced_cons.
  rewrite coalesced_mid, coalesced_snoc, coalesced_cons, Hb in H.
  destruct H as [[Hl _] [Hr Hr']]. repeat split; auto.
  destruct (last l); [apply andb_false_r|done].
Qed.

Lemma carve_span n b : span (carve n b) = 24 + bsize b.
Proof. unfold carve. case_match; rewrite ?span_cons, span_nil, ?HEADER_SIZE_eq; simpl; lia. Qed.

Lemma carve_ok n b : MIN_BLOCK_SIZE <= n -> n mod 8 = 0 -> blk_ok b -> Forall blk_ok (carve n b).
Proof.
  unfold blk_ok, carve, MIN_BLOCK_SIZE. rewrite HEADER_SIZE_eq. intros ?? [??].
  case_match; zbool_in H1; try done; rewrite ?Forall_cons, ?Forall_nil; simpl;
    repeat split; try lia; divlia.
Qed.

(** ** Lemmas: bytes outside the headers written *)

Section frames.
Context (m : mem) (b v lo hi : Z) (Hout : hi <= b \/ b + 20 <= lo).

Lemma agree_put_size : agree m (put_size b v m) lo hi.
Proof. apply agree_store32. lia. Qed.
Lemma agree_put_free : agree m (put_free b v m) lo hi.
Proof. apply agree_store8. lia. Qed.
Lemma agree_put_next : agree m (put_next b v m) lo hi.
Proof. apply agree_store32. lia. Qed.
Lemma agree_put_prev : agree m (put_prev b v m) lo hi.
Proof. apply agree_store32. lia. Qed.
Lemma agree_put_magic : agree m (put_magic b v m) lo hi.
Proof. apply agree_store32. lia. Qed.
End frames.

Ltac agree_puts :=
  repeat (eapply agree_trans;
    [|first [ apply agree_put_size; lia | apply agree_put_free; lia | apply agree_put_next; lia
            | apply agree_put_prev; lia | apply agree_put_magic; lia ]]);
  try apply agree_refl.

(** ** Lemmas: allocation *)

Lemma heap_rep_bounds h bs :
  heap_rep h bs -> 0 < heap_start h /\ heap_start h + span bs < 2147483648 /\ 0 <= span bs.
Proof.
  intros []. pose proof (span_nonneg bs ltac:(done)). lia.
Qed.

(** A new memory with the same globals. *)
Lemma heap_rep_with_mem h f bs bs' :
  heap_rep h bs -> hseg (f (hmem h)) 0 (heap_start h) bs' 0 -> span bs' = span bs ->
  first_addr (heap_start h) bs' 0 = first_addr (heap_start h) bs 0 ->
  Forall blk_ok bs' -> coalesced bs' -> heap_rep (with_mem f h) bs'.
Proof. intros [] ? Hs Hf ??. split; try done; simpl; by rewrite ?Hs, ?Hf. Qed.

Lemma first_addr_mid a l b b' r r' fin :
  first_addr a (l ++ b :: r) fin = first_addr a (l ++ b' :: r') fin.
Proof. by destruct l. Qed.

Lemma split_block_noop b n m :
  0 <= n < 2147483648 -> hdr_size m b < n + 40 -> split_block b n m = m.
Proof.
  intros ? Hs. unfold split_block, MIN_BLOCK_SIZE. rewrite HEADER_SIZE_eq.
  rewrite (u32_id (n + 24)), (u32_id (n + 24 + 16)) by (unfold is_u32; lia).
  destruct (Z.leb_spec (n + 24 + 16) (hdr_size m b)); [lia|done].
Qed.

Lemma rep_take h n l b r :
  MIN_BLOCK_SIZE <= n < 2147483648 -> n mod 8 = 0 ->
  bfree b = true -> heap_rep h (l ++ b :: r) ->
  heap_rep (with_mem (fun m => put_free (heap_start h + span l) 0
                                 (split_block (heap_start h + span l) n m)) h)
    (l ++ carve n b ++ r).
Proof.
  intros Hn Hn8 Hb H. pose proof (heap_rep_bounds _ _ H) as (Ha & Hlim & _).
  pose proof (hr_blks _ _ H) as Hok. apply Forall_app in Hok as [Hl [Hbk Hr]%Forall_cons].
  eapply heap_rep_with_mem; [exact H|..].
  - destruct b as [s f]. simpl in Hb. subst f. unfold carve. cbn [bsize].
    destruct Hbk as [Hs _]. cbn [bsize] in Hs. unfold MIN_BLOCK_SIZE in *.
    change 0 with (Z.b2z false) at 1.
    destruct (Z.leb_spec (n + HEADER_SIZE + 16) s) as [Hle|Hlt].
    + cbn [app]. rewrite HEADER_SIZE_eq in *.
      eapply hseg_set_free; [done| |unfold MIN_BLOCK_SIZE; lia|].
      * constructor; [|done]. split; simpl; unfold MIN_BLOCK_SIZE; [lia|].
        pose proof (hr_blks _ _ H) as Hok. apply Forall_app in Hok as [_ [[_ ?] _]%Forall_cons].
        simpl in *. divlia.
      * apply (hseg_split (hmem h) 0 (heap_start h) l r Ha Hl Hr n s true);
          unfold MIN_BLOCK_SIZE; rewrite ?HEADER_SIZE_eq; try lia; apply H.
    + cbn [app]. rewrite HEADER_SIZE_eq in *.
      rewrite split_block_noop.
      * eapply hseg_set_free; try done. apply H.
      * lia.
      * rewrite hdr_size_eq, (hseg_mid_header _ _ _ _ _ _ _ (hr_seg _ _ H)). simpl. lia.
  - rewrite !span_app, carve_span, span_cons. lia.
  - unfold carve. case_match; apply first_addr_mid.
  - apply Forall_app. split; [done|]. apply Forall_app. split; [|done]. apply carve_ok; tauto.
  - apply coalesced_carve; [done|apply H].
Qed.

Lemma init_block_hdr n b m :
  is_u32 n -> read_hdr (init_block b n m) b = Hdr n 0 0 0 BLOCK_MAGIC.
Proof. intros. unfold init_block. hdr_reduce. rewrite read_put_size by done. done. Qed.

Lemma init_block_ne n b m x : apart b x -> read_hdr (init_block b n m) x = read_hdr m x.
Proof. unfold apart. intros. unfold init_block. by hdr_reduce. Qed.

(** Linking a fresh block after the last one. *)
Lemma hseg_append m a l b n :
  0 < a -> Forall blk_ok l -> blk_ok b -> 0 <= n ->
  a + span (l ++ [b]) + 24 + n < 4294967296 ->
  hseg m 0 a (l ++ [b]) 0 ->
  let A := a + span (l ++ [b]) in
  hseg (put_prev A (a + span l) (put_next (a + span l) A (init_block A n m))) 0 a
    (l ++ [b; Blk n false]) 0.
Proof.
  intros Ha Hl [Hb _] Hn Hlim H. unfold MIN_BLOCK_SIZE in Hb.
  pose proof (hseg_mid_header _ _ _ _ _ _ _ H) as Hh. cbn [first_addr] in Hh.
  pose proof (span_nonneg l Hl). span_norm. cbv zeta.
  set (B := a + span l) in *. replace (a + (span l + (24 + bsize b + 0))) with (B + 24 + bsize b) in * by lia.
  set (A := B + 24 + bsize b) in *.
  apply hseg_app in H as [H1 _]. apply hseg_app. fold B. fold B in H1. cbn [first_addr] in *. split.
  - eapply hseg_ext, H1. intros x Hx%addrs_bounds; [|done].
    rewrite read_put_prev_ne, read_put_next_ne, init_block_ne by hdr_side. done.
  - cbn [hseg first_addr bsize bfree]. fold A. split; [|split; [|done]].
    + rewrite read_put_prev_ne, read_put_next, init_block_ne, Hh by hdr_side. done.
    + rewrite read_put_prev, read_put_next_ne, init_block_hdr by hdr_side. done.
Qed.

Lemma last_cases {A} (l : list A) : l = [] \/ exists l' x, l = l' ++ [x].
Proof. destruct l as [|x l'] using rev_ind; [by left | right; eauto]. Qed.

Lemma coalesced_snoc_used bs n : coalesced bs -> coalesced (bs ++ [Blk n false]).
Proof.
  rewrite coalesced_snoc. split; [done|]. destruct (last bs); [apply andb_false_r|done].
Qed.

Lemma agree_init_block n b m lo hi :
  hi <= b \/ b + 20 <= lo -> agree m (init_block b n m) lo hi.
Proof. intros. unfold init_block. agree_puts. Qed.

Lemma rep_append h n bs :
  MIN_BLOCK_SIZE <= n -> n mod 8 = 0 -> heap_rep h bs ->
  heap_end h + 24 + n <= heap_max h ->
  exists m', append_block (heap_end h)
      (with_mem (init_block (heap_end h) n) (with_end (heap_end h + 24 + n) h)) =
      Ret (KHeap m' (heap_start h) (heap_end h + 24 + n) (heap_max h)
             (first_addr (heap_start h) (bs ++ [Blk n false]) 0)
             (total_allocations h) (total_frees h) (warnings h)) /\
    hseg m' 0 (heap_start h) (bs ++ [Blk n false]) 0 /\
    forall lo hi, hi <= heap_end h ->
      (forall x, In x (addrs (heap_start h) bs) -> hi <= x \/ x + 20 <= lo) ->
      agree (hmem h) m' lo hi.
Proof.
  unfold MIN_BLOCK_SIZE. intros Hn Hn8 H Hroom. pose proof (heap_rep_bounds _ _ H) as (Ha & Hlim & Hsp).
  pose proof (heap_fuel_enough _ _ H) as Hfuel. destruct H.
  unfold append_block. cbn [block_list with_mem with_end hmem]. rewrite hr_list0.
  destruct (last_cases bs) as [->|(l & b & ->)].
  - cbn [first_addr app]. rewrite span_nil, Z.add_0_r in *. rewrite hr_end0 in *. simpl (0 =? 0).
    unfold with_list, with_mem, with_end.
    eexists. split; [reflexivity|]. cbn [hmem]. split.
    + cbn. rewrite init_block_hdr by (unfold is_u32; lia). done.
    + intros lo hi Hhi _. apply agree_init_block. lia.
  - apply Forall_app in hr_blks0 as [Hl [Hb _]%Forall_cons].
    replace (first_addr (heap_start h) (l ++ [b]) 0) with (heap_start h) by by destruct l.
    replace (first_addr (heap_start h) ((l ++ [b]) ++ [Blk n false]) 0) with (heap_start h)
      by by destruct l.
    destruct (Z.eqb_spec (heap_start h) 0); [lia|].
    rewrite (last_block_loop_spec _ 0 _ (l ++ [b])); try done.
    + rewrite last_addr_snoc. cbn [mbind outcome_bind]. unfold with_mem, with_end.
      cbn [hmem heap_start heap_end heap_max block_list total_allocations total_frees warnings].
      rewrite hr_list0. replace (first_addr (heap_start h) (l ++ [b]) 0) with (heap_start h) by by destruct l.
      eexists. split; [reflexivity|]. rewrite hr_end0 in *. cbn [hmem]. split.
      * rewrite <- app_assoc. apply hseg_append; try done; lia.
      * intros lo hi Hhi Hout.
        destruct (Hout (heap_start h + span l)) as [?|?];
          [rewrite addrs_app; apply in_or_app; right; by left|..];
          (eapply agree_trans; [|apply agree_put_prev; lia]);
          (eapply agree_trans; [|apply agree_put_next; lia]); apply agree_init_block; lia.
    + apply Forall_app. auto.
    + eapply hseg_ext, hr_seg0. intros x Hx%addrs_bounds; [|apply Forall_app; auto].
      apply init_block_ne. unfold apart. lia.
    + by destruct l.
    + unfold heap_fuel in *. cbn [with_mem with_end heap_end heap_start].
      rewrite HEADER_SIZE_eq in *.
      assert ((heap_end h - heap_start h) / 24 <= (heap_end h + 24 + n - heap_start h) / 24)
        by (apply Z.div_le_mono; lia). lia.
Qed.

(** ** Lemmas: the payloads handed out *)

Lemma live_app a l r : live a (l ++ r) = live a l ++ live (a + span l) r.
Proof.
  revert a. induction l as [|b l IH]; intros a; [by rewrite span_nil, Z.add_0_r|].
  cbn [live app]. rewrite IH, <- app_assoc, HEADER_SIZE_eq, span_cons. do 3 f_equal. lia.
Qed.

Lemma live_bounds a bs q t :
  Forall blk_ok bs -> In (q, t) (live a bs) -> a + 24 <= q /\ q + t <= a + span bs /\ 16 <= t.
Proof.
  intros Hok. revert a. induction Hok as [|b bs [Hb _] Hok IH]; intros a; [done|].
  unfold MIN_BLOCK_SIZE in Hb. pose proof (span_nonneg bs Hok).
  cbn [live]. rewrite HEADER_SIZE_eq, span_cons, in_app_iff. intros [Hin|Hin%IH]; [|lia].
  destruct (bfree b); [done|]. destruct Hin as [[= <- <-]|[]]. lia.
Qed.

Lemma live_mod8 a bs q t :
  a mod 8 = 0 -> Forall blk_ok bs -> In (q, t) (live a bs) -> q mod 8 = 0.
Proof.
  intros Ha Hok. revert a Ha. induction Hok as [|b bs [_ Hb] Hok IH]; intros a Ha; [done|].
  cbn [live]. rewrite HEADER_SIZE_eq, in_app_iff. intros [Hin|Hin].
  - destruct (bfree b); [done|]. destruct Hin as [[= <- <-]|[]]. divlia.
  - eapply IH, Hin. divlia.
Qed.

(** A payload lies outside the header of every block. *)
Lemma live_apart a bs q t x :
  Forall blk_ok bs -> In (q, t) (live a bs) -> In x (addrs a bs) -> q + t <= x \/ x + 24 <= q.
Proof.
  intros Hok. revert a. induction Hok as [|b bs [Hb _] Hok IH]; intros a; [done|].
  unfold MIN_BLOCK_SIZE in Hb. cbn [live addrs]. rewrite HEADER_SIZE_eq, in_app_iff.
  intros [Hin|Hin] [<-|Hx].
  - destruct (bfree b); [done|]. destruct Hin as [[= <- <-]|[]]. lia.
  - destruct (bfree b); [done|]. destruct Hin as [[= <- <-]|[]].
    apply addrs_bounds in Hx; [lia|done].
  - apply live_bounds in Hin; [lia|done].
  - by eapply IH.
Qed.

(** The payloads of the other blocks avoid a block and the header after it. *)
Lemma live_beside a l b r q t :
  Forall blk_ok l -> Forall blk_ok r ->
  In (q, t) (live a l) \/ In (q, t) (live (a + span l + 24 + bsize b) r) ->
  q + t <= a + span l \/ a + span l + 24 + bsize b + 24 <= q.
Proof. intros Hl Hr [H|H]; apply live_bounds in H; [lia|done|lia|done]. Qed.

Lemma live_free_mid a l b r :
  bfree b = true -> live a (l ++ b :: r) = live a l ++ live (a + span l + 24 + bsize b) r.
Proof. intros Hb. rewrite live_app. cbn [live]. by rewrite Hb, HEADER_SIZE_eq. Qed.

Lemma live_used_mid a l b r :
  bfree b = false ->
  live a (l ++ b :: r) =
    live a l ++ (a + span l + 24, bsize b) :: live (a + span l + 24 + bsize b) r.
Proof. intros Hb. rewrite live_app. cbn [live]. by rewrite Hb, HEADER_SIZE_eq. Qed.

Lemma agree_link_back nx b m lo hi :
  nx = 0 \/ hi <= nx \/ nx + 20 <= lo -> agree m (link_back nx b m) lo hi.
Proof.
  unfold link_back. intros. destruct (Z.eqb_spec nx 0); [apply agree_refl|].
  apply agree_put_prev. lia.
Qed.

Lemma agree_split h l b r n lo hi :
  MIN_BLOCK_SIZE <= n < 2147483648 -> heap_rep h (l ++ b :: r) ->
  hi <= heap_start h + span l \/ heap_start h + span l + 24 + bsize b + 24 <= lo ->
  agree (hmem h) (put_free (heap_start h + span l) 0
                    (split_block (heap_start h + span l) n (hmem h))) lo hi.
Proof.
  unfold MIN_BLOCK_SIZE. intros Hn H Hout.
  pose proof (hseg_mid_header _ _ _ _ _ _ _ (hr_seg _ _ H)) as Hh.
  pose proof (heap_rep_bounds _ _ H) as (Ha & Hlim & _).
  pose proof (hr_blks _ _ H) as Hok. apply Forall_app in Hok as [Hl [[Hb _] Hr]%Forall_cons].
  pose proof (span_nonneg l Hl). pose proof (span_nonneg r Hr). span_norm.
  unfold MIN_BLOCK_SIZE in Hb. set (A := heap_start h + span l) in *.
  eapply agree_trans; [|apply agree_put_free; lia].
  destruct (Z.leb_spec (n + 40) (bsize b)).
  - assert (first_addr (A + 24 + bsize b) r 0 = 0 \/
            first_addr (A + 24 + bsize b) r 0 = A + 24 + bsize b) as Hnx by (destruct r; auto).
    rewrite (split_eq _ _ _ _ _ _ _ Hh) by (done || lia). cbv zeta.
    eapply agree_trans; [|apply agree_put_size; lia].
    eapply agree_trans; [|apply agree_put_next; lia].
    eapply agree_trans; [|apply agree_link_back; lia]. agree_puts.
  - rewrite split_block_noop; [apply agree_refl|lia|]. rewrite hdr_size_eq, Hh. cbn. lia.
Qed.

(** The heap area is where it was and the given payloads keep their bytes. *)
Definition keeps (ps : list (Z * Z)) (h h' : kheap) : Prop :=
  heap_start h' = heap_start h /\ heap_max h' = heap_max h /\
  forall q t, In (q, t) ps -> agree (hmem h) (hmem h') q (q + t).

Lemma heap_rep_count_allocation h bs : heap_rep h bs -> heap_rep (count_allocation h) bs.
Proof. intros []. by split. Qed.

Lemma heap_rep_count_free h bs : heap_rep h bs -> heap_rep (count_free h) bs.
Proof. intros []. by split. Qed.

Lemma heap_rep_warn h bs msg : heap_rep h bs -> heap_rep (heap_warn msg h) bs.
Proof. intros []. by split. Qed.

Lemma kmalloc_fit_step h size l b r :
  heap_rep h (l ++ b :: r) -> 0 < size <= 2147483584 ->
  find_free_block h (request_size size) = Ret (heap_start h + span l) ->
  fits (request_size size) b = true ->
  exists h', kmalloc size h = Ret (heap_start h + span l + 24, h') /\
    heap_rep h' (l ++ carve (request_size size) b ++ r) /\
    keeps (live (heap_start h) (l ++ b :: r)) h h'.
Proof.
  intros H Hsize Hfind Hfit.
  destruct (request_size_spec size Hsize) as (? & ? & ? & ? & _).
  pose proof (heap_rep_bounds _ _ H) as (Ha & Hlim & _).
  pose proof (hr_blks _ _ H) as Hok. apply Forall_app in Hok as [Hl [[Hb _] Hr]%Forall_cons].
  pose proof (span_nonneg l Hl). pose proof (span_nonneg r Hr).
  unfold fits in Hfit. apply andb_true_iff in Hfit as [Hfree _].
  unfold kmalloc. destruct (Z.eqb_spec size 0); [lia|]. rewrite Hfind.
  rewrite span_app, span_cons in Hlim. unfold MIN_BLOCK_SIZE in *.
  cbn [mbind outcome_bind]. destruct (Z.eqb_spec (heap_start h + span l) 0); [lia|]. cbn [negb].
  rewrite HEADER_SIZE_eq, u32_id by (unfold is_u32; lia).
  eexists. split; [reflexivity|]. split.
  - apply heap_rep_count_allocation, rep_take; unfold MIN_BLOCK_SIZE; auto; lia.
  - split; [done|]. split; [done|]. intros q t Hin. cbn [hmem with_mem count_allocation].
    eapply agree_split; [unfold MIN_BLOCK_SIZE; lia|exact H|].
    rewrite live_free_mid, in_app_iff in Hin by done. by apply (live_beside _ _ _ r q t Hl Hr).
Qed.

Lemma kmalloc_grow_step h size bs :
  heap_rep h bs -> 0 < size <= 2147483584 ->
  find_free_block h (request_size size) = Ret 0 ->
  heap_end h + 24 + request_size size <= heap_max h ->
  exists h', kmalloc size h = Ret (heap_end h + 24, h') /\
    heap_rep h' (bs ++ [Blk (request_size size) false]) /\
    keeps (live (heap_start h) bs) h h'.
Proof.
  intros H Hsize Hfind Hroom.
  destruct (request_size_spec size Hsize) as (? & Hn & Hn8 & ? & _).
  pose proof (heap_rep_bounds _ _ H) as (Ha & Hlim & Hsp).
  set (n := request_size size) in *.
  destruct (rep_append h n bs Hn Hn8 H Hroom) as (m' & Happ & Hseg & Hframe).
  unfold MIN_BLOCK_SIZE in *. destruct H.
  unfold kmalloc. destruct (Z.eqb_spec size 0); [lia|]. fold n. rewrite Hfind.
  cbn [mbind outcome_bind Z.eqb negb]. rewrite HEADER_SIZE_eq, u32_id by (unfold is_u32; lia).
  rewrite i32_small by lia. unfold kbrk.
  destruct (Z.eqb_spec (24 + n) 0); [lia|]. destruct (Z.ltb_spec 0 (24 + n)); [|lia].
  rewrite Z.add_assoc. rewrite (u32_id (heap_end h + 24 + n)) by (unfold is_u32; lia).
  destruct (Z.ltb_spec (heap_max h) (heap_end h + 24 + n)); [lia|].
  change (u32 (-1)) with 4294967295. destruct (Z.eqb_spec (heap_end h) 4294967295); [lia|].
  rewrite Happ, u32_id by (unfold is_u32; lia).
  eexists. split; [reflexivity|]. split.
  - apply heap_rep_count_allocation. split; cbn; try done.
    + rewrite span_app, span_cons, span_nil. cbn. lia.
    + apply Forall_app. repeat constructor; done.
    + by apply coalesced_snoc_used.
  - split; [done|]. split; [done|]. intros q t Hin. cbn [hmem count_allocation].
    apply Hframe; [apply live_bounds in Hin; [lia|done]|].
    intros x Hx. eapply live_apart in Hx; [|done..]. lia.
Qed.

Lemma kmalloc_full_step h size bs :
  heap_rep h bs -> 0 < size <= 2147483584 ->
  find_free_block h (request_size size) = Ret 0 ->
  heap_max h < heap_end h + 24 + request_size size ->
  kmalloc size h = Ret (0, heap_warn "kbrk: Heap would exceed maximum size" h).
Proof.
  intros H Hsize Hfind Hroom.
  destruct (request_size_spec size Hsize) as (? & Hn & ? & ? & _).
  pose proof (heap_rep_bounds _ _ H) as (Ha & Hlim & Hsp). destruct H.
  set (n := request_size size) in *. unfold MIN_BLOCK_SIZE in *.
  unfold kmalloc. destruct (Z.eqb_spec size 0); [lia|]. fold n. rewrite Hfind.
  cbn [mbind outcome_bind Z.eqb negb]. rewrite HEADER_SIZE_eq, u32_id by (unfold is_u32; lia).
  rewrite i32_small by lia. unfold kbrk.
  destruct (Z.eqb_spec (24 + n) 0); [lia|]. destruct (Z.ltb_spec 0 (24 + n)); [|lia].
  rewrite u32_id by (unfold is_u32; lia).
  by destruct (Z.ltb_spec (heap_max h) (heap_end h + (24 + n))); [|lia].
Qed.

(** The three outcomes of a request, by first fit. *)
Lemma kmalloc_cases h size bs :
  heap_rep h bs -> 0 < size <= 2147483584 ->
  let n := request_size size in
  (exists l b r h', bs = l ++ b :: r /\ Forall (fun b => fits n b = false) l /\
     fits n b = true /\ kmalloc size h = Ret (heap_start h + span l + 24, h') /\
     heap_rep h' (l ++ carve n b ++ r) /\ keeps (live (heap_start h) bs) h h') \/
  (Forall (fun b => fits n b = false) bs /\ heap_end h + 24 + n <= heap_max h /\
   exists h', kmalloc size h = Ret (heap_end h + 24, h') /\
     heap_rep h' (bs ++ [Blk n false]) /\ keeps (live (heap_start h) bs) h h') \/
  (Forall (fun b => fits n b = false) bs /\ heap_max h < heap_end h + 24 + n /\
   kmalloc size h = Ret (0, heap_warn "kbrk: Heap would exceed maximum size" h)).
Proof.
  intros H Hsize n.
  destruct (find_free_loop_spec (hmem h) n 0 (heap_start h) bs (heap_fuel h)
    (hr_blks _ _ H) (hr_low _ _ H) (hr_seg _ _ H) (heap_fuel_enough _ _ H))
    as [[Hno Hfind]|(l & b & r & -> & Hno & Hfit & Hfind)];
    rewrite <- (hr_list _ _ H) in Hfind; fold (find_free_block h n) in Hfind.
  - right. destruct (Z.le_gt_cases (heap_end h + 24 + n) (heap_max h)).
    + left. split; [done|]. split; [done|]. by apply kmalloc_grow_step.
    + right. split; [done|]. split; [lia|]. by eapply kmalloc_full_step.
  - left. destruct (kmalloc_fit_step h size l b r H Hsize Hfind Hfit) as (h' & ? & ? & ?).
    exists l, b, r, h'. auto 10.
Qed.

(** ** Lemmas: release *)

Lemma live_merge a l s t r :
  live a (l ++ Blk s true :: Blk t true :: r) = live a (l ++ Blk (s + 24 + t) true :: r).
Proof.
  rewrite !live_free_mid by done. cbn [live bfree bsize app]. rewrite HEADER_SIZE_eq.
  do 2 f_equal. lia.
Qed.

(** [absorb] on two adjacent free blocks: the segment, its limits and the payloads. *)
Lemma absorb_step m a l s t r :
  0 < a -> Forall blk_ok (l ++ Blk s true :: Blk t true :: r) ->
  a + span (l ++ Blk s true :: Blk t true :: r) < 2147483648 ->
  hseg m 0 a (l ++ Blk s true :: Blk t true :: r) 0 ->
  hseg (absorb (a + span l) (a + span l + 24 + s) m) 0 a (l ++ Blk (s + 24 + t) true :: r) 0 /\
  (forall q n, In (q, n) (live a (l ++ Blk s true :: Blk t true :: r)) ->
    agree m (absorb (a + span l) (a + span l + 24 + s) m) q (q + n)) /\
  agree m (absorb (a + span l) (a + span l + 24 + s) m)
    (a + span l + 24 + s) (a + span l + 24 + s + 20).
Proof.
  intros Ha Hok Hlim H. pose proof Hok as Hok'.
  apply Forall_app in Hok as [Hl [[Hs _] [[Ht _] Hr]%Forall_cons]%Forall_cons].
  cbn [bsize] in *. split; [by apply (hseg_absorb m 0 a l r Ha Hl Hr s true t true)|].
  pose proof (hseg_mid_header _ _ _ _ _ _ _ H) as Hh.
  pose proof (hseg_after m 0 a l [Blk s true] (Blk t true) r 0 H) as Hc.
  pose proof (span_nonneg l Hl). pose proof (span_nonneg r Hr).
  unfold MIN_BLOCK_SIZE in *. span_norm. rewrite Z.add_0_r, Z.add_assoc in Hc.
  rewrite live_merge, live_free_mid by done. cbn [bsize].
  set (A := a + span l) in *. set (C := A + 24 + s) in *. set (D := C + 24 + t) in *.
  assert (first_addr D r 0 = 0 \/ first_addr D r 0 = D) as Hnx by (destruct r; auto).
  rewrite (absorb_eq A C m _ _ _ _ _ _ _ _ Hh Hc) by (unfold is_u32; fold D; lia). fold D.
  split; [intros q n Hin|].
  - rewrite in_app_iff in Hin. replace (A + 24 + (s + 24 + t)) with D in Hin by lia.
    assert (q + n <= A \/ D + 24 <= q)
      by (destruct Hin as [Hin|Hin]; apply live_bounds in Hin; [lia|done|lia|done]).
    eapply agree_trans; [|apply agree_link_back; lia]. agree_puts.
  - eapply agree_trans; [|apply agree_link_back; lia]. agree_puts.
Qed.

Lemma merge_prev_cons l b n r :
  merge_prev (l ++ [b]) (Blk n true :: r) =
    if bfree b then l ++ Blk (bsize b + 24 + n) true :: r else l ++ b :: Blk n true :: r.
Proof.
  induction l as [|c l IH].
  - destruct b as [s []]; simpl; [|done]. by rewrite HEADER_SIZE_eq.
  - destruct c as [s []]; destruct l as [|d l]; simpl in *; rewrite IH; by destruct (bfree b).
Qed.

(** [coalesce_blocks] is two [absorb]s. *)
Definition coalesce_next (b : Z) (m : mem) : mem :=
  if negb (hdr_next m b =? 0) && hdr_free m (hdr_next m b) then absorb b (hdr_next m b) m else m.

Definition coalesce_prev (b : Z) (m : mem) : mem :=
  if negb (hdr_prev m b =? 0) && hdr_free m (hdr_prev m b) then absorb (hdr_prev m b) b m else m.

Lemma hdr_next_put_size m b v c : hdr_next (put_size b v m) b = hdr_next m b /\
  (apart b c -> hdr_next (put_size b v m) c = hdr_next m c /\ hdr_prev (put_size b v m) c = hdr_prev m c).
Proof.
  unfold hdr_next, hdr_prev, put_size, apart. rewrite !load32_store32_ne by lia. split; [done|].
  intros. by rewrite !load32_store32_ne by lia.
Qed.

Lemma coalesce_with_next_eq b m : coalesce_with_next b m = coalesce_next b m.
Proof.
  unfold coalesce_with_next, coalesce_next. case_match; [|done]. unfold absorb.
  by rewrite (proj1 (hdr_next_put_size m b _ 0)).
Qed.

Lemma coalesce_with_prev_eq b m :
  (hdr_prev m b <> 0 -> hdr_prev m b + 24 <= b) -> coalesce_with_prev b m = coalesce_prev b m.
Proof.
  intros Hp. unfold coalesce_with_prev, coalesce_prev.
  destruct (Z.eqb_spec (hdr_prev m b) 0) as [->|Hne]; [done|]. cbn [negb andb].
  case_match; [|done]. set (p := hdr_prev m b) in *.
  unfold absorb. set (m2 := put_size p _ m).
  assert (apart p b) as Hap by (unfold apart; specialize (Hp Hne); lia).
  destruct (proj2 (hdr_next_put_size m p _ b) Hap
    : hdr_next m2 b = hdr_next m b /\ hdr_prev m2 b = hdr_prev m b) as [Hn2 Hp2].
  rewrite Hp2. fold p. set (m3 := put_next p (hdr_next m2 b) m2).
  assert (hdr_next m3 b = hdr_next m2 b) as Hn3.
  { subst m3. unfold hdr_next, put_next, apart in *. rewrite load32_store32_ne by lia. done. }
  assert (hdr_prev m3 b = p) as Hp3.
  { subst m3. unfold hdr_prev, put_next, apart in *. rewrite load32_store32_ne by lia. done. }
  assert (hdr_next m3 p = hdr_next m2 b) as Hn3'.
  { subst m3. unfold hdr_next at 1, put_next. rewrite load32_store32_eq. apply u32_id, load32_range. }
  cbv zeta. by rewrite Hn3, Hp3, Hn3'.
Qed.

Lemma coalesce_next_step m a l n r :
  0 < a -> Forall blk_ok (l ++ Blk n true :: r) -> a + span (l ++ Blk n true :: r) < 2147483648 ->
  hseg m 0 a (l ++ Blk n true :: r) 0 ->
  hseg (coalesce_next (a + span l) m) 0 a (l ++ merge_next n r) 0 /\
  live a (l ++ merge_next n r) = live a (l ++ Blk n true :: r) /\
  forall q k, In (q, k) (live a (l ++ Blk n true :: r)) ->
    agree m (coalesce_next (a + span l) m) q (q + k).
Proof.
  intros Ha Hok Hlim H. pose proof (hseg_mid_header _ _ _ _ _ _ _ H) as Hh.
  pose proof Hok as Hok'. apply Forall_app in Hok as [Hl [[Hn _] Hr]%Forall_cons].
  pose proof (span_nonneg l Hl). cbn [bsize bfree] in *. unfold MIN_BLOCK_SIZE in *.
  unfold coalesce_next. rewrite hdr_next_eq, Hh. cbn [h_next].
  destruct r as [|[t g] r]; cbn [first_addr merge_next].
  { simpl. split; [done|]. split; [done|]. intros. apply agree_refl. }
  destruct (Z.eqb_spec (a + span l + 24 + n) 0); [lia|]. cbn [negb andb].
  pose proof (hseg_after m 0 a l [Blk n true] (Blk t g) r 0 H) as Hc.
  rewrite span_cons, span_nil, Z.add_0_r, Z.add_assoc in Hc. cbn [bsize bfree] in Hc.
  rewrite hdr_free_eq, Hc. cbn [h_free]. destruct g; simpl.
  - rewrite HEADER_SIZE_eq. destruct (absorb_step m a l n t r Ha Hok' Hlim H) as (H1 & H2 & _).
    split; [done|]. split; [by rewrite live_merge|done].
  - split; [done|]. split; [done|]. intros. apply agree_refl.
Qed.

Lemma coalesce_prev_step m a l n r :
  0 < a -> Forall blk_ok (l ++ Blk n true :: r) -> a + span (l ++ Blk n true :: r) < 2147483648 ->
  hseg m 0 a (l ++ Blk n true :: r) 0 ->
  hseg (coalesce_prev (a + span l) m) 0 a (merge_prev l (Blk n true :: r)) 0 /\
  live a (merge_prev l (Blk n true :: r)) = live a (l ++ Blk n true :: r) /\
  (forall q k, In (q, k) (live a (l ++ Blk n true :: r)) ->
    agree m (coalesce_prev (a + span l) m) q (q + k)) /\
  (hdr_prev m (a + span l) <> 0 -> hdr_prev m (a + span l) + 24 <= a + span l) /\
  hdr_magic (coalesce_prev (a + span l) m) (a + span l) = BLOCK_MAGIC /\
  hdr_free (coalesce_prev (a + span l) m) (a + span l) = true.
Proof.
  intros Ha Hok Hlim H. pose proof (hseg_mid_header _ _ _ _ _ _ _ H) as Hh.
  unfold coalesce_prev. rewrite hdr_prev_eq, Hh. cbn [h_prev].
  destruct (last_cases l) as [->|(l' & [s f] & ->)].
  { split; [exact H|]. split; [done|]. split; [intros; apply agree_refl|]. split; [done|].
    cbn [last_addr Z.eqb negb andb]. by rewrite hdr_magic_eq, hdr_free_eq, Hh. }
  rewrite last_addr_snoc, merge_prev_cons. cbn [bfree bsize].
  rewrite <- app_assoc in *. cbn [app] in *.
  pose proof (hseg_mid_header _ _ _ _ _ _ _ H) as Hp.
  pose proof Hok as Hok'. apply Forall_app in Hok' as [Hl [[Hs _] _]%Forall_cons].
  pose proof (span_nonneg l' Hl). cbn [bsize bfree] in *. unfold MIN_BLOCK_SIZE in *.
  rewrite span_app, span_cons, span_nil. cbn [bsize].
  destruct (Z.eqb_spec (a + span l') 0); [lia|]. cbn [negb andb].
  rewrite hdr_free_eq, Hp. cbn [h_free].
  rewrite span_app, span_cons, span_nil in Hh. cbn [bsize] in Hh.
  replace (a + (span l' + (24 + s + 0))) with (a + span l' + 24 + s) in * by lia.
  destruct f; simpl.
  - destruct (absorb_step m a l' s n r Ha Hok Hlim H) as (H1 & H2 & H3).
    split; [done|]. split; [by rewrite live_merge|]. split; [done|]. split; [lia|].
    by rewrite hdr_magic_eq, hdr_free_eq, (read_hdr_agree _ _ _ H3), Hh.
  - split; [done|]. split; [done|]. split; [intros; apply agree_refl|]. split; [lia|].
    by rewrite hdr_magic_eq, hdr_free_eq, Hh.
Qed.

Lemma merge_next_shape n r :
  blk_ok (Blk n true) -> Forall blk_ok r -> coalesced r ->
  exists n' r', merge_next n r = Blk n' true :: r' /\ span (merge_next n r) = 24 + n + span r /\
    Forall blk_ok (merge_next n r) /\ coalesced (merge_next n r).
Proof.
  intros Hn Hr Hc. unfold blk_ok, MIN_BLOCK_SIZE in *. cbn [bsize] in Hn.
  destruct r as [|[t []] r]; cbn [merge_next]; (eexists _, _; split; [reflexivity|]);
    rewrite ?span_cons, ?HEADER_SIZE_eq; cbn [bsize].
  - rewrite span_nil. split; [lia|]. split; [|done]. constructor; done.
  - apply Forall_cons in Hr as [[Ht Ht8] Hr]. cbn [bsize] in *. split; [lia|]. split.
    + constructor; [|done]. cbn [bsize]. split; [lia|divlia].
    + rewrite coalesced_cons in *. destruct r; simpl in *; tauto.
  - split; [lia|]. split; [|by split]. constructor; done.
Qed.

Lemma merge_prev_shape l n r :
  Forall blk_ok (l ++ Blk n true :: r) -> coalesced l -> coalesced (Blk n true :: r) ->
  span (merge_prev l (Blk n true :: r)) = span (l ++ Blk n true :: r) /\
  Forall blk_ok (merge_prev l (Blk n true :: r)) /\ coalesced (merge_prev l (Blk n true :: r)) /\
  (forall a fin, first_addr a (merge_prev l (Blk n true :: r)) fin = a).
Proof.
  intros Hok Hl Hr. destruct (last_cases l) as [->|(l' & [s f] & ->)]; [done|].
  rewrite merge_prev_cons. cbn [bfree bsize]. rewrite <- app_assoc in *. cbn [app] in *.
  apply coalesced_snoc in Hl as [Hl Hlast]. cbn [bfree] in Hlast. rewrite coalesced_cons in Hr.
  pose proof Hok as Hok'. unfold blk_ok, MIN_BLOCK_SIZE in Hok.
  apply Forall_app in Hok as [Hok1 [[Hs Hs8] [[Hn Hn8] Hok2]%Forall_cons]%Forall_cons].
  cbn [bsize] in *. destruct f.
  - rewrite !span_app, !span_cons. cbn [bsize]. split; [lia|]. split; [|split].
    + apply Forall_app. split; [apply Forall_app in Hok'; tauto|]. constructor; [|done].
      unfold blk_ok, MIN_BLOCK_SIZE. cbn [bsize]. split; [lia|divlia].
    + rewrite coalesced_mid, coalesced_snoc, coalesced_cons. tauto.
    + by destruct l'.
  - split; [done|]. split; [done|]. split; [|by destruct l'].
    rewrite coalesced_mid, coalesced_snoc, !coalesced_cons. cbn [bfree andb]. tauto.
Qed.

Lemma spec_free_shape h l n r :
  heap_rep h (l ++ Blk n false :: r) ->
  span (spec_free l n r) = span (l ++ Blk n false :: r) /\
  Forall blk_ok (spec_free l n r) /\ coalesced (spec_free l n r) /\
  forall fin, first_addr (heap_start h) (spec_free l n r) fin = heap_start h.
Proof.
  intros H. pose proof (hr_blks _ _ H) as Hok. pose proof (hr_coalesced _ _ H) as Hc.
  apply Forall_app in Hok as [Hl [Hb Hr]%Forall_cons].
  rewrite coalesced_mid, coalesced_snoc, coalesced_cons in Hc. destruct Hc as [[Hcl _] [_ Hcr]].
  destruct (merge_next_shape n r Hb Hr Hcr) as (n' & r' & E & Hs & Hok' & Hc').
  unfold spec_free. rewrite E in *.
  destruct (merge_prev_shape l n' r') as (H1 & H2 & H3 & H4); auto; [by apply Forall_app|].
  split; [|auto]. rewrite H1, !span_app, Hs, span_cons. done.
Qed.

(** Marking a block free and merging it, in memory. *)
Lemma release_step h l n r :
  heap_rep h (l ++ Blk n false :: r) ->
  let A := heap_start h + span l in
  let ps := live (heap_start h) l ++ live (A + 24 + n) r in
  let m := coalesce_blocks A (put_free A 1 (hmem h)) in
  hseg m 0 (heap_start h) (spec_free l n r) 0 /\
  live (heap_start h) (spec_free l n r) = ps /\
  (forall q t, In (q, t) ps -> agree (hmem h) m q (q + t)) /\
  hdr_magic m A = BLOCK_MAGIC /\ hdr_free m A = true.
Proof.
  intros H A ps m. pose proof (heap_rep_bounds _ _ H) as (Ha & Hlim & _).
  pose proof (hr_blks _ _ H) as Hok. apply Forall_app in Hok as [Hl [Hb Hr]%Forall_cons].
  pose proof (hr_coalesced _ _ H) as Hc.
  rewrite coalesced_mid, coalesced_snoc, coalesced_cons in Hc. destruct Hc as [_ [_ Hcr]].
  rewrite span_app, span_cons in Hlim. cbn [bsize] in Hlim.
  pose proof (hseg_set_free (hmem h) 0 (heap_start h) l r Hl Hr n false true
    (proj1 Hb) (hr_seg _ _ H)) as H1.
  change (Z.b2z true) with 1 in H1. change (heap_start h + span l) with A in H1.
  set (m1 := put_free A 1 (hmem h)) in *.
  assert (Forall blk_ok (l ++ Blk n true :: r)) as Hok1 by (apply Forall_app; auto).
  assert (heap_start h + span (l ++ Blk n true :: r) < 2147483648) as Hlim1
    by (rewrite span_app, span_cons; cbn [bsize]; lia).
  destruct (coalesce_next_step m1 _ l n r Ha Hok1 Hlim1 H1) as (H2 & Hlive2 & Hfr2).
  change (heap_start h + span l) with A in H2, Hfr2.
  destruct (merge_next_shape n r Hb Hr Hcr) as (n' & r' & E & Hs2 & Hok2 & _).
  unfold spec_free. rewrite E in *.
  destruct (coalesce_prev_step (coalesce_next A m1) _ l n' r' Ha) as (H3 & Hlive3 & Hfr3 & Hprev & Htag);
    [by apply Forall_app|rewrite span_app, Hs2; lia|exact H2|].
  change (heap_start h + span l) with A in H3, Hfr3, Hprev, Htag.
  assert (live (heap_start h) (l ++ Blk n true :: r) = ps) as Hps by by rewrite live_free_mid.
  assert (m = coalesce_prev A (coalesce_next A m1)) as Heq
    by (subst m; unfold coalesce_blocks; rewrite coalesce_with_next_eq; by apply coalesce_with_prev_eq).
  rewrite Heq. split; [done|]. split; [congruence|]. split; [|done]. intros q t Hin.
  eapply agree_trans; [|apply Hfr3; by rewrite Hlive2, Hps].
  eapply agree_trans; [|apply Hfr2; by rewrite Hps].
  apply agree_put_free. unfold ps in Hin. rewrite in_app_iff in Hin.
  apply (live_beside _ l (Blk n false) r q t Hl Hr) in Hin.
  destruct Hb as [Hn _]. unfold A. unfold MIN_BLOCK_SIZE in Hn. cbn [bsize] in *. lia.
Qed.

Lemma kfree_step h l n r :
  heap_rep h (l ++ Blk n false :: r) ->
  let ps := live (heap_start h) l ++ live (heap_start h + span l + 24 + n) r in
  exists h', kfree (heap_start h + span l + 24) h = Ret h' /\
    heap_rep h' (spec_free l n r) /\ live (heap_start h) (spec_free l n r) = ps /\
    keeps ps h h' /\ total_frees h' = u32 (total_frees h + 1) /\ warnings h' = warnings h /\
    hdr_magic (hmem h') (heap_start h + span l) = BLOCK_MAGIC /\
    hdr_free (hmem h') (heap_start h + span l) = true.
Proof.
  intros H ps. destruct (spec_free_shape h l n r H) as (Hspan & Hok' & Hco' & Hfst).
  pose proof (heap_rep_bounds _ _ H) as (Ha & Hlim & _).
  pose proof (hseg_mid_header _ _ _ _ _ _ _ (hr_seg _ _ H)) as Hh. cbn [bsize bfree] in Hh.
  pose proof (hr_blks _ _ H) as Hok. apply Forall_app in Hok as [Hl [[Hn _] Hr]%Forall_cons].
  pose proof (span_nonneg l Hl). pose proof (span_nonneg r Hr).
  rewrite span_app, span_cons in Hlim. cbn [bsize] in *. unfold MIN_BLOCK_SIZE in Hn.
  destruct (release_step h l n r H) as (Hseg & Hlive & Hframe & Htag).
  unfold kfree. rewrite HEADER_SIZE_eq.
  replace (heap_start h + span l + 24 - 24) with (heap_start h + span l) by lia.
  destruct (Z.eqb_spec (heap_start h + span l + 24) 0); [lia|].
  rewrite u32_id by (unfold is_u32; lia).
  rewrite hdr_magic_eq, hdr_free_eq, Hh. cbn [h_magic h_free]. rewrite Z.eqb_refl.
  cbn [negb Z.b2z Z.eqb]. eexists. split; [reflexivity|]. split; [|split; [done|split]].
  - change (heap_rep (with_mem (fun m => coalesce_blocks (heap_start h + span l)
      (put_free (heap_start h + span l) 1 m)) (count_free h)) (spec_free l n r)).
    eapply heap_rep_with_mem; [by apply heap_rep_count_free|..]; try done.
    cbn [count_free heap_start]. rewrite Hfst. by destruct l.
  - split; [done|]. split; [done|]. exact Hframe.
  - split; [done|]. split; [done|]. exact Htag.
Qed.

(** ** Lemmas: the client's view *)

Lemma live_split a bs q n :
  In (q, n) (live a bs) -> exists l r, bs = l ++ Blk n false :: r /\ q = a + span l + 24.
Proof.
  revert a. induction bs as [|[s f] bs IH]; intros a; [done|].
  cbn [live bsize bfree]. rewrite HEADER_SIZE_eq, in_app_iff. intros [Hin|Hin].
  - destruct f; [done|]. destruct Hin as [[= <- <-]|[]]. exists [], bs.
    rewrite span_nil. split; [done|lia].
  - apply IH in Hin as (l & r & -> & ->). exists (Blk s f :: l), r. rewrite span_cons.
    split; [done|]. cbn [bsize]. lia.
Qed.

Lemma live_carve a l n b r :
  bfree b = true ->
  exists k, live a (l ++ carve n b ++ r) =
    live a l ++ (a + span l + 24, k) :: live (a + span l + 24 + bsize b) r /\
    (n <= bsize b -> n <= k <= bsize b).
Proof.
  intros Hb. unfold carve. case_match; cbn [app].
  - exists n. rewrite live_used_mid by done. cbn [live bsize bfree]. rewrite HEADER_SIZE_eq.
    cbn [app]. split; [|lia]. do 3 f_equal. lia.
  - exists (bsize b). by rewrite live_used_mid.
Qed.

(** Payloads do not overlap. *)
Definition apart_ranges (x y : Z * Z) : Prop := x.1 + x.2 <= y.1 \/ y.1 + y.2 <= x.1.

(** What a client gets: an aligned range inside the heap, at least as large as
    asked for, away from every payload it already holds. *)
Definition fresh_block (size : Z) (h h' : kheap) (ps : list (Z * Z)) (p k : Z) : Prop :=
  p mod 8 = 0 /\ size <= k /\ heap_start h + HEADER_SIZE <= p /\ p + k <= heap_end h' /\
  Forall (apart_ranges (p, k)) ps.

Lemma fit_fresh h h' size l b r :
  heap_rep h (l ++ b :: r) -> heap_rep h' (l ++ carve (request_size size) b ++ r) ->
  keeps (live (heap_start h) (l ++ b :: r)) h h' -> 0 < size <= 2147483584 ->
  fits (request_size size) b = true ->
  exists k, live (heap_start h) (l ++ carve (request_size size) b ++ r) ≡ₚ
      (heap_start h + span l + 24, k) :: live (heap_start h) (l ++ b :: r) /\
    fresh_block size h h' (live (heap_start h) (l ++ b :: r)) (heap_start h + span l + 24) k.
Proof.
  intros H H' (Hst & _ & _) Hsize Hfit. destruct (request_size_spec size Hsize) as (Hge & _).
  unfold fits in Hfit. apply andb_true_iff in Hfit as [Hfree Hle%Z.leb_le].
  pose proof (hr_blks _ _ H) as Hok. apply Forall_app in Hok as [Hl [[Hb Hb8] Hr]%Forall_cons].
  pose proof (span_nonneg l Hl). pose proof (span_nonneg r Hr). unfold MIN_BLOCK_SIZE in Hb.
  destruct (live_carve (heap_start h) l (request_size size) b r Hfree) as (k & Hlive & Hk).
  specialize (Hk Hle). exists k. rewrite Hlive, live_free_mid by done. split.
  { symmetry. apply Permutation_middle. }
  unfold fresh_block. rewrite HEADER_SIZE_eq, (hr_end _ _ H'), Hst, !span_app, carve_span.
  pose proof (hr_aligned _ _ H). pose proof (span_mod8 l Hl).
  split; [divlia|]. split; [lia|]. split; [lia|]. split; [lia|].
  apply Forall_app. unfold apart_ranges. cbn [fst snd].
  split; apply List.Forall_forall; intros [q t] Hin; apply live_bounds in Hin; try done; cbn; lia.
Qed.

Lemma grow_fresh h h' size bs :
  heap_rep h bs -> heap_rep h' (bs ++ [Blk (request_size size) false]) ->
  keeps (live (heap_start h) bs) h h' -> 0 < size <= 2147483584 ->
  live (heap_start h) (bs ++ [Blk (request_size size) false]) ≡ₚ
    (heap_end h + 24, request_size size) :: live (heap_start h) bs /\
  fresh_block size h h' (live (heap_start h) bs) (heap_end h + 24) (request_size size).
Proof.
  intros H H' (Hst & _ & _) Hsize. destruct (request_size_spec size Hsize) as (Hge & _).
  pose proof (hr_blks _ _ H) as Hok. pose proof (span_nonneg bs Hok).
  rewrite live_used_mid by done. cbn [live bsize]. rewrite (hr_end _ _ H). split.
  { by rewrite Permutation_app_comm. }
  unfold fresh_block. rewrite HEADER_SIZE_eq, (hr_end _ _ H'), Hst, span_app, span_cons, span_nil.
  cbn [bsize]. pose proof (hr_aligned _ _ H). pose proof (span_mod8 bs Hok).
  split; [divlia|]. split; [lia|]. split; [lia|]. split; [lia|].
  apply List.Forall_forall. intros [q t] Hin. apply live_bounds in Hin; [|done].
  unfold apart_ranges. cbn. lia.
Qed.

(** Giving back what the split just took. *)
Lemma uncarve l n b r :
  MIN_BLOCK_SIZE <= n -> fits n b = true -> coalesced (l ++ b :: r) ->
  exists s r', carve n b ++ r = Blk s false :: r' /\ spec_free l s r' = l ++ b :: r.
Proof.
  unfold fits. intros Hn [Hb Hle%Z.leb_le]%andb_true_iff Hc.
  destruct b as [s f]. cbn [bfree bsize] in *. subst f.
  rewrite coalesced_mid, coalesced_snoc, coalesced_cons in Hc. destruct Hc as [[_ Hl] [Hr _]].
  assert (merge_prev l (Blk s true :: r) = l ++ Blk s true :: r) as Hprev.
  { destruct (last_cases l) as [->|(l' & c & ->)]; [done|]. rewrite merge_prev_cons.
    rewrite last_snoc in Hl. cbn [bfree] in Hl. rewrite andb_true_r in Hl. rewrite Hl.
    by rewrite <- app_assoc. }
  unfold carve. cbn [bsize].
  destruct (n + HEADER_SIZE + MIN_BLOCK_SIZE <=? s); cbn [app]; (eexists _, _; split; [reflexivity|]);
    unfold spec_free; cbn [merge_next].
  - replace (n + HEADER_SIZE + (s - n - HEADER_SIZE)) with s by lia. done.
  - rewrite <- Hprev. f_equal. destruct r as [|[t []] r]; done.
Qed.

(** ** Lemmas: statistics *)

Definition used_bytes (bs : list blk) : Z :=
  foldr (fun b n => (if bfree b then 0 else bsize b + HEADER_SIZE) + n) 0 bs.
Definition free_bytes (bs : list blk) : Z :=
  foldr (fun b n => (if bfree b then bsize b else 0) + n) 0 bs.
Definition count_blocks (v : bool) (bs : list blk) : Z :=
  lenZ (filter (fun b => bfree b = v) bs).

Lemma used_bytes_cons b bs :
  used_bytes (b :: bs) = (if bfree b then 0 else bsize b + 24) + used_bytes bs.
Proof. done. Qed.
Lemma free_bytes_cons b bs :
  free_bytes (b :: bs) = (if bfree b then bsize b else 0) + free_bytes bs.
Proof. done. Qed.
Lemma count_blocks_cons v b bs :
  count_blocks v (b :: bs) = (if eqb (bfree b) v then 1 else 0) + count_blocks v bs.
Proof.
  unfold count_blocks, lenZ. rewrite filter_cons.
  case_decide as E; destruct (eqb_spec (bfree b) v); try done; rewrite ?length_cons; lia.
Qed.

Lemma stats_totals bs :
  Forall blk_ok bs ->
  span bs = used_bytes bs + free_bytes bs + HEADER_SIZE * count_blocks true bs /\
  0 <= used_bytes bs /\ 0 <= free_bytes bs /\ 0 <= count_blocks true bs <= span bs /\
  0 <= count_blocks false bs <= span bs.
Proof.
  rewrite HEADER_SIZE_eq.
  induction 1 as [|[s f] bs [Hb _] _ IH]; [done|]. unfold MIN_BLOCK_SIZE in Hb.
  rewrite span_cons, used_bytes_cons, free_bytes_cons, !count_blocks_cons.
  cbn [bfree bsize] in *. destruct f; cbn [eqb]; lia.
Qed.

Lemma stats_loop_spec m p a bs fuel hs us fs na nf :
  Forall blk_ok bs -> 0 < a -> hseg m p a bs 0 -> (length bs < fuel)%nat ->
  0 <= us -> us + span bs < 4294967296 -> 0 <= fs -> fs + span bs < 4294967296 ->
  0 <= na -> na + span bs < 4294967296 -> 0 <= nf -> nf + span bs < 4294967296 ->
  stats_loop fuel m (first_addr a bs 0) (KStats hs us fs na nf) =
    Ret (KStats hs (us + used_bytes bs) (fs + free_bytes bs) (na + count_blocks false bs)
           (nf + count_blocks true bs)).
Proof.
  intros Hok. revert p a fuel us fs na nf.
  induction Hok as [|[s f] bs [Hb _] Hok IH]; intros p a fuel us fs na nf Ha Hs Hf ????????.
  - destruct fuel as [|fuel]; [simpl in Hf; lia|]. cbn. by rewrite !Z.add_0_r.
  - destruct fuel as [|fuel]; simpl in Hf; [lia|]. destruct Hs as [Hh Hs].
    pose proof (span_nonneg bs Hok). rewrite span_cons in *. cbn [bsize bfree] in *.
    unfold MIN_BLOCK_SIZE in Hb. cbn [first_addr stats_loop].
    destruct (Z.eqb_spec a 0); [lia|]. unfold stats_block.
    rewrite hdr_free_eq, hdr_next_eq, hdr_size_eq, Hh. cbn [h_next h_free h_size ks_heap_size
      ks_used_size ks_free_size ks_num_allocations ks_num_free_blocks].
    rewrite used_bytes_cons, free_bytes_cons, !count_blocks_cons, HEADER_SIZE_eq.
    cbn [bfree bsize]. destruct f; cbn [Z.b2z Z.eqb negb eqb];
      rewrite ?(u32_id (s + 24)), !u32_id by (unfold is_u32; lia);
      rewrite (IH a) by (done || lia); do 2 f_equal; lia.
Qed.

(** ** Properties *)

(** C32. [kmalloc] implements first fit: on a well-formed heap it returns the
    address the specification computes on the list of blocks (the first free
    block that is large enough, split when 40 bytes are left over; else a new
    block at the end of the heap; else NULL), the memory afterwards represents
    the specification's new list, and the walks along the list terminate. *)
Theorem kmalloc_refines_first_fit h bs size :
  heap_rep h bs -> 0 < size <= 2147483584 ->
  let '(p, bs') := spec_malloc (request_size size) (heap_start h) (heap_max h) bs in
  exists h', kmalloc size h = Ret (p, h') /\ heap_rep h' bs'.
Proof.
  intros H Hsize. unfold spec_malloc. rewrite HEADER_SIZE_eq, <- (hr_end _ _ H).
  destruct (kmalloc_cases h size bs H Hsize)
    as [(l & b & r & h' & -> & Hno & Hfit & Hk & Hrep & _)|[(Hno & Hroom & h' & Hk & Hrep & _)|(Hno & Hfull & Hk)]].
  - rewrite spec_fit_some by done. eauto.
  - rewrite spec_fit_none by done. destruct (Z.leb_spec (heap_end h + 24 + request_size size) (heap_max h)); [|lia].
    eauto.
  - rewrite spec_fit_none by done. destruct (Z.leb_spec (heap_end h + 24 + request_size size) (heap_max h)); [lia|].
    eexists. split; [exact Hk|]. by apply heap_rep_warn.
Qed.

Definition demo_alloc (sizes : list Z) (h : kheap) : kheap :=
  foldl (fun h s => match kmalloc s h with Ret (_, h) => h | _ => h end) h sizes.

Definition demo_free (p : Z) (h : kheap) : kheap :=
  match kfree p h with Ret h => h | _ => h end.

(** Three allocations of 16, 64 and 16 bytes, the middle one freed. *)
Definition demo_h : kheap :=
  demo_free 4160 (demo_alloc [16; 64; 16] (KHeap ∅ 4096 4096 8392704 0 0 0 [])).

Definition demo_bs : list blk := [Blk 16 false; Blk 64 true; Blk 16 false].

Lemma demo_rep : heap_rep demo_h demo_bs.
Proof.
  split; try (vm_compute; reflexivity); try (vm_compute; congruence).
  - vm_compute. auto.
  - repeat constructor; cbn; unfold MIN_BLOCK_SIZE; (lia || done).
  - vm_compute. auto.
Qed.

Lemma kmalloc_refines_first_fit_witness :
  exists h', kmalloc 20 demo_h = Ret (4160, h') /\
    heap_rep h' [Blk 16 false; Blk 24 false; Blk 16 true; Blk 16 false].
Proof. exact (kmalloc_refines_first_fit demo_h demo_bs 20 demo_rep ltac:(lia)). Defined.

(** Memory safety of allocation: [kmalloc] always returns; either NULL,
    with the heap unchanged, exactly when no free block fits and the heap
    cannot grow; or an 8-aligned range inside the heap, at least as large as
    requested, disjoint from every payload already handed out, which becomes the
    only new payload.  The bytes of the existing payloads are not touched. *)
Theorem kmalloc_memory_safe h bs size :
  heap_rep h bs -> 0 < size <= 2147483584 ->
  exists p h' bs', kmalloc size h = Ret (p, h') /\ heap_rep h' bs' /\
    keeps (live (heap_start h) bs) h h' /\
    ((p = 0 /\ bs' = bs /\ hmem h' = hmem h /\
      Forall (fun b => bfree b = true -> bsize b < request_size size) bs /\
      heap_max h < heap_end h + HEADER_SIZE + request_size size) \/
     (p <> 0 /\ exists k,
        live (heap_start h) bs' ≡ₚ (p, k) :: live (heap_start h) bs /\
        fresh_block size h h' (live (heap_start h) bs) p k)).
Proof.
  intros H Hsize. pose proof (heap_rep_bounds _ _ H) as (Ha & Hlim & Hsp).
  destruct (kmalloc_cases h size bs H Hsize)
    as [(l & b & r & h' & -> & Hno & Hfit & Hk & Hrep & Hkeep)|[(Hno & Hroom & h' & Hk & Hrep & Hkeep)|(Hno & Hfull & Hk)]].
  - destruct (fit_fresh h h' size l b r) as (k & Hlive & Hfresh); [done..|].
    eexists _, h', _. split; [exact Hk|]. split; [done|]. split; [done|]. right.
    destruct Hfresh as (? & ? & Hlow & ?). rewrite HEADER_SIZE_eq in Hlow.
    split; [lia|]. exists k. by rewrite Hlive.
  - destruct (grow_fresh h h' size bs) as (Hlive & Hfresh); [done..|].
    eexists _, h', _. split; [exact Hk|]. split; [done|]. split; [done|]. right.
    rewrite (hr_end _ _ H) in *. split; [lia|]. exists (request_size size). by rewrite Hlive.
  - eexists _, _, bs. split; [exact Hk|]. split; [by apply heap_rep_warn|].
    split; [split; [done|split; [done|intros; apply agree_refl]]|]. left. split; [done|].
    split; [done|]. split; [done|]. rewrite HEADER_SIZE_eq. split; [|done].
    eapply Forall_impl; [exact Hno|]. unfold fits. intros b Hb Hf. rewrite Hf in Hb.
    by apply Z.leb_gt in Hb.
Qed.

Lemma kmalloc_memory_safe_witness :
  exists p h' bs', kmalloc 20 demo_h = Ret (p, h') /\ heap_rep h' bs' /\
    keeps (live 4096 demo_bs) demo_h h' /\
    ((p = 0 /\ bs' = demo_bs /\ hmem h' = hmem demo_h /\
      Forall (fun b => bfree b = true -> bsize b < request_size 20) demo_bs /\
      heap_max demo_h < heap_end demo_h + HEADER_SIZE + request_size 20) \/
     (p <> 0 /\ exists k, live 4096 bs' ≡ₚ (p, k) :: live 4096 demo_bs /\
        fresh_block 20 demo_h h' (live 4096 demo_bs) p k)).
Proof. exact (kmalloc_memory_safe demo_h demo_bs 20 demo_rep ltac:(lia)). Defined.

(** C34. Memory safety of release: [kfree] of any payload handed out returns
    without a warning, takes exactly that payload away, leaves the bytes of all
    the others alone, counts the release and keeps free neighbours merged. *)
Theorem kfree_correct h bs p n :
  heap_rep h bs -> In (p, n) (live (heap_start h) bs) ->
  exists h' bs', kfree p h = Ret h' /\ heap_rep h' bs' /\ heap_end h' = heap_end h /\
    live (heap_start h) bs ≡ₚ (p, n) :: live (heap_start h) bs' /\
    keeps (live (heap_start h) bs') h h' /\
    total_frees h' = u32 (total_frees h + 1) /\ warnings h' = warnings h.
Proof.
  intros H Hin. apply live_split in Hin as (l & r & -> & ->).
  destruct (kfree_step h l n r H) as (h' & Hk & Hrep & Hlive & Hkeep & Hcount & Hwarn & _).
  exists h', (spec_free l n r). split; [done|]. split; [done|]. split; [|split; [|split; [|done]]].
  - destruct (spec_free_shape h l n r H) as (Hspan & _).
    rewrite (hr_end _ _ Hrep), (hr_end _ _ H), Hspan. by destruct Hkeep as [-> _].
  - rewrite Hlive, live_used_mid by done. cbn [bsize]. by rewrite <- Permutation_middle.
  - by rewrite Hlive.
Qed.

Lemma kfree_correct_witness :
  In (4120, 16) (live 4096 demo_bs) /\
  exists h' bs', kfree 4120 demo_h = Ret h' /\ heap_rep h' bs' /\ heap_end h' = heap_end demo_h /\
    live 4096 demo_bs ≡ₚ (4120, 16) :: live 4096 bs' /\ keeps (live 4096 bs') demo_h h' /\
    total_frees h' = u32 (total_frees demo_h + 1) /\ warnings h' = warnings demo_h.
Proof.
  split; [by left|]. apply (kfree_correct demo_h demo_bs 4120 16 demo_rep). by left.
Defined.

(** Round trip: freeing the block an allocation has just returned gives
    back the same payloads, and when the allocation was served from a free
    block (split or not) the list of blocks itself: no fragmentation is left. *)
Theorem kmalloc_kfree_roundtrip h bs size p h1 :
  heap_rep h bs -> 0 < size <= 2147483584 -> kmalloc size h = Ret (p, h1) -> p <> 0 ->
  exists h2 bs2, kfree p h1 = Ret h2 /\ heap_rep h2 bs2 /\
    live (heap_start h) bs2 = live (heap_start h) bs /\
    keeps (live (heap_start h) bs) h h2 /\
    (Exists (fun b => fits (request_size size) b = true) bs -> bs2 = bs).
Proof.
  intros H Hsize Hm Hp. destruct (request_size_spec size Hsize) as (_ & Hmin & _).
  assert (forall k : kheap, keeps (live (heap_start h) bs) h h1 ->
    keeps (live (heap_start h) bs) h1 k -> keeps (live (heap_start h) bs) h k) as Htrans.
  { intros k (E1 & E2 & F1) (E3 & E4 & F2). split; [congruence|]. split; [congruence|].
    intros q t Hin. eapply agree_trans; [by apply F1|by apply F2]. }
  destruct (kmalloc_cases h size bs H Hsize)
    as [(l & b & r & h' & -> & Hno & Hfit & Hk & Hrep & Hkeep)|[(Hno & Hroom & h' & Hk & Hrep & Hkeep)|(Hno & Hfull & Hk)]];
    rewrite Hk in Hm; injection Hm as <- <-; [| |done]; pose proof Hkeep as [Hst _].
  - destruct (uncarve l (request_size size) b r Hmin Hfit (hr_coalesced _ _ H)) as (s & r' & E & Hfree).
    rewrite E in Hrep. destruct (kfree_step h' l s r' Hrep) as (h2 & Hk2 & Hrep2 & Hlive2 & Hkeep2 & _).
    rewrite Hst, Hfree in *. exists h2, (l ++ b :: r). split; [done|]. split; [done|].
    split; [done|]. split; [|done]. rewrite <- Hlive2 in Hkeep2. auto.
  - destruct (kfree_step h' bs (request_size size) [] Hrep) as (h2 & Hk2 & Hrep2 & Hlive2 & Hkeep2 & _).
    rewrite Hst in *. rewrite app_nil_r in *. rewrite (hr_end _ _ H).
    exists h2, (spec_free bs (request_size size) []). split; [done|]. split; [done|].
    split; [done|]. split; [auto|]. intros (b & Hb & Hfit)%Exists_exists.
    rewrite Forall_forall in Hno. by rewrite Hno in Hfit.
Qed.

Lemma kmalloc_kfree_roundtrip_witness :
  exists p h1, kmalloc 20 demo_h = Ret (p, h1) /\
  exists h2 bs2, kfree p h1 = Ret h2 /\ heap_rep h2 bs2 /\
    live 4096 bs2 = live 4096 demo_bs /\ keeps (live 4096 demo_bs) demo_h h2 /\
    (Exists (fun b => fits (request_size 20) b = true) demo_bs -> bs2 = demo_bs).
Proof.
  eexists _, _. split; [vm_compute; reflexivity|].
  apply (kmalloc_kfree_roundtrip demo_h demo_bs 20); [apply demo_rep|lia|vm_compute; reflexivity|done].
Defined.

(** A double free is caught: freeing a payload a second time right after
    the first changes nothing and prints the warning, also when the block was
    merged into the one before it and its header is only a stale copy. *)
Theorem kfree_twice_warns h bs p n h1 :
  heap_rep h bs -> In (p, n) (live (heap_start h) bs) -> kfree p h = Ret h1 ->
  kfree p h1 = Ret (heap_warn "kfree: Block already free (double-free attempt)" h1).
Proof.
  intros H Hin Hk1. pose proof (heap_rep_bounds _ _ H) as (Ha & Hlim & _).
  apply live_split in Hin as (l & r & -> & ->).
  destruct (kfree_step h l n r H) as (h' & Hk & _ & _ & _ & _ & _ & Hmagic & Hfree).
  rewrite Hk in Hk1. injection Hk1 as <-.
  pose proof (hr_blks _ _ H) as Hok. apply Forall_app in Hok as [Hl [[Hn _] Hr]%Forall_cons].
  pose proof (span_nonneg l Hl). pose proof (span_nonneg r Hr).
  rewrite span_app, span_cons in Hlim. cbn [bsize] in *. unfold MIN_BLOCK_SIZE in Hn.
  unfold kfree. rewrite HEADER_SIZE_eq.
  replace (heap_start h + span l + 24 - 24) with (heap_start h + span l) by lia.
  destruct (Z.eqb_spec (heap_start h + span l + 24) 0); [lia|].
  rewrite u32_id by (unfold is_u32; lia). by rewrite Hmagic, Z.eqb_refl, Hfree.
Qed.

Lemma kfree_twice_warns_witness :
  exists h1, kfree 4248 demo_h = Ret h1 /\
    kfree 4248 h1 = Ret (heap_warn "kfree: Block already free (double-free attempt)" h1).
Proof.
  eexists. split; [vm_compute; reflexivity|].
  apply (kfree_twice_warns demo_h demo_bs 4248 16); [apply demo_rep|vm_compute; auto|].
  vm_compute; reflexivity.
Defined.

(** [kmalloc_get_stats] walks the whole list and reports the exact totals
    of the blocks, without overflow, and they account for the whole heap: used
    bytes (headers included), free bytes, and a header for each free block. *)
Theorem kmalloc_get_stats_correct h bs :
  heap_rep h bs ->
  kmalloc_get_stats h =
    Ret (KStats (heap_end h - heap_start h) (used_bytes bs) (free_bytes bs)
           (count_blocks false bs) (count_blocks true bs)) /\
  heap_end h - heap_start h =
    used_bytes bs + free_bytes bs + HEADER_SIZE * count_blocks true bs.
Proof.
  intros H. pose proof (heap_rep_bounds _ _ H) as (Ha & Hlim & Hsp).
  destruct (stats_totals bs (hr_blks _ _ H)) as (Htot & _).
  rewrite (hr_end _ _ H). replace (heap_start h + span bs - heap_start h) with (span bs) by lia.
  split; [|done]. unfold kmalloc_get_stats. rewrite (hr_end _ _ H), (hr_list _ _ H).
  replace (heap_start h + span bs - heap_start h) with (span bs) by lia.
  rewrite u32_id by (unfold is_u32; lia).
  apply (stats_loop_spec _ 0 (heap_start h)); try lia; try apply H. by apply heap_fuel_enough.
Qed.

Lemma kmalloc_get_stats_correct_witness :
  kmalloc_get_stats demo_h = Ret (KStats 168 80 64 2 1) /\ 168 = 80 + 64 + HEADER_SIZE * 1.
Proof. exact (kmalloc_get_stats_correct demo_h demo_bs demo_rep). Defined.

Lemma heap_rep_store8 h bs q n i v :
  heap_rep h bs -> In (q, n) (live (heap_start h) bs) -> 0 <= i < n ->
  heap_rep (with_mem (fun m => store8 m (q + i) v) h) bs.
Proof.
  intros H Hin Hi. eapply heap_rep_with_mem; try done; try apply H.
  eapply hseg_ext, (hr_seg _ _ H). intros x Hx. apply read_hdr_store8_apart.
  eapply live_apart in Hx; [|apply H|done]. lia.
Qed.

(** ** The heap and its clients as a transition system

    A client may allocate, free a payload it holds, and write any byte of a
    payload it holds; [ps] is the list of the payloads held. *)
Inductive heap_step : kheap * list (Z * Z) -> kheap * list (Z * Z) -> Prop :=
| step_malloc size p k h h' ps :
    0 < size <= 2147483584 -> kmalloc size h = Ret (p, h') -> p <> 0 -> ksize p h' = k ->
    heap_step (h, ps) (h', (p, k) :: ps)
| step_malloc_fail size h h' ps :
    0 < size <= 2147483584 -> kmalloc size h = Ret (0, h') -> heap_step (h, ps) (h', ps)
| step_free p k h h' ps ps' :
    ps ≡ₚ (p, k) :: ps' -> kfree p h = Ret h' -> heap_step (h, ps) (h', ps')
| step_write p k i v h ps :
    In (p, k) ps -> 0 <= i < k ->
    heap_step (h, ps) (with_mem (fun m => store8 m (p + i) v) h, ps).

Inductive heap_reachable (kernel_end : Z) : kheap * list (Z * Z) -> Prop :=
| reach_init h p : heap_reachable kernel_end ((kmalloc_init kernel_end h p).1, [])
| reach_step s s' : heap_reachable kernel_end s -> heap_step s s' -> heap_reachable kernel_end s'.

Definition heap_inv (s : kheap * list (Z * Z)) : Prop :=
  exists bs, heap_rep s.1 bs /\ s.2 ≡ₚ live (heap_start s.1) bs.

Lemma kmalloc_init_rep kernel_end h p :
  0 < kernel_end < 2138963968 -> heap_rep (kmalloc_init kernel_end h p).1 [].
Proof.
  intros Hk. unfold kmalloc_init. cbn [fst].
  rewrite u32_id by (unfold is_u32; lia). rewrite PAGE_ALIGN_UP_eq by lia.
  set (st := (kernel_end + 65536 + 4095) / 4096 * 4096).
  assert (0 < st < 2139033600 /\ st mod 8 = 0) as [? ?] by (subst st; split; divlia).
  rewrite u32_id by (unfold is_u32; lia).
  split; cbn; try done; lia.
Qed.

Lemma ksize_live h bs p k :
  heap_rep h bs -> In (p, k) (live (heap_start h) bs) -> ksize p h = k.
Proof.
  intros H Hin. pose proof (heap_rep_bounds _ _ H) as (Ha & Hlim & _).
  pose proof (live_bounds _ _ _ _ (hr_blks _ _ H) Hin).
  apply live_split in Hin as (l & r & -> & ->).
  pose proof (hseg_mid_header _ _ _ _ _ _ _ (hr_seg _ _ H)) as Hh.
  unfold ksize. destruct (Z.eqb_spec (heap_start h + span l + 24) 0); [lia|].
  rewrite HEADER_SIZE_eq. replace (heap_start h + span l + 24 - 24) with (heap_start h + span l) by lia.
  rewrite u32_id by (unfold is_u32; lia).
  by rewrite hdr_magic_eq, hdr_size_eq, Hh.
Qed.

(** [kmalloc] keeps the invariant, with the payload [ksize] reports. *)
Lemma heap_inv_malloc h h' ps size p :
  heap_inv (h, ps) -> 0 < size <= 2147483584 -> kmalloc size h = Ret (p, h') ->
  heap_inv (h', if p =? 0 then ps else (p, ksize p h') :: ps).
Proof.
  intros (bs & H & Hps) Hsize Hm. cbn [fst snd] in *.
  pose proof (heap_rep_bounds _ _ H) as (Ha & Hlim & Hsp).
  assert (forall bs' k, heap_rep h' bs' -> heap_start h' = heap_start h ->
    live (heap_start h) bs' ≡ₚ (p, k) :: live (heap_start h) bs -> p <> 0 ->
    heap_inv (h', if p =? 0 then ps else (p, ksize p h') :: ps)) as Hgoal.
  { intros bs' k Hrep Hst Hlive Hne. destruct (Z.eqb_spec p 0); [done|].
    exists bs'. split; [done|]. cbn [fst snd]. rewrite Hst, Hlive, Hps.
    rewrite (ksize_live h' bs' p k Hrep); [done|].
    rewrite Hst. apply list_elem_of_In. rewrite Hlive. by left. }
  destruct (kmalloc_cases h size bs H Hsize)
    as [(l & b & r & h2 & -> & _ & Hfit & E & Hrep & Hkeep)|[(_ & _ & h2 & E & Hrep & Hkeep)|(_ & _ & E)]];
    rewrite E in Hm; injection Hm as <- <-.
  - pose proof (hr_blks _ _ H) as Hok. apply Forall_app in Hok as [Hl _].
    pose proof (span_nonneg l Hl). pose proof Hkeep as [Hst _].
    destruct (fit_fresh h h2 size l b r) as (k & Hlive & _); [done..|]. eapply Hgoal; eauto. lia.
  - pose proof Hkeep as [Hst _]. destruct (grow_fresh h h2 size bs) as (Hlive & _); [done..|].
    eapply Hgoal; eauto. rewrite (hr_end _ _ H). lia.
  - exists bs. split; [by apply heap_rep_warn|done].
Qed.

Lemma heap_inv_step s s' : heap_inv s -> heap_step s s' -> heap_inv s'.
Proof.
  intros Hinv Hstep.
  destruct Hstep as [size p k h h' ps Hsize Hm Hp Hk|size h h' ps Hsize Hm|p k h h' ps ps' Hin Hf|p k i v h ps Hin Hi].
  - apply (heap_inv_malloc h h' ps size p) in Hinv; [|done..].
    destruct (Z.eqb_spec p 0); [done|]. by rewrite <- Hk.
  - by apply (heap_inv_malloc h h' ps size 0) in Hinv.
  - destruct Hinv as (bs & H & Hps). cbn [fst snd] in *. rewrite Hin in Hps.
    assert (In (p, k) (live (heap_start h) bs)) as Hpk
      by (apply list_elem_of_In; rewrite <- Hps; by left).
    apply live_split in Hpk as (l & r & -> & ->).
    destruct (kfree_step h l k r H) as (h2 & Hk & Hrep & Hlive & [Hst _] & _).
    rewrite Hk in Hf. injection Hf as <-. exists (spec_free l k r). split; [done|].
    cbn [fst snd]. rewrite Hst, Hlive. rewrite live_used_mid in Hps by done. cbn [bsize] in Hps.
    rewrite <- Permutation_middle in Hps. by apply Permutation_cons_inv in Hps.
  - destruct Hinv as (bs & H & Hps). exists bs. split; [|done].
    eapply heap_rep_store8; [done| |exact Hi].
    apply list_elem_of_In. rewrite <- Hps. by apply list_elem_of_In.
Qed.

Fixpoint pairwise_apart (ps : list (Z * Z)) : Prop :=
  match ps with [] => True | x :: ps => Forall (apart_ranges x) ps /\ pairwise_apart ps end.

#[export] Instance pairwise_apart_proper : Proper ((≡ₚ) ==> iff) pairwise_apart.
Proof.
  intros l l' H. induction H as [|x l l' H IH|x y l|]; simpl.
  - done.
  - rewrite IH. split; intros [? ?]; (split; [|done]); eapply Permutation_Forall; [|done|by symmetry|done]; done.
  - rewrite !Forall_cons. unfold apart_ranges. tauto.
  - tauto.
Qed.

Lemma live_apart_all a bs : Forall blk_ok bs -> pairwise_apart (live a bs).
Proof.
  intros Hok. revert a. induction Hok as [|[s f] bs [Hb _] Hok IH]; intros a; [done|].
  cbn [live bsize bfree]. destruct f; cbn [app]; [done|]. split; [|done].
  apply List.Forall_forall. intros [q t] Hin. apply live_bounds in Hin; [|done].
  rewrite HEADER_SIZE_eq in *. unfold apart_ranges. cbn. lia.
Qed.

(** C1. The heap under any client: after any sequence of allocations, releases
    of held payloads and writes into held payloads from [kmalloc_init], the
    chain in memory is intact, the held payloads are disjoint, 8-aligned, inside
    the heap, and neither a further allocation nor the release of any held
    payload can panic, warn of a double free or loop. *)
Theorem heap_reachable_safe kernel_end h ps :
  0 < kernel_end < 2138963968 -> heap_reachable kernel_end (h, ps) ->
  pairwise_apart ps /\
  Forall (fun x => x.1 mod 8 = 0 /\ heap_start h + HEADER_SIZE <= x.1 /\ x.1 + x.2 <= heap_end h) ps /\
  heap_end h <= heap_max h /\
  (forall p k, In (p, k) ps -> exists h', kfree p h = Ret h' /\ warnings h' = warnings h) /\
  (forall size, 0 < size <= 2147483584 -> exists r, kmalloc size h = Ret r).
Proof.
  intros Hke Hreach. assert (heap_inv (h, ps)) as (bs & H & Hps).
  { remember (h, ps) as s eqn:E. clear E. induction Hreach as [h0 p|s s' _ IH Hstep].
    - exists []. split; [by apply kmalloc_init_rep|done].
    - by eapply heap_inv_step. }
  cbn [fst snd] in *. pose proof (hr_blks _ _ H) as Hok. rewrite Hps.
  split; [by apply live_apart_all|]. split; [|split; [apply H|split]].
  - apply List.Forall_forall. intros [q t] Hin. cbn [fst snd]. rewrite HEADER_SIZE_eq, (hr_end _ _ H).
    split; [by eapply live_mod8; [apply H|exact Hok|]|]. apply live_bounds in Hin; [lia|done].
  - intros p k Hin. assert (In (p, k) (live (heap_start h) bs)) as Hin'
      by (apply list_elem_of_In; rewrite <- Hps; by apply list_elem_of_In).
    apply live_split in Hin' as (l & r & -> & ->).
    destruct (kfree_step h l k r H) as (h' & Hk & _ & _ & _ & _ & Hw & _). eauto.
  - intros size Hsize. destruct (kmalloc_cases h size bs H Hsize)
      as [(l & b & r & h2 & _ & _ & _ & E & _)|[(_ & _ & h2 & E & _)|(_ & _ & E)]]; eauto.
Qed.

Lemma heap_reachable_safe_witness :
  exists h ps, heap_reachable 1048576 (h, ps) /\ length ps = 1%nat /\
  pairwise_apart ps /\
  Forall (fun x => x.1 mod 8 = 0 /\ heap_start h + HEADER_SIZE <= x.1 /\ x.1 + x.2 <= heap_end h) ps /\
  heap_end h <= heap_max h /\
  (forall p k, In (p, k) ps -> exists h', kfree p h = Ret h' /\ warnings h' = warnings h) /\
  (forall size, 0 < size <= 2147483584 -> exists r, kmalloc size h = Ret r).
Proof.
  pose (h0 := (kmalloc_init 1048576 demo_h (pmm_small 12)).1).
  assert (exists h1, kmalloc 20 h0 = Ret (1114136, h1)) as [h1 E] by (eexists; vm_compute; reflexivity).
  assert (heap_reachable 1048576 (h1, [(1114136, ksize 1114136 h1)])) as Hr.
  { eapply reach_step; [apply (reach_init _ demo_h (pmm_small 12))|].
    eapply step_malloc; [|exact E|done|done]. lia. }
  exists h1, [(1114136, ksize 1114136 h1)]. split; [exact Hr|]. split; [done|].
  apply (heap_reachable_safe 1048576 h1); [lia|exact Hr].
Defined.

(** [kmalloc_aligned] returns an address aligned to a power of two, with
    the requested bytes inside the block it allocated. *)
Theorem kmalloc_aligned_correct h bs size j p h' :
  heap_rep h bs -> 0 <= j <= 30 -> 0 < size -> size + 2 ^ j <= 2147483584 ->
  kmalloc_aligned size (2 ^ j) h = Ret (p, h') -> p <> 0 ->
  p mod 2 ^ j = 0 /\
  exists q bs' k, kmalloc (size + 2 ^ j) h = Ret (q, h') /\ heap_rep h' bs' /\
    In (q, k) (live (heap_start h') bs') /\ q <= p /\ p + size <= q + k.
Proof.
  intros H Hj Hsize Hlim Hal Hp. pose proof (Z.pow_pos_nonneg 2 j ltac:(lia) ltac:(lia)).
  unfold kmalloc_aligned in Hal. rewrite (u32_id (size + 2 ^ j)) in Hal by (unfold is_u32; lia).
  assert (forall q h2 bs' k, kmalloc (size + 2 ^ j) h = Ret (q, h2) -> heap_rep h2 bs' ->
    In (q, k) (live (heap_start h2) bs') -> 0 < q -> size + 2 ^ j <= k ->
    p mod 2 ^ j = 0 /\ exists q bs' k, kmalloc (size + 2 ^ j) h = Ret (q, h') /\
      heap_rep h' bs' /\ In (q, k) (live (heap_start h') bs') /\ q <= p /\ p + size <= q + k) as Hgoal.
  { intros q h2 bs' k Hk Hrep Hin Hq Hsz. rewrite Hk in Hal. cbn in Hal.
    pose proof (heap_rep_bounds _ _ Hrep) as (? & ? & ?).
    pose proof (live_bounds _ _ _ _ (hr_blks _ _ Hrep) Hin).
    destruct (Z.eqb_spec q 0); [lia|].
    rewrite (u32_id (2 ^ j - 1)), (u32_id (q + 2 ^ j)), (u32_id (q + 2 ^ j - 1)) in Hal
      by (unfold is_u32; lia).
    injection Hal as <- <-. rewrite land_align_mask by (unfold is_u32; lia).
    pose proof (Z.div_mod (q + 2 ^ j - 1) (2 ^ j) ltac:(lia)).
    pose proof (Z.mod_pos_bound (q + 2 ^ j - 1) (2 ^ j) ltac:(lia)).
    split; [apply Z.mod_mul; lia|]. exists q, bs', k.
    set (d := (q + 2 ^ j - 1) / 2 ^ j) in *. set (e := (q + 2 ^ j - 1) mod 2 ^ j) in *.
    set (w := 2 ^ j) in *. split; [done|]. split; [done|]. split; [done|]. split; nia. }
  destruct (kmalloc_cases h (size + 2 ^ j) bs H ltac:(lia))
    as [(l & b & r & h2 & -> & _ & Hfit & E & Hrep & Hkeep)|[(_ & _ & h2 & E & Hrep & Hkeep)|(_ & _ & E)]].
  - destruct (fit_fresh h h2 (size + 2 ^ j) l b r) as (k & Hlive & ? & ? & Hlow & _); [done..|lia|done|].
    pose proof Hkeep as [Hst _]. pose proof (hr_low _ _ H). rewrite HEADER_SIZE_eq in Hlow.
    eapply Hgoal; [exact E|exact Hrep| |lia|done].
    rewrite Hst. apply list_elem_of_In. rewrite Hlive. by left.
  - destruct (grow_fresh h h2 (size + 2 ^ j) bs) as (Hlive & ? & ? & Hlow & _); [done..|lia|].
    pose proof Hkeep as [Hst _]. pose proof (hr_low _ _ H). rewrite HEADER_SIZE_eq in Hlow.
    eapply Hgoal; [exact E|exact Hrep| |lia|done].
    rewrite Hst. apply list_elem_of_In. rewrite Hlive. by left.
  - rewrite E in Hal. cbn in Hal. congruence.
Qed.

Lemma kmalloc_aligned_correct_witness :
  exists p h', kmalloc_aligned 100 (2 ^ 12) demo_h = Ret (p, h') /\ p mod 2 ^ 12 = 0 /\
  exists q bs' k, kmalloc (100 + 2 ^ 12) demo_h = Ret (q, h') /\ heap_rep h' bs' /\
    In (q, k) (live (heap_start h') bs') /\ q <= p /\ p + 100 <= q + k.
Proof.
  eexists _, _. split; [vm_compute; reflexivity|].
  apply (kmalloc_aligned_correct demo_h demo_bs); [apply demo_rep|lia|lia|done|vm_compute; reflexivity|done].
Defined.

(** The size computation is not checked for overflow: near the top of the
    32-bit range [ALIGN] wraps to 0 and a request for 4 GB - 1 is granted with a
    16-byte block; from 2 GB on the size turns negative as the [int] of [kbrk],
    whose bound on the heap is then not checked, and the heap end leaves the
    heap. *)
Theorem kmalloc_huge_requests h :
  heap_rep h [] -> heap_max h <= 2147483600 ->
  (forall n, 4294967289 <= n < 4294967296 -> kmalloc n h = kmalloc 16 h) /\
  (exists h', kmalloc 2147483648 h = Ret (heap_start h + HEADER_SIZE, h') /\
     heap_end h' = heap_end h + 2147483672 /\ heap_max h' < heap_end h').
Proof.
  intros H Hmax. destruct H. rewrite span_nil, Z.add_0_r in *. split.
  - intros n Hn. unfold kmalloc. rewrite !eqb_sym_neg by lia.
    assert (request_size n = request_size 16) as ->; [|done].
    unfold request_size, ALIGN, ALIGNMENT.
    replace (u32 (n + (8 - 1))) with (n - 4294967289).
    + assert (n = 4294967289 \/ n = 4294967290 \/ n = 4294967291 \/ n = 4294967292 \/
              n = 4294967293 \/ n = 4294967294 \/ n = 4294967295) as Hc by lia.
      by destruct Hc as [->|[->|[->|[->|[->|[->| ->]]]]]].
    + unfold u32. rewrite <- (Z.mod_small (n - 4294967289) 4294967296) by lia.
      rewrite <- (Z.mod_add (n - 4294967289) 1) by lia. f_equal. lia.
  - unfold kmalloc, find_free_block. cbn [first_addr] in *. rewrite hr_list0.
    change (request_size 2147483648) with 2147483648. cbn [Z.eqb find_free_loop heap_fuel mbind outcome_bind negb].
    change (i32 (u32 (HEADER_SIZE + 2147483648))) with (-2147483624).
    unfold kbrk. cbn [Z.eqb Z.ltb Z.compare].
    assert (u32 (heap_end h + -2147483624) = heap_end h + 2147483672) as ->.
    { unfold u32. rewrite <- (Z.mod_add _ 1) by lia. rewrite Z.mod_small by lia. lia. }
    destruct (Z.ltb_spec (heap_end h + 2147483672) (heap_start h)); [lia|].
    change (u32 (-1)) with 4294967295. rewrite eqb_sym_neg by lia.
    unfold append_block. cbn [block_list with_mem with_end]. rewrite hr_list0.
    cbn [Z.eqb mbind outcome_bind]. rewrite HEADER_SIZE_eq, hr_end0, u32_id by (unfold is_u32; lia).
    eexists. split; [reflexivity|]. cbn. lia.
Qed.

Lemma kmalloc_huge_requests_witness :
  let h := KHeap ∅ 1179648 1179648 9568256 0 0 0 [] in
  (forall n, 4294967289 <= n < 4294967296 -> kmalloc n h = kmalloc 16 h) /\
  (exists h', kmalloc 2147483648 h = Ret (heap_start h + HEADER_SIZE, h') /\
     heap_end h' = heap_end h + 2147483672 /\ heap_max h' < heap_end h').
Proof.
  apply (kmalloc_huge_requests (KHeap ∅ 1179648 1179648 9568256 0 0 0 [])); [|vm_compute; congruence].
  split; try (vm_compute; congruence); done.
Defined.
