(* ===== verification/Heap.v ===== *)
(** * The kernel heap as an allocator for its clients

    kernel/src/kmalloc.c writes nothing outside its area; with the theorems of
    Kmalloc.v this makes it an instance of [HeapAllocator]. *)

From S2P Require Import Prelude Interfaces Memory HeapInterface Pmm Kmalloc.

(** ** Writes stay in the area *)

Section only_in.
Context (lo hi b v : Z) (m : mem) (Hb : lo <= b) (Hb' : b + 20 <= hi).

Lemma only_in_store32 a : lo <= a -> a + 4 <= hi -> only_in lo hi m (store32 m a v).
Proof. intros Ha Ha' x Hx. apply load8_store32_ne. lia. Qed.
Lemma only_in_store8 a : lo <= a < hi -> only_in lo hi m (store8 m a v).
Proof. intros Ha x Hx. apply load8_store8_ne. lia. Qed.
Lemma only_in_put_size : only_in lo hi m (put_size b v m).
Proof. apply only_in_store32; lia. Qed.
Lemma only_in_put_free : only_in lo hi m (put_free b v m).
Proof. apply only_in_store8. lia. Qed.
Lemma only_in_put_next : only_in lo hi m (put_next b v m).
Proof. apply only_in_store32; lia. Qed.
Lemma only_in_put_prev : only_in lo hi m (put_prev b v m).
Proof. apply only_in_store32; lia. Qed.
Lemma only_in_put_magic : only_in lo hi m (put_magic b v m).
Proof. apply only_in_store32; lia. Qed.
End only_in.

Ltac only_in_puts :=
  repeat (eapply only_in_trans;
    [|first [ apply only_in_put_size; lia | apply only_in_put_free; lia | apply only_in_put_next; lia
            | apply only_in_put_prev; lia | apply only_in_put_magic; lia ]]);
  try apply only_in_refl.

Lemma only_in_link_back lo hi nx b m : nx = 0 \/ lo <= nx /\ nx + 20 <= hi -> only_in lo hi m (link_back nx b m).
Proof. unfold link_back. intros. destruct (Z.eqb_spec nx 0); [apply only_in_refl|]. only_in_puts. Qed.

(** The header after a block of the list, when there is one, lies in the area. *)
Lemma next_header a r : Forall blk_ok r -> first_addr a r 0 = 0 \/ first_addr a r 0 = a /\ a + 40 <= a + span r.
Proof.
  intros H. destruct H as [|c r [Hc _] Hr]; [by left|]. right. unfold MIN_BLOCK_SIZE in Hc.
  pose proof (span_nonneg r Hr). rewrite span_cons. cbn [first_addr]. lia.
Qed.

Lemma split_only h l b r n :
  MIN_BLOCK_SIZE <= n < 2147483648 -> heap_rep h (l ++ b :: r) ->
  only_in (heap_start h) (heap_end h) (hmem h)
    (put_free (heap_start h + span l) 0 (split_block (heap_start h + span l) n (hmem h))).
Proof.
  unfold MIN_BLOCK_SIZE. intros Hn H. pose proof (hseg_mid_header _ _ _ _ _ _ _ (hr_seg _ _ H)) as Hh.
  pose proof (heap_rep_bounds _ _ H) as (Ha & Hlim & _). rewrite (hr_end _ _ H).
  pose proof (hr_blks _ _ H) as Hok. apply Forall_app in Hok as [Hl [[Hb _] Hr]%Forall_cons].
  pose proof (span_nonneg l Hl). pose proof (span_nonneg r Hr).
  destruct (next_header (heap_start h + span l + 24 + bsize b) r Hr) as [Hnx|[Hnx Hroom]];
    rewrite span_app, span_cons in *; unfold MIN_BLOCK_SIZE in Hb; set (A := heap_start h + span l) in *.
  all: (eapply only_in_trans; [|apply only_in_put_free; lia]); destruct (Z.leb_spec (n + 40) (bsize b)).
  all: try (rewrite split_block_noop; [apply only_in_refl|lia|]; rewrite hdr_size_eq, Hh; cbn; lia).
  all: rewrite (split_eq _ _ _ _ _ _ _ Hh) by (done || lia); cbv zeta;
    (eapply only_in_trans; [|apply only_in_put_size; lia]); (eapply only_in_trans; [|apply only_in_put_next; lia]);
    (eapply only_in_trans; [|apply only_in_link_back; lia]); only_in_puts.
Qed.

Lemma absorb_only m a l s t r :
  0 < a -> Forall blk_ok (l ++ Blk s true :: Blk t true :: r) ->
  a + span (l ++ Blk s true :: Blk t true :: r) < 2147483648 ->
  hseg m 0 a (l ++ Blk s true :: Blk t true :: r) 0 ->
  only_in a (a + span (l ++ Blk s true :: Blk t true :: r)) m (absorb (a + span l) (a + span l + 24 + s) m).
Proof.
  intros Ha Hok Hlim H. pose proof (hseg_mid_header _ _ _ _ _ _ _ H) as Hh.
  apply Forall_app in Hok as [Hl [[Hs _] [[Ht _] Hr]%Forall_cons]%Forall_cons].
  pose proof (hseg_after m 0 a l [Blk s true] (Blk t true) r 0 H) as Hc.
  pose proof (span_nonneg l Hl). pose proof (span_nonneg r Hr). cbn [bsize] in *.
  rewrite span_cons, span_nil, Z.add_0_r, Z.add_assoc in Hc. cbn [bsize] in Hc.
  destruct (next_header (a + span l + 24 + s + 24 + t) r Hr) as [Hnx|[Hnx Hroom]];
    rewrite span_app, !span_cons in *; cbn [bsize] in *; unfold MIN_BLOCK_SIZE in *; set (A := a + span l) in *.
  all: rewrite (absorb_eq A (A + 24 + s) m _ _ _ _ _ _ _ _ Hh Hc) by (unfold is_u32; lia);
    (eapply only_in_trans; [|apply only_in_link_back; lia]); only_in_puts.
Qed.

Lemma coalesce_next_only m a l n r :
  0 < a -> Forall blk_ok (l ++ Blk n true :: r) -> a + span (l ++ Blk n true :: r) < 2147483648 ->
  hseg m 0 a (l ++ Blk n true :: r) 0 ->
  only_in a (a + span (l ++ Blk n true :: r)) m (coalesce_next (a + span l) m).
Proof.
  intros Ha Hok Hlim H. pose proof (hseg_mid_header _ _ _ _ _ _ _ H) as Hh. unfold coalesce_next.
  rewrite hdr_next_eq, Hh. cbn [h_next bsize]. destruct r as [|[t g] r]; cbn [first_addr]; [apply only_in_refl|].
  pose proof (hseg_after m 0 a l [Blk n true] (Blk t g) r 0 H) as Hc.
  rewrite span_cons, span_nil, Z.add_0_r, Z.add_assoc in Hc. cbn [bsize bfree] in Hc.
  destruct (_ && _) eqn:E; [|apply only_in_refl]. rewrite hdr_free_eq, Hc in E. cbn [h_free] in E.
  destruct g; [|by rewrite andb_false_r in E]. by apply absorb_only.
Qed.

Lemma coalesce_prev_only m a l n r :
  0 < a -> Forall blk_ok (l ++ Blk n true :: r) -> a + span (l ++ Blk n true :: r) < 2147483648 ->
  hseg m 0 a (l ++ Blk n true :: r) 0 ->
  only_in a (a + span (l ++ Blk n true :: r)) m (coalesce_prev (a + span l) m).
Proof.
  intros Ha Hok Hlim H. pose proof (hseg_mid_header _ _ _ _ _ _ _ H) as Hh. unfold coalesce_prev.
  rewrite hdr_prev_eq, Hh. cbn [h_prev]. destruct (last_cases l) as [->|(l' & [s f] & ->)]; [apply only_in_refl|].
  rewrite last_addr_snoc. rewrite <- app_assoc in *. cbn [app] in *.
  pose proof (hseg_mid_header _ _ _ _ _ _ _ H) as Hp. destruct (_ && _) eqn:E; [|apply only_in_refl].
  rewrite hdr_free_eq, Hp in E. cbn [h_free bfree] in E. destruct f; [|by rewrite andb_false_r in E].
  replace (a + span (l' ++ [Blk s true])) with (a + span l' + 24 + s)
    by (rewrite span_app, span_cons, span_nil; cbn [bsize]; lia). by apply absorb_only.
Qed.

Lemma coalesce_only h l n r : heap_rep h (l ++ Blk n false :: r) ->
  only_in (heap_start h) (heap_end h) (hmem h)
    (coalesce_blocks (heap_start h + span l) (put_free (heap_start h + span l) 1 (hmem h))).
Proof.
  intros H. pose proof (heap_rep_bounds _ _ H) as (Ha & Hlim & _). rewrite (hr_end _ _ H).
  pose proof (hr_blks _ _ H) as Hok. apply Forall_app in Hok as [Hl [Hb Hr]%Forall_cons].
  pose proof (hr_coalesced _ _ H) as Hc. rewrite coalesced_mid, coalesced_snoc, coalesced_cons in Hc. destruct Hc as [_ [_ Hcr]].
  pose proof (hseg_set_free (hmem h) 0 (heap_start h) l r Hl Hr n false true (proj1 Hb) (hr_seg _ _ H)) as H1.
  change (Z.b2z true) with 1 in H1. set (A := heap_start h + span l) in *. set (m1 := put_free A 1 (hmem h)) in *.
  assert (Forall blk_ok (l ++ Blk n true :: r)) as Hok1 by (apply Forall_app; auto).
  assert (span (l ++ Blk n true :: r) = span (l ++ Blk n false :: r)) as Es by by rewrite !span_app, !span_cons.
  assert (heap_start h + span (l ++ Blk n true :: r) < 2147483648) as Hlim1 by lia.
  destruct (coalesce_next_step m1 _ l n r Ha Hok1 Hlim1 H1) as (H2 & _). fold A in H2.
  destruct (merge_next_shape n r Hb Hr Hcr) as (n' & r' & E & Hs2 & Hok2 & _). rewrite E in *.
  assert (span (l ++ Blk n' true :: r') = span (l ++ Blk n false :: r)) as Es2
    by (rewrite span_app, Hs2, <- Es, span_app, span_cons; done).
  assert (Forall blk_ok (l ++ Blk n' true :: r')) as Hok3 by (apply Forall_app; auto).
  destruct (coalesce_prev_step (coalesce_next A m1) _ l n' r' Ha Hok3) as (_ & _ & _ & Hprev & _); [lia|done|].
  fold A in Hprev. unfold coalesce_blocks. rewrite coalesce_with_next_eq, coalesce_with_prev_eq by done.
  eapply only_in_trans; [|rewrite <- Es2; apply coalesce_prev_only; [done|done|lia|exact H2]].
  eapply only_in_trans; [|rewrite <- Es; by apply coalesce_next_only].
  apply only_in_put_free; unfold A; pose proof (span_nonneg l Hl); pose proof (span_nonneg r Hr);
    destruct Hb as [Hn _]; unfold MIN_BLOCK_SIZE in Hn; rewrite ?span_app, ?span_cons; cbn [bsize] in *; lia.
Qed.

Lemma append_only h n bs h' : 0 <= n -> heap_rep h bs -> heap_end h + 24 + n <= heap_max h ->
  append_block (heap_end h) (with_mem (init_block (heap_end h) n) (with_end (heap_end h + 24 + n) h)) = Ret h' ->
  only_in (heap_start h) (heap_end h + 24 + n) (hmem h) (hmem h').
Proof.
  intros Hn H Hroom. pose proof (heap_rep_bounds _ _ H) as (Ha & Hlim & Hsp).
  pose proof (heap_fuel_enough _ _ H) as Hfuel. pose proof (hr_end _ _ H) as He. pose proof (hr_blks _ _ H) as Hok.
  assert (only_in (heap_start h) (heap_end h + 24 + n) (hmem h) (init_block (heap_end h) n (hmem h))) as Hi
    by (unfold init_block; only_in_puts).
  unfold append_block. cbn [block_list with_mem with_end hmem]. rewrite (hr_list _ _ H).
  destruct (last_cases bs) as [->|(l & b & ->)]; [by intros [= <-]|].
  replace (first_addr (heap_start h) (l ++ [b]) 0) with (heap_start h) by by destruct l.
  destruct (Z.eqb_spec (heap_start h) 0); [lia|].
  rewrite (last_block_loop_spec _ 0 _ (l ++ [b])).
  - rewrite last_addr_snoc. cbn [mbind outcome_bind]. intros [= <-]. cbn [hmem with_mem].
    apply Forall_app in Hok as [Hl [[Hb _] _]%Forall_cons]. pose proof (span_nonneg l Hl).
    rewrite span_app, span_cons, span_nil in *. unfold MIN_BLOCK_SIZE in Hb.
    eapply only_in_trans; [|apply only_in_put_prev; lia]. eapply only_in_trans; [|apply only_in_put_next; lia]. done.
  - done.
  - done.
  - eapply hseg_ext, (hr_seg _ _ H). intros x Hx%addrs_bounds; [|done]. apply init_block_ne. unfold apart. lia.
  - by destruct l.
  - unfold heap_fuel in *. cbn [with_mem with_end heap_end heap_start]. rewrite HEADER_SIZE_eq in *.
    assert ((heap_end h - heap_start h) / 24 <= (heap_end h + 24 + n - heap_start h) / 24) by (apply Z.div_le_mono; lia). lia.
Qed.

Lemma only_in_wider lo hi hi' m m' : only_in lo hi m m' -> hi <= hi' -> only_in lo hi' m m'.
Proof. intros H Hle a Ha. apply H. lia. Qed.

Lemma kmalloc_only h bs size p h' : heap_rep h bs -> 0 < size <= 2147483584 -> kmalloc size h = Ret (p, h') ->
  only_in (heap_start h) (heap_max h) (hmem h) (hmem h').
Proof.
  intros H Hsize. pose proof (hr_room _ _ H) as Hroom. destruct (request_size_spec size Hsize) as (? & Hn & Hn8 & ? & _).
  pose proof (heap_rep_bounds _ _ H) as (Ha & Hlim & Hsp). pose proof (hr_max _ _ H) as Hmax.
  set (n := request_size size) in *. unfold MIN_BLOCK_SIZE in *.
  unfold kmalloc. destruct (Z.eqb_spec size 0); [lia|]. fold n.
  destruct (find_free_loop_spec (hmem h) n 0 (heap_start h) bs (heap_fuel h)
    (hr_blks _ _ H) (hr_low _ _ H) (hr_seg _ _ H) (heap_fuel_enough _ _ H))
    as [[Hno Hfind]|(l & b & r & -> & Hno & Hfit & Hfind)];
    rewrite <- (hr_list _ _ H) in Hfind; fold (find_free_block h n) in Hfind; rewrite Hfind; cbn [mbind outcome_bind].
  - cbn [Z.eqb negb]. rewrite HEADER_SIZE_eq, u32_id by (unfold is_u32; lia). rewrite i32_small by lia. unfold kbrk.
    destruct (Z.eqb_spec (24 + n) 0); [lia|]. destruct (Z.ltb_spec 0 (24 + n)); [|lia].
    rewrite Z.add_assoc, (u32_id (heap_end h + 24 + n)) by (unfold is_u32; rewrite (hr_end _ _ H); lia).
    change (u32 (-1)) with 4294967295.
    destruct (Z.ltb_spec (heap_max h) (heap_end h + 24 + n)); cbn [Z.eqb Pos.eqb]; [by intros [= _ <-]|].
    destruct (Z.eqb_spec (heap_end h) 4294967295); [lia|].
    destruct (append_block _ _) as [h1| |] eqn:E; cbn [mbind outcome_bind]; try done. intros [= _ <-].
    eapply only_in_wider; [eapply (append_only h n bs h1); [lia|done|lia|exact E]|lia].
  - destruct (Z.eqb_spec (heap_start h + span l) 0); [pose proof (hr_blks _ _ H) as Hok;
      apply Forall_app in Hok as [Hl _]; pose proof (span_nonneg l Hl); lia|]. cbn [negb]. intros [= _ <-].
    cbn [hmem with_mem count_allocation]. eapply only_in_wider; [|exact Hroom].
    eapply split_only; [unfold MIN_BLOCK_SIZE; lia|exact H].
Qed.

Lemma kfree_only h l n r h' : heap_rep h (l ++ Blk n false :: r) -> kfree (heap_start h + span l + 24) h = Ret h' ->
  only_in (heap_start h) (heap_max h) (hmem h) (hmem h').
Proof.
  intros H. pose proof (heap_rep_bounds _ _ H) as (Ha & Hlim & _). pose proof (hr_room _ _ H) as Hroom.
  pose proof (hseg_mid_header _ _ _ _ _ _ _ (hr_seg _ _ H)) as Hh. pose proof (hr_blks _ _ H) as Hok.
  apply Forall_app in Hok as [Hl [[Hn _] Hr]%Forall_cons]. pose proof (span_nonneg l Hl). pose proof (span_nonneg r Hr).
  rewrite span_app, span_cons in Hlim. cbn [bsize bfree] in *. unfold MIN_BLOCK_SIZE in Hn.
  unfold kfree. rewrite HEADER_SIZE_eq. replace (heap_start h + span l + 24 - 24) with (heap_start h + span l) by lia.
  destruct (Z.eqb_spec (heap_start h + span l + 24) 0); [lia|]. rewrite u32_id by (unfold is_u32; lia).
  rewrite hdr_magic_eq, hdr_free_eq, Hh. cbn [h_magic h_free]. rewrite Z.eqb_refl. cbn [negb Z.b2z Z.eqb].
  intros [= <-]. cbn [hmem with_mem count_free]. eapply only_in_wider; [|exact Hroom]. by eapply coalesce_only.
Qed.

(** ** The instance *)

(** The heap variables, acting on the memory [m]. *)
Definition in_memory (m : mem) (h : kheap) : kheap := with_mem (fun _ => m) h.

Definition kheap_alloc (size : Z) (m : mem) (h : kheap) : outcome (Z * mem * kheap) :=
  '(p, h) ← kmalloc size (in_memory m h); Ret (p, hmem h, h).
Definition kheap_free (p : Z) (m : mem) (h : kheap) : outcome (mem * kheap) :=
  h ← kfree p (in_memory m h); Ret (hmem h, h).
Definition kheap_ok (m : mem) (h : kheap) (ps : list (Z * Z)) : Prop := heap_inv (in_memory m h, ps).

Lemma in_memory_self h : in_memory (hmem h) h = h. Proof. by destruct h. Qed.

Lemma kheap_pairwise m h ps : kheap_ok m h ps -> pairwise_apart ps.
Proof. intros (bs & H & Hps). cbn in Hps. rewrite Hps. apply live_apart_all, (hr_blks _ _ H). Qed.

(** Headers lie in the heap and outside the payloads. *)
Lemma kheap_write m m' h ps : kheap_ok m h ps ->
  (forall a, heap_start h <= a < heap_max h -> ~ in_payload ps a -> load8 m' a = load8 m a) -> kheap_ok m' h ps.
Proof.
  intros (bs & H & Hps) Hm. exists bs. split; [|done]. cbn [fst snd] in *.
  eapply (heap_rep_with_mem (in_memory m h) (fun _ => m')); try done; try apply H. eapply hseg_ext, (hr_seg _ _ H).
  intros x Hx. apply read_hdr_agree. intros a Ha. cbn [hmem in_memory with_mem heap_start] in *.
  pose proof (addrs_bounds _ _ _ (hr_blks _ _ H) Hx). pose proof (hr_room _ _ H). pose proof (hr_end _ _ H).
  cbn [heap_start heap_end heap_max in_memory with_mem] in *. apply Hm; [lia|].
  intros (q & t & Hin & Hq). apply list_elem_of_In in Hin. rewrite Hps in Hin. apply list_elem_of_In in Hin.
  pose proof (live_apart _ _ _ _ _ (hr_blks _ _ H) Hin Hx). lia.
Qed.

Lemma kheap_alloc_spec m h ps size : kheap_ok m h ps -> 0 < size <= 2147483584 ->
  exists p m' h', kheap_alloc size m h = Ret (p, m', h') /\
    heap_start h' = heap_start h /\ heap_max h' = heap_max h /\
    only_in (heap_start h) (heap_max h) m m' /\ keep_payloads ps m m' /\
    (p = 0 /\ kheap_ok m' h' ps \/ exists k, size <= k /\ kheap_ok m' h' ((p, k) :: ps)).
Proof.
  intros Hinv Hsize. pose proof Hinv as (bs & H & Hps). cbn [fst snd] in *.
  assert (exists p h', kmalloc size (in_memory m h) = Ret (p, h') /\
    keeps (live (heap_start h) bs) (in_memory m h) h' /\
    (p = 0 \/ p <> 0 /\ exists bs' k, size <= k /\ heap_rep h' bs' /\ live (heap_start h) bs' ≡ₚ (p, k) :: live (heap_start h) bs))
    as (p & h' & E & Hk & Hres).
  { destruct (kmalloc_cases (in_memory m h) size bs H Hsize)
      as [(l & b & r & h2 & -> & _ & Hfit & E & Hrep & Hkeep)|[(_ & _ & h2 & E & Hrep & Hkeep)|(_ & _ & E)]].
    - destruct (fit_fresh (in_memory m h) h2 size l b r) as (k & Hlive & _ & Hk & _); [done..|].
      eexists _, _. split; [exact E|]. split; [done|]. right. pose proof (heap_rep_bounds _ _ H) as (Ha & _).
      pose proof (hr_blks _ _ H) as Hok. apply Forall_app in Hok as [Hl _]. pose proof (span_nonneg l Hl).
      cbn [heap_start in_memory with_mem] in *. split; [lia|]. eauto.
    - destruct (grow_fresh (in_memory m h) h2 size bs) as (Hlive & _ & Hk & _); [done..|].
      eexists _, _. split; [exact E|]. split; [done|]. right. pose proof (heap_rep_bounds _ _ H) as (Ha & _ & ?).
      pose proof (hr_end _ _ H). cbn [heap_start heap_end in_memory with_mem] in *. split; [lia|]. eauto.
    - eexists _, _. split; [exact E|]. split; [|by left]. split; [done|]. split; [done|]. intros. apply agree_refl. }
  destruct Hk as (Es & Em & Hk). cbn [heap_start heap_max hmem in_memory with_mem] in *.
  exists p, (hmem h'), h'. unfold kheap_alloc. rewrite E. cbn [mbind outcome_bind]. split; [done|]. split; [done|]. split; [done|].
  split; [apply (kmalloc_only (in_memory m h) bs size p h' H Hsize E)|]. split.
  - intros q t Hin. apply Hk. apply list_elem_of_In. rewrite <- Hps. by apply list_elem_of_In.
  - destruct Hres as [->|(Hp & bs' & k & Hle & Hrep & Hlive)].
    + left. split; [done|]. unfold kheap_ok. rewrite in_memory_self.
      exact (heap_inv_malloc (in_memory m h) h' ps size 0 Hinv Hsize E).
    + right. exists k. split; [done|]. unfold kheap_ok. rewrite in_memory_self. exists bs'. split; [done|].
      cbn [fst snd]. by rewrite Es, Hlive, Hps.
Qed.

Lemma kheap_free_spec m h ps p k : kheap_ok m h ((p, k) :: ps) ->
  exists m' h', kheap_free p m h = Ret (m', h') /\
    heap_start h' = heap_start h /\ heap_max h' = heap_max h /\
    only_in (heap_start h) (heap_max h) m m' /\ keep_payloads ps m m' /\ kheap_ok m' h' ps.
Proof.
  intros (bs & H & Hps). cbn [fst snd] in *.
  assert (In (p, k) (live (heap_start h) bs)) as Hpk by (apply list_elem_of_In; rewrite <- Hps; by left).
  apply live_split in Hpk as (l & r & -> & ->).
  destruct (kfree_step (in_memory m h) l k r H) as (h2 & E & Hrep & Hlive & (Es & Em & Hk) & _).
  cbn [heap_start heap_max hmem in_memory with_mem] in *.
  rewrite live_used_mid in Hps by done. cbn [bsize] in Hps. rewrite <- Permutation_middle in Hps.
  apply Permutation_cons_inv in Hps. exists (hmem h2), h2. unfold kheap_free. rewrite E. cbn [mbind outcome_bind].
  split; [done|]. split; [done|]. split; [done|].
  split; [apply (kfree_only (in_memory m h) l k r h2 H E)|]. split.
  - intros q t Hin. apply Hk. apply list_elem_of_In. rewrite <- Hps. by apply list_elem_of_In.
  - unfold kheap_ok. rewrite in_memory_self. eexists. split; [exact Hrep|]. cbn [fst snd]. by rewrite Es, Hlive, Hps.
Qed.

#[export] Program Instance kheap_allocator : HeapAllocator kheap := {|
  ha_alloc := kheap_alloc; ha_free := kheap_free; ha_start := heap_start; ha_limit := heap_max; ha_ok := kheap_ok |}.
Next Obligation. intros m h ps (bs & H & _). split; [exact (hr_low _ _ H)|exact (hr_max _ _ H)]. Qed.
Next Obligation.
  intros m h ps p k (bs & H & Hps) Hin. cbn [fst snd] in *.
  assert (In (p, k) (live (heap_start h) bs)) as Hpk
    by (apply list_elem_of_In; rewrite <- Hps; by apply list_elem_of_In).
  pose proof (hr_blks _ _ H) as Hok. pose proof (live_mod8 _ _ _ _ (hr_aligned _ _ H) Hok Hpk).
  apply live_bounds in Hpk; [|done]. pose proof (hr_room _ _ H). pose proof (hr_end _ _ H).
  cbn [heap_start heap_end heap_max in_memory with_mem] in *. lia.
Qed.
Next Obligation. intros m h ps ps' Hp (bs & H & Hps). exists bs. split; [done|]. cbn in *. by rewrite <- Hp. Qed.
Next Obligation. intros m h x ps H. apply kheap_pairwise in H. exact (proj1 H). Qed.
Next Obligation. exact kheap_write. Qed.
Next Obligation. exact kheap_alloc_spec. Qed.
Next Obligation. exact kheap_free_spec. Qed.
