(* ===== verification/Paging.v ===== *)
(** * Virtual memory: kernel/src/paging.c

    A machine with physical memory, control registers, a TLB and the frame
    allocator.  Every access the code makes through a pointer goes through the
    MMU: an untranslated address is a page fault, which the kernel answers with
    a panic.  The code is proved against the [FrameAllocator] interface. *)

From S2P Require Import Prelude Interfaces Memory Pmm.

(** ** Entries (kernel/include/paging.h) *)

Definition PAGE_PRESENT : Z := 1.
Definition PAGE_WRITE : Z := 2.
Definition PAGE_USER : Z := 4.
Definition PAGE_KERNEL : Z := Z.lor PAGE_PRESENT PAGE_WRITE.
Definition PAGE_USER_RW : Z := Z.lor (Z.lor PAGE_PRESENT PAGE_WRITE) PAGE_USER.
Definition PAGE_DIR_ENTRIES : Z := 1024.
Definition PAGE_TABLE_ENTRIES : Z := 1024.
Definition PAGE_DIR_INDEX (addr : Z) : Z := Z.land (Z.shiftr addr 22) 1023.
Definition PAGE_TABLE_INDEX (addr : Z) : Z := Z.land (Z.shiftr addr 12) 1023.
Definition PAGE_OFFSET (addr : Z) : Z := Z.land addr 4095.
Definition PAGE_FRAME (entry : Z) : Z := Z.land entry 4294963200.

(** [entry & flag] as a condition. *)
Definition has (entry flag : Z) : bool := negb (Z.land entry flag =? 0).

(** Size of [page_directory_t] and [page_table_t]. *)
Definition TABLE_BYTES : Z := 4096.

(** ** The machine *)

Record machine (S : Type) := Machine {
  pmem : mem;
  frames : S;
  cr3 : Z;
  pg : bool;                  (** CR0.PG *)
  tlb : gmap Z Z;             (** cached translations: page number to frame *)
  current_directory : Z;
  kernel_directory : Z;
}.
Arguments Machine {S} _ _ _ _ _ _ _.
Arguments pmem {S} _.
Arguments frames {S} _.
Arguments cr3 {S} _.
Arguments pg {S} _.
Arguments tlb {S} _.
Arguments current_directory {S} _.
Arguments kernel_directory {S} _.

(** The two-level walk of the i386 MMU. *)
Definition pde (m : mem) (dir v : Z) : Z := load32 m (dir + 4 * PAGE_DIR_INDEX v).
Definition pte (m : mem) (dir v : Z) : Z :=
  load32 m (PAGE_FRAME (pde m dir v) + 4 * PAGE_TABLE_INDEX v).

Definition walk (m : mem) (dir v : Z) : option Z :=
  if has (pde m dir v) PAGE_PRESENT && has (pte m dir v) PAGE_PRESENT
  then Some (Z.lor (PAGE_FRAME (pte m dir v)) (PAGE_OFFSET v)) else None.

(** What user code may do at [v]: both levels must allow it. *)
Definition user_access (m : mem) (dir v : Z) : bool :=
  has (pde m dir v) PAGE_USER && has (pte m dir v) PAGE_USER.
Definition write_access (m : mem) (dir v : Z) : bool :=
  has (pde m dir v) PAGE_WRITE && has (pte m dir v) PAGE_WRITE.

Section paging.
Context {S : Type} `{FA : FrameAllocator S}.
Implicit Types s : machine S.

Definition with_pmem (m : mem) (s : machine S) : machine S :=
  Machine m (frames s) (cr3 s) (pg s) (tlb s) (current_directory s) (kernel_directory s).
Definition with_frames (a : S) (s : machine S) : machine S :=
  Machine (pmem s) a (cr3 s) (pg s) (tlb s) (current_directory s) (kernel_directory s).
Definition with_tlb (t : gmap Z Z) (s : machine S) : machine S :=
  Machine (pmem s) (frames s) (cr3 s) (pg s) t (current_directory s) (kernel_directory s).
Definition with_dirs (current kernel : Z) (s : machine S) : machine S :=
  Machine (pmem s) (frames s) (cr3 s) (pg s) (tlb s) current kernel.

(** The address an access reaches: through the TLB, else by a walk. *)
Definition translate (s : machine S) (a : Z) : option Z :=
  if pg s then
    match tlb s !! (a / 4096) with
    | Some f => Some (f + a mod 4096)
    | None => walk (pmem s) (cr3 s) a
    end
  else Some a.

Definition vload32 (s : machine S) (a : Z) : outcome Z :=
  match translate s a with
  | Some p => Ret (load32 (pmem s) p)
  | None => Panicked "Page Fault"
  end.

Definition vstore32 (a v : Z) (s : machine S) : outcome (machine S) :=
  match translate s a with
  | Some p => Ret (with_pmem (store32 (pmem s) p v) s)
  | None => Panicked "Page Fault"
  end.

Definition vstore8 (a v : Z) (s : machine S) : outcome (machine S) :=
  match translate s a with
  | Some p => Ret (with_pmem (store8 (pmem s) p v) s)
  | None => Panicked "Page Fault"
  end.

(** ** Operations *)

Definition memset_paging (ptr value size : Z) (s : machine S) : outcome (machine S) :=
  for_rangeM 0 size (fun i s => vstore8 (ptr + i) value s) s.

(** A CR3 load drops every cached translation. *)
Definition load_page_directory (addr : Z) (s : machine S) : machine S :=
  Machine (pmem s) (frames s) addr (pg s) ∅ (current_directory s) (kernel_directory s).
Definition get_cr3 (s : machine S) : Z := cr3 s.

Definition set_pg (b : bool) (s : machine S) : machine S :=
  Machine (pmem s) (frames s) (cr3 s) b (tlb s) (current_directory s) (kernel_directory s).
Definition paging_enable (s : machine S) : machine S := set_pg true s.
Definition paging_disable (s : machine S) : machine S := set_pg false s.

Definition paging_flush_tlb (addr : Z) (s : machine S) : machine S :=
  with_tlb (delete (addr / 4096) (tlb s)) s.
Definition paging_flush_tlb_all (s : machine S) : machine S :=
  load_page_directory (get_cr3 s) s.

(** [kpd] and [kpt] are the addresses of [kernel_page_directory] and
    [kernel_page_tables]. *)
Definition identity_table (kpd kpt i : Z) (s : machine S) : outcome (machine S) :=
  s ← for_rangeM 0 PAGE_TABLE_ENTRIES (fun j s =>
        vstore32 (kpt + TABLE_BYTES * i + 4 * j)
          (Z.lor ((i * PAGE_TABLE_ENTRIES + j) * PAGE_SIZE) PAGE_KERNEL) s) s;
  vstore32 (kpd + 4 * i) (Z.lor (kpt + TABLE_BYTES * i) PAGE_KERNEL) s.

Definition paging_init (kpd kpt : Z) (s : machine S) : outcome (machine S) :=
  s ← memset_paging kpd 0 TABLE_BYTES s;
  s ← for_rangeM 0 4 (fun i s => memset_paging (kpt + TABLE_BYTES * i) 0 TABLE_BYTES s) s;
  s ← for_rangeM 0 4 (identity_table kpd kpt) s;
  Ret (paging_enable (load_page_directory kpd (with_dirs kpd kpd s))).

Definition paging_copy_directory (destination source : Z) (s : machine S) : outcome (machine S) :=
  if (destination =? 0) || (source =? 0) then Ret s else
  s ← memset_paging destination 0 TABLE_BYTES s;
  for_rangeM 0 PAGE_DIR_ENTRIES (fun i s =>
    e ← vload32 s (source + 4 * i); vstore32 (destination + 4 * i) e s) s.

(** [directory->entries[dir_idx] |= PAGE_USER] when the flags ask for it. *)
Definition add_user_flag (directory dir_idx flags : Z) (s : machine S) : outcome (machine S) :=
  if has flags PAGE_USER then
    e ← vload32 s (directory + 4 * dir_idx);
    vstore32 (directory + 4 * dir_idx) (Z.lor e PAGE_USER) s
  else Ret s.

Definition paging_get_or_create_table (directory virt_addr flags : Z) (s : machine S)
    : outcome (Z * machine S) :=
  let dir_idx := PAGE_DIR_INDEX virt_addr in
  e ← vload32 s (directory + 4 * dir_idx);
  if negb (has e PAGE_PRESENT) then
    let '(table_phys, a) := fa_alloc (frames s) in
    let s := with_frames a s in
    if table_phys =? 0 then Panicked "paging_map_page: Out of memory for page table" else
    s ← memset_paging table_phys 0 TABLE_BYTES s;
    s ← vstore32 (directory + 4 * dir_idx)
          (Z.lor (Z.lor table_phys PAGE_PRESENT) PAGE_WRITE) s;
    s ← add_user_flag directory dir_idx flags s;
    Ret (table_phys, s)
  else
    s ← add_user_flag directory dir_idx flags s;
    e ← vload32 s (directory + 4 * dir_idx);
    Ret (PAGE_FRAME e, s).

Definition flush_if_current (directory virt_addr : Z) (s : machine S) : machine S :=
  if directory =? current_directory s then paging_flush_tlb virt_addr s else s.

Definition paging_map_page_in_directory (directory virt_addr phys_addr flags : Z) (s : machine S)
    : outcome (machine S) :=
  let table_idx := PAGE_TABLE_INDEX virt_addr in
  if directory =? 0 then Ret s else
  '(table, s) ← paging_get_or_create_table directory virt_addr flags s;
  if table =? 0 then Ret s else
  s ← vstore32 (table + 4 * table_idx)
        (Z.lor (Z.land phys_addr 4294963200) (Z.land flags 4095)) s;
  Ret (flush_if_current directory virt_addr s).

Definition paging_map_page (virt_addr phys_addr flags : Z) (s : machine S) : outcome (machine S) :=
  paging_map_page_in_directory (current_directory s) virt_addr phys_addr flags s.

Definition paging_unmap_page_in_directory (directory virt_addr : Z) (s : machine S)
    : outcome (machine S) :=
  let dir_idx := PAGE_DIR_INDEX virt_addr in
  let table_idx := PAGE_TABLE_INDEX virt_addr in
  if directory =? 0 then Ret s else
  e ← vload32 s (directory + 4 * dir_idx);
  if negb (has e PAGE_PRESENT) then Ret s else
  s ← vstore32 (PAGE_FRAME e + 4 * table_idx) 0 s;
  Ret (flush_if_current directory virt_addr s).

Definition paging_unmap_page (virt_addr : Z) (s : machine S) : outcome (machine S) :=
  paging_unmap_page_in_directory (current_directory s) virt_addr s.

Definition paging_get_physical_in_directory (directory virt_addr : Z) (s : machine S) : outcome Z :=
  let dir_idx := PAGE_DIR_INDEX virt_addr in
  let table_idx := PAGE_TABLE_INDEX virt_addr in
  let offset := PAGE_OFFSET virt_addr in
  if directory =? 0 then Ret 0 else
  e ← vload32 s (directory + 4 * dir_idx);
  if negb (has e PAGE_PRESENT) then Ret 0 else
  t ← vload32 s (PAGE_FRAME e + 4 * table_idx);
  if negb (has t PAGE_PRESENT) then Ret 0 else
  Ret (Z.lor (PAGE_FRAME t) offset).

Definition paging_get_physical (virt_addr : Z) (s : machine S) : outcome Z :=
  paging_get_physical_in_directory (current_directory s) virt_addr s.

Definition paging_is_mapped (virt_addr : Z) (s : machine S) : outcome bool :=
  let dir_idx := PAGE_DIR_INDEX virt_addr in
  let table_idx := PAGE_TABLE_INDEX virt_addr in
  e ← vload32 s (current_directory s + 4 * dir_idx);
  if negb (has e PAGE_PRESENT) then Ret false else
  t ← vload32 s (PAGE_FRAME e + 4 * table_idx);
  Ret (has t PAGE_PRESENT).

Definition paging_get_directory (s : machine S) : Z := current_directory s.
Definition paging_get_kernel_directory (s : machine S) : Z := kernel_directory s.

Definition paging_switch_directory (directory : Z) (s : machine S) : machine S :=
  if directory =? 0 then s else
  load_page_directory directory (with_dirs directory (kernel_directory s) s).

(** [start] and [end] are page aligned, so the C counter cannot wrap. *)
Definition paging_identity_map (start end_ flags : Z) (s : machine S) : outcome (machine S) :=
  let start := PAGE_ALIGN_DOWN start in
  let end_ := PAGE_ALIGN_UP end_ in
  for_rangeM 0 ((end_ - start) / PAGE_SIZE) (fun k s =>
    paging_map_page (start + PAGE_SIZE * k) (start + PAGE_SIZE * k) flags s) s.
End paging.

(** ** Lemmas: bits of entries and addresses *)

Lemma u32_land x : u32 x = Z.land x (Z.ones 32).
Proof. unfold u32. by rewrite Z.land_ones. Qed.

Lemma is_u32_lor a b : is_u32 a -> is_u32 b -> is_u32 (Z.lor a b).
Proof.
  intros Ha Hb. rewrite <- (u32_id a), <- (u32_id b) by done.
  rewrite !u32_land, <- Z.land_lor_distr_l, <- u32_land. apply u32_range.
Qed.

Lemma has_lor e f g : has (Z.lor e f) g = has e g || has f g.
Proof.
  unfold has. rewrite Z.land_lor_distr_l. apply bool_eq_iff.
  rewrite orb_true_iff, !negb_true_iff, !Z.eqb_neq, Z.lor_eq_0_iff.
  destruct (Z.eq_dec (Z.land e g) 0); tauto.
Qed.

Lemma has_0 g : has 0 g = false.
Proof. done. Qed.

Lemma PAGE_FRAME_eq e : is_u32 e -> PAGE_FRAME e = e / 4096 * 4096.
Proof. apply land_page_mask. Qed.

Lemma PAGE_FRAME_lor e f : PAGE_FRAME (Z.lor e f) = Z.lor (PAGE_FRAME e) (PAGE_FRAME f).
Proof. apply Z.land_lor_distr_l. Qed.

Lemma PAGE_FRAME_small f : 0 <= f < 4096 -> PAGE_FRAME f = 0.
Proof. intros. rewrite PAGE_FRAME_eq by (unfold is_u32; lia). divlia. Qed.

Lemma PAGE_FRAME_aligned e : e mod 4096 = 0 -> is_u32 e -> PAGE_FRAME e = e.
Proof. intros. rewrite PAGE_FRAME_eq by done. divlia. Qed.

Lemma PAGE_FRAME_range e : is_u32 e -> PAGE_FRAME e mod 4096 = 0 /\ is_u32 (PAGE_FRAME e).
Proof. intros. rewrite PAGE_FRAME_eq by done. unfold is_u32 in *. split; divlia. Qed.

Lemma PAGE_OFFSET_eq a : PAGE_OFFSET a = a mod 4096.
Proof. unfold PAGE_OFFSET. change 4095 with (Z.ones 12). by rewrite Z.land_ones. Qed.

Lemma PAGE_TABLE_INDEX_eq a : PAGE_TABLE_INDEX a = a / 4096 mod 1024.
Proof.
  unfold PAGE_TABLE_INDEX. change 1023 with (Z.ones 10).
  by rewrite Z.land_ones, Z.shiftr_div_pow2.
Qed.

Lemma PAGE_DIR_INDEX_eq a : is_u32 a -> PAGE_DIR_INDEX a = a / 4194304.
Proof.
  unfold is_u32. intros. unfold PAGE_DIR_INDEX. change 1023 with (Z.ones 10).
  rewrite Z.land_ones, Z.shiftr_div_pow2 by done. change (2 ^ 22) with 4194304.
  change (2 ^ 10) with 1024. apply Z.mod_small. divlia.
Qed.

Lemma index_ranges a : is_u32 a ->
  0 <= PAGE_DIR_INDEX a < 1024 /\ 0 <= PAGE_TABLE_INDEX a < 1024.
Proof.
  intros. rewrite PAGE_DIR_INDEX_eq, PAGE_TABLE_INDEX_eq by done. unfold is_u32 in *. split; divlia.
Qed.

(** An aligned address and a 12-bit value have no bit in common. *)
Lemma land_page a f : a mod 4096 = 0 -> 0 <= f < 4096 -> Z.land a f = 0.
Proof.
  intros Ha Hf. apply Z.bits_inj'. intros n Hn. rewrite Z.land_spec, Z.bits_0.
  destruct (Z.ltb_spec n 12).
  - rewrite <- (Z.mod_pow2_bits_low a 12 n) by lia. change (2 ^ 12) with 4096.
    by rewrite Ha, Z.bits_0.
  - rewrite <- (Z.mod_small f (2 ^ 12)) by (change (2 ^ 12) with 4096; lia).
    rewrite Z.mod_pow2_bits_high by lia. apply andb_false_r.
Qed.

Lemma lor_page a f : a mod 4096 = 0 -> 0 <= f < 4096 -> Z.lor a f = a + f.
Proof.
  intros. rewrite <- Z.lxor_lor by (by apply land_page).
  by rewrite Z.add_nocarry_lxor by (by apply land_page).
Qed.

Lemma has_page a f : a mod 4096 = 0 -> 0 <= f < 4096 -> has a f = false.
Proof. intros. unfold has. by rewrite land_page. Qed.

(** ** Lemmas: pages of entries *)

(** Entry [i] of the directory or table at [p]. *)
Definition ent (m : mem) (p i : Z) : Z := load32 m (p + 4 * i).

Lemma ent_range m p i : is_u32 (ent m p i).
Proof. apply load32_range. Qed.

Lemma ent_store m p i v q k :
  p mod 4096 = 0 -> q mod 4096 = 0 -> 0 <= i < 1024 -> 0 <= k < 1024 ->
  ent (store32 m (p + 4 * i) v) q k = if (q =? p) && (k =? i) then u32 v else ent m q k.
Proof.
  intros Hp Hq Hi Hk. unfold ent.
  destruct (Z.eqb_spec q p) as [->|Hne]; destruct (Z.eqb_spec k i) as [->|Hk']; cbn [andb].
  - by rewrite load32_store32_eq.
  - rewrite load32_store32_ne by lia. done.
  - rewrite load32_store32_ne by divlia. done.
  - rewrite load32_store32_ne by divlia. done.
Qed.

Lemma ent_memset m t n q k :
  t mod 4096 = 0 -> q mod 4096 = 0 -> 0 <= k < 1024 -> 0 <= n <= 4096 -> q <> t ->
  ent (memset m t 0 n) q k = ent m q k.
Proof. intros. unfold ent. rewrite load32_memset_out by divlia. done. Qed.

Lemma ent_memset_zero m t k : 0 <= k < 1024 -> ent (memset m t 0 4096) t k = 0.
Proof. intros. unfold ent. apply load32_memset_zero; lia. Qed.

Lemma pde_ent m d v : pde m d v = ent m d (PAGE_DIR_INDEX v).
Proof. done. Qed.
Lemma pte_ent m d v : pte m d v = ent m (PAGE_FRAME (ent m d (PAGE_DIR_INDEX v))) (PAGE_TABLE_INDEX v).
Proof. done. Qed.

Lemma walk_ext m m' d v :
  pde m' d v = pde m d v -> (has (pde m d v) PAGE_PRESENT = true -> pte m' d v = pte m d v) ->
  walk m' d v = walk m d v.
Proof.
  intros H1 H2. unfold walk. rewrite H1. destruct (has (pde m d v) PAGE_PRESENT); [|done].
  by rewrite H2.
Qed.

(** The kernel's window: the first 16 MB, identity mapped in every directory. *)
Definition LOW_MEMORY : Z := 16777216.

Definition identity (m : mem) (d : Z) : Prop :=
  forall a, 0 <= a < LOW_MEMORY -> walk m d a = Some a.

Definition present_at (m : mem) (d i : Z) : bool := has (ent m d i) PAGE_PRESENT.
Definition table_at (m : mem) (d i : Z) : Z := PAGE_FRAME (ent m d i).

Lemma table_at_range m d i : table_at m d i mod 4096 = 0 /\ is_u32 (table_at m d i).
Proof. apply PAGE_FRAME_range, ent_range. Qed.

(** An index below 4 covers the window; an address above it has another one. *)
Lemma low_index a : 0 <= a < LOW_MEMORY -> 0 <= PAGE_DIR_INDEX a < 4 /\ is_u32 a.
Proof.
  unfold LOW_MEMORY. intros. assert (is_u32 a) by (unfold is_u32; lia).
  rewrite PAGE_DIR_INDEX_eq by done. split; [divlia|done].
Qed.

Lemma high_index v : is_u32 v -> LOW_MEMORY <= v -> 4 <= PAGE_DIR_INDEX v < 1024.
Proof. unfold LOW_MEMORY, is_u32. intros. rewrite PAGE_DIR_INDEX_eq by done. divlia. Qed.

Lemma identity_present m d i : identity m d -> 0 <= i < 4 -> present_at m d i = true.
Proof.
  intros Hid Hi. specialize (Hid (i * 4194304) ltac:(unfold LOW_MEMORY; lia)).
  unfold walk in Hid. rewrite pde_ent, PAGE_DIR_INDEX_eq, Z.div_mul in Hid
    by (unfold is_u32; lia).
  unfold present_at. by destruct (has (ent m d i) PAGE_PRESENT).
Qed.

Lemma identity_stable m m' d :
  (forall i, 0 <= i < 4 -> ent m' d i = ent m d i) ->
  (forall i k, 0 <= i < 4 -> 0 <= k < 1024 -> present_at m d i = true ->
     ent m' (table_at m d i) k = ent m (table_at m d i) k) ->
  identity m d -> identity m' d.
Proof.
  intros H1 H2 Hid a Ha. destruct (low_index a Ha) as [Hi Hu].
  rewrite <- (Hid a Ha). apply walk_ext; [by apply H1|].
  intros Hp. rewrite !pte_ent, (H1 _ Hi). apply H2; [done| |exact Hp]. by apply index_ranges.
Qed.

Section invariant.
Context {S : Type} `{FA : FrameAllocator S}.
Implicit Types s : machine S.

(** A cached translation of a page of the window is the identity. *)
Definition tlb_low s : Prop :=
  forall p f, tlb s !! p = Some f -> p < 4096 -> f = p * 4096.

(** Every cached translation is what the tables say. *)
Definition tlb_ok s : Prop :=
  forall p f, tlb s !! p = Some f ->
    0 <= p < 1048576 /\ walk (pmem s) (cr3 s) (p * 4096) = Some f.

(** The address spaces [ds]: page-aligned directories in the window; their
    page tables too, in allocated frames, and a table serves one index only
    (it may be shared between directories). *)
Record space_wf (ds : list Z) (s : machine S) : Prop := {
  sw_alloc : fa_ok (frames s);
  sw_pg : pg s = true;
  sw_cur : current_directory s = cr3 s;
  sw_cr3 : cr3 s ∈ ds;
  sw_dirs d : d ∈ ds -> d mod 4096 = 0 /\ 0 < d < LOW_MEMORY /\ fa_used (frames s) (d / 4096) = true;
  sw_tables d i : d ∈ ds -> 0 <= i < 1024 -> present_at (pmem s) d i = true ->
    0 < table_at (pmem s) d i < LOW_MEMORY /\
    fa_used (frames s) (table_at (pmem s) d i / 4096) = true /\
    (forall d', d' ∈ ds -> table_at (pmem s) d i <> d');
  sw_inj d1 d2 i j : d1 ∈ ds -> d2 ∈ ds -> 0 <= i < 1024 -> 0 <= j < 1024 ->
    present_at (pmem s) d1 i = true -> present_at (pmem s) d2 j = true ->
    table_at (pmem s) d1 i = table_at (pmem s) d2 j -> i = j;
  sw_ident d : d ∈ ds -> identity (pmem s) d;
  sw_tlb : tlb_ok s;
}.

Lemma wf_tlb_low ds s : space_wf ds s -> tlb_low s.
Proof.
  intros H p f Hp Hlow. destruct (sw_tlb _ _ H p f Hp) as [? Hw].
  rewrite (sw_ident _ _ H _ (sw_cr3 _ _ H)) in Hw by (unfold LOW_MEMORY; lia). congruence.
Qed.

(** Accesses in the window reach the address itself. *)
Definition windowed s : Prop := tlb_low s /\ identity (pmem s) (cr3 s).

Lemma translate_low s a : windowed s -> 0 <= a < LOW_MEMORY -> translate s a = Some a.
Proof.
  intros [Ht Hid] Ha. unfold translate. destruct (pg s); [|done].
  destruct (tlb s !! (a / 4096)) as [f|] eqn:E; [|by apply Hid].
  assert (a / 4096 < 4096) as Hp by (unfold LOW_MEMORY in Ha; divlia).
  rewrite (Ht _ _ E Hp). f_equal. divlia.
Qed.

Lemma wf_windowed ds s : space_wf ds s -> windowed s.
Proof. intros H. split; [by eapply wf_tlb_low|]. eapply sw_ident; [done|]. apply H. Qed.

Lemma vload32_low s p i :
  windowed s -> 0 <= p -> 0 <= i < 1024 -> p + 4096 <= LOW_MEMORY ->
  vload32 s (p + 4 * i) = Ret (ent (pmem s) p i).
Proof. intros Hw ???. unfold vload32. rewrite translate_low by (done || lia). done. Qed.

Lemma vstore32_low s p i v :
  windowed s -> 0 <= p -> 0 <= i < 1024 -> p + 4096 <= LOW_MEMORY ->
  vstore32 (p + 4 * i) v s = Ret (with_pmem (store32 (pmem s) (p + 4 * i) v) s).
Proof. intros Hw ???. unfold vstore32. rewrite translate_low by (done || lia). done. Qed.

(** Clearing a page that holds no table of the current address space. *)
Lemma memset_low s t :
  windowed s -> 0 <= t -> t mod 4096 = 0 -> t + 4096 <= LOW_MEMORY ->
  cr3 s mod 4096 = 0 -> t <> cr3 s ->
  (forall i, 0 <= i < 4 -> table_at (pmem s) (cr3 s) i <> t) ->
  memset_paging t 0 4096 s = Ret (with_pmem (memset (pmem s) t 0 4096) s).
Proof.
  intros [Htlb Hid] Ht0 Ht Htl Hc Hne Htab. unfold memset_paging.
  destruct (for_rangeM_ind (fun i s => vstore8 (t + i) 0 s)
    (fun i s' => s' = with_pmem (memset (pmem s) t 0 i) s) 0 4096 s) as (s' & E & ->);
    [lia| | |done].
  - unfold memset. rewrite for_range_nil by lia. by destruct s.
  - intros i s' Hi ->. eexists. split; [|reflexivity].
    unfold vstore8. rewrite translate_low; [|split; [done|]|lia].
    + cbn [pmem with_pmem]. unfold memset. by rewrite for_range_snoc by lia.
    + cbn [pmem with_pmem cr3]. eapply identity_stable; [| |exact Hid].
      * intros k Hk. apply ent_memset; lia.
      * intros k j Hk Hj _. apply ent_memset; try lia; [apply table_at_range|by apply Htab].
Qed.
End invariant.

(** ** Lemmas: getting the table of an address *)

(** [m'] is [m] with the table [t] behind entry [i] of [d], a new one zeroed. *)
Record created (m m' : mem) (d i t flags : Z) : Prop := {
  cr_table : table_at m' d i = t;
  cr_present : present_at m' d i = true;
  cr_entries k : 0 <= k < 1024 -> ent m' t k = if present_at m d i then ent m t k else 0;
  cr_else q k : q mod 4096 = 0 -> 0 <= k < 1024 -> q <> t -> (q <> d \/ k <> i) ->
    ent m' q k = ent m q k;
  cr_user : has (ent m' d i) PAGE_USER =
    has flags PAGE_USER || present_at m d i && has (ent m d i) PAGE_USER;
  cr_write : has (ent m' d i) PAGE_WRITE =
    if present_at m d i then has (ent m d i) PAGE_WRITE else true;
}.

Definition user_store (d i flags : Z) (m : mem) : mem :=
  if has flags PAGE_USER then store32 m (d + 4 * i) (Z.lor (ent m d i) PAGE_USER) else m.

Lemma user_store_ent d i flags m q k :
  d mod 4096 = 0 -> q mod 4096 = 0 -> 0 <= i < 1024 -> 0 <= k < 1024 ->
  ent (user_store d i flags m) q k =
    if (q =? d) && (k =? i) && has flags PAGE_USER then Z.lor (ent m d i) PAGE_USER
    else ent m q k.
Proof.
  intros. unfold user_store. destruct (has flags PAGE_USER); [|by rewrite andb_false_r].
  rewrite ent_store, andb_true_r by done. destruct ((q =? d) && (k =? i)); [|done].
  apply u32_id, is_u32_lor; [apply ent_range|done].
Qed.

(** Setting the user bit changes no table address and no present bit. *)
Lemma user_store_table d i flags m :
  d mod 4096 = 0 -> 0 <= i < 1024 ->
  table_at (user_store d i flags m) d i = table_at m d i /\
  present_at (user_store d i flags m) d i = present_at m d i /\
  has (ent (user_store d i flags m) d i) PAGE_USER =
    has flags PAGE_USER || has (ent m d i) PAGE_USER /\
  has (ent (user_store d i flags m) d i) PAGE_WRITE = has (ent m d i) PAGE_WRITE.
Proof.
  intros Hd Hi. unfold table_at, present_at. rewrite user_store_ent by done.
  rewrite !Z.eqb_refl. cbn [andb]. destruct (has flags PAGE_USER); [|done].
  rewrite !has_lor, PAGE_FRAME_lor. change (PAGE_FRAME PAGE_USER) with 0.
  change (has PAGE_USER PAGE_PRESENT) with false. change (has PAGE_USER PAGE_USER) with true.
  change (has PAGE_USER PAGE_WRITE) with false.
  by rewrite Z.lor_0_r, !orb_false_r, orb_true_r.
Qed.

Lemma created_reuse m d i flags :
  d mod 4096 = 0 -> 0 <= i < 1024 -> present_at m d i = true -> table_at m d i <> d ->
  created m (user_store d i flags m) d i (table_at m d i) flags.
Proof.
  intros Hd Hi Hp Hne. destruct (user_store_table d i flags m Hd Hi) as (H1 & H2 & H3 & H4).
  destruct (table_at_range m d i) as [Ht _]. split.
  - done.
  - by rewrite H2.
  - intros k Hk. rewrite Hp, user_store_ent by done. by rewrite eqb_sym_neg.
  - intros q k Hq Hk Hqt Hqd. rewrite user_store_ent by done.
    destruct (Z.eqb_spec q d) as [->|]; [|done]. destruct (Z.eqb_spec k i) as [->|]; [|done].
    by destruct Hqd.
  - by rewrite H3, Hp.
  - by rewrite H4, Hp.
Qed.

(** The entry written for a new table. *)
Definition new_entry (t : Z) : Z := Z.lor (Z.lor t PAGE_PRESENT) PAGE_WRITE.

Lemma new_entry_spec t :
  t mod 4096 = 0 -> is_u32 t ->
  is_u32 (new_entry t) /\ PAGE_FRAME (new_entry t) = t /\
  has (new_entry t) PAGE_PRESENT = true /\ has (new_entry t) PAGE_WRITE = true /\
  has (new_entry t) PAGE_USER = false.
Proof.
  intros Ht Hu. unfold new_entry.
  assert (has t PAGE_USER = false) as Htu by (apply has_page; [done|]; unfold PAGE_USER; lia).
  assert (is_u32 PAGE_PRESENT /\ is_u32 PAGE_WRITE) as [? ?] by done.
  split; [by apply is_u32_lor; [apply is_u32_lor|]|]. split; [|split; [|split]].
  - rewrite !PAGE_FRAME_lor, (PAGE_FRAME_aligned t) by done.
    change (PAGE_FRAME PAGE_PRESENT) with 0. change (PAGE_FRAME PAGE_WRITE) with 0.
    by rewrite !Z.lor_0_r.
  - rewrite !has_lor. change (has PAGE_PRESENT PAGE_PRESENT) with true.
    by rewrite orb_true_r.
  - rewrite !has_lor. change (has PAGE_WRITE PAGE_WRITE) with true. by rewrite orb_true_r.
  - by rewrite !has_lor, Htu.
Qed.

(** [mz] is [m] with the page [t] cleared. *)
Definition cleared (m mz : mem) (t : Z) : Prop :=
  (forall q k, q mod 4096 = 0 -> 0 <= k < 1024 -> q <> t -> ent mz q k = ent m q k) /\
  (forall k, 0 <= k < 1024 -> ent mz t k = 0).

Lemma cleared_memset m t : t mod 4096 = 0 -> cleared m (memset m t 0 4096) t.
Proof.
  intros Ht. split; [|apply ent_memset_zero].
  intros q k Hq Hk Hne. apply ent_memset; (assumption || lia).
Qed.

Lemma created_new m mz d i t flags :
  d mod 4096 = 0 -> 0 <= i < 1024 -> present_at m d i = false ->
  t mod 4096 = 0 -> is_u32 t -> t <> d -> cleared m mz t ->
  created m (user_store d i flags (store32 mz (d + 4 * i) (new_entry t))) d i t flags.
Proof.
  intros Hd Hi Hp Ht Hu Hne [Hout Hzero].
  destruct (new_entry_spec t Ht Hu) as (Hnu & Hnf & Hnp & Hnw & Hnus).
  set (m1 := store32 _ _ _).
  assert (forall q k, q mod 4096 = 0 -> 0 <= k < 1024 -> ent m1 q k =
    if (q =? d) && (k =? i) then new_entry t else ent mz q k) as Hm1.
  { intros. subst m1. rewrite ent_store by done. by rewrite (u32_id (new_entry t)). }
  assert (ent m1 d i = new_entry t) as Hdi by (rewrite Hm1, !Z.eqb_refl by done; done).
  destruct (user_store_table d i flags m1 Hd Hi) as (H1 & H2 & H3 & H4).
  unfold table_at, present_at in H1, H2. rewrite Hdi in H1, H2, H3, H4. split.
  - unfold table_at. by rewrite H1.
  - unfold present_at. by rewrite H2.
  - intros k Hk. rewrite Hp, user_store_ent, (eqb_sym_neg t d) by done. cbn [andb].
    rewrite Hm1, (eqb_sym_neg t d) by done. cbn [andb]. by apply Hzero.
  - intros q k Hq Hk Hqt Hqd.
    assert ((q =? d) && (k =? i) = false) as E.
    { destruct (Z.eqb_spec q d); [|done]. destruct (Z.eqb_spec k i); [|done]. tauto. }
    rewrite user_store_ent, E by done. cbn [andb]. rewrite Hm1, E by done. by apply Hout.
  - by rewrite H3, Hp, Hnus.
  - by rewrite H4, Hp, Hnw.
Qed.

(** Side conditions of the window lemmas (no evaluation of the memory). *)
Ltac low_side := first [assumption | lia].

Section effects.
Context {S : Type} `{FA : FrameAllocator S}.
Implicit Types s : machine S.

Lemma windowed_pmem s m : windowed s -> identity m (cr3 s) -> windowed (with_pmem m s).
Proof. intros [Ht _] Hid. by split. Qed.

Lemma add_user_flag_low s d i flags :
  windowed s -> 0 <= d -> 0 <= i < 1024 -> d + 4096 <= LOW_MEMORY ->
  add_user_flag d i flags s = Ret (with_pmem (user_store d i flags (pmem s)) s).
Proof.
  intros. unfold add_user_flag, user_store. destruct (has flags PAGE_USER); [|by destruct s].
  rewrite vload32_low by done. cbn [mbind outcome_bind]. by apply vstore32_low.
Qed.

(** Changing an entry above the window keeps the window. *)
Lemma identity_store m c d i v :
  identity m c -> c mod 4096 = 0 -> d mod 4096 = 0 -> 4 <= i < 1024 ->
  (forall k, 0 <= k < 4 -> table_at m c k <> d) ->
  identity (store32 m (d + 4 * i) v) c.
Proof.
  intros Hid Hc Hd Hi Htab. eapply identity_stable; [| |exact Hid].
  - intros k Hk. rewrite ent_store by lia. destruct (Z.eqb_spec k i); [lia|]. by rewrite andb_false_r.
  - intros k j Hk Hj _. destruct (table_at_range m c k) as [Ht _].
    rewrite ent_store by lia. rewrite eqb_sym_neg by (by apply Htab). done.
Qed.

Lemma identity_user_store m c d i flags :
  identity m c -> c mod 4096 = 0 -> d mod 4096 = 0 -> 4 <= i < 1024 ->
  (forall k, 0 <= k < 4 -> table_at m c k <> d) -> identity (user_store d i flags m) c.
Proof. intros. unfold user_store. case_match; [by apply identity_store|done]. Qed.

Lemma memset_low_cleared s t :
  windowed s -> 0 <= t -> t mod 4096 = 0 -> t + 4096 <= LOW_MEMORY ->
  cr3 s mod 4096 = 0 -> t <> cr3 s ->
  (forall i, 0 <= i < 4 -> table_at (pmem s) (cr3 s) i <> t) ->
  exists mz, memset_paging t 0 TABLE_BYTES s = Ret (with_pmem mz s) /\ cleared (pmem s) mz t.
Proof.
  intros. eexists. split; [by apply memset_low|]. by apply cleared_memset.
Qed.

Context (ds : list Z) (s0 : machine S) (H : space_wf ds s0).

Lemma wf_cr3 : cr3 s0 mod 4096 = 0 /\ 0 < cr3 s0 < LOW_MEMORY.
Proof. destruct (sw_dirs _ _ H _ (sw_cr3 _ _ H)) as (? & ? & _). auto. Qed.

(** The tables of the window, in particular those of the live directory. *)
Lemma wf_low_tables d k : d ∈ ds -> 0 <= k < 4 ->
  0 < table_at (pmem s0) d k < LOW_MEMORY /\
  fa_used (frames s0) (table_at (pmem s0) d k / 4096) = true /\
  (forall d', d' ∈ ds -> table_at (pmem s0) d k <> d').
Proof.
  intros Hd Hk. apply (sw_tables _ _ H d k Hd ltac:(lia)).
  apply identity_present; [by apply (sw_ident _ _ H)|done].
Qed.

Lemma page_room d : d mod 4096 = 0 -> d < LOW_MEMORY -> d + 4096 <= LOW_MEMORY.
Proof. unfold LOW_MEMORY. intros. divlia. Qed.

(** What [paging_get_or_create_table] does, on its three paths. *)
Lemma get_table_present d v flags :
  d ∈ ds -> is_u32 v -> LOW_MEMORY <= v ->
  present_at (pmem s0) d (PAGE_DIR_INDEX v) = true ->
  let i := PAGE_DIR_INDEX v in
  let m1 := user_store d i flags (pmem s0) in
  paging_get_or_create_table d v flags s0 = Ret (table_at (pmem s0) d i, with_pmem m1 s0) /\
  created (pmem s0) m1 d i (table_at (pmem s0) d i) flags /\ windowed (with_pmem m1 s0).
Proof.
  intros Hd Hv Hhigh Hp i m1. pose proof (high_index v Hv Hhigh) as Hi. fold i in Hi, Hp.
  destruct (sw_dirs _ _ H d Hd) as (Hda & Hdr & _). pose proof (wf_windowed _ _ H) as Hw.
  pose proof (page_room d Hda ltac:(lia)). destruct wf_cr3 as [Hc _].
  destruct (user_store_table d i flags (pmem s0) Hda ltac:(lia)) as (H1 & _).
  assert (windowed (with_pmem m1 s0)) as Hw1.
  { apply windowed_pmem; [done|]. apply identity_user_store; try done; [apply Hw|].
    intros k Hk. by apply (wf_low_tables (cr3 s0) k (sw_cr3 _ _ H) Hk). }
  split; [|split; [|done]].
  - unfold paging_get_or_create_table. fold i. rewrite vload32_low by (done || lia).
    cbn [mbind outcome_bind]. unfold present_at in Hp. rewrite Hp. cbn [negb].
    rewrite add_user_flag_low by (done || lia). cbn [mbind outcome_bind].
    rewrite vload32_low by (done || lia). cbn [mbind outcome_bind pmem with_pmem].
    by rewrite <- H1.
  - apply created_reuse; try done; [lia|]. by apply (sw_tables _ _ H d i Hd ltac:(lia) Hp).
Qed.

Lemma get_table_fail d v flags a :
  d ∈ ds -> is_u32 v -> present_at (pmem s0) d (PAGE_DIR_INDEX v) = false ->
  fa_alloc (frames s0) = (0, a) ->
  paging_get_or_create_table d v flags s0 =
    Panicked "paging_map_page: Out of memory for page table".
Proof.
  intros Hd Hv Hp Ha. destruct (index_ranges v Hv) as [Hi _].
  destruct (sw_dirs _ _ H d Hd) as (Hda & Hdr & _). pose proof (wf_windowed _ _ H) as Hw.
  pose proof (page_room d Hda ltac:(lia)).
  unfold paging_get_or_create_table. rewrite vload32_low by (done || lia).
  cbn [mbind outcome_bind]. unfold present_at in Hp. rewrite Hp. cbn [negb]. by rewrite Ha.
Qed.

Lemma get_table_new d v flags t a :
  d ∈ ds -> is_u32 v -> LOW_MEMORY <= v ->
  present_at (pmem s0) d (PAGE_DIR_INDEX v) = false ->
  fa_alloc (frames s0) = (t, a) -> 0 < t < LOW_MEMORY ->
  let i := PAGE_DIR_INDEX v in
  exists m1, paging_get_or_create_table d v flags s0 = Ret (t, with_pmem m1 (with_frames a s0)) /\
  created (pmem s0) m1 d i t flags /\ windowed (with_pmem m1 (with_frames a s0)).
Proof.
  intros Hd Hv Hhigh Hp Ha Ht i. pose proof (high_index v Hv Hhigh) as Hi. fold i in Hi, Hp.
  destruct (sw_dirs _ _ H d Hd) as (Hda & Hdr & Hdu). pose proof (wf_windowed _ _ H) as Hw.
  pose proof (page_room d Hda ltac:(lia)). destruct wf_cr3 as [Hc Hc'].
  destruct (fa_alloc_some _ _ _ (sw_alloc _ _ H) Ha ltac:(lia)) as (f & -> & Hf & Hunused & _).
  assert (forall x, fa_used (frames s0) (x / 4096) = true -> x <> 4096 * f) as Hfresh.
  { intros x Hx ->. rewrite Z.mul_comm, Z.div_mul in Hx by lia. congruence. }
  assert ((4096 * f) mod 4096 = 0) as Hta by (rewrite Z.mul_comm; apply Z.mod_mul; lia).
  pose proof (page_room _ Hta ltac:(lia)).
  assert (forall k, 0 <= k < 4 -> table_at (pmem s0) (cr3 s0) k <> 4096 * f) as Hlow.
  { intros k Hk. apply Hfresh. by apply (wf_low_tables _ k (sw_cr3 _ _ H) Hk). }
  assert (cr3 s0 <> 4096 * f) as Hcf by (apply Hfresh, (sw_dirs _ _ H), (sw_cr3 _ _ H)).
  destruct (memset_low_cleared (with_frames a s0) (4096 * f)
    Hw ltac:(lia) Hta ltac:(lia) Hc (not_eq_sym Hcf) Hlow) as (mz & Hmz & Hz).
  cbn [pmem with_frames] in Hz.
  assert (identity mz (cr3 s0)) as Hidz.
  { eapply identity_stable; [| |apply Hw].
    - intros k Hk. apply Hz; low_side.
    - intros k j Hk Hj _. apply Hz; [apply table_at_range|low_side|by apply Hlow]. }
  set (m1 := store32 mz (d + 4 * i) (new_entry (4096 * f))).
  assert (forall k, 0 <= k < 4 -> table_at mz (cr3 s0) k = table_at (pmem s0) (cr3 s0) k) as Htz.
  { intros k Hk. unfold table_at. f_equal. apply Hz; low_side. }
  assert (forall k, 0 <= k < 4 -> table_at mz (cr3 s0) k <> d) as Htd.
  { intros k Hk. rewrite Htz by low_side. by apply (wf_low_tables _ k (sw_cr3 _ _ H) Hk). }
  assert (identity m1 (cr3 s0)) as Hid1 by exact (identity_store _ _ _ _ _ Hidz Hc Hda Hi Htd).
  assert (forall k, 0 <= k < 4 -> table_at m1 (cr3 s0) k <> d) as Htd1.
  { intros k Hk. unfold table_at, m1. rewrite ent_store by lia.
    rewrite (eqb_sym_neg k i), andb_false_r by lia. by apply Htd. }
  assert (identity (user_store d i flags m1) (cr3 s0)) as Hid2 by (apply identity_user_store; low_side).
  exists (user_store d i flags m1). split; [|split].
  - unfold paging_get_or_create_table. fold i. rewrite vload32_low by low_side.
    cbn [mbind outcome_bind]. unfold present_at in Hp. rewrite Hp, Ha. cbn [negb].
    destruct (Z.eqb_spec (4096 * f) 0); [lia|]. rewrite Hmz. cbn [mbind outcome_bind].
    assert (windowed (with_pmem mz (with_frames a s0))) as Hwz
      by exact (windowed_pmem (with_frames a s0) mz Hw Hidz).
    rewrite vstore32_low by low_side. cbn [mbind outcome_bind].
    rewrite add_user_flag_low; [reflexivity| |low_side..].
    exact (windowed_pmem (with_frames a s0) m1 Hw Hid1).
  - apply created_new; try low_side; [unfold is_u32, LOW_MEMORY in *; lia|by apply not_eq_sym, Hfresh].
  - exact (windowed_pmem (with_frames a s0) _ Hw Hid2).
Qed.
End effects.


Section mapping.
Context {S : Type} `{FA : FrameAllocator S}.
Context (ds : list Z) (s0 : machine S) (H : space_wf ds s0).
Context (d v flags val t : Z) (a : S) (m1 : mem).
Context (Hd : d ∈ ds) (Hv : is_u32 v) (Hhigh : LOW_MEMORY <= v).

#[local] Abbreviation m := (pmem s0).
#[local] Abbreviation i := (PAGE_DIR_INDEX v).
#[local] Abbreviation j := (PAGE_TABLE_INDEX v).
#[local] Abbreviation m2 := (store32 m1 (t + 4 * j) val).

(** The table was there, or is a fresh frame of the window. *)
Context (Hcr : created m m1 d i t flags).
Context (Htable :
  (present_at m d i = true /\ t = table_at m d i /\ a = frames s0) \/
  (present_at m d i = false /\ fa_alloc (frames s0) = (t, a) /\ 0 < t < LOW_MEMORY)).

Lemma map_table :
  0 < t < LOW_MEMORY /\ t mod 4096 = 0 /\ (forall d', d' ∈ ds -> t <> d') /\
  fa_ok a /\ fa_used a (t / 4096) = true /\
  (forall x, 0 <= x -> fa_used (frames s0) x = true -> fa_used a x = true) /\
  (forall d' k, d' ∈ ds -> 0 <= k < 1024 -> present_at m d' k = true ->
     table_at m d' k = t -> k = i /\ present_at m d i = true).
Proof.
  pose proof (high_index v Hv Hhigh). destruct Htable as [(Hp & -> & ->)|(Hp & Ha & Ht)].
  - destruct (sw_tables _ _ H d i Hd ltac:(lia) Hp) as (Hr & Hu & Hne).
    destruct (table_at_range m d i) as [Hal _].
    split; [done|]. split; [done|]. split; [done|]. split; [apply H|]. split; [done|]. split; [done|].
    intros d' k Hd' Hk Hpk Heq. split; [|done].
    by apply (sw_inj _ _ H d' d k i Hd' Hd Hk ltac:(lia)).
  - destruct (fa_alloc_some _ _ _ (sw_alloc _ _ H) Ha ltac:(lia))
      as (f & -> & Hf & Hunused & Hok & _ & Hused).
    assert (forall x, fa_used (frames s0) (x / 4096) = true -> 4096 * f <> x) as Hfresh.
    { intros x Hx <-. rewrite Z.mul_comm, Z.div_mul in Hx by lia. congruence. }
    split; [done|]. split; [rewrite Z.mul_comm; apply Z.mod_mul; lia|].
    split; [intros d' Hd'; apply Hfresh; by apply (sw_dirs _ _ H)|]. split; [done|].
    split; [rewrite Z.mul_comm, Z.div_mul, Hused, Z.eqb_refl by lia; done|].
    split; [intros x Hx Hux; by rewrite Hused, Hux, orb_true_r by lia|].
    intros d' k Hd' Hk Hpk Heq. exfalso. symmetry in Heq. revert Heq. apply Hfresh.
    by apply (sw_tables _ _ H d' k Hd' Hk Hpk).
Qed.

Lemma indices : 0 <= i < 1024 /\ 0 <= j < 1024 /\ 4 <= i.
Proof. pose proof (high_index v Hv Hhigh). destruct (index_ranges v Hv). lia. Qed.

Lemma map_ent q k : q mod 4096 = 0 -> 0 <= k < 1024 ->
  ent m2 q k = if (q =? t) && (k =? j) then u32 val else ent m1 q k.
Proof. intros. destruct map_table as (_ & Ht & _). apply ent_store; try done. apply indices. Qed.

(** Entries of the directories: only entry [i] of [d] may change. *)
Lemma map_dir_ent d' k : d' ∈ ds -> 0 <= k < 1024 -> d' <> d \/ k <> i -> ent m2 d' k = ent m d' k.
Proof.
  intros Hd' Hk Hne. destruct map_table as (_ & Ht & Hnd & _).
  destruct (sw_dirs _ _ H d' Hd') as (Hda & _).
  assert (d' <> t) by (apply not_eq_sym; by apply Hnd).
  rewrite map_ent, (eqb_sym_neg d' t) by done. by apply (cr_else _ _ _ _ _ _ Hcr).
Qed.

Lemma map_dir_new : ent m2 d i = ent m1 d i.
Proof.
  destruct indices as (Hi & _). destruct map_table as (_ & _ & Hnd & _).
  destruct (sw_dirs _ _ H d Hd) as (Hda & _).
  rewrite map_ent, (eqb_sym_neg d t) by (done || (apply not_eq_sym; by apply Hnd)). done.
Qed.

(** Entries of the tables in use: only slot [j] of [t] may change. *)
Lemma map_table_ent d' k x :
  d' ∈ ds -> 0 <= k < 1024 -> 0 <= x < 1024 -> present_at m d' k = true ->
  table_at m d' k <> t \/ x <> j -> ent m2 (table_at m d' k) x = ent m (table_at m d' k) x.
Proof.
  intros Hd' Hk Hx Hp Hne. destruct map_table as (_ & Ht & Hnd & _ & _ & _ & Hinj).
  destruct (table_at_range m d' k) as [Hta _]. destruct (sw_tables _ _ H d' k Hd' Hk Hp) as (_ & _ & Hnt).
  rewrite map_ent by done.
  destruct (Z.eqb_spec (table_at m d' k) t) as [E|Hnt'].
  - rewrite E. destruct (Z.eqb_spec x j) as [->|Hxj]; [by destruct Hne|]. cbn [andb].
    destruct (Hinj d' k Hd' Hk Hp E) as [-> Hpi].
    rewrite (cr_entries _ _ _ _ _ _ Hcr) by done. by rewrite Hpi.
  - apply (cr_else _ _ _ _ _ _ Hcr); try done. left. by apply Hnt.
Qed.

Lemma page_eq_iff w : is_u32 w ->
  w / 4096 <> v / 4096 -> PAGE_DIR_INDEX w <> i \/ PAGE_TABLE_INDEX w <> j.
Proof.
  intros Hw Hne. rewrite !PAGE_DIR_INDEX_eq, !PAGE_TABLE_INDEX_eq by done.
  destruct (decide (w / 4194304 = v / 4194304)); [|by left]. right. divlia.
Qed.

(** Every other page of every address space translates as before, and so does
    [v] itself in a directory that does not share the table. *)
Lemma map_walk_other d' w :
  d' ∈ ds -> is_u32 w ->
  w / 4096 <> v / 4096 \/
  (d' <> d /\ (present_at m d i = true -> present_at m d' i = true -> table_at m d' i <> table_at m d i)) ->
  walk m2 d' w = walk m d' w.
Proof.
  intros Hd' Hw Hcase. destruct (index_ranges w Hw) as [Hi Hj].
  destruct map_table as (_ & Ht & Hnd & _ & _ & _ & Hinj).
  destruct (decide (d' = d /\ PAGE_DIR_INDEX w = i)) as [[-> Ei]|Hne].
  - destruct Hcase as [Hpage|[? _]]; [|done].
    assert (PAGE_TABLE_INDEX w <> j) as Hj' by (destruct (page_eq_iff w Hw Hpage); done).
    unfold walk. rewrite !pde_ent, !pte_ent, Ei, map_dir_new.
    pose proof (cr_present _ _ _ _ _ _ Hcr) as Hp1. pose proof (cr_table _ _ _ _ _ _ Hcr) as Ht1.
    unfold present_at, table_at in Hp1, Ht1. rewrite Hp1, Ht1. cbn [andb].
    rewrite map_ent, Z.eqb_refl, (eqb_sym_neg (PAGE_TABLE_INDEX w) j) by done. cbn [andb].
    rewrite (cr_entries _ _ _ _ _ _ Hcr) by done. unfold present_at.
    destruct (has (ent m d i) PAGE_PRESENT) eqn:Hp; [|done].
    assert (t = PAGE_FRAME (ent m d i)) as -> by (destruct Htable as [(_ & -> & _)|(Hf & _)]; [done|];
      unfold present_at in Hf; congruence). done.
  - assert (d' <> d \/ PAGE_DIR_INDEX w <> i) as Hne'
      by (destruct (decide (d' = d)); [right; tauto|by left]).
    apply walk_ext; [by apply map_dir_ent|]. intros Hp. rewrite !pte_ent, (map_dir_ent d' _ Hd' Hi Hne').
    change (present_at m d' (PAGE_DIR_INDEX w) = true) in Hp.
    apply map_table_ent; try done.
    destruct (decide (table_at m d' (PAGE_DIR_INDEX w) = t)) as [E|]; [|by left]. right.
    destruct (Hinj d' _ Hd' Hi Hp E) as [Ei Hpi].
    destruct Hcase as [Hpage|[Hdd Hshare]].
    + by destruct (page_eq_iff w Hw Hpage).
    + rewrite Ei in *. exfalso. apply Hshare; [done|done|].
      destruct Htable as [(_ & -> & _)|(Hf & _)]; [done|congruence].
Qed.

Lemma map_slot : is_u32 val -> pte m2 d v = val /\ pde m2 d v = ent m1 d i.
Proof.
  intros Hval. rewrite pte_ent, pde_ent, map_dir_new.
  pose proof (cr_table _ _ _ _ _ _ Hcr) as Ht1. unfold table_at in Ht1. rewrite Ht1.
  destruct map_table as (_ & Ht & _). destruct indices as (_ & Hj & _).
  rewrite map_ent, !Z.eqb_refl by done. cbn [andb]. by rewrite u32_id.
Qed.

Lemma map_walk_here : is_u32 val ->
  walk m2 d v = if has val PAGE_PRESENT then Some (Z.lor (PAGE_FRAME val) (PAGE_OFFSET v)) else None.
Proof.
  intros Hval. destruct (map_slot Hval) as [E1 E2]. unfold walk. rewrite E1, E2.
  pose proof (cr_present _ _ _ _ _ _ Hcr) as Hp. unfold present_at in Hp. by rewrite Hp.
Qed.

(** The other directories keep their entries and tables. *)
Lemma map_present_at d' k : d' ∈ ds -> 0 <= k < 1024 -> present_at m2 d' k = true ->
  table_at m2 d' k = t /\ k = i \/
  (table_at m2 d' k = table_at m d' k /\ present_at m d' k = true).
Proof.
  intros Hd' Hk Hp. destruct (decide (d' = d /\ k = i)) as [[-> ->]|Hne].
  - left. split; [|done]. unfold table_at. rewrite map_dir_new. apply Hcr.
  - right. assert (d' <> d \/ k <> i) as Hne'
      by (destruct (decide (d' = d)); [right; tauto|by left]).
    unfold table_at, present_at in *. by rewrite (map_dir_ent d' k Hd' Hk Hne') in *.
Qed.

Definition unshared (s : machine S) (d v : Z) : Prop :=
  d = current_directory s \/
  (present_at (pmem s) d (PAGE_DIR_INDEX v) = true ->
   present_at (pmem s) (cr3 s) (PAGE_DIR_INDEX v) = true ->
   table_at (pmem s) (cr3 s) (PAGE_DIR_INDEX v) <> table_at (pmem s) d (PAGE_DIR_INDEX v)).

Lemma map_tlb_ok : unshared s0 d v ->
  tlb_ok (flush_if_current d v (with_pmem m2 (with_frames a s0))).
Proof.
  intros Hsh p f. unfold flush_if_current. cbn [current_directory with_pmem with_frames].
  assert (forall p, tlb s0 !! p = Some f -> p <> v / 4096 \/ d <> current_directory s0 ->
    0 <= p < 1048576 /\ walk m2 (cr3 s0) (p * 4096) = Some f) as Hgo.
  { intros q Hq Hne. destruct (sw_tlb _ _ H q f Hq) as [Hr Hw]. split; [done|]. rewrite <- Hw.
    apply map_walk_other; [apply H|unfold is_u32; lia|].
    rewrite Z.div_mul by lia. destruct Hne as [Hne|Hne]; [by left|].
    destruct Hsh as [?|Hsh]; [done|]. right. rewrite (sw_cur _ _ H) in Hne.
    split; [done|]. auto. }
  destruct (Z.eqb_spec d (current_directory s0)); cbn [tlb pmem cr3 with_tlb paging_flush_tlb with_pmem with_frames].
  - intros Hp. apply lookup_delete_Some in Hp as [Hne Hp]. apply Hgo; [done|]. left. by apply not_eq_sym.
  - intros Hp. apply Hgo; [done|by right].
Qed.

Lemma map_wf : unshared s0 d v ->
  space_wf ds (flush_if_current d v (with_pmem m2 (with_frames a s0))).
Proof.
  intros Hsh. pose proof (map_tlb_ok Hsh) as Htlb.
  destruct map_table as (Htr & Hta & Hnd & Hok & Htu & Hmono & Hinj).
  unfold flush_if_current in *.
  assert (space_wf ds (if d =? current_directory (with_pmem m2 (with_frames a s0))
    then with_tlb (delete (v / 4096) (tlb s0)) (with_pmem m2 (with_frames a s0))
    else with_pmem m2 (with_frames a s0))) as Hres; [|exact Hres].
  destruct (d =? _); (split; [exact Hok|apply H|apply H|apply H|..|exact Htlb]);
    cbn [pmem frames with_pmem with_frames with_tlb].
  all: try (intros d' Hd'; destruct (sw_dirs _ _ H d' Hd') as (? & ? & ?);
    split; [done|]; split; [done|]; apply Hmono; [apply Z.div_pos; lia|done]).
  all: try (intros d' k Hd' Hk Hp; destruct (map_present_at d' k Hd' Hk Hp) as [[-> _]|[-> Hp']];
    [done|]; destruct (sw_tables _ _ H d' k Hd' Hk Hp') as (? & ? & ?);
    split; [done|]; split; [|done]; apply Hmono; [apply Z.div_pos; lia|done]).
  all: try (intros d' Hd' w Hw; rewrite <- (sw_ident _ _ H d' Hd' w Hw); apply map_walk_other;
    [done|apply (low_index w Hw)|left; unfold LOW_MEMORY in *; divlia]).
  all: intros d1 d2 k1 k2 Hd1 Hd2 Hk1 Hk2 Hp1 Hp2;
    destruct (map_present_at d1 k1 Hd1 Hk1 Hp1) as [[-> ->]|[-> Hp1']];
    destruct (map_present_at d2 k2 Hd2 Hk2 Hp2) as [[-> ->]|[-> Hp2']]; try done.
  all: intros Heq; first
    [ symmetry in Heq; symmetry; by apply (Hinj d2 k2 Hd2 Hk2 Hp2' Heq)
    | by apply (Hinj d1 k1 Hd1 Hk1 Hp1' Heq)
    | by apply (sw_inj _ _ H d1 d2 k1 k2 Hd1 Hd2 Hk1 Hk2 Hp1' Hp2' Heq) ].
Qed.
End mapping.

(** ** Lemmas: the entry written for a page *)

Definition page_entry (phys flags : Z) : Z :=
  Z.lor (Z.land phys 4294963200) (Z.land flags 4095).

Lemma has_low_bits flags f : 0 <= f < 4096 -> has (Z.land flags 4095) f = has flags f.
Proof.
  intros Hf. unfold has. rewrite <- Z.land_assoc. replace (Z.land 4095 f) with f; [done|].
  rewrite Z.land_comm. change 4095 with (Z.ones 12). rewrite Z.land_ones by lia.
  symmetry. apply Z.mod_small. done.
Qed.

Lemma page_entry_spec phys flags :
  is_u32 phys ->
  is_u32 (page_entry phys flags) /\ PAGE_FRAME (page_entry phys flags) = phys / 4096 * 4096 /\
  forall f, 0 <= f < 4096 -> has (page_entry phys flags) f = has flags f.
Proof.
  intros Hp. unfold page_entry. rewrite land_page_mask by done.
  assert (is_u32 (phys / 4096 * 4096)) by (unfold is_u32 in *; divlia).
  assert ((phys / 4096 * 4096) mod 4096 = 0) by (apply Z.mod_mul; lia).
  assert (0 <= Z.land flags 4095 < 4096).
  { change 4095 with (Z.ones 12). rewrite Z.land_ones by lia. apply Z.mod_pos_bound. done. }
  split; [|split].
  - apply is_u32_lor; [done|]. unfold is_u32. lia.
  - rewrite PAGE_FRAME_lor, PAGE_FRAME_aligned, PAGE_FRAME_small by done. apply Z.lor_0_r.
  - intros f Hf. rewrite has_lor, has_page, has_low_bits by done. done.
Qed.

Lemma for_rangeM_panic {S} (body : Z -> S -> outcome S) lo hi s msg :
  lo < hi -> body lo s = Panicked msg -> for_rangeM lo hi body s = Panicked msg.
Proof.
  intros Hlt Hb. unfold for_rangeM. rewrite seqZ_cons by lia. cbn [foldl mbind outcome_bind].
  rewrite Hb. induction (seqZ _ _) as [|k l IH]; [done|]. exact IH.
Qed.

Section map_page.
Context {S : Type} `{FA : FrameAllocator S}.
Implicit Types s : machine S.

(** The frame for a missing page table can be had, and lies in the window. *)
Definition table_available s d v : Prop :=
  present_at (pmem s) d (PAGE_DIR_INDEX v) = true \/
  exists t a, fa_alloc (frames s) = (t, a) /\ 0 < t < LOW_MEMORY.

Lemma map_page_steps ds s d v phys flags :
  space_wf ds s -> d ∈ ds -> is_u32 v -> LOW_MEMORY <= v -> table_available s d v ->
  exists t a m1,
    paging_map_page_in_directory d v phys flags s =
      Ret (flush_if_current d v (with_pmem
        (store32 m1 (t + 4 * PAGE_TABLE_INDEX v) (page_entry phys flags)) (with_frames a s))) /\
    created (pmem s) m1 d (PAGE_DIR_INDEX v) t flags /\
    ((present_at (pmem s) d (PAGE_DIR_INDEX v) = true /\ t = table_at (pmem s) d (PAGE_DIR_INDEX v) /\
      a = frames s) \/
     (present_at (pmem s) d (PAGE_DIR_INDEX v) = false /\ fa_alloc (frames s) = (t, a) /\
      0 < t < LOW_MEMORY)).
Proof.
  intros H Hd Hv Hhigh Hav. destruct (sw_dirs _ _ H d Hd) as (_ & Hd0 & _).
  pose proof (index_ranges v Hv) as [Hi Hj].
  destruct (present_at (pmem s) d (PAGE_DIR_INDEX v)) eqn:Hp.
  - destruct (get_table_present ds s H d v flags Hd Hv Hhigh Hp) as (Hg & Hcr & Hw).
    destruct (sw_tables _ _ H d _ Hd Hi Hp) as (Ht & _). destruct (table_at_range (pmem s) d (PAGE_DIR_INDEX v)) as [Hta _].
    pose proof (page_room _ Hta ltac:(lia)).
    eexists _, (frames s), _. split; [|split; [exact Hcr|by left]].
    unfold paging_map_page_in_directory. rewrite eqb_sym_neg by lia. rewrite Hg. cbn [mbind outcome_bind].
    rewrite eqb_sym_neg, vstore32_low by low_side. by destruct s.
  - destruct Hav as [?|(t & a & Ha & Ht)]; [congruence|].
    destruct (get_table_new ds s H d v flags t a Hd Hv Hhigh Hp Ha Ht) as (m1 & Hg & Hcr & Hw).
    destruct (fa_alloc_some _ _ _ (sw_alloc _ _ H) Ha ltac:(lia)) as (f & Hf & _).
    assert (t mod 4096 = 0) as Hta by (subst t; rewrite Z.mul_comm; apply Z.mod_mul; lia).
    pose proof (page_room _ Hta ltac:(lia)).
    exists t, a, m1. split; [|split; [exact Hcr|by right]].
    unfold paging_map_page_in_directory. rewrite eqb_sym_neg by lia. rewrite Hg. cbn [mbind outcome_bind].
    rewrite eqb_sym_neg, vstore32_low by low_side. done.
Qed.
End map_page.

(** ** Lemmas: the initial address space *)

(** A present, writable entry for the frame at [a]. *)
Definition kernel_entry (a : Z) : Z := Z.lor a PAGE_KERNEL.

Lemma kernel_entry_spec a : a mod 4096 = 0 -> is_u32 a ->
  is_u32 (kernel_entry a) /\ PAGE_FRAME (kernel_entry a) = a /\
  has (kernel_entry a) PAGE_PRESENT = true.
Proof.
  intros Ha Hu. unfold kernel_entry.
  assert (is_u32 PAGE_KERNEL) as Hk by done. split; [by apply is_u32_lor|]. split.
  - rewrite PAGE_FRAME_lor, PAGE_FRAME_aligned by done. change (PAGE_FRAME PAGE_KERNEL) with 0.
    apply Z.lor_0_r.
  - rewrite has_lor. change (has PAGE_KERNEL PAGE_PRESENT) with true. apply orb_true_r.
Qed.

Section init.
Context {S : Type} `{FA : FrameAllocator S}.
Context (kpd kpt : Z) (s0 : machine S).
Context (Hkpd : kpd mod 4096 = 0) (Hkpt : kpt mod 4096 = 0).
Context (Hoff : pg s0 = false).

Lemma translate_off m a : translate (with_pmem m s0) a = Some a.
Proof. unfold translate. cbn [pg with_pmem]. by rewrite Hoff. Qed.

Lemma vstore32_off m a v :
  vstore32 a v (with_pmem m s0) = Ret (with_pmem (store32 m a v) s0).
Proof. unfold vstore32. by rewrite translate_off. Qed.

Lemma memset_off m t : t mod 4096 = 0 ->
  exists mz, memset_paging t 0 TABLE_BYTES (with_pmem m s0) = Ret (with_pmem mz s0) /\ cleared m mz t.
Proof.
  intros Ht. exists (memset m t 0 4096). split; [|by apply cleared_memset].
  unfold memset_paging.
  destruct (for_rangeM_ind (fun i s => vstore8 (t + i) 0 s)
    (fun i s' => s' = with_pmem (memset m t 0 i) s0) 0 4096 (with_pmem m s0)) as (s' & E & ->);
    [lia| | |exact E].
  - unfold memset. by rewrite for_range_nil by lia.
  - intros i s' Hi ->. eexists. split; [|reflexivity].
    unfold vstore8. rewrite translate_off. cbn [pmem with_pmem]. unfold memset.
    by rewrite for_range_snoc by lia.
Qed.

(** One identity-mapped table. *)
Definition table_filled (m : mem) (t i : Z) : Prop :=
  forall j, 0 <= j < 1024 -> ent m t j = kernel_entry ((i * 1024 + j) * 4096).

Definition same_outside (m m' : mem) (P : Z -> Z -> Prop) : Prop :=
  forall q k, q mod 4096 = 0 -> 0 <= k < 1024 -> ~ P q k -> ent m' q k = ent m q k.

Lemma identity_table_off m i : 0 <= i < 4 -> kpd <> kpt + 4096 * i -> is_u32 (kpt + 4096 * i) ->
  exists m', identity_table kpd kpt i (with_pmem m s0) = Ret (with_pmem m' s0) /\
    table_filled m' (kpt + 4096 * i) i /\ ent m' kpd i = kernel_entry (kpt + 4096 * i) /\
    same_outside m m' (fun q k => q = kpt + 4096 * i \/ q = kpd /\ k = i).
Proof.
  intros Hi Hne Hu. set (t := kpt + 4096 * i) in *. assert (t mod 4096 = 0) as Ht by (subst t; divlia).
  destruct (for_rangeM_ind (fun j s => vstore32 (t + 4 * j)
      (kernel_entry ((i * 1024 + j) * 4096)) s)
    (fun n s' => exists m', s' = with_pmem m' s0 /\
       (forall j, 0 <= j < n -> ent m' t j = kernel_entry ((i * 1024 + j) * 4096)) /\
       same_outside m m' (fun q _ => q = t)) 0 1024 (with_pmem m s0)) as (s1 & E & m1 & -> & Hfill & Hsame).
  - lia.
  - exists m. split; [done|]. split; [lia|]. done.
  - intros n s' Hn (m' & -> & Hfill & Hsame). eexists. split; [apply vstore32_off|].
    eexists. split; [reflexivity|].
    assert (is_u32 ((i * 1024 + n) * 4096)) as Hu' by (unfold is_u32; lia).
    destruct (kernel_entry_spec _ ltac:(apply Z.mod_mul; lia) Hu') as (Hku & _). split.
    + intros j Hj. rewrite ent_store, Z.eqb_refl by low_side. cbn [andb].
      destruct (Z.eqb_spec j n) as [->|]; [by apply u32_id|]. apply Hfill. lia.
    + intros q k Hq Hk Hqt. rewrite ent_store, (eqb_sym_neg q t) by low_side. by apply Hsame.
  - destruct (kernel_entry_spec t Ht Hu) as (Hku & _).
    exists (store32 m1 (kpd + 4 * i) (kernel_entry t)). split; [|split; [|split]].
    + unfold identity_table, PAGE_TABLE_ENTRIES, TABLE_BYTES, PAGE_SIZE. fold t.
      unfold kernel_entry in E. rewrite E. cbn [mbind outcome_bind]. apply vstore32_off.
    + intros j Hj. rewrite ent_store by low_side.
      rewrite (eqb_sym_neg t kpd) by (apply not_eq_sym; assumption). cbn [andb]. by apply Hfill.
    + rewrite ent_store, !Z.eqb_refl by low_side. cbn [andb]. by apply u32_id.
    + intros q k Hq Hk Hn. rewrite ent_store by low_side.
      assert ((q =? kpd) && (k =? i) = false) as ->.
      { destruct (Z.eqb_spec q kpd); [|done]. destruct (Z.eqb_spec k i); [|done]. tauto. }
      apply Hsame; [assumption|assumption|]. tauto.
Qed.

Context (Hlow : 0 < kpd < LOW_MEMORY) (Hlow' : 0 < kpt) (Hlow'' : kpt + 16384 <= LOW_MEMORY).
Context (Hdisj : forall i, 0 <= i < 4 -> kpd <> kpt + 4096 * i).

(** The memory [paging_init] leaves. *)
Definition init_tables (m : mem) : Prop :=
  (forall i, 0 <= i < 4 -> ent m kpd i = kernel_entry (kpt + 4096 * i) /\
     table_filled m (kpt + 4096 * i) i) /\
  (forall k, 4 <= k < 1024 -> ent m kpd k = 0).

Lemma paging_init_memory :
  exists m, paging_init kpd kpt s0 =
    Ret (paging_enable (load_page_directory kpd (with_dirs kpd kpd (with_pmem m s0)))) /\ init_tables m.
Proof.
  unfold LOW_MEMORY in *.
  assert (s0 = with_pmem (pmem s0) s0) as Hs0 by by destruct s0.
  destruct (memset_off (pmem s0) kpd Hkpd) as (m1 & E1 & _ & Hz1). rewrite <- Hs0 in E1.
  assert (forall i, (kpt + 4096 * i) mod 4096 = 0) as Hal by (intros; divlia).
  destruct (for_rangeM_ind (fun i s => memset_paging (kpt + TABLE_BYTES * i) 0 TABLE_BYTES s)
    (fun i s' => exists m, s' = with_pmem m s0 /\ forall k, 0 <= k < 1024 -> ent m kpd k = 0)
    0 4 (with_pmem m1 s0)) as (s2 & E2 & m2 & -> & Hz2); [lia|eauto| |].
  { intros i s' Hi (m & -> & Hz). destruct (memset_off m (kpt + 4096 * i) (Hal i)) as (mz & E & Hz' & _).
    eexists. split; [exact E|]. eexists. split; [reflexivity|]. intros k Hk.
    rewrite Hz'; [by apply Hz|assumption|assumption|by apply Hdisj]. }
  destruct (for_rangeM_ind (identity_table kpd kpt)
    (fun n s' => exists m, s' = with_pmem m s0 /\
       (forall i, 0 <= i < n -> ent m kpd i = kernel_entry (kpt + 4096 * i) /\
          table_filled m (kpt + 4096 * i) i) /\
       (forall k, n <= k < 1024 -> ent m kpd k = 0))
    0 4 (with_pmem m2 s0)) as (s3 & E3 & m3 & -> & Hfill & Hz3); [lia| | |].
  - exists m2. split; [done|]. split; [lia|exact Hz2].
  - clear E1 E2. intros i s' Hi (m & -> & Hfill & Hz).
    destruct (identity_table_off m i Hi (Hdisj i Hi)) as (m' & E & Ht & He & Hsame);
      [unfold is_u32; lia|].
    exists (with_pmem m' s0). split; [exact E|]. exists m'. split; [reflexivity|]. clear E. split.
    + intros i' Hi'. destruct (Z.eq_dec i' i) as [->|Hne]; [done|].
      destruct (Hfill i' ltac:(lia)) as [Hf1 Hf2]. split.
      * rewrite Hsame; [exact Hf1|assumption|lia|]. intros [Hc|[_ Hc]]; [|lia]. by apply (Hdisj i Hi).
      * intros j Hj. rewrite Hsame; [by apply Hf2|apply Hal|lia|].
        intros [Hc|[Hc _]]; [lia|]. apply (Hdisj i' ltac:(lia)). lia.
    + intros k Hk. rewrite Hsame; [apply Hz; lia|assumption|lia|].
      intros [Hc|[_ Hc]]; [by apply (Hdisj i Hi)|lia].
  - exists m3. split; [|by split]. unfold paging_init. rewrite E1. cbn [mbind outcome_bind].
    rewrite E2. cbn [mbind outcome_bind]. rewrite E3. reflexivity.
Qed.

Lemma init_tables_walk m : init_tables m ->
  identity m kpd /\ (forall a, is_u32 a -> LOW_MEMORY <= a -> walk m kpd a = None) /\
  (forall i, 0 <= i < 1024 -> present_at m kpd i = true -> 0 <= i < 4 /\ table_at m kpd i = kpt + 4096 * i).
Proof.
  intros [Hfill Hz]. unfold LOW_MEMORY in *.
  assert (forall i, (kpt + 4096 * i) mod 4096 = 0) as Hal by (intros; divlia).
  assert (forall i, 0 <= i < 4 -> PAGE_FRAME (ent m kpd i) = kpt + 4096 * i /\
    has (ent m kpd i) PAGE_PRESENT = true) as Hdir.
  { intros i Hi. destruct (Hfill i Hi) as [-> _].
    destruct (kernel_entry_spec (kpt + 4096 * i) (Hal i) ltac:(unfold is_u32; lia)) as (_ & ? & ?). done. }
  split; [|split].
  - intros a Ha. destruct (low_index a Ha) as [Hi Hu]. destruct (index_ranges a Hu) as [_ Hj].
    destruct (Hdir _ Hi) as [Hf Hp]. destruct (Hfill _ Hi) as [_ Htab]. unfold walk.
    rewrite pde_ent, pte_ent, Hp, Hf, (Htab _ Hj). unfold is_u32, LOW_MEMORY in *.
    rewrite PAGE_DIR_INDEX_eq, PAGE_TABLE_INDEX_eq, PAGE_OFFSET_eq in * by done.
    set (x := (a / 4194304 * 1024 + (a / 4096) mod 1024) * 4096) in *.
    assert (x = a / 4096 * 4096) as Hx by (subst x; divlia).
    destruct (kernel_entry_spec x) as (_ & -> & ->);
      [subst x; apply Z.mod_mul; lia|rewrite Hx; unfold is_u32; divlia|]. cbn [andb].
    rewrite lor_page, Hx by (rewrite ?Hx; divlia). f_equal. divlia.
  - intros a Hu Ha. unfold walk. rewrite pde_ent, Hz by (apply high_index; done). done.
  - intros i Hi Hp. assert (0 <= i < 4) as Hi4.
    { destruct (Z.le_gt_cases 4 i); [|lia]. unfold present_at in Hp. rewrite Hz in Hp by lia. done. }
    split; [done|]. by apply Hdir.
Qed.

Context (Hok : fa_ok (frames s0)) (Hukpd : fa_used (frames s0) (kpd / 4096) = true).
Context (Hukpt : forall i, 0 <= i < 4 -> fa_used (frames s0) (kpt / 4096 + i) = true).

Lemma paging_init_full :
  exists s, paging_init kpd kpt s0 = Ret s /\ space_wf [kpd] s /\ cr3 s = kpd /\
    frames s = frames s0 /\
    (forall a, is_u32 a -> LOW_MEMORY <= a -> walk (pmem s) kpd a = None) /\
    (forall k, 4 <= k < 1024 -> present_at (pmem s) kpd k = false) /\ kernel_directory s = kpd /\
    forall i, 0 <= i < 1024 -> present_at (pmem s) kpd i = true -> table_at (pmem s) kpd i = kpt + 4096 * i.
Proof.
  destruct paging_init_memory as (m & E & Hm). destruct (init_tables_walk m Hm) as (Hid & Hno & Htab).
  eexists. split; [exact E|]. clear E. split; [|split; [done|split; [done|split; [done|]]]].
  2: { split; [|split; [done|intros i Hi Hp; by destruct (Htab i Hi Hp)]]. intros k Hk. unfold present_at. cbn [pmem paging_enable set_pg load_page_directory with_dirs with_pmem].
       by rewrite (proj2 Hm). }
  split; cbn [frames pg current_directory cr3 pmem tlb paging_enable set_pg load_page_directory with_dirs with_pmem].
  - done.
  - done.
  - done.
  - by left.
  - intros d ->%list_elem_of_singleton. done.
  - intros d i ->%list_elem_of_singleton Hi Hp. destruct (Htab i Hi Hp) as [Hi4 ->].
    unfold LOW_MEMORY in *. split; [lia|]. split.
    + replace ((kpt + 4096 * i) / 4096) with (kpt / 4096 + i) by divlia. by apply Hukpt.
    + intros d' ->%list_elem_of_singleton. apply not_eq_sym. by apply Hdisj.
  - intros d1 d2 i j ->%list_elem_of_singleton ->%list_elem_of_singleton Hi Hj Hp1 Hp2 Heq.
    destruct (Htab i Hi Hp1) as [_ E1]. destruct (Htab j Hj Hp2) as [_ E2]. lia.
  - intros d ->%list_elem_of_singleton. done.
  - intros p f Hp. change ((∅ : gmap Z Z) !! p = Some f) in Hp. by apply lookup_empty_Some in Hp.
Qed.

Lemma paging_init_wf :
  exists s, paging_init kpd kpt s0 = Ret s /\ space_wf [kpd] s /\ cr3 s = kpd /\
    frames s = frames s0 /\
    (forall a, is_u32 a -> LOW_MEMORY <= a -> walk (pmem s) kpd a = None) /\
    forall k, 4 <= k < 1024 -> present_at (pmem s) kpd k = false.
Proof.
  destruct paging_init_full as (s & E & ? & ? & ? & ? & ? & _). exists s. split; [exact E|]. clear E. auto.
Qed.
End init.

(** ** Properties *)

Section properties.
Context {S : Type} `{FA : FrameAllocator S}.
Implicit Types s : machine S.

(** What a successful mapping leaves alone. *)
Definition same_cpu s s' : Prop :=
  cr3 s' = cr3 s /\ current_directory s' = current_directory s /\
  kernel_directory s' = kernel_directory s.

Lemma map_page_spec ds s d v phys flags :
  space_wf ds s -> d ∈ ds -> is_u32 v -> LOW_MEMORY <= v -> is_u32 phys ->
  has flags PAGE_PRESENT = true -> unshared s d v -> table_available s d v ->
  exists s', paging_map_page_in_directory d v phys flags s = Ret s' /\ space_wf ds s' /\
    same_cpu s s' /\
    (forall d' k, d' ∈ ds -> 0 <= k < 1024 -> present_at (pmem s) d' k = true ->
       present_at (pmem s') d' k = true) /\
    walk (pmem s') d v = Some (phys / 4096 * 4096 + v mod 4096) /\
    user_access (pmem s') d v = has flags PAGE_USER /\
    (present_at (pmem s) d (PAGE_DIR_INDEX v) = false ->
       write_access (pmem s') d v = has flags PAGE_WRITE) /\
    (forall d' w, d' ∈ ds -> is_u32 w -> w / 4096 <> v / 4096 ->
       walk (pmem s') d' w = walk (pmem s) d' w) /\
    (forall d', d' ∈ ds -> d' <> d ->
       (present_at (pmem s) d (PAGE_DIR_INDEX v) = true ->
        present_at (pmem s) d' (PAGE_DIR_INDEX v) = true ->
        table_at (pmem s) d' (PAGE_DIR_INDEX v) <> table_at (pmem s) d (PAGE_DIR_INDEX v)) ->
       walk (pmem s') d' v = walk (pmem s) d' v).
Proof.
  intros H Hd Hv Hhigh Hphys Hflags Hsh Hav.
  destruct (map_page_steps ds s d v phys flags H Hd Hv Hhigh Hav) as (t & a & m1 & E & Hcr & Htab).
  destruct (page_entry_spec phys flags Hphys) as (Hvu & Hvf & Hvh).
  eexists. split; [exact E|]. split; [by eapply map_wf|].
  assert (forall (s1 : machine S), pmem (flush_if_current d v s1) = pmem s1) as Hpm
    by (intros s1; unfold flush_if_current; by destruct (d =? _)).
  split; [unfold same_cpu, flush_if_current; by destruct (d =? _)|].
  rewrite Hpm. cbn [pmem with_pmem]. split.
  { intros d' k Hd' Hk Hp.
    destruct (decide (d' = d /\ k = PAGE_DIR_INDEX v)) as [[-> ->]|Hne].
    - unfold present_at. erewrite (map_dir_new ds s H d v flags); eauto. apply Hcr.
    - unfold present_at. erewrite (map_dir_ent ds s H d v flags); eauto.
      destruct (decide (d' = d)); [right; tauto|by left]. }
  destruct (map_slot ds s H d v flags (page_entry phys flags) t a m1 Hd Hv Hhigh Hcr Htab Hvu) as [E1 E2].
  split; [|split; [|split; [|split]]].
  - rewrite (map_walk_here ds s H d v flags _ t a m1 Hd Hv Hhigh Hcr Htab Hvu), Hvh, Hflags, Hvf by done.
    rewrite PAGE_OFFSET_eq, lor_page; [done|apply Z.mod_mul; lia|apply Z.mod_pos_bound; lia].
  - unfold user_access. rewrite E1, E2, (cr_user _ _ _ _ _ _ Hcr), Hvh by done.
    destruct (has flags PAGE_USER); [done|]. apply andb_false_r.
  - intros Hp. unfold write_access. by rewrite E1, E2, (cr_write _ _ _ _ _ _ Hcr), Hp, Hvh.
  - intros d' w Hd' Hw Hne. eapply (map_walk_other ds s H d v flags); eauto.
  - intros d' Hd' Hne Hns. eapply (map_walk_other ds s H d v flags); eauto.
Qed.

(** C33. Mapping a page above the window in any address space succeeds when a
    table can be had: afterwards the MMU translates the page to the frame with
    the rights of the flags, every other page of every address space translates
    as before, a directory that does not share the table is not affected at
    all, and the invariant (tables in the window, disjoint, cached translations
    up to date) holds again. *)
Theorem paging_map_page_correct ds s d v phys flags :
  space_wf ds s -> d ∈ ds -> is_u32 v -> LOW_MEMORY <= v -> is_u32 phys ->
  has flags PAGE_PRESENT = true -> unshared s d v -> table_available s d v ->
  exists s', paging_map_page_in_directory d v phys flags s = Ret s' /\ space_wf ds s' /\
    walk (pmem s') d v = Some (phys / 4096 * 4096 + v mod 4096) /\
    user_access (pmem s') d v = has flags PAGE_USER /\
    (present_at (pmem s) d (PAGE_DIR_INDEX v) = false ->
       write_access (pmem s') d v = has flags PAGE_WRITE) /\
    (forall d' w, d' ∈ ds -> is_u32 w -> w / 4096 <> v / 4096 ->
       walk (pmem s') d' w = walk (pmem s) d' w) /\
    (forall d', d' ∈ ds -> d' <> d ->
       (present_at (pmem s) d (PAGE_DIR_INDEX v) = true ->
        present_at (pmem s) d' (PAGE_DIR_INDEX v) = true ->
        table_at (pmem s) d' (PAGE_DIR_INDEX v) <> table_at (pmem s) d (PAGE_DIR_INDEX v)) ->
       walk (pmem s') d' v = walk (pmem s) d' v).
Proof.
  intros H Hd Hv Hhigh Hphys Hflags Hsh Hav.
  destruct (map_page_spec ds s d v phys flags H Hd Hv Hhigh Hphys Hflags Hsh Hav)
    as (s' & ? & ? & _ & _ & ?). by exists s'.
Qed.

Lemma created_same m d i : present_at m d i = true -> created m m d i (table_at m d i) 0.
Proof. intros Hp. split; rewrite ?Hp; try done. Qed.

(** Unmapping removes exactly the translation of that page; nothing is
    done when the page has no table. *)
Theorem paging_unmap_page_correct ds s d v :
  space_wf ds s -> d ∈ ds -> is_u32 v -> LOW_MEMORY <= v -> unshared s d v ->
  exists s', paging_unmap_page_in_directory d v s = Ret s' /\ space_wf ds s' /\
    walk (pmem s') d v = None /\ frames s' = frames s /\
    (forall d' w, d' ∈ ds -> is_u32 w -> w / 4096 <> v / 4096 ->
       walk (pmem s') d' w = walk (pmem s) d' w).
Proof.
  intros H Hd Hv Hhigh Hsh. destruct (sw_dirs _ _ H d Hd) as (Hda & Hd0 & _).
  pose proof (index_ranges v Hv) as [Hi Hj]. pose proof (wf_windowed _ _ H) as Hw.
  pose proof (page_room d Hda ltac:(lia)).
  unfold paging_unmap_page_in_directory. rewrite eqb_sym_neg, vload32_low by low_side.
  cbn [mbind outcome_bind]. destruct (has (ent (pmem s) d (PAGE_DIR_INDEX v)) PAGE_PRESENT) eqn:Hp; cbn [negb].
  - destruct (sw_tables _ _ H d _ Hd Hi Hp) as (Ht & _).
    destruct (table_at_range (pmem s) d (PAGE_DIR_INDEX v)) as [Hta _].
    pose proof (page_room _ Hta ltac:(lia)). unfold table_at in *.
    rewrite vstore32_low by low_side. cbn [mbind outcome_bind].
    pose proof (created_same _ _ _ Hp) as Hcr.
    assert (with_frames (frames s) s = s) as Heq by by destruct s.
    pose proof (map_wf ds s H d v 0 0 _ (frames s) (pmem s) Hd Hv Hhigh Hcr
      ltac:(left; done) Hsh) as Hwf. rewrite Heq in Hwf.
    eexists. split; [reflexivity|]. split; [exact Hwf|].
    assert (forall (s1 : machine S), pmem (flush_if_current d v s1) = pmem s1 /\
      frames (flush_if_current d v s1) = frames s1) as Hpm
      by (intros s1; unfold flush_if_current; by destruct (d =? _)).
    rewrite (proj1 (Hpm _)), (proj2 (Hpm _)). cbn [pmem frames with_pmem].
    split; [|split; [done|]].
    + apply (map_walk_here ds s H d v 0 0 _ (frames s) (pmem s) Hd Hv Hhigh Hcr); [left; done|done].
    + intros d' w Hd' Hw' Hne.
      apply (map_walk_other ds s H d v 0 0 _ (frames s) (pmem s) Hd Hv Hhigh Hcr); [left; done|done|done|by left].
  - exists s. split; [done|]. split; [done|]. split; [|done]. unfold walk. by rewrite pde_ent, Hp.
Qed.

(** A directory and its tables lie in the window. *)
Lemma tables_room ds s c i : space_wf ds s -> c ∈ ds -> 0 <= i < 1024 ->
  0 < c /\ c + 4096 <= LOW_MEMORY /\
  (has (ent (pmem s) c i) PAGE_PRESENT = true ->
   0 < PAGE_FRAME (ent (pmem s) c i) /\ PAGE_FRAME (ent (pmem s) c i) + 4096 <= LOW_MEMORY).
Proof.
  intros H Hc Hi. destruct (sw_dirs _ _ H c Hc) as (Hca & Hc0 & _).
  split; [lia|]. split; [by apply page_room; [|lia]|]. intros Hp.
  destruct (sw_tables _ _ H c _ Hc Hi Hp) as (Ht & _). destruct (table_at_range (pmem s) c i) as [Hta _].
  split; [apply Ht|]. apply page_room; [done|apply Ht].
Qed.

Lemma get_physical_spec ds s d v : space_wf ds s -> d ∈ ds -> is_u32 v ->
  paging_get_physical_in_directory d v s = Ret (default 0 (walk (pmem s) d v)).
Proof.
  intros H Hd Hv. pose proof (index_ranges v Hv) as [Hi Hj]. pose proof (wf_windowed _ _ H) as Hw.
  destruct (tables_room ds s d _ H Hd Hi) as (Hd0 & Hd1 & Htab).
  unfold paging_get_physical_in_directory, walk. rewrite eqb_sym_neg, vload32_low by low_side.
  cbn [mbind outcome_bind]. rewrite pde_ent, pte_ent.
  destruct (has _ PAGE_PRESENT) eqn:Hp; [|done]. destruct (Htab eq_refl). cbn [negb andb].
  rewrite vload32_low by low_side. cbn [mbind outcome_bind]. by destruct (has (ent _ _ (PAGE_TABLE_INDEX v)) PAGE_PRESENT).
Qed.

(** The software walk agrees with the MMU: [paging_get_physical] returns
    the address the hardware would reach, 0 when it would fault, and
    [paging_is_mapped] tells the two cases apart, in any well-formed state. *)
Theorem paging_get_physical_is_mmu ds s d v :
  space_wf ds s -> d ∈ ds -> is_u32 v ->
  paging_get_physical_in_directory d v s = Ret (default 0 (walk (pmem s) d v)) /\
  paging_is_mapped v s = Ret (bool_decide (is_Some (walk (pmem s) (cr3 s) v))).
Proof.
  intros H Hd Hv. split; [by apply (get_physical_spec ds)|].
  pose proof (index_ranges v Hv) as [Hi Hj]. pose proof (wf_windowed _ _ H) as Hw.
  unfold paging_is_mapped, walk. rewrite (sw_cur _ _ H).
  destruct (tables_room ds s _ _ H (sw_cr3 _ _ H) Hi) as (Hd0 & Hd1 & Htab). rewrite vload32_low by low_side.
  cbn [mbind outcome_bind]. rewrite pde_ent, pte_ent.
  destruct (has _ PAGE_PRESENT) eqn:Hp; [|done]. destruct (Htab eq_refl). cbn [negb andb].
  rewrite vload32_low by low_side. cbn [mbind outcome_bind]. by destruct (has (ent _ _ (PAGE_TABLE_INDEX v)) PAGE_PRESENT).
Qed.

(** The two ways a mapping fails: with no frame left it panics with the
    out-of-memory message; and a table frame outside the window, which the
    allocator may well return, is written through an address that is not
    mapped, so the kernel takes a page fault. *)
Theorem paging_map_page_errors ds s d v phys flags t a :
  space_wf ds s -> d ∈ ds -> is_u32 v -> present_at (pmem s) d (PAGE_DIR_INDEX v) = false ->
  fa_alloc (frames s) = (t, a) ->
  (t = 0 -> paging_map_page_in_directory d v phys flags s =
     Panicked "paging_map_page: Out of memory for page table") /\
  (t <> 0 -> walk (pmem s) (cr3 s) t = None ->
     LOW_MEMORY <= t /\ paging_map_page_in_directory d v phys flags s = Panicked "Page Fault").
Proof.
  intros H Hd Hv Hp Ha. destruct (sw_dirs _ _ H d Hd) as (Hda & Hd0 & _).
  pose proof (index_ranges v Hv) as [Hi Hj]. pose proof (wf_windowed _ _ H) as Hw.
  pose proof (page_room d Hda ltac:(lia)).
  unfold paging_map_page_in_directory. rewrite eqb_sym_neg by lia. split; intros Ht.
  - subst t. by rewrite (get_table_fail ds s H d v flags a Hd Hv Hp Ha).
  - intros Hwalk. destruct (fa_alloc_some _ _ _ (sw_alloc _ _ H) Ha Ht) as (f & Hf & Hfr & _).
    split.
    { destruct (Z.le_gt_cases LOW_MEMORY t); [done|].
      rewrite (sw_ident _ _ H _ (sw_cr3 _ _ H)) in Hwalk by lia. done. }
    unfold paging_get_or_create_table. rewrite vload32_low by low_side. cbn [mbind outcome_bind].
    unfold present_at in Hp. rewrite Hp, Ha. cbn [negb]. rewrite eqb_sym_neg by done.
    unfold memset_paging. rewrite (for_rangeM_panic _ _ _ _ "Page Fault"); [done|done|].
    unfold vstore8, translate. cbn [pg with_frames tlb pmem cr3]. rewrite (sw_pg _ _ H), Z.add_0_r.
    destruct (tlb s !! (t / 4096)) as [g|] eqn:E; [|by rewrite Hwalk].
    destruct (sw_tlb _ _ H _ _ E) as [_ Hg]. replace (t / 4096 * 4096) with t in Hg; [congruence|].
    subst t. divlia.
Qed.

(** C35. [paging_init] builds the kernel's address space: the first 16 MB are
    identity mapped, nothing else is mapped, paging is on, and the invariant
    that every later operation relies on holds. *)
Theorem paging_init_correct kpd kpt s :
  kpd mod 4096 = 0 -> kpt mod 4096 = 0 -> pg s = false ->
  0 < kpd < LOW_MEMORY -> 0 < kpt -> kpt + 16384 <= LOW_MEMORY ->
  (forall i, 0 <= i < 4 -> kpd <> kpt + 4096 * i) ->
  fa_ok (frames s) -> fa_used (frames s) (kpd / 4096) = true ->
  (forall i, 0 <= i < 4 -> fa_used (frames s) (kpt / 4096 + i) = true) ->
  exists s', paging_init kpd kpt s = Ret s' /\ space_wf [kpd] s' /\ pg s' = true /\
    forall a, is_u32 a -> translate s' a = if a <? LOW_MEMORY then Some a else None.
Proof.
  intros H1 H2 H3 H4 H5 H6 H7 H8 H9 H10.
  destruct (paging_init_memory kpd kpt s H1 H2 H3 H5 H6 H7) as (m & E & Hm).
  destruct (paging_init_wf kpd kpt s H1 H2 H3 H4 H5 H6 H7 H8 H9 H10) as (s' & E' & Hwf & Hc & _ & Hno & _).
  rewrite E in E'. injection E' as <-. eexists. split; [exact E|]. clear E. split; [exact Hwf|].
  split; [done|]. intros a Ha. destruct (Z.ltb_spec a LOW_MEMORY).
  - apply translate_low; [by eapply wf_windowed|]. unfold is_u32 in Ha. lia.
  - unfold translate. cbn [pg paging_enable set_pg].
    change (match (∅ : gmap Z Z) !! (a / 4096) with
            | Some f => Some (f + a mod 4096)
            | None => walk m kpd a end = None).
    rewrite lookup_empty. by apply Hno.
Qed.

(** Changing one page that holds no low table keeps the window. *)
Lemma windowed_one_page s dst m :
  windowed s -> cr3 s mod 4096 = 0 -> cr3 s <> dst ->
  (forall k, 0 <= k < 4 -> table_at (pmem s) (cr3 s) k <> dst) ->
  (forall q k, q mod 4096 = 0 -> 0 <= k < 1024 -> q <> dst -> ent m q k = ent (pmem s) q k) ->
  windowed (with_pmem m s).
Proof.
  intros Hw Hc Hne Hlow Hsame. apply windowed_pmem; [done|].
  eapply identity_stable; [| |apply Hw].
  - intros k Hk. apply Hsame; [done|lia|done].
  - intros k j Hk Hj _. apply Hsame; [apply table_at_range|done|auto].
Qed.

(** The copy loop: entry by entry, nothing else. *)
Lemma copy_loop ds s dst src :
  space_wf ds s -> src ∈ ds -> dst ∉ ds -> dst mod 4096 = 0 -> 0 < dst < LOW_MEMORY ->
  (forall d i, d ∈ ds -> 0 <= i < 1024 -> present_at (pmem s) d i = true -> table_at (pmem s) d i <> dst) ->
  exists m, paging_copy_directory dst src s = Ret (with_pmem m s) /\
    (forall k, 0 <= k < 1024 -> ent m dst k = ent (pmem s) src k) /\
    (forall q k, q mod 4096 = 0 -> 0 <= k < 1024 -> q <> dst -> ent m q k = ent (pmem s) q k).
Proof.
  intros H Hsrc Hdst Hda Hdr Htab. destruct (sw_dirs _ _ H src Hsrc) as (Hsa & Hsr & _).
  destruct (wf_cr3 ds s H) as [Hca Hcr]. pose proof (wf_windowed _ _ H) as Hw.
  pose proof (page_room dst Hda ltac:(lia)). pose proof (page_room src Hsa ltac:(lia)).
  assert (src <> dst) as Hne by (intros ->; done).
  assert (cr3 s <> dst) as Hcd by (intros E; apply Hdst; rewrite <- E; apply H).
  assert (forall k, 0 <= k < 4 -> table_at (pmem s) (cr3 s) k <> dst) as Hlow.
  { intros k Hk. apply Htab; [apply H|lia|]. apply identity_present; [|done]. apply Hw. }
  destruct (memset_low_cleared s dst Hw ltac:(lia) Hda ltac:(lia) Hca (not_eq_sym Hcd) Hlow)
    as (mz & Ez & Hz & _).
  assert (forall m, (forall q k, q mod 4096 = 0 -> 0 <= k < 1024 -> q <> dst ->
    ent m q k = ent (pmem s) q k) -> windowed (with_pmem m s)) as Hwin.
  { intros m Hm. by apply (windowed_one_page s dst m). }
  destruct (for_rangeM_ind (fun i s => e ← vload32 s (src + 4 * i); vstore32 (dst + 4 * i) e s)
    (fun n s' => exists m, s' = with_pmem m s /\
       (forall k, 0 <= k < n -> ent m dst k = ent (pmem s) src k) /\
       (forall q k, q mod 4096 = 0 -> 0 <= k < 1024 -> q <> dst -> ent m q k = ent (pmem s) q k))
    0 1024 (with_pmem mz s)) as (s1 & E1 & m & -> & Hcopy & Hsame); [lia| | |].
  - exists mz. split; [done|]. split; [lia|exact Hz].
  - clear Ez. intros n s' Hn (m & -> & Hcopy & Hsame). pose proof (Hwin m Hsame) as Hwm.
    rewrite vload32_low by low_side. cbn [mbind outcome_bind pmem with_pmem].
    rewrite vstore32_low by low_side. eexists. split; [reflexivity|]. eexists. split; [reflexivity|].
    cbn [pmem with_pmem]. rewrite (Hsame src n Hsa Hn Hne). split.
    + intros k Hk. rewrite ent_store, Z.eqb_refl by low_side. cbn [andb].
      destruct (Z.eqb_spec k n) as [->|]; [apply u32_id, ent_range|]. apply Hcopy. lia.
    + intros q k Hq Hk Hqd. rewrite ent_store, (eqb_sym_neg q dst) by low_side. by apply Hsame.
  - exists m. split; [|by split]. unfold paging_copy_directory, PAGE_DIR_ENTRIES.
    rewrite !eqb_sym_neg by lia. cbn [orb]. rewrite Ez. cbn [mbind outcome_bind]. exact E1.
Qed.

Lemma copy_directory_spec ds s dst src :
  space_wf ds s -> src ∈ ds -> dst ∉ ds -> dst mod 4096 = 0 -> 0 < dst < LOW_MEMORY ->
  fa_used (frames s) (dst / 4096) = true ->
  (forall d i, d ∈ ds -> 0 <= i < 1024 -> present_at (pmem s) d i = true -> table_at (pmem s) d i <> dst) ->
  exists m, paging_copy_directory dst src s = Ret (with_pmem m s) /\
    space_wf (dst :: ds) (with_pmem m s) /\
    (forall v, is_u32 v -> walk m dst v = walk (pmem s) src v) /\
    (forall d v, d ∈ ds -> is_u32 v -> walk m d v = walk (pmem s) d v) /\
    (forall k, 0 <= k < 1024 -> ent m dst k = ent (pmem s) src k) /\
    (forall q k, q mod 4096 = 0 -> 0 <= k < 1024 -> q <> dst -> ent m q k = ent (pmem s) q k).
Proof.
  intros H Hsrc Hdst Hda Hdr Hdu Htab.
  destruct (copy_loop ds s dst src H Hsrc Hdst Hda Hdr Htab) as (m & E & Hcopy & Hsame).
  exists m. split; [exact E|]. clear E.
  assert (forall d, d ∈ ds -> d mod 4096 = 0 /\ d <> dst) as Hds.
  { intros d Hd. split; [by apply (sw_dirs _ _ H)|]. intros ->. done. }
  (* entries of any directory of the new list, by the one it stands for *)
  set (orig := fun d => if d =? dst then src else d).
  assert (forall d, d ∈ dst :: ds -> orig d ∈ ds /\ forall k, 0 <= k < 1024 -> ent m d k = ent (pmem s) (orig d) k) as Horig.
  { intros d Hd. unfold orig. destruct (Z.eqb_spec d dst) as [->|Hne]; [by split|].
    apply elem_of_cons in Hd as [->|Hd]; [done|]. split; [done|]. intros k Hk.
    apply Hsame; [by apply Hds|done|done]. }
  assert (forall d k x, d ∈ ds -> 0 <= k < 1024 -> 0 <= x < 1024 -> present_at (pmem s) d k = true ->
    ent m (table_at (pmem s) d k) x = ent (pmem s) (table_at (pmem s) d k) x) as Htables.
  { intros d k x Hd Hk Hx Hp. apply Hsame; [apply table_at_range|done|by apply Htab]. }
  assert (forall d v, d ∈ dst :: ds -> is_u32 v -> walk m d v = walk (pmem s) (orig d) v) as Hwalk.
  { intros d v Hd Hv. destruct (Horig d Hd) as [Ho He]. destruct (index_ranges v Hv) as [Hi Hj].
    unfold walk. rewrite !pde_ent, !pte_ent, (He _ Hi).
    destruct (has (ent (pmem s) (orig d) (PAGE_DIR_INDEX v)) PAGE_PRESENT) eqn:Hp; [|done].
    pose proof (Htables (orig d) (PAGE_DIR_INDEX v) (PAGE_TABLE_INDEX v) Ho Hi Hj Hp) as Ht.
    unfold table_at in Ht. by rewrite Ht. }
  assert (orig dst = src) as Hod by (unfold orig; by rewrite Z.eqb_refl).
  assert (forall d, d ∈ ds -> orig d = d) as Hoo.
  { intros d Hd. unfold orig. destruct (Hds d Hd). by rewrite eqb_sym_neg. }
  split; [|split; [|split]].
  - split; cbn [frames pg current_directory cr3 pmem tlb with_pmem]; try apply H.
    + right. apply H.
    + intros d [->|Hd]%elem_of_cons; [done|by apply (sw_dirs _ _ H)].
    + intros d i Hd Hi. destruct (Horig d Hd) as [Ho He]. unfold present_at, table_at.
      rewrite He by done. intros Hp. destruct (sw_tables _ _ H _ i Ho Hi Hp) as (Hr & Hu & Hnd).
      split; [done|]. split; [done|]. intros d' [->|Hd']%elem_of_cons; [by apply Htab|by apply Hnd].
    + intros d1 d2 i j Hd1 Hd2 Hi Hj. destruct (Horig d1 Hd1) as [Ho1 He1]. destruct (Horig d2 Hd2) as [Ho2 He2].
      unfold present_at, table_at. rewrite He1, He2 by done. by apply (sw_inj _ _ H).
    + intros d Hd a Ha. destruct (low_index a Ha) as [_ Hu]. rewrite Hwalk by done.
      apply (sw_ident _ _ H); [by apply Horig|done].
    + intros p f Hp. destruct (sw_tlb _ _ H p f Hp) as [Hr Hw]. split; [done|].
      cbn [pmem cr3 with_pmem]. rewrite Hwalk, Hoo; [done|apply H|right; apply H|unfold is_u32; lia].
  - intros v Hv. rewrite Hwalk, Hod; [done|by left|done].
  - intros d v Hd Hv. rewrite Hwalk, Hoo; [done|done|by right|done].
  - split; [exact Hcopy|exact Hsame].
Qed.

(** C40. Copying a directory creates an address space with the same
    translations: the copy translates every address as the source does, the
    existing spaces are unchanged, and the copy joins the invariant. *)
Theorem paging_copy_directory_correct ds s dst src :
  space_wf ds s -> src ∈ ds -> dst ∉ ds -> dst mod 4096 = 0 -> 0 < dst < LOW_MEMORY ->
  fa_used (frames s) (dst / 4096) = true ->
  (forall d i, d ∈ ds -> 0 <= i < 1024 -> present_at (pmem s) d i = true -> table_at (pmem s) d i <> dst) ->
  exists s', paging_copy_directory dst src s = Ret s' /\ space_wf (dst :: ds) s' /\
    (forall v, is_u32 v -> walk (pmem s') dst v = walk (pmem s) src v) /\
    (forall d v, d ∈ ds -> is_u32 v -> walk (pmem s') d v = walk (pmem s) d v).
Proof.
  intros H Hsrc Hdst Hda Hdr Hdu Htab.
  destruct (copy_directory_spec ds s dst src H Hsrc Hdst Hda Hdr Hdu Htab) as (m & E & Hwf & H1 & H2 & _).
  exists (with_pmem m s). split; [exact E|]. by split.
Qed.

Lemma switch_directory_spec ds s d : space_wf ds s -> d ∈ ds ->
  paging_switch_directory d s = Machine (pmem s) (frames s) d (pg s) ∅ d (kernel_directory s) /\
  space_wf ds (paging_switch_directory d s).
Proof.
  intros H Hd. destruct (sw_dirs _ _ H d Hd) as (_ & Hr & _).
  unfold paging_switch_directory. rewrite eqb_sym_neg by lia. cbv zeta. split; [done|].
  split; [apply H|apply H|done|done|apply H|apply H|apply H|apply H|]. intros p f Hp.
  change ((∅ : gmap Z Z) !! p = Some f) in Hp. by apply lookup_empty_Some in Hp.
Qed.

(** With an empty TLB every access walks the tables. *)
Lemma translate_walk s a : pg s = true -> tlb s = ∅ -> translate s a = walk (pmem s) (cr3 s) a.
Proof. intros Hp Ht. unfold translate. by rewrite Hp, Ht, lookup_empty. Qed.

(** Switching to another address space of the list keeps the invariant and
    leaves no translation of the old space in the TLB: every access then goes
    through the new tables. *)
Theorem paging_switch_directory_correct ds s d :
  space_wf ds s -> d ∈ ds ->
  let s' := paging_switch_directory d s in
  space_wf ds s' /\ current_directory s' = d /\ kernel_directory s' = kernel_directory s /\
  forall a, translate s' a = walk (pmem s) d a.
Proof.
  intros H Hd. destruct (switch_directory_spec ds s d H Hd) as [E Hwf]. cbv zeta. rewrite E in *.
  split; [done|]. split; [done|]. split; [done|]. intros a. apply translate_walk; [apply Hwf|done].
Qed.

(** [paging_identity_map] maps exactly the pages that meet [[start, end)]
    to themselves and leaves all the others, when their tables exist. *)
Theorem paging_identity_map_correct ds s start end_ flags :
  space_wf ds s -> LOW_MEMORY <= start -> start <= end_ -> end_ + 4095 < 4294967296 ->
  has flags PAGE_PRESENT = true ->
  (forall w, start / 4096 * 4096 <= w < end_ + 4095 ->
     present_at (pmem s) (cr3 s) (PAGE_DIR_INDEX w) = true) ->
  exists s', paging_identity_map start end_ flags s = Ret s' /\ space_wf ds s' /\
    forall w, is_u32 w -> walk (pmem s') (cr3 s) w =
      if (start / 4096 <=? w / 4096) && (w / 4096 * 4096 <? end_) then Some w
      else walk (pmem s) (cr3 s) w.
Proof.
  intros H Hlow Hle Hend Hflags Hpres. unfold LOW_MEMORY in Hlow.
  unfold paging_identity_map. rewrite PAGE_ALIGN_DOWN_eq by (unfold is_u32; lia).
  rewrite PAGE_ALIGN_UP_eq by lia.
  set (P := start / 4096) in *. set (Q := (end_ + 4095) / 4096).
  assert (P <= Q) by (subst P Q; divlia). unfold PAGE_SIZE.
  replace ((Q * 4096 - P * 4096) / 4096) with (Q - P)
    by (replace (Q * 4096 - P * 4096) with ((Q - P) * 4096) by lia; by rewrite Z.div_mul).
  destruct (for_rangeM_ind (fun k s => paging_map_page (P * 4096 + 4096 * k) (P * 4096 + 4096 * k) flags s)
    (fun n s' => space_wf ds s' /\ same_cpu s s' /\
       (forall k, 0 <= k < 1024 -> present_at (pmem s) (cr3 s) k = true ->
          present_at (pmem s') (cr3 s) k = true) /\
       forall w, is_u32 w -> walk (pmem s') (cr3 s) w =
         if (P <=? w / 4096) && (w / 4096 <? P + n) then Some w else walk (pmem s) (cr3 s) w)
    0 (Q - P) s) as (s' & E & Hwf & _ & _ & Hw).
  - lia.
  - split; [done|]. split; [done|]. split; [done|]. intros w Hw.
    destruct (Z.leb_spec P (w / 4096)); destruct (Z.ltb_spec (w / 4096) (P + 0)); (lia || done).
  - intros n s1 Hn (Hwf & (Hc1 & Hc2 & Hc3) & Hpr & Hwalk).
    set (v := P * 4096 + 4096 * n).
    assert (is_u32 v /\ 16777216 <= v /\ v < end_ + 4095) as (Hv & Hv2 & Hv3)
      by (subst v P Q; unfold is_u32; split; [|split]; divlia).
    assert (v / 4096 = P + n) as Hvp by (subst v; divlia).
    destruct (map_page_spec ds s1 (cr3 s) v v flags) as
      (s2 & E & Hwf2 & (Hc4 & Hc5 & Hc6) & Hpr2 & Hhere & _ & _ & Hother & _); try done.
    + apply H.
    + left. rewrite Hc2. symmetry. apply H.
    + left. apply Hpr; [apply (index_ranges v Hv)|]. apply Hpres. lia.
    + exists s2. unfold paging_map_page. rewrite Hc2, (sw_cur _ _ H). split; [exact E|].
      split; [done|]. split; [by unfold same_cpu; rewrite Hc4, Hc5, Hc6|].
      split; [intros; apply Hpr2; auto; apply H|]. intros w Hw.
      destruct (Z.eq_dec (w / 4096) (P + n)) as [Ew|Nw].
      * assert (walk (pmem s2) (cr3 s) w = Some w) as ->.
        { unfold walk in *. assert (PAGE_DIR_INDEX w = PAGE_DIR_INDEX v /\ PAGE_TABLE_INDEX w = PAGE_TABLE_INDEX v)
            as [E1 E2].
          { rewrite !PAGE_DIR_INDEX_eq, !PAGE_TABLE_INDEX_eq, Ew, Hvp by done. split; [|done].
            change 4194304 with (4096 * 1024). rewrite <- !Z.div_div by lia. by rewrite Ew, Hvp. }
          rewrite pde_ent, pte_ent in *. rewrite E1, E2. case_match; [|done].
          injection Hhere as Hhere. f_equal. rewrite PAGE_OFFSET_eq in *.
          destruct (PAGE_FRAME_range (ent (pmem s2) (PAGE_FRAME (ent (pmem s2) (cr3 s) (PAGE_DIR_INDEX v)))
            (PAGE_TABLE_INDEX v)) (ent_range _ _ _)) as [Hal _].
          rewrite lor_page in * by (done || apply Z.mod_pos_bound; lia). subst v. divlia. }
        destruct (Z.leb_spec P (w / 4096)); [|lia]. by destruct (Z.ltb_spec (w / 4096) (P + (n + 1))); [|lia].
      * rewrite Hother by (done || (apply H) || lia). rewrite Hwalk by done.
        destruct (Z.leb_spec P (w / 4096)); [|done].
        destruct (Z.ltb_spec (w / 4096) (P + n)); destruct (Z.ltb_spec (w / 4096) (P + (n + 1))); (lia || done).
  - exists s'. split; [exact E|]. split; [done|]. intros w Hu. rewrite Hw by done.
    destruct (Z.leb_spec P (w / 4096)); [|done]. cbn [andb]. subst P Q.
    destruct (Z.ltb_spec (w / 4096) (start / 4096 + ((end_ + 4095) / 4096 - start / 4096)));
      destruct (Z.ltb_spec (w / 4096 * 4096) end_); try done; exfalso; divlia.
Qed.
End properties.

(** ** Concrete machines: 24 frames, the first six holding the kernel's tables;
    and 32 MB with the window all used, so the next frame is above it. *)

Definition demo_frames : pmm :=
  Pmm (setZ (replicate (Z.to_nat BITMAP_SIZE) 0) 0 63) 98304 24 6.
Definition high_frames : pmm :=
  Pmm (replicate 512 255 ++ replicate 3584 0) 33554432 8192 4096.

Definition boot_machine (p : pmm) : machine pmm := Machine ∅ p 0 false ∅ 0 0.

Lemma demo_frames_ok : pmm_ok demo_frames.
Proof. split; [split|]; by vm_compute. Qed.

Lemma high_frames_ok : pmm_ok high_frames.
Proof. split; [split|]; by vm_compute. Qed.

(** [s] is the machine after [paging_init]. *)
Definition booted (p : pmm) (s : machine pmm) : Prop :=
  paging_init 4096 8192 (boot_machine p) = Ret s.

Lemma boot_wf p :
  pmm_ok p -> (forall g, 1 <= g < 6 -> is_used p g = true) ->
  exists s, booted p s /\ space_wf [4096] s /\ cr3 s = 4096 /\
    frames s = p /\ (forall a, is_u32 a -> LOW_MEMORY <= a -> walk (pmem s) 4096 a = None) /\
    forall k, 4 <= k < 1024 -> present_at (pmem s) 4096 k = false.
Proof.
  intros Hok Hu. apply (paging_init_wf 4096 8192 (boot_machine p)); try done.
  - intros i Hi. lia.
  - by apply (Hu 1).
  - intros i Hi. apply Hu. change (8192 / 4096) with 2. lia.
Qed.

Lemma boot_full p :
  pmm_ok p -> (forall g, 1 <= g < 6 -> is_used p g = true) ->
  exists s, booted p s /\ space_wf [4096] s /\ cr3 s = 4096 /\ kernel_directory s = 4096 /\ frames s = p /\
    (forall k, 4 <= k < 1024 -> present_at (pmem s) 4096 k = false) /\
    forall i, 0 <= i < 1024 -> present_at (pmem s) 4096 i = true -> table_at (pmem s) 4096 i = 8192 + 4096 * i.
Proof.
  intros Hok Hu. destruct (paging_init_full 4096 8192 (boot_machine p)) as (s & E & ? & ? & ? & _ & ? & ? & ?);
    [done|done|done|done|done|done|intros i Hi; lia|done|by apply (Hu 1)| |].
  - intros i Hi. apply Hu. change (8192 / 4096) with 2. lia.
  - exists s. split; [exact E|]. clear E. do 5 (split; [assumption|]). assumption.
Qed.

Lemma demo_used g : 1 <= g < 6 -> is_used demo_frames g = true.
Proof. intros. assert (g = 1 \/ g = 2 \/ g = 3 \/ g = 4 \/ g = 5) as Hg by lia.
  by destruct Hg as [->|[->|[->|[->| ->]]]]. Qed.

Lemma high_used g : 1 <= g < 6 -> is_used high_frames g = true.
Proof. intros. assert (g = 1 \/ g = 2 \/ g = 3 \/ g = 4 \/ g = 5) as Hg by lia.
  by destruct Hg as [->|[->|[->|[->| ->]]]]. Qed.

Lemma table_available_demo s :
  frames s = demo_frames -> table_available s 4096 33554432.
Proof.
  intros Hf. right. rewrite Hf. eexists _, _.
  split; [vm_compute; reflexivity|]. by unfold LOW_MEMORY.
Qed.

Lemma paging_init_correct_witness :
  exists s', paging_init 4096 8192 (boot_machine demo_frames) = Ret s' /\ space_wf [4096] s' /\
    pg s' = true /\ forall a, is_u32 a -> translate s' a = if a <? LOW_MEMORY then Some a else None.
Proof.
  apply (paging_init_correct 4096 8192 (boot_machine demo_frames)); try done.
  - intros i Hi. lia.
  - intros i Hi. apply demo_used. change (8192 / 4096) with 2. lia.
Defined.

(** Closed side conditions, without the (large) hypotheses. *)
Ltac plain := clear; done.

Lemma paging_map_page_correct_witness :
  exists s s', booted demo_frames s /\
    paging_map_page_in_directory 4096 33554432 20480 7 s = Ret s' /\ space_wf [4096] s' /\
    walk (pmem s') 4096 33554432 = Some 20480 /\ user_access (pmem s') 4096 33554432 = true.
Proof.
  destruct (boot_wf demo_frames demo_frames_ok demo_used) as (s & E & Hwf & Hc & Hf & _).
  destruct (paging_map_page_correct [4096] s 4096 33554432 20480 7 Hwf) as (s' & E' & ? & ? & ? & _).
  - by left.
  - plain.
  - plain.
  - plain.
  - plain.
  - left. by rewrite (sw_cur _ _ Hwf), Hc.
  - by apply table_available_demo.
  - exists s, s'. auto.
Defined.

Lemma paging_unmap_page_correct_witness :
  exists s s', booted demo_frames s /\
    paging_unmap_page_in_directory 4096 33554432 s = Ret s' /\ walk (pmem s') 4096 33554432 = None.
Proof.
  destruct (boot_wf demo_frames demo_frames_ok demo_used) as (s & E & Hwf & Hc & _ & _).
  destruct (paging_unmap_page_correct [4096] s 4096 33554432 Hwf) as (s' & E' & ? & ? & _).
  - by left.
  - plain.
  - plain.
  - left. by rewrite (sw_cur _ _ Hwf), Hc.
  - exists s, s'. auto.
Defined.

Lemma paging_get_physical_is_mmu_witness :
  exists s, booted demo_frames s /\
    paging_get_physical_in_directory 4096 753664 s = Ret (default 0 (walk (pmem s) 4096 753664)) /\
    paging_is_mapped 753664 s = Ret (bool_decide (is_Some (walk (pmem s) (cr3 s) 753664))).
Proof.
  destruct (boot_wf demo_frames demo_frames_ok demo_used) as (s & E & Hwf & _).
  exists s. split; [exact E|].
  apply (paging_get_physical_is_mmu [4096] s 4096 753664 Hwf); [by left|plain].
Defined.

Lemma paging_map_page_errors_witness :
  exists s, booted high_frames s /\
    LOW_MEMORY <= 16777216 /\
    paging_map_page_in_directory 4096 33554432 20480 7 s = Panicked "Page Fault".
Proof.
  destruct (boot_wf high_frames high_frames_ok high_used) as (s & E & Hwf & Hc & Hf & Hno & Habs).
  exists s. split; [exact E|].
  assert (exists a, fa_alloc (frames s) = (16777216, a)) as [a Ha]
    by (rewrite Hf; eexists; vm_compute; reflexivity).
  apply (paging_map_page_errors [4096] s 4096 33554432 20480 7 16777216 a Hwf); try plain.
  - by left.
  - apply Habs. plain.
  - exact Ha.
  - rewrite Hc. apply Hno; plain.
Defined.

Lemma paging_copy_directory_correct_witness :
  exists s s', booted high_frames s /\
    paging_copy_directory 28672 4096 s = Ret s' /\ space_wf [28672; 4096] s' /\
    walk (pmem s') 28672 753664 = walk (pmem s) 4096 753664.
Proof.
  destruct (boot_wf high_frames high_frames_ok high_used) as (s & E & Hwf & Hc & Hf & Hno & Habs).
  assert (exists m, init_tables 4096 8192 m /\ pmem s = m) as (m & Hm & Epm).
  { destruct (paging_init_memory 4096 8192 (boot_machine high_frames)) as (m & E' & Hm); try plain; [lia|].
    unfold booted in E. rewrite E in E'. injection E' as ->.
    exists m. split; [exact Hm|reflexivity]. }
  destruct (paging_copy_directory_correct [4096] s 28672 4096 Hwf) as (s' & E' & Hwf' & Hw & _); try plain.
  - by left.
  - intros Hin%list_elem_of_singleton. lia.
  - rewrite Hf. plain.
  - intros d i ->%list_elem_of_singleton Hi Hp. rewrite Epm in *.
    destruct (proj2 (proj2 (init_tables_walk 4096 8192 ltac:(plain) ltac:(plain) ltac:(plain) m Hm)) i Hi Hp)
      as [? ->]. lia.
  - exists s, s'. split; [exact E|]. split; [exact E'|]. split; [exact Hwf'|]. apply Hw. plain.
Defined.

Lemma paging_switch_directory_correct_witness :
  exists s, booted demo_frames s /\
    current_directory (paging_switch_directory 4096 s) = 4096.
Proof.
  destruct (boot_wf demo_frames demo_frames_ok demo_used) as (s & E & Hwf & _).
  exists s. split; [exact E|].
  apply (paging_switch_directory_correct [4096] s 4096 Hwf). by left.
Defined.

Lemma paging_identity_map_correct_witness :
  exists s s1 s2, booted demo_frames s /\
    paging_map_page_in_directory 4096 33554432 20480 3 s = Ret s1 /\
    paging_identity_map 33558528 33562624 3 s1 = Ret s2 /\
    walk (pmem s2) 4096 33558528 = Some 33558528.
Proof.
  destruct (boot_wf demo_frames demo_frames_ok demo_used) as (s & E & Hwf & Hc & Hf & _).
  destruct (map_page_spec [4096] s 4096 33554432 20480 3 Hwf) as (s1 & E1 & Hwf1 & (Hc1 & _) & _ & Hw1 & _);
    try plain; [by left|left; by rewrite (sw_cur _ _ Hwf), Hc|by apply table_available_demo|].
  destruct (paging_identity_map_correct [4096] s1 33558528 33562624 3 Hwf1) as (s2 & E2 & _ & Hw2); try plain.
  - intros w Hw. rewrite Hc1, Hc. unfold walk in Hw1. unfold present_at. rewrite pde_ent in Hw1.
    assert (PAGE_DIR_INDEX w = PAGE_DIR_INDEX 33554432) as ->.
    { rewrite !PAGE_DIR_INDEX_eq by (unfold is_u32; divlia). divlia. }
    by destruct (has (ent (pmem s1) 4096 (PAGE_DIR_INDEX 33554432)) PAGE_PRESENT).
  - exists s, s1, s2. split; [exact E|]. split; [exact E1|]. split; [exact E2|].
    specialize (Hw2 33558528 ltac:(plain)). by rewrite Hc1, Hc in Hw2.
Defined.
