(* ===== verification/Process.v ===== *)
(** * Processes: kernel/src/process.c

    The process table with its global and child lists, the per-process signal
    queue and socket (ring buffers), the address space of each process (through
    the paging machine), waiting and exiting, and the round-robin scheduler.
    A [process_t *] is a slot number, [NULLP] the null pointer.  The functions
    of this file are the operations; ProcessTable.v, ProcessSpace.v, ProcessSignals.v,
    ProcessLife.v, Scheduler.v, Fork.v, Fairness.v and System.v prove them. *)

From S2P Require Import Prelude Interfaces Memory Ring Chain Paging.

Definition PROCESS_MAX_COUNT : Z := 16.
Definition PROCESS_SIGNAL_QUEUE_CAPACITY : Z := 16.
Definition PROCESS_SOCKET_CAPACITY : Z := 8.
Definition PROCESS_PAGE_REGION_BASE : Z := 33554432.
Definition PROCESS_VIRTUAL_STRIDE : Z := 131072.
Definition PROCESS_RIGHT_ALL : Z := 4294967295.
Definition PROCESS_SIGNAL_KILL : Z := 9.
Definition PROCESS_SIGNAL_TERM : Z := 15.
Definition PROCESS_SIGNAL_SOCKET : Z := 17.

Inductive process_status :=
| READY | RUN | WAITING | ZOMBIE | THREAD.

#[export] Instance process_status_eq_dec : EqDecision process_status.
Proof. solve_decision. Defined.

(** The value of the C enumeration. *)
Definition status_code (st : process_status) : Z :=
  match st with READY => 0 | RUN => 1 | WAITING => 2 | ZOMBIE => 3 | THREAD => 4 end.

(** The argument is any value of the enumeration's type. *)
Definition process_status_name (st : Z) : string :=
  if st =? status_code READY then "READY"
  else if st =? status_code RUN then "RUN"
  else if st =? status_code WAITING then "WAIT"
  else if st =? status_code ZOMBIE then "ZOMBIE"
  else if st =? status_code THREAD then "THREAD"
  else "UNKNOWN".

Definition status_is (a b : process_status) : bool := bool_decide (a = b).

(** The functions a process can be given: the demos of the source, or another
    one, known by a number. *)
Inductive process_entry :=
| NoEntry | DemoCounter | DemoReceiver | DemoSender | UserEntry (id : Z).
Inductive process_handler :=
| NoHandler | DefaultHandler | UserHandler (id : Z).

#[export] Instance process_entry_eq_dec : EqDecision process_entry.
Proof. solve_decision. Defined.

(** What the saved registers and stack resume: nothing (zeroed), the start of
    [process_bootstrap], the point after a [process_yield] of a demo with its
    local variables, of another function, or the end of [process_bootstrap]. *)
Inductive process_context :=
| CtxZero
| CtxBootstrap
| CtxCounter (counter iterations limit : Z)
| CtxReceiver
| CtxSender
| CtxUser (id : Z)
| CtxDone.

(** [process_memory_t] *)
Record process_memory := PMemory {
  process_page_directory : Z;
  page_size : Z;
  virtual_base : Z;
  virtual_page : Z;
  process_page : Z;
  data_start : Z;
  data_end : Z;
  bss_start : Z;
  bss_end : Z;
  m_heap_start : Z;
  heap_break : Z;
  m_heap_end : Z;
  stack_base : Z;
  stack_top : Z;
  physical_page : Z;
  data_page : Z;
  bss_page : Z;
  heap_page : Z;
  stack_page : Z;
  process_page_table : Z;
  code_size : Z;
}.

(** [process_t] *)
Record process := Process {
  pid : Z;
  status : process_status;
  owner : Z;
  rights : Z;
  parent : Z;
  children : Z;
  next_sibling : Z;
  next : Z;
  memory : process_memory;
  signals : ring (Z * Z);
  socket : ring Z;
  entry : process_entry;
  signal_handler : process_handler;
  context : process_context;
  cpu_ticks : Z;
  run_count : Z;
  switch_count : Z;
  last_signal : Z;
  last_signal_value : Z;
  last_socket_value : Z;
  runtime_state : Z;
  runtime_value : Z;
  runtime_arg0 : Z;
  runtime_arg1 : Z;
  exit_code : Z;
  wait_target_pid : Z;
  used : bool;
}.

(** Record update: rebuild [p] with the field that reads [old] replaced. *)
Definition eta_memory (m : process_memory) : process_memory :=
  PMemory (process_page_directory m) (page_size m) (virtual_base m) (virtual_page m)
    (process_page m) (data_start m) (data_end m) (bss_start m) (bss_end m)
    (m_heap_start m) (heap_break m) (m_heap_end m) (stack_base m) (stack_top m)
    (physical_page m) (data_page m) (bss_page m) (heap_page m) (stack_page m)
    (process_page_table m) (code_size m).

Definition eta_process (p : process) : process :=
  Process (pid p) (status p) (owner p) (rights p) (parent p) (children p) (next_sibling p)
    (next p) (memory p) (signals p) (socket p) (entry p) (signal_handler p) (context p)
    (cpu_ticks p) (run_count p) (switch_count p) (last_signal p) (last_signal_value p)
    (last_socket_value p) (runtime_state p) (runtime_value p) (runtime_arg0 p)
    (runtime_arg1 p) (exit_code p) (wait_target_pid p) (used p).

Ltac set_field eta x old new :=
  let e := eval cbv beta delta [eta] in (eta x) in
  match e with context C [old] => let e' := context C [new] in exact e' end.

Definition set_status (v : process_status) (p : process) : process :=
  ltac:(set_field eta_process p (status p) v).
Definition set_parent (v : Z) (p : process) : process := ltac:(set_field eta_process p (parent p) v).
Definition set_children (v : Z) (p : process) : process :=
  ltac:(set_field eta_process p (children p) v).
Definition set_next_sibling (v : Z) (p : process) : process :=
  ltac:(set_field eta_process p (next_sibling p) v).
Definition set_next (v : Z) (p : process) : process := ltac:(set_field eta_process p (next p) v).
Definition set_memory (v : process_memory) (p : process) : process :=
  ltac:(set_field eta_process p (memory p) v).
Definition set_signals (v : ring (Z * Z)) (p : process) : process :=
  ltac:(set_field eta_process p (signals p) v).
Definition set_socket (v : ring Z) (p : process) : process :=
  ltac:(set_field eta_process p (socket p) v).
Definition set_handler (v : process_handler) (p : process) : process :=
  ltac:(set_field eta_process p (signal_handler p) v).
Definition set_context (v : process_context) (p : process) : process :=
  ltac:(set_field eta_process p (context p) v).
Definition set_rights (v : Z) (p : process) : process := ltac:(set_field eta_process p (rights p) v).
Definition set_exit_code (v : Z) (p : process) : process :=
  ltac:(set_field eta_process p (exit_code p) v).
Definition set_wait_target (v : Z) (p : process) : process :=
  ltac:(set_field eta_process p (wait_target_pid p) v).
Definition set_last_socket (v : Z) (p : process) : process :=
  ltac:(set_field eta_process p (last_socket_value p) v).
Definition set_runtime_state (v : Z) (p : process) : process :=
  ltac:(set_field eta_process p (runtime_state p) v).
Definition set_runtime_value (v : Z) (p : process) : process :=
  ltac:(set_field eta_process p (runtime_value p) v).
Definition set_runtime_arg0 (v : Z) (p : process) : process :=
  ltac:(set_field eta_process p (runtime_arg0 p) v).
Definition set_runtime_arg1 (v : Z) (p : process) : process :=
  ltac:(set_field eta_process p (runtime_arg1 p) v).
Definition set_last_signal (sig value : Z) (p : process) : process :=
  let p := ltac:(set_field eta_process p (last_signal p) sig) in
  ltac:(set_field eta_process p (last_signal_value p) value).
Definition count_run (p : process) : process :=
  let p := ltac:(set_field eta_process p (cpu_ticks p) (u32 (cpu_ticks p + 1))) in
  ltac:(set_field eta_process p (run_count p) (u32 (run_count p + 1))).
Definition count_switch (p : process) : process :=
  ltac:(set_field eta_process p (switch_count p) (u32 (switch_count p + 1))).

Definition set_heap_break (v : Z) (m : process_memory) : process_memory :=
  ltac:(set_field eta_memory m (heap_break m) v).
Definition set_data_page (v : Z) (m : process_memory) : process_memory :=
  ltac:(set_field eta_memory m (data_page m) v).
Definition set_bss_page (v : Z) (m : process_memory) : process_memory :=
  ltac:(set_field eta_memory m (bss_page m) v).
Definition set_heap_page (v : Z) (m : process_memory) : process_memory :=
  ltac:(set_field eta_memory m (heap_page m) v).
Definition set_stack_page (v : Z) (m : process_memory) : process_memory :=
  ltac:(set_field eta_memory m (stack_page m) v).
Definition set_directory (v : Z) (m : process_memory) : process_memory :=
  ltac:(set_field eta_memory m (process_page_directory m) v).
Definition set_base (v size : Z) (m : process_memory) : process_memory :=
  let m := ltac:(set_field eta_memory m (virtual_base m) v) in
  ltac:(set_field eta_memory m (code_size m) size).
Definition set_physical (page table : Z) (m : process_memory) : process_memory :=
  let m := ltac:(set_field eta_memory m (physical_page m) page) in
  ltac:(set_field eta_memory m (process_page_table m) table).

(** [process_memset(process, 0, sizeof(process_t))] *)
Definition zero_memory : process_memory := PMemory 0 0 0 0 0 0 0 0 0 0 0 0 0 0 0 0 0 0 0 0 0.
Definition zero_signals : ring (Z * Z) := ring_empty PROCESS_SIGNAL_QUEUE_CAPACITY (0, 0).
Definition zero_socket : ring Z := ring_empty PROCESS_SOCKET_CAPACITY 0.
Definition zero_process : process :=
  Process 0 READY 0 0 NULLP NULLP NULLP NULLP zero_memory zero_signals zero_socket NoEntry
    NoHandler CtxZero 0 0 0 0 0 0 0 0 0 0 0 0 false.

(** [process_reset_memory] *)
Definition process_reset_memory : process_memory :=
  ltac:(set_field eta_memory zero_memory (page_size zero_memory) PAGE_SIZE).

(** ** State *)

(** The globals of process.c, the interrupt flag and the machine. *)
Record pstate (S : Type) := PState {
  table : list process;
  process_head : Z;
  current_process : Z;
  kernel_process : Z;
  scheduler_cursor : Z;
  next_pid : Z;
  pending_scheduler_ticks : Z;
  total_scheduler_ticks : Z;
  total_context_switches : Z;
  scheduler_enabled : bool;
  mach : machine S;
}.
Arguments PState {S} _ _ _ _ _ _ _ _ _ _ _.
Arguments table {S} _.
Arguments process_head {S} _.
Arguments current_process {S} _.
Arguments kernel_process {S} _.
Arguments scheduler_cursor {S} _.
Arguments next_pid {S} _.
Arguments pending_scheduler_ticks {S} _.
Arguments total_scheduler_ticks {S} _.
Arguments total_context_switches {S} _.
Arguments scheduler_enabled {S} _.
Arguments mach {S} _.

(** The accessors of the interface. *)
Definition process_root {S} (s : pstate S) : Z := kernel_process s.
Definition process_current {S} (s : pstate S) : Z := current_process s.
Definition process_first {S} (s : pstate S) : Z := process_head s.
Definition process_context_switch_count {S} (s : pstate S) : Z := total_context_switches s.
Definition scheduler_tick_count {S} (s : pstate S) : Z := total_scheduler_ticks s.
Definition multitasking_enabled {S} (s : pstate S) : Z := Z.b2z (scheduler_enabled s).

(** Bound on the walks along the lists of processes. *)
Definition walk_fuel : nat := 17.

Section process.
Context {S : Type} `{FA : FrameAllocator S}.

(** The address of [process_page_directories], and what is not in the source:
    the bodies and signal handlers given by other code. *)
Context (page_directories : Z).
Context (user_run : Z -> Z -> pstate S -> outcome (pstate S)).
Context (user_handler : Z -> Z -> Z -> Z -> pstate S -> pstate S).
Implicit Types s : pstate S.

Definition eta_state (s : pstate S) : pstate S :=
  PState (table s) (process_head s) (current_process s) (kernel_process s)
    (scheduler_cursor s) (next_pid s) (pending_scheduler_ticks s) (total_scheduler_ticks s)
    (total_context_switches s) (scheduler_enabled s) (mach s).

Ltac set_state s old new :=
  let e := eval cbv beta delta [eta_state] in (eta_state s) in
  match e with context C [old] => let e' := context C [new] in exact e' end.

Definition set_table (v : list process) (s : pstate S) : pstate S := ltac:(set_state s (table s) v).
Definition set_head (v : Z) (s : pstate S) : pstate S := ltac:(set_state s (process_head s) v).
Definition set_current (v : Z) (s : pstate S) : pstate S := ltac:(set_state s (current_process s) v).
Definition set_cursor (v : Z) (s : pstate S) : pstate S := ltac:(set_state s (scheduler_cursor s) v).
Definition set_next_pid (v : Z) (s : pstate S) : pstate S := ltac:(set_state s (next_pid s) v).
Definition set_pending (v : Z) (s : pstate S) : pstate S :=
  ltac:(set_state s (pending_scheduler_ticks s) v).
Definition set_total_ticks (v : Z) (s : pstate S) : pstate S :=
  ltac:(set_state s (total_scheduler_ticks s) v).
Definition count_context_switch (s : pstate S) : pstate S :=
  ltac:(set_state s (total_context_switches s) (u32 (total_context_switches s + 1))).
Definition set_mach (v : machine S) (s : pstate S) : pstate S := ltac:(set_state s (mach s) v).

(** [process_table[p]] and an assignment to its fields. *)
Definition proc (s : pstate S) (p : Z) : process := getZ zero_process (table s) p.
Definition upd (p : Z) (f : process -> process) (s : pstate S) : pstate S :=
  set_table (setZ (table s) p (f (proc s p))) s.

(** Run a paging operation on the machine of the state. *)
Definition on_mach (f : machine S -> outcome (machine S)) (s : pstate S) : outcome (pstate S) :=
  m ← f (mach s); Ret (set_mach m s).

(** ** Byte loops *)

Definition vload8 (s : machine S) (a : Z) : outcome Z :=
  match translate s a with
  | Some p => Ret (load8 (pmem s) p)
  | None => Panicked "Page Fault"
  end.

Definition process_memset (ptr value size : Z) (m : machine S) : outcome (machine S) :=
  for_rangeM 0 size (fun i m => vstore8 (u32 (ptr + i)) value m) m.

Definition process_memcpy (dest src size : Z) (m : machine S) : outcome (machine S) :=
  for_rangeM 0 size (fun i m =>
    b ← vload8 m (u32 (src + i)); vstore8 (u32 (dest + i)) b m) m.

(** ** Slots and lists *)

Definition process_virtual_base_for_slot (slot : Z) : Z :=
  u32 (PROCESS_PAGE_REGION_BASE + slot * PROCESS_VIRTUAL_STRIDE).

Definition page_directory_of (slot : Z) : Z := page_directories + 4096 * slot.

Definition process_allocate_slot (s : pstate S) : Z * pstate S :=
  match first_in 1 PROCESS_MAX_COUNT (fun slot =>
    if negb (used (proc s slot)) then Some slot else None) with
  | Some slot =>
      (slot, upd slot (fun _ => ltac:(set_field eta_process zero_process
                                        (used zero_process) true)) s)
  | None => (NULLP, s)
  end.

(** [while (tail->next != NULL) tail = tail->next;] *)
Fixpoint list_tail (fuel : nat) (s : pstate S) (tail : Z) : outcome Z :=
  match fuel with
  | O => OutOfFuel
  | Datatypes.S fuel =>
      if negb (next (proc s tail) =? NULLP) then list_tail fuel s (next (proc s tail)) else Ret tail
  end.

Definition process_link_global (p : Z) (s : pstate S) : outcome (pstate S) :=
  if process_head s =? NULLP then Ret (set_head p s) else
  tail ← list_tail walk_fuel s (process_head s);
  Ret (upd tail (set_next p) s).

Fixpoint unlink_global_loop (fuel : nat) (p cursor previous : Z) (s : pstate S)
    : outcome (pstate S) :=
  match fuel with
  | O => OutOfFuel
  | Datatypes.S fuel =>
      if cursor =? NULLP then Ret s
      else if cursor =? p then
        let s := if previous =? NULLP then set_head (next (proc s cursor)) s
                 else upd previous (set_next (next (proc s cursor))) s in
        Ret (upd p (set_next NULLP) s)
      else unlink_global_loop fuel p (next (proc s cursor)) cursor s
  end.

Definition process_unlink_global (p : Z) (s : pstate S) : outcome (pstate S) :=
  unlink_global_loop walk_fuel p (process_head s) NULLP s.

Definition process_link_child (par child : Z) (s : pstate S) : pstate S :=
  let s := upd child (fun c => set_next_sibling NULLP (set_parent par c)) s in
  if par =? NULLP then s
  else if children (proc s par) =? NULLP then upd par (set_children child) s
  else
    let s := upd child (set_next_sibling (children (proc s par))) s in
    upd par (set_children child) s.

Fixpoint unlink_child_loop (fuel : nat) (p cursor previous : Z) (s : pstate S)
    : outcome (pstate S) :=
  match fuel with
  | O => OutOfFuel
  | Datatypes.S fuel =>
      if cursor =? NULLP then Ret s
      else if cursor =? p then
        let s := if previous =? NULLP
                 then upd (parent (proc s p)) (set_children (next_sibling (proc s cursor))) s
                 else upd previous (set_next_sibling (next_sibling (proc s cursor))) s in
        Ret (upd p (fun q => set_parent NULLP (set_next_sibling NULLP q)) s)
      else unlink_child_loop fuel p (next_sibling (proc s cursor)) cursor s
  end.

Definition process_unlink_child (p : Z) (s : pstate S) : outcome (pstate S) :=
  if (p =? NULLP) || (parent (proc s p) =? NULLP) then Ret s
  else unlink_child_loop walk_fuel p (children (proc s (parent (proc s p)))) NULLP s.

(** ** Address spaces *)

(** Unmap one page of the process and give its frame back, when it has one. *)
Definition release_page (dir page start : Z) (m : machine S) : outcome (machine S) :=
  if negb (page =? 0) then
    m ← paging_unmap_page_in_directory dir start m;
    Ret (with_frames (fa_free (frames m) page) m)
  else Ret m.

Definition release_table (pm : process_memory) (m : machine S) : outcome (machine S) :=
  if negb (process_page_directory pm =? 0) && negb (process_page_table pm =? 0) then
    let dir_idx := PAGE_DIR_INDEX (virtual_base pm) in
    m ← vstore32 (process_page_directory pm + 4 * dir_idx) 0 m;
    Ret (with_frames (fa_free (frames m) (process_page_table pm)) m)
  else Ret m.

Definition release_pages (pm : process_memory) (m : machine S) : outcome (machine S) :=
  let dir := process_page_directory pm in
  m ← release_page dir (data_page pm) (data_start pm) m;
  m ← release_page dir (bss_page pm) (bss_start pm) m;
  m ← release_page dir (heap_page pm) (m_heap_start pm) m;
  m ← release_page dir (stack_page pm) (stack_base pm) m;
  release_table pm m.

Definition process_release_memory (p : Z) (s : pstate S) : outcome (pstate S) :=
  s ← on_mach (release_pages (memory (proc s p))) s;
  Ret (upd p (set_memory process_reset_memory) s).

Definition process_release (p : Z) (s : pstate S) : outcome (pstate S) :=
  if (p =? NULLP) || (p =? kernel_process s) then Ret s else
  let s := if scheduler_cursor s =? p then set_cursor (process_head s) s else s in
  s ← process_release_memory p s;
  s ← process_unlink_child p s;
  s ← process_unlink_global p s;
  Ret (upd p (fun _ => zero_process) s).

(** Returns the result and the frame stored through [physical_page]. *)
Definition alloc_process_page (p virtual_page_ : Z) (s : pstate S) : outcome (Z * Z * pstate S) :=
  let '(page, a) := fa_alloc (frames (mach s)) in
  let s := set_mach (with_frames a (mach s)) s in
  if (p =? NULLP) || (page =? 0) then Ret (-1, 0, s) else
  s ← on_mach (paging_map_page_in_directory (process_page_directory (memory (proc s p)))
                 virtual_page_ page PAGE_USER_RW) s;
  s ← on_mach (process_memset page 0 PAGE_SIZE) s;
  Ret (0, page, s).

(** The layout computed by [process_memory_map] for a base address. *)
Definition layout (base dir size : Z) : process_memory :=
  PMemory dir PAGE_SIZE base base base base (u32 (base + PAGE_SIZE))
    (u32 (base + PAGE_SIZE)) (u32 (base + PAGE_SIZE + PAGE_SIZE))
    (u32 (base + PAGE_SIZE * 2)) (u32 (base + PAGE_SIZE * 2))
    (u32 (base + PAGE_SIZE * 2 + PAGE_SIZE))
    (u32 (base + PAGE_SIZE * 3)) (u32 (base + PAGE_SIZE * 3 + PAGE_SIZE))
    0 0 0 0 0 0 size.

(** One page of the four: on failure everything is released and -1 returned. *)
Definition map_one (p : Z) (start : process_memory -> Z) (set : Z -> process_memory -> process_memory)
    (k : pstate S -> outcome (Z * pstate S)) (s : pstate S) : outcome (Z * pstate S) :=
  '(r, page, s) ← alloc_process_page p (start (memory (proc s p))) s;
  if negb (r =? 0) then
    s ← process_release_memory p s; Ret (-1, s)
  else k (upd p (fun q => set_memory (set page (memory q)) q) s).

Definition finish_map (p : Z) (s : pstate S) : outcome (Z * pstate S) :=
  let pm := memory (proc s p) in
  let dir_idx := PAGE_DIR_INDEX (virtual_base pm) in
  e ← vload32 (mach s) (process_page_directory pm + 4 * dir_idx);
  Ret (0, upd p (fun q => set_memory (set_physical (data_page pm) (PAGE_FRAME e) (memory q)) q) s).

Definition process_memory_map (p : Z) (s : pstate S) : outcome (Z * pstate S) :=
  if p =? NULLP then Ret (-1, s) else
  let kernel_dir := paging_get_kernel_directory (mach s) in
  let pm := memory (proc s p) in
  let base := if virtual_base pm =? 0 then process_virtual_base_for_slot p else virtual_base pm in
  let s := upd p (set_memory (layout base (page_directory_of p) (code_size pm))) s in
  s ← on_mach (paging_copy_directory (page_directory_of p) kernel_dir) s;
  map_one p data_start set_data_page (map_one p bss_start set_bss_page
    (map_one p m_heap_start set_heap_page (map_one p stack_base set_stack_page (finish_map p)))) s.

Definition process_memory_alloc (p size : Z) (s : pstate S) : Z * pstate S :=
  if (p =? NULLP) || (size =? 0) then (-1, s) else
  let pm := memory (proc s p) in
  if m_heap_end pm <? u32 (heap_break pm + size) then (-1, s)
  else (0, upd p (fun q => set_memory (set_heap_break (u32 (heap_break pm + size)) (memory q)) q) s).

Definition process_mmap (p size : Z) (s : pstate S) : Z * pstate S :=
  if (p =? NULLP) || (size =? 0) then (0, s) else
  let old_break := heap_break (memory (proc s p)) in
  let '(r, s) := process_memory_alloc p size s in
  if negb (r =? 0) then (0, s) else (old_break, s).

(** ** Creation *)

Definition socket_create (p : Z) (s : pstate S) : Z * pstate S :=
  if p =? NULLP then (-1, s) else
  (0, upd p (fun q => set_socket (Ring (rb_buf (socket q)) 0 0) q) s).

(** The stack pointer goes with the saved registers; the resumption point is
    the start of [process_bootstrap]. *)
Definition process_initialize_context (p : Z) (s : pstate S) : pstate S :=
  upd p (set_context CtxBootstrap) s.

(** [*((uint32_t * )page) = 0] for a page the process has. *)
Definition clear_first_word (page : Z) (s : pstate S) : outcome (pstate S) :=
  if negb (page =? 0) then on_mach (vstore32 page 0) s else Ret s.

Definition new_process (id own base size : Z) (e : process_entry) (q : process) : process :=
  Process id READY own PROCESS_RIGHT_ALL (parent q) (children q) (next_sibling q) (next q)
    (set_base base size (memory q)) (signals q) (socket q) e DefaultHandler (context q)
    (cpu_ticks q) (run_count q) (switch_count q) (last_signal q) (last_signal_value q)
    (last_socket_value q) (runtime_state q) (runtime_value q) (runtime_arg0 q) (runtime_arg1 q)
    (exit_code q) (wait_target_pid q) (used q).

Definition process_create_internal (par own requested_base : Z) (function : process_entry) (size : Z)
    (s : pstate S) : outcome (Z * pstate S) :=
  let '(p, s) := process_allocate_slot s in
  if p =? NULLP then Ret (NULLP, s) else
  let s := upd p (new_process (next_pid s) own requested_base size function) s in
  let s := set_next_pid (u32 (next_pid s + 1)) s in
  let '(r, s) := socket_create p s in
  '(r, s) ← (if negb (r =? 0) then Ret (r, s) else process_memory_map p s);
  if negb (r =? 0) then s ← process_release p s; Ret (NULLP, s) else
  let s := process_initialize_context p s in
  let s := process_link_child par p s in
  s ← process_link_global p s;
  s ← clear_first_word (data_page (memory (proc s p))) s;
  s ← clear_first_word (bss_page (memory (proc s p))) s;
  Ret (p, s).

Definition current_or_kernel (s : pstate S) : Z :=
  if negb (current_process s =? NULLP) then current_process s else kernel_process s.

Definition process_create_owned (own : Z) (function : process_entry) (size : Z) (s : pstate S)
    : outcome (Z * pstate S) :=
  process_create_internal (current_or_kernel s) own 0 function size s.

Definition exec_fn (addr : Z) (function : process_entry) (size : Z) (s : pstate S)
    : outcome (Z * pstate S) :=
  let own := if negb (current_process s =? NULLP) then owner (proc s (current_process s)) else 0 in
  process_create_internal (current_or_kernel s) own addr function size s.

Definition copy_page (dst src : process -> Z) (child source : Z) (s : pstate S) : outcome (pstate S) :=
  on_mach (process_memcpy (dst (proc s child)) (src (proc s source)) PAGE_SIZE) s.

Definition inherit (src child : process) : process :=
  Process (pid child) (status child) (owner child) (rights src) (parent child) (children child)
    (next_sibling child) (next child) (memory child) (signals child) (socket child) (entry child)
    (signal_handler src) (context child) (cpu_ticks child) (run_count child) (switch_count child)
    (last_signal src) (last_signal_value src) (last_socket_value child) (runtime_state src)
    (runtime_value src) (runtime_arg0 src) (runtime_arg1 src) (exit_code child)
    (wait_target_pid child) (used child).

Definition fork_process (source : Z) (s : pstate S) : outcome (Z * pstate S) :=
  if (source =? NULLP) || (source =? kernel_process s) ||
     bool_decide (entry (proc s source) = NoEntry) then Ret (NULLP, s) else
  let src := proc s source in
  '(child, s) ← process_create_internal source (owner src) 0 (entry src) (code_size (memory src)) s;
  if child =? NULLP then Ret (NULLP, s) else
  let s := upd child (inherit (proc s source)) s in
  s ← copy_page (fun q => data_page (memory q)) (fun q => data_page (memory q)) child source s;
  s ← copy_page (fun q => bss_page (memory q)) (fun q => bss_page (memory q)) child source s;
  s ← copy_page (fun q => heap_page (memory q)) (fun q => heap_page (memory q)) child source s;
  let sm := memory (proc s source) in
  let s := upd child (fun q => set_memory (set_heap_break
             (u32 (m_heap_start (memory q) + u32 (heap_break sm - m_heap_start sm))) (memory q)) q) s in
  Ret (child, upd child (set_status READY) s).

(** ** Exiting, signals, sockets *)

Definition process_exit (p code : Z) (s : pstate S) : pstate S :=
  if (p =? NULLP) || (p =? kernel_process s) then s else
  if status_is (status (proc s p)) ZOMBIE then s else
  let s := upd p (fun q => set_status ZOMBIE (set_exit_code code q)) s in
  let par := parent (proc s p) in
  if negb (par =? NULLP) && status_is (status (proc s par)) WAITING &&
     ((wait_target_pid (proc s par) =? 0) || (wait_target_pid (proc s par) =? pid (proc s p)))
  then upd par (set_status READY) s else s.

Definition process_default_signal_handler (p sig value : Z) (s : pstate S) : pstate S :=
  let s := upd p (set_last_signal (u32 sig) value) s in
  if (sig =? PROCESS_SIGNAL_TERM) || (sig =? PROCESS_SIGNAL_KILL)
  then process_exit p (128 + sig) s else s.

Definition call_handler (p sig value : Z) (s : pstate S) : pstate S :=
  match signal_handler (proc s p) with
  | UserHandler id => user_handler id p sig value s
  | _ => process_default_signal_handler p sig value s
  end.

Fixpoint process_get_by_pid_loop (fuel : nat) (id cursor : Z) (s : pstate S) : outcome Z :=
  match fuel with
  | O => OutOfFuel
  | Datatypes.S fuel =>
      if cursor =? NULLP then Ret NULLP
      else if used (proc s cursor) && (pid (proc s cursor) =? id) then Ret cursor
      else process_get_by_pid_loop fuel id (next (proc s cursor)) s
  end.

Definition process_get_by_pid (id : Z) (s : pstate S) : outcome Z :=
  process_get_by_pid_loop walk_fuel id (process_head s) s.

Fixpoint process_count_loop (fuel : nat) (cursor count : Z) (s : pstate S) : outcome Z :=
  match fuel with
  | O => OutOfFuel
  | Datatypes.S fuel =>
      if cursor =? NULLP then Ret count
      else process_count_loop fuel (next (proc s cursor))
             (if used (proc s cursor) then u32 (count + 1) else count) s
  end.

Definition process_count (s : pstate S) : outcome Z :=
  process_count_loop walk_fuel (process_head s) 0 s.

Definition process_signal (p : Z) (handler : process_handler) (s : pstate S) : Z * pstate S :=
  if p =? NULLP then (-1, s) else
  (0, upd p (set_handler (match handler with NoHandler => DefaultHandler | h => h end)) s).

Definition queue_process_signal (p sig value : Z) (s : pstate S) : Z * pstate S :=
  if p =? NULLP then (-1, s) else
  match ring_push PROCESS_SIGNAL_QUEUE_CAPACITY (sig, value) (signals (proc s p)) with
  | None => (-1, s)
  | Some q => (0, upd p (set_signals q) s)
  end.

Fixpoint deliver_loop (fuel : nat) (p delivered : Z) (s : pstate S) : outcome (Z * pstate S) :=
  match fuel with
  | O => OutOfFuel
  | Datatypes.S fuel =>
      match ring_pop PROCESS_SIGNAL_QUEUE_CAPACITY (0, 0) (signals (proc s p)) with
      | None => Ret (delivered, s)
      | Some ((sig, value), q) =>
          let s := upd p (fun x => set_last_signal (u32 sig) value (set_signals q x)) s in
          let s := call_handler p sig value s in
          if status_is (status (proc s p)) ZOMBIE then Ret (delivered + 1, s)
          else deliver_loop fuel p (delivered + 1) s
      end
  end.

(** Enough for a full queue: the handlers do not queue signals to [p]. *)
Definition deliver_fuel : nat := 17.

Definition deliver_process_signal (p : Z) (s : pstate S) : outcome (Z * pstate S) :=
  if p =? NULLP then Ret (0, s) else deliver_loop deliver_fuel p 0 s.

Definition process_can_signal (sender target : Z) (s : pstate S) : bool :=
  if target =? NULLP then false
  else if sender =? NULLP then true
  else if (owner (proc s sender) =? 0) || (sender =? target) then true
  else owner (proc s sender) =? owner (proc s target).

Definition send_signal_to_process (sender id sig value : Z) (s : pstate S) : outcome (Z * pstate S) :=
  target ← process_get_by_pid id s;
  if negb (process_can_signal sender target s) then Ret (-1, s)
  else Ret (queue_process_signal target sig value s).

Definition kill_process (sender id sig : Z) (s : pstate S) : outcome (Z * pstate S) :=
  send_signal_to_process sender id sig 0 s.
Definition process_kill (sender id sig : Z) (s : pstate S) : outcome (Z * pstate S) :=
  kill_process sender id sig s.

Definition socket_send (sender id value : Z) (s : pstate S) : outcome (Z * pstate S) :=
  target ← process_get_by_pid id s;
  if target =? NULLP then Ret (-1, s) else
  match ring_push PROCESS_SOCKET_CAPACITY value (socket (proc s target)) with
  | None => Ret (-1, s)
  | Some q =>
      let s := upd target (set_socket q) s in
      Ret (queue_process_signal target PROCESS_SIGNAL_SOCKET value s)
  end.

(** The value received is returned with the result. *)
Definition socket_recv (p : Z) (s : pstate S) : Z * Z * pstate S :=
  if p =? NULLP then (-1, 0, s) else
  match ring_pop PROCESS_SOCKET_CAPACITY 0 (socket (proc s p)) with
  | None => (-1, 0, s)
  | Some (v, q) => (0, v, upd p (fun x => set_last_socket v (set_socket q x)) s)
  end.

Definition process_signal_pending_count (p : Z) (s : pstate S) : Z :=
  if p =? NULLP then 0 else ring_count PROCESS_SIGNAL_QUEUE_CAPACITY (signals (proc s p)).
Definition process_socket_pending_count (p : Z) (s : pstate S) : Z :=
  if p =? NULLP then 0 else ring_count PROCESS_SOCKET_CAPACITY (socket (proc s p)).

(** Returns the result and the exit code stored when it is 1. *)
Definition process_wait (par id : Z) (s : pstate S) : outcome (Z * Z * pstate S) :=
  child ← process_get_by_pid id s;
  if (child =? NULLP) ||
     (negb (par =? kernel_process s) && negb (parent (proc s child) =? par))
  then Ret (-1, 0, s) else
  if negb (status_is (status (proc s child)) ZOMBIE) then
    if negb (par =? NULLP) then
      let s := upd par (set_wait_target id) s in
      Ret (0, 0, if negb (par =? kernel_process s) then upd par (set_status WAITING) s else s)
    else Ret (0, 0, s)
  else
    let code := exit_code (proc s child) in
    let s := if negb (par =? NULLP) && status_is (status (proc s par)) WAITING
             then upd par (set_status THREAD) s else s in
    s ← process_release child s;
    Ret (1, code, s).

Definition wait_process (par id : Z) (s : pstate S) : outcome (Z * Z * pstate S) :=
  process_wait par id s.

Definition process_getuid (p : Z) (s : pstate S) : Z :=
  if p =? NULLP then 0 else owner (proc s p).

(** ** Running a process up to its next [process_yield] *)

(** The part of [process_yield] before the switch back to the scheduler;
    [resume] is what the switch saves. *)
Definition process_yield (resume : process_context) (s : pstate S) : pstate S :=
  let p := current_process s in
  if (p =? NULLP) || (p =? kernel_process s) then s else
  let s := if status_is (status (proc s p)) RUN then upd p (set_status READY) s else s in
  let s := count_context_switch s in
  upd p (fun q => set_context resume (count_switch q)) s.

(** The end of [process_bootstrap], after [process->entry] returned. *)
Definition bootstrap_tail (p : Z) (s : pstate S) : pstate S :=
  process_yield CtxDone (process_exit p (i32 (runtime_value (proc s p))) s).

(** [demo_counter_process], from the head of its loop. *)
Definition demo_counter_process (p counter iterations limit : Z) (s : pstate S) : outcome (pstate S) :=
  if counter <? limit then
    let counter := u32 (counter + 1) in
    let iterations := u32 (iterations + 1) in
    s ← on_mach (vstore32 (data_start (memory (proc s p))) counter) s;
    s ← on_mach (vstore32 (bss_start (memory (proc s p))) iterations) s;
    let s := upd p (fun q => set_runtime_state iterations (set_runtime_value counter q)) s in
    Ret (process_yield (CtxCounter counter iterations limit) s)
  else Ret (bootstrap_tail p (process_exit p (i32 counter) s)).

Definition demo_socket_receiver_process (p : Z) (s : pstate S) : outcome (pstate S) :=
  let '(r, value, s) := socket_recv p s in
  if negb (r =? 0) then Ret (process_yield CtxReceiver s) else
  s ← on_mach (vstore32 (data_start (memory (proc s p))) value) s;
  let s := upd p (set_last_socket value) s in
  Ret (bootstrap_tail p (process_exit p (Z.land value 65535) s)).

Definition demo_socket_sender_process (p : Z) (s : pstate S) : outcome (pstate S) :=
  '(r, s) ← socket_send p (runtime_arg0 (proc s p)) (runtime_arg1 (proc s p)) s;
  if negb (r =? 0) then Ret (process_yield CtxSender s) else
  let s := upd p (set_runtime_state 1) s in
  Ret (bootstrap_tail p (process_exit p 0 s)).

(** [process_bootstrap]: the guards read the globals. *)
Definition process_bootstrap (s : pstate S) : outcome (pstate S) :=
  let p := current_process s in
  if (p =? NULLP) || (p =? kernel_process s) then Panicked "process_bootstrap: no process" else
  match entry (proc s p) with
  | NoEntry => Panicked "process_bootstrap: no process"
  | DemoCounter =>
      demo_counter_process p (runtime_arg0 (proc s p)) 0 (runtime_arg1 (proc s p)) s
  | DemoReceiver => demo_socket_receiver_process p s
  | DemoSender => demo_socket_sender_process p s
  | UserEntry id => user_run id p s
  end.

(** The switch into the saved context of [p] and back.  A zeroed context (jump
    to address 0) belongs to no process that has an entry; after the end of
    [process_bootstrap] the process spins for ever. *)
Definition process_context_switch (p : Z) (s : pstate S) : outcome (pstate S) :=
  match context (proc s p) with
  | CtxBootstrap => process_bootstrap s
  | CtxCounter counter iterations limit => demo_counter_process p counter iterations limit s
  | CtxReceiver => demo_socket_receiver_process p s
  | CtxSender => demo_socket_sender_process p s
  | CtxUser id => user_run id p s
  | CtxZero => Panicked "process_context_switch: context never initialised"
  | CtxDone => OutOfFuel
  end.

(** ** Scheduler *)

Definition process_switch_to_kernel_space (s : pstate S) : pstate S :=
  let k := kernel_process s in
  if negb (k =? NULLP) && negb (process_page_directory (memory (proc s k)) =? 0)
  then set_mach (paging_switch_directory (process_page_directory (memory (proc s k))) (mach s)) s
  else s.

Definition scheduler_init (s : pstate S) : pstate S :=
  set_cursor (kernel_process s) (set_total_ticks 0 (set_pending 0
    ltac:(set_state s (scheduler_enabled s) true))).

Definition scheduler_tick (s : pstate S) : pstate S :=
  let s := set_total_ticks (u32 (total_scheduler_ticks s + 1)) s in
  set_pending (u32 (pending_scheduler_ticks s + 1)) s.

Definition runnable (q : process) : bool :=
  used q && negb (bool_decide (entry q = NoEntry)) &&
  (status_is (status q) READY || status_is (status q) THREAD || status_is (status q) RUN).

Definition next_candidate (s : pstate S) (p : Z) : Z :=
  if negb (next (proc s p) =? NULLP) then next (proc s p) else process_head s.

Fixpoint pick_loop (fuel : nat) (start candidate : Z) (s : pstate S) : outcome Z :=
  match fuel with
  | O => OutOfFuel
  | Datatypes.S fuel =>
      let candidate := next_candidate s candidate in
      if runnable (proc s candidate) then Ret candidate
      else if negb (candidate =? start) then pick_loop fuel start candidate s
      else Ret NULLP
  end.

Definition pick_next_process (s : pstate S) : outcome Z :=
  if negb (scheduler_enabled s) || (process_head s =? NULLP) then Ret NULLP else
  let start := if negb (scheduler_cursor s =? NULLP) then scheduler_cursor s else process_head s in
  pick_loop walk_fuel start start s.

Definition schedule_next_process (s : pstate S) : outcome (Z * pstate S) :=
  p ← pick_next_process s;
  if p =? NULLP then Ret (NULLP, s) else
  let s := set_current p (set_cursor p s) in
  '(_, s) ← deliver_process_signal p s;
  s ← (if negb (status_is (status (proc s p)) ZOMBIE) && negb (status_is (status (proc s p)) WAITING)
       then
         let s := upd p (fun q => count_run (set_status RUN q)) s in
         let s := count_context_switch s in
         let s := upd p count_switch s in
         let s := set_mach (paging_switch_directory
                    (process_page_directory (memory (proc s p))) (mach s)) s in
         s ← process_context_switch p s;
         let s := process_switch_to_kernel_space s in
         Ret (if status_is (status (proc s p)) RUN then upd p (set_status READY) s else s)
       else Ret s);
  Ret (p, set_current (kernel_process s) s).

Fixpoint deliver_all_loop (fuel : nat) (p : Z) (s : pstate S) : outcome (pstate S) :=
  match fuel with
  | O => OutOfFuel
  | Datatypes.S fuel =>
      if p =? NULLP then Ret s else
      s ← (if used (proc s p) && negb (rb_head (signals (proc s p)) =? rb_tail (signals (proc s p)))
           then '(_, s) ← deliver_process_signal p s; Ret s else Ret s);
      deliver_all_loop fuel (next (proc s p)) s
  end.

Definition process_deliver_all_pending_signals (s : pstate S) : outcome (pstate S) :=
  deliver_all_loop walk_fuel (process_head s) s.

(** One iteration takes a pending tick, so [max_ticks] bounds the loop. *)
Fixpoint run_pending_loop (fuel : nat) (executed : Z) (s : pstate S) : outcome (Z * pstate S) :=
  match fuel with
  | O => Ret (executed, s)
  | Datatypes.S fuel =>
      if 0 <? pending_scheduler_ticks s then
        let s := set_pending (pending_scheduler_ticks s - 1) s in
        s ← process_deliver_all_pending_signals s;
        '(_, s) ← schedule_next_process s;
        run_pending_loop fuel (executed + 1) s
      else Ret (executed, s)
  end.

Definition scheduler_run_pending (max_ticks : Z) (s : pstate S) : outcome (Z * pstate S) :=
  run_pending_loop (Z.to_nat max_ticks) 0 s.

Definition scheduler_force_ticks (count : Z) (s : pstate S) : outcome (pstate S) :=
  for_rangeM 0 count (fun _ s => '(_, s) ← scheduler_run_pending 1 (scheduler_tick s); Ret s) s.

(** ** Initialisation and the demos *)

Definition root_process (id dir : Z) : process :=
  Process id THREAD 0 PROCESS_RIGHT_ALL NULLP NULLP NULLP NULLP
    (set_directory dir process_reset_memory) zero_signals zero_socket NoEntry NoHandler CtxZero
    0 0 0 0 0 0 0 0 0 0 0 0 true.

Definition process_init (s : pstate S) : outcome (pstate S) :=
  s ← on_mach (process_memset page_directories 0 (4096 * PROCESS_MAX_COUNT)) s;
  let table := root_process (next_pid s) (paging_get_directory (mach s))
    :: replicate 15 (set_memory process_reset_memory zero_process) in
  Ret (PState table 0 0 0 0 (u32 (next_pid s + 1)) 0 0 0 true (mach s)).

Definition process_spawn_demo_counter (own seed limit : Z) (s : pstate S) : outcome (Z * pstate S) :=
  '(p, s) ← process_create_owned own DemoCounter PAGE_SIZE s;
  if p =? NULLP then Ret (NULLP, s) else
  Ret (p, upd p (fun q => set_runtime_arg1 limit (set_runtime_arg0 seed q)) s).

(** Returns 0 with the two pids, or -1. *)
Definition process_spawn_demo_socket_pair (own value : Z) (s : pstate S)
    : outcome (Z * Z * Z * pstate S) :=
  '(receiver, s) ← process_create_owned own DemoReceiver PAGE_SIZE s;
  if receiver =? NULLP then Ret (-1, 0, 0, s) else
  '(sender, s) ← process_create_owned own DemoSender PAGE_SIZE s;
  if sender =? NULLP then
    s ← process_release receiver s; Ret (-1, 0, 0, s)
  else
    let s := upd sender (fun q => set_runtime_arg1 value
               (set_runtime_arg0 (pid (proc s receiver)) q)) s in
    Ret (0, pid (proc s sender), pid (proc s receiver), s).
End process.
