(* ===== verification/ProcessSpace.v ===== *)
(** * The address space of a process

    What [process_memory_map] builds and [process_release_memory] takes down:
    a directory that shares the kernel's tables, one private page table, and
    four private frames mapped for user mode.  The steps change the tables of
    one directory at one index only ([other_same]), which is why no process
    sees the pages of another. *)

From S2P Require Import Prelude Interfaces Memory Pmm Ring Chain Paging Process.

Section confined.
Context {S : Type} `{FA : FrameAllocator S}.
Implicit Types (s : machine S) (m : mem).

(** [m'] is [m] but for entry [i] of [d] and the table behind it. *)
Definition other_same (ds : list Z) m m' (d i : Z) : Prop :=
  forall d' k, d' ∈ ds -> 0 <= k < 1024 -> d' <> d \/ k <> i ->
    ent m' d' k = ent m d' k /\
    (present_at m d' k = true -> forall x, 0 <= x < 1024 ->
       ent m' (table_at m d' k) x = ent m (table_at m d' k) x).

Lemma other_same_refl ds m d i : other_same ds m m d i.
Proof. by intros d' k _ _ _. Qed.

Lemma other_same_at ds m m' d i d' k : other_same ds m m' d i ->
  d' ∈ ds -> 0 <= k < 1024 -> d' <> d \/ k <> i ->
  present_at m' d' k = present_at m d' k /\ table_at m' d' k = table_at m d' k.
Proof. intros H Hd Hk Hne. unfold present_at, table_at. by destruct (H d' k Hd Hk Hne) as [-> _]. Qed.

Lemma other_same_trans ds m1 m2 m3 d i :
  other_same ds m1 m2 d i -> other_same ds m2 m3 d i -> other_same ds m1 m3 d i.
Proof.
  intros H12 H23 d' k Hd Hk Hne. destruct (H12 d' k Hd Hk Hne) as [E1 T1].
  destruct (H23 d' k Hd Hk Hne) as [E2 T2].
  destruct (other_same_at _ _ _ _ _ _ _ H12 Hd Hk Hne) as [Ep Et].
  split; [congruence|]. intros Hp x Hx. rewrite Ep, Et in T2. rewrite (T2 Hp x Hx). by apply T1.
Qed.

(** Every other address of every directory translates as before. *)
Lemma other_same_walk ds m m' d i d' v : other_same ds m m' d i ->
  d' ∈ ds -> is_u32 v -> d' <> d \/ PAGE_DIR_INDEX v <> i -> walk m' d' v = walk m d' v.
Proof.
  intros H Hd Hv Hne. destruct (index_ranges v Hv) as [Hi Hj].
  destruct (H d' _ Hd Hi Hne) as [E T]. apply walk_ext; [exact E|].
  intros Hp. rewrite !pte_ent, E. exact (T Hp _ Hj).
Qed.

Lemma other_same_sub ds ds' m m' d i :
  (forall x, x ∈ ds' -> x ∈ ds) -> other_same ds m m' d i -> other_same ds' m m' d i.
Proof. intros Hsub H d' k Hd. apply H. auto. Qed.

(** The table behind entry [i] of [d] serves nothing else. *)
Definition private_table (ds : list Z) m (d i t : Z) : Prop :=
  forall d' k, d' ∈ ds -> 0 <= k < 1024 -> d' <> d \/ k <> i -> present_at m d' k = true ->
    table_at m d' k <> t.

Lemma private_same ds m m' d i t : other_same ds m m' d i ->
  private_table ds m d i t -> private_table ds m' d i t.
Proof.
  intros H Hp d' k Hd Hk Hne. destruct (other_same_at _ _ _ _ _ _ _ H Hd Hk Hne) as [-> ->]. by apply Hp.
Qed.

(** Changing the tables of a directory that is not live, above the window,
    keeps the paging invariant. *)
Lemma space_wf_confined ds s m' a' d i :
  space_wf ds s -> d ∈ ds -> d <> cr3 s -> 4 <= i < 1024 -> other_same ds (pmem s) m' d i ->
  fa_ok a' -> (forall d', d' ∈ ds -> fa_used a' (d' / 4096) = true) ->
  (forall d' k, d' ∈ ds -> 0 <= k < 1024 -> d' <> d \/ k <> i -> present_at (pmem s) d' k = true ->
     fa_used a' (table_at (pmem s) d' k / 4096) = true) ->
  (present_at m' d i = true -> 0 < table_at m' d i < LOW_MEMORY /\
     fa_used a' (table_at m' d i / 4096) = true /\ (forall d', d' ∈ ds -> table_at m' d i <> d') /\
     private_table ds (pmem s) d i (table_at m' d i)) ->
  space_wf ds (with_pmem m' (with_frames a' s)).
Proof.
  intros H Hd Hcr Hi Hsame Hok Hud Hut Hnew.
  assert (forall d' k, d' ∈ ds -> 0 <= k < 1024 -> present_at m' d' k = true ->
    (d' = d /\ k = i) \/ ((d' <> d \/ k <> i) /\ present_at (pmem s) d' k = true /\
      table_at m' d' k = table_at (pmem s) d' k)) as Hcases.
  { intros d' k Hd' Hk Hp. destruct (decide (d' = d /\ k = i)) as [?|Hne]; [by left|right].
    assert (d' <> d \/ k <> i) as Hne' by (destruct (decide (d' = d)); [right; tauto|by left]).
    destruct (other_same_at _ _ _ _ _ _ _ Hsame Hd' Hk Hne') as [E1 E2]. by rewrite <- E1. }
  split; cbn [frames pg current_directory cr3 pmem tlb with_pmem with_frames]; try apply H; [done|..].
  - intros d' Hd'. destruct (sw_dirs _ _ H d' Hd') as (? & ? & _). auto.
  - intros d' k Hd' Hk Hp. destruct (Hcases d' k Hd' Hk Hp) as [[-> ->]|(Hne & Hp' & ->)].
    + destruct (Hnew Hp) as (? & ? & ? & _). done.
    + destruct (sw_tables _ _ H d' k Hd' Hk Hp') as (? & _ & ?). auto.
  - intros d1 d2 k1 k2 Hd1 Hd2 Hk1 Hk2 Hp1 Hp2 Heq.
    destruct (Hcases d1 k1 Hd1 Hk1 Hp1) as [[-> ->]|(Hne1 & Hp1' & E1)];
      destruct (Hcases d2 k2 Hd2 Hk2 Hp2) as [[-> ->]|(Hne2 & Hp2' & E2)]; [done|..].
    + destruct (Hnew Hp1) as (_ & _ & _ & Hpr). exfalso. apply (Hpr d2 k2); congruence.
    + destruct (Hnew Hp2) as (_ & _ & _ & Hpr). exfalso. apply (Hpr d1 k1); congruence.
    + rewrite E1, E2 in Heq. by apply (sw_inj _ _ H d1 d2).
  - intros d' Hd' a Ha. destruct (low_index a Ha) as [Hia Hua].
    rewrite (other_same_walk ds (pmem s) m' d i d' a Hsame Hd' Hua) by (right; lia).
    by apply (sw_ident _ _ H).
  - intros p f Hp. destruct (sw_tlb _ _ H p f Hp) as [Hr Hw]. split; [done|].
    cbn [pmem cr3 with_pmem with_frames]. rewrite <- Hw.
    eapply other_same_walk; [exact Hsame|apply H|unfold is_u32; lia|left; by apply not_eq_sym].
Qed.

(** Fewer address spaces. *)
Lemma space_wf_sub ds ds' s : (forall d, d ∈ ds' -> d ∈ ds) -> cr3 s ∈ ds' ->
  space_wf ds s -> space_wf ds' s.
Proof.
  intros Hsub Hcr H. split; try apply H; try done.
  - intros d Hd. apply (sw_dirs _ _ H); auto.
  - intros d i Hd Hi Hp. destruct (sw_tables _ _ H d i (Hsub d Hd) Hi Hp) as (? & ? & ?). auto.
  - intros d1 d2 i j Hd1 Hd2. apply (sw_inj _ _ H); auto.
  - intros d Hd. apply (sw_ident _ _ H); auto.
Qed.
End confined.

(** ** One page mapped in, or taken out of, a private table *)

Section steps.
Context {S : Type} `{FA : FrameAllocator S}.
Implicit Types (s : machine S) (m : mem).

Lemma flush_not_live s d v : d <> current_directory s -> flush_if_current d v s = s.
Proof. intros Hd. unfold flush_if_current. by rewrite eqb_sym_neg. Qed.

(** What mapping [v] in the directory [d] did to the tables. *)
Record mapped (ds : list Z) s (d v phys flags : Z) (m' : mem) (a' : S) : Prop := {
  mp_same : other_same ds (pmem s) m' d (PAGE_DIR_INDEX v);
  mp_present : present_at m' d (PAGE_DIR_INDEX v) = true;
  mp_private : private_table ds m' d (PAGE_DIR_INDEX v) (table_at m' d (PAGE_DIR_INDEX v));
  mp_table : if present_at (pmem s) d (PAGE_DIR_INDEX v)
    then table_at m' d (PAGE_DIR_INDEX v) = table_at (pmem s) d (PAGE_DIR_INDEX v) /\ a' = frames s
    else fa_alloc (frames s) = (table_at m' d (PAGE_DIR_INDEX v), a');
  mp_entry : ent m' (table_at m' d (PAGE_DIR_INDEX v)) (PAGE_TABLE_INDEX v) = page_entry phys flags;
  mp_entries x : 0 <= x < 1024 -> x <> PAGE_TABLE_INDEX v ->
    ent m' (table_at m' d (PAGE_DIR_INDEX v)) x =
      if present_at (pmem s) d (PAGE_DIR_INDEX v)
      then ent (pmem s) (table_at (pmem s) d (PAGE_DIR_INDEX v)) x else 0;
  mp_else q k : q mod 4096 = 0 -> 0 <= k < 1024 -> q <> table_at m' d (PAGE_DIR_INDEX v) -> q <> d ->
    q <> phys -> ent m' q k = ent (pmem s) q k;
  mp_user : has (ent m' d (PAGE_DIR_INDEX v)) PAGE_USER =
    has flags PAGE_USER ||
      present_at (pmem s) d (PAGE_DIR_INDEX v) && has (ent (pmem s) d (PAGE_DIR_INDEX v)) PAGE_USER;
}.

Lemma map_step ds s d v phys flags :
  space_wf ds s -> d ∈ ds -> d <> cr3 s -> is_u32 v -> LOW_MEMORY <= v -> is_u32 phys ->
  (present_at (pmem s) d (PAGE_DIR_INDEX v) = true ->
     private_table ds (pmem s) d (PAGE_DIR_INDEX v) (table_at (pmem s) d (PAGE_DIR_INDEX v))) ->
  table_available s d v ->
  exists m' a', paging_map_page_in_directory d v phys flags s = Ret (with_pmem m' (with_frames a' s)) /\
    space_wf ds (with_pmem m' (with_frames a' s)) /\ mapped ds s d v phys flags m' a'.
Proof.
  intros H Hd Hcr Hv Hhigh Hphys Hpriv Hav.
  destruct (map_page_steps ds s d v phys flags H Hd Hv Hhigh Hav) as (t & a & m1 & E & Hcre & Htab).
  destruct (page_entry_spec phys flags Hphys) as (Hvu & _ & _).
  destruct (map_table ds s H d v flags t a m1 Hd Hv Hhigh Hcre Htab)
    as (Htr & Hta & Hnd & Hok & Htu & Hmono & Hinj).
  destruct (indices v Hv Hhigh) as (Hi & Hj & Hi4).
  rewrite flush_not_live in E by (cbn; by rewrite (sw_cur _ _ H)).
  set (i := PAGE_DIR_INDEX v) in *. set (j := PAGE_TABLE_INDEX v) in *.
  set (m2 := store32 m1 (t + 4 * j) (page_entry phys flags)) in *.
  assert (ent m2 d i = ent m1 d i) as Edi by (by eapply (map_dir_new ds s H d v flags)).
  assert (table_at m2 d i = t) as Ett by (unfold table_at; rewrite Edi; apply (cr_table _ _ _ _ _ _ Hcre)).
  assert (present_at m2 d i = true) as Epp by (unfold present_at; rewrite Edi; apply (cr_present _ _ _ _ _ _ Hcre)).
  assert (private_table ds (pmem s) d i t) as Hpt.
  { intros d' k Hd' Hk Hne Hp Heq. destruct (Hinj d' k Hd' Hk Hp Heq) as [-> Hpi].
    destruct Htab as [(_ & -> & _)|(? & _)]; [|congruence].
    by apply (Hpriv Hpi d' i). }
  assert (other_same ds (pmem s) m2 d i) as Hsame.
  { intros d' k Hd' Hk Hne. split; [by apply (map_dir_ent ds s H d v flags _ t a m1 Hd Hv Hhigh Hcre Htab)|].
    intros Hp x Hx. apply (map_table_ent ds s H d v flags _ t a m1 Hd Hv Hhigh Hcre Htab); try done.
    left. by apply Hpt. }
  exists m2, a. split; [exact E|]. split.
  { apply (space_wf_confined ds s m2 a d i); try done; try lia.
    - intros d' Hd'. destruct (sw_dirs _ _ H d' Hd') as (? & ? & ?). apply Hmono; [apply Z.div_pos; lia|done].
    - intros d' k Hd' Hk _ Hp. destruct (sw_tables _ _ H d' k Hd' Hk Hp) as (? & ? & _).
      apply Hmono; [apply Z.div_pos; lia|done].
    - rewrite Ett. done. }
  assert (forall x, 0 <= x < 1024 -> ent m2 t x = if x =? j then u32 (page_entry phys flags) else ent m1 t x) as Et.
  { intros x Hx. unfold m2. rewrite ent_store, Z.eqb_refl by done. done. }
  split; fold i j; rewrite ?Ett.
  - exact Hsame.
  - exact Epp.
  - by apply (private_same ds (pmem s)).
  - destruct Htab as [(-> & -> & ->)|(-> & ? & _)]; done.
  - rewrite Et, Z.eqb_refl by done. by apply u32_id.
  - intros x Hx Hxj. rewrite Et, eqb_sym_neg by done. rewrite (cr_entries _ _ _ _ _ _ Hcre) by done.
    destruct Htab as [(-> & -> & _)|(-> & _)]; done.
  - intros q k Hq Hk Hqt Hqd _. unfold m2. rewrite ent_store, (eqb_sym_neg q t) by done.
    apply (cr_else _ _ _ _ _ _ Hcre); auto.
  - rewrite Edi. apply (cr_user _ _ _ _ _ _ Hcre).
Qed.

(** Taking a page out of the table. *)
Lemma unmap_step ds s d v :
  space_wf ds s -> d ∈ ds -> d <> cr3 s -> is_u32 v -> LOW_MEMORY <= v ->
  present_at (pmem s) d (PAGE_DIR_INDEX v) = true ->
  private_table ds (pmem s) d (PAGE_DIR_INDEX v) (table_at (pmem s) d (PAGE_DIR_INDEX v)) ->
  exists m', paging_unmap_page_in_directory d v s = Ret (with_pmem m' s) /\
    space_wf ds (with_pmem m' s) /\ other_same ds (pmem s) m' d (PAGE_DIR_INDEX v) /\
    ent m' d (PAGE_DIR_INDEX v) = ent (pmem s) d (PAGE_DIR_INDEX v) /\
    (forall q k, q mod 4096 = 0 -> 0 <= k < 1024 -> q <> table_at (pmem s) d (PAGE_DIR_INDEX v) ->
       ent m' q k = ent (pmem s) q k).
Proof.
  intros H Hd Hcr Hv Hhigh Hp Hpriv. destruct (sw_dirs _ _ H d Hd) as (Hda & Hd0 & _).
  pose proof (index_ranges v Hv) as [Hi Hj]. pose proof (high_index v Hv Hhigh) as Hi4.
  pose proof (wf_windowed _ _ H) as Hw. pose proof (page_room d Hda ltac:(lia)).
  destruct (sw_tables _ _ H d _ Hd Hi Hp) as (Ht & Htu & Hnd).
  destruct (table_at_range (pmem s) d (PAGE_DIR_INDEX v)) as [Hta _].
  pose proof (page_room _ Hta ltac:(lia)).
  set (i := PAGE_DIR_INDEX v) in *. set (j := PAGE_TABLE_INDEX v) in *. set (t := table_at (pmem s) d i) in *.
  set (m' := store32 (pmem s) (t + 4 * j) 0). exists m'.
  assert (forall q k, q mod 4096 = 0 -> 0 <= k < 1024 -> q <> t -> ent m' q k = ent (pmem s) q k) as Hother.
  { intros q k Hq Hk Hqt. unfold m'. by rewrite ent_store, (eqb_sym_neg q t). }
  assert (ent m' d i = ent (pmem s) d i) as Edi by (apply Hother; auto using not_eq_sym).
  assert (other_same ds (pmem s) m' d i) as Hsame.
  { intros d' k Hd' Hk Hne. destruct (sw_dirs _ _ H d' Hd') as (Hda' & _).
    split; [apply Hother; auto using not_eq_sym|]. intros Hp' x Hx.
    apply Hother; [apply table_at_range|done|]. by apply Hpriv. }
  split; [|split; [|split; [exact Hsame|split; [exact Edi|exact Hother]]]].
  - unfold paging_unmap_page_in_directory. rewrite eqb_sym_neg, vload32_low by low_side.
    cbn [mbind outcome_bind]. fold i. unfold present_at in Hp. rewrite Hp. cbn [negb].
    change (PAGE_FRAME (ent (pmem s) d i)) with t. fold j.
    rewrite vstore32_low by low_side. cbn [mbind outcome_bind].
    rewrite flush_not_live by (cbn; by rewrite (sw_cur _ _ H)). done.
  - assert (with_pmem m' s = with_pmem m' (with_frames (frames s) s)) as -> by by destruct s.
    apply (space_wf_confined ds s m' (frames s) d i); try done; [apply H|..].
    + intros d' Hd'. by apply (sw_dirs _ _ H).
    + intros d' k Hd' Hk _ Hp'. by apply (sw_tables _ _ H).
    + unfold table_at. rewrite Edi. done.
Qed.

(** Writing pages that hold no directory and no table. *)
Definition untouched (ds : list Z) m m' : Prop :=
  forall d k, d ∈ ds -> 0 <= k < 1024 -> ent m' d k = ent m d k /\
    (present_at m d k = true -> forall x, 0 <= x < 1024 ->
       ent m' (table_at m d k) x = ent m (table_at m d k) x).

Lemma untouched_at ds m m' d k : untouched ds m m' -> d ∈ ds -> 0 <= k < 1024 ->
  present_at m' d k = present_at m d k /\ table_at m' d k = table_at m d k.
Proof. intros H Hd Hk. unfold present_at, table_at. by destruct (H d k Hd Hk) as [-> _]. Qed.

Lemma untouched_other ds m m' d i : untouched ds m m' -> other_same ds m m' d i.
Proof. intros H d' k Hd Hk _. by apply H. Qed.

Lemma untouched_walk ds m m' d v : untouched ds m m' -> d ∈ ds -> is_u32 v -> walk m' d v = walk m d v.
Proof.
  intros H Hd Hv. destruct (index_ranges v Hv) as [Hi Hj]. destruct (H d _ Hd Hi) as [E T].
  apply walk_ext; [exact E|]. intros Hp. rewrite !pte_ent, E. exact (T Hp _ Hj).
Qed.

Lemma space_wf_untouched ds s m' a' :
  space_wf ds s -> untouched ds (pmem s) m' -> fa_ok a' ->
  (forall f, 0 <= f -> fa_used (frames s) f = true -> fa_used a' f = true) ->
  space_wf ds (with_pmem m' (with_frames a' s)).
Proof.
  intros H Hun Hok Hmono.
  split; cbn [frames pg current_directory cr3 pmem tlb with_pmem with_frames]; try apply H; [done|..].
  - intros d Hd. destruct (sw_dirs _ _ H d Hd) as (? & ? & ?). split; [done|]. split; [done|].
    apply Hmono; [apply Z.div_pos; lia|done].
  - intros d i Hd Hi. destruct (untouched_at _ _ _ _ _ Hun Hd Hi) as [-> ->]. intros Hp.
    destruct (sw_tables _ _ H d i Hd Hi Hp) as (? & ? & ?). split; [done|]. split; [|done].
    apply Hmono; [apply Z.div_pos; lia|done].
  - intros d1 d2 i j Hd1 Hd2 Hi Hj. destruct (untouched_at _ _ _ _ _ Hun Hd1 Hi) as [-> ->].
    destruct (untouched_at _ _ _ _ _ Hun Hd2 Hj) as [-> ->]. by apply (sw_inj _ _ H).
  - intros d Hd a Ha. destruct (low_index a Ha) as [_ Hu].
    rewrite (untouched_walk ds (pmem s) m' d a Hun Hd Hu). by apply (sw_ident _ _ H).
  - intros p f Hp. destruct (sw_tlb _ _ H p f Hp) as [Hr Hw]. split; [done|].
    cbn [pmem cr3 with_pmem with_frames]. rewrite <- Hw.
    apply (untouched_walk ds); [done|apply H|unfold is_u32; lia].
Qed.

(** A page in the window that is no directory and no table. *)
Definition plain_page (ds : list Z) m (p : Z) : Prop :=
  p mod 4096 = 0 /\ 0 < p < LOW_MEMORY /\ p ∉ ds /\
  forall d k, d ∈ ds -> 0 <= k < 1024 -> present_at m d k = true -> table_at m d k <> p.

(** A memory that differs on a plain page only. *)
Lemma untouched_page ds m m' p : plain_page ds m p ->
  (forall d, d ∈ ds -> d mod 4096 = 0) ->
  (forall q k, q mod 4096 = 0 -> 0 <= k < 1024 -> q <> p -> ent m' q k = ent m q k) -> untouched ds m m'.
Proof.
  intros (_ & _ & Hpd & Hpt) Hds Hm d k Hd Hk. split; [apply Hm; [by apply Hds|done|by intros ->]|].
  intros Hp x Hx. apply Hm; [apply table_at_range|done|by apply Hpt].
Qed.

(** An unused frame of the window is a plain page. *)
Lemma fresh_plain ds s p : space_wf ds s -> p mod 4096 = 0 -> 0 < p < LOW_MEMORY ->
  fa_used (frames s) (p / 4096) = false -> plain_page ds (pmem s) p.
Proof.
  intros H Hpa Hpr Hf. split; [done|]. split; [done|]. split.
  - intros Hin. destruct (sw_dirs _ _ H p Hin) as (_ & _ & ?). congruence.
  - intros d k Hd Hk Hp <-. destruct (sw_tables _ _ H d k Hd Hk Hp) as (_ & ? & _). congruence.
Qed.

Lemma for_rangeM_ext {A} (f g : Z -> A -> outcome A) lo hi x :
  (forall i y, lo <= i < hi -> f i y = g i y) -> for_rangeM lo hi f x = for_rangeM lo hi g x.
Proof.
  intros Hfg. unfold for_rangeM.
  assert (forall l acc, (forall i, i ∈ l -> lo <= i < hi) ->
    foldl (fun acc i => y ← acc; f i y) acc l = foldl (fun acc i => y ← acc; g i y) acc l) as Hl.
  { induction l as [|i l IH]; intros acc Hin; [done|]. cbn [foldl].
    assert ((y ← acc; f i y) = (y ← acc; g i y)) as ->.
    { destruct acc; [|done|done]. apply Hfg, Hin. by left. }
    apply IH. intros. apply Hin. by right. }
  apply Hl. intros i Hi%elem_of_seqZ. lia.
Qed.

Lemma process_memset_page ds s p : space_wf ds s -> plain_page ds (pmem s) p ->
  exists mz, process_memset p 0 PAGE_SIZE s = Ret (with_pmem mz s) /\ cleared (pmem s) mz p /\ untouched ds (pmem s) mz.
Proof.
  intros H Hp. pose proof Hp as (Hpa & Hpr & Hpd & Hpt). destruct (wf_cr3 ds s H) as [Hca _].
  pose proof (wf_windowed _ _ H) as Hw. pose proof (page_room p Hpa ltac:(lia)) as Hroom.
  destruct (memset_low_cleared s p Hw ltac:(lia) Hpa Hroom Hca) as (mz & E & Hz).
  - intros ->. apply Hpd, H.
  - intros i Hi. apply Hpt; [apply H|lia|]. apply identity_present; [apply Hw|done].
  - exists mz. split; [|split; [exact Hz|]].
    + rewrite <- E. unfold process_memset, memset_paging, PAGE_SIZE, TABLE_BYTES.
      apply for_rangeM_ext. intros i y Hi. f_equal. apply u32_id. unfold is_u32, LOW_MEMORY in *. lia.
    + apply (untouched_page ds (pmem s) mz p Hp); [intros d Hd; by apply (sw_dirs _ _ H)|apply Hz].
Qed.
End steps.

(** ** The four pages of a process *)

Section building.
Context {S : Type} `{FA : FrameAllocator S}.
Implicit Types (s : machine S) (m : mem).

(** The machine part of [alloc_process_page]. *)
Definition alloc_page (d v : Z) s : outcome (Z * machine S) :=
  let '(page, a) := fa_alloc (frames s) in
  if page =? 0 then Ret (0, with_frames a s) else
  s ← paging_map_page_in_directory d v page PAGE_USER_RW (with_frames a s);
  s ← process_memset page 0 PAGE_SIZE s;
  Ret (page, s).

(** The next frame is in the window. *)
Definition frame_available (a : S) (p : Z) (a' : S) : Prop := fa_alloc a = (p, a') /\ 0 < p < LOW_MEMORY.

Lemma frame_fresh ds s p a' : space_wf ds s -> frame_available (frames s) p a' ->
  p mod 4096 = 0 /\ fa_used (frames s) (p / 4096) = false /\ p / 4096 < fa_frames (frames s) /\
  fa_ok a' /\ fa_frames a' = fa_frames (frames s) /\
  (forall g, 0 <= g -> fa_used a' g = (g =? p / 4096) || fa_used (frames s) g).
Proof.
  intros H [Ha Hp]. destruct (fa_alloc_some _ _ _ (sw_alloc _ _ H) Ha ltac:(lia))
    as (f & -> & Hf & Hu & Hok & Hn & Hg).
  rewrite Z.mul_comm, Z.div_mul, Z.mod_mul by lia. intuition lia.
Qed.

Lemma space_wf_frames ds s a' : space_wf ds s -> fa_ok a' ->
  (forall f, 0 <= f -> fa_used (frames s) f = true -> fa_used a' f = true) ->
  space_wf ds (with_frames a' s).
Proof.
  intros H Hok Hm. change (with_frames a' s) with (with_pmem (pmem s) (with_frames a' s)).
  by apply space_wf_untouched.
Qed.

(** The space after some pages: the frames [t :: pages] were free in [s0]; the
    table [t] at [d] maps [b], [b + 4096], ... to [pages] and nothing else. *)
Record partial (ds : list Z) (s0 : machine S) (d b t : Z) (pages : list Z) (m : mem) (a : S) : Prop := {
  pt_wf : space_wf ds (with_pmem m (with_frames a s0));
  pt_same : other_same ds (pmem s0) m d (PAGE_DIR_INDEX b);
  pt_present : present_at m d (PAGE_DIR_INDEX b) = true;
  pt_table : table_at m d (PAGE_DIR_INDEX b) = t;
  pt_user : has (ent m d (PAGE_DIR_INDEX b)) PAGE_USER = true;
  pt_private : private_table ds m d (PAGE_DIR_INDEX b) t;
  pt_pages k p : pages !! k = Some p -> ent m t (PAGE_TABLE_INDEX b + Z.of_nat k) = page_entry p PAGE_USER_RW;
  pt_rest x : 0 <= x < 1024 -> (x < PAGE_TABLE_INDEX b \/ PAGE_TABLE_INDEX b + lenZ pages <= x) ->
    ent m t x = 0;
  pt_zero p k : p ∈ pages -> 0 <= k < 1024 -> ent m p k = 0;
  pt_else q k : q mod 4096 = 0 -> 0 <= k < 1024 -> q <> d -> q ∉ t :: pages -> ent m q k = ent (pmem s0) q k;
  pt_fresh p : p ∈ t :: pages -> p mod 4096 = 0 /\ 0 < p < LOW_MEMORY /\ fa_used (frames s0) (p / 4096) = false
    /\ p / 4096 < fa_frames (frames s0);
  pt_nodup : NoDup (t :: pages);
  pt_frames : fa_frames a = fa_frames (frames s0);
  pt_used g : 0 <= g -> fa_used a g = bool_decide (g * 4096 ∈ t :: pages) || fa_used (frames s0) g;
}.

(** The base of the region: page aligned, above the window, four pages within
    the reach of one page table. *)
Definition region_ok (b : Z) : Prop :=
  is_u32 b /\ b mod 4096 = 0 /\ LOW_MEMORY <= b /\ PAGE_TABLE_INDEX b <= 1020.

Lemma region_page b k : region_ok b -> 0 <= k < 4 ->
  is_u32 (b + 4096 * k) /\ LOW_MEMORY <= b + 4096 * k /\ PAGE_DIR_INDEX (b + 4096 * k) = PAGE_DIR_INDEX b /\
  PAGE_TABLE_INDEX (b + 4096 * k) = PAGE_TABLE_INDEX b + k /\ (b + 4096 * k) mod 4096 = 0.
Proof.
  intros (Hu & Ha & Hl & Hj) Hk. rewrite PAGE_TABLE_INDEX_eq in Hj.
  assert (is_u32 (b + 4096 * k)) as Hu' by (unfold is_u32, LOW_MEMORY in *; divlia).
  split; [done|]. split; [lia|].
  rewrite !PAGE_DIR_INDEX_eq, !PAGE_TABLE_INDEX_eq by done. unfold LOW_MEMORY, is_u32 in *. split; [divlia|].
  split; divlia.
Qed.

Lemma mul4096_inv p : p mod 4096 = 0 -> p / 4096 * 4096 = p.
Proof. intros. divlia. Qed.

Lemma used_cons (p t : Z) (pages : list Z) (g : Z) : p mod 4096 = 0 ->
  bool_decide (g * 4096 ∈ t :: pages ++ [p]) = (g =? p / 4096) || bool_decide (g * 4096 ∈ t :: pages).
Proof.
  intros Hp. apply bool_eq_iff. rewrite orb_true_iff, !bool_decide_eq_true, Z.eqb_eq.
  rewrite !elem_of_cons, elem_of_app, list_elem_of_singleton. split.
  - intros [?|[?|?]]; [by right; left|by right; right|left; divlia].
  - intros [->|[?|?]]; [right; right; by apply mul4096_inv|by left|by right; left].
Qed.

(** Clearing the page after mapping it keeps what the mapping did. *)
Lemma mapped_cleared ds s d v p flags m1 m2 a : d ∈ ds -> 0 <= PAGE_DIR_INDEX v < 1024 ->
  0 <= PAGE_TABLE_INDEX v < 1024 ->
  mapped ds s d v p flags m1 a -> untouched ds m1 m2 -> cleared m1 m2 p -> mapped ds s d v p flags m2 a.
Proof.
  intros Hd Hi Hj Hm Hun [Hother _].
  destruct (untouched_at _ _ _ _ _ Hun Hd Hi) as [Ep Et]. destruct (Hun d _ Hd Hi) as [Ed Ht].
  pose proof (mp_present _ _ _ _ _ _ _ _ Hm) as Hp. split; rewrite ?Et.
  - eapply other_same_trans; [apply Hm|by apply untouched_other].
  - by rewrite Ep.
  - eapply private_same; [by apply untouched_other|apply Hm].
  - apply Hm.
  - rewrite Ht by done. apply Hm.
  - intros x Hx Hne. rewrite Ht by done. by apply (mp_entries _ _ _ _ _ _ _ _ Hm).
  - intros q k Hq Hk Hqt Hqd Hqp. rewrite Hother by done. by apply (mp_else _ _ _ _ _ _ _ _ Hm).
  - rewrite Ed. apply Hm.
Qed.

(** One call of [alloc_process_page] that succeeds. *)
Lemma alloc_page_run ds s d v p a1 :
  space_wf ds s -> d ∈ ds -> d <> cr3 s -> is_u32 v -> LOW_MEMORY <= v ->
  frame_available (frames s) p a1 ->
  (present_at (pmem s) d (PAGE_DIR_INDEX v) = true ->
     private_table ds (pmem s) d (PAGE_DIR_INDEX v) (table_at (pmem s) d (PAGE_DIR_INDEX v))) ->
  table_available (with_frames a1 s) d v ->
  exists m' a', alloc_page d v s = Ret (p, with_pmem m' (with_frames a' s)) /\
    space_wf ds (with_pmem m' (with_frames a' s)) /\
    mapped ds (with_frames a1 s) d v p PAGE_USER_RW m' a' /\ p <> table_at m' d (PAGE_DIR_INDEX v) /\
    (forall k, 0 <= k < 1024 -> ent m' p k = 0).
Proof.
  intros H Hd Hcr Hv Hhigh Hp Hpriv Hav. pose proof Hp as [Ea Hpr].
  destruct (frame_fresh ds s p a1 H Hp) as (Hpa & Hpf & _ & Hok1 & Hn1 & Hu1).
  assert (space_wf ds (with_frames a1 s)) as H1.
  { apply space_wf_frames; [done|done|]. intros f Hf Hu. by rewrite Hu1, Hu, orb_true_r. }
  assert (is_u32 p) as Hpu by (unfold is_u32, LOW_MEMORY in *; lia).
  destruct (map_step ds (with_frames a1 s) d v p PAGE_USER_RW H1 Hd Hcr Hv Hhigh Hpu Hpriv Hav)
    as (m1 & a2 & E1 & H2 & Hm).
  destruct (index_ranges v Hv) as [Hi Hj].
  pose proof (fresh_plain ds s p H Hpa Hpr Hpf) as (_ & _ & Hpd & Hpt).
  assert (p <> table_at m1 d (PAGE_DIR_INDEX v)) as HpT.
  { pose proof (mp_table _ _ _ _ _ _ _ _ Hm) as HT. cbn [pmem frames with_frames] in HT.
    destruct (present_at (pmem s) d (PAGE_DIR_INDEX v)) eqn:Hpres.
    - destruct HT as [-> _]. apply not_eq_sym. by apply Hpt.
    - destruct (sw_tables _ _ H2 d _ Hd Hi (mp_present _ _ _ _ _ _ _ _ Hm)) as (HTr & _).
      destruct (fa_alloc_some _ _ _ Hok1 HT ltac:(cbn in HTr; lia)) as (f & Ef & Hf & Hfu & _).
      cbn [pmem with_pmem] in Ef. rewrite Ef. intros ->. rewrite Hu1 in Hfu by lia.
      rewrite Z.mul_comm, Z.div_mul, Z.eqb_refl in Hfu by lia. done. }
  assert (plain_page ds m1 p) as Hplain.
  { split; [done|]. split; [done|]. split; [done|]. intros d' k Hd' Hk Hp'.
    destruct (decide (d' = d /\ k = PAGE_DIR_INDEX v)) as [[-> ->]|Hne]; [by apply not_eq_sym|].
    assert (d' <> d \/ k <> PAGE_DIR_INDEX v) as Hne' by (destruct (decide (d' = d)); [right; tauto|by left]).
    destruct (other_same_at _ _ _ _ _ _ _ (mp_same _ _ _ _ _ _ _ _ Hm) Hd' Hk Hne') as [Ep Et].
    cbn [pmem with_frames] in Ep, Et. rewrite Et. apply Hpt; [done|done|]. congruence. }
  destruct (process_memset_page ds _ p H2 Hplain) as (mz & Ez & Hz & Hun).
  cbn [pmem with_pmem] in Hz, Hun.
  exists mz, a2. split.
  { unfold alloc_page. rewrite Ea, eqb_sym_neg, E1 by lia. cbn [mbind outcome_bind]. by rewrite Ez. }
  split.
  { apply (space_wf_untouched ds (with_pmem m1 (with_frames a2 (with_frames a1 s))) mz a2);
      [exact H2|exact Hun|apply H2|intros f _ Hf; exact Hf]. }
  split; [by apply (mapped_cleared ds _ d v p PAGE_USER_RW m1 mz a2)|].
  split; [|apply Hz]. by destruct (untouched_at _ _ _ _ _ Hun Hd Hi) as [_ ->].
Qed.

(** The first page, which creates the table. *)
Lemma partial_first ds s d b p a1 t a2 :
  space_wf ds s -> d ∈ ds -> d <> cr3 s -> region_ok b ->
  present_at (pmem s) d (PAGE_DIR_INDEX b) = false ->
  frame_available (frames s) p a1 -> frame_available a1 t a2 ->
  exists m, alloc_page d b s = Ret (p, with_pmem m (with_frames a2 s)) /\ partial ds s d b t [p] m a2.
Proof.
  intros H Hd Hcr Hb Habs Hp Ht.
  destruct (region_page b 0 Hb ltac:(lia)) as (Hv & Hhigh & _). rewrite Z.mul_0_r, Z.add_0_r in Hv, Hhigh.
  destruct (frame_fresh ds s p a1 H Hp) as (Hpa & Hpf & Hpn & Hok1 & Hn1 & Hu1).
  assert (space_wf ds (with_frames a1 s)) as H1.
  { apply space_wf_frames; [done|done|]. intros f Hf Hu. by rewrite Hu1, Hu, orb_true_r. }
  destruct (frame_fresh ds (with_frames a1 s) t a2 H1 Ht) as (Hta & Htf & Htn & Hok2 & Hn2 & Hu2).
  cbn [frames with_frames] in *.
  destruct (alloc_page_run ds s d b p a1 H Hd Hcr Hv Hhigh Hp) as (m & a' & E & Hwf & Hm & HpT & Hz).
  { by rewrite Habs. }
  { right. exists t, a2. destruct Ht. done. }
  pose proof (mp_table _ _ _ _ _ _ _ _ Hm) as HT. cbn [pmem frames with_frames] in HT. rewrite Habs in HT.
  destruct Ht as [Et Htr]. rewrite Et in HT. injection HT as HT <-.
  exists m. split; [done|].
  assert (t / 4096 <> p / 4096 /\ fa_used (frames s) (t / 4096) = false) as [Htp Htf'].
  { rewrite Hu1 in Htf by (apply Z.div_pos; lia). apply orb_false_iff in Htf as [?%Z.eqb_neq ?]. done. }
  destruct (index_ranges b Hv) as [Hi Hj].
  destruct Hm as [Msame Mpres Mpriv _ Ment Mrest Melse Muser].
  cbn [pmem frames with_frames] in *. rewrite <- HT in *. rewrite Habs in Mrest.
  split; try done.
  - intros k p' Hk. destruct k as [|k]; [|done]. injection Hk as <-. by rewrite Z.add_0_r.
  - intros x Hx Hr. apply Mrest; [done|]. unfold lenZ in Hr. simpl in Hr. lia.
  - intros p' k ->%list_elem_of_singleton. apply Hz.
  - intros q k Hq Hk Hqd Hqt. apply Melse; set_solver.
  - destruct Hp as [_ Hpr].
    intros p' [->|[->|[]%elem_of_nil]%elem_of_cons]%elem_of_cons; repeat split; done || lia.
  - constructor; [|apply NoDup_singleton]. intros ->%list_elem_of_singleton. congruence.
  - congruence.
  - intros g Hg. rewrite Hu2, Hu1 by done. change [t; p] with (t :: [] ++ [p]).
    rewrite (used_cons p t [] g Hpa).
    rewrite (bool_eq_iff (bool_decide (g * 4096 ∈ [t])) (g =? t / 4096)).
    2:{ rewrite bool_decide_eq_true, list_elem_of_singleton, Z.eqb_eq. split; intros; [divlia|subst; by apply mul4096_inv]. }
    destruct (g =? t / 4096), (g =? p / 4096); done.
Qed.

(** The later pages use the table of the first. *)
Lemma partial_next ds s0 d b t pages m a p a1 :
  space_wf ds s0 -> partial ds s0 d b t pages m a -> d ∈ ds -> d <> cr3 s0 -> region_ok b -> lenZ pages < 4 ->
  frame_available a p a1 ->
  exists m', alloc_page d (b + 4096 * lenZ pages) (with_pmem m (with_frames a s0)) =
      Ret (p, with_pmem m' (with_frames a1 s0)) /\ partial ds s0 d b t (pages ++ [p]) m' a1.
Proof.
  intros H0 Hpt Hd Hcr Hb Hn Hp. set (n := lenZ pages) in *. assert (0 <= n) as Hn0 by (unfold n, lenZ; lia).
  destruct (region_page b n Hb ltac:(lia)) as (Hv & Hhigh & Hvi & Hvj & _).
  assert (0 <= PAGE_TABLE_INDEX b <= 1020) as Hj0.
  { split; [|by apply Hb]. rewrite PAGE_TABLE_INDEX_eq. apply Z.mod_pos_bound. lia. }
  set (v := b + 4096 * n) in *. set (s := with_pmem m (with_frames a s0)).
  pose proof (pt_wf _ _ _ _ _ _ _ _ Hpt) as H. pose proof (pt_present _ _ _ _ _ _ _ _ Hpt) as Hpres.
  pose proof (pt_table _ _ _ _ _ _ _ _ Hpt) as Htab. pose proof (pt_private _ _ _ _ _ _ _ _ Hpt) as Hpriv.
  destruct (frame_fresh ds s p a1 H Hp) as (Hpa & Hpf & Hpn & Hok1 & Hn1 & Hu1). cbn [frames s with_pmem with_frames] in *.
  destruct (alloc_page_run ds s d v p a1 H Hd Hcr Hv Hhigh Hp) as (m' & a' & E & Hwf & Hm & HpT & Hz).
  { rewrite Hvi. cbn [pmem s with_pmem]. by rewrite Htab. }
  { left. by rewrite Hvi. }
  destruct Hm as [Msame Mpres Mpriv Mtable Ment Mrest Melse Muser].
  rewrite Hvi, ?Hvj in *. cbn [pmem frames s with_pmem with_frames] in *. rewrite Hpres, Htab in *.
  destruct Mtable as [Mtable ->]. rewrite Mtable in *.
  pose proof (pt_used _ _ _ _ _ _ _ _ Hpt) as Hused.
  assert (fa_used (frames s0) (p / 4096) = false /\ p ∉ t :: pages) as [Hpf0 Hpnew].
  { destruct Hp as [_ Hp]. rewrite Hused in Hpf by (apply Z.div_pos; lia).
    apply orb_false_iff in Hpf as [Hb1 Hb2]. split; [done|]. apply bool_decide_eq_false in Hb1.
    by rewrite mul4096_inv in Hb1. }
  destruct (pt_fresh _ _ _ _ _ _ _ _ Hpt t (list_elem_of_here _ _)) as (Hta & Htr & _).
  assert (forall q, q ∈ pages -> q mod 4096 = 0 /\ q <> t /\ q <> d /\ q <> p) as Hpages.
  { intros q Hq. destruct (pt_fresh _ _ _ _ _ _ _ _ Hpt q (list_elem_of_further _ _ _ Hq)) as (? & ? & Hqf & _).
    pose proof (pt_nodup _ _ _ _ _ _ _ _ Hpt) as [Hnt _]%NoDup_cons. split; [done|].
    split; [intros ->; done|]. split; [|intros ->; set_solver].
    intros ->. by destruct (fresh_plain ds s0 d) as (_ & _ & Hnd & _). }
  exists m'. split; [exact E|]. destruct Hpt. split; try done.
  - by eapply other_same_trans.
  - intros k q Hk. apply lookup_app_Some in Hk as [Hk|[Hk1 Hk2]].
    + apply lookup_lt_Some in Hk as Hlt.
      rewrite Mrest; [by apply pt_pages0| |]; unfold n, lenZ in *; lia.
    + destruct (k - length pages)%nat eqn:Ek; [|done]. injection Hk2 as <-.
      replace (Z.of_nat k) with n by (unfold n, lenZ; lia). done.
  - intros x Hx Hr. rewrite Mrest; [apply pt_rest0; [done|]|done|];
      unfold lenZ in *; rewrite length_app in Hr; simpl in Hr; unfold n; lia.
  - intros q k [Hq| ->%list_elem_of_singleton]%elem_of_app Hk; [|by apply Hz].
    destruct (Hpages q Hq) as (? & ? & ? & ?). rewrite Melse by done. by apply pt_zero0.
  - intros q k Hq Hk Hqd Hqt. rewrite Melse by set_solver. apply pt_else0; set_solver.
  - intros q Hq. destruct (decide (q = p)) as [->|]; [|apply pt_fresh0; set_solver].
    destruct Hp as [_ Hp]. repeat split; done || lia || congruence.
  - rewrite NoDup_cons, NoDup_app in *. destruct pt_nodup0 as [Hnt Hnd].
    repeat split; [set_solver|done|set_solver|apply NoDup_singleton].
  - congruence.
  - intros g Hg. rewrite (used_cons p t pages g Hpa), Hu1, Hused by done. by rewrite orb_assoc.
Qed.
End building.

(** ** Address spaces: built, and taken down *)

Definition pages_of (pm : process_memory) : list Z :=
  [data_page pm; bss_page pm; heap_page pm; stack_page pm].
Definition frames_of (pm : process_memory) : list Z := process_page_table pm :: pages_of pm.

Section spaces.
Context {S : Type} `{FA : FrameAllocator S}.
Implicit Types (s : machine S) (m : mem) (pm : process_memory).

(** [pm] describes an address space of the machine: a private table with
    exactly the four pages, in frames that are allocated and hold no table. *)
Record space_of (ds : list Z) m (a : S) pm : Prop := {
  so_dir : process_page_directory pm ∈ ds;
  so_region : region_ok (virtual_base pm);
  so_starts : data_start pm = virtual_base pm /\ bss_start pm = virtual_base pm + 4096 /\
    m_heap_start pm = virtual_base pm + 8192 /\ stack_base pm = virtual_base pm + 12288;
  so_present : present_at m (process_page_directory pm) (PAGE_DIR_INDEX (virtual_base pm)) = true;
  so_table : table_at m (process_page_directory pm) (PAGE_DIR_INDEX (virtual_base pm)) = process_page_table pm;
  so_user : has (ent m (process_page_directory pm) (PAGE_DIR_INDEX (virtual_base pm))) PAGE_USER = true;
  so_private : private_table ds m (process_page_directory pm) (PAGE_DIR_INDEX (virtual_base pm))
    (process_page_table pm);
  so_pages k p : pages_of pm !! k = Some p ->
    ent m (process_page_table pm) (PAGE_TABLE_INDEX (virtual_base pm) + Z.of_nat k) = page_entry p PAGE_USER_RW;
  so_rest x : 0 <= x < 1024 ->
    (x < PAGE_TABLE_INDEX (virtual_base pm) \/ PAGE_TABLE_INDEX (virtual_base pm) + 4 <= x) ->
    ent m (process_page_table pm) x = 0;
  so_frames f : f ∈ frames_of pm -> f mod 4096 = 0 /\ 0 < f < LOW_MEMORY /\ f / 4096 < fa_frames a /\
    fa_used a (f / 4096) = true;
  so_plain p : p ∈ pages_of pm -> plain_page ds m p;
  so_nodup : NoDup (frames_of pm);
}.

(** The same description holds after a change elsewhere. *)
Lemma space_of_same ds ds' m m' a a' pm d i :
  space_of ds m a pm -> other_same ds m m' d i ->
  (forall x, x ∈ ds' -> x ∈ ds) -> process_page_directory pm ∈ ds' -> process_page_directory pm <> d ->
  fa_frames a' = fa_frames a ->
  (forall f, f ∈ frames_of pm -> fa_used a' (f / 4096) = true) ->
  (d ∈ ds' -> present_at m' d i = true -> table_at m' d i ∉ frames_of pm) ->
  space_of ds' m' a' pm.
Proof.
  intros [] Hsame Hsub Hdir Hne Hfr Hu Hnew.
  pose proof (index_ranges _ (proj1 so_region0)) as [Hi Hj].
  destruct (Hsame _ _ so_dir0 Hi (or_introl Hne)) as [He Ht]. specialize (Ht so_present0). rewrite so_table0 in Ht.
  destruct (other_same_at _ _ _ _ _ _ _ Hsame so_dir0 Hi (or_introl Hne)) as [Ep Et].
  assert (0 <= PAGE_TABLE_INDEX (virtual_base pm) <= 1020) as Hj0 by (split; [lia|apply so_region0]).
  (* a table of the new state is one of the old, or the one at [d], [i] *)
  assert (forall d' k, d' ∈ ds' -> 0 <= k < 1024 -> present_at m' d' k = true ->
    (d' = d /\ k = i) \/ present_at m d' k = true /\ table_at m' d' k = table_at m d' k) as Hcases.
  { intros d' k Hd' Hk Hp. destruct (decide (d' = d /\ k = i)) as [?|Hn]; [by left|right].
    assert (d' <> d \/ k <> i) as Hn' by (destruct (decide (d' = d)); [right; tauto|by left]).
    destruct (other_same_at _ _ _ _ _ _ _ Hsame (Hsub _ Hd') Hk Hn') as [E1 E2]. by rewrite <- E1. }
  split; try done.
  - by rewrite Ep.
  - by rewrite Et.
  - by rewrite He.
  - intros d' k Hd' Hk Hne' Hp Heq. destruct (Hcases d' k Hd' Hk Hp) as [[-> ->]|[Hp' Et']].
    + apply (Hnew Hd' Hp). rewrite Heq. apply list_elem_of_here.
    + apply (so_private0 d' k); auto. congruence.
  - intros k p Hk. rewrite Ht; [by apply so_pages0|]. apply lookup_lt_Some in Hk as Hlt. simpl in Hlt. lia.
  - intros x Hx Hr. rewrite Ht by done. by apply so_rest0.
  - intros f Hf. destruct (so_frames0 f Hf) as (? & ? & ? & ?). rewrite Hfr. auto.
  - intros p Hp. destruct (so_plain0 p Hp) as (? & ? & Hpd & Hpt). split; [done|]. split; [done|].
    split; [intros Hin; apply Hpd; auto|].
    intros d' k Hd' Hk Hp' Heq. destruct (Hcases d' k Hd' Hk Hp') as [[-> ->]|[Hp2 Et']].
    + apply (Hnew Hd' Hp'). rewrite Heq. by apply list_elem_of_further.
    + apply (Hpt d' k); auto. congruence.
Qed.

(** The MMU's view of an address space: the four pages, at user level. *)
Lemma space_of_walk ds m a pm k p : space_of ds m a pm -> pages_of pm !! k = Some p ->
  forall o, 0 <= o < 4096 ->
  walk m (process_page_directory pm) (virtual_base pm + 4096 * Z.of_nat k + o) = Some (p + o) /\
  user_access m (process_page_directory pm) (virtual_base pm + 4096 * Z.of_nat k + o) = true.
Proof.
  intros H Hk o Ho. apply lookup_lt_Some in Hk as Hlt. change (length (pages_of pm)) with 4%nat in Hlt.
  destruct (so_frames _ _ _ _ H p) as (Hpa & Hpr & _).
  { apply list_elem_of_further. by eapply list_elem_of_lookup_2. }
  set (b := virtual_base pm) in *. pose proof (so_region _ _ _ _ H) as Hb. fold b in Hb.
  destruct (region_page b (Z.of_nat k) Hb ltac:(lia)) as (Hv & Hl & Hvi & Hvj & Hva).
  set (v := b + 4096 * Z.of_nat k) in *.
  assert (is_u32 (v + o)) as Hvo by (unfold is_u32 in *; divlia).
  assert (PAGE_DIR_INDEX (v + o) = PAGE_DIR_INDEX b) as E1.
  { rewrite <- Hvi, !PAGE_DIR_INDEX_eq by done. divlia. }
  assert (PAGE_TABLE_INDEX (v + o) = PAGE_TABLE_INDEX b + Z.of_nat k) as E2.
  { rewrite <- Hvj, !PAGE_TABLE_INDEX_eq. divlia. }
  destruct (page_entry_spec p PAGE_USER_RW) as (Hu & Hf & Hh); [unfold is_u32, LOW_MEMORY in *; lia|].
  pose proof (so_present _ _ _ _ H) as Hp. fold b in Hp.
  assert (pte m (process_page_directory pm) (v + o) = page_entry p PAGE_USER_RW) as Epte.
  { rewrite pte_ent, E1, E2. fold (table_at m (process_page_directory pm) (PAGE_DIR_INDEX b)).
    pose proof (so_table _ _ _ _ H) as Htab. fold b in Htab. rewrite Htab.
    by apply (so_pages _ _ _ _ H). }
  unfold walk, user_access. rewrite Epte, pde_ent, E1. unfold present_at in Hp. rewrite Hp, !Hh by done.
  pose proof (so_user _ _ _ _ H) as Huser. fold b in Huser. rewrite Huser.
  split; [|done]. change (has PAGE_USER_RW PAGE_PRESENT) with true. cbn [andb]. f_equal.
  rewrite Hf, PAGE_OFFSET_eq. rewrite lor_page; [divlia|divlia|divlia].
Qed.

(** Freed frames: [a'] is [a] without the frames [fs]. *)
Definition freed (a a' : S) (fs : list Z) : Prop :=
  fa_ok a' /\ fa_frames a' = fa_frames a /\
  forall g, 0 <= g -> fa_used a' g = fa_used a g && negb (bool_decide (g * 4096 ∈ fs)).

Lemma freed_one a p : fa_ok a -> p mod 4096 = 0 -> 0 < p -> p / 4096 < fa_frames a ->
  freed a (fa_free a p) [p].
Proof.
  intros Hok Hp Hp0 Hn. assert (p = 4096 * (p / 4096)) as E by divlia.
  assert (0 < p / 4096) as Hf by divlia.
  destruct (fa_free_ok a (p / 4096) Hok Hf) as [H1 H2]. rewrite <- E in H1, H2.
  split; [done|]. split; [done|]. intros g Hg. rewrite E at 1.
  rewrite fa_free_used by done. rewrite andb_comm. f_equal. f_equal.
  apply bool_eq_iff. rewrite bool_decide_eq_true, list_elem_of_singleton, Z.eqb_eq. lia.
Qed.

Lemma freed_trans a1 a2 a3 fs p : freed a1 a2 fs -> freed a2 a3 [p] -> freed a1 a3 (fs ++ [p]).
Proof.
  intros (_ & Hn & Hu) (Hok & Hn' & Hu'). split; [done|]. split; [congruence|].
  intros g Hg. rewrite Hu', Hu, <- andb_assoc by done. f_equal. rewrite <- negb_orb. f_equal.
  apply bool_eq_iff. rewrite orb_true_iff, !bool_decide_eq_true, elem_of_app. done.
Qed.

(** The space while its pages are taken down: those of [gone] are free. *)
Record taking_down (ds : list Z) m0 (a0 : S) pm (gone : list Z) s m (a : S) : Prop := {
  td_wf : space_wf ds (with_pmem m (with_frames a s));
  td_same : other_same ds m0 m (process_page_directory pm) (PAGE_DIR_INDEX (virtual_base pm));
  td_entry : ent m (process_page_directory pm) (PAGE_DIR_INDEX (virtual_base pm)) =
    ent m0 (process_page_directory pm) (PAGE_DIR_INDEX (virtual_base pm));
  td_freed : freed a0 a gone;
  td_else q k : q mod 4096 = 0 -> 0 <= k < 1024 -> q <> process_page_table pm ->
    q <> process_page_directory pm -> ent m q k = ent m0 q k;
}.

Lemma release_page_step ds s m0 a0 pm gone m a p n :
  space_of ds m0 a0 pm -> process_page_directory pm <> cr3 s ->
  taking_down ds m0 a0 pm gone s m a -> p ∈ pages_of pm -> p ∉ gone -> 0 <= n < 4 ->
  exists m', release_page (process_page_directory pm) p (virtual_base pm + 4096 * n)
      (with_pmem m (with_frames a s)) = Ret (with_pmem m' (with_frames (fa_free a p) s)) /\
    taking_down ds m0 a0 pm (gone ++ [p]) s m' (fa_free a p).
Proof.
  intros Hso Hcr [Hwf Hsame Hent Hfr Helse] Hp Hgone Hn.
  set (d := process_page_directory pm) in *. set (b := virtual_base pm) in *.
  assert (4 <= PAGE_DIR_INDEX b < 1024) as Hi4 by (by apply high_index; apply (so_region _ _ _ _ Hso)).
  assert (0 <= PAGE_DIR_INDEX b < 1024) as Hir by lia.
  set (i := PAGE_DIR_INDEX b) in *. set (s1 := with_pmem m (with_frames a s)) in *.
  destruct (region_page b n (so_region _ _ _ _ Hso) Hn) as (Hv & Hl & Hvi & _).
  assert (present_at (pmem s1) d i = true /\ table_at (pmem s1) d i = process_page_table pm) as [Hpres Htab].
  { unfold present_at, table_at. cbn [pmem s1 with_pmem]. rewrite Hent. split; apply Hso. }
  destruct (unmap_step ds s1 d (b + 4096 * n) Hwf (so_dir _ _ _ _ Hso) Hcr Hv Hl) as (m' & E & Hwf' & Hsame' & Hent' & Helse').
  { by rewrite Hvi. }
  { rewrite Hvi. fold i. rewrite Htab. eapply private_same; [exact Hsame|apply Hso]. }
  rewrite Hvi in Hsame', Hent', Helse'. fold i in Hsame', Hent', Helse'. rewrite Htab in Helse'.
  cbn [pmem s1 with_pmem] in Hsame', Hent', Helse'.
  destruct (so_frames _ _ _ _ Hso p) as (Hpa & Hpr & Hpn & Hpu); [by apply list_elem_of_further|].
  pose proof Hfr as (Hok & Hn' & Hu).
  assert (freed a (fa_free a p) [p]) as Hfr1 by (apply freed_one; try done; [lia|by rewrite Hn']).
  exists m'. split.
  { unfold release_page. rewrite eqb_sym_neg by lia. cbn [negb]. by rewrite E. }
  assert (other_same ds m0 m' d i) as Hsame2 by (by eapply other_same_trans).
  destruct (so_plain _ _ _ _ Hso p Hp) as (_ & _ & Hpd & Hpt).
  split; fold d b i.
  - apply (space_wf_confined ds (with_pmem m (with_frames a s)) m' (fa_free a p) d i); try done.
    + apply so_dir with (1 := Hso).
    + apply Hfr1.
    + intros d' Hd'. destruct (sw_dirs _ _ Hwf d' Hd') as (? & Hd0 & Hdu).
      destruct Hfr1 as (_ & _ & ->); [|apply Z.div_pos; lia]. cbn in Hdu. rewrite Hdu.
      rewrite bool_decide_eq_false_2; [done|]. rewrite mul4096_inv by done. set_solver.
    + intros d' k Hd' Hk Hne Hp'. cbn [pmem with_pmem] in *.
      destruct (sw_tables _ _ Hwf d' k Hd' Hk Hp') as (Ht0 & Htu & _). cbn in Htu, Ht0.
      destruct Hfr1 as (_ & _ & ->); [|apply Z.div_pos; lia]. rewrite Htu.
      rewrite bool_decide_eq_false_2; [done|]. destruct (table_at_range m d' k).
      rewrite mul4096_inv, list_elem_of_singleton by done.
      destruct (other_same_at _ _ _ _ _ _ _ Hsame Hd' Hk Hne) as [E1 ->]. apply Hpt; congruence.
    + unfold present_at, table_at. rewrite Hent'. intros _.
      destruct (sw_tables _ _ Hwf d i (so_dir _ _ _ _ Hso)) as (Ht0 & Htu & Htd);
        [exact Hir|exact Hpres|].
      change (PAGE_FRAME (ent m d i)) with (table_at (pmem s1) d i). rewrite Htab in *.
      split; [done|]. split; [|split; [done|]].
      * destruct Hfr1 as (_ & _ & ->); [|apply Z.div_pos; lia]. cbn [frames s1 with_pmem with_frames] in Htu.
        rewrite Htu, bool_decide_eq_false_2; [done|].
        destruct (so_frames _ _ _ _ Hso (process_page_table pm)) as (? & _); [apply list_elem_of_here|].
        rewrite mul4096_inv, list_elem_of_singleton by done. intros Heq.
        pose proof (so_nodup _ _ _ _ Hso) as [Hnt _]%NoDup_cons. by rewrite Heq in Hnt.
      * eapply private_same; [exact Hsame|apply Hso].
  - exact Hsame2.
  - congruence.
  - by eapply freed_trans.
  - intros q k Hq Hk Hqt Hqd. rewrite Helse' by done. by apply Helse.
Qed.

(** What [release_pages] leaves: the frames free, the entry gone, all else. *)
Record taken_down (ds : list Z) m0 (a0 : S) pm s m (a : S) : Prop := {
  tk_wf : space_wf ds (with_pmem m (with_frames a s));
  tk_same : other_same ds m0 m (process_page_directory pm) (PAGE_DIR_INDEX (virtual_base pm));
  tk_absent : present_at m (process_page_directory pm) (PAGE_DIR_INDEX (virtual_base pm)) = false;
  tk_freed : freed a0 a (pages_of pm ++ [process_page_table pm]);
  tk_else q k : q mod 4096 = 0 -> 0 <= k < 1024 -> q <> process_page_table pm ->
    q <> process_page_directory pm -> ent m q k = ent m0 q k;
}.

Lemma release_table_step ds s m0 a0 pm m a :
  space_of ds m0 a0 pm -> process_page_directory pm <> cr3 s ->
  taking_down ds m0 a0 pm (pages_of pm) s m a ->
  exists m' a', release_table pm (with_pmem m (with_frames a s)) = Ret (with_pmem m' (with_frames a' s)) /\
    taken_down ds m0 a0 pm s m' a'.
Proof.
  intros Hso Hcr [Hwf Hsame Hent Hfr Helse].
  set (d := process_page_directory pm) in *. set (b := virtual_base pm) in *.
  pose proof (so_region _ _ _ _ Hso) as (Hbu & _ & Hbl & _).
  destruct (high_index b Hbu Hbl) as [Hi4 Hi1]. set (i := PAGE_DIR_INDEX b) in *.
  set (t := process_page_table pm) in *. set (s1 := with_pmem m (with_frames a s)) in *.
  pose proof (so_dir _ _ _ _ Hso) as Hd. fold d in Hd.
  destruct (sw_dirs _ _ Hwf d Hd) as (Hda & Hd0 & _). pose proof (page_room d Hda ltac:(lia)) as Hroom.
  pose proof (wf_windowed _ _ Hwf) as Hw.
  destruct (so_frames _ _ _ _ Hso t) as (Hta & Htr & Htn & _); [apply list_elem_of_here|].
  pose proof Hfr as (Hok & Hn & _).
  assert (freed a (fa_free a t) [t]) as Hfr1 by (apply freed_one; try done; [lia|by rewrite Hn]).
  set (m' := store32 m (d + 4 * i) 0). exists m', (fa_free a t).
  assert (forall q k, q mod 4096 = 0 -> 0 <= k < 1024 -> (q <> d \/ k <> i) -> ent m' q k = ent m q k) as Hst.
  { intros q k Hq Hk Hne. unfold m'. rewrite ent_store by (done || lia).
    destruct (Z.eqb_spec q d); destruct (Z.eqb_spec k i); try done. subst. by destruct Hne. }
  assert (ent m' d i = 0) as Hz by (unfold m'; rewrite ent_store, !Z.eqb_refl by (done || lia); done).
  assert (present_at m' d i = false) as Habs by (unfold present_at; by rewrite Hz).
  assert (other_same ds m m' d i) as Hsame'.
  { intros d' k Hd' Hk Hne. destruct (sw_dirs _ _ Hwf d' Hd') as (Hda' & _). split; [by apply Hst|].
    intros Hp x Hx. apply Hst; [apply table_at_range|done|]. left.
    destruct (sw_tables _ _ Hwf d' k Hd' Hk Hp) as (_ & _ & Hnd). by apply Hnd. }
  split.
  { unfold release_table. fold d t b i. rewrite !eqb_sym_neg by lia. cbn [andb negb].
    rewrite vstore32_low by (assumption || lia). done. }
  split; fold d b i t; try done.
  - apply (space_wf_confined ds s1 m' (fa_free a t) d i); try done.
    + apply Hfr1.
    + intros d' Hd'. destruct (sw_dirs _ _ Hwf d' Hd') as (? & Hd0' & Hdu).
      destruct Hfr1 as (_ & _ & ->); [|apply Z.div_pos; lia]. cbn in Hdu. rewrite Hdu.
      rewrite bool_decide_eq_false_2; [done|]. rewrite mul4096_inv, list_elem_of_singleton by done.
      intros ->. destruct (sw_tables _ _ Hwf d i Hd) as (_ & _ & Hnd); [lia| |].
      * unfold present_at. cbn [pmem s1 with_pmem]. rewrite Hent. apply (so_present _ _ _ _ Hso).
      * apply (Hnd t Hd'). unfold table_at. cbn [pmem s1 with_pmem]. rewrite Hent. apply (so_table _ _ _ _ Hso).
    + intros d' k Hd' Hk Hne Hp'. cbn [pmem s1 with_pmem] in *.
      destruct (sw_tables _ _ Hwf d' k Hd' Hk Hp') as (Ht0 & Htu & _). cbn in Htu, Ht0.
      destruct Hfr1 as (_ & _ & ->); [|apply Z.div_pos; lia]. rewrite Htu.
      rewrite bool_decide_eq_false_2; [done|]. destruct (table_at_range m d' k).
      rewrite mul4096_inv, list_elem_of_singleton by done.
      apply (private_same ds m0 m d i t Hsame (so_private _ _ _ _ Hso)); done.
    + rewrite Habs. done.
  - by eapply other_same_trans.
  - by eapply freed_trans.
  - intros q k Hq Hk Hqt Hqd. rewrite Hst by auto. by apply Helse.
Qed.

Lemma release_pages_spec ds s pm :
  space_wf ds s -> space_of ds (pmem s) (frames s) pm -> process_page_directory pm <> cr3 s ->
  exists m' a', release_pages pm s = Ret (with_pmem m' (with_frames a' s)) /\
    taken_down ds (pmem s) (frames s) pm s m' a'.
Proof.
  intros H Hso Hcr.
  assert (taking_down ds (pmem s) (frames s) pm [] s (pmem s) (frames s)) as T0.
  { split; try done; [by destruct s|]. split; [apply H|]. split; [done|].
    intros g Hg. rewrite bool_decide_eq_false_2 by set_solver. by rewrite andb_true_r. }
  pose proof (so_nodup _ _ _ _ Hso) as [_ Hnd]%NoDup_cons. unfold pages_of in Hnd.
  rewrite !NoDup_cons in Hnd. destruct Hnd as (N1 & N2 & N3 & _).
  destruct (so_starts _ _ _ _ Hso) as (B0 & B1 & B2 & B3).
  destruct (release_page_step ds s _ _ pm [] _ _ (data_page pm) 0 Hso Hcr T0) as (m1 & E1 & T1);
    [unfold pages_of; set_solver|set_solver|lia|].
  destruct (release_page_step ds s _ _ pm _ _ _ (bss_page pm) 1 Hso Hcr T1) as (m2 & E2 & T2);
    [unfold pages_of; set_solver|set_solver|lia|].
  destruct (release_page_step ds s _ _ pm _ _ _ (heap_page pm) 2 Hso Hcr T2) as (m3 & E3 & T3);
    [unfold pages_of; set_solver|set_solver|lia|].
  destruct (release_page_step ds s _ _ pm _ _ _ (stack_page pm) 3 Hso Hcr T3) as (m4 & E4 & T4);
    [unfold pages_of; set_solver|set_solver|lia|].
  destruct (release_table_step ds s _ _ pm _ _ Hso Hcr T4) as (m5 & a5 & E5 & T5).
  exists m5, a5. split; [|exact T5]. unfold release_pages. rewrite B0, B1, B2, B3.
  replace (virtual_base pm) with (virtual_base pm + 4096 * 0) at 1 by lia.
  assert (with_pmem (pmem s) (with_frames (frames s) s) = s) as Es by by destruct s.
  rewrite Es in E1. rewrite E1. cbn [mbind outcome_bind].
  change (virtual_base pm + 4096) with (virtual_base pm + 4096 * 1). rewrite E2. cbn [mbind outcome_bind].
  change 8192 with (4096 * 2). rewrite E3. cbn [mbind outcome_bind].
  change 12288 with (4096 * 3). rewrite E4. cbn [mbind outcome_bind]. exact E5.
Qed.

(** The next five frames, all in the window: data page, page table (made by
    the first mapping), bss, heap and stack pages. *)
Inductive five_frames (a : S) (p0 t p1 p2 p3 : Z) (a' : S) : Prop :=
| five a1 a2 a3 a4 :
    frame_available a p0 a1 -> frame_available a1 t a2 -> frame_available a2 p1 a3 ->
    frame_available a3 p2 a4 -> frame_available a4 p3 a' -> five_frames a p0 t p1 p2 p3 a'.

(** The memory record of a process whose pages were allocated. *)
Definition built_memory (b d size p0 t p1 p2 p3 : Z) : process_memory :=
  set_physical p0 t (set_stack_page p3 (set_heap_page p2 (set_bss_page p1 (set_data_page p0 (layout b d size))))).

Lemma layout_starts b d size : region_ok b ->
  data_start (layout b d size) = b /\ bss_start (layout b d size) = b + 4096 * 1 /\
  m_heap_start (layout b d size) = b + 4096 * 2 /\ stack_base (layout b d size) = b + 4096 * 3.
Proof.
  intros Hb. destruct (region_page b 1 Hb ltac:(lia)) as (H1 & _).
  destruct (region_page b 2 Hb ltac:(lia)) as (H2 & _). destruct (region_page b 3 Hb ltac:(lia)) as (H3 & _).
  split; [done|]. cbn [bss_start m_heap_start stack_base layout]. unfold PAGE_SIZE.
  change (4096 * 1) with 4096 in *. by rewrite !u32_id.
Qed.

Lemma build_spec ds s d src b p0 t p1 p2 p3 a' :
  space_wf ds s -> src ∈ ds -> d ∉ ds -> d mod 4096 = 0 -> 0 < d < LOW_MEMORY ->
  fa_used (frames s) (d / 4096) = true ->
  (forall d' i, d' ∈ ds -> 0 <= i < 1024 -> present_at (pmem s) d' i = true -> table_at (pmem s) d' i <> d) ->
  region_ok b -> present_at (pmem s) src (PAGE_DIR_INDEX b) = false ->
  five_frames (frames s) p0 t p1 p2 p3 a' ->
  exists mc s1 s2 s3 m,
    paging_copy_directory d src s = Ret (with_pmem mc s) /\
    alloc_page d b (with_pmem mc s) = Ret (p0, s1) /\ alloc_page d (b + 4096 * 1) s1 = Ret (p1, s2) /\
    alloc_page d (b + 4096 * 2) s2 = Ret (p2, s3) /\
    alloc_page d (b + 4096 * 3) s3 = Ret (p3, with_pmem m (with_frames a' s)) /\
    (forall k, 0 <= k < 1024 -> ent mc d k = ent (pmem s) src k) /\
    (forall q k, q mod 4096 = 0 -> 0 <= k < 1024 -> q <> d -> ent mc q k = ent (pmem s) q k) /\
    space_wf (d :: ds) (with_pmem mc s) /\
    partial (d :: ds) (with_pmem mc s) d b t [p0; p1; p2; p3] m a'.
Proof.
  intros H Hsrc Hd Hda Hdr Hdu Htab Hb Habs [a1 a2 a3 a4 F0 F1 F2 F3 F4].
  destruct (copy_directory_spec ds s d src H Hsrc Hd Hda Hdr Hdu Htab) as (mc & E & Hwf & _ & _ & Hcopy & Helse).
  set (sc := with_pmem mc s) in *.
  assert (d ∈ d :: ds) as Hin by apply list_elem_of_here.
  assert (d <> cr3 sc) as Hcr by (intros ->; apply Hd; apply (sw_cr3 _ _ H)).
  assert (present_at (pmem sc) d (PAGE_DIR_INDEX b) = false) as Habs'.
  { unfold present_at. cbn [pmem sc with_pmem]. rewrite Hcopy; [exact Habs|]. exact (proj1 (index_ranges b (proj1 Hb))). }
  destruct (partial_first (d :: ds) sc d b p0 a1 t a2 Hwf Hin Hcr Hb Habs' F0 F1) as (m1 & E1 & P1).
  destruct (partial_next (d :: ds) sc d b t [p0] m1 a2 p1 a3 Hwf P1 Hin Hcr Hb ltac:(done) F2) as (m2 & E2 & P2).
  destruct (partial_next (d :: ds) sc d b t [p0; p1] m2 a3 p2 a4 Hwf P2 Hin Hcr Hb ltac:(done) F3) as (m3 & E3 & P3).
  destruct (partial_next (d :: ds) sc d b t [p0; p1; p2] m3 a4 p3 a' Hwf P3 Hin Hcr Hb ltac:(done) F4) as (m4 & E4 & P4).
  exists mc, (with_pmem m1 (with_frames a2 sc)), (with_pmem m2 (with_frames a3 sc)),
    (with_pmem m3 (with_frames a4 sc)), m4. split; [exact E|]. split; [exact E1|]. split; [exact E2|]. split; [exact E3|].
  split; [exact E4|]. done.
Qed.

(** The pages of a finished build are those of the record. *)
Lemma partial_space_of ds s d b size p0 t p1 p2 p3 m a :
  space_wf ds s -> d ∈ ds -> region_ok b -> partial ds s d b t [p0; p1; p2; p3] m a ->
  space_of ds m a (built_memory b d size p0 t p1 p2 p3).
Proof.
  intros H Hd Hb []. destruct (layout_starts b d size Hb) as (L0 & L1 & L2 & L3).
  assert (forall p, p ∈ [p0; p1; p2; p3] -> plain_page ds m p) as Hplain.
  { intros p Hp. destruct (pt_fresh0 p (list_elem_of_further _ _ _ Hp)) as (Hpa & Hpr & Hpf & _).
    destruct (fresh_plain ds s p H Hpa Hpr Hpf) as (_ & _ & Hpd & Hpt). split; [done|]. split; [done|].
    split; [done|]. intros d' k Hd' Hk Hp'.
    destruct (decide (d' = d /\ k = PAGE_DIR_INDEX b)) as [[-> ->]|Hne].
    - rewrite pt_table0. intros ->. apply NoDup_cons in pt_nodup0 as [? _]. done.
    - assert (d' <> d \/ k <> PAGE_DIR_INDEX b) as Hne' by (destruct (decide (d' = d)); [right; tauto|by left]).
      destruct (other_same_at _ _ _ _ _ _ _ pt_same0 Hd' Hk Hne') as [E1 ->]. apply Hpt; congruence. }
  split.
  - done.
  - done.
  - split; [done|]. split; [exact L1|]. split; [exact L2|exact L3].
  - done.
  - done.
  - done.
  - done.
  - exact pt_pages0.
  - exact pt_rest0.
  - intros f Hf. destruct (pt_fresh0 f Hf) as (Hfa & Hfr & _ & Hfn). split; [done|]. split; [done|].
    rewrite pt_frames0. split; [done|]. rewrite pt_used0 by (apply Z.div_pos; lia).
    rewrite mul4096_inv by done. by rewrite bool_decide_eq_true_2.
  - exact Hplain.
  - exact pt_nodup0.
Qed.

(** A directory copied from [src] joins: the others keep their description. *)
Lemma space_of_copied ds m mc a pm dst src :
  space_of ds m a pm -> src ∈ ds -> src <> process_page_directory pm ->
  (forall d', d' ∈ ds -> d' mod 4096 = 0 /\ d' <> dst) ->
  (forall d' i, d' ∈ ds -> 0 <= i < 1024 -> present_at m d' i = true -> table_at m d' i <> dst) ->
  dst ∉ frames_of pm ->
  (forall k, 0 <= k < 1024 -> ent mc dst k = ent m src k) ->
  (forall q k, q mod 4096 = 0 -> 0 <= k < 1024 -> q <> dst -> ent mc q k = ent m q k) ->
  space_of (dst :: ds) mc a pm.
Proof.
  intros [] Hsrc Hne Hds Htab Hfr Hcopy Helse.
  pose proof (proj1 (index_ranges _ (proj1 so_region0))) as Hi.
  assert (0 <= PAGE_TABLE_INDEX (virtual_base pm) <= 1020) as Hj0 by (split; [apply index_ranges, so_region0|apply so_region0]).
  destruct (Hds _ so_dir0) as [Hda Hdd].
  assert (forall k, 0 <= k < 1024 -> ent mc (process_page_directory pm) k = ent m (process_page_directory pm) k) as Hd
    by (intros; by apply Helse).
  assert (forall x, 0 <= x < 1024 -> ent mc (process_page_table pm) x = ent m (process_page_table pm) x) as Ht.
  { intros x Hx. apply Helse; [|done|intros E; apply Hfr; rewrite <- E; apply list_elem_of_here].
    by destruct (so_frames0 (process_page_table pm) (list_elem_of_here _ _)). }
  (* a table of the new directory is one of [src] *)
  assert (forall d' k, d' ∈ dst :: ds -> 0 <= k < 1024 -> exists d'', d'' ∈ ds /\ (d' = d'' \/ d'' = src /\ d' = dst) /\
    present_at mc d' k = present_at m d'' k /\ table_at mc d' k = table_at m d'' k) as Hcases.
  { intros d' k [->|Hd']%elem_of_cons Hk.
    - exists src. unfold present_at, table_at. rewrite Hcopy by done. split; [done|]. split; [by right|done].
    - exists d'. destruct (Hds d' Hd'). unfold present_at, table_at. rewrite Helse by done.
      split; [done|]. split; [by left|done]. }
  split; try done.
  - by apply list_elem_of_further.
  - unfold present_at. by rewrite Hd.
  - unfold table_at. by rewrite Hd.
  - by rewrite Hd.
  - intros d' k Hd' Hk Hne'. destruct (Hcases d' k Hd' Hk) as (d'' & Hd'' & Heq & -> & ->).
    apply so_private0; [done|done|]. destruct Heq as [->|[-> ->]]; [done|by left].
  - intros k p Hk. rewrite Ht; [by apply so_pages0|]. apply lookup_lt_Some in Hk as Hlt. simpl in Hlt. lia.
  - intros x Hx Hr. rewrite Ht by done. by apply so_rest0.
  - intros p Hp. destruct (so_plain0 p Hp) as (? & ? & Hpd & Hpt). split; [done|]. split; [done|]. split.
    + intros [->|?]%elem_of_cons; [|done]. apply Hfr. by apply list_elem_of_further.
    + intros d' k Hd' Hk. destruct (Hcases d' k Hd' Hk) as (d'' & Hd'' & _ & -> & ->). by apply Hpt.
Qed.
End spaces.
