(* ===== verification/ProcessTable.v ===== *)
(** * The process table of kernel/src/process.c: invariant and operations

    The lists the table threads through its slots ([next] for all processes,
    [next_sibling] for the children of one) stay well formed; pids are unique;
    every walk along a list ends; creating, exiting, waiting and signalling do
    what their callers rely on. *)

From S2P Require Import Prelude Interfaces Memory Ring Chain Paging Process.

(** Compare the slot read with the slots written. *)
Ltac slots := zbool; try subst; try done; try congruence; try lia.

Section links.
Context {S : Type} `{FA : FrameAllocator S}.
Implicit Types (s : pstate S) (l : list Z).

(** ** Reading back an update *)

Lemma proc_upd s p f q :
  0 <= p < lenZ (table s) ->
  proc (upd p f s) q = if q =? p then f (proc s p) else proc s q.
Proof. intros Hp. unfold proc, upd. simpl. by apply getZ_setZ. Qed.

Lemma proc_upd_eq s p f : 0 <= p < lenZ (table s) -> proc (upd p f s) p = f (proc s p).
Proof. intros Hp. by rewrite proc_upd, Z.eqb_refl. Qed.

Lemma proc_upd_ne s p f q : q <> p -> proc (upd p f s) q = proc s q.
Proof. intros Hne. unfold proc, upd. simpl. by apply getZ_setZ_ne. Qed.

Lemma upd_out s p f : ~ 0 <= p < lenZ (table s) -> upd p f s = s.
Proof.
  unfold upd, set_table, setZ, lenZ. intros Hp. destruct s as [t]. simpl in *. f_equal.
  destruct (Z.ltb_spec p 0); [done|]. apply list_insert_ge. lia.
Qed.

Lemma len_upd s p f : lenZ (table (upd p f s)) = lenZ (table s).
Proof. apply lenZ_setZ. Qed.

Definition nexts s (q : Z) : Z := next (proc s q).
Definition siblings s (q : Z) : Z := next_sibling (proc s q).

(** The two queues of a slot. *)
Definition queues_ok (x : process) : Prop :=
  ring_ok PROCESS_SIGNAL_QUEUE_CAPACITY (signals x) /\ ring_ok PROCESS_SOCKET_CAPACITY (socket x).

(** The children of [p] are the slots [cl]. *)
Definition children_are s (p : Z) (cl : list Z) : Prop :=
  chain (siblings s) (children (proc s p)) cl.

(** The lists of the table: [l] is the list of all processes. *)
Record links l s : Prop := {
  lk_len : lenZ (table s) = PROCESS_MAX_COUNT;
  lk_kernel : kernel_process s = 0;
  lk_chain : chain (nexts s) (process_head s) l;
  lk_root : exists l', l = 0 :: l';
  lk_nodup : NoDup l;
  lk_range q : q ∈ l -> 0 <= q < PROCESS_MAX_COUNT;
  lk_children p : p ∈ l -> exists cl, children_are s p cl /\ NoDup cl /\
    forall c, c ∈ cl -> c ∈ l /\ parent (proc s c) = p;
  lk_free q : 0 <= q < PROCESS_MAX_COUNT -> q ∉ l -> children (proc s q) = NULLP;
  lk_parent q : q ∈ l -> parent (proc s q) = NULLP \/
    0 <= parent (proc s q) < PROCESS_MAX_COUNT /\ parent (proc s q) <> q;
  lk_pids q : q ∈ l -> 1 <= pid (proc s q) < next_pid s;
  lk_pid_inj q r : q ∈ l -> r ∈ l -> pid (proc s q) = pid (proc s r) -> q = r;
  lk_cursor : scheduler_cursor s ∈ l;
  lk_current : current_process s ∈ l;
  lk_queues q : 0 <= q < PROCESS_MAX_COUNT -> queues_ok (proc s q);
  lk_root_entry : entry (proc s 0) = NoEntry /\ parent (proc s 0) = NULLP;
  lk_context q : q ∈ l -> entry (proc s q) <> NoEntry -> context (proc s q) <> CtxZero;
}.

(** The invariant of the table between two operations. *)
Definition table_ok l s : Prop :=
  links l s /\ forall q, 0 <= q < PROCESS_MAX_COUNT -> used (proc s q) = true <-> q ∈ l.

Lemma links_proc l s p : links l s -> p ∈ l -> 0 <= p < lenZ (table s).
Proof. intros H Hp. rewrite (lk_len _ _ H). by apply (lk_range _ _ H). Qed.

Lemma links_root_in l s : links l s -> 0 ∈ l.
Proof. intros H. destruct (lk_root _ _ H) as [l' ->]. set_solver. Qed.

Lemma links_length l s : links l s -> (length l <= 16)%nat.
Proof. intros H. apply (NoDup_slots l 16); [lia|apply H|apply (lk_range _ _ H)]. Qed.

Lemma links_not_null l s p : links l s -> p ∈ l -> p <> NULLP.
Proof. intros H Hp ->. by apply (chain_not_null _ _ _ (lk_chain _ _ H)). Qed.

Lemma links_head l s : links l s -> process_head s = 0.
Proof. intros H. destruct (lk_root _ _ H) as [l' ->]. by destruct (lk_chain _ _ H) as (? & _). Qed.

(** ** Updates that keep the lists *)

(** [y] is [x] but for fields no list depends on. *)
Record same_links (x y : process) : Prop := {
  sl_next : next y = next x;
  sl_children : children y = children x;
  sl_sibling : next_sibling y = next_sibling x;
  sl_parent : parent y = parent x;
  sl_pid : pid y = pid x;
  sl_entry : entry y = entry x;
  sl_used : used y = used x;
  sl_context : context x <> CtxZero -> context y <> CtxZero;
}.

Lemma same_links_refl x : same_links x x.
Proof. by constructor. Qed.

Lemma links_upd l s p f :
  links l s -> (p ∈ l -> same_links (proc s p) (f (proc s p))) -> queues_ok (f (proc s p)) ->
  (p ∉ l -> children (f (proc s p)) = NULLP) -> links l (upd p f s).
Proof.
  intros H Hsame Hq Hfree.
  assert (forall q, q ∈ l -> same_links (proc s q) (proc (upd p f s) q)) as Hall.
  { intros q Hin. destruct (decide (q = p)) as [->|Hne].
    - rewrite proc_upd_eq by (by eapply links_proc). auto.
    - rewrite proc_upd_ne by done. apply same_links_refl. }
  constructor.
  - rewrite len_upd. apply H.
  - apply H.
  - eapply chain_ext; [|apply H]. intros q Hin. apply Hall. done.
  - apply H.
  - apply H.
  - apply H.
  - intros q Hin. destruct (lk_children _ _ H q Hin) as (cl & Hc & Hnd & Hcl).
    exists cl. split; [|split; [done|]].
    + unfold children_are. rewrite (sl_children _ _ (Hall q Hin)).
      eapply chain_ext; [|exact Hc]. intros c Hc'. apply Hall. by apply Hcl.
    + intros c Hc'. destruct (Hcl c Hc') as [Hin' <-]. split; [done|]. by apply Hall.
  - intros q Hr Hin. destruct (decide (q = p)) as [->|Hne].
    + rewrite proc_upd_eq by (by rewrite (lk_len _ _ H)). auto.
    + rewrite proc_upd_ne by done. by apply (lk_free _ _ H).
  - intros q Hin. rewrite (sl_parent _ _ (Hall q Hin)). by apply H.
  - intros q Hin. rewrite (sl_pid _ _ (Hall q Hin)). by apply H.
  - intros q r Hin Hin'. rewrite (sl_pid _ _ (Hall q Hin)), (sl_pid _ _ (Hall r Hin')). by apply H.
  - apply H.
  - apply H.
  - intros q Hr. destruct (decide (q = p)) as [->|Hne].
    + rewrite proc_upd_eq by (by rewrite (lk_len _ _ H)). done.
    + rewrite proc_upd_ne by done. by apply H.
  - pose proof (Hall 0 (links_root_in _ _ H)) as H0.
    rewrite (sl_entry _ _ H0), (sl_parent _ _ H0). apply H.
  - intros q Hin. rewrite (sl_entry _ _ (Hall q Hin)). intros He.
    apply (Hall q Hin). by apply H.
Qed.

Lemma table_ok_upd l s p f :
  table_ok l s -> same_links (proc s p) (f (proc s p)) -> queues_ok (f (proc s p)) ->
  table_ok l (upd p f s).
Proof.
  intros [H Hu] Hsame Hq. assert (used (f (proc s p)) = used (proc s p)) as Huf by apply Hsame.
  destruct (decide (0 <= p < PROCESS_MAX_COUNT)) as [Hp|Hp].
  2:{ rewrite upd_out; [done|]. by rewrite (lk_len _ _ H). }
  split.
  { apply links_upd; auto. intros Hin. rewrite (sl_children _ _ Hsame). by apply (lk_free _ _ H). }
  intros q Hr. destruct (decide (q = p)) as [->|Hne].
  - rewrite proc_upd_eq by (by rewrite (lk_len _ _ H)). rewrite Huf. by apply Hu.
  - rewrite proc_upd_ne by done. by apply Hu.
Qed.

(** The lists only read part of the state. *)
Lemma links_ext l s s' :
  links l s -> table s' = table s -> process_head s' = process_head s ->
  kernel_process s' = kernel_process s -> scheduler_cursor s' ∈ l -> current_process s' ∈ l ->
  next_pid s <= next_pid s' -> links l s'.
Proof.
  intros H Ht Hh Hk Hc Hcur Hn.
  assert (forall q, proc s' q = proc s q) as Hp by (intros; unfold proc; by rewrite Ht).
  constructor; try done.
  - rewrite Ht. apply (lk_len _ _ H).
  - rewrite Hk. apply (lk_kernel _ _ H).
  - rewrite Hh. eapply chain_ext; [|apply H]. intros. unfold nexts. by rewrite Hp.
  - apply H.
  - apply H.
  - apply H.
  - intros p Hin. destruct (lk_children _ _ H p Hin) as (cl & Hcl & Hnd & Hall).
    exists cl. unfold children_are. rewrite Hp. split; [|split; [done|]].
    + eapply chain_ext; [|exact Hcl]. intros. unfold siblings. by rewrite Hp.
    + intros. rewrite Hp. auto.
  - intros. rewrite Hp. by apply (lk_free _ _ H).
  - intros. rewrite Hp. by apply H.
  - intros q Hq. rewrite Hp. pose proof (lk_pids _ _ H q Hq). lia.
  - intros q r. rewrite !Hp. by apply H.
  - intros. rewrite Hp. by apply H.
  - rewrite Hp. apply H.
  - intros q. rewrite Hp. by apply H.
Qed.

Lemma table_ok_ext l s s' :
  table_ok l s -> table s' = table s -> process_head s' = process_head s ->
  kernel_process s' = kernel_process s -> scheduler_cursor s' ∈ l -> current_process s' ∈ l ->
  next_pid s <= next_pid s' -> table_ok l s'.
Proof.
  intros [H Hu] Ht **. split; [by eapply links_ext|].
  intros q. unfold proc. rewrite Ht. apply Hu.
Qed.

Lemma table_ok_set_mach l s m : table_ok l s -> table_ok l (set_mach m s).
Proof. intros [H Hu]. split; [|exact Hu]. eapply links_ext; [exact H|..]; try done; apply H. Qed.
End links.

(** ** Walks *)

Section walks.
Context {S : Type} `{FA : FrameAllocator S}.
Implicit Types (s : pstate S) (l : list Z).

Lemma get_by_pid_loop s id l : forall fuel cursor,
  chain (nexts s) cursor l -> (length l < fuel)%nat ->
  process_get_by_pid_loop fuel id cursor s =
    Ret (first_such (fun q => used (proc s q) && (pid (proc s q) =? id)) l).
Proof.
  induction l as [|q l IH]; intros [|fuel] cursor Hc Hf; simpl in *; try lia.
  - by rewrite Hc.
  - destruct Hc as (-> & Hq & Hc). rewrite eqb_sym_neg by (unfold NULLP; lia).
    case_match; [done|]. apply IH; [done|lia].
Qed.

Lemma first_such_ext f g l : (forall q, q ∈ l -> f q = g q) -> first_such f l = first_such g l.
Proof.
  induction l as [|q l IH]; intros H; [done|]. simpl.
  rewrite (H q) by apply list_elem_of_here.
  by rewrite IH by (intros x Hx; apply H; by apply list_elem_of_further).
Qed.

(** The process with a pid: the walk ends and finds it. *)
Lemma get_by_pid_eq l s id : table_ok l s ->
  process_get_by_pid id s = Ret (first_such (fun q => pid (proc s q) =? id) l).
Proof.
  intros [H Hu]. unfold process_get_by_pid.
  rewrite (get_by_pid_loop s id l); [|apply H|pose proof (links_length _ _ H); unfold walk_fuel; lia].
  f_equal. apply first_such_ext. intros q Hq.
  by rewrite (proj2 (Hu q (lk_range _ _ H q Hq)) Hq).
Qed.

Lemma get_by_pid_in l s p : table_ok l s -> p ∈ l -> process_get_by_pid (pid (proc s p)) s = Ret p.
Proof.
  intros Hok Hp. rewrite (get_by_pid_eq _ _ _ Hok). f_equal.
  destruct (first_such_spec (fun q => pid (proc s q) =? pid (proc s p)) l) as [[_ H]|[Hin H]].
  - specialize (H p Hp). simpl in H. by rewrite Z.eqb_refl in H.
  - apply Z.eqb_eq in H. by apply (lk_pid_inj _ _ (proj1 Hok)).
Qed.

Lemma get_by_pid_cases l s id : table_ok l s ->
  (process_get_by_pid id s = Ret NULLP /\ forall q, q ∈ l -> pid (proc s q) <> id) \/
  (exists p, p ∈ l /\ process_get_by_pid id s = Ret p /\ pid (proc s p) = id).
Proof.
  intros Hok. rewrite (get_by_pid_eq _ _ _ Hok).
  destruct (first_such_spec (fun q => pid (proc s q) =? id) l) as [[-> H]|[Hin H]].
  - left. split; [done|]. intros q Hq. specialize (H q Hq). simpl in H. by apply Z.eqb_neq.
  - right. eexists. split; [exact Hin|]. split; [done|]. by apply Z.eqb_eq.
Qed.

Lemma count_loop s l : forall fuel cursor n,
  chain (nexts s) cursor l -> (length l < fuel)%nat ->
  (forall q, q ∈ l -> used (proc s q) = true) -> 0 <= n -> n + lenZ l < 4294967296 ->
  process_count_loop fuel cursor n s = Ret (n + lenZ l).
Proof.
  induction l as [|q l IH]; intros [|fuel] cursor n Hc Hf Hu Hn Hb; simpl in *; try lia.
  - rewrite Hc. unfold lenZ. simpl. f_equal. lia.
  - destruct Hc as (-> & Hq & Hc). rewrite eqb_sym_neg by (unfold NULLP; lia).
    rewrite Hu by apply list_elem_of_here.
    unfold lenZ in *. simpl length in *.
    rewrite u32_id by (unfold is_u32; lia). rewrite IH; [f_equal; lia|done|lia|set_solver|lia|lia].
Qed.

Lemma process_count_eq l s : table_ok l s -> process_count s = Ret (lenZ l).
Proof.
  intros [H Hu]. pose proof (links_length _ _ H). unfold process_count.
  rewrite (count_loop s l); [done|apply H|unfold walk_fuel; lia| |lia|unfold lenZ; lia].
  intros q Hq. apply Hu; [|done]. by apply (lk_range _ _ H).
Qed.

Lemma list_tail_eq s t l : forall fuel cursor,
  chain (nexts s) cursor (l ++ [t]) -> (length l < fuel)%nat -> list_tail fuel s cursor = Ret t.
Proof.
  induction l as [|q l IH]; intros [|fuel] cursor Hc Hf; simpl in *; try lia.
  - destruct Hc as (-> & ? & Hc). unfold nexts in Hc. by rewrite Hc, Z.eqb_refl.
  - destruct Hc as (-> & Hq & Hc). rewrite eqb_sym_neg; [apply IH; [done|lia]|].
    unfold nexts in Hc. intros E. rewrite E in Hc. apply chain_null in Hc. by destruct l.
Qed.

(** The loop that looks for the predecessor of [p]. *)
Definition unlink_at (prev p : Z) s : pstate S :=
  upd p (set_next NULLP)
    (if prev =? NULLP then set_head (next (proc s p)) s
     else upd prev (set_next (next (proc s p))) s).

Lemma unlink_global_loop_absent s p l : forall fuel cursor prev,
  chain (nexts s) cursor l -> (length l < fuel)%nat -> p ∉ l ->
  unlink_global_loop fuel p cursor prev s = Ret s.
Proof.
  induction l as [|q l IH]; intros [|fuel] cursor prev Hc Hf Hp; simpl in *; try lia.
  - by rewrite Hc.
  - destruct Hc as (-> & Hq & Hc). rewrite eqb_sym_neg by (unfold NULLP; lia).
    rewrite eqb_sym_neg by set_solver. apply IH; [done|lia|set_solver].
Qed.

Lemma unlink_global_loop_found s p l1 l2 : forall fuel cursor prev,
  chain (nexts s) cursor (l1 ++ p :: l2) -> (length l1 < fuel)%nat -> p ∉ l1 ->
  unlink_global_loop fuel p cursor prev s = Ret (unlink_at (List.last l1 prev) p s).
Proof.
  induction l1 as [|q l1 IH]; intros [|fuel] cursor prev Hc Hf Hp; cbn [app length] in *; try lia.
  - destruct Hc as (-> & Hq & Hc). simpl. rewrite eqb_sym_neg by (unfold NULLP; lia).
    by rewrite Z.eqb_refl.
  - destruct Hc as (-> & Hq & Hc). cbn [unlink_global_loop].
    rewrite eqb_sym_neg by (unfold NULLP; lia).
    rewrite eqb_sym_neg by set_solver. rewrite IH by (done || lia || set_solver).
    by rewrite last_cons.
Qed.

Definition unlink_child_at (prev p : Z) s : pstate S :=
  upd p (fun q => set_parent NULLP (set_next_sibling NULLP q))
    (if prev =? NULLP then upd (parent (proc s p)) (set_children (next_sibling (proc s p))) s
     else upd prev (set_next_sibling (next_sibling (proc s p))) s).

Lemma unlink_child_loop_absent s p l : forall fuel cursor prev,
  chain (siblings s) cursor l -> (length l < fuel)%nat -> p ∉ l ->
  unlink_child_loop fuel p cursor prev s = Ret s.
Proof.
  induction l as [|q l IH]; intros [|fuel] cursor prev Hc Hf Hp; simpl in *; try lia.
  - by rewrite Hc.
  - destruct Hc as (-> & Hq & Hc). rewrite eqb_sym_neg by (unfold NULLP; lia).
    rewrite eqb_sym_neg by set_solver. apply IH; [done|lia|set_solver].
Qed.

Lemma unlink_child_loop_found s p l1 l2 : forall fuel cursor prev,
  chain (siblings s) cursor (l1 ++ p :: l2) -> (length l1 < fuel)%nat -> p ∉ l1 ->
  unlink_child_loop fuel p cursor prev s = Ret (unlink_child_at (List.last l1 prev) p s).
Proof.
  induction l1 as [|q l1 IH]; intros [|fuel] cursor prev Hc Hf Hp; cbn [app length] in *; try lia.
  - destruct Hc as (-> & Hq & Hc). simpl. rewrite eqb_sym_neg by (unfold NULLP; lia).
    by rewrite Z.eqb_refl.
  - destruct Hc as (-> & Hq & Hc). cbn [unlink_child_loop].
    rewrite eqb_sym_neg by (unfold NULLP; lia).
    rewrite eqb_sym_neg by set_solver. rewrite IH by (done || lia || set_solver).
    by rewrite last_cons.
Qed.
End walks.

(** ** Linking a new process *)

Section linking.
Context {S : Type} `{FA : FrameAllocator S}.
Implicit Types (s : pstate S) (l : list Z).

(** [y] is [x] but for the fields that link the slots. *)
Definition relinked (x y : process) : Prop :=
  y = set_next (next y) (set_children (children y)
        (set_next_sibling (next_sibling y) (set_parent (parent y) x))).

Lemma relinked_refl x : relinked x x.
Proof. by destruct x. Qed.

Lemma relinked_trans x y z : relinked x y -> relinked y z -> relinked x z.
Proof. unfold relinked. intros Hxy Hyz. rewrite Hyz, Hxy at 1. done. Qed.

Lemma relinked_set_next x y v : relinked x y -> relinked x (set_next v y).
Proof. unfold relinked. intros ->. by destruct x. Qed.
Lemma relinked_set_children x y v : relinked x y -> relinked x (set_children v y).
Proof. unfold relinked. intros ->. by destruct x. Qed.
Lemma relinked_set_next_sibling x y v : relinked x y -> relinked x (set_next_sibling v y).
Proof. unfold relinked. intros ->. by destruct x. Qed.
Lemma relinked_set_parent x y v : relinked x y -> relinked x (set_parent v y).
Proof. unfold relinked. intros ->. by destruct x. Qed.

Lemma relinked_fields x y : relinked x y ->
  pid y = pid x /\ status y = status x /\ owner y = owner x /\ memory y = memory x /\
  signals y = signals x /\ socket y = socket x /\ entry y = entry x /\
  signal_handler y = signal_handler x /\ context y = context x /\ exit_code y = exit_code x /\
  wait_target_pid y = wait_target_pid x /\ used y = used x.
Proof. unfold relinked. intros ->. by repeat split. Qed.

Lemma relinked_runtime x y : relinked x y ->
  rights y = rights x /\ runtime_arg0 y = runtime_arg0 x /\ runtime_arg1 y = runtime_arg1 x.
Proof. unfold relinked. intros ->. by repeat split. Qed.

(** The fields of the state no list operation touches. *)
Definition same_globals s s' : Prop :=
  kernel_process s' = kernel_process s /\ current_process s' = current_process s /\
  scheduler_cursor s' = scheduler_cursor s /\ next_pid s' = next_pid s /\
  pending_scheduler_ticks s' = pending_scheduler_ticks s /\
  total_scheduler_ticks s' = total_scheduler_ticks s /\
  total_context_switches s' = total_context_switches s /\
  scheduler_enabled s' = scheduler_enabled s /\ mach s' = mach s.

Lemma same_globals_upd p f s : same_globals s (upd p f s).
Proof. done. Qed.

Lemma same_globals_trans s1 s2 s3 : same_globals s1 s2 -> same_globals s2 s3 -> same_globals s1 s3.
Proof. unfold same_globals. intuition congruence. Qed.

Lemma link_child_proc s par p :
  lenZ (table s) = PROCESS_MAX_COUNT -> 0 <= p < PROCESS_MAX_COUNT -> 0 <= par < PROCESS_MAX_COUNT ->
  p <> par ->
  let s1 := process_link_child par p s in
  same_globals s s1 /\ process_head s1 = process_head s /\ lenZ (table s1) = PROCESS_MAX_COUNT /\
  forall q, proc s1 q =
    if q =? p then set_next_sibling (children (proc s par)) (set_parent par (proc s p))
    else if q =? par then set_children p (proc s par) else proc s q.
Proof.
  intros Hl Hp Hpar Hne s1. unfold s1, process_link_child.
  rewrite (eqb_sym_neg par NULLP) by (unfold NULLP; lia).
  set (s0 := upd p _ s).
  assert (lenZ (table s0) = PROCESS_MAX_COUNT) as Hl0 by (unfold s0; by rewrite len_upd).
  assert (proc s0 par = proc s par) as Hpar0 by (unfold s0; by rewrite proc_upd_ne).
  destruct (Z.eqb_spec (children (proc s0 par)) NULLP) as [E|E].
  - split; [done|]. split; [done|]. split; [by rewrite len_upd|]. intros q.
    rewrite proc_upd by (by rewrite Hl0). rewrite Hpar0 in *.
    destruct (Z.eqb_spec q par) as [->|]; [by rewrite eqb_sym_neg|].
    unfold s0. rewrite proc_upd by (by rewrite Hl). by rewrite E.
  - split; [done|]. split; [done|]. split; [by rewrite !len_upd|]. intros q.
    rewrite proc_upd by (by rewrite len_upd, Hl0).
    rewrite proc_upd_ne by done. rewrite Hpar0.
    destruct (Z.eqb_spec q par) as [->|]; [by rewrite eqb_sym_neg|].
    rewrite proc_upd by (by rewrite Hl0). unfold s0. rewrite !proc_upd by (by rewrite Hl).
    rewrite Z.eqb_refl. by destruct (Z.eqb_spec q p).
Qed.

(** The state after both calls, field by field. *)
Lemma link_both_fields l s par p :
  links l s -> p ∉ l -> 0 <= p < PROCESS_MAX_COUNT -> par ∈ l -> next (proc s p) = NULLP ->
  exists t l0 s', l = l0 ++ [t] /\ process_link_global p (process_link_child par p s) = Ret s' /\
    same_globals s s' /\ process_head s' = process_head s /\
    lenZ (table s') = PROCESS_MAX_COUNT /\
    (forall q, relinked (proc s q) (proc s' q)) /\
    (forall q, parent (proc s' q) = if q =? p then par else parent (proc s q)) /\
    (forall q, children (proc s' q) = if q =? par then p else children (proc s q)) /\
    (forall q, siblings s' q = if q =? p then children (proc s par) else siblings s q) /\
    (forall q, nexts s' q = if q =? t then p else nexts s q).
Proof.
  intros H Hp Hr Hpar Hnp.
  assert (p <> par) as Hne by set_solver.
  destruct (link_child_proc s par p (lk_len _ _ H) Hr (lk_range _ _ H _ Hpar) Hne)
    as (Hg1 & Hh1 & Hl1 & Hproc1).
  set (s1 := process_link_child par p s) in *.
  assert (forall q, nexts s1 q = nexts s q) as Hnx1 by (intros q; unfold nexts; rewrite Hproc1; slots).
  destruct (lk_root _ _ H) as [l' El]. pose proof (lk_chain _ _ H) as Hc.
  destruct (exists_last (l := l)) as (l0 & t & Et); [by rewrite El|].
  assert (t ∈ l) as Ht by (rewrite Et; set_solver).
  assert (p <> t) as Hpt by set_solver.
  exists t, l0. unfold process_link_global.
  rewrite eqb_sym_neg by (rewrite Hh1, (links_head _ _ H); done).
  pose proof (links_length _ _ H) as Hlen. rewrite Et, length_app in Hlen. simpl in Hlen.
  rewrite (list_tail_eq s1 t l0); [|rewrite Hh1, <- Et; by eapply chain_ext; [|exact Hc]|unfold walk_fuel; lia].
  cbn [mbind outcome_bind]. eexists. split; [done|]. split; [done|].
  assert (forall q, proc (upd t (set_next p) s1) q = if q =? t then set_next p (proc s1 t) else proc s1 q)
    as Hproc' by (intros q; apply proc_upd; rewrite Hl1; by apply (lk_range _ _ H)).
  split; [exact Hg1|]. split; [exact Hh1|]. split; [by rewrite len_upd|].
  unfold siblings, nexts. split; [|split; [|split; [|split]]]; intros q; rewrite Hproc', !Hproc1.
  - slots; auto using relinked_refl, relinked_set_next, relinked_set_children,
      relinked_set_next_sibling, relinked_set_parent.
  - slots.
  - slots.
  - slots.
  - slots.
Qed.

Lemma link_both l s par p :
  links l s -> p ∉ l -> 0 <= p < PROCESS_MAX_COUNT -> par ∈ l ->
  next (proc s p) = NULLP -> children (proc s p) = NULLP ->
  1 <= pid (proc s p) < next_pid s -> (forall q, q ∈ l -> pid (proc s q) <> pid (proc s p)) ->
  (entry (proc s p) <> NoEntry -> context (proc s p) <> CtxZero) ->
  exists s', process_link_global p (process_link_child par p s) = Ret s' /\
    links (l ++ [p]) s' /\ same_globals s s' /\ (forall q, relinked (proc s q) (proc s' q)) /\
    (forall q, parent (proc s' q) = if q =? p then par else parent (proc s q)) /\
    (forall r cl, r ∈ l -> children_are s r cl -> (forall c, c ∈ cl -> c ∈ l) ->
       children_are s' r (if r =? par then p :: cl else cl)).
Proof.
  intros H Hp Hr Hpar Hnp Hcp Hpid Hfresh Hctx.
  destruct (link_both_fields l s par p H Hp Hr Hpar Hnp)
    as (t & l0 & s' & El & E & Hg & Hh & Hl & Hrel & Hparent & Hchild & Hsib & Hnext).
  exists s'. split; [exact E|].
  assert (forall r cl, r ∈ l -> children_are s r cl -> (forall c, c ∈ cl -> c ∈ l) ->
    children_are s' r (if r =? par then p :: cl else cl)) as Hlists.
  { intros r cl Hrl Hc Hcl. unfold children_are. rewrite Hchild.
    assert (chain (siblings s') (children (proc s r)) cl).
    { eapply chain_ext; [|exact Hc]. intros q Hq. rewrite Hsib, eqb_sym_neg; [done|set_solver]. }
    destruct (Z.eqb_spec r par) as [->|]; [|done]. repeat split; [lia|]. by rewrite Hsib, Z.eqb_refl. }
  split; [|by auto].
  destruct Hg as (Hk & Hcur & Hsc & Hnpid & _).
  assert (forall q, q ∈ l -> q <> p) as Hne by set_solver.
  constructor.
  - exact Hl.
  - rewrite Hk. apply H.
  - rewrite Hh, El, <- app_assoc. pose proof (lk_nodup _ _ H) as Hnd. pose proof (lk_chain _ _ H) as Hc.
    rewrite El in Hnd, Hc, Hne. apply NoDup_app in Hnd as (_ & Hnd & _).
    assert (p <> t) by (intros ->; by apply (Hne t); set_solver).
    eapply chain_snoc; [..|exact Hc].
    + intros x Hx. rewrite Hnext, eqb_sym_neg; [done|]. intros ->. set_solver.
    + by rewrite Hnext, Z.eqb_refl.
    + by rewrite Hnext, eqb_sym_neg.
    + lia.
  - destruct (lk_root _ _ H) as [l' ->]. by exists (l' ++ [p]).
  - apply NoDup_app. split; [apply H|]. split; [set_solver|apply NoDup_singleton].
  - intros q [Hq| ->%list_elem_of_singleton]%elem_of_app; [by apply (lk_range _ _ H)|done].
  - intros r [Hrl| ->%list_elem_of_singleton]%elem_of_app.
    + destruct (lk_children _ _ H r Hrl) as (cl & Hc & Hnd & Hcl).
      eexists. split; [apply Hlists; [done|exact Hc|intros; by apply Hcl]|].
      destruct (Z.eqb_spec r par) as [->|].
      * split; [constructor; [intros Hin; by apply Hp, Hcl|done]|].
        intros c [->|Hin]%elem_of_cons; [split; [set_solver|by rewrite Hparent, Z.eqb_refl]|].
        destruct (Hcl c Hin). rewrite Hparent, eqb_sym_neg by auto. split; [set_solver|done].
      * split; [done|]. intros c Hin. destruct (Hcl c Hin).
        rewrite Hparent, eqb_sym_neg by auto. split; [set_solver|done].
    + exists []. split; [|split; [constructor|set_solver]].
      unfold children_are. rewrite Hchild, eqb_sym_neg by set_solver. exact Hcp.
  - intros q Hq Hin. rewrite Hchild, eqb_sym_neg by set_solver. apply (lk_free _ _ H); [done|set_solver].
  - intros q Hq. rewrite Hparent. destruct (Z.eqb_spec q p) as [->|].
    + assert (p <> par) by set_solver. right. split; [by apply (lk_range _ _ H)|by apply not_eq_sym].
    + apply (lk_parent _ _ H). set_solver.
  - intros q Hq. rewrite Hnpid. destruct (relinked_fields _ _ (Hrel q)) as (-> & _).
    apply elem_of_app in Hq as [Hq| ->%list_elem_of_singleton]; [by apply (lk_pids _ _ H)|done].
  - intros q r Hq Hr'. destruct (relinked_fields _ _ (Hrel q)) as (-> & _).
    destruct (relinked_fields _ _ (Hrel r)) as (-> & _).
    apply elem_of_app in Hq as [Hq| ->%list_elem_of_singleton];
      apply elem_of_app in Hr' as [Hr'| ->%list_elem_of_singleton]; intros Epid.
    + by apply (lk_pid_inj _ _ H).
    + by destruct (Hfresh q Hq).
    + by destruct (Hfresh r Hr').
    + done.
  - rewrite Hsc. apply elem_of_app. left. apply H.
  - rewrite Hcur. apply elem_of_app. left. apply H.
  - intros q Hq. unfold queues_ok.
    destruct (relinked_fields _ _ (Hrel q)) as (_ & _ & _ & _ & -> & -> & _). by apply (lk_queues _ _ H).
  - rewrite Hparent, eqb_sym_neg by (apply Hne, (links_root_in _ _ H)).
    destruct (relinked_fields _ _ (Hrel 0)) as (_ & _ & _ & _ & _ & _ & -> & _). apply H.
  - intros q Hq. destruct (relinked_fields _ _ (Hrel q)) as (_ & _ & _ & _ & _ & _ & -> & _ & -> & _).
    apply elem_of_app in Hq as [Hq| ->%list_elem_of_singleton]; [by apply (lk_context _ _ H)|done].
Qed.
End linking.

(** ** Unlinking a process *)

(** [l] without [p]. *)
Definition without (p : Z) (l : list Z) : list Z := filter (fun q => q <> p) l.

Lemma without_in p l q : q ∈ without p l <-> q <> p /\ q ∈ l.
Proof. unfold without. by rewrite list_elem_of_filter. Qed.

Lemma without_absent p l : p ∉ l -> without p l = l.
Proof.
  unfold without. induction l as [|q l IH]; intros Hp; [done|].
  rewrite filter_cons_True by set_solver. f_equal. apply IH. set_solver.
Qed.

Lemma without_split p l1 l2 : NoDup (l1 ++ p :: l2) -> without p (l1 ++ p :: l2) = l1 ++ l2.
Proof.
  intros (_ & Hd & Hnd)%NoDup_app. apply NoDup_cons in Hnd as [Hp _].
  unfold without. rewrite filter_app, filter_cons_False by tauto.
  pose proof (without_absent p l1 (fun Hin => Hd p Hin (list_elem_of_here p l2))) as E1.
  pose proof (without_absent p l2 Hp) as E2. unfold without in *. by rewrite E1, E2.
Qed.

Lemma NoDup_without p l : NoDup l -> NoDup (without p l).
Proof. apply NoDup_filter. Qed.

(** A chain without one of its slots, when the predecessor takes over the
    field of that slot: [prev] is the predecessor, or null for the head. *)
Lemma chain_without nxt nxt' hd hd' p l1 l2 :
  chain nxt hd (l1 ++ p :: l2) -> NoDup (l1 ++ p :: l2) ->
  (forall q, q <> p -> q <> List.last l1 NULLP -> nxt' q = nxt q) ->
  match l1 with [] => hd' = nxt p | _ => hd' = hd /\ nxt' (List.last l1 NULLP) = nxt p end ->
  chain nxt' hd' (without p (l1 ++ p :: l2)).
Proof.
  intros Hc Hnd Hext Hhd. rewrite (without_split _ _ _ Hnd).
  destruct l1 as [|x l1 _] using rev_ind.
  - simpl in *. subst. assert (hd = p) as -> by apply Hc. apply NoDup_cons in Hnd as [Hp _].
    eapply chain_unlink_head; [|exact Hc]. intros q Hq. apply Hext; [set_solver|].
    intros ->. apply (chain_not_null nxt p (p :: l2) Hc). set_solver.
  - rewrite List.last_last in *. destruct (l1 ++ [x]) eqn:E; [by destruct l1|]. rewrite <- E in *.
    destruct Hhd as [-> Hx]. rewrite <- app_assoc in *. simpl in *.
    apply NoDup_app in Hnd as (_ & Hd & Hnd). apply NoDup_cons in Hnd as [Hxp Hnd].
    apply NoDup_cons in Hnd as [Hp _].
    eapply chain_unlink_mid; [..|exact Hc]; [| |done]; intros q Hq; apply Hext; set_solver.
Qed.

Section unlinking.
Context {S : Type} `{FA : FrameAllocator S}.
Implicit Types (s : pstate S) (l : list Z).

(** [process_unlink_global] takes [p] out of the list of all processes and
    touches nothing else. *)
Lemma unlink_global_fields l s p :
  lenZ (table s) = PROCESS_MAX_COUNT -> chain (nexts s) (process_head s) l -> NoDup l ->
  (forall q, q ∈ l -> 0 <= q < PROCESS_MAX_COUNT) -> p ∈ l ->
  exists s', process_unlink_global p s = Ret s' /\ same_globals s s' /\
    lenZ (table s') = PROCESS_MAX_COUNT /\ chain (nexts s') (process_head s') (without p l) /\
    (forall q, relinked (proc s q) (proc s' q)) /\
    (forall q, parent (proc s' q) = parent (proc s q)) /\
    (forall q, children (proc s' q) = children (proc s q)) /\
    (forall q, siblings s' q = siblings s q).
Proof.
  intros Hl Hc Hnd Hr Hp.
  assert (length l <= 16)%nat as Hlen by (apply (NoDup_slots l 16); [lia|done|done]).
  pose proof (Hr p Hp) as Hrp.
  apply list_elem_of_split in Hp as (l1 & l2 & ->). rewrite length_app in Hlen. simpl in Hlen.
  pose proof Hnd as (_ & Hd & Hnd2)%NoDup_app.
  unfold process_unlink_global.
  rewrite (unlink_global_loop_found s p l1 l2); [|exact Hc|unfold walk_fuel; lia|set_solver].
  eexists. split; [done|]. unfold unlink_at.
  set (prev := List.last l1 NULLP).
  destruct (Z.eqb_spec prev NULLP) as [E|E].
  - assert (l1 = []) as ->.
    { destruct l1 as [|x l1 _] using rev_ind; [done|]. unfold prev in E. rewrite List.last_last in E.
      subst x. destruct (Hr NULLP); [set_solver|done]. }
    assert (forall q, proc (upd p (set_next NULLP) (set_head (next (proc s p)) s)) q =
      if q =? p then set_next NULLP (proc s p) else proc s q) as Hproc
      by (intros q; apply (proc_upd (set_head (next (proc s p)) s)); rewrite <- Hl in Hrp; exact Hrp).
    split; [done|]. split; [by rewrite len_upd|].
    split; [apply (chain_without (nexts s) _ (process_head s)); [done|done| |done];
            intros q Hq _; unfold nexts; rewrite Hproc; slots|].
    unfold siblings. split; [|split; [|split]]; intros q; rewrite Hproc; slots;
      auto using relinked_refl, relinked_set_next.
  - assert (prev ∈ l1) as Hprev.
    { destruct l1 as [|x l1 _] using rev_ind; [done|]. unfold prev. rewrite List.last_last. set_solver. }
    assert (prev <> p) as Hpp by (intros ->; set_solver).
    assert (0 <= prev < lenZ (table s)) as Hrprev by (rewrite Hl; apply Hr; set_solver).
    assert (forall q, proc (upd p (set_next NULLP) (upd prev (set_next (next (proc s p))) s)) q =
      if q =? p then set_next NULLP (proc s p)
      else if q =? prev then set_next (next (proc s p)) (proc s prev) else proc s q) as Hproc.
    { intros q. rewrite proc_upd by (by rewrite len_upd, Hl). rewrite !proc_upd by done. slots. }
    split; [done|]. split; [by rewrite !len_upd|].
    split.
    { apply (chain_without (nexts s) _ (process_head s)); [done|done| |].
      - intros q Hq Hq'. unfold nexts. rewrite Hproc. fold prev in Hq'. slots.
      - destruct l1 eqn:El; [done|]. rewrite <- El. fold prev. split; [done|].
        unfold nexts. rewrite Hproc. slots. }
    unfold siblings. split; [|split; [|split]]; intros q; rewrite Hproc; slots;
      auto using relinked_refl, relinked_set_next.
Qed.

(** [s'] is [s] with [p] taken out of its parent's list of children. *)
Record child_unlinked l p s s' : Prop := {
  cu_globals : same_globals s s';
  cu_head : process_head s' = process_head s;
  cu_len : lenZ (table s') = PROCESS_MAX_COUNT;
  cu_rel q : relinked (proc s q) (proc s' q);
  cu_next q : nexts s' q = nexts s q;
  cu_parent q : q <> p -> parent (proc s' q) = parent (proc s q);
  cu_children q : q ∉ l -> children (proc s' q) = children (proc s q);
  cu_lists r cl : r ∈ l -> children_are s r cl -> NoDup cl ->
    (forall c, c ∈ cl -> parent (proc s c) = r) -> children_are s' r (without p cl);
}.

(** Nothing is done when [p] is not in the list of its parent. *)
Lemma child_unlinked_skip l s p :
  lenZ (table s) = PROCESS_MAX_COUNT ->
  (forall cl, parent (proc s p) ∈ l -> children_are s (parent (proc s p)) cl -> p ∉ cl) ->
  child_unlinked l p s s.
Proof.
  intros Hl Habs. constructor; auto using relinked_refl; [done|].
  intros r cl Hr Hc Hnd Hcl. rewrite without_absent; [done|]. intros Hin.
  specialize (Hcl p Hin). subst r. by eapply Habs.
Qed.

Lemma child_unlinked_found l s p l1 l2 :
  links l s -> p ∈ l -> parent (proc s p) ∈ l -> parent (proc s p) <> p ->
  children_are s (parent (proc s p)) (l1 ++ p :: l2) -> NoDup (l1 ++ p :: l2) ->
  (forall c, c ∈ l1 ++ p :: l2 -> c ∈ l /\ parent (proc s c) = parent (proc s p)) ->
  child_unlinked l p s (unlink_child_at (List.last l1 NULLP) p s).
Proof.
  intros H Hp Hpar Hne Hc Hnd Hcl. pose proof (lk_len _ _ H) as Hl.
  set (par := parent (proc s p)) in *. set (prev := List.last l1 NULLP).
  pose proof (links_proc _ _ _ H Hp) as Hrp. pose proof (links_proc _ _ _ H Hpar) as Hrpar.
  assert (forall x, x ∈ l1 -> x <> p) as Hl1.
  { intros x Hx ->. apply NoDup_app in Hnd as (_ & Hd & _). apply (Hd p Hx), list_elem_of_here. }
  assert (prev = NULLP /\ l1 = [] \/ prev <> NULLP /\ prev ∈ l1 /\ l1 <> []) as Hprev.
  { unfold prev. destruct l1 as [|x l1 _] using rev_ind; [by left|]. right. rewrite List.last_last.
    split; [|split; [set_solver|by destruct l1]]. intros ->.
    apply (chain_not_null _ _ _ Hc). set_solver. }
  assert (prev ∈ l1 -> 0 <= prev < lenZ (table s)) as Hrprev
    by (intros Hin; apply (links_proc _ _ _ H), Hcl; set_solver).
  set (s' := unlink_child_at prev p s).
  assert (forall q, proc s' q =
    if q =? p then set_parent NULLP (set_next_sibling NULLP (proc s p))
    else if (prev =? NULLP) && (q =? par) then set_children (next_sibling (proc s p)) (proc s par)
    else if negb (prev =? NULLP) && (q =? prev) then set_next_sibling (next_sibling (proc s p)) (proc s prev)
    else proc s q) as Hproc.
  { intros q. unfold s', unlink_child_at. fold par.
    destruct Hprev as [[-> ->]|(Hpn & Hpi & _)]; [|rewrite (eqb_sym_neg _ _ Hpn)];
      simpl; (rewrite proc_upd by (by rewrite len_upd));
      [rewrite !(proc_upd _ par) by done|rewrite !(proc_upd _ prev) by auto].
    - by rewrite (eqb_sym_neg p par) by done.
    - rewrite (eqb_sym_neg p prev) by (intros E; by apply (Hl1 prev)). done. }
  assert (forall q, siblings s' q = if q =? p then NULLP else if negb (prev =? NULLP) && (q =? prev)
    then siblings s p else siblings s q) as Hsib.
  { intros q. unfold siblings. rewrite Hproc. destruct (prev =? NULLP); simpl; slots. }
  assert (forall q, children (proc s' q) = if (prev =? NULLP) && (q =? par) && negb (q =? p) then siblings s p
    else children (proc s q)) as Hchild.
  { intros q. unfold siblings. rewrite Hproc. destruct (prev =? NULLP); simpl; slots. }
  constructor.
  - unfold s', unlink_child_at. by destruct (prev =? NULLP).
  - unfold s', unlink_child_at. by destruct (prev =? NULLP).
  - unfold s', unlink_child_at. by destruct (prev =? NULLP); rewrite !len_upd.
  - intros q. rewrite Hproc. destruct (prev =? NULLP); simpl; slots;
      auto using relinked_refl, relinked_set_next_sibling, relinked_set_parent, relinked_set_children.
  - intros q. unfold nexts. rewrite Hproc. destruct (prev =? NULLP); simpl; slots.
  - intros q Hq. rewrite Hproc. destruct (prev =? NULLP); simpl; slots.
  - intros q Hq. rewrite Hchild, (eqb_sym_neg q par) by (intros ->; done). by rewrite andb_false_r.
  - intros r cl Hr Hc' Hnd' Hcl'. unfold children_are. destruct (Z.eqb_spec r par) as [->|Hrp'].
    + assert (cl = l1 ++ p :: l2) as -> by (eapply chain_fun; [exact Hc'|exact Hc]).
      apply (chain_without (siblings s) _ (children (proc s par))); [done|done| |].
      * intros q Hq Hq'. fold prev in Hq'. rewrite Hsib, (eqb_sym_neg q p), (eqb_sym_neg q prev) by done.
        by rewrite andb_false_r.
      * rewrite Hchild, Z.eqb_refl, (eqb_sym_neg par p) by done. fold prev.
        destruct Hprev as [[-> ->]|(Hpn & Hpi & Hn)]; [done|].
        destruct l1 as [|y l1']; [done|]. rewrite (eqb_sym_neg _ _ Hpn). split; [done|].
        rewrite Hsib, (eqb_sym_neg prev p), (eqb_sym_neg _ _ Hpn), Z.eqb_refl by auto. done.
    + rewrite without_absent by (intros Hin; by specialize (Hcl' p Hin)).
      rewrite Hchild, (eqb_sym_neg r par), andb_false_r by done. simpl.
      eapply chain_ext; [|exact Hc']. intros q Hq. rewrite Hsib.
      destruct (Z.eqb_spec q p) as [->|]; [by specialize (Hcl' p Hq)|].
      destruct Hprev as [[-> ->]|(Hpn & Hpi & Hn)]; [done|].
      rewrite (eqb_sym_neg q prev), andb_false_r; [done|]. intros ->.
      destruct (Hcl prev); [set_solver|]. specialize (Hcl' prev Hq). congruence.
Qed.

Lemma unlink_child_fields l s p : links l s -> p ∈ l ->
  exists s', process_unlink_child p s = Ret s' /\ child_unlinked l p s s'.
Proof.
  intros H Hp. pose proof (lk_len _ _ H) as Hl.
  unfold process_unlink_child. rewrite (eqb_sym_neg p NULLP) by exact (links_not_null _ _ _ H Hp).
  destruct (Z.eqb_spec (parent (proc s p)) NULLP) as [E|E]; cbn [orb].
  { eexists. split; [done|]. apply child_unlinked_skip; [done|]. intros cl Hin.
    by apply (links_not_null _ _ _ H) in Hin. }
  assert (0 <= parent (proc s p) < PROCESS_MAX_COUNT /\ parent (proc s p) <> p) as [Hpr Hpp]
    by (destruct (lk_parent _ _ H p Hp); [congruence|assumption]).
  destruct (decide (parent (proc s p) ∈ l)) as [Hin|Hin].
  - destruct (lk_children _ _ H _ Hin) as (cl & Hc & Hnd & Hcl).
    assert (length cl <= 16)%nat as Hlen.
    { apply (NoDup_slots cl 16); [lia|done|]. intros q Hq. apply (lk_range _ _ H). by apply Hcl. }
    destruct (decide (p ∈ cl)) as [Hpc|Hpc].
    + apply list_elem_of_split in Hpc as (l1 & l2 & ->). rewrite length_app in Hlen.
      rewrite (unlink_child_loop_found s p l1 l2); [|exact Hc|simpl in Hlen; unfold walk_fuel; lia|].
      2:{ apply NoDup_app in Hnd as (_ & Hd & _). intros Hx. apply (Hd p Hx), list_elem_of_here. }
      eexists. split; [done|]. by eapply child_unlinked_found.
    + rewrite (unlink_child_loop_absent s p cl); [|exact Hc|unfold walk_fuel; lia|exact Hpc].
      eexists. split; [done|]. apply child_unlinked_skip; [done|]. intros cl' _ Hc'.
      by rewrite (chain_fun _ _ _ _ Hc' Hc).
  - rewrite (lk_free _ _ H _ Hpr Hin). eexists. split; [done|].
    by apply child_unlinked_skip.
Qed.

(** Both calls together, on the chain of [links]. *)
Lemma unlink_both l s p : links l s -> p ∈ l ->
  exists s1 s2, process_unlink_child p s = Ret s1 /\ process_unlink_global p s1 = Ret s2 /\
    same_globals s s2 /\ lenZ (table s2) = PROCESS_MAX_COUNT /\
    chain (nexts s2) (process_head s2) (without p l) /\
    (forall q, relinked (proc s q) (proc s2 q)) /\
    (forall q, q <> p -> parent (proc s2 q) = parent (proc s q)) /\
    (forall q, q ∉ l -> children (proc s2 q) = children (proc s q)) /\
    (forall r cl, r ∈ l -> children_are s r cl -> NoDup cl ->
       (forall c, c ∈ cl -> parent (proc s c) = r) -> children_are s2 r (without p cl)).
Proof.
  intros H Hp. destruct (unlink_child_fields l s p H Hp) as (s1 & E1 & [Hg Hh Hl Hrel Hnx Hpar Hch Hlists]).
  destruct (unlink_global_fields l s1 p) as (s2 & E2 & Hg2 & Hl2 & Hc2 & Hrel2 & Hpar2 & Hch2 & Hsib2).
  - exact Hl.
  - rewrite Hh. eapply chain_ext; [|apply H]. intros. apply Hnx.
  - apply H.
  - apply (lk_range _ _ H).
  - exact Hp.
  - exists s1, s2. split; [exact E1|]. split; [exact E2|]. split; [by eapply same_globals_trans|].
    split; [exact Hl2|]. split; [exact Hc2|]. split; [intros; by eapply relinked_trans|].
    split; [intros; rewrite Hpar2; auto|]. split; [intros; rewrite Hch2; auto|].
    intros r cl Hr Hc Hnd Hcl. unfold children_are. rewrite Hch2.
    eapply chain_ext; [|by apply (Hlists r cl)]. auto.
Qed.

(** The table after [process_release]: slot [p] is zero, the lists lose it. *)
Record released l p s s' : Prop := {
  rl_table : table_ok (without p l) s';
  rl_slot : proc s' p = zero_process;
  rl_rel q : q <> p -> relinked (proc s q) (proc s' q);
  rl_parent q : q <> p -> parent (proc s' q) = parent (proc s q);
  rl_children r cl : r ∈ l -> r <> p -> children_are s r cl -> NoDup cl ->
    (forall c, c ∈ cl -> parent (proc s c) = r) -> children_are s' r (without p cl);
  rl_kernel : kernel_process s' = kernel_process s;
  rl_current : current_process s' = current_process s;
  rl_next_pid : next_pid s' = next_pid s;
  rl_enabled : scheduler_enabled s' = scheduler_enabled s;
}.

Lemma zero_queues_ok : queues_ok zero_process.
Proof. split; apply ring_empty_ok; done. Qed.

(** Zeroing a slot whose lists have lost it. *)
Lemma links_zero l s s2 p :
  links l s -> p ∈ l -> p <> 0 -> current_process s <> p -> scheduler_cursor s <> p ->
  same_globals s s2 -> lenZ (table s2) = PROCESS_MAX_COUNT ->
  chain (nexts s2) (process_head s2) (without p l) ->
  (forall q, relinked (proc s q) (proc s2 q)) ->
  (forall q, q <> p -> parent (proc s2 q) = parent (proc s q)) ->
  (forall q, q ∉ l -> children (proc s2 q) = children (proc s q)) ->
  (forall r cl, r ∈ l -> children_are s r cl -> NoDup cl ->
     (forall c, c ∈ cl -> parent (proc s c) = r) -> children_are s2 r (without p cl)) ->
  links (without p l) (upd p (fun _ => zero_process) s2).
Proof.
  intros H Hp Hp0 Hcur Hcursor (Hk & Hcu & Hsc & Hnp & _) Hl Hc Hrel Hpar Hch Hlists.
  pose proof (lk_range _ _ H p Hp) as Hrp.
  set (s' := upd p _ s2).
  assert (forall q, proc s' q = if q =? p then zero_process else proc s2 q) as Hproc
    by (intros q; apply proc_upd; by rewrite Hl).
  assert (forall q, q ∈ without p l -> q <> p /\ q ∈ l /\ proc s' q = proc s2 q) as Hin.
  { intros q [Hq Hql]%without_in. by rewrite Hproc, eqb_sym_neg. }
  constructor.
  - unfold s'. by rewrite len_upd.
  - rewrite <- (lk_kernel _ _ H). exact Hk.
  - eapply chain_ext; [|exact Hc]. intros q Hq. unfold nexts. destruct (Hin q Hq) as (_ & _ & E). by rewrite E.
  - destruct (lk_root _ _ H) as [l' ->]. exists (without p l'). unfold without.
    by rewrite filter_cons_True by auto.
  - apply NoDup_without, H.
  - intros q Hq. apply (lk_range _ _ H). by apply Hin.
  - intros r Hr. destruct (Hin r Hr) as (Hrp' & Hrl & Er).
    destruct (lk_children _ _ H r Hrl) as (cl & Hcl & Hnd & Hall).
    exists (without p cl). split; [|split; [by apply NoDup_without|]].
    + unfold children_are. rewrite Er. eapply chain_ext; [|apply (Hlists r cl); try done].
      * intros q [Hq _]%without_in. unfold siblings. by rewrite Hproc, eqb_sym_neg.
      * intros c Hcc. by apply Hall.
    + intros c [Hcp Hcc]%without_in. destruct (Hall c Hcc) as [Hcl' Hpc].
      split; [by apply without_in|]. by rewrite Hproc, eqb_sym_neg, Hpar by done.
  - intros q Hq Hnin. rewrite Hproc. destruct (Z.eqb_spec q p) as [->|Hne]; [done|].
    assert (q ∉ l) as Hnl by (intros ?; apply Hnin; by apply without_in).
    rewrite Hch by done. by apply (lk_free _ _ H).
  - intros q Hq. destruct (Hin q Hq) as (Hqp & Hql & ->). rewrite Hpar by done. by apply (lk_parent _ _ H).
  - intros q Hq. destruct (Hin q Hq) as (Hqp & Hql & ->). change (next_pid s') with (next_pid s2).
    rewrite Hnp. destruct (relinked_fields _ _ (Hrel q)) as (-> & _). by apply (lk_pids _ _ H).
  - intros q r Hq Hr. destruct (Hin q Hq) as (_ & Hql & ->). destruct (Hin r Hr) as (_ & Hrl & ->).
    destruct (relinked_fields _ _ (Hrel q)) as (-> & _). destruct (relinked_fields _ _ (Hrel r)) as (-> & _).
    by apply (lk_pid_inj _ _ H).
  - change (scheduler_cursor s') with (scheduler_cursor s2). rewrite Hsc. apply without_in. split; [done|apply H].
  - change (current_process s') with (current_process s2). rewrite Hcu. apply without_in. split; [done|apply H].
  - intros q Hq. rewrite Hproc. destruct (q =? p); [apply zero_queues_ok|]. unfold queues_ok.
    destruct (relinked_fields _ _ (Hrel q)) as (_ & _ & _ & _ & -> & -> & _). by apply (lk_queues _ _ H).
  - rewrite Hproc, eqb_sym_neg, Hpar by auto.
    destruct (relinked_fields _ _ (Hrel 0)) as (_ & _ & _ & _ & _ & _ & -> & _). apply H.
  - intros q Hq. destruct (Hin q Hq) as (_ & Hql & ->).
    destruct (relinked_fields _ _ (Hrel q)) as (_ & _ & _ & _ & _ & _ & -> & _ & -> & _).
    by apply (lk_context _ _ H).
Qed.
End unlinking.

Section releasing.
Context {S : Type} `{FA : FrameAllocator S}.
Implicit Types (s : pstate S) (l : list Z).

Lemma same_links_memory x v : same_links x (set_memory v x).
Proof. by constructor. Qed.

Lemma queues_ok_in l s q : links l s -> q ∈ l -> queues_ok (proc s q).
Proof. intros H Hq. apply (lk_queues _ _ H). by apply (lk_range _ _ H). Qed.

(** The state just before the unlinking: cursor moved off [p], pages freed. *)
Definition unpaged (p : Z) (m : machine S) s : pstate S :=
  upd p (set_memory process_reset_memory)
    (set_mach m (if scheduler_cursor s =? p then set_cursor (process_head s) s else s)).

Lemma unpaged_proc p m s q : proc (unpaged p m s) q = if (q =? p) && (0 <=? p) && (p <? lenZ (table s))
  then set_memory process_reset_memory (proc s p) else proc s q.
Proof.
  unfold unpaged. set (s1 := set_mach _ _).
  assert (table s1 = table s) as Ht by (unfold s1; by destruct (_ =? _)).
  assert (forall x, proc s1 x = proc s x) as Hp by (intros; unfold proc; by rewrite Ht).
  destruct (Z.eqb_spec q p) as [->|]; cbn [andb]; [|by rewrite proc_upd_ne].
  destruct (Z.leb_spec 0 p); destruct (Z.ltb_spec p (lenZ (table s))); cbn [andb];
    try (rewrite upd_out; [done|rewrite Ht; lia]).
  rewrite (proc_upd_eq s1); [by rewrite Hp|rewrite Ht; lia].
Qed.

Lemma links_unpaged l s p m : links l s -> p ∈ l -> p <> 0 ->
  links l (unpaged p m s) /\ scheduler_cursor (unpaged p m s) <> p.
Proof.
  intros H Hp Hp0. pose proof (links_head _ _ H) as Hh.
  split; [|unfold unpaged; simpl; destruct (Z.eqb_spec (scheduler_cursor s) p); simpl; congruence].
  apply links_upd.
  - destruct (scheduler_cursor s =? p); (eapply links_ext; [exact H|..]; try done; simpl; try apply H).
    rewrite Hh. by eapply links_root_in.
  - intros _. apply same_links_memory.
  - destruct (scheduler_cursor s =? p); by apply (queues_ok_in l s).
  - done.
Qed.

Lemma release_memory_eq s p m :
  release_pages (memory (proc s p)) (mach s) = Ret m ->
  process_release_memory p s = Ret (upd p (set_memory process_reset_memory) (set_mach m s)).
Proof. intros E. unfold process_release_memory, on_mach. by rewrite E. Qed.

(** Releasing a process of the table, when its pages can be freed. *)
Lemma release_spec l s p m :
  table_ok l s -> p ∈ l -> p <> 0 -> current_process s <> p ->
  release_pages (memory (proc s p)) (mach s) = Ret m ->
  exists s', process_release p s = Ret s' /\ released l p s s' /\ mach s' = m.
Proof.
  intros [H Hu] Hp Hp0 Hcur Hm. unfold process_release.
  rewrite (eqb_sym_neg p NULLP) by exact (links_not_null _ _ _ H Hp).
  rewrite (lk_kernel _ _ H), (eqb_sym_neg p 0) by done. cbn [orb].
  set (s1 := if scheduler_cursor s =? p then _ else s).
  rewrite (release_memory_eq s1 p m) by (unfold s1; by destruct (_ =? _)). cbn [mbind outcome_bind].
  change (upd p _ (set_mach m s1)) with (unpaged p m s).
  destruct (links_unpaged l s p m H Hp Hp0) as [H3 Hcursor].
  destruct (unlink_both l (unpaged p m s) p H3 Hp)
    as (s4 & s5 & -> & E5 & Hg & Hl & Hc & Hrel & Hpar & Hch & Hlists).
  cbn [mbind outcome_bind]. rewrite E5. cbn [mbind outcome_bind]. eexists. split; [done|].
  assert (forall q, q <> p -> proc (unpaged p m s) q = proc s q) as Hold
    by (intros q Hq; by rewrite unpaged_proc, eqb_sym_neg).
  assert (0 <= p < lenZ (table s5)) as Hr5 by (rewrite Hl; by apply (lk_range _ _ H)).
  assert (current_process (unpaged p m s) = current_process s /\ kernel_process (unpaged p m s) = kernel_process s
    /\ next_pid (unpaged p m s) = next_pid s /\ mach (unpaged p m s) = m /\
    scheduler_enabled (unpaged p m s) = scheduler_enabled s) as (G1 & G2 & G3 & G4 & G5)
    by (unfold unpaged; simpl; by destruct (_ =? _)).
  pose proof Hg as (Hk & Hcu & Hsc & Hnp & _ & _ & _ & Hen & Hma).
  split; [|simpl; by rewrite Hma].
  constructor; simpl; try congruence.
  - split.
    + apply (links_zero l (unpaged p m s)); try done. by rewrite G1.
    + intros q Hq. rewrite proc_upd by done. rewrite without_in.
      destruct (Z.eqb_spec q p) as [->|Hne]; [split; [done|tauto]|].
      destruct (relinked_fields _ _ (Hrel q)) as (_ & _ & _ & _ & _ & _ & _ & _ & _ & _ & _ & ->).
      rewrite Hold by done. rewrite (Hu q Hq). tauto.
  - by rewrite proc_upd_eq.
  - intros q Hq. rewrite proc_upd_ne by done. rewrite <- (Hold q Hq). apply Hrel.
  - intros q Hq. rewrite proc_upd_ne by done. rewrite <- (Hold q Hq). by apply Hpar.
  - intros r cl Hr Hrp Hcl Hnd Hall. 
    assert (forall x, parent (proc (unpaged p m s) x) = parent (proc s x) /\
      siblings (unpaged p m s) x = siblings s x /\ children (proc (unpaged p m s) x) = children (proc s x)) as Hsame.
    { intros x. unfold siblings. rewrite unpaged_proc.
      destruct ((x =? p) && _ && _) eqn:E; [|done]. apply andb_true_iff in E as [[E%Z.eqb_eq _]%andb_true_iff _].
      by subst x. }
    unfold children_are. rewrite proc_upd_ne by done.
    eapply chain_ext; [|apply (Hlists r cl); try done].
    + intros q [Hq _]%without_in. unfold siblings. by rewrite proc_upd_ne.
    + unfold children_are. destruct (Hsame r) as (_ & _ & ->).
      eapply chain_ext; [|exact Hcl]. intros x _. by destruct (Hsame x) as (_ & -> & _).
    + intros c Hcc. destruct (Hsame c) as (-> & _). by apply Hall.
Qed.
End releasing.

(** ** A concrete table: the kernel process and two of its children *)

Definition demo_process (id par sibling nxt : Z) (e : process_entry) : process :=
  Process id READY 7 PROCESS_RIGHT_ALL par NULLP sibling nxt zero_memory zero_signals zero_socket e
    DefaultHandler CtxBootstrap 0 0 0 0 0 0 0 0 0 0 0 0 true.

Definition demo_table : list process :=
  set_next 1 (set_children 2 (root_process 1 4096)) ::
  demo_process 2 0 NULLP 2 DemoReceiver :: demo_process 3 0 1 NULLP DemoSender ::
  replicate 13 zero_process.

Definition demo_state {S} (m : machine S) : pstate S :=
  PState demo_table 0 0 0 0 4 0 0 0 true m.

(** Case analysis on a slot number below 16. *)
Lemma slot_cases (P : Z -> Prop) :
  Forall P [0;1;2;3;4;5;6;7;8;9;10;11;12;13;14;15] -> forall q, 0 <= q < PROCESS_MAX_COUNT -> P q.
Proof.
  rewrite Forall_forall. intros H q Hq. apply H. unfold PROCESS_MAX_COUNT in Hq.
  rewrite !elem_of_cons. lia.
Qed.

Lemma demo_table_ok {S} (m : machine S) : table_ok [0; 1; 2] (demo_state m).
Proof.
  assert (forall P : Z -> Prop, P 0 -> P 1 -> P 2 -> forall q, q ∈ [0; 1; 2] -> P q) as Hin.
  { intros P H0 H1 H2 q Hq. rewrite !elem_of_cons in Hq. by destruct Hq as [->|[->|[->|?%elem_of_nil]]]. }
  split.
  - constructor; try done.
    + by exists [1; 2].
    + repeat constructor; set_solver.
    + by apply Hin.
    + apply Hin.
      * exists [2; 1]. split; [done|]. split; [repeat constructor; set_solver|].
        intros c. rewrite !elem_of_cons, !elem_of_nil.
        intros [->|[->|[]]]; (split; [lia|done]).
      * exists []. split; [done|]. split; [constructor|set_solver].
      * exists []. split; [done|]. split; [constructor|set_solver].
    + apply (slot_cases (fun q => q ∉ [0; 1; 2] -> children (proc (demo_state m) q) = NULLP)).
      repeat apply Forall_cons_2; try apply Forall_nil_2; intros Hq; try done. exfalso. set_solver.
    + apply Hin; [by left|right; by split..].
    + by apply Hin.
    + intros q r Hq. revert q Hq r. apply (Hin (fun q => forall r, r ∈ [0; 1; 2] ->
        pid (proc (demo_state m) q) = pid (proc (demo_state m) r) -> q = r));
        intros r Hr; rewrite !elem_of_cons, elem_of_nil in Hr; by destruct Hr as [->|[->|[->|[]]]].
    + set_solver.
    + set_solver.
    + apply slot_cases. repeat apply Forall_cons_2; try apply Forall_nil_2; split; split; try done; by split.
    + intros q Hq. rewrite !elem_of_cons, elem_of_nil in Hq. by destruct Hq as [->|[->|[->|[]]]].
  - apply slot_cases. repeat apply Forall_cons_2; try apply Forall_nil_2; split; intros Hq; try done;
      rewrite !elem_of_cons, elem_of_nil in *; lia.
Qed.
