(* ===== verification/ProcessSignals.v ===== *)
(** * Exit, signals and sockets of kernel/src/process.c

    What the table operations that do not touch the lists do: a signal is
    queued when the sender may and there is room, the queue is delivered in
    order until a fatal signal, and a socket carries its values in order. *)

From S2P Require Import Prelude Interfaces Memory Pmm Ring Chain Paging Process ProcessTable.

Lemma signal_cap : 1 < PROCESS_SIGNAL_QUEUE_CAPACITY < 2147483648.
Proof. done. Qed.
Lemma socket_cap : 1 < PROCESS_SOCKET_CAPACITY < 2147483648.
Proof. done. Qed.

(** The pending signals and the values in the socket, oldest first. *)
Definition pending (q : process) : list (Z * Z) :=
  ring_items PROCESS_SIGNAL_QUEUE_CAPACITY (0, 0) (signals q).
Definition inbox (q : process) : list Z := ring_items PROCESS_SOCKET_CAPACITY 0 (socket q).

Section signals.
Context {S : Type} `{FA : FrameAllocator S}.
Implicit Types (s : pstate S) (l : list Z).

(** ** Updates that keep the table *)

(** [f] changes no field the lists or the queues depend on. *)
Definition quiet (f : process -> process) : Prop :=
  forall x, same_links x (f x) /\ (queues_ok x -> queues_ok (f x)).

Lemma table_ok_quiet l s p f : table_ok l s -> quiet f -> table_ok l (upd p f s).
Proof.
  intros Hok Hf. destruct (decide (0 <= p < lenZ (table s))) as [Hp|Hp]; [|by rewrite upd_out].
  apply table_ok_upd; [done|apply Hf|]. apply Hf. apply (lk_queues _ _ (proj1 Hok)).
  by rewrite <- (lk_len _ _ (proj1 Hok)).
Qed.

Ltac quiet := intros ?; split; [constructor; try done; simpl; try congruence|done].

Lemma quiet_status v : quiet (set_status v). Proof. quiet. Qed.
Lemma quiet_exit v : quiet (fun q => set_status ZOMBIE (set_exit_code v q)). Proof. quiet. Qed.
Lemma quiet_wait v : quiet (set_wait_target v). Proof. quiet. Qed.
Lemma quiet_last a b : quiet (set_last_signal a b). Proof. quiet. Qed.
Lemma quiet_handler h : quiet (set_handler h). Proof. quiet. Qed.
Lemma quiet_memory f : quiet (fun q => set_memory (f q) q). Proof. quiet. Qed.
Lemma quiet_count_run : quiet (fun q => count_run (set_status RUN q)). Proof. quiet. Qed.
Lemma quiet_count_switch : quiet count_switch. Proof. quiet. Qed.
Lemma quiet_runtime a b : quiet (fun q => set_runtime_state a (set_runtime_value b q)).
Proof. quiet. Qed.
Lemma quiet_args a b : quiet (fun q => set_runtime_arg1 a (set_runtime_arg0 b q)).
Proof. quiet. Qed.
Lemma quiet_resume c : c <> CtxZero -> quiet (fun q => set_context c (count_switch q)).
Proof. intros Hc. quiet. Qed.

(** ** Exiting *)

(** [process_exit] on a live process: a zombie with the code, and its parent
    made ready when it was waiting for it. *)
Lemma process_exit_live s p code :
  p <> NULLP -> p <> kernel_process s -> status (proc s p) <> ZOMBIE ->
  process_exit p code s =
    let s1 := upd p (fun q => set_status ZOMBIE (set_exit_code code q)) s in
    let par := parent (proc s1 p) in
    if negb (par =? NULLP) && status_is (status (proc s1 par)) WAITING &&
       ((wait_target_pid (proc s1 par) =? 0) || (wait_target_pid (proc s1 par) =? pid (proc s1 p)))
    then upd par (set_status READY) s1 else s1.
Proof.
  intros Hp Hk Hz. unfold process_exit. rewrite !eqb_sym_neg by done. cbn [orb].
  unfold status_is at 1. by rewrite bool_decide_false.
Qed.

Lemma table_ok_exit l s p code : table_ok l s -> table_ok l (process_exit p code s).
Proof.
  intros Hok. unfold process_exit. destruct (_ || _); [done|]. destruct (status_is _ _); [done|].
  pose proof (table_ok_quiet l s p _ Hok (quiet_exit code)) as H1.
  case_match; [|done]. apply table_ok_quiet; [exact H1|apply quiet_status].
Qed.

(** What exiting leaves alone: everything but the status of the process and of
    its parent, and its exit code. *)
Definition exit_frame (x y : process) : Prop :=
  y = set_status (status y) (set_exit_code (exit_code y) x).

Lemma exit_frame_refl x : exit_frame x x.
Proof. by destruct x. Qed.

Lemma exit_frame_fields x y : exit_frame x y ->
  signals y = signals x /\ socket y = socket x /\ signal_handler y = signal_handler x /\
  memory y = memory x /\ pid y = pid x /\ parent y = parent x /\ owner y = owner x /\
  last_signal y = last_signal x /\ last_signal_value y = last_signal_value x.
Proof. unfold exit_frame. intros ->. by repeat split. Qed.

Lemma process_exit_frame s p code q : exit_frame (proc s q) (proc (process_exit p code s) q).
Proof.
  unfold process_exit. destruct (_ || _); [apply exit_frame_refl|].
  destruct (status_is _ _); [apply exit_frame_refl|].
  set (s1 := upd p _ s).
  assert (exit_frame (proc s q) (proc s1 q)) as H1.
  { unfold s1. destruct (decide (0 <= p < lenZ (table s))); [|rewrite upd_out by done; apply exit_frame_refl].
    rewrite proc_upd by done. destruct (Z.eqb_spec q p) as [->|]; [done|apply exit_frame_refl]. }
  case_match; [|done]. set (par := parent (proc s1 p)) in *.
  destruct (decide (0 <= par < lenZ (table s1))); [|by rewrite upd_out].
  rewrite proc_upd by done. destruct (Z.eqb_spec q par) as [->|]; [|done].
  unfold exit_frame in *. by rewrite H1.
Qed.

(** What it does to a process other than [p]: wakes it, at most. *)
Definition woken (x y : process) : Prop :=
  y = set_status (status y) x /\ (status y = status x \/ status x = WAITING /\ status y = READY).

Lemma woken_refl x : woken x x.
Proof. split; [by destruct x|by left]. Qed.

Lemma woken_trans x y z : woken x y -> woken y z -> woken x z.
Proof.
  intros [Ey Hy] [Ez Hz]. split; [rewrite Ez, Ey; done|].
  destruct Hy as [Hy|[Hy1 Hy2]], Hz as [Hz|[Hz1 Hz2]]; [left|right|right|exfalso]; try split; congruence.
Qed.

Lemma woken_frame x y : woken x y -> exit_frame x y.
Proof. intros [E _]. unfold exit_frame. rewrite E. by destruct x. Qed.

Lemma process_exit_other s p code q : q <> p -> woken (proc s q) (proc (process_exit p code s) q).
Proof.
  intros Hq. unfold process_exit. destruct (_ || _); [apply woken_refl|].
  destruct (status_is _ _); [apply woken_refl|].
  set (s1 := upd p _ s).
  assert (proc s1 q = proc s q) as E1 by (by apply proc_upd_ne).
  destruct (_ && _) eqn:Ew; [|rewrite E1; apply woken_refl].
  set (par := parent (proc s1 p)) in *.
  destruct (decide (0 <= par < lenZ (table s1))); [|rewrite upd_out, E1 by done; apply woken_refl].
  rewrite proc_upd by done. destruct (Z.eqb_spec q par) as [->|]; [|rewrite E1; apply woken_refl].
  rewrite E1. split; [done|]. right. split; [|done].
  apply andb_true_iff in Ew as [[_ Ew]%andb_true_iff _]. unfold status_is in Ew.
  apply bool_decide_eq_true in Ew. by rewrite <- E1.
Qed.

(** The process itself ends up a zombie with the code. *)
Lemma process_exit_self l s p code :
  table_ok l s -> p ∈ l -> p <> 0 -> status (proc s p) <> ZOMBIE ->
  status (proc (process_exit p code s) p) = ZOMBIE /\ exit_code (proc (process_exit p code s) p) = code.
Proof.
  intros [H Hu] Hp Hp0 Hz. pose proof (links_proc _ _ _ H Hp) as Hr.
  rewrite process_exit_live; [|exact (links_not_null _ _ _ H Hp)|by rewrite (lk_kernel _ _ H)|done].
  cbv zeta. set (s1 := upd p _ s).
  assert (proc s1 p = set_status ZOMBIE (set_exit_code code (proc s p))) as E1
    by (unfold s1; by rewrite proc_upd_eq).
  destruct (_ && _); [|by rewrite E1].
  assert (parent (proc s1 p) <> p) as Hne.
  { rewrite E1. change (parent (proc s p) <> p). destruct (lk_parent _ _ H p Hp) as [->|[_ ?]]; [|done].
    intros E. by apply (links_not_null _ _ _ H Hp). }
  rewrite proc_upd_ne by done. by rewrite E1.
Qed.

Lemma process_exit_globals s p code : same_globals s (process_exit p code s).
Proof. unfold process_exit. repeat (case_match; try done). Qed.

(** ** Queueing a signal *)

Lemma table_ok_set_signals l s p q :
  table_ok l s -> ring_ok PROCESS_SIGNAL_QUEUE_CAPACITY q -> table_ok l (upd p (set_signals q) s).
Proof.
  intros Hok Hq. apply table_ok_quiet; [done|]. intros x. split; [by constructor|].
  intros [_ ?]. by split.
Qed.

Lemma table_ok_set_socket l s p q :
  table_ok l s -> ring_ok PROCESS_SOCKET_CAPACITY q -> table_ok l (upd p (set_socket q) s).
Proof.
  intros Hok Hq. apply table_ok_quiet; [done|]. intros x. split; [by constructor|].
  intros [? _]. by split.
Qed.

Lemma pending_bound l s p : table_ok l s -> p ∈ l -> (length (pending (proc s p)) <= 15)%nat.
Proof.
  intros [H _] Hp. pose proof (proj1 (queues_ok_in l s p H Hp)) as Hq.
  pose proof (ring_count_bound _ signal_cap _ Hq) as Hb.
  rewrite (ring_count_items (0, 0) _ signal_cap _ Hq) in Hb. fold (pending (proc s p)) in Hb.
  unfold lenZ, PROCESS_SIGNAL_QUEUE_CAPACITY in Hb. lia.
Qed.

Lemma inbox_bound l s p : table_ok l s -> p ∈ l -> (length (inbox (proc s p)) <= 7)%nat.
Proof.
  intros [H _] Hp. pose proof (proj2 (queues_ok_in l s p H Hp)) as Hq.
  pose proof (ring_count_bound _ socket_cap _ Hq) as Hb.
  rewrite (ring_count_items 0 _ socket_cap _ Hq) in Hb. fold (inbox (proc s p)) in Hb.
  unfold lenZ, PROCESS_SOCKET_CAPACITY in Hb. lia.
Qed.

(** A signal queued: appended to the queue of [p], nothing else changed. *)
Definition signal_queued (l : list Z) (p sig v : Z) (s s' : pstate S) : Prop :=
  exists q, s' = upd p (set_signals q) s /\ table_ok l s' /\
    pending (proc s' p) = pending (proc s p) ++ [(sig, v)] /\
    forall r, r <> p -> proc s' r = proc s r.

Lemma queue_signal_spec l s p sig v : table_ok l s -> p ∈ l ->
  exists s', queue_process_signal p sig v s =
      (if (length (pending (proc s p)) =? 15)%nat then (-1, s) else (0, s')) /\
    ((length (pending (proc s p)) <> 15)%nat -> signal_queued l p sig v s s').
Proof.
  intros Hok Hp. pose proof Hok as [H _].
  destruct (queues_ok_in l s p H Hp) as [Hq _].
  unfold queue_process_signal. rewrite (eqb_sym_neg p NULLP) by exact (links_not_null _ _ _ H Hp).
  pose proof (ring_push_full _ signal_cap (sig, v) (signals (proc s p)) Hq) as Hfull.
  rewrite (ring_count_items (0, 0) _ signal_cap _ Hq) in Hfull. fold (pending (proc s p)) in Hfull.
  unfold lenZ, PROCESS_SIGNAL_QUEUE_CAPACITY at 2 in Hfull.
  destruct (ring_push _ _ _) as [q|] eqn:E.
  - destruct (ring_push_ok (0, 0) _ signal_cap _ _ _ Hq E) as [Hq' Hi].
    exists (upd p (set_signals q) s). split.
    + destruct (Nat.eqb_spec (length (pending (proc s p))) 15) as [E15|]; [|done].
      assert (Some q = None) by (apply Hfull; lia). done.
    + intros _. exists q. split; [done|]. split; [by apply table_ok_set_signals|].
      split; [rewrite proc_upd_eq by exact (links_proc _ _ _ H Hp); exact Hi|].
      intros r Hr. by rewrite proc_upd_ne.
  - exists s. assert (length (pending (proc s p)) = 15%nat) as -> by (apply proj1 in Hfull; specialize (Hfull eq_refl); lia).
    done.
Qed.

(** ** Delivering *)

(** The signals the default handler treats as fatal. *)
Definition fatal (x : Z * Z) : bool :=
  (x.1 =? PROCESS_SIGNAL_TERM) || (x.1 =? PROCESS_SIGNAL_KILL).

(** What a process with the default handler consumes of its queue. *)
Fixpoint consumed (items : list (Z * Z)) : list (Z * Z) :=
  match items with
  | [] => []
  | x :: items => x :: if fatal x then [] else consumed items
  end.

(** What delivery does to the process itself. *)
Definition delivered_to (items : list (Z * Z)) (x y : process) : Prop :=
  pending y = drop (length (consumed items)) items /\
  signal_handler y = signal_handler x /\
  match last (consumed items) with
  | None => last_signal y = last_signal x /\ last_signal_value y = last_signal_value x /\
      status y = status x /\ exit_code y = exit_code x
  | Some (sig, v) =>
      last_signal y = u32 sig /\ last_signal_value y = v /\
      if fatal (sig, v) then status y = ZOMBIE /\ exit_code y = 128 + sig
      else status y = status x /\ exit_code y = exit_code x
  end.

(** One signal handled by the default handler. *)
Lemma default_handler_spec l s p sig v :
  table_ok l s -> p ∈ l -> p <> 0 -> status (proc s p) <> ZOMBIE ->
  let s' := process_default_signal_handler p sig v s in
  table_ok l s' /\ same_globals s s' /\
  signals (proc s' p) = signals (proc s p) /\ signal_handler (proc s' p) = signal_handler (proc s p) /\
  last_signal (proc s' p) = u32 sig /\ last_signal_value (proc s' p) = v /\
  (if fatal (sig, v) then status (proc s' p) = ZOMBIE /\ exit_code (proc s' p) = 128 + sig
   else status (proc s' p) = status (proc s p) /\ exit_code (proc s' p) = exit_code (proc s p)) /\
  forall q, q <> p -> woken (proc s q) (proc s' q).
Proof.
  intros Hok Hp Hp0 Hz s'. pose proof Hok as [H _]. pose proof (links_proc _ _ _ H Hp) as Hr.
  set (s1 := upd p (set_last_signal (u32 sig) v) s).
  assert (table_ok l s1) as Hok1 by (apply table_ok_quiet; [done|apply quiet_last]).
  assert (proc s1 p = set_last_signal (u32 sig) v (proc s p)) as E1 by (unfold s1; by rewrite proc_upd_eq).
  assert (forall q, q <> p -> proc s1 q = proc s q) as Hq1 by (intros; by apply proc_upd_ne).
  unfold s', process_default_signal_handler. fold s1. unfold fatal. cbn [fst snd].
  destruct (_ || _).
  - destruct (process_exit_self l s1 p (128 + sig) Hok1 Hp Hp0) as [Hst Hec]; [by rewrite E1|].
    pose proof (process_exit_frame s1 p (128 + sig) p) as (-> & _ & -> & _ & _ & _ & _ & -> & ->)%exit_frame_fields.
    rewrite E1. split; [by apply table_ok_exit|]. split; [apply (process_exit_globals s1)|].
    do 4 (split; [done|]). split; [done|].
    intros q Hq. rewrite <- (Hq1 q Hq). by apply process_exit_other.
  - rewrite E1. split; [done|]. do 6 (split; [done|]). intros q Hq. rewrite Hq1 by done. apply woken_refl.
Qed.

(** The signal handlers of other code. *)
Context (user_handler : Z -> Z -> Z -> Z -> pstate S -> pstate S).

Lemma deliver_loop_spec l p items : forall fuel n s,
  table_ok l s -> p ∈ l -> p <> 0 -> status (proc s p) <> ZOMBIE ->
  (forall id, signal_handler (proc s p) <> UserHandler id) ->
  pending (proc s p) = items -> (length items < fuel)%nat ->
  exists s', deliver_loop user_handler fuel p n s = Ret (n + lenZ (consumed items), s') /\
    table_ok l s' /\ delivered_to items (proc s p) (proc s' p) /\ same_globals s s' /\
    forall q, q <> p -> woken (proc s q) (proc s' q).
Proof.
  induction items as [|[sig v] items IH]; intros [|fuel] n s Hok Hp Hp0 Hz Hh Hi Hf; simpl in Hf; try lia.
  - cbn [deliver_loop]. pose proof Hok as [H _]. destruct (queues_ok_in l s p H Hp) as [Hq _].
    apply (ring_pop_empty (0, 0) _ signal_cap _ Hq) in Hi as E. rewrite E. exists s.
    unfold lenZ. simpl. rewrite Z.add_0_r. split; [done|]. split; [done|].
    split; [|split; [done|auto using woken_refl]]. by split.
  - cbn [deliver_loop]. pose proof Hok as [H _]. destruct (queues_ok_in l s p H Hp) as [Hq _].
    destruct (ring_pop _ _ _) as [[x q]|] eqn:E.
    2:{ apply (ring_pop_empty (0, 0) _ signal_cap _ Hq) in E. unfold pending in Hi. congruence. }
    destruct (ring_pop_ok (0, 0) _ signal_cap _ _ _ Hq E) as [Hq' Ei].
    unfold pending in Hi. rewrite Hi in Ei. injection Ei as <- Ei.
    set (s1 := upd p (fun x => set_last_signal (u32 sig) v (set_signals q x)) s).
    pose proof (links_proc _ _ _ H Hp) as Hr.
    assert (proc s1 p = set_last_signal (u32 sig) v (set_signals q (proc s p))) as E1
      by (unfold s1; by rewrite proc_upd_eq).
    assert (table_ok l s1) as Hok1.
    { apply table_ok_quiet; [done|]. intros y. split; [by constructor|]. intros [_ ?]. by split. }
    assert (call_handler user_handler p sig v s1 = process_default_signal_handler p sig v s1) as ->.
    { unfold call_handler. rewrite E1. change (signal_handler (set_last_signal _ _ _)) with (signal_handler (proc s p)).
      destruct (signal_handler (proc s p)) eqn:Eh; [done|done|by destruct (Hh id)]. }
    destruct (default_handler_spec l s1 p sig v Hok1 Hp Hp0) as (Hok2 & Hg2 & Hs2 & Hh2 & Hl2 & Hv2 & Hst2 & Hfr2);
      [by rewrite E1|].
    set (s2 := process_default_signal_handler p sig v s1) in *. rewrite E1 in Hs2, Hh2, Hst2.
    change (signals (set_last_signal _ _ _)) with q in Hs2.
    change (signal_handler (set_last_signal _ _ _)) with (signal_handler (proc s p)) in Hh2.
    change (status (set_last_signal _ _ _)) with (status (proc s p)) in Hst2.
    change (exit_code (set_last_signal _ _ _)) with (exit_code (proc s p)) in Hst2.
    assert (forall r, r <> p -> woken (proc s r) (proc s2 r)) as Hfr.
    { intros r Hrp. specialize (Hfr2 r Hrp). unfold s1 in Hfr2. by rewrite proc_upd_ne in Hfr2. }
    cbn [consumed]. unfold status_is. destruct (fatal (sig, v)) eqn:Ef.
    + destruct Hst2 as [Hst2 Hec2]. rewrite bool_decide_true by done. exists s2. split; [done|].
      split; [done|]. split; [|split; [|done]].
      * unfold delivered_to. cbn [consumed]. rewrite Ef. cbn. rewrite Ef, drop_0.
        unfold pending. rewrite Hs2. rewrite Ei. done.
      * by eapply same_globals_trans.
    + destruct Hst2 as [Hst2 Hec2]. rewrite bool_decide_false by by rewrite Hst2.
      destruct (IH fuel (n + 1) s2) as (s' & E' & Hok' & Hd & Hg & Hfr'); try done.
      * by rewrite Hst2.
      * intros id. rewrite Hh2. apply Hh.
      * unfold pending. by rewrite Hs2.
      * lia.
      * exists s'. rewrite E'. split; [f_equal; f_equal; unfold lenZ; cbn [length]; lia|].
        split; [done|]. split; [|split].
        -- destruct Hd as (Hd1 & Hd2 & Hd3). unfold delivered_to. cbn [consumed]. rewrite Ef.
           cbn [length drop map]. split; [done|]. split; [congruence|].
           destruct (consumed items) as [|y c]; [cbn in *; rewrite Ef; intuition congruence|].
           cbn [last] in *. destruct (last (y :: c)) as [[sig' v']|] eqn:El; [|by apply last_None in El].
           destruct (fatal (sig', v')); intuition congruence.
        -- by eapply same_globals_trans; [|exact Hg]; eapply same_globals_trans; [|exact Hg2].
        -- intros r Hrp. eapply woken_trans; [by apply Hfr|by apply Hfr'].
Qed.
End signals.

(** ** Properties *)

Section properties.
Context {S : Type} `{FA : FrameAllocator S}.
Implicit Types (s : pstate S) (l : list Z).

(** Who may signal whom: no sender, root, the process itself, the same owner. *)
Definition may_signal s (sender t : Z) : Prop :=
  sender = NULLP \/ owner (proc s sender) = 0 \/ sender = t \/ owner (proc s sender) = owner (proc s t).

Lemma can_signal_iff s sender t : t <> NULLP ->
  process_can_signal sender t s = true <-> may_signal s sender t.
Proof.
  intros Ht. unfold process_can_signal, may_signal. rewrite eqb_sym_neg by done.
  destruct (Z.eqb_spec sender NULLP); [naive_solver|].
  destruct (Z.eqb_spec (owner (proc s sender)) 0); cbn [orb]; [naive_solver|].
  destruct (Z.eqb_spec sender t); [naive_solver|]. rewrite Z.eqb_eq. naive_solver.
Qed.

#[export] Instance may_signal_dec s sender t : Decision (may_signal s sender t).
Proof. unfold may_signal. apply _. Defined.

Lemma send_signal_spec l s sender id sig v :
  table_ok l s ->
  ((forall q, q ∈ l -> pid (proc s q) <> id) -> send_signal_to_process sender id sig v s = Ret (-1, s)) /\
  forall t, t ∈ l -> pid (proc s t) = id ->
    if decide (may_signal s sender t /\ (length (pending (proc s t)) < 15)%nat) then
      exists s', send_signal_to_process sender id sig v s = Ret (0, s') /\ signal_queued l t sig v s s'
    else send_signal_to_process sender id sig v s = Ret (-1, s).
Proof.
  intros Hok. unfold send_signal_to_process. split.
  - intros Habs. destruct (get_by_pid_cases l s id Hok) as [[-> _]|(p & Hp & _ & E)]; [done|].
    by destruct (Habs p Hp).
  - intros t Ht <-. rewrite (get_by_pid_in l s t Hok Ht). cbn [mbind outcome_bind].
    pose proof (can_signal_iff s sender t (links_not_null _ _ _ (proj1 Hok) Ht)) as Hcan.
    destruct (queue_signal_spec l s t sig v Hok Ht) as (s' & E & Hq).
    pose proof (pending_bound l s t Hok Ht) as Hb.
    destruct (process_can_signal sender t s); cbn [negb].
    + destruct (Nat.eqb_spec (length (pending (proc s t))) 15) as [E15|E15]; rewrite E.
      * rewrite decide_False; [done|]. lia.
      * rewrite decide_True by (split; [by apply Hcan|lia]). eauto.
    + rewrite decide_False; [done|]. intros [Hm _]. by apply Hcan in Hm.
Qed.

(** C13. [send_signal_to_process] (and [kill_process], which is the case of value
    0) fails and changes nothing when no process has the pid, when the sender
    may not signal it, or when 15 signals are already waiting; otherwise it
    returns 0 and appends the signal to the queue of that process, changing no
    other process. *)
Theorem send_signal_to_process_correct l s sender id sig v :
  table_ok l s ->
  ((forall q, q ∈ l -> pid (proc s q) <> id) -> send_signal_to_process sender id sig v s = Ret (-1, s)) /\
  forall t, t ∈ l -> pid (proc s t) = id ->
    if decide (may_signal s sender t /\ (length (pending (proc s t)) < 15)%nat) then
      exists s', send_signal_to_process sender id sig v s = Ret (0, s') /\ signal_queued l t sig v s s'
    else send_signal_to_process sender id sig v s = Ret (-1, s).
Proof. apply send_signal_spec. Qed.

(** Receiving [n] times. *)
Fixpoint recv_n (n : nat) (p : Z) s : list Z * pstate S :=
  match n with
  | O => ([], s)
  | Datatypes.S n =>
      let '(r, v, s) := socket_recv p s in
      let '(vs, s) := recv_n n p s in (if r =? 0 then v :: vs else vs, s)
  end.

Lemma socket_recv_spec l s p : table_ok l s -> p ∈ l ->
  match inbox (proc s p) with
  | [] => socket_recv p s = (-1, 0, s)
  | v :: vs => exists s', socket_recv p s = (0, v, s') /\ table_ok l s' /\ inbox (proc s' p) = vs /\
      last_socket_value (proc s' p) = v
  end.
Proof.
  intros Hok Hp. pose proof Hok as [H _]. pose proof (proj2 (queues_ok_in l s p H Hp)) as Hq.
  unfold socket_recv. rewrite (eqb_sym_neg p NULLP) by exact (links_not_null _ _ _ H Hp).
  unfold inbox. destruct (ring_pop _ _ _) as [[v q]|] eqn:E.
  - destruct (ring_pop_ok 0 _ socket_cap _ _ _ Hq E) as [Hq' ->].
    eexists. split; [done|]. split.
    + apply table_ok_quiet; [done|]. intros x. split; [by constructor|]. intros [? _]. by split.
    + rewrite proc_upd_eq by exact (links_proc _ _ _ H Hp). done.
  - apply (ring_pop_empty 0 _ socket_cap _ Hq) in E. by rewrite E.
Qed.

Lemma recv_n_spec l p n : forall s, table_ok l s -> p ∈ l ->
  (recv_n n p s).1 = take n (inbox (proc s p)) /\
  table_ok l (recv_n n p s).2 /\ inbox (proc (recv_n n p s).2 p) = drop n (inbox (proc s p)).
Proof.
  induction n as [|n IH]; intros s Hok Hp; [by rewrite drop_0|].
  cbn [recv_n]. pose proof (socket_recv_spec l s p Hok Hp) as Hr.
  destruct (inbox (proc s p)) as [|v vs] eqn:Ei.
  - rewrite Hr. destruct (IH s Hok Hp) as (H1 & H2 & H3). rewrite Ei in *.
    destruct (recv_n n p s). simpl in *. subst. by rewrite take_nil, drop_nil in *.
  - destruct Hr as (s' & -> & Hok' & Hi & _). destruct (IH s' Hok' Hp) as (H1 & H2 & H3). rewrite Hi in *.
    destruct (recv_n n p s'). simpl in *. by subst.
Qed.

(** A value accepted by a socket. *)
Lemma socket_push_spec l s t v : table_ok l s -> t ∈ l -> (length (inbox (proc s t)) < 7)%nat ->
  exists q, ring_push PROCESS_SOCKET_CAPACITY v (socket (proc s t)) = Some q /\
    ring_ok PROCESS_SOCKET_CAPACITY q /\ ring_items PROCESS_SOCKET_CAPACITY 0 q = inbox (proc s t) ++ [v].
Proof.
  intros [H _] Ht Hl. pose proof (proj2 (queues_ok_in l s t H Ht)) as Hq.
  pose proof (ring_push_full _ socket_cap v _ Hq) as Hfull.
  rewrite (ring_count_items 0 _ socket_cap _ Hq) in Hfull. fold (inbox (proc s t)) in Hfull.
  unfold lenZ, PROCESS_SOCKET_CAPACITY at 2 in Hfull.
  destruct (ring_push _ _ _) as [q|] eqn:E; [|apply proj1 in Hfull; specialize (Hfull eq_refl); lia].
  exists q. split; [done|]. by apply (ring_push_ok 0 _ socket_cap _ _ _ Hq).
Qed.

(** C15. A socket carries its values in order: a send to a process whose socket
    holds 7 values is refused; any other send puts the value last, so that
    receiving until then yields the earlier values and then this one.  When
    15 signals are pending the value is delivered all the same, although the
    send reports an error. *)
Theorem socket_send_recv_roundtrip l s sender t v :
  table_ok l s -> t ∈ l ->
  let n := length (inbox (proc s t)) in
  exists r s', socket_send sender (pid (proc s t)) v s = Ret (r, s') /\ table_ok l s' /\
    if (n =? 7)%nat then r = -1 /\ s' = s
    else r = (if (length (pending (proc s t)) =? 15)%nat then -1 else 0) /\
      (recv_n (Datatypes.S n) t s').1 = inbox (proc s t) ++ [v].
Proof.
  intros Hok Ht n. unfold socket_send. rewrite (get_by_pid_in l s t Hok Ht). cbn [mbind outcome_bind].
  rewrite (eqb_sym_neg t NULLP) by exact (links_not_null _ _ _ (proj1 Hok) Ht).
  pose proof (inbox_bound l s t Hok Ht) as Hb. fold n in Hb.
  destruct (Nat.eqb_spec n 7) as [E7|E7].
  - pose proof (proj2 (queues_ok_in l s t (proj1 Hok) Ht)) as Hq.
    assert (ring_push PROCESS_SOCKET_CAPACITY v (socket (proc s t)) = None) as ->; [|by exists (-1), s].
    apply (ring_push_full _ socket_cap v _ Hq). rewrite (ring_count_items 0 _ socket_cap _ Hq).
    fold (inbox (proc s t)). unfold lenZ. fold n. by rewrite E7.
  - destruct (socket_push_spec l s t v Hok Ht) as (q & -> & Hq & Hi); [unfold n in *; lia|].
    pose proof (table_ok_set_socket l s t q Hok Hq) as Hok1.
    assert (proc (upd t (set_socket q) s) t = set_socket q (proc s t)) as E1
      by (apply proc_upd_eq; exact (links_proc _ _ _ (proj1 Hok) Ht)).
    destruct (queue_signal_spec l (upd t (set_socket q) s) t PROCESS_SIGNAL_SOCKET v Hok1 Ht) as (s' & E & Hs').
    rewrite E1 in E, Hs'. change (pending (set_socket q (proc s t))) with (pending (proc s t)) in E, Hs'.
    rewrite E. destruct (Nat.eqb_spec (length (pending (proc s t))) 15) as [E15|E15].
    + exists (-1), (upd t (set_socket q) s). split; [done|]. split; [done|]. split; [done|].
      destruct (recv_n_spec l t (Datatypes.S n) _ Hok1 Ht) as (-> & _). rewrite E1.
      unfold inbox at 1. simpl socket. rewrite Hi. apply firstn_all2. rewrite length_app. simpl. unfold n. lia.
    + destruct (Hs' E15) as (q' & -> & Hok' & _). eexists 0, _. split; [done|]. split; [done|]. split; [done|].
      destruct (recv_n_spec l t (Datatypes.S n) _ Hok' Ht) as (-> & _).
      rewrite proc_upd_eq by exact (links_proc _ _ _ (proj1 Hok1) Ht). rewrite E1.
      unfold inbox at 1. simpl socket. rewrite Hi. apply firstn_all2. rewrite length_app. simpl. unfold n. lia.
Qed.
End properties.

Section delivery.
Context {S : Type} `{FA : FrameAllocator S}.
Context (user_handler : Z -> Z -> Z -> Z -> pstate S -> pstate S).
Implicit Types (s : pstate S) (l : list Z).

(** C14. [deliver_process_signal] on a live process with the default handler ends
    and hands over the pending signals in order, up to and including the first
    SIGTERM or SIGKILL: the rest stays queued, the last one is recorded, and a
    fatal one leaves a zombie with exit code 128 + signal.  No other process
    changes, but for a parent that was waiting for this one. *)
Theorem deliver_process_signal_correct l s p :
  table_ok l s -> p ∈ l -> p <> 0 -> status (proc s p) <> ZOMBIE ->
  (forall id, signal_handler (proc s p) <> UserHandler id) ->
  exists s', deliver_process_signal user_handler p s =
      Ret (lenZ (consumed (pending (proc s p))), s') /\
    table_ok l s' /\ delivered_to (pending (proc s p)) (proc s p) (proc s' p) /\
    forall q, q <> p -> woken (proc s q) (proc s' q).
Proof.
  intros Hok Hp Hp0 Hz Hh. pose proof Hok as [H _]. unfold deliver_process_signal.
  rewrite (eqb_sym_neg p NULLP) by exact (links_not_null _ _ _ H Hp).
  pose proof (pending_bound l s p Hok Hp) as Hb.
  destruct (deliver_loop_spec user_handler l p (pending (proc s p)) deliver_fuel 0 s)
    as (s' & E & Hok' & Hd & _ & Hfr); try done; [unfold deliver_fuel; lia|].
  exists s'. by rewrite E.
Qed.
End delivery.

(** ** Concrete inputs *)

Lemma send_signal_to_process_correct_witness :
  let s := demo_state (boot_machine demo_frames) in
  send_signal_to_process 1 9 9 0 s = Ret (-1, s) /\
  exists s', send_signal_to_process 1 3 9 0 s = Ret (0, s') /\ signal_queued [0; 1; 2] 2 9 0 s s'.
Proof.
  set (s := demo_state _). cbv zeta.
  destruct (send_signal_to_process_correct [0; 1; 2] s 1 9 9 0 (demo_table_ok _)) as [H1 _].
  destruct (send_signal_to_process_correct [0; 1; 2] s 1 3 9 0 (demo_table_ok _)) as [_ H2].
  split.
  - apply H1. intros q Hq. rewrite !elem_of_cons, elem_of_nil in Hq. by destruct Hq as [->|[->|[->|[]]]].
  - specialize (H2 2). rewrite decide_True in H2; [apply H2; [set_solver|done]|].
    split; [right; right; right; done|]. vm_compute. lia.
Defined.

(** The receiver with a user signal and a SIGKILL pending. *)
Definition demo_signalled : pstate pmm :=
  (queue_process_signal 1 9 0 (queue_process_signal 1 16 5 (demo_state (boot_machine demo_frames))).2).2.

Lemma demo_signalled_ok : table_ok [0; 1; 2] demo_signalled.
Proof.
  unfold demo_signalled.
  destruct (queue_signal_spec [0; 1; 2] (demo_state (boot_machine demo_frames)) 1 16 5) as (s1 & -> & H1);
    [apply demo_table_ok|set_solver|].
  destruct H1 as (q & -> & Hok & _); [vm_compute; lia|].
  change ((if (_ =? 15)%nat then _ else _).2) with (upd 1 (set_signals q) (demo_state (boot_machine demo_frames))).
  destruct (queue_signal_spec [0; 1; 2] _ 1 9 0 Hok) as (s2 & -> & H2); [set_solver|].
  destruct (_ =? 15)%nat eqn:E; [done|]. apply Nat.eqb_neq in E. by destruct (H2 E) as (? & -> & ? & _).
Qed.

Lemma deliver_process_signal_correct_witness :
  let s := demo_signalled in
  exists s', deliver_process_signal (fun _ _ _ _ s => s) 1 s = Ret (2, s') /\
    status (proc s' 1) = ZOMBIE /\ exit_code (proc s' 1) = 137.
Proof.
  cbv zeta.
  destruct (deliver_process_signal_correct (fun _ _ _ _ s => s) [0; 1; 2] demo_signalled 1) as (s' & E & Hok & Hd & _).
  - exact demo_signalled_ok.
  - set_solver.
  - done.
  - vm_compute. discriminate.
  - intros id. vm_compute. discriminate.
  - exists s'. split; [exact E|]. destruct Hd as (_ & _ & _ & _ & Hst). exact Hst.
Defined.

Lemma socket_send_recv_roundtrip_witness :
  let s := demo_state (boot_machine demo_frames) in
  exists r s', socket_send 2 2 4660 s = Ret (r, s') /\ r = 0 /\ (recv_n 1 1 s').1 = [4660].
Proof.
  set (s := demo_state _). cbv zeta.
  destruct (socket_send_recv_roundtrip [0; 1; 2] s 2 1 4660 (demo_table_ok _)) as (r & s' & E & _ & Hr);
    [set_solver|].
  exists r, s'. split; [exact E|exact Hr].
Defined.
