(* ===== verification/ProcessLife.v ===== *)
(** * The life of a process: creation, waiting, release

    Creation takes the first free slot, builds the address space and links the
    process under its parent; waiting reaps a zombie and gives everything back.
    The invariant of the table (ProcessTable.v) and of the address spaces
    (ProcessSpace.v) hold together between two operations. *)

From S2P Require Import Prelude Interfaces Memory Pmm Ring Chain Paging Process ProcessSpace ProcessTable ProcessSignals.

Section memory_map.
Context {S : Type} `{FA : FrameAllocator S}.
Context (page_directories : Z).
Implicit Types (s : pstate S) (l : list Z).

#[local] Abbreviation pdir := (page_directory_of page_directories).

Lemma upd_upd s p f g : 0 <= p < lenZ (table s) -> upd p g (upd p f s) = upd p (fun x => g (f x)) s.
Proof.
  intros Hp. unfold upd at 1. rewrite proc_upd_eq by done. unfold upd, set_table. simpl. f_equal.
  unfold setZ. destruct (Z.ltb_spec p 0); [lia|]. by rewrite list_insert_insert_eq.
Qed.

Lemma upd_ext s p f g : f (proc s p) = g (proc s p) -> upd p f s = upd p g s.
Proof. intros E. unfold upd. by rewrite E. Qed.

Lemma upd_set_mach s p f m : upd p f (set_mach m s) = set_mach m (upd p f s).
Proof. done. Qed.

(** [alloc_process_page] is [alloc_page] on the directory of the process. *)
Lemma alloc_process_page_eq s p v page m :
  p <> NULLP -> page <> 0 ->
  alloc_page (process_page_directory (memory (proc s p))) v (mach s) = Ret (page, m) ->
  alloc_process_page p v s = Ret (0, page, set_mach m s).
Proof.
  intros Hp Hpage. unfold alloc_page, alloc_process_page.
  destruct (fa_alloc (frames (mach s))) as [page' a] eqn:Ea.
  rewrite (eqb_sym_neg p NULLP) by done. cbn [orb].
  destruct (Z.eqb_spec page' 0) as [->|Hne]; [intros [= <- _]; congruence|].
  unfold on_mach. cbn [mach set_mach].
  change (proc (set_mach (with_frames a (mach s)) s) p) with (proc s p).
  destruct (paging_map_page_in_directory _ _ _ _ _) as [m1| |]; cbn [mbind outcome_bind]; [|intros [=]..].
  cbn [mach set_mach].
  destruct (process_memset _ _ _ _) as [m2| |]; cbn [mbind outcome_bind]; [|intros [=]..].
  intros [= <- <-]. reflexivity.
Qed.

Lemma map_one_eq s p start set k page m : p <> NULLP -> page <> 0 ->
  alloc_page (process_page_directory (memory (proc s p))) (start (memory (proc s p))) (mach s) = Ret (page, m) ->
  map_one p start set k s = k (set_mach m (upd p (fun q => set_memory (set page (memory q)) q) s)).
Proof.
  intros Hp Hpage E. unfold map_one. by rewrite (alloc_process_page_eq s p _ page m Hp Hpage E).
Qed.

(** [s] with the memory record and the machine replaced. *)
Definition with_memory (p : Z) (pm : process_memory) (m : machine S) s : pstate S :=
  set_mach m (upd p (set_memory pm) s).

Lemma memory_with_memory p pm m s : 0 <= p < lenZ (table s) -> memory (proc (with_memory p pm m s) p) = pm.
Proof. intros Hp. change (memory (proc (upd p (set_memory pm) s) p) = pm). by rewrite proc_upd_eq. Qed.

Lemma with_memory_again p f pm m m' s : 0 <= p < lenZ (table s) ->
  set_mach m' (upd p (fun q => set_memory (f (memory q)) q) (with_memory p pm m s)) =
  with_memory p (f pm) m' s.
Proof.
  intros Hp. unfold with_memory. rewrite upd_set_mach, upd_upd by done. reflexivity.
Qed.

Lemma map_one_with_memory p pm m start set k page m' s :
  0 <= p < lenZ (table s) -> page <> 0 ->
  alloc_page (process_page_directory pm) (start pm) m = Ret (page, m') ->
  map_one p start set k (with_memory p pm m s) = k (with_memory p (set page pm) m' s).
Proof.
  intros Hp Hpage E.
  rewrite (map_one_eq (with_memory p pm m s) p start set k page m').
  - by rewrite (with_memory_again p (set page)).
  - intros ->. unfold NULLP in *. lia.
  - done.
  - rewrite memory_with_memory by done. exact E.
Qed.

Lemma finish_map_with_memory p pm m e s :
  0 <= p < lenZ (table s) ->
  vload32 m (process_page_directory pm + 4 * PAGE_DIR_INDEX (virtual_base pm)) = Ret e ->
  finish_map p (with_memory p pm m s) =
    Ret (0, with_memory p (set_physical (data_page pm) (PAGE_FRAME e) pm) m s).
Proof.
  intros Hp E. unfold finish_map. rewrite memory_with_memory by done. cbv zeta.
  change (mach (with_memory p pm m s)) with m. rewrite E. cbn [mbind outcome_bind]. f_equal. f_equal.
  exact (with_memory_again p (set_physical (data_page pm) (PAGE_FRAME e)) pm m m s Hp).
Qed.

(** The base [process_memory_map] settles on. *)
Definition base_of (p base : Z) : Z := if base =? 0 then process_virtual_base_for_slot p else base.

Lemma process_memory_map_run ds s p b size p0 t p1 p2 p3 a' :
  0 <= p < lenZ (table s) -> b = base_of p (virtual_base (memory (proc s p))) ->
  size = code_size (memory (proc s p)) ->
  space_wf ds (mach s) -> kernel_directory (mach s) ∈ ds -> pdir p ∉ ds -> pdir p mod 4096 = 0 ->
  0 < pdir p < LOW_MEMORY -> fa_used (frames (mach s)) (pdir p / 4096) = true ->
  (forall d' i, d' ∈ ds -> 0 <= i < 1024 -> present_at (pmem (mach s)) d' i = true ->
     table_at (pmem (mach s)) d' i <> pdir p) ->
  region_ok b -> present_at (pmem (mach s)) (kernel_directory (mach s)) (PAGE_DIR_INDEX b) = false ->
  five_frames (frames (mach s)) p0 t p1 p2 p3 a' ->
  exists mc m,
    process_memory_map page_directories p s = Ret (0, set_mach (with_pmem m (with_frames a' (mach s)))
      (upd p (set_memory (built_memory b (pdir p) size p0 t p1 p2 p3)) s)) /\
    (forall q k, q mod 4096 = 0 -> 0 <= k < 1024 -> q <> pdir p -> ent mc q k = ent (pmem (mach s)) q k) /\
    (forall k, 0 <= k < 1024 -> ent mc (pdir p) k = ent (pmem (mach s)) (kernel_directory (mach s)) k) /\
    space_wf (pdir p :: ds) (with_pmem mc (mach s)) /\
    partial (pdir p :: ds) (with_pmem mc (mach s)) (pdir p) b t [p0; p1; p2; p3] m a'.
Proof.
  intros Hp Eb Es H Hk Hd Hda Hdr Hdu Htab Hb Habs Hf.
  destruct (build_spec ds (mach s) (pdir p) _ b p0 t p1 p2 p3 a' H Hk Hd Hda Hdr Hdu Htab Hb Habs Hf)
    as (mc & m1 & m2 & m3 & m & E & E1 & E2 & E3 & E4 & Hcopy & Helse & Hwf & Hpt).
  exists mc, m. split; [|done].
  destruct (layout_starts b (pdir p) size Hb) as (L0 & L1 & L2 & L3).
  pose proof (pt_wf _ _ _ _ _ _ _ _ Hpt) as Hwf4. pose proof (wf_windowed _ _ Hwf4) as Hw.
  assert (forall x, x ∈ [t; p0; p1; p2; p3] -> x <> 0) as Hnz.
  { intros x Hx. destruct (pt_fresh _ _ _ _ _ _ _ _ Hpt x Hx) as (_ & ? & _). lia. }
  unfold process_memory_map. rewrite (eqb_sym_neg p NULLP) by (unfold NULLP; lia). cbv zeta.
  unfold paging_get_kernel_directory.
  change (if virtual_base (memory (proc s p)) =? 0 then _ else _) with (base_of p (virtual_base (memory (proc s p)))).
  rewrite <- Eb, <- Es. unfold on_mach at 1.
  change (mach (upd p _ s)) with (mach s). rewrite E. cbn [mbind outcome_bind].
  change (set_mach (with_pmem mc (mach s)) (upd p _ s))
    with (with_memory p (layout b (pdir p) size) (with_pmem mc (mach s)) s).
  rewrite (map_one_with_memory p _ _ data_start set_data_page _ p0 m1) by (done || apply Hnz; set_solver || exact E1).
  rewrite (map_one_with_memory p _ _ bss_start set_bss_page _ p1 m2); [|done|apply Hnz; set_solver|].
  2:{ cbn -[alloc_page layout]. change (bss_start (set_data_page p0 (layout b (pdir p) size))) with (bss_start (layout b (pdir p) size)).
      rewrite L1. exact E2. }
  rewrite (map_one_with_memory p _ _ m_heap_start set_heap_page _ p2 m3); [|done|apply Hnz; set_solver|].
  2:{ change (m_heap_start _) with (m_heap_start (layout b (pdir p) size)). rewrite L2. exact E3. }
  rewrite (map_one_with_memory p _ _ stack_base set_stack_page _ p3 (with_pmem m (with_frames a' (mach s))));
    [|done|apply Hnz; set_solver|].
  2:{ change (stack_base _) with (stack_base (layout b (pdir p) size)). rewrite L3. exact E4. }
  pose proof (page_room _ Hda ltac:(lia)) as Hroom.
  pose proof (vload32_low _ (pdir p) (PAGE_DIR_INDEX b) Hw ltac:(lia) (proj1 (index_ranges b (proj1 Hb))) Hroom)
    as Eload.
  rewrite (finish_map_with_memory p _ _ (ent m (pdir p) (PAGE_DIR_INDEX b))); [|exact Hp|exact Eload].
  change (PAGE_FRAME (ent m (pdir p) (PAGE_DIR_INDEX b))) with (table_at m (pdir p) (PAGE_DIR_INDEX b)).
  rewrite (pt_table _ _ _ _ _ _ _ _ Hpt).
  reflexivity.
Qed.
End memory_map.

(** ** The address spaces of all processes *)

Section life.
Context {S : Type} `{FA : FrameAllocator S}.
Context (page_directories kd : Z).
Implicit Types (s : pstate S) (l : list Z).

#[local] Abbreviation pdir := (page_directory_of page_directories).

(** The directories in use: the kernel's and one per process. *)
Definition dirs l : list Z := kd :: map pdir (without 0 l).

(** Every process but the kernel's has an address space of its own; the kernel
    runs in its directory; the static directories hold no table or page. *)
Record spaces_ok l s : Prop := {
  sp_wf : space_wf (dirs l) (mach s);
  sp_cr3 : cr3 (mach s) = kd;
  sp_kernel : kernel_directory (mach s) = kd;
  sp_root : process_page_directory (memory (proc s 0)) = kd;
  sp_static q : 0 < q < PROCESS_MAX_COUNT -> pdir q mod 4096 = 0 /\ 0 < pdir q < LOW_MEMORY /\
    fa_used (frames (mach s)) (pdir q / 4096) = true /\ pdir q <> kd /\
    (forall d i, d ∈ dirs l -> 0 <= i < 1024 -> present_at (pmem (mach s)) d i = true ->
       table_at (pmem (mach s)) d i <> pdir q) /\
    (forall r, r ∈ l -> r <> 0 -> pdir q ∉ frames_of (memory (proc s r)));
  sp_space q : q ∈ l -> q <> 0 -> process_page_directory (memory (proc s q)) = pdir q /\
    space_of (dirs l) (pmem (mach s)) (frames (mach s)) (memory (proc s q));
  sp_disjoint q r f : q ∈ l -> r ∈ l -> q <> 0 -> r <> 0 -> q <> r ->
    f ∈ frames_of (memory (proc s q)) -> f ∉ frames_of (memory (proc s r));
}.

Lemma pdir_inj q r : pdir q = pdir r -> q = r.
Proof. unfold page_directory_of. lia. Qed.

Lemma dirs_in l d : d ∈ dirs l <-> d = kd \/ exists q, q ∈ l /\ q <> 0 /\ d = pdir q.
Proof.
  unfold dirs. rewrite elem_of_cons, list_elem_of_fmap. split.
  - intros [->|(q & -> & [? ?]%without_in)]; [by left|right; eauto].
  - intros [->|(q & ? & ? & ->)]; [by left|right]. exists q. split; [done|]. by apply without_in.
Qed.

Lemma dirs_snoc l p d : p <> 0 -> d ∈ dirs (l ++ [p]) <-> d = pdir p \/ d ∈ dirs l.
Proof.
  intros Hp. rewrite !dirs_in. split.
  - intros [->|(q & [Hq| ->%list_elem_of_singleton]%elem_of_app & Hq0 & ->)]; [right; by left| |by left].
    right. right. eauto.
  - intros [->|[->|(q & Hq & Hq0 & ->)]]; [right|by left|right]; eexists; rewrite elem_of_app;
      (split; [|done]); [right; set_solver|by left].
Qed.

Lemma dirs_without l p d : p <> 0 -> d ∈ dirs (without p l) <-> d ∈ dirs l /\ (d = kd \/ d <> pdir p).
Proof.
  intros Hp. rewrite !dirs_in. split.
  - intros [->|(q & [Hqp Hq]%without_in & Hq0 & ->)]; [split; by left|].
    split; [right; eauto|]. right. intros E. by apply Hqp, pdir_inj.
  - intros [[->|(q & Hq & Hq0 & ->)] Hne]; [by left|]. destruct Hne as [->|Hne]; [by left|].
    right. exists q. split; [apply without_in|done]. split; [by intros ->|done].
Qed.

(** The machine a creation leaves, against the one it found. *)
Record built l (p b t : Z) (pages : list Z) (M0 : machine S) mc m m2 (a' : S) : Prop := {
  bt_region : region_ok b;
  bt_absent : present_at (pmem M0) kd (PAGE_DIR_INDEX b) = false;
  bt_copy k : 0 <= k < 1024 -> ent mc (pdir p) k = ent (pmem M0) kd k;
  bt_else q k : q mod 4096 = 0 -> 0 <= k < 1024 -> q <> pdir p -> ent mc q k = ent (pmem M0) q k;
  bt_wf : space_wf (pdir p :: dirs l) (with_pmem mc M0);
  bt_partial : partial (pdir p :: dirs l) (with_pmem mc M0) (pdir p) b t pages m a';
  bt_untouched : untouched (pdir p :: dirs l) m m2;
}.

Lemma dirs_cons_sub l p x : p <> 0 -> x ∈ dirs (l ++ [p]) <-> x ∈ pdir p :: dirs l.
Proof. intros Hp. by rewrite dirs_snoc, elem_of_cons. Qed.

(** Tables of the new machine: those of the old, the kernel's again in the new
    directory, and the new one. *)
Lemma built_tables l s p b t pages mc m m2 a' :
  built l p b t pages (mach s) mc m m2 a' -> spaces_ok l s -> p ∉ l -> 0 < p < PROCESS_MAX_COUNT ->
  forall d i, d ∈ dirs (l ++ [p]) -> 0 <= i < 1024 -> present_at m2 d i = true ->
  table_at m2 d i = t /\ d = pdir p /\ i = PAGE_DIR_INDEX b \/
  exists d', d' ∈ dirs l /\ present_at (pmem (mach s)) d' i = true /\
    table_at m2 d i = table_at (pmem (mach s)) d' i.
Proof.
  intros B Hs Hp Hr d i Hd Hi Hpres. apply dirs_cons_sub in Hd; [|lia].
  destruct (untouched_at _ _ _ _ _ (bt_untouched _ _ _ _ _ _ _ _ _ _ B) Hd Hi) as [E1 E2].
  rewrite E1 in Hpres. rewrite E2. pose proof (bt_partial _ _ _ _ _ _ _ _ _ _ B) as Hpt.
  destruct (decide (d = pdir p /\ i = PAGE_DIR_INDEX b)) as [[-> ->]|Hne].
  { left. by rewrite (pt_table _ _ _ _ _ _ _ _ Hpt). }
  right. assert (d <> pdir p \/ i <> PAGE_DIR_INDEX b) as Hne' by (destruct (decide (d = pdir p)); [right; tauto|by left]).
  destruct (other_same_at _ _ _ _ _ _ _ (pt_same _ _ _ _ _ _ _ _ Hpt) Hd Hi Hne') as [E3 E4].
  cbn [pmem with_pmem] in E3, E4. rewrite E3 in Hpres. rewrite E4.
  apply elem_of_cons in Hd as [->|Hd].
  - exists kd. unfold present_at, table_at in *. rewrite (bt_copy _ _ _ _ _ _ _ _ _ _ B) in * by done.
    split; [apply dirs_in; by left|done].
  - exists d. destruct (sw_dirs _ _ (sp_wf _ _ Hs) d Hd) as (Hda & _).
    assert (d <> pdir p) as Hdp.
    { apply dirs_in in Hd as [->|(q & Hq & _ & ->)]; [by apply not_eq_sym, (sp_static _ _ Hs)|].
      intros E%pdir_inj. by subst. }
    unfold present_at, table_at in *. by rewrite (bt_else _ _ _ _ _ _ _ _ _ _ B) in * by done.
Qed.

Lemma built_used l s p b t pages mc m m2 a' :
  built l p b t pages (mach s) mc m m2 a' -> forall g, 0 <= g ->
  fa_used a' g = bool_decide (g * 4096 ∈ t :: pages) || fa_used (frames (mach s)) g.
Proof. intros B g Hg. apply (pt_used _ _ _ _ _ _ _ _ (bt_partial _ _ _ _ _ _ _ _ _ _ B) g Hg). Qed.

(** The old processes keep their address spaces. *)
Lemma built_old l s p b t pages mc m m2 a' q :
  built l p b t pages (mach s) mc m m2 a' -> spaces_ok l s -> p ∉ l -> 0 < p < PROCESS_MAX_COUNT ->
  q ∈ l -> 0 < q < PROCESS_MAX_COUNT -> space_of (dirs (l ++ [p])) m2 a' (memory (proc s q)).
Proof.
  intros B Hs Hp Hr Hq Hqr. assert (q <> 0) as Hq0 by lia. destruct (sp_space _ _ Hs q Hq Hq0) as [Hd Hso].
  pose proof (bt_partial _ _ _ _ _ _ _ _ _ _ B) as Hpt.
  destruct (sp_static _ _ Hs p Hr) as (_ & _ & Hpu & Hpk & Hptab & Hpfr).
  assert (forall f, f ∈ frames_of (memory (proc s q)) -> f mod 4096 = 0 /\ fa_used (frames (mach s)) (f / 4096) = true
    /\ 0 <= f / 4096) as Hfq.
  { intros f Hf. destruct (so_frames _ _ _ _ Hso f Hf) as (? & ? & _ & ?). repeat split; try done. apply Z.div_pos; lia. }
  assert (space_of (pdir p :: dirs l) mc (frames (mach s)) (memory (proc s q))) as H1.
  { eapply (space_of_copied (dirs l) (pmem (mach s)) mc _ _ (pdir p) kd); try done.
    - apply dirs_in. by left.
    - rewrite Hd. by apply not_eq_sym, (sp_static _ _ Hs).
    - intros d' Hd'. split; [by apply (sw_dirs _ _ (sp_wf _ _ Hs))|].
      apply dirs_in in Hd' as [->|(r & Hrl & _ & ->)]; [by apply not_eq_sym|]. intros E%pdir_inj. by subst.
    - by apply Hpfr.
    - apply (bt_copy _ _ _ _ _ _ _ _ _ _ B).
    - apply (bt_else _ _ _ _ _ _ _ _ _ _ B). }
  eapply (space_of_same (pdir p :: dirs l) _ mc m2 _ a' _ (pdir p) (PAGE_DIR_INDEX b)); [exact H1|..].
  - eapply other_same_trans; [apply (pt_same _ _ _ _ _ _ _ _ Hpt)|].
    apply untouched_other, (bt_untouched _ _ _ _ _ _ _ _ _ _ B).
  - intros x Hx. apply dirs_cons_sub; [lia|done].
  - apply dirs_snoc; [lia|]. right. apply (so_dir _ _ _ _ Hso).
  - rewrite Hd. intros E%pdir_inj. by subst.
  - apply (pt_frames _ _ _ _ _ _ _ _ Hpt).
  - intros f Hf. destruct (Hfq f Hf) as (_ & Hu & Hf0).
    rewrite (built_used _ _ _ _ _ _ _ _ _ _ B) by done. by rewrite Hu, orb_true_r.
  - intros Hin Hpres Hfr. destruct (built_tables l s p b t pages mc m m2 a' B Hs Hp Hr _ _ Hin
      (proj1 (index_ranges b (proj1 (bt_region _ _ _ _ _ _ _ _ _ _ B)))) Hpres) as [(Et & _)|(d' & Hd' & Hp' & Et)].
    + rewrite Et in Hfr. destruct (Hfq t Hfr) as (_ & Hu & _).
      destruct (pt_fresh _ _ _ _ _ _ _ _ Hpt t (list_elem_of_here _ _)) as (_ & _ & Hf & _).
      cbn [frames with_pmem] in Hf. congruence.
    + destruct (decide (table_at m2 (pdir p) (PAGE_DIR_INDEX b) = t)) as [E|E].
      * rewrite E in Hfr. destruct (Hfq t Hfr) as (_ & Hu & _).
        destruct (pt_fresh _ _ _ _ _ _ _ _ Hpt t (list_elem_of_here _ _)) as (_ & _ & Hf & _).
        cbn [frames with_pmem] in Hf. congruence.
      * apply E. pose proof (untouched_at _ _ _ (pdir p) (PAGE_DIR_INDEX b) (bt_untouched _ _ _ _ _ _ _ _ _ _ B)
          (list_elem_of_here _ _) (proj1 (index_ranges b (proj1 (bt_region _ _ _ _ _ _ _ _ _ _ B))))) as [_ ->].
        apply (pt_table _ _ _ _ _ _ _ _ Hpt).
Qed.

(** The new process has the address space it was given. *)
Lemma built_new l s p b size t p0 p1 p2 p3 mc m m2 a' :
  built l p b t [p0; p1; p2; p3] (mach s) mc m m2 a' -> spaces_ok l s -> p ∉ l -> 0 < p < PROCESS_MAX_COUNT ->
  space_of (dirs (l ++ [p])) m2 a' (built_memory b (pdir p) size p0 t p1 p2 p3).
Proof.
  intros B Hs Hp Hr. pose proof (bt_partial _ _ _ _ _ _ _ _ _ _ B) as Hpt.
  pose proof (bt_region _ _ _ _ _ _ _ _ _ _ B) as Hb.
  destruct (sp_static _ _ Hs p Hr) as (_ & _ & _ & Hpk & _).
  assert (kd ∈ dirs l) as Hkd by (apply dirs_in; by left).
  pose proof (proj1 (index_ranges b (proj1 Hb))) as Hi.
  pose proof (partial_space_of _ _ _ _ size _ _ _ _ _ _ _ (bt_wf _ _ _ _ _ _ _ _ _ _ B) (list_elem_of_here _ _) Hb Hpt) as H1.
  eapply (space_of_same (pdir p :: dirs l) _ m m2 _ a' _ kd (PAGE_DIR_INDEX b)); [exact H1|..].
  - apply untouched_other, (bt_untouched _ _ _ _ _ _ _ _ _ _ B).
  - intros x Hx. apply dirs_cons_sub; [lia|done].
  - apply dirs_snoc; [lia|by left].
  - exact Hpk.
  - done.
  - intros f Hf. by apply (so_frames _ _ _ _ H1).
  - intros _ Hpres. exfalso.
    assert (kd ∈ pdir p :: dirs l) as Hkd' by by apply list_elem_of_further.
    destruct (untouched_at _ _ _ kd _ (bt_untouched _ _ _ _ _ _ _ _ _ _ B) Hkd' Hi) as [E1 _].
    destruct (other_same_at _ _ _ _ _ _ _ (pt_same _ _ _ _ _ _ _ _ Hpt) Hkd' Hi (or_introl (not_eq_sym Hpk))) as [E2 _].
    cbn [pmem with_pmem] in E2. rewrite E1, E2 in Hpres. unfold present_at in Hpres.
    rewrite (bt_else _ _ _ _ _ _ _ _ _ _ B) in Hpres; [|apply (sw_dirs _ _ (sp_wf _ _ Hs) kd Hkd)|done|by apply not_eq_sym].
    pose proof (bt_absent _ _ _ _ _ _ _ _ _ _ B) as Habs. unfold present_at in Habs. congruence.
Qed.

(** Outside its region the new directory translates as the kernel's did. *)
Lemma built_shared l s p b t pages mc m m2 a' v :
  built l p b t pages (mach s) mc m m2 a' -> spaces_ok l s -> 0 < p < PROCESS_MAX_COUNT ->
  is_u32 v -> PAGE_DIR_INDEX v <> PAGE_DIR_INDEX b -> walk m2 (pdir p) v = walk (pmem (mach s)) kd v.
Proof.
  intros B Hs Hr Hv Hne. destruct (index_ranges v Hv) as [Hi Hj].
  transitivity (walk mc (pdir p) v).
  - eapply (other_same_walk (pdir p :: dirs l)); [|apply list_elem_of_here|done|by right].
    eapply other_same_trans; [apply (pt_same _ _ _ _ _ _ _ _ (bt_partial _ _ _ _ _ _ _ _ _ _ B))|].
    apply untouched_other, (bt_untouched _ _ _ _ _ _ _ _ _ _ B).
  - unfold walk. rewrite !pde_ent, !pte_ent, (bt_copy _ _ _ _ _ _ _ _ _ _ B) by done.
    destruct (has (ent (pmem (mach s)) kd (PAGE_DIR_INDEX v)) PAGE_PRESENT) eqn:Hp; [|done].
    fold (table_at (pmem (mach s)) kd (PAGE_DIR_INDEX v)).
    rewrite (bt_else _ _ _ _ _ _ _ _ _ _ B); [done|apply table_at_range|done|].
    destruct (sp_static _ _ Hs p Hr) as (_ & _ & _ & _ & Htab & _). apply Htab; [apply dirs_in; by left|done|exact Hp].
Qed.

Lemma spaces_added l s s' p b size t p0 p1 p2 p3 mc m m2 a' :
  spaces_ok l s -> p ∉ l -> 0 < p < PROCESS_MAX_COUNT -> (forall q, q ∈ l -> 0 <= q < PROCESS_MAX_COUNT) ->
  0 ∈ l -> built l p b t [p0; p1; p2; p3] (mach s) mc m m2 a' ->
  mach s' = with_pmem m2 (with_frames a' (mach s)) ->
  (forall q, q ∈ l -> memory (proc s' q) = memory (proc s q)) ->
  memory (proc s' p) = built_memory b (pdir p) size p0 t p1 p2 p3 ->
  spaces_ok (l ++ [p]) s'.
Proof.
  intros Hs Hp Hr Hl H0 B Hm Hold Hnew. pose proof (bt_partial _ _ _ _ _ _ _ _ _ _ B) as Hpt.
  pose proof (built_used _ _ _ _ _ _ _ _ _ _ B) as Hu.
  assert (frames_of (memory (proc s' p)) = [t; p0; p1; p2; p3]) as Hfp by by rewrite Hnew.
  assert (forall f, f ∈ [t; p0; p1; p2; p3] -> f mod 4096 = 0 /\ 0 < f /\ fa_used (frames (mach s)) (f / 4096) = false) as Hfresh.
  { intros f Hf. destruct (pt_fresh _ _ _ _ _ _ _ _ Hpt f Hf) as (? & ? & ? & _). cbn [frames with_pmem] in *. intuition lia. }
  split; rewrite ?Hm; cbn [cr3 kernel_directory pmem frames with_pmem with_frames].
  - apply (space_wf_sub (pdir p :: dirs l)).
    + intros d Hd. apply dirs_cons_sub; [lia|done].
    + cbn [cr3 with_pmem with_frames]. rewrite (sp_cr3 _ _ Hs). apply dirs_in. by left.
    + change (with_pmem m2 (with_frames a' (mach s)))
        with (with_pmem m2 (with_frames a' (with_pmem m (with_frames a' (with_pmem mc (mach s)))))).
      apply space_wf_untouched; [apply Hpt|apply B|apply (sw_alloc _ _ (pt_wf _ _ _ _ _ _ _ _ Hpt))|].
      intros f _ Hf. exact Hf.
  - apply (sp_cr3 _ _ Hs).
  - apply (sp_kernel _ _ Hs).
  - rewrite Hold by done. apply (sp_root _ _ Hs).
  - intros q Hq. destruct (sp_static _ _ Hs q Hq) as (? & Hq1 & Hqu & ? & Htab & Hfr).
    split; [done|]. split; [done|]. split; [rewrite Hu by (apply Z.div_pos; lia); by rewrite Hqu, orb_true_r|].
    split; [done|]. split.
    + intros d i Hd Hi Hpres. destruct (built_tables l s p b t _ mc m m2 a' B Hs Hp Hr d i Hd Hi Hpres)
        as [(-> & _)|(d' & Hd' & Hp' & ->)]; [|by apply Htab].
      intros ->. destruct (Hfresh (pdir q)) as (_ & _ & ?); [by left|]. congruence.
    + intros r [Hrl| ->%list_elem_of_singleton]%elem_of_app Hr0.
      * rewrite Hold by done. by apply Hfr.
      * rewrite Hfp. intros Hin. destruct (Hfresh _ Hin) as (_ & _ & ?). congruence.
  - intros q [Hq| ->%list_elem_of_singleton]%elem_of_app Hq0.
    + rewrite Hold by done. split; [by apply (sp_space _ _ Hs)|].
      eapply built_old; try done. specialize (Hl q Hq). lia.
    + rewrite Hnew. split; [done|]. by eapply built_new.
  - assert (forall q f, q ∈ l -> q <> 0 -> f ∈ frames_of (memory (proc s q)) -> f ∉ [t; p0; p1; p2; p3]) as Hdis.
    { intros q f Hq Hq0 Hf Hin. destruct (Hfresh f Hin) as (_ & _ & Hff).
      destruct (sp_space _ _ Hs q Hq Hq0) as [_ Hso]. destruct (so_frames _ _ _ _ Hso f Hf) as (_ & _ & _ & ?). congruence. }
    intros q r f [Hq| ->%list_elem_of_singleton]%elem_of_app [Hr'| ->%list_elem_of_singleton]%elem_of_app Hq0 Hr0 Hne;
      rewrite ?Hfp, ?Hold by done.
    + by apply (sp_disjoint _ _ Hs).
    + by apply Hdis.
    + intros Hf Hin. by apply (Hdis r f).
    + done.
Qed.

(** ** Creation *)

Definition used_zero : process :=
  Process 0 READY 0 0 NULLP NULLP NULLP NULLP zero_memory zero_signals zero_socket NoEntry
    NoHandler CtxZero 0 0 0 0 0 0 0 0 0 0 0 0 true.

(** [process_allocate_slot] takes the first free slot after the kernel's. *)
Lemma allocate_slot_spec l s : table_ok l s -> (length l < 16)%nat ->
  exists p, 0 < p < PROCESS_MAX_COUNT /\ p ∉ l /\ (forall q, 0 < q < p -> q ∈ l) /\
    process_allocate_slot s = (p, upd p (fun _ => used_zero) s).
Proof.
  intros [H Hu] Hlen. unfold process_allocate_slot.
  destruct (first_in _ _ _) as [p|] eqn:E.
  - apply first_in_Some in E as (q & Hq & Hf & Hno).
    destruct (used (proc s q)) eqn:Euq; [done|]. injection Hf as ->. exists p.
    unfold PROCESS_MAX_COUNT in *. split; [lia|]. split.
    { intros Hin. apply Hu in Hin; [congruence|unfold PROCESS_MAX_COUNT; lia]. }
    split; [|done]. intros q Hq'. apply Hu; [unfold PROCESS_MAX_COUNT; lia|].
    specialize (Hno q ltac:(lia)). by destruct (used (proc s q)).
  - exfalso. rewrite first_in_None in E.
    assert (forall q, 0 <= q < 16 -> q ∈ l) as Hall.
    { intros q Hq. destruct (decide (q = 0)) as [->|]; [by eapply links_root_in|].
      apply Hu; [exact Hq|]. specialize (E q). unfold PROCESS_MAX_COUNT in E. specialize (E ltac:(lia)).
      by destruct (used (proc s q)). }
    assert (length (seqZ 0 16) <= length l)%nat as Hle.
    { apply submseteq_length, NoDup_submseteq; [apply NoDup_seqZ|]. intros q Hq%elem_of_seqZ. apply Hall. lia. }
    rewrite length_seqZ in Hle. lia.
Qed.

(** The new process just before it is linked. *)
Definition created_process (id own : Z) (e : process_entry) (pm : process_memory) : process :=
  Process id READY own PROCESS_RIGHT_ALL NULLP NULLP NULLP NULLP pm zero_signals zero_socket e
    DefaultHandler CtxBootstrap 0 0 0 0 0 0 0 0 0 0 0 0 true.

(** The frames and the region a creation needs. *)
Definition can_create l s (p base : Z) (t p0 p1 p2 p3 : Z) (a' : S) : Prop :=
  region_ok (base_of p base) /\
  present_at (pmem (mach s)) kd (PAGE_DIR_INDEX (base_of p base)) = false /\
  five_frames (frames (mach s)) p0 t p1 p2 p3 a'.

(** Up to the linking. *)
Lemma create_unlinked l s p own base e size t p0 p1 p2 p3 a' :
  table_ok l s -> spaces_ok l s -> p ∉ l -> 0 < p < PROCESS_MAX_COUNT ->
  can_create l s p base t p0 p1 p2 p3 a' ->
  let b := base_of p base in
  let pm := built_memory b (pdir p) size p0 t p1 p2 p3 in
  let s1 := set_next_pid (u32 (next_pid s + 1))
    (upd p (new_process (next_pid s) own base size e) (upd p (fun _ => used_zero) s)) in
  exists mc m,
    process_memory_map page_directories p (socket_create p s1).2 =
      Ret (0, set_mach (with_pmem m (with_frames a' (mach s)))
        (upd p (set_memory pm) (socket_create p s1).2)) /\
    process_initialize_context p (set_mach (with_pmem m (with_frames a' (mach s)))
        (upd p (set_memory pm) (socket_create p s1).2)) =
      set_mach (with_pmem m (with_frames a' (mach s))) (set_next_pid (u32 (next_pid s + 1))
        (upd p (fun _ => created_process (next_pid s) own e pm) s)) /\
    built l p b t [p0; p1; p2; p3] (mach s) mc m m a'.
Proof.
  intros [H Hu] Hs Hp Hr (Hb & Habs & Hf) b pm s1.
  assert (0 <= p < lenZ (table s)) as Hlen by (rewrite (lk_len _ _ H); lia).
  assert (p <> NULLP) as Hpn by (unfold NULLP; lia).
  set (s2 := (socket_create p s1).2).
  assert (s2 = set_next_pid (u32 (next_pid s + 1)) (upd p (fun _ =>
    set_context CtxZero (created_process (next_pid s) own e (set_base base size zero_memory))) s)) as E2.
  { unfold s2, socket_create. rewrite (eqb_sym_neg p NULLP) by done. cbn [snd]. unfold s1.
    change (upd p ?f (set_next_pid ?v ?x)) with (set_next_pid v (upd p f x)). f_equal.
    rewrite !upd_upd by (rewrite ?len_upd; exact Hlen). reflexivity. }
  assert (proc s2 p = set_context CtxZero (created_process (next_pid s) own e (set_base base size zero_memory))) as Ep.
  { rewrite E2. change (proc (set_next_pid ?v ?x) p) with (proc x p). by rewrite proc_upd_eq. }
  assert (mach s2 = mach s) as Em by by rewrite E2.
  destruct (sp_static _ _ Hs p Hr) as (Hda & Hdr & Hdu & Hdk & Htab & _).
  destruct (process_memory_map_run page_directories (dirs l) s2 p b size p0 t p1 p2 p3 a') as (mc & m & E & Helse & Hcopy & Hwf & Hpt);
    rewrite ?Em; try done.
  - by rewrite E2, <- (len_upd s p (fun _ => set_context CtxZero (created_process (next_pid s) own e (set_base base size zero_memory)))) in *.
  - by rewrite Ep.
  - by rewrite Ep.
  - apply Hs.
  - rewrite (sp_kernel _ _ Hs). apply dirs_in. by left.
  - intros [Heq|(q & Hq & _ & Heq%pdir_inj)]%dirs_in; [done|]. by subst.
  - by rewrite (sp_kernel _ _ Hs).
  - rewrite Em in *. exists mc, m. split; [exact E|]. split.
    + rewrite E2. unfold process_initialize_context. 
      change (upd p ?f (set_mach ?v ?x)) with (set_mach v (upd p f x)). f_equal.
      change (upd p ?f (upd p ?g (set_next_pid ?v ?x))) with (set_next_pid v (upd p f (upd p g x))). f_equal.
      rewrite !upd_upd by (rewrite ?len_upd; exact Hlen). reflexivity.
    + rewrite (sp_kernel _ _ Hs) in Hcopy. by split.
Qed.

(** [*((uint32_t * )page) = 0] for a page of the process. *)
Lemma clear_first_word_eq ds s page :
  space_wf ds (mach s) -> plain_page ds (pmem (mach s)) page ->
  exists m2, clear_first_word page s = Ret (set_mach (with_pmem m2 (mach s)) s) /\
    untouched ds (pmem (mach s)) m2 /\
    (forall q k, q mod 4096 = 0 -> 0 <= k < 1024 -> q <> page -> ent m2 q k = ent (pmem (mach s)) q k) /\
    (forall k, 0 <= k < 1024 -> ent (pmem (mach s)) page k = 0 -> ent m2 page k = 0).
Proof.
  intros H Hp. pose proof Hp as (Hpa & Hpr & _). pose proof (wf_windowed _ _ H) as Hw.
  pose proof (page_room page Hpa ltac:(lia)) as Hroom.
  pose proof (vstore32_low (mach s) page 0 0 Hw ltac:(lia) ltac:(lia) Hroom) as E.
  rewrite Z.mul_0_r, Z.add_0_r in E.
  exists (store32 (pmem (mach s)) (page + 4 * 0) 0).
  assert (forall q k, q mod 4096 = 0 -> 0 <= k < 1024 ->
    ent (store32 (pmem (mach s)) (page + 4 * 0) 0) q k =
    if (q =? page) && (k =? 0) then 0 else ent (pmem (mach s)) q k) as Hent
    by (intros q k Hq Hk; by rewrite ent_store by (done || lia)).
  split.
  { unfold clear_first_word, on_mach. rewrite eqb_sym_neg by lia. cbn [negb].
    rewrite E. cbn [mbind outcome_bind]. by rewrite Z.mul_0_r, Z.add_0_r. }
  assert (forall q k, q mod 4096 = 0 -> 0 <= k < 1024 -> q <> page ->
    ent (store32 (pmem (mach s)) (page + 4 * 0) 0) q k = ent (pmem (mach s)) q k) as Hother
    by (intros q k Hq Hk Hne; by rewrite Hent, (eqb_sym_neg q page)).
  split; [|split; [exact Hother|]].
  - apply (untouched_page ds _ _ page Hp); [intros d Hd; by apply (sw_dirs _ _ H)|exact Hother].
  - intros k Hk Hz. rewrite Hent by done. by destruct (_ && _).
Qed.

Lemma untouched_trans ds m1 m2 m3 : untouched ds m1 m2 -> untouched ds m2 m3 -> untouched ds m1 m3.
Proof.
  intros H12 H23 d k Hd Hk. destruct (H12 d k Hd Hk) as [E1 T1]. destruct (H23 d k Hd Hk) as [E2 T2].
  destruct (untouched_at _ _ _ _ _ H12 Hd Hk) as [Ep Et]. split; [congruence|].
  intros Hp x Hx. rewrite Ep, Et in T2. rewrite (T2 Hp x Hx). by apply T1.
Qed.

Lemma plain_untouched ds m m' p : untouched ds m m' -> plain_page ds m p -> plain_page ds m' p.
Proof.
  intros H (? & ? & ? & Ht). split; [done|]. split; [done|]. split; [done|]. intros d k Hd Hk.
  destruct (untouched_at _ _ _ _ _ H Hd Hk) as [-> ->]. by apply Ht.
Qed.

(** The table after a creation. *)
Record created_in l s (p par own size base : Z) (e : process_entry) (s' : pstate S) : Prop := {
  ci_table : table_ok (l ++ [p]) s';
  ci_spaces : spaces_ok (l ++ [p]) s';
  ci_new : relinked (created_process (next_pid s) own e (memory (proc s' p))) (proc s' p);
  ci_parent : parent (proc s' p) = par;
  ci_base : virtual_base (memory (proc s' p)) = base_of p base /\ code_size (memory (proc s' p)) = size;
  ci_old q : q ∈ l -> relinked (proc s q) (proc s' q) /\ parent (proc s' q) = parent (proc s q);
  ci_lists r cl : r ∈ l -> children_are s r cl -> (forall c, c ∈ cl -> c ∈ l) ->
    children_are s' r (if r =? par then p :: cl else cl);
  ci_globals : kernel_process s' = kernel_process s /\ current_process s' = current_process s /\
    scheduler_cursor s' = scheduler_cursor s /\ next_pid s' = next_pid s + 1 /\
    scheduler_enabled s' = scheduler_enabled s /\
    pending_scheduler_ticks s' = pending_scheduler_ticks s;
  ci_frames g : 0 <= g -> fa_used (frames (mach s')) g =
    bool_decide (g * 4096 ∈ frames_of (memory (proc s' p))) || fa_used (frames (mach s)) g;
  ci_fresh f : f ∈ frames_of (memory (proc s' p)) -> f mod 4096 = 0 /\ fa_used (frames (mach s)) (f / 4096) = false;
  ci_zero f k : f ∈ pages_of (memory (proc s' p)) -> 0 <= k < 1024 -> ent (pmem (mach s')) f k = 0;
  ci_else q k : q mod 4096 = 0 -> 0 <= k < 1024 -> q <> pdir p -> q ∉ frames_of (memory (proc s' p)) ->
    ent (pmem (mach s')) q k = ent (pmem (mach s)) q k;
  ci_shared v : is_u32 v -> PAGE_DIR_INDEX v <> PAGE_DIR_INDEX (base_of p base) ->
    walk (pmem (mach s')) (pdir p) v = walk (pmem (mach s)) kd v;
  ci_kernel_absent : present_at (pmem (mach s)) kd (PAGE_DIR_INDEX (base_of p base)) = false;
}.

Lemma create_linked l s p par own base e size t p0 p1 p2 p3 a' mc m :
  table_ok l s -> spaces_ok l s -> p ∉ l -> 0 < p < PROCESS_MAX_COUNT -> par ∈ l ->
  next_pid s + 1 < 4294967296 -> present_at (pmem (mach s)) kd (PAGE_DIR_INDEX (base_of p base)) = false ->
  built l p (base_of p base) t [p0; p1; p2; p3] (mach s) mc m m a' ->
  let pm := built_memory (base_of p base) (pdir p) size p0 t p1 p2 p3 in
  let s6 := set_mach (with_pmem m (with_frames a' (mach s))) (set_next_pid (u32 (next_pid s + 1))
        (upd p (fun _ => created_process (next_pid s) own e pm) s)) in
  exists s', (s ← process_link_global p (process_link_child par p s6);
    s ← clear_first_word (data_page (memory (proc s p))) s;
    s ← clear_first_word (bss_page (memory (proc s p))) s; Ret (p, s)) = Ret (p, s') /\
    created_in l s p par own size base e s' /\ frames (mach s') = a'.
Proof.
  intros [H Hu] Hs Hp Hr Hpar Hpid Habs B pm s6.
  assert (0 <= p < lenZ (table s)) as Hlen by (rewrite (lk_len _ _ H); lia).
  set (np := created_process (next_pid s) own e pm) in *.
  assert (1 <= next_pid s) as Hpid1 by (pose proof (lk_pids _ _ H 0 (links_root_in _ _ H)); lia).
  assert (u32 (next_pid s + 1) = next_pid s + 1) as Epid by (apply u32_id; unfold is_u32; lia).
  assert (forall q, proc s6 q = if q =? p then np else proc s q) as Hproc6
    by (intros q; apply (proc_upd s p (fun _ => np) q Hlen)).
  assert (links l s6) as H6.
  { assert (links l (upd p (fun _ => np) s)) as H5 by (apply links_upd; [done|done|apply zero_queues_ok|done]).
    eapply links_ext; [exact H5|..]; try done; [apply (lk_cursor _ _ H)|apply (lk_current _ _ H)|].
    change (next_pid s <= u32 (next_pid s + 1)). lia. }
  assert (proc s6 p = np) as Ep by by rewrite Hproc6, Z.eqb_refl.
  assert (forall q, q ∈ l -> proc s6 q = proc s q) as Eq.
  { intros q Hq. rewrite Hproc6, eqb_sym_neg; [done|]. intros ->. done. }
  destruct (link_both l s6 par p H6 Hp ltac:(lia) Hpar) as (s7 & E7 & H7 & Hg & Hrel & Hparent & Hlists);
    rewrite ?Ep; try done.
  { change (1 <= next_pid s < u32 (next_pid s + 1)). lia. }
  { intros q Hq. rewrite (Eq q Hq). pose proof (lk_pids _ _ H q Hq). simpl. lia. }
  destruct Hg as (Gk & Gc & Gs & Gn & Gp & _ & _ & Ge & Gm).
  assert (forall q, memory (proc s7 q) = memory (proc s6 q)) as Hmem.
  { intros q. by destruct (relinked_fields _ _ (Hrel q)) as (_ & _ & _ & -> & _). }
  assert (mach s7 = with_pmem m (with_frames a' (mach s))) as Em7 by (rewrite Gm; reflexivity).
  pose proof (bt_partial _ _ _ _ _ _ _ _ _ _ B) as Hpt. pose proof (pt_wf _ _ _ _ _ _ _ _ Hpt) as Hwf.
  change (with_pmem m (with_frames a' (with_pmem mc (mach s)))) with (with_pmem m (with_frames a' (mach s))) in Hwf.
  rewrite <- Em7 in Hwf.
  pose proof (partial_space_of _ _ _ _ size _ _ _ _ _ _ _ (bt_wf _ _ _ _ _ _ _ _ _ _ B) (list_elem_of_here _ _)
    (bt_region _ _ _ _ _ _ _ _ _ _ B) Hpt) as Hso. fold pm in Hso.
  assert (forall x, x ∈ pages_of pm -> plain_page (pdir p :: dirs l) (pmem (mach s7)) x) as Hplain.
  { intros x Hx. rewrite Em7. by apply (so_plain _ _ _ _ Hso). }
  destruct (clear_first_word_eq _ s7 p0 Hwf) as (m1 & E1 & Hun1 & Hel1 & Hz1);
    [apply Hplain; unfold pages_of; set_solver|].
  set (s8 := set_mach (with_pmem m1 (mach s7)) s7) in *.
  assert (space_wf (pdir p :: dirs l) (mach s8)) as Hwf8.
  { assert (mach s8 = with_pmem m1 (with_frames (frames (mach s7)) (mach s7))) as -> by (cbn; by destruct (mach s7)).
    apply space_wf_untouched; [done|done|apply Hwf|done]. }
  destruct (clear_first_word_eq _ s8 p1 Hwf8) as (m2 & E2 & Hun2 & Hel2 & Hz2).
  { apply (plain_untouched _ (pmem (mach s7))); [exact Hun1|]. apply Hplain. unfold pages_of. set_solver. }
  exists (set_mach (with_pmem m2 (mach s8)) s8). split.
  { rewrite E7. cbn [mbind outcome_bind]. rewrite Hmem, Ep. cbn [data_page np memory created_process].
    change (data_page pm) with p0. rewrite E1. cbn [mbind outcome_bind].
    change (memory (proc s8 p)) with (memory (proc s7 p)). rewrite Hmem, Ep.
    change (bss_page (memory np)) with p1. by rewrite E2. }
  set (s' := set_mach (with_pmem m2 (mach s8)) s8).
  assert (forall q, proc s' q = proc s7 q) as Hproc' by done.
  assert (mach s' = with_pmem m2 (with_frames a' (mach s))) as Em'.
  { cbn [mach s' s8 set_mach]. rewrite Em7. done. }
  assert (untouched (pdir p :: dirs l) m m2) as Hun.
  { eapply untouched_trans; [|exact Hun2]. rewrite Em7 in Hun1. exact Hun1. }
  assert (memory (proc s' p) = pm) as Emp by (rewrite Hproc', Hmem, Ep; done).
  assert (links (l ++ [p]) s') as H'.
  { eapply links_ext; [exact H7|..]; try done; apply H7. }
  assert (built l p (base_of p base) t [p0; p1; p2; p3] (mach s) mc m m2 a') as B' by (destruct B; by split).
  split; [|by rewrite Em']. constructor; rewrite ?Emp.
  - split; [exact H'|]. intros q Hq. rewrite Hproc'.
    destruct (relinked_fields _ _ (Hrel q)) as (_ & _ & _ & _ & _ & _ & _ & _ & _ & _ & _ & ->).
    rewrite Hproc6, elem_of_app, list_elem_of_singleton.
    destruct (Z.eqb_spec q p) as [->|Hne]; [by split; [right|]|]. rewrite (Hu q Hq). tauto.
  - eapply (spaces_added l s s' p _ size); try done.
    + apply (lk_range _ _ H).
    + by eapply links_root_in.
    + intros q Hq. rewrite Hproc', Hmem, Eq; done.
  - fold np. rewrite Hproc', <- Ep. apply Hrel.
  - by rewrite Hproc', Hparent, Z.eqb_refl.
  - done.
  - intros q Hq. rewrite Hproc', Hparent, eqb_sym_neg by (intros ->; done).
    rewrite <- (Eq q Hq). split; [apply Hrel|done].
  - intros r cl Hrl Hc Hcl. apply Hlists; [done| |done]. unfold children_are. rewrite (Eq r Hrl).
    eapply chain_ext; [|exact Hc]. intros c Hcc. unfold siblings. by rewrite (Eq c (Hcl c Hcc)).
  - cbn [kernel_process current_process scheduler_cursor next_pid scheduler_enabled
      pending_scheduler_ticks s' s8 set_mach]. rewrite Gk, Gc, Gs, Gn, Ge, Gp.
    cbn. by rewrite Epid.
  - intros g Hg. rewrite Em'. apply (built_used _ _ _ _ _ _ _ _ _ _ B' g Hg).
  - intros f Hf. by destruct (pt_fresh _ _ _ _ _ _ _ _ Hpt f Hf) as (? & _ & ? & _).
  - intros f k Hf Hk. pose proof (pt_zero _ _ _ _ _ _ _ _ Hpt f k Hf Hk) as Hz.
    destruct (so_frames _ _ _ _ Hso f) as (Hfa & _); [by apply list_elem_of_further|].
    rewrite Em'. cbn [pmem with_pmem].
    assert (ent m1 f k = 0) as Hz'.
    { destruct (decide (f = p0)) as [->|]; [apply Hz1; [done|by rewrite Em7]|by rewrite Hel1, Em7]. }
    destruct (decide (f = p1)) as [->|]; [by apply Hz2|by rewrite Hel2].
  - intros q k Hq Hk Hqd Hqf. change (frames_of pm) with [t; p0; p1; p2; p3] in Hqf.
    rewrite Em'. cbn [pmem with_pmem]. rewrite Hel2 by (done || set_solver).
    change (pmem (mach s8)) with m1. rewrite Hel1 by (done || set_solver). rewrite Em7. cbn [pmem with_pmem].
    rewrite (pt_else _ _ _ _ _ _ _ _ Hpt) by done. by apply (bt_else _ _ _ _ _ _ _ _ _ _ B).
  - intros v Hv Hne. rewrite Em'. by eapply built_shared.
  - done.
Qed.

Lemma create_spec l s par own base e size t p0 p1 p2 p3 a' :
  table_ok l s -> spaces_ok l s -> par ∈ l -> (length l < 16)%nat -> next_pid s + 1 < 4294967296 ->
  (forall p, 0 < p < PROCESS_MAX_COUNT -> region_ok (base_of p base) /\
     present_at (pmem (mach s)) kd (PAGE_DIR_INDEX (base_of p base)) = false) ->
  five_frames (frames (mach s)) p0 t p1 p2 p3 a' ->
  exists p s', process_create_internal page_directories par own base e size s = Ret (p, s') /\
    0 < p < PROCESS_MAX_COUNT /\ p ∉ l /\ created_in l s p par own size base e s' /\ frames (mach s') = a'.
Proof.
  intros Hok Hs Hpar Hlen Hpid Hbase Hf.
  destruct (allocate_slot_spec l s Hok Hlen) as (p & Hr & Hp & _ & Ealloc).
  destruct (Hbase p Hr) as [Hb Habs].
  destruct (create_unlinked l s p own base e size t p0 p1 p2 p3 a' Hok Hs Hp Hr) as (mc & m & Emap & Ectx & B);
    [done|].
  destruct (create_linked l s p par own base e size t p0 p1 p2 p3 a' mc m Hok Hs Hp Hr Hpar Hpid Habs B)
    as (s' & Elink & Hc).
  exists p, s'. split; [|done]. unfold process_create_internal. rewrite Ealloc.
  rewrite (eqb_sym_neg p NULLP) by (unfold NULLP; lia).
  change (next_pid (upd p (new_process _ _ _ _ _) _)) with (next_pid s).
  change (next_pid (upd p (fun _ => used_zero) s)) with (next_pid s).
  set (s1 := set_next_pid _ _) in *. unfold socket_create in *. rewrite (eqb_sym_neg p NULLP) in * by (unfold NULLP; lia).
  cbn [snd] in *. cbv iota beta zeta. change (negb (0 =? 0)) with false. cbv iota.
  rewrite Emap. cbn [mbind outcome_bind]. change (negb (0 =? 0)) with false. cbv iota.
  rewrite Ectx. exact Elink.
Qed.

(** The default region of a slot is fine. *)
Lemma default_region p : 0 < p < PROCESS_MAX_COUNT -> region_ok (base_of p 0) /\ PAGE_DIR_INDEX (base_of p 0) = 8.
Proof.
  intros Hp. unfold base_of, process_virtual_base_for_slot, PROCESS_PAGE_REGION_BASE, PROCESS_VIRTUAL_STRIDE.
  rewrite Z.eqb_refl. unfold PROCESS_MAX_COUNT in Hp. rewrite u32_id by (unfold is_u32; lia).
  assert (is_u32 (33554432 + p * 131072)) as Hu by (unfold is_u32; lia).
  rewrite PAGE_DIR_INDEX_eq by done. split; [|divlia].
  split; [done|]. rewrite PAGE_TABLE_INDEX_eq. unfold LOW_MEMORY. split; [divlia|]. split; [lia|divlia].
Qed.

(** ** Release *)

Lemma spaces_removed l s s' p m' a' :
  table_ok l s -> spaces_ok l s -> p ∈ l -> p <> 0 -> released l p s s' ->
  mach s' = with_pmem m' (with_frames a' (mach s)) ->
  taken_down (dirs l) (pmem (mach s)) (frames (mach s)) (memory (proc s p)) (mach s) m' a' ->
  spaces_ok (without p l) s'.
Proof.
  intros [H _] Hs Hp Hp0 Hrl Em [Twf Tsame Tabs Tfreed Telse].
  pose proof (lk_range _ _ H) as Hl.
  destruct (sp_space _ _ Hs p Hp Hp0) as [Hdir Hso]. rewrite Hdir in *.
  assert (0 < p < PROCESS_MAX_COUNT) as Hpr by (specialize (Hl p Hp); lia).
  destruct (sp_static _ _ Hs p Hpr) as (_ & _ & _ & Hpk & _).
  assert (forall q, q <> p -> memory (proc s' q) = memory (proc s q)) as Hmem.
  { intros q Hq. by destruct (relinked_fields _ _ (rl_rel _ _ _ _ Hrl q Hq)) as (_ & _ & _ & -> & _). }
  assert (forall d, d ∈ dirs (without p l) -> d ∈ dirs l /\ d <> pdir p) as Hsub.
  { intros d [Hd Hne]%dirs_without; [|done]. split; [done|]. destruct Hne as [->|?]; [by apply not_eq_sym|done]. }
  assert (forall d i, d ∈ dirs (without p l) -> 0 <= i < 1024 ->
    present_at m' d i = present_at (pmem (mach s)) d i /\ table_at m' d i = table_at (pmem (mach s)) d i) as Htab.
  { intros d i Hd Hi. destruct (Hsub d Hd). by apply (other_same_at _ _ _ _ _ _ _ Tsame); [..|left]. }
  assert (forall f, 0 <= f / 4096 -> f mod 4096 = 0 -> f ∉ frames_of (memory (proc s p)) ->
    fa_used a' (f / 4096) = fa_used (frames (mach s)) (f / 4096)) as Hused.
  { intros f Hf Hfa Hnin. destruct Tfreed as (_ & _ & ->); [|done]. rewrite mul4096_inv by done.
    rewrite bool_decide_eq_false_2; [by rewrite andb_true_r|].
    rewrite elem_of_app, list_elem_of_singleton. unfold frames_of in Hnin. set_solver. }
  split; rewrite ?Em; cbn [cr3 kernel_directory pmem frames with_pmem with_frames].
  - apply (space_wf_sub (dirs l)); [intros d Hd; by apply Hsub| |exact Twf].
    cbn [cr3 with_pmem with_frames]. rewrite (sp_cr3 _ _ Hs). apply dirs_in. by left.
  - apply (sp_cr3 _ _ Hs).
  - apply (sp_kernel _ _ Hs).
  - rewrite Hmem by auto. apply (sp_root _ _ Hs).
  - intros q Hq. destruct (sp_static _ _ Hs q Hq) as (? & Hq1 & Hqu & ? & Hqt & Hfr).
    split; [done|]. split; [done|]. split; [rewrite Hused; [done|apply Z.div_pos; lia|done|by apply Hfr]|].
    split; [done|]. split.
    + intros d i Hd Hi. destruct (Htab d i Hd Hi) as [-> ->]. apply Hqt; [by apply Hsub|done].
    + intros r [Hrp Hr]%without_in Hr0. rewrite Hmem by done. by apply Hfr.
  - intros q [Hqp Hq]%without_in Hq0. rewrite Hmem by done. destruct (sp_space _ _ Hs q Hq Hq0) as [Hqd Hqs].
    split; [done|]. eapply (space_of_same (dirs l) _ _ m' _ a' _ (pdir p)); [exact Hqs|exact Tsame|..].
    + intros x Hx. by apply Hsub.
    + apply dirs_without; [done|]. split; [apply (so_dir _ _ _ _ Hqs)|right]. rewrite Hqd. intros E. by apply Hqp, pdir_inj.
    + rewrite Hqd. intros E. by apply Hqp, pdir_inj.
    + apply Tfreed.
    + intros f Hf. destruct (so_frames _ _ _ _ Hqs f Hf) as (? & ? & _ & ?). rewrite Hused; [done|apply Z.div_pos; lia|done|].
      by apply (sp_disjoint _ _ Hs q p f).
    + intros Hin. by destruct (Hsub _ Hin).
  - intros q r f [Hqp Hq]%without_in [Hrp Hr]%without_in. rewrite !Hmem by done. by apply (sp_disjoint _ _ Hs).
Qed.

(** Releasing a process that is not running: the table and the address spaces
    lose it, and exactly its five frames become free. *)
Lemma process_release_spec l s p :
  table_ok l s -> spaces_ok l s -> p ∈ l -> p <> 0 -> current_process s <> p ->
  exists s', process_release p s = Ret s' /\ released l p s s' /\ spaces_ok (without p l) s' /\
    freed (frames (mach s)) (frames (mach s')) (pages_of (memory (proc s p)) ++ [process_page_table (memory (proc s p))]).
Proof.
  intros Hok Hs Hp Hp0 Hcur. destruct (sp_space _ _ Hs p Hp Hp0) as [Hdir Hso].
  assert (0 < p < PROCESS_MAX_COUNT) as Hpr by (pose proof (lk_range _ _ (proj1 Hok) p Hp); lia).
  destruct (sp_static _ _ Hs p Hpr) as (_ & _ & _ & Hpk & _).
  destruct (release_pages_spec (dirs l) (mach s) (memory (proc s p)) (sp_wf _ _ Hs) Hso) as (m' & a' & E & T).
  { by rewrite Hdir, (sp_cr3 _ _ Hs). }
  destruct (release_spec l s p _ Hok Hp Hp0 Hcur E) as (s' & E' & Hrl & Em).
  exists s'. split; [exact E'|]. split; [exact Hrl|]. split; [by eapply spaces_removed|].
  rewrite Em. apply T.
Qed.

(** ** Waiting *)

Lemma spaces_ok_same l s s' : spaces_ok l s -> mach s' = mach s ->
  (forall q, memory (proc s' q) = memory (proc s q)) -> spaces_ok l s'.
Proof.
  intros [] Em Hm. split; rewrite ?Em, ?Hm; try done.
  - intros q Hq. destruct (sp_static0 q Hq) as (? & ? & ? & ? & ? & Hfr). repeat split; try done; try lia.
    intros r. rewrite Hm. by apply Hfr.
  - intros q. rewrite Hm. by apply sp_space0.
  - intros q r f. rewrite !Hm. by apply sp_disjoint0.
Qed.

Lemma memory_upd s p f q : (forall x, memory (f x) = memory x) -> memory (proc (upd p f s) q) = memory (proc s q).
Proof.
  intros Hf. destruct (decide (0 <= p < lenZ (table s))); [|by rewrite upd_out].
  rewrite proc_upd by done. destruct (Z.eqb_spec q p) as [->|]; [apply Hf|done].
Qed.

Lemma spaces_ok_upd l s p f : spaces_ok l s -> (forall x, memory (f x) = memory x) -> spaces_ok l (upd p f s).
Proof. intros H Hf. apply (spaces_ok_same l s); [done|done|]. intros q. by apply memory_upd. Qed.

Lemma spaces_ok_exit l s p code : spaces_ok l s -> spaces_ok l (process_exit p code s).
Proof.
  intros H. apply (spaces_ok_same l s); [done|apply process_exit_globals|].
  intros q. by destruct (exit_frame_fields _ _ (process_exit_frame s p code q)) as (_ & _ & _ & -> & _).
Qed.

(** The heap of a process grows within its page. *)
Lemma spaces_ok_heap_break l s p b : spaces_ok l s ->
  spaces_ok l (upd p (fun q => set_memory (set_heap_break b (memory q)) q) s).
Proof.
  intros H. set (f := fun q => set_memory (set_heap_break b (memory q)) q).
  assert (forall q, proc (upd p f s) q = proc s q \/ proc (upd p f s) q = f (proc s q)) as Hq.
  { intros q. destruct (decide (0 <= p < lenZ (table s))); [|left; by rewrite upd_out].
    rewrite proc_upd by done. destruct (Z.eqb_spec q p) as [->|]; [by right|by left]. }
  assert (forall q, frames_of (memory (proc (upd p f s) q)) = frames_of (memory (proc s q)) /\
    process_page_directory (memory (proc (upd p f s) q)) = process_page_directory (memory (proc s q))) as Hfr
    by (intros q; by destruct (Hq q) as [-> | ->]).
  destruct H. split; try done.
  - by destruct (Hfr 0) as [_ ->].
  - intros q Hr. destruct (sp_static0 q Hr) as (? & ? & ? & ? & ? & Hs). do 5 (split; [done|]).
    intros r. destruct (Hfr r) as [-> _]. apply Hs.
  - intros q Hql Hq0. destruct (sp_space0 q Hql Hq0) as [Hd Hsp]. destruct (Hfr q) as [_ ->]. split; [done|].
    destruct (Hq q) as [-> | ->]; [done|]. by destruct Hsp.
  - intros q r g. destruct (Hfr q) as [-> _], (Hfr r) as [-> _]. apply sp_disjoint0.
Qed.

(** What a successful wait does to the processes that stay: the links, and the
    waiting mark of the caller. *)
Definition waited (x y : process) : Prop :=
  relinked x y \/ status x = WAITING /\ relinked (set_status THREAD x) y.

Lemma waited_fields x y : waited x y ->
  pid y = pid x /\ signal_handler y = signal_handler x /\ entry y = entry x /\ context y = context x /\
  (status x = ZOMBIE -> status y = ZOMBIE).
Proof.
  intros [H|[Hw H]]; destruct (relinked_fields _ _ H) as (-> & -> & _ & _ & _ & _ & -> & -> & -> & _); [done|].
  split; [done|]. split; [done|]. split; [done|]. split; [done|]. congruence.
Qed.

(** Exactly the caller is caller_woken, when it was waiting. *)
Definition caller_woken (caller : bool) (x y : process) : Prop :=
  if caller && status_is (status x) WAITING then relinked (set_status THREAD x) y else relinked x y.

Lemma caller_woken_waited b x y : caller_woken b x y -> waited x y.
Proof.
  unfold caller_woken. destruct b; [|by left]. cbn [andb]. destruct (status_is (status x) WAITING) eqn:E; [|by left].
  apply bool_decide_eq_true in E. by right.
Qed.

Lemma caller_woken_status b x y : caller_woken b x y ->
  status y = if b && status_is (status x) WAITING then THREAD else status x.
Proof. unfold caller_woken. destruct (_ && _); intros H; by destruct (relinked_fields _ _ H) as (_ & -> & _). Qed.

(** The three outcomes of [process_wait] for the parent [par] of the zombie,
    the live process or the stranger [c]. *)
Lemma wait_zombie_caller l s par c :
  table_ok l s -> spaces_ok l s -> par ∈ l -> c ∈ l -> (par = 0 \/ parent (proc s c) = par) ->
  status (proc s c) = ZOMBIE -> c <> 0 -> current_process s <> c ->
  exists s', process_wait par (pid (proc s c)) s = Ret (1, exit_code (proc s c), s') /\
    table_ok (without c l) s' /\ spaces_ok (without c l) s' /\
    freed (frames (mach s)) (frames (mach s'))
      (pages_of (memory (proc s c)) ++ [process_page_table (memory (proc s c))]) /\
    (forall q, q <> c -> caller_woken (q =? par) (proc s q) (proc s' q)) /\
    kernel_process s' = kernel_process s /\ current_process s' = current_process s /\
    scheduler_enabled s' = scheduler_enabled s /\ next_pid s' = next_pid s.
Proof.
  intros Hok Hs Hpar Hc Hchild Hz Hc0 Hcur. pose proof Hok as [H _].
  unfold process_wait. rewrite (get_by_pid_in l s c Hok Hc). cbn [mbind outcome_bind].
  rewrite (eqb_sym_neg c NULLP) by exact (links_not_null _ _ _ H Hc). cbn [orb].
  rewrite (lk_kernel _ _ H).
  assert (negb (par =? 0) && negb (parent (proc s c) =? par) = false) as ->.
  { destruct Hchild as [-> | ->]; rewrite Z.eqb_refl; [done|apply andb_false_r]. }
  unfold status_is at 1. rewrite bool_decide_true by done. cbn [negb].
  rewrite (eqb_sym_neg par NULLP) by exact (links_not_null _ _ _ H Hpar). cbn [negb andb].
  set (s1 := if status_is (status (proc s par)) WAITING then upd par (set_status THREAD) s else s).
  assert (table_ok l s1) as Hok1 by (unfold s1; destruct (status_is _ _); [by apply table_ok_quiet, quiet_status|done]).
  assert (spaces_ok l s1) as Hs1 by (unfold s1; destruct (status_is _ _); [by apply spaces_ok_upd|done]).
  assert (current_process s1 = current_process s /\ mach s1 = mach s /\ kernel_process s1 = kernel_process s /\
    scheduler_enabled s1 = scheduler_enabled s /\ next_pid s1 = next_pid s)
    as (G1 & G2 & G3 & G4 & G5) by (unfold s1; by destruct (status_is _ _)).
  assert (forall q, memory (proc s1 q) = memory (proc s q) /\
    proc s1 q = if (q =? par) && status_is (status (proc s q)) WAITING then set_status THREAD (proc s q) else proc s q) as Hq.
  { intros q. unfold s1. destruct (Z.eqb_spec q par) as [->|Hne]; cbn [andb].
    - destruct (status_is _ _); [|done]. rewrite proc_upd_eq by exact (links_proc _ _ _ H Hpar). done.
    - destruct (status_is (status (proc s par)) _); [by rewrite proc_upd_ne|done]. }
  destruct (process_release_spec l s1 c Hok1 Hs1 Hc Hc0) as (s' & E & Hrl & Hs' & Hf); [by rewrite G1|].
  rewrite E. cbn [mbind outcome_bind]. exists s'. split; [done|]. split; [apply Hrl|]. split; [done|].
  split; [by rewrite <- G2, <- (proj1 (Hq c))|]. split.
  - intros q Hne. pose proof (rl_rel _ _ _ _ Hrl q Hne) as Hrel. rewrite (proj2 (Hq q)) in Hrel.
    unfold caller_woken. by destruct (_ && _).
  - rewrite (rl_kernel _ _ _ _ Hrl), (rl_current _ _ _ _ Hrl), (rl_enabled _ _ _ _ Hrl), (rl_next_pid _ _ _ _ Hrl).
    by rewrite G1, G3, G4, G5, (lk_kernel _ _ H).
Qed.

Lemma wait_zombie l s par c :
  table_ok l s -> spaces_ok l s -> par ∈ l -> c ∈ l -> (par = 0 \/ parent (proc s c) = par) ->
  status (proc s c) = ZOMBIE -> c <> 0 -> current_process s <> c ->
  exists s', process_wait par (pid (proc s c)) s = Ret (1, exit_code (proc s c), s') /\
    table_ok (without c l) s' /\ spaces_ok (without c l) s' /\
    freed (frames (mach s)) (frames (mach s'))
      (pages_of (memory (proc s c)) ++ [process_page_table (memory (proc s c))]) /\
    (forall q, q <> c -> waited (proc s q) (proc s' q)) /\
    kernel_process s' = kernel_process s /\ current_process s' = current_process s /\
    scheduler_enabled s' = scheduler_enabled s /\ next_pid s' = next_pid s.
Proof.
  intros Hok Hs Hp Hc Hch Hz Hc0 Hcur.
  destruct (wait_zombie_caller l s par c Hok Hs Hp Hc Hch Hz Hc0 Hcur) as (s' & E & H1 & H2 & H3 & Hw & H4).
  exists s'. split; [exact E|]. split; [done|]. split; [done|]. split; [done|]. split; [|done].
  intros q Hq. by eapply caller_woken_waited, Hw.
Qed.

Lemma wait_absent l s par id : table_ok l s -> (forall q, q ∈ l -> pid (proc s q) <> id) ->
  process_wait par id s = Ret (-1, 0, s).
Proof.
  intros Hok Habs. unfold process_wait.
  destruct (get_by_pid_cases l s id Hok) as [[-> _]|(q & Hq & _ & E)]; [done|]. by destruct (Habs q Hq).
Qed.

Lemma wait_stranger l s par c : table_ok l s -> c ∈ l -> par <> 0 /\ parent (proc s c) <> par ->
  process_wait par (pid (proc s c)) s = Ret (-1, 0, s).
Proof.
  intros Hok Hc [Hp0 Hne]. unfold process_wait. rewrite (get_by_pid_in l s c Hok Hc). cbn [mbind outcome_bind].
  rewrite (eqb_sym_neg c NULLP) by exact (links_not_null _ _ _ (proj1 Hok) Hc).
  by rewrite (lk_kernel _ _ (proj1 Hok)), (eqb_sym_neg par 0), (eqb_sym_neg (parent (proc s c)) par).
Qed.

Lemma wait_live l s par c :
  table_ok l s -> spaces_ok l s -> par ∈ l -> c ∈ l -> (par = 0 \/ parent (proc s c) = par) ->
  status (proc s c) <> ZOMBIE ->
  exists s', process_wait par (pid (proc s c)) s = Ret (0, 0, s') /\ table_ok l s' /\ spaces_ok l s' /\
    wait_target_pid (proc s' par) = pid (proc s c) /\ (par <> 0 -> status (proc s' par) = WAITING) /\
    forall q, q <> par -> proc s' q = proc s q.
Proof.
  intros Hok Hs Hpar Hc Hchild Hz. pose proof Hok as [H _].
  unfold process_wait. rewrite (get_by_pid_in l s c Hok Hc). cbn [mbind outcome_bind].
  rewrite (eqb_sym_neg c NULLP) by exact (links_not_null _ _ _ H Hc). cbn [orb]. rewrite (lk_kernel _ _ H).
  assert (negb (par =? 0) && negb (parent (proc s c) =? par) = false) as ->.
  { destruct Hchild as [-> | ->]; rewrite Z.eqb_refl; [done|apply andb_false_r]. }
  unfold status_is. rewrite bool_decide_false by done. cbn [negb].
  rewrite (eqb_sym_neg par NULLP) by exact (links_not_null _ _ _ H Hpar). cbn [negb].
  pose proof (links_proc _ _ _ H Hpar) as Hr.
  pose proof (table_ok_quiet l s par _ Hok (quiet_wait (pid (proc s c)))) as Hok1.
  assert (spaces_ok l (upd par (set_wait_target (pid (proc s c))) s)) as Hs1 by by apply spaces_ok_upd.
  change (kernel_process (upd par _ s)) with (kernel_process s). rewrite (lk_kernel _ _ H).
  destruct (Z.eqb_spec par 0) as [->|Hp0]; cbn [negb].
  - eexists. split; [done|]. split; [done|]. split; [done|]. rewrite proc_upd_eq by done.
    split; [done|]. split; [done|]. intros q Hq. by rewrite proc_upd_ne.
  - eexists. split; [done|]. split; [by apply table_ok_quiet, quiet_status|]. split; [by apply spaces_ok_upd|].
    rewrite !proc_upd_eq by (rewrite ?len_upd; done). split; [done|]. split; [done|].
    intros q Hq. by rewrite !proc_upd_ne.
Qed.

(** C10. The wait protocol: waiting for a pid that does not exist, or (unless the
    caller is the kernel) for a process that is not a child, is refused and
    changes nothing; for a live child it records the target, marks the caller
    waiting and changes nothing else; for a zombie it returns the exit code and
    releases it: the process leaves the table, its five frames are free again,
    the address spaces of the others are intact, the caller runs on if it was
    marked waiting, no other status changes, and a second wait is refused. *)
Theorem process_wait_correct l s par :
  table_ok l s -> spaces_ok l s -> par ∈ l ->
  (forall id, (forall q, q ∈ l -> pid (proc s q) <> id) -> process_wait par id s = Ret (-1, 0, s)) /\
  forall c, c ∈ l ->
    let id := pid (proc s c) in
    if decide (par <> 0 /\ parent (proc s c) <> par) then process_wait par id s = Ret (-1, 0, s)
    else if decide (status (proc s c) = ZOMBIE) then
      c <> 0 -> current_process s <> c ->
      exists s', process_wait par id s = Ret (1, exit_code (proc s c), s') /\
        table_ok (without c l) s' /\ spaces_ok (without c l) s' /\
        freed (frames (mach s)) (frames (mach s'))
          (pages_of (memory (proc s c)) ++ [process_page_table (memory (proc s c))]) /\
        (forall q, q <> c -> status (proc s' q) =
           if (q =? par) && status_is (status (proc s q)) WAITING then THREAD else status (proc s q)) /\
        process_wait par id s' = Ret (-1, 0, s')
    else exists s', process_wait par id s = Ret (0, 0, s') /\ table_ok l s' /\ spaces_ok l s' /\
      wait_target_pid (proc s' par) = id /\ (par <> 0 -> status (proc s' par) = WAITING) /\
      forall q, q <> par -> proc s' q = proc s q.
Proof.
  intros Hok Hs Hpar. split; [intros id; by apply wait_absent|].
  intros c Hc id. case_decide as Hstr; [by apply (wait_stranger l)|].
  assert (par = 0 \/ parent (proc s c) = par) as Hchild.
  { destruct (decide (par = 0)); [by left|]. destruct (decide (parent (proc s c) = par)); [by right|].
    exfalso. by apply Hstr. }
  case_decide as Hz; [|by apply wait_live].
  intros Hc0 Hcur.
  destruct (wait_zombie_caller l s par c Hok Hs Hpar Hc Hchild Hz Hc0 Hcur) as (s' & E & Hok' & Hs' & Hf & Hpids & _).
  exists s'. do 4 (split; [done|]). split; [intros q Hq; by apply caller_woken_status, Hpids|]. apply (wait_absent (without c l)); [done|].
  intros q [Hqc Hq]%without_in. rewrite (proj1 (waited_fields _ _ (caller_woken_waited _ _ _ (Hpids q Hqc)))). intros Heq.
  by apply Hqc, (lk_pid_inj _ _ (proj1 Hok)).
Qed.

(** ** Initialisation *)

(** Clearing whole pages of the window that hold no directory and no table. *)
Lemma process_memset_region ds (M : machine S) ptr n :
  space_wf ds M -> 0 < ptr -> ptr mod 4096 = 0 -> 0 <= n -> n mod 4096 = 0 -> ptr + n <= LOW_MEMORY ->
  (forall p, p mod 4096 = 0 -> ptr <= p < ptr + n -> plain_page ds (pmem M) p) ->
  exists m, process_memset ptr 0 n M = Ret (with_pmem m M) /\ untouched ds (pmem M) m.
Proof.
  intros H Hp0 Hpa Hn Hna Hlow Hplain.
  assert (forall m, (forall a, ~ ptr <= a < ptr + n -> load8 m a = load8 (pmem M) a) -> untouched ds (pmem M) m) as Hun.
  { intros m Hm.
    assert (forall q k, q mod 4096 = 0 -> 0 <= k < 1024 -> ~ ptr <= q < ptr + n -> ent m q k = ent (pmem M) q k) as Hent.
    { intros q k Hq Hk Hout. unfold ent, load32. rewrite !Hm by divlia. done. }
    intros d k Hd Hk. split.
    - apply Hent; [by apply (sw_dirs _ _ H)|done|]. intros Hin.
      destruct (Hplain d) as (_ & _ & Hnd & _); [by apply (sw_dirs _ _ H)|done|done].
    - intros Hp x Hx. destruct (table_at_range (pmem M) d k) as [Hta _]. apply Hent; [done|done|].
      intros Hin. destruct (Hplain _ Hta Hin) as (_ & _ & _ & Hnt). by apply (Hnt d k). }
  assert (forall m, untouched ds (pmem M) m -> windowed (with_pmem m M)) as Hwin.
  { intros m Hm. apply (wf_windowed ds). 
    assert (with_pmem m M = with_pmem m (with_frames (frames M) M)) as -> by by destruct M.
    apply space_wf_untouched; [done|done|apply H|done]. }
  destruct (for_rangeM_ind (fun i m => vstore8 (u32 (ptr + i)) 0 m)
    (fun _ M' => exists m, M' = with_pmem m M /\ forall a, ~ ptr <= a < ptr + n -> load8 m a = load8 (pmem M) a)
    0 n M) as (M' & E & m & -> & Hm); [lia|exists (pmem M); split; [by destruct M|done]| |].
  - intros i M' Hi (m & -> & Hm).
    assert (u32 (ptr + i) = ptr + i) as -> by (apply u32_id; unfold is_u32, LOW_MEMORY in *; lia).
    unfold vstore8. rewrite translate_low; [|by apply Hwin, Hun|lia].
    eexists. split; [reflexivity|]. eexists. split; [reflexivity|]. cbn [pmem with_pmem].
    intros a Ha. rewrite load8_store8_ne by lia. by apply Hm.
  - exists m. split; [exact E|]. by apply Hun.
Qed.

(** What the boot leaves for [process_init]. *)
Definition bootable s : Prop :=
  space_wf [kd] (mach s) /\ cr3 (mach s) = kd /\ kernel_directory (mach s) = kd /\
  page_directories mod 4096 = 0 /\ 0 < page_directories /\ page_directories + 65536 <= LOW_MEMORY /\
  1 <= next_pid s < 4294967295 /\
  (forall q, 0 <= q < PROCESS_MAX_COUNT -> fa_used (frames (mach s)) (pdir q / 4096) = true /\ pdir q <> kd /\
     forall i, 0 <= i < 1024 -> present_at (pmem (mach s)) kd i = true -> table_at (pmem (mach s)) kd i <> pdir q).

(** The static directories are cleared, no other table is touched. *)
Lemma process_memset_boot s : bootable s ->
  exists m, process_memset page_directories 0 (4096 * PROCESS_MAX_COUNT) (mach s) = Ret (with_pmem m (mach s)) /\
    untouched [kd] (pmem (mach s)) m.
Proof.
  intros (H & Hcr & Hk & Hpa & Hp0 & Hlow & Hpid & Hst).
  assert (forall p, p mod 4096 = 0 -> page_directories <= p < page_directories + 4096 * PROCESS_MAX_COUNT ->
    plain_page [kd] (pmem (mach s)) p) as Hplain.
  { intros p Hp Hr. unfold PROCESS_MAX_COUNT in *.
    assert (p = pdir ((p - page_directories) / 4096)) as Ep by (unfold page_directory_of; divlia).
    destruct (Hst ((p - page_directories) / 4096)) as (Hu & Hne & Hnt); [divlia|].
    rewrite <- Ep in *. split; [done|]. split; [lia|]. split; [by intros ->%list_elem_of_singleton|].
    intros d k ->%list_elem_of_singleton. apply Hnt. }
  destruct (process_memset_region [kd] (mach s) page_directories (4096 * PROCESS_MAX_COUNT) H Hp0 Hpa
    ltac:(done) ltac:(done) Hlow Hplain) as (m & E & Hun).
  exists m. split; [exact E|exact Hun].
Qed.

Lemma process_init_memory s s' : bootable s -> process_init page_directories s = Ret s' ->
  exists m, mach s' = with_pmem m (mach s) /\ untouched [kd] (pmem (mach s)) m.
Proof.
  intros H. destruct (process_memset_boot s H) as (m & E & Hun). unfold process_init, on_mach. rewrite E.
  cbn [mbind outcome_bind]. intros [= <-]. exists m. split; [reflexivity|exact Hun].
Qed.

Lemma process_init_spec s : bootable s ->
  exists s', process_init page_directories s = Ret s' /\ table_ok [0] s' /\ spaces_ok [0] s' /\
    current_process s' = 0 /\ next_pid s' = next_pid s + 1 /\ pid (proc s' 0) = next_pid s /\
    frames (mach s') = frames (mach s) /\
    (forall k, 0 <= k < 1024 -> present_at (pmem (mach s')) kd k = present_at (pmem (mach s)) kd k) /\
    scheduler_enabled s' = true /\ pending_scheduler_ticks s' = 0 /\ status (proc s' 0) = THREAD /\
    signal_handler (proc s' 0) = NoHandler.
Proof.
  intros Hb. destruct (process_memset_boot s Hb) as (m & E & Hun). destruct Hb as (H & Hcr & Hk & Hpa & Hp0 & Hlow & Hpid & Hst).
  unfold process_init, on_mach. rewrite E. clear E. cbn [mbind outcome_bind mach set_mach].
  eexists. split; [reflexivity|].
  assert (with_pmem m (mach s) = with_pmem m (with_frames (frames (mach s)) (mach s))) as Em by by destruct (mach s).
  pose proof (space_wf_untouched [kd] (mach s) m (frames (mach s)) H Hun (sw_alloc _ _ H) ltac:(done)) as Hwf.
  rewrite <- Em in Hwf.
  change (next_pid (set_mach _ s)) with (next_pid s). rewrite (u32_id (next_pid s + 1)) by (unfold is_u32; lia).
  set (s' := PState _ _ _ _ _ _ _ _ _ _ _).
  assert (kd ∈ [kd]) as Hkd by set_solver.
  assert (forall q, q ∈ [0] -> q = 0) as Hin by (intros q; by rewrite list_elem_of_singleton).
  split; [|split; [|split; [done|split; [done|split; [done|split; [done|]]]]]].
  - split.
    + constructor; try done.
      * by exists [].
      * apply NoDup_singleton.
      * by intros q ->%Hin.
      * intros q ->%Hin. exists []. split; [done|]. split; [constructor|set_solver].
      * apply (slot_cases (fun q => q ∉ [0] -> children (proc s' q) = NULLP)).
        repeat apply Forall_cons_2; try apply Forall_nil_2; done.
      * intros q ->%Hin. by left.
      * intros q ->%Hin. simpl. lia.
      * by intros q r ->%Hin ->%Hin.
      * set_solver.
      * set_solver.
      * apply slot_cases. repeat apply Forall_cons_2; try apply Forall_nil_2; split; split; try done; by split.
      * by intros q ->%Hin.
    + apply slot_cases. repeat apply Forall_cons_2; try apply Forall_nil_2; split; intros Hq; try done;
        rewrite list_elem_of_singleton in *; done.
  - assert (dirs [0] = [kd]) as Ed by done.
    split; rewrite ?Ed.
    + exact Hwf.
    + exact Hcr.
    + exact Hk.
    + rewrite <- Hcr, <- (sw_cur _ _ H). reflexivity.
    + intros q Hq. destruct (Hst q ltac:(lia)) as (Hu & Hne & Hnt).
      unfold PROCESS_MAX_COUNT, page_directory_of in *. split; [divlia|]. split; [lia|]. split; [done|].
      split; [done|]. split.
      * intros d i ->%list_elem_of_singleton Hi. cbn [mach s' pmem with_pmem].
        destruct (untouched_at _ _ _ kd i Hun Hkd Hi) as [-> ->]. by apply Hnt.
      * by intros r ->%Hin.
    + by intros q ->%Hin.
    + by intros q r f ->%Hin.
  - split; [|done]. intros k Hk'. cbn [mach s' pmem with_pmem]. by destruct (untouched_at _ _ _ kd k Hun Hkd Hk') as [-> _].
Qed.
End life.

(** ** Properties *)

Section properties.
Context {S : Type} `{FA : FrameAllocator S}.
Context (page_directories kd : Z).
Implicit Types (s : pstate S) (l : list Z).

#[local] Abbreviation pdir := (page_directory_of page_directories).
#[local] Abbreviation spaces_ok := (spaces_ok page_directories kd).

(** What a creation with the default region needs: room in the table, a pid
    left, no kernel table over the region, five frames of the window. *)
Definition can_spawn l s : Prop :=
  (length l < 16)%nat /\ next_pid s + 1 < 4294967296 /\ present_at (pmem (mach s)) kd 8 = false /\
  exists p0 t p1 p2 p3 a', five_frames (frames (mach s)) p0 t p1 p2 p3 a'.

Lemma create_owned_spec l s own e size :
  table_ok l s -> spaces_ok l s -> can_spawn l s ->
  exists p s', process_create_owned page_directories own e size s = Ret (p, s') /\
    0 < p < PROCESS_MAX_COUNT /\ p ∉ l /\
    created_in page_directories kd l s p (current_process s) own size 0 e s'.
Proof.
  intros Hok Hs (Hlen & Hpid & Habs & p0 & t & p1 & p2 & p3 & a' & Hf).
  unfold process_create_owned, current_or_kernel.
  pose proof (lk_current _ _ (proj1 Hok)) as Hcur.
  rewrite (eqb_sym_neg (current_process s) NULLP) by exact (links_not_null _ _ _ (proj1 Hok) Hcur).
  cbn [negb]. destruct (create_spec page_directories kd l s (current_process s) own 0 e size t p0 p1 p2 p3 a')
    as (p & s' & E & Hr & Hp & C & _); try done.
  - intros p Hp. destruct (default_region p Hp) as [? ->]. done.
  - exists p, s'. done.
Qed.

(** The pages and the table of another process, after a creation. *)
Lemma created_others l s (p par own size base : Z) (e : process_entry) s' (r f k : Z) : spaces_ok l s -> 0 < p < PROCESS_MAX_COUNT ->
  created_in page_directories kd l s p par own size base e s' -> r ∈ l -> r <> 0 -> f ∈ frames_of (memory (proc s r)) ->
  0 <= k < 1024 -> ent (pmem (mach s')) f k = ent (pmem (mach s)) f k.
Proof.
  intros Hs Hp C Hr Hr0 Hf Hk. destruct (sp_space _ _ _ _ Hs r Hr Hr0) as [_ Hso].
  destruct (so_frames _ _ _ _ Hso f Hf) as (Hal & _ & _ & Hu). destruct (sp_static _ _ _ _ Hs p Hp) as (_ & _ & _ & _ & _ & Hpd).
  apply (ci_else _ _ _ _ _ _ _ _ _ _ _ C); [done|done| |].
  - intros ->. by apply (Hpd r Hr Hr0).
  - intros Hin. destruct (ci_fresh _ _ _ _ _ _ _ _ _ _ _ C f Hin) as [_ Hn]. by rewrite Hu in Hn.
Qed.

(** C8. [process_create_owned] succeeds when a slot, a pid and five frames are
    left, and does what its callers rely on: the process enters the table as a
    ready child of the running one, with a fresh pid, the given owner and entry
    and empty queues; it gets an address space in which four zeroed pages are
    mapped for user mode, on frames that were free and that no other process
    has; everywhere else it sees what the kernel's directory maps; the other
    processes keep their records, their address spaces, their frames and what is
    in their pages. *)
Theorem process_create_correct l s own e size :
  table_ok l s -> spaces_ok l s -> can_spawn l s ->
  exists p s', process_create_owned page_directories own e size s = Ret (p, s') /\ p ∉ l /\
    table_ok (l ++ [p]) s' /\ spaces_ok (l ++ [p]) s' /\
    (let q := proc s' p in pid q = next_pid s /\ status q = READY /\ owner q = own /\ entry q = e /\
       parent q = current_process s /\ pending q = [] /\ inbox q = []) /\
    (forall k page, pages_of (memory (proc s' p)) !! k = Some page ->
       fa_used (frames (mach s)) (page / 4096) = false /\
       (forall i, 0 <= i < 1024 -> ent (pmem (mach s')) page i = 0) /\
       forall o, 0 <= o < 4096 ->
         let v := virtual_base (memory (proc s' p)) + 4096 * Z.of_nat k + o in
         walk (pmem (mach s')) (pdir p) v = Some (page + o) /\ user_access (pmem (mach s')) (pdir p) v = true) /\
    (forall v, is_u32 v -> PAGE_DIR_INDEX v <> 8 -> walk (pmem (mach s')) (pdir p) v = walk (pmem (mach s)) kd v) /\
    (forall q, q ∈ l -> relinked (proc s q) (proc s' q)) /\
    (forall r f k, r ∈ l -> r <> 0 -> f ∈ frames_of (memory (proc s r)) -> 0 <= k < 1024 ->
       ent (pmem (mach s')) f k = ent (pmem (mach s)) f k) /\
    (forall g, 0 <= g -> fa_used (frames (mach s')) g =
       bool_decide (g * 4096 ∈ frames_of (memory (proc s' p))) || fa_used (frames (mach s)) g).
Proof.
  intros Hok Hs Hcan.
  destruct (create_owned_spec l s own e size Hok Hs Hcan) as (p & s' & E & Hr & Hp & C).
  exists p, s'. split; [exact E|]. clear E. split; [done|]. split; [apply C|]. split; [apply C|].
  destruct (default_region p Hr) as [_ E8].
  split.
  { cbv zeta. destruct (relinked_fields _ _ (ci_new _ _ _ _ _ _ _ _ _ _ _ C)) as
      (-> & -> & -> & _ & Es & Ek & -> & _).
    unfold pending, inbox. rewrite Es, Ek, (ci_parent _ _ _ _ _ _ _ _ _ _ _ C). done. }
  destruct (sp_space _ _ _ _ (ci_spaces _ _ _ _ _ _ _ _ _ _ _ C) p) as [Hd Hso]; [set_solver|lia|].
  split; [|split; [intros v Hv Hne; apply (ci_shared _ _ _ _ _ _ _ _ _ _ _ C); [done|by rewrite E8]|
    split; [intros q Hq; by apply (ci_old _ _ _ _ _ _ _ _ _ _ _ C)|split; [|apply (ci_frames _ _ _ _ _ _ _ _ _ _ _ C)]]]].
  2:{ intros r f k' Hr' Hr0 Hf Hk. by eapply created_others. }
  intros k page Hk. assert (page ∈ pages_of (memory (proc s' p))) as Hin by by eapply list_elem_of_lookup_2.
  split; [by apply (ci_fresh _ _ _ _ _ _ _ _ _ _ _ C), list_elem_of_further|].
  split; [intros i Hi; by apply (ci_zero _ _ _ _ _ _ _ _ _ _ _ C)|].
  intros o Ho v. rewrite <- Hd. by apply (space_of_walk _ _ _ _ k page Hso Hk o Ho).
Qed.

(** C9. The life of a process leaks nothing: creating one, letting it exit and
    waiting for it returns its exit code and gives back the table as it was and
    every frame it took, page table included. *)
Theorem process_lifecycle_roundtrip l s own e size code :
  table_ok l s -> spaces_ok l s -> can_spawn l s ->
  exists p s1 s3, process_create_owned page_directories own e size s = Ret (p, s1) /\
    process_wait (current_process s) (pid (proc s1 p)) (process_exit p code s1) = Ret (1, code, s3) /\
    table_ok l s3 /\ spaces_ok l s3 /\
    (forall g, 0 <= g -> fa_used (frames (mach s3)) g = fa_used (frames (mach s)) g).
Proof.
  intros Hok Hs Hcan.
  destruct (create_owned_spec l s own e size Hok Hs Hcan) as (p & s1 & E & Hr & Hp & C).
  destruct (relinked_fields _ _ (ci_new _ _ _ _ _ _ _ _ _ _ _ C)) as (_ & Hst & _).
  pose proof (ci_table _ _ _ _ _ _ _ _ _ _ _ C) as Hok1. pose proof (ci_spaces _ _ _ _ _ _ _ _ _ _ _ C) as Hs1.
  assert (p ∈ l ++ [p]) as Hin by (apply elem_of_app; right; by apply list_elem_of_singleton).
  destruct (process_exit_self (l ++ [p]) s1 p code Hok1 Hin ltac:(lia)) as [Hz Hc]; [by rewrite Hst|].
  pose proof (process_exit_frame s1 p code p) as (_ & _ & _ & Hmem & Hpid & Hpar & _)%exit_frame_fields.
  destruct (process_exit_globals s1 p code) as (_ & Gc & _ & _ & _ & _ & _ & _ & Gm).
  destruct (ci_globals _ _ _ _ _ _ _ _ _ _ _ C) as (_ & Gc1 & _).
  pose proof (lk_current _ _ (proj1 Hok)) as Hcur.
  destruct (wait_zombie page_directories kd (l ++ [p]) (process_exit p code s1) (current_process s) p)
    as (s3 & E3 & Hok3 & Hs3 & (_ & _ & Hf) & _).
  - by apply table_ok_exit.
  - by apply spaces_ok_exit.
  - apply elem_of_app. by left.
  - exact Hin.
  - right. rewrite Hpar. apply (ci_parent _ _ _ _ _ _ _ _ _ _ _ C).
  - exact Hz.
  - lia.
  - rewrite Gc, Gc1. intros E'. by rewrite E' in Hcur.
  - rewrite Hpid, Hc in E3. exists p, s1, s3. split; [exact E|]. split; [exact E3|]. clear E E3.
    assert (without p (l ++ [p]) = l) as El.
    { rewrite without_split; [apply app_nil_r|]. apply (lk_nodup _ _ (proj1 Hok1)). }
    rewrite El in Hok3, Hs3. split; [done|]. split; [done|].
    intros g Hg. rewrite Hf, Gm, (ci_frames _ _ _ _ _ _ _ _ _ _ _ C), Hmem by done.
    destruct (decide (g * 4096 ∈ frames_of (memory (proc s1 p)))) as [Hgf|Hgf].
    + rewrite (bool_decide_eq_true_2 _ Hgf).
      rewrite (bool_decide_eq_true_2 (g * 4096 ∈ _ ++ _)) by (unfold frames_of in Hgf; set_solver).
      destruct (ci_fresh _ _ _ _ _ _ _ _ _ _ _ C _ Hgf) as [_ Hff]. rewrite Z.div_mul in Hff by lia. by rewrite Hff.
    + rewrite (bool_decide_eq_false_2 _ Hgf).
      rewrite (bool_decide_eq_false_2 (g * 4096 ∈ _ ++ _)) by (unfold frames_of in Hgf; set_solver).
      by rewrite orb_false_l, andb_true_r.
Qed.

(** [process_init], called on the machine the boot leaves, establishes the
    invariants: the kernel process alone in the table, with its directory, and
    all the static directories cleared and out of the way of the tables. *)
Theorem process_init_correct s : bootable page_directories kd s ->
  exists s', process_init page_directories s = Ret s' /\ table_ok [0] s' /\ spaces_ok [0] s' /\
    current_process s' = 0 /\ pid (proc s' 0) = next_pid s /\ entry (proc s' 0) = NoEntry /\
    frames (mach s') = frames (mach s).
Proof.
  intros H. destruct (process_init_spec page_directories kd s H) as (s' & E & Hok & Hs & Hc & Hn & Hp & Hf & _).
  exists s'. split; [exact E|]. clear E. split; [done|]. split; [done|]. split; [done|]. split; [done|].
  split; [apply (lk_root_entry _ _ (proj1 Hok))|done].
Qed.
End properties.

(** ** A concrete machine: 128 frames, the first 64 in use, booted; the static
    directories at 64 KB *)

Definition process_frames : pmm :=
  Pmm (replicate 8 255 ++ replicate 4088 0) 524288 128 64.

Lemma process_frames_ok : pmm_ok process_frames.
Proof. split; [split|]; by vm_compute. Qed.

Lemma process_frames_used g : 0 <= g < 64 -> is_used process_frames g = true.
Proof.
  intros Hg. assert (Forall (fun g => is_used process_frames g = true) (seqZ 0 64)) as H by (by vm_compute; repeat constructor).
  rewrite Forall_forall in H. apply H, elem_of_seqZ. lia.
Qed.

(** The state [process_init] is called in. *)
Definition unborn (m : machine pmm) : pstate pmm :=
  PState (replicate 16 zero_process) NULLP NULLP NULLP NULLP 1 0 0 0 false m.

Lemma demo_bootable : exists m, booted process_frames m /\ bootable 65536 4096 (unborn m) /\
  frames m = process_frames /\ forall k, 4 <= k < 1024 -> present_at (pmem m) 4096 k = false.
Proof.
  destruct (boot_full process_frames process_frames_ok) as (m & E & Hwf & Hc & Hk & Hf & Habs & Htab).
  { intros g Hg. apply process_frames_used. lia. }
  exists m. split; [exact E|]. clear E. split; [|by split].
  split; [done|]. split; [done|]. split; [done|]. split; [done|]. split; [done|]. split; [done|]. split; [done|].
  intros q Hq. split; [|split].
  - cbn [mach unborn]. rewrite Hf. apply process_frames_used. unfold page_directory_of, PROCESS_MAX_COUNT in *. divlia.
  - unfold page_directory_of. lia.
  - intros i Hi Hp. cbn [mach unborn] in *. assert (i < 4) by (destruct (decide (i < 4)); [done|]; rewrite Habs in Hp by lia; done).
    rewrite Htab by done. unfold page_directory_of, PROCESS_MAX_COUNT in *. lia.
Qed.

Lemma frame_available_next (a : pmm) p : (pmm_alloc_frame a).1 = p -> 0 < p < LOW_MEMORY ->
  frame_available a p (pmm_alloc_frame a).2.
Proof.
  intros E Hp. split; [|done]. change (pmm_alloc_frame a = (p, (pmm_alloc_frame a).2)). rewrite <- E.
  by destruct (pmm_alloc_frame a).
Qed.

(** The allocator after [n] frames were taken. *)
Fixpoint frames_taken (n : nat) (a : pmm) : pmm :=
  match n with O => a | Datatypes.S n => frames_taken n (pmm_alloc_frame a).2 end.

Lemma process_frames_five :
  five_frames process_frames 262144 266240 270336 274432 278528 (frames_taken 5 process_frames).
Proof. eapply five; (apply frame_available_next; [by vm_compute|done]). Qed.

Lemma process_frames_ten :
  five_frames (frames_taken 5 process_frames) 282624 286720 290816 294912 299008 (frames_taken 10 process_frames).
Proof. eapply five; (apply frame_available_next; [by vm_compute|done]). Qed.

(** After [process_init] on that machine a process can be created. *)
Lemma demo_world : exists s, table_ok [0] s /\ spaces_ok 65536 4096 [0] s /\ can_spawn 4096 [0] s /\
  current_process s = 0 /\ frames (mach s) = process_frames /\
  scheduler_enabled s = true /\ pending_scheduler_ticks s = 0 /\ signal_handler (proc s 0) = NoHandler /\
  next_pid s = 2 /\ status (proc s 0) = THREAD.
Proof.
  destruct demo_bootable as (m & _ & Hb & Hf & Habs).
  destruct (process_init_spec 65536 4096 (unborn m) Hb) as (s & E & Hok & Hs & Hc & Hn & _ & Hfr & Hp & He1 & He2 & Hst & He3).
  exists s. clear E. split; [done|]. split; [done|].
  split; [|split; [done|split; [by rewrite Hfr, <- Hf|]]; split; [done|]; split; [done|]; split; [done|split; [by rewrite Hn|done]]].
  split; [simpl; lia|]. split; [rewrite Hn; simpl; lia|]. split; [rewrite Hp by lia; apply Habs; lia|].
  do 6 eexists. rewrite Hfr. cbn [mach unborn]. rewrite Hf. exact process_frames_five.
Qed.

Lemma process_init_correct_witness :
  exists m s', booted process_frames m /\ process_init 65536 (unborn m) = Ret s' /\ table_ok [0] s' /\
    spaces_ok 65536 4096 [0] s'.
Proof.
  destruct demo_bootable as (m & E & Hb & _).
  destruct (process_init_correct 65536 4096 (unborn m) Hb) as (s' & E' & Hok & Hs & _).
  exists m, s'. exact (conj E (conj E' (conj Hok Hs))).
Defined.

Lemma process_create_correct_witness :
  exists s p s', process_create_owned 65536 7 DemoCounter 4096 s = Ret (p, s') /\
    spaces_ok 65536 4096 ([0] ++ [p]) s' /\ owner (proc s' p) = 7.
Proof.
  destruct demo_world as (s & Hok & Hs & Hc & _).
  destruct (process_create_correct 65536 4096 [0] s 7 DemoCounter 4096 Hok Hs Hc)
    as (p & s' & E & _ & _ & Hs' & (_ & _ & Ho & _) & _).
  exists s, p, s'. exact (conj E (conj Hs' Ho)).
Defined.

Lemma process_lifecycle_roundtrip_witness :
  exists s p s1 s3, process_create_owned 65536 7 DemoCounter 4096 s = Ret (p, s1) /\
    process_wait 0 (pid (proc s1 p)) (process_exit p 42 s1) = Ret (1, 42, s3) /\ table_ok [0] s3 /\
    forall g, 0 <= g -> fa_used (frames (mach s3)) g = fa_used process_frames g.
Proof.
  destruct demo_world as (s & Hok & Hs & Hc & Hcur & Hf & _).
  destruct (process_lifecycle_roundtrip 65536 4096 [0] s 7 DemoCounter 4096 42 Hok Hs Hc)
    as (p & s1 & s3 & E & E3 & Hok3 & _ & Hfr).
  rewrite Hcur in E3. rewrite Hf in Hfr. exists s, p, s1, s3. exact (conj E (conj E3 (conj Hok3 Hfr))).
Defined.

Lemma process_wait_correct_witness :
  exists s p s', process_wait 0 (pid (proc s p)) s = Ret (0, 0, s') /\ spaces_ok 65536 4096 ([0] ++ [p]) s' /\
    wait_target_pid (proc s' 0) = pid (proc s p).
Proof.
  destruct demo_world as (s0 & Hok0 & Hs0 & Hc0 & Hcur & _).
  destruct (create_owned_spec 65536 4096 [0] s0 7 DemoCounter 4096 Hok0 Hs0 Hc0) as (p & s & _ & Hr & Hp & C).
  pose proof (ci_table _ _ _ _ _ _ _ _ _ _ _ C) as Hok. pose proof (ci_spaces _ _ _ _ _ _ _ _ _ _ _ C) as Hs.
  destruct (relinked_fields _ _ (ci_new _ _ _ _ _ _ _ _ _ _ _ C)) as (_ & Hst & _).
  destruct (process_wait_correct 65536 4096 ([0] ++ [p]) s 0 Hok Hs ltac:(set_solver)) as [_ Hsome].
  specialize (Hsome p ltac:(set_solver)). cbv zeta in Hsome.
  rewrite decide_False in Hsome by tauto. rewrite decide_False in Hsome by by rewrite Hst.
  destruct Hsome as (s' & E & _ & Hs' & Ht & _). exists s, p, s'. exact (conj E (conj Hs' Ht)).
Defined.

(** A demo counter beside the kernel, and room for another process. *)
Lemma demo_spawned : exists s p, table_ok [0; p] s /\ spaces_ok 65536 4096 [0; p] s /\ can_spawn 4096 [0; p] s /\
  p <> 0 /\ entry (proc s p) = DemoCounter /\ current_process s = 0 /\ status (proc s 0) = THREAD.
Proof.
  destruct demo_world as (s0 & Hok & Hs & Hcan & Hc & Hf & _ & _ & _ & Hn & Hst).
  destruct (create_spec 65536 4096 [0] s0 0 7 0 DemoCounter 4096 266240 262144 270336 274432 278528
    (frames_taken 5 process_frames) Hok Hs) as (p & s & _ & Hr & Hp & C & Hfr).
  - set_solver.
  - simpl. lia.
  - rewrite Hn. lia.
  - intros p Hp. destruct (default_region p Hp) as [? ->]. split; [done|]. apply Hcan.
  - rewrite Hf. exact process_frames_five.
  - pose proof (ci_table _ _ _ _ _ _ _ _ _ _ _ C) as Hok1. pose proof (ci_spaces _ _ _ _ _ _ _ _ _ _ _ C) as Hs1.
    destruct (ci_globals _ _ _ _ _ _ _ _ _ _ _ C) as (_ & Gc & _ & Gn & _).
    destruct (relinked_fields _ _ (proj1 (ci_old _ _ _ _ _ _ _ _ _ _ _ C 0 (list_elem_of_here _ _)))) as (_ & Gs & _).
    destruct (relinked_fields _ _ (ci_new _ _ _ _ _ _ _ _ _ _ _ C)) as (_ & _ & _ & _ & _ & _ & Een & _).
    exists s, p. split; [exact Hok1|]. split; [exact Hs1|]. split; [|split; [lia|split; [exact Een|split; [rewrite Gc; exact Hc|rewrite Gs; exact Hst]]]].
    split; [simpl; lia|]. split; [lia|]. split.
    + assert (present_at (pmem (mach s)) 4096 8 = present_at (pmem (mach s0)) 4096 8) as ->; [|apply Hcan].
      unfold present_at. rewrite (ci_else _ _ _ _ _ _ _ _ _ _ _ C 4096 8); [reflexivity|reflexivity|lia| |].
      * unfold page_directory_of. lia.
      * intros Hin. destruct (ci_fresh _ _ _ _ _ _ _ _ _ _ _ C _ Hin) as [_ Hfree].
        destruct (sw_dirs _ _ (sp_wf _ _ _ _ Hs) 4096) as (_ & _ & Hu); [apply dirs_in; by left|]. congruence.
    + do 6 eexists. rewrite Hfr. exact process_frames_ten.
Qed.
