(* ===== verification/Scheduler.v ===== *)
(** * The round-robin scheduler of kernel/src/process.c

    What [pick_next_process] chooses, what one [schedule_next_process] does to
    the table, to the address spaces and to memory, and that the scheduler is
    fair: a process that stays ready runs within one round, and a demo counter
    runs to its end. *)

From S2P Require Import Prelude Interfaces Memory Pmm Ring Chain Paging Process ProcessSpace ProcessTable ProcessSignals ProcessLife.

(** ** The order of a round *)

(** The part of [l] after [c], and the part up to it. *)
Fixpoint after (c : Z) (l : list Z) : list Z :=
  match l with [] => [] | q :: l => if q =? c then l else after c l end.
Fixpoint upto (c : Z) (l : list Z) : list Z :=
  match l with [] => [] | q :: l => if q =? c then [q] else q :: upto c l end.

(** The processes in the order they are considered when [c] ran last. *)
Definition round (c : Z) (l : list Z) : list Z := after c l ++ upto c l.

Lemma round_split c l1 l2 : c ∉ l1 -> round c (l1 ++ c :: l2) = l2 ++ l1 ++ [c].
Proof.
  intros Hc. unfold round. f_equal.
  - induction l1 as [|q l1 IH]; simpl; [by rewrite Z.eqb_refl|].
    rewrite eqb_sym_neg by set_solver. apply IH. set_solver.
  - induction l1 as [|q l1 IH]; simpl; [by rewrite Z.eqb_refl|].
    rewrite eqb_sym_neg by set_solver. f_equal. apply IH. set_solver.
Qed.

Lemma round_perm c l : c ∈ l -> NoDup l -> round c l ≡ₚ l.
Proof.
  intros (l1 & l2 & ->)%list_elem_of_split Hnd.
  apply NoDup_app in Hnd as (_ & Hc & _). rewrite round_split by (intros Hin; apply (Hc c Hin); set_solver).
  rewrite (Permutation_app_comm l1 (c :: l2)). simpl. rewrite app_assoc.
  rewrite (Permutation_app_comm (l2 ++ l1) [c]). done.
Qed.

Lemma round_in c l x : c ∈ l -> NoDup l -> x ∈ round c l <-> x ∈ l.
Proof. intros Hc Hnd. by rewrite (round_perm c l Hc Hnd). Qed.

(** How many processes are considered up to [p]. *)
Fixpoint position (p : Z) (l : list Z) : nat :=
  match l with [] => O | q :: l => if q =? p then 1%nat else S (position p l) end.

Lemma position_bound p l : p ∈ l -> (1 <= position p l <= length l)%nat.
Proof.
  induction l as [|q l IH]; simpl; [set_solver|]. intros Hp.
  destruct (Z.eqb_spec q p); [lia|]. assert (p ∈ l) by set_solver. specialize (IH H). lia.
Qed.

Lemma position_app p l1 l2 : p ∉ l1 -> position p (l1 ++ l2) = (length l1 + position p l2)%nat.
Proof.
  induction l1 as [|q l1 IH]; [done|]. intros Hp. simpl. rewrite eqb_sym_neg by set_solver.
  f_equal. apply IH. set_solver.
Qed.

Lemma position_in p l1 l2 : p ∈ l1 -> position p (l1 ++ l2) = position p l1.
Proof.
  induction l1 as [|q l1 IH]; [set_solver|]. intros Hp. simpl. destruct (Z.eqb_spec q p); [done|].
  f_equal. apply IH. set_solver.
Qed.

(** When the round that starts after [c] comes to [d] before [p], the round that
    starts after [d] comes to [p] sooner. *)
Lemma position_closer c d p l :
  NoDup l -> c ∈ l -> d ∈ l -> p ∈ l -> (position d (round c l) < position p (round c l))%nat ->
  (position p (round d l) < position p (round c l))%nat.
Proof.
  intros Hnd Hc Hd Hp Hlt.
  pose proof (round_perm c l Hc Hnd) as Hperm.
  assert (NoDup (round c l)) as Hnr by by rewrite Hperm.
  assert (d ∈ round c l) as Hdr by by rewrite Hperm.
  assert (p ∈ round c l) as Hpr by by rewrite Hperm.
  destruct (list_elem_of_split l c Hc) as (l1 & l2 & ->).
  assert (c ∉ l1) as Hc1 by (apply NoDup_app in Hnd as (_ & H & _); intros Hin; apply (H c Hin); set_solver).
  rewrite round_split in * by done.
  assert (exists r1 r2, l2 ++ l1 ++ [c] = r1 ++ d :: r2 /\ round d (l1 ++ c :: l2) = r2 ++ r1 ++ [d])
    as (r1 & r2 & E & Ed).
  { rewrite !elem_of_app, list_elem_of_singleton in Hdr. destruct Hdr as [H2|[H1| ->]].
    - destruct (list_elem_of_split l2 d H2) as (a & b & ->). exists a, (b ++ l1 ++ [c]).
      split; [by rewrite <- app_assoc|].
      replace (l1 ++ c :: a ++ d :: b) with ((l1 ++ c :: a) ++ d :: b) by by rewrite <- app_assoc.
      rewrite round_split; [by rewrite <- !app_assoc|].
      rewrite <- !app_assoc in Hnr. apply NoDup_app in Hnr as (_ & Ha & [Hdn _]%NoDup_cons).
      intros [H1|[->|H3]%elem_of_cons]%elem_of_app; [set_solver|set_solver|]. apply (Ha d H3). set_solver.
    - destruct (list_elem_of_split l1 d H1) as (a & b & ->). exists (l2 ++ a), (b ++ [c]).
      split; [by rewrite <- !app_assoc|]. rewrite <- app_assoc. cbn [app].
      rewrite round_split; [by rewrite <- !app_assoc|].
      intros Hin. apply NoDup_app in Hnd as (Hnd & _). apply NoDup_app in Hnd as (_ & H & _).
      apply (H d Hin). set_solver.
    - exists (l2 ++ l1), []. split; [by rewrite <- app_assoc|]. by rewrite round_split, app_assoc. }
  rewrite Ed, E in *. clear E Ed.
  apply NoDup_app in Hnr as (_ & Hdis & [Hd2 _]%NoDup_cons).
  assert (d ∉ r1) as Hd1 by (intros Hin; apply (Hdis d Hin); set_solver).
  rewrite (position_app d r1) in Hlt by done. simpl in Hlt. rewrite Z.eqb_refl in Hlt.
  assert (p ∉ r1) as Hp1.
  { intros Hin. rewrite position_in in Hlt by done. pose proof (position_bound p r1 Hin). lia. }
  rewrite (position_app p r1) in * by done. simpl in *.
  destruct (Z.eqb_spec d p) as [->|Hne]; [lia|].
  assert (p ∈ r2) as Hp2 by set_solver. rewrite position_in by done. lia.
Qed.

(** ** Picking *)

Section pick.
Context {S : Type} `{FA : FrameAllocator S}.
Implicit Types (s : pstate S) (l : list Z).

Definition can_run s (q : Z) : bool := runnable (proc s q).

(** [next_candidate] walks along [r] from [c]. *)
Fixpoint visits s (c : Z) (r : list Z) : Prop :=
  match r with [] => True | q :: r => next_candidate s c = q /\ visits s q r end.

Lemma visits_app s r : forall c r', visits s c r -> visits s (List.last r c) r' -> visits s c (r ++ r').
Proof.
  induction r as [|q r IH]; intros c r'; [done|]. rewrite last_cons. simpl. intros [-> Hr] Hr'.
  split; [done|]. by apply IH.
Qed.

Lemma visits_chain s r r' : forall p c, chain (nexts s) p (r ++ r') -> next_candidate s c = p -> visits s c r.
Proof.
  induction r as [|q r IH]; intros p c Hc Hn; [done|]. destruct Hc as (-> & ? & Hc).
  split; [done|]. destruct r as [|q' r]; [done|]. apply (IH _ _ Hc). unfold next_candidate.
  fold (nexts s q). destruct Hc as (-> & ? & _). by rewrite eqb_sym_neg by (unfold NULLP; lia).
Qed.

Lemma visits_round l s c : links l s -> c ∈ l -> visits s c (round c l).
Proof.
  intros H Hc. pose proof (lk_chain _ _ H) as Hch. pose proof (lk_nodup _ _ H) as Hnd.
  destruct (list_elem_of_split l c Hc) as (l1 & l2 & ->).
  assert (c ∉ l1) as Hc1 by (apply NoDup_app in Hnd as (_ & Hx & _); intros Hin; apply (Hx c Hin); set_solver).
  rewrite round_split by done.
  pose proof (chain_suffix _ _ _ _ _ Hch) as Hsuf.
  apply visits_app.
  - destruct l2 as [|q l2]; [done|]. destruct Hsuf as (_ & _ & Ht).
    apply (visits_chain s (q :: l2) [] q); [rewrite app_nil_r; by destruct Ht as (E & ? & ?)|].
    unfold next_candidate. fold (nexts s c). destruct Ht as (-> & ? & _).
    by rewrite eqb_sym_neg by (unfold NULLP; lia).
  - apply (visits_chain s (l1 ++ [c]) l2 (process_head s)); [by rewrite <- app_assoc|].
    unfold next_candidate. rewrite <- (last_cons c 0 l2). fold (nexts s (List.last (c :: l2) 0)).
    assert (nexts s (List.last (c :: l2) 0) = NULLP) as ->; [|done].
    destruct (exists_last (l := c :: l2)) as (r & t & E); [done|].
    rewrite E, List.last_last. rewrite E in Hsuf. by eapply chain_last.
Qed.

Lemma pick_loop_visits s start r : forall fuel c,
  visits s c (r ++ [start]) -> start ∉ r -> (length r < fuel)%nat ->
  pick_loop fuel start c s = Ret (first_such (can_run s) (r ++ [start])).
Proof.
  induction r as [|q r IH]; intros [|fuel] c Hv Hs Hf; simpl in Hf; try lia; destruct Hv as [Hn Hv];
    cbn [pick_loop app first_such]; rewrite Hn; unfold can_run at 1.
  - destruct (runnable (proc s start)); [done|]. by rewrite Z.eqb_refl.
  - destruct (runnable (proc s q)); [done|]. rewrite eqb_sym_neg by set_solver.
    apply IH; [done|set_solver|lia].
Qed.

(** The walk ends, and finds the first process that can run in the round that
    starts after the last one picked. *)
Lemma pick_spec l s : links l s ->
  pick_next_process s =
    Ret (if scheduler_enabled s then first_such (can_run s) (round (scheduler_cursor s) l) else NULLP).
Proof.
  intros H. unfold pick_next_process. destruct (scheduler_enabled s); [|done].
  rewrite (links_head _ _ H). cbn [negb orb].
  pose proof (lk_cursor _ _ H) as Hc. rewrite (eqb_sym_neg (scheduler_cursor s)) by exact (links_not_null _ _ _ H Hc).
  cbn [negb]. set (c := scheduler_cursor s) in *.
  pose proof (visits_round l s c H Hc) as Hv. pose proof (round_perm c l Hc (lk_nodup _ _ H)) as Hperm.
  pose proof (links_length _ _ H) as Hlen. rewrite <- Hperm in Hlen.
  assert (NoDup (round c l)) as Hnd by (rewrite Hperm; apply H).
  destruct (list_elem_of_split l c Hc) as (l1 & l2 & El).
  assert (exists r, round c l = r ++ [c]) as [r Er].
  { exists (l2 ++ l1). rewrite El, <- app_assoc. apply round_split. pose proof (lk_nodup _ _ H) as Hn.
    rewrite El in Hn. apply NoDup_app in Hn as (_ & Hx & _). intros Hin. apply (Hx c Hin). set_solver. }
  rewrite Er in *. apply pick_loop_visits; [done| |rewrite length_app in Hlen; unfold walk_fuel; lia].
  apply NoDup_app in Hnd as (_ & Hx & _). intros Hin. apply (Hx c Hin). set_solver.
Qed.

(** What is picked can run, and comes no later than any other that can. *)
Lemma first_such_position f l p : p ∈ l -> f p = true ->
  first_such f l ∈ l /\ f (first_such f l) = true /\ (position (first_such f l) l <= position p l)%nat.
Proof.
  induction l as [|q l IH]; simpl; [set_solver|]. intros Hp Hf.
  destruct (f q) eqn:E; [split; [set_solver|]; split; [done|rewrite Z.eqb_refl; destruct (q =? p); lia]|].
  assert (q <> p) as Hqp by congruence. assert (p ∈ l) as Hpl by set_solver.
  destruct (IH Hpl Hf) as (H1 & H2 & H3). split; [set_solver|]. split; [done|].
  rewrite (eqb_sym_neg q p) by done. rewrite eqb_sym_neg by congruence. lia.
Qed.
End pick.

(** ** Delivering signals to any process *)

Section settle.
Context {S : Type} `{FA : FrameAllocator S}.
Implicit Types (s : pstate S) (l : list Z).

Definition harmless (items : list (Z * Z)) : Prop := Forall (fun i => fatal i = false) items.

(** What delivery may do to the process itself: consume signals, record the
    last one, and kill it when one is fatal. *)
Record settled (x y : process) : Prop := {
  st_frame : y = set_status (status y) (set_exit_code (exit_code y)
    (set_last_signal (last_signal y) (last_signal_value y) (set_signals (signals y) x)));
  st_status : status y = status x \/ status y = ZOMBIE;
  st_pending : exists n, pending y = drop n (pending x);
  st_quiet : harmless (pending x) -> status y = status x /\ exit_code y = exit_code x;
}.

Lemma settled_refl x : settled x x.
Proof. split; [by destruct x|by left|by exists O|done]. Qed.

Lemma settled_trans x y z : settled x y -> settled y z -> settled x z.
Proof.
  intros [Ef Es [n En] Eq] [Ff Fs [m Em] Fq]. split.
  - rewrite Ff, Ef. done.
  - destruct Fs as [-> | ->]; [done|by right].
  - exists (n + m)%nat. by rewrite Em, En, drop_drop.
  - intros Hh. destruct (Eq Hh) as [<- <-]. apply Fq. rewrite En. by apply Forall_drop.
Qed.

Lemma settled_fields x y : settled x y ->
  memory y = memory x /\ context y = context x /\ entry y = entry x /\ pid y = pid x /\
  signal_handler y = signal_handler x /\ socket y = socket x /\ runtime_arg0 y = runtime_arg0 x /\
  runtime_arg1 y = runtime_arg1 x /\ used y = used x /\ runtime_value y = runtime_value x.
Proof. intros [E _ _ _]. rewrite E. done. Qed.

(** The default handler. *)
Lemma default_handler_any l s p sig v :
  table_ok l s -> p ∈ l ->
  let s' := process_default_signal_handler p sig v s in
  table_ok l s' /\ same_globals s s' /\
  proc s' p = set_status (status (proc s' p)) (set_exit_code (exit_code (proc s' p))
    (set_last_signal (u32 sig) v (proc s p))) /\
  (status (proc s' p) = status (proc s p) \/ status (proc s' p) = ZOMBIE) /\
  (fatal (sig, v) = false -> status (proc s' p) = status (proc s p) /\ exit_code (proc s' p) = exit_code (proc s p)) /\
  forall q, q <> p -> woken (proc s q) (proc s' q).
Proof.
  intros Hok Hp s'. pose proof (links_proc _ _ _ (proj1 Hok) Hp) as Hr.
  set (s1 := upd p (set_last_signal (u32 sig) v) s).
  assert (table_ok l s1) as Hok1 by (apply table_ok_quiet; [done|apply quiet_last]).
  assert (proc s1 p = set_last_signal (u32 sig) v (proc s p)) as E1 by (unfold s1; by rewrite proc_upd_eq).
  assert (forall q, q <> p -> proc s1 q = proc s q) as Hq1 by (intros; by apply proc_upd_ne).
  unfold s', process_default_signal_handler. fold s1. unfold fatal. cbn [fst snd].
  destruct (_ || _).
  - split; [by apply table_ok_exit|]. split; [apply (process_exit_globals s1)|].
    split; [rewrite <- E1; apply process_exit_frame|]. split; [|split; [done|]].
    + destruct (decide (p = 0)) as [->|Hp0].
      { left. unfold process_exit. change (kernel_process s1) with (kernel_process s).
        rewrite (lk_kernel _ _ (proj1 Hok)), Z.eqb_refl, orb_true_r. by rewrite E1. }
      destruct (decide (status (proc s1 p) = ZOMBIE)) as [Hz|Hz].
      * left. unfold process_exit, status_is at 1. destruct (_ || _); [by rewrite E1|].
        rewrite bool_decide_true by done. by rewrite E1.
      * right. by apply (process_exit_self l).
    + intros q Hq. rewrite <- (Hq1 q Hq). by apply process_exit_other.
  - rewrite E1. split; [done|]. split; [done|]. split; [done|]. split; [by left|]. split; [done|].
    intros q Hq. rewrite Hq1 by done. apply woken_refl.
Qed.

Context (user_handler : Z -> Z -> Z -> Z -> pstate S -> pstate S).

Lemma deliver_any l p items : forall fuel n s,
  table_ok l s -> p ∈ l -> (forall id, signal_handler (proc s p) <> UserHandler id) ->
  pending (proc s p) = items -> (length items < fuel)%nat ->
  exists m s', deliver_loop user_handler fuel p n s = Ret (m, s') /\
    table_ok l s' /\ settled (proc s p) (proc s' p) /\ same_globals s s' /\
    forall q, q <> p -> woken (proc s q) (proc s' q).
Proof.
  induction items as [|[sig v] items IH]; intros [|fuel] n s Hok Hp Hh Hi Hf; simpl in Hf; try lia;
    cbn [deliver_loop]; pose proof (queues_ok_in l s p (proj1 Hok) Hp) as [Hq _].
  - apply (ring_pop_empty (0, 0) _ signal_cap _ Hq) in Hi as E. rewrite E. exists n, s.
    do 2 (split; [done|]). split; [apply settled_refl|]. split; [done|intros; apply woken_refl].
  - destruct (ring_pop _ _ _) as [[x q]|] eqn:E.
    2:{ apply (ring_pop_empty (0, 0) _ signal_cap _ Hq) in E. unfold pending in Hi. congruence. }
    destruct (ring_pop_ok (0, 0) _ signal_cap _ _ _ Hq E) as [Hq' Ei].
    unfold pending in Hi. rewrite Hi in Ei. injection Ei as <- Ei.
    set (s1 := upd p (fun x => set_last_signal (u32 sig) v (set_signals q x)) s).
    assert (proc s1 p = set_last_signal (u32 sig) v (set_signals q (proc s p))) as E1
      by (unfold s1; by rewrite proc_upd_eq by exact (links_proc _ _ _ (proj1 Hok) Hp)).
    assert (table_ok l s1) as Hok1.
    { apply table_ok_quiet; [done|]. intros y. split; [by constructor|]. intros [_ ?]. by split. }
    assert (call_handler user_handler p sig v s1 = process_default_signal_handler p sig v s1) as ->.
    { unfold call_handler. rewrite E1. change (signal_handler (set_last_signal _ _ _)) with (signal_handler (proc s p)).
      destruct (signal_handler (proc s p)) eqn:Eh; [done|done|by destruct (Hh id)]. }
    destruct (default_handler_any l s1 p sig v Hok1 Hp) as (Hok2 & Hg2 & Ep2 & Hst2 & Hnf2 & Hw2).
    set (s2 := process_default_signal_handler p sig v s1) in *. rewrite E1 in Ep2, Hst2, Hnf2.
    assert (pending (proc s2 p) = items) as Hi2 by (unfold pending; rewrite Ep2, Ei; done).
    assert (settled (proc s p) (proc s2 p)) as Hset.
    { split; [by rewrite Ep2|exact Hst2| |].
      - exists 1%nat. unfold pending. rewrite Hi. exact Hi2.
      - unfold pending. rewrite Hi. intros [Hnf _]%Forall_cons. by apply Hnf2. }
    assert (forall r, r <> p -> woken (proc s r) (proc s2 r)) as Hw.
    { intros r Hr. specialize (Hw2 r Hr). unfold s1 in Hw2. by rewrite proc_upd_ne in Hw2. }
    destruct (status_is _ _).
    + exists (n + 1), s2. done.
    + destruct (settled_fields _ _ Hset) as (_ & _ & _ & _ & Hh2 & _).
      destruct (IH fuel (n + 1) s2) as (m & s' & E' & Hok' & Hset' & Hg' & Hw'); try done.
      * intros id. rewrite Hh2. apply Hh.
      * lia.
      * exists m, s'. split; [done|]. split; [done|]. split; [by eapply settled_trans|].
        split; [by eapply same_globals_trans; [|exact Hg']|].
        intros r Hr. eapply woken_trans; [by apply Hw|by apply Hw'].
Qed.

Lemma deliver_spec l s p : table_ok l s -> p ∈ l ->
  (forall id, signal_handler (proc s p) <> UserHandler id) ->
  exists m s', deliver_process_signal user_handler p s = Ret (m, s') /\
    table_ok l s' /\ settled (proc s p) (proc s' p) /\ same_globals s s' /\
    forall q, q <> p -> woken (proc s q) (proc s' q).
Proof.
  intros Hok Hp Hh. unfold deliver_process_signal.
  rewrite (eqb_sym_neg p NULLP) by exact (links_not_null _ _ _ (proj1 Hok) Hp).
  apply (deliver_any l p (pending (proc s p))); try done.
  pose proof (pending_bound l s p Hok Hp). unfold deliver_fuel. lia.
Qed.
End settle.

(** ** What a process may do while it runs *)

Section run.
Context {S : Type} `{FA : FrameAllocator S}.
Context (page_directories kd : Z).
Implicit Types (s : pstate S) (l : list Z).

#[local] Abbreviation dirs := (dirs page_directories kd).
#[local] Abbreviation pdir := (page_directory_of page_directories).
#[local] Abbreviation spaces_ok := (spaces_ok page_directories kd).

(** Memory outside the pages [ps] is as before, the tables are too. *)
Definition wrote (ds ps : list Z) (m m' : mem) : Prop :=
  untouched ds m m' /\ forall a, a / 4096 * 4096 ∉ ps -> load8 m' a = load8 m a.

Lemma wrote_refl ds ps m : wrote ds ps m m.
Proof. split; [by intros d k _ _|done]. Qed.

Lemma wrote_trans ds ps m1 m2 m3 : wrote ds ps m1 m2 -> wrote ds ps m2 m3 -> wrote ds ps m1 m3.
Proof.
  intros [U1 L1] [U2 L2]. split; [by eapply untouched_trans|]. intros a Ha. by rewrite L2, L1.
Qed.

(** The fields of a process that a scheduling step never changes, and two facts
    it never undoes. *)
Record kept (x y : process) : Prop := {
  kp_memory : memory y = memory x;
  kp_handler : signal_handler y = signal_handler x;
  kp_entry : entry y = entry x;
  kp_pid : pid y = pid x;
  kp_owner : owner y = owner x;
  kp_parent : parent y = parent x;
  kp_arg0 : runtime_arg0 y = runtime_arg0 x;
  kp_arg1 : runtime_arg1 y = runtime_arg1 x;
  kp_zombie : status x = ZOMBIE -> status y = ZOMBIE;
  kp_harmless : harmless (pending x) -> harmless (pending y);
}.

Lemma kept_refl x : kept x x.
Proof. by constructor. Qed.

Lemma kept_trans x y z : kept x y -> kept y z -> kept x z.
Proof. intros [] []. constructor; try congruence; auto. Qed.

(** What a running process may do to another: wake it, signal it, send to it. *)
Record disturbed (x y : process) : Prop := {
  ds_kept : kept x y;
  ds_context : context y = context x;
  ds_exit : exit_code y = exit_code x;
  ds_status : status y = status x \/ status x = WAITING /\ status y = READY;
}.

Lemma disturbed_refl x : disturbed x x.
Proof. constructor; [apply kept_refl|done|done|by left]. Qed.

Lemma disturbed_trans x y z : disturbed x y -> disturbed y z -> disturbed x z.
Proof.
  intros [K1 C1 X1 S1] [K2 C2 X2 S2]. split; [by eapply kept_trans|congruence|congruence|].
  destruct S1 as [S1|[S1 S1']], S2 as [S2|[S2 S2']]; [left|right|right|exfalso]; try split; congruence.
Qed.

Lemma woken_disturbed x y : woken x y -> disturbed x y.
Proof.
  intros [E Hs]. split; [|by rewrite E|by rewrite E|exact Hs].
  split; try (rewrite E; done). intros Hz. destruct Hs as [->|[? _]]; congruence.
Qed.

Lemma settled_kept x y : settled x y -> kept x y.
Proof.
  intros H. destruct (settled_fields _ _ H) as (? & ? & ? & ? & ? & ? & ? & ? & ? & ?).
  destruct H as [E Hst [n Hn] Hq]. split; try done; try (rewrite E; done).
  - intros Hz. destruct Hst; congruence.
  - intros Hh. rewrite Hn. by apply Forall_drop.
Qed.

(** The globals a running process does not touch. *)
Definition run_globals s s' : Prop :=
  kernel_process s' = kernel_process s /\ current_process s' = current_process s /\
  scheduler_cursor s' = scheduler_cursor s /\ next_pid s' = next_pid s /\
  scheduler_enabled s' = scheduler_enabled s /\
  pending_scheduler_ticks s' = pending_scheduler_ticks s /\
  total_scheduler_ticks s' = total_scheduler_ticks s.

Lemma same_run_globals s s' : same_globals s s' -> run_globals s s'.
Proof. unfold same_globals, run_globals. tauto. Qed.

(** What the process [p] may do between two states while it runs: its own record
    and its own pages, and the others only as above. *)
Record acts l (p : Z) s s' : Prop := {
  ac_table : table_ok l s';
  ac_globals : run_globals s s';
  ac_mach : exists m', mach s' = with_pmem m' (mach s) /\
    wrote (dirs l) (pages_of (memory (proc s p))) (pmem (mach s)) m';
  ac_self : kept (proc s p) (proc s' p);
  ac_others q : q <> p -> disturbed (proc s q) (proc s' q);
}.

Lemma acts_refl l p s : table_ok l s -> acts l p s s.
Proof.
  intros H. split; [done|done| |apply kept_refl|intros; apply disturbed_refl].
  exists (pmem (mach s)). split; [by destruct (mach s)|apply wrote_refl].
Qed.

Lemma acts_trans l p s1 s2 s3 : acts l p s1 s2 -> acts l p s2 s3 -> acts l p s1 s3.
Proof.
  intros [T1 G1 (m1 & E1 & W1) K1 O1] [T2 G2 (m2 & E2 & W2) K2 O2]. split; [done| | |by eapply kept_trans|].
  - unfold run_globals in *. intuition congruence.
  - exists m2. split; [by rewrite E2, E1|]. rewrite (kp_memory _ _ K1), E1 in W2. by eapply wrote_trans.
  - intros q Hq. by eapply disturbed_trans; [apply O1|apply O2].
Qed.

(** Steps that do not touch the machine. *)
Lemma acts_quiet l p s s' : table_ok l s' -> run_globals s s' -> mach s' = mach s ->
  kept (proc s p) (proc s' p) -> (forall q, q <> p -> disturbed (proc s q) (proc s' q)) -> acts l p s s'.
Proof.
  intros Ht Hg Hm Hk Ho. split; try done. exists (pmem (mach s)).
  split; [rewrite Hm; by destruct (mach s)|apply wrote_refl].
Qed.

Lemma acts_upd l p s f : table_ok l (upd p f s) -> p ∈ l -> links l s -> kept (proc s p) (f (proc s p)) ->
  acts l p s (upd p f s).
Proof.
  intros Ht Hp H Hk. apply acts_quiet; try done.
  - by rewrite proc_upd_eq by exact (links_proc _ _ _ H Hp).
  - intros q Hq. rewrite proc_upd_ne by done. apply disturbed_refl.
Qed.

Lemma acts_upd_other l p t s f : table_ok l (upd t f s) -> t ∈ l -> links l s ->
  disturbed (proc s t) (f (proc s t)) -> acts l p s (upd t f s).
Proof.
  intros Ht Hp H Hd.
  assert (forall q, disturbed (proc s q) (proc (upd t f s) q)) as Hall.
  { intros q. rewrite proc_upd by exact (links_proc _ _ _ H Hp).
    destruct (Z.eqb_spec q t) as [->|]; [done|apply disturbed_refl]. }
  apply acts_quiet; [done|done|done|exact (ds_kept _ _ (Hall p))|intros q _; apply Hall].
Qed.

Lemma acts_exit l p s code : table_ok l s -> p ∈ l -> p <> 0 -> acts l p s (process_exit p code s).
Proof.
  intros Hok Hp Hp0. apply acts_quiet.
  - by apply table_ok_exit.
  - apply same_run_globals, process_exit_globals.
  - apply process_exit_globals.
  - pose proof (process_exit_frame s p code p) as E. unfold exit_frame in E.
    split; try (rewrite E; done). intros Hz. unfold process_exit, status_is at 1.
    destruct (_ || _); [done|]. by rewrite bool_decide_true.
  - intros q Hq. by apply woken_disturbed, process_exit_other.
Qed.

(** [process_yield] of the running process. *)
Lemma yield_spec l p s c : table_ok l s -> p ∈ l -> p <> 0 -> current_process s = p -> c <> CtxZero ->
  acts l p s (process_yield c s) /\
  proc (process_yield c s) p = set_context c (count_switch
    (if status_is (status (proc s p)) RUN then set_status READY (proc s p) else proc s p)).
Proof.
  intros Hok Hp Hp0 Hcur Hc. unfold process_yield. rewrite Hcur, (lk_kernel _ _ (proj1 Hok)).
  rewrite (eqb_sym_neg p NULLP) by exact (links_not_null _ _ _ (proj1 Hok) Hp).
  rewrite (eqb_sym_neg p 0) by done. cbn [orb]. cbv zeta.
  pose proof (links_proc _ _ _ (proj1 Hok) Hp) as Hr.
  set (s1 := if status_is (status (proc s p)) RUN then upd p (set_status READY) s else s).
  assert (table_ok l s1) as Hok1 by (unfold s1; destruct (status_is _ _); [by apply table_ok_quiet, quiet_status|done]).
  assert (proc s1 p = if status_is (status (proc s p)) RUN then set_status READY (proc s p) else proc s p) as E1.
  { unfold s1. destruct (status_is _ _); [by rewrite proc_upd_eq|done]. }
  assert (acts l p s s1) as A1.
  { unfold s1. destruct (status_is (status (proc s p)) RUN) eqn:Er; [|by apply acts_refl].
    apply acts_upd; [by apply table_ok_quiet, quiet_status|done|apply Hok|].
    apply bool_decide_eq_true in Er. split; try done. intros Hz. congruence. }
  assert (table_ok l (count_context_switch s1)) as Hok2
    by (eapply table_ok_ext; [exact Hok1|..]; try done; apply (proj1 Hok1)).
  split.
  - eapply acts_trans; [exact A1|].
    eapply acts_trans; [apply (acts_quiet l p s1 (count_context_switch s1)); try done; try apply kept_refl;
      intros; apply disturbed_refl|].
    apply acts_upd; [by apply table_ok_quiet, quiet_resume|done|apply Hok2|]. by split.
  - rewrite proc_upd_eq by exact (links_proc _ _ _ (proj1 Hok2) Hp).
    change (proc (count_context_switch s1) p) with (proc s1 p). by rewrite E1.
Qed.

(** The rest of [process_bootstrap]: a zombie that never runs again. *)
Lemma bootstrap_tail_spec l p s : table_ok l s -> p ∈ l -> p <> 0 -> current_process s = p ->
  status (proc s p) = ZOMBIE ->
  acts l p s (bootstrap_tail p s) /\ status (proc (bootstrap_tail p s) p) = ZOMBIE /\
  exit_code (proc (bootstrap_tail p s) p) = exit_code (proc s p) /\
  context (proc (bootstrap_tail p s) p) = CtxDone.
Proof.
  intros Hok Hp Hp0 Hcur Hz. unfold bootstrap_tail.
  assert (process_exit p (i32 (runtime_value (proc s p))) s = s) as ->.
  { unfold process_exit, status_is at 1. rewrite bool_decide_true by done. by destruct (_ || _). }
  destruct (yield_spec l p s CtxDone Hok Hp Hp0 Hcur) as [Ha Ep]; [done|]. split; [exact Ha|].
  unfold status_is in Ep. rewrite bool_decide_false in Ep by congruence. by rewrite Ep.
Qed.

(** ** The running process in its address space *)

(** The machine runs in the address space of [p]. *)
Record in_space l (p : Z) s : Prop := {
  is_wf : space_wf (dirs l) (mach s);
  is_space : space_of (dirs l) (pmem (mach s)) (frames (mach s)) (memory (proc s p));
  is_cr3 : cr3 (mach s) = process_page_directory (memory (proc s p));
  is_tlb : tlb (mach s) = ∅;
}.

(** The description of a space survives writes that leave the tables alone. *)
Lemma space_of_untouched ds m m' (a : S) pm : (forall d, d ∈ ds -> 0 < d) ->
  space_of ds m a pm -> untouched ds m m' -> space_of ds m' a pm.
Proof.
  intros Hds H Hun. apply (space_of_same ds ds m m' a a pm 0 0); try done.
  - by apply untouched_other.
  - apply H.
  - intros E. pose proof (Hds _ (so_dir _ _ _ _ H)). lia.
  - apply (so_frames _ _ _ _ H).
  - intros Hin. specialize (Hds _ Hin). lia.
Qed.

Lemma space_wf_pos ds (M : machine S) : space_wf ds M -> forall d, d ∈ ds -> 0 < d.
Proof. intros H d Hd. destruct (sw_dirs _ _ H d Hd) as (_ & ? & _). lia. Qed.

Lemma space_wf_pmem ds (M : machine S) m' : space_wf ds M -> untouched ds (pmem M) m' ->
  space_wf ds (with_pmem m' M).
Proof.
  intros H Hun. assert (with_pmem m' M = with_pmem m' (with_frames (frames M) M)) as -> by by destruct M.
  apply space_wf_untouched; [done|done|apply H|done].
Qed.

Lemma in_space_acts l p s s' : in_space l p s -> acts l p s s' -> in_space l p s'.
Proof.
  intros [Hwf Hsp Hcr Ht] [_ _ (m' & E & [Hun _]) Hk _].
  split; rewrite ?E, ?(kp_memory _ _ Hk); try done.
  - by apply space_wf_pmem.
  - apply (space_of_untouched _ (pmem (mach s))); [by eapply space_wf_pos|done|done].
Qed.

(** A store to the process's own pages goes to the frame behind the page. *)
Lemma store_own l p s k page v : table_ok l s -> in_space l p s ->
  pages_of (memory (proc s p)) !! k = Some page ->
  exists s', on_mach (vstore32 (virtual_base (memory (proc s p)) + 4096 * Z.of_nat k) v) s = Ret s' /\
    s' = set_mach (with_pmem (store32 (pmem (mach s)) page v) (mach s)) s /\ acts l p s s'.
Proof.
  intros Hok [Hwf Hsp Hcr Ht] Hk. set (pm := memory (proc s p)) in *.
  assert (page ∈ pages_of pm) as Hin by by eapply list_elem_of_lookup_2.
  pose proof (so_plain _ _ _ _ Hsp page Hin) as Hplain. pose proof (proj1 Hplain) as Hpa. pose proof (proj1 (proj2 Hplain)) as Hpr.
  set (m' := store32 (pmem (mach s)) page v).
  eexists. split; [|split; [reflexivity|]].
  - unfold on_mach, vstore32.
    destruct (space_of_walk _ _ _ pm k page Hsp Hk 0 ltac:(lia)) as [Hw _]. rewrite !Z.add_0_r in Hw.
    by rewrite translate_walk, Hcr, Hw by (done || apply Hwf).
  - split.
    + by apply table_ok_set_mach.
    + done.
    + exists m'. split; [done|]. split.
      * apply (untouched_page _ _ _ page); [done|intros d Hd; by apply (sw_dirs _ _ Hwf)|].
        intros q x Hq Hx Hne. unfold m'. rewrite <- (Z.add_0_r page), <- (Z.mul_0_r 4).
        rewrite ent_store by done. by rewrite (eqb_sym_neg q page).
      * intros a Ha. unfold m'. apply load8_store32_ne.
        fold pm in Ha. assert (a / 4096 * 4096 <> page) as Hne by congruence.
        destruct (decide (a < page)); [by left|]. right.
        destruct (decide (page + 4 <= a)); [done|]. exfalso. apply Hne. divlia.
    + apply kept_refl.
    + intros; apply disturbed_refl.
Qed.

(** ** The demo bodies *)

Definition body_ok (x : process) : Prop :=
  (forall id, signal_handler x <> UserHandler id) /\
  match entry x, context x with
  | NoEntry, _ => True
  | _, CtxDone => status x = ZOMBIE
  | DemoCounter, (CtxBootstrap | CtxCounter _ _ _) => True
  | DemoReceiver, (CtxBootstrap | CtxReceiver) => True
  | DemoSender, (CtxBootstrap | CtxSender) => True
  | _, _ => False
  end.

Lemma body_ok_kept x y : body_ok x -> kept x y -> context y = context x -> body_ok y.
Proof.
  intros [Hh Hb] K C. split; [intros id; rewrite (kp_handler _ _ K); apply Hh|].
  rewrite (kp_entry _ _ K), C. destruct (entry x), (context x); try done; by apply (kp_zombie _ _ K).
Qed.

Lemma body_ok_disturbed x y : body_ok x -> disturbed x y -> body_ok y.
Proof. intros Hb [K C _ _]. by eapply body_ok_kept. Qed.

Lemma body_ok_settled x y : body_ok x -> settled x y -> body_ok y.
Proof. intros Hb H. eapply body_ok_kept; [exact Hb|by apply settled_kept|apply (settled_fields _ _ H)]. Qed.

(** Where a counter stands: its counter, its iterations, its limit. *)
Definition counter_of (x : process) : option (Z * Z * Z) :=
  match context x with
  | CtxBootstrap => Some (runtime_arg0 x, 0, runtime_arg1 x)
  | CtxCounter c i lim => Some (c, i, lim)
  | _ => None
  end.

(** One turn of a counter. *)
Definition counter_turn (x y : process) : Prop :=
  entry x = DemoCounter ->
  match counter_of x with
  | Some (c, i, lim) =>
      if c <? lim then context y = CtxCounter (u32 (c + 1)) (u32 (i + 1)) lim /\ status y = READY
      else status y = ZOMBIE /\ exit_code y = i32 c
  | None => True
  end.

(** What running [p] from [s] to its next yield amounts to. *)
Record ran l (p : Z) s s' : Prop := {
  rn_acts : acts l p s s';
  rn_body : body_ok (proc s' p);
  rn_status : status (proc s' p) = READY \/ status (proc s' p) = ZOMBIE;
}.

(** What is assumed of the process that starts running. *)
Record runs l (p : Z) s : Prop := {
  ru_table : table_ok l s;
  ru_space : in_space l p s;
  ru_in : p ∈ l;
  ru_not_kernel : p <> 0;
  ru_current : current_process s = p;
  ru_handler : forall id, signal_handler (proc s p) <> UserHandler id;
  ru_status : status (proc s p) = RUN;
}.

Lemma acts_current l p s s' : acts l p s s' -> current_process s' = current_process s.
Proof. intros H. apply (ac_globals _ _ _ _ H). Qed.

(** Yielding ends the turn, with the process ready and its resumption point saved. *)
Lemma ran_yield l p s s1 c : runs l p s -> acts l p s s1 -> status (proc s1 p) = RUN ->
  (forall st, body_ok (set_status st (set_context c (proc s p)))) -> c <> CtxZero ->
  ran l p s (process_yield c s1) /\ context (proc (process_yield c s1) p) = c /\
  status (proc (process_yield c s1) p) = READY.
Proof.
  intros Hr A Hst Hb Hc. pose proof (acts_current _ _ _ _ A) as Hcur. rewrite (ru_current _ _ _ Hr) in Hcur.
  destruct (yield_spec l p s1 c (ac_table _ _ _ _ A) (ru_in _ _ _ Hr) (ru_not_kernel _ _ _ Hr) Hcur Hc) as [A' Ep].
  pose proof (acts_trans _ _ _ _ _ A A') as A2.
  unfold status_is in Ep. rewrite bool_decide_true in Ep by done.
  split; [|split; [by rewrite Ep|by rewrite Ep]].
  split; [done| |left; by rewrite Ep].
  destruct (Hb READY) as [_ Hb']. pose proof (ac_self _ _ _ _ A2) as K.
  split; [intros id; rewrite (kp_handler _ _ K); apply (ru_handler _ _ _ Hr)|].
  rewrite (kp_entry _ _ K).
  assert (context (proc (process_yield c s1) p) = c) as -> by by rewrite Ep.
  assert (status (proc (process_yield c s1) p) = READY) as -> by by rewrite Ep.
  exact Hb'.
Qed.

(** Exiting ends it for good. *)
Lemma ran_exit l p s s1 code : runs l p s -> acts l p s s1 -> status (proc s1 p) = RUN ->
  ran l p s (bootstrap_tail p (process_exit p code s1)) /\
  status (proc (bootstrap_tail p (process_exit p code s1)) p) = ZOMBIE /\
  exit_code (proc (bootstrap_tail p (process_exit p code s1)) p) = code.
Proof.
  intros Hr A Hst. pose proof (ru_in _ _ _ Hr) as Hp. pose proof (ru_not_kernel _ _ _ Hr) as Hp0.
  destruct (process_exit_self l s1 p code (ac_table _ _ _ _ A) Hp Hp0) as [Hz Hec]; [by rewrite Hst|].
  pose proof (acts_trans _ _ _ _ _ A (acts_exit l p s1 code (ac_table _ _ _ _ A) Hp Hp0)) as A1.
  pose proof (acts_current _ _ _ _ A1) as Hcur. rewrite (ru_current _ _ _ Hr) in Hcur.
  destruct (bootstrap_tail_spec l p (process_exit p code s1) (ac_table _ _ _ _ A1) Hp Hp0 Hcur Hz)
    as (A2 & Hz2 & Hec2 & Hc2).
  pose proof (acts_trans _ _ _ _ _ A1 A2) as A3.
  split; [|by rewrite Hec2].
  split; [done| |by right].
  split; [intros id; rewrite (kp_handler _ _ (ac_self _ _ _ _ A3)); apply (ru_handler _ _ _ Hr)|].
  rewrite Hc2. by destruct (entry _).
Qed.

Lemma set_mach_proc s m q : proc (set_mach m s) q = proc s q.
Proof. done. Qed.

Lemma counter_spec l p c i lim s : runs l p s -> entry (proc s p) = DemoCounter ->
  exists s', demo_counter_process p c i lim s = Ret s' /\ ran l p s s' /\
    if c <? lim then context (proc s' p) = CtxCounter (u32 (c + 1)) (u32 (i + 1)) lim /\ status (proc s' p) = READY
    else status (proc s' p) = ZOMBIE /\ exit_code (proc s' p) = i32 c.
Proof.
  intros Hr He. unfold demo_counter_process. pose proof (ru_table _ _ _ Hr) as Hok. pose proof (ru_in _ _ _ Hr) as Hp.
  destruct (Z.ltb_spec c lim) as [Hlt|Hge].
  - destruct (so_starts _ _ _ _ (is_space _ _ _ (ru_space _ _ _ Hr))) as (Ed & Eb & _).
    destruct (store_own l p s 0 (data_page (memory (proc s p))) (u32 (c + 1)) Hok (ru_space _ _ _ Hr) eq_refl)
      as (s1 & E1 & Es1 & A1).
    rewrite Z.mul_0_r, Z.add_0_r, <- Ed in E1. rewrite E1. cbn [mbind outcome_bind].
    assert (proc s1 p = proc s p) as Ep1 by by rewrite Es1.
    destruct (store_own l p s1 1 (bss_page (memory (proc s1 p))) (u32 (i + 1)) (ac_table _ _ _ _ A1)
      (in_space_acts _ _ _ _ (ru_space _ _ _ Hr) A1) eq_refl) as (s2 & E2 & Es2 & A2).
    rewrite Ep1 in E2. rewrite Ep1.
    change (4096 * Z.of_nat 1) with 4096 in E2. rewrite <- Eb in E2. rewrite E2. cbn [mbind outcome_bind].
    assert (proc s2 p = proc s p) as Ep2 by by rewrite Es2.
    pose proof (acts_trans _ _ _ _ _ A1 A2) as A12.
    set (s3 := upd p _ s2).
    assert (proc s3 p = set_runtime_state (u32 (i + 1)) (set_runtime_value (u32 (c + 1)) (proc s p))) as Ep3.
    { unfold s3. rewrite proc_upd_eq by exact (links_proc _ _ _ (proj1 (ac_table _ _ _ _ A12)) Hp). by rewrite Ep2. }
    assert (acts l p s s3) as A3.
    { eapply acts_trans; [exact A12|]. apply acts_upd;
        [apply table_ok_quiet; [apply A12|apply quiet_runtime]|done|apply A12|by constructor]. }
    eexists. split; [reflexivity|]. apply (ran_yield l p s s3 _ Hr A3); [rewrite Ep3; apply (ru_status _ _ _ Hr)| |done].
    intros st. split; [apply (ru_handler _ _ _ Hr)|]. change (entry (set_status _ _)) with (entry (proc s p)).
    by rewrite He.
  - eexists. split; [reflexivity|]. apply (ran_exit l p s s); [done|by apply acts_refl|apply Hr].
Qed.

Lemma recv_acts l p s : table_ok l s -> p ∈ l ->
  exists r v s', socket_recv p s = (r, v, s') /\ acts l p s s' /\ status (proc s' p) = status (proc s p) /\
    memory (proc s' p) = memory (proc s p).
Proof.
  intros Hok Hp. pose proof (proj2 (queues_ok_in l s p (proj1 Hok) Hp)) as Hq.
  unfold socket_recv. rewrite (eqb_sym_neg p NULLP) by exact (links_not_null _ _ _ (proj1 Hok) Hp).
  destruct (ring_pop _ _ _) as [[v q]|] eqn:E; [|exists (-1), 0, s; by split; [|split; [apply acts_refl|]]].
  destruct (ring_pop_ok 0 _ socket_cap _ _ _ Hq E) as [Hq' _].
  do 3 eexists. split; [reflexivity|]. rewrite proc_upd_eq by exact (links_proc _ _ _ (proj1 Hok) Hp).
  split; [|done]. apply acts_upd; [|done|apply Hok|by constructor].
  apply table_ok_quiet; [done|]. intros x. split; [by constructor|]. intros [? _]. by split.
Qed.

(** Queueing a harmless signal, or a value in a socket. *)
Lemma queue_acts l p t sig v s : table_ok l s -> t ∈ l -> fatal (sig, v) = false ->
  exists r s', queue_process_signal t sig v s = (r, s') /\ acts l p s s' /\ status (proc s' p) = status (proc s p).
Proof.
  intros Hok Ht Hf. destruct (queue_signal_spec l s t sig v Hok Ht) as (s' & E & Hq).
  destruct (Nat.eqb_spec (length (pending (proc s t))) 15) as [E15|E15].
  - exists (-1), s. split; [done|]. by split; [apply acts_refl|].
  - destruct (Hq E15) as (q & -> & Hok' & Hp' & _). eexists 0, _. split; [done|]. split.
    + apply acts_upd_other; [done|done|apply Hok|]. split; [|done|done|by left]. split; try done.
      intros Hh. rewrite proc_upd_eq in Hp' by exact (links_proc _ _ _ (proj1 Hok) Ht).
      change (harmless (pending (set_signals q (proc s t)))). rewrite Hp'. apply Forall_app. split; [done|].
      by apply Forall_singleton.
    + rewrite proc_upd by exact (links_proc _ _ _ (proj1 Hok) Ht). by destruct (Z.eqb_spec p t) as [->|].
Qed.

Lemma send_acts l p sender id v s : table_ok l s -> p ∈ l ->
  exists r s', socket_send sender id v s = Ret (r, s') /\ acts l p s s' /\ status (proc s' p) = status (proc s p).
Proof.
  intros Hok Hp. unfold socket_send.
  destruct (get_by_pid_cases l s id Hok) as [[-> _]|(t & Ht & -> & _)]; cbn [mbind outcome_bind].
  { exists (-1), s. split; [done|]. by split; [apply acts_refl|]. }
  rewrite (eqb_sym_neg t NULLP) by exact (links_not_null _ _ _ (proj1 Hok) Ht).
  pose proof (proj2 (queues_ok_in l s t (proj1 Hok) Ht)) as Hq.
  destruct (ring_push _ _ _) as [q|] eqn:E; [|exists (-1), s; split; [done|by split; [apply acts_refl|]]].
  destruct (ring_push_ok 0 _ socket_cap _ _ _ Hq E) as [Hq' _].
  pose proof (table_ok_set_socket l s t q Hok Hq') as Hok1.
  destruct (queue_acts l p t PROCESS_SIGNAL_SOCKET v (upd t (set_socket q) s) Hok1 Ht) as (r & s' & -> & A & Hs);
    [done|].
  exists r, s'. split; [done|]. split.
  - eapply acts_trans; [|exact A]. apply acts_upd_other; [done|done|apply Hok|by split; [constructor|..|left]].
  - rewrite Hs, proc_upd by exact (links_proc _ _ _ (proj1 Hok) Ht). by destruct (Z.eqb_spec p t) as [->|].
Qed.

Lemma receiver_spec l p s : runs l p s -> entry (proc s p) = DemoReceiver ->
  exists s', demo_socket_receiver_process p s = Ret s' /\ ran l p s s'.
Proof.
  intros Hr He. unfold demo_socket_receiver_process. pose proof (ru_in _ _ _ Hr) as Hp.
  destruct (recv_acts l p s (ru_table _ _ _ Hr) Hp) as (r & v & s1 & -> & A1 & Hs1 & Hm1).
  rewrite (ru_status _ _ _ Hr) in Hs1. destruct (negb _).
  - eexists. split; [reflexivity|]. apply (ran_yield l p s s1 _ Hr A1 Hs1); [|done].
    intros st. split; [apply (ru_handler _ _ _ Hr)|]. change (entry (set_status _ _)) with (entry (proc s p)).
    by rewrite He.
  - destruct (so_starts _ _ _ _ (is_space _ _ _ (ru_space _ _ _ Hr))) as (Ed & _).
    destruct (store_own l p s1 0 (data_page (memory (proc s1 p))) v (ac_table _ _ _ _ A1)
      (in_space_acts _ _ _ _ (ru_space _ _ _ Hr) A1) eq_refl) as (s2 & E2 & Es2 & A2).
    rewrite Z.mul_0_r, Z.add_0_r, Hm1, <- Ed in E2. rewrite Hm1, E2. cbn [mbind outcome_bind].
    pose proof (acts_trans _ _ _ _ _ A1 A2) as A12.
    assert (acts l p s (upd p (set_last_socket v) s2)) as A3.
    { eapply acts_trans; [exact A12|]. apply acts_upd; [|done|apply A12|by constructor].
      apply table_ok_quiet; [apply A12|]. intros x. split; [by constructor|done]. }
    eexists. split; [reflexivity|]. apply (ran_exit l p s _ _ Hr A3).
    rewrite proc_upd_eq by exact (links_proc _ _ _ (proj1 (ac_table _ _ _ _ A12)) Hp). by rewrite Es2.
Qed.

Lemma sender_spec l p s : runs l p s -> entry (proc s p) = DemoSender ->
  exists s', demo_socket_sender_process p s = Ret s' /\ ran l p s s'.
Proof.
  intros Hr He. unfold demo_socket_sender_process. pose proof (ru_in _ _ _ Hr) as Hp.
  destruct (send_acts l p p (runtime_arg0 (proc s p)) (runtime_arg1 (proc s p)) s (ru_table _ _ _ Hr) Hp)
    as (r & s1 & -> & A1 & Hs1). cbn [mbind outcome_bind]. rewrite (ru_status _ _ _ Hr) in Hs1.
  destruct (negb _).
  - eexists. split; [reflexivity|]. apply (ran_yield l p s s1 _ Hr A1 Hs1); [|done].
    intros st. split; [apply (ru_handler _ _ _ Hr)|]. change (entry (set_status _ _)) with (entry (proc s p)).
    by rewrite He.
  - assert (acts l p s (upd p (set_runtime_state 1) s1)) as A3.
    { eapply acts_trans; [exact A1|]. apply acts_upd; [|done|apply A1|by constructor].
      apply table_ok_quiet; [apply A1|]. intros x. split; [by constructor|done]. }
    eexists. split; [reflexivity|]. apply (ran_exit l p s _ _ Hr A3).
    rewrite proc_upd_eq by exact (links_proc _ _ _ (proj1 (ac_table _ _ _ _ A1)) Hp). done.
Qed.

Context (user_run : Z -> Z -> pstate S -> outcome (pstate S)).

(** The switch to a process whose body is one of the demos returns. *)
Lemma switch_spec l p s : runs l p s -> body_ok (proc s p) -> entry (proc s p) <> NoEntry ->
  exists s', process_context_switch user_run p s = Ret s' /\ ran l p s s' /\ counter_turn (proc s p) (proc s' p).
Proof.
  intros Hr [_ Hb] He. unfold process_context_switch, counter_turn, counter_of.
  assert (status (proc s p) <> ZOMBIE) as Hz by by rewrite (ru_status _ _ _ Hr).
  assert (process_bootstrap user_run s = match entry (proc s p) with
    | NoEntry => Panicked "process_bootstrap: no process"
    | DemoCounter => demo_counter_process p (runtime_arg0 (proc s p)) 0 (runtime_arg1 (proc s p)) s
    | DemoReceiver => demo_socket_receiver_process p s
    | DemoSender => demo_socket_sender_process p s
    | UserEntry id => user_run id p s
    end) as Eb.
  { unfold process_bootstrap. rewrite (ru_current _ _ _ Hr), (lk_kernel _ _ (proj1 (ru_table _ _ _ Hr))).
    rewrite (eqb_sym_neg p NULLP) by exact (links_not_null _ _ _ (proj1 (ru_table _ _ _ Hr)) (ru_in _ _ _ Hr)).
    by rewrite (eqb_sym_neg p 0) by apply Hr. }
  destruct (entry (proc s p)) eqn:Ee; [done|..].
  - destruct (context (proc s p)) as [| |c i lim| | | |]; try done; rewrite ?Eb.
    + destruct (counter_spec l p (runtime_arg0 (proc s p)) 0 (runtime_arg1 (proc s p)) s Hr Ee) as (s' & E & Hran & Ht).
      exists s'. by split; [|split].
    + destruct (counter_spec l p c i lim s Hr Ee) as (s' & E & Hran & Ht). exists s'. by split; [|split].
  - destruct (receiver_spec l p s Hr Ee) as (s' & E & Hran).
    destruct (context (proc s p)); try done; rewrite ?Eb; exists s'; by split; [|split].
  - destruct (sender_spec l p s Hr Ee) as (s' & E & Hran).
    destruct (context (proc s p)); try done; rewrite ?Eb; exists s'; by split; [|split].
  - by destruct (context (proc s p)).
Qed.

(** ** One turn of the scheduler *)

(** The invariant of the whole system between two calls. *)
Record sys_ok l s : Prop := {
  sy_table : table_ok l s;
  sy_spaces : spaces_ok l s;
  sy_bodies : forall q, q ∈ l -> body_ok (proc s q);
}.

(** The address spaces survive writes that leave the tables alone. *)
Lemma spaces_ok_untouched l s s' : spaces_ok l s -> untouched (dirs l) (pmem (mach s)) (pmem (mach s')) ->
  space_wf (dirs l) (mach s') -> cr3 (mach s') = kd -> kernel_directory (mach s') = kd ->
  frames (mach s') = frames (mach s) -> (forall q, memory (proc s' q) = memory (proc s q)) -> spaces_ok l s'.
Proof.
  intros H Hun Hwf Hc Hk Hfr Hm. split; rewrite ?Hm; try done; [apply H|..].
  - intros q Hq. destruct (sp_static _ _ _ _ H q Hq) as (? & ? & ? & ? & Htab & Hst).
    rewrite Hfr. do 4 (split; [done|]). split.
    + intros d i Hd Hi. destruct (untouched_at _ _ _ d i Hun Hd Hi) as [-> ->]. by apply Htab.
    + intros r. rewrite Hm. by apply Hst.
  - intros q Hq Hq0. rewrite Hm, Hfr. destruct (sp_space _ _ _ _ H q Hq Hq0) as [? Hsp]. split; [done|].
    eapply space_of_untouched; [eapply space_wf_pos, H|exact Hsp|done].
  - intros q r f. rewrite !Hm. by apply (sp_disjoint _ _ _ _ H).
Qed.

(** The kernel runs again in its own space after [p] wrote its pages. *)
Lemma spaces_ok_back l s s' m' : spaces_ok l s -> untouched (dirs l) (pmem (mach s)) m' ->
  mach s' = Machine m' (frames (mach s)) kd (pg (mach s)) ∅ kd kd ->
  (forall q, memory (proc s' q) = memory (proc s q)) -> spaces_ok l s'.
Proof.
  intros H Hun Em Hm. pose proof (sp_wf _ _ _ _ H) as Hwf.
  destruct (switch_directory_spec (dirs l) (with_pmem m' (mach s)) kd) as [Esw Hsw];
    [by apply space_wf_pmem|apply dirs_in; by left|].
  assert (mach s' = paging_switch_directory kd (with_pmem m' (mach s))) as Em'.
  { rewrite Esw, Em. cbn. by rewrite (sp_kernel _ _ _ _ H). }
  apply (spaces_ok_untouched l s); try done; rewrite Em; try done. by rewrite <- Em, Em'.
Qed.

(** What a turn of [p] does. *)
Record turn l (p : Z) s s' : Prop := {
  tn_ok : sys_ok l s';
  tn_current : current_process s' = 0;
  tn_cursor : scheduler_cursor s' = p;
  tn_globals : scheduler_enabled s' = scheduler_enabled s /\ next_pid s' = next_pid s /\
    pending_scheduler_ticks s' = pending_scheduler_ticks s /\ total_scheduler_ticks s' = total_scheduler_ticks s;
  tn_frames : frames (mach s') = frames (mach s);
  tn_memory a : a / 4096 * 4096 ∉ pages_of (memory (proc s p)) ->
    load8 (pmem (mach s')) a = load8 (pmem (mach s)) a;
  tn_self : kept (proc s p) (proc s' p);
  tn_status : status (proc s' p) = READY \/ status (proc s' p) = ZOMBIE;
  tn_counter : harmless (pending (proc s p)) -> counter_turn (proc s p) (proc s' p);
  tn_others q : q <> p -> disturbed (proc s q) (proc s' q);
}.

(** The running mark and the counters of the process that gets the processor. *)
Definition dispatched (x : process) : process := count_switch (count_run (set_status RUN x)).

(** The state in which [p] gets the processor. *)
Definition enter (p : Z) s : pstate S :=
  set_mach (paging_switch_directory (pdir p) (mach s))
    (upd p count_switch (count_context_switch (upd p (fun q => count_run (set_status RUN q)) s))).

Lemma enter_spec l p s : table_ok l s -> spaces_ok l s -> p ∈ l -> p <> 0 -> current_process s = p ->
  (forall id, signal_handler (proc s p) <> UserHandler id) ->
  runs l p (enter p s) /\ run_globals s (enter p s) /\
  mach (enter p s) = Machine (pmem (mach s)) (frames (mach s)) (pdir p) (pg (mach s)) ∅ (pdir p) kd /\
  proc (enter p s) p = dispatched (proc s p) /\
  forall q, q <> p -> proc (enter p s) q = proc s q.
Proof.
  intros Hok Hs Hp Hp0 Hcur Hh. pose proof (links_proc _ _ _ (proj1 Hok) Hp) as Hr.
  destruct (sp_space _ _ _ _ Hs p Hp Hp0) as [Hdir Hso].
  destruct (switch_directory_spec (dirs l) (mach s) (pdir p) (sp_wf _ _ _ _ Hs)) as [Esw Hwf];
    [rewrite <- Hdir; apply Hso|]. rewrite (sp_kernel _ _ _ _ Hs) in Esw.
  assert (proc (enter p s) p = dispatched (proc s p)) as Ep.
  { unfold enter. rewrite set_mach_proc, proc_upd_eq by (change (table (count_context_switch _)) with (table (upd p (fun q => count_run (set_status RUN q)) s)); by rewrite len_upd).
    change (proc (count_context_switch ?x) p) with (proc x p). by rewrite proc_upd_eq. }
  assert (forall q, q <> p -> proc (enter p s) q = proc s q) as Eq.
  { intros q Hq. unfold enter. rewrite set_mach_proc, proc_upd_ne by done.
    change (proc (count_context_switch ?x) q) with (proc x q). by rewrite proc_upd_ne. }
  split; [|done]. split; try done.
  - apply table_ok_set_mach, table_ok_quiet; [|apply quiet_count_switch].
    eapply table_ok_ext; [apply (table_ok_quiet l s p _ Hok quiet_count_run)|..]; try done; apply (proj1 Hok).
  - assert (memory (proc (enter p s) p) = memory (proc s p)) as Emem by by rewrite Ep.
    assert (mach (enter p s) = paging_switch_directory (pdir p) (mach s)) as Em by done.
    split; rewrite ?Emem, Em; [exact Hwf|by rewrite Esw|by rewrite Esw|by rewrite Esw].
  - intros id. rewrite Ep. apply Hh.
  - by rewrite Ep.
Qed.

Context (user_handler : Z -> Z -> Z -> Z -> pstate S -> pstate S).

#[local] Abbreviation schedule := (schedule_next_process user_run user_handler).

(** The part of [schedule_next_process] after the choice of [p] and the delivery
    of its signals. *)
Definition run_turn (p : Z) s : outcome (pstate S) :=
  s ← process_context_switch user_run p (set_mach (paging_switch_directory
        (process_page_directory (memory (proc (upd p count_switch (count_context_switch
           (upd p (fun q => count_run (set_status RUN q)) s))) p)))
        (mach (upd p count_switch (count_context_switch (upd p (fun q => count_run (set_status RUN q)) s)))))
      (upd p count_switch (count_context_switch (upd p (fun q => count_run (set_status RUN q)) s))));
  let s := process_switch_to_kernel_space s in
  Ret (if status_is (status (proc s p)) RUN then upd p (set_status READY) s else s).

Lemma turn_spec l p s : table_ok l s -> spaces_ok l s -> p ∈ l -> p <> 0 -> current_process s = p ->
  body_ok (proc s p) -> entry (proc s p) <> NoEntry ->
  status (proc s p) <> ZOMBIE ->
  exists s', run_turn p s = Ret s' /\ table_ok l s' /\ spaces_ok l s' /\ run_globals s s' /\
    frames (mach s') = frames (mach s) /\
    (forall a, a / 4096 * 4096 ∉ pages_of (memory (proc s p)) -> load8 (pmem (mach s')) a = load8 (pmem (mach s)) a) /\
    kept (proc s p) (proc s' p) /\ body_ok (proc s' p) /\
    (status (proc s' p) = READY \/ status (proc s' p) = ZOMBIE) /\ counter_turn (proc s p) (proc s' p) /\
    forall q, q <> p -> disturbed (proc s q) (proc s' q).
Proof.
  intros Hok Hs Hp Hp0 Hcur Hb He Hnz. destruct (sp_space _ _ _ _ Hs p Hp Hp0) as [Hdir Hso].
  destruct (enter_spec l p s Hok Hs Hp Hp0 Hcur (proj1 Hb)) as (Hr & Hg & Hm & Ep & Eq).
  unfold run_turn.
  assert (set_mach (paging_switch_directory
    (process_page_directory (memory (proc (upd p count_switch (count_context_switch
       (upd p (fun q => count_run (set_status RUN q)) s))) p)))
    (mach (upd p count_switch (count_context_switch (upd p (fun q => count_run (set_status RUN q)) s)))))
    (upd p count_switch (count_context_switch (upd p (fun q => count_run (set_status RUN q)) s))) = enter p s) as ->.
  { unfold enter. f_equal. f_equal. rewrite <- (set_mach_proc _ (paging_switch_directory (pdir p) (mach s))).
    fold (enter p s). by rewrite Ep. }
  destruct (switch_spec l p (enter p s) Hr) as (s1 & E1 & [A Hb1 Hst1] & Ht1).
  { rewrite Ep. destruct Hb as [Hh Hb]. split; [done|]. change (entry (dispatched _)) with (entry (proc s p)).
    change (context (dispatched _)) with (context (proc s p)).
    destruct (entry (proc s p)), (context (proc s p)); done. }
  { by rewrite Ep. }
  rewrite E1. clear E1. cbn [mbind outcome_bind]. destruct A as [Hok1 Hg1 (m' & Em' & Hun & Hld) Hk1 Ho1].
  rewrite Hm in Em', Hun. cbn [pmem] in *.
  assert (kept (proc s p) (dispatched (proc s p))) as Hkd by by split.
  assert (forall q, memory (proc s1 q) = memory (proc s q)) as Hmem.
  { intros q. destruct (decide (q = p)) as [->|Hq]; [by rewrite (kp_memory _ _ Hk1), Ep|].
    by rewrite (kp_memory _ _ (ds_kept _ _ (Ho1 q Hq))), Eq. }
  assert (process_switch_to_kernel_space s1 =
    set_mach (Machine m' (frames (mach s)) kd (pg (mach s)) ∅ kd kd) s1) as Esw.
  { unfold process_switch_to_kernel_space. rewrite (lk_kernel _ _ (proj1 Hok1)), Hmem, (sp_root _ _ _ _ Hs).
    destruct (sw_dirs _ _ (sp_wf _ _ _ _ Hs) kd) as (_ & Hkd0 & _); [apply dirs_in; by left|].
    rewrite (eqb_sym_neg kd 0) by lia. cbn [negb andb]. rewrite Em'. f_equal.
    change (0 =? NULLP) with false. cbn [negb]. unfold paging_switch_directory. by rewrite (eqb_sym_neg kd 0) by lia. }
  rewrite Esw. cbv zeta. set (s2 := set_mach _ s1).
  assert (table_ok l s2) as Hok2 by by apply table_ok_set_mach.
  assert (forall q, proc s2 q = proc s1 q) as Ep2 by done.
  assert (status_is (status (proc s2 p)) RUN = false) as ->.
  { unfold status_is. apply bool_decide_eq_false. rewrite Ep2. destruct Hst1; congruence. }
  exists s2. split; [done|]. split; [done|]. split; [by apply (spaces_ok_back l s s2 m')|].
  split; [by unfold run_globals in *; intuition congruence|]. split; [done|].
  split; [intros a Ha; change (pmem (mach s2)) with m'; rewrite Hld by (by rewrite Ep); by rewrite Hm|].
  rewrite Ep2. rewrite Ep in Hk1.
  split; [|split; [done|split; [done|split]]].
  - destruct Hk1. split; try done; try congruence. 
  - rewrite Ep in Ht1. exact Ht1.
  - intros q Hq. rewrite Ep2, <- (Eq q Hq). by apply Ho1.
Qed.

(** [schedule_next_process] never fails: it does nothing when nobody can run,
    else it gives one turn to the process picked. *)
Lemma schedule_spec l s : sys_ok l s -> current_process s = 0 ->
  let p := if scheduler_enabled s then first_such (can_run s) (round (scheduler_cursor s) l) else NULLP in
  exists s', schedule s = Ret (p, s') /\
    ((p = NULLP /\ s' = s) \/ (p ∈ l /\ p <> 0 /\ can_run s p = true /\ turn l p s s')).
Proof.
  intros [Hok Hs Hb] Hcur p. unfold schedule_next_process. rewrite (pick_spec l s (proj1 Hok)). fold p.
  cbn [mbind outcome_bind]. destruct (Z.eqb_spec p NULLP) as [Hp|Hp]; [exists s; split; [by rewrite Hp|by left]|].
  assert (p ∈ l /\ can_run s p = true) as [Hpl Hrun].
  { unfold p in Hp |- *. destruct (scheduler_enabled s); [|done].
    destruct (first_such_spec (can_run s) (round (scheduler_cursor s) l)) as [[? _]|[Hin Hf]]; [done|].
    split; [|done]. apply (round_in (scheduler_cursor s)); [apply (proj1 Hok)|apply (proj1 Hok)|exact Hin]. }
  clearbody p. pose proof Hrun as Hcan. unfold can_run, runnable in Hrun. apply andb_true_iff in Hrun as [[_ He]%andb_true_iff Hst].
  apply negb_true_iff, bool_decide_eq_false in He.
  assert (p <> 0) as Hp0 by (intros ->; apply He, (lk_root_entry _ _ (proj1 Hok))).
  set (s1 := set_current p (set_cursor p s)).
  assert (table_ok l s1) as Hok1 by (eapply table_ok_ext; [exact Hok|..]; done).
  assert (spaces_ok l s1) as Hs1 by by apply (spaces_ok_same _ _ l s).
  destruct (deliver_spec user_handler l s1 p Hok1 Hpl) as (m & s2 & E2 & Hok2 & Hset & Hg2 & Hw); [apply (Hb p Hpl)|].
  rewrite E2. clear E2. cbn [mbind outcome_bind].
  change (proc s1 p) with (proc s p) in Hset. 
  assert (forall q, q <> p -> disturbed (proc s q) (proc s2 q)) as Ho2 by (intros q Hq; by apply woken_disturbed, Hw).
  pose proof (settled_kept _ _ Hset) as Hk2.
  assert (forall q, memory (proc s2 q) = memory (proc s q)) as Hmem.
  { intros q. destruct (decide (q = p)) as [->|Hq]; [apply (kp_memory _ _ Hk2)|].
    apply (kp_memory _ _ (ds_kept _ _ (Ho2 q Hq))). }
  destruct Hg2 as (Gk & Gc & Gcur & Gn & Gp & Gt & _ & Ge & Gm).
  assert (spaces_ok l s2) as Hs2 by by apply (spaces_ok_same _ _ l s1).
  pose proof (body_ok_settled _ _ (Hb p Hpl) Hset) as Hb2.
  assert (forall q, q ∈ l -> q <> p -> body_ok (proc s2 q)) as Hbo
    by (intros q Hq Hqp; eapply body_ok_disturbed; [by apply Hb|by apply Ho2]).
  assert (status (proc s p) <> WAITING) as Hnw.
  { intros E. rewrite E in Hst. done. }
  (* the final return to the kernel *)
  assert (forall s3, table_ok l s3 -> table_ok l (set_current (kernel_process s3) s3)) as Hret.
  { intros s3 H3. eapply table_ok_ext; [exact H3|..]; try done; [apply (proj1 H3)|].
    cbn. rewrite (lk_kernel _ _ (proj1 H3)). by eapply links_root_in, H3. }
  destruct (decide (status (proc s2 p) = ZOMBIE)) as [Hz|Hz].
  - unfold status_is. rewrite bool_decide_true by done. cbn [negb andb mbind outcome_bind].
    eexists. split; [reflexivity|]. right. do 3 (split; [done|]). split.
    + split; [by apply Hret|by apply (spaces_ok_same _ _ l s2)|].
      intros q Hq. destruct (decide (q = p)) as [->|Hqp]; [exact Hb2|by apply Hbo].
    + exact (lk_kernel _ _ (proj1 Hok2)).
    + exact Gcur.
    + exact (conj Ge (conj Gn (conj Gp Gt))).
    + cbn. by rewrite Gm.
    + intros a _. cbn. by rewrite Gm.
    + exact Hk2.
    + by right.
    + intros Hh. exfalso. destruct (st_quiet _ _ Hset Hh) as [E _]. rewrite E in Hz. by rewrite Hz in Hst.
    + exact Ho2.
  - assert (status (proc s2 p) = status (proc s p)) as Est by (destruct (st_status _ _ Hset); done).
    unfold status_is at 1 2. rewrite !bool_decide_false by congruence. cbn [negb andb].
    destruct (turn_spec l p s2 Hok2 Hs2 Hpl Hp0) as (s3 & E3 & Hok3 & Hs3 & Hg3 & Hf3 & Hl3 & Hk3 & Hb3 & Hst3 & Ht3 & Ho3);
      [by rewrite Gc|done|by rewrite (kp_entry _ _ Hk2)|done|].
    match goal with |- context [mbind _ ?e] => change e with (run_turn p s2) end.
    rewrite E3. clear E3. cbn [mbind outcome_bind].
    destruct Hg3 as (Hg31 & Hg32 & Hg33 & Hg34 & Hg35 & Hg36 & Hg37).
    eexists. split; [reflexivity|]. right. do 3 (split; [done|]). split.
    + split; [by apply Hret|by apply (spaces_ok_same _ _ l s3)|].
      intros q Hq. destruct (decide (q = p)) as [->|Hqp]; [exact Hb3|].
      eapply body_ok_disturbed; [by apply Hbo|by apply Ho3].
    + exact (lk_kernel _ _ (proj1 Hok3)).
    + cbn. by rewrite Hg33, Gcur.
    + cbn. rewrite Hg35, Hg34, Hg36, Hg37, Ge, Gn, Gp, Gt. done.
    + cbn. by rewrite Hf3, Gm.
    + intros a Ha. cbn. rewrite Hl3 by by rewrite Hmem. by rewrite Gm.
    + by eapply kept_trans.
    + exact Hst3.
    + intros Hh He'. destruct (settled_fields _ _ Hset) as (_ & Ec & Ee & _ & _ & _ & E0 & E1 & _).
      specialize (Ht3 ltac:(by rewrite Ee)). unfold counter_of in *. rewrite Ec, E0, E1 in Ht3. exact Ht3.
    + intros q Hq. eapply disturbed_trans; [by apply Ho2|by apply Ho3].
Qed.

(** ** Creating keeps the invariant *)

Lemma body_ok_waited x y : body_ok x -> waited x y -> body_ok y.
Proof.
  intros [Hh Hb] Hw. destruct (waited_fields _ _ Hw) as (_ & E1 & E2 & E3 & Hz).
  split; [intros id; rewrite E1; apply Hh|]. rewrite E2, E3. destruct (entry x), (context x); auto.
Qed.

Lemma body_ok_relinked x y : body_ok x -> relinked x y -> body_ok y.
Proof. intros Hb H. eapply body_ok_waited; [exact Hb|by left]. Qed.

Definition demo_entry (e : process_entry) : Prop := forall id, e <> UserEntry id.

Lemma create_sys l s own e size : sys_ok l s -> can_spawn kd l s -> demo_entry e ->
  exists p s', process_create_owned page_directories own e size s = Ret (p, s') /\
    0 < p < PROCESS_MAX_COUNT /\ p ∉ l /\ sys_ok (l ++ [p]) s' /\
    created_in page_directories kd l s p (current_process s) own size 0 e s'.
Proof.
  intros [Hok Hs Hb] Hcan He. destruct (create_owned_spec page_directories kd l s own e size Hok Hs Hcan)
    as (p & s' & E & Hr & Hp & C).
  exists p, s'. split; [exact E|]. clear E. split; [done|]. split; [done|]. split; [|done].
  split; [apply C|apply C|]. intros q [Hq| ->%list_elem_of_singleton]%elem_of_app.
  - eapply body_ok_relinked; [by apply Hb|]. by apply (ci_old _ _ _ _ _ _ _ _ _ _ _ C).
  - eapply body_ok_relinked; [|apply (ci_new _ _ _ _ _ _ _ _ _ _ _ C)]. split; [done|].
    destruct e as [| | | |id]; try done. by destruct (He id).
Qed.

(** ** Properties *)

(** C11. [pick_next_process] returns: nothing when the scheduler is off or no
    process can run, else a process that can (in use, with a body, ready,
    running or a thread), the first of them in the order of the table from the
    one after the last picked, round to that one itself. *)
Theorem pick_next_process_correct l s : table_ok l s ->
  (scheduler_enabled s = false -> pick_next_process s = Ret NULLP) /\
  (scheduler_enabled s = true -> exists p, pick_next_process s = Ret p /\
     ((p = NULLP /\ forall q, q ∈ l -> can_run s q = false) \/
      (p ∈ l /\ can_run s p = true /\ forall q, q ∈ l -> can_run s q = true ->
         (position p (round (scheduler_cursor s) l) <= position q (round (scheduler_cursor s) l))%nat))).
Proof.
  intros [H _]. rewrite (pick_spec l s H). split; [by intros ->|]. intros ->. eexists. split; [done|].
  pose proof (lk_cursor _ _ H) as Hc. pose proof (lk_nodup _ _ H) as Hnd. set (c := scheduler_cursor s) in *.
  destruct (first_such_spec (can_run s) (round c l)) as [[-> Hno]|[Hin Hrun]]; [left|right].
  - split; [done|]. intros q Hq. apply Hno. by apply round_in.
  - split; [by apply round_in in Hin|]. split; [done|]. intros q Hq Hr.
    by apply (first_such_position (can_run s) (round c l) q); [apply round_in|].
Qed.

(** C4. [schedule_next_process] cannot fail while the bodies are those of the
    source, and isolates the processes: the invariant of the system holds again
    and the kernel runs in its own directory; the process that had its turn can
    have written only its own four pages, so that the pages and the page table
    of every other process, the page tables and the kernel's data are as they
    were; no frame was taken or given back; and the others were at most woken,
    sent a harmless signal or sent a value. *)
Theorem schedule_next_process_isolates l s : sys_ok l s -> current_process s = 0 ->
  exists p s', schedule s = Ret (p, s') /\ sys_ok l s' /\ current_process s' = 0 /\ cr3 (mach s') = kd /\
    frames (mach s') = frames (mach s) /\
    (forall a, p = NULLP \/ a / 4096 * 4096 ∉ pages_of (memory (proc s p)) ->
       load8 (pmem (mach s')) a = load8 (pmem (mach s)) a) /\
    (forall q a, q ∈ l -> q <> 0 -> q <> p -> a / 4096 * 4096 ∈ frames_of (memory (proc s q)) ->
       load8 (pmem (mach s')) a = load8 (pmem (mach s)) a) /\
    (forall q, q <> p -> disturbed (proc s q) (proc s' q)).
Proof.
  intros H Hcur. destruct (schedule_spec l s H Hcur) as (s' & E & Hcase). cbv zeta in *.
  set (p := if scheduler_enabled s then _ else _) in *.
  exists p, s'. split; [exact E|]. clear E. destruct Hcase as [[Hp ->]|(Hp & Hp0 & _ & T)].
  - split; [done|]. split; [done|]. split; [apply (sp_cr3 _ _ _ _ (sy_spaces _ _ H))|]. split; [done|].
    split; [done|]. split; [done|]. intros; apply disturbed_refl.
  - split; [exact (tn_ok _ _ _ _ T)|]. split; [exact (tn_current _ _ _ _ T)|].
    split; [apply (sp_cr3 _ _ _ _ (sy_spaces _ _ (tn_ok _ _ _ _ T)))|].
    split; [exact (tn_frames _ _ _ _ T)|]. split; [|split; [|exact (tn_others _ _ _ _ T)]].
    + intros a [Hn|Ha]; [by destruct (links_not_null _ _ _ (proj1 (sy_table _ _ H)) Hp)|].
      by apply (tn_memory _ _ _ _ T).
    + intros q a Hq Hq0 Hqp Ha. apply (tn_memory _ _ _ _ T). intros Hin.
      apply (sp_disjoint _ _ _ _ (sy_spaces _ _ H) q p _ Hq Hp Hq0 Hp0 Hqp Ha). by apply list_elem_of_further.
Qed.
End run.

(** ** A concrete system: the kernel process and one demo process, ready to run *)

Lemma demo_sys : exists s, sys_ok 65536 4096 [0] s /\ can_spawn 4096 [0] s /\ current_process s = 0 /\
  scheduler_enabled s = true /\ pending_scheduler_ticks s = 0 /\ frames (mach s) = process_frames.
Proof.
  destruct demo_world as (s & Hok & Hs & Hc & Hcur & Hf & He & Hp & Hh & Hn & _). exists s.
  split; [|done]. split; [done|done|]. intros q ->%list_elem_of_singleton. split; [by rewrite Hh|].
  by rewrite (proj1 (lk_root_entry _ _ (proj1 Hok))).
Qed.

Lemma pick_next_process_correct_witness :
  let s := demo_state (boot_machine demo_frames) in
  exists p, pick_next_process s = Ret p /\ p ∈ [0; 1; 2].
Proof.
  cbv zeta. destruct (pick_next_process_correct [0; 1; 2] _ (demo_table_ok (boot_machine demo_frames))) as [_ H].
  destruct (H eq_refl) as (p & E & [[_ Hno]|(Hp & _)]); [|by exists p].
  specialize (Hno 1 ltac:(set_solver)). discriminate Hno.
Defined.

(** The same with a demo counter. *)
Lemma demo_pair : exists s p, sys_ok 65536 4096 [0; p] s /\ current_process s = 0 /\
  scheduler_enabled s = true /\ p <> 0 /\ status (proc s p) = READY /\ entry (proc s p) = DemoCounter.
Proof.
  destruct demo_sys as (s0 & H & Hcan & Hc & He & _).
  destruct (create_sys 65536 4096 [0] s0 7 DemoCounter 4096 H Hcan) as (p & s & _ & Hr & Hp & H' & C); [done|].
  destruct (ci_globals _ _ _ _ _ _ _ _ _ _ _ C) as (_ & Gc & _ & _ & Ge & _).
  destruct (relinked_fields _ _ (ci_new _ _ _ _ _ _ _ _ _ _ _ C)) as (_ & Est & _ & _ & _ & _ & Een & _).
  exists s, p. split; [exact H'|]. split; [congruence|]. split; [congruence|]. split; [lia|done].
Qed.

Lemma schedule_next_process_isolates_witness : exists s p q s', q <> 0 /\ entry (proc s q) = DemoCounter /\
  schedule_next_process (fun _ _ s => Ret s) (fun _ _ _ _ s => s) s = Ret (p, s') /\
  sys_ok 65536 4096 [0; q] s' /\ cr3 (mach s') = 4096.
Proof.
  destruct demo_pair as (s & q & H & Hc & _ & Hq & _ & He).
  destruct (schedule_next_process_isolates 65536 4096 (fun _ _ s => Ret s) (fun _ _ _ _ s => s) [0; q] s H Hc)
    as (p & s' & E & H' & _ & Hcr & _).
  exists s, p, q, s'. exact (conj Hq (conj He (conj E (conj H' Hcr)))).
Defined.
