(* ===== verification/Fork.v ===== *)
(** * Forking: fork_process of kernel/src/process.c

    The child is a new process with the owner, body, handler and arguments of the
    source, whose data, bss and heap pages are copied, byte by byte, through the
    identity-mapped window. *)

From S2P Require Import Prelude Interfaces Memory Pmm Ring Chain Paging Process ProcessSpace ProcessTable ProcessSignals ProcessLife Scheduler.

Section fork.
Context {S : Type} `{FA : FrameAllocator S}.
Implicit Types (s : pstate S) (l : list Z).

(** ** Copying a page *)

(** [m'] is [m] with the first [n] bytes of the page [src] copied to [dst]. *)
Definition copied (n : Z) (m m' : mem) (dst src : Z) : Prop :=
  (forall i, 0 <= i < n -> load8 m' (dst + i) = load8 m (src + i)) /\
  (forall a, ~ dst <= a < dst + 4096 -> load8 m' a = load8 m a).

Lemma page_apart a b : a mod 4096 = 0 -> b mod 4096 = 0 -> a <> b -> b + 4096 <= a \/ a + 4096 <= b.
Proof. intros Ha Hb Hne. divlia. Qed.

(** Bytes that are equal outside a page leave the entries of the other pages. *)
Lemma ent_outside m m' p q k : p mod 4096 = 0 -> q mod 4096 = 0 -> q <> p -> 0 <= k < 1024 ->
  (forall a, ~ p <= a < p + 4096 -> load8 m' a = load8 m a) -> ent m' q k = ent m q k.
Proof.
  intros Hp Hq Hne Hk Hm. pose proof (page_apart p q Hp Hq ltac:(congruence)) as Hap.
  unfold ent, load32. by rewrite !Hm by lia.
Qed.

Lemma untouched_outside ds m m' p : plain_page ds m p -> (forall d, d ∈ ds -> d mod 4096 = 0) ->
  (forall a, ~ p <= a < p + 4096 -> load8 m' a = load8 m a) -> untouched ds m m'.
Proof.
  intros Hp Hds Hm. apply (untouched_page ds m m' p Hp Hds). intros q k Hq Hk Hne.
  by apply (ent_outside m m' p q k); [apply Hp|..].
Qed.

Lemma process_memcpy_page ds (M : machine S) dst src :
  space_wf ds M -> plain_page ds (pmem M) dst -> src mod 4096 = 0 -> 0 < src < LOW_MEMORY -> dst <> src ->
  exists m, process_memcpy dst src PAGE_SIZE M = Ret (with_pmem m M) /\
    untouched ds (pmem M) m /\ copied 4096 (pmem M) m dst src.
Proof.
  intros H Hp Hsa Hsr Hne. pose proof Hp as (Hda & Hdr & _).
  assert (forall d, d ∈ ds -> d mod 4096 = 0) as Hds by (intros d Hd; by apply (sw_dirs _ _ H)).
  pose proof (page_apart dst src Hda Hsa Hne) as Hap.
  assert (forall m, (forall a, ~ dst <= a < dst + 4096 -> load8 m a = load8 (pmem M) a) -> windowed (with_pmem m M)) as Hwin.
  { intros m Hm. apply (wf_windowed ds). apply space_wf_pmem; [done|]. by eapply untouched_outside. }
  pose proof (page_room dst Hda ltac:(lia)). pose proof (page_room src Hsa ltac:(lia)).
  destruct (for_rangeM_ind (fun i m => b ← vload8 m (u32 (src + i)); vstore8 (u32 (dst + i)) b m)
    (fun i M' => exists m, M' = with_pmem m M /\ copied i (pmem M) m dst src) 0 PAGE_SIZE M)
    as (M' & E & m & -> & Hm); [done|exists (pmem M); split; [by destruct M|split; [lia|done]]| |].
  - unfold PAGE_SIZE. intros i M' Hi (m & -> & Hc & Ho).
    assert (is_u32 (src + i) /\ is_u32 (dst + i)) as [Hus Hud] by (unfold is_u32, LOW_MEMORY in *; lia).
    rewrite (u32_id _ Hus), (u32_id _ Hud).
    unfold vload8, vstore8. rewrite !translate_low by (by apply Hwin || lia).
    cbn [mbind outcome_bind pmem with_pmem].
    eexists. split; [reflexivity|]. eexists. split; [reflexivity|].
    rewrite Ho by lia. split.
    + intros j Hj. destruct (decide (j = i)) as [->|Hji].
      * rewrite load8_store8_eq. by apply u8_id, load8_range.
      * rewrite load8_store8_ne by lia. apply Hc. lia.
    + intros a Ha. rewrite load8_store8_ne by lia. by apply Ho.
  - exists m. split; [exact E|]. split; [|exact Hm]. eapply untouched_outside; [exact Hp|done|apply Hm].
Qed.

(** ** Forking *)

Context (page_directories kd : Z).
#[local] Abbreviation spaces_ok := (spaces_ok page_directories kd).
#[local] Abbreviation dirs := (dirs page_directories kd).

(** One of the three copies. *)
Lemma copy_page_spec l s f c src : spaces_ok l s -> table_ok l s -> c ∈ l -> src ∈ l -> c <> 0 -> src <> 0 -> c <> src ->
  f (proc s c) ∈ pages_of (memory (proc s c)) -> f (proc s src) ∈ pages_of (memory (proc s src)) ->
  exists m, copy_page f f c src s = Ret (set_mach (with_pmem m (mach s)) s) /\
    spaces_ok l (set_mach (with_pmem m (mach s)) s) /\
    copied 4096 (pmem (mach s)) m (f (proc s c)) (f (proc s src)).
Proof.
  intros Hs Hok Hc Hsrc Hc0 Hs0 Hne Hfc Hfs.
  destruct (sp_space _ _ _ _ Hs c Hc Hc0) as [_ Hsc]. destruct (sp_space _ _ _ _ Hs src Hsrc Hs0) as [_ Hss].
  destruct (so_plain _ _ _ _ Hss _ Hfs) as (Hsa & Hsr & _).
  destruct (process_memcpy_page (dirs l) (mach s) (f (proc s c)) (f (proc s src)) (sp_wf _ _ _ _ Hs)
    (so_plain _ _ _ _ Hsc _ Hfc) Hsa Hsr) as (m & E & Hun & Hcp).
  { intros E. apply (sp_disjoint _ _ _ _ Hs c src (f (proc s c)) Hc Hsrc Hc0 Hs0 Hne); [by apply list_elem_of_further|].
    rewrite E. by apply list_elem_of_further. }
  exists m. split; [unfold copy_page, on_mach; by rewrite E|]. clear E. split; [|done].
  apply (spaces_ok_untouched _ _ l s); cbn [mach set_mach pmem with_pmem cr3 kernel_directory frames]; try done.
  - apply space_wf_pmem; [apply Hs|done].
  - apply Hs.
  - apply Hs.
Qed.

(** A page whose entries are the same has the same bytes. *)
Lemma page_bytes m m' q i : (forall k, 0 <= k < 1024 -> ent m' q k = ent m q k) -> 0 <= i < 4096 ->
  load8 m' (q + i) = load8 m (q + i).
Proof.
  intros H Hi. specialize (H (i / 4) ltac:(divlia)). unfold ent, load32 in H.
  set (a := q + 4 * (i / 4)) in *.
  pose proof (load8_range m a). pose proof (load8_range m (a + 1)). pose proof (load8_range m (a + 2)).
  pose proof (load8_range m (a + 3)). pose proof (load8_range m' a). pose proof (load8_range m' (a + 1)).
  pose proof (load8_range m' (a + 2)). pose proof (load8_range m' (a + 3)). unfold is_u8 in *.
  assert (load8 m' a = load8 m a /\ load8 m' (a + 1) = load8 m (a + 1) /\ load8 m' (a + 2) = load8 m (a + 2) /\
    load8 m' (a + 3) = load8 m (a + 3)) as (E0 & E1 & E2 & E3) by lia.
  assert (q + i = a \/ q + i = a + 1 \/ q + i = a + 2 \/ q + i = a + 3) as [-> | [-> | [-> | ->]]] by (unfold a; divlia); done.
Qed.

(** The child's page holds what the page of the source held. *)
Definition page_copied (m m' : mem) (dst src : Z) : Prop :=
  forall i, 0 <= i < 4096 -> load8 m' (dst + i) = load8 m (src + i).

Lemma copied_other m m' dst src q i : copied 4096 m m' dst src -> dst mod 4096 = 0 -> q mod 4096 = 0 -> q <> dst ->
  0 <= i < 4096 -> load8 m' (q + i) = load8 m (q + i).
Proof. intros [_ H] Hd Hq Hne Hi. apply H. pose proof (page_apart dst q Hd Hq ltac:(congruence)). lia. Qed.

(** The three pages, copied one after the other. *)
Lemma three_copies m m1 m2 m3 a b c x y z :
  copied 4096 m m1 a x -> copied 4096 m1 m2 b y -> copied 4096 m2 m3 c z ->
  (forall q, q ∈ [a; b; c; x; y; z] -> q mod 4096 = 0) -> NoDup [a; b; c] ->
  (forall d, d ∈ [a; b; c] -> d ∉ [x; y; z]) ->
  page_copied m m3 a x /\ page_copied m m3 b y /\ page_copied m m3 c z /\
  forall q i, q mod 4096 = 0 -> q ∉ [a; b; c] -> 0 <= i < 4096 -> load8 m3 (q + i) = load8 m (q + i).
Proof.
  intros H1 H2 H3 Hal Hnd Hdis.
  assert (a <> b /\ a <> c /\ b <> c) as (Hab & Hac & Hbc).
  { rewrite !NoDup_cons in Hnd. set_solver. }
  assert (y <> a /\ z <> a /\ z <> b /\ x <> a /\ y <> b /\ z <> c) as (? & ? & ? & ? & ? & ?).
  { pose proof (Hdis a ltac:(set_solver)). pose proof (Hdis b ltac:(set_solver)). pose proof (Hdis c ltac:(set_solver)).
    set_solver. }
  assert (forall q, q ∈ [a; b; c; x; y; z] -> q mod 4096 = 0) as Hm by done.
  assert (a mod 4096 = 0 /\ b mod 4096 = 0 /\ c mod 4096 = 0) as (Ha & Hb & Hc) by (split; [|split]; apply Hm; set_solver).
  assert (y mod 4096 = 0 /\ z mod 4096 = 0) as [Hy Hz] by (split; apply Hm; set_solver).
  split; [|split; [|split]].
  - intros i Hi. rewrite (copied_other _ _ _ _ a i H3), (copied_other _ _ _ _ a i H2) by done. by apply H1.
  - intros i Hi. rewrite (copied_other _ _ _ _ b i H3) by done. rewrite (proj1 H2) by done.
    by apply (copied_other _ _ _ _ y i H1).
  - intros i Hi. rewrite (proj1 H3) by done. rewrite (copied_other _ _ _ _ z i H2) by done.
    by apply (copied_other _ _ _ _ z i H1).
  - intros q i Hq Hn Hi. rewrite (copied_other _ _ _ _ q i H3), (copied_other _ _ _ _ q i H2), (copied_other _ _ _ _ q i H1);
      set_solver.
Qed.

(** What [fork_process] makes of its child, given the source. *)
Definition child_of (id source : Z) (x y : process) : Prop :=
  pid y = id /\ status y = READY /\ parent y = source /\ owner y = owner x /\ rights y = rights x /\
  entry y = entry x /\ signal_handler y = signal_handler x /\ runtime_arg0 y = runtime_arg0 x /\
  runtime_arg1 y = runtime_arg1 x /\ context y = CtxBootstrap /\ pending y = [] /\ inbox y = [] /\
  heap_break (memory y) = u32 (m_heap_start (memory y) + u32 (heap_break (memory x) - m_heap_start (memory x))).

Lemma quiet_inherit x : quiet (inherit x).
Proof. intros y. by split; [constructor|]. Qed.

(** The heap break and the status that end the fork. *)
Lemma finish_fork l s c b : table_ok l s -> spaces_ok l s -> c ∈ l ->
  let s' := upd c (set_status READY) (upd c (fun q => set_memory (set_heap_break (b q) (memory q)) q) s) in
  table_ok l s' /\ spaces_ok l s' /\
  proc s' c = set_status READY (set_memory (set_heap_break (b (proc s c)) (memory (proc s c))) (proc s c)) /\
  (forall q, q <> c -> proc s' q = proc s q) /\ mach s' = mach s.
Proof.
  intros Hok Hs Hc s'. pose proof (links_proc _ _ _ (proj1 Hok) Hc) as Hr.
  set (s1 := upd c (fun q => set_memory (set_heap_break (b q) (memory q)) q) s) in *.
  assert (s1 = upd c (fun q => set_memory (set_heap_break (b (proc s c)) (memory q)) q) s) as E1 by by apply upd_ext.
  assert (table_ok l s1) as Hok1 by apply (table_ok_quiet l s c _ Hok (quiet_memory _)).
  assert (spaces_ok l s1) as Hs1 by (rewrite E1; by apply spaces_ok_heap_break).
  split; [by apply table_ok_quiet, quiet_status|]. split; [by apply spaces_ok_upd|].
  split; [|split; [|done]].
  - unfold s'. rewrite proc_upd_eq by (unfold s1; by rewrite len_upd). unfold s1. by rewrite proc_upd_eq.
  - intros q Hq. unfold s', s1. by rewrite !proc_upd_ne.
Qed.

Lemma page_zero m q i : (forall k, 0 <= k < 1024 -> ent m q k = 0) -> 0 <= i < 4096 -> load8 m (q + i) = 0.
Proof.
  intros H Hi. specialize (H (i / 4) ltac:(divlia)). unfold ent, load32 in H. set (a := q + 4 * (i / 4)) in *.
  pose proof (load8_range m a). pose proof (load8_range m (a + 1)). pose proof (load8_range m (a + 2)).
  pose proof (load8_range m (a + 3)). unfold is_u8 in *.
  assert (q + i = a \/ q + i = a + 1 \/ q + i = a + 2 \/ q + i = a + 3) as [-> | [-> | [-> | ->]]] by (unfold a; divlia); lia.
Qed.

(** A creation leaves the pages of the processes that exist. *)
Lemma created_pages l s c par own size e s1 : table_ok l s -> spaces_ok l s -> 0 < c < PROCESS_MAX_COUNT -> c ∉ l ->
  created_in page_directories kd l s c par own size 0 e s1 ->
  forall q p i, q ∈ l -> q <> 0 -> p ∈ pages_of (memory (proc s q)) -> 0 <= i < 4096 ->
    memory (proc s1 q) = memory (proc s q) /\ load8 (pmem (mach s1)) (p + i) = load8 (pmem (mach s)) (p + i).
Proof.
  intros Hok Hs Hr Hc C q p i Hq Hq0 Hp Hi.
  destruct (relinked_fields _ _ (proj1 (ci_old _ _ _ _ _ _ _ _ _ _ _ C q Hq))) as (_ & _ & _ & Em & _).
  split; [done|]. destruct (sp_space _ _ _ _ Hs q Hq Hq0) as [_ Hsp].
  destruct (so_plain _ _ _ _ Hsp p Hp) as (Hpa & _). apply page_bytes; [|done]. intros k Hk.
  apply (ci_else _ _ _ _ _ _ _ _ _ _ _ C); try done.
  - intros ->. destruct (sp_static _ _ _ _ Hs c Hr) as (_ & _ & _ & _ & _ & Hst).
    apply (Hst q Hq Hq0). by apply list_elem_of_further.
  - assert (q <> c) as Hqc by (intros ->; done).
    apply (sp_disjoint _ _ _ _ (ci_spaces _ _ _ _ _ _ _ _ _ _ _ C) q c); [set_solver|set_solver|done|lia|done|].
    rewrite Em. by apply list_elem_of_further.
Qed.

Lemma data_in pm : data_page pm ∈ pages_of pm.
Proof. apply list_elem_of_here. Qed.
Lemma bss_in pm : bss_page pm ∈ pages_of pm.
Proof. apply list_elem_of_further, list_elem_of_here. Qed.
Lemma heap_in pm : heap_page pm ∈ pages_of pm.
Proof. do 2 apply list_elem_of_further. apply list_elem_of_here. Qed.
Lemma stack_in pm : stack_page pm ∈ pages_of pm.
Proof. do 3 apply list_elem_of_further. apply list_elem_of_here. Qed.

Lemma three_in d pm : d ∈ [data_page pm; bss_page pm; heap_page pm] -> d ∈ pages_of pm.
Proof. unfold pages_of. rewrite !elem_of_cons, elem_of_nil. tauto. Qed.

Section copying.
Context (l : list Z) (s s1 : pstate S) (c source own size : Z) (e : process_entry).
Context (Hok : table_ok l s) (Hs : spaces_ok l s) (Hc : c ∉ l) (Hr : 0 < c < PROCESS_MAX_COUNT).
Context (Hsrc : source ∈ l) (Hs0 : source <> 0).
Context (C : created_in page_directories kd l s c source own size 0 e s1).

Let s2 := upd c (inherit (proc s1 source)) s1.

(** The three copies of [fork_process], from the state where the child inherits. *)
Lemma copies_spec : exists m3,
  (s ← copy_page (fun q => data_page (memory q)) (fun q => data_page (memory q)) c source s2;
   s ← copy_page (fun q => bss_page (memory q)) (fun q => bss_page (memory q)) c source s;
   copy_page (fun q => heap_page (memory q)) (fun q => heap_page (memory q)) c source s) =
     Ret (set_mach (with_pmem m3 (mach s1)) s2) /\
  table_ok (l ++ [c]) (set_mach (with_pmem m3 (mach s1)) s2) /\
  spaces_ok (l ++ [c]) (set_mach (with_pmem m3 (mach s1)) s2) /\
  (let x := memory (proc s source) in let y := memory (proc s1 c) in let m := pmem (mach s1) in
   page_copied m m3 (data_page y) (data_page x) /\ page_copied m m3 (bss_page y) (bss_page x) /\
   page_copied m m3 (heap_page y) (heap_page x) /\
   forall q i, q mod 4096 = 0 -> q ∉ [data_page y; bss_page y; heap_page y] -> 0 <= i < 4096 ->
     load8 m3 (q + i) = load8 m (q + i)).
Proof using Hok Hs Hc Hr Hsrc Hs0 C.
  pose proof (ci_table _ _ _ _ _ _ _ _ _ _ _ C) as Hok1. pose proof (ci_spaces _ _ _ _ _ _ _ _ _ _ _ C) as Hs1.
  assert (c ∈ l ++ [c]) as Hcin by set_solver. assert (source ∈ l ++ [c]) as Hsin by set_solver.
  assert (c <> source) as Hne by (intros ->; done). assert (c <> 0) as Hc0 by lia.
  assert (table_ok (l ++ [c]) s2) as Hok2 by (apply table_ok_quiet; [done|apply quiet_inherit]).
  assert (spaces_ok (l ++ [c]) s2) as Hs2 by by apply spaces_ok_upd.
  assert (proc s2 c = inherit (proc s1 source) (proc s1 c)) as Ec
    by (unfold s2; by rewrite proc_upd_eq by exact (links_proc _ _ _ (proj1 Hok1) Hcin)).
  assert (proc s2 source = proc s1 source) as Esrc by (unfold s2; by rewrite proc_upd_ne by congruence).
  destruct (relinked_fields _ _ (proj1 (ci_old _ _ _ _ _ _ _ _ _ _ _ C source Hsrc))) as (_ & _ & _ & Em & _).
  assert (memory (proc s2 c) = memory (proc s1 c)) as Emc by by rewrite Ec.
  assert (memory (proc s2 source) = memory (proc s source)) as Ems by by rewrite Esrc, Em.
  destruct (copy_page_spec (l ++ [c]) s2 (fun q => data_page (memory q)) c source Hs2 Hok2 Hcin Hsin
    Hc0 Hs0 Hne (data_in _) (data_in _)) as (m1 & E1 & Hs3 & C1).
  rewrite E1. clear E1. cbn [mbind outcome_bind]. set (s3 := set_mach (with_pmem m1 (mach s2)) s2) in *.
  destruct (copy_page_spec (l ++ [c]) s3 (fun q => bss_page (memory q)) c source Hs3
    (table_ok_set_mach _ _ _ Hok2) Hcin Hsin Hc0 Hs0 Hne (bss_in _) (bss_in _)) as (m2 & E2 & Hs4 & C2).
  rewrite E2. clear E2. cbn [mbind outcome_bind]. set (s4 := set_mach (with_pmem m2 (mach s3)) s3) in *.
  destruct (copy_page_spec (l ++ [c]) s4 (fun q => heap_page (memory q)) c source Hs4
    (table_ok_set_mach _ _ _ Hok2) Hcin Hsin Hc0 Hs0 Hne (heap_in _) (heap_in _)) as (m3 & E3 & Hs5 & C3).
  exists m3. split; [exact E3|]. clear E3. split; [by apply table_ok_set_mach|]. split; [exact Hs5|].
  change (proc s3) with (proc s2) in *. change (proc s4) with (proc s2) in *.
  rewrite Emc, Ems in C1, C2, C3. cbv zeta.
  destruct (sp_space _ _ _ _ Hs1 c Hcin ltac:(lia)) as [_ Hsc].
  destruct (sp_space _ _ _ _ Hs1 source Hsin Hs0) as [_ Hss]. rewrite Em in Hss.
  apply (three_copies _ m1 m2); [exact C1|exact C2|exact C3| | |].
  - pose proof (fun q Hq => proj1 (so_plain _ _ _ _ Hsc q Hq)) as H1.
    pose proof (fun q Hq => proj1 (so_plain _ _ _ _ Hss q Hq)) as H2.
    intros q Hq. rewrite !elem_of_cons, elem_of_nil in Hq.
    destruct Hq as [->|[->|[->|[->|[->|[->|[]]]]]]]; auto using data_in, bss_in, heap_in.
  - pose proof (so_nodup _ _ _ _ Hsc) as Hnd. clear -Hnd. unfold frames_of, pages_of in Hnd. rewrite !NoDup_cons in *. set_solver.
  - assert (forall d, d ∈ pages_of (memory (proc s1 c)) -> d ∉ pages_of (memory (proc s source))) as Hd.
    { intros d Hd Hd2. apply (sp_disjoint _ _ _ _ Hs1 c source d Hcin Hsin Hc0 Hs0 Hne); [by apply list_elem_of_further|].
      rewrite Em. by apply list_elem_of_further. }
    intros d H1%three_in H2%three_in. by apply (Hd d).
Qed.
End copying.

(** What a fork that succeeds leaves. *)
Record forked l s source c s' : Prop := {
  fk_table : table_ok (l ++ [c]) s';
  fk_spaces : spaces_ok (l ++ [c]) s';
  fk_child : child_of (next_pid s) source (proc s source) (proc s' c);
  fk_data : page_copied (pmem (mach s)) (pmem (mach s')) (data_page (memory (proc s' c))) (data_page (memory (proc s source)));
  fk_bss : page_copied (pmem (mach s)) (pmem (mach s')) (bss_page (memory (proc s' c))) (bss_page (memory (proc s source)));
  fk_heap : page_copied (pmem (mach s)) (pmem (mach s')) (heap_page (memory (proc s' c))) (heap_page (memory (proc s source)));
  fk_stack i : 0 <= i < 4096 -> load8 (pmem (mach s')) (stack_page (memory (proc s' c)) + i) = 0;
  fk_links q : q ∈ l -> relinked (proc s q) (proc s' q);
  fk_pages q p i : q ∈ l -> q <> 0 -> p ∈ pages_of (memory (proc s q)) -> 0 <= i < 4096 ->
    load8 (pmem (mach s')) (p + i) = load8 (pmem (mach s)) (p + i);
}.

Lemma fork_spec l s source :
  table_ok l s -> spaces_ok l s -> can_spawn kd l s -> source ∈ l -> source <> 0 -> entry (proc s source) <> NoEntry ->
  exists c s', fork_process page_directories source s = Ret (c, s') /\ c ∉ l /\ c <> NULLP /\ forked l s source c s'.
Proof.
  intros Hok Hs (Hlen & Hpid & Habs & p0 & t & p1 & p2 & p3 & a' & Hf) Hsrc Hs0 He.
  destruct (create_spec page_directories kd l s source (owner (proc s source)) 0 (entry (proc s source))
    (code_size (memory (proc s source))) t p0 p1 p2 p3 a' Hok Hs Hsrc Hlen Hpid) as (c & s1 & E & Hr & Hc & C & _).
  { intros p Hp. by destruct (default_region p Hp) as [? ->]. }
  { done. }
  unfold fork_process. rewrite (eqb_sym_neg source NULLP) by exact (links_not_null _ _ _ (proj1 Hok) Hsrc).
  rewrite (lk_kernel _ _ (proj1 Hok)), (eqb_sym_neg source 0), bool_decide_false by done. cbn [orb].
  rewrite E. clear E. cbn [mbind outcome_bind]. rewrite (eqb_sym_neg c NULLP) by (unfold NULLP; lia).
  destruct (copies_spec l s s1 c source _ _ _ Hok Hs Hc Hr Hsrc Hs0 C) as (m3 & E3 & Hok3 & Hs3 & Hd & Hb & Hh & Helse).
  set (s2 := upd c (inherit (proc s1 source)) s1) in *. cbv zeta in E3 |- *.
  destruct (copy_page (fun q => data_page (memory q)) _ c source s2) as [sa| |] eqn:Ea; cbn [mbind outcome_bind] in E3 |- *; [|done|done].
  destruct (copy_page (fun q => bss_page (memory q)) _ c source sa) as [sb| |] eqn:Eb; cbn [mbind outcome_bind] in E3 |- *; [|done|done].
  rewrite E3. clear Ea Eb E3. cbn [mbind outcome_bind]. set (s3 := set_mach (with_pmem m3 (mach s1)) s2) in *.
  assert (c ∈ l ++ [c]) as Hcin by set_solver.
  destruct (finish_fork (l ++ [c]) s3 c (fun q => u32 (m_heap_start (memory q) +
    u32 (heap_break (memory (proc s3 source)) - m_heap_start (memory (proc s3 source))))) Hok3 Hs3 Hcin)
    as (Hok4 & Hs4 & Ec & Eq & Em). set (s4 := upd c (set_status READY) _) in *.
  assert (proc s3 c = inherit (proc s1 source) (proc s1 c)) as Ec3.
  { change (proc s3 c) with (proc s2 c). unfold s2. by rewrite proc_upd_eq by
      exact (links_proc _ _ _ (proj1 (ci_table _ _ _ _ _ _ _ _ _ _ _ C)) Hcin). }
  assert (forall q, q <> c -> proc s3 q = proc s1 q) as Eq3 by (intros q Hq; apply proc_upd_ne; done).
  assert (source <> c) as Hne by (intros ->; done).
  pose proof (proj1 (ci_old _ _ _ _ _ _ _ _ _ _ _ C source Hsrc)) as Rsrc.
  pose proof (ci_new _ _ _ _ _ _ _ _ _ _ _ C) as Rnew.
  destruct (relinked_fields _ _ Rsrc) as (_ & _ & R1 & R2 & _ & _ & R3 & R4 & _).
  destruct (relinked_runtime _ _ Rsrc) as (R5 & R6 & R7).
  destruct (relinked_fields _ _ Rnew) as (N1 & _ & N2 & _ & N3 & N4 & N5 & _ & N6 & _).
  exists c, s4. split; [done|]. split; [done|]. split; [unfold NULLP; lia|].
  pose proof (fun p i H Hi => proj2 (created_pages l s c _ _ _ _ s1 Hok Hs Hr Hc C source p i Hsrc Hs0 H Hi)) as Hold.
  assert (memory (proc s4 c) = set_heap_break (u32 (m_heap_start (memory (proc s1 c)) +
    u32 (heap_break (memory (proc s3 source)) - m_heap_start (memory (proc s3 source))))) (memory (proc s1 c))) as Emc
    by by rewrite Ec, Ec3.
  destruct (sp_space _ _ _ _ Hs3 c Hcin ltac:(lia)) as [_ Hsp].
  rewrite Ec3 in Hsp. change (memory (inherit _ _)) with (memory (proc s1 c)) in Hsp.
  assert (pmem (mach s4) = m3) as Em4 by by rewrite Em.
  split; [exact Hok4|exact Hs4| | | | | | |]; rewrite ?Em4, ?Emc.
  - rewrite (Eq3 source Hne) in Ec. unfold child_of, pending, inbox. rewrite Ec, Ec3.
    cbn [pid status parent owner rights entry signal_handler runtime_arg0 runtime_arg1 context signals socket memory
      set_status set_memory inherit heap_break m_heap_start set_heap_break].
    rewrite N1, N2, N3, N4, N5, N6, R2, R4, R5, R6, R7, (ci_parent _ _ _ _ _ _ _ _ _ _ _ C). done.
  - intros i Hi. etransitivity; [by apply Hd|]. by apply Hold; [apply data_in|].
  - intros i Hi. etransitivity; [by apply Hb|]. by apply Hold; [apply bss_in|].
  - intros i Hi. etransitivity; [by apply Hh|]. by apply Hold; [apply heap_in|].
  - intros i Hi. cbn [stack_page set_heap_break].
    rewrite Helse; [|apply (so_plain _ _ _ _ Hsp), stack_in| |done].
    + apply page_zero; [|done]. intros k Hk. apply (ci_zero _ _ _ _ _ _ _ _ _ _ _ C); [apply stack_in|done].
    + pose proof (so_nodup _ _ _ _ Hsp) as Hnd. clear -Hnd. unfold frames_of, pages_of in Hnd.
      rewrite !NoDup_cons, !elem_of_cons, elem_of_nil in *. intuition congruence.
  - intros q Hq. assert (q <> c) as Hqc by (intros ->; done). rewrite Eq, Eq3 by done.
    apply (ci_old _ _ _ _ _ _ _ _ _ _ _ C q Hq).
  - intros q p i Hq Hq0 Hp Hi. assert (q <> c) as Hqc by (intros ->; done).
    destruct (created_pages l s c _ _ _ _ s1 Hok Hs Hr Hc C q p i Hq Hq0 Hp Hi) as [Emq <-].
    destruct (sp_space _ _ _ _ Hs q Hq Hq0) as [_ Hspq].
    apply Helse; [apply (so_plain _ _ _ _ Hspq p Hp)| |done]. intros Hin%three_in.
    apply (sp_disjoint _ _ _ _ (ci_spaces _ _ _ _ _ _ _ _ _ _ _ C) c q p Hcin); [set_solver|lia|done|done| |].
    + by apply list_elem_of_further.
    + rewrite Emq. by apply list_elem_of_further.
Qed.

(** C7. [fork_process] of a process that has a body succeeds when a slot, a pid
    and five frames are left: the child is a ready child of the source with a
    fresh pid and empty queues, the owner, rights, body, handler and arguments of
    the source, starting from the top; its data, bss and heap pages hold, byte for
    byte, what those of the source held, its stack page is zeroed, and its heap
    break is where the source's is; the invariants hold, and the record and the
    pages of every other process, the source's included, are unchanged. *)
Theorem fork_process_correct l s source :
  table_ok l s -> spaces_ok l s -> can_spawn kd l s -> source ∈ l -> source <> 0 -> entry (proc s source) <> NoEntry ->
  exists c s', fork_process page_directories source s = Ret (c, s') /\ c ∉ l /\ c <> NULLP /\ forked l s source c s'.
Proof. apply fork_spec. Qed.
End fork.

(** A demo counter forks. *)
Lemma fork_process_correct_witness : exists (l : list Z) (s : pstate pmm) source child s',
  fork_process 65536 source s = Ret (child, s') /\ entry (proc s source) = DemoCounter /\
  forked 65536 4096 l s source child s'.
Proof.
  destruct demo_spawned as (s & p & Hok & Hs & Hcan & Hp & He & _).
  destruct (fork_process_correct 65536 4096 [0; p] s p Hok Hs Hcan) as (c & s' & E & _ & _ & H).
  - set_solver.
  - exact Hp.
  - by rewrite He.
  - exists [0; p], s, p, c, s'. exact (conj E (conj He H)).
Defined.
