(* ===== verification/Fairness.v ===== *)
(** * Fairness: what the scheduler of kernel/src/process.c guarantees over time

    Many turns of [schedule_next_process] in a row: a process that can run gets
    a turn within one round, a demo counter counts to its limit and exits, and
    the kernel gets everything back when it reaps it. *)

From S2P Require Import Prelude Interfaces Memory Pmm Ring Chain Paging Process ProcessSpace ProcessTable ProcessSignals ProcessLife Scheduler.

Section fairness.
Context {S : Type} `{FA : FrameAllocator S}.
Context (page_directories kd : Z).
Context (user_run : Z -> Z -> pstate S -> outcome (pstate S)).
Context (user_handler : Z -> Z -> Z -> Z -> pstate S -> pstate S).
Implicit Types (s : pstate S) (l : list Z).

#[local] Abbreviation sys_ok := (sys_ok page_directories kd).
#[local] Abbreviation turn := (turn page_directories kd).
#[local] Abbreviation schedule := (schedule_next_process user_run user_handler).


(** ** Delivering to every process *)

(** What the delivery of pending signals may do to a process. *)
Record serviced (x y : process) : Prop := {
  sv_kept : kept x y;
  sv_context : context y = context x;
  sv_next : next y = next x;
  sv_quiet : harmless (pending x) -> disturbed x y;
}.

Lemma serviced_refl x : serviced x x.
Proof. split; [apply kept_refl|done|done|intros; apply disturbed_refl]. Qed.

Lemma serviced_trans x y z : serviced x y -> serviced y z -> serviced x z.
Proof.
  intros [K1 C1 N1 Q1] [K2 C2 N2 Q2]. split; [by eapply kept_trans|congruence|congruence|].
  intros Hh. eapply disturbed_trans; [by apply Q1|]. apply Q2, (kp_harmless _ _ K1), Hh.
Qed.

Lemma woken_serviced x y : woken x y -> serviced x y.
Proof.
  intros H. pose proof (woken_disturbed _ _ H) as D. destruct H as [E _].
  split; [apply D|by rewrite E|by rewrite E|done].
Qed.

Lemma settled_serviced x y : settled x y -> serviced x y.
Proof.
  intros H. pose proof (settled_kept _ _ H) as K. destruct H as [E Hst Hp Hq].
  split; [exact K|by rewrite E|by rewrite E|].
  intros Hh. destruct (Hq Hh) as [Es Ex]. split; [done|by rewrite E|done|by left].
Qed.

Lemma body_ok_serviced x y : body_ok x -> serviced x y -> body_ok y.
Proof. intros Hb [K C _ _]. by eapply body_ok_kept. Qed.

(** The walk over the table delivers to each process and ends. *)
Lemma deliver_all_loop_spec l r : forall fuel cursor s,
  table_ok l s -> (forall q, q ∈ r -> q ∈ l /\ forall id, signal_handler (proc s q) <> UserHandler id) ->
  chain (nexts s) cursor r -> (length r < fuel)%nat ->
  exists s', deliver_all_loop user_handler fuel cursor s = Ret s' /\ table_ok l s' /\ same_globals s s' /\
    forall q, serviced (proc s q) (proc s' q).
Proof.
  induction r as [|p r IH]; intros [|fuel] cursor s Hok Hr Hc Hf; simpl in Hf; try lia; cbn [deliver_all_loop].
  - simpl in Hc. rewrite Hc. exists s. split; [done|]. split; [done|]. split; [done|]. intros; apply serviced_refl.
  - destruct Hc as (-> & Hp0 & Hc). rewrite (eqb_sym_neg p NULLP) by (unfold NULLP; lia).
    destruct (Hr p ltac:(set_solver)) as [Hp Hh].
    assert (exists s1, (if used (proc s p) && negb (rb_head (signals (proc s p)) =? rb_tail (signals (proc s p)))
      then '(_, s) ← deliver_process_signal user_handler p s; Ret s else Ret s) = Ret s1 /\
      table_ok l s1 /\ same_globals s s1 /\ forall q, serviced (proc s q) (proc s1 q)) as (s1 & E1 & Hok1 & Hg1 & Hs1).
    { destruct (_ && _); [|exists s; split; [done|]; split; [done|]; split; [done|intros; apply serviced_refl]].
      destruct (deliver_spec user_handler l s p Hok Hp Hh) as (m & s1 & E & Hok1 & Hset & Hg & Hw).
      rewrite E. clear E. exists s1. split; [done|]. split; [done|]. split; [done|]. intros q.
      destruct (decide (q = p)) as [->|Hne]; [by apply settled_serviced|by apply woken_serviced, Hw]. }
    rewrite E1. clear E1. cbn [mbind outcome_bind].
    destruct (IH fuel (nexts s p) s1 Hok1) as (s' & E & Hok' & Hg & Hs').
    + intros q Hq. destruct (Hr q ltac:(set_solver)) as [Hql Hqh]. split; [done|]. intros id.
      rewrite (kp_handler _ _ (sv_kept _ _ (Hs1 q))). apply Hqh.
    + eapply chain_ext; [|exact Hc]. intros q _. apply (sv_next _ _ (Hs1 q)).
    + lia.
    + unfold nexts in E. rewrite <- (sv_next _ _ (Hs1 p)) in E. exists s'. split; [exact E|]. clear E.
      split; [done|]. split; [by eapply same_globals_trans|]. intros q. by eapply serviced_trans.
Qed.

Lemma deliver_all_spec l s : sys_ok l s ->
  exists s', process_deliver_all_pending_signals user_handler s = Ret s' /\ sys_ok l s' /\ same_globals s s' /\
    forall q, serviced (proc s q) (proc s' q).
Proof.
  intros [Hok Hs Hb]. unfold process_deliver_all_pending_signals. pose proof Hok as [H _].
  destruct (deliver_all_loop_spec l l walk_fuel (process_head s) s Hok) as (s' & E & Hok' & Hg & Hs').
  - intros q Hq. split; [done|]. apply (Hb q Hq).
  - apply H.
  - pose proof (links_length _ _ H). unfold walk_fuel. lia.
  - exists s'. split; [exact E|]. clear E. split; [|done]. split; [done| |].
    + apply (spaces_ok_same _ _ l s); [done|apply Hg|]. intros q. apply (kp_memory _ _ (sv_kept _ _ (Hs' q))).
    + intros q Hq. eapply body_ok_serviced; [by apply Hb|done].
Qed.

(** ** One tick *)

(** [s] is between two calls of the scheduler, which is on. *)
Definition idle l s : Prop := sys_ok l s /\ current_process s = 0 /\ scheduler_enabled s = true.

(** The body of the loop of [scheduler_run_pending], after the tick is taken. *)
Definition tick_body s : outcome (Z * pstate S) :=
  s ← process_deliver_all_pending_signals user_handler s; schedule s.

(** A tick: signals are delivered, then the process picked, if any, has a turn. *)
Record ticked l (p : Z) s s' : Prop := {
  tk_idle : idle l s';
  tk_pending : pending_scheduler_ticks s' = pending_scheduler_ticks s;
  tk_next_pid : next_pid s' = next_pid s;
  tk_frames : frames (mach s') = frames (mach s);
  tk_kept q : kept (proc s q) (proc s' q);
  tk_turn : exists s1, (forall q, serviced (proc s q) (proc s1 q)) /\ table_ok l s1 /\
    p = first_such (can_run s1) (round (scheduler_cursor s) l) /\
    if decide (p = NULLP) then s' = s1 else p ∈ l /\ can_run s1 p = true /\ turn l p s1 s';
}.

Lemma tick_body_spec l s : idle l s -> exists p s', tick_body s = Ret (p, s') /\ ticked l p s s'.
Proof.
  intros (H & Hc & He). destruct (deliver_all_spec l s H) as (s1 & E1 & H1 & Hg & Hs1).
  destruct Hg as (_ & Gc & Gs & Gn & Gp & Gt & _ & Ge & Gm).
  destruct (schedule_spec page_directories kd user_run user_handler l s1 H1) as (s' & E & Hcase); [congruence|].
  cbv zeta in E, Hcase. rewrite Ge, He, Gs in E, Hcase. set (p := first_such _ _) in *.
  exists p, s'. split; [unfold tick_body; by rewrite E1|]. clear E E1.
  destruct Hcase as [[Hp ->]|(Hp & Hp0 & Hr & T)].
  - split; try done; [split; [done|split; congruence]|by rewrite Gm|intros q; apply Hs1|].
    exists s1. split; [done|]. split; [apply H1|]. split; [done|]. by rewrite decide_True.
  - destruct (tn_globals _ _ _ _ _ _ T) as (T1 & T2 & T3 & T4). split.
    + split; [apply (tn_ok _ _ _ _ _ _ T)|]. split; [apply (tn_current _ _ _ _ _ _ T)|congruence].
    + congruence.
    + congruence.
    + by rewrite (tn_frames _ _ _ _ _ _ T), Gm.
    + intros q. eapply kept_trans; [apply Hs1|]. destruct (decide (q = p)) as [->|Hq];
        [apply (tn_self _ _ _ _ _ _ T)|apply (tn_others _ _ _ _ _ _ T q Hq)].
    + exists s1. split; [done|]. split; [apply H1|]. split; [done|].
      rewrite decide_False by exact (links_not_null _ _ _ (proj1 (sy_table _ _ _ _ H1)) Hp). done.
Qed.

(** [scheduler_run_pending] takes the ticks that are pending, as many as it may. *)
Lemma run_pending_spec l n : forall done_ s, idle l s -> 0 <= pending_scheduler_ticks s ->
  exists s', run_pending_loop user_run user_handler n done_ s =
      Ret (done_ + Z.min (Z.of_nat n) (pending_scheduler_ticks s), s') /\ idle l s' /\
    pending_scheduler_ticks s' = pending_scheduler_ticks s - Z.min (Z.of_nat n) (pending_scheduler_ticks s) /\
    (forall q, kept (proc s q) (proc s' q)) /\ frames (mach s') = frames (mach s).
Proof.
  induction n as [|n IH]; intros d s Hi Hp; cbn [run_pending_loop].
  - exists s. rewrite Z.min_l, Z.add_0_r, Z.sub_0_r by lia. split; [done|]. split; [done|]. split; [done|].
    split; [intros; apply kept_refl|done].
  - destruct (Z.ltb_spec 0 (pending_scheduler_ticks s)).
    + set (s0 := set_pending _ s). assert (idle l s0) as Hi0.
      { destruct Hi as ([Hok Hs Hb] & Hc & He). split; [|done]. split; [|by apply (spaces_ok_same _ _ l s)|exact Hb].
        eapply table_ok_ext; [exact Hok|..]; try done; apply (proj1 Hok). }
      destruct (tick_body_spec l s0 Hi0) as (p & s1 & E & T). unfold tick_body in E.
      destruct (process_deliver_all_pending_signals _ s0) as [s0'| |]; cbn [mbind outcome_bind] in *; [|done|done].
      rewrite E. clear E. cbn [mbind outcome_bind]. pose proof (tk_pending _ _ _ _ T) as Hp1.
      change (pending_scheduler_ticks s0) with (pending_scheduler_ticks s - 1) in Hp1.
      destruct (IH (d + 1) s1 (tk_idle _ _ _ _ T) ltac:(lia)) as (s' & E' & Hi' & Hp' & Hk & Hf).
      exists s'. rewrite E'. split; [f_equal; f_equal; lia|]. split; [done|]. split; [lia|].
      split; [intros q; eapply kept_trans; [apply (tk_kept _ _ _ _ T q)|apply Hk]|].
      by rewrite Hf, (tk_frames _ _ _ _ T).
    + exists s. assert (Z.min (Z.of_nat (Datatypes.S n)) (pending_scheduler_ticks s) = 0) as -> by lia.
      rewrite Z.add_0_r, Z.sub_0_r. split; [done|]. split; [done|]. split; [done|].
      split; [intros; apply kept_refl|done].
Qed.

(** One iteration of [scheduler_force_ticks]. *)
Definition tick s : outcome (pstate S) :=
  '(_, s) ← scheduler_run_pending user_run user_handler 1 (scheduler_tick s); Ret s.

(** The two counters of ticks play no part. *)
Lemma tick_spec l s : idle l s -> 0 <= pending_scheduler_ticks s < 4294967295 ->
  exists p s', tick s = Ret s' /\ ticked l p s s'.
Proof.
  intros Hi Hp. set (s0 := set_pending (pending_scheduler_ticks s) (set_total_ticks (u32 (total_scheduler_ticks s + 1)) s)).
  assert (idle l s0) as Hi0.
  { destruct Hi as ([Hok Hs Hb] & Hc & He). split; [|done]. split; [|by apply (spaces_ok_same _ _ l s)|exact Hb].
    eapply table_ok_ext; [exact Hok|..]; try done; apply (proj1 Hok). }
  destruct (tick_body_spec l s0 Hi0) as (p & s' & E & T). exists p, s'. split.
  - assert (scheduler_tick s = set_pending (pending_scheduler_ticks s + 1)
      (set_total_ticks (u32 (total_scheduler_ticks s + 1)) s)) as Et.
    { unfold scheduler_tick. change (pending_scheduler_ticks (set_total_ticks _ s)) with (pending_scheduler_ticks s).
      by rewrite (u32_id (pending_scheduler_ticks s + 1)) by (unfold is_u32; lia). }
    unfold tick, scheduler_run_pending. rewrite Et. change (Z.to_nat 1) with 1%nat. cbn [run_pending_loop].
    change (pending_scheduler_ticks (set_pending (pending_scheduler_ticks s + 1) _)) with (pending_scheduler_ticks s + 1).
    rewrite (proj2 (Z.ltb_lt 0 (pending_scheduler_ticks s + 1))) by lia.
    assert (set_pending (pending_scheduler_ticks s + 1 - 1)
      (set_pending (pending_scheduler_ticks s + 1) (set_total_ticks (u32 (total_scheduler_ticks s + 1)) s)) = s0) as ->
      by (unfold s0; by rewrite Z.add_simpl_r).
    unfold tick_body in E. destruct (process_deliver_all_pending_signals _ s0) as [s1| |]; cbn [mbind outcome_bind] in *; [|done|done].
    by rewrite E.
  - destruct T as [? ? ? ? ? Ht]. by split.
Qed.

(** ** Many ticks *)

Fixpoint ticks (n : nat) s : outcome (pstate S) :=
  match n with O => Ret s | Datatypes.S n => s ← tick s; ticks n s end.

Lemma force_ticks_eq n s : scheduler_force_ticks user_run user_handler (Z.of_nat n) s = ticks n s.
Proof.
  unfold scheduler_force_ticks, for_rangeM. rewrite Z.sub_0_r.
  assert (forall k a acc, foldl (fun acc i => s ← acc; (fun _ s => '(_, s) ← scheduler_run_pending user_run user_handler 1
    (scheduler_tick s); Ret s) i s) acc (seqZ a (Z.of_nat k)) = (s ← acc; ticks k s)) as H.
  { induction k as [|k IH]; intros a acc.
    - by destruct acc.
    - rewrite seqZ_cons by lia. replace (Z.pred (Z.of_nat (Datatypes.S k))) with (Z.of_nat k) by lia.
      cbn [foldl]. rewrite IH. by destruct acc. }
  apply (H n 0 (Ret s)).
Qed.

Lemma ticks_add a b : forall s, ticks (a + b) s = (s1 ← ticks a s; ticks b s1).
Proof.
  induction a as [|a IH]; intros s; cbn [Nat.add ticks]; [done|].
  destruct (tick s) as [s1| |]; cbn [mbind outcome_bind]; [apply IH|done|done].
Qed.

(** Ready for ticks: idle, and the counter of pending ticks does not wrap. *)
Definition ready l s : Prop := idle l s /\ 0 <= pending_scheduler_ticks s < 4294967295.

Lemma tick_ready l s : ready l s -> exists p s', tick s = Ret s' /\ ticked l p s s' /\ ready l s'.
Proof.
  intros [Hi Hp]. destruct (tick_spec l s Hi Hp) as (p & s' & E & T). exists p, s'. split; [exact E|].
  split; [done|]. split; [apply T|]. by rewrite (tk_pending _ _ _ _ T).
Qed.

(** Any number of ticks can be taken. *)
Lemma ticks_ready l n : forall s, ready l s ->
  exists s', ticks n s = Ret s' /\ ready l s' /\ (forall q, kept (proc s q) (proc s' q)) /\
    frames (mach s') = frames (mach s) /\ next_pid s' = next_pid s.
Proof.
  induction n as [|n IH]; intros s Hr.
  - exists s. split; [done|]. split; [done|]. by split; [intros; apply kept_refl|].
  - destruct (tick_ready l s Hr) as (p & s1 & E & T & Hr1). destruct (IH s1 Hr1) as (s' & E' & Hr' & Hk & Hf & Hn).
    exists s'. cbn [ticks]. rewrite E. cbn [mbind outcome_bind]. split; [exact E'|]. clear E E'. split; [done|].
    split; [intros q; eapply kept_trans; [apply T|apply Hk]|].
    split; [by rewrite Hf, (tk_frames _ _ _ _ T)|by rewrite Hn, (tk_next_pid _ _ _ _ T)].
Qed.

(** ** Fairness *)

Lemma used_in l s q : table_ok l s -> q ∈ l -> used (proc s q) = true.
Proof. intros [H Hu] Hq. by apply Hu; [apply (lk_range _ _ H)|]. Qed.

(** A process that can run and is not picked can still run afterwards. *)
Lemma can_run_disturbed l s s' q : table_ok l s -> table_ok l s' -> q ∈ l ->
  disturbed (proc s q) (proc s' q) -> can_run s q = true -> can_run s' q = true.
Proof.
  intros Hok Hok' Hq [K _ _ Hs]. unfold can_run, runnable. rewrite !(used_in l), (kp_entry _ _ K) by done.
  destruct Hs as [->|[-> _]]; [done|]. rewrite andb_false_r. done.
Qed.

(** A process that can run, with no fatal signal pending. *)
Definition waiting_turn (p : Z) s : Prop := can_run s p = true /\ harmless (pending (proc s p)).

Lemma waiting_turn_disturbed l s s' q : table_ok l s -> table_ok l s' -> q ∈ l ->
  disturbed (proc s q) (proc s' q) -> waiting_turn q s -> waiting_turn q s'.
Proof.
  intros Hok Hok' Hq D [Hr Hh]. split; [by eapply (can_run_disturbed l s)|].
  by apply (kp_harmless _ _ (ds_kept _ _ D)).
Qed.

Lemma position_inj q p l : q ∈ l -> p ∈ l -> position q l = position p l -> q = p.
Proof.
  induction l as [|x r IH]; simpl; [set_solver|]. intros H1 H2.
  destruct (Z.eqb_spec x q), (Z.eqb_spec x p); try congruence; intros [=]; try lia.
  - pose proof (position_bound p r ltac:(set_solver)). lia.
  - pose proof (position_bound q r ltac:(set_solver)). lia.
  - apply IH; [set_solver|set_solver|done].
Qed.

Lemma idle_table l s : idle l s -> table_ok l s.
Proof. intros (H & _). apply H. Qed.

(** The turn of [p] in a tick. *)
Definition has_turn l (p : Z) s s' : Prop :=
  exists s1, disturbed (proc s p) (proc s1 p) /\ turn l p s1 s' /\ scheduler_cursor s' = p.

(** Until it is picked, such a process comes nearer at each tick. *)
Lemma tick_nearer l s p : ready l s -> p ∈ l -> waiting_turn p s ->
  exists s', tick s = Ret s' /\ ready l s' /\
    (has_turn l p s s' \/ waiting_turn p s' /\ disturbed (proc s p) (proc s' p) /\
       (position p (round (scheduler_cursor s') l) < position p (round (scheduler_cursor s) l))%nat).
Proof.
  intros Hready Hp Hw. destruct (tick_ready l s Hready) as (q & s' & E & T & Hr'). exists s'.
  split; [exact E|]. clear E. split; [done|]. pose proof (idle_table _ _ (proj1 Hready)) as Hok.
  destruct (tk_turn _ _ _ _ T) as (s1 & Hsv & Hok1 & Eq & Hcase).
  pose proof (sv_quiet _ _ (Hsv p) (proj2 Hw)) as D.
  pose proof (waiting_turn_disturbed l s s1 p Hok Hok1 Hp D Hw) as Hw1.
  pose proof (lk_nodup _ _ (proj1 Hok)) as Hnd. pose proof (lk_cursor _ _ (proj1 Hok)) as Hc.
  set (c := scheduler_cursor s) in *.
  destruct (first_such_position (can_run s1) (round c l) p) as (Hq & _ & Hle);
    [by apply round_in|apply Hw1|]. rewrite <- Eq in *.
  apply round_in in Hq; [|done|done].
  rewrite decide_False in Hcase by exact (links_not_null _ _ _ (proj1 Hok) Hq).
  destruct Hcase as (_ & _ & Ht).
  destruct (decide (q = p)) as [->|Hne].
  - left. exists s1. split; [done|]. split; [done|]. apply (tn_cursor _ _ _ _ _ _ Ht).
  - right. pose proof (tn_others _ _ _ _ _ _ Ht p ltac:(congruence)) as D2.
    split; [|split; [by eapply disturbed_trans|]].
    + eapply (waiting_turn_disturbed l s1); [done|apply idle_table, Hr'|done|done|done].
    + rewrite (tn_cursor _ _ _ _ _ _ Ht). apply position_closer; try done.
      destruct (decide (position q (round c l) = position p (round c l))) as [E2|]; [|lia].
      exfalso. apply Hne. by apply (position_inj _ _ (round c l)); [apply round_in|apply round_in|].
Qed.

(** It gets a turn within one round; nothing was done to it before but waking,
    signalling and sending. *)
Lemma turn_within l p n : forall s, ready l s -> p ∈ l -> waiting_turn p s ->
  (position p (round (scheduler_cursor s) l) <= n)%nat ->
  exists k s1 s2, (k < n)%nat /\ ticks k s = Ret s1 /\ ready l s1 /\ disturbed (proc s p) (proc s1 p) /\
    tick s1 = Ret s2 /\ ready l s2 /\ has_turn l p s1 s2.
Proof.
  induction n as [|n IH]; intros s Hr Hp Hw Hn.
  - pose proof (idle_table _ _ (proj1 Hr)) as Hok. pose proof (position_bound p (round (scheduler_cursor s) l)) as Hb.
    rewrite round_in in Hb by apply (proj1 Hok). specialize (Hb Hp). lia.
  - destruct (tick_nearer l s p Hr Hp Hw) as (s' & E & Hr' & [T|(Hw' & D & Hlt)]).
    + exists O, s, s'. split; [lia|]. split; [done|]. split; [done|]. split; [apply disturbed_refl|]. done.
    + destruct (IH s' Hr' Hp Hw' ltac:(lia)) as (k & s1 & s2 & Hk & E1 & H1 & D1 & H2 & H3 & T2).
      exists (Datatypes.S k), s1, s2. split; [lia|]. cbn [ticks]. rewrite E. cbn [mbind outcome_bind].
      rewrite E1. split; [done|]. split; [done|]. split; [by eapply disturbed_trans|]. done.
Qed.

(** A round is at most as long as the table. *)
Lemma position_round l s p : table_ok l s -> p ∈ l -> (position p (round (scheduler_cursor s) l) <= length l)%nat.
Proof.
  intros [H _] Hp. pose proof (round_perm _ l (lk_cursor _ _ H) (lk_nodup _ _ H)) as Hperm.
  rewrite <- (Permutation_length Hperm). apply position_bound. by rewrite Hperm.
Qed.

(** ** Zombies *)

(** A zombie keeps its exit code. *)
Definition dead (p code : Z) s : Prop :=
  status (proc s p) = ZOMBIE /\ exit_code (proc s p) = code /\ harmless (pending (proc s p)).

Lemma dead_disturbed p code s s' : dead p code s -> disturbed (proc s p) (proc s' p) -> dead p code s'.
Proof.
  intros (Hz & Hc & Hh) [K _ Hx _]. split; [by apply (kp_zombie _ _ K)|].
  split; [congruence|by apply (kp_harmless _ _ K)].
Qed.

Lemma ticks_dead l p code n : forall s s', ready l s -> dead p code s -> ticks n s = Ret s' -> dead p code s'.
Proof.
  induction n as [|n IH]; intros s s' Hr Hd; cbn [ticks]; [by intros [= <-]|].
  destruct (tick_ready l s Hr) as (q & s1 & E & T & Hr1). rewrite E. cbn [mbind outcome_bind].
  apply IH; [done|]. destruct (tk_turn _ _ _ _ T) as (s0 & Hsv & _ & _ & Hcase).
  pose proof (dead_disturbed _ _ s s0 Hd (sv_quiet _ _ (Hsv p) (proj2 (proj2 Hd)))) as Hd0.
  destruct (decide (q = NULLP)); [by subst|]. destruct Hcase as (_ & Hrun & Ht).
  apply (dead_disturbed _ _ s0 s1 Hd0), (tn_others _ _ _ _ _ _ Ht). intros <-.
  unfold can_run, runnable in Hrun. rewrite (proj1 Hd0) in Hrun. by rewrite andb_false_r in Hrun.
Qed.

(** ** The demo counter *)

(** A counter that counts from [c] to [lim], with no fatal signal pending. *)
Definition counting (p c lim : Z) s : Prop :=
  entry (proc s p) = DemoCounter /\ harmless (pending (proc s p)) /\
  exists i, counter_of (proc s p) = Some (c, i, lim).

Lemma counting_disturbed p c lim s s' : counting p c lim s -> disturbed (proc s p) (proc s' p) -> counting p c lim s'.
Proof.
  intros (He & Hh & i & Hc) [K C _ _]. split; [by rewrite (kp_entry _ _ K)|].
  split; [by apply (kp_harmless _ _ K)|]. exists i. unfold counter_of in *.
  by rewrite C, (kp_arg0 _ _ K), (kp_arg1 _ _ K).
Qed.

(** One turn of the counter. *)
Lemma counting_turn l p c lim s s' : has_turn l p s s' -> p ∈ l -> counting p c lim s -> 0 <= c -> lim < 4294967296 ->
  if c <? lim then counting p (c + 1) lim s' /\ can_run s' p = true else dead p (i32 c) s'.
Proof.
  intros (s1 & D & T & _) Hp Hcs Hc0 Hlim.
  destruct (counting_disturbed _ _ _ _ _ Hcs D) as (He & Hh & i & Hc).
  pose proof (tn_counter _ _ _ _ _ _ T Hh He) as Ht. rewrite Hc in Ht. pose proof (tn_self _ _ _ _ _ _ T) as K.
  destruct (Z.ltb_spec c lim); [|destruct Ht; split; [done|split; [done|by apply (kp_harmless _ _ K)]]].
  destruct Ht as [Hctx Hst]. split.
  - split; [by rewrite (kp_entry _ _ K)|]. split; [by apply (kp_harmless _ _ K)|].
    exists (u32 (i + 1)). unfold counter_of. rewrite Hctx. by rewrite u32_id by (unfold is_u32; lia).
  - unfold can_run, runnable. rewrite (used_in l) by (done || apply (sy_table _ _ _ _ (tn_ok _ _ _ _ _ _ T))).
    rewrite (kp_entry _ _ K), He, Hst. done.
Qed.

Lemma counter_runs l p lim n : forall s c, ready l s -> p ∈ l -> can_run s p = true ->
  counting p c lim s -> 0 <= c -> lim < 4294967296 -> Z.to_nat (lim - c) = n ->
  exists k s', (k <= length l * Datatypes.S n)%nat /\ ticks k s = Ret s' /\ ready l s' /\
    dead p (i32 (Z.max c lim)) s'.
Proof.
  induction n as [|n IH]; intros s c Hr Hp Hrun Hc Hc0 Hlim Hn;
    destruct (turn_within l p (length l) s Hr Hp (conj Hrun (proj1 (proj2 Hc)))
      (position_round l s p (idle_table _ _ (proj1 Hr)) Hp)) as (k & s1 & s2 & Hk & E1 & Hr1 & D & E2 & Hr2 & T);
    pose proof (counting_turn l p c lim s1 s2 T Hp (counting_disturbed _ _ _ _ _ Hc D) Hc0 Hlim) as Hstep;
    assert (ticks (k + 1) s = Ret s2) as Ek
      by (rewrite ticks_add, E1; cbn [mbind outcome_bind ticks]; by rewrite E2);
    clear E1 E2.
  - destruct (Z.ltb_spec c lim); [lia|]. exists (k + 1)%nat, s2. split; [lia|]. split; [exact Ek|].
    split; [done|]. by rewrite Z.max_l by lia.
  - destruct (Z.ltb_spec c lim); [|lia]. destruct Hstep as [Hc2 Hrun2].
    destruct (IH s2 (c + 1) Hr2 Hp Hrun2 Hc2 ltac:(lia) Hlim ltac:(lia)) as (k' & s' & Hk' & E' & Hr' & Hd).
    exists (k + 1 + k')%nat, s'. split; [lia|]. split; [|split; [done|]].
    + rewrite ticks_add, Ek. exact E'.
    + by replace (Z.max c lim) with (Z.max (c + 1) lim) by lia.
Qed.

(** With as many ticks as that, or more, the counter is a zombie. *)
Lemma counter_ends l p c lim n s : ready l s -> p ∈ l -> can_run s p = true ->
  counting p c lim s -> 0 <= c -> lim < 4294967296 -> (length l * Datatypes.S (Z.to_nat (lim - c)) <= n)%nat ->
  exists s', ticks n s = Ret s' /\ ready l s' /\ dead p (i32 (Z.max c lim)) s'.
Proof.
  intros Hr Hp Hrun Hc Hc0 Hlim Hn.
  destruct (counter_runs l p lim _ s c Hr Hp Hrun Hc Hc0 Hlim eq_refl) as (k & s1 & Hk & E1 & Hr1 & Hd).
  destruct (ticks_ready l (n - k) s1 Hr1) as (s2 & E2 & Hr2 & _).
  exists s2. replace n with (k + (n - k))%nat by lia. rewrite ticks_add, E1. cbn [mbind outcome_bind].
  split; [exact E2|]. split; [done|]. eapply ticks_dead; [exact Hr1|exact Hd|exact E2].
Qed.

(** ** Creating and reaping keep the invariant *)

(** Reaping a zombie for the kernel. *)
Lemma reap_sys l s c : idle l s -> c ∈ l -> c <> 0 -> status (proc s c) = ZOMBIE ->
  exists s', process_wait 0 (pid (proc s c)) s = Ret (1, exit_code (proc s c), s') /\ idle (without c l) s' /\
    freed (frames (mach s)) (frames (mach s'))
      (pages_of (memory (proc s c)) ++ [process_page_table (memory (proc s c))]).
Proof.
  intros ([Hok Hs Hb] & Hcur & Hen) Hc Hc0 Hz.
  destruct (wait_zombie page_directories kd l s 0 c Hok Hs) as (s' & E & Hok' & Hs' & Hf & Hw & Hk & Hc' & He' & _);
    [by eapply links_root_in, Hok|done|by left|done|done|by rewrite Hcur; auto using not_eq_sym|].
  exists s'. split; [exact E|]. clear E. split; [|done]. split; [|split; congruence].
  split; [done|done|]. intros q [Hq Hql]%without_in. eapply body_ok_waited; [by apply Hb|by apply Hw].
Qed.

(** Spawning a demo counter. *)
Lemma spawn_counter_spec l s own seed limit : ready l s -> can_spawn kd l s ->
  exists p s', process_spawn_demo_counter page_directories own seed limit s = Ret (p, s') /\ p ∉ l /\ p <> 0 /\
    ready (l ++ [p]) s' /\ can_run s' p = true /\ counting p seed limit s' /\
    (forall f, f ∈ frames_of (memory (proc s' p)) -> f mod 4096 = 0 /\ fa_used (frames (mach s)) (f / 4096) = false) /\
    forall g, 0 <= g -> fa_used (frames (mach s')) g =
      bool_decide (g * 4096 ∈ frames_of (memory (proc s' p))) || fa_used (frames (mach s)) g.
Proof.
  intros [(Hsys & Hcur & Hen) Hpt] Hcan.
  destruct (create_sys page_directories kd l s own DemoCounter PAGE_SIZE Hsys Hcan) as (p & s1 & E & Hr & Hp & [Hok1 Hs1 Hb1] & C); [done|].
  unfold process_spawn_demo_counter. rewrite E. clear E. cbn [mbind outcome_bind].
  rewrite (eqb_sym_neg p NULLP) by (unfold NULLP; lia).
  set (s2 := upd p _ s1).
  assert (p ∈ l ++ [p]) as Hin by set_solver.
  destruct (ci_globals _ _ _ _ _ _ _ _ _ _ _ C) as (_ & Gc & _ & _ & Ge & Gp).
  assert (proc s2 p = set_runtime_arg1 limit (set_runtime_arg0 seed (proc s1 p))) as Ep
    by (unfold s2; by rewrite proc_upd_eq by exact (links_proc _ _ _ (proj1 Hok1) Hin)).
  destruct (relinked_fields _ _ (ci_new _ _ _ _ _ _ _ _ _ _ _ C))
    as (_ & Est & _ & _ & Esig & _ & Ee & Eh & Ec & _ & _ & Eu).
  exists p, s2. split; [done|]. split; [done|]. split; [lia|]. split; [|split; [|split; [|split]]].
  - split; [|change (pending_scheduler_ticks s2) with (pending_scheduler_ticks s1); lia].
    split; [|split; [change (current_process s2) with (current_process s1); congruence
      |change (scheduler_enabled s2) with (scheduler_enabled s1); congruence]].
    split; [by apply table_ok_quiet, quiet_args|by apply spaces_ok_upd|].
    intros q Hq. destruct (decide (q = p)) as [->|Hne]; [|unfold s2; rewrite proc_upd_ne by done; by apply Hb1].
    rewrite Ep. exact (Hb1 p Hq).
  - unfold can_run, runnable. rewrite Ep. simpl. by rewrite Eu, Ee, Est.
  - unfold counting, counter_of. rewrite Ep. simpl. rewrite Ee, Ec. split; [done|]. split; [|eauto].
    unfold pending. simpl. rewrite Esig. apply Forall_nil_2.
  - rewrite Ep. apply (ci_fresh _ _ _ _ _ _ _ _ _ _ _ C).
  - rewrite Ep. apply (ci_frames _ _ _ _ _ _ _ _ _ _ _ C).
Qed.

(** ** Properties *)

(** C12. [scheduler_run_pending] ends and says how many ticks it took: all that
    were pending, or [max_ticks] if they were more; that many are no longer
    pending, and the invariant of the system holds again. *)
Theorem scheduler_run_pending_correct l s max_ticks :
  idle l s -> 0 <= max_ticks -> 0 <= pending_scheduler_ticks s ->
  let n := Z.min max_ticks (pending_scheduler_ticks s) in
  exists s', scheduler_run_pending user_run user_handler max_ticks s = Ret (n, s') /\ idle l s' /\
    pending_scheduler_ticks s' = pending_scheduler_ticks s - n /\ frames (mach s') = frames (mach s) /\
    forall q, kept (proc s q) (proc s' q).
Proof.
  intros Hi Hm Hp n. unfold scheduler_run_pending.
  destruct (run_pending_spec l (Z.to_nat max_ticks) 0 s Hi Hp) as (s' & E & Hi' & Hp' & Hk & Hf).
  rewrite Z2Nat.id in E, Hp' by done. fold n in E, Hp'. exists s'. by split.
Qed.

(** C5. The scheduler is fair: a process that can run and has no fatal signal
    pending gets the processor within as many ticks as there are processes,
    whatever the others do; until then nothing happens to it but being signalled
    or sent to. *)
Theorem scheduler_fair l s p :
  ready l s -> p ∈ l -> can_run s p = true -> harmless (pending (proc s p)) ->
  exists k s1 s2, 0 <= k < lenZ l /\ scheduler_force_ticks user_run user_handler k s = Ret s1 /\
    scheduler_force_ticks user_run user_handler (k + 1) s = Ret s2 /\
    disturbed (proc s p) (proc s1 p) /\ has_turn l p s1 s2.
Proof.
  intros Hr Hp Hrun Hh.
  destruct (turn_within l p (length l) s Hr Hp (conj Hrun Hh) (position_round l s p (idle_table _ _ (proj1 Hr)) Hp))
    as (k & s1 & s2 & Hk & E1 & Hr1 & D & E2 & Hr2 & T).
  exists (Z.of_nat k), s1, s2. split; [unfold lenZ; lia|]. split; [by rewrite force_ticks_eq|].
  split; [|done]. replace (Z.of_nat k + 1) with (Z.of_nat (k + 1)) by lia.
  rewrite force_ticks_eq, ticks_add, E1. cbn [mbind outcome_bind ticks]. by rewrite E2.
Qed.

(** C6. The whole life of a demo counter, among any other demo processes:
    spawned, it counts from the seed to the limit and exits within as many ticks
    as the count takes rounds; the kernel that waits for it then gets the limit
    (the seed when that is larger) as the exit code, and every frame back. *)
Theorem demo_counter_life l s own seed limit n :
  ready l s -> can_spawn kd l s -> 0 <= seed -> limit < 4294967296 ->
  (lenZ l + 1) * (Z.max 0 (limit - seed) + 1) <= n ->
  exists p s1 s2 s3, process_spawn_demo_counter page_directories own seed limit s = Ret (p, s1) /\
    scheduler_force_ticks user_run user_handler n s1 = Ret s2 /\
    process_wait 0 (pid (proc s1 p)) s2 = Ret (1, i32 (Z.max seed limit), s3) /\ idle l s3 /\
    forall g, 0 <= g -> fa_used (frames (mach s3)) g = fa_used (frames (mach s)) g.
Proof.
  intros Hr Hcan Hs Hl Hn. destruct (spawn_counter_spec l s own seed limit Hr Hcan)
    as (p & s1 & E1 & Hp & Hp0 & Hr1 & Hrun & Hc & Hfresh & Hf1).
  assert (p ∈ l ++ [p]) as Hin by set_solver.
  destruct (counter_ends (l ++ [p]) p seed limit (Z.to_nat n) s1 Hr1 Hin Hrun Hc Hs Hl) as (s2 & E2 & Hr2 & Hd).
  { rewrite length_app. cbn [length]. unfold lenZ in Hn. nia. }
  destruct (ticks_ready (l ++ [p]) (Z.to_nat n) s1 Hr1) as (s2' & E2' & _ & Hk & Hfr & _).
  rewrite E2 in E2'. injection E2' as <-.
  destruct (reap_sys (l ++ [p]) s2 p (proj1 Hr2) Hin Hp0 (proj1 Hd)) as (s3 & E3 & Hi3 & (_ & _ & Hf3)).
  rewrite (proj1 (proj2 Hd)), (kp_pid _ _ (Hk p)) in E3.
  exists p, s1, s2, s3. split; [exact E1|]. clear E1. split.
  { rewrite <- force_ticks_eq, Z2Nat.id in E2 by (unfold lenZ in Hn; nia). exact E2. }
  clear E2. split; [exact E3|]. clear E3.
  assert (without p (l ++ [p]) = l) as El.
  { rewrite without_split; [apply app_nil_r|]. apply (lk_nodup _ _ (proj1 (idle_table _ _ (proj1 Hr1)))). }
  rewrite El in Hi3. split; [done|]. intros g Hg. rewrite Hf3, Hfr, Hf1, (kp_memory _ _ (Hk p)) by done.
  assert (g * 4096 ∈ pages_of (memory (proc s1 p)) ++ [process_page_table (memory (proc s1 p))] <->
    g * 4096 ∈ frames_of (memory (proc s1 p))) as Hiff.
  { unfold frames_of. rewrite elem_of_app, list_elem_of_singleton, elem_of_cons. tauto. }
  rewrite (bool_decide_ext _ _ Hiff). case_bool_decide as Hgf; [|by rewrite orb_false_l, andb_true_r].
  destruct (Hfresh _ Hgf) as [_ Hff]. rewrite Z.div_mul in Hff by lia. by rewrite Hff.
Qed.
End fairness.

(** ** Concrete inputs *)

Lemma scheduler_run_pending_correct_witness : exists s s' : pstate pmm,
  scheduler_run_pending (fun _ _ s => Ret s) (fun _ _ _ _ s => s) 5 (scheduler_tick s) = Ret (1, s') /\
  pending_scheduler_ticks s' = 0.
Proof.
  destruct demo_sys as (s & H & _ & Hc & He & Hp & _).
  assert (pending_scheduler_ticks (scheduler_tick s) = 1) as Hp1 by (cbn; by rewrite Hp).
  destruct (scheduler_run_pending_correct 65536 4096 (fun _ _ s => Ret s) (fun _ _ _ _ s => s) [0] (scheduler_tick s) 5)
    as (s' & E & _ & Hp' & _).
  - split; [|done]. destruct H as [Hok Hs Hb]. split; [|by apply (spaces_ok_same _ _ [0] s)|exact Hb].
    eapply table_ok_ext; [exact Hok|..]; try done; apply (proj1 Hok).
  - lia.
  - lia.
  - rewrite Hp1 in *. exists s, s'. exact (conj E Hp').
Defined.

(** Nothing but the kernel, ready to spawn. *)
Lemma demo_ready : exists s, ready 65536 4096 [0] s /\ can_spawn 4096 [0] s.
Proof.
  destruct demo_sys as (s & H & Hcan & Hc & He & Hp & _). exists s. split; [|done]. split; [done|]. lia.
Qed.

Lemma scheduler_fair_witness : exists (s : pstate pmm) p k s2, entry (proc s p) = DemoCounter /\ 0 <= k < 2 /\
  scheduler_force_ticks (fun _ _ s => Ret s) (fun _ _ _ _ s => s) (k + 1) s = Ret s2 /\ scheduler_cursor s2 = p.
Proof.
  destruct demo_ready as (s0 & Hr & Hcan).
  destruct (spawn_counter_spec 65536 4096 (fun _ _ s => Ret s) (fun _ _ _ _ s => s) [0] s0 7 0 2 Hr Hcan)
    as (p & s & _ & Hp & Hp0 & Hr1 & Hrun & (He & Hh & _) & _).
  destruct (scheduler_fair 65536 4096 (fun _ _ s => Ret s) (fun _ _ _ _ s => s) [0; p] s p Hr1 ltac:(set_solver) Hrun Hh)
    as (k & s1 & s2 & Hk & _ & E2 & _ & (s1' & _ & _ & Hcur)).
  exists s, p, k, s2. exact (conj He (conj Hk (conj E2 Hcur))).
Defined.

Lemma demo_counter_life_witness : exists (s : pstate pmm) p s1 s2 s3,
  process_spawn_demo_counter 65536 7 0 3 s = Ret (p, s1) /\
  scheduler_force_ticks (fun _ _ s => Ret s) (fun _ _ _ _ s => s) 8 s1 = Ret s2 /\
  process_wait 0 (pid (proc s1 p)) s2 = Ret (1, 3, s3).
Proof.
  destruct demo_ready as (s & Hr & Hcan).
  destruct (demo_counter_life 65536 4096 (fun _ _ s => Ret s) (fun _ _ _ _ s => s) [0] s 7 0 3 8 Hr Hcan)
    as (p & s1 & s2 & s3 & E1 & E2 & E3 & _); [lia|lia|vm_compute; discriminate|].
  exists s, p, s1, s2, s3. exact (conj E1 (conj E2 E3)).
Defined.
