(* ===== verification/System.v ===== *)
(** * The processes of the system over time: kernel/src/process.c

    The kernel's own calls between two ticks and the ticks themselves, as a step
    relation; every state reached from [process_init] keeps the invariants of the
    table, of the address spaces and of the bodies, so that no call can fail in
    an unforeseen way and no process reaches the memory of another. *)

From S2P Require Import Prelude Interfaces Memory Pmm Ring Chain Paging Process ProcessSpace ProcessTable ProcessSignals ProcessLife Scheduler Fairness.

Section system.
Context {S : Type} `{FA : FrameAllocator S}.
Context (page_directories kd : Z).
Context (user_run : Z -> Z -> pstate S -> outcome (pstate S)).
Context (user_handler : Z -> Z -> Z -> Z -> pstate S -> pstate S).
Implicit Types (s : pstate S) (l : list Z).

#[local] Abbreviation idle := (idle page_directories kd).
#[local] Abbreviation spaces_ok := (spaces_ok page_directories kd).
#[local] Abbreviation pdir := (page_directory_of page_directories).

(** ** Calls that update one record *)

Lemma idle_upd l s p f : idle l s -> table_ok l (upd p f s) -> (forall x, memory (f x) = memory x) ->
  (forall x, body_ok x -> body_ok (f x)) -> idle l (upd p f s).
Proof.
  intros ([Hok Hs Hb] & Hc & He) Hok' Hm Hf. split; [|done]. split; [done|by apply spaces_ok_upd|].
  intros q Hq. destruct (decide (0 <= p < lenZ (table s))); [|rewrite upd_out by done; by apply Hb].
  rewrite proc_upd by done. destruct (Z.eqb_spec q p) as [->|]; [by apply Hf, Hb|by apply Hb].
Qed.

Lemma signal_idle l s t sig v : idle l s -> t ∈ l -> idle l (queue_process_signal t sig v s).2.
Proof.
  intros Hi Ht. destruct (queue_signal_spec l s t sig v (idle_table _ _ _ _ Hi) Ht) as (s' & -> & H).
  destruct (Nat.eqb_spec (length (pending (proc s t))) 15) as [|Hne]; [done|].
  destruct (H Hne) as (q & -> & Hok & _). by apply idle_upd.
Qed.

Lemma send_signal_idle l s sender id sig v : idle l s ->
  exists r s', send_signal_to_process sender id sig v s = Ret (r, s') /\ idle l s'.
Proof.
  intros Hi. unfold send_signal_to_process.
  destruct (get_by_pid_cases l s id (idle_table _ _ _ _ Hi)) as [[-> _]|(t & Ht & -> & _)]; cbn [mbind outcome_bind].
  - by exists (-1), s.
  - destruct (negb _); [by exists (-1), s|]. pose proof (signal_idle l s t sig v Hi Ht) as H.
    destruct (queue_process_signal t sig v s) as [r s']. by exists r, s'.
Qed.

Lemma socket_send_idle l s sender id v : idle l s ->
  exists r s', socket_send sender id v s = Ret (r, s') /\ idle l s'.
Proof.
  intros Hi. pose proof (idle_table _ _ _ _ Hi) as Hok. unfold socket_send.
  destruct (get_by_pid_cases l s id Hok) as [[-> _]|(t & Ht & -> & _)]; cbn [mbind outcome_bind]; [by exists (-1), s|].
  destruct (t =? NULLP); [by exists (-1), s|].
  destruct (ring_push _ _ _) as [q|] eqn:E; [|by exists (-1), s].
  destruct (ring_push_ok 0 _ socket_cap _ _ _ (proj2 (queues_ok_in l s t (proj1 Hok) Ht)) E) as [Hq' _].
  assert (idle l (upd t (set_socket q) s)) as Hi1 by (apply idle_upd; [done|by apply table_ok_set_socket|done|done]).
  pose proof (signal_idle l _ t PROCESS_SIGNAL_SOCKET v Hi1 Ht) as H.
  destruct (queue_process_signal t PROCESS_SIGNAL_SOCKET v _) as [r s']. by exists r, s'.
Qed.

Lemma exit_idle l s p code : idle l s -> p ∈ l -> idle l (process_exit p code s).
Proof.
  intros ([Hok Hs Hb] & Hc & He) Hp. destruct (process_exit_globals s p code) as (_ & Gc & _ & _ & _ & _ & _ & Ge & _).
  split; [|split; congruence]. split; [by apply table_ok_exit|by apply spaces_ok_exit|].
  intros q Hq. destruct (decide (p = 0)) as [->|Hp0].
  - unfold process_exit. rewrite (lk_kernel _ _ (proj1 Hok)), Z.eqb_refl, orb_true_r. by apply Hb.
  - pose proof (acts_exit page_directories kd l p s code Hok Hp Hp0) as A. destruct (decide (q = p)) as [->|Hne].
    + eapply body_ok_kept; [by apply Hb|apply A|]. pose proof (process_exit_frame s p code p) as E.
      unfold exit_frame in E. by rewrite E.
    + eapply body_ok_disturbed; [by apply Hb|]. by apply (ac_others _ _ _ _ _ _ A).
Qed.

Lemma wait_idle l s id : idle l s -> exists r code s' l', process_wait 0 id s = Ret (r, code, s') /\ idle l' s'.
Proof.
  intros Hi. pose proof (idle_table _ _ _ _ Hi) as Hok. pose proof Hok as [H _].
  destruct (get_by_pid_cases l s id Hok) as [[E _]|(c & Hc & E & Hpid)].
  - exists (-1), 0, s, l. split; [|done]. unfold process_wait. rewrite E. done.
  - destruct (decide (status (proc s c) = ZOMBIE /\ c <> 0)) as [[Hz Hc0]|Hnz].
    + destruct (reap_sys page_directories kd l s c Hi Hc Hc0 Hz) as (s' & E' & Hi' & _). rewrite Hpid in E'.
      by exists 1, (exit_code (proc s c)), s', (without c l).
    + unfold process_wait. rewrite E. cbn [mbind outcome_bind].
      rewrite (eqb_sym_neg c NULLP) by exact (links_not_null _ _ _ H Hc). rewrite (lk_kernel _ _ H), Z.eqb_refl.
      cbn [orb negb andb]. change (0 =? NULLP) with false. cbn [negb].
      destruct (status_is (status (proc s c)) ZOMBIE) eqn:Ez; cbn [negb].
      * apply bool_decide_eq_true in Ez. assert (c = 0) as -> by (destruct (decide (c = 0)); [done|tauto]).
        unfold status_is. rewrite Ez. rewrite (bool_decide_eq_false_2 (ZOMBIE = WAITING)) by done. cbn [andb].
        unfold process_release. rewrite (lk_kernel _ _ H). cbn [orb Z.eqb]. cbn [mbind outcome_bind].
        by exists 1, (exit_code (proc s 0)), s, l.
      * change (kernel_process (upd 0 _ s)) with (kernel_process s). rewrite (lk_kernel _ _ H), Z.eqb_refl. cbn [negb].
        eexists 0, 0, _, l. split; [done|]. apply idle_upd; [done| |done|done].
        by apply table_ok_quiet, quiet_wait.
Qed.

Lemma memory_alloc_idle l s p size : idle l s -> idle l (process_memory_alloc p size s).2.
Proof.
  intros Hi. unfold process_memory_alloc. destruct (_ || _); [done|]. destruct (_ <? _); [done|].
  pose proof Hi as ([Hok Hs Hb] & Hc & He). cbn [snd]. split; [|done]. split.
  - apply (table_ok_quiet l s p _ Hok (quiet_memory (fun q => set_heap_break _ (memory q)))).
  - by apply spaces_ok_heap_break.
  - intros q Hq. destruct (decide (0 <= p < lenZ (table s))); [|rewrite upd_out by done; by apply Hb].
    rewrite proc_upd by done. destruct (Z.eqb_spec q p) as [->|]; [exact (Hb p Hq)|by apply Hb].
Qed.

Lemma create_idle l s own e size : idle l s -> can_spawn kd l s -> demo_entry e ->
  exists p s', process_create_owned page_directories own e size s = Ret (p, s') /\ idle (l ++ [p]) s'.
Proof.
  intros (Hsys & Hc & He) Hcan Hde.
  destruct (create_sys page_directories kd l s own e size Hsys Hcan Hde) as (p & s' & E & _ & _ & Hsys' & C).
  destruct (ci_globals _ _ _ _ _ _ _ _ _ _ _ C) as (_ & Gc & _ & _ & Ge & _).
  exists p, s'. split; [exact E|]. split; [done|]. split; congruence.
Qed.

Lemma spawn_idle l s own seed limit : idle l s -> can_spawn kd l s ->
  exists p s', process_spawn_demo_counter page_directories own seed limit s = Ret (p, s') /\ idle (l ++ [p]) s'.
Proof.
  intros Hi Hcan. destruct (create_idle l s own DemoCounter PAGE_SIZE Hi Hcan) as (p & s1 & E & Hi1); [done|].
  unfold process_spawn_demo_counter. rewrite E. clear E. cbn [mbind outcome_bind].
  assert (p ∈ l ++ [p]) as Hin by set_solver.
  rewrite (eqb_sym_neg p NULLP) by exact (links_not_null _ _ _ (proj1 (idle_table _ _ _ _ Hi1)) Hin).
  eexists _, _. split; [done|]. apply idle_upd; [done| |done|done].
  apply table_ok_quiet, quiet_args. exact (idle_table _ _ _ _ Hi1).
Qed.

Lemma tick_idle l s : idle l s -> idle l (scheduler_tick s).
Proof.
  intros ([Hok Hs Hb] & Hc & He). split; [|done]. split; [|by apply (spaces_ok_same _ _ l s)|exact Hb].
  eapply table_ok_ext; [exact Hok|..]; try done; apply (proj1 Hok).
Qed.

Lemma run_pending_idle l n : forall d s, idle l s ->
  exists r s', run_pending_loop user_run user_handler n d s = Ret (r, s') /\ idle l s'.
Proof.
  induction n as [|n IH]; intros d s Hi; cbn [run_pending_loop]; [by exists d, s|].
  destruct (_ <? _); [|by exists d, s]. set (s0 := set_pending _ s). assert (idle l s0) as Hi0.
  { destruct Hi as ([Hok Hs Hb] & Hc & He). split; [|done]. split; [|by apply (spaces_ok_same _ _ l s)|exact Hb].
    eapply table_ok_ext; [exact Hok|..]; try done; apply (proj1 Hok). }
  destruct (tick_body_spec page_directories kd user_run user_handler l s0 Hi0) as (p & s1 & E & T).
  unfold tick_body in E.
  destruct (process_deliver_all_pending_signals _ s0) as [s0'| |]; cbn [mbind outcome_bind] in *; [|done|done].
  rewrite E. cbn [mbind outcome_bind]. apply IH, T.
Qed.

(** ** Steps *)

(** What is left of slots, pids and memory lets a process be created. *)
Definition resources s : Prop :=
  (exists n, process_count s = Ret n /\ n < PROCESS_MAX_COUNT) /\ next_pid s + 1 < 4294967296 /\
  present_at (pmem (mach s)) kd 8 = false /\
  exists p0 t p1 p2 p3 a', five_frames (frames (mach s)) p0 t p1 p2 p3 a'.

(** What the kernel does between two ticks, and the ticks. *)
Inductive sys_step : pstate S -> pstate S -> Prop :=
| step_create s own e size p s' : demo_entry e -> resources s ->
    process_create_owned page_directories own e size s = Ret (p, s') -> sys_step s s'
| step_spawn s own seed limit p s' : resources s ->
    process_spawn_demo_counter page_directories own seed limit s = Ret (p, s') -> sys_step s s'
| step_signal s sender id sig v r s' :
    send_signal_to_process sender id sig v s = Ret (r, s') -> sys_step s s'
| step_send s sender id v r s' : socket_send sender id v s = Ret (r, s') -> sys_step s s'
| step_exit s id p code : process_get_by_pid id s = Ret p -> sys_step s (process_exit p code s)
| step_wait s id r code s' : process_wait 0 id s = Ret (r, code, s') -> sys_step s s'
| step_alloc s p size : sys_step s (process_memory_alloc p size s).2
| step_tick s : sys_step s (scheduler_tick s)
| step_run s n r s' : scheduler_run_pending user_run user_handler n s = Ret (r, s') -> sys_step s s'.

Inductive sys_reaches (s0 : pstate S) : pstate S -> Prop :=
| reaches_here : sys_reaches s0 s0
| reaches_step s s' : sys_reaches s0 s -> sys_step s s' -> sys_reaches s0 s'.

Lemma resources_spawn l s : table_ok l s -> resources s -> can_spawn kd l s.
Proof.
  intros Hok ((n & E & Hn) & Hpid & Habs & Hf). rewrite (process_count_eq l s Hok) in E. injection E as <-.
  split; [unfold lenZ, PROCESS_MAX_COUNT in *; lia|]. done.
Qed.

Lemma sys_step_idle l s s' : idle l s -> sys_step s s' -> exists l', idle l' s'.
Proof.
  intros Hi Hstep. pose proof (idle_table _ _ _ _ Hi) as Hok. destruct Hstep.
  - destruct (create_idle l s own e size Hi (resources_spawn l s Hok H0) H) as (p' & s'' & E & Hi').
    rewrite E in H1. injection H1 as <- <-. eauto.
  - destruct (spawn_idle l s own seed limit Hi (resources_spawn l s Hok H)) as (p' & s'' & E & Hi').
    rewrite E in H0. injection H0 as <- <-. eauto.
  - destruct (send_signal_idle l s sender id sig v Hi) as (r' & s'' & E & Hi'). rewrite E in H. injection H as <- <-. eauto.
  - destruct (socket_send_idle l s sender id v Hi) as (r' & s'' & E & Hi'). rewrite E in H. injection H as <- <-. eauto.
  - destruct (get_by_pid_cases l s id Hok) as [[E _]|(q & Hq & E & _)]; rewrite E in H; injection H as <-.
    + exists l. done.
    + exists l. by apply exit_idle.
  - destruct (wait_idle l s id Hi) as (r' & c' & s'' & l' & E & Hi'). rewrite E in H. injection H as <- <- <-. eauto.
  - exists l. by apply memory_alloc_idle.
  - exists l. by apply tick_idle.
  - destruct (run_pending_idle l (Z.to_nat n) 0 s Hi) as (r' & s'' & E & Hi').
    unfold scheduler_run_pending in H. rewrite E in H. injection H as <- <-. eauto.
Qed.

(** In the part of its space that is its own, a process reaches its own pages only. *)
Lemma space_of_own ds m (a : S) pm v x : space_of ds m a pm -> is_u32 v ->
  PAGE_DIR_INDEX v = PAGE_DIR_INDEX (virtual_base pm) -> walk m (process_page_directory pm) v = Some x ->
  x / 4096 * 4096 ∈ pages_of pm.
Proof.
  intros H Hv Hi Hw. pose proof (so_region _ _ _ _ H) as Hb. destruct Hb as (Hbu & Hba & Hbl & Hbj).
  pose proof (index_ranges v Hv) as [_ Hj].
  destruct (decide (PAGE_TABLE_INDEX (virtual_base pm) <= PAGE_TABLE_INDEX v < PAGE_TABLE_INDEX (virtual_base pm) + 4))
    as [Hin|Hout].
  - set (k := Z.to_nat (PAGE_TABLE_INDEX v - PAGE_TABLE_INDEX (virtual_base pm))).
    destruct (lookup_lt_is_Some_2 (pages_of pm) k) as [page Hk]; [simpl; lia|].
    rewrite !PAGE_DIR_INDEX_eq in Hi by done. rewrite !PAGE_TABLE_INDEX_eq in Hin.
    assert (Z.of_nat k = v / 4096 mod 1024 - virtual_base pm / 4096 mod 1024) as Ek
      by (unfold k; rewrite !PAGE_TABLE_INDEX_eq; lia).
    assert (v = virtual_base pm + 4096 * Z.of_nat k + v mod 4096) as Ev by (rewrite Ek; divlia).
    destruct (space_of_walk _ _ _ pm k page H Hk (v mod 4096)) as [E _]; [divlia|].
    rewrite <- Ev, Hw in E. injection E as ->.
    assert (page ∈ pages_of pm) as Hp by by eapply list_elem_of_lookup_2.
    destruct (so_frames _ _ _ _ H page) as (Hpa & _); [by apply list_elem_of_further|].
    assert ((page + v mod 4096) / 4096 * 4096 = page) as -> by divlia. done.
  - exfalso. unfold walk in Hw.
    rewrite pte_ent, Hi in Hw. fold (table_at m (process_page_directory pm) (PAGE_DIR_INDEX (virtual_base pm))) in Hw.
    rewrite (so_table _ _ _ _ H), (so_rest _ _ _ _ H) in Hw by lia. rewrite andb_false_r in Hw. done.
Qed.

(** C2. Every state of the system reached from [process_init], by creating demo
    processes while slots, pids and memory last, by signalling, sending, exiting,
    waiting, growing heaps and by ticks, is well formed: the table is intact with
    distinct pids and at most 16 processes, the kernel runs in its own directory,
    the next call of the scheduler returns, and what a process can reach through
    its own part of the address space is its own four pages, which no other
    process has. *)
Theorem system_reachable_safe s0 s1 s :
  bootable page_directories kd s0 -> process_init page_directories s0 = Ret s1 -> sys_reaches s1 s ->
  exists l, idle l s /\ process_count s = Ret (lenZ l) /\ 1 <= lenZ l <= 16 /\
    (forall q r, q ∈ l -> r ∈ l -> pid (proc s q) = pid (proc s r) -> q = r) /\ cr3 (mach s) = kd /\
    (forall n, exists r s', scheduler_run_pending user_run user_handler n s = Ret (r, s')) /\
    (forall q v a, q ∈ l -> q <> 0 -> is_u32 v ->
       PAGE_DIR_INDEX v = PAGE_DIR_INDEX (virtual_base (memory (proc s q))) ->
       walk (pmem (mach s)) (pdir q) v = Some a ->
       a / 4096 * 4096 ∈ pages_of (memory (proc s q)) /\
       forall r, r ∈ l -> r <> 0 -> r <> q -> a / 4096 * 4096 ∉ frames_of (memory (proc s r))).
Proof.
  intros Hboot Einit Hreach.
  assert (exists l, idle l s) as [l Hi].
  { induction Hreach as [|s s' _ [l Hi] Hstep]; [|by eapply sys_step_idle].
    destruct (process_init_spec page_directories kd s0 Hboot)
      as (s1' & E & Hok & Hs & Hc & _ & _ & _ & _ & He & _ & _ & Hh). rewrite E in Einit. injection Einit as <-. clear E.
    exists [0]. split; [|done]. split; [done|done|]. intros q ->%list_elem_of_singleton. split; [by rewrite Hh|].
    by rewrite (proj1 (lk_root_entry _ _ (proj1 Hok))). }
  clear Einit Hreach. pose proof Hi as ([Hok Hs Hb] & _ & _). pose proof (links_length _ _ (proj1 Hok)) as Hlen.
  exists l. split; [done|]. split; [by apply process_count_eq|].
  split; [destruct (lk_root _ _ (proj1 Hok)) as [l' ->]; unfold lenZ; simpl in *; lia|].
  split; [apply (lk_pid_inj _ _ (proj1 Hok))|]. split; [apply (sp_cr3 _ _ _ _ Hs)|]. split.
  - intros n. destruct (run_pending_idle l (Z.to_nat n) 0 s Hi) as (r & s' & E & _). by exists r, s'.
  - intros q v a Hq Hq0 Hv Hvi Hw. destruct (sp_space _ _ _ _ Hs q Hq Hq0) as [Hd Hsp]. rewrite <- Hd in Hw.
    pose proof (space_of_own _ _ _ _ v a Hsp Hv Hvi Hw) as Hin. split; [done|].
    intros r Hr Hr0 Hrq. apply (sp_disjoint _ _ _ _ Hs q r); auto. by apply list_elem_of_further.
Qed.
End system.

(** The booted machine, after a tick. *)
Lemma system_reachable_safe_witness : exists s l,
  idle 65536 4096 l s /\ process_count s = Ret (lenZ l) /\ pending_scheduler_ticks s = 1.
Proof.
  destruct demo_bootable as (m & _ & Hb & Hf & Habs).
  destruct (process_init_spec 65536 4096 (unborn m) Hb) as (s1 & E & _ & _ & _ & _ & _ & _ & _ & _ & Hp & _).
  destruct (system_reachable_safe 65536 4096 (fun _ _ s => Ret s) (fun _ _ _ _ s => s) (unborn m) s1 (scheduler_tick s1) Hb E)
    as (l & Hi & Hn & _).
  - eapply reaches_step; [apply reaches_here|apply step_tick].
  - exists (scheduler_tick s1), l. split; [exact Hi|]. split; [exact Hn|]. cbn. by rewrite Hp.
Defined.
