(* ===== verification/Syscall.v ===== *)
(** * System calls: kernel/src/syscall.c, kernel/include/syscall.h

    The table of handlers, the seven calls of the source and the dispatcher.
    [effect] is the specification of a call: what it returns and does, by the
    number and the arguments; the dispatcher implements it on every argument. *)

From S2P Require Import Prelude Interfaces Memory Pmm Ring Chain Paging Process ProcessSpace ProcessTable ProcessSignals ProcessLife Fork.

Definition SYSCALL_MAX_HANDLERS : Z := 8.
Definition SYSCALL_GET_MAGIC : Z := 0.
Definition SYSCALL_FORK : Z := 1.
Definition SYSCALL_WAIT : Z := 2.
Definition SYSCALL_EXIT : Z := 3.
Definition SYSCALL_GETUID : Z := 4.
Definition SYSCALL_SIGNAL : Z := 5.
Definition SYSCALL_KILL : Z := 6.

(** The functions of the source, and those other code may register. *)
Inductive syscall_handler :=
| syscall_not_implemented
| syscall_get_magic
| sys_fork_handler
| sys_wait_handler
| sys_exit_handler
| sys_getuid_handler
| sys_signal_handler
| sys_kill_handler
| OtherSyscall (id : Z).

#[export] Instance syscall_handler_eq_dec : EqDecision syscall_handler.
Proof. solve_decision. Defined.

(** [syscall_init] without the registration of vector 0x80 (see Interrupts.v). *)
Definition syscall_init (table : list syscall_handler) : list syscall_handler :=
  let table := for_range 0 SYSCALL_MAX_HANDLERS (fun i table => setZ table i syscall_not_implemented) table in
  let table := setZ table SYSCALL_GET_MAGIC syscall_get_magic in
  let table := setZ table SYSCALL_FORK sys_fork_handler in
  let table := setZ table SYSCALL_WAIT sys_wait_handler in
  let table := setZ table SYSCALL_EXIT sys_exit_handler in
  let table := setZ table SYSCALL_GETUID sys_getuid_handler in
  let table := setZ table SYSCALL_SIGNAL sys_signal_handler in
  setZ table SYSCALL_KILL sys_kill_handler.

Definition syscall_register (number : Z) (handler : option syscall_handler) (table : list syscall_handler)
    : Z * list syscall_handler :=
  match handler with
  | Some h => if SYSCALL_MAX_HANDLERS <=? number then (-1, table) else (0, setZ table number h)
  | None => (-1, table)
  end.

Section syscalls.
Context {S : Type} `{FA : FrameAllocator S}.
Context (page_directories kd : Z).
(** What a handler registered by other code does with its four arguments. *)
Context (other : Z -> Z -> Z -> Z -> Z -> pstate S -> outcome (Z * pstate S)).
Implicit Types (s : pstate S) (l : list Z).

#[local] Abbreviation spaces_ok := (spaces_ok page_directories kd).
#[local] Abbreviation forked := (forked page_directories kd).

Definition FAILED : Z := 4294967295.

Definition sys_fork (pid_hint : Z) s : outcome (Z * pstate S) :=
  source ← (if negb (pid_hint =? 0) then process_get_by_pid pid_hint s else Ret (process_current s));
  '(child, s) ← fork_process page_directories source s;
  Ret (if negb (child =? NULLP) then pid (proc s child) else FAILED, s).

Definition sys_wait (id : Z) s : outcome (Z * pstate S) :=
  let parent := process_current s in
  let parent := if parent =? NULLP then process_root s else parent in
  '(result, exit_code, s) ← process_wait parent id s;
  Ret (if result <? 0 then FAILED else if result =? 0 then 0 else u32 exit_code, s).

Definition sys_exit (code : Z) s : Z * pstate S :=
  (code, process_exit (process_current s) (i32 code) s).

Definition sys_getuid s : Z := process_getuid (process_current s) s.

Definition sys_signal (id sig value : Z) s : outcome (Z * pstate S) :=
  '(r, s) ← send_signal_to_process (process_current s) id (i32 sig) value s;
  Ret (if r =? 0 then 0 else FAILED, s).

Definition sys_kill (id sig : Z) s : outcome (Z * pstate S) :=
  '(r, s) ← kill_process (process_current s) id (i32 sig) s;
  Ret (if r =? 0 then 0 else FAILED, s).

(** The call through the pointer. *)
Definition call_syscall (h : syscall_handler) (arg0 arg1 arg2 arg3 : Z) s : outcome (Z * pstate S) :=
  match h with
  | syscall_not_implemented => Ret (FAILED, s)
  | syscall_get_magic => Ret (1262900020, s)
  | sys_fork_handler => sys_fork arg0 s
  | sys_wait_handler => sys_wait arg0 s
  | sys_exit_handler => Ret (sys_exit arg0 s)
  | sys_getuid_handler => Ret (sys_getuid s, s)
  | sys_signal_handler => sys_signal arg0 arg1 arg2 s
  | sys_kill_handler => sys_kill arg0 arg1 s
  | OtherSyscall id => other id arg0 arg1 arg2 arg3 s
  end.

Definition syscall_dispatch (table : list syscall_handler) (number arg0 arg1 arg2 arg3 : Z) s
    : outcome (Z * pstate S) :=
  if SYSCALL_MAX_HANDLERS <=? number then Ret (FAILED, s)
  else call_syscall (getZ syscall_not_implemented table number) arg0 arg1 arg2 arg3 s.

(** ** The specification of the calls *)

(** The process a call acts on: the caller when the pid is 0, else the one with
    that pid. *)
Definition hinted l s (hint p : Z) : Prop :=
  (hint = 0 /\ p = current_process s) \/ (hint <> 0 /\ p ∈ l /\ pid (proc s p) = hint).

(** [effect l s n a0 a1 a2 r l' s']: call [n] with these arguments may return [r]
    and lead from [s], with the processes [l], to [s'], with [l']. *)
Inductive effect l s : Z -> Z -> Z -> Z -> Z -> list Z -> pstate S -> Prop :=
| no_such_call n a0 a1 a2 : 7 <= n -> effect l s n a0 a1 a2 FAILED l s
| magic a0 a1 a2 : effect l s 0 a0 a1 a2 1262900020 l s
| fork_refused hint a1 a2 :
    (forall p, hinted l s hint p -> p = 0 \/ entry (proc s p) = NoEntry) ->
    effect l s 1 hint a1 a2 FAILED l s
| fork_done hint a1 a2 p c s' :
    hinted l s hint p -> p <> 0 -> entry (proc s p) <> NoEntry -> c ∉ l -> forked l s p c s' ->
    effect l s 1 hint a1 a2 (pid (proc s' c)) (l ++ [c]) s'
| wait_refused id a1 a2 :
    (forall c, c ∈ l -> pid (proc s c) = id -> current_process s <> 0 /\ parent (proc s c) <> current_process s) ->
    effect l s 2 id a1 a2 FAILED l s
| wait_running c a1 a2 s' :
    c ∈ l -> status (proc s c) <> ZOMBIE -> wait_target_pid (proc s' (current_process s)) = pid (proc s c) ->
    (current_process s <> 0 -> status (proc s' (current_process s)) = WAITING) ->
    (forall q, q <> current_process s -> proc s' q = proc s q) ->
    effect l s 2 (pid (proc s c)) a1 a2 0 l s'
| wait_reaped c a1 a2 s' :
    c ∈ l -> c <> 0 -> status (proc s c) = ZOMBIE ->
    freed (frames (mach s)) (frames (mach s')) (pages_of (memory (proc s c)) ++ [process_page_table (memory (proc s c))]) ->
    (forall q, q <> c -> waited (proc s q) (proc s' q)) ->
    effect l s 2 (pid (proc s c)) a1 a2 (u32 (exit_code (proc s c))) (without c l) s'
| exit_kernel code a1 a2 : current_process s = 0 -> effect l s 3 code a1 a2 code l s
| exit_done code a1 a2 s' :
    current_process s <> 0 -> status (proc s' (current_process s)) = ZOMBIE ->
    (status (proc s (current_process s)) <> ZOMBIE -> exit_code (proc s' (current_process s)) = i32 code) ->
    (forall q, q <> current_process s -> woken (proc s q) (proc s' q)) ->
    effect l s 3 code a1 a2 code l s'
| uid a0 a1 a2 : effect l s 4 a0 a1 a2 (owner (proc s (current_process s))) l s
| signal_refused n id sig a2 : n = 5 \/ n = 6 ->
    (forall t, t ∈ l -> pid (proc s t) = id ->
       ~ (may_signal s (current_process s) t /\ (length (pending (proc s t)) < 15)%nat)) ->
    effect l s n id sig a2 FAILED l s
| signal_sent n t sig v s' : n = 5 \/ n = 6 -> t ∈ l -> may_signal s (current_process s) t ->
    signal_queued l t (i32 sig) (if n =? 5 then v else 0) s s' ->
    effect l s n (pid (proc s t)) sig v 0 l s'.

(** ** Each call implements it *)

(** What the calls are made from: a process of the table runs, and the kernel's
    own is not a zombie. *)
Definition calling l s : Prop :=
  table_ok l s /\ spaces_ok l s /\ current_process s ∈ l /\ status (proc s 0) <> ZOMBIE.

Definition implemented l s (n a0 a1 a2 : Z) (x : outcome (Z * pstate S)) : Prop :=
  exists r s' l', x = Ret (r, s') /\ effect l s n a0 a1 a2 r l' s' /\ table_ok l' s' /\ spaces_ok l' s'.

Lemma implemented_same l s n a0 a1 a2 r : calling l s -> effect l s n a0 a1 a2 r l s ->
  implemented l s n a0 a1 a2 (Ret (r, s)).
Proof. intros (? & ? & _) ?. by exists r, s, l. Qed.

Lemma fork_null s source : source = NULLP \/ source = kernel_process s \/ entry (proc s source) = NoEntry ->
  fork_process page_directories source s = Ret (NULLP, s).
Proof.
  intros H. unfold fork_process. destruct H as [->|[->|H]]; [done|by rewrite Z.eqb_refl, orb_true_r|].
  by rewrite (bool_decide_eq_true_2 _ H), orb_true_r.
Qed.

Lemma sys_fork_ok l s hint a1 a2 : calling l s -> can_spawn kd l s -> implemented l s 1 hint a1 a2 (sys_fork hint s).
Proof.
  intros Hcall Hcan. pose proof Hcall as (Hok & Hs & Hcur & _). unfold sys_fork.
  assert (exists p, (if negb (hint =? 0) then process_get_by_pid hint s else Ret (process_current s)) = Ret p /\
    (forall q, hinted l s hint q -> q = p) /\ (p <> NULLP -> hinted l s hint p /\ p ∈ l)) as (p & -> & Hu & Hp).
  { destruct (Z.eqb_spec hint 0) as [->|Hh]; cbn [negb].
    - exists (current_process s). split; [done|]. split; [by intros q [[_ ->]|[? _]]|]. intros _. split; [by left|done].
    - destruct (get_by_pid_cases l s hint Hok) as [[-> Habs]|(p & Hp & -> & E)].
      + exists NULLP. split; [done|]. split; [|done]. intros q [[? _]|(_ & Hq & E)]; [done|]. by destruct (Habs q Hq).
      + exists p. split; [done|]. split; [|intros _; split; [by right|done]].
        intros q [[? _]|(_ & Hq & E')]; [done|]. apply (lk_pid_inj _ _ (proj1 Hok)); congruence. }
  cbn [mbind outcome_bind].
  destruct (decide (p = NULLP \/ p = 0 \/ entry (proc s p) = NoEntry)) as [Hno|Hyes].
  - rewrite fork_null by (rewrite (lk_kernel _ _ (proj1 Hok)); done). cbn [mbind outcome_bind].
    apply implemented_same; [done|]. apply fork_refused. intros q Hq. pose proof (Hu q Hq) as ->.
    destruct Hno as [->|?]; [|done]. exfalso. destruct Hq as [[_ E]|(_ & E & _)].
    + rewrite <- E in Hcur. by destruct (links_not_null _ _ _ (proj1 Hok) Hcur).
    + by destruct (links_not_null _ _ _ (proj1 Hok) E).
  - assert (p <> NULLP /\ p <> 0 /\ entry (proc s p) <> NoEntry) as (Hpn & Hp0 & Hpe) by tauto.
    destruct (Hp Hpn) as [Hhint Hpin].
    destruct (fork_spec page_directories kd l s p Hok Hs Hcan Hpin Hp0 Hpe) as (c & s' & -> & Hc & Hcn & F).
    cbn [mbind outcome_bind]. rewrite eqb_sym_neg by done. cbn [negb].
    exists (pid (proc s' c)), s', (l ++ [c]). split; [done|]. split; [by eapply fork_done|]. split; apply F.
Qed.

Lemma sys_wait_ok l s id a1 a2 : calling l s -> implemented l s 2 id a1 a2 (sys_wait id s).
Proof.
  intros Hcall. pose proof Hcall as (Hok & Hs & Hcur & Hroot). pose proof Hok as [H _]. unfold sys_wait, process_current.
  rewrite (eqb_sym_neg _ NULLP) by exact (links_not_null _ _ _ H Hcur). set (p := current_process s) in *.
  destruct (get_by_pid_cases l s id Hok) as [[_ Habs]|(c & Hc & _ & <-)].
  { rewrite (wait_absent l) by done. cbn [mbind outcome_bind]. apply implemented_same; [done|].
    apply wait_refused. intros c Hc E. by destruct (Habs c Hc). }
  destruct (decide (p <> 0 /\ parent (proc s c) <> p)) as [Hstr|Hstr].
  { rewrite (wait_stranger l) by done. cbn [mbind outcome_bind]. apply implemented_same; [done|].
    apply wait_refused. intros c' Hc' E. by rewrite (lk_pid_inj _ _ H c' c Hc' Hc E). }
  assert (p = 0 \/ parent (proc s c) = p) as Hchild.
  { destruct (decide (p = 0)); [by left|]. destruct (decide (parent (proc s c) = p)); [by right|].
    exfalso. by apply Hstr. }
  destruct (decide (status (proc s c) = ZOMBIE)) as [Hz|Hz].
  - assert (c <> 0) as Hc0 by (intros ->; done).
    assert (p <> c) as Hpc.
    { intros E. destruct Hchild as [->|Hchild]; [congruence|]. rewrite E in Hchild.
      destruct (lk_parent _ _ H c Hc) as [E'|[_ E']]; [|congruence].
      apply (links_not_null _ _ _ H Hc). congruence. }
    destruct (wait_zombie page_directories kd l s p c Hok Hs Hcur Hc Hchild Hz Hc0 Hpc)
      as (s' & -> & Hok' & Hs' & Hf & Hw & _).
    cbn [mbind outcome_bind]. exists (u32 (exit_code (proc s c))), s', (without c l). split; [done|].
    split; [by apply wait_reaped|done].
  - destruct (wait_live page_directories kd l s p c Hok Hs Hcur Hc Hchild Hz) as (s' & -> & Hok' & Hs' & Ht & Hw & Ho).
    cbn [mbind outcome_bind]. exists 0, s', l. split; [done|]. split; [by apply wait_running|done].
Qed.

Lemma sys_exit_ok l s code a1 a2 : calling l s -> implemented l s 3 code a1 a2 (Ret (sys_exit code s)).
Proof.
  intros Hcall. pose proof Hcall as (Hok & Hs & Hcur & _). unfold sys_exit, process_current.
  set (p := current_process s) in *. destruct (decide (p = 0)) as [E|Hp0].
  { unfold process_exit. rewrite E, (lk_kernel _ _ (proj1 Hok)), Z.eqb_refl, orb_true_r.
    apply implemented_same; [done|by apply exit_kernel]. }
  exists code, (process_exit p (i32 code) s), l. split; [done|].
  split; [|split; [by apply table_ok_exit|by apply spaces_ok_exit]].
  destruct (decide (status (proc s p) = ZOMBIE)) as [Hz|Hz].
  - apply exit_done; [done| |done|intros q Hq; by apply process_exit_other].
    unfold process_exit. destruct (_ || _); [done|]. unfold status_is. by rewrite bool_decide_true.
  - destruct (process_exit_self l s p (i32 code) Hok Hcur Hp0 Hz) as [E1 E2].
    apply exit_done; [done|exact E1|done|intros q Hq; by apply process_exit_other].
Qed.

Lemma send_signal_ok l s n id sig v : calling l s -> n = 5 \/ n = 6 ->
  implemented l s n id sig v ('(r, s) ← send_signal_to_process (process_current s) id (i32 sig)
    (if n =? 5 then v else 0) s; Ret (if r =? 0 then 0 else FAILED, s)).
Proof.
  intros Hcall Hn. pose proof Hcall as (Hok & Hs & Hcur & _). unfold process_current.
  destruct (send_signal_spec l s (current_process s) id (i32 sig) (if n =? 5 then v else 0) Hok) as [Habs Hsome].
  destruct (get_by_pid_cases l s id Hok) as [[_ Hno]|(t & Ht & _ & E)].
  { rewrite Habs by done. cbn [mbind outcome_bind]. apply implemented_same; [done|]. apply signal_refused; [done|].
    intros t Ht E. by destruct (Hno t Ht). }
  specialize (Hsome t Ht E). case_decide as Hd.
  - destruct Hsome as (s' & -> & Hq). cbn [mbind outcome_bind]. exists 0, s', l. split; [done|].
    split; [rewrite <- E; by apply signal_sent; [..|apply Hd|]|]. destruct Hq as (q & -> & Hok' & _). split; [done|by apply spaces_ok_upd].
  - rewrite Hsome. cbn [mbind outcome_bind]. apply implemented_same; [done|]. apply signal_refused; [done|].
    intros t' Ht' E'. by rewrite (lk_pid_inj _ _ (proj1 Hok) t' t Ht' Ht) by congruence.
Qed.

Lemma syscall_dispatch_ok l s table n a0 a1 a2 a3 :
  lenZ table = SYSCALL_MAX_HANDLERS -> calling l s -> 0 <= n -> (n = SYSCALL_FORK -> can_spawn kd l s) ->
  implemented l s n a0 a1 a2 (syscall_dispatch (syscall_init table) n a0 a1 a2 a3 s).
Proof.
  intros Hlen Hcall Hn Hfork. unfold syscall_dispatch. destruct (Z.leb_spec SYSCALL_MAX_HANDLERS n) as [H8|H8].
  { apply implemented_same; [done|]. apply no_such_call. unfold SYSCALL_MAX_HANDLERS in H8. lia. }
  assert (syscall_init table = [syscall_get_magic; sys_fork_handler; sys_wait_handler; sys_exit_handler;
    sys_getuid_handler; sys_signal_handler; sys_kill_handler; syscall_not_implemented]) as ->.
  { destruct table as [|h0 [|h1 [|h2 [|h3 [|h4 [|h5 [|h6 [|h7 [|]]]]]]]]]; try done.
    exfalso. unfold lenZ, SYSCALL_MAX_HANDLERS in Hlen. cbn [length] in Hlen. lia. }
  assert (n = 0 \/ n = 1 \/ n = 2 \/ n = 3 \/ n = 4 \/ n = 5 \/ n = 6 \/ n = 7) as Hcases
    by (unfold SYSCALL_MAX_HANDLERS in H8; lia).
  destruct Hcases as [->|[->|[->|[->|[->|[->|[->| ->]]]]]]];
    match goal with |- context [getZ ?d ?l ?k] => let h := eval vm_compute in (getZ d l k) in change (getZ d l k) with h end;
    cbn [call_syscall].
  + apply implemented_same; [done|apply magic].
  + apply sys_fork_ok; [done|by apply Hfork].
  + by apply sys_wait_ok.
  + by apply sys_exit_ok.
  + unfold sys_getuid, process_getuid, process_current.
    destruct Hcall as (Hok & ? & Hcur & ?). rewrite (eqb_sym_neg _ NULLP) by exact (links_not_null _ _ _ (proj1 Hok) Hcur).
    apply implemented_same; [done|apply uid].
  + apply (send_signal_ok l s 5); [done|by left].
  + apply (send_signal_ok l s 6); [done|by right].
  + apply implemented_same; [done|]. apply no_such_call. lia.
Qed.

(** ** Properties *)

(** C17. After [syscall_init], whatever the table held, every call behaves as
    [effect] says and keeps the invariants of the processes: numbers from 7 on
    are refused, and fork (which needs room for a process), wait, exit, getuid,
    signal and kill act for the current process; [syscall_register] refuses a
    number out of range or a null handler, and otherwise changes the call of
    that number only. *)
Theorem syscall_dispatch_correct l s table n a0 a1 a2 a3 :
  lenZ table = SYSCALL_MAX_HANDLERS -> calling l s -> 0 <= n -> (n = SYSCALL_FORK -> can_spawn kd l s) ->
  implemented l s n a0 a1 a2 (syscall_dispatch (syscall_init table) n a0 a1 a2 a3 s) /\
  forall k h,
    syscall_register k None table = (-1, table) /\
    (8 <= k -> syscall_register k (Some h) table = (-1, table)) /\
    (0 <= k < 8 -> exists table', syscall_register k (Some h) table = (0, table') /\ lenZ table' = 8 /\
       syscall_dispatch table' k a0 a1 a2 a3 s = call_syscall h a0 a1 a2 a3 s /\
       (0 <= n -> n <> k -> syscall_dispatch table' n a0 a1 a2 a3 s = syscall_dispatch table n a0 a1 a2 a3 s)).
Proof.
  intros Hlen Hcall Hn Hfork. split; [by apply syscall_dispatch_ok|].
  intros k h. split; [done|]. split; [intros Hk; unfold syscall_register, SYSCALL_MAX_HANDLERS; zbool; [done|lia]|].
    intros Hk. exists (setZ table k h). unfold syscall_register, syscall_dispatch.
    destruct (Z.leb_spec SYSCALL_MAX_HANDLERS k) as [H8|H8]; [unfold SYSCALL_MAX_HANDLERS in H8; lia|].
    split; [done|]. rewrite lenZ_setZ. split; [done|]. rewrite getZ_setZ_eq by (rewrite Hlen; done). split; [done|].
    intros _ Hne. rewrite getZ_setZ_ne by congruence. done.
Qed.
End syscalls.

(** A demo counter makes the calls. *)
Lemma syscall_dispatch_correct_witness : exists (s : pstate pmm) p,
  calling 65536 4096 [0; p] s /\
  implemented 65536 4096 [0; p] s 1 (pid (proc s p)) 0 0
    (syscall_dispatch 65536 (fun _ _ _ _ _ s => Ret (0, s)) (syscall_init (replicate 8 syscall_not_implemented))
       1 (pid (proc s p)) 0 0 0 s).
Proof.
  destruct demo_spawned as (s & p & Hok & Hs & Hcan & Hp & He & Hc & Hst).
  assert (calling 65536 4096 [0; p] s) as Hcall.
  { split; [exact Hok|]. split; [exact Hs|]. rewrite Hc, Hst. split; [set_solver|discriminate]. }
  exists s, p. split; [exact Hcall|].
  apply (syscall_dispatch_correct 65536 4096 (fun _ _ _ _ _ s => Ret (0, s)) [0; p] s
    (replicate 8 syscall_not_implemented) 1 (pid (proc s p)) 0 0 0 eq_refl Hcall ltac:(lia)).
  intros _. exact Hcan.
Defined.
