(* ===== verification/Timer.v ===== *)
(** * The timer: kernel/src/timer.c

    The interval timer is programmed with the divisor of its base frequency; each
    of its interrupts counts a tick and asks the scheduler for one. *)

From S2P Require Import Prelude Interfaces Process Serial Idt.

Definition PIT_CHANNEL0_PORT : Z := 64.
Definition PIT_COMMAND_PORT : Z := 67.
Definition PIT_BASE_FREQUENCY : Z := 1193182.

Record timer := PitState {
  pit_ticks : Z;
  pit_frequency : Z;
}.

(** What the interrupt does to the timer and to the scheduler; the registers are
    not used. *)
Definition timer_tick {S} `{FA : FrameAllocator S} (tm : timer) (s : pstate S) : timer * pstate S :=
  (PitState (u32 (pit_ticks tm + 1)) (pit_frequency tm), scheduler_tick s).

Definition timer_divisor (frequency : Z) : Z :=
  let divisor := PIT_BASE_FREQUENCY / frequency in
  if divisor =? 0 then 1 else divisor.

Definition timer_init (device : trace -> Z -> Z) (frequency : Z) (tm : timer) (i : idt) (t : trace)
    : timer * idt * trace :=
  let frequency := if frequency =? 0 then 100 else frequency in
  let divisor := timer_divisor frequency in
  let tm := PitState (pit_ticks tm) frequency in
  let i := idt_register_handler IRQ0_VECTOR (Some timer_interrupt) i in
  let t := outb PIT_COMMAND_PORT 54 t in
  let t := outb PIT_CHANNEL0_PORT (u8 (Z.land divisor 255)) t in
  let t := outb PIT_CHANNEL0_PORT (u8 (Z.land (Z.shiftr divisor 8) 255)) t in
  (tm, i, pic_clear_mask device 2 (pic_clear_mask device 0 t)).

Definition timer_get_ticks (tm : timer) : Z := pit_ticks tm.
Definition timer_get_frequency (tm : timer) : Z := pit_frequency tm.

(** The period programmed by the low byte, then the high byte, a zero counting
    for 65536. *)
Definition pit_period (low high : Z) : Z :=
  let n := low + 256 * high in if n =? 0 then 65536 else n.

(** [timer_init] programs the rate asked for (100 Hz for 0): it writes the
    divisor of the base frequency in the two bytes of channel 0, registers the
    tick, and unmasks the timer and the cascade.  The divisor fits for every
    frequency from 19 Hz on, and is at least 1; below 19 Hz its upper bits are
    lost and the timer runs at another rate than the one recorded. *)
Theorem timer_init_correct device frequency tm i t :
  is_u32 frequency -> lenZ (interrupt_handlers i) = IDT_ENTRY_COUNT ->
  let f := if frequency =? 0 then 100 else frequency in
  let '(tm', i', t') := timer_init device frequency tm i t in
  timer_get_frequency tm' = f /\ timer_get_ticks tm' = timer_get_ticks tm /\
  (forall v, getZ None (interrupt_handlers i') v = if v =? 32 then Some timer_interrupt else getZ None (interrupt_handlers i) v) /\
  exists low high rest, t' = t ++ outs [(67, 54); (64, low); (64, high)] ++ rest /\ is_u8 low /\ is_u8 high /\
    (19 <= f -> pit_period low high = Z.max 1 (1193182 / f) /\ pit_period low high < 65536) /\
    (f < 19 -> pit_period low high <> 1193182 / f).
Proof.
  intros Hf Hlen f. unfold timer_init. fold f. set (d := timer_divisor f).
  assert (1 <= f < 4294967296) as Hf1 by (unfold f; unfold_ints; destruct (Z.eqb_spec frequency 0); lia).
  assert (d = Z.max 1 (1193182 / f)) as Ed.
  { unfold d, timer_divisor, PIT_BASE_FREQUENCY.
    assert (0 <= 1193182 / f) by (apply Z.div_pos; lia). destruct (Z.eqb_spec (1193182 / f) 0); lia. }
  split; [done|]. split; [done|]. split.
  { intros v. unfold idt_register_handler, with_handlers. cbn [interrupt_handlers]. apply getZ_setZ. by rewrite Hlen. }
  change 255 with (2 ^ 8 - 1). rewrite !Gdt.land_ones, Gdt.shiftr_div by lia. change (2 ^ 8) with 256.
  rewrite !(u8_id (_ mod 256)) by (apply Z.mod_pos_bound; lia).
  destruct (pic_mask_correct device 0 (outb PIT_CHANNEL0_PORT ((d / 256) mod 256) (outb PIT_CHANNEL0_PORT (d mod 256)
    (outb PIT_COMMAND_PORT 54 t))) ltac:(lia)) as (? & c0 & _ & -> & _).
  set (t1 := outb _ _ (outb _ _ (outb _ _ t))).
  destruct (pic_mask_correct device 2 (t1 ++ [In (if 0 <? 8 then 33 else 161) (u8 (device t1 (if 0 <? 8 then 33 else 161)));
    Out (if 0 <? 8 then 33 else 161) c0]) ltac:(lia)) as (? & c2 & _ & -> & _).
  exists (d mod 256), (d / 256 mod 256). eexists. split.
  { unfold t1, outb. rewrite !u8_id by (done || apply Z.mod_pos_bound; lia). rewrite <- !app_assoc. cbn [app outs fmap list_fmap fst snd].
    reflexivity. }
  split; [apply Z.mod_pos_bound; lia|]. split; [apply Z.mod_pos_bound; lia|].
  unfold pit_period. split; intros H.
  - assert (1193182 / f <= 62800) by (apply Z.div_le_upper_bound; lia).
    rewrite <- Ed. destruct (Z.eqb_spec (d mod 256 + 256 * (d / 256 mod 256)) 0); divlia.
  - assert (66287 <= 1193182 / f) by (apply Z.div_le_lower_bound; lia). intros E.
    destruct (Z.eqb_spec (d mod 256 + 256 * (d / 256 mod 256)) 0); [lia|].
    pose proof (Z.mod_pos_bound d 256). pose proof (Z.mod_pos_bound (d / 256) 256). lia.
Qed.

(** The frequency of [kernel_main]. *)
Lemma timer_init_correct_witness :
  let '(tm', i', t') := timer_init (fun _ _ => 249) 50 (PitState 0 0) (Idt [] 0 0 (replicate 256 None)) [] in
  timer_get_frequency tm' = 50 /\ getZ None (interrupt_handlers i') 32 = Some timer_interrupt /\
  exists low high rest, t' = outs [(67, 54); (64, low); (64, high)] ++ rest /\ pit_period low high = 23863.
Proof.
  pose proof (timer_init_correct (fun _ _ => 249) 50 (PitState 0 0) (Idt [] 0 0 (replicate 256 None)) []) as H.
  destruct (timer_init _ _ _ _ _) as [[tm' i'] t']. destruct H as (H1 & _ & H2 & low & high & rest & E & _ & _ & H3 & _);
    [unfold is_u32; lia|reflexivity|].
  split; [exact H1|]. split; [exact (H2 32)|]. exists low, high, rest. split; [exact E|]. apply H3. cbn. lia.
Defined.
