(* ===== verification/Interrupts.v ===== *)
(** * The handlers of the source behind the dispatcher

    The state the interrupts act on (processes, keyboard, kernel signals, timer,
    table of system calls), the three handlers the source registers
    ([timer_interrupt] of timer.c, [keyboard_interrupt] of keyboard.c,
    [syscall_handler] of syscall.c), the registrations made while booting, and
    what each interrupt then does from its arrival to its end. *)

From S2P Require Import Prelude Interfaces Pmm Ring Signals Keyboard Process ProcessTable ProcessLife Serial Idt Syscall Timer.

Definition KEYBOARD_DATA_PORT : Z := 96.
Definition KEYBOARD_STATUS_PORT : Z := 100.

Record kernel (S : Type) := Kernel {
  procs : pstate S;
  keys : kbd;
  sigs : sig_state;
  clock : timer;
  syscall_table : list syscall_handler;
}.
Arguments Kernel {S} _ _ _ _ _.
Arguments procs {S} _.
Arguments keys {S} _.
Arguments sigs {S} _.
Arguments clock {S} _.
Arguments syscall_table {S} _.

Definition set_eax (v : Z) (r : cpu_registers) : cpu_registers :=
  Registers (gs r) (fs r) (es r) (ds r) (edi r) (esi r) (ebp r) (esp r) (ebx r) (edx r) (ecx r) v
    (int_no r) (err_code r) (eip r) (cs r) (Idt.eflags r).

Section interrupts.
Context {S : Type} `{FA : FrameAllocator S}.
Context (device : trace -> Z -> Z) (page_directories kd : Z).
Context (other_syscall : Z -> Z -> Z -> Z -> Z -> pstate S -> outcome (Z * pstate S)).
(** Handlers registered by other code. *)
Context (other_handler : Z -> cpu_registers -> trace -> kernel S -> outcome (cpu_registers * trace * kernel S)).
Implicit Types (k : kernel S) (r : cpu_registers) (t : trace).

(** [syscall_handler]: the number in [eax], the arguments in [ebx] [ecx] [edx]
    [esi], the result in [eax]. *)
Definition syscall_entry r k : outcome (cpu_registers * kernel S) :=
  '(v, s) ← syscall_dispatch page_directories other_syscall (syscall_table k) (eax r) (ebx r) (ecx r) (edx r) (esi r) (procs k);
  Ret (set_eax v r, Kernel s (keys k) (sigs k) (clock k) (syscall_table k)).

Definition keyboard_entry t k : trace * kernel S :=
  let '(scancode, t) := inb device KEYBOARD_DATA_PORT t in
  let '(kb, sg) := keyboard_handler scancode (keys k) (sigs k) in
  (t, Kernel (procs k) kb sg (clock k) (syscall_table k)).

Definition timer_entry k : kernel S :=
  let '(tm, s) := timer_tick (clock k) (procs k) in Kernel s (keys k) (sigs k) tm (syscall_table k).

Definition call_handler (h : interrupt_handler) r t k : outcome (cpu_registers * trace * kernel S) :=
  match h with
  | timer_interrupt => Ret (r, t, timer_entry k)
  | keyboard_interrupt => let '(t, k) := keyboard_entry t k in Ret (r, t, k)
  | syscall_interrupt => '(r, k) ← syscall_entry r k; Ret (r, t, k)
  | OtherHandler id => other_handler id r t k
  end.

Definition handle_interrupt (i : idt) r t k : outcome (cpu_registers * trace * kernel S) :=
  idt_handle_interrupt call_handler i r t k.

(** ** Registrations *)

(** [while (inb(KEYBOARD_STATUS_PORT) & 0x01) inb(KEYBOARD_DATA_PORT);] *)
Fixpoint drain_keyboard (fuel : nat) t : outcome trace :=
  match fuel with
  | O => OutOfFuel
  | Datatypes.S fuel =>
      let '(v, t) := inb device KEYBOARD_STATUS_PORT t in
      if Z.land v 1 =? 0 then Ret t else drain_keyboard fuel (inb device KEYBOARD_DATA_PORT t).2
  end.

Definition init_keyboard_irq (fuel : nat) (kb : kbd) (i : idt) t : outcome (kbd * idt * trace) :=
  let kb := Keyboard.init_keyboard kb in
  t ← drain_keyboard fuel t;
  let i := idt_register_handler IRQ1_VECTOR (Some keyboard_interrupt) i in
  Ret (kb, i, pic_clear_mask device 2 (pic_clear_mask device 1 t)).

Definition syscall_init_idt (table : list syscall_handler) (i : idt) : list syscall_handler * idt :=
  (syscall_init table, idt_register_handler SYSCALL_VECTOR (Some syscall_interrupt) i).

(** ** Waiting for a key *)

(** [keyboard_getchar]: [hlt] waits for the next interrupt, here the next of the
    scancodes that will arrive; [OutOfFuel] when none is left. *)
Fixpoint keyboard_getchar (scancodes : list Z) (kb : kbd) (sg : sig_state) : outcome (Z * list Z * kbd * sig_state) :=
  match keyboard_try_read_char kb sg with
  | (Some c, kb, sg) => Ret (c, scancodes, kb, sg)
  | (None, kb, sg) =>
      match scancodes with
      | [] => OutOfFuel
      | sc :: scancodes => let '(kb, sg) := keyboard_handler sc kb sg in keyboard_getchar scancodes kb sg
      end
  end.

(** ** Properties *)

(** The tables as the kernel leaves them before it enables interrupts. *)
Definition kernel_idt (i : idt) : Prop :=
  forall v, getZ None (interrupt_handlers i) v =
    if v =? 32 then Some timer_interrupt else if v =? 33 then Some keyboard_interrupt
    else if v =? 128 then Some syscall_interrupt else None.

(** The registrations of [kernel_main], in its order. *)
Definition boot_idt (fuel : nat) (stub : Z -> Z) (isr128 at_ : Z) (table : list syscall_handler) (frequency : Z)
    (tm : timer) (kb : kbd) (i : idt) t : outcome (idt * list syscall_handler * timer * kbd * trace) :=
  let '(i, t) := idt_init device stub isr128 at_ i t in
  let '(table, i) := syscall_init_idt table i in
  let '(tm, i, t) := timer_init device frequency tm i t in
  '(kb, i, t) ← init_keyboard_irq fuel kb i t;
  Ret (i, table, tm, kb, t).

Lemma register_handlers v h i w : 0 <= v < lenZ (interrupt_handlers i) ->
  getZ None (interrupt_handlers (idt_register_handler v h i)) w = if w =? v then h else getZ None (interrupt_handlers i) w.
Proof. intros. by apply getZ_setZ. Qed.

Lemma boot_idt_handlers fuel stub isr128 at_ table frequency tm kb i t i' table' tm' kb' t' :
  lenZ (interrupt_handlers i) = 256 ->
  boot_idt fuel stub isr128 at_ table frequency tm kb i t = Ret (i', table', tm', kb', t') ->
  kernel_idt i' /\ table' = syscall_init table.
Proof.
  intros Hl. unfold boot_idt. destruct (idt_init_handlers device stub isr128 at_ i t Hl) as [Hl1 H1].
  destruct (idt_init _ _ _ _ _ _) as [i1 t1]. cbn [fst] in Hl1, H1.
  unfold syscall_init_idt, timer_init, init_keyboard_irq.
  destruct (drain_keyboard fuel _) as [t2| |]; cbn [mbind outcome_bind]; try done.
  intros [= <- <- _ _ _]. split; [|done]. intros v.
  rewrite !register_handlers by (unfold idt_register_handler, with_handlers; cbn [interrupt_handlers];
    rewrite ?lenZ_setZ, Hl1; done).
  unfold IRQ1_VECTOR, IRQ0_VECTOR, SYSCALL_VECTOR. rewrite H1.
  destruct (Z.eqb_spec v 33) as [->|]; [done|]. destruct (Z.eqb_spec v 32) as [->|]; [done|]. done.
Qed.

(** C16. With the registrations of the boot, whatever the tables held before,
    each interrupt does its work, from its arrival to its end: a tick counts and
    leaves one more for the scheduler, a key is read once and decoded, a system
    call acts as specified with its result in [eax] and the other registers as
    they were, and an unexpected exception panics with its message; the master
    controller, and only it, is told of the end of the ticks and the keys, after
    their work. *)
Theorem interrupts_correct fuel stub isr128 at_ frequency tm kb i0 t0 table0 i table tm' kb' t' l r t k :
  lenZ (interrupt_handlers i0) = 256 -> lenZ table0 = 8 ->
  boot_idt fuel stub isr128 at_ table0 frequency tm kb i0 t0 = Ret (i, table, tm', kb', t') ->
  syscall_table k = table ->
  let v := int_no r mod 256 in let s := procs k in
  (v = 32 -> exists k', handle_interrupt i r t k = Ret (r, t ++ [Out 32 32], k') /\
     pit_ticks (clock k') = u32 (pit_ticks (clock k) + 1) /\ procs k' = scheduler_tick s /\
     keys k' = keys k /\ sigs k' = sigs k /\ syscall_table k' = table) /\
  (v = 33 -> exists k' sc, handle_interrupt i r t k = Ret (r, t ++ [In 96 sc; Out 32 32], k') /\
     sc = u8 (device t 96) /\ (keys k', sigs k') = keyboard_handler sc (keys k) (sigs k) /\
     procs k' = s /\ clock k' = clock k /\ syscall_table k' = table) /\
  (v = 128 -> calling page_directories kd l s -> 0 <= eax r -> (eax r = SYSCALL_FORK -> can_spawn kd l s) ->
     exists k' l' res, handle_interrupt i r t k = Ret (set_eax res r, t, k') /\
       effect page_directories kd l s (eax r) (ebx r) (ecx r) (edx r) res l' (procs k') /\
       table_ok l' (procs k') /\ keys k' = keys k /\ sigs k' = sigs k /\ clock k' = clock k /\ syscall_table k' = table) /\
  (v < 32 -> handle_interrupt i r t k = Panicked (getZ EmptyString exception_messages v)).
Proof.
  intros Hl Ht Eboot Etab v s. destruct (boot_idt_handlers _ _ _ _ _ _ _ _ _ _ _ _ _ _ _ Hl Eboot) as [Hi ->]. clear Eboot.
  assert (0 <= v < 256) as Hv by (apply Z.mod_pos_bound; lia).
  unfold handle_interrupt, idt_handle_interrupt. rewrite vector_mod. fold v. rewrite Hi.
  split; [|split; [|split]]; intros Ev; rewrite ?Ev; cbn [Z.eqb Pos.eqb].
  - eexists. split; [reflexivity|]. done.
  - cbn [call_handler]. unfold keyboard_entry, inb. set (sc := u8 (device t KEYBOARD_DATA_PORT)).
    destruct (keyboard_handler sc (keys k) (sigs k)) as [kb1 sg1] eqn:E. cbn [mbind outcome_bind].
    exists (Kernel (procs k) kb1 sg1 (clock k) (syscall_table k)), sc.
    split; [|done]. transitivity (Ret (r, (t ++ [In 96 sc]) ++ [Out 32 32],
      Kernel (procs k) kb1 sg1 (clock k) (syscall_table k))); [done|by rewrite <- app_assoc].
  - intros Hcall Hn Hfork. cbn [call_handler]. unfold syscall_entry. rewrite Etab.
    destruct (syscall_dispatch_ok page_directories kd other_syscall l s table0 (eax r) (ebx r) (ecx r) (edx r) (esi r)
      Ht Hcall Hn Hfork) as (res & s' & l' & E & He & Hok & _). fold s. rewrite E. cbn [mbind outcome_bind].
    eexists _, l', res. split; [reflexivity|]. done.
  - rewrite !eqb_sym_neg by lia. destruct (Z.ltb_spec v 32); [done|lia].
Qed.
End interrupts.

(** A tick in the demo system, whose keyboard has nothing to drain. *)
Lemma interrupts_correct_witness : exists (k : kernel Pmm.pmm) i r,
  int_no r = 32 /\ pending_scheduler_ticks (procs k) = 0 /\
  exists k', handle_interrupt (fun _ _ => 0) 65536 (fun _ _ _ _ _ s => Ret (0, s)) (fun _ r t k => Ret (r, t, k)) i r [] k =
    Ret (r, [Out 32 32], k') /\ pending_scheduler_ticks (procs k') = 1.
Proof.
  destruct demo_world as (s & Hok & _ & _ & _ & _ & _ & Hp & _).
  set (i0 := Idt [] 0 0 (replicate 256 None)). set (table0 := replicate 8 syscall_not_implemented).
  destruct (boot_idt (fun _ _ => 0) 1 (fun v => 1048576 + 16 * v) 1052672 4096 table0 50 (PitState 0 0) boot_kbd i0 [])
    as [[[[[i table] tm] kb] t]| |] eqn:E; [|discriminate E|discriminate E].
  set (k := Kernel s kb (SigState [] (ring_empty 64 no_signal) 0) tm table).
  set (r := Registers 0 0 0 0 0 0 0 0 0 0 0 0 32 0 0 0 0).
  destruct (interrupts_correct (fun _ _ => 0) 65536 4096 (fun _ _ _ _ _ s => Ret (0, s)) (fun _ r t k => Ret (r, t, k))
    1 (fun v => 1048576 + 16 * v) 1052672 4096 50 (PitState 0 0) boot_kbd i0 [] table0 i table tm kb t [0] r [] k
    eq_refl eq_refl E eq_refl) as [H _].
  destruct (H eq_refl) as (k' & E' & _ & Es & _). exists k, i, r. split; [reflexivity|]. split; [exact Hp|].
  exists k'. split; [exact E'|]. rewrite Es. cbn. rewrite Hp. reflexivity.
Defined.
