(* ===== verification/Terminal.v ===== *)
(** * The terminal: kernel/src/main.c (screen output), kernel/include/vga.h

    A scroll-back buffer of 200 lines of 80 cells, of which the VGA memory shows
    25; output also goes to the serial line.  A cell is a character and a colour
    packed in 16 bits.  [size_t] values stay far below 2^32 except where the
    wrap-around is written. *)

From S2P Require Import Prelude Serial.

Definition VGA_WIDTH : Z := 80.
Definition VGA_HEIGHT : Z := 25.
Definition SCROLLBACK_LINES : Z := 200.

Definition VGA_COLOR_BLACK : Z := 0.
Definition VGA_COLOR_BLUE : Z := 1.
Definition VGA_COLOR_CYAN : Z := 3.
Definition VGA_COLOR_RED : Z := 4.
Definition VGA_COLOR_LIGHT_GREY : Z := 7.
Definition VGA_COLOR_LIGHT_BLUE : Z := 9.
Definition VGA_COLOR_LIGHT_CYAN : Z := 11.
Definition VGA_COLOR_LIGHT_BROWN : Z := 14.
Definition VGA_COLOR_WHITE : Z := 15.

Definition vga_entry_color (fg bg : Z) : Z := u8 (Z.lor fg (Z.shiftl bg 4)).
Definition vga_entry (uc color : Z) : Z := u16 (Z.lor (u8 uc) (Z.shiftl (u8 color) 8)).

(** [VGA_MEMORY] is the 2000 cells at 0xB8000. *)
Record terminal := Term {
  scroll_buffer : list Z;
  VGA_MEMORY : list Z;
  terminal_row : Z;
  terminal_column : Z;
  terminal_color : Z;
  scroll_offset : Z;
  ports : trace;
}.

Definition with_buffer (v : list Z) (t : terminal) : terminal :=
  Term v (VGA_MEMORY t) (terminal_row t) (terminal_column t) (terminal_color t) (scroll_offset t) (ports t).
Definition with_vga (v : list Z) (t : terminal) : terminal :=
  Term (scroll_buffer t) v (terminal_row t) (terminal_column t) (terminal_color t) (scroll_offset t) (ports t).
Definition with_cursor (row column : Z) (t : terminal) : terminal :=
  Term (scroll_buffer t) (VGA_MEMORY t) row column (terminal_color t) (scroll_offset t) (ports t).
Definition with_offset (v : Z) (t : terminal) : terminal :=
  Term (scroll_buffer t) (VGA_MEMORY t) (terminal_row t) (terminal_column t) (terminal_color t) v (ports t).
Definition with_ports (v : trace) (t : terminal) : terminal :=
  Term (scroll_buffer t) (VGA_MEMORY t) (terminal_row t) (terminal_column t) (terminal_color t) (scroll_offset t) v.

Definition display_start (t : terminal) : Z :=
  if VGA_HEIGHT <=? terminal_row t then terminal_row t - VGA_HEIGHT + 1 else 0.

Definition cursor_pos (t : terminal) : Z :=
  if negb (scroll_offset t =? 0) then VGA_HEIGHT * VGA_WIDTH
  else u16 ((terminal_row t - display_start t) * VGA_WIDTH + terminal_column t).

Definition update_cursor (t : terminal) : terminal :=
  let pos := cursor_pos t in
  let p := outb 980 15 (ports t) in
  let p := outb 981 (u8 (Z.land pos 255)) p in
  let p := outb 980 14 p in
  with_ports (outb 981 (u8 (Z.land (Z.shiftr pos 8) 255)) p) t.

Definition blank (t : terminal) : Z := vga_entry 32 (terminal_color t).

Definition scroll_cells (blank : Z) (b : list Z) : list Z :=
  let b := for_range 0 ((SCROLLBACK_LINES - 1) * VGA_WIDTH)
             (fun i b => setZ b i (getZ 0 b (i + VGA_WIDTH))) b in
  for_range 0 VGA_WIDTH (fun x b => setZ b ((SCROLLBACK_LINES - 1) * VGA_WIDTH + x) blank) b.

Definition terminal_scroll_buffer (t : terminal) : terminal :=
  with_cursor (SCROLLBACK_LINES - 1) (terminal_column t) (with_buffer (scroll_cells (blank t) (scroll_buffer t)) t).

Definition vga_scroll_cells (blank : Z) (v : list Z) : list Z :=
  let v := for_range 1 VGA_HEIGHT (fun y v =>
             for_range 0 VGA_WIDTH (fun x v =>
               setZ v ((y - 1) * VGA_WIDTH + x) (getZ 0 v (y * VGA_WIDTH + x))) v) v in
  for_range 0 VGA_WIDTH (fun x v => setZ v ((VGA_HEIGHT - 1) * VGA_WIDTH + x) blank) v.

Definition vga_scroll (t : terminal) : terminal := with_vga (vga_scroll_cells (blank t) (VGA_MEMORY t)) t.

(** [for (i = 0; i < n; i++) b[i] = c] *)
Definition fill_cells (n c : Z) (b : list Z) : list Z := for_range 0 n (fun i b => setZ b i c) b.

Definition terminal_initialize (t : terminal) : terminal :=
  let t := Term (scroll_buffer t) (VGA_MEMORY t) 0 0 (vga_entry_color VGA_COLOR_WHITE VGA_COLOR_BLACK) 0 (ports t) in
  let t := with_buffer (fill_cells (SCROLLBACK_LINES * VGA_WIDTH) (blank t) (scroll_buffer t)) t in
  let t := with_vga (fill_cells (VGA_HEIGHT * VGA_WIDTH) (blank t) (VGA_MEMORY t)) t in
  update_cursor t.

Definition terminal_putchar_at (c color x y : Z) (t : terminal) : terminal :=
  let t := with_buffer (setZ (scroll_buffer t) (y * VGA_WIDTH + x) (vga_entry c color)) t in
  if scroll_offset t =? 0 then
    let ds := display_start t in
    if (ds <=? y) && (y <? ds + VGA_HEIGHT)
    then with_vga (setZ (VGA_MEMORY t) ((y - ds) * VGA_WIDTH + x) (vga_entry c color)) t else t
  else t.

Definition copy_rows (ds : Z) (b v : list Z) : list Z :=
  for_range 0 VGA_HEIGHT (fun y v =>
    for_range 0 VGA_WIDTH (fun x v =>
      setZ v (y * VGA_WIDTH + x) (getZ 0 b ((ds + y) * VGA_WIDTH + x))) v) v.

Definition terminal_refresh_display (t : terminal) : terminal :=
  let ds := display_start t in
  let ds := if scroll_offset t <=? ds then ds - scroll_offset t else 0 in
  update_cursor (with_vga (copy_rows ds (scroll_buffer t) (VGA_MEMORY t)) t).

(** The end of a line, by [\n] or by filling it: column 0 of the next row. *)
Definition terminal_next_line (t : terminal) : terminal :=
  let old_ds := display_start t in
  let t := with_cursor (terminal_row t + 1) 0 t in
  if terminal_row t =? SCROLLBACK_LINES then terminal_refresh_display (terminal_scroll_buffer t)
  else if negb (display_start t =? old_ds) then vga_scroll t else t.

Definition strlen (str : list Z) : Z := lenZ str.

Section output.
(** The serial line: the hardware, the polls allowed, [serial_enabled]. *)
Context (device : trace -> Z -> Z) (fuel : nat) (serial_enabled : Z).
Implicit Types t : terminal.

(** What [terminal_putchar] does to the live screen. *)
Definition screen_print (c : Z) t : terminal :=
  if c =? BACKSPACE then
    let t := if 0 <? terminal_column t then with_cursor (terminal_row t) (terminal_column t - 1) t
             else if 0 <? terminal_row t then with_cursor (terminal_row t - 1) (VGA_WIDTH - 1) t else t in
    update_cursor (terminal_putchar_at SPACE (terminal_color t) (terminal_column t) (terminal_row t) t)
  else if c =? NEWLINE then update_cursor (terminal_next_line t)
  else
    let t := terminal_putchar_at c (terminal_color t) (terminal_column t) (terminal_row t) t in
    let t := with_cursor (terminal_row t) (terminal_column t + 1) t in
    update_cursor (if terminal_column t =? VGA_WIDTH then terminal_next_line t else t).

(** Any output while scrolled back first returns to the bottom. *)
Definition snap_back t : terminal :=
  if negb (scroll_offset t =? 0) then terminal_refresh_display (with_offset 0 t) else t.

Definition screen_putchar (c : Z) t : terminal := screen_print c (snap_back t).

Definition terminal_putchar (c : Z) t : outcome terminal :=
  p ← serial_write_char device fuel serial_enabled c (ports t);
  Ret (screen_putchar c (with_ports p t)).

Fixpoint terminal_write (str : list Z) t : outcome terminal :=
  match str with
  | [] => Ret t
  | c :: str => if c =? 0 then Ret t else t ← terminal_putchar c t; terminal_write str t
  end.

Definition terminal_scroll_up (lines : Z) t : terminal :=
  let max_offset := if VGA_HEIGHT <=? terminal_row t then terminal_row t - VGA_HEIGHT + 1 else 0 in
  let o := u32 (scroll_offset t + lines) in
  terminal_refresh_display (with_offset (if max_offset <? o then max_offset else o) t).

Definition terminal_scroll_down (lines : Z) t : terminal :=
  terminal_refresh_display
    (with_offset (if lines <=? scroll_offset t then scroll_offset t - lines else 0) t).

Definition terminal_writestr_centered (str : list Z) (row : Z) t : terminal :=
  let col := u32 (VGA_WIDTH - strlen str) / 2 in
  let colors := [vga_entry_color VGA_COLOR_LIGHT_BLUE VGA_COLOR_BLACK;
                 vga_entry_color VGA_COLOR_LIGHT_CYAN VGA_COLOR_BLACK;
                 vga_entry_color VGA_COLOR_CYAN VGA_COLOR_BLACK;
                 vga_entry_color VGA_COLOR_BLUE VGA_COLOR_BLACK] in
  for_range 0 (lenZ str) (fun i t =>
    terminal_putchar_at (getZ 0 str i) (getZ 0 colors ((i + row) mod 4)) (u32 (col + i)) row t) t.

(** The lines of [HEADER], without the final null pointer. *)
Definition print_header (header : list (list Z)) t : terminal :=
  with_cursor 10 0 (for_range 0 (lenZ header) (fun i t => terminal_writestr_centered (getZ [] header i) i t) t).
End output.

(** ** The loops over cells *)

(** A loop over rows of 80 cells is a loop over cells. *)
Lemma for_range_nest {A} (f : Z -> A -> A) lo hi s : lo <= hi ->
  for_range lo hi (fun y s => for_range 0 80 (fun x s => f (y * 80 + x) s) s) s = for_range (80 * lo) (80 * hi) f s.
Proof.
  intros Hle. apply (for_range_ind _ (fun y s' => s' = for_range (80 * lo) (80 * y) f s)); [done| |].
  - by rewrite for_range_nil.
  - intros y s' Hy ->. replace (80 * (y + 1)) with (80 * y + 80) by lia.
    apply (for_range_ind _ (fun x s'' => s'' = for_range (80 * lo) (80 * y + x) f s)); [lia|by rewrite Z.add_0_r|].
    intros x s'' Hx ->. rewrite Z.add_assoc, for_range_snoc by lia. f_equal. lia.
Qed.

Lemma for_range_shift {A} (f : Z -> A -> A) lo hi d s :
  for_range (lo + d) (hi + d) f s = for_range lo hi (fun i => f (i + d)) s.
Proof.
  destruct (Z.le_gt_cases hi lo); [by rewrite !for_range_nil by lia|]. symmetry.
  apply (for_range_ind _ (fun i s' => s' = for_range (lo + d) (i + d) f s)); [lia|by rewrite for_range_nil by lia|].
  intros i s' Hi ->. replace (i + 1 + d) with (i + d + 1) by lia. by rewrite (for_range_snoc _ _ (i + d)) by lia.
Qed.

(** Filling cells [n .. m) with values that do not depend on the array. *)
Lemma fill_loop (g : Z -> Z) n m v j : 0 <= n <= m -> m <= lenZ v ->
  let v' := for_range n m (fun i v => setZ v i (g i)) v in
  lenZ v' = lenZ v /\ getZ 0 v' j = if (n <=? j) && (j <? m) then g j else getZ 0 v j.
Proof.
  intros Hn Hm. cbv zeta. apply (for_range_ind _ (fun i v' =>
    lenZ v' = lenZ v /\ getZ 0 v' j = if (n <=? j) && (j <? i) then g j else getZ 0 v j)); [lia| |].
  - split; [done|]. zbool; simpl; try lia; done.
  - intros i v' Hi [Hl IH]. rewrite lenZ_setZ, getZ_setZ, IH by lia. split; [done|].
    zbool; simpl; try lia; subst; done.
Qed.

(** Moving cells down by 80, in place. *)
Lemma shift_loop n v j : 0 <= n -> n + 80 <= lenZ v ->
  let v' := for_range 0 n (fun i v => setZ v i (getZ 0 v (i + 80))) v in
  lenZ v' = lenZ v /\ getZ 0 v' j = if (0 <=? j) && (j <? n) then getZ 0 v (j + 80) else getZ 0 v j.
Proof.
  intros Hn Hm. cbv zeta. cut (lenZ (for_range 0 n (fun i v => setZ v i (getZ 0 v (i + 80))) v) = lenZ v /\
    forall j, getZ 0 (for_range 0 n (fun i v => setZ v i (getZ 0 v (i + 80))) v) j =
      if (0 <=? j) && (j <? n) then getZ 0 v (j + 80) else getZ 0 v j); [by intros [? ?]|].
  apply (for_range_ind _ (fun i v' => lenZ v' = lenZ v /\
    forall j, getZ 0 v' j = if (0 <=? j) && (j <? i) then getZ 0 v (j + 80) else getZ 0 v j)); [lia| |].
  - split; [done|]. intros k. zbool; simpl; try lia; done.
  - intros i v' Hi [Hl IH]. rewrite lenZ_setZ. split; [done|]. intros k. rewrite getZ_setZ, !IH by lia.
    zbool; simpl; try lia; subst; done.
Qed.

(** The cell at column [x] of row [y]. *)
Definition cell (b : list Z) (y x : Z) : Z := getZ 0 b (80 * y + x).

Lemma cell_set b y x v y' x' : 0 <= x < 80 -> 0 <= x' < 80 -> 0 <= 80 * y + x < lenZ b ->
  cell (setZ b (y * 80 + x) v) y' x' = if (y' =? y) && (x' =? x) then v else cell b y' x'.
Proof.
  intros Hx Hx' Hb. unfold cell. rewrite getZ_setZ by lia.
  zbool; simpl; try done; lia.
Qed.

Lemma copy_rows_spec ds b v : lenZ v = 2000 ->
  lenZ (copy_rows ds b v) = 2000 /\
  forall y x, 0 <= y < 25 -> 0 <= x < 80 -> cell (copy_rows ds b v) y x = cell b (ds + y) x.
Proof.
  intros Hv. unfold copy_rows, VGA_HEIGHT, VGA_WIDTH. set (v' := for_range 0 25 _ v).
  assert (v' = for_range 0 2000 (fun i v => setZ v i (getZ 0 b (80 * ds + i))) v) as Ev.
  { unfold v'. rewrite <- (for_range_nest (fun i v => setZ v i (getZ 0 b (80 * ds + i))) 0 25) by lia.
    apply for_range_ext. intros y s Hy. apply for_range_ext. intros x s' Hx. do 2 f_equal. lia. }
  clearbody v'. subst v'.
  pose proof (fun j => fill_loop (fun i => getZ 0 b (80 * ds + i)) 0 2000 v j ltac:(lia) ltac:(lia)) as H.
  cbv zeta in H. split; [exact (eq_trans (proj1 (H 0)) Hv)|]. intros y x Hy Hx. unfold cell.
  destruct (H (80 * y + x)) as [_ ->]. destruct (Z.leb_spec 0 (80 * y + x)); [|lia].
  destruct (Z.ltb_spec (80 * y + x) 2000); [|lia]. cbn [andb]. f_equal. lia.
Qed.

(** Blanking the last of [n + 1] rows. *)
Lemma last_row_loop n c v j : 0 <= n -> lenZ v = 80 * n + 80 ->
  let v' := for_range 0 80 (fun x v => setZ v (80 * n + x) c) v in
  lenZ v' = lenZ v /\ getZ 0 v' j = if (80 * n <=? j) && (j <? 80 * n + 80) then c else getZ 0 v j.
Proof.
  intros Hn Hv. cbv zeta. pose proof (for_range_shift (fun i v => setZ v i c) 0 80 (80 * n) v) as E.
  pose proof (fill_loop (fun _ => c) (80 * n) (80 * n + 80) v j ltac:(lia) ltac:(lia)) as H. cbv zeta in H.
  rewrite (for_range_ext (fun x v => setZ v (80 * n + x) c) (fun i v => setZ v (i + 80 * n) c))
    by (intros; f_equal; lia).
  rewrite <- E. replace (80 + 80 * n) with (80 * n + 80) by lia. exact H.
Qed.

Lemma vga_scroll_cells_spec c v : lenZ v = 2000 ->
  lenZ (vga_scroll_cells c v) = 2000 /\
  forall y x, 0 <= y < 25 -> 0 <= x < 80 -> cell (vga_scroll_cells c v) y x = if y =? 24 then c else cell v (y + 1) x.
Proof.
  intros Hv. unfold vga_scroll_cells, VGA_HEIGHT, VGA_WIDTH. set (v1 := for_range 1 25 _ v).
  assert (v1 = for_range 0 1920 (fun i v => setZ v i (getZ 0 v (i + 80))) v) as E1.
  { unfold v1. rewrite <- (for_range_nest (fun i v => setZ v i (getZ 0 v (i + 80))) 0 24) by lia.
    rewrite (for_range_shift _ 0 24 1). apply for_range_ext. intros y s Hy.
    apply for_range_ext. intros x s' Hx. f_equal; [lia|f_equal; lia]. }
  clearbody v1.
  assert (forall j, lenZ v1 = 2000 /\ getZ 0 v1 j =
    if (0 <=? j) && (j <? 1920) then getZ 0 v (j + 80) else getZ 0 v j) as H1.
  { intros j. rewrite E1. pose proof (shift_loop 1920 v j ltac:(lia) ltac:(lia)) as H. cbv zeta in H. by rewrite Hv in H. }
  pose proof (fun j => last_row_loop 24 c v1 j ltac:(lia) (proj1 (H1 0))) as H2. cbv zeta in H2.
  change ((25 - 1) * 80) with (80 * 24). split; [exact (eq_trans (proj1 (H2 0)) (proj1 (H1 0)))|].
  intros y x Hy Hx. unfold cell. rewrite (proj2 (H2 _)), (proj2 (H1 _)).
  zbool; cbn [andb]; try lia; try reflexivity; f_equal; lia.
Qed.

Lemma scroll_cells_spec c b : lenZ b = 16000 ->
  lenZ (scroll_cells c b) = 16000 /\
  forall y x, 0 <= y < 200 -> 0 <= x < 80 -> cell (scroll_cells c b) y x = if y =? 199 then c else cell b (y + 1) x.
Proof.
  intros Hb. unfold scroll_cells, SCROLLBACK_LINES, VGA_WIDTH. change ((200 - 1) * 80) with (80 * 199).
  set (b1 := for_range 0 (80 * 199) _ b).
  assert (forall j, lenZ b1 = 16000 /\ getZ 0 b1 j =
    if (0 <=? j) && (j <? 80 * 199) then getZ 0 b (j + 80) else getZ 0 b j) as H1.
  { intros j. pose proof (shift_loop (80 * 199) b j ltac:(lia) ltac:(lia)) as H. cbv zeta in H. by rewrite Hb in H. }
  clearbody b1. pose proof (fun j => last_row_loop 199 c b1 j ltac:(lia) (proj1 (H1 0))) as H2. cbv zeta in H2.
  split; [exact (eq_trans (proj1 (H2 0)) (proj1 (H1 0)))|].
  intros y x Hy Hx. unfold cell. rewrite (proj2 (H2 _)), (proj2 (H1 _)).
  zbool; cbn [andb]; try lia; try reflexivity; f_equal; lia.
Qed.

Lemma fill_cells_spec n c b : 0 <= n <= lenZ b ->
  lenZ (fill_cells n c b) = lenZ b /\ forall j, 0 <= j < n -> getZ 0 (fill_cells n c b) j = c.
Proof.
  intros Hn. unfold fill_cells. split; [apply (fill_loop (fun _ => c) 0 n b 0); lia|]. intros j Hj.
  destruct (fill_loop (fun _ => c) 0 n b j) as [_ ->]; [lia|lia|]. zbool; cbn [andb]; lia.
Qed.

Abbreviation grid := (Z -> Z -> Z).

Section screen.
Implicit Types t : terminal.

(** The sizes, and a cursor inside. *)
Record term_wf t : Prop := {
  tw_buffer : lenZ (scroll_buffer t) = 16000;
  tw_vga : lenZ (VGA_MEMORY t) = 2000;
  tw_row : 0 <= terminal_row t < 200;
  tw_column : 0 <= terminal_column t < 80;
  tw_offset : 0 <= scroll_offset t <= display_start t;
}.

(** The first row of the buffer on the screen. *)
Definition view_start t : Z := display_start t - scroll_offset t.

(** The screen shows 25 rows of the buffer. *)
Definition shows t : Prop :=
  forall y x, 0 <= y < 25 -> 0 <= x < 80 -> cell (VGA_MEMORY t) y x = cell (scroll_buffer t) (view_start t + y) x.

(** The rows after [m] are blank. *)
Definition blank_from t (m : Z) : Prop :=
  forall y x, m < y < 200 -> 0 <= x < 80 -> cell (scroll_buffer t) y x = blank t.

Lemma display_start_max t : display_start t = Z.max 0 (terminal_row t - 24).
Proof. unfold display_start, VGA_HEIGHT. zbool; lia. Qed.

(** The parts that printing does not touch. *)
Lemma update_cursor_fields t : let t' := update_cursor t in
  scroll_buffer t' = scroll_buffer t /\ VGA_MEMORY t' = VGA_MEMORY t /\ terminal_row t' = terminal_row t /\
  terminal_column t' = terminal_column t /\ terminal_color t' = terminal_color t /\ scroll_offset t' = scroll_offset t.
Proof. done. Qed.

Lemma refresh_spec t : term_wf t ->
  exists v p, terminal_refresh_display t = with_ports p (with_vga v t) /\ lenZ v = 2000 /\
    shows (with_ports p (with_vga v t)).
Proof.
  intros H. unfold terminal_refresh_display. set (ds := if scroll_offset t <=? display_start t then _ else _).
  assert (ds = view_start t) as ->.
  { unfold ds, view_start. destruct (Z.leb_spec (scroll_offset t) (display_start t)); [done|].
    pose proof (tw_offset _ H). lia. }
  destruct (copy_rows_spec (view_start t) (scroll_buffer t) (VGA_MEMORY t) (tw_vga _ H)) as [Hl Hc].
  generalize dependent (copy_rows (view_start t) (scroll_buffer t) (VGA_MEMORY t)). intros v Hl Hc.
  exists v. unfold update_cursor. eexists. split; [reflexivity|]. split; [exact Hl|exact Hc].
Qed.

(** ** The cells of the buffer, as a function of row and column *)

Definition grid_of t : grid := cell (scroll_buffer t).
Definition same_grid (g h : grid) : Prop := forall y x, 0 <= y < 200 -> 0 <= x < 80 -> g y x = h y x.

(** The end of a line: the next row, or the last one with all rows moved up. *)
Definition line_feed (blank row : Z) (g : grid) : Z * grid :=
  if row =? 199 then (199, fun y x => if y =? 199 then blank else g (y + 1) x) else (row + 1, g).

Definition grid_put (row col v : Z) (g : grid) : grid := fun y x => if (y =? row) && (x =? col) then v else g y x.

(** What a character does to the cursor and the cells. *)
Definition grid_putchar (color c : Z) (row col : Z) (g : grid) : Z * Z * grid :=
  let blank := vga_entry 32 color in
  if c =? BACKSPACE then
    let '(row, col) := if 0 <? col then (row, col - 1) else if 0 <? row then (row - 1, 79) else (row, col) in
    (row, col, grid_put row col blank g)
  else if c =? NEWLINE then let '(row, g) := line_feed blank row g in (row, 0, g)
  else
    let g := grid_put row col (vga_entry c color) g in
    if col + 1 =? 80 then let '(row, g) := line_feed blank row g in (row, 0, g) else (row, col + 1, g).

Lemma shows_cells t g : shows t -> same_grid (grid_of t) g -> term_wf t ->
  forall y x, 0 <= y < 25 -> 0 <= x < 80 -> cell (VGA_MEMORY t) y x = g (view_start t + y) x.
Proof.
  intros Hs Hg H y x Hy Hx. rewrite Hs by done. apply Hg; [|done].
  destruct H. unfold view_start. rewrite display_start_max in *. lia.
Qed.

Lemma next_line_spec t : term_wf t -> scroll_offset t = 0 -> shows t -> blank_from t (Z.max 24 (terminal_row t)) ->
  exists b v p, terminal_next_line t = Term b v (line_feed (blank t) (terminal_row t) (grid_of t)).1 0 (terminal_color t) 0 p /\
    let t' := Term b v (line_feed (blank t) (terminal_row t) (grid_of t)).1 0 (terminal_color t) 0 p in
    term_wf t' /\ shows t' /\ same_grid (grid_of t') (line_feed (blank t) (terminal_row t) (grid_of t)).2.
Proof.
  intros H Ho Hs Hb. pose proof H as [Hbuf Hvga Hrow Hcol _]. unfold terminal_next_line, line_feed.
  set (t1 := with_cursor (terminal_row t + 1) 0 t). change (terminal_row t1) with (terminal_row t + 1).
  unfold SCROLLBACK_LINES. destruct (Z.eqb_spec (terminal_row t) 199) as [E199|N199]; cbn [fst snd].
  - rewrite E199. cbn [Z.eqb Pos.eqb Z.add Pos.add]. unfold terminal_scroll_buffer. change (blank t1) with (blank t).
    destruct (scroll_cells_spec (blank t) (scroll_buffer t1) Hbuf) as [Hl Hc].
    generalize dependent (scroll_cells (blank t) (scroll_buffer t1)). intros b Hl Hc.
    set (t2 := with_cursor _ _ (with_buffer b t1)).
    assert (term_wf t2) as H2.
    { unfold t2, t1. split; cbn [scroll_buffer VGA_MEMORY terminal_row terminal_column scroll_offset with_cursor with_buffer];
      try done. rewrite display_start_max, Ho. lia. }
    destruct (refresh_spec t2 H2) as (v & p & -> & Hv & Hsh). exists b, v, p.
    assert (with_ports p (with_vga v t2) = Term b v 199 0 (terminal_color t) 0 p) as E
      by (unfold t2, t1, with_ports, with_vga, with_cursor, with_buffer; cbn; by rewrite Ho).
    rewrite E in *. split; [done|]. cbv zeta. split; [|split; [exact Hsh|]].
    + by split.
    + intros y x Hy Hx. apply Hc; done.
  - destruct (Z.eqb_spec (terminal_row t + 1) 200); [lia|]. rewrite !display_start_max.
    change (terminal_row t1) with (terminal_row t + 1).
    destruct (Z.eqb_spec (Z.max 0 (terminal_row t + 1 - 24)) (Z.max 0 (terminal_row t - 24))) as [Eds|Nds]; cbn [negb].
    + exists (scroll_buffer t), (VGA_MEMORY t), (ports t).
      assert (t1 = Term (scroll_buffer t) (VGA_MEMORY t) (terminal_row t + 1) 0 (terminal_color t) 0 (ports t)) as E
        by (unfold t1, with_cursor; by rewrite Ho).
      rewrite <- E. split; [done|]. cbv zeta. split; [|split; [|done]].
      * unfold t1. split; cbn [scroll_buffer VGA_MEMORY terminal_row terminal_column with_cursor scroll_offset]; try done; [lia|].
        rewrite display_start_max, Ho. lia.
      * intros y x Hy Hx. cbn [VGA_MEMORY scroll_buffer t1 with_cursor]. rewrite Hs by done. unfold view_start.
        rewrite !display_start_max. cbn [terminal_row scroll_offset t1 with_cursor]. by rewrite Eds.
    + unfold vga_scroll. change (blank t1) with (blank t).
      destruct (vga_scroll_cells_spec (blank t) (VGA_MEMORY t1) Hvga) as [Hl Hc].
      generalize dependent (vga_scroll_cells (blank t) (VGA_MEMORY t1)). intros v Hl Hc.
      exists (scroll_buffer t), v, (ports t).
      assert (with_vga v t1 = Term (scroll_buffer t) v (terminal_row t + 1) 0 (terminal_color t) 0 (ports t)) as E
        by (unfold t1, with_vga, with_cursor; by rewrite Ho).
      rewrite E. split; [done|]. cbv zeta. split; [|split; [|done]].
      * split; cbn [scroll_buffer VGA_MEMORY terminal_row terminal_column scroll_offset]; try done; [lia|].
        rewrite display_start_max. lia.
      * intros y x Hy Hx. cbn [VGA_MEMORY scroll_buffer]. rewrite Hc by done. unfold view_start.
        rewrite display_start_max. cbn [terminal_row scroll_offset].
        destruct (Z.eqb_spec y 24) as [->|].
        -- symmetry. apply Hb; [lia|done].
        -- change (VGA_MEMORY t1) with (VGA_MEMORY t). rewrite Hs by lia. unfold view_start.
           rewrite display_start_max, Ho. f_equal. lia.
Qed.

(** Writing a cell of the row of the cursor. *)
Lemma putchar_at_spec t c x : term_wf t -> scroll_offset t = 0 -> shows t -> 0 <= x < 80 ->
  exists b v, terminal_putchar_at c (terminal_color t) x (terminal_row t) t =
      Term b v (terminal_row t) (terminal_column t) (terminal_color t) 0 (ports t) /\
    let t' := Term b v (terminal_row t) (terminal_column t) (terminal_color t) 0 (ports t) in
    term_wf t' /\ shows t' /\
    same_grid (grid_of t') (grid_put (terminal_row t) x (vga_entry c (terminal_color t)) (grid_of t)).
Proof.
  intros H Ho Hs Hx. pose proof H as [Hbuf Hvga Hrow Hcol _]. unfold terminal_putchar_at. set (e := vga_entry c _).
  cbn [scroll_offset with_buffer]. rewrite Ho. cbn [Z.eqb]. rewrite !display_start_max. cbn [terminal_row with_buffer].
  set (ds := Z.max 0 (terminal_row t - 24)). unfold VGA_HEIGHT, VGA_WIDTH.
  destruct (Z.leb_spec ds (terminal_row t)); [|lia]. destruct (Z.ltb_spec (terminal_row t) (ds + 25)); [|lia]. cbn [andb].
  exists (setZ (scroll_buffer t) (terminal_row t * 80 + x) e), (setZ (VGA_MEMORY t) ((terminal_row t - ds) * 80 + x) e).
  split; [unfold with_vga, with_buffer; cbn; by rewrite Ho|]. cbv zeta.
  assert (forall y x', 0 <= y < 200 -> 0 <= x' < 80 -> cell (setZ (scroll_buffer t) (terminal_row t * 80 + x) e) y x' =
    grid_put (terminal_row t) x e (grid_of t) y x') as Hg by (intros y x' Hy Hx'; apply cell_set; lia).
  split; [|split; [|exact Hg]].
  - split; cbn [scroll_buffer VGA_MEMORY terminal_row terminal_column scroll_offset]; rewrite ?lenZ_setZ; try done.
    rewrite display_start_max. lia.
  - intros y x' Hy Hx'. cbn [VGA_MEMORY scroll_buffer]. unfold view_start. rewrite display_start_max.
    cbn [terminal_row scroll_offset]. fold ds. rewrite Z.sub_0_r, Hg, cell_set by lia. unfold grid_put, grid_of.
    rewrite Hs by done. unfold view_start. rewrite display_start_max, Ho. fold ds. rewrite Z.sub_0_r.
    zbool; cbn [andb]; try lia; done.
Qed.

Lemma snap_spec t : term_wf t -> shows t ->
  exists v p, snap_back t =
      Term (scroll_buffer t) v (terminal_row t) (terminal_column t) (terminal_color t) 0 p /\
    let t' := Term (scroll_buffer t) v (terminal_row t) (terminal_column t) (terminal_color t) 0 p in
    term_wf t' /\ shows t'.
Proof.
  intros H Hs. unfold snap_back. destruct (Z.eqb_spec (scroll_offset t) 0) as [Ho|Ho]; cbn [negb].
  - exists (VGA_MEMORY t), (ports t). rewrite <- Ho. destruct t. done.
  - assert (term_wf (with_offset 0 t)) as H0.
    { destruct H. split; try done. cbn [scroll_offset with_offset]. rewrite display_start_max. lia. }
    destruct (refresh_spec _ H0) as (v & p & -> & Hv & Hsh). exists v, p. split; [done|]. split; [|exact Hsh].
    destruct H0. by split.
Qed.

(** Moving the cursor where the first row shown stays the same. *)
Lemma cursor_moved t row col : term_wf t -> scroll_offset t = 0 -> shows t -> 0 <= row < 200 -> 0 <= col < 80 ->
  Z.max 0 (row - 24) = Z.max 0 (terminal_row t - 24) ->
  term_wf (with_cursor row col t) /\ shows (with_cursor row col t).
Proof.
  intros H Ho Hs Hr Hc Eds. destruct H. split.
  - split; try done. cbn [scroll_offset with_cursor]. rewrite display_start_max, Ho. lia.
  - intros y x Hy Hx. cbn [VGA_MEMORY scroll_buffer with_cursor]. rewrite Hs by done. unfold view_start.
    rewrite !display_start_max. cbn [terminal_row scroll_offset with_cursor]. by rewrite Eds.
Qed.

Lemma update_cursor_wf t : term_wf t -> term_wf (update_cursor t).
Proof. intros []. by split. Qed.

Lemma next_line_cursor t col : terminal_next_line (with_cursor (terminal_row t) col t) = terminal_next_line t.
Proof. reflexivity. Qed.

Lemma line_feed_blank bl row g h : same_grid g h -> 0 <= row ->
  (line_feed bl row g).1 = (line_feed bl row h).1 /\ same_grid (line_feed bl row g).2 (line_feed bl row h).2.
Proof.
  intros E Hr. unfold line_feed. destruct (row =? 199); cbn [fst snd]; [|done]. split; [done|].
  intros y x Hy Hx. destruct (Z.eqb_spec y 199); [done|]. apply E; lia.
Qed.

Lemma screen_print_spec t0 c : term_wf t0 -> scroll_offset t0 = 0 -> shows t0 ->
  blank_from t0 (Z.max 24 (terminal_row t0)) -> (c = BACKSPACE -> terminal_column t0 = 0 -> terminal_row t0 <= 24) ->
  exists b v p, let '(row, col, g) := grid_putchar (terminal_color t0) c (terminal_row t0) (terminal_column t0) (grid_of t0) in
    screen_print c t0 = Term b v row col (terminal_color t0) 0 p /\
    term_wf (screen_print c t0) /\ shows (screen_print c t0) /\ same_grid (grid_of (screen_print c t0)) g.
Proof.
  intros H0 Ho Hs0 Hb0 Hbs.
  pose proof (tw_row _ H0) as Hrow. pose proof (tw_column _ H0) as Hcol. unfold screen_print, grid_putchar.
  destruct (Z.eqb_spec c BACKSPACE) as [Ec|Nc]; [|destruct (Z.eqb_spec c NEWLINE) as [En|Nn]].
  - set (row := if 0 <? terminal_column t0 then terminal_row t0 else if 0 <? terminal_row t0 then terminal_row t0 - 1 else terminal_row t0).
    set (col := if 0 <? terminal_column t0 then terminal_column t0 - 1 else if 0 <? terminal_row t0 then 79 else terminal_column t0).
    assert ((if 0 <? terminal_column t0 then (terminal_row t0, terminal_column t0 - 1)
      else if 0 <? terminal_row t0 then (terminal_row t0 - 1, 79) else (terminal_row t0, terminal_column t0)) = (row, col)) as ->
      by (unfold row, col; zbool; done).
    assert ((if 0 <? terminal_column t0 then with_cursor (terminal_row t0) (terminal_column t0 - 1) t0
      else if 0 <? terminal_row t0 then with_cursor (terminal_row t0 - 1) (VGA_WIDTH - 1) t0 else t0) = with_cursor row col t0) as ->
      by (unfold row, col; destruct t0; zbool; done).
    specialize (Hbs Ec). assert (0 <= row < 200 /\ 0 <= col < 80 /\ Z.max 0 (row - 24) = Z.max 0 (terminal_row t0 - 24))
      as (Hr & Hc & Ed) by (unfold row, col; zbool; lia).
    destruct (cursor_moved t0 row col H0 Ho Hs0 Hr Hc Ed) as [H1 Hs1].
    destruct (putchar_at_spec (with_cursor row col t0) SPACE col H1 Ho Hs1 Hc) as (b & v & E & H2 & Hs2 & Hg).
    change (terminal_column (with_cursor row col t0)) with col. rewrite E.
    exists b, v. eexists. split; [reflexivity|]. split; [by apply update_cursor_wf|]. split; [exact Hs2|exact Hg].
  - destruct (next_line_spec t0 H0 Ho Hs0 Hb0) as (b & v & p & E & H1 & Hs1 & Hg). rewrite E. unfold blank in *.
    destruct (line_feed _ _ _) as [row g] eqn:El. cbn [fst snd] in *.
    exists b, v. eexists. split; [reflexivity|]. split; [by apply update_cursor_wf|]. split; [exact Hs1|exact Hg].
  - destruct (putchar_at_spec t0 c (terminal_column t0) H0 Ho Hs0 Hcol) as (b & v & -> & H1 & Hs1 & Hg).
    set (t1 := Term b v _ _ _ 0 _) in *. cbv zeta in *. change (terminal_column t1) with (terminal_column t0).
    change (terminal_row t1) with (terminal_row t0). change (terminal_column (with_cursor _ ?k t1)) with k.
    unfold VGA_WIDTH. destruct (Z.eqb_spec (terminal_column t0 + 1) 80) as [E80|N80].
    + pose proof (next_line_cursor t1 (terminal_column t0 + 1)) as En.
      change (terminal_row t1) with (terminal_row t0) in En. rewrite En. clear En.
      destruct (next_line_spec t1 H1 eq_refl Hs1) as (b2 & v2 & p2 & E2 & H2 & Hs2 & Hg2).
      { intros y x Hy Hx. change (terminal_row t1) with (terminal_row t0) in Hy.
        etransitivity; [apply Hg; [lia|done]|]. unfold grid_put. rewrite eqb_sym_neg by lia. cbn [andb]. by apply Hb0. }
      rewrite E2. unfold blank in *. change (terminal_color t1) with (terminal_color t0) in *.
      change (terminal_row t1) with (terminal_row t0) in *.
      destruct (line_feed_blank (vga_entry 32 (terminal_color t0)) (terminal_row t0) _ _ Hg ltac:(lia)) as [Er Eg].
      destruct (line_feed _ _ (grid_put _ _ _ _)) as [row g] eqn:El. cbn [fst snd] in *. rewrite Er in *.
      exists b2, v2. eexists. split; [reflexivity|]. split; [by apply update_cursor_wf|]. split; [exact Hs2|].
      intros y x Hy Hx. etransitivity; [by apply Hg2|by apply Eg].
    + destruct (cursor_moved t1 (terminal_row t0) (terminal_column t0 + 1) H1 eq_refl Hs1) as [H2 Hs2]; [done|lia|done|].
      exists b, v. eexists. split; [reflexivity|]. split; [by apply update_cursor_wf|]. split; [exact Hs2|]. exact Hg.
Qed.

(** The screen after a character: the grid says where the cursor and the cells
    are, and the screen still shows the buffer. *)
Lemma screen_putchar_spec t c : term_wf t -> shows t -> blank_from t (Z.max 24 (terminal_row t)) ->
  (c = BACKSPACE -> terminal_column t = 0 -> terminal_row t <= 24) ->
  exists b v p, let '(row, col, g) := grid_putchar (terminal_color t) c (terminal_row t) (terminal_column t) (grid_of t) in
    screen_putchar c t = Term b v row col (terminal_color t) 0 p /\
    term_wf (screen_putchar c t) /\ shows (screen_putchar c t) /\ same_grid (grid_of (screen_putchar c t)) g.
Proof.
  intros H Hs Hb Hbs. unfold screen_putchar. destruct (snap_spec t H Hs) as (v0 & p0 & -> & H0 & Hs0).
  exact (screen_print_spec (Term (scroll_buffer t) v0 (terminal_row t) (terminal_column t) (terminal_color t) 0 p0) c
    H0 eq_refl Hs0 Hb Hbs).
Qed.
End screen.

(** ** Text laid out on lines of 80 columns *)

(** The lines so far, the column of the cursor in the last of them, the cells. *)
Record layout := Lay { line_count : Z; line_col : Z; line_cells : grid }.

(** A character added to the text; a backspace at the start of a line is left
    out of this description. *)
Definition lay_char (color c : Z) (L : layout) : option layout :=
  let 'Lay n col g := L in
  if c =? BACKSPACE then
    if 0 <? col then Some (Lay n (col - 1) (grid_put (n - 1) (col - 1) (vga_entry 32 color) g)) else None
  else if c =? NEWLINE then Some (Lay (n + 1) 0 g)
  else
    let g := grid_put (n - 1) col (vga_entry c color) g in
    if col + 1 =? 80 then Some (Lay (n + 1) 0 g) else Some (Lay n (col + 1) g).

Fixpoint lay_text (color : Z) (text : list Z) (L : layout) : option layout :=
  match text with
  | [] => Some L
  | c :: text => match lay_char color c L with Some L => lay_text color text L | None => None end
  end.

Definition empty_layout (color : Z) : layout := Lay 1 0 (fun _ _ => vga_entry 32 color).

(** The buffer holds the last 200 lines, the rest of it is blank. *)
Record laid (color : Z) (t : terminal) (L : layout) : Prop := {
  ld_wf : term_wf t;
  ld_shows : shows t;
  ld_color : terminal_color t = color;
  ld_row : terminal_row t = Z.min 199 (line_count L - 1);
  ld_col : terminal_column t = line_col L;
  ld_blank : blank_from t (terminal_row t);
  ld_cells y x : 0 <= y <= terminal_row t -> 0 <= x < 80 ->
    grid_of t y x = line_cells L (line_count L - 1 - terminal_row t + y) x;
  ld_fresh k x : line_count L <= k -> line_cells L k x = vga_entry 32 color;
}.

Lemma grid_put_other row col v g y x : y <> row -> grid_put row col v g y x = g y x.
Proof. intros. unfold grid_put. by rewrite eqb_sym_neg. Qed.

(** One character, on the grid and on the layout. *)
Lemma grid_lays color c row col g n h L' :
  row = Z.min 199 (n - 1) -> 0 <= row -> 0 <= col < 80 ->
  (forall y x, 0 <= y <= row -> 0 <= x < 80 -> g y x = h (n - 1 - row + y) x) ->
  (forall y x, row < y < 200 -> 0 <= x < 80 -> g y x = vga_entry 32 color) ->
  (forall k x, n <= k -> h k x = vga_entry 32 color) ->
  lay_char color c (Lay n col h) = Some L' ->
  let '(row', col', g') := grid_putchar color c row col g in
  row' = Z.min 199 (line_count L' - 1) /\ col' = line_col L' /\
  (forall y x, 0 <= y <= row' -> 0 <= x < 80 -> g' y x = line_cells L' (line_count L' - 1 - row' + y) x) /\
  (forall y x, row' < y < 200 -> 0 <= x < 80 -> g' y x = vga_entry 32 color) /\
  (forall k x, line_count L' <= k -> line_cells L' k x = vga_entry 32 color).
Proof.
  intros Hr Hr0 Hcol Hc Hb Hf E. unfold lay_char in E. unfold grid_putchar.
  assert (forall col v y x, 0 <= y <= row -> 0 <= x < 80 ->
    grid_put row col v g y x = grid_put (n - 1) col v h (n - 1 - row + y) x) as Hput.
  { intros k v y x Hy Hx. unfold grid_put. rewrite Hc by done. zbool; cbn [andb]; try lia; done. }
  assert (forall g h, (forall y x, 0 <= y <= row -> 0 <= x < 80 -> g y x = h (n - 1 - row + y) x) ->
    (forall y x, row < y < 200 -> 0 <= x < 80 -> g y x = vga_entry 32 color) ->
    (forall k x, n <= k -> h k x = vga_entry 32 color) ->
    let '(row', g') := line_feed (vga_entry 32 color) row g in row' = Z.min 199 (n + 1 - 1) /\
    (forall y x, 0 <= y <= row' -> 0 <= x < 80 -> g' y x = h (n + 1 - 1 - row' + y) x) /\
    (forall y x, row' < y < 200 -> 0 <= x < 80 -> g' y x = vga_entry 32 color)) as Hfeed.
  { intros g1 h1 H1 H2 H3. unfold line_feed. destruct (Z.eqb_spec row 199) as [->|].
    - split; [lia|]. split; [|lia]. intros y x Hy Hx. destruct (Z.eqb_spec y 199) as [->|].
      + symmetry. apply H3. lia.
      + rewrite H1 by lia. f_equal. lia.
    - split; [lia|]. split; [|intros y x Hy Hx; apply H2; lia]. intros y x Hy Hx.
      destruct (decide (y = row + 1)) as [->|].
      + rewrite H2 by lia. symmetry. apply H3. lia.
      + rewrite H1 by lia. f_equal. lia. }
  destruct (c =? BACKSPACE); [|destruct (c =? NEWLINE)].
  - destruct (0 <? col); [|done]. injection E as <-. cbn [line_count line_col line_cells].
    split; [done|]. split; [done|]. split; [by apply Hput|].
    split; intros; rewrite grid_put_other by lia; auto.
  - injection E as <-. specialize (Hfeed g h Hc Hb Hf). destruct (line_feed _ _ _) as [row' g'].
    cbn [line_count line_col line_cells]. destruct Hfeed as (? & ? & ?). do 4 (split; [done|]). intros. apply Hf. lia.
  - specialize (Hfeed (grid_put row col (vga_entry c color) g) (grid_put (n - 1) col (vga_entry c color) h) (Hput _ _)).
    destruct (col + 1 =? 80); injection E as <-; cbn [line_count line_col line_cells].
    + destruct (line_feed _ _ _) as [row' g'].
      destruct Hfeed as (? & ? & ?); [intros; rewrite grid_put_other by lia; auto|intros; rewrite grid_put_other by lia; auto|].
      do 4 (split; [done|]). intros. rewrite grid_put_other by lia. apply Hf. lia.
    + split; [done|]. split; [done|]. split; [by apply Hput|]. split; intros; rewrite grid_put_other by lia; auto.
Qed.

Lemma laid_putchar color t L c L' : laid color t L -> lay_char color c L = Some L' ->
  laid color (screen_putchar c t) L' /\ scroll_offset (screen_putchar c t) = 0.
Proof.
  intros [Hwf Hs Hcol Hrow Hcl Hb Hc Hf] E. pose proof (tw_row _ Hwf) as Hr. pose proof (tw_column _ Hwf) as Hk.
  destruct L as [n col h]. cbn [line_count line_col line_cells] in *.
  assert (blank_from t (Z.max 24 (terminal_row t))) as Hb24 by (intros y x Hy Hx; apply Hb; lia).
  assert (c = BACKSPACE -> terminal_column t = 0 -> terminal_row t <= 24) as Hbs.
  { intros -> E0. unfold lay_char in E. cbn in E. destruct (Z.ltb_spec 0 col); [lia|done]. }
  destruct (screen_putchar_spec t c Hwf Hs Hb24 Hbs) as (b & v & p & H).
  unfold blank_from, blank in Hb. rewrite Hcol in *. rewrite <- Hcl in E.
  pose proof (grid_lays color c (terminal_row t) (terminal_column t) (grid_of t) n h L' Hrow ltac:(lia) Hk Hc Hb Hf E) as HL.
  destruct (grid_putchar _ _ _ _ _) as [[row' col'] g']. destruct H as (Et & H1 & Hs1 & Hg).
  destruct HL as (R1 & R2 & R3 & R4 & R5). pose proof (tw_row _ H1) as Hr1.
  assert (terminal_row (screen_putchar c t) = row' /\ terminal_column (screen_putchar c t) = col' /\
    terminal_color (screen_putchar c t) = color) as (T1 & T2 & T3) by by rewrite Et.
  rewrite T1 in Hr1. split; [|by rewrite Et]. split; try done.
  - by rewrite T1.
  - by rewrite T2.
  - intros y x Hy Hx. rewrite T1 in Hy. unfold blank. rewrite T3. etransitivity; [apply Hg; lia|by apply R4].
  - intros y x Hy Hx. rewrite T1 in *. etransitivity; [apply Hg; lia|by apply R3].
Qed.

(** ** The screen and the serial line *)

Lemma update_cursor_line t : line_of (ports (update_cursor t)) = line_of (ports t).
Proof. unfold update_cursor, outb. cbn [ports with_ports]. by rewrite !line_of_snoc. Qed.

Lemma next_line_line t : line_of (ports (terminal_next_line t)) = line_of (ports t).
Proof.
  unfold terminal_next_line. destruct (_ =? SCROLLBACK_LINES); [|by destruct (negb _)].
  unfold terminal_refresh_display. by rewrite update_cursor_line.
Qed.

Lemma putchar_at_line c color x y t : ports (terminal_putchar_at c color x y t) = ports t.
Proof. unfold terminal_putchar_at. destruct (_ =? 0); [|done]. by destruct (_ && _). Qed.

Lemma screen_putchar_line c t : line_of (ports (screen_putchar c t)) = line_of (ports t).
Proof.
  assert (line_of (ports (snap_back t)) = line_of (ports t)) as <-.
  { unfold snap_back. destruct (negb _); [|done]. unfold terminal_refresh_display. by rewrite update_cursor_line. }
  unfold screen_putchar, screen_print. generalize (snap_back t). clear t. intros t.
  destruct (c =? BACKSPACE); [|destruct (c =? NEWLINE)]; rewrite update_cursor_line.
  - rewrite putchar_at_line. destruct (0 <? _); [done|]. by destruct (0 <? _).
  - apply next_line_line.
  - destruct (_ =? VGA_WIDTH); [rewrite next_line_line|]; cbn [ports with_cursor]; by rewrite putchar_at_line.
Qed.

Lemma with_ports_laid color t L p : laid color t L -> laid color (with_ports p t) L.
Proof. intros [[] ? ? ? ? ? ? ?]. split; try done. Qed.

(** All cells of two screens. *)
Lemma vga_eq (v w : list Z) : lenZ v = 2000 -> lenZ w = 2000 ->
  (forall y x, 0 <= y < 25 -> 0 <= x < 80 -> cell v y x = cell w y x) -> v = w.
Proof.
  intros Hv Hw H. apply (list_eq_getZ 0); [congruence|]. intros i Hi. rewrite Hv in Hi.
  specialize (H (i / 80) (i mod 80) ltac:(divlia) ltac:(divlia)). unfold cell in H.
  rewrite <- (Z.div_mod i 80) in H by lia. exact H.
Qed.

(** Refreshing a screen that shows the buffer. *)
Lemma refresh_same t : term_wf t -> shows t -> VGA_MEMORY (terminal_refresh_display t) = VGA_MEMORY t.
Proof.
  intros H Hs. destruct (refresh_spec t H) as (v & p & -> & Hv & Hsh). cbn [VGA_MEMORY with_ports with_vga].
  apply vga_eq; [done|apply H|]. intros y x Hy Hx. rewrite Hs by done. by apply Hsh.
Qed.

Section output.
Context (device : trace -> Z -> Z) (fuel : nat) (serial_enabled : Z).
Implicit Types t : terminal.

Lemma terminal_putchar_run c t : responsive device fuel -> sane (ports t) -> serial_enabled <> 0 -> is_u8 c ->
  exists p, terminal_putchar device fuel serial_enabled c t = Ret (screen_putchar c (with_ports p t)) /\
    sane p /\ sent (line_of p) = sent (line_of (ports t)) ++ on_line c.
Proof.
  intros Hr Hs He Hc. destruct (serial_write_char_spec device fuel serial_enabled c (ports t) Hr Hs He Hc)
    as (p & E & Hs' & Hsent). exists p. split; [|done]. unfold terminal_putchar. by rewrite E.
Qed.

Lemma terminal_write_laid color text : forall t L L', responsive device fuel -> serial_enabled <> 0 ->
  sane (ports t) -> Forall (fun c => is_u8 c /\ c <> 0) text ->
  laid color t L -> lay_text color text L = Some L' ->
  exists t', terminal_write device fuel serial_enabled text t = Ret t' /\ laid color t' L' /\ sane (ports t') /\
    sent (line_of (ports t')) = sent (line_of (ports t)) ++ concat (on_line <$> text) /\
    (scroll_offset t = 0 -> scroll_offset t' = 0).
Proof.
  induction text as [|c text IH]; intros t L L' Hr He Hsane Htext Hl E; cbn [terminal_write lay_text] in *.
  - injection E as <-. exists t. split; [done|]. split; [done|]. split; [done|]. by rewrite app_nil_r.
  - apply Forall_cons in Htext as [[Hc Hc0] Htext]. rewrite eqb_sym_neg by done.
    destruct (lay_char color c L) as [L1|] eqn:E1; [|done].
    destruct (terminal_putchar_run c t Hr Hsane He Hc) as (p & -> & Hp & Hsent). cbn [mbind outcome_bind].
    destruct (laid_putchar color (with_ports p t) L c L1 (with_ports_laid color t L p Hl) E1) as [Hl1 Ho1].
    set (t1 := screen_putchar c (with_ports p t)) in *.
    assert (line_of (ports t1) = line_of p) as Hline by apply screen_putchar_line.
    destruct (IH t1 L1 L' Hr He) as (t' & E' & Hl' & Hsane' & Hsent' & Ho); [by unfold sane; rewrite Hline|done|done|done|].
    exists t'. split; [exact E'|]. split; [done|]. split; [done|]. split; [|auto].
    rewrite Hsent', Hline, Hsent, <- app_assoc. done.
Qed.
(** What is on a screen that holds a text. *)
Lemma laid_view color t L y x : laid color t L -> 0 <= y < 25 -> 0 <= x < 80 ->
  cell (VGA_MEMORY t) y x = line_cells L (Z.max 0 (line_count L - 25) - scroll_offset t + y) x.
Proof.
  intros [Hwf Hs Hcol Hrow Hcl Hb Hc Hf] Hy Hx. rewrite Hs by done. unfold view_start.
  pose proof (tw_offset _ Hwf) as Ho. pose proof (tw_row _ Hwf) as Hr. rewrite display_start_max in *.
  set (r := Z.max 0 (terminal_row t - 24) - scroll_offset t + y).
  destruct (Z.le_gt_cases r (terminal_row t)) as [Hle|Hgt].
  - unfold grid_of in Hc. rewrite Hc by lia. f_equal. unfold r. lia.
  - rewrite Hb by lia. unfold blank. rewrite Hcol. symmetry. apply Hf. unfold r in *. lia.
Qed.

Lemma initialize_laid t : lenZ (scroll_buffer t) = 16000 -> lenZ (VGA_MEMORY t) = 2000 ->
  laid 15 (terminal_initialize t) (empty_layout 15) /\ scroll_offset (terminal_initialize t) = 0 /\
  line_of (ports (terminal_initialize t)) = line_of (ports t).
Proof.
  intros Hb Hv. unfold terminal_initialize.
  change (SCROLLBACK_LINES * VGA_WIDTH) with 16000. change (VGA_HEIGHT * VGA_WIDTH) with 2000.
  set (t0 := Term _ _ 0 0 _ 0 _). change (scroll_buffer t0) with (scroll_buffer t).
  change (blank t0) with (vga_entry 32 15). set (e := vga_entry 32 15).
  destruct (fill_cells_spec 16000 e (scroll_buffer t)) as [Lb Fb]; [lia|].
  destruct (fill_cells_spec 2000 e (VGA_MEMORY t)) as [Lv Fv]; [lia|].
  change (VGA_MEMORY (with_buffer ?b t0)) with (VGA_MEMORY t). change (blank (with_buffer ?b t0)) with e.
  generalize dependent (fill_cells 16000 e (scroll_buffer t)). intros b Lb Fb.
  generalize dependent (fill_cells 2000 e (VGA_MEMORY t)). intros v Lv Fv.
  split; [|split; [done|exact (update_cursor_line (with_vga v (with_buffer b t0)))]].
  split; try done.
  - apply update_cursor_wf. split; cbn [scroll_buffer VGA_MEMORY with_vga with_buffer]; [congruence|congruence|done|done|done].
  - intros y x Hy Hx. unfold cell. cbn [VGA_MEMORY scroll_buffer update_cursor with_ports with_vga with_buffer].
    change (view_start _) with 0. rewrite Fv, Fb by lia. done.
  - intros y x Hy Hx. apply Fb. change (0 < y < 200) in Hy. lia.
  - intros y x Hy Hx. apply Fb. change (0 <= y <= 0) in Hy. lia.
Qed.

Lemma with_offset_laid color t L o : laid color t L -> 0 <= o <= display_start t ->
  let t' := terminal_refresh_display (with_offset o t) in laid color t' L /\ scroll_offset t' = o.
Proof.
  intros [Hwf Hs Hcol Hrow Hcl Hb Hc Hf] Ho. cbv zeta.
  assert (term_wf (with_offset o t)) as H1 by (destruct Hwf; by split).
  destruct (refresh_spec _ H1) as (v & p & -> & Hv & Hsh). split; [|done].
  split; try done. destruct H1. by split.
Qed.

(** ** Properties *)

(** C29. The fast paths of the screen are equivalent to drawing it anew: when a
    character is put on a screen that shows the 25 rows of the buffer from the
    current view, the live screen is restored if it was scrolled back, and the
    VGA memory ends up exactly as [terminal_refresh_display] would draw it; the
    cursor stays inside.  The exception is a backspace at column 0 of a row
    beyond the first screen. *)
Theorem terminal_putchar_refreshed c t :
  responsive device fuel -> serial_enabled <> 0 -> sane (ports t) -> is_u8 c ->
  term_wf t -> shows t -> blank_from t (Z.max 24 (terminal_row t)) ->
  (c = BACKSPACE -> terminal_column t = 0 -> terminal_row t <= 24) ->
  exists t', terminal_putchar device fuel serial_enabled c t = Ret t' /\
    VGA_MEMORY t' = VGA_MEMORY (terminal_refresh_display t') /\ scroll_offset t' = 0 /\ 0 <= cursor_pos t' < 2000 /\
    term_wf t' /\ shows t' /\ blank_from t' (Z.max 24 (terminal_row t')).
Proof.
  intros Hr He Hsane Hc Hwf Hs Hb Hbs.
  destruct (terminal_putchar_run c t Hr Hsane He Hc) as (p & E & _). exists (screen_putchar c (with_ports p t)).
  split; [exact E|]. assert (term_wf (with_ports p t)) as Hwf' by (destruct Hwf; by split).
  pose proof (screen_putchar_spec (with_ports p t) c Hwf' Hs Hb Hbs) as H.
  pose proof (fun y x Hy Hx => Hb y x Hy Hx : grid_of (with_ports p t) y x = blank t) as Hg0.
  clear E Hr He Hsane. set (t0 := with_ports p t) in *. change (blank t) with (blank t0) in Hg0.
  change (terminal_row t) with (terminal_row t0) in *. change (terminal_column t) with (terminal_column t0) in *.
  clearbody t0. pose proof (tw_row _ Hwf') as Hrow.
  unfold grid_putchar in H. destruct H as (b & v & p' & H).
  assert (exists row col g, grid_putchar (terminal_color t0) c (terminal_row t0) (terminal_column t0) (grid_of t0) = (row, col, g))
    as (row & col & g & Eg) by (destruct (grid_putchar _ _ _ _ _) as [[row col] g]; eauto).
  unfold grid_putchar in Eg. rewrite Eg in H. destruct H as (Et & H1 & Hs1 & Hg1).
  assert (forall y x, Z.max 24 row < y < 200 -> 0 <= x < 80 -> g y x = blank t0) as Hblank.
  { intros y x Hy Hx. unfold line_feed in Eg.
    destruct (c =? BACKSPACE) eqn:Ebs; [|destruct (c =? NEWLINE)].
    - apply Z.eqb_eq in Ebs. specialize (Hbs Ebs).
      destruct (Z.ltb_spec 0 (terminal_column t0)); [|destruct (Z.ltb_spec 0 (terminal_row t0))];
        injection Eg as <- <- <-; rewrite grid_put_other by lia; apply Hg0; pose proof (tw_column _ Hwf'); lia.
    - destruct (Z.eqb_spec (terminal_row t0) 199); injection Eg as <- <- <-; [lia|apply Hg0; lia].
    - destruct (_ + 1 =? 80); [destruct (Z.eqb_spec (terminal_row t0) 199)|]; injection Eg as <- <- <-;
        [lia|rewrite grid_put_other by lia; apply Hg0; lia..]. }
  assert (terminal_row (screen_putchar c t0) = row /\ blank (screen_putchar c t0) = blank t0 /\
    scroll_offset (screen_putchar c t0) = 0) as (T1 & T2 & T3) by by rewrite Et.
  pose proof H1 as [_ _ Hr1 Hc1 _].
  split; [symmetry; by apply refresh_same|]. split; [exact T3|]. split.
  - unfold cursor_pos. rewrite T3. cbn [Z.eqb negb]. rewrite display_start_max.
    unfold u16, VGA_WIDTH in *. rewrite Z.mod_small; lia.
  - split; [exact H1|]. split; [exact Hs1|]. intros y x Hy Hx. rewrite T1 in Hy. rewrite T2.
    etransitivity; [apply Hg1; lia|by apply Hblank].
Qed.

(** C28. A text written on a cleared terminal is what the screen then shows: its
    last 25 lines, laid out on 80 columns, and the text is sent on the serial
    line.  Scrolling back by any number of lines shows the lines before, as far
    as the 200 kept; scrolling forth again brings the screen back. *)
Theorem terminal_write_correct text t L :
  responsive device fuel -> serial_enabled <> 0 -> sane (ports t) ->
  lenZ (scroll_buffer t) = 16000 -> lenZ (VGA_MEMORY t) = 2000 ->
  Forall (fun c => is_u8 c /\ c <> 0) text -> lay_text 15 text (empty_layout 15) = Some L ->
  let start := Z.max 0 (line_count L - 25) in
  exists t', terminal_write device fuel serial_enabled text (terminal_initialize t) = Ret t' /\
    (forall y x, 0 <= y < 25 -> 0 <= x < 80 -> cell (VGA_MEMORY t') y x = line_cells L (start + y) x) /\
    sent (line_of (ports t')) = sent (line_of (ports t)) ++ concat (on_line <$> text) /\
    forall k, is_u32 k ->
      let t2 := terminal_scroll_up k t' in
      (forall y x, 0 <= y < 25 -> 0 <= x < 80 ->
         cell (VGA_MEMORY t2) y x = line_cells L (start - Z.min k (Z.min 175 start) + y) x) /\
      VGA_MEMORY (terminal_scroll_down k t2) = VGA_MEMORY t'.
Proof.
  intros Hr He Hsane Hb Hv Htext E start. destruct (initialize_laid t Hb Hv) as (Hl0 & Ho0 & Hline).
  destruct (terminal_write_laid 15 text (terminal_initialize t) (empty_layout 15) L Hr He) as (t' & Ew & Hl & _ & Hsent & Ho);
    [unfold sane; by rewrite Hline|done|exact Hl0|exact E|].
  specialize (Ho Ho0). rewrite Hline in Hsent. exists t'. split; [exact Ew|]. clear Ew.
  assert (display_start t' = Z.min 175 start) as Eds.
  { rewrite display_start_max, (ld_row _ _ _ Hl). unfold start. lia. }
  split; [intros y x Hy Hx; rewrite (laid_view 15 t' L y x Hl Hy Hx), Ho, Z.sub_0_r; done|].
  split; [exact Hsent|]. intros k Hk. unfold terminal_scroll_up. rewrite Ho, Z.add_0_l, (u32_id k Hk).
  fold (display_start t'). set (o := if display_start t' <? k then _ else _).
  assert (o = Z.min k (display_start t')) as Eo by (unfold o; zbool; lia). clearbody o. unfold_ints.
  destruct (with_offset_laid 15 t' L o Hl) as [Hl2 Ho2]; [rewrite Eo, display_start_max in *; lia|].
  set (t2 := terminal_refresh_display (with_offset o t')) in *. split.
  - intros y x Hy Hx. rewrite (laid_view 15 t2 L y x Hl2 Hy Hx), Ho2, Eo, Eds. done.
  - unfold terminal_scroll_down. rewrite Ho2. set (o' := if k <=? o then _ else _).
    assert (o' = 0) as Eo' by (unfold o'; zbool; lia). clearbody o'. subst o'.
    destruct (with_offset_laid 15 t2 L 0 Hl2) as [Hl3 Ho3]; [rewrite display_start_max; lia|].
    set (t3 := terminal_refresh_display (with_offset 0 t2)) in *.
    apply vga_eq; [apply Hl3|apply Hl|]. intros y x Hy Hx.
    by rewrite (laid_view 15 t3 L y x Hl3 Hy Hx), (laid_view 15 t' L y x Hl Hy Hx), Ho3, Ho.
Qed.

(** The exception is real: a backspace from row 25 back to row 24 moves the view
    by a row, and the screen is not drawn anew. *)
Lemma terminal_backspace_stale t : term_wf t -> shows t -> scroll_offset t = 0 ->
  terminal_row t = 25 -> terminal_column t = 0 -> cell (scroll_buffer t) 0 0 <> cell (scroll_buffer t) 1 0 ->
  let t' := screen_putchar BACKSPACE t in VGA_MEMORY t' <> VGA_MEMORY (terminal_refresh_display t').
Proof.
  intros Hwf Hs Ho Hr Hc Hne. cbv zeta. unfold screen_putchar, snap_back. rewrite Ho. cbn [Z.eqb negb].
  unfold screen_print. change (BACKSPACE =? BACKSPACE) with true. cbv iota. rewrite Hc, Hr. cbn [Z.ltb Z.compare Z.sub].
  set (t1 := with_cursor 24 79 t). pose proof Hwf as [Hb Hv _ _ _].
  change (with_cursor (25 - 1) (VGA_WIDTH - 1) t) with t1.
  assert (update_cursor (terminal_putchar_at SPACE (terminal_color t1) (terminal_column t1) (terminal_row t1) t1) =
    update_cursor (with_vga (setZ (VGA_MEMORY t) 1999 (vga_entry 32 (terminal_color t)))
      (with_buffer (setZ (scroll_buffer t) 1999 (vga_entry 32 (terminal_color t))) t1))) as ->.
  { unfold terminal_putchar_at. cbn [scroll_offset with_buffer t1 with_cursor]. rewrite Ho. done. }
  set (t2 := update_cursor _). intros E.
  assert (term_wf t2) as H2.
  { apply update_cursor_wf. split; cbn [scroll_buffer VGA_MEMORY with_vga with_buffer]; rewrite ?lenZ_setZ; try done.
    unfold t1. cbn [scroll_offset with_vga with_buffer with_cursor]. rewrite Ho. done. }
  destruct (refresh_spec t2 H2) as (v & p & Er & _ & Hsh). rewrite Er in E. cbn [VGA_MEMORY with_ports with_vga] in E.
  pose proof (Hsh 0 0 ltac:(lia) ltac:(lia) : cell v 0 0 = cell (scroll_buffer t2) (view_start t2 + 0) 0) as Hcell.
  assert (view_start t2 = 0) as Ev by (unfold view_start, t2, t1; cbn [scroll_offset update_cursor with_ports with_vga with_buffer with_cursor]; rewrite Ho; done).
  rewrite Ev, <- E in Hcell. clear Hsh. unfold cell in *.
  cbn [scroll_buffer VGA_MEMORY t2 update_cursor with_ports with_vga with_buffer] in Hcell.
  rewrite !getZ_setZ_ne in Hcell by lia. apply Hne. refine (eq_trans (eq_sym Hcell) _).
  specialize (Hs 0 0 ltac:(lia) ltac:(lia)). unfold cell in Hs. rewrite Hs. unfold view_start.
  rewrite display_start_max, Ho, Hr. reflexivity.
Qed.
End output.

Lemma terminal_write_correct_witness :
  let t := Term (replicate 16000 0) (replicate 2000 0) 0 0 0 0 (serial_init []).2 in
  exists t', terminal_write slow_uart 2 1 [72; 105; 10; 33] (terminal_initialize t) = Ret t' /\
    cell (VGA_MEMORY t') 0 1 = vga_entry 105 15 /\ cell (VGA_MEMORY t') 1 0 = vga_entry 33 15 /\
    sent (line_of (ports t')) = [72; 105; 13; 10; 33].
Proof.
  cbv zeta. destruct (lay_text 15 [72; 105; 10; 33] (empty_layout 15)) as [L|] eqn:E; [|discriminate E].
  destruct (terminal_write_correct slow_uart 2 1 [72; 105; 10; 33]
    (Term (replicate 16000 0) (replicate 2000 0) 0 0 0 0 (serial_init []).2) L slow_uart_responsive ltac:(lia))
    as (t' & Ew & Hv & Hs & _).
  - split; reflexivity.
  - reflexivity.
  - reflexivity.
  - repeat constructor; done.
  - exact E.
  - exists t'. split; [exact Ew|]. rewrite Hs, !Hv by lia. injection E as <-. split; [|split]; reflexivity.
Defined.

Lemma terminal_putchar_refreshed_witness :
  let t := terminal_initialize (Term (replicate 16000 0) (replicate 2000 0) 0 0 0 0 (serial_init []).2) in
  exists t', terminal_putchar slow_uart 2 1 65 t = Ret t' /\ VGA_MEMORY t' = VGA_MEMORY (terminal_refresh_display t').
Proof.
  cbv zeta. set (t0 := Term _ _ _ _ _ _ _). destruct (initialize_laid t0 eq_refl eq_refl) as (H & Ho & Hl).
  destruct (terminal_putchar_refreshed slow_uart 2 1 65 (terminal_initialize t0) slow_uart_responsive ltac:(lia))
    as (t' & E & Ev & _).
  - unfold sane. rewrite Hl. split; reflexivity.
  - unfold is_u8. lia.
  - apply H.
  - apply H.
  - intros y x Hy Hx. apply (ld_blank _ _ _ H); [lia|exact Hx].
  - discriminate.
  - exists t'. exact (conj E Ev).
Defined.
