(* ===== verification/Text.v ===== *)
(** * Text: the string and number routines of kernel/src/shell.c, main.c, vmalloc.c and kmalloc.c

    A C string is the list of its bytes, up to the first 0 or the end of the
    list.  A routine that prints is the text it writes, in the order of its calls
    of [terminal_write] and [terminal_putchar]. *)

From S2P Require Import Prelude.

(** The bytes of a literal. *)
Fixpoint text (s : string) : list Z :=
  match s with
  | EmptyString => []
  | String a s => Z.of_N (Ascii.N_of_ascii a) :: text s
  end.
Arguments text _%_string_scope.

(** [*str], 0 at the end, and [str + n]. *)
Definition deref (str : list Z) : Z := match str with [] => 0 | c :: _ => c end.

(** What [terminal_write] prints: the characters before the first 0. *)
Fixpoint cstr (str : list Z) : list Z :=
  match str with [] => [] | c :: str => if c =? 0 then [] else c :: cstr str end.

(** ** Comparing (kernel/src/shell.c) *)

Fixpoint strcmp (s1 s2 : list Z) : Z :=
  match s1 with
  | c :: s1' =>
      if negb (c =? 0) && (c =? deref s2) then strcmp s1' (drop 1 s2) else c - deref s2
  | [] => 0 - deref s2
  end.

Fixpoint strncmp (s1 s2 : list Z) (n : nat) {struct n} : Z :=
  match n with
  | O => 0
  | S n' =>
      match s1 with
      | c :: s1' =>
          if negb (c =? 0) && (c =? deref s2) then strncmp s1' (drop 1 s2) n' else c - deref s2
      | [] => 0 - deref s2
      end
  end.

(** ** Parsing *)

Definition is_digit (c : Z) : bool := (48 <=? c) && (c <=? 57).

Fixpoint parse_uint_loop (result : Z) (str : list Z) : Z :=
  match str with
  | c :: str => if is_digit c then parse_uint_loop (u32 (u32 (result * 10) + (c - 48))) str else result
  | [] => result
  end.
Definition parse_uint (str : list Z) : Z := parse_uint_loop 0 str.

(** The value of a hexadecimal digit. *)
Definition hex_value (c : Z) : option Z :=
  if (48 <=? c) && (c <=? 57) then Some (c - 48)
  else if (97 <=? c) && (c <=? 102) then Some (c - 97 + 10)
  else if (65 <=? c) && (c <=? 70) then Some (c - 65 + 10)
  else None.

Fixpoint parse_hex_loop (result : Z) (str : list Z) : Z :=
  match str with
  | c :: str =>
      match hex_value c with
      | Some d => parse_hex_loop (Z.lor (u32 (Z.shiftl result 4)) d) str
      | None => result
      end
  | [] => result
  end.

Definition parse_hex (str : list Z) : Z :=
  parse_hex_loop 0
    (if (deref str =? 48) && ((deref (drop 1 str) =? 120) || (deref (drop 1 str) =? 88))
     then drop 2 str else str).

Fixpoint skip_spaces (str : list Z) : list Z :=
  match str with
  | c :: str' => if c =? 32 then skip_spaces str' else str
  | [] => []
  end.

(** [while ( *args && *args != ' ') args++;] *)
Fixpoint skip_word (str : list Z) : list Z :=
  match str with
  | c :: str' => if negb (c =? 0) && negb (c =? 32) then skip_word str' else str
  | [] => []
  end.

(** ** Printing *)

Definition hex_chars : list Z := text "0123456789ABCDEF".
Definition hex_char (d : Z) : Z := getZ 0 hex_chars d.

(** [for (i = 7; i >= 0; i--) { str[i] = hex_chars[num & 0xF]; num >>= 4; }];
    [n] is [i + 1]. *)
Fixpoint hex_loop (n : nat) (num : Z) (str : list Z) : list Z :=
  match n with
  | O => str
  | S i => hex_loop i (Z.shiftr num 4) (setZ str (Z.of_nat i) (hex_char (Z.land num 15)))
  end.

(** [print_hex] of main.c and [print_hex_vm] of vmalloc.c; the buffer is written
    before it is read. *)
Definition print_hex (num : Z) : list Z := cstr (hex_loop 8 num (setZ (replicate 9 0) 8 0)).

Definition shell_print_hex (num : Z) : list Z := text "0x" ++ print_hex num.

(** [while (num > 0 && i >= 0) { buf[i--] = '0' + num % 10; num /= 10; }]; [n] is
    [i + 1], which is returned with the buffer. *)
Fixpoint dec_loop (n : nat) (num : Z) (buf : list Z) : nat * list Z :=
  match n with
  | O => (O, buf)
  | S i => if 0 <? num then dec_loop i (num / 10) (setZ buf (Z.of_nat i) (48 + num mod 10)) else (n, buf)
  end.

Definition shell_print_dec (num : Z) : list Z :=
  if num =? 0 then text "0" else
  let '(n, buf) := dec_loop 11 num (setZ (replicate 12 0) 11 0) in cstr (drop n buf).

Definition shell_print_size (bytes : Z) : list Z :=
  if 1024 * 1024 <=? bytes then shell_print_dec (bytes / (1024 * 1024)) ++ text " MB"
  else if 1024 <=? bytes then shell_print_dec (bytes / 1024) ++ text " KB"
  else shell_print_dec bytes ++ text " bytes".

Definition shell_print_byte (byte : Z) : list Z :=
  [hex_char (Z.land (Z.shiftr byte 4) 15); hex_char (Z.land byte 15)].

(** [while (temp > 0) { buf[i++] = '0' + temp % 10; temp /= 10; }
     while (i > 0) terminal_putchar(buf[--i]);]: ten digits are enough. *)
Fixpoint push_digits (n : nat) (temp i : Z) (buf : list Z) : Z * list Z :=
  match n with
  | O => (i, buf)
  | S n => if 0 <? temp then push_digits n (temp / 10) (i + 1) (setZ buf i (48 + temp mod 10)) else (i, buf)
  end.

Definition pop_digits (i : Z) (buf : list Z) : list Z :=
  for_range 0 i (fun k out => out ++ [getZ 0 buf (i - 1 - k)]) [].

Definition print_pushed (num : Z) : list Z :=
  let '(i, buf) := push_digits 10 num 0 (replicate 16 0) in pop_digits i buf.

(** [print_memory_size] of main.c. *)
Definition print_memory_size (bytes : Z) : list Z :=
  if 1024 * 1024 <=? bytes then
    let mb := bytes / (1024 * 1024) in
    let kb_remainder := bytes mod (1024 * 1024) / 1024 in
    (if mb =? 0 then text "0" else print_pushed mb) ++ text " MB" ++
    (if 0 <? kb_remainder then text " " ++ print_pushed kb_remainder ++ text " KB" else [])
  else if 1024 <=? bytes then print_pushed (bytes / 1024) ++ text " KB"
  else (if bytes =? 0 then text "0" else print_pushed bytes) ++ text " bytes".

(** ** Dumping memory; [rd] reads a byte *)

Section dump.
Context (rd : Z -> Z) (addr_text : Z -> list Z).

Definition gap (j : Z) : list Z := if j =? 7 then text " " else [].

(** [for (j = lo; j < hi; j++) ...] printing. *)
Definition for_text (lo hi : Z) (f : Z -> list Z) : list Z :=
  for_range lo hi (fun j out => out ++ f j) [].

Definition printable (c : Z) : Z := if (32 <=? c) && (c <? 127) then c else 46.

Definition dump_row (addr size i : Z) : list Z :=
  let count := Z.min 16 (size - i) in
  addr_text (u32 (addr + i)) ++ text ": " ++
  for_text 0 count (fun j => shell_print_byte (rd (u32 (addr + (i + j)))) ++ text " " ++ gap j) ++
  for_text count 16 (fun j => text "   " ++ gap j) ++
  text " |" ++
  for_text 0 count (fun j => [printable (rd (u32 (addr + (i + j))))]) ++
  text "|" ++ [10].

(** [for (i = 0; i < size; i += 16)]: at most a row for each byte. *)
Fixpoint dump_loop (n : nat) (addr size i : Z) : list Z :=
  match n with
  | O => []
  | S n => if i <? size then dump_row addr size i ++ dump_loop n addr size (i + 16) else []
  end.
End dump.

Definition shell_hexdump (rd : Z -> Z) (addr size : Z) : list Z :=
  dump_loop rd shell_print_hex (Z.to_nat size) addr size 0.

(** [print_stack_dump] of main.c. *)
Definition print_stack_dump (rd : Z -> Z) (addr size : Z) : list Z :=
  dump_loop rd print_hex (Z.to_nat size) addr size 0.

Example dec_1234567890 : shell_print_dec 4294967295 = text "4294967295". Proof. reflexivity. Qed.
Example hex_beef : shell_print_hex 48879 = text "0x0000BEEF". Proof. reflexivity. Qed.
Example size_120 : print_memory_size (120 * 1048576 + 5 * 1024 + 3) = text "120 MB 5 KB". Proof. reflexivity. Qed.
Example parse_1 : parse_hex (text "0xBeeFz12") = 48879. Proof. reflexivity. Qed.

(** ** Digits *)

(** The digits of [num] in base [b], the units first: all [n] of them, or up to
    the last one that is not 0. *)
Fixpoint all_digits (n : nat) (b num : Z) : list Z :=
  match n with O => [] | S n => num mod b :: all_digits n b (num / b) end.
Fixpoint digits (n : nat) (b num : Z) : list Z :=
  match n with O => [] | S n => if 0 <? num then num mod b :: digits n b (num / b) else [] end.

Definition value (b : Z) (l : list Z) : Z := foldr (fun d v => d + b * v) 0 l.

(** Reading the digits from the first one. *)
Definition read (b r : Z) (l : list Z) : Z := foldl (fun r d => r * b + d) r l.

Lemma read_rev b l r : read b r (rev l) = r * b ^ lenZ l + value b l.
Proof.
  unfold read, lenZ. revert r. induction l as [|d l IH]; intros r; cbn [rev foldl value foldr length].
  { rewrite Z.pow_0_r. lia. }
  rewrite foldl_app, IH. cbn [foldl]. rewrite Nat2Z.inj_succ, Z.pow_succ_r by lia. unfold value. ring.
Qed.

Lemma value_all_digits n b num : 0 < b -> 0 <= num < b ^ Z.of_nat n -> value b (all_digits n b num) = num.
Proof.
  intros Hb. revert num. induction n as [|n IH]; intros num H; cbn [all_digits].
  { cbn in *. lia. }
  rewrite Nat2Z.inj_succ, Z.pow_succ_r in H by lia.
  change (num mod b + b * value b (all_digits n b (num / b)) = num). rewrite IH.
  - pose proof (Z.div_mod num b ltac:(lia)). lia.
  - split; [apply Z.div_pos; lia|]. apply Z.div_lt_upper_bound; lia.
Qed.

Lemma value_digits n b num : 0 < b -> 0 <= num < b ^ Z.of_nat n -> value b (digits n b num) = num.
Proof.
  intros Hb. revert num. induction n as [|n IH]; intros num H; cbn [digits].
  { cbn in *. lia. }
  rewrite Nat2Z.inj_succ, Z.pow_succ_r in H by lia. destruct (Z.ltb_spec 0 num); [|cbn; lia].
  change (num mod b + b * value b (digits n b (num / b)) = num). rewrite IH.
  - pose proof (Z.div_mod num b ltac:(lia)). lia.
  - split; [apply Z.div_pos; lia|]. apply Z.div_lt_upper_bound; lia.
Qed.

Lemma digits_range n b num : 0 < b -> Forall (fun d => 0 <= d < b) (digits n b num).
Proof.
  intros Hb. revert num. induction n as [|n IH]; intros num; cbn [digits]; [done|].
  case_match; [|done]. constructor; [apply Z.mod_pos_bound; lia|apply IH].
Qed.

Lemma all_digits_range n b num : 0 < b -> Forall (fun d => 0 <= d < b) (all_digits n b num).
Proof.
  intros Hb. revert num. induction n as [|n IH]; intros num; cbn [all_digits]; [done|].
  constructor; [apply Z.mod_pos_bound; lia|apply IH].
Qed.

Lemma length_all_digits n b num : length (all_digits n b num) = n.
Proof. revert num. induction n; intros; cbn; auto. Qed.

Lemma length_digits n b num : (length (digits n b num) <= n)%nat.
Proof. revert num. induction n as [|n IH]; intros; cbn; [lia|]. case_match; cbn; [|lia]. specialize (IH (num / b)). lia. Qed.

(** The most significant digit is not 0. *)
Lemma digits_leading n b num : 1 < b -> 0 < num < b ^ Z.of_nat n -> exists l d, digits n b num = l ++ [d] /\ 0 < d < b.
Proof.
  intros Hb. revert num. induction n as [|n IH]; intros num H; cbn [digits]; [cbn in H; lia|].
  rewrite Nat2Z.inj_succ, Z.pow_succ_r in H by lia. destruct (Z.ltb_spec 0 num); [|lia].
  pose proof (Z.mod_pos_bound num b ltac:(lia)). pose proof (Z.div_mod num b ltac:(lia)).
  assert (num / b < b ^ Z.of_nat n) by (apply Z.div_lt_upper_bound; lia).
  pose proof (Z.div_pos num b ltac:(lia) ltac:(lia)).
  destruct (Z.eq_dec (num / b) 0) as [E|].
  - exists [], (num mod b). rewrite E. split; [|lia]. destruct n; done.
  - destruct (IH (num / b)) as (l & d & E & Hd); [lia|]. exists (num mod b :: l), d. rewrite E. done.
Qed.

(** ** The printing loops write the digits *)

Lemma drop_setZ_cons (buf : list Z) i c : (i < length buf)%nat ->
  drop i (setZ buf (Z.of_nat i) c) = c :: drop (S i) buf.
Proof.
  intros Hi. unfold setZ. destruct (Z.ltb_spec (Z.of_nat i) 0); [lia|]. rewrite Nat2Z.id.
  rewrite (drop_S _ c i) by (apply list_lookup_insert_eq; done). f_equal. apply drop_insert_lt. lia.
Qed.

Lemma length_setZ {A} (l : list A) i v : length (setZ l i v) = length l.
Proof. unfold setZ. case_match; [done|apply length_insert]. Qed.

Lemma dec_loop_spec n : forall num buf, (n <= length buf)%nat ->
  let '(n', buf') := dec_loop n num buf in
  drop n' buf' = map (Z.add 48) (rev (digits n 10 num)) ++ drop n buf.
Proof.
  induction n as [|i IH]; intros num buf Hn; cbn [dec_loop digits]; [done|].
  destruct (0 <? num); [|done].
  specialize (IH (num / 10) (setZ buf (Z.of_nat i) (48 + num mod 10))). rewrite length_setZ in IH.
  destruct (dec_loop i _ _) as [n' buf']. rewrite IH by lia. rewrite drop_setZ_cons by lia.
  cbn [rev]. rewrite map_app, <- app_assoc. done.
Qed.

Lemma hex_loop_spec n : forall num buf, (n <= length buf)%nat ->
  hex_loop n num buf = map hex_char (rev (all_digits n 16 num)) ++ drop n buf.
Proof.
  induction n as [|i IH]; intros num buf Hn; cbn [hex_loop all_digits]; [done|].
  rewrite IH by (rewrite length_setZ; lia). rewrite drop_setZ_cons by lia.
  cbn [rev]. rewrite map_app, <- app_assoc. change 15 with (Z.ones 4). rewrite Z.land_ones, Z.shiftr_div_pow2 by lia. done.
Qed.

Lemma push_digits_spec n : forall num i buf, 0 <= i -> i + Z.of_nat n <= lenZ buf ->
  let '(i', buf') := push_digits n num i buf in
  i' = i + lenZ (digits n 10 num) /\ lenZ buf' = lenZ buf /\
  forall k, getZ 0 buf' k = if (i <=? k) && (k <? i') then 48 + getZ 0 (digits n 10 num) (k - i) else getZ 0 buf k.
Proof.
  induction n as [|n IH]; intros num i buf Hi Hn; cbn [push_digits digits].
  { split; [unfold lenZ; cbn [length]; lia|]. split; [done|]. intros k. zbool; cbn [andb]; try done; lia. }
  destruct (0 <? num).
  2:{ split; [unfold lenZ; cbn [length]; lia|]. split; [done|]. intros k. zbool; cbn [andb]; try done; lia. }
  specialize (IH (num / 10) (i + 1) (setZ buf i (48 + num mod 10)) ltac:(lia)). rewrite lenZ_setZ in IH.
  destruct (push_digits n _ _ _) as [i' buf']. destruct IH as (Ei & El & Hk); [lia|].
  assert (0 <= lenZ (digits n 10 (num / 10))) by (unfold lenZ; lia).
  split; [unfold lenZ in *; cbn [length]; lia|]. split; [done|]. intros k. rewrite Hk, getZ_setZ by lia.
  assert (getZ 0 (num mod 10 :: digits n 10 (num / 10)) (k - i) =
    if k =? i then num mod 10 else getZ 0 (digits n 10 (num / 10)) (k - (i + 1))) as ->.
  { unfold getZ. destruct (Z.eqb_spec k i) as [->|]; [by rewrite Z.sub_diag|].
    zbool; try done; try lia. by replace (Z.to_nat (k - i)) with (S (Z.to_nat (k - (i + 1)))) by lia. }
  zbool; cbn [andb]; try done; try lia.
Qed.

Lemma cstr_app s : Forall (fun c => c <> 0) s -> forall rest, cstr (s ++ 0 :: rest) = s.
Proof.
  induction 1 as [|c s Hc _ IH]; intros rest; cbn; [done|]. destruct (Z.eqb_spec c 0); [done|]. by rewrite IH.
Qed.

Lemma hex_char_spec d : 0 <= d < 16 -> hex_value (hex_char d) = Some d /\ hex_char d <> 0 /\ hex_char d <> 120 /\ hex_char d <> 88 /\ is_u8 (hex_char d).
Proof.
  intros Hd. assert (d ∈ seqZ 0 16) as Hin by (apply elem_of_seqZ; lia). clear Hd.
  revert d Hin. apply Forall_forall. vm_compute. repeat constructor; congruence.
Qed.

Lemma print_hex_eq num : print_hex num = map hex_char (rev (all_digits 8 16 num)).
Proof.
  unfold print_hex. rewrite hex_loop_spec by (rewrite length_setZ; cbn; lia). apply cstr_app.
  apply Forall_map, Forall_rev. eapply Forall_impl; [apply all_digits_range; lia|]. intros d Hd. by apply hex_char_spec.
Qed.

Lemma print_dec_eq num : is_u32 num -> shell_print_dec num = if num =? 0 then [48] else map (Z.add 48) (rev (digits 11 10 num)).
Proof.
  intros Hn. unfold shell_print_dec. destruct (Z.eqb_spec num 0); [done|].
  pose proof (dec_loop_spec 11 num (setZ (replicate 12 0) 11 0) ltac:(rewrite length_setZ; cbn; lia)) as H.
  destruct (dec_loop _ _ _) as [k buf]. rewrite H. apply cstr_app.
  apply Forall_map, Forall_rev. eapply Forall_impl; [apply digits_range; lia|]. cbn. intros d Hd. lia.
Qed.

(** ** Parsing reads the digits *)

Lemma is_digit_add d : 0 <= d < 10 -> is_digit (48 + d) = true.
Proof. intros. unfold is_digit. zbool; try lia; done. Qed.

Lemma u32_mul_add r b d : u32 (u32 (u32 r * b) + d) = u32 (r * b + d).
Proof. unfold u32. rewrite Z.mul_mod_idemp_l, Z.add_mod_idemp_l by lia. done. Qed.

Lemma parse_uint_digits ds rest : Forall (fun d => 0 <= d < 10) ds -> is_digit (deref rest) = false ->
  forall r, parse_uint_loop (u32 r) (map (Z.add 48) ds ++ rest) = u32 (read 10 r ds).
Proof.
  intros Hds Hrest. induction Hds as [|d ds Hd _ IH]; intros r; cbn [map app].
  { unfold read. cbn [foldl]. destruct rest as [|c rest]; [done|]. cbn in *. by rewrite Hrest. }
  cbn [parse_uint_loop]. rewrite is_digit_add by done. replace (48 + d - 48) with d by lia.
  rewrite u32_mul_add. apply IH.
Qed.

Lemma lor_shiftl a k d : 0 <= k -> 0 <= d < 2 ^ k -> Z.lor (Z.shiftl a k) d = a * 2 ^ k + d.
Proof.
  intros Hk Hd. rewrite <- Z.shiftl_mul_pow2, <- Z.add_lor_land by lia.
  assert (Z.land (Z.shiftl a k) d = 0) as ->; [|lia].
  apply Z.bits_inj'. intros n Hn. rewrite Z.land_spec, Z.bits_0, Z.shiftl_spec by done. destruct (Z.ltb_spec n k).
  - rewrite (Z.testbit_neg_r _ (n - k)) by lia. done.
  - rewrite <- (Z.mod_small d (2 ^ k)), Z.mod_pow2_bits_high by lia. apply andb_false_r.
Qed.

(** A digit pushed into the 32 bits of the result. *)
Lemma push_nibble r d : 0 <= d < 16 -> Z.lor (u32 (Z.shiftl (u32 r) 4)) d = u32 (r * 16 + d).
Proof.
  intros Hd. assert (u32 (Z.shiftl (u32 r) 4) = Z.shiftl (r mod 2 ^ 28) 4) as ->.
  { rewrite !Z.shiftl_mul_pow2 by lia. unfold u32. rewrite Z.mul_mod_idemp_l by lia.
    change 4294967296 with (2 ^ 28 * 2 ^ 4). by rewrite Z.mul_mod_distr_r. }
  rewrite lor_shiftl by lia. change (2 ^ 4) with 16. unfold u32. change (2 ^ 28) with 268435456. divlia.
Qed.

Lemma parse_hex_digits ds rest : Forall (fun d => 0 <= d < 16) ds -> hex_value (deref rest) = None ->
  forall r, parse_hex_loop (u32 r) (map hex_char ds ++ rest) = u32 (read 16 r ds).
Proof.
  intros Hds Hrest. induction Hds as [|d ds Hd _ IH]; intros r; cbn [map app].
  { unfold read. cbn [foldl]. destruct rest as [|c rest]; [done|]. cbn [deref] in Hrest. cbn [parse_hex_loop]. by rewrite Hrest. }
  cbn [parse_hex_loop]. rewrite (proj1 (hex_char_spec d Hd)), push_nibble by done. apply IH.
Qed.

(** More room than needed changes nothing. *)
Lemma digits_more n m b num : 1 < b -> 0 <= num < b ^ Z.of_nat n -> (n <= m)%nat -> digits m b num = digits n b num.
Proof.
  intros Hb. revert m num. induction n as [|n IH]; intros m num H Hm.
  { cbn in H. destruct m; cbn; [done|]. destruct (Z.ltb_spec 0 num); [lia|done]. }
  destruct m as [|m]; [lia|]. cbn [digits]. rewrite Nat2Z.inj_succ, Z.pow_succ_r in H by lia.
  destruct (0 <? num); [|done]. f_equal. apply IH; [|lia].
  split; [apply Z.div_pos; lia|]. apply Z.div_lt_upper_bound; lia.
Qed.

Lemma pop_digits_spec ds buf : (forall k, 0 <= k < lenZ ds -> getZ 0 buf k = 48 + getZ 0 ds k) ->
  pop_digits (lenZ ds) buf = map (Z.add 48) (rev ds).
Proof.
  intros Hk. unfold pop_digits.
  assert (lenZ ds = lenZ (rev ds)) as El by (unfold lenZ; by rewrite length_rev).
  assert (for_range 0 (lenZ ds) (fun k out => out ++ [getZ 0 buf (lenZ ds - 1 - k)]) [] =
    map (Z.add 48) (take (Z.to_nat (lenZ ds)) (rev ds))) as ->.
  2:{ rewrite El. unfold lenZ. by rewrite Nat2Z.id, firstn_all. }
  apply (for_range_ind _ (fun k out => out = map (Z.add 48) (take (Z.to_nat k) (rev ds)))); [unfold lenZ; lia|done|].
  intros k out Hr ->. rewrite Hk by lia. replace (Z.to_nat (k + 1)) with (S (Z.to_nat k)) by lia.
  rewrite (take_S_r _ _ (getZ 0 ds (lenZ ds - 1 - k))); [by rewrite map_app|].
  assert (rev ds = reverse ds) as -> by apply rev_alt.
  rewrite reverse_lookup by (unfold lenZ in *; lia). rewrite <- (getZ_lookup 0) by lia.
  f_equal. unfold lenZ in *. lia.
Qed.

(** The sizes of main.c are printed with the same digits. *)
Lemma print_pushed_eq num : 0 < num < 4294967296 -> print_pushed num = shell_print_dec num.
Proof.
  intros Hn. rewrite print_dec_eq by (unfold is_u32; lia). destruct (Z.eqb_spec num 0); [lia|]. unfold print_pushed.
  pose proof (push_digits_spec 10 num 0 (replicate 16 0) ltac:(lia) ltac:(rewrite lenZ_replicate; lia)) as H.
  destruct (push_digits _ _ _ _) as [i buf]. destruct H as (-> & _ & Hk). rewrite Z.add_0_l in *.
  rewrite pop_digits_spec.
  - rewrite (digits_more 10 11) by (try lia; cbn; lia). done.
  - intros k Hr. rewrite Hk. destruct (Z.leb_spec 0 k); [|lia]. destruct (Z.ltb_spec k (lenZ (digits 10 10 num))); [|lia].
    cbn [andb]. by rewrite Z.sub_0_r.
Qed.

Lemma print_memory_size_eq bytes : is_u32 bytes ->
  print_memory_size bytes =
    if bytes <? 1048576 then shell_print_size bytes
    else shell_print_size bytes ++
      (if bytes mod 1048576 <? 1024 then [] else text " " ++ shell_print_dec (bytes mod 1048576 / 1024) ++ text " KB").
Proof.
  intros Hb. unfold is_u32 in Hb. unfold print_memory_size, shell_print_size. change (1024 * 1024) with 1048576.
  destruct (Z.leb_spec 1048576 bytes).
  - destruct (Z.ltb_spec bytes 1048576); [lia|].
    assert (0 < bytes / 1048576 < 4294967296) as Hmb by (split; divlia).
    destruct (Z.eqb_spec (bytes / 1048576) 0); [lia|]. rewrite print_pushed_eq by done. rewrite <- app_assoc. do 2 f_equal.
    pose proof (Z.mod_pos_bound bytes 1048576 ltac:(lia)).
    destruct (Z.ltb_spec (bytes mod 1048576) 1024); destruct (Z.ltb_spec 0 (bytes mod 1048576 / 1024));
      [divlia|done| |divlia]. by rewrite print_pushed_eq by (split; [done|divlia]).
  - destruct (Z.ltb_spec bytes 1048576); [|lia]. destruct (Z.leb_spec 1024 bytes).
    + rewrite print_pushed_eq; [done|]. split; divlia.
    + destruct (Z.eqb_spec bytes 0) as [->|]; [done|]. rewrite print_pushed_eq by lia. done.
Qed.

(** ** Comparing *)

Lemma strcmp_zero s1 : forall s2, strcmp s1 s2 = 0 <-> cstr s1 = cstr s2.
Proof.
  induction s1 as [|c s1 IH]; intros s2; cbn [strcmp cstr].
  - destruct s2 as [|d s2]; cbn [deref cstr]; [done|]. destruct (Z.eqb_spec d 0) as [->|]; [done|]. split; [lia|done].
  - destruct (Z.eqb_spec c 0) as [->|Hc]; cbn [negb andb].
    + destruct s2 as [|d s2]; cbn [deref cstr]; [done|]. destruct (Z.eqb_spec d 0) as [->|]; [done|]. split; [lia|done].
    + destruct s2 as [|d s2]; cbn [deref cstr drop].
      { destruct (Z.eqb_spec c 0); [done|]. split; [lia|done]. }
      destruct (Z.eqb_spec c d) as [<-|Hd].
      * destruct (Z.eqb_spec c 0); [done|]. rewrite drop_0, IH. split; [by intros ->|by intros [=]].
      * split; [lia|]. destruct (Z.eqb_spec d 0); intros [=]; done.
Qed.

Lemma strncmp_zero n : forall s1 s2, strncmp s1 s2 n = 0 <-> take n (cstr s1) = take n (cstr s2).
Proof.
  induction n as [|n IH]; intros s1 s2; cbn [strncmp]; [by rewrite !take_0|].
  destruct s1 as [|c s1]; cbn [cstr].
  - destruct s2 as [|d s2]; cbn [deref cstr]; [done|]. destruct (Z.eqb_spec d 0) as [->|]; [done|]. split; [lia|done].
  - destruct (Z.eqb_spec c 0) as [->|Hc]; cbn [negb andb].
    + destruct s2 as [|d s2]; cbn [deref cstr]; [done|]. destruct (Z.eqb_spec d 0) as [->|]; [done|]. split; [lia|done].
    + destruct s2 as [|d s2]; cbn [deref cstr drop].
      { destruct (Z.eqb_spec c 0); [done|]. split; [lia|done]. }
      destruct (Z.eqb_spec c d) as [<-|Hd].
      * destruct (Z.eqb_spec c 0); [done|]. rewrite drop_0, IH. cbn [take]. split; [by intros ->|by intros [=]].
      * split; [lia|]. destruct (Z.eqb_spec d 0); cbn [take]; intros [=]; done.
Qed.

(** ** Properties *)

Lemma hex_head num : let s := print_hex num in deref (drop 1 s) <> 120 /\ deref (drop 1 s) <> 88.
Proof.
  cbv zeta. rewrite print_hex_eq. pose proof (all_digits_range 8 16 num ltac:(lia)) as H.
  assert (length (rev (all_digits 8 16 num)) = 8%nat) as El by (rewrite length_rev; apply length_all_digits).
  apply Forall_rev in H. destruct (rev (all_digits 8 16 num)) as [|a [|b l]]; try done.
  rewrite !Forall_cons in H. destruct H as (_ & Hb & _). destruct (hex_char_spec b Hb) as (_ & _ & ? & ? & _). done.
Qed.

Lemma parse_hex_loop_print num rest : is_u32 num -> hex_value (deref rest) = None -> parse_hex_loop 0 (print_hex num ++ rest) = num.
Proof.
  intros Hn Hrest. rewrite print_hex_eq. change 0 with (u32 0) at 1.
  rewrite parse_hex_digits; [|apply Forall_rev, all_digits_range; lia|done].
  rewrite read_rev, value_all_digits by (try lia; exact Hn). rewrite Z.mul_0_l. by apply u32_id.
Qed.

Lemma parse_hex_print num rest : is_u32 num -> hex_value (deref rest) = None -> parse_hex (print_hex num ++ rest) = num.
Proof.
  intros Hn Hrest. unfold parse_hex. pose proof (hex_head num) as [Hx HX]. 
  assert (exists a b l, print_hex num = a :: b :: l) as (a & b & l & E).
  { rewrite print_hex_eq. pose proof (length_all_digits 8 16 num) as H. rewrite <- length_rev in H.
    destruct (rev _) as [|a [|b l]]; try done. by do 3 eexists. }
  assert (deref (drop 1 (print_hex num ++ rest)) = deref (drop 1 (print_hex num))) as -> by by rewrite E.
  rewrite (eqb_sym_neg _ _ Hx), (eqb_sym_neg _ _ HX), andb_false_r. by apply parse_hex_loop_print.
Qed.

Lemma parse_uint_print num rest : is_u32 num -> is_digit (deref rest) = false -> parse_uint (shell_print_dec num ++ rest) = num.
Proof.
  intros Hn Hrest. unfold parse_uint. rewrite print_dec_eq by done. destruct (Z.eqb_spec num 0) as [->|].
  - change [48] with (map (Z.add 48) [0]). change 0 with (u32 0) at 1. rewrite parse_uint_digits; [done|by repeat constructor|done].
  - change 0 with (u32 0) at 1. rewrite parse_uint_digits; [|apply Forall_rev, digits_range; lia|done].
    rewrite read_rev, value_digits by (try lia; unfold is_u32 in *; cbn; lia). rewrite Z.mul_0_l. by apply u32_id.
Qed.

Lemma dec_length num : is_u32 num -> (length (shell_print_dec num) <= 10)%nat.
Proof.
  intros Hn. rewrite print_dec_eq by done. case_match; [cbn; lia|]. rewrite length_map, length_rev.
  rewrite (digits_more 10 11) by (try lia; unfold is_u32 in Hn; cbn; lia). apply length_digits.
Qed.

(** C31. Numbers printed by the shell are read back by its parsers: in decimal,
    and in hexadecimal with or without the [0x], whatever follows that is no
    digit.  A decimal has no leading zero and fits in the 11 cells of its buffer,
    a hexadecimal has 8 digits; the routines of main.c, which push the digits and
    pop them, print the same decimals. *)
Theorem text_roundtrip num rest : is_u32 num ->
  (is_digit (deref rest) = false -> parse_uint (shell_print_dec num ++ rest) = num) /\
  (hex_value (deref rest) = None -> parse_hex (print_hex num ++ rest) = num /\ parse_hex (shell_print_hex num ++ rest) = num) /\
  (0 < num -> 48 < deref (shell_print_dec num) /\ print_pushed num = shell_print_dec num) /\
  Forall (fun c => is_digit c = true) (shell_print_dec num) /\ (length (shell_print_dec num) <= 10)%nat /\
  length (print_hex num) = 8%nat.
Proof.
  intros Hn. split; [by apply parse_uint_print|]. split.
  - intros Hrest. split; [by apply parse_hex_print|]. unfold parse_hex, shell_print_hex. cbn [text app deref drop].
    rewrite drop_0. by apply parse_hex_loop_print.
  - split.
    + intros Hp. split; [|apply print_pushed_eq; unfold is_u32 in Hn; lia]. rewrite print_dec_eq by done.
      destruct (Z.eqb_spec num 0); [lia|].
      destruct (digits_leading 11 10 num) as (l & d & E & Hd); [lia|unfold is_u32 in Hn; cbn; lia|].
      rewrite E, rev_app_distr. cbn. lia.
    + split; [|split].
      * rewrite print_dec_eq by done. case_match; [by repeat constructor|].
        apply Forall_map, Forall_rev. eapply Forall_impl; [apply digits_range; lia|]. intros d Hd. by apply is_digit_add.
      * by apply dec_length.
      * rewrite print_hex_eq, length_map, length_rev. apply length_all_digits.
Qed.

Lemma text_roundtrip_witness :
  parse_uint (shell_print_dec 4096 ++ text " bytes") = 4096 /\ parse_hex (shell_print_hex 753664 ++ text ": ") = 753664.
Proof.
  destruct (text_roundtrip 4096 (text " bytes")) as (H & _); [unfold is_u32; lia|].
  destruct (text_roundtrip 753664 (text ": ")) as (_ & H2 & _); [unfold is_u32; lia|].
  split; [apply H; reflexivity|apply H2; reflexivity].
Defined.
