(* ===== verification/Panic.v ===== *)
(** * Kernel panics: kernel/src/panic.c, kernel/include/panic.h

    What a panic saves and reports before the machine halts: the registers and
    the top of the stack, the report on the screen, written straight into the VGA
    memory, and on the serial line.  The state returned is the one in which the
    processor stops. *)

From S2P Require Import Prelude Memory Ring Signals Text Serial Idt Terminal.

Record panic_context := PanicContext {
  valid : Z;
  has_registers : Z;
  saved_stack_pointer : Z;
  saved_stack_size : Z;
  register_snapshot : cpu_registers;
  stack_snapshot : list Z; (** 128 bytes *)
}.

Definition zero_registers : cpu_registers := Registers 0 0 0 0 0 0 0 0 0 0 0 0 0 0 0 0 0.

(** The loop over [stack_snapshot] clears its 128 bytes. *)
Definition panic_reset_context (c : panic_context) : panic_context :=
  PanicContext 0 0 0 0 zero_registers
    (for_range 0 128 (fun index b => setZ b index 0) (stack_snapshot c)).

(** [cpu] is what the processor holds; there is no interrupt. *)
Definition panic_capture_current_registers (cpu : cpu_registers) : cpu_registers :=
  Registers (u16 (gs cpu)) (u16 (fs cpu)) (u16 (es cpu)) (u16 (ds cpu)) (edi cpu) (esi cpu) (ebp cpu) (esp cpu)
    (ebx cpu) (edx cpu) (ecx cpu) (eax cpu) 4294967295 0 (eip cpu) (u16 (cs cpu)) (Idt.eflags cpu).

(** [stack_low] and [stack_high] are the addresses of [stack_bottom] and [stack_top]. *)
Definition panic_save_stack_snapshot (stack_low stack_high : Z) (m : mem) (stack_pointer : Z) (c : panic_context)
    : panic_context :=
  if (stack_pointer <? stack_low) || (stack_high <=? stack_pointer)
  then PanicContext (valid c) (has_registers c) stack_pointer 0 (register_snapshot c) (stack_snapshot c)
  else
    let bytes_to_copy := u32 (stack_high - stack_pointer) in
    let bytes_to_copy := if 128 <? bytes_to_copy then 128 else bytes_to_copy in
    PanicContext (valid c) (has_registers c) stack_pointer bytes_to_copy (register_snapshot c)
      (for_range 0 bytes_to_copy (fun index b => setZ b index (load8 m (stack_pointer + index))) (stack_snapshot c)).

Definition panic_save_context (stack_low stack_high : Z) (m : mem) (cpu : cpu_registers)
    (registers : option cpu_registers) (c : panic_context) : panic_context :=
  let c := panic_reset_context c in
  let r := match registers with Some r => r | None => panic_capture_current_registers cpu end in
  panic_save_stack_snapshot stack_low stack_high m (esp r)
    (PanicContext 1 1 (saved_stack_pointer c) (saved_stack_size c) r (stack_snapshot c)).

(** ** Numbers *)

(** The digits from the highest nibble; the text of [panic_serial_print_hex]. *)
Definition panic_hex_text (value : Z) : list Z :=
  text "0x" ++ map (fun shift => hex_char (Z.land (Z.shiftr value shift) 15)) [28; 24; 20; 16; 12; 8; 4; 0].

(** An [int]: pushed in the 12 bytes of [buf], the sign last, and popped. *)
Definition panic_int_text (num : Z) : list Z :=
  let neg := num <? 0 in
  let num := if neg then i32 (- num) else num in
  if num =? 0 then [48] else
  let '(i, buf) := push_digits 10 num 0 (replicate 12 0) in
  let '(i, buf) := if neg then (i + 1, setZ buf i 45) else (i, buf) in
  pop_digits i buf.

(** ** The screen *)

Definition panic_clear_screen (bg_color : Z) (v : list Z) : list Z :=
  fill_cells (VGA_WIDTH * VGA_HEIGHT) (vga_entry 32 (vga_entry_color VGA_COLOR_WHITE bg_color)) v.

(** Characters in consecutive cells. *)
Fixpoint put_chars (str : list Z) (index color : Z) (v : list Z) : list Z :=
  match str with
  | [] => v
  | c :: str => put_chars str (index + 1) color (setZ v index (vga_entry c color))
  end.

Fixpoint panic_print_loop (str : list Z) (row col color : Z) (v : list Z) : list Z :=
  match str with
  | [] => v
  | c :: str =>
      if (c =? 0) || negb (col <? VGA_WIDTH) then v
      else if c =? NEWLINE then panic_print_loop str (row + 1) 0 color v
      else panic_print_loop str row (col + 1) color (setZ v (row * VGA_WIDTH + col) (vga_entry c color))
  end.
Definition panic_print (str : list Z) (row color : Z) (v : list Z) : list Z := panic_print_loop str row 0 color v.

Definition panic_print_hex (row col value color : Z) (v : list Z) : list Z :=
  put_chars (panic_hex_text value) (row * VGA_WIDTH + col) color v.
Definition panic_print_int (num row col color : Z) (v : list Z) : list Z :=
  put_chars (panic_int_text num) (row * VGA_WIDTH + col) color v.

(** The calls that draw the report, in order. *)
Inductive panel :=
| Print (str : list Z) (row color : Z)
| PrintHex (row col value color : Z)
| PrintInt (num row col color : Z).

Definition draw (p : panel) (v : list Z) : list Z :=
  match p with
  | Print str row color => panic_print str row color v
  | PrintHex row col value color => panic_print_hex row col value color v
  | PrintInt num row col color => panic_print_int num row col color v
  end.

Definition title_color : Z := vga_entry_color VGA_COLOR_WHITE VGA_COLOR_RED.
Definition msg_color : Z := vga_entry_color VGA_COLOR_LIGHT_GREY VGA_COLOR_RED.
Definition loc_color : Z := vga_entry_color VGA_COLOR_LIGHT_BROWN VGA_COLOR_RED.

Definition rule80 : list Z := replicate 80 61.

Definition panic_panels (c : panic_context) (message : list Z) (file : option (list Z)) (line : Z) : list panel :=
  let r := register_snapshot c in
  [Print rule80 0 title_color;
   Print (text "                            KERNEL PANIC                                        ") 1 title_color;
   Print rule80 2 title_color;
   Print (text "Error: ") 4 msg_color;
   Print message 5 title_color] ++
  match file with
  | Some file =>
      [Print (text "Location: ") 7 msg_color; Print file 8 loc_color; Print (text "Line: ") 9 msg_color;
       PrintInt line 9 6 loc_color]
  | None => []
  end ++
  (if negb (has_registers c =? 0) then
     [Print (text "INT:") 11 msg_color; PrintHex 11 5 (int_no r) loc_color;
      Print (text "EIP:") 12 msg_color; PrintHex 12 5 (eip r) loc_color;
      Print (text "ESP:") 13 msg_color; PrintHex 13 5 (esp r) loc_color;
      Print (text "EBP:") 14 msg_color; PrintHex 14 5 (ebp r) loc_color;
      Print (text "EAX:") 15 msg_color; PrintHex 15 5 (eax r) loc_color;
      Print (text "EBX:") 16 msg_color; PrintHex 16 5 (ebx r) loc_color]
   else []) ++
  [Print (text "Stack snapshot bytes:") 18 msg_color;
   PrintInt (i32 (saved_stack_size c)) 18 21 loc_color;
   Print (text "The system has been halted.") 21 msg_color;
   Print (text "Please restart your computer.") 23 msg_color].

(** ** The serial report: the characters written, in order *)

Definition nl : list Z := [NEWLINE].

Definition register_lines (r : cpu_registers) : list Z :=
  text "INT: " ++ panic_hex_text (int_no r) ++ text "  ERR: " ++ panic_hex_text (err_code r) ++ nl ++
  text "EIP: " ++ panic_hex_text (eip r) ++ text "  ESP: " ++ panic_hex_text (esp r) ++
  text "  EBP: " ++ panic_hex_text (ebp r) ++ nl ++
  text "EAX: " ++ panic_hex_text (eax r) ++ text "  EBX: " ++ panic_hex_text (ebx r) ++
  text "  ECX: " ++ panic_hex_text (ecx r) ++ text "  EDX: " ++ panic_hex_text (edx r) ++ nl ++
  text "ESI: " ++ panic_hex_text (esi r) ++ text "  EDI: " ++ panic_hex_text (edi r) ++
  text "  EFLAGS: " ++ panic_hex_text (Idt.eflags r) ++ nl.

Definition snapshot_text (c : panic_context) : list Z :=
  for_text 0 (saved_stack_size c) (fun index =>
    (if negb (index =? 0) && (index mod 16 =? 0) then nl else []) ++
    panic_hex_text (getZ 0 (stack_snapshot c) index) ++ text " ").

Definition panic_report (c : panic_context) (message : list Z) (file : option (list Z)) (line : Z) : list Z :=
  nl ++ nl ++ text "KERNEL PANIC" ++ nl ++ text "Error: " ++ cstr message ++ nl ++
  match file with
  | Some file => text "Location: " ++ cstr file ++ nl ++ text "Line: " ++ panic_int_text line ++ nl
  | None => []
  end ++
  (if negb (has_registers c =? 0) then register_lines (register_snapshot c) else []) ++
  text "Saved stack pointer: " ++ panic_hex_text (saved_stack_pointer c) ++ nl ++
  text "Stack snapshot: " ++ panic_int_text (i32 (saved_stack_size c)) ++ text " bytes" ++ nl ++
  snapshot_text c ++
  nl ++ text "The system has been halted." ++ nl ++ text "Please restart your computer." ++ nl.

Section panic.
Context (device : trace -> Z -> Z) (fuel : nat) (serial_enabled : Z).
(** Where the stack lies, and what the processor and the memory hold. *)
Context (stack_low stack_high : Z) (cpu : cpu_registers) (m : mem).

Definition panic_render_context (c : panic_context) (message : list Z) (file : option (list Z)) (line : Z)
    (t : terminal) : outcome terminal :=
  let v := panic_clear_screen VGA_COLOR_RED (VGA_MEMORY t) in
  let v := foldl (fun v p => draw p v) v (panic_panels c message file line) in
  p ← serial_write device fuel serial_enabled (Some (panic_report c message file line)) (ports t);
  Ret (with_ports p (with_vga v t)).

(** The last panic, the screen with the ports, and the kernel signals. *)
Definition panic_world : Type := panic_context * terminal * sig_state.

(** [panic_clean_registers_and_halt] disables the interrupts again and halts for
    ever. *)
Definition panic_with_context (message : list Z) (file : option (list Z)) (line : Z)
    (registers : option cpu_registers) (w : panic_world) : outcome panic_world :=
  let '(c, t, sg) := w in
  let sg := interrupts_disable sg in
  let c := panic_save_context stack_low stack_high m cpu registers c in
  let '(_, sg) := schedule_signal KERNEL_SIGNAL_PANIC 0 0 sg in
  t ← panic_render_context c message file line t;
  Ret (c, t, interrupts_disable sg).

Definition panic (message : list Z) (w : panic_world) : outcome panic_world :=
  panic_with_context message None 0 None w.
Definition panic_at (message file : list Z) (line : Z) (w : panic_world) : outcome panic_world :=
  panic_with_context message (Some file) line None w.
Definition panic_with_registers (message : list Z) (registers : cpu_registers) (w : panic_world)
    : outcome panic_world :=
  panic_with_context message None 0 (Some registers) w.

Definition panic_get_last_context (w : panic_world) : panic_context := w.1.1.

(** The warning that does not halt. *)
Definition warn (message : list Z) (t : terminal) : outcome terminal :=
  t ← terminal_write device fuel serial_enabled (text "[WARNING] ") t;
  t ← terminal_write device fuel serial_enabled message t;
  terminal_putchar device fuel serial_enabled NEWLINE t.
End panic.

(** ** Lemmas *)

Lemma panic_hex_eq value : is_u32 value -> panic_hex_text value = shell_print_hex value.
Proof.
  intros Hv. unfold panic_hex_text, shell_print_hex. f_equal. rewrite print_hex_eq.
  cbn [all_digits rev app map].
  assert (forall k, 0 <= k -> Z.land (Z.shiftr value k) 15 = value / 2 ^ k mod 16) as Hd.
  { intros k Hk. change 15 with (Z.ones 4). by rewrite Z.land_ones, Z.shiftr_div_pow2 by lia. }
  rewrite !Hd, !Z.div_div by lia. change (2 ^ 0) with 1. rewrite Z.div_1_r. done.
Qed.

(** An [int] is printed as its magnitude, with its sign; the most negative one has
    no magnitude of its width and is printed as the sign alone. *)
Lemma panic_int_spec num : - 2147483648 <= num < 2147483648 ->
  panic_int_text num =
    if num =? -2147483648 then [45] else if num <? 0 then 45 :: shell_print_dec (- num) else shell_print_dec num.
Proof.
  intros Hn. destruct (Z.eqb_spec num (-2147483648)) as [->|Hmin]; [done|]. unfold panic_int_text.
  assert (forall a, 0 < a < 2147483648 ->
    let '(i, buf) := push_digits 10 a 0 (replicate 12 0) in
    i = lenZ (digits 10 10 a) /\ i <= 10 /\ lenZ buf = 12 /\ (forall k, 0 <= k < i -> getZ 0 buf k = 48 + getZ 0 (digits 10 10 a) k) /\
    map (Z.add 48) (rev (digits 10 10 a)) = shell_print_dec a) as H.
  { intros a Ha. pose proof (push_digits_spec 10 a 0 (replicate 12 0) ltac:(lia) ltac:(rewrite lenZ_replicate; lia)) as H.
    destruct (push_digits _ _ _ _) as [i buf]. destruct H as (-> & El & Hk). rewrite Z.add_0_l in *.
    split; [done|]. split; [unfold lenZ; pose proof (length_digits 10 10 a); lia|]. split; [by rewrite El, lenZ_replicate|].
    split.
    - intros k Hr. rewrite Hk. destruct (Z.leb_spec 0 k); [|lia]. destruct (Z.ltb_spec k (lenZ (digits 10 10 a))); [|lia].
      cbn [andb]. by rewrite Z.sub_0_r.
    - rewrite print_dec_eq by (unfold is_u32; lia). destruct (Z.eqb_spec a 0); [lia|].
      by rewrite (digits_more 10 11) by (try lia; cbn; lia). }
  destruct (Z.ltb_spec num 0).
  - rewrite i32_small by lia. destruct (Z.eqb_spec (- num) 0); [lia|]. specialize (H (- num) ltac:(lia)).
    destruct (push_digits _ _ _ _) as [i buf]. destruct H as (Ei & Hi & El & Hk & Et).
    assert (0 <= i) by (subst; unfold lenZ; lia).
    assert (pop_digits (i + 1) (setZ buf i 45) = map (Z.add 48) (rev (digits 10 10 (- num) ++ [-3]))) as ->.
    { rewrite <- (pop_digits_spec (digits 10 10 (- num) ++ [-3]) (setZ buf i 45)).
      - f_equal. unfold lenZ in *. rewrite length_app. cbn [length]. lia.
      - intros k Hr. unfold lenZ in Hr, Ei. rewrite length_app in Hr. cbn [length] in Hr. rewrite getZ_setZ by lia.
        destruct (Z.eqb_spec k i) as [->|].
        + unfold getZ. destruct (Z.ltb_spec i 0); [lia|]. rewrite lookup_app_r by lia.
          replace (Z.to_nat i - length (digits 10 10 (- num)))%nat with 0%nat by lia. done.
        + rewrite Hk by lia. unfold getZ. destruct (Z.ltb_spec k 0); [lia|]. rewrite lookup_app_l by lia. done. }
    rewrite rev_app_distr. cbn [rev app map]. by rewrite Et.
  - destruct (Z.eqb_spec num 0) as [->|]; [done|]. specialize (H num ltac:(lia)).
    destruct (push_digits _ _ _ _) as [i buf]. destruct H as (Ei & Hi & El & Hk & Et). rewrite <- Et, Ei in *.
    by apply pop_digits_spec.
Qed.

Lemma put_chars_spec str : forall index color v k, 0 <= index -> index + lenZ str <= lenZ v ->
  lenZ (put_chars str index color v) = lenZ v /\
  getZ 0 (put_chars str index color v) k =
    if (index <=? k) && (k <? index + lenZ str) then vga_entry (getZ 0 str (k - index)) color else getZ 0 v k.
Proof.
  induction str as [|c str IH]; intros index color v k Hi Hl; cbn [put_chars].
  { split; [done|]. unfold lenZ. cbn [length]. zbool; cbn [andb]; try done; lia. }
  unfold lenZ in Hl. cbn [length] in Hl. specialize (IH (index + 1) color (setZ v index (vga_entry c color)) k).
  rewrite lenZ_setZ in IH. destruct IH as [E1 E2]; [lia|unfold lenZ in *; lia|]. split; [done|]. rewrite E2. rewrite getZ_setZ by (unfold lenZ in *; lia).
  assert (getZ 0 (c :: str) (k - index) = if k =? index then c else getZ 0 str (k - (index + 1))) as ->.
  { unfold getZ. destruct (Z.eqb_spec k index) as [->|]; [by rewrite Z.sub_diag|].
    zbool; try done; try lia. by replace (Z.to_nat (k - index)) with (S (Z.to_nat (k - (index + 1)))) by lia. }
  unfold lenZ. cbn [length]. zbool; cbn [andb]; try done; try lia.
Qed.

(** A string without newlines goes on one line of the screen, as far as it fits. *)
Lemma panic_print_line str : Forall (fun c => c <> NEWLINE) str -> forall row col color v, 0 <= col <= 80 ->
  panic_print_loop str row col color v = put_chars (take (Z.to_nat (80 - col)) (cstr str)) (row * VGA_WIDTH + col) color v.
Proof.
  induction 1 as [|c str Hc _ IH]; intros row col color v Hcol; cbn [panic_print_loop cstr]; [by rewrite take_nil|].
  destruct (Z.eqb_spec c 0); cbn [orb]; [by rewrite take_nil|]. unfold VGA_WIDTH in *. destruct (Z.ltb_spec col 80); cbn [negb].
  - rewrite eqb_sym_neg by done. rewrite IH by lia.
    replace (Z.to_nat (80 - col)) with (S (Z.to_nat (80 - (col + 1)))) by lia. cbn [take put_chars].
    by replace (row * 80 + (col + 1)) with (row * 80 + col + 1) by lia.
  - replace (Z.to_nat (80 - col)) with 0%nat by lia. done.
Qed.

(** *** What is drawn stays on its line *)

(** Text, column and colour drawn by a call, all on one row. *)
Definition extent (p : panel) : Z * Z * list Z * Z :=
  match p with
  | Print str row color => (row, 0, take 80 (cstr str), color)
  | PrintHex row col value color => (row, col, panic_hex_text value, color)
  | PrintInt num row col color => (row, col, panic_int_text num, color)
  end.
Definition row_of (p : panel) : Z := (extent p).1.1.1.

Definition on_row (p : panel) : Prop :=
  let '(row, col, str, color) := extent p in
  0 <= row < 25 /\ 0 <= col /\ col + lenZ str <= 80 /\ match p with Print str _ _ => Forall (fun c => c <> NEWLINE) str | _ => True end.

Lemma draw_extent p v : on_row p -> let '(row, col, str, color) := extent p in draw p v = put_chars str (80 * row + col) color v.
Proof.
  unfold on_row. destruct p as [str row color|row col value color|num row col color]; cbn [extent draw].
  - intros (Hr & _ & _ & Hn). unfold panic_print. rewrite panic_print_line by (done || lia).
    unfold VGA_WIDTH. by replace (row * 80 + 0) with (80 * row + 0) by lia.
  - intros _. unfold panic_print_hex, VGA_WIDTH. by rewrite (Z.mul_comm row).
  - intros _. unfold panic_print_int, VGA_WIDTH. by rewrite (Z.mul_comm row).
Qed.

Lemma draw_spec p v y x : on_row p -> lenZ v = 2000 -> 0 <= x < 80 ->
  lenZ (draw p v) = 2000 /\
  cell (draw p v) y x = let '(row, col, str, color) := extent p in
    if (y =? row) && (col <=? x) && (x <? col + lenZ str) then vga_entry (getZ 0 str (x - col)) color else cell v y x.
Proof.
  intros Hp Hv Hx. pose proof (draw_extent p v Hp) as E. unfold on_row in Hp.
  destruct (extent p) as [[[row col] str] color]. rewrite E. destruct Hp as (Hr & Hc & Hl & _).
  assert (0 <= lenZ str) by (unfold lenZ; lia).
  destruct (put_chars_spec str (80 * row + col) color v (80 * y + x) ltac:(lia) ltac:(lia)) as [El Eg].
  split; [by rewrite El|]. unfold cell. rewrite Eg.
  destruct (Z.eqb_spec y row) as [->|].
  - replace (80 * row + x - (80 * row + col)) with (x - col) by lia. cbn [andb]. zbool; cbn [andb]; try done; lia.
  - cbn [andb]. zbool; cbn [andb]; try done; lia.
Qed.

(** What a row shows is what the calls for that row draw. *)
Lemma draws_row ps : forall v w R, Forall on_row ps -> lenZ v = 2000 -> lenZ w = 2000 ->
  (forall x, 0 <= x < 80 -> cell v R x = cell w R x) ->
  lenZ (foldl (fun v p => draw p v) v ps) = 2000 /\
  forall x, 0 <= x < 80 -> cell (foldl (fun v p => draw p v) v ps) R x =
    cell (foldl (fun v p => draw p v) w (filter (fun p => row_of p = R) ps)) R x.
Proof.
  induction ps as [|p ps IH]; intros v w R Hps Hv Hw Heq; [done|]. apply Forall_cons in Hps as [Hp Hps].
  cbn [foldl]. destruct (draw_spec p v R 0 Hp Hv ltac:(lia)) as [Hv1 _].
  destruct (draw_spec p w R 0 Hp Hw ltac:(lia)) as [Hw1 _].
  destruct (decide (row_of p = R)) as [HR|HR].
  - rewrite filter_cons_True by done. cbn [foldl]. apply IH; try done. intros x Hx.
    destruct (draw_spec p v R x Hp Hv Hx) as [_ ->]. destruct (draw_spec p w R x Hp Hw Hx) as [_ ->].
    destruct (extent p) as [[[row col] str] color]. by rewrite Heq.
  - rewrite filter_cons_False by done. apply IH; try done. intros x Hx.
    destruct (draw_spec p v R x Hp Hv Hx) as [_ ->]. unfold row_of in HR. destruct (extent p) as [[[row col] str] color].
    cbn in HR. rewrite (eqb_sym_neg R row) by done. cbn [andb]. by apply Heq.
Qed.

(** ** The report as a whole *)

Definition printable_line (s : list Z) : Prop := Forall (fun c => is_u8 c /\ c <> 0 /\ c <> NEWLINE) s.
Definition sendable (s : list Z) : Prop := Forall (fun c => is_u8 c /\ c <> 0) s.

Lemma cstr_line s : printable_line s -> cstr s = s.
Proof. induction 1 as [|c s (_ & Hc & _) _ IH]; cbn; [done|]. rewrite eqb_sym_neg by done. by rewrite IH. Qed.

Lemma sendable_literal s : forallb (fun c => (0 <? c) && (c <? 256)) s = true -> sendable s.
Proof.
  intros H. apply Forall_forall. intros c Hc. rewrite forallb_forall in H.
  specialize (H c ltac:(by apply list_elem_of_In)). unfold is_u8. lia.
Qed.

Lemma sendable_app a b : sendable a -> sendable b -> sendable (a ++ b).
Proof. intros. by apply Forall_app. Qed.

Lemma sendable_dec n : is_u32 n -> sendable (shell_print_dec n).
Proof.
  intros Hn. rewrite print_dec_eq by done. case_match; [by apply sendable_literal|].
  apply Forall_map, Forall_rev. eapply Forall_impl; [apply digits_range; lia|]. cbn. unfold is_u8. lia.
Qed.

Lemma sendable_hex v : sendable (panic_hex_text v).
Proof.
  unfold panic_hex_text. apply sendable_app; [by apply sendable_literal|]. apply Forall_map. apply Forall_forall. intros k _.
  change 15 with (Z.ones 4). rewrite Z.land_ones by lia. destruct (hex_char_spec (Z.shiftr v k mod 2 ^ 4)) as (_ & ? & _ & _ & ?); [|done].
  apply (Z.mod_pos_bound _ 16). lia.
Qed.

Lemma sendable_int n : - 2147483648 <= n < 2147483648 -> sendable (panic_int_text n) /\ lenZ (panic_int_text n) <= 11.
Proof.
  intros Hn. rewrite panic_int_spec by done. destruct (Z.eqb_spec n (-2147483648)); [split; [by apply sendable_literal|done]|].
  destruct (Z.ltb_spec n 0).
  - split; [change (45 :: ?l) with ([45] ++ l); apply sendable_app; [by apply sendable_literal|apply sendable_dec; unfold is_u32; lia]|].
    pose proof (dec_length (- n) ltac:(unfold is_u32; lia)). unfold lenZ. cbn [length]. lia.
  - split; [apply sendable_dec; unfold is_u32; lia|]. pose proof (dec_length n ltac:(unfold is_u32; lia)). unfold lenZ. lia.
Qed.

Lemma sendable_for lo hi f : (forall k, sendable (f k)) -> sendable (for_text lo hi f).
Proof. intros H. apply (for_range_inv _ sendable); [by constructor|]. intros i s _ Hs. by apply sendable_app. Qed.

Ltac sendable :=
  repeat first [ assumption | apply sendable_hex | apply sendable_app | (by apply sendable_literal) ].

Lemma sendable_line s : printable_line s -> sendable (cstr s).
Proof. intros H. rewrite cstr_line by done. eapply Forall_impl; [exact H|]. cbn. tauto. Qed.

Definition is_int (n : Z) : Prop := - 2147483648 <= n < 2147483648.
Definition file_ok (file : option (list Z)) : Prop := match file with Some f => printable_line f | None => True end.

Lemma i32_range x : is_int (i32 x).
Proof. unfold i32, is_int. pose proof (u32_range x) as H. unfold is_u32 in H. zbool; lia. Qed.

Lemma panic_report_sendable c message file line : printable_line message -> file_ok file -> is_int line ->
  sendable (panic_report c message file line).
Proof.
  intros Hm Hf Hl. apply sendable_line in Hm. pose proof (proj1 (sendable_int line Hl)).
  pose proof (proj1 (sendable_int _ (i32_range (saved_stack_size c)))). unfold panic_report, register_lines.
  assert (sendable (snapshot_text c)).
  { apply sendable_for. intros k. apply sendable_app; [case_match; by apply sendable_literal|]. sendable. }
  destruct file as [f|]; [apply sendable_line in Hf|]; destruct (negb _); sendable.
Qed.

(** The snapshot never leaves the stack. *)
Lemma save_context_spec low high m cpu registers c :
  is_u32 low -> is_u32 high -> lenZ (stack_snapshot c) = 128 ->
  let r := match registers with Some r => r | None => panic_capture_current_registers cpu end in
  let c' := panic_save_context low high m cpu registers c in
  valid c' = 1 /\ has_registers c' = 1 /\ register_snapshot c' = r /\ saved_stack_pointer c' = esp r /\
  saved_stack_size c' = (if (low <=? esp r) && (esp r <? high) then Z.min 128 (high - esp r) else 0) /\
  lenZ (stack_snapshot c') = 128 /\
  forall i, 0 <= i < 128 -> getZ 0 (stack_snapshot c') i = if i <? saved_stack_size c' then load8 m (esp r + i) else 0.
Proof.
  intros Hlo Hhi Hlen r. unfold panic_save_context. fold r. clearbody r. unfold panic_reset_context.
  cbn [saved_stack_pointer saved_stack_size stack_snapshot].
  destruct (fill_loop (fun _ => 0) 0 128 (stack_snapshot c) 0 ltac:(lia) ltac:(lia)) as [El _].
  assert (forall i, 0 <= i < 128 -> getZ 0 (for_range 0 128 (fun i v => setZ v i 0) (stack_snapshot c)) i = 0) as Hz.
  { intros i Hi. destruct (fill_loop (fun _ => 0) 0 128 (stack_snapshot c) i ltac:(lia) ltac:(lia)) as [_ ->].
    zbool; cbn [andb]; lia. }
  generalize dependent (for_range 0 128 (fun i v => setZ v i 0) (stack_snapshot c)). intros zs El Hz.
  unfold panic_save_stack_snapshot. cbn [valid has_registers register_snapshot stack_snapshot].
  destruct (Z.ltb_spec (esp r) low); [|destruct (Z.leb_spec high (esp r))]; cbn [orb];
    cbv zeta; cbn [valid has_registers register_snapshot saved_stack_pointer saved_stack_size stack_snapshot].
  - do 4 (split; [done|]). split; [zbool; cbn [andb]; done || lia|]. split; [lia|]. intros i Hi. rewrite Hz by done. zbool; done || lia.
  - do 4 (split; [done|]). split; [zbool; cbn [andb]; done || lia|]. split; [lia|]. intros i Hi. rewrite Hz by done. zbool; done || lia.
  - unfold is_u32 in *. rewrite u32_id by (unfold is_u32; lia).
    set (n := if 128 <? high - esp r then 128 else high - esp r).
    assert (n = Z.min 128 (high - esp r)) as En by (unfold n; zbool; lia). clearbody n.
    do 4 (split; [done|]). split; [zbool; cbn [andb]; done || lia|].
    split; [destruct (fill_loop (fun i => load8 m (esp r + i)) 0 n zs 0 ltac:(lia) ltac:(lia)) as [-> _]; lia|]. intros i Hi.
    destruct (fill_loop (fun i => load8 m (esp r + i)) 0 n zs i ltac:(lia) ltac:(lia)) as [_ ->].
    destruct (Z.leb_spec 0 i); [|lia]. cbn [andb]. rewrite Hz by done. done.
Qed.

(** ** The screen *)

Lemma panic_panels_rows c message file line : printable_line message -> file_ok file -> is_int line ->
  Forall on_row (panic_panels c message file line).
Proof.
  intros Hm Hf Hl. pose proof (proj2 (sendable_int line Hl)) as L1.
  pose proof (proj2 (sendable_int _ (i32_range (saved_stack_size c)))) as L2.
  assert (forall str row color, printable_line str -> 0 <= row < 25 -> on_row (Print str row color)) as P1.
  { intros str row color Hs Hr. unfold on_row, extent. unfold lenZ. rewrite length_take. split; [done|]. split; [lia|].
    split; [lia|]. eapply Forall_impl; [exact Hs|]. cbn. tauto. }
  assert (forall str row color, forallb (fun c => (0 <? c) && (c <? 256) && negb (c =? 10)) str = true -> 0 <= row < 25 ->
    on_row (Print str row color)) as P2.
  { intros str row color Hs Hr. apply P1; [|done]. apply Forall_forall. intros x Hx. rewrite forallb_forall in Hs.
    specialize (Hs x ltac:(by apply list_elem_of_In)). unfold is_u8, NEWLINE. lia. }
  assert (forall row value color, 0 <= row < 25 -> on_row (PrintHex row 5 value color)) as P3.
  { intros row value color Hr. unfold on_row, extent, panic_hex_text. split; [done|]. split; [lia|]. split; [|done].
    unfold lenZ. rewrite length_app, length_map. cbn. lia. }
  unfold panic_panels. repeat apply Forall_app_2; [|destruct file as [f|]|destruct (negb _)|];
    repeat match goal with |- Forall _ (_ :: _) => apply Forall_cons_2 | |- Forall _ [] => by constructor end;
    try (by apply P1); try (apply P3; lia); try (apply P2; [reflexivity|lia]);
    unfold on_row, extent; split_and!; lia || done.
Qed.

(** The text of [n] cells of a row. *)
Definition screen_text (v : list Z) (row lo n : Z) : list Z := map (fun x => cell v row x mod 256) (seqZ lo n).

Lemma vga_entry_char c color : is_u8 c -> vga_entry c color mod 256 = c.
Proof.
  intros Hc. unfold vga_entry, u16. rewrite (u8_id c) by done. rewrite Z.lor_comm, lor_shiftl by (unfold is_u8 in *; lia).
  change (2 ^ 8) with 256. unfold is_u8 in *. divlia.
Qed.

(** A number drawn on a row of the report is read back from the screen. *)
Lemma read_hex_row v row value : is_u32 value ->
  (forall x, 5 <= x < 15 -> cell v row x = vga_entry (getZ 0 (panic_hex_text value) (x - 5)) loc_color) ->
  parse_hex (screen_text v row 5 10) = value.
Proof.
  intros Hv Hx. assert (screen_text v row 5 10 = panic_hex_text value) as ->.
  { apply (list_eq_getZ 0).
    - unfold screen_text, lenZ. rewrite length_map. unfold panic_hex_text. done.
    - intros i Hi. unfold screen_text in *. unfold lenZ in Hi. rewrite length_map, length_seqZ in Hi.
      unfold getZ at 1. destruct (Z.ltb_spec i 0); [lia|]. rewrite list_lookup_fmap, lookup_seqZ_lt by lia. cbn [fmap option_fmap option_map default].
      rewrite Hx by lia. replace (5 + Z.of_nat (Z.to_nat i) - 5) with i by lia. apply vga_entry_char.
      apply (getZ_Forall 0 is_u8); [|unfold is_u8; lia]. eapply Forall_impl; [apply sendable_hex|]. cbn. tauto. }
  rewrite panic_hex_eq by done. rewrite <- (app_nil_r (shell_print_hex value)).
  unfold parse_hex, shell_print_hex. cbn [text app deref drop]. rewrite drop_0. by apply parse_hex_loop_print.
Qed.

Ltac filter_row :=
  unfold panic_panels; rewrite !filter_app;
  repeat first [rewrite filter_cons_True by reflexivity | rewrite filter_cons_False by discriminate];
  rewrite ?filter_nil; reflexivity.

(** The calls for the message and for the registers. *)
Lemma message_row c message file line :
  filter (fun p => row_of p = 5) (panic_panels c message file line) = [Print message 5 title_color].
Proof. destruct file, (negb (has_registers c =? 0)) eqn:E; unfold panic_panels; rewrite E; filter_row. Qed.

Definition reported (r : cpu_registers) : list (Z * string * Z) :=
  [(11, "INT:"%string, int_no r); (12, "EIP:"%string, eip r); (13, "ESP:"%string, esp r);
   (14, "EBP:"%string, ebp r); (15, "EAX:"%string, eax r); (16, "EBX:"%string, ebx r)].

Lemma register_row c message file line row name value : has_registers c = 1 ->
  (row, name, value) ∈ reported (register_snapshot c) ->
  filter (fun p => row_of p = row) (panic_panels c message file line) =
    [Print (text name) row msg_color; PrintHex row 5 value loc_color].
Proof.
  intros H Hin. unfold reported in Hin. rewrite !elem_of_cons, elem_of_nil in Hin.
  assert (negb (has_registers c =? 0) = true) as E by by rewrite H.
  destruct Hin as [[= -> -> ->]|[[= -> -> ->]|[[= -> -> ->]|[[= -> -> ->]|[[= -> -> ->]|[[= -> -> ->]|[]]]]]]];
    destruct file; unfold panic_panels; rewrite E; filter_row.
Qed.

Definition registers_ok (r : cpu_registers) : Prop := forall row name value, (row, name, value) ∈ reported r -> is_u32 value.

Definition drawn (c : panic_context) (message : list Z) (file : option (list Z)) (line : Z) (v : list Z) : list Z :=
  foldl (fun v p => draw p v) (panic_clear_screen VGA_COLOR_RED v) (panic_panels c message file line).

Lemma clear_screen_spec v : lenZ v = 2000 -> lenZ (panic_clear_screen VGA_COLOR_RED v) = 2000 /\
  forall y x, 0 <= y < 25 -> 0 <= x < 80 -> cell (panic_clear_screen VGA_COLOR_RED v) y x = vga_entry 32 title_color.
Proof.
  intros Hv. unfold panic_clear_screen. change (VGA_WIDTH * VGA_HEIGHT) with 2000.
  destruct (fill_cells_spec 2000 (vga_entry 32 (vga_entry_color VGA_COLOR_WHITE VGA_COLOR_RED)) v ltac:(lia)) as [El Ec].
  split; [by rewrite El|]. intros y x Hy Hx. unfold cell. rewrite Ec by lia. done.
Qed.

Lemma getZ_take {A} (d : A) n l i : 0 <= i < Z.of_nat n -> getZ d (take n l) i = getZ d l i.
Proof. intros Hi. unfold getZ. case_match; [done|]. by rewrite lookup_take_lt by lia. Qed.

Lemma drawn_spec c message file line v : lenZ v = 2000 -> printable_line message -> file_ok file -> is_int line ->
  has_registers c = 1 -> registers_ok (register_snapshot c) ->
  lenZ (drawn c message file line v) = 2000 /\
  (forall x, 0 <= x < 80 -> cell (drawn c message file line v) 5 x =
     vga_entry (if x <? lenZ message then getZ 0 message x else 32) title_color) /\
  forall row name value, (row, name, value) ∈ reported (register_snapshot c) ->
    parse_hex (screen_text (drawn c message file line v) row 5 10) = value.
Proof.
  intros Hv Hm Hf Hl Hc Hr. pose proof (panic_panels_rows c message file line Hm Hf Hl) as Hps.
  destruct (clear_screen_spec v Hv) as [Hv0 Hblank]. unfold drawn. set (v0 := panic_clear_screen VGA_COLOR_RED v) in *.
  clearbody v0. assert (forall R, lenZ (foldl (fun v p => draw p v) v0 (panic_panels c message file line)) = 2000 /\
    forall x, 0 <= x < 80 -> cell (foldl (fun v p => draw p v) v0 (panic_panels c message file line)) R x =
      cell (foldl (fun v p => draw p v) v0 (filter (fun p => row_of p = R) (panic_panels c message file line))) R x) as Hrow
    by (intros R; by apply draws_row).
  split; [apply (Hrow 5)|]. split.
  - intros x Hx. rewrite (proj2 (Hrow 5) x Hx), message_row. cbn [foldl].
    assert (on_row (Print message 5 title_color)) as Hp.
    { rewrite Forall_forall in Hps. apply Hps. apply (list_elem_of_filter (fun p => row_of p = 5)). rewrite message_row. by left. }
    destruct (draw_spec _ v0 5 x Hp Hv0 Hx) as [_ ->]. unfold extent. rewrite cstr_line by done. cbn [andb Z.eqb Pos.eqb].
    rewrite Z.sub_0_r. unfold lenZ. rewrite length_take. destruct (Z.leb_spec 0 x); [|lia]. cbn [andb].
    destruct (Z.ltb_spec x (0 + Z.of_nat (80 `min` length message))); destruct (Z.ltb_spec x (Z.of_nat (length message))); try lia.
    + by rewrite getZ_take by lia.
    + by apply Hblank.
  - intros row name value Hin. apply read_hex_row; [by apply (Hr row name)|]. intros x Hx.
    rewrite (proj2 (Hrow row) x ltac:(lia)), (register_row c message file line row name value Hc Hin). cbn [foldl].
    assert (Forall on_row [Print (text name) row msg_color; PrintHex row 5 value loc_color]) as Hp.
    { rewrite <- (register_row c message file line row name value Hc Hin). apply Forall_forall. intros p [_ Hp]%list_elem_of_filter. by rewrite Forall_forall in Hps; apply Hps. }
    rewrite !Forall_cons in Hp. destruct Hp as (Hp1 & Hp2 & _).
    destruct (draw_spec _ v0 row x Hp1 Hv0 ltac:(lia)) as [Hv1 _].
    destruct (draw_spec _ _ row x Hp2 Hv1 ltac:(lia)) as [_ ->]. unfold extent. rewrite Z.eqb_refl. cbn [andb].
    assert (lenZ (panic_hex_text value) = 10) as -> by done.
    destruct (Z.leb_spec 5 x); [|lia]. destruct (Z.ltb_spec x (5 + 10)); [done|lia].
Qed.

Section report.
Context (device : trace -> Z -> Z) (fuel : nat) (serial_enabled : Z).
Context (stack_low stack_high : Z) (cpu : cpu_registers) (m : mem).

(** C30. A panic always ends with the machine halted, interrupts off, and tells
    what happened: the registers given, or those of the processor, are saved with
    the bytes at the top of the stack, of which none outside the stack is read;
    the message is on the sixth line of the screen, cut at its width; the
    registers shown are read back from the screen as they were; and the whole
    report has been sent on the serial line. *)
Theorem panic_with_context_correct message file line registers c t sg :
  responsive device fuel -> sane (ports t) -> serial_enabled <> 0 ->
  lenZ (VGA_MEMORY t) = 2000 -> lenZ (stack_snapshot c) = 128 ->
  is_u32 stack_low -> is_u32 stack_high -> printable_line message -> file_ok file -> is_int line ->
  let r := match registers with Some r => r | None => panic_capture_current_registers cpu end in
  registers_ok r ->
  exists c' t' sg',
    panic_with_context device fuel serial_enabled stack_low stack_high cpu m message file line registers (c, t, sg) =
      Ret (c', t', sg') /\
    interrupts_enabled sg' = false /\ valid c' = 1 /\ register_snapshot c' = r /\
    saved_stack_size c' = (if (stack_low <=? esp r) && (esp r <? stack_high) then Z.min 128 (stack_high - esp r) else 0) /\
    (forall i, 0 <= i < saved_stack_size c' -> getZ 0 (stack_snapshot c') i = load8 m (esp r + i)) /\
    (forall x, 0 <= x < 80 -> cell (VGA_MEMORY t') 5 x =
       vga_entry (if x <? lenZ message then getZ 0 message x else 32) title_color) /\
    (forall row name value, (row, name, value) ∈ reported r -> parse_hex (screen_text (VGA_MEMORY t') row 5 10) = value) /\
    sent (line_of (ports t')) = sent (line_of (ports t)) ++ concat (on_line <$> panic_report c' message file line).
Proof.
  intros Hd Hs He Hv Hst Hlo Hhi Hm Hf Hl r Hr. unfold panic_with_context.
  destruct (save_context_spec stack_low stack_high m cpu registers c Hlo Hhi Hst) as (C1 & C2 & C3 & C4 & C5 & C6 & C7).
  fold r in C3, C4, C5, C7. set (c' := panic_save_context _ _ _ _ _ _) in *. clearbody c' r.
  destruct (schedule_signal _ _ _ _) as [q sg2]. unfold panic_render_context. fold (drawn c' message file line (VGA_MEMORY t)).
  destruct (serial_write_spec device fuel serial_enabled (panic_report c' message file line) (ports t) Hd Hs He) as (p & E & _ & Hsent).
  { by apply panic_report_sendable. }
  rewrite E. cbn [mbind outcome_bind].
  destruct (drawn_spec c' message file line (VGA_MEMORY t) Hv Hm Hf Hl C2) as (_ & D1 & D2); [by rewrite C3|].
  rewrite C3 in D2. do 3 eexists. split; [reflexivity|]. split.
  { unfold interrupts_enabled, interrupts_disable, Signals.eflags. destruct sg2 as [h q2 ef]. cbn.
    apply negb_false_iff, Z.eqb_eq. rewrite <- Z.land_assoc. rewrite (Z.land_comm (Z.lnot _)), Z.land_lnot_diag. apply Z.land_0_r. }
  split; [done|]. split; [done|]. split; [done|].
  split; [intros i Hi; rewrite C7; [destruct (Z.ltb_spec i (saved_stack_size c')); [done|lia]|rewrite C5 in Hi; case_match; lia]|].
  split; [exact D1|]. split; [exact D2|]. exact Hsent.
Qed.
End report.

(** A page fault in the middle of the kernel stack. *)
Lemma panic_with_context_correct_witness :
  let r := Registers 16 16 16 16 1 2 3 1114000 4 5 6 7 14 2 1048580 8 0 in
  let t := Term (replicate 16000 0) (replicate 2000 0) 0 0 15 0 (serial_init []).2 in
  exists c' t' sg',
    panic_with_context slow_uart 2 1 1097728 1114112 zero_registers ∅ (text "Page fault") None 0 (Some r)
      (PanicContext 0 0 0 0 zero_registers (replicate 128 0), t, SigState [] (Ring [] 0 0) 512) = Ret (c', t', sg') /\
    saved_stack_size c' = 112 /\ parse_hex (screen_text (VGA_MEMORY t') 12 5 10) = 1048580.
Proof.
  cbv zeta. set (r := Registers _ _ _ _ _ _ _ _ _ _ _ _ _ _ _ _ _). set (t := Term _ _ _ _ _ _ _).
  destruct (panic_with_context_correct slow_uart 2 1 1097728 1114112 zero_registers ∅ (text "Page fault") None 0 (Some r)
    (PanicContext 0 0 0 0 zero_registers (replicate 128 0)) t (SigState [] (Ring [] 0 0) 512) slow_uart_responsive)
    as (c' & t' & sg' & E & _ & _ & _ & Hsize & _ & _ & Hregs & _).
  - split; reflexivity.
  - discriminate.
  - reflexivity.
  - reflexivity.
  - unfold is_u32. lia.
  - unfold is_u32. lia.
  - repeat constructor; done.
  - exact I.
  - unfold is_int. lia.
  - intros row name value Hin. unfold reported in Hin. rewrite !elem_of_cons, elem_of_nil in Hin.
    destruct Hin as [[= -> -> ->]|[[= -> -> ->]|[[= -> -> ->]|[[= -> -> ->]|[[= -> -> ->]|[[= -> -> ->]|[]]]]]]];
      unfold is_u32; cbn; lia.
  - exists c', t', sg'. split; [exact E|]. split; [rewrite Hsize; reflexivity|]. apply (Hregs 12 "EIP:"%string).
    unfold reported. by right; left.
Defined.
