(* ===== verification/LiveSpace.v ===== *)
(** * Pages mapped in the live address space

    What kernel/src/vmalloc.c does with kernel/src/paging.c: mapping frames in the
    directory the processor runs on, clearing them through their new addresses,
    and taking them out again, with what becomes of every other page in use. *)

From S2P Require Import Prelude Interfaces Memory HeapInterface Pmm Ring Chain Paging Process ProcessSpace.

(** ** Bytes and entries *)

(** Pages with the same words have the same bytes. *)
Lemma ents_agree m m' q : (forall k, 0 <= k < 1024 -> ent m' q k = ent m q k) -> agree m m' q (q + 4096).
Proof.
  intros H a Ha. assert (exists k r, 0 <= k < 1024 /\ 0 <= r < 4 /\ a = q + 4 * k + r) as (k & r & Hk & Hr & ->).
  { exists ((a - q) / 4), ((a - q) mod 4). split; [divlia|]. split; divlia. }
  specialize (H k Hk). unfold ent, load32 in H.
  assert (forall mm x, 0 <= load8 mm x < 256) as H8 by (intros; apply load8_range).
  pose proof (H8 m (q + 4 * k)). pose proof (H8 m (q + 4 * k + 1)). pose proof (H8 m (q + 4 * k + 2)). pose proof (H8 m (q + 4 * k + 3)).
  pose proof (H8 m' (q + 4 * k)). pose proof (H8 m' (q + 4 * k + 1)). pose proof (H8 m' (q + 4 * k + 2)). pose proof (H8 m' (q + 4 * k + 3)).
  assert (r = 0 \/ r = 1 \/ r = 2 \/ r = 3) as [->|[->|[->| ->]]] by lia; rewrite ?Z.add_0_r; lia.
Qed.

Lemma agree_ent m m' q k : agree m m' q (q + 4096) -> 0 <= k < 1024 -> ent m' q k = ent m q k.
Proof. intros H Hk. apply (load32_agree _ _ _ _ _ H); lia. Qed.

(** The pages differ by at least a page. *)
Lemma pages_apart p q : p mod 4096 = 0 -> q mod 4096 = 0 -> p <> q -> p + 4096 <= q \/ q + 4096 <= p.
Proof. intros. divlia. Qed.

Lemma page_of_addr va i : va mod 4096 = 0 -> 0 <= i < 4096 -> (va + i) / 4096 = va / 4096 /\ (va + i) mod 4096 = i.
Proof. intros. split; divlia. Qed.

(** All the bytes of a page translate alike. *)
Lemma walk_offset m d va p i : va mod 4096 = 0 -> is_u32 (va + i) -> is_u32 va -> 0 <= i < 4096 ->
  walk m d va = Some p -> walk m d (va + i) = Some (p + i) /\ p mod 4096 = 0 /\ is_u32 p.
Proof.
  intros Ha Hu Hu0 Hi. destruct (page_of_addr va i Ha Hi) as [E1 E2]. unfold walk.
  assert (PAGE_DIR_INDEX (va + i) = PAGE_DIR_INDEX va) as Ed.
  { rewrite !PAGE_DIR_INDEX_eq by done. unfold is_u32 in *. divlia. }
  assert (PAGE_TABLE_INDEX (va + i) = PAGE_TABLE_INDEX va) as Et by by rewrite !PAGE_TABLE_INDEX_eq, E1.
  assert (pde m d (va + i) = pde m d va) as Epd by (unfold pde; by rewrite Ed).
  assert (pte m d (va + i) = pte m d va) as Ept by (unfold pte; by rewrite Epd, Et).
  rewrite Epd, Ept. destruct (_ && _); [|done]. intros [= <-].
  destruct (PAGE_FRAME_range (pte m d va) (load32_range _ _)) as [Hf Hfu].
  rewrite !PAGE_OFFSET_eq, E2, Ha, Z.lor_0_r, lor_page by done. done.
Qed.

Section live.
Context {S : Type} `{FA : FrameAllocator S}.
Implicit Types (s : machine S).

Lemma translate_page ds s va p i : space_wf ds s -> va mod 4096 = 0 -> is_u32 va -> is_u32 (va + i) -> 0 <= i < 4096 ->
  walk (pmem s) (cr3 s) va = Some p -> translate s (va + i) = Some (p + i).
Proof.
  intros H Ha Hu Hui Hi Hw. destruct (walk_offset _ _ _ _ i Ha Hui Hu Hi Hw) as [Hwi _].
  unfold translate. rewrite (sw_pg _ _ H). destruct (page_of_addr va i Ha Hi) as [E1 E2]. rewrite E1, E2.
  destruct (tlb s !! (va / 4096)) as [f|] eqn:E; [|done].
  destruct (sw_tlb _ _ H _ _ E) as [_ Hf]. replace (va / 4096 * 4096) with va in Hf by divlia.
  rewrite Hw in Hf. by injection Hf as ->.
Qed.

(** ** Pages in use *)

(** An allocated page that holds neither a directory nor a table. *)
Record used_page (ds : list Z) s (q : Z) : Prop := {
  up_aligned : q mod 4096 = 0;
  up_pos : 0 < q;
  up_used : fa_used (frames s) (q / 4096) = true;
  up_dir : q ∉ ds;
  up_table d k : d ∈ ds -> 0 <= k < 1024 -> present_at (pmem s) d k = true -> table_at (pmem s) d k <> q;
}.

(** Such pages stay so, with their bytes. *)
Definition keeps_pages (ds : list Z) s s' : Prop :=
  forall q, used_page ds s q -> used_page ds s' q /\ agree (pmem s) (pmem s') q (q + 4096).

Lemma keeps_pages_trans ds s1 s2 s3 : keeps_pages ds s1 s2 -> keeps_pages ds s2 s3 -> keeps_pages ds s1 s3.
Proof.
  intros H1 H2 q Hq. destruct (H1 q Hq) as [Hq2 A1]. destruct (H2 q Hq2) as [Hq3 A2].
  split; [done|]. by eapply agree_trans.
Qed.

(** A frame in use is one of [s], one of [pages], or holds a table now. *)
Definition accounted s s' (pages : list Z) : Prop :=
  forall g, 0 <= g -> fa_used (frames s') g = true -> fa_used (frames s) g = true \/ 4096 * g ∈ pages \/
    exists k, 0 <= k < 1024 /\ present_at (pmem s') (cr3 s') k = true /\ table_at (pmem s') (cr3 s') k = 4096 * g.

(** Tables are never taken away. *)
Definition tables_stay s s' : Prop :=
  forall k, 0 <= k < 1024 -> present_at (pmem s) (cr3 s) k = true ->
    present_at (pmem s') (cr3 s) k = true /\ table_at (pmem s') (cr3 s) k = table_at (pmem s) (cr3 s) k.

Lemma flush_fields s d v : pmem (flush_if_current d v s) = pmem s /\ frames (flush_if_current d v s) = frames s /\
  cr3 (flush_if_current d v s) = cr3 s /\ current_directory (flush_if_current d v s) = current_directory s /\
  kernel_directory (flush_if_current d v s) = kernel_directory s.
Proof. unfold flush_if_current. by destruct (d =? _). Qed.

(** ** Mapping *)

Lemma live_map ds s va p :
  space_wf ds s -> is_u32 va -> LOW_MEMORY <= va -> is_u32 p -> p mod 4096 = 0 -> va mod 4096 = 0 ->
  table_available s (cr3 s) va ->
  exists s', paging_map_page va p PAGE_KERNEL s = Ret s' /\ space_wf ds s' /\ same_cpu s s' /\
    keeps_pages ds s s' /\ walk (pmem s') (cr3 s) va = Some p /\
    (forall d w, d ∈ ds -> is_u32 w -> w / 4096 <> va / 4096 -> walk (pmem s') d w = walk (pmem s) d w) /\
    fa_frames (frames s') = fa_frames (frames s) /\ accounted s s' [] /\ tables_stay s s' /\
    (forall g, 0 <= g -> fa_used (frames s) g = true -> fa_used (frames s') g = true) /\
    (frames s' = frames s \/ exists t, fa_alloc (frames s) = (t, frames s')).
Proof.
  intros H Hva Hhigh Hp Hpa Hvaa Hav. pose proof (sw_cr3 _ _ H) as Hd.
  destruct (map_page_spec ds s (cr3 s) va p PAGE_KERNEL H Hd Hva Hhigh Hp eq_refl) as
    (s' & E & Hwf & Hcpu & Hpres & Hhere & _ & _ & Helse & _); [left; by rewrite (sw_cur _ _ H)|done|].
  destruct (map_page_steps ds s (cr3 s) va p PAGE_KERNEL H Hd Hva Hhigh Hav) as (t & a & m1 & E' & Hcr & Htab).
  rewrite E in E'. injection E' as ->.
  destruct (map_table ds s H (cr3 s) va PAGE_KERNEL t a m1 Hd Hva Hhigh Hcr Htab) as (Htr & Hta & Hnd & Hok & Htu & Hmono & Hinj).
  assert (forall v2 d k, d ∈ ds -> 0 <= k < 1024 -> present_at (store32 m1 (t + 4 * PAGE_TABLE_INDEX va) v2) d k = true ->
    table_at (store32 m1 (t + 4 * PAGE_TABLE_INDEX va) v2) d k = t /\ k = PAGE_DIR_INDEX va \/
    table_at (store32 m1 (t + 4 * PAGE_TABLE_INDEX va) v2) d k = table_at (pmem s) d k /\ present_at (pmem s) d k = true) as Hat
    by (intros v2 d k; apply (map_present_at ds s H (cr3 s) va PAGE_KERNEL v2 t a m1 Hd Hva Hhigh Hcr Htab d k)).
  destruct (index_ranges va Hva) as [Hi Hj].
  assert (table_at (store32 m1 (t + 4 * PAGE_TABLE_INDEX va) (page_entry p PAGE_KERNEL)) (cr3 s) (PAGE_DIR_INDEX va) = t) as Etab.
  { unfold table_at. rewrite (map_dir_new ds s H (cr3 s) va PAGE_KERNEL _ t a m1 Hd Hva Hhigh Hcr Htab).
    apply (cr_table _ _ _ _ _ _ Hcr). }
  destruct (flush_fields (with_pmem (store32 m1 (t + 4 * PAGE_TABLE_INDEX va) (page_entry p PAGE_KERNEL)) (with_frames a s)) (cr3 s) va)
    as (Fm & Ff & Fc & _).
  eexists. split; [unfold paging_map_page; rewrite (sw_cur _ _ H); exact E|]. split; [done|]. split; [done|].
  rewrite Fm in *. rewrite Ff in *. cbn [pmem frames with_pmem with_frames] in *.
  assert (fa_frames a = fa_frames (frames s) /\ (a = frames s \/ exists t, fa_alloc (frames s) = (t, a)) /\
    forall g, 0 <= g -> fa_used a g = true -> fa_used (frames s) g = true \/ 4096 * g = t) as (Hn & Halloc & Hused).
  { destruct Htab as [(_ & _ & ->)|(_ & Ha & Ht)]; [split; [done|]; split; [by left|]; auto|].
    destruct (fa_alloc_some _ _ _ (sw_alloc _ _ H) Ha ltac:(lia)) as (f & -> & _ & _ & _ & Hn & Hg).
    split; [done|]. split; [eauto|]. intros g Hg0. rewrite Hg by done. destruct (Z.eqb_spec g f) as [->|]; [by right|by left]. }
  split; [|split; [|split; [|split; [done|split; [|split; [|split; [exact Hmono|done]]]]]]].
  - intros q [Hqa Hq0 Hqu Hqd Hqt]. assert (q <> t) as Hne.
    { intros ->. destruct Htab as [(Hpr & Et & _)|(_ & Ha & _)].
      - by apply (Hqt (cr3 s) (PAGE_DIR_INDEX va)).
      - destruct (fa_alloc_some _ _ _ (sw_alloc _ _ H) Ha ltac:(lia)) as (f & -> & _ & Hf & _).
        rewrite Z.mul_comm, Z.div_mul in Hqu by lia. congruence. }
    split.
    + split; rewrite ?Fm, ?Ff; cbn [pmem frames with_pmem with_frames]; try done.
      * apply Hmono; [apply Z.div_pos; lia|done].
      * intros d k Hd' Hk Hpr. destruct (Hat _ d k Hd' Hk Hpr) as [[-> _]|[-> Hpr']]; [by apply not_eq_sym|by apply Hqt].
    + rewrite Fm. cbn [pmem with_pmem with_frames]. apply ents_agree. intros k Hk. rewrite ent_store, (eqb_sym_neg q t) by done. cbn [andb].
      apply (cr_else _ _ _ _ _ _ Hcr); try done. left. intros ->. by apply Hqd.
  - rewrite Hhere. f_equal. rewrite Hvaa. divlia.
  - intros d w Hd' Hw Hne. by apply Helse.
  - intros g Hg. rewrite Ff, Fm, Fc. cbn [pmem frames cr3 with_pmem with_frames]. intros Hu.
    destruct (Hused g Hg Hu) as [?| ->]; [by left|]. right. right. exists (PAGE_DIR_INDEX va). split; [done|].
    split; [|done]. unfold present_at. rewrite (map_dir_new ds s H (cr3 s) va PAGE_KERNEL _ t a m1 Hd Hva Hhigh Hcr Htab).
    apply (cr_present _ _ _ _ _ _ Hcr).
  - intros k Hk Hpr. rewrite Fm. cbn [pmem with_pmem with_frames].
    specialize (Hpres (cr3 s) k Hd Hk Hpr). split; [done|]. destruct (Hat _ (cr3 s) k Hd Hk Hpres) as [[-> ->]|[-> _]]; [|done].
    destruct Htab as [(_ & -> & _)|(? & _)]; [done|congruence].
Qed.

(** ** Changing the bytes of a page in use *)

Lemma used_page_untouched ds s m' q : space_wf ds s -> used_page ds s q -> only_in q (q + 4096) (pmem s) m' ->
  untouched ds (pmem s) m'.
Proof.
  intros H Hq Hm. assert (forall p, p mod 4096 = 0 -> p <> q -> forall k, 0 <= k < 1024 -> ent m' p k = ent (pmem s) p k) as Hent.
  { intros p Hp Hne k Hk. apply agree_ent; [|done]. eapply only_in_agree; [exact Hm|].
    destruct (pages_apart p q Hp (up_aligned _ _ _ Hq) Hne); lia. }
  intros d k Hd Hk. split.
  - apply Hent; [by apply (sw_dirs _ _ H)| |done]. intros ->. by apply (up_dir _ _ _ Hq).
  - intros Hpr x Hx. apply Hent; [apply table_at_range| |done]. by apply (up_table _ _ _ Hq).
Qed.

Lemma with_frames_self s m : with_pmem m (with_frames (frames s) s) = with_pmem m s. Proof. by destruct s. Qed.

Lemma live_write ds s m' q : space_wf ds s -> used_page ds s q -> only_in q (q + 4096) (pmem s) m' ->
  space_wf ds (with_pmem m' s) /\
  (forall p, used_page ds s p -> used_page ds (with_pmem m' s) p /\ (p <> q -> agree (pmem s) m' p (p + 4096))) /\
  (forall d w, d ∈ ds -> is_u32 w -> walk m' d w = walk (pmem s) d w) /\ tables_stay s (with_pmem m' s).
Proof.
  intros H Hq Hm. pose proof (used_page_untouched ds s m' q H Hq Hm) as Hun. split; [|split; [|split]].
  - rewrite <- with_frames_self. apply space_wf_untouched; try done. apply H.
  - intros p Hp. split.
    + destruct Hp. split; try done. intros d k Hd Hk. cbn [pmem with_pmem].
      destruct (untouched_at _ _ _ _ _ Hun Hd Hk) as [-> ->]. auto.
    + intros Hne. eapply only_in_agree; [exact Hm|].
      destruct (pages_apart p q (up_aligned _ _ _ Hp) (up_aligned _ _ _ Hq) Hne); lia.
  - intros d w Hd Hw. by apply (untouched_walk ds).
  - intros k Hk. cbn [pmem with_pmem]. destruct (untouched_at _ _ _ _ _ Hun (sw_cr3 _ _ H) Hk) as [-> ->]. done.
Qed.

(** ** Unmapping and giving the frame back *)

Lemma live_unmap ds s va p :
  space_wf ds s -> is_u32 va -> LOW_MEMORY <= va -> walk (pmem s) (cr3 s) va = Some p ->
  exists s', paging_unmap_page va s = Ret s' /\ space_wf ds s' /\ same_cpu s s' /\ frames s' = frames s /\
    keeps_pages ds s s' /\ walk (pmem s') (cr3 s) va = None /\
    (forall d w, d ∈ ds -> is_u32 w -> w / 4096 <> va / 4096 -> walk (pmem s') d w = walk (pmem s) d w) /\
    tables_stay s s'.
Proof.
  intros H Hva Hhigh Hw. pose proof (sw_cr3 _ _ H) as Hd.
  destruct (paging_unmap_page_correct ds s (cr3 s) va H Hd Hva Hhigh) as (s' & E & Hwf & Hnone & Hfr & Helse);
    [left; by rewrite (sw_cur _ _ H)|].
  destruct (index_ranges va Hva) as [Hi Hj].
  assert (present_at (pmem s) (cr3 s) (PAGE_DIR_INDEX va) = true) as Hp.
  { unfold walk in Hw. rewrite pde_ent in Hw. unfold present_at. by destruct (has (ent _ _ _) PAGE_PRESENT). }
  destruct (sw_tables _ _ H _ _ Hd Hi Hp) as (Ht & _ & Hnt). destruct (table_at_range (pmem s) (cr3 s) (PAGE_DIR_INDEX va)) as [Hta _].
  pose proof (wf_windowed _ _ H) as Hwin. destruct (sw_dirs _ _ H _ Hd) as (Hda & Hd0 & _).
  pose proof (page_room _ Hda ltac:(lia)). pose proof (page_room _ Hta ltac:(lia)).
  assert (s' = flush_if_current (cr3 s) va
    (with_pmem (store32 (pmem s) (table_at (pmem s) (cr3 s) (PAGE_DIR_INDEX va) + 4 * PAGE_TABLE_INDEX va) 0) s)) as Es.
  { unfold paging_unmap_page_in_directory in E. rewrite eqb_sym_neg, vload32_low in E by low_side.
    cbn [mbind outcome_bind] in E. unfold present_at in Hp. rewrite Hp in E. cbn [negb] in E. unfold table_at in *.
    rewrite vstore32_low in E by low_side. cbn [mbind outcome_bind] in E. by injection E as <-. }
  destruct (flush_fields (with_pmem (store32 (pmem s) (table_at (pmem s) (cr3 s) (PAGE_DIR_INDEX va) + 4 * PAGE_TABLE_INDEX va) 0) s) (cr3 s) va)
    as (Fm & _ & Fc & Fd & Fk). rewrite <- Es in *. cbn [pmem cr3 current_directory kernel_directory with_pmem] in *.
  set (t := table_at (pmem s) (cr3 s) (PAGE_DIR_INDEX va)) in *.
  assert (forall q k, q mod 4096 = 0 -> 0 <= k < 1024 -> q <> t -> ent (pmem s') q k = ent (pmem s) q k) as Hent.
  { intros q k Hq Hk Hne. rewrite Fm, ent_store, (eqb_sym_neg q t) by done. done. }
  assert (forall d k, d ∈ ds -> 0 <= k < 1024 -> present_at (pmem s') d k = present_at (pmem s) d k /\
    table_at (pmem s') d k = table_at (pmem s) d k) as Hsame.
  { intros d k Hd' Hk. unfold present_at, table_at. destruct (sw_dirs _ _ H d Hd') as (? & _).
    rewrite Hent by (done || (apply not_eq_sym; by apply Hnt)). done. }
  exists s'. split; [unfold paging_unmap_page; by rewrite (sw_cur _ _ H)|]. split; [done|]. split; [done|]. split; [done|].
  split; [|split; [done|split; [done|]]].
  - intros q Hq. split.
    + destruct Hq. split; try done; [by rewrite Hfr|]. intros d k Hd' Hk. destruct (Hsame d k Hd' Hk) as [-> ->]. auto.
    + apply ents_agree. intros k Hk. apply Hent; [apply Hq|done|]. apply not_eq_sym. by apply (up_table _ _ _ Hq).
  - intros k Hk Hpk. destruct (Hsame (cr3 s) k Hd Hk) as [-> ->]. done.
Qed.

Lemma live_free ds s p : space_wf ds s -> used_page ds s p -> p / 4096 < fa_frames (frames s) ->
  let s' := with_frames (fa_free (frames s) p) s in
  space_wf ds s' /\ freed (frames s) (frames s') [p] /\ (forall q, used_page ds s q -> q <> p -> used_page ds s' q).
Proof.
  intros H Hp Hn s'. pose proof (freed_one (frames s) p (sw_alloc _ _ H) (up_aligned _ _ _ Hp) (up_pos _ _ _ Hp) Hn) as Hfr.
  destruct Hfr as (Hok & Hn' & Hu).
  assert (forall q, 0 < q -> q mod 4096 = 0 -> q <> p -> fa_used (frames s) (q / 4096) = true ->
    fa_used (fa_free (frames s) p) (q / 4096) = true) as Hkeep.
  { intros q Hq Hqa Hne Huq. rewrite Hu, Huq by (apply Z.div_pos; lia). rewrite bool_decide_eq_false_2; [done|].
    rewrite mul4096_inv by done. by rewrite list_elem_of_singleton. }
  split; [|split; [done|]].
  - split; unfold s'; cbn [frames pg current_directory cr3 pmem tlb with_frames]; try apply H; try done.
    + intros d Hd. destruct (sw_dirs _ _ H d Hd) as (? & ? & ?). split; [done|]. split; [done|].
      apply Hkeep; try done; try lia. intros ->. by apply (up_dir _ _ _ Hp).
    + intros d k Hd Hk Hpr. destruct (sw_tables _ _ H d k Hd Hk Hpr) as (? & ? & ?). split; [done|]. split; [|done].
      apply Hkeep; try done; try lia; [apply table_at_range|]. by apply (up_table _ _ _ Hp).
  - intros q [] Hne. split; try done. by apply Hkeep.
Qed.

(** The two together, as both loops of vmalloc.c do it. *)
Lemma live_release ds s va p :
  space_wf ds s -> is_u32 va -> LOW_MEMORY <= va -> used_page ds s p -> p / 4096 < fa_frames (frames s) ->
  walk (pmem s) (cr3 s) va = Some p ->
  paging_get_physical va s = Ret p /\
  exists s1, paging_unmap_page va s = Ret s1 /\
    let s' := with_frames (fa_free (frames s1) p) s1 in
    space_wf ds s' /\ same_cpu s s' /\ freed (frames s) (frames s') [p] /\
    (forall q, used_page ds s q -> q <> p -> used_page ds s' q /\ agree (pmem s) (pmem s') q (q + 4096)) /\
    walk (pmem s') (cr3 s) va = None /\
    (forall d w, d ∈ ds -> is_u32 w -> w / 4096 <> va / 4096 -> walk (pmem s') d w = walk (pmem s) d w) /\
    tables_stay s s'.
Proof.
  intros H Hva Hhigh Hp Hn Hw. split.
  { unfold paging_get_physical. rewrite (sw_cur _ _ H), (get_physical_spec ds) by (done || apply H). by rewrite Hw. }
  destruct (live_unmap ds s va p H Hva Hhigh Hw) as (s1 & E & H1 & Hcpu & Hfr & Hk & Hnone & Helse & Hst).
  exists s1. split; [done|]. destruct (Hk p Hp) as [Hp1 _].
  destruct (live_free ds s1 p H1 Hp1) as (H2 & Hf2 & Hk2); [by rewrite Hfr|]. rewrite <- Hfr.
  split; [done|]. split; [done|]. split; [done|]. split; [|done].
  intros q Hq Hne. destruct (Hk q Hq) as [Hq1 A]. split; [by apply Hk2|done].
Qed.
End live.
