(* ===== verification/Vmalloc.v ===== *)
(** * The virtual memory allocator: kernel/src/vmalloc.c

    Regions of pages above the identity-mapped window, built from the three
    allocators below it: a descriptor from the kernel heap, frames from the
    physical memory manager, translations from paging.  Every access through a
    pointer goes through the MMU; the heap acts on the memory of the machine
    through the interface [HeapAllocator]. *)

From S2P Require Import Prelude Interfaces Memory HeapInterface Pmm Ring Chain Paging Process ProcessSpace LiveSpace Text.

Definition VM_MAGIC : Z := 3405691582. (** 0xCAFEBABE *)
Definition VMALLOC_START : Z := 16777216. (** 16 MB *)
Definition VMALLOC_END : Z := 268435456. (** 256 MB *)

(** Fields of [vm_region_t], 24 bytes. *)
Definition VM_REGION_SIZE : Z := 24.
Definition virt_addr_ (r : Z) : Z := r.
Definition size_ (r : Z) : Z := r + 4.
Definition mapped_size_ (r : Z) : Z := r + 8.
Definition num_pages_ (r : Z) : Z := r + 12.
Definition next_ (r : Z) : Z := r + 16.
Definition magic_ (r : Z) : Z := r + 20.

(** The static variables of the file, with those of the heap, and what [warn]
    printed, newest first. *)
Record vmstate (G : Type) := VM {
  vheap : G;
  vmalloc_current : Z;
  region_list : Z;
  total_regions : Z;
  total_pages_allocated : Z;
  vm_warnings : list string;
}.
Arguments VM {G} _ _ _ _ _ _.
Arguments vheap {G} _.
Arguments vmalloc_current {G} _.
Arguments region_list {G} _.
Arguments total_regions {G} _.
Arguments total_pages_allocated {G} _.
Arguments vm_warnings {G} _.

Section vmalloc.
Context {S : Type} `{FA : FrameAllocator S} {G : Type} `{HA : HeapAllocator G}.
Implicit Types (m : machine S) (v : vmstate G).

Definition with_heap (g : G) v : vmstate G :=
  VM g (vmalloc_current v) (region_list v) (total_regions v) (total_pages_allocated v) (vm_warnings v).
Definition with_current (c : Z) v : vmstate G :=
  VM (vheap v) c (region_list v) (total_regions v) (total_pages_allocated v) (vm_warnings v).
Definition with_regions (l : Z) v : vmstate G :=
  VM (vheap v) (vmalloc_current v) l (total_regions v) (total_pages_allocated v) (vm_warnings v).
Definition with_totals (r p : Z) v : vmstate G :=
  VM (vheap v) (vmalloc_current v) (region_list v) r p (vm_warnings v).
Definition vm_warn (msg : string) v : vmstate G :=
  VM (vheap v) (vmalloc_current v) (region_list v) (total_regions v) (total_pages_allocated v) (msg :: vm_warnings v).

(** [kmalloc] and [kfree] on the memory of the machine. *)
Definition vm_kmalloc (size : Z) m v : outcome (Z * machine S * vmstate G) :=
  '(p, mm, g) ← ha_alloc size (pmem m) (vheap v);
  Ret (p, with_pmem mm m, with_heap g v).
Definition vm_kfree (p : Z) m v : outcome (machine S * vmstate G) :=
  '(mm, g) ← ha_free p (pmem m) (vheap v);
  Ret (with_pmem mm m, with_heap g v).

Definition vmalloc_memset (ptr value size : Z) m : outcome (machine S) :=
  for_rangeM 0 size (fun i m => vstore8 (u32 (ptr + i)) value m) m.

(** The walks along the list of regions: as many steps as there are regions. *)
Definition region_fuel v : nat := Datatypes.S (Z.to_nat (total_regions v)).

Fixpoint highest_end_loop (fuel : nat) m (highest current : Z) : outcome Z :=
  match fuel with
  | O => OutOfFuel
  | Datatypes.S fuel =>
      if current =? 0 then Ret highest else
      virt ← vload32 m (virt_addr_ current);
      mapped ← vload32 m (mapped_size_ current);
      let end_ := u32 (virt + mapped) in
      next ← vload32 m (next_ current);
      highest_end_loop fuel m (if highest <? end_ then end_ else highest) next
  end.
Definition vmalloc_highest_end m v : outcome Z :=
  highest_end_loop (region_fuel v) m VMALLOC_START (region_list v).

(** The region and the one before it in the list; 0 and 0 when there is none. *)
Fixpoint find_region_loop (fuel : nat) m (virt_addr previous current : Z) : outcome (Z * Z) :=
  match fuel with
  | O => OutOfFuel
  | Datatypes.S fuel =>
      if current =? 0 then Ret (0, 0) else
      magic ← vload32 m (magic_ current);
      found ← (if magic =? VM_MAGIC then virt ← vload32 m (virt_addr_ current); Ret (virt =? virt_addr)
               else Ret false);
      if (found : bool) then Ret (current, previous) else
      next ← vload32 m (next_ current);
      find_region_loop fuel m virt_addr current next
  end.
Definition vmalloc_find_region (ptr : Z) m v : outcome (Z * Z) :=
  find_region_loop (region_fuel v) m ptr 0 (region_list v).

Definition vmalloc_init v : vmstate G := VM (vheap v) VMALLOC_START 0 0 0 (vm_warnings v).

(** [increment] is a C [int]; the failure value is pointer -1. *)
Definition vbrk (increment : Z) m v : outcome (Z * vmstate G) :=
  let old_current := vmalloc_current v in
  min_current ← vmalloc_highest_end m v;
  if increment =? 0 then Ret (vmalloc_current v, v) else
  let new_current := u32 (vmalloc_current v + increment) in
  if 0 <? increment then
    if VMALLOC_END <? new_current
    then Ret (u32 (-1), vm_warn "vbrk: Would exceed virtual address space" v)
    else Ret (old_current, with_current new_current v)
  else
    let new_current := if new_current <? min_current then min_current else new_current in
    Ret (old_current, with_current new_current v).

(** The loop over the pages of a new region: how many could be had, [num_pages]
    when none was refused. *)
Fixpoint map_pages (n : nat) (virt_addr i : Z) m : outcome (Z * machine S) :=
  match n with
  | O => Ret (i, m)
  | Datatypes.S n =>
      let '(phys_addr, a) := fa_alloc (frames m) in
      let m := with_frames a m in
      if phys_addr =? 0 then Ret (i, m) else
      m ← paging_map_page (u32 (virt_addr + i * PAGE_SIZE)) phys_addr PAGE_KERNEL m;
      m ← vmalloc_memset (u32 (virt_addr + i * PAGE_SIZE)) 0 PAGE_SIZE m;
      map_pages n virt_addr (i + 1) m
  end.

(** Out of physical memory: unmap what was mapped so far. *)
Definition undo_pages (virt_addr i : Z) m : outcome (machine S) :=
  for_rangeM 0 i (fun j m =>
    let addr := u32 (virt_addr + j * PAGE_SIZE) in
    phys ← paging_get_physical addr m;
    m ← paging_unmap_page addr m;
    Ret (with_frames (fa_free (frames m) phys) m)) m.

Definition vmalloc (size : Z) m v : outcome (Z * machine S * vmstate G) :=
  if size =? 0 then Ret (0, m, v) else
  let num_pages := u32 (u32 (size + PAGE_SIZE) - 1) / PAGE_SIZE in
  let alloc_size := u32 (num_pages * PAGE_SIZE) in
  if VMALLOC_END <? u32 (vmalloc_current v + alloc_size)
  then Ret (0, m, vm_warn "vmalloc: Out of virtual address space" v) else
  '(region, m, v) ← vm_kmalloc VM_REGION_SIZE m v;
  if region =? 0 then Ret (0, m, vm_warn "vmalloc: Out of kernel memory for metadata" v) else
  let virt_addr := vmalloc_current v in
  '(i, m) ← map_pages (Z.to_nat num_pages) virt_addr 0 m;
  if i <? num_pages then
    m ← undo_pages virt_addr i m;
    '(m, v) ← vm_kfree region m v;
    Ret (0, m, vm_warn "vmalloc: Out of physical memory" v)
  else
    m ← vstore32 (virt_addr_ region) virt_addr m;
    m ← vstore32 (size_ region) size m;
    m ← vstore32 (mapped_size_ region) alloc_size m;
    m ← vstore32 (num_pages_ region) num_pages m;
    m ← vstore32 (magic_ region) VM_MAGIC m;
    m ← vstore32 (next_ region) (region_list v) m;
    let v := with_regions region v in
    let v := with_totals (u32 (total_regions v + 1)) (u32 (total_pages_allocated v + num_pages)) v in
    Ret (virt_addr, m, with_current (u32 (vmalloc_current v + alloc_size)) v).

(** [for (i = 0; i < region->num_pages; i++)]: the descriptor is read at every
    turn; a region has no more pages than were allocated in all. *)
Fixpoint free_pages (fuel : nat) (region i : Z) m : outcome (machine S) :=
  match fuel with
  | O => OutOfFuel
  | Datatypes.S fuel =>
      num_pages ← vload32 m (num_pages_ region);
      if negb (i <? num_pages) then Ret m else
      virt ← vload32 m (virt_addr_ region);
      let vaddr := u32 (virt + i * PAGE_SIZE) in
      paddr ← paging_get_physical vaddr m;
      m ← (if negb (paddr =? 0) then
             m ← paging_unmap_page vaddr m; Ret (with_frames (fa_free (frames m) paddr) m)
           else Ret m);
      free_pages fuel region (i + 1) m
  end.

Definition vfree (ptr : Z) m v : outcome (machine S * vmstate G) :=
  if ptr =? 0 then Ret (m, v) else
  '(region, prev_region) ← vmalloc_find_region ptr m v;
  if region =? 0 then Panicked "vfree: Invalid region (corrupted or double-free)" else
  next ← vload32 m (next_ region);
  '(m, v) ← (if negb (prev_region =? 0) then m ← vstore32 (next_ prev_region) next m; Ret (m, v)
             else Ret (m, with_regions next v));
  m ← free_pages (Datatypes.S (Z.to_nat (total_pages_allocated v))) region 0 m;
  num_pages ← vload32 m (num_pages_ region);
  let v := with_totals (u32 (total_regions v - 1)) (u32 (total_pages_allocated v - num_pages)) v in
  m ← vstore32 (magic_ region) 0 m;
  '(m, v) ← vm_kfree region m v;
  highest ← vmalloc_highest_end m v;
  Ret (m, with_current highest v).

Definition vsize (ptr : Z) m v : outcome Z :=
  if ptr =? 0 then Ret 0 else
  '(region, _) ← vmalloc_find_region ptr m v;
  if region =? 0 then Ret 0 else vload32 m (size_ region).

Record vmalloc_stats := VStats { vs_total_virtual : Z; vs_used_virtual : Z; vs_num_regions : Z }.
Definition vmalloc_get_stats v : vmalloc_stats :=
  VStats (u32 (total_pages_allocated v * PAGE_SIZE)) (u32 (total_pages_allocated v * PAGE_SIZE)) (total_regions v).

(** ** The dump: the text printed *)

Definition print_hex_vm (num : Z) : list Z := print_hex num.
Definition print_dec_vm (num : Z) : list Z := shell_print_dec num.

Fixpoint dump_regions (fuel : nat) m (current region_num : Z) : outcome (list Z) :=
  match fuel with
  | O => OutOfFuel
  | Datatypes.S fuel =>
      if current =? 0 then Ret [] else
      magic ← vload32 m (magic_ current);
      if negb (magic =? VM_MAGIC) then Ret [] else
      virt ← vload32 m (virt_addr_ current);
      pages ← vload32 m (num_pages_ current);
      size ← vload32 m (size_ current);
      mapped ← vload32 m (mapped_size_ current);
      next ← vload32 m (next_ current);
      rest ← dump_regions fuel m next (region_num + 1);
      Ret (text "  [" ++ print_dec_vm region_num ++ text "] vaddr=0x" ++ print_hex_vm virt ++
           text " pages=" ++ print_dec_vm pages ++ text " size=" ++ print_dec_vm size ++
           text " mapped=" ++ print_dec_vm mapped ++ [10] ++ rest)
  end.

Definition vmalloc_dump m v : outcome (list Z) :=
  regions ← dump_regions (region_fuel v) m (region_list v) 0;
  Ret ([10] ++ text "=== Virtual Memory Dump ===" ++ [10] ++ text "VMalloc range: 0x" ++
       print_hex_vm VMALLOC_START ++ text " - 0x" ++ print_hex_vm (vmalloc_current v) ++ [10] ++
       text "Total regions: " ++ print_dec_vm (total_regions v) ++ [10] ++
       text "Total pages: " ++ print_dec_vm (total_pages_allocated v) ++ text " (" ++
       print_dec_vm (u32 (total_pages_allocated v * PAGE_SIZE) / 1024) ++ text " KB)" ++ [10] ++
       [10] ++ text "Regions:" ++ [10] ++ regions).
End vmalloc.

(** ** Lemmas: runs of pages *)

Section runs.
Context {S : Type} `{FA : FrameAllocator S}.
Implicit Types (s : machine S).

Definition zeroed (mm : mem) (p : Z) : Prop := forall a, p <= a < p + 4096 -> load8 mm a = 0.

(** [va] and the pages after it were mapped to the frames of [pages], free
    before, and cleared. *)
Record mapped_run (ds : list Z) s (va : Z) (pages : list Z) s' : Prop := {
  mr_wf : space_wf ds s';
  mr_cpu : same_cpu s s';
  mr_keep : keeps_pages ds s s';
  mr_page k p : pages !! k = Some p -> used_page ds s' p /\ p / 4096 < fa_frames (frames s) /\
    fa_used (frames s) (p / 4096) = false /\ walk (pmem s') (cr3 s) (va + 4096 * Z.of_nat k) = Some p /\
    zeroed (pmem s') p;
  mr_nodup : NoDup pages;
  mr_else d w : d ∈ ds -> is_u32 w -> w < va \/ va + 4096 * lenZ pages <= w ->
    walk (pmem s') d w = walk (pmem s) d w;
  mr_frames : fa_frames (frames s') = fa_frames (frames s);
  mr_used : accounted s s' pages;
  mr_mono g : 0 <= g -> fa_used (frames s) g = true -> fa_used (frames s') g = true;
  mr_stay : tables_stay s s';
}.

(** ... and these were unmapped, their frames given back. *)
Record released_run (ds : list Z) s (va : Z) (pages : list Z) s' : Prop := {
  rr_wf : space_wf ds s';
  rr_cpu : same_cpu s s';
  rr_freed : freed (frames s) (frames s') pages;
  rr_keep q : used_page ds s q -> q ∉ pages -> used_page ds s' q /\ agree (pmem s) (pmem s') q (q + 4096);
  rr_none w : va <= w < va + 4096 * lenZ pages -> w mod 4096 = 0 -> walk (pmem s') (cr3 s) w = None;
  rr_else d w : d ∈ ds -> is_u32 w -> w < va \/ va + 4096 * lenZ pages <= w ->
    walk (pmem s') d w = walk (pmem s) d w;
  rr_stay : tables_stay s s';
}.

Lemma mapped_nil ds s va : space_wf ds s -> mapped_run ds s va [] s.
Proof.
  intros H. split; try done; try (by constructor); try (by intros g; left).
Qed.

Lemma released_nil ds s va : space_wf ds s -> released_run ds s va [] s.
Proof.
  intros H. split; try done.
  - split; [apply H|]. split; [done|]. intros g Hg. rewrite bool_decide_eq_false_2 by set_solver. by rewrite andb_true_r.
  - intros w Hw _. unfold lenZ in Hw. cbn [length] in Hw. lia.
Qed.

Lemma lenZ_snoc {A} (l : list A) x : lenZ (l ++ [x]) = lenZ l + 1.
Proof. unfold lenZ. rewrite length_app. cbn [length]. lia. Qed.
Lemma lenZ_nonneg {A} (l : list A) : 0 <= lenZ l.
Proof. unfold lenZ. lia. Qed.

Lemma lookup_snoc_cases {A} (l : list A) x k y : (l ++ [x]) !! k = Some y ->
  l !! k = Some y /\ (k < length l)%nat \/ k = length l /\ y = x.
Proof.
  intros H. destruct (decide (k < length l)%nat).
  - left. rewrite lookup_app_l in H by lia. done.
  - right. rewrite lookup_app_r in H by lia. apply list_lookup_singleton_Some in H as [? ->]. split; [lia|done].
Qed.

Lemma same_cpu_trans s1 s2 s3 : same_cpu s1 s2 -> same_cpu s2 s3 -> same_cpu s1 s3.
Proof. unfold same_cpu. intuition congruence. Qed.

Lemma tables_stay_trans s1 s2 s3 : cr3 s2 = cr3 s1 -> tables_stay s1 s2 -> tables_stay s2 s3 -> tables_stay s1 s3.
Proof.
  intros Hc H1 H2 k Hk Hp. destruct (H1 k Hk Hp) as [Hp2 Ht2]. rewrite <- Hc in Hp2, Ht2 |- *.
  destruct (H2 k Hk Hp2) as [Hp3 Ht3]. rewrite Ht3. rewrite <- Ht2. done.
Qed.

Lemma mapped_snoc ds s va pages s1 p s2 : is_u32 va -> va + 4096 * (lenZ pages + 1) <= 4294967296 ->
  va mod 4096 = 0 -> mapped_run ds s va pages s1 -> mapped_run ds s1 (va + 4096 * lenZ pages) [p] s2 ->
  mapped_run ds s va (pages ++ [p]) s2.
Proof.
  intros Hva Hroom Hal H1 H2. destruct (mr_cpu _ _ _ _ _ H1) as (Hc & _). pose proof (lenZ_nonneg pages).
  assert (lenZ [p] = 1) as E1 by done.
  split.
  - apply H2.
  - eapply same_cpu_trans; [apply H1|apply H2].
  - eapply keeps_pages_trans; [apply H1|apply H2].
  - intros k q Hq. apply lookup_snoc_cases in Hq as [[Hq Hk]|[-> ->]].
    + destruct (mr_page _ _ _ _ _ H1 k q Hq) as (Hu & Hn & Hf & Hw & Hz).
      destruct (mr_keep _ _ _ _ _ H2 q Hu) as [Hu2 A2]. split; [done|]. split; [done|]. split; [done|]. split.
      * rewrite (mr_else _ _ _ _ _ H2); [done|rewrite <- Hc; apply (mr_wf _ _ _ _ _ H1)|unfold is_u32 in *; unfold lenZ in *; lia|left; unfold lenZ; lia].
      * intros a Ha. rewrite A2 by done. by apply Hz.
    + destruct (mr_page _ _ _ _ _ H2 0%nat p eq_refl) as (Hu & Hn & Hf & Hw & Hz).
      rewrite (mr_frames _ _ _ _ _ H1) in Hn. split; [done|]. split; [done|]. split.
      * destruct (fa_used (frames s) (p / 4096)) eqn:E; [|done]. exfalso.
        rewrite (mr_mono _ _ _ _ _ H1) in Hf; [done|apply Z.div_pos; [pose proof (up_pos _ _ _ Hu); lia|lia]|done].
      * rewrite Hc, Z.add_0_r in Hw. by fold (lenZ pages).
  - apply NoDup_app. split; [apply H1|]. split; [|apply NoDup_singleton]. intros q Hq ->%list_elem_of_singleton.
    apply list_elem_of_lookup in Hq as [k Hk]. destruct (mr_page _ _ _ _ _ H1 k p Hk) as (Hu & _).
    destruct (mr_page _ _ _ _ _ H2 0%nat p eq_refl) as (_ & _ & Hf & _). pose proof (up_used _ _ _ Hu). congruence.
  - intros d w Hd Hw Hr. rewrite lenZ_snoc in Hr. rewrite (mr_else _ _ _ _ _ H2), (mr_else _ _ _ _ _ H1); try done; lia.
  - by rewrite (mr_frames _ _ _ _ _ H2), (mr_frames _ _ _ _ _ H1).
  - intros g Hg Hu. destruct (mr_used _ _ _ _ _ H2 g Hg Hu) as [Hu1|[Hin|Ht]].
    + destruct (mr_used _ _ _ _ _ H1 g Hg Hu1) as [?|[Hin|(k & Hk & Hp & Ht)]]; [by left|right; left; apply elem_of_app; by left|].
      right. right. exists k. destruct (mr_cpu _ _ _ _ _ H2) as (-> & _).
      destruct (mr_stay _ _ _ _ _ H2 k Hk Hp) as [Hp2 Ht2]. split; [done|]. split; [done|]. congruence.
    + right. left. apply elem_of_app. by right.
    + by right; right.
  - intros g Hg Hu. apply (mr_mono _ _ _ _ _ H2), (mr_mono _ _ _ _ _ H1); done.
  - eapply tables_stay_trans; [exact Hc|apply H1|apply H2].
Qed.

(** *** Clearing a page through its new address *)

Lemma live_clear ds s va p : space_wf ds s -> va mod 4096 = 0 -> is_u32 va -> used_page ds s p ->
  walk (pmem s) (cr3 s) va = Some p ->
  vmalloc_memset va 0 PAGE_SIZE s = Ret (with_pmem (memset (pmem s) p 0 PAGE_SIZE) s).
Proof.
  intros H Ha Hu Hp Hw. assert (forall i, 0 <= i < 4096 -> is_u32 (va + i)) as Hui by (unfold is_u32 in *; intros; divlia).
  assert (forall n, only_in p (p + 4096) (pmem s) (memset (pmem s) p 0 n) \/ 4096 < n) as Honly.
  { intros n. destruct (Z.le_gt_cases n 4096); [left|by right]. destruct (Z.le_gt_cases 0 n).
    - intros a Ha'. rewrite load8_memset by lia. zbool; cbn [andb]; try done; lia.
    - intros a _. unfold memset. by rewrite for_range_nil by lia. }
  unfold vmalloc_memset, PAGE_SIZE.
  destruct (for_rangeM_ind (fun i (m : machine S) => vstore8 (u32 (va + i)) 0 m)
    (fun i s' => s' = with_pmem (memset (pmem s) p 0 i) s) 0 4096 s) as (s' & E & ->); [lia| | |done].
  - unfold memset. rewrite for_range_nil by lia. by destruct s.
  - intros i s' Hi ->. destruct (Honly i) as [Ho|]; [|lia].
    destruct (live_write ds s _ p H Hp Ho) as (Hwf & _ & Hwalk & _).
    eexists. split; [|reflexivity]. rewrite u32_id by (apply Hui; lia). unfold vstore8.
    rewrite (translate_page ds _ va p i Hwf); try done; [|by apply Hui|].
    + cbn [pmem with_pmem]. unfold memset. by rewrite for_range_snoc by lia.
    + cbn [pmem cr3 with_pmem]. rewrite Hwalk by (done || apply H). done.
Qed.

(** *** Mapping one page *)

Lemma fresh_used_page ds s p a : space_wf ds s -> fa_alloc (frames s) = (p, a) -> p <> 0 ->
  used_page ds (with_frames a s) p /\ p / 4096 < fa_frames (frames s) /\ fa_used (frames s) (p / 4096) = false /\
  is_u32 p /\ space_wf ds (with_frames a s) /\ fa_frames a = fa_frames (frames s) /\
  (forall g, 0 <= g -> fa_used a g = true -> fa_used (frames s) g = true \/ 4096 * g = p) /\
  (forall g, 0 <= g -> fa_used (frames s) g = true -> fa_used a g = true).
Proof.
  intros H Ha Hp. destruct (fa_alloc_some _ _ _ (sw_alloc _ _ H) Ha Hp) as (f & -> & Hf & Hu & Hok & Hn & Hg).
  pose proof (fa_frames_bound _ (sw_alloc _ _ H)) as Hb.
  assert (forall q, q mod 4096 = 0 -> fa_used (frames s) (q / 4096) = true -> q <> 4096 * f) as Hne.
  { intros q _ Hq ->. rewrite Z.mul_comm, Z.div_mul in Hq by lia. congruence. }
  assert (forall g, 0 <= g -> fa_used (frames s) g = true -> fa_used a g = true) as Hmono
    by (intros g Hg0 Hgu; by rewrite Hg, Hgu, orb_true_r).
  assert (4096 * f / 4096 = f) as Ed by (rewrite Z.mul_comm, Z.div_mul; lia). rewrite Ed. split.
  { split; cbn [frames pmem with_frames].
    - rewrite Z.mul_comm. by apply Z.mod_mul.
    - lia.
    - rewrite Ed, Hg, Z.eqb_refl by lia. done.
    - intros Hin. destruct (sw_dirs _ _ H _ Hin) as (Hda & _ & Hdu). by apply (Hne _ Hda Hdu).
    - intros d k Hd Hk Hpr Heq. destruct (sw_tables _ _ H d k Hd Hk Hpr) as (_ & Htu & _).
      by apply (Hne _ (proj1 (table_at_range _ d k)) Htu). }
  split; [lia|]. split; [done|]. split; [unfold is_u32; lia|]. split; [by apply space_wf_frames|]. split; [done|].
  split; [|done]. intros g Hg0. rewrite Hg by done. destruct (Z.eqb_spec g f) as [->|]; [by right|by left].
Qed.

Lemma map_one ds s va p a :
  space_wf ds s -> fa_alloc (frames s) = (p, a) -> p <> 0 -> is_u32 va -> LOW_MEMORY <= va -> va mod 4096 = 0 ->
  table_available (with_frames a s) (cr3 s) va ->
  exists s1 s2, paging_map_page va p PAGE_KERNEL (with_frames a s) = Ret s1 /\
    vmalloc_memset va 0 PAGE_SIZE s1 = Ret s2 /\ mapped_run ds s va [p] s2 /\
    (frames s2 = a \/ exists t, fa_alloc a = (t, frames s2)).
Proof.
  intros H Ha Hp Hu Hlow Hal Hav.
  destruct (fresh_used_page ds s p a H Ha Hp) as (Hpu & Hpn & Hpf & Hp32 & Hwf & Hn & Hused & Hmono).
  destruct (live_map ds (with_frames a s) va p Hwf Hu Hlow Hp32 (up_aligned _ _ _ Hpu) Hal Hav)
    as (s1 & E & Hwf1 & Hcpu & Hkeep & Hwalk & Helse & Hn1 & Hacc & Hstay & Hmono1 & Hfr).
  destruct Hcpu as (Hc & Hcd & Hkd). cbn [pmem frames cr3 current_directory kernel_directory with_frames] in *.
  destruct (Hkeep p Hpu) as [Hpu1 _].
  assert (walk (pmem s1) (cr3 s1) va = Some p) as Hw1 by by rewrite Hc.
  exists s1, (with_pmem (memset (pmem s1) p 0 PAGE_SIZE) s1). split; [done|]. split; [by apply (live_clear ds)|].
  assert (only_in p (p + 4096) (pmem s1) (memset (pmem s1) p 0 PAGE_SIZE)) as Ho.
  { intros b Hb. unfold PAGE_SIZE. rewrite load8_memset by lia. zbool; cbn [andb]; try done; lia. }
  destruct (live_write ds s1 _ p Hwf1 Hpu1 Ho) as (Hwf2 & Hkeep2 & Hwalk2 & Hstay2).
  split; [|exact Hfr]. split.
  - done.
  - unfold same_cpu. cbn. done.
  - intros q Hq. assert (used_page ds (with_frames a s) q) as Hq1.
    { destruct Hq. split; try done. cbn [frames with_frames]. apply Hmono; [apply Z.div_pos; lia|done]. }
    assert (q <> p) as Hne by (intros ->; pose proof (up_used _ _ _ Hq); congruence).
    destruct (Hkeep q Hq1) as [Hq2 A1]. destruct (Hkeep2 q Hq2) as [Hq3 A2]. split; [done|].
    eapply agree_trans; [exact A1|]. by apply A2.
  - intros k q Hk. apply list_lookup_singleton_Some in Hk as [-> <-]. rewrite Z.mul_0_r, Z.add_0_r.
    split; [by apply Hkeep2|]. split; [done|]. split; [done|]. split.
    + cbn [pmem with_pmem]. rewrite Hwalk2 by (done || apply H). done.
    + intros b Hb. cbn [pmem with_pmem]. unfold PAGE_SIZE. rewrite load8_memset by lia. zbool; cbn [andb]; try done; lia.
  - apply NoDup_singleton.
  - intros d w Hd Hw Hr. cbn [pmem with_pmem]. rewrite Hwalk2, Helse; try done.
    unfold lenZ in Hr. cbn [length] in Hr. intros Heq. divlia.
  - cbn. by rewrite Hn1.
  - intros g Hg Hgu. destruct (Hacc g Hg Hgu) as [Hga|[?%elem_of_nil|(k & Hk & Hkp & Hkt)]]; [|done|].
    + destruct (Hused g Hg Hga) as [?|<-]; [by left|]. right. left. by left.
    + right. right. exists k. cbn [cr3 pmem with_pmem]. split; [done|].
      destruct (Hstay2 k Hk Hkp) as [Hp2 Ht2]. cbn [pmem with_pmem] in *. split; [done|]. congruence.
  - intros g Hg Hgu. cbn [frames with_pmem]. auto.
  - eapply (tables_stay_trans s s1); [done| |exact Hstay2]. exact Hstay.
Qed.

(** *** The loop over the pages *)

(** The next [n] frames the allocator hands out lie in the window. *)
Fixpoint low_frames (n : nat) (a : S) : Prop :=
  match n with
  | O => True
  | Datatypes.S n => (fa_alloc a).1 < LOW_MEMORY /\ low_frames n (fa_alloc a).2
  end.

Lemma low_frames_le n k a : low_frames (n + k) a -> low_frames n a.
Proof. revert a. induction n as [|n IH]; intros a; [done|]. cbn. intros [? ?]. split; [done|]. by apply IH. Qed.

Definition no_table_memory : string := "paging_map_page: Out of memory for page table".

(** A page of the range has no table yet. *)
Definition table_missing s (va n : Z) : Prop :=
  exists k, 0 <= k < n /\ present_at (pmem s) (cr3 s) (PAGE_DIR_INDEX (va + 4096 * k)) = false.

Lemma table_or_panic ds s va p n : space_wf ds s -> is_u32 va -> low_frames (Datatypes.S n) (frames s) ->
  table_available s (cr3 s) va \/
  present_at (pmem s) (cr3 s) (PAGE_DIR_INDEX va) = false /\ paging_map_page va p PAGE_KERNEL s = Panicked no_table_memory.
Proof.
  intros H Hu [Hlow _]. destruct (present_at (pmem s) (cr3 s) (PAGE_DIR_INDEX va)) eqn:Hp; [left; by left|].
  destruct (fa_alloc (frames s)) as [t a] eqn:Ha. cbn [fst] in Hlow. destruct (decide (t = 0)) as [->|Ht].
  - right. split; [done|]. unfold paging_map_page. rewrite (sw_cur _ _ H). unfold paging_map_page_in_directory.
    destruct (wf_cr3 ds s H) as [_ Hc]. rewrite eqb_sym_neg by lia.
    by rewrite (get_table_fail ds s H (cr3 s) va PAGE_KERNEL a (sw_cr3 _ _ H) Hu Hp Ha).
  - left. right. destruct (fa_alloc_some _ _ _ (sw_alloc _ _ H) Ha Ht) as (f & -> & Hf & _). exists (4096 * f), a. split; [done|lia].
Qed.

Lemma map_pages_spec ds s0 va n : forall pages s, mapped_run ds s0 va pages s ->
  low_frames (n + n) (frames s) -> LOW_MEMORY <= va -> va mod 4096 = 0 ->
  va + 4096 * (lenZ pages + Z.of_nat n) <= 4294967296 ->
  (exists pages' s', map_pages n va (lenZ pages) s = Ret (lenZ pages', s') /\ mapped_run ds s0 va pages' s' /\
     lenZ pages <= lenZ pages' <= lenZ pages + Z.of_nat n) \/
  (map_pages n va (lenZ pages) s = Panicked no_table_memory /\ table_missing s0 va (lenZ pages + Z.of_nat n)).
Proof.
  induction n as [|n IH]; intros pages s Hrun Hlow Hva Hal Hroom; cbn [map_pages].
  { left. exists pages, s. split; [done|]. split; [done|]. lia. }
  pose proof (lenZ_nonneg pages) as Hlen. pose proof (mr_wf _ _ _ _ _ Hrun) as H.
  destruct (mr_cpu _ _ _ _ _ Hrun) as (Hc & _).
  replace (Datatypes.S n + Datatypes.S n)%nat with (Datatypes.S (Datatypes.S (n + n))) in Hlow by lia.
  destruct Hlow as [Hp Hlow]. destruct (fa_alloc (frames s)) as [p a] eqn:Ha. cbn [fst snd] in Hp, Hlow.
  destruct (Z.eqb_spec p 0) as [->|Hp0].
  { left. rewrite (fa_alloc_fail _ _ (sw_alloc _ _ H) Ha). exists pages, s. split; [by destruct s|]. split; [done|]. lia. }
  change (lenZ pages * PAGE_SIZE) with (lenZ pages * 4096). set (w := va + 4096 * lenZ pages).
  replace (va + lenZ pages * 4096) with w by (unfold w; lia).
  assert (is_u32 w /\ LOW_MEMORY <= w /\ w mod 4096 = 0) as (Hw & Hwl & Hwa).
  { unfold w, is_u32, LOW_MEMORY in *. split; [lia|]. split; [lia|]. divlia. }
  rewrite u32_id by done.
  destruct (fresh_used_page ds s p a H Ha Hp0) as (_ & _ & _ & _ & Hwf & _).
  destruct (table_or_panic ds (with_frames a s) w p (n + n) Hwf Hw Hlow) as [Hav|[Hmiss Hpanic]].
  - destruct (map_one ds s w p a H Ha Hp0 Hw Hwl Hwa Hav) as (s1 & s2 & E1 & E2 & Hrun2 & Hfr).
    rewrite E1. cbn [mbind outcome_bind]. rewrite E2. cbn [mbind outcome_bind].
    assert (mapped_run ds s0 va (pages ++ [p]) s2) as Hrun'
      by (refine (mapped_snoc ds s0 va pages s p s2 _ _ Hal Hrun Hrun2); clear E1 E2; [unfold is_u32, LOW_MEMORY in *; lia|lia]).
    clear E1 E2.
    rewrite <- (lenZ_snoc pages p).
    destruct (IH (pages ++ [p]) s2 Hrun') as [(pages' & s' & E & Hr & Hl)|[E Hmiss]];
      rewrite ?lenZ_snoc in *; [|exact Hva|exact Hal|lia|..].
    + destruct Hfr as [->|(t & Et)].
      * apply (low_frames_le (n + n) 1). by replace (n + n + 1)%nat with (Datatypes.S (n + n)) by lia.
      * cbn in Hlow. rewrite Et in Hlow. apply Hlow.
    + left. exists pages', s'. split; [done|]. split; [done|]. lia.
    + right. split; [done|]. destruct Hmiss as (k & Hk & Hk'). exists k. split; [lia|done].
  - right. rewrite Hpanic. split; [done|]. exists (lenZ pages). split; [lia|]. fold w.
    cbn [pmem cr3 with_frames] in Hmiss. rewrite Hc in Hmiss.
    destruct (present_at (pmem s0) (cr3 s0) (PAGE_DIR_INDEX w)) eqn:E; [|done].
    destruct (mr_stay _ _ _ _ _ Hrun (PAGE_DIR_INDEX w) (proj1 (index_ranges w Hw)) E). congruence.
Qed.

(** *** Releasing *)

Lemma released_snoc ds s va pages s1 p : is_u32 va -> LOW_MEMORY <= va ->
  va + 4096 * (lenZ pages + 1) <= 4294967296 -> va mod 4096 = 0 ->
  released_run ds s va pages s1 -> used_page ds s p -> p / 4096 < fa_frames (frames s) -> p ∉ pages ->
  walk (pmem s) (cr3 s) (va + 4096 * lenZ pages) = Some p ->
  let w := va + 4096 * lenZ pages in
  paging_get_physical w s1 = Ret p /\
  exists s2, paging_unmap_page w s1 = Ret s2 /\
    released_run ds s va (pages ++ [p]) (with_frames (fa_free (frames s2) p) s2).
Proof.
  intros Hva Hlow Hroom Hal Hrun Hp Hn Hnot Hw w. pose proof (lenZ_nonneg pages).
  destruct (rr_cpu _ _ _ _ _ Hrun) as (Hc & Hcd & Hkd). pose proof (rr_wf _ _ _ _ _ Hrun) as H1.
  assert (is_u32 w /\ LOW_MEMORY <= w /\ w mod 4096 = 0) as (Hwu & Hwl & Hwa).
  { unfold w, is_u32, LOW_MEMORY in *. split; [lia|]. split; [lia|]. divlia. }
  destruct (rr_keep _ _ _ _ _ Hrun p Hp Hnot) as [Hp1 _]. destruct (rr_freed _ _ _ _ _ Hrun) as (_ & Hn1 & _).
  destruct (live_release ds s1 w p H1 Hwu Hwl Hp1) as (Eg & s2 & Eu & Hwf & Hcpu & Hfr & Hkeep & Hnone & Helse & Hstay).
  { by rewrite Hn1. }
  { rewrite Hc, (rr_else _ _ _ _ _ Hrun); try done; [rewrite <- Hc; apply H1|by right]. }
  split; [done|]. exists s2. split; [done|]. split; try done.
  - eapply same_cpu_trans; [|exact Hcpu]. done.
  - eapply freed_trans; [apply Hrun|done].
  - intros q Hq Hin. destruct (rr_keep _ _ _ _ _ Hrun q Hq) as [Hq1 A1]; [set_solver|].
    destruct (Hkeep q Hq1) as [Hq2 A2]; [set_solver|]. split; [done|]. by eapply agree_trans.
  - intros x Hx Hxa. rewrite lenZ_snoc in Hx. destruct (decide (x = w)) as [->|Hne]; [by rewrite <- Hc|].
    rewrite Helse; [|rewrite <- Hc; apply H1|unfold is_u32 in *; lia|divlia].
    apply (rr_none _ _ _ _ _ Hrun); [|done]. subst w. divlia.
  - intros d x Hd Hx Hr. rewrite lenZ_snoc in Hr. rewrite Helse; [|done|done|subst w; divlia].
    apply (rr_else _ _ _ _ _ Hrun); try done. lia.
  - eapply tables_stay_trans; [exact Hc|apply Hrun|done].
Qed.

(** The pages of [pages] are mapped from [va] on. *)
Definition held (ds : list Z) s (va : Z) (pages : list Z) : Prop :=
  NoDup pages /\ forall k p, pages !! k = Some p -> used_page ds s p /\ p / 4096 < fa_frames (frames s) /\
    walk (pmem s) (cr3 s) (va + 4096 * Z.of_nat k) = Some p.

Lemma lenZ_take {A} (l : list A) k : (k <= length l)%nat -> lenZ (take k l) = Z.of_nat k.
Proof. intros. unfold lenZ. rewrite length_take. lia. Qed.

Lemma held_step ds s va pages k p s1 : is_u32 va -> LOW_MEMORY <= va -> va + 4096 * lenZ pages <= 4294967296 ->
  va mod 4096 = 0 -> held ds s va pages -> pages !! k = Some p -> released_run ds s va (take k pages) s1 ->
  let w := va + 4096 * Z.of_nat k in
  0 < p /\ paging_get_physical w s1 = Ret p /\
  exists s2, paging_unmap_page w s1 = Ret s2 /\
    released_run ds s va (take (Datatypes.S k) pages) (with_frames (fa_free (frames s2) p) s2).
Proof.
  intros Hva Hlow Hroom Hal [Hnd Hpages] Hk Hrun w. apply lookup_lt_Some in Hk as Hlt.
  destruct (Hpages k p Hk) as (Hu & Hn & Hw). split; [apply Hu|].
  rewrite (take_S_r _ _ _ Hk). pose proof (lenZ_take pages k ltac:(lia)) as El.
  replace w with (va + 4096 * lenZ (take k pages)) by (unfold w; by rewrite El).
  apply (released_snoc ds s va (take k pages) s1 p Hva Hlow); try done.
  - rewrite El. unfold lenZ in Hroom. lia.
  - intros Hin. apply list_elem_of_lookup in Hin as [j Hj]. apply lookup_take_Some in Hj as [Hj Hjk].
    pose proof (NoDup_lookup _ _ _ _ Hnd Hj Hk). lia.
  - by rewrite El.
Qed.

Lemma undo_pages_spec ds s va pages : space_wf ds s -> is_u32 va -> LOW_MEMORY <= va ->
  va + 4096 * lenZ pages <= 4294967296 -> va mod 4096 = 0 -> held ds s va pages ->
  exists s', undo_pages va (lenZ pages) s = Ret s' /\ released_run ds s va pages s'.
Proof.
  intros H Hva Hlow Hroom Hal Hheld. unfold undo_pages.
  destruct (for_rangeM_ind (fun j (m : machine S) =>
      let addr := u32 (va + j * PAGE_SIZE) in
      phys ← paging_get_physical addr m;
      m ← paging_unmap_page addr m;
      Ret (with_frames (fa_free (frames m) phys) m))
    (fun j s' => released_run ds s va (take (Z.to_nat j) pages) s') 0 (lenZ pages) s) as (s' & E & Hrun).
  - apply lenZ_nonneg.
  - by apply released_nil.
  - intros j s1 Hj Hrun. destruct (lookup_lt_is_Some_2 pages (Z.to_nat j)) as [p Hp]; [unfold lenZ in Hj; lia|].
    destruct (held_step ds s va pages _ p s1 Hva Hlow Hroom Hal Hheld Hp Hrun) as (_ & E1 & s2 & E2 & Hrun2).
    replace (Z.to_nat (j + 1)) with (Datatypes.S (Z.to_nat j)) by lia. rewrite Z2Nat.id in E1, E2 by lia.
    unfold PAGE_SIZE. rewrite (Z.mul_comm j), u32_id by (unfold is_u32, LOW_MEMORY in *; lia).
    rewrite E1. cbn [mbind outcome_bind]. rewrite E2. cbn [mbind outcome_bind]. eexists. split; [reflexivity|]. exact Hrun2.
  - exists s'. split; [exact E|]. by rewrite firstn_all2 in Hrun by (unfold lenZ; lia).
Qed.

(** A word of the window none of whose pages is given back. *)
Definition kept_word (ds : list Z) s (pages : list Z) (a : Z) : Prop :=
  0 <= a /\ a + 4 <= LOW_MEMORY /\
  forall b, a <= b < a + 4 -> used_page ds s (b / 4096 * 4096) /\ b / 4096 * 4096 ∉ pages.

Lemma kept_word_load ds s pages a s' va k : kept_word ds s pages a -> released_run ds s va (take k pages) s' ->
  vload32 s' a = Ret (load32 (pmem s) a).
Proof.
  intros (Ha & Ha' & Hb) Hrun. unfold vload32.
  rewrite translate_low by (try (apply (wf_windowed ds), Hrun); lia). f_equal.
  assert (forall b, a <= b < a + 4 -> load8 (pmem s') b = load8 (pmem s) b) as E.
  { intros b Hb4. destruct (Hb b Hb4) as [Hu Hnot].
    destruct (rr_keep _ _ _ _ _ Hrun _ Hu) as [_ A]; [|apply A; divlia].
    intros Hin. apply Hnot. apply list_elem_of_lookup in Hin as [j Hj].
    apply lookup_take_Some in Hj as [Hj _]. by eapply list_elem_of_lookup_2. }
  unfold load32. by rewrite !E by lia.
Qed.

Lemma free_pages_spec ds s va pages region : space_wf ds s -> is_u32 va -> LOW_MEMORY <= va ->
  va + 4096 * lenZ pages <= 4294967296 -> va mod 4096 = 0 -> held ds s va pages ->
  kept_word ds s pages (num_pages_ region) -> kept_word ds s pages (virt_addr_ region) ->
  load32 (pmem s) (num_pages_ region) = lenZ pages -> load32 (pmem s) (virt_addr_ region) = va ->
  forall fuel k s1, (length pages - k < fuel)%nat -> (k <= length pages)%nat -> released_run ds s va (take k pages) s1 ->
  exists s', free_pages fuel region (Z.of_nat k) s1 = Ret s' /\ released_run ds s va pages s'.
Proof.
  intros H Hva Hlow Hroom Hal Hheld Hkn Hkv En Ev. induction fuel as [|fuel IH]; intros k s1 Hfuel Hk Hrun; [lia|].
  cbn [free_pages]. rewrite (kept_word_load _ _ _ _ _ _ _ Hkn Hrun), En. cbn [mbind outcome_bind].
  destruct (Z.ltb_spec (Z.of_nat k) (lenZ pages)) as [Hlt|Hge]; cbn [negb].
  - rewrite (kept_word_load _ _ _ _ _ _ _ Hkv Hrun), Ev. cbn [mbind outcome_bind].
    destruct (lookup_lt_is_Some_2 pages k) as [p Hp]; [unfold lenZ in Hlt; lia|].
    destruct (held_step ds s va pages k p s1 Hva Hlow Hroom Hal Hheld Hp Hrun) as (Hp0 & E1 & s2 & E2 & Hrun2).
    change (Z.of_nat k * PAGE_SIZE) with (Z.of_nat k * 4096). rewrite (Z.mul_comm _ 4096).
    rewrite u32_id by (clear E1 E2; unfold is_u32, LOW_MEMORY in *; lia).
    rewrite E1. cbn [mbind outcome_bind]. rewrite eqb_sym_neg by lia. cbn [negb]. rewrite E2. cbn [mbind outcome_bind].
    replace (Z.of_nat k + 1) with (Z.of_nat (Datatypes.S k)) by lia. unfold lenZ in Hlt. clear E1 E2.
    by apply IH; [lia|lia|].
  - exists s1. split; [done|]. unfold lenZ in Hge. by rewrite firstn_all2 in Hrun by lia.
Qed.

(** A run that was abandoned leaves only new tables behind. *)
Lemma abandoned ds s va pages s1 s2 : mapped_run ds s va pages s1 -> released_run ds s1 va pages s2 ->
  space_wf ds s2 /\ same_cpu s s2 /\ keeps_pages ds s s2 /\ accounted s s2 [] /\ tables_stay s s2 /\
  fa_frames (frames s2) = fa_frames (frames s) /\
  (forall d w, d ∈ ds -> is_u32 w -> w < va \/ va + 4096 * lenZ pages <= w -> walk (pmem s2) d w = walk (pmem s) d w).
Proof.
  intros H1 H2. destruct (mr_cpu _ _ _ _ _ H1) as (Hc & ? & ?). pose proof (rr_cpu _ _ _ _ _ H2) as (Hc2 & ? & ?).
  destruct (rr_freed _ _ _ _ _ H2) as (_ & Hn & Hu).
  split; [apply H2|]. split; [unfold same_cpu; split; [congruence|split; congruence]|]. split; [|split; [|split; [|split]]].
  - intros q Hq. destruct (mr_keep _ _ _ _ _ H1 q Hq) as [Hq1 A1].
    destruct (rr_keep _ _ _ _ _ H2 q Hq1) as [Hq2 A2]; [|split; [done|by eapply agree_trans]].
    intros Hin. apply list_elem_of_lookup in Hin as [k Hk]. destruct (mr_page _ _ _ _ _ H1 k q Hk) as (_ & _ & Hf & _).
    pose proof (up_used _ _ _ Hq). congruence.
  - intros g Hg. rewrite Hu by done. intros [Hu1 Hnot]%andb_true_iff. rewrite negb_true_iff, bool_decide_eq_false in Hnot.
    destruct (mr_used _ _ _ _ _ H1 g Hg Hu1) as [?|[Hin|(k & Hk & Hp & Ht)]]; [by left|rewrite Z.mul_comm in Hin; done|].
    right. right. exists k. destruct (rr_stay _ _ _ _ _ H2 k Hk Hp) as [Hp2 Ht2]. rewrite Hc2. split; [done|]. split; [done|]. congruence.
  - eapply tables_stay_trans; [exact Hc|apply H1|apply H2].
  - rewrite Hn. apply H1.
  - intros d w Hd Hw Hr. rewrite (rr_else _ _ _ _ _ H2), (mr_else _ _ _ _ _ H1); done.
Qed.

Lemma mapped_held ds s va pages s1 : mapped_run ds s va pages s1 -> held ds s1 va pages.
Proof.
  intros H. split; [apply H|]. intros k p Hk. destruct (mr_page _ _ _ _ _ H k p Hk) as (? & ? & _ & ? & _).
  rewrite (mr_frames _ _ _ _ _ H). destruct (mr_cpu _ _ _ _ _ H) as (-> & _). done.
Qed.
End runs.
