(* ===== verification/Regions.v ===== *)
(** * The regions of kernel/src/vmalloc.c

    The invariant of the virtual memory allocator, over its list of regions, and
    what [vmalloc], [vfree], [vsize] and [vbrk] do: against the interfaces of the
    frame allocator and of the heap. *)

From S2P Require Import Prelude Interfaces Memory HeapInterface Pmm Kmalloc Heap Ring Chain Paging Process ProcessSpace LiveSpace Text Vmalloc.

(** A region: its descriptor, its addresses, the size asked for, its frames. *)
Record region := Region { r_addr : Z; r_virt : Z; r_size : Z; r_pages : list Z }.

Definition r_length (r : region) : Z := 4096 * lenZ (r_pages r).
Definition r_end (r : region) : Z := r_virt r + r_length r.

(** The descriptor of [r] in memory, but for its link. *)
Definition node (mm : mem) (r : region) : Prop :=
  load32 mm (virt_addr_ (r_addr r)) = r_virt r /\ load32 mm (size_ (r_addr r)) = r_size r /\
  load32 mm (mapped_size_ (r_addr r)) = r_length r /\ load32 mm (num_pages_ (r_addr r)) = lenZ (r_pages r) /\
  load32 mm (magic_ (r_addr r)) = VM_MAGIC.

Fixpoint region_chain (mm : mem) (head : Z) (rs : list region) : Prop :=
  match rs with
  | [] => head = 0
  | r :: rs => head = r_addr r /\ node mm r /\ region_chain mm (load32 mm (next_ (r_addr r))) rs
  end.

(** The newest region has the highest addresses: each lies below the one before. *)
Fixpoint stacked (top : Z) (rs : list region) : Prop :=
  match rs with
  | [] => VMALLOC_START <= top
  | r :: rs => r_virt r mod 4096 = 0 /\ r_pages r <> [] /\ 0 < r_size r <= r_length r /\
      r_end r <= top /\ stacked (r_virt r) rs
  end.

Definition total_pages (rs : list region) : Z := foldr (fun r n => lenZ (r_pages r) + n) 0 rs.

Definition top_of (rs : list region) : Z := match rs with [] => VMALLOC_START | r :: _ => r_end r end.

Lemma node_agree mm mm' r : agree mm mm' (r_addr r) (r_addr r + 24) -> node mm r -> node mm' r.
Proof.
  intros H (E1 & E2 & E3 & E4 & E5). unfold node, virt_addr_, size_, mapped_size_, num_pages_, magic_ in *.
  rewrite !(load32_agree mm mm' (r_addr r) (r_addr r + 24)) by (done || lia). done.
Qed.

Lemma region_chain_agree mm mm' head rs : (forall r, r ∈ rs -> agree mm mm' (r_addr r) (r_addr r + 24)) ->
  region_chain mm head rs -> region_chain mm' head rs.
Proof.
  revert head. induction rs as [|r rs IH]; intros head Ha; [done|]. intros (-> & Hn & Hc). split; [done|].
  assert (agree mm mm' (r_addr r) (r_addr r + 24)) as A by (apply Ha; by left).
  split; [by eapply node_agree|]. unfold next_ in *. rewrite (load32_agree _ _ _ _ _ A) by lia.
  apply IH; [|done]. intros r' Hr. apply Ha. by right.
Qed.

Lemma region_chain_node mm head rs r : region_chain mm head rs -> r ∈ rs -> node mm r.
Proof.
  revert head. induction rs as [|c rs IH]; intros head; [by intros _ ?%elem_of_nil|].
  intros (_ & Hn & Hc) [->|Hr]%elem_of_cons; [done|]. by eapply IH.
Qed.

Lemma r_length_pos r : r_pages r <> [] -> 4096 <= r_length r.
Proof. unfold r_length, lenZ. destruct (r_pages r); [done|]. cbn [length]. lia. Qed.

Lemma stacked_weaken top top' rs : top <= top' -> stacked top rs -> stacked top' rs.
Proof. destruct rs as [|r rs]; cbn [stacked]; [lia|]. intuition lia. Qed.

Lemma stacked_start top rs : stacked top rs -> VMALLOC_START <= top.
Proof.
  revert top. induction rs as [|r rs IH]; intros top; cbn [stacked]; [done|].
  intros (_ & Hp & _ & He & Hs). apply IH in Hs. pose proof (r_length_pos r Hp). unfold r_end in He. lia.
Qed.

Lemma stacked_top_of top rs : stacked top rs -> top_of rs <= top /\ stacked (top_of rs) rs /\ top_of rs mod 4096 = 0 /\
  VMALLOC_START <= top_of rs.
Proof.
  intros H. destruct rs as [|r rs]; [split; [exact H|done]|]. destruct H as (Ha & Hp & Hz & He & Hs). cbn [top_of].
  pose proof (stacked_start _ _ Hs). pose proof (r_length_pos r Hp). split; [done|].
  split; [split; [done|split; [done|split; [done|split; [done|done]]]]|]. unfold r_end, r_length in *. split; [divlia|lia].
Qed.

(** A region in the list, and the others. *)
Lemma stacked_elem top rs r : stacked top rs -> r ∈ rs ->
  VMALLOC_START <= r_virt r /\ r_end r <= top /\ r_virt r mod 4096 = 0 /\ r_pages r <> [] /\ 0 < r_size r <= r_length r.
Proof.
  revert top. induction rs as [|c rs IH]; intros top Hs Hr; [by apply elem_of_nil in Hr|].
  destruct Hs as (Ha & Hp & Hz & He & Hs). apply elem_of_cons in Hr as [->|Hr].
  - pose proof (stacked_start _ _ Hs). done.
  - destruct (IH _ Hs Hr) as (? & ? & ?). pose proof (r_length_pos c Hp). unfold r_end in *. split; [done|]. split; [lia|done].
Qed.

Lemma stacked_app top l r rs : stacked top (l ++ r :: rs) ->
  stacked top (l ++ rs) /\ stacked (r_virt r) rs /\ (forall c, c ∈ l -> r_end r <= r_virt c) /\
  (forall c, c ∈ rs -> r_end c <= r_virt r).
Proof.
  revert top. induction l as [|c l IH]; intros top; cbn [app stacked].
  - intros (Ha & Hp & Hz & He & Hs). split; [|split; [done|split; [by intros c ?%elem_of_nil|]]].
    + eapply stacked_weaken; [|exact Hs]. pose proof (r_length_pos r Hp). unfold r_end in He. lia.
    + intros c Hc. by apply (stacked_elem _ _ c Hs).
  - intros (Ha & Hp & Hz & He & Hs). destruct (stacked_elem _ _ r Hs) as (_ & Hre & _); [apply elem_of_app; right; by left|].
    destruct (IH _ Hs) as (H1 & H2 & H3 & H4).
    split; [done|]. split; [done|]. split; [|done]. intros x [->|Hx]%elem_of_cons; [done|]. by apply H3.
Qed.

Lemma total_pages_app l r : total_pages (l ++ r) = total_pages l + total_pages r.
Proof. unfold total_pages. induction l as [|c l IH]; cbn [app foldr]; [done|]. lia. Qed.

Lemma total_pages_bound top rs : stacked top rs -> 4096 * total_pages rs <= top - VMALLOC_START /\ lenZ rs <= total_pages rs /\ 0 <= total_pages rs.
Proof.
  revert top. induction rs as [|r rs IH]; intros top; cbn [stacked total_pages foldr]; [intros; unfold lenZ; cbn; lia|].
  intros (_ & Hp & _ & He & Hs). destruct (IH _ Hs) as (? & ? & ?). fold (total_pages rs).
  pose proof (r_length_pos r Hp). unfold r_end, r_length, lenZ in *. cbn [length]. lia.
Qed.

(** ** The walks along the list *)

Section walks.
Context {S : Type} `{FA : FrameAllocator S}.
Implicit Types (m : machine S).

(** The descriptors lie in the window. *)
Definition nodes_low (rs : list region) : Prop := forall r, r ∈ rs -> 0 < r_addr r /\ r_addr r + 24 <= LOW_MEMORY.

Lemma nodes_low_cons r rs : nodes_low (r :: rs) -> (0 < r_addr r /\ r_addr r + 24 <= LOW_MEMORY) /\ nodes_low rs.
Proof. intros H. split; [apply H; by left|]. intros c Hc. apply H. by right. Qed.

Lemma low_load m a : windowed m -> 0 <= a < LOW_MEMORY -> vload32 m a = Ret (load32 (pmem m) a).
Proof. intros Hw Ha. unfold vload32. by rewrite translate_low. Qed.

Lemma low_store m a v : windowed m -> 0 <= a < LOW_MEMORY -> vstore32 a v m = Ret (with_pmem (store32 (pmem m) a v) m).
Proof. intros Hw Ha. unfold vstore32. by rewrite translate_low. Qed.

Ltac node_load := rewrite !low_load by (done || (unfold virt_addr_, size_, mapped_size_, num_pages_, next_, magic_; lia)); cbn [mbind outcome_bind].

Lemma highest_step m r fuel h : windowed m -> 0 < r_addr r /\ r_addr r + 24 <= LOW_MEMORY -> node (pmem m) r -> is_u32 (r_end r) ->
  highest_end_loop (Datatypes.S fuel) m h (r_addr r) =
    highest_end_loop fuel m (if h <? r_end r then r_end r else h) (load32 (pmem m) (next_ (r_addr r))).
Proof.
  intros Hw Hr (E1 & _ & E3 & _) Hu. cbn [highest_end_loop]. rewrite eqb_sym_neg by lia. node_load.
  rewrite E1, E3. fold (r_end r). by rewrite u32_id.
Qed.

Lemma highest_rest m : windowed m -> forall rs fuel h head top, nodes_low rs -> region_chain (pmem m) head rs ->
  stacked top rs -> top <= h -> h < 4294967296 -> (length rs < fuel)%nat ->
  highest_end_loop fuel m h head = Ret h.
Proof.
  intros Hw. induction rs as [|r rs IH]; intros fuel h head top Hn Hc Hs Ht Hh Hf; (destruct fuel as [|fuel]; [cbn in Hf; lia|]).
  - cbn in Hc. by subst head.
  - apply nodes_low_cons in Hn as [Hr Hn]. destruct Hc as (-> & Hnode & Hc). destruct Hs as (_ & Hp & _ & He & Hs).
    pose proof (stacked_start _ _ Hs). pose proof (r_length_pos r Hp). unfold VMALLOC_START in *.
    rewrite highest_step by (done || (unfold is_u32, r_end in *; lia)).
    destruct (Z.ltb_spec h (r_end r)); [lia|]. cbn [length] in Hf.
    apply (IH _ _ _ (r_virt r)); try done; unfold r_end in *; lia.
Qed.

Lemma highest_spec m rs fuel head top : windowed m -> nodes_low rs -> region_chain (pmem m) head rs ->
  stacked top rs -> top < 4294967296 -> (length rs < fuel)%nat ->
  highest_end_loop fuel m VMALLOC_START head = Ret (top_of rs).
Proof.
  intros Hw Hn Hc Hs Ht Hf. destruct rs as [|r rs].
  - destruct fuel as [|fuel]; [cbn in Hf; lia|]. cbn in Hc. by subst head.
  - destruct fuel as [|fuel]; [cbn in Hf; lia|]. apply nodes_low_cons in Hn as [Hr Hn]. destruct Hc as (-> & Hnode & Hc).
    destruct Hs as (_ & Hp & _ & He & Hs). pose proof (stacked_start _ _ Hs). pose proof (r_length_pos r Hp).
    unfold VMALLOC_START in *. rewrite highest_step by (done || (unfold is_u32, r_end in *; lia)).
    destruct (Z.ltb_spec 16777216 (r_end r)) as [_|Hlt]; [|unfold r_end in Hlt; lia].
    cbn [length top_of] in *. apply (highest_rest m Hw rs fuel (r_end r) _ (r_virt r)); try done; unfold r_end in *; lia.
Qed.

Definition last_node (previous : Z) (l : list region) : Z := match last l with Some c => r_addr c | None => previous end.

Lemma last_node_cons previous c l : last_node previous (c :: l) = last_node (r_addr c) l.
Proof. unfold last_node. rewrite list.last_cons. by destruct (last l). Qed.

Lemma find_step m r fuel ptr previous : windowed m -> 0 < r_addr r /\ r_addr r + 24 <= LOW_MEMORY -> node (pmem m) r ->
  find_region_loop (Datatypes.S fuel) m ptr previous (r_addr r) =
    if r_virt r =? ptr then Ret (r_addr r, previous)
    else find_region_loop fuel m ptr (r_addr r) (load32 (pmem m) (next_ (r_addr r))).
Proof.
  intros Hw Hr (E1 & _ & _ & _ & E5). cbn [find_region_loop]. rewrite eqb_sym_neg by lia. node_load. rewrite E5, Z.eqb_refl.
  cbn [mbind outcome_bind]. rewrite E1. by destruct (r_virt r =? ptr).
Qed.

Lemma find_region_spec m r rs : windowed m -> forall l fuel previous head, nodes_low (l ++ r :: rs) ->
  region_chain (pmem m) head (l ++ r :: rs) -> (forall c, c ∈ l -> r_virt c <> r_virt r) -> (length l < fuel)%nat ->
  find_region_loop fuel m (r_virt r) previous head = Ret (r_addr r, last_node previous l).
Proof.
  intros Hw. induction l as [|c l IH]; intros fuel previous head Hn Hc Hne Hf; (destruct fuel as [|fuel]; [cbn in Hf; lia|]);
    cbn [app] in *; apply nodes_low_cons in Hn as [Hr Hn]; destruct Hc as (-> & Hnode & Hc); rewrite find_step by done.
  - by rewrite Z.eqb_refl.
  - rewrite eqb_sym_neg by (apply Hne; by left). rewrite last_node_cons. cbn [length] in Hf.
    apply IH; try done; [|lia]. intros x Hx. apply Hne. by right.
Qed.

Lemma find_region_none m ptr : windowed m -> forall rs fuel previous head, nodes_low rs ->
  region_chain (pmem m) head rs -> (forall c, c ∈ rs -> r_virt c <> ptr) -> (length rs < fuel)%nat ->
  find_region_loop fuel m ptr previous head = Ret (0, 0).
Proof.
  intros Hw. induction rs as [|r rs IH]; intros fuel previous head Hn Hc Hne Hf; (destruct fuel as [|fuel]; [cbn in Hf; lia|]).
  - cbn in Hc. by subst head.
  - apply nodes_low_cons in Hn as [Hr Hn]; destruct Hc as (-> & Hnode & Hc). rewrite find_step by done.
    rewrite eqb_sym_neg by (apply Hne; by left). cbn [length] in Hf. apply IH; try done; [|lia]. intros x Hx. apply Hne. by right.
Qed.
End walks.

(** ** The invariant *)

Section regions.
Context {S : Type} `{FA : FrameAllocator S} {G : Type} `{HA : HeapAllocator G}.
Implicit Types (m : machine S) (v : vmstate G).

(** The heap lies in the window, in pages that hold no directory or table. *)
Definition heap_apart (ds : list Z) m (g : G) : Prop :=
  ha_limit g <= LOW_MEMORY /\
  forall q, q mod 4096 = 0 -> ha_start g < q + 4096 -> q < ha_limit g -> used_page ds m q.

(** A frame for data: in use, outside the heap. *)
Definition data_page (ds : list Z) m (g : G) (p : Z) : Prop :=
  used_page ds m p /\ p / 4096 < fa_frames (frames m) /\ (p + 4096 <= ha_start g \/ ha_limit g <= p).

(** [rs] are the regions, newest first, and [ps] the payloads of the heap. *)
Record vm_ok (ds : list Z) m v (rs : list region) (ps : list (Z * Z)) : Prop := {
  vo_space : space_wf ds m;
  vo_heap : ha_ok (pmem m) (vheap v) ps;
  vo_apart : heap_apart ds m (vheap v);
  vo_nodes r : r ∈ rs -> exists k, In (r_addr r, k) ps /\ VM_REGION_SIZE <= k;
  vo_distinct : NoDup (map r_addr rs);
  vo_chain : region_chain (pmem m) (region_list v) rs;
  vo_stacked : stacked (vmalloc_current v) rs;
  vo_current : vmalloc_current v mod 4096 = 0 /\ vmalloc_current v <= VMALLOC_END;
  vo_totals : total_regions v = lenZ rs /\ total_pages_allocated v = total_pages rs;
  vo_data r p : r ∈ rs -> p ∈ r_pages r -> data_page ds m (vheap v) p;
  vo_walk r k p : r ∈ rs -> r_pages r !! k = Some p ->
    walk (pmem m) (cr3 m) (r_virt r + 4096 * Z.of_nat k) = Some p;
  vo_frames : NoDup (concat (map r_pages rs));
}.

(** What an operation leaves alone: the processor's tables, the pages in use but
    for [pages] and the heap, the payloads [ps], and every translation outside
    [[va, va + len)]. *)
Record undisturbed (ds : list Z) m m' (g : G) (ps : list (Z * Z)) (pages : list Z) (va len : Z) : Prop := {
  ud_cpu : same_cpu m m';
  ud_pages q : used_page ds m q -> q ∉ pages -> q + 4096 <= ha_start g \/ ha_limit g <= q ->
    used_page ds m' q /\ agree (pmem m) (pmem m') q (q + 4096);
  ud_heap : keep_payloads ps (pmem m) (pmem m');
  ud_walk d w : d ∈ ds -> is_u32 w -> w < va \/ va + len <= w -> walk (pmem m') d w = walk (pmem m) d w;
}.

(** *** Writes in the heap *)

Lemma heap_page_disjoint ds m g q : heap_apart ds m g -> q mod 4096 = 0 -> ~ used_page ds m q ->
  q + 4096 <= ha_start g \/ ha_limit g <= q.
Proof.
  intros [_ H] Hq Hnot. destruct (Z.le_gt_cases (q + 4096) (ha_start g)); [by left|].
  destruct (Z.le_gt_cases (ha_limit g) q); [by right|]. exfalso. apply Hnot, H; lia.
Qed.

Lemma heap_untouched ds m g mm' : space_wf ds m -> heap_apart ds m g ->
  only_in (ha_start g) (ha_limit g) (pmem m) mm' -> untouched ds (pmem m) mm'.
Proof.
  intros H Ha Hm.
  assert (forall q, q mod 4096 = 0 -> ~ used_page ds m q -> forall k, 0 <= k < 1024 -> ent mm' q k = ent (pmem m) q k) as Hent.
  { intros q Hq Hnot k Hk. apply agree_ent; [|done]. eapply only_in_agree; [exact Hm|].
    by apply (heap_page_disjoint ds m). }
  intros d k Hd Hk. split.
  - apply Hent; [by apply (sw_dirs _ _ H)| |done]. intros Hu. by apply (up_dir _ _ _ Hu).
  - intros Hp x Hx. apply Hent; [apply table_at_range| |done]. intros Hu. by apply (up_table _ _ _ Hu d k).
Qed.

Lemma heap_change ds m g mm' : space_wf ds m -> heap_apart ds m g ->
  only_in (ha_start g) (ha_limit g) (pmem m) mm' ->
  space_wf ds (with_pmem mm' m) /\ (forall q, used_page ds m q -> used_page ds (with_pmem mm' m) q) /\
  (forall d w, d ∈ ds -> is_u32 w -> walk mm' d w = walk (pmem m) d w) /\ tables_stay m (with_pmem mm' m) /\
  heap_apart ds (with_pmem mm' m) g.
Proof.
  intros H Ha Hm. pose proof (heap_untouched ds m g mm' H Ha Hm) as Hun.
  assert (forall q, used_page ds m q -> used_page ds (with_pmem mm' m) q) as Hk.
  { intros q []. split; try done. intros d k Hd Hk. cbn [pmem with_pmem].
    destruct (untouched_at _ _ _ _ _ Hun Hd Hk) as [-> ->]. auto. }
  split; [|split; [done|split; [|split]]].
  - rewrite <- with_frames_self. apply space_wf_untouched; try done. apply H.
  - intros d w Hd Hw. by apply (untouched_walk ds).
  - intros k Hk'. cbn [pmem with_pmem]. destruct (untouched_at _ _ _ _ _ Hun (sw_cr3 _ _ H) Hk') as [-> ->]. done.
  - destruct Ha as [Hl Ha]. split; [done|]. auto.
Qed.

(** Pages outside the heap keep their bytes. *)
Lemma heap_change_page m g mm' q : only_in (ha_start g) (ha_limit g) (pmem m) mm' ->
  q + 4096 <= ha_start g \/ ha_limit g <= q -> agree (pmem m) mm' q (q + 4096).
Proof. intros Hm Hq. by eapply only_in_agree. Qed.

(** When the pages in use keep their bytes, so does the heap. *)
Lemma heap_kept ds m m' g ps (pages : list Z) : ha_ok (pmem m) g ps -> heap_apart ds m g ->
  (forall q, used_page ds m q -> q ∉ pages -> used_page ds m' q /\ agree (pmem m) (pmem m') q (q + 4096)) ->
  (forall p, p ∈ pages -> p mod 4096 = 0 /\ (p + 4096 <= ha_start g \/ ha_limit g <= p)) ->
  ha_ok (pmem m') g ps /\ heap_apart ds m' g /\ agree (pmem m) (pmem m') (ha_start g) (ha_limit g).
Proof.
  intros Hok [Hl Ha] Hk Hpages.
  assert (forall q, q mod 4096 = 0 -> ha_start g < q + 4096 -> q < ha_limit g -> q ∉ pages) as Hnot
    by (intros q _ Hq1 Hq2 Hin; destruct (Hpages q Hin); lia).
  assert (agree (pmem m) (pmem m') (ha_start g) (ha_limit g)) as Hag.
  { intros a Hr. set (q := a / 4096 * 4096). assert (q mod 4096 = 0 /\ q <= a < q + 4096) as [Hq Hqa] by (unfold q; split; divlia).
    destruct (Hk q) as [_ A]; [apply Ha; lia|apply Hnot; lia|]. by apply A. }
  split; [|split; [|done]].
  - eapply ha_write; [exact Hok|]. intros a Hr _. by apply Hag.
  - split; [done|]. intros q Hq Hq1 Hq2. apply Hk; [by apply Ha|by apply Hnot].
Qed.

Lemma payload_in_heap mm g ps p k : ha_ok mm g ps -> In (p, k) ps -> ha_start g < p /\ p + k <= ha_limit g.
Proof. intros H Hin. destruct (ha_inside _ _ _ _ _ H Hin) as (? & ? & _). done. Qed.

(** Payloads at different addresses do not overlap. *)
Lemma payloads_apart mm g ps p k q t : ha_ok mm g ps -> In (p, k) ps -> In (q, t) ps -> p <> q -> p + k <= q \/ q + t <= p.
Proof.
  intros H Hp Hq Hne. apply list_elem_of_In in Hp. apply elem_of_Permutation in Hp as [ps' Hps].
  apply list_elem_of_In in Hq. rewrite Hps in Hq. apply elem_of_cons in Hq as [[= -> ->]|Hq]; [done|].
  apply (ha_distinct mm g p k q t ps'); [by eapply ha_perm|]. by apply list_elem_of_In.
Qed.

Lemma vm_nodes_low ds m v rs ps : ha_ok (pmem m) (vheap v) ps -> heap_apart ds m (vheap v) ->
  (forall r, r ∈ rs -> exists k, In (r_addr r, k) ps /\ VM_REGION_SIZE <= k) -> nodes_low rs.
Proof.
  intros H [Hl _] Hn r Hr. destruct (Hn r Hr) as (k & Hin & Hk). unfold VM_REGION_SIZE in Hk.
  destruct (payload_in_heap _ _ _ _ _ H Hin). destruct (ha_area _ _ _ H). lia.
Qed.

(** *** Changes that keep the regions *)

Lemma vm_ok_keep ds m m' v rs ps (pages : list Z) : vm_ok ds m v rs ps -> space_wf ds m' -> same_cpu m m' ->
  fa_frames (frames m') = fa_frames (frames m) ->
  (forall q, used_page ds m q -> q ∉ pages -> used_page ds m' q /\ agree (pmem m) (pmem m') q (q + 4096)) ->
  (forall p, p ∈ pages -> (p mod 4096 = 0 /\ (p + 4096 <= ha_start (vheap v) \/ ha_limit (vheap v) <= p)) /\
     forall r, r ∈ rs -> p ∉ r_pages r) ->
  (forall r w, r ∈ rs -> r_virt r <= w < r_end r -> walk (pmem m') (cr3 m) w = walk (pmem m) (cr3 m) w) ->
  vm_ok ds m' v rs ps.
Proof.
  intros H Hwf (Hc & _) Hn Hk Hpages Hw.
  destruct (heap_kept ds m m' (vheap v) ps pages (vo_heap _ _ _ _ _ H) (vo_apart _ _ _ _ _ H) Hk) as (Hok & Hap & Hag);
    [intros p Hp; by apply Hpages|].
  split; try apply H; try done.
  - eapply region_chain_agree, (vo_chain _ _ _ _ _ H). intros r Hr.
    destruct (vo_nodes _ _ _ _ _ H r Hr) as (k & Hin & Hk24). unfold VM_REGION_SIZE in Hk24.
    destruct (payload_in_heap _ _ _ _ _ (vo_heap _ _ _ _ _ H) Hin). eapply agree_weaken; [exact Hag|lia|lia].
  - intros r p Hr Hp. destruct (vo_data _ _ _ _ _ H r p Hr Hp) as (Hu & Hpn & Hout). split; [|rewrite Hn; done].
    apply Hk; [done|]. intros Hin. destruct (Hpages p Hin) as [_ Hnot]. by apply (Hnot r).
  - intros r k p Hr Hp. rewrite Hc. rewrite (Hw r); [by apply (vo_walk _ _ _ _ _ H)|done|].
    apply lookup_lt_Some in Hp. unfold r_end, r_length, lenZ. lia.
Qed.

Lemma vm_heap_step ds m v rs ps mm g ps' : vm_ok ds m v rs ps ->
  ha_start g = ha_start (vheap v) -> ha_limit g = ha_limit (vheap v) ->
  only_in (ha_start (vheap v)) (ha_limit (vheap v)) (pmem m) mm ->
  (forall r, r ∈ rs -> agree (pmem m) mm (r_addr r) (r_addr r + 24)) -> ha_ok mm g ps' ->
  (forall r, r ∈ rs -> exists k, In (r_addr r, k) ps' /\ VM_REGION_SIZE <= k) ->
  vm_ok ds (with_pmem mm m) (with_heap g v) rs ps'.
Proof.
  intros H Es El Hm Hag Hok Hn.
  destruct (heap_change ds m _ mm (vo_space _ _ _ _ _ H) (vo_apart _ _ _ _ _ H) Hm) as (Hwf & Hk & Hw & _ & Hap).
  split; try apply H; try done.
  - unfold heap_apart in *. cbn [vheap with_heap]. by rewrite Es, El.
  - eapply region_chain_agree, (vo_chain _ _ _ _ _ H). exact Hag.
  - intros r p Hr Hp. destruct (vo_data _ _ _ _ _ H r p Hr Hp) as (Hu & Hpn & Hout).
    cbn [vheap with_heap]. split; [by apply Hk|]. by rewrite Es, El.
  - intros r k p Hr Hp. cbn [pmem cr3 with_pmem]. rewrite Hw; [by apply (vo_walk _ _ _ _ _ H)|apply (vo_space _ _ _ _ _ H)|].
    apply lookup_lt_Some in Hp. destruct (stacked_elem _ _ r (vo_stacked _ _ _ _ _ H) Hr) as (? & He & _).
    destruct (vo_current _ _ _ _ _ H). unfold is_u32, r_end, r_length, lenZ, VMALLOC_START, VMALLOC_END in *. lia.
Qed.

(** *** Writing a descriptor *)

Definition node_mem (mm : mem) (a virt size mapped num next : Z) : mem :=
  store32 (store32 (store32 (store32 (store32 (store32 mm (virt_addr_ a) virt) (size_ a) size) (mapped_size_ a) mapped)
    (num_pages_ a) num) (magic_ a) VM_MAGIC) (next_ a) next.

Lemma only_in_word mm a (v : Z) lo hi : lo <= a -> a + 4 <= hi -> only_in lo hi mm (store32 mm a v).
Proof. intros Hl Hh x Hx. apply load8_store32_ne. lia. Qed.

Lemma node_mem_spec mm a virt size mapped num next :
  is_u32 virt -> is_u32 size -> is_u32 mapped -> is_u32 num -> is_u32 next ->
  let mm' := node_mem mm a virt size mapped num next in
  only_in a (a + 24) mm mm' /\ load32 mm' (virt_addr_ a) = virt /\ load32 mm' (size_ a) = size /\
  load32 mm' (mapped_size_ a) = mapped /\ load32 mm' (num_pages_ a) = num /\ load32 mm' (magic_ a) = VM_MAGIC /\
  load32 mm' (next_ a) = next.
Proof.
  intros Hv Hs Hm Hn Hx. unfold node_mem, virt_addr_, size_, mapped_size_, num_pages_, magic_, next_. cbv zeta. split.
  - repeat (eapply only_in_trans; [|apply only_in_word; lia]). apply only_in_refl.
  - repeat split; repeat (rewrite load32_store32_ne by lia); rewrite load32_store32_eq; apply u32_id; try done.
Qed.

Lemma heap_store ds m g a val : space_wf ds m -> heap_apart ds m g -> 0 < ha_start g -> ha_start g <= a -> a + 4 <= ha_limit g ->
  vstore32 a val m = Ret (with_pmem (store32 (pmem m) a val) m) /\
  space_wf ds (with_pmem (store32 (pmem m) a val) m) /\ heap_apart ds (with_pmem (store32 (pmem m) a val) m) g.
Proof.
  intros H Ha H0 Hlo Hhi. destruct (heap_change ds m g (store32 (pmem m) a val) H Ha) as (Hwf & _ & _ & _ & Hap);
    [by apply only_in_word|]. split; [|done]. destruct Ha. apply low_store; [by apply (wf_windowed ds)|lia].
Qed.

Lemma store_node {A} (K : machine S -> outcome A) ds m g a virt size mapped num next : space_wf ds m -> heap_apart ds m g -> 0 < ha_start g ->
  ha_start g <= a -> a + 24 <= ha_limit g ->
  (m ← vstore32 (virt_addr_ a) virt m;
   m ← vstore32 (size_ a) size m;
   m ← vstore32 (mapped_size_ a) mapped m;
   m ← vstore32 (num_pages_ a) num m;
   m ← vstore32 (magic_ a) VM_MAGIC m;
   m ← vstore32 (next_ a) next m;
   K m) = K (with_pmem (node_mem (pmem m) a virt size mapped num next) m).
Proof.
  intros H Ha H0 Hlo Hhi. unfold virt_addr_, size_, mapped_size_, num_pages_, magic_, next_, node_mem.
  destruct (heap_store ds m g a virt H Ha) as (E1 & H1 & A1); [lia..|]. rewrite E1. cbn [mbind outcome_bind].
  destruct (heap_store ds _ g (a + 4) size H1 A1) as (E2 & H2 & A2); [lia..|]. rewrite E2. cbn [mbind outcome_bind].
  destruct (heap_store ds _ g (a + 8) mapped H2 A2) as (E3 & H3 & A3); [lia..|]. rewrite E3. cbn [mbind outcome_bind].
  destruct (heap_store ds _ g (a + 12) num H3 A3) as (E4 & H4 & A4); [lia..|]. rewrite E4. cbn [mbind outcome_bind].
  destruct (heap_store ds _ g (a + 20) VM_MAGIC H4 A4) as (E5 & H5 & A5); [lia..|]. rewrite E5. cbn [mbind outcome_bind].
  destruct (heap_store ds _ g (a + 16) next H5 A5) as (E6 & H6 & A6); [lia..|]. rewrite E6. done.
Qed.

(** *** [vmalloc] *)

(** Pages needed for [size] bytes. *)
Definition pages_for (size : Z) : Z := (size + 4095) / 4096.

Lemma pages_for_spec size : 0 < size <= 4294963200 ->
  u32 (u32 (size + PAGE_SIZE) - 1) / PAGE_SIZE = pages_for size /\
  size <= 4096 * pages_for size < size + 4096 /\ 0 < pages_for size.
Proof.
  intros Hs. unfold pages_for, PAGE_SIZE. split; [|split; divlia].
  destruct (Z.eq_dec size 4294963200) as [->|Hne]; [done|].
  rewrite (u32_id (size + 4096)), u32_id by (unfold is_u32; lia). f_equal. lia.
Qed.

Definition outside_heap (g : G) (q : Z) : Prop := q + 4096 <= ha_start g \/ ha_limit g <= q.

Lemma vm_kmalloc_step ds m v rs ps size : vm_ok ds m v rs ps -> 0 < size <= 2147483584 ->
  exists p mm g, vm_kmalloc size m v = Ret (p, with_pmem mm m, with_heap g v) /\
    ha_start g = ha_start (vheap v) /\ ha_limit g = ha_limit (vheap v) /\
    only_in (ha_start (vheap v)) (ha_limit (vheap v)) (pmem m) mm /\ keep_payloads ps (pmem m) mm /\
    (p = 0 /\ vm_ok ds (with_pmem mm m) (with_heap g v) rs ps \/
     exists k, size <= k /\ vm_ok ds (with_pmem mm m) (with_heap g v) rs ((p, k) :: ps)).
Proof.
  intros H Hs. destruct (ha_alloc_spec _ _ _ _ (vo_heap _ _ _ _ _ H) Hs) as (p & mm & g & E & Es & El & Hm & Hkeep & Hres).
  exists p, mm, g. unfold vm_kmalloc. rewrite E. split; [done|]. split; [done|]. split; [done|]. split; [done|]. split; [done|].
  assert (forall r, r ∈ rs -> agree (pmem m) mm (r_addr r) (r_addr r + 24)) as Hag.
  { intros r Hr. destruct (vo_nodes _ _ _ _ _ H r Hr) as (k & Hin & Hk). unfold VM_REGION_SIZE in Hk.
    eapply agree_weaken; [by apply Hkeep|lia|lia]. }
  destruct Hres as [[-> Hok]|(k & Hk & Hok)]; [left; split; [done|]|right; exists k; split; [done|]].
  - eapply vm_heap_step; try done. apply (vo_nodes _ _ _ _ _ H).
  - eapply vm_heap_step; try done. intros r Hr. destruct (vo_nodes _ _ _ _ _ H r Hr) as (t & Hin & Ht).
    exists t. split; [by right|done].
Qed.

Lemma vm_kfree_step ds m v rs ps p k : vm_ok ds m v rs ((p, k) :: ps) -> (forall r, r ∈ rs -> r_addr r <> p) ->
  exists mm g, vm_kfree p m v = Ret (with_pmem mm m, with_heap g v) /\
    ha_start g = ha_start (vheap v) /\ ha_limit g = ha_limit (vheap v) /\
    only_in (ha_start (vheap v)) (ha_limit (vheap v)) (pmem m) mm /\ keep_payloads ps (pmem m) mm /\
    vm_ok ds (with_pmem mm m) (with_heap g v) rs ps.
Proof.
  intros H Hne. destruct (ha_free_spec _ _ _ _ _ (vo_heap _ _ _ _ _ H)) as (mm & g & E & Es & El & Hm & Hkeep & Hok).
  exists mm, g. unfold vm_kfree. rewrite E. split; [done|]. split; [done|]. split; [done|]. split; [done|]. split; [done|].
  assert (forall r, r ∈ rs -> exists t, In (r_addr r, t) ps /\ VM_REGION_SIZE <= t) as Hn.
  { intros r Hr. destruct (vo_nodes _ _ _ _ _ H r Hr) as (t & [[= Hp _]|Hin] & Ht); [|by exists t].
    exfalso. by apply (Hne r Hr). }
  eapply vm_heap_step; try done. intros r Hr. destruct (Hn r Hr) as (t & Hin & Ht). unfold VM_REGION_SIZE in Ht.
  eapply agree_weaken; [by apply Hkeep|lia|lia].
Qed.

(** A frame that was free is outside the heap. *)
Lemma free_outside_heap ds m g p : heap_apart ds m g -> p mod 4096 = 0 -> fa_used (frames m) (p / 4096) = false -> outside_heap g p.
Proof.
  intros Ha Hp Hf. apply (heap_page_disjoint ds m g p Ha Hp). intros Hu. pose proof (up_used _ _ _ Hu). congruence.
Qed.

Lemma mapped_vm_ok ds m v rs ps n pages m' : vm_ok ds m v rs ps -> mapped_run ds m (vmalloc_current v) pages m' ->
  lenZ pages <= n -> vmalloc_current v + 4096 * n <= VMALLOC_END -> vm_ok ds m' v rs ps.
Proof.
  intros H Hrun Hl He. eapply (vm_ok_keep ds m m' v rs ps []); [exact H|apply Hrun|apply Hrun|apply Hrun|..].
  - intros q Hq _. by apply (mr_keep _ _ _ _ _ Hrun).
  - by intros p ?%elem_of_nil.
  - intros r w Hr Hw. destruct (stacked_elem _ _ r (vo_stacked _ _ _ _ _ H) Hr) as (? & Hre & _).
    destruct (vo_current _ _ _ _ _ H). unfold VMALLOC_START, VMALLOC_END in *.
    apply (mr_else _ _ _ _ _ Hrun); [apply (vo_space _ _ _ _ _ H)|unfold is_u32; lia|left; lia].
Qed.

(** The new region joins the list. *)
Lemma vm_ok_push ds m m1 v rs ps reg k n size pages : vm_ok ds m v rs ((reg, k) :: ps) -> VM_REGION_SIZE <= k ->
  (forall r, r ∈ rs -> r_addr r <> reg) -> mapped_run ds m (vmalloc_current v) pages m1 -> lenZ pages = n -> 0 < n ->
  0 < size <= 4096 * n -> vmalloc_current v + 4096 * n <= VMALLOC_END ->
  let va := vmalloc_current v in
  let v' := with_current (u32 (va + 4096 * n)) (with_totals (u32 (total_regions v + 1)) (u32 (total_pages_allocated v + n)) (with_regions reg v)) in
  vm_ok ds (with_pmem (node_mem (pmem m1) reg va size (4096 * n) n (region_list v)) m1) v' (Region reg va size pages :: rs) ((reg, k) :: ps).
Proof.
  intros H Hk Hne Hrun Hl Hn Hsize He va v'. pose proof (mapped_vm_ok _ _ _ _ _ n _ _ H Hrun ltac:(lia) He) as H1.
  destruct (vo_current _ _ _ _ _ H) as [Hca Hce]. pose proof (stacked_start _ _ (vo_stacked _ _ _ _ _ H)) as Hst.
  destruct (total_pages_bound _ _ (vo_stacked _ _ _ _ _ H)) as (Ht1 & Ht2 & Ht3). destruct (vo_totals _ _ _ _ _ H) as [Tr Tp].
  unfold VMALLOC_START, VMALLOC_END, VM_REGION_SIZE in *. fold va in Hca, Hce, Hst, Ht1, He.
  assert (is_u32 (region_list v)) as Hlist.
  { pose proof (vo_chain _ _ _ _ _ H) as Hc. destruct rs as [|r rs']; cbn in Hc; [by rewrite Hc|]. destruct Hc as (-> & _).
    destruct (vm_nodes_low _ _ _ _ _ (vo_heap _ _ _ _ _ H) (vo_apart _ _ _ _ _ H) (vo_nodes _ _ _ _ _ H) r) as [? ?]; [by left|].
    unfold is_u32, LOW_MEMORY in *. lia. }
  destruct (node_mem_spec (pmem m1) reg va size (4096 * n) n (region_list v)) as (Honly & N1 & N2 & N3 & N4 & N5 & N6);
    [unfold is_u32; lia..|done|]. set (mm := node_mem _ _ _ _ _ _ _) in *.
  destruct (payload_in_heap _ _ _ _ _ (vo_heap _ _ _ _ _ H1) ltac:(by left)) as [Hp1 Hp2].
  assert (only_in (ha_start (vheap v)) (ha_limit (vheap v)) (pmem m1) mm) as Hm
    by (intros a Ha; apply Honly; lia).
  destruct (heap_change ds m1 _ mm (vo_space _ _ _ _ _ H1) (vo_apart _ _ _ _ _ H1) Hm) as (Hwf & Hkp & Hw & _ & Hap).
  destruct (mr_cpu _ _ _ _ _ Hrun) as (Hc & _).
  assert (forall p, p ∈ pages -> exists j, pages !! j = Some p /\ used_page ds m1 p /\ p / 4096 < fa_frames (frames m) /\
    fa_used (frames m) (p / 4096) = false) as Hpg.
  { intros p Hp. apply list_elem_of_lookup in Hp as [j Hj]. exists j. destruct (mr_page _ _ _ _ _ Hrun j p Hj) as (? & ? & ? & _). done. }
  split; cbn [vheap vmalloc_current region_list total_regions total_pages_allocated with_current with_totals with_regions v'].
  - exact Hwf.
  - eapply ha_write; [apply (vo_heap _ _ _ _ _ H1)|]. intros a Ha Hnot. cbn [pmem with_pmem]. apply Honly.
    destruct (Z.le_gt_cases reg a), (Z.le_gt_cases (reg + 24) a); try lia. exfalso. apply Hnot. exists reg, k. split; [by left|lia].
  - exact Hap.
  - intros r [->|Hr]%elem_of_cons; [exists k; split; [by left|done]|]. by apply (vo_nodes _ _ _ _ _ H).
  - cbn [map]. constructor; [|apply H]. cbn [r_addr]. intros (r & Er & Hr)%list_elem_of_fmap. by apply (Hne r).
  - cbn [region_chain r_addr]. split; [done|]. cbn [pmem with_pmem]. split; [unfold node, r_length; cbn [r_addr r_virt r_size r_pages]; rewrite Hl; done|].
    rewrite N6. eapply region_chain_agree, (vo_chain _ _ _ _ _ H1). intros r Hr.
    destruct (vo_nodes _ _ _ _ _ H r Hr) as (t & [[= Et _]|Hin] & Ht); [exfalso; by apply (Hne r)|]. unfold VM_REGION_SIZE in Ht.
    destruct (payloads_apart _ _ _ reg k (r_addr r) t (vo_heap _ _ _ _ _ H)) as [?|?]; [by left|by right|by apply not_eq_sym, Hne|..];
      (eapply only_in_agree; [exact Honly|lia]).
  - cbn [stacked r_virt r_pages r_size]. unfold r_end, r_length. cbn [r_virt r_pages r_size]. rewrite Hl.
    split; [done|]. split; [intros ->; unfold lenZ in Hl; cbn in Hl; lia|]. split; [done|]. rewrite u32_id by (unfold is_u32; lia).
    split; [lia|apply H].
  - rewrite u32_id by (unfold is_u32; lia). unfold VMALLOC_END. split; [divlia|lia].
  - unfold total_pages in *. cbn [foldr r_pages]. rewrite Tr, Tp, Hl. unfold lenZ in *. cbn [length].
    rewrite !u32_id by (unfold is_u32; lia). lia.
  - intros r p [->|Hr]%elem_of_cons Hp; cbn [r_pages] in *.
    + destruct (Hpg p Hp) as (j & _ & Hu & Hpn & Hpf). split; [by apply Hkp|]. cbn [frames with_pmem].
      rewrite (mr_frames _ _ _ _ _ Hrun). split; [done|]. apply (free_outside_heap ds m); [apply H|apply Hu|done].
    + destruct (vo_data _ _ _ _ _ H1 r p Hr Hp) as (? & ? & ?). split; [by apply Hkp|done].
  - intros r j p [->|Hr]%elem_of_cons Hp; cbn [r_pages r_virt] in *; cbn [pmem cr3 with_pmem].
    + apply lookup_lt_Some in Hp as Hlt. unfold lenZ in Hl.
      rewrite Hw by (try apply (vo_space _ _ _ _ _ H1); unfold is_u32; lia). rewrite Hc.
      by destruct (mr_page _ _ _ _ _ Hrun j p Hp) as (_ & _ & _ & ? & _).
    + apply lookup_lt_Some in Hp as Hlt. destruct (stacked_elem _ _ r (vo_stacked _ _ _ _ _ H) Hr) as (? & Hre & _).
      unfold r_end, r_length, lenZ, VMALLOC_START in *. fold va in Hre.
      rewrite Hw by (try apply (vo_space _ _ _ _ _ H1); unfold is_u32; lia). by apply (vo_walk _ _ _ _ _ H1).
  - cbn [map concat r_pages]. apply NoDup_app. split; [apply Hrun|]. split; [|apply H].
    intros p Hp Hin. apply list_elem_of_In, in_concat in Hin as (l & Hll & Hpl).
    apply list_elem_of_In, list_elem_of_fmap in Hll as (r & -> & Hr). apply list_elem_of_In in Hpl.
    destruct (Hpg p Hp) as (_ & _ & _ & _ & Hf). destruct (vo_data _ _ _ _ _ H r p Hr Hpl) as (Hu & _).
    pose proof (up_used _ _ _ Hu). congruence.
Qed.


(** Payloads survive what keeps the pages in use. *)
Lemma payloads_kept ds m m' g ps (pages : list Z) : ha_ok (pmem m) g ps -> heap_apart ds m g ->
  (forall q, used_page ds m q -> q ∉ pages -> used_page ds m' q /\ agree (pmem m) (pmem m') q (q + 4096)) ->
  (forall p, p ∈ pages -> p mod 4096 = 0 /\ (p + 4096 <= ha_start g \/ ha_limit g <= p)) ->
  keep_payloads ps (pmem m) (pmem m').
Proof.
  intros H Ha Hk Hp. destruct (heap_kept ds m m' g ps pages H Ha Hk Hp) as (_ & _ & Hag).
  intros q t Hin. destruct (payload_in_heap _ _ _ _ _ H Hin). eapply agree_weaken; [exact Hag|lia|lia].
Qed.

Lemma keep_payloads_trans ps (m1 m2 m3 : mem) : keep_payloads ps m1 m2 -> keep_payloads ps m2 m3 -> keep_payloads ps m1 m3.
Proof. intros H1 H2 q t Hin. eapply agree_trans; [by apply H1|by apply H2]. Qed.

Lemma undisturbed_heap ds m g ps mm va len : space_wf ds m -> heap_apart ds m g ->
  only_in (ha_start g) (ha_limit g) (pmem m) mm -> keep_payloads ps (pmem m) mm ->
  undisturbed ds m (with_pmem mm m) g ps [] va len.
Proof.
  intros H Ha Hm Hk. destruct (heap_change ds m g mm H Ha Hm) as (_ & Hu & Hw & _). split; try done.
  - intros q Hq _ Hout. split; [by apply Hu|]. by apply (heap_change_page m g mm).
  - intros d w Hd Hw' _. by apply Hw.
Qed.

Lemma undisturbed_trans ds m1 m2 m3 g g' ps pages va len : ha_start g' = ha_start g -> ha_limit g' = ha_limit g ->
  undisturbed ds m1 m2 g ps [] va len -> undisturbed ds m2 m3 g' ps pages va len -> undisturbed ds m1 m3 g ps pages va len.
Proof.
  intros Es El [C1 P1 H1 W1] [C2 P2 H2 W2]. split.
  - eapply same_cpu_trans; done.
  - intros q Hq Hnot Hout. destruct (P1 q Hq) as [Hq2 A1]; [set_solver|done|].
    destruct (P2 q Hq2 Hnot) as [Hq3 A2]; [by rewrite Es, El|]. split; [done|]. by eapply agree_trans.
  - by eapply keep_payloads_trans.
  - intros d w Hd Hw Hr. rewrite W2, W1; done.
Qed.

(** Giving up: the pages mapped so far and the descriptor are given back. *)
Lemma vmalloc_give_up ds m v rs ps reg k pages m1 n : vm_ok ds m v rs ((reg, k) :: ps) ->
  (forall r, r ∈ rs -> r_addr r <> reg) -> mapped_run ds m (vmalloc_current v) pages m1 -> lenZ pages <= n ->
  vmalloc_current v + 4096 * n <= VMALLOC_END ->
  exists m2 m3 g, undo_pages (vmalloc_current v) (lenZ pages) m1 = Ret m2 /\ vm_kfree reg m2 v = Ret (m3, with_heap g v) /\
    vm_ok ds m3 (with_heap g v) rs ps /\ undisturbed ds m m3 (vheap v) ps [] (vmalloc_current v) (4096 * n) /\ accounted m m3 [].
Proof.
  intros H Hne Hrun Hl He. destruct (vo_current _ _ _ _ _ H) as [Hca Hce].
  pose proof (stacked_start _ _ (vo_stacked _ _ _ _ _ H)) as Hst. unfold VMALLOC_START, VMALLOC_END in *.
  destruct (undo_pages_spec ds m1 (vmalloc_current v) pages) as (m2 & E2 & Hrel);
    [apply Hrun|unfold is_u32; lia|unfold LOW_MEMORY; lia|lia|done|by eapply mapped_held|].
  destruct (abandoned _ _ _ _ _ _ Hrun Hrel) as (Hwf & Hcpu & Hkeep & Hacc & Hstay & Hn & Hw).
  assert (vm_ok ds m2 v rs ((reg, k) :: ps)) as H2.
  { eapply (vm_ok_keep ds m m2 v rs _ []); try done; [intros q Hq _; by apply Hkeep|by intros p ?%elem_of_nil|].
    intros r w Hr Hrw. destruct (stacked_elem _ _ r (vo_stacked _ _ _ _ _ H) Hr) as (? & Hre & _).
    unfold VMALLOC_START in *. apply Hw; [apply (vo_space _ _ _ _ _ H)|unfold is_u32; lia|left; lia]. }
  destruct (vm_kfree_step _ _ _ _ _ _ _ H2 Hne) as (mm & g & E3 & Es & El & Hm & Hkp & H3).
  exists m2, (with_pmem mm m2), g. split; [done|]. split; [done|]. split; [done|]. split.
  - assert (keep_payloads ps (pmem m) (pmem m2)) as Hk1.
    { intros q t Hin. apply (payloads_kept ds m m2 (vheap v) ((reg, k) :: ps) []); try apply H; [| |by right].
      - intros x Hx _. by apply Hkeep.
      - by intros p ?%elem_of_nil. }
    eapply (undisturbed_trans ds m m2 _ _ (vheap v)); [done|done| |].
    + split; [done| |exact Hk1|].
      * intros q Hq _ _. by apply Hkeep.
      * intros d w Hd Hwu Hr. apply Hw; [done|done|]. lia.
    + apply undisturbed_heap; [apply H2|apply H2|done|done].
  - destruct (heap_change ds m2 _ mm (vo_space _ _ _ _ _ H2) (vo_apart _ _ _ _ _ H2) Hm) as (_ & _ & _ & Hst2 & _).
    intros x Hx Hu. destruct (Hacc x Hx Hu) as [?|[?|(j & Hj & Hp & Ht)]]; [by left|by right; left|].
    right. right. exists j. destruct (Hst2 j Hj Hp) as [Hp2 Ht2]. split; [done|]. split; [done|]. by rewrite <- Ht.
Qed.

(** The descriptor was had: what the loop over the pages leads to. *)
Lemma vmalloc_pages_cases ds m v rs ps reg k size : vm_ok ds m v rs ((reg, k) :: ps) -> VM_REGION_SIZE <= k ->
  (forall r, r ∈ rs -> r_addr r <> reg) -> 0 < size <= 4294963200 ->
  let n := pages_for size in let va := vmalloc_current v in va + 4096 * n <= VMALLOC_END ->
  low_frames (Z.to_nat n + Z.to_nat n) (frames m) ->
  (exists pages m1, map_pages (Z.to_nat n) va 0 m = Ret (n, m1) /\ mapped_run ds m va pages m1 /\ lenZ pages = n) \/
  (exists i m1 m2 m3 g, map_pages (Z.to_nat n) va 0 m = Ret (i, m1) /\ i < n /\ undo_pages va i m1 = Ret m2 /\
     vm_kfree reg m2 v = Ret (m3, with_heap g v) /\ vm_ok ds m3 (with_heap g v) rs ps /\
     undisturbed ds m m3 (vheap v) ps [] va (4096 * n) /\ accounted m m3 []) \/
  (map_pages (Z.to_nat n) va 0 m = Panicked no_table_memory /\ table_missing m va n).
Proof.
  intros H Hk Hne Hs n va He Hlow. destruct (pages_for_spec size Hs) as (_ & _ & Hn). fold n in Hn.
  destruct (vo_current _ _ _ _ _ H) as [Hca _]. pose proof (stacked_start _ _ (vo_stacked _ _ _ _ _ H)) as Hst.
  fold va in Hca, Hst. unfold VMALLOC_START, VMALLOC_END in *. assert (lenZ (@nil Z) = 0) as E0 by done.
  destruct (map_pages_spec ds m va (Z.to_nat n) [] m (mapped_nil ds m va (vo_space _ _ _ _ _ H)) Hlow)
    as [(pages & m1 & E & Hrun & Hl)|[E Hmiss]]; rewrite ?E0 in *; rewrite ?Z2Nat.id, ?Z.add_0_l in * by lia;
    [unfold LOW_MEMORY; lia|done|lia|..|by right; right].
  destruct (Z.eq_dec (lenZ pages) n) as [El|]; [left; exists pages, m1; rewrite <- El at 2; done|]. right. left.
  destruct (vmalloc_give_up ds m v rs ps reg k pages m1 n H Hne Hrun ltac:(lia) He) as (m2 & m3 & g & E2 & E3 & H3 & Hud & Hacc).
  exists (lenZ pages), m1, m2, m3, g. split; [done|]. split; [lia|]. done.
Qed.



(** *** [vfree] *)

Lemma node_store_next mm a (v : Z) r : (r_addr r + 24 <= a \/ a + 24 <= r_addr r) \/ a = r_addr r ->
  node mm r -> node (store32 mm (next_ a) v) r.
Proof.
  intros Ha (E1 & E2 & E3 & E4 & E5). unfold node, virt_addr_, size_, mapped_size_, num_pages_, magic_, next_ in *.
  rewrite !load32_store32_ne by lia. done.
Qed.

(** Distinct descriptors do not overlap. *)
Definition nodes_apart (rs : list region) : Prop :=
  NoDup (map r_addr rs) /\
  forall x y, x ∈ rs -> y ∈ rs -> r_addr x <> r_addr y -> r_addr x + 24 <= r_addr y \/ r_addr y + 24 <= r_addr x.

Lemma nodes_apart_cons x rs : nodes_apart (x :: rs) ->
  nodes_apart rs /\ forall y, y ∈ rs -> r_addr x + 24 <= r_addr y \/ r_addr y + 24 <= r_addr x.
Proof.
  intros [Hnd Ha]. cbn [map] in Hnd. apply NoDup_cons in Hnd as [Hx Hnd]. split; [split; [done|]|].
  - intros y z Hy Hz. apply Ha; by right.
  - intros y Hy. apply Ha; [by left|by right|]. intros E. apply Hx. rewrite E. by apply list_elem_of_fmap_2.
Qed.

(** Linking [c] to what follows [r]. *)
Lemma unlink_chain mm c r rs : forall l head, nodes_apart (l ++ c :: r :: rs) ->
  region_chain mm head (l ++ c :: r :: rs) ->
  region_chain (store32 mm (next_ (r_addr c)) (load32 mm (next_ (r_addr r)))) head (l ++ c :: rs).
Proof.
  induction l as [|x l IH]; intros head Hap; cbn [app region_chain]; apply nodes_apart_cons in Hap as [Hap Hx].
  - intros (-> & Hc & _ & Hr & Hrs). split; [done|]. split; [apply node_store_next; [by right|done]|].
    rewrite load32_store32_eq, u32_id by apply load32_range. eapply region_chain_agree, Hrs. intros y Hy.
    apply agree_store32. unfold next_. destruct (Hx y) as [?|?]; [by right|lia|lia].
  - intros (-> & Hn & Hrs). assert (r_addr x + 24 <= r_addr c \/ r_addr c + 24 <= r_addr x) as Hxc
      by (apply Hx, elem_of_app; right; by left).
    split; [done|]. split; [apply node_store_next; [left; lia|done]|].
    unfold next_ at 2. rewrite (load32_store32_ne _ (next_ _)) by (unfold next_; lia). by apply IH.
Qed.

Lemma vm_nodes_apart ds m v rs ps : vm_ok ds m v rs ps -> nodes_apart rs.
Proof.
  intros H. split; [apply H|]. intros x y Hx Hy Hne. destruct (vo_nodes _ _ _ _ _ H x Hx) as (k & Hk & Hk24).
  destruct (vo_nodes _ _ _ _ _ H y Hy) as (t & Ht & Ht24). unfold VM_REGION_SIZE in *.
  destruct (payloads_apart _ _ _ _ _ _ _ (vo_heap _ _ _ _ _ H) Hk Ht Hne); lia.
Qed.

Definition unlink (l : list region) (next : Z) (m : machine S) (v : vmstate G) : machine S * vmstate G :=
  if last_node 0 l =? 0 then (m, with_regions next v)
  else (with_pmem (store32 (pmem m) (next_ (last_node 0 l)) next) m, v).

Lemma last_node_snoc l c : last_node 0 (l ++ [c]) = r_addr c.
Proof. unfold last_node. by rewrite last_snoc. Qed.

(** The list without [r], and the totals that go with it. *)
Lemma vm_ok_unlink ds m v l r rs ps : vm_ok ds m v (l ++ r :: rs) ps ->
  let '(m1, v1) := unlink l (load32 (pmem m) (next_ (r_addr r))) m v in
  let np := lenZ (r_pages r) in
  only_in (ha_start (vheap v)) (ha_limit (vheap v)) (pmem m) (pmem m1) /\ m1 = with_pmem (pmem m1) m /\
  (forall q t, In (q, t) ps -> (forall c, c ∈ l ++ r :: rs -> q <> r_addr c) -> agree (pmem m) (pmem m1) q (q + t)) /\
  agree (pmem m) (pmem m1) (r_addr r) (r_addr r + 24) /\
  vheap v1 = vheap v /\ vmalloc_current v1 = vmalloc_current v /\
  total_regions v1 = total_regions v /\ total_pages_allocated v1 = total_pages_allocated v /\
  vm_ok ds m1 (with_totals (u32 (total_regions v - 1)) (u32 (total_pages_allocated v - np)) v1) (l ++ rs) ps.
Proof.
  intros H. pose proof (vm_nodes_apart _ _ _ _ _ H) as Hap. pose proof (vo_totals _ _ _ _ _ H) as [Tr Tp].
  pose proof (vm_nodes_low _ _ _ _ _ (vo_heap _ _ _ _ _ H) (vo_apart _ _ _ _ _ H) (vo_nodes _ _ _ _ _ H)) as Hlow.
  destruct (total_pages_bound _ _ (vo_stacked _ _ _ _ _ H)) as (B1 & B2 & B3). destruct (vo_current _ _ _ _ _ H) as [_ Hce].
  unfold VMALLOC_START, VMALLOC_END in *. pose proof (lenZ_nonneg (r_pages r)) as Hnp.
  assert (u32 (total_regions v - 1) = lenZ (l ++ rs) /\ u32 (total_pages_allocated v - lenZ (r_pages r)) = total_pages (l ++ rs)) as [Tr' Tp'].
  { rewrite Tr, Tp in *. rewrite total_pages_app in *. cbn [total_pages foldr] in *. fold (total_pages rs) in *.
    pose proof (total_pages_bound _ _ (proj1 (stacked_app _ _ _ _ (vo_stacked _ _ _ _ _ H)))) as (_ & _ & B4).
    rewrite total_pages_app in B4. unfold lenZ in *. rewrite !length_app in *. cbn [length] in *.
    rewrite total_pages_app, !u32_id by (unfold is_u32; lia). lia. }
  assert (forall c, c ∈ l ++ rs -> c ∈ l ++ r :: rs) as Hsub by (intros c; rewrite !elem_of_app, elem_of_cons; tauto).
  assert (forall m1 v1, only_in (ha_start (vheap v)) (ha_limit (vheap v)) (pmem m) (pmem m1) -> m1 = with_pmem (pmem m1) m ->
    (forall a, ha_start (vheap v) <= a < ha_limit (vheap v) -> ~ in_payload ps a -> load8 (pmem m1) a = load8 (pmem m) a) ->
    vheap v1 = vheap v -> vmalloc_current v1 = vmalloc_current v -> region_chain (pmem m1) (region_list v1) (l ++ rs) ->
    vm_ok ds m1 (with_totals (u32 (total_regions v - 1)) (u32 (total_pages_allocated v - lenZ (r_pages r))) v1) (l ++ rs) ps) as Hgoal.
  { intros m1 v1 Hm Em Hb Eh Ec Hch.
    destruct (heap_change ds m _ (pmem m1) (vo_space _ _ _ _ _ H) (vo_apart _ _ _ _ _ H) Hm) as (Hwf & Hk & Hw & _ & Hap').
    rewrite <- Em in Hwf, Hk, Hap'. rewrite Em in Hw. cbn [pmem with_pmem] in Hw.
    assert (frames m1 = frames m /\ cr3 m1 = cr3 m) as [Ef Ecr] by by rewrite Em.
    split; cbn [vheap vmalloc_current region_list total_regions total_pages_allocated with_totals]; rewrite ?Eh, ?Ec; try done.
    - eapply ha_write; [apply (vo_heap _ _ _ _ _ H)|exact Hb].
    - intros c Hc. apply (vo_nodes _ _ _ _ _ H). auto.
    - pose proof (vo_distinct _ _ _ _ _ H) as Hnd. rewrite !map_app in *. cbn [map] in Hnd.
      rewrite <- Permutation_middle in Hnd. by apply NoDup_cons in Hnd as [_ ?].
    - apply (stacked_app _ _ _ _ (vo_stacked _ _ _ _ _ H)).
    - apply (vo_current _ _ _ _ _ H).
    - intros c p Hc Hp. destruct (vo_data _ _ _ _ _ H c p (Hsub c Hc) Hp) as (? & ? & ?). split; [by apply Hk|]. by rewrite Ef.
    - intros c k p Hc Hp. rewrite Ecr. rewrite Hw; [by apply (vo_walk _ _ _ _ _ H); [apply Hsub|]|apply (vo_space _ _ _ _ _ H)|].
      apply lookup_lt_Some in Hp. destruct (stacked_elem _ _ c (vo_stacked _ _ _ _ _ H) (Hsub c Hc)) as (? & He & _).
      unfold is_u32, r_end, r_length, lenZ, VMALLOC_START in *. lia.
    - pose proof (vo_frames _ _ _ _ _ H) as Hnd. rewrite !map_app, !concat_app in *. cbn [map concat] in Hnd.
      rewrite (Permutation_app_comm (r_pages r)), app_assoc in Hnd. by apply NoDup_app in Hnd as (? & _ & _). }
  unfold unlink. destruct l as [|c l' _] using rev_ind.
  - cbn [last_node last app Z.eqb]. split; [apply only_in_refl|]. split; [by destruct m|]. split; [intros; apply agree_refl|].
    split; [apply agree_refl|]. do 4 (split; [done|]). apply Hgoal; try done; [by destruct m|].
    pose proof (vo_chain _ _ _ _ _ H) as (_ & _ & Hch). exact Hch.
  - rewrite last_node_snoc. rewrite <- !app_assoc in *. cbn [app] in *.
    assert (c ∈ l' ++ c :: r :: rs) as Hc by (apply elem_of_app; right; by left).
    assert (r ∈ l' ++ c :: r :: rs) as Hr by (apply elem_of_app; right; right; by left).
    destruct (vo_nodes _ _ _ _ _ H c Hc) as (k & Hin & Hk). unfold VM_REGION_SIZE in Hk.
    destruct (payload_in_heap _ _ _ _ _ (vo_heap _ _ _ _ _ H) Hin) as [Hp1 Hp2]. destruct (Hlow c Hc) as [Hc0 _].
    rewrite eqb_sym_neg by lia. cbn [pmem with_pmem].
    split; [apply only_in_word; unfold next_; lia|]. split; [done|]. split; [|split].
    + intros q t Hq Hne. apply agree_store32. unfold next_.
      destruct (payloads_apart _ _ _ _ _ _ _ (vo_heap _ _ _ _ _ H) Hin Hq (not_eq_sym (Hne c Hc))); lia.
    + apply agree_store32. unfold next_. destruct Hap as [Hnd Hap]. destruct (Hap c r Hc Hr); [|lia|lia].
      rewrite map_app in Hnd. cbn [map] in Hnd. apply NoDup_app in Hnd as (_ & _ & [Hnot _]%NoDup_cons).
      intros E. apply Hnot. rewrite E. by left.
    + do 4 (split; [done|]). apply Hgoal; try done; [cbn; apply only_in_word; unfold next_; lia| |].
      * intros a Ha Hnot. cbn [pmem with_pmem]. apply load8_store32_ne. unfold next_.
        destruct (Z.le_gt_cases (r_addr c) a), (Z.le_gt_cases (r_addr c + 24) a); try lia. exfalso. apply Hnot. exists (r_addr c), k. split; [done|lia].
      * cbn [pmem with_pmem]. apply unlink_chain; [exact Hap|apply H].
Qed.

Lemma vm_ok_perm ds m v rs ps ps' : ps ≡ₚ ps' -> vm_ok ds m v rs ps -> vm_ok ds m v rs ps'.
Proof.
  intros Hp []. split; try done; [by eapply ha_perm|]. intros r Hr. destruct (vo_nodes0 r Hr) as (k & Hin & Hk).
  exists k. split; [|done]. apply list_elem_of_In. rewrite <- Hp. by apply list_elem_of_In.
Qed.

(** The words of the heap are not given back with the pages of a region. *)
Lemma heap_word_kept ds m g (pages : list Z) a : heap_apart ds m g -> 0 < ha_start g -> ha_start g <= a -> a + 4 <= ha_limit g ->
  (forall p, p ∈ pages -> outside_heap g p) -> kept_word ds m pages a.
Proof.
  intros [Hl Ha] H0 Hlo Hhi Hout. split; [lia|]. split; [lia|]. intros b Hb. split.
  - apply Ha; [apply Z.mod_mul; lia|divlia|divlia].
  - intros Hin. destruct (Hout _ Hin); divlia.
Qed.

(** Payloads of the heap that are no descriptors. *)
Definition client_payloads (rs : list region) (ps : list (Z * Z)) : list (Z * Z) :=
  filter (fun x => x.1 ∉ map r_addr rs) ps.

Lemma in_client_payloads rs ps q t : In (q, t) (client_payloads rs ps) ->
  In (q, t) ps /\ forall c, c ∈ rs -> q <> r_addr c.
Proof.
  intros Hin. apply list_elem_of_In, list_elem_of_filter in Hin as [Hne Hin]. split; [by apply list_elem_of_In|].
  intros c Hc ->. apply Hne. cbn [fst]. by apply (list_elem_of_fmap_2 r_addr).
Qed.

Lemma region_others l r rs ps ds m v : vm_ok ds m v (l ++ r :: rs) ps -> forall c p, c ∈ l ++ rs -> p ∈ r_pages r -> p ∉ r_pages c.
Proof.
  intros H c p Hc Hp Hin. pose proof (vo_frames _ _ _ _ _ H) as Hnd. rewrite map_app, concat_app in Hnd. cbn [map concat] in Hnd.
  rewrite (Permutation_app_comm (r_pages r)), app_assoc in Hnd. apply NoDup_app in Hnd as (_ & Hd & _).
  apply (Hd p); [|done]. rewrite <- concat_app, <- map_app. apply list_elem_of_In, in_concat.
  exists (r_pages c). split; apply list_elem_of_In; [by apply list_elem_of_fmap_2|done].
Qed.

(** The machine part of releasing [r], from the state where it is unlinked. *)
Lemma free_region ds m v1 l r rs ps k fuel : vm_ok ds m v1 (l ++ rs) ps -> In (r_addr r, k) ps -> VM_REGION_SIZE <= k ->
  node (pmem m) r -> r_virt r mod 4096 = 0 -> VMALLOC_START <= r_virt r -> r_end r <= VMALLOC_END ->
  held ds m (r_virt r) (r_pages r) -> (forall p, p ∈ r_pages r -> outside_heap (vheap v1) p) ->
  (forall c p, c ∈ l ++ rs -> p ∈ r_pages r -> p ∉ r_pages c) ->
  (forall c, c ∈ l ++ rs -> r_end r <= r_virt c \/ r_end c <= r_virt r) ->
  (length (r_pages r) < fuel)%nat ->
  exists m', free_pages fuel (r_addr r) 0 m = Ret m' /\ released_run ds m (r_virt r) (r_pages r) m' /\
    vm_ok ds m' v1 (l ++ rs) ps /\ vload32 m' (num_pages_ (r_addr r)) = Ret (lenZ (r_pages r)).
Proof.
  intros H Hin Hk Hnode Hal Hst Hend Hheld Hout Hoth Hrange Hfuel. unfold VM_REGION_SIZE, VMALLOC_START, VMALLOC_END, r_end, r_length in *.
  destruct (payload_in_heap _ _ _ _ _ (vo_heap _ _ _ _ _ H) Hin) as [Hp1 Hp2].
  pose proof (lenZ_nonneg (r_pages r)) as Hnp.
  destruct (ha_area _ _ _ (vo_heap _ _ _ _ _ H)) as [Hh0 _]. destruct Hnode as (N1 & _ & _ & N4 & _).
  assert (forall o, 0 <= o <= 20 -> kept_word ds m (r_pages r) (r_addr r + o)) as Hword.
  { intros o Ho. apply (heap_word_kept ds m (vheap v1)); [apply H|done|lia|lia|done]. }
  destruct (free_pages_spec ds m (r_virt r) (r_pages r) (r_addr r)) with (fuel := fuel) (k := 0%nat) (s1 := m) as (m' & E & Hrel);
    [apply H|unfold is_u32; lia|unfold LOW_MEMORY; lia|lia|done|done|apply Hword; lia| |done|done|lia|lia|apply released_nil, H|].
  { unfold virt_addr_. rewrite <- (Z.add_0_r (r_addr r)). apply Hword. lia. }
  exists m'. split; [exact E|]. split; [done|]. split.
  - apply (vm_ok_keep ds m m' v1 (l ++ rs) ps (r_pages r) H (rr_wf _ _ _ _ _ Hrel) (rr_cpu _ _ _ _ _ Hrel)).
    + destruct (rr_freed _ _ _ _ _ Hrel) as (_ & Hn & _). exact Hn.
    + exact (rr_keep _ _ _ _ _ Hrel).
    + intros p Hp. split; [|intros c Hc; by apply (Hoth c p)]. split; [|by apply Hout].
      apply list_elem_of_lookup in Hp as [j Hj]. destruct Hheld as [_ Hheld]. by destruct (Hheld j p Hj) as (Hu & _); apply Hu.
    + intros c w Hc Hw. destruct (stacked_elem _ _ c (vo_stacked _ _ _ _ _ H) Hc) as (? & ? & _).
      destruct (vo_current _ _ _ _ _ H). unfold VMALLOC_START, VMALLOC_END, r_end, r_length in *.
      apply (rr_else _ _ _ _ _ Hrel); [apply (vo_space _ _ _ _ _ H)|unfold is_u32; lia|]. destruct (Hrange c Hc); [right|left]; lia.
  - rewrite <- N4. apply (kept_word_load ds m (r_pages r) (num_pages_ (r_addr r)) m' (r_virt r) (length (r_pages r)));
      [apply Hword; lia|]. by rewrite firstn_all.
Qed.

(** The descriptor, out of the list, is marked and given back. *)
Lemma free_descriptor ds m v rs ps r k : vm_ok ds m v rs ps -> In (r_addr r, k) ps -> VM_REGION_SIZE <= k ->
  (forall c, c ∈ rs -> r_addr c <> r_addr r) ->
  exists m1 m2 g ps', vstore32 (magic_ (r_addr r)) 0 m = Ret m1 /\ vm_kfree (r_addr r) m1 v = Ret (m2, with_heap g v) /\
    ha_start g = ha_start (vheap v) /\ ha_limit g = ha_limit (vheap v) /\ ps ≡ₚ (r_addr r, k) :: ps' /\
    vm_ok ds m2 (with_heap g v) rs ps' /\ m2 = with_pmem (pmem m2) m /\
    only_in (ha_start (vheap v)) (ha_limit (vheap v)) (pmem m) (pmem m2) /\ keep_payloads ps' (pmem m) (pmem m2).
Proof.
  intros H Hin Hk Hne. destruct (payload_in_heap _ _ _ _ _ (vo_heap _ _ _ _ _ H) Hin) as [Hp1 Hp2].
  destruct (ha_area _ _ _ (vo_heap _ _ _ _ _ H)) as [Hh0 _]. assert (24 <= k) as Hk24 by exact Hk.
  destruct (heap_store ds m (vheap v) (magic_ (r_addr r)) 0) as (E1 & _); [apply H|apply H|done|unfold magic_; lia|unfold magic_; lia|].
  assert (only_in (r_addr r) (r_addr r + 24) (pmem m) (store32 (pmem m) (magic_ (r_addr r)) 0)) as Honly
    by (apply only_in_word; unfold magic_; lia).
  pose proof Hin as Hin'. apply list_elem_of_In, elem_of_Permutation in Hin' as [ps' Hps].
  pose proof (ha_perm _ _ _ _ Hps (vo_heap _ _ _ _ _ H)) as Hok'.
  assert (keep_payloads ps' (pmem m) (store32 (pmem m) (magic_ (r_addr r)) 0)) as Hkp.
  { intros q t Hq. eapply only_in_agree; [exact Honly|]. destruct (ha_distinct _ _ _ _ _ _ _ Hok' Hq); lia. }
  assert (only_in (ha_start (vheap v)) (ha_limit (vheap v)) (pmem m) (store32 (pmem m) (magic_ (r_addr r)) 0)) as Hm
    by (intros a Ha; apply Honly; lia).
  assert (forall c, c ∈ rs -> exists t, In (r_addr c, t) ps' /\ VM_REGION_SIZE <= t) as Hn.
  { intros c Hc. destruct (vo_nodes _ _ _ _ _ H c Hc) as (t & Hct & Ht). exists t. split; [|done].
    apply list_elem_of_In in Hct. rewrite Hps in Hct. apply elem_of_cons in Hct as [[= E _]|Hct]; [by apply Hne in Hc|].
    by apply list_elem_of_In. }
  assert (vm_ok ds (with_pmem (store32 (pmem m) (magic_ (r_addr r)) 0) m) v rs ps) as H1.
  { pose proof (vm_heap_step ds m v rs ps (store32 (pmem m) (magic_ (r_addr r)) 0) (vheap v) ps H eq_refl eq_refl Hm) as Hst.
    replace (with_heap (vheap v) v) with v in Hst by by destruct v. apply Hst; [| |apply (vo_nodes _ _ _ _ _ H)].
    - intros c Hc. destruct (Hn c Hc) as (t & Hct & Ht). unfold VM_REGION_SIZE in Ht. eapply agree_weaken; [by apply Hkp|lia|lia].
    - eapply ha_write; [apply (vo_heap _ _ _ _ _ H)|]. intros a Ha Hnot. apply Honly.
      destruct (Z.le_gt_cases (r_addr r) a), (Z.le_gt_cases (r_addr r + 24) a); try lia. exfalso. apply Hnot. exists (r_addr r), k. split; [done|lia]. }
  apply (vm_ok_perm _ _ _ _ _ _ Hps) in H1.
  destruct (vm_kfree_step _ _ _ _ _ _ _ H1 Hne) as (mm & g & E2 & Es & El & Hm2 & Hkp2 & H2).
  eexists _, _, g, ps'. split; [exact E1|]. split; [exact E2|]. split; [done|]. split; [done|]. split; [done|].
  split; [done|]. split; [done|]. cbn [pmem with_pmem] in *. split; [by eapply only_in_trans|by eapply keep_payloads_trans].
Qed.

(** C27. [vfree] of the start of a region takes exactly that region away: its
    pages are unmapped and their frames, no others, are free again; its
    descriptor goes back to the heap; the break falls to the end of the highest
    region left; and the other regions, the contents of all other pages, the
    other payloads of the heap and every other translation are as before.  With
    any other address it panics. *)
Theorem vfree_correct ds m v rs ps ptr : vm_ok ds m v rs ps -> ptr <> 0 ->
  ((forall c, c ∈ rs -> r_virt c <> ptr) -> vfree ptr m v = Panicked "vfree: Invalid region (corrupted or double-free)") /\
  forall l r rs', rs = l ++ r :: rs' -> r_virt r = ptr ->
  exists m' v' k ps', vfree ptr m v = Ret (m', v') /\ vm_ok ds m' v' (l ++ rs') ps' /\ ps ≡ₚ (r_addr r, k) :: ps' /\
    vmalloc_current v' = top_of (l ++ rs') /\ freed (frames m) (frames m') (r_pages r) /\
    (forall w, r_virt r <= w < r_end r -> w mod 4096 = 0 -> walk (pmem m') (cr3 m') w = None) /\
    undisturbed ds m m' (vheap v) (client_payloads rs ps) (r_pages r) (r_virt r) (r_length r).
Proof.
  intros H Hptr. pose proof (vo_totals _ _ _ _ _ H) as [Tr Tp].
  pose proof (vm_nodes_low _ _ _ _ _ (vo_heap _ _ _ _ _ H) (vo_apart _ _ _ _ _ H) (vo_nodes _ _ _ _ _ H)) as Hlow.
  pose proof (wf_windowed _ _ (vo_space _ _ _ _ _ H)) as Hwin.
  assert (forall l : list region, (length l <= length rs)%nat -> (length l < region_fuel v)%nat) as Hfuel
    by (intros l Hl; unfold region_fuel; rewrite Tr; unfold lenZ; lia).
  unfold vfree. rewrite (eqb_sym_neg ptr) by done. unfold vmalloc_find_region. split.
  { intros Hnone. rewrite (find_region_none m ptr Hwin rs); try done; [apply H|by apply Hfuel]. }
  intros l r rs' -> <-. destruct (stacked_app _ _ _ _ (vo_stacked _ _ _ _ _ H)) as (Hsk & Hsk' & Habove & Hbelow).
  assert (r ∈ l ++ r :: rs') as Hr by (apply elem_of_app; right; by left).
  destruct (stacked_elem _ _ r (vo_stacked _ _ _ _ _ H) Hr) as (Hrs & Hre & Hra & Hrp & _).
  destruct (vo_current _ _ _ _ _ H) as [_ Hce]. pose proof (r_length_pos r Hrp) as Hrl. destruct (Hlow r Hr) as [Hr0 Hr24].
  assert (forall c, c ∈ l ++ rs' -> r_end r <= r_virt c \/ r_end c <= r_virt r) as Hrange
    by (intros c [Hc|Hc]%elem_of_app; [left; by apply Habove|right; by apply Hbelow]).
  destruct (vo_nodes _ _ _ _ _ H r Hr) as (k & Hin & Hk).
  rewrite (find_region_spec m r rs' Hwin l); try done; [|apply H| |apply Hfuel; rewrite length_app; lia].
  2: { intros c Hc. specialize (Habove c Hc). unfold r_end in Habove. lia. }
  cbn [mbind outcome_bind]. rewrite eqb_sym_neg by lia. rewrite (low_load m) by (done || (unfold next_; lia)). cbn [mbind outcome_bind].
  pose proof (vm_ok_unlink _ _ _ _ _ _ _ H) as Hun. set (next := load32 (pmem m) (next_ (r_addr r))) in *.
  destruct (unlink l next m v) as [m1 v1] eqn:Eun. destruct Hun as (Hm1 & Em1 & Hpay1 & Hnode1 & Eh1 & Ec1 & Et1 & Ep1 & H1).
  assert ((if negb (last_node 0 l =? 0) then m0 ← vstore32 (next_ (last_node 0 l)) next m; Ret (m0, v)
    else Ret (m, with_regions next v)) = Ret (m1, v1)) as ->.
  { unfold unlink in Eun. destruct (Z.eqb_spec (last_node 0 l) 0) as [|Hne]; cbn [negb]; [by injection Eun as <- <-|].
    injection Eun as <- <-. destruct l as [|c l' _] using rev_ind; [done|]. rewrite last_node_snoc in *.
    rewrite low_store; [done|done|]. destruct (Hlow c) as [? ?]; [rewrite <- app_assoc; apply elem_of_app; right; by left|]. unfold next_. lia. }
  cbn [mbind outcome_bind].
  destruct (heap_change ds m _ (pmem m1) (vo_space _ _ _ _ _ H) (vo_apart _ _ _ _ _ H) Hm1) as (_ & Hk1 & Hw1 & _ & _).
  rewrite <- Em1 in Hk1. assert (frames m1 = frames m /\ cr3 m1 = cr3 m) as [Ef1 Ecr1] by by rewrite Em1.
  set (v2 := with_totals _ _ v1) in H1.
  pose proof (region_chain_node _ _ _ _ (vo_chain _ _ _ _ _ H) Hr) as Hnode.
  destruct (free_region ds m1 v2 l r rs' ps k (Datatypes.S (Z.to_nat (total_pages_allocated v1))) H1 Hin Hk) as (m2 & E2 & Hrel & H2 & Enum).
  { by eapply node_agree. }
  { done. }
  { done. }
  { unfold VMALLOC_END in *. lia. }
  { pose proof (vo_frames _ _ _ _ _ H) as Hnd. rewrite map_app, concat_app in Hnd. cbn [map concat] in Hnd.
    apply NoDup_app in Hnd as (_ & _ & Hnd). apply NoDup_app in Hnd as (Hnd & _). split; [done|].
    intros j p Hj. assert (p ∈ r_pages r) as Hp by by eapply list_elem_of_lookup_2.
    destruct (vo_data _ _ _ _ _ H r p Hr Hp) as (Hu & Hn & _). split; [by apply Hk1|]. rewrite Ef1, Ecr1. split; [done|].
    apply lookup_lt_Some in Hj as Hlt. unfold r_end, r_length, lenZ, VMALLOC_START, VMALLOC_END in *.
    rewrite Hw1 by (try apply (vo_space _ _ _ _ _ H); unfold is_u32; lia). by apply (vo_walk _ _ _ _ _ H). }
  { intros p Hp. cbn [vheap with_totals v2]. rewrite Eh1. apply (vo_data _ _ _ _ _ H r p Hr Hp). }
  { eapply region_others. exact H. }
  { done. }
  { rewrite Ep1, Tp, total_pages_app. cbn [total_pages foldr]. fold (total_pages rs').
    pose proof (total_pages_bound _ _ Hsk) as (_ & _ & Hb). rewrite total_pages_app in Hb. unfold lenZ. lia. }
  rewrite E2. cbn [mbind outcome_bind]. rewrite Enum. cbn [mbind outcome_bind]. rewrite Et1, Ep1. fold v2. clear E2.
  assert (forall c, c ∈ l ++ rs' -> r_addr c <> r_addr r) as Hne.
  { intros c Hc Heq. pose proof (vo_distinct _ _ _ _ _ H) as Hnd. rewrite map_app in Hnd. cbn [map] in Hnd.
    rewrite <- Permutation_middle in Hnd. apply NoDup_cons in Hnd as [Hnot _]. apply Hnot. rewrite <- map_app, <- Heq.
    by apply (list_elem_of_fmap_2 r_addr). }
  destruct (free_descriptor ds m2 v2 (l ++ rs') ps r k H2 Hin Hk Hne) as (m3 & m4 & g & ps' & E3 & E4 & Es & El & Hps & H4 & Em4 & Hm4 & Hkp4).
  rewrite E3. cbn [mbind outcome_bind]. rewrite E4. cbn [mbind outcome_bind]. clear E3 E4.
  unfold vmalloc_highest_end. cbn [vheap with_totals v2] in Hm4. rewrite Eh1 in Hm4.
  rewrite (highest_spec m4 (l ++ rs') _ _ _ (wf_windowed _ _ (vo_space _ _ _ _ _ H4))
    (vm_nodes_low _ _ _ _ _ (vo_heap _ _ _ _ _ H4) (vo_apart _ _ _ _ _ H4) (vo_nodes _ _ _ _ _ H4)) (vo_chain _ _ _ _ _ H4) Hsk).
  2: { unfold VMALLOC_END in *. lia. }
  2: { unfold region_fuel. cbn [total_regions with_heap with_totals v2]. rewrite Tr. unfold lenZ. rewrite !length_app. cbn [length].
    destruct (total_pages_bound _ _ (vo_stacked _ _ _ _ _ H)) as (B1 & B2 & _). unfold VMALLOC_START, VMALLOC_END, lenZ in *. rewrite length_app in B2. cbn [length] in B2.
    rewrite u32_id by (unfold is_u32; lia). lia. }
  cbn [mbind outcome_bind]. destruct (stacked_top_of _ _ Hsk) as (T1 & T2 & T3 & _).
  eexists m4, _, k, ps'. split; [reflexivity|]. split.
  { destruct H4. split; try done. cbn [vmalloc_current with_current]. unfold VMALLOC_END in *. split; [done|lia]. }
  split; [done|]. split; [done|]. assert (frames m4 = frames m2 /\ cr3 m4 = cr3 m2 /\ same_cpu m2 m4) as (Ef4 & Ecr4 & Hcpu4)
    by (rewrite Em4; done). destruct (rr_cpu _ _ _ _ _ Hrel) as (Ecr2 & Ecd2 & Ekd2).
  destruct (heap_change ds m2 (vheap v) (pmem m4)) as (_ & Hk4 & Hw4 & _ & _); [apply H2| |exact Hm4|].
  { pose proof (vo_apart _ _ _ _ _ H2) as Hap2. cbn [vheap with_totals v2] in Hap2. by rewrite Eh1 in Hap2. }
  rewrite <- Em4 in Hk4. unfold VMALLOC_START, VMALLOC_END in *. split; [|split].
  - rewrite Ef4, <- Ef1. apply Hrel.
  - intros w Hw Hwa. rewrite Ecr4, Ecr2. unfold r_end, r_length in *.
    rewrite Hw4; [by apply (rr_none _ _ _ _ _ Hrel)|rewrite Ecr1; apply (vo_space _ _ _ _ _ H)|unfold is_u32; lia].
  - split.
    + eapply same_cpu_trans; [|exact Hcpu4]. unfold same_cpu. rewrite Ecr2, Ecd2, Ekd2, Em1. done.
    + intros q Hq Hnot Hout. destruct (rr_keep _ _ _ _ _ Hrel q (Hk1 q Hq) Hnot) as [Hq2 A2]. split; [by apply Hk4|].
      eapply agree_trans; [by apply (heap_change_page m (vheap v) (pmem m1))|].
      eapply agree_trans; [exact A2|]. by apply (heap_change_page m2 (vheap v) (pmem m4)).
    + intros q t Hq. apply in_client_payloads in Hq as [Hq Hcl]. eapply agree_trans; [by apply Hpay1|].
      assert (keep_payloads ps (pmem m1) (pmem m2)) as Hk2.
      { apply (payloads_kept ds m1 m2 (vheap v2) ps (r_pages r)); [apply H1|apply H1|apply Hrel|].
        intros p Hp. destruct (vo_data _ _ _ _ _ H r p Hr Hp) as (Hu & _ & Hout). cbn [vheap with_totals v2]. rewrite Eh1. split; [apply Hu|done]. }
      eapply agree_trans; [by apply Hk2|]. apply Hkp4. apply list_elem_of_In in Hq. rewrite Hps in Hq.
      apply elem_of_cons in Hq as [[= -> _]|Hq]; [by destruct (Hcl r Hr)|by apply list_elem_of_In].
    + intros d w Hd Hw Hout. rewrite Hw4, (rr_else _ _ _ _ _ Hrel), Hw1; try done.
Qed.
(** *** [vsize], the statistics and the break *)

(** [vsize] is the size asked for, of a region's start, and 0 of NULL and of
    every other address; the statistics count the regions and their bytes, for
    the virtual total and for what is used. *)
Theorem vsize_stats_correct ds m v rs ps : vm_ok ds m v rs ps ->
  (forall r, r ∈ rs -> vsize (r_virt r) m v = Ret (r_size r)) /\
  (forall ptr, (forall r, r ∈ rs -> r_virt r <> ptr) -> vsize ptr m v = Ret 0) /\
  vmalloc_get_stats v = VStats (4096 * total_pages rs) (4096 * total_pages rs) (lenZ rs).
Proof.
  intros H. pose proof (vo_totals _ _ _ _ _ H) as [Tr Tp]. destruct (vo_current _ _ _ _ _ H) as [_ Hce].
  pose proof (vm_nodes_low _ _ _ _ _ (vo_heap _ _ _ _ _ H) (vo_apart _ _ _ _ _ H) (vo_nodes _ _ _ _ _ H)) as Hlow.
  pose proof (wf_windowed _ _ (vo_space _ _ _ _ _ H)) as Hwin.
  assert ((length rs < region_fuel v)%nat) as Hfuel by (unfold region_fuel; rewrite Tr; unfold lenZ; lia).
  unfold vsize, vmalloc_find_region. split; [|split].
  - intros r Hr. destruct (stacked_elem _ _ r (vo_stacked _ _ _ _ _ H) Hr) as (Hs & _). unfold VMALLOC_START in Hs.
    rewrite eqb_sym_neg by lia. apply list_elem_of_split in Hr as (l & rs' & ->).
    destruct (stacked_app _ _ _ _ (vo_stacked _ _ _ _ _ H)) as (_ & _ & Habove & _).
    assert (r ∈ l ++ r :: rs') as Hr by (apply elem_of_app; right; by left).
    destruct (stacked_elem _ _ r (vo_stacked _ _ _ _ _ H) Hr) as (_ & _ & _ & Hrp & _). pose proof (r_length_pos r Hrp).
    rewrite (find_region_spec m r rs' Hwin l); try done; [|apply H| |rewrite length_app in Hfuel; lia].
    2: { intros c Hc. specialize (Habove c Hc). unfold r_end in Habove. lia. }
    cbn [mbind outcome_bind]. destruct (Hlow r Hr) as [Hr0 Hr24]. rewrite eqb_sym_neg by lia.
    rewrite low_load by (done || (unfold size_; lia)).
    destruct (region_chain_node _ _ _ _ (vo_chain _ _ _ _ _ H) Hr) as (_ & E2 & _). by rewrite E2.
  - intros ptr Hno. destruct (ptr =? 0); [done|]. by rewrite (find_region_none m ptr Hwin rs) by (done || apply H).
  - unfold vmalloc_get_stats. destruct (total_pages_bound _ _ (vo_stacked _ _ _ _ _ H)) as (B1 & B2 & B3).
    unfold VMALLOC_START, VMALLOC_END, PAGE_SIZE in *. rewrite Tr, Tp, u32_id by (unfold is_u32; lia).
    by rewrite (Z.mul_comm (total_pages rs)).
Qed.

(** [vbrk] answers the old break.  Growing moves it up unless it would leave
    the area, when the answer is -1 with a warning; shrinking never goes below the
    end of the highest region.  A multiple of the page size keeps the invariant,
    but for a decrement beyond the break itself, which wraps around to an address
    near 2^32. *)
Theorem vbrk_correct ds m v rs ps increment : vm_ok ds m v rs ps -> - 2147483648 <= increment < 2147483648 ->
  (0 < increment /\ VMALLOC_END < vmalloc_current v + increment /\
   vbrk increment m v = Ret (4294967295, vm_warn "vbrk: Would exceed virtual address space" v)) \/
  (exists v', vbrk increment m v = Ret (vmalloc_current v, v') /\
   vmalloc_current v' = Z.max (top_of rs) (u32 (vmalloc_current v + increment)) /\
   (increment mod 4096 = 0 -> - vmalloc_current v <= increment -> vm_ok ds m v' rs ps)).
Proof.
  intros H Hi. destruct (vo_current _ _ _ _ _ H) as [Hca Hce]. pose proof (stacked_start _ _ (vo_stacked _ _ _ _ _ H)) as Hst.
  destruct (stacked_top_of _ _ (vo_stacked _ _ _ _ _ H)) as (Ht & Hts & Hta & Htl).
  pose proof (vm_nodes_low _ _ _ _ _ (vo_heap _ _ _ _ _ H) (vo_apart _ _ _ _ _ H) (vo_nodes _ _ _ _ _ H)) as Hlow.
  pose proof (vo_totals _ _ _ _ _ H) as [Tr _]. unfold VMALLOC_START, VMALLOC_END in *.
  assert (vmalloc_highest_end m v = Ret (top_of rs)) as E.
  { unfold vmalloc_highest_end. apply (highest_spec m rs _ _ (top_of rs) (wf_windowed _ _ (vo_space _ _ _ _ _ H)) Hlow (vo_chain _ _ _ _ _ H) Hts); [lia|].
    unfold region_fuel. rewrite Tr. unfold lenZ. lia. }
  assert (forall c, c mod 4096 = 0 -> top_of rs <= c <= 268435456 -> vm_ok ds m (with_current c v) rs ps) as Hmove.
  { intros c Hc Hr. destruct H. split; try done; [|split; [done|cbn; unfold VMALLOC_END; lia]].
    cbn [vmalloc_current with_current]. eapply stacked_weaken; [|exact Hts]. lia. }
  unfold vbrk. rewrite E. cbn [mbind outcome_bind]. destruct (Z.eqb_spec increment 0) as [->|Hne].
  { right. exists v. split; [done|]. rewrite Z.add_0_r, u32_id by (unfold is_u32; lia). split; [lia|]. intros _ _. done. }
  destruct (Z.ltb_spec 0 increment).
  - rewrite u32_id by (unfold is_u32; lia). change VMALLOC_END with 268435456.
    destruct (Z.ltb_spec 268435456 (vmalloc_current v + increment)); [by left|]. right.
    exists (with_current (vmalloc_current v + increment) v). split; [done|]. cbn [vmalloc_current with_current].
    split; [lia|]. intros Hm _. apply Hmove; [divlia|lia].
  - right. eexists (with_current _ v). split; [reflexivity|]. cbn [vmalloc_current with_current].
    assert ((if u32 (vmalloc_current v + increment) <? top_of rs then top_of rs else u32 (vmalloc_current v + increment))
      = Z.max (top_of rs) (u32 (vmalloc_current v + increment))) as Emax
      by (destruct (Z.ltb_spec (u32 (vmalloc_current v + increment)) (top_of rs)); lia).
    rewrite Emax. split; [done|]. intros Hm Hlo. rewrite u32_id by (unfold is_u32; lia). apply Hmove; [|lia].
    destruct (Z.max_spec (top_of rs) (vmalloc_current v + increment)) as [[_ ->]|[_ ->]]; [divlia|done].
Qed.

(** A size within a page of 2^32 wraps to zero pages: [vmalloc] maps nothing,
    takes no frame, and yet answers the break, an address with no memory behind
    it, unless the heap is full. *)
Theorem vmalloc_huge_requests ds m v rs ps size : vm_ok ds m v rs ps -> 4294963200 < size < 4294967296 ->
  exists p m' v', vmalloc size m v = Ret (p, m', v') /\ frames m' = frames m /\ vmalloc_current v' = vmalloc_current v /\
    (forall d w, d ∈ ds -> is_u32 w -> walk (pmem m') d w = walk (pmem m) d w) /\
    (p = 0 \/ p = vmalloc_current v /\ total_regions v' = lenZ rs + 1).
Proof.
  intros H Hs. destruct (vo_current _ _ _ _ _ H) as [Hca Hce]. pose proof (stacked_start _ _ (vo_stacked _ _ _ _ _ H)) as Hst.
  unfold VMALLOC_START, VMALLOC_END in *. unfold vmalloc. destruct (Z.eqb_spec size 0); [lia|].
  assert (u32 (u32 (size + PAGE_SIZE) - 1) / PAGE_SIZE = 0) as ->.
  { unfold PAGE_SIZE. replace (u32 (size + 4096)) with (size - 4294963200) by (unfold u32; divlia).
    rewrite u32_id by (unfold is_u32; lia). divlia. }
  change (u32 (0 * PAGE_SIZE)) with 0. rewrite Z.add_0_r, u32_id by (unfold is_u32; lia). change VMALLOC_END with 268435456.
  destruct (Z.ltb_spec 268435456 (vmalloc_current v)) as [|_]; [lia|].
  destruct (vm_kmalloc_step ds m v rs ps VM_REGION_SIZE H) as (reg & mm & g & E & Es & El & Hm & Hkeep & Hres); [done|].
  rewrite E. cbn [mbind outcome_bind].
  destruct (heap_change ds m _ mm (vo_space _ _ _ _ _ H) (vo_apart _ _ _ _ _ H) Hm) as (_ & _ & Hw0 & _ & _).
  destruct Hres as [[-> H0]|(k & Hk & H0)].
  { cbn [Z.eqb]. eexists _, _, _. split; [reflexivity|]. split; [done|]. split; [done|]. split; [done|]. by left. }
  destruct (ha_payload_range _ _ _ reg k (vo_heap _ _ _ _ _ H0)) as (Hreg0 & _); [by left|]. rewrite eqb_sym_neg by lia.
  change (Z.to_nat 0) with 0%nat. cbn [map_pages mbind outcome_bind Z.ltb Z.compare].
  destruct (payload_in_heap _ _ _ _ _ (vo_heap _ _ _ _ _ H0) ltac:(by left)) as [Hp1 Hp2].
  destruct (ha_area _ _ _ (vo_heap _ _ _ _ _ H0)) as [Ha1 Ha2]. assert (24 <= k) as Hk24 by exact Hk.
  rewrite (store_node _ ds _ (vheap (with_heap g v)) reg _ size 0 0 (region_list _) (vo_space _ _ _ _ _ H0) (vo_apart _ _ _ _ _ H0)) by lia.
  eexists _, _, _. split; [reflexivity|]. split; [done|]. split; [cbn; rewrite Z.add_0_r; apply u32_id; unfold is_u32; lia|].
  set (mm2 := node_mem _ _ _ _ _ _ _).
  assert (only_in (ha_start g) (ha_limit g) mm mm2) as Hm2.
  { unfold mm2, node_mem, virt_addr_, size_, mapped_size_, num_pages_, magic_, next_. cbn [vheap with_heap] in *.
    repeat (eapply only_in_trans; [|apply only_in_word; lia]). apply only_in_refl. }
  destruct (heap_change ds _ g mm2 (vo_space _ _ _ _ _ H0) (vo_apart _ _ _ _ _ H0) Hm2) as (_ & _ & Hw2 & _ & _).
  split; [intros d w Hd Hw; cbn [pmem with_pmem] in *; rewrite Hw2 by done; by apply Hw0|]. right. split; [done|].
  pose proof (vo_totals _ _ _ _ _ H) as [Tr _]. destruct (total_pages_bound _ _ (vo_stacked _ _ _ _ _ H)) as (B1 & B2 & _).
  cbn. rewrite Tr. unfold VMALLOC_START, lenZ in *. apply u32_id. unfold is_u32. lia.
Qed.
End regions.

(** ** A concrete machine: 24 frames, of which the first six hold the kernel's
    directory and tables and the next two the heap; nothing allocated yet. *)

Definition vm_frames : pmm :=
  Pmm (setZ (replicate (Z.to_nat BITMAP_SIZE) 0) 0 255) 98304 24 8.

Definition vm_machine : machine pmm :=
  match paging_init 4096 8192 (boot_machine vm_frames) with Ret s => s | _ => boot_machine vm_frames end.

Definition vm_state : vmstate kheap := vmalloc_init (VM (KHeap ∅ 24576 24576 32768 0 0 0 []) 0 0 0 0 []).

Lemma vm_frames_ok : pmm_ok vm_frames.
Proof. split; [split|]; by vm_compute. Qed.

Lemma vm_used g : 1 <= g < 8 -> is_used vm_frames g = true.
Proof.
  intros. assert (g = 1 \/ g = 2 \/ g = 3 \/ g = 4 \/ g = 5 \/ g = 6 \/ g = 7) as Hg by lia.
  by destruct Hg as [->|[->|[->|[->|[->|[->| ->]]]]]].
Qed.

Lemma vm_machine_ok : vm_ok [4096] vm_machine vm_state [] [].
Proof.
  destruct (boot_full vm_frames vm_frames_ok) as (s & E & Hwf & Hc & _ & Hf & Hno & Htab); [intros; apply vm_used; lia|].
  unfold booted in E. unfold vm_machine. rewrite E. clear E.
  split; try done; try (by intros r ?%elem_of_nil); try (by intros r ? ? ?%elem_of_nil); try (by constructor).
  - exists []. split; [|done]. split; try done; by constructor.
  - split; [done|]. cbn [vheap vm_state vmalloc_init]. intros q Hq H1 H2. change (ha_start _) with 24576 in H1.
    change (ha_limit _) with 32768 in H2. assert (q = 24576 \/ q = 28672) as Hqq by divlia.
    split; [done|lia| |intros ->%list_elem_of_singleton; lia|].
    + rewrite Hf. apply vm_used. divlia.
    + intros d k ->%list_elem_of_singleton Hk Hp. destruct (Z.lt_ge_cases k 4); [|rewrite Hno in Hp by lia; done].
      rewrite Htab by done. lia.
  - by intros r p ?%elem_of_nil.
Qed.

Lemma vm_machine_space : space_wf [4096] vm_machine /\
  forall k, 0 <= k < 1024 -> present_at (pmem vm_machine) 4096 k = true -> k < 4 /\ table_at (pmem vm_machine) 4096 k = 8192 + 4096 * k.
Proof.
  destruct (boot_full vm_frames vm_frames_ok) as (s & E & Hwf & _ & _ & _ & Hno & Htab); [intros; apply vm_used; lia|].
  unfold booted in E. unfold vm_machine. rewrite E. clear E. split; [exact Hwf|]. intros k Hk Hp.
  destruct (Z.lt_ge_cases k 4); [|rewrite Hno in Hp by lia; done]. by rewrite Htab.
Qed.

(** An unaligned break: the pages of the next region are cleared from the break
    on, past the last page that was mapped. *)
Example vbrk_unaligned_faults :
  match vbrk 100 vm_machine vm_state with
  | Ret (_, v) => match vmalloc 4096 vm_machine v with Panicked msg => msg | _ => "" end
  | _ => ""
  end = "Page Fault"%string.
Proof. vm_compute. reflexivity. Qed.

(** A decrement beyond the break leaves a break near 2^32. *)
Example vbrk_wraps :
  match vbrk (-16777217) vm_machine vm_state with Ret (_, v) => vmalloc_current v | _ => 0 end = 4294967295.
Proof. vm_compute. reflexivity. Qed.

(** One region of two pages. *)
Definition maps_two_pages (m : machine pmm) (v : vmstate kheap) : bool :=
  match vm_kmalloc VM_REGION_SIZE m v with
  | Ret (p, m, v) => match map_pages 2 VMALLOC_START 0 m with Ret (i, _) => negb (p =? 0) && (i =? 2) | _ => false end
  | _ => false
  end.

Lemma two_pages_region m v : vm_ok [4096] m v [] [] -> vmalloc_current v = VMALLOC_START ->
  low_frames 4 (frames m) -> maps_two_pages m v = true ->
  exists m' v' reg k pages, vm_ok [4096] m' v' [Region reg VMALLOC_START 5000 pages] [(reg, k)] /\ lenZ pages = 2.
Proof.
  intros H0 Hc Hlow Hrun. unfold maps_two_pages in Hrun.
  destruct (vm_kmalloc_step _ _ _ _ _ VM_REGION_SIZE H0) as (reg & mm & g & E & Es & El & Hm & Hkeep & Hres); [done|].
  rewrite E in Hrun. destruct Hres as [[-> _]|(k & Hk & H)]; [by destruct (map_pages _ _ _ _) as [[]| |]|].
  destruct (vmalloc_pages_cases _ _ _ _ _ reg k 5000 H Hk) as
    [(pages & m1 & E1 & Hmr & Hl)|[(i & m1 & m2 & m3 & g' & E1 & Hi & _)|[E1 _]]];
    [by intros r ?%elem_of_nil|lia|cbn [vmalloc_current with_heap]; by rewrite Hc|exact Hlow|..];
    change (Z.to_nat (pages_for 5000)) with 2%nat in E1; cbn [vmalloc_current with_heap] in *; rewrite Hc in E1;
    rewrite E1 in Hrun; clear E E1; change (pages_for 5000) with 2 in *.
  - pose proof (fun m1 => vm_ok_push _ _ m1 _ _ _ reg k 2 5000 pages H Hk) as Hpush. cbv zeta in Hpush.
    cbn [vmalloc_current with_heap] in Hpush. rewrite Hc in Hpush. rewrite Hc in Hmr.
    eexists _, _, reg, k, pages. split; [|exact Hl]. apply Hpush; [by intros r ?%elem_of_nil|exact Hmr|done|done|done|done].
  - destruct (Z.eqb_spec i 2); [lia|]. by rewrite andb_false_r in Hrun.
  - done.
Qed.

Lemma vm_region_demo : exists m v reg k pages,
  vm_ok [4096] m v [Region reg VMALLOC_START 5000 pages] [(reg, k)] /\ lenZ pages = 2.
Proof.
  apply (two_pages_region vm_machine vm_state vm_machine_ok eq_refl); vm_compute; auto.
Qed.


Lemma vfree_correct_witness : exists m v r ps k,
  vm_ok [4096] m v [r] ps /\ r_virt r = VMALLOC_START /\
  exists m' v' ps', vfree VMALLOC_START m v = Ret (m', v') /\ vm_ok [4096] m' v' [] ps' /\ ps ≡ₚ (r_addr r, k) :: ps' /\
    vmalloc_current v' = VMALLOC_START.
Proof.
  destruct vm_region_demo as (m & v & reg & k & pages & H & _).
  destruct (vfree_correct [4096] m v _ _ VMALLOC_START H) as [_ Hfree]; [done|].
  destruct (Hfree [] (Region reg VMALLOC_START 5000 pages) [] eq_refl eq_refl) as (m' & v' & k' & ps' & E & H' & Hp & Hc & _).
  exists m, v, (Region reg VMALLOC_START 5000 pages), [(reg, k)], k'. split; [exact H|]. split; [reflexivity|].
  exists m', v', ps'. split; [exact E|]. split; [exact H'|]. split; [exact Hp|exact Hc].
Defined.

Lemma vsize_stats_correct_witness : exists (m : machine pmm) (v : vmstate kheap),
  vsize VMALLOC_START m v = Ret 5000 /\ vmalloc_get_stats v = VStats 8192 8192 1.
Proof.
  destruct vm_region_demo as (m & v & reg & k & pages & H & Hl).
  destruct (vsize_stats_correct [4096] m v _ _ H) as (Hs & _ & Hst). exists m, v. split.
  - exact (Hs (Region reg VMALLOC_START 5000 pages) ltac:(left)).
  - rewrite Hst. cbn [total_pages foldr r_pages]. rewrite Hl. reflexivity.
Defined.

Lemma vbrk_correct_witness :
  (0 < 4096 /\ VMALLOC_END < VMALLOC_START + 4096 /\
   vbrk 4096 vm_machine vm_state = Ret (4294967295, vm_warn "vbrk: Would exceed virtual address space" vm_state)) \/
  (exists v', vbrk 4096 vm_machine vm_state = Ret (VMALLOC_START, v') /\
   vmalloc_current v' = Z.max VMALLOC_START (u32 (VMALLOC_START + 4096)) /\
   (4096 mod 4096 = 0 -> - VMALLOC_START <= 4096 -> vm_ok [4096] vm_machine v' [] [])).
Proof. apply (vbrk_correct [4096] vm_machine vm_state [] [] 4096 vm_machine_ok). lia. Defined.

Lemma vmalloc_huge_requests_witness :
  exists p m' v', vmalloc 4294967295 vm_machine vm_state = Ret (p, m', v') /\ frames m' = frames vm_machine /\
    vmalloc_current v' = VMALLOC_START /\
    (forall d w, d ∈ [4096] -> is_u32 w -> walk (pmem m') d w = walk (pmem vm_machine) d w) /\
    (p = 0 \/ p = VMALLOC_START /\ total_regions v' = 0 + 1).
Proof. apply (vmalloc_huge_requests [4096] vm_machine vm_state [] [] 4294967295 vm_machine_ok). lia. Defined.
