(* ===== verification/HeapDump.v ===== *)
(** * The dump of the kernel heap: [kmalloc_dump] of kernel/src/kmalloc.c

    The text the command [kheap] of the shell prints: the chain of headers, read
    from the memory, and that it lists the blocks of the heap, every one, in the
    order of their addresses. *)

From S2P Require Import Prelude Interfaces Memory Pmm Kmalloc Text.

Definition print_hex_km (num : Z) : list Z := print_hex num.
Definition print_dec_km (num : Z) : list Z := shell_print_dec num.

(** One line of the dump. *)
Definition block_line (block_num addr size : Z) (is_free : bool) : list Z :=
  text "  [" ++ print_dec_km block_num ++ text "] addr=0x" ++ print_hex_km addr ++
  text " size=" ++ print_dec_km size ++ text " " ++ (if is_free then text "FREE" else text "USED") ++ [10].

Fixpoint dump_blocks (fuel : nat) (m : mem) (current block_num : Z) : outcome (list Z) :=
  match fuel with
  | O => OutOfFuel
  | S fuel =>
      if current =? 0 then Ret [] else
      rest ← dump_blocks fuel m (hdr_next m current) (block_num + 1);
      Ret (block_line block_num current (hdr_size m current) (hdr_free m current) ++ rest)
  end.

Definition kmalloc_dump (h : kheap) : outcome (list Z) :=
  blocks ← dump_blocks (heap_fuel h) (hmem h) (block_list h) 0;
  Ret ([10] ++ text "=== Kernel Heap Dump ===" ++ [10] ++ text "Heap start: 0x" ++ print_hex_km (heap_start h) ++
       [10] ++ text "Heap end: 0x" ++ print_hex_km (heap_end h) ++
       [10] ++ text "Heap size: " ++ print_dec_km (u32 (heap_end h - heap_start h)) ++ text " bytes" ++ [10; 10] ++
       text "Blocks:" ++ [10] ++ blocks ++
       [10] ++ text "Total allocations: " ++ print_dec_km (total_allocations h) ++
       text ", Total frees: " ++ print_dec_km (total_frees h) ++ [10]).

(** ** What it lists *)

(** The lines of blocks laid out from [a] on, numbered from [n]. *)
Fixpoint block_lines (n a : Z) (bs : list blk) : list Z :=
  match bs with
  | [] => []
  | b :: bs => block_line n a (bsize b) (bfree b) ++ block_lines (n + 1) (a + HEADER_SIZE + bsize b) bs
  end.

Lemma dump_blocks_spec m p a bs fuel n :
  Forall blk_ok bs -> 0 < a -> hseg m p a bs 0 -> (length bs < fuel)%nat ->
  dump_blocks fuel m (first_addr a bs 0) n = Ret (block_lines n a bs).
Proof.
  intros Hok. revert p a fuel n. induction Hok as [|[s f] bs [Hb _] Hok IH]; intros p a fuel n Ha Hs Hf;
    (destruct fuel as [|fuel]; [cbn in Hf; lia|]); [done|].
  destruct Hs as [Hh Hs]. cbn [length bsize] in *. unfold MIN_BLOCK_SIZE in Hb. cbn [first_addr dump_blocks].
  destruct (Z.eqb_spec a 0); [lia|]. rewrite hdr_free_eq, hdr_next_eq, hdr_size_eq, Hh. cbn [h_next h_free h_size].
  rewrite (IH a) by (done || lia). cbn [mbind outcome_bind block_lines bsize bfree]. rewrite HEADER_SIZE_eq. by destruct f.
Qed.

(** On a well-formed heap [kmalloc_dump] terminates and prints, between the
    bounds of the heap and the counters, one line for each block in the order of
    the addresses, with its number, header address, size and state. *)
Theorem kmalloc_dump_correct h bs : heap_rep h bs ->
  kmalloc_dump h = Ret ([10] ++ text "=== Kernel Heap Dump ===" ++ [10] ++ text "Heap start: 0x" ++ print_hex (heap_start h) ++
    [10] ++ text "Heap end: 0x" ++ print_hex (heap_start h + span bs) ++
    [10] ++ text "Heap size: " ++ shell_print_dec (span bs) ++ text " bytes" ++ [10; 10] ++
    text "Blocks:" ++ [10] ++ block_lines 0 (heap_start h) bs ++
    [10] ++ text "Total allocations: " ++ shell_print_dec (total_allocations h) ++
    text ", Total frees: " ++ shell_print_dec (total_frees h) ++ [10]).
Proof.
  intros H. pose proof (heap_rep_bounds _ _ H) as (Ha & Hlim & Hsp). unfold kmalloc_dump.
  rewrite (hr_list _ _ H), (dump_blocks_spec _ 0 _ bs) by (apply H || done || by apply heap_fuel_enough).
  cbn [mbind outcome_bind]. rewrite (hr_end _ _ H). replace (heap_start h + span bs - heap_start h) with (span bs) by lia.
  by rewrite u32_id by (unfold is_u32; lia).
Qed.

Lemma kmalloc_dump_correct_witness :
  block_lines 0 4096 demo_bs = block_line 0 4096 16 false ++ block_line 1 4136 64 true ++ block_line 2 4224 16 false /\
  exists out, kmalloc_dump demo_h = Ret out /\ length out = 243%nat.
Proof.
  split; [reflexivity|]. rewrite (kmalloc_dump_correct demo_h demo_bs demo_rep). eexists. split; [reflexivity|vm_compute; reflexivity].
Defined.
