(* ===== verification/World.v ===== *)
(** * The whole kernel: the state kernel/src/shell.c and kernel/src/main.c act on

    The components side by side, with the variables of the shell; programs over
    that state as a small monad, whose operations are those of the components;
    interrupts, with the handlers the shell installs; and pending kernel signals
    with the callback of the shell. *)

From S2P Require Import Prelude Interfaces Memory HeapInterface Pmm Kmalloc Heap Ring Chain Signals Keyboard Paging Process Serial Idt Gdt Syscall Timer Interrupts Terminal Text Panic Vmalloc.

(** The static variables of shell.c. *)
Record shell_vars := ShellVars {
  last_alloc : Z;
  last_alloc_size : Z;
  shell_signal_handler_installed : bool;
  shell_sigs : shell_signals;
  shell_last_demo_pid : Z;
  exception_test_caught : bool;
  exception_test_vector : Z;
  exception_test_eip : Z;
}.

Record world := World {
  kern : kernel pmm;
  vm : vmstate kheap;
  descriptors : idt;
  screen : terminal;
  shell : shell_vars;
}.

Definition with_kern (v : kernel pmm) (w : world) : world := World v (vm w) (descriptors w) (screen w) (shell w).
Definition with_vm (v : vmstate kheap) (w : world) : world := World (kern w) v (descriptors w) (screen w) (shell w).
Definition with_descriptors (v : idt) (w : world) : world := World (kern w) (vm w) v (screen w) (shell w).
Definition with_screen (v : terminal) (w : world) : world := World (kern w) (vm w) (descriptors w) v (shell w).
Definition with_shell (v : shell_vars) (w : world) : world := World (kern w) (vm w) (descriptors w) (screen w) v.

Definition with_procs (s : pstate pmm) (w : world) : world :=
  with_kern (Kernel s (keys (kern w)) (sigs (kern w)) (clock (kern w)) (syscall_table (kern w))) w.
Definition with_sigs (g : sig_state) (w : world) : world :=
  with_kern (Kernel (procs (kern w)) (keys (kern w)) g (clock (kern w)) (syscall_table (kern w))) w.
Definition with_keys (kb : kbd) (w : world) : world :=
  with_kern (Kernel (procs (kern w)) kb (sigs (kern w)) (clock (kern w)) (syscall_table (kern w))) w.
Definition with_mach (m : machine pmm) (w : world) : world := with_procs (set_mach m (procs (kern w))) w.

(** The machine, and what is on it. *)
Definition machine_of (w : world) : machine pmm := mach (procs (kern w)).

Definition set_alloc (ptr size : Z) (v : shell_vars) : shell_vars :=
  ShellVars ptr size (shell_signal_handler_installed v) (shell_sigs v) (shell_last_demo_pid v)
    (exception_test_caught v) (exception_test_vector v) (exception_test_eip v).
Definition set_installed (v : shell_vars) : shell_vars :=
  ShellVars (last_alloc v) (last_alloc_size v) true (shell_sigs v) (shell_last_demo_pid v)
    (exception_test_caught v) (exception_test_vector v) (exception_test_eip v).
Definition set_shell_sigs (s : shell_signals) (v : shell_vars) : shell_vars :=
  ShellVars (last_alloc v) (last_alloc_size v) (shell_signal_handler_installed v) s (shell_last_demo_pid v)
    (exception_test_caught v) (exception_test_vector v) (exception_test_eip v).
Definition set_demo_pid (p : Z) (v : shell_vars) : shell_vars :=
  ShellVars (last_alloc v) (last_alloc_size v) (shell_signal_handler_installed v) (shell_sigs v) p
    (exception_test_caught v) (exception_test_vector v) (exception_test_eip v).
Definition set_caught (b : bool) (vector at_ : Z) (v : shell_vars) : shell_vars :=
  ShellVars (last_alloc v) (last_alloc_size v) (shell_signal_handler_installed v) (shell_sigs v)
    (shell_last_demo_pid v) b vector at_.

(** ** Programs over the kernel *)

Definition cmd (A : Type) : Type := world -> outcome (A * world).

#[export] Instance cmd_ret : MRet cmd := fun A a w => Ret (a, w).
#[export] Instance cmd_bind : MBind cmd := fun A B f c w => '(a, w) ← c w; f a w.

(** Read the state; change it. *)
Definition gets {A} (f : world -> A) : cmd A := fun w => Ret (f w, w).
Definition modify (f : world -> world) : cmd unit := fun w => Ret (tt, f w).
Definition fail {A} (msg : string) : cmd A := fun _ => Panicked msg.
(** What has not been shown to end. *)
Definition stuck {A} : cmd A := fun _ => OutOfFuel.

(** Run an operation of a component on its part of the state. *)
Definition asks {A} (f : world -> outcome A) : cmd A := fun w => a ← f w; Ret (a, w).
Definition on_procs {A} (f : pstate pmm -> outcome (A * pstate pmm)) : cmd A := fun w =>
  '(a, s) ← f (procs (kern w)); Ret (a, with_procs s w).
Definition on_machine (f : machine pmm -> outcome (machine pmm)) : cmd unit := fun w =>
  m ← f (machine_of w); Ret (tt, with_mach m w).
Definition on_frames {A} (f : pmm -> A * pmm) : cmd A := fun w =>
  let '(a, p) := f (frames (machine_of w)) in Ret (a, with_mach (with_frames p (machine_of w)) w).

Section world.
(** The serial hardware, the polls a busy wait may make, [serial_enabled]; the
    address of [process_page_directories]; the code of others behind the pointers
    the kernel calls; the address of [shell_signal_handler]; the registers of the
    processor when the shell is interrupted. *)
Context (device : trace -> Z -> Z) (polls : nat) (serial_enabled : Z).
Context (page_directories : Z).
Context (other_syscall : Z -> Z -> Z -> Z -> Z -> pstate pmm -> outcome (Z * pstate pmm)).
Context (other_handler : Z -> cpu_registers -> trace -> kernel pmm -> outcome (cpu_registers * trace * kernel pmm)).

(** ** Output *)

Definition put (str : list Z) : cmd unit := fun w =>
  t ← terminal_write device polls serial_enabled str (screen w); Ret (tt, with_screen t w).
Definition putchar (c : Z) : cmd unit := fun w =>
  t ← terminal_putchar device polls serial_enabled c (screen w); Ret (tt, with_screen t w).
Definition say (s : string) : cmd unit := put (text s).
(** A text ending in a newline. *)
Definition say_line (s : string) : cmd unit := put (text s ++ [NEWLINE]).
Fixpoint say_lines (l : list string) : cmd unit :=
  match l with [] => mret tt | s :: l => say_line s;; say_lines l end.
Definition hex (num : Z) : cmd unit := put (shell_print_hex num).
Definition dec (num : Z) : cmd unit := put (shell_print_dec num).
Definition newline : cmd unit := put [NEWLINE].

Definition on_screen (f : terminal -> terminal) : cmd unit := modify (fun w => with_screen (f (screen w)) w).

(** ** The allocators, with the warnings they print *)

Fixpoint warn_all (l : list string) : cmd unit :=
  match l with
  | [] => mret tt
  | msg :: l => (fun w => t ← warn device polls serial_enabled (text msg) (screen w); Ret (tt, with_screen t w));; warn_all l
  end.

Definition clear_warnings (w : world) : world :=
  let h := vheap (vm w) in
  let h := KHeap (hmem h) (heap_start h) (heap_end h) (heap_max h) (block_list h) (total_allocations h) (total_frees h) [] in
  with_vm (VM h (vmalloc_current (vm w)) (region_list (vm w)) (total_regions (vm w)) (total_pages_allocated (vm w)) []) w.

(** What was recorded since the last time, the oldest first; the heap, called
    first, warns before vmalloc.c does. *)
Definition flush_warnings : cmd unit :=
  l ← gets (fun w => rev (warnings (vheap (vm w))) ++ rev (vm_warnings (vm w)));
  modify clear_warnings;; warn_all l.

Definition on_vm {A} (f : machine pmm -> vmstate kheap -> outcome (A * machine pmm * vmstate kheap)) : cmd A :=
  a ← (fun w => '(a, m, v) ← f (machine_of w) (vm w); Ret (a, with_vm v (with_mach m w)));
  flush_warnings;; mret a.

Definition kmalloc_ (size : Z) : cmd Z := on_vm (vm_kmalloc size).
Definition kfree_ (ptr : Z) : cmd unit := on_vm (fun m v => '(m, v) ← vm_kfree ptr m v; Ret (tt, m, v)).
Definition vmalloc_ (size : Z) : cmd Z := on_vm (vmalloc size).
Definition vfree_ (ptr : Z) : cmd unit := on_vm (fun m v => '(m, v) ← vfree ptr m v; Ret (tt, m, v)).

(** The heap over the memory of the machine. *)
Definition heap_of (w : world) : kheap := in_memory (pmem (machine_of w)) (vheap (vm w)).

(** ** Interrupts *)

(** The handlers of the shell's tests, under numbers of their own. *)
Definition div0_test_handler : interrupt_handler := OtherHandler 0.
Definition invop_test_handler : interrupt_handler := OtherHandler 1.

Definition set_eip (v : Z) (r : cpu_registers) : cpu_registers :=
  Registers (gs r) (fs r) (es r) (ds r) (edi r) (esi r) (ebp r) (esp r) (ebx r) (edx r) (ecx r) (eax r)
    (int_no r) (err_code r) v (cs r) (Idt.eflags r).

(** Both record the exception and skip the two bytes of the instruction. *)
Definition exception_test (r : cpu_registers) (v : shell_vars) : cpu_registers * shell_vars :=
  (set_eip (u32 (eip r + 2)) r, set_caught true (int_no r) (eip r) v).

Definition world_handler (h : interrupt_handler) r t (x : kernel pmm * shell_vars)
    : outcome (cpu_registers * trace * (kernel pmm * shell_vars)) :=
  let '(k, v) := x in
  if bool_decide (h = div0_test_handler) || bool_decide (h = invop_test_handler) then
    let '(r, v) := exception_test r v in Ret (r, t, (k, v))
  else
    '(r, t, k) ← Interrupts.call_handler device page_directories other_syscall other_handler h r t k;
    Ret (r, t, (k, v)).

(** An interrupt with the registers [r], which come back changed. *)
Definition interrupt (r : cpu_registers) : cmd cpu_registers := fun w =>
  '(r, t, (k, v)) ← idt_handle_interrupt world_handler (descriptors w) r (ports (screen w)) (kern w, shell w);
  Ret (r, with_shell v (with_kern k (with_screen (with_ports t (screen w)) w))).

Fixpoint interrupts (l : list cpu_registers) : cmd unit :=
  match l with [] => mret tt | r :: l => interrupt r;; interrupts l end.

(** ** Signals *)

(** The text of [shell_signal_handler]. *)
Definition signal_text (signal value : Z) : list Z :=
  text "[signal] handled signal " ++ shell_print_dec (u32 signal) ++ text " value=" ++ shell_print_hex value ++ [NEWLINE].

(** The only callback of the kernel, with what it prints. *)
Definition shell_callback (f signal value context : Z) (x : sig_state * (shell_signals * list Z))
    : sig_state * (shell_signals * list Z) :=
  let '(g, (v, out)) := x in (g, (shell_signal_handler signal value context v, out ++ signal_text signal value)).

(** The queue holds at most 63 signals. *)
Definition dispatch_fuel : nat := 64.

Definition dispatch_signals : cmd Z := fun w =>
  '(n, (g, (v, out))) ← signal_dispatch_pending shell_callback dispatch_fuel (sigs (kern w), (shell_sigs (shell w), []));
  '(_, w) ← put out (with_shell (set_shell_sigs v (shell w)) (with_sigs g w));
  Ret (n, w).
End world.
