(* ===== verification/Shell.v ===== *)
(** * The shell: kernel/src/shell.c

    Reading a line from the serial line and the keyboard while signals and
    scheduler ticks are served, the commands, each a program over the whole
    kernel ([cmd], World.v), and the loop that ties them.  The routines on
    strings and numbers are in Text.v. *)

From S2P Require Import Prelude Interfaces Memory HeapInterface Pmm Kmalloc Heap Ring Chain Signals Keyboard Paging Process Serial Idt Gdt Syscall Timer Interrupts Terminal Text Panic Vmalloc HeapDump World.

Definition SHELL_BUFFER_SIZE : Z := 256.

(** Every byte of the range has a translation; a byte of the memory. *)
Definition mapped_range (m : machine pmm) (addr size : Z) : bool :=
  forallb (fun i => match translate m (u32 (addr + i)) with Some _ => true | None => false end) (seqZ 0 size).
Definition byte_at (m : machine pmm) (a : Z) : Z :=
  match translate m a with Some p => load8 (pmem m) p | None => 0 end.

Section shell.
Context (device : trace -> Z -> Z) (polls : nat) (serial_enabled : Z) (page_directories : Z).
Context (other_syscall : Z -> Z -> Z -> Z -> Z -> pstate pmm -> outcome (Z * pstate pmm)).
Context (other_handler : Z -> cpu_registers -> trace -> kernel pmm -> outcome (cpu_registers * trace * kernel pmm)).
Context (user_run : Z -> Z -> pstate pmm -> outcome (pstate pmm)).
Context (user_handler : Z -> Z -> Z -> Z -> pstate pmm -> pstate pmm).
(** The address of [shell_signal_handler]; the registers of the processor where
    the shell reads them or is interrupted. *)
Context (shell_signal_handler_addr : Z) (cpu : cpu_registers) (segs : segment_registers).
(** The stack pointer saved in the context of a process. *)
Context (saved_esp : process -> Z).
(** The physical addresses of what the records of the model hold and the memory
    does not: the variables, the code and the stack of the kernel.  What a read or
    a write of the user there does is not modelled: [stuck]. *)
Context (held : Z -> bool).

#[local] Abbreviation put := (put device polls serial_enabled).
#[local] Abbreviation putchar := (putchar device polls serial_enabled).
#[local] Abbreviation say := (say device polls serial_enabled).
#[local] Abbreviation say_line := (say_line device polls serial_enabled).
#[local] Abbreviation say_lines := (say_lines device polls serial_enabled).
#[local] Abbreviation hex := (hex device polls serial_enabled).
#[local] Abbreviation dec := (dec device polls serial_enabled).
#[local] Abbreviation newline := (newline device polls serial_enabled).
#[local] Abbreviation kmalloc := (kmalloc_ device polls serial_enabled).
#[local] Abbreviation kfree := (kfree_ device polls serial_enabled).
#[local] Abbreviation vmalloc := (vmalloc_ device polls serial_enabled).
#[local] Abbreviation vfree := (vfree_ device polls serial_enabled).
#[local] Abbreviation dispatch_signals := (dispatch_signals device polls serial_enabled).
#[local] Abbreviation interrupt := (interrupt device page_directories other_syscall other_handler).
#[local] Abbreviation interrupts := (interrupts device page_directories other_syscall other_handler).

(** ** Small operations *)

Definition io {A} (f : trace -> outcome (A * trace)) : cmd A := fun w =>
  '(a, t) ← f (ports (screen w)); Ret (a, with_screen (with_ports t (screen w)) w).
Definition run_pending (max_ticks : Z) : cmd Z := on_procs (scheduler_run_pending user_run user_handler max_ticks).
Definition change_shell (f : shell_vars -> shell_vars) : cmd unit := modify (fun w => with_shell (f (shell w)) w).

(** A word at any address: its bytes one by one when it lies in two pages, both
    of which are then translated before anything is written. *)
Definition load_word (m : machine pmm) (a : Z) : outcome Z :=
  if a mod 4096 <=? 4092 then vload32 m a else
  b0 ← vload8 m a; b1 ← vload8 m (u32 (a + 1)); b2 ← vload8 m (u32 (a + 2)); b3 ← vload8 m (u32 (a + 3));
  Ret (b0 + 256 * (b1 + 256 * (b2 + 256 * b3))).
Definition store_word (a v : Z) (m : machine pmm) : outcome (machine pmm) :=
  if a mod 4096 <=? 4092 then vstore32 a v m else
  _ ← load_word m a;
  for_rangeM 0 4 (fun i m => vstore8 (u32 (a + i)) (u8 (Z.shiftr v (8 * i))) m) m.

Definition load (a : Z) : cmd Z := asks (fun w => load_word (machine_of w) a).
Definition store (a v : Z) : cmd unit := on_machine (store_word a v).

(** *** Any address *)

(** The bytes of the screen are those of the cells of the terminal. *)
Definition VGA_ADDRESS : Z := 753664. (** 0xB8000 *)
Definition screen_byte (p : Z) : bool := (VGA_ADDRESS <=? p) && (p <? VGA_ADDRESS + 2 * (VGA_WIDTH * VGA_HEIGHT)).

Definition see_byte (w : world) (p : Z) : Z :=
  if screen_byte p then
    let o := p - VGA_ADDRESS in Z.land (Z.shiftr (getZ 0 (VGA_MEMORY (screen w)) (o / 2)) (8 * (o mod 2))) 255
  else load8 (pmem (machine_of w)) p.
Definition put_byte (p v : Z) (w : world) : world :=
  if screen_byte p then
    let o := p - VGA_ADDRESS in
    let c := getZ 0 (VGA_MEMORY (screen w)) (o / 2) in
    let c := if o mod 2 =? 0 then Z.lor (Z.land c 65280) (u8 v) else Z.lor (Z.land c 255) (Z.shiftl (u8 v) 8) in
    with_screen (with_vga (setZ (VGA_MEMORY (screen w)) (o / 2) c) (screen w)) w
  else with_mach (with_pmem (store8 (pmem (machine_of w)) p v) (machine_of w)) w.

(** Where the four bytes at an address are. *)
Definition word_places (m : machine pmm) (a : Z) : option (list Z) :=
  mapM (fun i => translate m (u32 (a + i))) [0; 1; 2; 3].
Definition word_bytes (v : Z) : list Z := (fun i => u8 (Z.shiftr v (8 * i))) <$> [0; 1; 2; 3].
Definition bytes_word (l : list Z) : Z := foldr (fun b v => b + 256 * v) 0 l.

Definition peek (a : Z) : cmd Z := asks (fun w =>
  match word_places (machine_of w) a with
  | None => Panicked "Page Fault"
  | Some ps => if existsb held ps then OutOfFuel else Ret (bytes_word (see_byte w <$> ps))
  end).
Definition poke (a v : Z) : cmd unit := fun w =>
  match word_places (machine_of w) a with
  | None => Panicked "Page Fault"
  | Some ps => if existsb held ps then OutOfFuel
      else Ret (tt, foldl (fun w pb => put_byte pb.1 pb.2 w) w (zip ps (word_bytes v)))
  end.
Definition peek_byte (apart : Z -> bool) (a : Z) : cmd Z := asks (fun w =>
  match translate (machine_of w) a with
  | None => Panicked "Page Fault"
  | Some p => if apart p then OutOfFuel else Ret (see_byte w p)
  end).

(** [shell_hexdump]: every byte is read when it is printed, after what was
    printed before it. *)
Fixpoint each (l : list Z) (f : Z -> cmd unit) : cmd unit :=
  match l with [] => mret tt | x :: l => f x;; each l f end.
Definition hexdump_row (apart : Z -> bool) (addr size i : Z) : cmd unit :=
  let count := Z.min 16 (size - i) in
  hex (u32 (addr + i));; say ": ";;
  each (seqZ 0 count) (fun j => b ← peek_byte apart (u32 (addr + (i + j))); put (shell_print_byte b ++ text " " ++ gap j));;
  each (seqZ count (16 - count)) (fun j => put (text "   " ++ gap j));;
  say " |";;
  each (seqZ 0 count) (fun j => b ← peek_byte apart (u32 (addr + (i + j))); put [printable b]);;
  say_line "|".
(** At most a row for each byte. *)
Fixpoint hexdump_rows (n : nat) (apart : Z -> bool) (addr size i : Z) : cmd unit :=
  match n with
  | O => mret tt
  | Datatypes.S n => if i <? size then hexdump_row apart addr size i;; hexdump_rows n apart addr size (i + 16) else mret tt
  end.
Definition hexdump (apart : Z -> bool) (addr size : Z) : cmd unit := hexdump_rows (Z.to_nat size) apart addr size 0.

(** The bytes of the stack are those of the memory. *)
Definition shell_dump_stack : cmd unit :=
  say_line "=== Stack Dump ===";;
  say "ESP: ";; hex (esp cpu);;
  say "  EBP: ";; hex (ebp cpu);;
  put [NEWLINE; NEWLINE];;
  say_line "Stack contents (64 bytes from ESP):";;
  hexdump (fun _ => false) (esp cpu) 64.

Definition shell_print_process_summary (p : Z) : cmd unit :=
  s ← gets (fun w => procs (kern w));
  let q := proc s p in
  let parent_pid := if negb (parent q =? NULLP) then pid (proc s (parent q)) else 0 in
  say "PID=";; dec (pid q);;
  say " STATE=";; say (process_status_name (status_code (status q)));;
  say " OWNER=";; dec (owner q);;
  say " PARENT=";; dec parent_pid;;
  say " RUNS=";; dec (run_count q);;
  say " TICKS=";; dec (cpu_ticks q);;
  say " SIGQ=";; dec (process_signal_pending_count p s);;
  say " SOCKQ=";; dec (process_socket_pending_count p s);;
  say " CR3=";; hex (process_page_directory (memory q));;
  say " PAGE=";; hex (process_page (memory q));;
  say " HEAP=";; hex (m_heap_start (memory q));;
  say " STACK=";; hex (stack_top (memory q));;
  say " ESP=";; hex (saved_esp q);;
  say " SWITCH=";; dec (switch_count q);;
  say " LASTSIG=";; dec (u32 (last_signal q));;
  say " SIGVAL=";; hex (last_signal_value q);;
  say " LASTVAL=";; hex (runtime_value q);;
  (if status_is (status q) ZOMBIE then say " EXIT=";; dec (u32 (exit_code q)) else mret tt);;
  newline.

(** ** Reading characters *)

(** What a byte of the serial line stands for. *)
Definition serial_key (c : Z) : option Z :=
  if (c =? RETURN) || (c =? NEWLINE) then Some NEWLINE
  else if (c =? BACKSPACE) || (c =? 127) then Some BACKSPACE
  else if (c =? 9) || ((32 <=? c) && (c <? 127)) then Some c
  else None.

(** The scroll keys are served here: the move they ask for. *)
Definition scroll_key (c : Z) (shift : bool) : option (terminal -> terminal) :=
  if c =? KEY_PAGE_UP then Some (terminal_scroll_up 24)
  else if c =? KEY_PAGE_DOWN then Some (terminal_scroll_down 24)
  else if (c =? KEY_ARROW_UP) && shift then Some (terminal_scroll_up 1)
  else if (c =? KEY_ARROW_DOWN) && shift then Some (terminal_scroll_down 1)
  else None.

Definition read_serial : cmd (option Z) :=
  has ← io (fun t => Ret (serial_has_data device serial_enabled t));
  if (has : bool) then c ← io (serial_read_char device polls serial_enabled); mret (serial_key c) else mret None.

(** The character, [None] when the queue was empty or the key scrolled. *)
Definition read_keyboard : cmd (option Z) :=
  c ← (fun w => let '(c, kb, g) := keyboard_try_read_char (keys (kern w)) (sigs (kern w)) in
                Ret (c, with_sigs g (with_keys kb w)));
  match c with
  | None => mret None
  | Some c =>
      shift ← gets (fun w => keyboard_shift_held (keys (kern w)));
      match scroll_key c shift with
      | Some f => on_screen f;; mret None
      | None => mret (Some c)
      end
  end.

(** One turn of the [while (1)] of [shell_getchar]. *)
Definition poll_input : cmd (option Z) :=
  dispatch_signals;; run_pending 1;;
  c ← read_serial;
  match c with Some c => mret (Some c) | None => read_keyboard end.

(** [arrivals]: the interrupts that come before each turn, for as long as the
    machine is watched; [stuck] when it is still waiting then. *)
Definition arrival : Type := list cpu_registers.

Fixpoint shell_getchar (arrivals : list arrival) : cmd (Z * list arrival) :=
  match arrivals with
  | [] => stuck
  | irqs :: arrivals =>
      interrupts irqs;;
      c ← poll_input;
      match c with Some c => mret (c, arrivals) | None => shell_getchar arrivals end
  end.

(** ** The line *)

(** A character typed into the buffer of 256 bytes with [pos] of them filled:
    the echo comes with it. *)
Definition type_char (c pos : Z) (buffer : list Z) : cmd (Z * list Z) :=
  if c =? BACKSPACE then
    if 0 <? pos then putchar BACKSPACE;; mret (pos - 1, buffer) else mret (pos, buffer)
  else if pos <? SHELL_BUFFER_SIZE - 1 then putchar c;; mret (pos + 1, setZ buffer pos c)
  else mret (pos, buffer).

(** The inner loop, and the terminating 0; every character takes an arrival. *)
Fixpoint read_line (fuel : nat) (arrivals : list arrival) (pos : Z) (buffer : list Z) : cmd (list Z * list arrival) :=
  match fuel with
  | O => stuck
  | Datatypes.S fuel =>
      '(c, arrivals) ← shell_getchar arrivals;
      if c =? NEWLINE then putchar NEWLINE;; mret (setZ buffer pos 0, arrivals) else
      '(pos, buffer) ← type_char c pos buffer;
      read_line fuel arrivals pos buffer
  end.

(** ** The commands *)

Definition cmd_help : cmd unit := say_lines [
  "Built-in commands:";
  "  help          - Show this help message";
  "  echo TEXT     - Print TEXT";
  "  clear         - Clear the screen";
  "  exit          - Exit the shell";
  "  reboot        - Reboot the system";
  ""; "Memory commands:";
  "  meminfo       - Show memory statistics";
  "  alloc SIZE    - Allocate SIZE bytes with kmalloc";
  "  free          - Free last allocation";
  "  kheap         - Dump kernel heap state";
  "  vmap          - Show virtual memory info";
  ""; "Memory tests:";
  "  pagetest      - Test page map/write/unmap round-trip";
  "  pageperm      - Test page permission flags";
  "  pmmtest       - Test PMM frame alloc/free accounting";
  "  vmtest        - Test vmalloc alloc/write/free";
  "  heaptest      - Test heap multi-alloc/free with reuse";
  ""; "Debug commands:";
  "  hexdump ADDR [SIZE] - Dump memory (default 64 bytes)";
  "  peek ADDR     - Read 32-bit value at address";
  "  poke ADDR VAL - Write 32-bit value to address";
  "  stack         - Dump current stack";
  "  pagedir       - Show page directory info";
  "  idt           - Show IDT and interrupt state";
  "  signals       - Show signal queue state";
  "  sigtest       - Schedule and handle a test signal";
  "  syscall       - Trigger int 0x80 test syscall";
  "  int3          - Trigger a breakpoint exception";
  "  panic         - Trigger test kernel panic";
  "  div0          - Test division by zero exception";
  "  invop         - Test invalid opcode exception";
  "  segreg        - Show segment registers";
  ""; "Process commands:";
  "  procs         - Show the process table";
  "  execdemo      - Spawn demo counter processes";
  "  sched TICKS   - Force scheduler ticks";
  "  forkdemo PID  - Fork a process";
  "  waitproc PID  - Collect a zombie child";
  "  killproc PID [SIG] - Queue a signal or kill a process";
  "  sigproc PID SIG [VAL] - Queue a process signal";
  "  getuid PID    - Show the owner of a process";
  "  mmapproc PID SIZE - Reserve memory in a process heap";
  "  sockdemo      - Spawn a socket IPC demo pair"]%string.

Definition cmd_echo (args : list Z) : cmd unit := put args;; putchar NEWLINE.
Definition cmd_clear : cmd unit := on_screen terminal_initialize.
Definition cmd_ls : cmd unit := say_lines ["boot/"; "kernel/"; "tools/"; "README.md"]%string.

Definition frames_of (w : world) : pmm := frames (machine_of w).
Definition size_text (bytes : Z) : cmd unit := put (shell_print_size bytes).

Definition cmd_meminfo : cmd unit :=
  pmm_stats ← gets (fun w => pmm_get_stats (frames_of w));
  kmalloc_stats ← asks (fun w => kmalloc_get_stats (heap_of w));
  vmalloc_stats ← gets (fun w => vmalloc_get_stats (vm w));
  newline;; say_line "=== Physical Memory ===";;
  say "Total: ";; size_text (st_total_memory pmm_stats);;
  newline;; say "Used:  ";; size_text (u32 (st_used_frames pmm_stats * 4096));;
  say " (";; dec (st_used_frames pmm_stats);; say_line " pages)";;
  say "Free:  ";; size_text (u32 (st_free_frames pmm_stats * 4096));;
  say " (";; dec (st_free_frames pmm_stats);; say_line " pages)";;
  newline;; say_line "=== Kernel Heap ===";;
  say "Heap size: ";; size_text (ks_heap_size kmalloc_stats);;
  newline;; say "Used:      ";; size_text (ks_used_size kmalloc_stats);;
  newline;; say "Free:      ";; size_text (ks_free_size kmalloc_stats);;
  newline;; say "Allocs:    ";; dec (ks_num_allocations kmalloc_stats);; newline;;
  newline;; say_line "=== Virtual Memory ===";;
  say "Allocated: ";; size_text (vs_total_virtual vmalloc_stats);;
  newline;; say "Regions:   ";; dec (vs_num_regions vmalloc_stats);; newline.

Definition cmd_alloc (args : list Z) : cmd unit :=
  let size := parse_uint args in
  if size =? 0 then say_line "Usage: alloc SIZE (in bytes)" else
  ptr ← kmalloc size;
  if negb (ptr =? 0) then
    say "Allocated ";; dec size;; say " bytes at ";; hex ptr;; newline;;
    change_shell (set_alloc ptr size)
  else say_line "Allocation failed!".

Definition cmd_free : cmd unit :=
  ptr ← gets (fun w => last_alloc (shell w));
  size ← gets (fun w => last_alloc_size (shell w));
  if ptr =? 0 then say_line "No allocation to free" else
  say "Freeing ";; dec size;; say " bytes at ";; hex ptr;; newline;;
  kfree ptr;;
  change_shell (set_alloc 0 0).

Definition cmd_kheap : cmd unit := out ← asks (fun w => kmalloc_dump (heap_of w)); put out.

(** [pd->entries[i]], and how many of them are present. *)
Definition dir_entry (pd i : Z) : cmd Z := load (u32 (pd + 4 * i)).
Fixpoint present_tables (n : nat) (pd i count : Z) : cmd Z :=
  match n with
  | O => mret count
  | Datatypes.S n =>
      e ← dir_entry pd i;
      present_tables n pd (i + 1) (if has e PAGE_PRESENT then count + 1 else count)
  end.

Definition cmd_vmap : cmd unit :=
  out ← asks (fun w => vmalloc_dump (machine_of w) (vm w)); put out;;
  newline;; say_line "=== Page Directory Info ===";;
  pd ← gets (fun w => paging_get_directory (machine_of w));
  say "Page directory at: ";; hex pd;; newline;;
  mapped_tables ← present_tables 1024 pd 0 0;
  say "Mapped page tables: ";; dec mapped_tables;; say_line "/1024".

Definition cmd_panic : cmd unit := say_line "Triggering test kernel panic...";; fail "User-triggered test panic".

Definition hexdump_size (args : list Z) : Z :=
  let args := skip_word args in
  let size := if deref args =? SPACE then
                let parsed_size := parse_uint (drop 1 args) in if 0 <? parsed_size then parsed_size else 64
              else 64 in
  if 512 <? size then 512 else size.
Definition cmd_hexdump (args : list Z) : cmd unit :=
  let addr := parse_hex args in
  let size := hexdump_size args in
  say "Memory dump at ";; hex addr;; say " (";; dec size;; say_line " bytes):";;
  hexdump held addr size.

Definition cmd_peek (args : list Z) : cmd unit :=
  let addr := parse_hex args in
  say "Value at ";; hex addr;; say ": ";;
  v ← peek addr; hex v;;
  say " (";; v ← peek addr; dec v;; say_line ")".

Definition cmd_poke (args : list Z) : cmd unit :=
  let addr := parse_hex args in
  let args := skip_word args in
  if deref args =? SPACE then
    let value := parse_hex (drop 1 args) in
    poke addr value;;
    say "Wrote ";; hex value;; say " to ";; hex addr;; newline
  else say_line "Usage: poke ADDR VALUE".

(** The loop over the directory, up to ten tables present. *)
Fixpoint pagedir_loop (n : nat) (pd i count : Z) : cmd unit :=
  match n with
  | O => mret tt
  | Datatypes.S n =>
      e ← dir_entry pd i;
      if has e PAGE_PRESENT then
        say "  [";; dec i;; say "] -> ";; hex (Z.land e 4294963200);; say " (";;
        say (if has e PAGE_WRITE then "RW" else "RO")%string;;
        say (if has e PAGE_USER then ",U" else ",K")%string;;
        say ") VA: ";; hex (u32 (i * 4 * 1024 * 1024));; say "-";;
        hex (u32 ((i + 1) * 4 * 1024 * 1024 - 1));; newline;;
        (if 10 <=? count + 1 then
           say "  ... (";; total ← present_tables 1024 pd 0 0; dec total;; say_line " total)"
         else pagedir_loop n pd (i + 1) (count + 1))
      else pagedir_loop n pd (i + 1) count
  end.
Definition cmd_pagedir : cmd unit :=
  pd ← gets (fun w => paging_get_directory (machine_of w));
  say_line "=== Page Directory ===";;
  say "Address: ";; hex pd;; put [NEWLINE; NEWLINE];; say_line "Mapped page tables:";;
  pagedir_loop 1024 pd 0 0.

Definition cmd_idt : cmd unit :=
  d ← gets (fun w => idt_get_descriptor (descriptors w));
  enabled ← gets (fun w => interrupts_enabled (sigs (kern w)));
  say_line "=== IDT ===";;
  say "Base: ";; hex d.1;; newline;;
  say "Limit: ";; dec d.2;; say_line " bytes";;
  say "Interrupts: ";; say (if (enabled : bool) then "enabled" else "disabled")%string;; newline;;
  say_line "IRQ1 vector: 0x00000021";; say_line "System call vector: 0x00000080".

Definition cmd_signals : cmd unit :=
  pending ← (fun w => let '(n, g) := signal_pending_count (sigs (kern w)) in Ret (n, with_sigs g w));
  v ← gets (fun w => shell_sigs (shell w));
  say_line "=== Signals ===";;
  say "Pending: ";; dec pending;; newline;;
  say "Handled: ";; dec (shell_signal_count v);; newline;;
  say "Last signal: ";; dec (u32 (shell_last_signal v));; newline;;
  say "Last value: ";; hex (shell_last_signal_value v);; newline.

Definition on_sigs {A} (f : sig_state -> A * sig_state) : cmd A := fun w =>
  let '(a, g) := f (sigs (kern w)) in Ret (a, with_sigs g w).

Definition cmd_sigtest : cmd unit :=
  installed ← gets (fun w => shell_signal_handler_installed (shell w));
  (if negb installed then
     on_sigs (register_signal_handler KERNEL_SIGNAL_TEST shell_signal_handler_addr);; change_shell set_installed
   else mret tt);;
  say_line "Scheduling test signal...";;
  r ← on_sigs (schedule_signal KERNEL_SIGNAL_TEST 3235779124 0);
  if r =? 0 then dispatch_signals;; say_line "Signal delivery complete."
  else say_line "Signal queue is full.".

(** The frame of an interrupt the shell raises itself. *)
Definition raise_frame (vector a b c d s : Z) : cpu_registers :=
  Registers (gs cpu) (fs cpu) (es cpu) (ds cpu) (edi cpu) s (ebp cpu) (esp cpu) b d c a
    vector 0 (eip cpu) (cs cpu) (Idt.eflags cpu).

Definition cmd_syscall : cmd unit :=
  r ← interrupt (raise_frame SYSCALL_VECTOR SYSCALL_GET_MAGIC 0 0 0 0);
  say "syscall returned ";; hex (eax r);; newline.

(** *** Processes *)

Definition processes : cmd (pstate pmm) := gets (fun w => procs (kern w)).
Definition find_process (id : Z) : cmd Z := asks (fun w => process_get_by_pid id (procs (kern w))).

(** [while (process != NULL)]: no more than the slots of the table. *)
Fixpoint procs_loop (fuel : nat) (p : Z) : cmd unit :=
  match fuel with
  | O => stuck
  | Datatypes.S fuel =>
      if p =? NULLP then mret tt else
      shell_print_process_summary p;;
      s ← processes;
      procs_loop fuel (next (proc s p))
  end.

Definition cmd_procs : cmd unit :=
  s ← processes;
  ticks ← gets (fun w => timer_get_ticks (clock (kern w)));
  say_line "=== Process Table ===";;
  say "Total: ";; n ← asks (fun w => process_count (procs (kern w))); dec n;;
  say "  CPU ticks: ";; dec (scheduler_tick_count s);;
  say "  PIT ticks: ";; dec ticks;;
  say "  Context switches: ";; dec (process_context_switch_count s);; newline;;
  procs_loop walk_fuel (process_first s).

Definition cmd_execdemo : cmd unit :=
  first ← on_procs (process_spawn_demo_counter page_directories 1000 0 3);
  second ← on_procs (process_spawn_demo_counter page_directories 1001 10 13);
  if (first =? NULLP) || (second =? NULLP) then say_line "Failed to create demo processes" else
  s ← processes;
  change_shell (set_demo_pid (pid (proc s second)));;
  say "Created demo processes: ";; dec (pid (proc s first));; say ", ";; dec (pid (proc s second));; newline.

Definition cmd_sched (args : list Z) : cmd unit :=
  let ticks := parse_uint args in
  if ticks =? 0 then say_line "Usage: sched TICKS" else
  on_procs (fun s => s ← scheduler_force_ticks user_run user_handler ticks s; Ret (tt, s));;
  say "Scheduler ran ";; dec ticks;; say " ticks (total ";;
  s ← processes; dec (scheduler_tick_count s);; say_line ")".

Definition cmd_forkdemo (args : list Z) : cmd unit :=
  let args := skip_spaces args in
  demo ← gets (fun w => shell_last_demo_pid (shell w));
  let id := if negb (deref args =? 0) then parse_uint args else demo in
  source ← find_process id;
  if source =? NULLP then say_line "Usage: forkdemo PID" else
  child ← on_procs (fork_process page_directories source);
  if child =? NULLP then say_line "Fork failed" else
  s ← processes;
  say "Forked PID ";; dec id;; say " -> child PID ";; dec (pid (proc s child));; newline.

Definition cmd_waitproc (args : list Z) : cmd unit :=
  let id := parse_uint args in
  '(result, code) ← on_procs (fun s => process_wait (process_root s) id s);
  if result <? 0 then say_line "waitproc: invalid child pid"
  else if result =? 0 then say_line "waitproc: process still running"
  else say "wait collected PID ";; dec id;; say " exit=";; dec (u32 code);; newline.

Definition cmd_killproc (args : list Z) : cmd unit :=
  let id := parse_uint args in
  let args := skip_word args in
  let signal := if deref args =? SPACE then i32 (parse_uint (skip_spaces args)) else PROCESS_SIGNAL_TERM in
  r ← on_procs (fun s => kill_process (process_root s) id signal s);
  if r =? 0 then say "Queued signal ";; dec (u32 signal);; say " for PID ";; dec id;; newline
  else say_line "killproc failed".

Definition cmd_sigproc (args : list Z) : cmd unit :=
  let id := parse_uint args in
  let args := skip_word args in
  if negb (deref args =? SPACE) then say_line "Usage: sigproc PID SIG [VAL]" else
  let args := skip_spaces args in
  let signal := i32 (parse_uint args) in
  let args := skip_word args in
  let value := if deref args =? SPACE then parse_hex (skip_spaces args) else 0 in
  r ← on_procs (fun s => send_signal_to_process (process_root s) id signal value s);
  if r =? 0 then
    say "Queued process signal ";; dec (u32 signal);; say " for PID ";; dec id;; say " value=";; hex value;; newline
  else say_line "sigproc failed".

Definition cmd_getuid (args : list Z) : cmd unit :=
  let id := parse_uint args in
  p ← find_process id;
  if p =? NULLP then say_line "getuid: invalid pid" else
  s ← processes;
  say "PID ";; dec id;; say " owner=";; dec (process_getuid p s);; newline.

Definition cmd_mmapproc (args : list Z) : cmd unit :=
  let id := parse_uint args in
  let args := skip_word args in
  if negb (deref args =? SPACE) then say_line "Usage: mmapproc PID SIZE" else
  let args := skip_spaces args in
  p ← find_process id;
  if p =? NULLP then say_line "mmapproc: invalid pid" else
  mapped ← on_procs (fun s => Ret (process_mmap p (parse_uint args) s));
  if mapped =? 0 then say_line "mmapproc failed"
  else say "mmapproc mapped ";; hex mapped;; say " for PID ";; dec id;; newline.

Definition cmd_sockdemo : cmd unit :=
  '(r, sender_pid, receiver_pid) ← on_procs (process_spawn_demo_socket_pair page_directories 2000 2882343476);
  if negb (r =? 0) then say_line "Socket demo setup failed" else
  on_procs (fun s => s ← scheduler_force_ticks user_run user_handler 4 s; Ret (tt, s));;
  receiver ← find_process receiver_pid;
  s ← processes;
  say "Socket demo sender=";; dec sender_pid;; say " receiver=";; dec receiver_pid;; say " value=";;
  (if negb (receiver =? NULLP) then hex (last_socket_value (proc s receiver)) else say "0x00000000");; newline.

(** *** Tests of the memory *)

Definition TEST_VADDR : Z := 1073741824. (** 0x40000000 *)
Definition alloc_frame : cmd Z := on_frames pmm_alloc_frame.
Definition free_frame (addr : Z) : cmd unit := on_frames (fun p => (tt, pmm_free_frame p addr)).

Definition cmd_pagetest : cmd unit :=
  frame ← alloc_frame;
  if frame =? 0 then say_line "pagetest: FAIL (no free frames)" else
  say "pagetest: alloc frame=";; hex frame;; newline;;
  on_machine (paging_map_page TEST_VADDR frame PAGE_KERNEL);;
  say "pagetest: mapped VA=";; hex TEST_VADDR;; say " -> PA=";; hex frame;; newline;;
  store TEST_VADDR 3405660738;;
  say_line "pagetest: write 0xCAFE4242 OK";;
  readback ← load TEST_VADDR;
  say "pagetest: read ";; hex readback;;
  (if readback =? 3405660738 then say_line " OK";; say_line "pagetest: match OK" else say_line " FAIL");;
  on_machine (paging_unmap_page TEST_VADDR);;
  say "pagetest: unmapped VA=";; hex TEST_VADDR;; newline;;
  free_frame frame;;
  say_line "pagetest: freed frame";;
  say_line (if readback =? 3405660738 then "pagetest: PASS" else "pagetest: FAIL").

(** One of the three blocks of [pageperm]: map with [flags], read the entry of
    the table back, report. *)
Definition bit_set (pte flag : Z) : Z := if has pte flag then 1 else 0.
Definition perm_case (name : string) (frame flags p w u : Z) : cmd bool :=
  on_machine (paging_map_page TEST_VADDR frame flags);;
  pd ← gets (fun w => paging_get_directory (machine_of w));
  pde ← dir_entry pd (PAGE_DIR_INDEX TEST_VADDR);
  pte ← load (u32 (PAGE_FRAME pde + 4 * PAGE_TABLE_INDEX TEST_VADDR));
  say "pageperm: ";; say name;; say " -> P=";; dec (bit_set pte PAGE_PRESENT);;
  say " W=";; dec (bit_set pte PAGE_WRITE);; say " U=";; dec (bit_set pte PAGE_USER);;
  if (bit_set pte PAGE_PRESENT =? p) && (bit_set pte PAGE_WRITE =? w) && (bit_set pte PAGE_USER =? u)
  then say_line " OK";; mret true else say_line " FAIL";; mret false.

Definition PAGE_USER_RO : Z := Z.lor PAGE_PRESENT PAGE_USER.
Definition cmd_pageperm : cmd unit :=
  frame ← alloc_frame;
  if frame =? 0 then say_line "pageperm: FAIL (no free frames)" else
  pass1 ← perm_case "KERNEL" frame PAGE_KERNEL 1 1 0;
  pass2 ← perm_case "USER_RO" frame PAGE_USER_RO 1 0 1;
  pass3 ← perm_case "USER_RW" frame PAGE_USER_RW 1 1 1;
  on_machine (paging_unmap_page TEST_VADDR);;
  free_frame frame;;
  say_line (if pass1 && pass2 && pass3 then "pageperm: PASS" else "pageperm: FAIL").

Definition free_frames : cmd Z := gets (fun w => st_free_frames (pmm_get_stats (frames_of w))).

(** The difference of two counts, with its sign. *)
Definition delta_text (delta : Z) : cmd unit :=
  if delta <? 0 then say "-";; dec (u32 (- delta)) else dec (u32 delta).

Definition cmd_pmmtest : cmd unit :=
  initial_free ← free_frames;
  say "pmmtest: initial free=";; dec initial_free;; newline;;
  f1 ← alloc_frame; f2 ← alloc_frame; f3 ← alloc_frame;
  if (f1 =? 0) || (f2 =? 0) || (f3 =? 0) then say_line "pmmtest: FAIL (alloc returned 0)" else
  now_free ← free_frames;
  let delta := i32 now_free - i32 initial_free in
  say "pmmtest: alloc 3 frames OK (free=";; dec now_free;; say_line ")";;
  say "pmmtest: delta=";; delta_text delta;;
  say_line (if delta =? -3 then " OK" else " FAIL");;
  free_frame f1;; free_frame f2;; free_frame f3;;
  after ← free_frames;
  say "pmmtest: freed 3 frames (free=";; dec after;; say_line ")";;
  say_line (if after =? initial_free then "pmmtest: restored OK" else "pmmtest: restored FAIL");;
  contig ← on_frames (fun p => pmm_alloc_frames p 4);
  contig_ok ← (if contig =? 0 then say_line "pmmtest: contiguous alloc FAIL";; mret false else
    say "pmmtest: contiguous alloc 4 at ";; hex contig;; say_line " OK";;
    on_frames (fun p => (tt, pmm_free_frames p contig 4));;
    last ← free_frames;
    say "pmmtest: contiguous free OK (free=";; dec last;; say_line ")";;
    mret (last =? initial_free));
  say_line (if (delta =? -3) && (after =? initial_free) && (contig_ok : bool) then "pmmtest: PASS" else "pmmtest: FAIL").

Definition check_page (name : string) (addr value : Z) : cmd bool :=
  v ← load addr;
  say "vmtest: read ";; say name;;
  say_line (if v =? value then " OK" else " FAIL");;
  mret (v =? value).

Definition cmd_vmtest : cmd unit :=
  region ← vmalloc 8192;
  if region =? 0 then say_line "vmtest: FAIL (vmalloc returned NULL)" else
  let p1 := u32 (region + 4096) in
  say "vmtest: vmalloc 8192 at ";; hex region;; newline;;
  store region 3735879681;;
  say_line "vmtest: write page0 OK";;
  store p1 3735879682;;
  say_line "vmtest: write page1 OK";;
  pass0 ← check_page "page0" region 3735879681;
  pass1 ← check_page "page1" p1 3735879682;
  vfree region;;
  say_line "vmtest: vfree OK";;
  say_line (if pass0 && pass1 then "vmtest: PASS" else "vmtest: FAIL").

Definition cmd_heaptest : cmd unit :=
  a ← kmalloc 64; b ← kmalloc 128; c ← kmalloc 64;
  say "heaptest: alloc A=64 at ";; hex a;;
  newline;; say "heaptest: alloc B=128 at ";; hex b;;
  newline;; say "heaptest: alloc C=64 at ";; hex c;; newline;;
  kfree b;;
  say_line "heaptest: free B OK";;
  d ← kmalloc 64;
  let reuse := (b <=? d) && (d <? u32 (b + 128)) in
  say "heaptest: alloc D=64 at ";; hex d;; say " (reuse=";; say (if reuse then "YES" else "NO")%string;; say_line ")";;
  kfree a;; say_line "heaptest: free A OK";;
  kfree c;; say_line "heaptest: free C OK";;
  kfree d;; say_line "heaptest: free D OK";;
  stats ← asks (fun w => kmalloc_get_stats (heap_of w));
  say "heaptest: allocs=";; dec (ks_num_allocations stats);;
  say_line (if ks_num_allocations stats =? 0 then " OK" else " FAIL");;
  say_line (if ks_num_allocations stats =? 0 then "heaptest: PASS" else "heaptest: FAIL").

(** *** Exceptions *)

Definition set_handler (vector : Z) (h : option interrupt_handler) : cmd unit :=
  modify (fun w => with_descriptors (match h with
    | Some _ => idt_register_handler vector h (descriptors w)
    | None => idt_unregister_handler vector (descriptors w) end) w).

(** The instruction at [eip cpu] raises [vector]: the code goes on after its two
    bytes, or raises it again. *)
Definition faulting_instruction (vector a b c d s : Z) : cmd unit :=
  r ← interrupt (raise_frame vector a b c d s);
  if eip r =? u32 (eip cpu + 2) then mret tt else stuck.

(** The commands [div0] and [invop]. *)
Definition exception_command (name what : string) (trigger : string) (vector : Z) (h : interrupt_handler)
    (instruction : cmd unit) : cmd unit :=
  change_shell (fun v => set_caught false (exception_test_vector v) (exception_test_eip v) v);;
  say name;; say_line ": installing handler";;
  set_handler vector (Some h);;
  say name;; say_line trigger;;
  instruction;;
  set_handler vector None;;
  v ← gets shell;
  if exception_test_caught v then
    say name;; say ": caught exception ";; dec (exception_test_vector v);;
    say what;; hex (exception_test_eip v);; newline;; say name;; say_line ": PASS"
  else say name;; say_line ": FAIL (exception not caught)".

Definition cmd_div0 : cmd unit :=
  exception_command "div0" " (Division by zero) at EIP=" ": triggering division by zero" 0 div0_test_handler
    (faulting_instruction 0 1 (ebx cpu) 0 0 (esi cpu)).
Definition cmd_invop : cmd unit :=
  exception_command "invop" " (Invalid opcode) at EIP=" ": triggering invalid opcode" 6 invop_test_handler
    (faulting_instruction 6 (eax cpu) (ebx cpu) (ecx cpu) (edx cpu) (esi cpu)).

Definition cmd_segreg : cmd unit :=
  say "CS=";; hex (cs_ segs);; say " DS=";; hex (ds_ segs);; say " ES=";; hex (es_ segs);;
  say " FS=";; hex (fs_ segs);; say " GS=";; hex (gs_ segs);; say " SS=";; hex (ss_ segs);; newline.

Definition cmd_int3 : cmd unit :=
  say_line "Triggering breakpoint exception...";;
  interrupt (raise_frame 3 (eax cpu) (ebx cpu) (ecx cpu) (edx cpu) (esi cpu));; mret tt.

(** The machine goes on until the controller resets it. *)
Definition cmd_reboot : cmd unit := say_line "Rebooting...";; io (fun t => Ret (tt, outb 100 254 t)).

(** ** The chain of comparisons: [false] leaves the shell *)

Definition equals (buffer : list Z) (name : string) : bool := strcmp buffer (text name) =? 0.
Definition starts (buffer : list Z) (name : string) (n : nat) : bool := strncmp buffer (text name) n =? 0.
Definition stay (c : cmd unit) : cmd bool := c;; mret true.

Definition shell_execute (buffer : list Z) : cmd bool :=
  if equals buffer "help" then stay cmd_help
  else if starts buffer "echo " 5 then stay (cmd_echo (drop 5 buffer))
  else if equals buffer "clear" then stay cmd_clear
  else if equals buffer "ls" then stay cmd_ls
  else if equals buffer "meminfo" then stay cmd_meminfo
  else if starts buffer "alloc " 6 then stay (cmd_alloc (drop 6 buffer))
  else if equals buffer "free" then stay cmd_free
  else if equals buffer "kheap" then stay cmd_kheap
  else if equals buffer "vmap" then stay cmd_vmap
  else if equals buffer "panic" then stay cmd_panic
  else if starts buffer "hexdump " 8 then stay (cmd_hexdump (drop 8 buffer))
  else if starts buffer "peek " 5 then stay (cmd_peek (drop 5 buffer))
  else if starts buffer "poke " 5 then stay (cmd_poke (drop 5 buffer))
  else if equals buffer "stack" then stay shell_dump_stack
  else if equals buffer "pagedir" then stay cmd_pagedir
  else if equals buffer "idt" then stay cmd_idt
  else if equals buffer "signals" then stay cmd_signals
  else if equals buffer "sigtest" then stay cmd_sigtest
  else if equals buffer "syscall" then stay cmd_syscall
  else if equals buffer "procs" then stay cmd_procs
  else if equals buffer "execdemo" then stay cmd_execdemo
  else if starts buffer "sched " 6 then stay (cmd_sched (drop 6 buffer))
  else if starts buffer "forkdemo" 8 then stay (cmd_forkdemo (drop 8 buffer))
  else if starts buffer "waitproc " 9 then stay (cmd_waitproc (drop 9 buffer))
  else if starts buffer "killproc " 9 then stay (cmd_killproc (drop 9 buffer))
  else if starts buffer "sigproc " 8 then stay (cmd_sigproc (drop 8 buffer))
  else if starts buffer "getuid " 7 then stay (cmd_getuid (drop 7 buffer))
  else if starts buffer "mmapproc " 9 then stay (cmd_mmapproc (drop 9 buffer))
  else if equals buffer "sockdemo" then stay cmd_sockdemo
  else if equals buffer "pagetest" then stay cmd_pagetest
  else if equals buffer "pageperm" then stay cmd_pageperm
  else if equals buffer "pmmtest" then stay cmd_pmmtest
  else if equals buffer "vmtest" then stay cmd_vmtest
  else if equals buffer "heaptest" then stay cmd_heaptest
  else if equals buffer "div0" then stay cmd_div0
  else if equals buffer "invop" then stay cmd_invop
  else if equals buffer "segreg" then stay cmd_segreg
  else if equals buffer "int3" then stay cmd_int3
  else if equals buffer "reboot" then stay cmd_reboot
  else if equals buffer "exit" then say_line "Exiting shell...";; mret false
  else if negb (deref buffer =? 0) then stay (say_line "Command not found. Type 'help' for commands.")
  else mret true.

(** One turn of the outer loop: [false] after [exit]. *)
Definition shell_turn (arrivals : list arrival) (buffer : list Z) : cmd (bool * list Z * list arrival) :=
  say "shell> ";;
  '(buffer, arrivals) ← read_line (Datatypes.S (length arrivals)) arrivals 0 buffer;
  more ← shell_execute buffer;
  if (more : bool) then run_pending 2;; mret (true, buffer, arrivals) else mret (false, buffer, arrivals).

Fixpoint shell_loop (fuel : nat) (arrivals : list arrival) (buffer : list Z) : cmd unit :=
  match fuel with
  | O => stuck
  | Datatypes.S fuel =>
      '(more, buffer, arrivals) ← shell_turn arrivals buffer;
      if (more : bool) then shell_loop fuel arrivals buffer else mret tt
  end.

(** [buffer]: what the stack holds where the array is. *)
Definition shell_run (arrivals : list arrival) (buffer : list Z) : cmd unit :=
  shell_loop (Datatypes.S (length arrivals)) arrivals buffer.
End shell.
