(* ===== verification/Runs.v ===== *)
(** * What programs over the kernel print and do

    [runs c w out a w']: from [w], on any screen, the program [c] prints [out],
    returns [a] and leaves [w'] but for the screen.  The rules follow the
    constructs of the monad, so that the effect of a command is computed from the
    effects of its parts. *)

From S2P Require Import Prelude Interfaces Memory HeapInterface Pmm Kmalloc Heap Ring Chain Signals Keyboard Paging Process ProcessTable Serial Idt Gdt Syscall Timer Interrupts Terminal Text Panic Vmalloc HeapDump World Shell.

Section runs.
Context (device : trace -> Z -> Z) (polls : nat) (serial_enabled : Z).
Implicit Types (w : world) (out : list Z).

Definition runs {A} (c : cmd A) w out (a : A) w' : Prop := 0 ∉ out /\
  forall t, c (with_screen t w) =
    (t ← terminal_write device polls serial_enabled out t; Ret (a, with_screen t w')).

Lemma terminal_write_app out1 out2 t : 0 ∉ out1 ->
  terminal_write device polls serial_enabled (out1 ++ out2) t =
    (t ← terminal_write device polls serial_enabled out1 t; terminal_write device polls serial_enabled out2 t).
Proof.
  revert t. induction out1 as [|c out1 IH]; intros t H; [done|]. apply not_elem_of_cons in H as [Hc H].
  cbn [app terminal_write]. rewrite eqb_sym_neg by done.
  destruct (terminal_putchar _ _ _ c t) as [t1| |]; cbn [mbind outcome_bind]; [by apply IH|done|done].
Qed.

(** *** The rules *)

Lemma runs_ret {A} (a : A) w : runs (mret a) w [] a w.
Proof. split; [by apply not_elem_of_nil|done]. Qed.

Lemma runs_bind {A B} (c : cmd A) (f : A -> cmd B) w out1 a w1 out2 b w2 :
  runs c w out1 a w1 -> runs (f a) w1 out2 b w2 -> runs (c ≫= f) w (out1 ++ out2) b w2.
Proof.
  intros [N1 H1] [N2 H2]. split; [rewrite elem_of_app; tauto|]. intros t. unfold mbind at 1, cmd_bind. rewrite H1.
  rewrite terminal_write_app by done. destruct (terminal_write _ _ _ out1 t) as [t1| |]; cbn [mbind outcome_bind]; [|done|done].
  apply H2.
Qed.

Lemma runs_put out w : 0 ∉ out -> runs (put device polls serial_enabled out) w out tt w.
Proof. intros H. split; [done|]. intros t. unfold put. cbn [screen with_screen]. by destruct (terminal_write _ _ _ out t). Qed.

Lemma runs_gets {A} (f : world -> A) w : (forall t, f (with_screen t w) = f w) -> runs (gets f) w [] (f w) w.
Proof. intros H. split; [by apply not_elem_of_nil|]. intros t. unfold gets. by rewrite H. Qed.

Lemma runs_modify (f : world -> world) w : (forall t, f (with_screen t w) = with_screen t (f w)) ->
  runs (modify f) w [] tt (f w).
Proof. intros H. split; [by apply not_elem_of_nil|]. intros t. unfold modify. by rewrite H. Qed.

Lemma runs_asks {A} (f : world -> outcome A) w a : (forall t, f (with_screen t w) = f w) -> f w = Ret a ->
  runs (asks f) w [] a w.
Proof. intros H E. split; [by apply not_elem_of_nil|]. intros t. unfold asks. by rewrite H, E. Qed.

Lemma runs_on_procs {A} (f : pstate pmm -> outcome (A * pstate pmm)) w a s : f (procs (kern w)) = Ret (a, s) ->
  runs (on_procs f) w [] a (with_procs s w).
Proof. intros E. split; [by apply not_elem_of_nil|]. intros t. unfold on_procs. cbn [kern with_screen]. by rewrite E. Qed.

Lemma runs_on_machine f w m : f (machine_of w) = Ret m -> runs (on_machine f) w [] tt (with_mach m w).
Proof. intros E. split; [by apply not_elem_of_nil|]. intros t. unfold on_machine. change (machine_of (with_screen t w)) with (machine_of w). by rewrite E. Qed.

Lemma runs_on_frames {A} (f : pmm -> A * pmm) w a p : f (frames (machine_of w)) = (a, p) ->
  runs (on_frames f) w [] a (with_mach (with_frames p (machine_of w)) w).
Proof. intros E. split; [by apply not_elem_of_nil|]. intros t. unfold on_frames. change (machine_of (with_screen t w)) with (machine_of w). by rewrite E. Qed.

Lemma runs_eq {A} (c : cmd A) w out1 out2 a w' : runs c w out1 a w' -> out1 = out2 -> runs c w out2 a w'.
Proof. by intros H <-. Qed.
End runs.

(** *** Texts without a zero *)

Lemma nonzero_dec (l : list Z) : forallb (fun c => negb (c =? 0)) l = true -> 0 ∉ l.
Proof.
  induction l as [|c l IH]; intros H; [by apply not_elem_of_nil|]. cbn in H. apply andb_true_iff in H as [Hc H].
  apply not_elem_of_cons. split; [by destruct (Z.eqb_spec c 0)|by apply IH].
Qed.
Lemma nonzero_app (a b : list Z) : 0 ∉ a -> 0 ∉ b -> 0 ∉ a ++ b.
Proof. rewrite elem_of_app. tauto. Qed.
Lemma cstr_nonzero s : 0 ∉ cstr s.
Proof.
  induction s as [|c s IH]; [by apply not_elem_of_nil|]. cbn [cstr]. destruct (Z.eqb_spec c 0); [by apply not_elem_of_nil|].
  by apply not_elem_of_cons.
Qed.
Lemma hex_nonzero num : 0 ∉ shell_print_hex num.
Proof. apply nonzero_app; [by apply nonzero_dec|apply cstr_nonzero]. Qed.
Lemma dec_nonzero num : 0 ∉ shell_print_dec num.
Proof.
  unfold shell_print_dec. destruct (num =? 0); [by apply nonzero_dec|]. destruct (dec_loop _ _ _) as [n buf]. apply cstr_nonzero.
Qed.

Ltac nonzero := repeat first [apply hex_nonzero | apply dec_nonzero | apply nonzero_app | by apply nonzero_dec | assumption].

(** *** The commands of World.v and Shell.v *)

(** A word of one page, at an address that no translation of it goes through. *)
Definition page_word (m : machine pmm) (a p v : Z) : Prop :=
  a mod 4096 <= 4092 /\ translate m a = Some p /\ translate (with_pmem (store32 (pmem m) p v) m) a = Some p.

Lemma page_word_store m a p v : page_word m a p v -> is_u32 v ->
  store_word a v m = Ret (with_pmem (store32 (pmem m) p v) m) /\
  load_word (with_pmem (store32 (pmem m) p v) m) a = Ret v.
Proof.
  intros (Ha & Ht & Ht') Hv. unfold store_word, load_word, vstore32, vload32.
  destruct (Z.leb_spec (a mod 4096) 4092); [|lia]. rewrite Ht, Ht'. split; [done|]. cbn [pmem with_pmem].
  rewrite load32_store32_eq. by rewrite u32_id.
Qed.

(** *** Any address *)

(** The four bytes of a word are in different places, off the screen and none that
    the records hold, and no translation of the word goes through them. *)
Definition store_bytes (m : mem) (ps vs : list Z) : mem := foldl (fun m pb => store8 m pb.1 pb.2) m (zip ps vs).
Definition plain_word (held : Z -> bool) (m : machine pmm) (a : Z) (ps : list Z) (v : Z) : Prop :=
  word_places m a = Some ps /\ NoDup ps /\ Forall (fun p => screen_byte p = false /\ held p = false) ps /\
  word_places (with_pmem (store_bytes (pmem m) ps (word_bytes v)) m) a = Some ps.

Lemma word_places_four m a ps : word_places m a = Some ps -> exists p0 p1 p2 p3, ps = [p0; p1; p2; p3].
Proof.
  unfold word_places. intros H%mapM_Some_1%Forall2_length. cbn [length] in H. destruct ps as [|p0 [|p1 [|p2 [|p3 []]]]]; try done. by exists p0, p1, p2, p3.
Qed.

Lemma stored_word m ps v p0 p1 p2 p3 : ps = [p0; p1; p2; p3] -> NoDup ps -> is_u32 v ->
  bytes_word (load8 (store_bytes m ps (word_bytes v)) <$> ps) = v.
Proof.
  intros -> H Hv. rewrite !NoDup_cons, !not_elem_of_cons in H. destruct H as ((H01 & H02 & H03 & _) & (H12 & H13 & _) & (H23 & _) & _).
  unfold store_bytes, word_bytes, bytes_word. cbn [fmap list_fmap zip zip_with foldl foldr fst snd]. rewrite !load8_store8, !Z.eqb_refl.
  rewrite !(proj2 (Z.eqb_neq _ _)) by done. unfold u8, is_u32 in *. rewrite !Z.shiftr_div_pow2 by lia.
  change (2 ^ (8 * 0)) with 1. change (2 ^ (8 * 1)) with 256. change (2 ^ (8 * 2)) with 65536. change (2 ^ (8 * 3)) with 16777216.
  rewrite !Z.mod_mod by lia. divlia.
Qed.

Lemma none_held (held off : Z -> bool) ps : Forall (fun p => off p = false /\ held p = false) ps -> existsb held ps = false.
Proof. induction 1 as [|p ps [_ E] _ IH]; [done|]. cbn [existsb]. by rewrite E. Qed.

Lemma put_bytes ps : forall vs w, Forall (fun p => screen_byte p = false) ps ->
  foldl (fun w pb => put_byte pb.1 pb.2 w) w (zip ps vs) = with_mach (with_pmem (store_bytes (pmem (machine_of w)) ps vs) (machine_of w)) w.
Proof.
  induction ps as [|p ps IH]; intros vs w H; [by destruct w as [[[? ? ? ? ? ? ? ? ? ? []]] ]|].
  destruct vs as [|v vs]; [by destruct w as [[[? ? ? ? ? ? ? ? ? ? []]] ]|]. apply Forall_cons in H as [Hp H].
  cbn [zip zip_with foldl fst snd]. unfold put_byte at 2. rewrite Hp. by rewrite IH.
Qed.

Section prims.
Context (device : trace -> Z -> Z) (polls : nat) (serial_enabled : Z).
Implicit Types (w : world).
#[local] Abbreviation runs := (runs device polls serial_enabled).

Lemma runs_say s w : 0 ∉ text s -> runs (say device polls serial_enabled s) w (text s) tt w.
Proof. apply runs_put. Qed.
Lemma runs_say_line s w : 0 ∉ text s -> runs (say_line device polls serial_enabled s) w (text s ++ [NEWLINE]) tt w.
Proof. intros H. apply runs_put. nonzero. Qed.
Lemma runs_hex num w : runs (hex device polls serial_enabled num) w (shell_print_hex num) tt w.
Proof. apply runs_put. nonzero. Qed.
Lemma runs_dec num w : runs (dec device polls serial_enabled num) w (shell_print_dec num) tt w.
Proof. apply runs_put. nonzero. Qed.
Lemma runs_newline w : runs (newline device polls serial_enabled) w [NEWLINE] tt w.
Proof. apply runs_put. nonzero. Qed.

Lemma runs_load a w v : load_word (machine_of w) a = Ret v -> runs (load a) w [] v w.
Proof. intros E. by apply (runs_asks device polls serial_enabled (fun w => load_word (machine_of w) a)). Qed.
Lemma runs_store a v w m : store_word a v (machine_of w) = Ret m -> runs (store a v) w [] tt (with_mach m w).
Proof. intros E. by apply runs_on_machine. Qed.
Lemma runs_poke held a ps v w : plain_word held (machine_of w) a ps v ->
  runs (poke held a v) w [] tt (with_mach (with_pmem (store_bytes (pmem (machine_of w)) ps (word_bytes v)) (machine_of w)) w).
Proof.
  intros (E & _ & H & _). split; [by apply not_elem_of_nil|]. intros t. unfold poke. change (machine_of (with_screen t w)) with (machine_of w).
  rewrite E, (none_held held screen_byte) by done. cbn [terminal_write mbind outcome_bind].
  rewrite put_bytes by by eapply Forall_impl; [exact H|intros p []]. done.
Qed.
Lemma runs_peek held a ps w : word_places (machine_of w) a = Some ps -> Forall (fun p => screen_byte p = false /\ held p = false) ps ->
  runs (peek held a) w [] (bytes_word (load8 (pmem (machine_of w)) <$> ps)) w.
Proof.
  intros E H. split; [by apply not_elem_of_nil|]. intros t. unfold peek, asks. change (machine_of (with_screen t w)) with (machine_of w).
  rewrite E, (none_held held screen_byte) by done. cbn [terminal_write mbind outcome_bind].
  assert (see_byte (with_screen t w) <$> ps = load8 (pmem (machine_of w)) <$> ps) as ->; [|done].
  apply list_fmap_ext. intros k p Hk. unfold see_byte. by rewrite (proj1 (Forall_lookup_1 _ _ _ _ H Hk)).
Qed.

(** After a [poke]. *)
Lemma runs_poked held a ps v w : is_u32 v -> plain_word held (machine_of w) a ps v ->
  let w' := with_mach (with_pmem (store_bytes (pmem (machine_of w)) ps (word_bytes v)) (machine_of w)) w in
  runs (peek held a) w' [] v w'.
Proof.
  intros Hv (E0 & Hnd & H & E) w'. destruct (word_places_four _ _ _ E0) as (p0 & p1 & p2 & p3 & Eps).
  pose proof (runs_peek held a ps w' E H) as Hr.
  change (pmem (machine_of w')) with (store_bytes (pmem (machine_of w)) ps (word_bytes v)) in Hr.
  by rewrite (stored_word _ ps v p0 p1 p2 p3 Eps Hnd Hv) in Hr.
Qed.

Lemma runs_stay c w out w' : runs c w out tt w' -> runs (stay c) w out true w'.
Proof. intros H. eapply runs_eq; [eapply runs_bind; [exact H|apply runs_ret]|apply app_nil_r]. Qed.
End prims.

(** Computes the effect of a program, part by part; what is left are the
    conditions of the operations of the components. *)
Ltac run_one :=
  first [ lazymatch goal with |- _ (_ ≫= _) _ _ _ _ => eapply runs_bind end | apply runs_ret | apply runs_say_line; [by apply nonzero_dec] | apply runs_say; [by apply nonzero_dec]
        | apply runs_hex | apply runs_dec | apply runs_newline | apply runs_stay ].
Ltac run := repeat run_one.

(** ** A concrete kernel: four processes, nothing typed, no handler and no signal
    pending, over a machine and an allocator to be given *)

Definition quiet_world (m : machine pmm) (v : vmstate kheap) : world :=
  World (Kernel (demo_state m) boot_kbd boot_signals (PitState 0 0) (replicate 8 syscall_not_implemented)) v
    (Idt [] 0 0 (replicate 256 None))
    (terminal_initialize (Term (replicate 16000 0) (replicate 2000 0) 0 0 0 0 []))
    (ShellVars 0 0 false {| shell_last_signal := 0; shell_last_signal_value := 0; shell_signal_count := 0 |} 0 false 0 0).

Definition quiet_registers : cpu_registers := Registers 16 16 16 16 0 0 0 589824 0 0 0 0 0 0 1048576 8 512.
Definition no_device (t : trace) (port : Z) : Z := 0.
Definition no_syscall (number a b c d : Z) (s : pstate pmm) : outcome (Z * pstate pmm) := Ret (FAILED, s).
Definition no_handler (h : Z) (r : cpu_registers) (t : trace) (k : kernel pmm) := Ret (r, t, k).
Definition no_run (a b : Z) (s : pstate pmm) : outcome (pstate pmm) := Ret s.
Definition no_user_handler (a b c d : Z) (s : pstate pmm) : pstate pmm := s.
