(* ===== verification/Prints.v ===== *)
(** * What programs print on the screen and on the serial line

    [prints c w out a w']: with the serial line on, as [serial_init] leaves it, the
    program [c] returns [a] from [w] and leaves [w'], and [out] is what it has
    shown: on the screen exactly what printing it does, and on the line the bytes
    of it, in order.  Unlike [runs] (Runs.v) the port accesses in between are left
    open, so that a program may also ask the line for input.  A program that
    [runs] also [prints], on a line that takes the characters in time. *)

From S2P Require Import Prelude Interfaces Memory HeapInterface Pmm Kmalloc Heap Ring Chain Signals Keyboard Paging Process Serial Idt Gdt Syscall Timer Interrupts Terminal Text Panic Vmalloc HeapDump World Shell Runs.

(** ** The screen without the ports *)

Definition face (t : terminal) : terminal := with_ports [] t.

Lemma face_with_ports p t : face (with_ports p t) = face t.
Proof. done. Qed.

(** Where only the ports differ, they still do after an operation. *)
Definition same_face (t u : terminal) : Prop := face t = face u.

Lemma same_face_ports t u : same_face t u -> exists p, t = with_ports p u.
Proof. intros E. exists (ports t). destruct t, u. unfold same_face, face, with_ports in E. by injection E as -> -> -> -> -> ->. Qed.

Lemma face_refresh p t : face (terminal_refresh_display (with_ports p t)) = face (terminal_refresh_display t).
Proof. done. Qed.

Lemma face_putchar_at p c color x y t :
  face (terminal_putchar_at c color x y (with_ports p t)) = face (terminal_putchar_at c color x y t).
Proof.
  unfold terminal_putchar_at. cbn [scroll_offset with_buffer with_ports]. destruct (scroll_offset t =? 0); [|done].
  change (display_start (with_buffer _ (with_ports p t))) with (display_start t).
  change (display_start (with_buffer _ t)) with (display_start t). by destruct (_ && _).
Qed.

Lemma scroll_buffer_ports p t : terminal_scroll_buffer (with_ports p t) = with_ports p (terminal_scroll_buffer t).
Proof.
  assert (forall b c, with_cursor 199 c (with_buffer b (with_ports p t)) = with_ports p (with_cursor 199 c (with_buffer b t))) as H by done.
  assert (blank (with_ports p t) = blank t) as E1 by done. assert (scroll_buffer (with_ports p t) = scroll_buffer t) as E2 by done.
  unfold terminal_scroll_buffer. rewrite E1, E2. apply H.
Qed.

Lemma vga_scroll_ports p t : vga_scroll (with_ports p t) = with_ports p (vga_scroll t).
Proof.
  assert (forall v, with_vga v (with_ports p t) = with_ports p (with_vga v t)) as H by done.
  assert (blank (with_ports p t) = blank t) as E1 by done. assert (VGA_MEMORY (with_ports p t) = VGA_MEMORY t) as E2 by done.
  unfold vga_scroll. rewrite E1, E2. apply H.
Qed.

Lemma face_next_line p t : face (terminal_next_line (with_ports p t)) = face (terminal_next_line t).
Proof.
  assert (with_cursor (terminal_row t + 1) 0 (with_ports p t) = with_ports p (with_cursor (terminal_row t + 1) 0 t)) as E by done.
  unfold terminal_next_line. change (terminal_row (with_ports p t)) with (terminal_row t). rewrite E.
  generalize (with_cursor (terminal_row t + 1) 0 t). intros u.
  change (terminal_row (with_ports p u)) with (terminal_row u). change (display_start (with_ports p u)) with (display_start u).
  change (display_start (with_ports p t)) with (display_start t). rewrite scroll_buffer_ports, vga_scroll_ports.
  destruct (_ =? SCROLLBACK_LINES); [apply face_refresh|]. by destruct (negb _).
Qed.

Lemma face_update_cursor t : face (update_cursor t) = face t.
Proof. done. Qed.

(** An operation that only appends to the ports. *)
Lemma face_of (f : terminal -> terminal) : (forall p t, face (f (with_ports p t)) = face (f t)) ->
  forall t u, same_face t u -> same_face (f t) (f u).
Proof. intros H t u E. destruct (same_face_ports t u E) as (p & ->). apply H. Qed.

Lemma face_screen_putchar p c t : face (screen_putchar c (with_ports p t)) = face (screen_putchar c t).
Proof.
  assert (same_face (snap_back (with_ports p t)) (snap_back t)) as E.
  { unfold snap_back. cbn [scroll_offset with_ports]. by destruct (negb _). }
  unfold screen_putchar. destruct (same_face_ports _ _ E) as (q & ->). generalize (snap_back t). clear. intros t.
  unfold screen_print. cbn [terminal_column terminal_row terminal_color with_ports].
  destruct (c =? BACKSPACE); [|destruct (c =? NEWLINE)]; rewrite !face_update_cursor.
  - destruct (0 <? terminal_column t); [exact (face_putchar_at q _ _ _ _ (with_cursor _ _ t))|].
    destruct (0 <? terminal_row t); [exact (face_putchar_at q _ _ _ _ (with_cursor _ _ t))|apply (face_putchar_at q)].
  - apply face_next_line.
  - set (u1 := terminal_putchar_at _ _ _ _ (with_ports q t)). set (u2 := terminal_putchar_at _ _ _ _ t).
    assert (same_face u1 u2) as Eu by apply face_putchar_at. destruct (same_face_ports _ _ Eu) as (r & ->). clearbody u2.
    cbn [terminal_column terminal_row with_cursor with_ports]. destruct (_ =? VGA_WIDTH); [|done].
    exact (face_next_line r (with_cursor _ _ u2)).
Qed.

(** ** What has been shown *)

Definition screen_text (out : list Z) (t : terminal) : terminal := foldl (fun t c => face (screen_putchar c t)) (face t) out.
Definition line_text (out : list Z) : list Z := u8 <$> concat (on_line <$> out).

Record shown (t : terminal) (out : list Z) (t' : terminal) : Prop := {
  sn_line : sane (ports t');
  sn_screen : face t' = screen_text out t;
  sn_sent : sent (line_of (ports t')) = sent (line_of (ports t)) ++ line_text out;
}.

Lemma shown_nothing t p : sane p -> sent (line_of p) = sent (line_of (ports t)) -> shown t [] (with_ports p t).
Proof. intros Hs E. split; [done|done|]. cbn [ports with_ports]. by rewrite E, app_nil_r. Qed.

Lemma shown_app t out1 t1 out2 t2 : shown t out1 t1 -> shown t1 out2 t2 -> shown t (out1 ++ out2) t2.
Proof.
  intros [_ F1 S1] [Hs F2 S2]. split; [done| |].
  - rewrite F2. unfold screen_text in *. by rewrite foldl_app, <- F1.
  - rewrite S2, S1. unfold line_text. by rewrite fmap_app, concat_app, fmap_app, app_assoc.
Qed.

Section prints.
Context (device : trace -> Z -> Z) (polls : nat) (serial_enabled : Z).
Context (Hr : responsive device polls) (He : serial_enabled <> 0).
Implicit Types (w : world) (t : terminal) (out : list Z).
#[local] Abbreviation runs := (runs device polls serial_enabled).

Lemma write_char_sent c p : sane p -> exists p', serial_write_char device polls serial_enabled c p = Ret p' /\ sane p' /\
  sent (line_of p') = sent (line_of p) ++ (u8 <$> on_line c).
Proof.
  intros Hs. destruct (decide (c = NEWLINE \/ c = BACKSPACE)) as [Hc|Hc].
  - destruct (serial_write_char_spec device polls serial_enabled c p Hr Hs He) as (p' & E & Hs' & Es);
      [unfold is_u8, NEWLINE, BACKSPACE in *; lia|]. exists p'. split; [done|]. split; [done|]. rewrite Es. by destruct Hc as [-> | ->].
  - destruct (transmit_spec device polls (u8 c) p Hr Hs) as (p' & E & Hs' & Es); [by apply u8_range|]. exists p'.
    unfold serial_write_char, on_line. rewrite !eqb_sym_neg by (done || (intros ->; apply Hc; auto)). by split.
Qed.

Lemma putchar_shown c t : sane (ports t) -> exists t', terminal_putchar device polls serial_enabled c t = Ret t' /\ shown t [c] t'.
Proof.
  intros Hs. destruct (write_char_sent c (ports t) Hs) as (p & E & Hp & Es). unfold terminal_putchar. rewrite E. eexists.
  split; [reflexivity|]. assert (line_of (ports (screen_putchar c (with_ports p t))) = line_of p) as El by apply screen_putchar_line.
  split; [unfold sane; by rewrite El| |].
  - rewrite face_screen_putchar. unfold screen_text. cbn [foldl]. symmetry. apply (face_screen_putchar []).
  - rewrite El, Es. unfold line_text. cbn [fmap list_fmap concat]. by rewrite app_nil_r.
Qed.

Lemma write_shown out : forall t, 0 ∉ out -> sane (ports t) ->
  exists t', terminal_write device polls serial_enabled out t = Ret t' /\ shown t out t'.
Proof.
  induction out as [|c out IH]; intros t H Hs.
  - exists t. split; [done|]. split; [done|done|]. by rewrite app_nil_r.
  - apply not_elem_of_cons in H as [Hc H]. cbn [terminal_write]. rewrite eqb_sym_neg by done.
    destruct (putchar_shown c t Hs) as (t1 & -> & H1). cbn [mbind outcome_bind].
    destruct (IH t1 H (sn_line _ _ _ H1)) as (t2 & -> & H2). exists t2. split; [done|]. exact (shown_app _ [c] _ _ _ H1 H2).
Qed.

(** ** Programs *)

Definition prints {A} (c : cmd A) w out (a : A) w' : Prop := forall t, sane (ports t) ->
  exists t', c (with_screen t w) = Ret (a, with_screen t' w') /\ shown t out t'.

Lemma prints_runs {A} (c : cmd A) w out a w' : runs c w out a w' -> prints c w out a w'.
Proof. intros [H0 H] t Hs. destruct (write_shown out t H0 Hs) as (t' & E & Ht). exists t'. by rewrite H, E. Qed.

Lemma prints_ret {A} (a : A) w : prints (mret a) w [] a w.
Proof. intros t Hs. exists t. split; [done|]. split; [done|done|]. by rewrite app_nil_r. Qed.

Lemma prints_bind {A B} (c : cmd A) (f : A -> cmd B) w out1 a w1 out2 b w2 :
  prints c w out1 a w1 -> prints (f a) w1 out2 b w2 -> prints (c ≫= f) w (out1 ++ out2) b w2.
Proof.
  intros H1 H2 t Hs. destruct (H1 t Hs) as (t1 & E1 & S1). destruct (H2 t1 (sn_line _ _ _ S1)) as (t2 & E2 & S2).
  exists t2. unfold mbind at 1, cmd_bind. rewrite E1. split; [exact E2|]. by eapply shown_app.
Qed.

Lemma prints_eq {A} (c : cmd A) w out1 out2 a w' : prints c w out1 a w' -> out1 = out2 -> prints c w out2 a w'.
Proof. by intros H <-. Qed.

(** No byte comes in on the line. *)
Definition silent : Prop := forall p, Z.testbit (device p SERIAL_LINE_STATUS_PORT) 0 = false.

Lemma prints_no_serial w : silent -> prints (read_serial device polls serial_enabled) w [] None w.
Proof.
  intros Hq t Hs. unfold read_serial, mbind at 1, cmd_bind, io. cbn [screen with_screen]. unfold serial_has_data.
  rewrite eqb_sym_neg by done. unfold inb. set (v := u8 _).
  assert (Z.land v 1 = 0) as Hv.
  { pose proof (testbit_land v 0 ltac:(lia)) as Hb. unfold v in Hb at 1. rewrite serial_bit, Hq in Hb by lia.
    symmetry in Hb. by apply negb_false_iff, Z.eqb_eq in Hb. }
  rewrite Hv. cbn [mbind outcome_bind Z.eqb negb]. eexists. split; [reflexivity|].
  destruct (after_poll (ports t) v) as (A1 & A2 & A3). apply shown_nothing; [|exact A2].
  unfold sane in *. change ([In _ v]) with [In SERIAL_LINE_STATUS_PORT v]. by rewrite A1, A3.
Qed.
End prints.

(** The slow line of Serial.v brings nothing. *)
Lemma slow_uart_silent : silent slow_uart.
Proof. intros p. unfold slow_uart. destruct (last p) as [[? v|? v]|]; [by destruct v|done|done]. Qed.
