(* ===== verification/Commands.v ===== *)
(** * The commands of the shell: what they print and do

    The dispatch on the line, the dumps, peek and poke, and the tests of the
    memory, as [runs] statements over the whole kernel. *)

From S2P Require Import Prelude Interfaces Memory HeapInterface Pmm Kmalloc Heap Ring Chain Signals Keyboard Paging Process ProcessSpace Serial Idt Gdt Syscall Timer Interrupts Terminal Text Panic Vmalloc Regions HeapDump World Shell Runs.

(** How a command is spelled: the whole line, or the start of the line with the
    arguments after it. *)
Inductive spelling := Alone (name : string) | WithArgs (name : string).
Definition name_of (s : spelling) : list Z := match s with Alone n | WithArgs n => text n end.
Definition spells (s : spelling) (line : list Z) : bool :=
  match s with
  | Alone n => bool_decide (line = text n)
  | WithArgs n => bool_decide (take (length (text n)) line = text n)
  end.

(** What to run for a line: the first entry that spells it. *)
Definition entry_for {A} (table : list (spelling * A)) (line : list Z) : option (spelling * A) :=
  List.find (fun c => spells c.1 line) table.

(** Two spellings a line could have at once. *)
Definition overlap (s1 s2 : spelling) : bool :=
  match s1, s2 with
  | Alone n, _ => spells s2 (text n)
  | _, Alone m => spells s1 (text m)
  | WithArgs n, WithArgs m =>
      let k := Nat.min (length (text n)) (length (text m)) in bool_decide (take k (text n) = take k (text m))
  end.
Fixpoint exclusive (l : list spelling) : bool :=
  match l with [] => true | s :: l => forallb (fun s' => negb (overlap s s')) l && exclusive l end.

Lemma overlap_spec s1 s2 line : spells s1 line = true -> spells s2 line = true -> overlap s1 s2 = true.
Proof.
  destruct s1 as [n|n], s2 as [m|m]; cbn [spells overlap]; rewrite !bool_decide_eq_true; try (by intros -> ->); try (by intros Hn ->).
  generalize (length (text n)) (length (text m)). intros a b <- <-. rewrite !take_take. f_equal. lia.
Qed.

Lemma entry_for_exclusive {A} (table : list (spelling * A)) line s c : exclusive (map fst table) = true ->
  (s, c) ∈ table -> spells s line = true -> entry_for table line = Some (s, c).
Proof.
  intros Hex Hin Hs. induction table as [|[s' c'] table IH]; [by apply elem_of_nil in Hin|].
  cbn in Hex |- *. apply andb_true_iff in Hex as [Hone Hex]. apply elem_of_cons in Hin as [[= <- <-]|Hin]; [by rewrite Hs|].
  destruct (spells s' line) eqn:Hs'; [|by apply IH]. exfalso. rewrite forallb_forall in Hone.
  specialize (Hone s (in_map fst table (s, c) ltac:(by apply list_elem_of_In))).
  by rewrite (overlap_spec s' s line Hs' Hs) in Hone.
Qed.

Section commands.
Context (device : trace -> Z -> Z) (polls : nat) (serial_enabled : Z) (page_directories : Z).
Context (other_syscall : Z -> Z -> Z -> Z -> Z -> pstate pmm -> outcome (Z * pstate pmm)).
Context (other_handler : Z -> cpu_registers -> trace -> kernel pmm -> outcome (cpu_registers * trace * kernel pmm)).
Context (user_run : Z -> Z -> pstate pmm -> outcome (pstate pmm)).
Context (user_handler : Z -> Z -> Z -> Z -> pstate pmm -> pstate pmm).
Context (shell_signal_handler_addr : Z) (cpu : cpu_registers) (segs : segment_registers) (saved_esp : process -> Z) (held : Z -> bool).
Implicit Types (w : world).

#[local] Abbreviation runs := (runs device polls serial_enabled).
#[local] Abbreviation shell_execute := (shell_execute device polls serial_enabled page_directories other_syscall other_handler
  user_run user_handler shell_signal_handler_addr cpu segs saved_esp held).

(** ** The dispatch *)

Lemma nonzero_Forall (l : list Z) : 0 ∉ l -> Forall (fun c => c <> 0) l.
Proof. intros H. apply Forall_forall. by intros c Hc ->. Qed.

Lemma cstr_all (l : list Z) : 0 ∉ l -> cstr l = l.
Proof.
  induction l as [|c l IH]; intros H; [done|]. apply not_elem_of_cons in H as [Hc H]. cbn. rewrite eqb_sym_neg by done. by rewrite IH.
Qed.

Lemma equals_spells buffer n : forallb (fun c => negb (c =? 0)) (text n) = true ->
  equals buffer n = spells (Alone n) (cstr buffer).
Proof.
  intros Hn. unfold equals, spells. apply bool_eq_iff. rewrite Z.eqb_eq, bool_decide_eq_true, strcmp_zero.
  by rewrite (cstr_all (text n)) by (apply nonzero_dec, Hn).
Qed.

Lemma starts_spells buffer n k : forallb (fun c => negb (c =? 0)) (text n) = true -> k = length (text n) ->
  starts buffer n k = spells (WithArgs n) (cstr buffer).
Proof.
  intros Hn ->. unfold starts, spells. apply bool_eq_iff. rewrite Z.eqb_eq, bool_decide_eq_true, strncmp_zero.
  rewrite (cstr_all (text n)) by (apply nonzero_dec, Hn). by rewrite (take_ge (text n)) by lia.
Qed.

(** The commands: each takes the text after its name, up to the end of the
    buffer. *)
Definition commands : list (spelling * (list Z -> cmd bool)) :=
  let put0 (c : cmd unit) := fun _ : list Z => stay c in
  let put1 (c : list Z -> cmd unit) := fun args => stay (c args) in
  [(Alone "help", put0 (cmd_help device polls serial_enabled));
   (WithArgs "echo ", put1 (cmd_echo device polls serial_enabled));
   (Alone "clear", put0 cmd_clear);
   (Alone "ls", put0 (cmd_ls device polls serial_enabled));
   (Alone "meminfo", put0 (cmd_meminfo device polls serial_enabled));
   (WithArgs "alloc ", put1 (cmd_alloc device polls serial_enabled));
   (Alone "free", put0 (cmd_free device polls serial_enabled));
   (Alone "kheap", put0 (cmd_kheap device polls serial_enabled));
   (Alone "vmap", put0 (cmd_vmap device polls serial_enabled));
   (Alone "panic", put0 (cmd_panic device polls serial_enabled));
   (WithArgs "hexdump ", put1 (cmd_hexdump device polls serial_enabled held));
   (WithArgs "peek ", put1 (cmd_peek device polls serial_enabled held));
   (WithArgs "poke ", put1 (cmd_poke device polls serial_enabled held));
   (Alone "stack", put0 (shell_dump_stack device polls serial_enabled cpu));
   (Alone "pagedir", put0 (cmd_pagedir device polls serial_enabled));
   (Alone "idt", put0 (cmd_idt device polls serial_enabled));
   (Alone "signals", put0 (cmd_signals device polls serial_enabled));
   (Alone "sigtest", put0 (cmd_sigtest device polls serial_enabled shell_signal_handler_addr));
   (Alone "syscall", put0 (cmd_syscall device polls serial_enabled page_directories other_syscall other_handler cpu));
   (Alone "procs", put0 (cmd_procs device polls serial_enabled saved_esp));
   (Alone "execdemo", put0 (cmd_execdemo device polls serial_enabled page_directories));
   (WithArgs "sched ", put1 (cmd_sched device polls serial_enabled user_run user_handler));
   (WithArgs "forkdemo", put1 (cmd_forkdemo device polls serial_enabled page_directories));
   (WithArgs "waitproc ", put1 (cmd_waitproc device polls serial_enabled));
   (WithArgs "killproc ", put1 (cmd_killproc device polls serial_enabled));
   (WithArgs "sigproc ", put1 (cmd_sigproc device polls serial_enabled));
   (WithArgs "getuid ", put1 (cmd_getuid device polls serial_enabled));
   (WithArgs "mmapproc ", put1 (cmd_mmapproc device polls serial_enabled));
   (Alone "sockdemo", put0 (cmd_sockdemo device polls serial_enabled page_directories user_run user_handler));
   (Alone "pagetest", put0 (cmd_pagetest device polls serial_enabled));
   (Alone "pageperm", put0 (cmd_pageperm device polls serial_enabled));
   (Alone "pmmtest", put0 (cmd_pmmtest device polls serial_enabled));
   (Alone "vmtest", put0 (cmd_vmtest device polls serial_enabled));
   (Alone "heaptest", put0 (cmd_heaptest device polls serial_enabled));
   (Alone "div0", put0 (cmd_div0 device polls serial_enabled page_directories other_syscall other_handler cpu));
   (Alone "invop", put0 (cmd_invop device polls serial_enabled page_directories other_syscall other_handler cpu));
   (Alone "segreg", put0 (cmd_segreg device polls serial_enabled segs));
   (Alone "int3", put0 (cmd_int3 device polls serial_enabled page_directories other_syscall other_handler cpu));
   (Alone "reboot", put0 (cmd_reboot device polls serial_enabled));
   (Alone "exit", fun _ => say_line device polls serial_enabled "Exiting shell...";; mret false)]%string.

Definition args_of (s : spelling) (buffer : list Z) : list Z :=
  match s with Alone _ => [] | WithArgs n => drop (length (text n)) buffer end.

(** The comparisons of the code, in a chain. *)
Definition matches (s : spelling) (buffer : list Z) : bool :=
  match s with Alone n => equals buffer n | WithArgs n => starts buffer n (length (text n)) end.
Fixpoint chain (l : list (spelling * (list Z -> cmd bool))) (buffer : list Z) (otherwise : cmd bool) : cmd bool :=
  match l with
  | [] => otherwise
  | (s, c) :: l => if matches s buffer then c (args_of s buffer) else chain l buffer otherwise
  end.
Definition clean (s : spelling) : bool := forallb (fun c => negb (c =? 0)) (name_of s).

Lemma chain_entry l buffer otherwise : forallb clean (map fst l) = true ->
  chain l buffer otherwise =
  match entry_for l (cstr buffer) with Some (s, c) => c (args_of s buffer) | None => otherwise end.
Proof.
  intros Hl. induction l as [|[s c] l IH]; [done|]. cbn in Hl. apply andb_true_iff in Hl as [Hs Hl].
  unfold entry_for. cbn [chain List.find fst]. assert (matches s buffer = spells s (cstr buffer)) as ->
    by (destruct s; [by apply equals_spells|by apply starts_spells]).
  destruct (spells s (cstr buffer)); [done|]. by apply IH.
Qed.

Definition not_found (buffer : list Z) : cmd bool :=
  if negb (deref buffer =? 0) then stay (say_line device polls serial_enabled "Command not found. Type 'help' for commands.")
  else mret true.

Lemma shell_execute_chain buffer : shell_execute buffer = chain commands buffer (not_found buffer).
Proof. reflexivity. Qed.

Lemma shell_execute_entry buffer : shell_execute buffer =
  match entry_for commands (cstr buffer) with Some (s, c) => c (args_of s buffer) | None => not_found buffer end.
Proof. rewrite shell_execute_chain. by apply chain_entry. Qed.

(** C18. The dispatch.  A line is spelled by at most one command, and that command
    is run, whatever its place in the chain, on the text after its name; a line no
    command spells is reported when it is not empty; an empty line does nothing;
    what the buffer holds after the end of the line is never looked at for it. *)
Theorem shell_execute_correct buffer :
  (forall s c, (s, c) ∈ commands -> spells s (cstr buffer) = true -> shell_execute buffer = c (args_of s buffer)) /\
  ((forall s c, (s, c) ∈ commands -> spells s (cstr buffer) = false) ->
   shell_execute buffer =
     if bool_decide (cstr buffer = []) then mret true
     else stay (say_line device polls serial_enabled "Command not found. Type 'help' for commands.")).
Proof.
  rewrite shell_execute_entry. split.
  - intros s c Hin Hs. by rewrite (entry_for_exclusive commands (cstr buffer) s c).
  - intros Hno. destruct (entry_for commands (cstr buffer)) as [[s c]|] eqn:E.
    + apply List.find_some in E as [Hin Hs]. cbn [fst] in Hs. rewrite (Hno s c) in Hs by by apply list_elem_of_In. done.
    + unfold not_found. destruct buffer as [|c buffer]; [done|]. cbn [deref cstr]. by destruct (c =? 0).
Qed.

(** ** Peek and poke *)

Lemma execute_poke args : shell_execute (text "poke " ++ args) = stay (cmd_poke device polls serial_enabled held args).
Proof. reflexivity. Qed.
Lemma execute_peek args : shell_execute (text "peek " ++ args) = stay (cmd_peek device polls serial_enabled held args).
Proof. reflexivity. Qed.

Lemma skip_word_app s rest : Forall (fun c => c <> 0 /\ c <> 32) s -> deref rest = 0 \/ deref rest = 32 ->
  skip_word (s ++ rest) = rest.
Proof.
  intros H Hr. induction H as [|c s [H0 H32] _ IH]; cbn [app].
  - destruct rest as [|c rest]; [done|]. cbn in *. by destruct Hr as [-> | ->].
  - cbn [skip_word]. by rewrite !eqb_sym_neg by done.
Qed.

Lemma hex_char_word d : 0 <= d < 16 -> hex_char d <> 0 /\ hex_char d <> 32.
Proof.
  intros Hd. split; [by apply (hex_char_spec d Hd)|]. intros E. destruct (hex_char_spec d Hd) as [Hv _]. by rewrite E in Hv.
Qed.

Lemma hex_word num : Forall (fun c => c <> 0 /\ c <> 32) (shell_print_hex num).
Proof.
  unfold shell_print_hex. apply Forall_app. split; [by repeat constructor|]. rewrite print_hex_eq. apply Forall_map, Forall_rev.
  eapply Forall_impl; [by apply all_digits_range|]. intros d Hd. by apply hex_char_word.
Qed.

Lemma parse_shell_hex num rest : is_u32 num -> hex_value (deref rest) = None -> parse_hex (shell_print_hex num ++ rest) = num.
Proof. intros Hn Hr. unfold shell_print_hex. rewrite <- app_assoc. by apply (parse_hex_loop_print num rest). Qed.

(** ** Dumps *)

Lemma for_text_concat lo hi f : lo <= hi -> for_text lo hi f = concat (f <$> seqZ lo (hi - lo)).
Proof.
  intros H. unfold for_text. apply (for_range_ind _ (fun i out => out = concat (f <$> seqZ lo (i - lo)))); [done|by rewrite Z.sub_diag|].
  intros i out Hi ->. replace (i + 1 - lo) with (i - lo + 1) by lia. rewrite seqZ_app, fmap_app, concat_app by lia.
  replace (lo + (i - lo)) with i by lia. change (seqZ i 1) with [i]. cbn [fmap list_fmap concat]. by rewrite app_nil_r.
Qed.

Lemma runs_each l f g w : (forall x, x ∈ l -> runs (f x) w (g x) tt w) -> runs (each l f) w (concat (g <$> l)) tt w.
Proof.
  induction l as [|x l IH]; intros H; [apply runs_ret|]. cbn [each fmap list_fmap concat].
  eapply runs_bind; [apply H; by left|]. apply IH. intros y Hy. apply H. by right.
Qed.

Lemma printed_byte_nonzero b j : 0 ∉ shell_print_byte b ++ text " " ++ gap j.
Proof.
  unfold shell_print_byte, gap. apply nonzero_app; [|destruct (j =? 7); by apply nonzero_dec].
  rewrite !not_elem_of_cons. split; [|split; [|apply not_elem_of_nil]]; intros E; symmetry in E; revert E; apply hex_char_word;
    change 15 with (Z.ones 4); rewrite Z.land_ones by lia; apply Z.mod_pos_bound; lia.
Qed.

Lemma printable_nonzero b : 0 ∉ [printable b].
Proof. unfold printable. apply not_elem_of_cons. split; [zbool; cbn [andb]; lia|apply not_elem_of_nil]. Qed.

(** Memory of its own, that may be dumped. *)
Definition dumpable (apart : Z -> bool) (m : machine pmm) (addr size : Z) : Prop :=
  forall k, 0 <= k < size -> exists p, translate m (u32 (addr + k)) = Some p /\ apart p = false /\ screen_byte p = false.

Lemma runs_peek_byte apart (a p : Z) w : translate (machine_of w) a = Some p -> apart p = false -> screen_byte p = false ->
  runs (peek_byte apart a) w [] (byte_at (machine_of w) a) w.
Proof.
  intros E Ha Hs. split; [by apply not_elem_of_nil|]. intros t. unfold peek_byte, asks, see_byte, byte_at.
  change (machine_of (with_screen t w)) with (machine_of w). by rewrite E, Ha, Hs.
Qed.

Lemma runs_hexdump_row apart addr size i w : dumpable apart (machine_of w) addr size -> 0 <= i < size ->
  runs (hexdump_row device polls serial_enabled apart addr size i) w (dump_row (byte_at (machine_of w)) shell_print_hex addr size i) tt w.
Proof.
  intros H Hi. unfold hexdump_row, dump_row. rewrite !for_text_concat, !Z.sub_0_r by lia.
  assert (forall (f : Z -> list Z) (j : Z), j ∈ seqZ 0 (Z.min 16 (size - i)) -> (forall b, 0 ∉ f b) ->
    runs (b ← peek_byte apart (u32 (addr + (i + j))); World.put device polls serial_enabled (f b)) w
      (f (byte_at (machine_of w) (u32 (addr + (i + j))))) tt w) as Hbyte.
  { intros f j Hj%elem_of_seqZ Hf. destruct (H (i + j)) as (p & E & Ha & Hs); [lia|].
    eapply (runs_bind _ _ _ _ _ _ []); [by eapply runs_peek_byte|]. by apply runs_put. }
  eapply runs_eq.
  - run; [apply (runs_each _ _ (fun j => shell_print_byte (byte_at (machine_of w) (u32 (addr + (i + j)))) ++ text " " ++ gap j));
        intros j Hj; apply (Hbyte (fun b => shell_print_byte b ++ text " " ++ gap j) j Hj); intros b; apply printed_byte_nonzero
      |apply (runs_each _ _ (fun j => text "   " ++ gap j)); intros j _; apply runs_put; unfold gap; destruct (j =? 7); by apply nonzero_dec
      |apply (runs_each _ _ (fun j => [printable (byte_at (machine_of w) (u32 (addr + (i + j))))]));
        intros j Hj; apply (Hbyte (fun b => [printable b]) j Hj); intros b; apply printable_nonzero].
  - by rewrite <- ?app_assoc.
Qed.

(** Off the screen the bytes do not change while they are printed: the dump is the
    text of Text.v. *)
Lemma runs_hexdump apart addr size w : dumpable apart (machine_of w) addr size ->
  runs (hexdump device polls serial_enabled apart addr size) w (shell_hexdump (byte_at (machine_of w)) addr size) tt w.
Proof.
  intros H. unfold hexdump, shell_hexdump. cut (forall i, 0 <= i ->
    runs (hexdump_rows device polls serial_enabled (Z.to_nat size) apart addr size i) w
      (dump_loop (byte_at (machine_of w)) shell_print_hex (Z.to_nat size) addr size i) tt w); [intros H'; by apply H'|].
  induction (Z.to_nat size) as [|n IH]; intros i Hi; [apply runs_ret|]. cbn [hexdump_rows dump_loop].
  destruct (Z.ltb_spec i size); [|apply runs_ret]. eapply runs_bind; [apply runs_hexdump_row; [done|lia]|]. apply IH. lia.
Qed.

(** C21. What [poke] writes [peek] reads back: the two lines as they would be
    typed, whatever the rest of the buffer holds, for any value and any address
    whose four bytes are mapped to memory of its own: not the screen, whose cells
    the printing changes in between, not what the kernel's variables, code and
    stack take, and no entry of the tables that map the address.  The four bytes,
    in one page or in two, and nothing else, have changed in between. *)
Theorem poke_peek_roundtrip w a ps v junk1 junk2 :
  is_u32 a -> is_u32 v -> plain_word held (machine_of w) a ps v ->
  let w' := with_mach (with_pmem (store_bytes (pmem (machine_of w)) ps (word_bytes v)) (machine_of w)) w in
  runs (shell_execute (text "poke " ++ shell_print_hex a ++ [SPACE] ++ shell_print_hex v ++ 0 :: junk1)) w
    (text "Wrote " ++ shell_print_hex v ++ text " to " ++ shell_print_hex a ++ [NEWLINE]) true w' /\
  runs (shell_execute (text "peek " ++ shell_print_hex a ++ 0 :: junk2)) w'
    (text "Value at " ++ shell_print_hex a ++ text ": " ++ shell_print_hex v ++ text " (" ++ shell_print_dec v ++
     text ")" ++ [NEWLINE]) true w'.
Proof.
  intros Ha Hv Hp w'. split.
  - rewrite execute_poke. apply runs_stay. unfold cmd_poke.
    rewrite (parse_shell_hex a), skip_word_app by (done || apply hex_word || by right). cbn [app deref drop].
    rewrite ?drop_0, (parse_shell_hex v) by done. change (SPACE =? SPACE) with true. cbv iota.
    eapply runs_eq; [run; by apply runs_poke|]. done.
  - rewrite execute_peek. apply runs_stay. unfold cmd_peek. rewrite (parse_shell_hex a) by done.
    eapply runs_eq; [run; by apply runs_poked|]. done.
Qed.
End commands.

(** ** On a concrete kernel *)

#[local] Abbreviation execute :=
  (shell_execute no_device 2 0 65536 no_syscall no_handler no_run no_user_handler 1048576 quiet_registers
     (Segments 8 16 16 16 16 24) (fun _ => 0) (fun _ => false)).

Lemma no_spelling {A} (table : list (spelling * A)) line : forallb (fun e => negb (spells e.1 line)) table = true ->
  forall s c, (s, c) ∈ table -> spells s line = false.
Proof.
  rewrite forallb_forall. intros H s c Hin%list_elem_of_In. apply H in Hin. by apply negb_true_iff in Hin.
Qed.

Lemma shell_execute_correct_witness :
  execute (text "peek 0x5000" ++ [0; 7]) = stay (cmd_peek no_device 2 0 (fun _ => false) (text "0x5000" ++ [0; 7])) /\
  execute (text "peeking" ++ [0]) = stay (say_line no_device 2 0 "Command not found. Type 'help' for commands.").
Proof.
  pose proof (shell_execute_correct no_device 2 0 65536 no_syscall no_handler no_run no_user_handler 1048576
      quiet_registers (Segments 8 16 16 16 16 24) (fun _ => 0) (fun _ => false)) as H. split.
  - destruct (H (text "peek 0x5000" ++ [0; 7])) as [H1 _]. rewrite (H1 (WithArgs "peek ") _ ltac:(do 11 right; left)); [done|by vm_compute].
  - destruct (H (text "peeking" ++ [0])) as [_ H2]. rewrite H2; [done|]. clear H H2. by apply no_spelling.
Defined.

(** Where the first 16 MB are mapped to themselves, a word of a page in use for
    nothing is its own. *)
Lemma places_low (m : machine pmm) a : windowed m -> 0 <= a -> a + 4 <= LOW_MEMORY -> word_places m a = Some [a; a + 1; a + 2; a + 3].
Proof.
  intros H Ha Hl. unfold word_places, LOW_MEMORY in *. cbn [mapM].
  rewrite !u32_id, !translate_low by (done || unfold is_u32, LOW_MEMORY; lia). by rewrite Z.add_0_r.
Qed.

Lemma plain_word_low ds held (m : machine pmm) a v : space_wf ds m -> a mod 4096 <= 4092 -> plain_page ds (pmem m) (a - a mod 4096) ->
  (forall p, a <= p < a + 4 -> screen_byte p = false /\ held p = false) -> plain_word held m a [a; a + 1; a + 2; a + 3] v.
Proof.
  intros H Ha Hp Hoff. destruct Hp as (Hal & Hr & Hd & Ht) eqn:Ep. clear Ep. unfold LOW_MEMORY in Hr.
  assert (0 <= a /\ a + 4 <= LOW_MEMORY) as [H0 H1] by (unfold LOW_MEMORY; divlia).
  split; [apply places_low; [by eapply wf_windowed|done|done]|]. split; [|split; [repeat constructor; apply Hoff; lia|]].
  { rewrite !NoDup_cons, !not_elem_of_cons. repeat split; try lia; try apply not_elem_of_nil. apply NoDup_nil_2. }
  apply places_low; [|done|done]. eapply (wf_windowed ds).
  replace (frames m) with (frames m) by done. set (m' := store_bytes _ _ _).
  assert (untouched ds (pmem m) m') as Hun.
  { eapply untouched_page; [by split|apply (sw_dirs _ _ H)|]. intros q k Hq Hk Hne. unfold ent, m', store_bytes, word_bytes.
    cbn [zip zip_with fmap list_fmap foldl fst snd]. rewrite !load32_store8_ne by divlia. done. }
  pose proof (space_wf_untouched ds m m' (frames m) H Hun (sw_alloc _ _ H) ltac:(done)) as Hwf.
  by destruct m.
Qed.

Lemma demo_word : plain_word (fun _ => false) vm_machine 65536 [65536; 65536 + 1; 65536 + 2; 65536 + 3] 48879.
Proof.
  destruct vm_machine_space as (H & Htab). generalize dependent vm_machine. intros m H Htab.
  apply (plain_word_low [4096]); [exact H|done| |].
  - split; [done|]. split; [done|]. split; [set_solver|]. intros d k ->%list_elem_of_singleton Hk Hp.
    change (table_at (pmem m) 4096 k <> 65536). destruct (Htab k Hk Hp) as [? ->]. lia.
  - intros p Hp. unfold screen_byte, VGA_ADDRESS. split; [|done]. destruct (Z.leb_spec 753664 p); [lia|done].
Qed.

Lemma poke_peek_roundtrip_witness : exists m : machine pmm,
  let w := quiet_world m vm_state in
  let w' := with_mach (with_pmem (store_bytes (pmem (machine_of w)) [65536; 65536 + 1; 65536 + 2; 65536 + 3] (word_bytes 48879)) (machine_of w)) w in
  runs no_device 2 0 (execute (text "poke " ++ shell_print_hex 65536 ++ [SPACE] ++ shell_print_hex 48879 ++ 0 :: [7])) w
    (text "Wrote " ++ shell_print_hex 48879 ++ text " to " ++ shell_print_hex 65536 ++ [NEWLINE]) true w' /\
  runs no_device 2 0 (execute (text "peek " ++ shell_print_hex 65536 ++ 0 :: [])) w'
    (text "Value at " ++ shell_print_hex 65536 ++ text ": " ++ shell_print_hex 48879 ++ text " (" ++ shell_print_dec 48879 ++
     text ")" ++ [NEWLINE]) true w'.
Proof.
  pose proof demo_word as H. generalize dependent vm_machine. intros m H. exists m. cbv zeta.
  apply (poke_peek_roundtrip no_device 2 0 65536 no_syscall no_handler no_run no_user_handler 1048576 quiet_registers
    (Segments 8 16 16 16 16 24) (fun _ => 0) (fun _ => false) (quiet_world m vm_state)); [done|done|exact H].
Defined.
