(* ===== verification/MemoryTests.v ===== *)
(** * The memory tests of the shell

    [pmmtest] and [pagetest] of kernel/src/shell.c over the kernel they test: the
    verdict they print, and that they leave the frames and the mappings as they
    found them. *)

From S2P Require Import Prelude Interfaces Memory HeapInterface Pmm Kmalloc Heap Ring Chain Signals Keyboard Paging Process ProcessSpace Serial Idt Gdt Syscall Timer Interrupts Terminal Text Panic LiveSpace Vmalloc Regions HeapDump World Shell Runs.

Section tests.
Context (device : trace -> Z -> Z) (polls : nat) (serial_enabled : Z).
Implicit Types (w : world) (p q : pmm).
#[local] Abbreviation runs := (runs device polls serial_enabled).

(** ** Frames *)

(** The same frames in use. *)
Definition same_frames p q : Prop := marks p q (fun _ => false) true.
Definition on_frames_of (q : pmm) w : world := with_mach (with_frames q (machine_of w)) w.

Definition free_count p : Z := total_frames p - used_frames p.

Lemma same_frames_count p q : pmm_wf p -> same_frames p q -> used_frames q = used_frames p.
Proof.
  intros Hp (Hq & Ht & _ & Hu). rewrite (wf_used _ Hq), (wf_used _ Hp), Ht. apply countZ_ext. intros i Hi. apply Hu. lia.
Qed.

Lemma free_count_range p : pmm_wf p -> 0 <= free_count p <= 32768 /\ st_free_frames (pmm_get_stats p) = free_count p.
Proof.
  intros Hp. pose proof (pmm_wf_bounds p Hp) as (_ & ? & ?). unfold free_count. split; [lia|]. cbn. apply u32_id. unfold is_u32. lia.
Qed.

Lemma runs_free_frames w : runs free_frames w [] (st_free_frames (pmm_get_stats (frames_of w))) w.
Proof. by apply (runs_gets device polls serial_enabled (fun w => st_free_frames (pmm_get_stats (frames_of w)))). Qed.

Lemma runs_free_count w q : frames_of w = q -> pmm_wf q -> runs free_frames w [] (free_count q) w.
Proof. intros <- Hq. rewrite <- (proj2 (free_count_range _ Hq)). apply runs_free_frames. Qed.

Lemma runs_alloc_frame w a q : pmm_alloc_frame (frames_of w) = (a, q) -> runs alloc_frame w [] a (on_frames_of q w).
Proof. by apply runs_on_frames. Qed.

(** The same from a world whose frames have been replaced. *)
Lemma runs_alloc_next w p a q : pmm_alloc_frame p = (a, q) -> runs alloc_frame (on_frames_of p w) [] a (on_frames_of q w).
Proof. intros E. exact (runs_alloc_frame (on_frames_of p w) a q E). Qed.

Lemma runs_free_next w p a : runs (free_frame a) (on_frames_of p w) [] tt (on_frames_of (pmm_free_frame p a) w).
Proof.
  exact (runs_on_frames device polls serial_enabled (fun p => (tt, pmm_free_frame p a)) (on_frames_of p w) tt _ eq_refl).
Qed.

Lemma runs_free_frame w a : runs (free_frame a) w [] tt (on_frames_of (pmm_free_frame (frames_of w) a) w).
Proof. exact (runs_on_frames device polls serial_enabled (fun p => (tt, pmm_free_frame p a)) w tt _ eq_refl). Qed.

Lemma runs_frames_next {A} (f : pmm -> A * pmm) w p a q : f p = (a, q) ->
  runs (on_frames f) (on_frames_of p w) [] a (on_frames_of q w).
Proof. intros E. exact (runs_on_frames device polls serial_enabled f (on_frames_of p w) a q E). Qed.

Lemma runs_count_next w p : pmm_wf p -> runs free_frames (on_frames_of p w) [] (free_count p) (on_frames_of p w).
Proof. by apply runs_free_count. Qed.

(** Three frames taken one after the other: distinct, and exactly these are
    marked. *)
Record three_taken p f1 f2 f3 q : Prop := {
  tt_range : 0 < f1 < total_frames p /\ 0 < f2 < total_frames p /\ 0 < f3 < total_frames p;
  tt_free : is_used p f1 = false /\ is_used p f2 = false /\ is_used p f3 = false;
  tt_marks : marks p q (fun g => (g =? f1) || (g =? f2) || (g =? f3)) true;
  tt_count : used_frames q = used_frames p + 3;
}.

Lemma alloc_three p : pmm_ok p ->
  exists a1 p1 a2 p2 a3 p3, pmm_alloc_frame p = (a1, p1) /\ pmm_alloc_frame p1 = (a2, p2) /\ pmm_alloc_frame p2 = (a3, p3) /\
    ((a1 = 0 \/ a2 = 0 \/ a3 = 0) /\ pmm_ok p3 /\ used_frames p <= used_frames p3 <= used_frames p + 2 /\
       (forall g, 0 <= g < scan_limit p -> is_used p3 g = true) \/
     exists f1 f2 f3, a1 = 4096 * f1 /\ a2 = 4096 * f2 /\ a3 = 4096 * f3 /\ three_taken p f1 f2 f3 p3).
Proof.
  intros H. pose proof (scan_limit_bounds p (proj1 H)) as Hs.
  assert (forall p f p', pmm_ok p -> marks p p' (fun g => g =? f) true -> pmm_ok p') as Hok.
  { intros x f x' [Hx H0] (Hx' & _ & _ & Hu). split; [done|]. rewrite Hu by done. by destruct (0 =? f). }
  destruct (alloc_frame_ok p H) as [[E1 N1]|(f1 & p1 & E1 & R1 & F1 & _ & C1 & M1)].
  { exists 0, p, 0, p, 0, p. do 3 (split; [done|]). left. split; [by left|]. split; [done|]. split; [lia|done]. }
  pose proof (Hok _ _ _ H M1) as H1. pose proof M1 as (_ & T1 & _ & U1).
  assert (scan_limit p1 = scan_limit p) as S1 by (unfold scan_limit; by rewrite T1).
  destruct (alloc_frame_ok p1 H1) as [[E2 N2]|(f2 & p2 & E2 & R2 & F2 & _ & C2 & M2)].
  { exists (4096 * f1), p1, 0, p1, 0, p1. do 3 (split; [done|]). left. split; [tauto|]. split; [done|]. split; [lia|by rewrite <- S1]. }
  pose proof (Hok _ _ _ H1 M2) as H2. pose proof M2 as (_ & T2 & _ & U2).
  assert (scan_limit p2 = scan_limit p) as S2 by (unfold scan_limit; by rewrite T2, T1).
  destruct (alloc_frame_ok p2 H2) as [[E3 N3]|(f3 & p3 & E3 & R3 & F3 & _ & C3 & M3)].
  { exists (4096 * f1), p1, (4096 * f2), p2, 0, p2. do 3 (split; [done|]). left. split; [tauto|]. split; [done|]. split; [lia|by rewrite <- S2]. }
  exists (4096 * f1), p1, (4096 * f2), p2, (4096 * f3), p3. do 3 (split; [done|]). right. exists f1, f2, f3.
  do 3 (split; [done|]). rewrite U1 in F2 by lia. rewrite U2, U1 in F3 by lia. pose proof M3 as (W3 & T3 & V3 & U3).
  destruct (Z.eqb_spec f2 f1); [done|]. destruct (Z.eqb_spec f3 f2); [done|]. destruct (Z.eqb_spec f3 f1); [done|].
  split; [lia|done| |lia].
  destruct M1 as (_ & _ & V1 & _), M2 as (_ & _ & V2 & _).
  split; [done|]. split; [congruence|]. split; [congruence|]. intros g Hg. rewrite U3, U2, U1 by done.
  by destruct (g =? f1), (g =? f2), (g =? f3).
Qed.

Lemma free_three p f1 f2 f3 q : three_taken p f1 f2 f3 q ->
  same_frames p (pmm_free_frame (pmm_free_frame (pmm_free_frame q (4096 * f1)) (4096 * f2)) (4096 * f3)).
Proof.
  intros [(R1 & R2 & R3) (F1 & F2 & F3) (W & T & V & U) _].
  destruct (free_frame_cases q (4096 * f1) W ltac:(lia)) as (W1 & T1 & V1 & U1).
  destruct (free_frame_cases _ (4096 * f2) W1 ltac:(lia)) as (W2 & T2 & V2 & U2).
  destruct (free_frame_cases _ (4096 * f3) W2 ltac:(lia)) as (W3 & T3 & V3 & U3).
  split; [done|]. split; [congruence|]. split; [congruence|]. intros g Hg. rewrite U3, U2, U1, U by done.
  rewrite T2, T1, T. replace (4096 * f1 / 4096) with f1 by divlia. replace (4096 * f2 / 4096) with f2 by divlia.
  replace (4096 * f3 / 4096) with f3 by divlia.
  destruct (Z.ltb_spec f1 (total_frames p)), (Z.ltb_spec f2 (total_frames p)), (Z.ltb_spec f3 (total_frames p)); try lia.
  destruct (Z.eqb_spec g f1), (Z.eqb_spec g f2), (Z.eqb_spec g f3); subst; cbn [orb andb]; congruence.
Qed.

(** The run of four frames, taken and given back. *)
Definition free_run p : Prop := exists s, 0 <= s /\ s + 4 <= total_frames p /\ ~ blocked p 4 s.

Lemma contiguous_four p : pmm_ok p ->
  (pmm_alloc_frames p 4 = (0, p) /\ ~ free_run p) \/
  (exists s q, pmm_alloc_frames p 4 = (4096 * s, q) /\ 0 < s /\ s + 4 <= total_frames p /\ free_run p /\
     same_frames p (pmm_free_frames q (4096 * s) 4)).
Proof.
  intros H. pose proof (pmm_wf_bounds p (proj1 H)) as (_ & Hb & _). pose proof (proj1 H) as Hwf.
  unfold pmm_alloc_frames. cbn [Z.eqb].
  destruct (find_free_region_spec p 4) as [[-> Hno]|(Hr & Hbd & Hfree & Hlow)]; [lia|done| |].
  { left. split; [done|]. intros (s & Hs & He & Hnb). by apply Hnb, Hno. }
  right. destruct (Z.ltb_spec (bitmap_find_free_region p 4) 0) as [|_]; [lia|]. set (s := bitmap_find_free_region p 4) in *.
  assert (s <> 0) as Hs0 by (intros E; destruct H as [_ H0]; rewrite Hfree in H0 by lia; done).
  destruct (alloc_frames_loop p s 4 Hwf ltac:(lia) ltac:(lia) ltac:(lia) Hfree) as (Hwf' & Ht & Hm & Hu).
  eexists s, _. split; [f_equal; rewrite PFN_TO_ADDR_eq by lia; lia|]. split; [lia|]. split; [lia|]. split.
  { exists s. split; [lia|]. split; [lia|]. intros (f & Hf & Hus). rewrite Hfree in Hus by lia. done. }
  set (q := Pmm _ _ _ _) in *.
  destruct (free_frames_marks q (4096 * s) 4 Hwf') as (W & T & V & U); [unfold is_u32; lia|lia|divlia|].
  split; [done|]. split; [congruence|]. split; [congruence|]. intros g Hg. rewrite U, Hu by done.
  replace (4096 * s / 4096) with s by divlia. rewrite Ht. destruct (in_range s (s + 4) g) eqn:E; [|done].
  unfold in_range in E. destruct (Z.ltb_spec g (total_frames p)); [|lia]. cbn [andb]. symmetry. apply Hfree. lia.
Qed.

Lemma text_delta w : runs (delta_text device polls serial_enabled (-3)) w (text "-3") tt w.
Proof. change (delta_text _ _ _ _) with (say device polls serial_enabled "-";; dec device polls serial_enabled 3). eapply runs_eq; [run|reflexivity]. Qed.

(** The report of a run that got its three frames, but for the verdict; [run] is
    the first frame of the four. *)
Definition pmmtest_report (n : Z) (run : option Z) : list Z :=
  text "pmmtest: alloc 3 frames OK (free=" ++ shell_print_dec (n - 3) ++ text ")" ++ [NEWLINE] ++
  text "pmmtest: delta=" ++ text "-3" ++ text " OK" ++ [NEWLINE] ++
  text "pmmtest: freed 3 frames (free=" ++ shell_print_dec n ++ text ")" ++ [NEWLINE] ++
  text "pmmtest: restored OK" ++ [NEWLINE] ++
  match run with
  | None => text "pmmtest: contiguous alloc FAIL" ++ [NEWLINE] ++ text "pmmtest: FAIL" ++ [NEWLINE]
  | Some s =>
      text "pmmtest: contiguous alloc 4 at " ++ shell_print_hex (4096 * s) ++ text " OK" ++ [NEWLINE] ++
      text "pmmtest: contiguous free OK (free=" ++ shell_print_dec n ++ text ")" ++ [NEWLINE] ++
      text "pmmtest: PASS" ++ [NEWLINE]
  end.

(** C23. [pmmtest] on any well-formed frame allocator.  With fewer than three
    frames to be had it reports the failure, and the ones it did get are lost:
    they stay marked.  Otherwise it prints the counts and the difference of three,
    and afterwards exactly the same frames are in use; the verdict is PASS when
    the bitmap has four free frames in a row, FAIL when it has not. *)
Theorem pmmtest_correct w : pmm_ok (frames_of w) ->
  let p := frames_of w in
  let start := text "pmmtest: initial free=" ++ shell_print_dec (free_count p) ++ [NEWLINE] in
  (exists q, runs (cmd_pmmtest device polls serial_enabled) w (start ++ text "pmmtest: FAIL (alloc returned 0)" ++ [NEWLINE]) tt
       (on_frames_of q w) /\ pmm_ok q /\ used_frames p <= used_frames q <= used_frames p + 2 /\
     forall g, 0 <= g < scan_limit p -> is_used q g = true) \/
  (exists q run, runs (cmd_pmmtest device polls serial_enabled) w (start ++ pmmtest_report (free_count p) run) tt (on_frames_of q w) /\
     same_frames p q /\ used_frames q = used_frames p /\ (is_Some run <-> free_run p)).
Proof.
  intros H p start. destruct (free_count_range p (proj1 H)) as [Hfc _].
  destruct (alloc_three p H) as (a1 & p1 & a2 & p2 & a3 & p3 & E1 & E2 & E3 & [(Hz & Hok & Hc & Hall)|(f1 & f2 & f3 & -> & -> & -> & Ht)]).
  - left. exists p3. split; [|done].
    assert ((a1 =? 0) || (a2 =? 0) || (a3 =? 0) = true) as Hb
      by (destruct (Z.eqb_spec a1 0), (Z.eqb_spec a2 0), (Z.eqb_spec a3 0); try done; lia).
    unfold cmd_pmmtest. eapply runs_eq.
    + run; [by apply (runs_free_count _ p), H|by apply runs_alloc_frame|by apply runs_alloc_next|by apply runs_alloc_next|].
      rewrite Hb. run.
    + unfold start. rewrite <- !app_assoc. reflexivity.
  - right. pose proof Ht as [(R1 & R2 & R3) _ Hm3 Hc3]. pose proof Hm3 as (Hw3 & Ht3 & _).
    assert (free_count p3 = free_count p - 3) as Efc by (unfold free_count; rewrite Ht3, Hc3; lia).
    destruct (free_count_range p3 Hw3) as [Hfc3 _].
    pose proof (free_three p f1 f2 f3 p3 Ht) as Hback.
    set (q := pmm_free_frame (pmm_free_frame (pmm_free_frame p3 (4096 * f1)) (4096 * f2)) (4096 * f3)) in *.
    pose proof Hback as (Hwq & Htq & _ & Huq). pose proof (same_frames_count p q (proj1 H) Hback) as Hcq.
    assert (free_count q = free_count p) as Efq by (unfold free_count; lia).
    assert (pmm_ok q) as Hokq by (split; [done|rewrite Huq by done; apply H]).
    assert ((4096 * f1 =? 0) || (4096 * f2 =? 0) || (4096 * f3 =? 0) = false) as Hb by (rewrite !eqb_sym_neg by lia; done).
    assert (i32 (free_count p3) - i32 (free_count p) = -3) as Hd by (rewrite !i32_small by lia; lia).
    assert (free_run q <-> free_run p) as Hfr.
    { unfold free_run, blocked. rewrite Htq. split; intros (s & Hs & He & Hnb); exists s; (split; [done|]); (split; [done|]);
        intros (g & Hg & Hu); apply Hnb; exists g; (split; [done|]). - by rewrite Huq by lia. - by rewrite <- Huq by lia. }
    assert (forall c1 c2 w', runs (cmd_pmmtest device polls serial_enabled) w c1 tt w' -> c1 = c2 ->
      runs (cmd_pmmtest device polls serial_enabled) w c2 tt w') as Heq by (intros ? ? ? ? <-; done).
    destruct (contiguous_four q Hokq) as [[E4 Hrun]|(s & q' & E4 & Hs & Hse & Hrun & Hback')].
    + exists q, None. split; [|split; [exact Hback|split; [exact Hcq|split; [by intros [x ?]|tauto]]]].
      eapply Heq.
      * unfold cmd_pmmtest. run; [by apply (runs_free_count _ p), H|by apply runs_alloc_frame|by apply runs_alloc_next|by apply runs_alloc_next|]. rewrite Hb.
        run; [by apply runs_count_next|rewrite Hd; apply text_delta|rewrite Hd; run|apply runs_free_next|apply runs_free_next|
          apply runs_free_next|by apply runs_count_next|fold q; rewrite Efq, Z.eqb_refl; run|by apply runs_frames_next|cbn [Z.eqb]; run|].
        rewrite andb_false_r. run.
      * fold q. rewrite Efc, Efq. unfold start, pmmtest_report. rewrite <- !app_assoc. reflexivity.
    + set (q2 := pmm_free_frames q' (4096 * s) 4) in *. pose proof Hback' as (Hw2 & Ht2 & _ & Hu2).
      pose proof (same_frames_count q q2 Hwq Hback') as Hc2.
      assert (free_count q2 = free_count p) as Ef2 by (unfold free_count in *; lia).
      exists q2, (Some s). split; [|split; [|split; [congruence|split; [tauto|by eexists]]]].
      * eapply Heq.
        -- unfold cmd_pmmtest. run; [by apply (runs_free_count _ p), H|by apply runs_alloc_frame|by apply runs_alloc_next|by apply runs_alloc_next|]. rewrite Hb.
           run; [by apply runs_count_next|rewrite Hd; apply text_delta|rewrite Hd; run|apply runs_free_next|apply runs_free_next|
             apply runs_free_next|by apply runs_count_next|fold q; rewrite Efq, Z.eqb_refl; run|by apply runs_frames_next|
             rewrite eqb_sym_neg by lia; run; [by apply runs_frames_next|by apply runs_count_next]|].
           fold q q2; rewrite Ef2, Efq, Hd, !Z.eqb_refl. cbn [andb]. run.
        -- fold q q2. rewrite Efc, Efq, Ef2. unfold start, pmmtest_report. rewrite <- !app_assoc. reflexivity.
      * destruct Hback as (_ & Hta & Hma & Hua), Hback' as (? & Htb & Hmb & Hub). split; [done|]. split; [congruence|].
        split; [congruence|]. intros g Hg. by rewrite Hub, Hua.
Qed.

(** ** Mapping a page *)

Definition pagetest_report (frame : Z) : list Z :=
  text "pagetest: alloc frame=" ++ shell_print_hex frame ++ [NEWLINE] ++
  text "pagetest: mapped VA=" ++ shell_print_hex TEST_VADDR ++ text " -> PA=" ++ shell_print_hex frame ++ [NEWLINE] ++
  text "pagetest: write 0xCAFE4242 OK" ++ [NEWLINE] ++
  text "pagetest: read " ++ shell_print_hex 3405660738 ++ text " OK" ++ [NEWLINE] ++ text "pagetest: match OK" ++ [NEWLINE] ++
  text "pagetest: unmapped VA=" ++ shell_print_hex TEST_VADDR ++ [NEWLINE] ++
  text "pagetest: freed frame" ++ [NEWLINE] ++ text "pagetest: PASS" ++ [NEWLINE].

(** The machine at the end of the test, in the terms of its start. *)
Record page_tested (ds : list Z) (m m' : machine pmm) : Prop := {
  pt_wf : space_wf ds m';
  pt_cpu : same_cpu m m';
  pt_keep : keeps_pages ds m m';
  pt_unmapped : walk (pmem m') (cr3 m) TEST_VADDR = None;
  pt_else d a : d ∈ ds -> is_u32 a -> a / 4096 <> TEST_VADDR / 4096 -> walk (pmem m') d a = walk (pmem m) d a;
  pt_frames : accounted m m' [];
}.

(** The word at the start of a page mapped in the live space. *)
Lemma live_word ds (m : machine pmm) (va p v : Z) : space_wf ds m -> va mod 4096 = 0 -> is_u32 va -> used_page ds m p -> is_u32 v ->
  walk (pmem m) (cr3 m) va = Some p ->
  let m' := with_pmem (store32 (pmem m) p v) m in
  store_word va v m = Ret m' /\ load_word m' va = Ret v /\ space_wf ds m' /\
  (forall q : Z, used_page ds m q -> used_page ds m' q /\ (q <> p -> agree (pmem m) (pmem m') q (q + 4096))) /\
  (forall d a, d ∈ ds -> is_u32 a -> walk (pmem m') d a = walk (pmem m) d a) /\ tables_stay m m'.
Proof.
  intros H Ha Hu Hp Hv Hw m'. assert (only_in p (p + 4096) (pmem m) (store32 (pmem m) p v)) as Ho by (apply only_in_word; lia).
  destruct (live_write ds m _ p H Hp Ho) as (Hwf & Hk & Hwalk & Hst).
  assert (translate m va = Some p) as Et by (rewrite <- (Z.add_0_r va), <- (Z.add_0_r p); apply (translate_page ds); rewrite ?Z.add_0_r; try done; lia).
  assert (translate m' va = Some p) as Et'.
  { rewrite <- (Z.add_0_r va), <- (Z.add_0_r p). apply (translate_page ds); rewrite ?Z.add_0_r; try done; try lia.
    cbn [pmem cr3 with_pmem m']. by rewrite Hwalk by (done || apply H). }
  destruct (page_word_store m va p v) as [Es El]; [split; [lia|done]|done|]. done.
Qed.

Lemma page_test_steps ds (m : machine pmm) (p : Z) a : space_wf ds m -> pmm_alloc_frame (frames m) = (p, a) -> p <> 0 ->
  table_available (with_frames a m) (cr3 m) TEST_VADDR ->
  exists m1 m2 m3, paging_map_page TEST_VADDR p PAGE_KERNEL (with_frames a m) = Ret m1 /\
    store_word TEST_VADDR 3405660738 m1 = Ret m2 /\ load_word m2 TEST_VADDR = Ret 3405660738 /\
    paging_unmap_page TEST_VADDR m2 = Ret m3 /\ page_tested ds m (with_frames (pmm_free_frame (frames m3) p) m3).
Proof.
  intros H Ha Hp Hav. assert (is_u32 TEST_VADDR) as Hu by done.
  destruct (fresh_used_page ds m p a H Ha Hp) as (Hpu & Hpn & Hpf & Hp32 & Hwf & Hn & Hused & Hmono).
  destruct (live_map ds (with_frames a m) TEST_VADDR p Hwf Hu ltac:(done) Hp32 (up_aligned _ _ _ Hpu) ltac:(done) Hav)
    as (m1 & E1 & Hwf1 & (Hc1 & Hd1 & Hk1) & Hkeep1 & Hwalk1 & Helse1 & Hn1 & Hacc1 & Hst1 & Hmono1 & _).
  cbn [pmem frames cr3 current_directory kernel_directory with_frames] in *.
  destruct (Hkeep1 p Hpu) as [Hpu1 _]. rewrite <- Hc1 in Hwalk1.
  destruct (live_word ds m1 TEST_VADDR p 3405660738 Hwf1 ltac:(done) Hu Hpu1 ltac:(done) Hwalk1) as (E2 & E3 & Hwf2 & Hkeep2 & Hwalk2 & Hst2).
  set (m2 := with_pmem _ m1) in *. destruct (Hkeep2 p Hpu1) as [Hpu2 _].
  assert (walk (pmem m2) (cr3 m2) TEST_VADDR = Some p) as Hw2 by (rewrite Hwalk2 by (done || apply Hwf1); done).
  destruct (live_release ds m2 TEST_VADDR p Hwf2 Hu ltac:(done) Hpu2) as (_ & m3 & E4 & Hwf4 & (Hc4 & Hd4 & Hk4) & Hfr & Hkeep4 & Hn4 & Helse4 & Hst4).
  { change (frames m2) with (frames m1). rewrite Hn1. change (fa_frames a) with (total_frames a). rewrite <- Hn in Hpn. done. }
  { done. }
  exists m1, m2, m3. do 4 (split; [done|]). set (m4 := with_frames _ m3) in *. change (cr3 m2) with (cr3 m1) in *.
  assert (walk (pmem m4) (cr3 m) TEST_VADDR = None) as Hnone by by rewrite <- Hc1.
  split; [exact Hwf4|unfold same_cpu in *; cbn in *; intuition congruence| |exact Hnone| |].
  - intros q Hq. assert (used_page ds (with_frames a m) q) as Hq0.
    { destruct Hq. split; try done. cbn [frames with_frames]. apply Hmono; [apply Z.div_pos; lia|done]. }
    assert (q <> p) as Hne by (intros ->; pose proof (up_used _ _ _ Hq); congruence).
    destruct (Hkeep1 q Hq0) as [Hq1 A1]. destruct (Hkeep2 q Hq1) as [Hq2 A2]. destruct (Hkeep4 q Hq2 Hne) as [Hq4 A4].
    split; [done|]. eapply agree_trans; [exact A1|]. eapply agree_trans; [by apply A2|exact A4].
  - intros d x Hd Hx Hne. by rewrite Helse4, Hwalk2, Helse1.
  - intros g Hg Hgu. destruct Hfr as (_ & _ & Hfr). rewrite Hfr in Hgu by done. apply andb_true_iff in Hgu as [Hgu Hnot].
    apply negb_true_iff, bool_decide_eq_false in Hnot. change (frames m2) with (frames m1) in Hgu.
    destruct (Hacc1 g Hg Hgu) as [Hga|[?%elem_of_nil|(k & Hk & Hkp & Hkt)]]; [|done|].
    + destruct (Hused g Hg Hga) as [?|Hgp]; [by left|]. exfalso. apply Hnot. rewrite Z.mul_comm, Hgp. by left.
    + right. right. exists k. split; [done|]. destruct (Hst2 k Hk Hkp) as [Hp2 Ht2]. destruct (Hst4 k Hk Hp2) as [Hp4 Ht4].
      rewrite Hc4. change (cr3 m2) with (cr3 m1) in *. split; [done|]. congruence.
Qed.

(** [pagetest] in a well-formed address space.  Without a frame it says so
    and changes nothing; otherwise, when a table for the test address can be had,
    it prints a report that passes and leaves the machine as it was: no page in
    use has changed a byte, every address but the test page translates as before,
    the test page does not, and the frame is free again.  The only frame still
    held may be the one of a new page table. *)
Theorem pagetest_correct ds w (p : Z) a : space_wf ds (machine_of w) -> pmm_alloc_frame (frames_of w) = (p, a) ->
  (p = 0 -> runs (cmd_pagetest device polls serial_enabled) w (text "pagetest: FAIL (no free frames)" ++ [NEWLINE]) tt
     (with_mach (with_frames a (machine_of w)) w) /\ a = frames_of w) /\
  (p <> 0 -> table_available (with_frames a (machine_of w)) (cr3 (machine_of w)) TEST_VADDR ->
   exists m', runs (cmd_pagetest device polls serial_enabled) w (pagetest_report p) tt (with_mach m' w) /\
     page_tested ds (machine_of w) m').
Proof.
  intros H Ha. split.
  - intros ->. split; [|by apply (fa_alloc_fail (frames_of w)); [apply (sw_alloc _ _ H)|]].
    unfold cmd_pagetest. eapply runs_eq; [run; [by apply runs_alloc_frame|]|]; [cbn [Z.eqb]; run|reflexivity].
  - intros Hp Hav. destruct (page_test_steps ds (machine_of w) p a H Ha Hp Hav) as (m1 & m2 & m3 & E1 & E2 & E3 & E4 & Ht).
    exists (with_frames (pmm_free_frame (frames m3) p) m3). split; [|done]. unfold cmd_pagetest. eapply runs_eq.
    + run; [by apply runs_alloc_frame|]. rewrite eqb_sym_neg by done.
      run; [by apply runs_on_machine|by apply (runs_store _ _ _ _ _ _ m2)|by apply runs_load|cbn [Z.eqb Pos.eqb]; run|
        by apply runs_on_machine|apply runs_free_frame|cbn [Z.eqb Pos.eqb]; run].
    + unfold pagetest_report. rewrite <- ?app_assoc. reflexivity.
Qed.
End tests.

(** ** On a concrete kernel *)

Lemma pmmtest_correct_witness :
  let p := pmm_small 12 in
  let w := quiet_world (boot_machine p) vm_state in
  let start := text "pmmtest: initial free=" ++ shell_print_dec (free_count p) ++ [NEWLINE] in
  (exists q, runs no_device 2 0 (cmd_pmmtest no_device 2 0) w (start ++ text "pmmtest: FAIL (alloc returned 0)" ++ [NEWLINE]) tt
       (on_frames_of q w) /\ pmm_ok q /\ used_frames p <= used_frames q <= used_frames p + 2 /\
     forall g, 0 <= g < scan_limit p -> is_used q g = true) \/
  (exists q run, runs no_device 2 0 (cmd_pmmtest no_device 2 0) w (start ++ pmmtest_report (free_count p) run) tt (on_frames_of q w) /\
     same_frames p q /\ used_frames q = used_frames p /\ (is_Some run <-> free_run p)).
Proof. intros p w start. exact (pmmtest_correct no_device 2 0 w pmm_small_ok). Defined.

Lemma pagetest_correct_witness :
  let w := quiet_world vm_machine vm_state in
  let p := (pmm_alloc_frame (frames vm_machine)).1 in let a := (pmm_alloc_frame (frames vm_machine)).2 in
  (p = 0 -> runs no_device 2 0 (cmd_pagetest no_device 2 0) w (text "pagetest: FAIL (no free frames)" ++ [NEWLINE]) tt
     (with_mach (with_frames a (machine_of w)) w) /\ a = frames_of w) /\
  (p <> 0 -> table_available (with_frames a (machine_of w)) (cr3 (machine_of w)) TEST_VADDR ->
   exists m', runs no_device 2 0 (cmd_pagetest no_device 2 0) w (pagetest_report p) tt (with_mach m' w) /\
     page_tested [4096] (machine_of w) m').
Proof.
  pose proof (vo_space _ _ _ _ _ vm_machine_ok) as H. revert H. generalize vm_machine. intros m H w p a.
  exact (pagetest_correct no_device 2 0 [4096] w p a H (surjective_pairing _)).
Defined.
