(* ===== verification/HeapTest.v ===== *)
(** * The heap test of the shell

    [heaptest] of kernel/src/shell.c over a heap that others use as well: what it
    prints, that every payload of the others is kept, and when it passes. *)

From S2P Require Import Prelude Interfaces Memory HeapInterface Pmm Kmalloc Heap Ring Chain Signals Keyboard Paging Process Serial Idt Gdt Syscall Timer Interrupts Terminal Text Panic Vmalloc Regions HeapDump World Shell Runs.

(** ** The variables of the heap *)

Lemma append_block_warnings b h h' : append_block b h = Ret h' -> warnings h' = warnings h.
Proof.
  unfold append_block. destruct (block_list h =? 0); [by intros [= <-]|].
  destruct (last_block_loop _ _ _) as [l| |]; [|done|done]. by intros [= <-].
Qed.

Lemma kbrk_warnings n h : (kbrk n h).1 = u32 (-1) \/ warnings (kbrk n h).2 = warnings h.
Proof. unfold kbrk. repeat case_match; auto. Qed.

(** A request that is served warns of nothing. *)
Lemma kmalloc_warnings size h p h' : kmalloc size h = Ret (p, h') -> p <> 0 -> warnings h' = warnings h.
Proof.
  unfold kmalloc. intros E Hp. revert E. destruct (size =? 0); [by intros [= <- <-]|].
  destruct (find_free_block h _) as [b| |]; cbn [mbind outcome_bind]; [|done|done].
  destruct (negb (b =? 0)); [by intros [= <- <-]|].
  destruct (kbrk_warnings (i32 (u32 (HEADER_SIZE + request_size size))) h) as [E|E];
    destruct (kbrk _ h) as [r h1]; cbn [fst snd] in E; [subst r; rewrite Z.eqb_refl; intros [= <- <-]; done|].
  destruct (r =? u32 (-1)); [by intros [= <- <-]|].
  destruct (append_block _ _) as [h2| |] eqn:E2; cbn [mbind outcome_bind]; [|done|done].
  intros [= <- <-]. apply append_block_warnings in E2. by rewrite <- E.
Qed.

(** The payloads are the used blocks. *)
Lemma live_count a bs : lenZ (live a bs) = count_blocks false bs.
Proof.
  revert a. induction bs as [|b bs IH]; intros a; [done|]. rewrite count_blocks_cons, <- (IH (a + HEADER_SIZE + bsize b)).
  cbn [live]. unfold lenZ. rewrite length_app. destruct (bfree b); cbn [eqb length]; lia.
Qed.

(** ** One call *)

(** A request with room for a new block is served. *)
Lemma alloc_served m h ps size : kheap_ok m h ps -> 0 < size <= 2147483584 ->
  heap_end h + 24 + request_size size <= heap_max h ->
  exists p h', kmalloc size (in_memory m h) = Ret (p, h') /\ p <> 0 /\ warnings h' = warnings h /\
    heap_end h' <= heap_end h + 24 + request_size size.
Proof.
  intros (bs & H & _) Hs Hroom. cbn [fst] in H. pose proof (heap_rep_bounds _ _ H) as (Ha & _ & Hsp).
  pose proof (hr_end _ _ H) as He. cbn [heap_start heap_end heap_max in_memory with_mem] in *.
  destruct (request_size_spec size Hs) as (_ & Hn & _). unfold MIN_BLOCK_SIZE in Hn.
  assert (exists p h', kmalloc size (in_memory m h) = Ret (p, h') /\ p <> 0 /\
    heap_end h' <= heap_end h + 24 + request_size size) as (p & h' & E & Hp & Hend).
  { destruct (kmalloc_cases _ size bs H Hs) as [(l & b & r & h' & -> & _ & _ & E & H' & (Es & _))|[(_ & _ & h' & E & H' & (Es & _))|(_ & Hfull & _)]].
    - eexists _, h'. split; [exact E|]. cbn [heap_start in_memory with_mem] in *. pose proof (hr_blks _ _ H) as Hok.
      apply Forall_app in Hok as [Hl _]. pose proof (span_nonneg l Hl). split; [lia|].
      rewrite (hr_end _ _ H'), Es, He, !span_app, carve_span, span_cons. lia.
    - eexists _, h'. split; [exact E|]. cbn [heap_end heap_start in_memory with_mem] in *. split; [lia|].
      rewrite (hr_end _ _ H'), Es, He, span_app, span_cons, span_nil. cbn [bsize]. lia.
    - cbn [heap_end heap_max in_memory with_mem] in Hfull. lia. }
  exists p, h'. split; [done|]. split; [done|]. split; [|done]. by apply (kmalloc_warnings _ _ _ _ E).
Qed.

(** A release does not move the end of the heap. *)
Lemma free_vars m h ps p k : kheap_ok m h ((p, k) :: ps) ->
  exists h', kfree p (in_memory m h) = Ret h' /\ warnings h' = warnings h /\ heap_end h' = heap_end h.
Proof.
  intros (bs & H & Hps). cbn [fst snd] in *.
  assert (List.In (p, k) (live (heap_start h) bs)) as Hpk by (apply list_elem_of_In; rewrite <- Hps; by left).
  apply live_split in Hpk as (l & r & -> & ->).
  destruct (kfree_step (in_memory m h) l k r H) as (h2 & E & Hrep & _ & (Es & _) & _ & Hw & _).
  destruct (spec_free_shape (in_memory m h) l k r H) as (Hspan & _).
  exists h2. split; [exact E|]. split; [exact Hw|]. pose proof (hr_end _ _ H) as He.
  cbn [heap_end heap_start in_memory with_mem] in *. by rewrite (hr_end _ _ Hrep), Es, Hspan, He.
Qed.

(** The statistics count the payloads. *)
Lemma stats_payloads m h ps : kheap_ok m h ps ->
  exists s, kmalloc_get_stats (in_memory m h) = Ret s /\ ks_num_allocations s = lenZ ps.
Proof.
  intros (bs & H & Hps). cbn [fst snd] in *. destruct (kmalloc_get_stats_correct _ _ H) as [E _].
  eexists. split; [exact E|]. cbn [ks_num_allocations]. rewrite <- (live_count (heap_start h)). unfold lenZ. by rewrite Hps.
Qed.

(** ** The calls of the shell *)

Lemma vm_kmalloc_eq size (m : machine pmm) (v : vmstate kheap) : vm_kmalloc size m v =
  '(p, h) ← kmalloc size (in_memory (pmem m) (vheap v)); Ret (p, with_pmem (hmem h) m, with_heap h v).
Proof. unfold vm_kmalloc, ha_alloc. cbn [kheap_allocator]. unfold kheap_alloc. by destruct (kmalloc _ _) as [[]| |]. Qed.
Lemma vm_kfree_eq p (m : machine pmm) (v : vmstate kheap) : vm_kfree p m v =
  h ← kfree p (in_memory (pmem m) (vheap v)); Ret (with_pmem (hmem h) m, with_heap h v).
Proof. unfold vm_kfree, ha_free. cbn [kheap_allocator]. unfold kheap_free. by destruct (kfree _ _). Qed.

Section heaptest.
Context (device : trace -> Z -> Z) (polls : nat) (serial_enabled : Z).
#[local] Abbreviation runs := (runs device polls serial_enabled).

(** Nothing to print. *)
Definition quiet_vm (v : vmstate kheap) : Prop := warnings (vheap v) = [] /\ vm_warnings v = [].

Lemma runs_flush w : quiet_vm (vm w) -> runs (flush_warnings device polls serial_enabled) w [] tt w.
Proof.
  intros [Hh Hv]. unfold flush_warnings. eapply runs_eq; [|reflexivity].
  eapply (runs_bind _ _ _ _ _ _ []); [by apply runs_gets|]. rewrite Hh, Hv.
  eapply (runs_bind _ _ _ _ _ _ []); [by apply runs_modify|].
  replace (clear_warnings w) with w; [apply runs_ret|]. destruct w as [? [[] ] ? ? ?]. cbn in *. by subst.
Qed.

Lemma runs_on_vm {A} (f : machine pmm -> vmstate kheap -> outcome (A * machine pmm * vmstate kheap)) w a m v :
  f (machine_of w) (vm w) = Ret (a, m, v) -> quiet_vm v ->
  runs (on_vm device polls serial_enabled f) w [] a (with_vm v (with_mach m w)).
Proof.
  intros E Hq. unfold on_vm. eapply (runs_bind _ _ _ _ _ _ []).
  - split; [by apply not_elem_of_nil|]. intros t. change (machine_of (with_screen t w)) with (machine_of w).
    change (vm (with_screen t w)) with (vm w). rewrite E. cbn [mbind outcome_bind terminal_write].
    instantiate (2 := a). instantiate (1 := with_vm v (with_mach m w)). done.
  - eapply (runs_bind _ _ _ _ _ _ []); [by apply runs_flush|apply runs_ret].
Qed.

Section state.
Context (w : world) (ds : list Z) (rs : list region) (ps0 : list (Z * Z)).

(** The world with another memory and other variables of the heap. *)
Definition heap_world (mm : mem) (h : kheap) : world :=
  with_vm (with_heap h (vm w)) (with_mach (with_pmem mm (machine_of w)) w).

(** The heap hands out [ps], those of the others among them, whose bytes are
    those of the start. *)
Record heap_at (mm : mem) (h : kheap) (ps : list (Z * Z)) : Prop := {
  at_ok : vm_ok ds (with_pmem mm (machine_of w)) (with_heap h (vm w)) rs ps;
  at_quiet : quiet_vm (with_heap h (vm w));
  at_others : forall x, List.In x ps0 -> List.In x ps;
  at_kept : keep_payloads ps0 (pmem (machine_of w)) mm;
  at_limit : heap_max h = heap_max (vheap (vm w));
}.

Lemma heap_at_perm mm h ps ps' : ps ≡ₚ ps' -> heap_at mm h ps -> heap_at mm h ps'.
Proof.
  intros Hp []. split; try done; [by eapply vm_ok_perm|]. intros x Hx%at_others0. apply list_elem_of_In. rewrite <- Hp.
  by apply list_elem_of_In.
Qed.

Lemma keep_trans ps (m1 m2 m3 : mem) : keep_payloads ps m1 m2 -> keep_payloads ps m2 m3 -> keep_payloads ps m1 m3.
Proof. intros H1 H2 q t Hin. eapply agree_trans; [by apply H1|by apply H2]. Qed.
Lemma keep_weaken ps ps' (m m' : mem) : (forall x, List.In x ps -> List.In x ps') -> keep_payloads ps' m m' -> keep_payloads ps m m'.
Proof. intros Hs H q t Hin. by apply H, Hs. Qed.

Lemma kmalloc_at mm h ps size : heap_at mm h ps -> 0 < size <= 2147483584 ->
  heap_end h + 24 + request_size size <= heap_max h ->
  exists p k mm' h', runs (kmalloc_ device polls serial_enabled size) (heap_world mm h) [] p (heap_world mm' h') /\
    heap_at mm' h' ((p, k) :: ps) /\ 0 < p /\ size <= k /\ heap_end h' <= heap_end h + 24 + request_size size.
Proof.
  intros [Hok [Hq1 Hq2] Ho Hk Hl] Hs Hroom.
  destruct (alloc_served mm h ps size (vo_heap _ _ _ _ _ Hok) Hs Hroom) as (p & h' & E & Hp & Hw & He).
  destruct (vm_kmalloc_step _ _ _ _ _ size Hok Hs) as (p2 & mm2 & h2 & E2 & _ & El & _ & Hkeep & Hres).
  pose proof E2 as E3. rewrite vm_kmalloc_eq in E3. cbn [pmem with_pmem vheap with_heap] in E3. rewrite E in E3.
  cbn [mbind outcome_bind] in E3. injection E3 as <- Emm Eh.
  destruct Hres as [[? _]|(k & Hsk & Hok2)]; [done|].
  destruct (ha_payload_range _ _ _ p k (vo_heap _ _ _ _ _ Hok2)) as (Hp0 & _); [by left|].
  exists p, k, mm2, h2. split; [|split; [split|split; [done|split; [done|by subst h2]]]].
  - apply (runs_on_vm (vm_kmalloc size) (heap_world mm h) p _ _ E2). split; [|exact Hq2]. cbn [vheap with_heap] in *. subst h2. by rewrite Hw.
  - exact Hok2.
  - split; [|exact Hq2]. cbn [vheap with_heap] in *. subst h2. by rewrite Hw.
  - intros x Hx. right. by apply Ho.
  - eapply keep_trans; [exact Hk|]. eapply keep_weaken; [exact Ho|]. exact Hkeep.
  - cbn [vheap with_heap] in El. rewrite <- Hl. exact El.
Qed.

Lemma kfree_at mm h ps p k : heap_at mm h ((p, k) :: ps) -> (forall x, List.In x ps0 -> List.In x ps) ->
  (forall r, r ∈ rs -> exists t, List.In (r_addr r, t) ps0) ->
  exists mm' h', runs (kfree_ device polls serial_enabled p) (heap_world mm h) [] tt (heap_world mm' h') /\
    heap_at mm' h' ps /\ heap_end h' = heap_end h.
Proof.
  intros [Hok [Hq1 Hq2] _ Hk Hl] Ho Hrs.
  assert (forall r, r ∈ rs -> r_addr r <> p) as Hne.
  { intros r Hr <-. destruct (Hrs r Hr) as (t & Hin%Ho). pose proof (vo_heap _ _ _ _ _ Hok) as Hh.
    pose proof (ha_distinct _ _ _ _ _ _ _ Hh Hin). destruct (ha_payload_range _ _ _ _ _ Hh ltac:(by left)) as (_ & _ & ?).
    destruct (ha_payload_range _ _ _ _ _ Hh ltac:(right; exact Hin)) as (_ & _ & ?). lia. }
  destruct (free_vars mm h ps p k (vo_heap _ _ _ _ _ Hok)) as (h' & E & Hw & He).
  destruct (vm_kfree_step _ _ _ _ _ p k Hok Hne) as (mm2 & h2 & E2 & _ & El & _ & Hkeep & Hok2).
  pose proof E2 as E3. rewrite vm_kfree_eq in E3. cbn [pmem with_pmem vheap with_heap] in E3. rewrite E in E3.
  cbn [mbind outcome_bind] in E3. injection E3 as Emm Eh.
  exists mm2, h2. split; [|split; [split|by subst h2]].
  - apply (runs_on_vm (fun m v => '(m, v) ← vm_kfree p m v; Ret (tt, m, v)) (heap_world mm h)).
    + change (machine_of (heap_world mm h)) with (with_pmem mm (machine_of w)). change (vm (heap_world mm h)) with (with_heap h (vm w)).
      by rewrite E2.
    + split; [|exact Hq2]. cbn [vheap with_heap] in *. subst h2. by rewrite Hw.
  - exact Hok2.
  - split; [|exact Hq2]. cbn [vheap with_heap] in *. subst h2. by rewrite Hw.
  - exact Ho.
  - eapply keep_trans; [exact Hk|]. eapply keep_weaken; [exact Ho|]. exact Hkeep.
  - cbn [vheap with_heap] in El. rewrite <- Hl. exact El.
Qed.

Lemma stats_at mm h ps : heap_at mm h ps ->
  exists s, runs (asks (fun w => kmalloc_get_stats (heap_of w))) (heap_world mm h) [] s (heap_world mm h) /\
    ks_num_allocations s = lenZ ps.
Proof.
  intros [Hok _ _ _ _]. destruct (stats_payloads _ _ _ (vo_heap _ _ _ _ _ Hok)) as (s & E & Hs). exists s. split; [|done].
  apply runs_asks; [done|]. exact E.
Qed.
End state.

Definition verdict (n : Z) (yes no : string) : list Z := text (if n =? 0 then yes else no).
Definition heaptest_report (a b c d n : Z) : list Z :=
  text "heaptest: alloc A=64 at " ++ shell_print_hex a ++ [NEWLINE] ++
  text "heaptest: alloc B=128 at " ++ shell_print_hex b ++ [NEWLINE] ++
  text "heaptest: alloc C=64 at " ++ shell_print_hex c ++ [NEWLINE] ++
  text "heaptest: free B OK" ++ [NEWLINE] ++
  text "heaptest: alloc D=64 at " ++ shell_print_hex d ++ text " (reuse=" ++
    text (if (b <=? d) && (d <? u32 (b + 128)) then "YES" else "NO") ++ text ")" ++ [NEWLINE] ++
  text "heaptest: free A OK" ++ [NEWLINE] ++ text "heaptest: free C OK" ++ [NEWLINE] ++ text "heaptest: free D OK" ++ [NEWLINE] ++
  text "heaptest: allocs=" ++ shell_print_dec n ++ verdict n " OK" " FAIL" ++ [NEWLINE] ++
  verdict n "heaptest: PASS" "heaptest: FAIL" ++ [NEWLINE].

(** [n] bytes at each address, no two in common. *)
Definition three_apart (x y z : Z * Z) : Prop := apart_from x y /\ apart_from x z /\ apart_from y z.

Lemma heap_apart_three m (h : kheap) a ka b kb c kc ps sa sb sc : ha_ok m h ((c, kc) :: (b, kb) :: (a, ka) :: ps) ->
  sa <= ka -> sb <= kb -> sc <= kc -> three_apart (c, sc) (b, sb) (a, sa).
Proof.
  intros H Ha Hb Hc. pose proof (ha_distinct _ _ _ _ b kb _ H ltac:(by left)). pose proof (ha_distinct _ _ _ _ a ka _ H ltac:(by right; left)).
  apply (ha_perm _ _ _ ((b, kb) :: (a, ka) :: (c, kc) :: ps)) in H; [|by rewrite <- (Permutation_middle [(b, kb); (a, ka)] ps (c, kc))].
  pose proof (ha_distinct _ _ _ _ a ka _ H ltac:(by left)). unfold three_apart, apart_from. cbn [fst snd]. lia.
Qed.

(** The three requests of the start. *)
Lemma three_payloads w ds rs ps mm h : heap_at w ds rs ps mm h ps -> heap_end h + 328 <= heap_max h ->
  exists a b c ka kb kc mm1 h1 mm2 h2 mm3 h3,
    runs (kmalloc_ device polls serial_enabled 64) (heap_world w mm h) [] a (heap_world w mm1 h1) /\
    runs (kmalloc_ device polls serial_enabled 128) (heap_world w mm1 h1) [] b (heap_world w mm2 h2) /\
    runs (kmalloc_ device polls serial_enabled 64) (heap_world w mm2 h2) [] c (heap_world w mm3 h3) /\
    heap_at w ds rs ps mm3 h3 ((b, kb) :: (c, kc) :: (a, ka) :: ps) /\ three_apart (c, 64) (b, 128) (a, 64) /\
    64 <= kc /\ 64 <= ka /\ heap_end h3 <= heap_end h + 328.
Proof.
  intros H0 Hroom. change (request_size 64) with 64 in *. pose proof (at_limit _ _ _ _ _ _ _ H0) as L0.
  destruct (kmalloc_at w ds rs ps mm h ps 64 H0) as (a & ka & mm1 & h1 & R1 & H1 & Ha & Hka & He1); [done|change (request_size 64) with 64; lia|].
  pose proof (at_limit _ _ _ _ _ _ _ H1) as L1. change (request_size 64) with 64 in *.
  destruct (kmalloc_at w ds rs ps mm1 h1 _ 128 H1) as (b & kb & mm2 & h2 & R2 & H2 & Hb & Hkb & He2);
    [done|change (request_size 128) with 128; lia|].
  pose proof (at_limit _ _ _ _ _ _ _ H2) as L2. change (request_size 128) with 128 in *.
  destruct (kmalloc_at w ds rs ps mm2 h2 _ 64 H2) as (c & kc & mm3 & h3 & R3 & H3 & Hc & Hkc & He3);
    [done|change (request_size 64) with 64; lia|].
  change (request_size 64) with 64 in *. exists a, b, c, ka, kb, kc, mm1, h1, mm2, h2, mm3, h3.
  do 3 (split; [done|]). split; [|split; [|lia]].
  - eapply heap_at_perm; [|exact H3]. apply perm_swap.
  - apply (heap_apart_three _ _ _ _ _ _ _ _ _ 64 128 64 (vo_heap _ _ _ _ _ (at_ok _ _ _ _ _ _ _ H3))); lia.
Qed.

(** The three releases of the end. *)
Lemma three_releases w ds rs ps mm h a ka c kc d kd : (forall r, r ∈ rs -> exists t, List.In (r_addr r, t) ps) ->
  heap_at w ds rs ps mm h ((d, kd) :: (c, kc) :: (a, ka) :: ps) ->
  exists mm1 h1 mm2 h2 mm3 h3,
    runs (kfree_ device polls serial_enabled a) (heap_world w mm h) [] tt (heap_world w mm1 h1) /\
    runs (kfree_ device polls serial_enabled c) (heap_world w mm1 h1) [] tt (heap_world w mm2 h2) /\
    runs (kfree_ device polls serial_enabled d) (heap_world w mm2 h2) [] tt (heap_world w mm3 h3) /\
    heap_at w ds rs ps mm3 h3 ps.
Proof.
  intros Hrs H5. assert ((d, kd) :: (c, kc) :: (a, ka) :: ps ≡ₚ (a, ka) :: (c, kc) :: (d, kd) :: ps) as Hp5.
  { etrans; [apply perm_skip, perm_swap|]. etrans; [apply perm_swap|]. apply perm_skip, perm_swap. }
  apply (heap_at_perm _ _ _ _ _ _ _ _ Hp5) in H5.
  destruct (kfree_at w ds rs ps mm h _ a ka H5) as (mm6 & h6 & R6 & H6 & _); [by intros x Hx; right; right|exact Hrs|].
  destruct (kfree_at w ds rs ps mm6 h6 _ c kc H6) as (mm7 & h7 & R7 & H7 & _); [by intros x Hx; right|exact Hrs|].
  destruct (kfree_at w ds rs ps mm7 h7 _ d kd H7) as (mm8 & h8 & R8 & H8 & _); [done|exact Hrs|].
  by exists mm6, h6, mm7, h7, mm8, h8.
Qed.

(** C22. [heaptest] on a heap others use as well, with room for four blocks.  It
    gets three payloads without a byte in common, gives one back and gets another
    apart from the two it holds; in the end the heap is intact, exactly the
    payloads of the others are handed out, and they have kept their bytes.  It
    passes when there are none, and reports a failure when there are. *)
Theorem heaptest_correct w ds rs ps : vm_ok ds (machine_of w) (vm w) rs ps -> quiet_vm (vm w) ->
  heap_end (vheap (vm w)) + 416 <= heap_max (vheap (vm w)) ->
  exists a b c d mm h, runs (cmd_heaptest device polls serial_enabled) w (heaptest_report a b c d (lenZ ps)) tt (heap_world w mm h) /\
    vm_ok ds (machine_of (heap_world w mm h)) (vm (heap_world w mm h)) rs ps /\
    keep_payloads ps (pmem (machine_of w)) mm /\
    three_apart (c, 64) (b, 128) (a, 64) /\ three_apart (d, 64) (c, 64) (a, 64).
Proof.
  intros Hok Hq Hroom. set (mm0 := pmem (machine_of w)). set (h0 := vheap (vm w)).
  assert (heap_world w mm0 h0 = w) as Ew by (by destruct w as [[[? ? ? ? ? ? ? ? ? ? []]] []]).
  assert (heap_at w ds rs ps mm0 h0 ps) as H0.
  { split; try done. destruct w as [[[? ? ? ? ? ? ? ? ? ? []]] []]. exact Hok. }
  assert (forall r, r ∈ rs -> exists t, List.In (r_addr r, t) ps) as Hrs.
  { intros r Hr. destruct (vo_nodes _ _ _ _ _ Hok r Hr) as (t & Ht & _). by exists t. }
  fold h0 in Hroom.
  destruct (three_payloads w ds rs ps mm0 h0 H0 ltac:(lia)) as
    (a & b & c & ka & kb & kc & mm1 & h1 & mm2 & h2 & mm3 & h3 & R1 & R2 & R3 & H3 & Hap1 & Hkc & Hka & He3).
  pose proof (at_limit _ _ _ _ _ _ _ H3) as L3. fold h0 in L3.
  destruct (kfree_at w ds rs ps mm3 h3 _ b kb H3) as (mm4 & h4 & R4 & H4 & He4); [by intros x Hx; right; right|exact Hrs|].
  pose proof (at_limit _ _ _ _ _ _ _ H4) as L4. fold h0 in L4.
  destruct (kmalloc_at w ds rs ps mm4 h4 _ 64 H4) as (d & kd & mm5 & h5 & R5 & H5 & Hd & Hkd & He5);
    [done|change (request_size 64) with 64; lia|].
  pose proof (heap_apart_three _ _ _ _ _ _ _ _ _ 64 64 64 (vo_heap _ _ _ _ _ (at_ok _ _ _ _ _ _ _ H5)) Hka Hkc Hkd) as Hap2.
  destruct (three_releases w ds rs ps mm5 h5 a ka c kc d kd Hrs H5) as (mm6 & h6 & mm7 & h7 & mm8 & h8 & R6 & R7 & R8 & H8).
  destruct (stats_at w ds rs ps mm8 h8 _ H8) as (s & R9 & Hs).
  exists a, b, c, d, mm8, h8. split; [|split; [apply H8|split; [apply H8|by split]]].
  rewrite <- Ew at 1. unfold cmd_heaptest. eapply runs_eq.
  - run; [exact R1|exact R2|exact R3|exact R4|exact R5| |exact R6|exact R7|exact R8|exact R9| |].
    + apply runs_say. by destruct (_ && _); apply nonzero_dec.
    + apply runs_say_line. by destruct (_ =? 0); apply nonzero_dec.
    + apply runs_say_line. by destruct (_ =? 0); apply nonzero_dec.
  - rewrite Hs. unfold heaptest_report, verdict. rewrite <- ?app_assoc. reflexivity.
Qed.
End heaptest.

(** ** On a concrete kernel *)

Lemma heaptest_correct_witness :
  let w := quiet_world vm_machine vm_state in
  exists a b c d mm h, runs no_device 2 0 (cmd_heaptest no_device 2 0) w (heaptest_report a b c d (lenZ (@nil (Z * Z)))) tt (heap_world w mm h) /\
    vm_ok [4096] (machine_of (heap_world w mm h)) (vm (heap_world w mm h)) [] [] /\
    keep_payloads [] (pmem (machine_of w)) mm /\
    three_apart (c, 64) (b, 128) (a, 64) /\ three_apart (d, 64) (c, 64) (a, 64).
Proof.
  pose proof vm_machine_ok as H. revert H. generalize vm_machine. intros m H w.
  apply (heaptest_correct no_device 2 0 w [4096] [] [] H); [by split|done].
Defined.
