(* ===== verification/EventTests.v ===== *)
(** * The tests of the shell on exceptions and signals

    [div0] and [invop] of kernel/src/shell.c: the handler they install, the
    exception it catches, and what is left in the table of handlers; [sigtest]:
    the signals it delivers and what is printed for them. *)

From S2P Require Import Prelude Interfaces Memory HeapInterface Pmm Kmalloc Heap Ring Chain Signals Keyboard Paging Process Serial Idt Gdt Syscall Timer Interrupts Terminal Text Panic Vmalloc Regions HeapDump World Shell Runs.

Lemma setZ_setZ {A} (l : list A) i v v' : setZ (setZ l i v) i v' = setZ l i v'.
Proof. unfold setZ. case_match; [done|]. apply list_insert_insert_eq. Qed.

Section exceptions.
Context (device : trace -> Z -> Z) (polls : nat) (serial_enabled : Z) (page_directories : Z).
Context (other_syscall : Z -> Z -> Z -> Z -> Z -> pstate pmm -> outcome (Z * pstate pmm)).
Context (other_handler : Z -> cpu_registers -> trace -> kernel pmm -> outcome (cpu_registers * trace * kernel pmm)).
Context (cpu : cpu_registers).
Implicit Types (w : world) (h : interrupt_handler).
#[local] Abbreviation runs := (runs device polls serial_enabled).
#[local] Abbreviation interrupt := (interrupt device page_directories other_syscall other_handler).

Definition is_test h : Prop := h = div0_test_handler \/ h = invop_test_handler.

Lemma with_ports_same t : with_ports (ports t) t = t.
Proof. by destruct t. Qed.

(** An exception a handler of the tests catches: the two bytes skipped, the
    exception noted, nothing sent to the interrupt controllers. *)
Lemma runs_interrupt_test w r h : is_test h -> 0 <= int_no r < 32 ->
  getZ None (interrupt_handlers (descriptors w)) (int_no r) = Some h ->
  runs (interrupt r) w [] (set_eip (u32 (eip r + 2)) r) (with_shell (set_caught true (int_no r) (eip r) (shell w)) w).
Proof.
  intros Ht Hv Hh. split; [by apply not_elem_of_nil|]. intros t. unfold World.interrupt, idt_handle_interrupt.
  rewrite vector_mod, Z.mod_small by lia. cbn [descriptors with_screen screen kern shell ports].
  rewrite Hh. unfold world_handler, exception_test.
  rewrite (proj2 (orb_true_iff _ _)) by (rewrite !bool_decide_eq_true; exact Ht).
  cbn [mbind outcome_bind]. unfold IRQ_BASE_VECTOR. destruct (Z.leb_spec 32 (int_no r)); [lia|]. cbn [andb mbind outcome_bind].
  rewrite with_ports_same. by destruct w.
Qed.

(** An exception nobody handles. *)
Lemma interrupt_unhandled w r : 0 <= int_no r < 32 -> getZ None (interrupt_handlers (descriptors w)) (int_no r) = None ->
  interrupt r w = Panicked (getZ EmptyString exception_messages (int_no r)).
Proof.
  intros Hv Hh. unfold World.interrupt, idt_handle_interrupt. rewrite vector_mod, Z.mod_small, Hh by lia.
  destruct (Z.ltb_spec (int_no r) 32); [done|lia].
Qed.

Lemma runs_change_shell f w : runs (change_shell f) w [] tt (with_shell (f (shell w)) w).
Proof. by apply (runs_modify device polls serial_enabled (fun w => with_shell (f (shell w)) w)). Qed.
Lemma runs_get_shell w : runs (gets shell) w [] (shell w) w.
Proof. by apply runs_gets. Qed.

Definition on_idt (f : idt -> idt) w : world := with_descriptors (f (descriptors w)) w.
Lemma runs_install v h w : runs (set_handler v (Some h)) w [] tt (on_idt (idt_register_handler v (Some h)) w).
Proof. by apply (runs_modify device polls serial_enabled (on_idt (idt_register_handler v (Some h)))). Qed.
Lemma runs_remove v w : runs (set_handler v None) w [] tt (on_idt (idt_unregister_handler v) w).
Proof. by apply (runs_modify device polls serial_enabled (on_idt (idt_unregister_handler v))). Qed.

Definition exception_report (name what trigger : string) (v : Z) : list Z :=
  text name ++ text ": installing handler" ++ [NEWLINE] ++ text name ++ text trigger ++ [NEWLINE] ++
  text name ++ text ": caught exception " ++ shell_print_dec v ++ text what ++ shell_print_hex (eip cpu) ++ [NEWLINE] ++
  text name ++ text ": PASS" ++ [NEWLINE].

(** What is left: the exception noted, and no handler for it. *)
Definition after_test (v : Z) w : world :=
  with_shell (set_caught true v (eip cpu) (shell w)) (on_idt (idt_unregister_handler v) w).

Lemma runs_exception_command name what trigger v h a b c d s w : is_test h -> 0 <= v < 32 ->
  0 ∉ text name -> 0 ∉ text what -> 0 ∉ text trigger -> lenZ (interrupt_handlers (descriptors w)) = 256 ->
  runs (exception_command device polls serial_enabled name what trigger v h
          (faulting_instruction device page_directories other_syscall other_handler cpu v a b c d s)) w
    (exception_report name what trigger v) tt (after_test v w).
Proof.
  intros Ht Hv Hn Hw Htr Hl. unfold exception_command, faulting_instruction. eapply runs_eq.
  - run; [by apply runs_change_shell|by apply runs_say|by apply runs_install|by apply runs_say|by apply runs_say_line| | |
      by apply runs_remove|by apply runs_get_shell|].
    + apply (runs_interrupt_test _ (raise_frame cpu v a b c d s) h Ht Hv).
      cbn [descriptors with_descriptors on_idt with_shell interrupt_handlers idt_register_handler with_handlers int_no raise_frame].
      rewrite getZ_setZ_eq; [done|lia].
    + cbn [raise_frame eip set_eip]. rewrite Z.eqb_refl. run.
    + cbn [shell with_shell on_idt with_descriptors exception_test_caught set_caught].
      run; [by apply runs_say|by apply runs_say|].
      cbn [raise_frame eip int_no].
      replace (after_test v w) with (on_idt (idt_unregister_handler v) (with_shell
        (set_caught true v (eip cpu) (set_caught false (exception_test_vector (shell w)) (exception_test_eip (shell w)) (shell w)))
        (on_idt (idt_register_handler v (Some h)) (with_shell (set_caught false (exception_test_vector (shell w))
          (exception_test_eip (shell w)) (shell w)) w)))).
      2:{ unfold after_test, on_idt, with_descriptors, with_shell, set_caught. cbn.
          unfold idt_unregister_handler, idt_register_handler, with_handlers. cbn. by rewrite setZ_setZ. }
      by apply runs_say.
  - unfold exception_report. cbn [exception_test_vector exception_test_eip set_caught shell with_shell on_idt with_descriptors].
    rewrite <- ?app_assoc. reflexivity.
Qed.

(** C25. [div0] and [invop], whatever handlers there were: the exception is caught
    where it happened, the code goes on after the instruction, the test passes.
    The handler is gone afterwards, and with it any other there was before: the
    next such exception panics with its name. *)
Theorem exception_tests_correct w : lenZ (interrupt_handlers (descriptors w)) = 256 ->
  runs (cmd_div0 device polls serial_enabled page_directories other_syscall other_handler cpu) w
    (exception_report "div0" " (Division by zero) at EIP=" ": triggering division by zero" 0) tt (after_test 0 w) /\
  runs (cmd_invop device polls serial_enabled page_directories other_syscall other_handler cpu) w
    (exception_report "invop" " (Invalid opcode) at EIP=" ": triggering invalid opcode" 6) tt (after_test 6 w) /\
  forall v r, 0 <= v < 32 -> int_no r = v ->
    interrupt r (after_test v w) = Panicked (getZ EmptyString exception_messages v).
Proof.
  intros Hl. split; [|split].
  - apply runs_exception_command; try done; by (left || apply nonzero_dec).
  - apply runs_exception_command; try done; by (right || apply nonzero_dec).
  - intros v r Hv <-. apply interrupt_unhandled; [done|].
    cbn [after_test with_shell on_idt with_descriptors descriptors idt_unregister_handler with_handlers interrupt_handlers].
    apply getZ_setZ_eq. lia.
Qed.
End exceptions.

(** ** Signals *)

Section signals.
Context (device : trace -> Z -> Z) (polls : nat) (serial_enabled : Z) (addr : Z).
Implicit Types (w : world) (g : sig_state) (l : list pending_signal).
#[local] Abbreviation runs := (runs device polls serial_enabled).

(** The signals somebody handles, what the handler notes and prints. *)
Definition handled (handlers : list Z) l : list pending_signal :=
  List.filter (fun x => negb (getZ 0 handlers (ps_signal x) =? 0)) l.
Definition note (v : shell_signals) (x : pending_signal) : shell_signals :=
  shell_signal_handler (ps_signal x) (ps_value x) (ps_context x) v.
Definition signal_lines l : list Z := flat_map (fun x => signal_text (ps_signal x) (ps_value x)) l.

Lemma signal_lines_nonzero l : 0 ∉ signal_lines l.
Proof.
  induction l as [|x l IH]; [by apply not_elem_of_nil|]. cbn [signal_lines flat_map]. apply nonzero_app; [|done].
  unfold signal_text. nonzero.
Qed.

Lemma deliver_shell handlers g l : forall v out,
  foldl (deliver shell_callback handlers g) (v, out) l =
    (foldl note v (handled handlers l), out ++ signal_lines (handled handlers l)).
Proof.
  induction l as [|x l IH]; intros v out; cbn [foldl handled List.filter]; [by rewrite app_nil_r|].
  unfold deliver at 2. destruct (negb (getZ 0 handlers (ps_signal x) =? 0)); cbn [snd shell_callback]; rewrite IH; [|done].
  cbn [foldl signal_lines flat_map]. by rewrite <- app_assoc.
Qed.

Definition noted (v : shell_signals) w : world := with_shell (set_shell_sigs v (shell w)) w.

Lemma runs_dispatch w : sig_wf (sigs (kern w)) ->
  let g := sigs (kern w) in let l := handled (signal_handlers g) (pending g) in
  exists g', runs (dispatch_signals device polls serial_enabled) w (signal_lines l) (lenZ (pending g))
      (noted (foldl note (shell_sigs (shell w)) l) (with_sigs g' w)) /\
    sig_wf g' /\ pending g' = [] /\ signal_handlers g' = signal_handlers g /\ Signals.eflags g' = Signals.eflags g.
Proof.
  intros H g l. assert (quiet shell_callback) as Hq by by intros f sg v c s s' [x out].
  destruct (dispatch_loop_fifo shell_callback Hq g 64 0 g (shell_sigs (shell w), []) H) as (g' & E & Hg').
  { pose proof (fifo_bounded _ (wf_pending _ H)) as Hb. change (length (pending g) <= 63)%nat in Hb. lia. }
  rewrite deliver_shell in E. exists g'. split; [|done]. split; [apply signal_lines_nonzero|]. intros t.
  unfold dispatch_signals, signal_dispatch_pending. cbn [kern with_screen shell]. fold g. change dispatch_fuel with 64%nat.
  rewrite E. cbn [mbind outcome_bind]. unfold put. cbn [app Z.add]. fold l. change (screen _) with t.
  by destruct (terminal_write _ _ _ (signal_lines l) t).
Qed.

Lemma runs_on_sigs {A} (f : sig_state -> A * sig_state) w a g : f (sigs (kern w)) = (a, g) ->
  runs (on_sigs f) w [] a (with_sigs g w).
Proof. intros E. split; [by apply not_elem_of_nil|]. intros t. unfold on_sigs. cbn [kern with_screen]. by rewrite E. Qed.

Lemma handled_app handlers l1 l2 : handled handlers (l1 ++ l2) = handled handlers l1 ++ handled handlers l2.
Proof. apply List.filter_app. Qed.

(** The handler of the test, once installed. *)
Definition test_handlers w : list Z :=
  if shell_signal_handler_installed (shell w) then signal_handlers (sigs (kern w))
  else setZ (signal_handlers (sigs (kern w))) KERNEL_SIGNAL_TEST addr.
Definition test_ready w : world :=
  with_sigs (SigState (test_handlers w) (pending_signals (sigs (kern w))) (Signals.eflags (sigs (kern w))))
    (with_shell (set_installed (shell w)) w).

Lemma runs_test_ready w :
  runs (if negb (shell_signal_handler_installed (shell w)) then
          on_sigs (register_signal_handler KERNEL_SIGNAL_TEST addr);; change_shell set_installed
        else mret tt) w [] tt (test_ready w).
Proof.
  unfold test_ready, test_handlers. destruct (shell_signal_handler_installed (shell w)) eqn:E; cbn [negb].
  - replace (with_sigs _ _) with w; [apply runs_ret|]. destruct w as [[? ? [] ? ?] ? ? ? []]. cbn in *. by rewrite E.
  - eapply runs_eq; [run; [by apply runs_on_sigs|by apply (runs_modify device polls serial_enabled (fun w => with_shell (set_installed (shell w)) w))]|done].
Qed.

Definition test_signal : pending_signal := PendingSignal KERNEL_SIGNAL_TEST 3235779124 0.

(** C24. [sigtest], with the handler of the test installed or not.  Unless 63
    signals wait already, every signal that waits and has a handler is delivered,
    in order, the test signal last, and the queue is empty; the handler of the
    shell has noted the test signal.  With 63 waiting it says so, and no signal is
    lost or delivered. *)
Theorem sigtest_correct w : sig_wf (sigs (kern w)) -> addr <> 0 ->
  (shell_signal_handler_installed (shell w) = true -> getZ 0 (signal_handlers (sigs (kern w))) KERNEL_SIGNAL_TEST = addr) ->
  let l := pending (sigs (kern w)) in let v := shell_sigs (shell w) in
  let waiting := handled (test_handlers w) l in
  let start := text "Scheduling test signal..." ++ [NEWLINE] in
  let c := cmd_sigtest device polls serial_enabled addr in
  (lenZ l < 63 -> exists g, runs c w
      (start ++ signal_lines waiting ++ signal_text KERNEL_SIGNAL_TEST 3235779124 ++ text "Signal delivery complete." ++ [NEWLINE]) tt
      (noted (note (foldl note v waiting) test_signal) (with_sigs g (test_ready w))) /\
    sig_wf g /\ pending g = [] /\ getZ 0 (signal_handlers g) KERNEL_SIGNAL_TEST = addr) /\
  (lenZ l = 63 -> runs c w (start ++ text "Signal queue is full." ++ [NEWLINE]) tt (test_ready w)).
Proof.
  intros H Ha Hi l v waiting start c. set (g1 := sigs (kern (test_ready w))).
  assert (getZ 0 (test_handlers w) KERNEL_SIGNAL_TEST = addr) as Hg.
  { unfold test_handlers. destruct (shell_signal_handler_installed (shell w)); [by apply Hi|]. apply getZ_setZ_eq.
    rewrite (wf_handlers _ H). done. }
  assert (sig_wf g1) as Hwf.
  { split; [|apply H]. cbn. unfold test_handlers. pose proof (wf_handlers _ H) as Hh.
    destruct (shell_signal_handler_installed (shell w)); [done|by rewrite lenZ_setZ]. }
  pose proof (schedule_signal_cases KERNEL_SIGNAL_TEST 3235779124 0 g1 Hwf) as Hs. change (pending g1) with l in Hs.
  change (valid_signal KERNEL_SIGNAL_TEST) with true in Hs. cbn [andb] in Hs. split.
  - intros Hl. destruct (Nat.eqb_spec (length l) 63); [unfold lenZ in Hl; lia|]. cbn [negb] in Hs.
    destruct Hs as (E0 & Hwf2 & Hh & _ & Hp). destruct (schedule_signal KERNEL_SIGNAL_TEST 3235779124 0 g1) as [r g2] eqn:Es.
    cbn [fst snd] in *. subst r. destruct (runs_dispatch (with_sigs g2 (test_ready w)) Hwf2) as (g & Hr & Hg1 & Hg2 & Hg3 & _).
    change (sigs (kern (with_sigs g2 (test_ready w)))) with g2 in *.
    assert (handled (signal_handlers g2) (pending g2) = waiting ++ [test_signal]) as Ew.
    { rewrite Hh, Hp. change (signal_handlers g1) with (test_handlers w). rewrite handled_app. f_equal.
      cbn [handled List.filter ps_signal]. change (u8 KERNEL_SIGNAL_TEST) with KERNEL_SIGNAL_TEST. rewrite Hg.
      by rewrite eqb_sym_neg. }
    rewrite Ew, foldl_app in Hr. cbn [foldl] in Hr. exists g. split; [|split; [done|split; [done|by rewrite Hg3, Hh]]]. unfold c, cmd_sigtest. eapply runs_eq.
    + run; [by apply runs_gets|by apply runs_test_ready|by apply runs_on_sigs|]. cbn [Z.eqb]. run. exact Hr.
    + unfold start, signal_lines. rewrite flat_map_app. cbn [flat_map ps_signal ps_value test_signal].
      rewrite ?app_nil_r, <- ?app_assoc. reflexivity.
  - intros Hl. destruct (Nat.eqb_spec (length l) 63) as [Hl63|]; [|unfold lenZ in Hl; lia]. cbn [negb] in Hs.
    unfold c, cmd_sigtest. eapply runs_eq.
    + run; [by apply runs_gets|by apply runs_test_ready|by apply runs_on_sigs|]. cbn [Z.eqb]. run.
    + unfold start. rewrite <- ?app_assoc. reflexivity.
Qed.
End signals.

(** ** On a concrete kernel *)

Lemma sigtest_correct_witness :
  let w := quiet_world (boot_machine (pmm_small 12)) vm_state in
  let l := pending (sigs (kern w)) in let v := shell_sigs (shell w) in
  let waiting := handled (test_handlers 1048576 w) l in
  let start := text "Scheduling test signal..." ++ [NEWLINE] in
  let c := cmd_sigtest no_device 2 0 1048576 in
  (lenZ l < 63 -> exists g, runs no_device 2 0 c w
      (start ++ signal_lines waiting ++ signal_text KERNEL_SIGNAL_TEST 3235779124 ++ text "Signal delivery complete." ++ [NEWLINE]) tt
      (noted (note (foldl note v waiting) test_signal) (with_sigs g (test_ready 1048576 w))) /\
    sig_wf g /\ pending g = [] /\ getZ 0 (signal_handlers g) KERNEL_SIGNAL_TEST = 1048576) /\
  (lenZ l = 63 -> runs no_device 2 0 c w (start ++ text "Signal queue is full." ++ [NEWLINE]) tt (test_ready 1048576 w)).
Proof. intros w. apply (sigtest_correct no_device 2 0 1048576 w boot_signals_wf); done. Defined.

Lemma exception_tests_correct_witness :
  let w := quiet_world (boot_machine (pmm_small 12)) vm_state in
  runs no_device 2 0 (cmd_div0 no_device 2 0 65536 no_syscall no_handler quiet_registers) w
    (exception_report quiet_registers "div0" " (Division by zero) at EIP=" ": triggering division by zero" 0) tt
    (after_test quiet_registers 0 w) /\
  runs no_device 2 0 (cmd_invop no_device 2 0 65536 no_syscall no_handler quiet_registers) w
    (exception_report quiet_registers "invop" " (Invalid opcode) at EIP=" ": triggering invalid opcode" 6) tt
    (after_test quiet_registers 6 w) /\
  forall v r, 0 <= v < 32 -> int_no r = v ->
    interrupt no_device 65536 no_syscall no_handler r (after_test quiet_registers v w) =
      Panicked (getZ EmptyString exception_messages v).
Proof. intros w. by apply exception_tests_correct. Defined.
