(* ===== verification/LineEditor.v ===== *)
(** * Typing a command

    The loop of kernel/src/shell.c that reads a line, and a turn of the shell:
    what the line editor puts in its buffer whatever arrives, and a command typed
    from the keyboard, edited, read and run. *)

From S2P Require Import Prelude Interfaces Memory HeapInterface Pmm Kmalloc Heap Ring Chain Signals Keyboard Paging Process Serial Idt Gdt Syscall Timer Interrupts Terminal Text Panic Vmalloc Regions HeapDump World Shell Runs Prints EventTests.

(** ** The line *)

(** The effect of a key on the line. *)
Definition edit (line : list Z) (c : Z) : list Z :=
  if c =? BACKSPACE then take (length line - 1) line
  else if lenZ line <? SHELL_BUFFER_SIZE - 1 then line ++ [c] else line.

(** What is shown for it. *)
Definition echo (line : list Z) (c : Z) : list Z :=
  if c =? BACKSPACE then (if 0 <? lenZ line then [BACKSPACE] else [])
  else if lenZ line <? SHELL_BUFFER_SIZE - 1 then [c] else [].
Fixpoint echoes (line keys : list Z) : list Z :=
  match keys with [] => [] | c :: keys => echo line c ++ echoes (edit line c) keys end.

(** The buffer holds the line, and goes on as it was. *)
Definition holds_line (buffer line : list Z) : Prop :=
  length buffer = 256%nat /\ lenZ line <= 255 /\ take (length line) buffer = line.

Lemma edit_bound line c : lenZ line <= 255 -> lenZ (edit line c) <= 255.
Proof.
  unfold edit, lenZ. change (SHELL_BUFFER_SIZE - 1) with 255. intros H. destruct (c =? BACKSPACE); [rewrite length_take; lia|].
  destruct (Z.ltb_spec (Z.of_nat (length line)) 255); [rewrite length_app; cbn [length]; lia|done].
Qed.

(** The step on the buffer, without the echo. *)
Definition typed_at (c pos : Z) (buffer : list Z) : Z * list Z :=
  if c =? BACKSPACE then if 0 <? pos then (pos - 1, buffer) else (pos, buffer)
  else if pos <? SHELL_BUFFER_SIZE - 1 then (pos + 1, setZ buffer pos c) else (pos, buffer).

Lemma typed_at_edit c buffer line : holds_line buffer line ->
  exists buffer', typed_at c (lenZ line) buffer = (lenZ (edit line c), buffer') /\ holds_line buffer' (edit line c).
Proof.
  intros (Hl & Hb & Ht). pose proof (edit_bound line c Hb) as Hb'. unfold typed_at, edit in *.
  change (SHELL_BUFFER_SIZE - 1) with 255 in *. destruct (c =? BACKSPACE).
  - destruct (Z.ltb_spec 0 (lenZ line)) as [H|H]; unfold lenZ in H.
    + exists buffer. split; [f_equal; unfold lenZ; rewrite length_take; lia|]. split; [done|]. split; [done|].
      assert (take (length line - 1) line = take (length line - 1) buffer) as ->
        by (rewrite <- Ht at 2; rewrite take_take; f_equal; lia).
      rewrite length_take. f_equal. unfold lenZ in *. lia.
    + destruct line; [|cbn [length] in H; lia]. exists buffer. by split.
  - destruct (Z.ltb_spec (lenZ line) 255) as [H|H].
    + exists (setZ buffer (lenZ line) c). split; [f_equal; unfold lenZ; rewrite length_app; cbn [length]; lia|].
      unfold lenZ in *. split; [unfold setZ; case_match; [done|by rewrite length_insert]|]. split; [done|].
      rewrite length_app. cbn [length]. unfold setZ. destruct (Z.ltb_spec (Z.of_nat (length line)) 0); [lia|].
      rewrite Nat2Z.id, insert_take_drop, Ht by lia. change (c :: drop _ buffer) with ([c] ++ drop (S (length line)) buffer).
      rewrite app_assoc. apply take_app_length'. rewrite length_app. cbn [length]. lia.
    + exists buffer. by split.
Qed.

(** The terminating 0. *)
Lemma terminated buffer line : holds_line buffer line ->
  setZ buffer (lenZ line) 0 = line ++ 0 :: drop (S (length line)) buffer.
Proof.
  intros (Hl & Hb & Ht). unfold setZ, lenZ in *. destruct (Z.ltb_spec (Z.of_nat (length line)) 0); [lia|].
  by rewrite Nat2Z.id, insert_take_drop, Ht by lia.
Qed.

Lemma cmd_bind_inv {A B} (c : cmd A) (f : A -> cmd B) w b w' : (c ≫= f) w = Ret (b, w') ->
  exists a w1, c w = Ret (a, w1) /\ f a w1 = Ret (b, w').
Proof.
  unfold mbind, cmd_bind. destruct (c w) as [[a w1]| |] eqn:E; cbn [mbind outcome_bind]; [|done|done].
  intros H. by exists a, w1.
Qed.

Section editor.
Context (device : trace -> Z -> Z) (polls : nat) (serial_enabled : Z) (page_directories : Z).
Context (other_syscall : Z -> Z -> Z -> Z -> Z -> pstate pmm -> outcome (Z * pstate pmm)).
Context (other_handler : Z -> cpu_registers -> trace -> kernel pmm -> outcome (cpu_registers * trace * kernel pmm)).
Context (user_run : Z -> Z -> pstate pmm -> outcome (pstate pmm)).
Context (user_handler : Z -> Z -> Z -> Z -> pstate pmm -> pstate pmm).
Implicit Types (w : world) (k : kbd) (line keys buffer : list Z).
#[local] Abbreviation runs := (runs device polls serial_enabled).
#[local] Abbreviation poll_input := (poll_input device polls serial_enabled user_run user_handler).
#[local] Abbreviation shell_getchar :=
  (shell_getchar device polls serial_enabled page_directories other_syscall other_handler user_run user_handler).
#[local] Abbreviation read_line :=
  (read_line device polls serial_enabled page_directories other_syscall other_handler user_run user_handler).

(** ** Whatever arrives *)

(** What [shell_getchar] keeps for itself. *)
Definition page_key (c : Z) : Prop := c = KEY_PAGE_UP \/ c = KEY_PAGE_DOWN.

Lemma poll_input_key w c w' : poll_input w = Ret (Some c, w') -> ~ page_key c.
Proof.
  unfold Shell.poll_input. intros H. apply cmd_bind_inv in H as (? & ? & _ & H). apply cmd_bind_inv in H as (? & ? & _ & H).
  apply cmd_bind_inv in H as (r & w1 & E & H). destruct r as [d|].
  - injection H as <- <-. unfold read_serial in E. apply cmd_bind_inv in E as (b & ? & _ & E).
    destruct b; [|done]. apply cmd_bind_inv in E as (ch & ? & _ & E). injection E as E _. unfold serial_key in E.
    repeat case_match; try done; injection E as <-; unfold page_key, KEY_PAGE_UP, KEY_PAGE_DOWN, NEWLINE, BACKSPACE in *; lia.
  - unfold read_keyboard in H. apply cmd_bind_inv in H as ([d|] & ? & _ & H); [|done].
    apply cmd_bind_inv in H as (sh & ? & _ & H). unfold scroll_key in H.
    destruct (Z.eqb_spec d KEY_PAGE_UP); [by apply cmd_bind_inv in H as (? & ? & _ & H)|].
    destruct (Z.eqb_spec d KEY_PAGE_DOWN); [by apply cmd_bind_inv in H as (? & ? & _ & H)|].
    destruct ((d =? KEY_ARROW_UP) && sh); [by apply cmd_bind_inv in H as (? & ? & _ & H)|].
    destruct ((d =? KEY_ARROW_DOWN) && sh); [by apply cmd_bind_inv in H as (? & ? & _ & H)|].
    injection H as -> _. by intros [-> | ->].
Qed.

Lemma getchar_key arrivals w c rest w' : shell_getchar arrivals w = Ret ((c, rest), w') -> ~ page_key c.
Proof.
  revert w. induction arrivals as [|irqs arrivals IH]; intros w H; [done|]. cbn [Shell.shell_getchar] in H.
  apply cmd_bind_inv in H as (? & w1 & _ & H). apply cmd_bind_inv in H as ([d|] & w2 & E & H); [|by apply IH in H].
  injection H as -> _ _. by apply poll_input_key in E.
Qed.

Lemma type_char_result c pos buffer w r w' : type_char device polls serial_enabled c pos buffer w = Ret (r, w') ->
  r = typed_at c pos buffer.
Proof.
  unfold type_char, typed_at. destruct (c =? BACKSPACE); [destruct (0 <? pos)|destruct (pos <? SHELL_BUFFER_SIZE - 1)];
    try (by intros [= <- _]); intros (? & ? & _ & E)%cmd_bind_inv; by injection E as <- _.
Qed.

(** What a line can contain. *)
Definition plain_key (c : Z) : Prop := c <> NEWLINE /\ c <> BACKSPACE /\ ~ page_key c.

Lemma edit_plain line c : Forall plain_key line -> c <> NEWLINE -> ~ page_key c -> Forall plain_key (edit line c).
Proof.
  intros H Hn Hp. unfold edit. destruct (Z.eqb_spec c BACKSPACE); [by apply Forall_take|]. case_match; [|done].
  apply Forall_app. split; [done|]. by repeat constructor.
Qed.

Lemma read_line_holds fuel : forall arrivals buffer line w buffer' rest w', holds_line buffer line -> Forall plain_key line ->
  read_line fuel arrivals (lenZ line) buffer w = Ret ((buffer', rest), w') ->
  exists keys junk, Forall (fun c => c <> NEWLINE /\ ~ page_key c) keys /\
    buffer' = foldl edit line keys ++ 0 :: junk /\ length buffer' = 256%nat /\ Forall plain_key (foldl edit line keys).
Proof.
  induction fuel as [|fuel IH]; intros arrivals buffer line w buffer' rest w' Hl Hp H; [done|]. cbn [Shell.read_line] in H.
  apply cmd_bind_inv in H as ([c arr] & w1 & E & H). apply getchar_key in E. destruct (Z.eqb_spec c NEWLINE) as [|Hn].
  - apply cmd_bind_inv in H as (? & w2 & _ & H). injection H as <- <- <-. exists [], (drop (S (length line)) buffer).
    split; [done|]. split; [by apply terminated|]. split; [|done]. destruct Hl as [Hl _]. unfold setZ.
    case_match; [done|by rewrite length_insert].
  - apply cmd_bind_inv in H as ([p b] & w2 & Et & H). apply type_char_result in Et.
    destruct (typed_at_edit c buffer line Hl) as (b2 & E2 & Hl2). rewrite E2 in Et. injection Et as -> ->.
    destruct (IH _ _ _ _ _ _ _ Hl2 (edit_plain line c Hp Hn E) H) as (keys & junk & Hk & Hr).
    exists (c :: keys), junk. split; [by constructor|done].
Qed.

(** ** Typed ahead *)

(** Nothing else to do: no signal, no tick. *)
Record idle w : Prop := {
  idle_sigs : sig_wf (sigs (kern w));
  idle_pending : pending (sigs (kern w)) = [];
  idle_ticks : pending_scheduler_ticks (procs (kern w)) <= 0;
}.

Lemma dispatch_loop_none {W : Type} (f : Z -> Z -> Z -> Z -> sig_state * W -> sig_state * W) fuel n g x :
  sig_wf g -> pending g = [] -> signal_dispatch_loop f (S fuel) n (g, x) = Ret (n, (g, x)).
Proof.
  intros Hwf Hp. cbn [signal_dispatch_loop fst]. unfold interrupts_save. cbn [pending_signals interrupts_disable].
  change (@ring_pop pending_signal SIGNAL_QUEUE_CAPACITY no_signal) with (@fifo_pop _ _ signal_fifo).
  rewrite (proj2 (fifo_pop_empty _ (wf_pending _ Hwf)) Hp). by destruct g.
Qed.

Lemma runs_dispatch_none w : idle w -> runs (dispatch_signals device polls serial_enabled) w [] 0 w.
Proof.
  intros [Hwf Hp _]. split; [by apply not_elem_of_nil|]. intros t. unfold dispatch_signals, dispatch_fuel, signal_dispatch_pending.
  rewrite dispatch_loop_none by done. cbn [mbind outcome_bind]. unfold put. cbn [terminal_write mbind outcome_bind].
  by destruct w as [[] ? ? ? []].
Qed.

Lemma runs_pending_none w n : idle w -> runs (run_pending user_run user_handler n) w [] 0 w.
Proof.
  intros [_ _ Ht]. unfold run_pending. replace w with (with_procs (procs (kern w)) w) at 2 by by destruct w as [[] ].
  apply runs_on_procs. unfold scheduler_run_pending. destruct (Z.to_nat n); [done|]. cbn [run_pending_loop].
  destruct (Z.ltb_spec 0 (pending_scheduler_ticks (procs (kern w)))); [lia|done].
Qed.

Lemma idle_keys w k : idle w -> idle (with_keys k w).
Proof. by intros []. Qed.

(** The serial line is on, takes what is written in time, and brings nothing. *)
Section ahead.
Context (Hr : responsive device polls) (He : serial_enabled <> 0) (Hq : silent device).
(** The next key. *)
Lemma prints_key w k c more : idle w -> kbd_wf k -> typed k = c :: more -> scroll_key c (keyboard_shift_held k) = None ->
  exists k', prints poll_input (with_keys k w) [] (Some c) (with_keys k' w) /\ kbd_wf k' /\ typed k' = more /\
    shift_held k' = shift_held k.
Proof.
  intros Hi Hk Ht Hs. pose proof (keyboard_try_read_char_cases k (sigs (kern w)) Hk) as Hc. rewrite Ht in Hc.
  destruct Hc as (k' & E & Hk' & Ht' & Hsh & _). exists k'. split; [|done]. pose proof (idle_keys w k Hi) as Hi'.
  unfold Shell.poll_input. eapply prints_eq.
  - eapply prints_bind; [by apply (prints_runs _ _ _ Hr He), runs_dispatch_none|].
    eapply prints_bind; [by apply (prints_runs _ _ _ Hr He), runs_pending_none|].
    eapply prints_bind; [by apply prints_no_serial|]. cbv iota. apply (prints_runs _ _ _ Hr He). unfold read_keyboard.
    eapply (runs_bind _ _ _ _ _ _ [] (Some c) (with_keys k' w)).
    + split; [by apply not_elem_of_nil|]. intros t. change (keys (kern (with_screen t (with_keys k w)))) with k.
      change (sigs (kern (with_screen t (with_keys k w)))) with (sigs (kern w)). rewrite E. by destruct w as [[] ].
    + run; [by apply (runs_gets _ _ _ (fun w => keyboard_shift_held (keys (kern w))))|].
      unfold keyboard_shift_held in *. cbn [keys kern with_keys with_kern]. rewrite Hsh, Hs. run.
  - done.
Qed.

Lemma prints_getchar w k c more arrivals : idle w -> kbd_wf k -> typed k = c :: more -> scroll_key c (keyboard_shift_held k) = None ->
  exists k', prints (shell_getchar ([] :: arrivals)) (with_keys k w) [] (c, arrivals) (with_keys k' w) /\ kbd_wf k' /\
    typed k' = more /\ shift_held k' = shift_held k.
Proof.
  intros Hi Hk Ht Hs. destruct (prints_key w k c more Hi Hk Ht Hs) as (k' & Hr' & Hk'). exists k'. split; [|done].
  eapply prints_eq; [|reflexivity]. cbn [Shell.shell_getchar]. eapply (prints_bind _ _ _ []); [by apply prints_ret|].
  eapply (prints_bind _ _ _ []); [exact Hr'|]. by apply prints_ret.
Qed.

Lemma runs_putchar c w : c <> 0 -> runs (putchar device polls serial_enabled c) w [c] tt w.
Proof.
  intros Hc. split; [by apply not_elem_of_cons; split; [|apply not_elem_of_nil]|]. intros t. unfold putchar.
  cbn [screen with_screen terminal_write]. rewrite eqb_sym_neg by done. by destruct (terminal_putchar _ _ _ c t).
Qed.

Lemma runs_type_char c buffer line w : c <> 0 -> runs (type_char device polls serial_enabled c (lenZ line) buffer) w
  (echo line c) (typed_at c (lenZ line) buffer) w.
Proof.
  intros Hc. unfold type_char, typed_at, echo. destruct (Z.eqb_spec c BACKSPACE) as [->|].
  - destruct (0 <? lenZ line); [|apply runs_ret]. eapply (runs_bind _ _ _ _ _ _ [_]); [by apply runs_putchar|apply runs_ret].
  - destruct (lenZ line <? SHELL_BUFFER_SIZE - 1); [|apply runs_ret].
    eapply (runs_bind _ _ _ _ _ _ [_]); [by apply runs_putchar|apply runs_ret].
Qed.

(** Keys that come to the line. *)
Definition line_key (shift : bool) (c : Z) : Prop := c <> NEWLINE /\ c <> 0 /\ scroll_key c shift = None.

Lemma prints_read_line w keys : forall more k line buffer fuel rest, idle w -> holds_line buffer line -> kbd_wf k ->
  typed k = keys ++ NEWLINE :: more -> Forall (line_key (shift_held k)) keys -> (length keys < fuel)%nat ->
  exists k' junk, prints (read_line fuel (replicate (S (length keys)) [] ++ rest) (lenZ line) buffer) (with_keys k w)
      (echoes line keys ++ [NEWLINE]) (foldl edit line keys ++ 0 :: junk, rest) (with_keys k' w) /\
    kbd_wf k' /\ typed k' = more /\ shift_held k' = shift_held k.
Proof.
  induction keys as [|c keys IH]; intros more k line buffer fuel rest Hi Hl Hk Ht Hkeys Hf;
    (destruct fuel as [|fuel]; [cbn [length] in Hf; lia|]); cbn [Shell.read_line length replicate app].
  - destruct (prints_getchar w k NEWLINE more rest Hi Hk Ht eq_refl) as (k' & Hg & Hk').
    exists k', (drop (S (length line)) buffer). split; [|done]. eapply prints_eq.
    + eapply prints_bind; [exact Hg|]. cbv iota beta. rewrite Z.eqb_refl. apply (prints_runs _ _ _ Hr He).
      run; [by apply runs_putchar|]. rewrite (terminated _ _ Hl). run.
    + done.
  - apply Forall_cons in Hkeys as [(Hn & H0 & Hs) Hkeys].
    destruct (prints_getchar w k c (keys ++ NEWLINE :: more) (replicate (S (length keys)) [] ++ rest) Hi Hk Ht Hs) as (k1 & Hg & Hk1 & Ht1 & Hs1).
    destruct (typed_at_edit c buffer line Hl) as (b & Eb & Hb). rewrite <- Hs1 in Hkeys.
    destruct (IH more k1 (edit line c) b fuel rest Hi Hb Hk1 Ht1 Hkeys) as (k' & junk & Hr2 & Hk' & Ht' & Hs').
    { cbn [length] in Hf. lia. }
    exists k', junk. split; [|split; [done|split; [done|congruence]]]. eapply prints_eq.
    + eapply prints_bind; [exact Hg|]. cbv iota beta. rewrite eqb_sym_neg by done.
      eapply prints_bind; [by apply (prints_runs _ _ _ Hr He), runs_type_char|]. rewrite Eb. exact Hr2.
    + cbn [app echoes]. by rewrite <- app_assoc.
Qed.
End ahead.

Lemma holds_nothing buffer : length buffer = 256%nat -> holds_line buffer [].
Proof. by split. Qed.

(** C19. The line editor.  Whatever arrives, from the serial line or the keyboard,
    and however long the line is, the buffer of 256 bytes is never overrun: when
    Enter ends the line it holds the keys as edited, at most 255 of them, none of
    them a newline, a backspace or a page key, and the 0 after them.  And a line
    typed ahead on the keyboard is read: with the serial line on, taking what is
    written in time and bringing nothing, and with no signal or tick to serve, it
    takes one turn of the loop for each key, the keys are echoed on the screen and
    on the line, and the keys after Enter are left for later. *)
Theorem read_line_correct buffer : length buffer = 256%nat ->
  (forall fuel arrivals w buffer' rest w', read_line fuel arrivals 0 buffer w = Ret ((buffer', rest), w') ->
   exists keys junk, buffer' = foldl edit [] keys ++ 0 :: junk /\ length buffer' = 256%nat /\
     lenZ (foldl edit [] keys) <= 255 /\ Forall plain_key (foldl edit [] keys)) /\
  (forall w k keys more fuel rest, responsive device polls -> serial_enabled <> 0 -> silent device ->
   idle w -> kbd_wf k -> typed k = keys ++ NEWLINE :: more ->
   Forall (line_key (shift_held k)) keys -> (length keys < fuel)%nat ->
   exists k' junk, prints (read_line fuel (replicate (S (length keys)) [] ++ rest) 0 buffer) (with_keys k w)
       (echoes [] keys ++ [NEWLINE]) (foldl edit [] keys ++ 0 :: junk, rest) (with_keys k' w) /\
     kbd_wf k' /\ typed k' = more /\ shift_held k' = shift_held k).
Proof.
  intros Hb. pose proof (holds_nothing buffer Hb) as Hl. split.
  - intros fuel arrivals w buffer' rest w' H.
    destruct (read_line_holds fuel arrivals buffer [] w buffer' rest w' Hl (Forall_nil_2 _) H) as (keys & junk & _ & E & Hlen & Hp).
    exists keys, junk. do 2 (split; [done|]). split; [|done]. rewrite E, length_app in Hlen. cbn [length] in Hlen. unfold lenZ. lia.
  - intros w k keys more fuel rest Hr He Hq. intros. by apply (prints_read_line Hr He Hq w keys more k [] buffer).
Qed.

(** ** A turn of the shell *)

Context (shell_signal_handler_addr : Z) (cpu : cpu_registers) (segs : segment_registers) (saved_esp : process -> Z) (held : Z -> bool).
#[local] Abbreviation shell_execute :=
  (shell_execute device polls serial_enabled page_directories other_syscall other_handler user_run user_handler
     shell_signal_handler_addr cpu segs saved_esp held).
#[local] Abbreviation shell_turn :=
  (shell_turn device polls serial_enabled page_directories other_syscall other_handler user_run user_handler
     shell_signal_handler_addr cpu segs saved_esp held).

(** C20. A command typed ahead on the keyboard is carried out by a turn of the loop,
    with the serial line on and nothing coming in on it: the prompt, the echo, what
    the edited line prints, and its effect, on the screen and on the line; the
    shell goes on with the keys after it.  A command that leaves the shell ends the
    loop. *)
Theorem typed_command_correct buffer w w' k keys more rest out (go : bool) :
  responsive device polls -> serial_enabled <> 0 -> silent device ->
  length buffer = 256%nat -> idle w -> idle w' -> kbd_wf k ->
  typed k = keys ++ NEWLINE :: more -> Forall (line_key (shift_held k)) keys ->
  (forall k' junk, kbd_wf k' -> typed k' = more ->
     prints (shell_execute (foldl edit [] keys ++ 0 :: junk)) (with_keys k' w) out go (with_keys k' w')) ->
  exists k' junk, prints (shell_turn (replicate (S (length keys)) [] ++ rest) buffer) (with_keys k w)
      (text "shell> " ++ echoes [] keys ++ [NEWLINE] ++ out) (go, foldl edit [] keys ++ 0 :: junk, rest) (with_keys k' w') /\
    kbd_wf k' /\ typed k' = more.
Proof.
  intros Hr He Hq Hb Hi Hi' Hk Ht Hkeys Hex.
  destruct (prints_read_line Hr He Hq w keys more k [] buffer (S (length (replicate (S (length keys)) [] ++ rest))) rest Hi (holds_nothing _ Hb)
    Hk Ht Hkeys) as (k' & junk & Hrl & Hk' & Ht' & _).
  { rewrite length_app, length_replicate. lia. }
  exists k', junk. split; [|done]. unfold Shell.shell_turn. eapply prints_eq.
  - eapply prints_bind; [apply (prints_runs _ _ _ Hr He), runs_say; by apply nonzero_dec|]. eapply prints_bind; [exact Hrl|]. cbv beta iota.
    eapply prints_bind; [by apply Hex|]. apply (prints_runs _ _ _ Hr He). destruct go; [|apply runs_ret].
    eapply (runs_bind _ _ _ _ _ _ [] _ _ []); [|apply runs_ret]. apply runs_pending_none. by apply idle_keys.
  - destruct go; rewrite ?app_nil_r, <- !app_assoc; reflexivity.
Qed.
End editor.

(** ** On a concrete kernel *)

(** [l] typed on an idle keyboard. *)
Definition typed_ahead (l : list Z) : kbd := foldl (fun k c => keyboard_queue_char c k) boot_kbd l.

Lemma typed_ahead_from l : forall k, kbd_wf k -> (length (typed k) + length l <= 255)%nat ->
  let k' := foldl (fun k c => keyboard_queue_char c k) k l in
  kbd_wf k' /\ typed k' = typed k ++ l /\ shift_held k' = shift_held k.
Proof.
  induction l as [|c l IH]; intros k Hk Hl; [by rewrite app_nil_r|]. cbn [foldl length] in *.
  destruct (keyboard_queue_char_cases c k Hk) as (Hk' & Ht & Hs & _).
  destruct (Nat.eqb_spec (length (typed k)) 255); [lia|].
  destruct (IH _ Hk') as (? & E & ?); [rewrite Ht, length_app; cbn [length]; lia|].
  split; [done|]. split; [|congruence]. by rewrite E, Ht, <- app_assoc.
Qed.
Lemma typed_ahead_ok l : (length l <= 255)%nat -> kbd_wf (typed_ahead l) /\ typed (typed_ahead l) = l /\ shift_held (typed_ahead l) = false.
Proof. intros Hl. by apply (typed_ahead_from l boot_kbd boot_kbd_wf). Qed.

Lemma quiet_idle m v : idle (quiet_world m v).
Proof. split; [apply boot_signals_wf|done|done]. Qed.

Definition slip : list Z := text "la" ++ [BACKSPACE] ++ text "s".

Lemma read_line_correct_witness :
  let read := read_line slow_uart 2 1 65536 no_syscall no_handler no_run no_user_handler in
  (forall fuel arrivals w buffer' rest w', read fuel arrivals 0 (replicate 256 0) w = Ret ((buffer', rest), w') ->
   exists keys junk, buffer' = foldl edit [] keys ++ 0 :: junk /\ length buffer' = 256%nat /\
     lenZ (foldl edit [] keys) <= 255 /\ Forall plain_key (foldl edit [] keys)) /\
  exists k' junk, prints (read 5%nat (replicate 5 [] ++ []) 0 (replicate 256 0))
      (with_keys (typed_ahead (slip ++ [NEWLINE])) (quiet_world (boot_machine (pmm_small 12)) vm_state))
      (echoes [] slip ++ [NEWLINE]) (text "ls" ++ 0 :: junk, []) (with_keys k' (quiet_world (boot_machine (pmm_small 12)) vm_state)) /\
    kbd_wf k' /\ typed k' = [] /\ shift_held k' = shift_held (typed_ahead (slip ++ [NEWLINE])).
Proof.
  intros read. destruct (read_line_correct slow_uart 2 1 65536 no_syscall no_handler no_run no_user_handler (replicate 256 0) eq_refl) as [H1 H2].
  split; [exact H1|]. destruct (typed_ahead_ok (slip ++ [NEWLINE])) as (Hk & Ht & Hs); [by vm_compute; lia|].
  apply (H2 (quiet_world (boot_machine (pmm_small 12)) vm_state) (typed_ahead (slip ++ [NEWLINE])) slip [] 5%nat []);
    [apply slow_uart_responsive|done|apply slow_uart_silent|apply quiet_idle|done|done| |by vm_compute; lia]. rewrite Hs. by repeat constructor.
Defined.

Lemma typed_command_correct_witness :
  let w := quiet_world (boot_machine (pmm_small 12)) vm_state in
  exists k' junk, prints (shell_turn slow_uart 2 1 65536 no_syscall no_handler no_run no_user_handler 1048576
      quiet_registers (Segments 8 16 16 16 16 24) (fun _ => 0) (fun _ => false) (replicate 5 [] ++ []) (replicate 256 0))
      (with_keys (typed_ahead (slip ++ [NEWLINE])) w)
      (text "shell> " ++ echoes [] slip ++ [NEWLINE] ++ (text "boot/" ++ [NEWLINE] ++ text "kernel/" ++ [NEWLINE] ++ text "tools/" ++
        [NEWLINE] ++ text "README.md" ++ [NEWLINE])) (true, text "ls" ++ 0 :: junk, []) (with_keys k' w) /\
    kbd_wf k' /\ typed k' = [].
Proof.
  intros w. destruct (typed_ahead_ok (slip ++ [NEWLINE])) as (Hk & Ht & Hs); [by vm_compute; lia|].
  apply (typed_command_correct slow_uart 2 1 65536 no_syscall no_handler no_run no_user_handler 1048576
    quiet_registers (Segments 8 16 16 16 16 24) (fun _ => 0) (fun _ => false) (replicate 256 0) w w (typed_ahead (slip ++ [NEWLINE])) slip [] []);
    [apply slow_uart_responsive|done|apply slow_uart_silent|done|apply quiet_idle|apply quiet_idle|done|done|rewrite Hs; by repeat constructor|].
  intros k' junk _ _. apply (prints_runs slow_uart 2 1); [apply slow_uart_responsive|done|]. change (runs slow_uart 2 1 (stay (cmd_ls slow_uart 2 1)) (with_keys k' w)
    (text "boot/" ++ [NEWLINE] ++ text "kernel/" ++ [NEWLINE] ++ text "tools/" ++ [NEWLINE] ++ text "README.md" ++ [NEWLINE]) true (with_keys k' w)).
  apply runs_stay. unfold cmd_ls. cbn [say_lines]. eapply runs_eq; [run|]. rewrite ?app_nil_r, <- ?app_assoc. reflexivity.
Defined.
