(* ===== verification/Boot.v ===== *)
(** * The kernel from its entry to its halt: [kernel_main] of kernel/src/main.c

    The initialisation of the components in the order of the source, over the
    whole kernel ([cmd], World.v), the wait for a key, the shell, and the halt.
    What the entry code and the boot loader leave (the memory with the multiboot
    structure, the registers, the addresses the linker chose) are parameters. *)

From S2P Require Import Prelude Interfaces Memory HeapInterface Pmm Kmalloc Heap Ring Chain Signals Keyboard Paging Process Serial Idt Gdt Syscall Timer Interrupts Terminal Text Panic Vmalloc HeapDump World Shell.

Definition MULTIBOOT_BOOTLOADER_MAGIC : Z := 732803074.

Definition HEADER : list (list Z) := map text [
  "    AAAA    N   N  TTTTT  H   H  RRRR   OOO  DDDD   RRRR  ";
  "   A    A   NN  N    T    H   H  R   R O   O D   D  R   R ";
  "   AAAAAA   N N N    T    HHHHH  RRRR  O   O D   D  RRRR  ";
  "   A    A   N  NN    T    H   H  R  R  O   O D   D  R  R  ";
  "   A    A   N   N    T    H   H  R   R  OOO  DDDD   R   R ";
  EmptyString;
  "           Anthrodr - KFS-5 (Processes, Scheduling, Memory)      ";
  EmptyString]%string.

(** The fields of the structure at [mbi] the kernel reads. *)
Definition read_multiboot (m : mem) (mbi : Z) : multiboot_info := {|
  mb_flags := load32 m mbi;
  mem_upper := load32 m (mbi + 8);
  mmap_length := load32 m (mbi + 44);
  mmap_addr := load32 m (mbi + 48);
|}.

Definition interrupts_enable (g : sig_state) : sig_state :=
  SigState (signal_handlers g) (pending_signals g) (Z.lor (Signals.eflags g) EFLAGS_IF).

Definition set_color (color : Z) (t : terminal) : terminal :=
  Term (scroll_buffer t) (VGA_MEMORY t) (terminal_row t) (terminal_column t) color (scroll_offset t) (ports t).

(** What [kernel_main] leaves besides the world of the shell: the descriptors and
    the segment registers, [g_multiboot_info]; and, at the end, the context saved
    for the panics. *)
Record started := Started {
  gdt_loaded : gdt;
  segments_loaded : segment_registers;
  g_multiboot_info : Z;
}.
Definition get_multiboot_info (s : started) : Z := g_multiboot_info s.

(** The addresses the linker chose. *)
Record linked := Linked {
  interrupt_stub_table : Z -> Z;
  isr128 : Z;
  idt_entries_at : Z;
  kernel_start : Z;
  kernel_end : Z;
  kernel_page_directory : Z;
  kernel_page_tables : Z;
  process_page_directories : Z;
  stack_bottom : Z;
  stack_top : Z;
  shell_handler_at : Z;
}.

Section boot.
Context (device : trace -> Z -> Z) (polls : nat) (at_ : linked).
Context (other_syscall : Z -> Z -> Z -> Z -> Z -> pstate pmm -> outcome (Z * pstate pmm)).
Context (other_handler : Z -> cpu_registers -> trace -> kernel pmm -> outcome (cpu_registers * trace * kernel pmm)).
Context (user_run : Z -> Z -> pstate pmm -> outcome (pstate pmm)).
Context (user_handler : Z -> Z -> Z -> Z -> pstate pmm -> pstate pmm).
Context (cpu : cpu_registers) (saved_esp : process -> Z) (held : Z -> bool).

(** ** The initialisation functions on their part of the state *)

Definition on_idt_and_ports (f : idt -> trace -> idt * trace) : cmd unit := fun w =>
  let '(i, t) := f (descriptors w) (ports (screen w)) in
  Ret (tt, with_descriptors i (with_screen (with_ports t (screen w)) w)).

Definition start_gdt (g : gdt) : cmd (gdt * segment_registers) := fun w =>
  let '(g, m, segs) := init_gdt g (pmem (machine_of w)) in
  Ret ((g, segs), with_mach (with_pmem m (machine_of w)) w).

Definition start_syscalls : cmd unit := modify (fun w =>
  let '(table, i) := syscall_init_idt (syscall_table (kern w)) (descriptors w) in
  with_descriptors i (with_kern (Kernel (procs (kern w)) (keys (kern w)) (sigs (kern w)) (clock (kern w)) table) w)).

(** The loop over the memory map reads at least 4 bytes of it each time. *)
Definition start_frames (mbi : Z) : cmd unit := fun w =>
  let m := pmem (machine_of w) in
  let info := read_multiboot m mbi in
  p ← pmm_init (kernel_start at_) (kernel_end at_) (Datatypes.S (Z.to_nat (mmap_length info))) m info;
  Ret (tt, with_mach (with_frames p (machine_of w)) w).

Definition start_heap : cmd unit := modify (fun w =>
  let '(h, p) := kmalloc_init (kernel_end at_) (vheap (vm w)) (frames (machine_of w)) in
  with_vm (with_heap h (vm w)) (with_mach (with_frames p (machine_of w)) w)).

Definition start_timer (frequency : Z) : cmd unit := fun w =>
  let '(tm, i, t) := timer_init device frequency (clock (kern w)) (descriptors w) (ports (screen w)) in
  Ret (tt, with_descriptors i (with_screen (with_ports t (screen w)) (with_kern
    (Kernel (procs (kern w)) (keys (kern w)) (sigs (kern w)) tm (syscall_table (kern w))) w))).

Definition start_keyboard : cmd unit := fun w =>
  '(kb, i, t) ← init_keyboard_irq device polls (keys (kern w)) (descriptors w) (ports (screen w));
  Ret (tt, with_descriptors i (with_screen (with_ports t (screen w)) (with_keys kb w))).

Section enabled.
Context (serial_enabled : Z).

#[local] Abbreviation put := (put device polls serial_enabled).
#[local] Abbreviation say := (say device polls serial_enabled).
#[local] Abbreviation say_line := (say_line device polls serial_enabled).
#[local] Abbreviation newline := (newline device polls serial_enabled).

Definition print_kernel_stack : cmd unit :=
  let stack_low := stack_bottom at_ in
  let stack_high := stack_top at_ in
  newline;; say_line "=== Kernel Stack ===";;
  say "Range: 0x";; put (print_hex stack_low);; say " - 0x";; put (print_hex stack_high);;
  newline;; say "ESP: 0x";; put (print_hex (esp cpu));; say "  EBP: 0x";; put (print_hex (ebp cpu));; newline;;
  (if (stack_low <=? esp cpu) && (esp cpu <=? stack_high) then
     say "Used bytes: ";; put (print_memory_size (u32 (stack_high - esp cpu)));; newline
   else say_line "Stack pointer is outside the configured stack range");;
  say_line "Stack contents (64 bytes from ESP):";;
  m ← gets machine_of;
  if mapped_range m (esp cpu) 64 then put (print_stack_dump (byte_at m) (esp cpu) 64) else fail "Page Fault".

(** ** [kernel_main], up to the first wait *)

Definition start_kernel (magic mbi : Z) (g : gdt) : cmd started :=
  on_screen terminal_initialize;;
  '(g, segs) ← start_gdt g;
  on_screen (print_header HEADER);;
  on_screen (set_color (vga_entry_color VGA_COLOR_WHITE VGA_COLOR_BLACK));;
  newline;; say_line "Welcome to KFS-5!";;
  say_line "42 School Kernel From Scratch - v5.0";; newline;;
  if negb (magic =? MULTIBOOT_BOOTLOADER_MAGIC) then fail "Invalid multiboot magic number!" else
  say_line "Initializing Interrupt Descriptor Table...";;
  on_idt_and_ports (idt_init device (interrupt_stub_table at_) (isr128 at_) (idt_entries_at at_));;
  say_line "  IDT ready (PIC remapped)";;
  say_line "Initializing Signal Callback Interface...";;
  modify (fun w => with_sigs (signals_init (sigs (kern w))) w);;
  say_line "  Signal scheduler ready";;
  say_line "Initializing Syscall Interface...";;
  start_syscalls;;
  say_line "  int 0x80 handler ready";;
  say_line "Initializing Physical Memory Manager...";;
  start_frames mbi;;
  say "  Total memory: ";;
  total ← gets (fun w => pmm_get_total_memory (frames (machine_of w))); put (print_memory_size total);;
  newline;; say "  Free memory: ";;
  available ← gets (fun w => pmm_get_free_memory (frames (machine_of w))); put (print_memory_size available);;
  newline;; say_line "Initializing Paging...";;
  on_machine (paging_init (kernel_page_directory at_) (kernel_page_tables at_));;
  say_line "  Paging enabled (identity mapping)";;
  say_line "Initializing Kernel Heap...";;
  start_heap;;
  say_line "  Kernel heap ready";;
  say_line "Initializing Virtual Memory Allocator...";;
  modify (fun w => with_vm (vmalloc_init (vm w)) w);;
  say_line "  VMalloc ready";;
  say_line "Initializing Process Interface...";;
  on_procs (fun s => s ← process_init (process_page_directories at_) s; Ret (tt, s));;
  say_line "  Kernel process ready";;
  say_line "Initializing Multitasking Scheduler...";;
  modify (fun w => with_procs (scheduler_init (procs (kern w))) w);;
  start_timer 50;;
  say_line "  Scheduler and CPU tick ready";;
  newline;; say_line "Memory initialization complete!";;
  say_line "Printing kernel stack info:";;
  print_kernel_stack;;
  newline;; say "Press any key to continue...";;
  say_line "Initializing IDT keyboard handling...";;
  start_keyboard;;
  say_line "  Keyboard IRQ1 ready";;
  say_line "Enabling interrupts...";;
  modify (fun w => with_sigs (interrupts_enable (sigs (kern w))) w);;
  say_line "  Interrupts enabled";;
  mret (Started g segs mbi).

(** ** The first key, the shell, the halt *)

#[local] Abbreviation interrupts := (interrupts device (process_page_directories at_) other_syscall other_handler).
#[local] Abbreviation dispatch_signals := (dispatch_signals device polls serial_enabled).

(** The interrupts of an [arrival] come before each test; [stuck] when it is
    still waiting after the last. *)
Fixpoint wait_input (arrivals : list arrival) : cmd (list arrival) :=
  match arrivals with
  | [] => stuck
  | irqs :: arrivals =>
      interrupts irqs;;
      typed ← gets (fun w => keyboard_has_char (keys (kern w)));
      received ← (if typed then mret false else io (fun t => Ret (serial_has_data device serial_enabled t)));
      if (typed : bool) || (received : bool) then mret arrivals else
      dispatch_signals;; run_pending user_run user_handler 1;; wait_input arrivals
  end.

(** [keyboard_getchar], halted between the interrupts. *)
Fixpoint getchar (arrivals : list arrival) : cmd (Z * list arrival) :=
  c ← (fun w => let '(c, kb, g) := keyboard_try_read_char (keys (kern w)) (sigs (kern w)) in
                Ret (c, with_sigs g (with_keys kb w)));
  match c with
  | Some c => mret (c, arrivals)
  | None => match arrivals with [] => stuck | irqs :: arrivals => interrupts irqs;; getchar arrivals end
  end.

Definition first_key (arrivals : list arrival) : cmd (list arrival) :=
  arrivals ← wait_input arrivals;
  received ← io (fun t => Ret (serial_has_data device serial_enabled t));
  if (received : bool) then io (serial_read_char device polls serial_enabled);; mret arrivals
  else '(_, arrivals) ← getchar arrivals; mret arrivals.

(** The context saved for a halt without a panic; interrupts off, for ever. *)
Definition halt (last : panic_context) : cmd panic_context :=
  m ← gets (fun w => pmem (machine_of w));
  modify (fun w => with_sigs (interrupts_disable (sigs (kern w))) w);;
  mret (panic_save_context (stack_bottom at_) (stack_top at_) m cpu None last).

Definition run_kernel (s : started) (last : panic_context) (arrivals : list arrival) (buffer : list Z)
    : cmd panic_context :=
  arrivals ← first_key arrivals;
  on_screen terminal_initialize;;
  on_screen (print_header HEADER);;
  newline;; say_line "Type 'help' for available commands.";; newline;;
  shell_run device polls serial_enabled (process_page_directories at_) other_syscall other_handler user_run user_handler
    (shell_handler_at at_) cpu (segments_loaded s) saved_esp held arrivals buffer;;
  newline;; newline;; say_line "System halted.";;
  halt last.
End enabled.

(** [serial_init] first, which says whether there is a line to write to. *)
Definition boot (magic mbi : Z) (g : gdt) : cmd (Z * started) :=
  serial_enabled ← io (fun t => Ret (serial_init t));
  s ← start_kernel serial_enabled magic mbi g;
  mret (serial_enabled, s).

Definition kernel_main (magic mbi : Z) (g : gdt) (last : panic_context) (arrivals : list arrival) (buffer : list Z)
    : cmd panic_context :=
  '(serial_enabled, s) ← boot magic mbi g;
  run_kernel serial_enabled s last arrivals buffer.
End boot.
