(* ===== verification/Booted.v ===== *)
(** * What the boot establishes

    [start_kernel] (Boot.v) from a plausible machine to the first wait: it
    returns, and the system it leaves satisfies at once the invariants of all the
    components, from which the theorems of the other files start. *)

From S2P Require Import Prelude Interfaces Memory HeapInterface Pmm Kmalloc Heap Ring Chain Signals Keyboard Paging Process ProcessSpace ProcessTable ProcessLife Serial Idt Gdt Syscall Timer Interrupts Terminal Text Panic LiveSpace Vmalloc Regions HeapDump World Shell Boot.

(** ** Programs that end, whatever is on the screen

    [ends c w a w']: on any screen, with a serial line that has been set up, [c]
    returns [a] and leaves [w'] but for the screen and the ports. *)

Section ends.
Context (device : trace -> Z -> Z) (polls : nat).
Implicit Types (w : world) (t : terminal).

Definition ends {A} (c : cmd A) w (a : A) w' : Prop := forall t, sane (ports t) ->
  exists t', sane (ports t') /\ c (with_screen t w) = Ret (a, with_screen t' w').

Lemma ends_ret {A} (a : A) w : ends (mret a) w a w.
Proof. intros t Ht. by exists t. Qed.

Lemma ends_bind {A B} (c : cmd A) (f : A -> cmd B) w a w1 b w2 : ends c w a w1 -> ends (f a) w1 b w2 -> ends (c ≫= f) w b w2.
Proof.
  intros H1 H2 t Ht. destruct (H1 t Ht) as (t1 & Ht1 & E1). destruct (H2 t1 Ht1) as (t2 & Ht2 & E2). exists t2.
  split; [done|]. unfold mbind at 1, cmd_bind. by rewrite E1.
Qed.

Lemma sane_line p q : line_of p = line_of q -> sane q -> sane p.
Proof. unfold sane. by intros ->. Qed.

Lemma ends_on_screen f w : (forall t, line_of (ports (f t)) = line_of (ports t)) -> ends (on_screen f) w tt w.
Proof. intros H t Ht. exists (f t). split; [by apply (sane_line _ (ports t)), Ht; apply H|done]. Qed.

Lemma ends_modify f w w' : w' = f w -> (forall t, f (with_screen t w) = with_screen t (f w)) -> ends (modify f) w tt w'.
Proof. intros -> H t Ht. exists t. split; [done|]. unfold modify. by rewrite H. Qed.

Lemma ends_gets {A} (f : world -> A) w : (forall t, f (with_screen t w) = f w) -> ends (gets f) w (f w) w.
Proof. intros H t Ht. exists t. split; [done|]. unfold gets. by rewrite H. Qed.

Lemma ends_on_machine f w m : f (machine_of w) = Ret m -> ends (on_machine f) w tt (with_mach m w).
Proof.
  intros E t Ht. exists t. split; [done|]. unfold on_machine. change (machine_of (with_screen t w)) with (machine_of w). by rewrite E.
Qed.

Lemma ends_on_procs {A} (f : pstate pmm -> outcome (A * pstate pmm)) w a s : f (procs (kern w)) = Ret (a, s) ->
  ends (on_procs f) w a (with_procs s w).
Proof. intros E t Ht. exists t. split; [done|]. unfold on_procs. cbn [kern with_screen]. by rewrite E. Qed.

(** Writing on the serial line as well: it answers in time. *)
Context (Hr : responsive device polls).

Lemma transmit_ends c p : sane p -> exists p', transmit device polls c p = Ret p' /\ sane p'.
Proof.
  intros Hs. assert (transmit device polls c p = transmit device polls (u8 c) p) as ->.
  { unfold transmit, outb. by rewrite (u8_id (u8 c)) by apply Z.mod_pos_bound, eq_refl. }
  destruct (transmit_spec device polls (u8 c) p Hr Hs) as (p' & E & Hs' & _); [by apply Z.mod_pos_bound|by exists p'].
Qed.

Lemma putchar_ends c t : sane (ports t) ->
  exists t', terminal_putchar device polls 1 c t = Ret t' /\ sane (ports t').
Proof.
  intros Hs. unfold terminal_putchar, serial_write_char. cbn [Z.eqb].
  assert (exists p, (if c =? NEWLINE then t ← transmit device polls RETURN (ports t); transmit device polls (u8 c) t
    else if c =? BACKSPACE then t ← transmit device polls BACKSPACE (ports t); t ← transmit device polls SPACE t; transmit device polls BACKSPACE t
    else transmit device polls (u8 c) (ports t)) = Ret p /\ sane p) as (p & -> & Hp).
  { destruct (c =? NEWLINE); [|destruct (c =? BACKSPACE)]; [| |by apply transmit_ends].
    - destruct (transmit_ends RETURN _ Hs) as (p1 & -> & H1). cbn [mbind outcome_bind]. by apply transmit_ends.
    - destruct (transmit_ends BACKSPACE _ Hs) as (p1 & -> & H1). cbn [mbind outcome_bind].
      destruct (transmit_ends SPACE _ H1) as (p2 & -> & H2). cbn [mbind outcome_bind]. by apply transmit_ends. }
  eexists. split; [reflexivity|]. eapply sane_line; [apply screen_putchar_line|done].
Qed.

Lemma write_ends str t : sane (ports t) -> exists t', terminal_write device polls 1 str t = Ret t' /\ sane (ports t').
Proof.
  revert t. induction str as [|c str IH]; intros t Hs; [by exists t|]. cbn [terminal_write]. destruct (c =? 0); [by exists t|].
  destruct (putchar_ends c t Hs) as (t1 & -> & H1). cbn [mbind outcome_bind]. by apply IH.
Qed.

Lemma ends_put str w : ends (put device polls 1 str) w tt w.
Proof.
  intros t Hs. destruct (write_ends str t Hs) as (t' & E & Ht). exists t'. split; [done|]. unfold put.
  cbn [screen with_screen]. by rewrite E.
Qed.
End ends.

(** *** Port accesses that are none of the serial line *)

Lemma print_header_line header t : line_of (ports (print_header header t)) = line_of (ports t).
Proof.
  unfold print_header. cbn [ports with_cursor]. apply (for_range_ind _ (fun _ t' => line_of (ports t') = line_of (ports t))); [unfold lenZ; lia|done|].
  intros i t1 _ H1. unfold terminal_writestr_centered.
  apply (for_range_ind _ (fun _ t' => line_of (ports t') = line_of (ports t))); [unfold lenZ; lia|done|].
  intros j t2 _ H2. by rewrite putchar_at_line.
Qed.

Lemma initialize_line t : line_of (ports (terminal_initialize t)) = line_of (ports t).
Proof. unfold terminal_initialize. by rewrite update_cursor_line. Qed.

Section ports.
Context (device : trace -> Z -> Z) (polls : nat).

Lemma clear_mask_line irq p : line_of (pic_clear_mask device irq p) = line_of p.
Proof.
  unfold pic_clear_mask, pic_line, inb, outb. destruct (irq <? 8); rewrite !line_of_snoc; by destruct (line_of p).
Qed.

Lemma idt_init_line stub isr at_ i p : line_of (idt_init device stub isr at_ i p).2 = line_of p.
Proof.
  unfold idt_init, pic_remap, io_wait, inb, outb. cbn [snd]. rewrite !line_of_snoc. by destruct (line_of p).
Qed.

Lemma timer_init_line frequency tm i p : line_of (timer_init device frequency tm i p).2 = line_of p.
Proof.
  unfold timer_init. cbn [snd]. rewrite !clear_mask_line. unfold outb. rewrite !line_of_snoc. by destruct (line_of p).
Qed.

Lemma drain_line n : forall p p', drain_keyboard device n p = Ret p' -> line_of p' = line_of p.
Proof.
  induction n as [|n IH]; intros p p'; [done|]. cbn [drain_keyboard]. unfold inb.
  destruct (Z.land _ 1 =? 0).
  - intros [= <-]. rewrite line_of_snoc. by destruct (line_of p).
  - intros H%IH. rewrite H. cbn [snd]. rewrite !line_of_snoc. by destruct (line_of p).
Qed.
End ports.

(** ** The steps of the boot *)

Section steps.
Context (device : trace -> Z -> Z) (polls : nat) (at_ : linked) (cpu : cpu_registers).
Context (Hr : responsive device polls).
(** The keyboard controller has few bytes waiting. *)
Context (Hdrain : forall p, exists p', drain_keyboard device polls p = Ret p').
Implicit Types (w : world) (t : terminal).
#[local] Abbreviation ends := (@ends _).

Lemma ends_idt f w i : (forall p, (f (descriptors w) p).1 = i /\ line_of (f (descriptors w) p).2 = line_of p) ->
  ends (on_idt_and_ports f) w tt (with_descriptors i w).
Proof.
  intros H t Ht. unfold on_idt_and_ports. cbn [descriptors screen with_screen]. destruct (H (ports t)) as [E1 E2].
  destruct (f (descriptors w) (ports t)) as [i' p]. cbn [fst snd] in *. subst i'. exists (with_ports p t).
  split; [by apply (sane_line _ (ports t))|done].
Qed.

Lemma ends_idt_init stub isr entries w : ends (on_idt_and_ports (idt_init device stub isr entries)) w tt
  (with_descriptors (idt_init device stub isr entries (descriptors w) []).1 w).
Proof. apply ends_idt. intros p. split; [reflexivity|apply idt_init_line]. Qed.

Lemma ends_start_gdt g w :
  let '(g', m, segs) := init_gdt g (pmem (machine_of w)) in
  ends (start_gdt g) w (g', segs) (with_mach (with_pmem m (machine_of w)) w).
Proof.
  destruct (init_gdt g _) as [[g' m] segs] eqn:E. intros t Ht. exists t. split; [done|]. unfold start_gdt.
  change (machine_of (with_screen t w)) with (machine_of w). by rewrite E.
Qed.

Lemma ends_start_frames mbi w p : let m := pmem (machine_of w) in
  pmm_init (kernel_start at_) (kernel_end at_) (S (Z.to_nat (mmap_length (read_multiboot m mbi)))) m (read_multiboot m mbi) = Ret p ->
  ends (start_frames at_ mbi) w tt (with_mach (with_frames p (machine_of w)) w).
Proof.
  intros m E t Ht. exists t. split; [done|]. unfold start_frames. change (machine_of (with_screen t w)) with (machine_of w).
  fold m. by rewrite E.
Qed.

Definition syscalls_at w : world :=
  with_descriptors (idt_register_handler SYSCALL_VECTOR (Some syscall_interrupt) (descriptors w)) (with_kern (Kernel
    (procs (kern w)) (keys (kern w)) (sigs (kern w)) (clock (kern w)) (syscall_init (syscall_table (kern w)))) w).
Lemma ends_start_syscalls w : ends start_syscalls w tt (syscalls_at w).
Proof. by apply ends_modify. Qed.

Definition heap_at_boot w : world :=
  let r := kmalloc_init (kernel_end at_) (vheap (vm w)) (frames (machine_of w)) in
  with_vm (with_heap r.1 (vm w)) (with_mach (with_frames r.2 (machine_of w)) w).
Lemma ends_start_heap w : ends (start_heap at_) w tt (heap_at_boot w).
Proof. by apply ends_modify. Qed.

Definition timer_at (frequency : Z) w : world :=
  with_descriptors (idt_register_handler IRQ0_VECTOR (Some timer_interrupt) (descriptors w)) (with_kern (Kernel (procs (kern w))
    (keys (kern w)) (sigs (kern w)) (PitState (pit_ticks (clock (kern w))) frequency) (syscall_table (kern w))) w).

Lemma ends_start_timer w : ends (start_timer device 50) w tt (timer_at 50 w).
Proof.
  intros t Ht. unfold start_timer. cbn [descriptors screen with_screen kern ports].
  pose proof (timer_init_line device 50 (clock (kern w)) (descriptors w) (ports t)) as Hl.
  destruct (timer_init device 50 (clock (kern w)) (descriptors w) (ports t)) as [[tm i] p] eqn:E. cbn [snd] in Hl.
  unfold timer_init in E. injection E as <- <- _. exists (with_ports p t). split; [by apply (sane_line _ (ports t))|done].
Qed.

Definition keyboard_at w : world :=
  with_descriptors (idt_register_handler IRQ1_VECTOR (Some keyboard_interrupt) (descriptors w))
    (with_keys (Keyboard.init_keyboard (keys (kern w))) w).

Lemma ends_start_keyboard w : ends (start_keyboard device polls) w tt (keyboard_at w).
Proof.
  intros t Ht. unfold start_keyboard, init_keyboard_irq. cbn [descriptors screen with_screen kern].
  destruct (Hdrain (ports t)) as (p & E). rewrite E. apply drain_line in E. cbn [mbind outcome_bind].
  exists (with_ports (pic_clear_mask device 2 (pic_clear_mask device 1 p)) t). split; [|done].
  apply (sane_line _ (ports t)); [|done]. cbn [ports with_ports]. by rewrite !clear_mask_line.
Qed.

Lemma ends_print_stack w : mapped_range (machine_of w) (esp cpu) 64 = true ->
  ends (print_kernel_stack device polls at_ cpu 1) w tt w.
Proof.
  intros Hm. unfold print_kernel_stack. do 12 (eapply ends_bind; [by apply ends_put|]).
  eapply ends_bind.
  { destruct (_ && _); [|by apply ends_put]. do 2 (eapply ends_bind; [by apply ends_put|]). by apply ends_put. }
  eapply ends_bind; [by apply ends_put|]. eapply ends_bind; [by apply ends_gets|]. rewrite Hm. by apply ends_put.
Qed.
End steps.

(** ** A machine the kernel can start on *)

Section booted.
Context (at_ : linked) (cpu : cpu_registers) (w0 : world) (g : gdt) (mbi : Z).
#[local] Abbreviation kd := (kernel_page_directory at_).
#[local] Abbreviation kt := (kernel_page_tables at_).
#[local] Abbreviation pd := (process_page_directories at_).

(** The memory once the descriptors have been copied to it, and what the boot
    loader says in it. *)
Definition boot_memory : mem := (init_gdt g (pmem (machine_of w0))).1.2.
Definition boot_info : multiboot_info := read_multiboot boot_memory mbi.

Definition heap_area : Z := PAGE_ALIGN_UP (kernel_end at_ + 65536).

(** The tables of the linker script: page aligned, in the image, apart; the heap
    of 8 MB after it fits in the first 16 MB, and in the memory there is. *)
Record layout : Prop := {
  ly_image : 1048576 <= kernel_start at_ < kernel_end at_ /\ kernel_end at_ < 8388608;
  ly_aligned : kd mod 4096 = 0 /\ kt mod 4096 = 0 /\ pd mod 4096 = 0;
  ly_inside : kernel_start at_ <= Z.min kd (Z.min kt pd) /\
    Z.max (kd + 4096) (Z.max (kt + 16384) (pd + 65536)) <= kernel_end at_;
  ly_apart : apart_from (kd, 4096) (kt, 16384) /\ apart_from (kd, 4096) (pd, 65536) /\ apart_from (kt, 16384) (pd, 65536);
  ly_heap : heap_area + 8388608 <= LOW_MEMORY /\ heap_area + 8388608 <= detect_memory boot_info;
  ly_stack : 0 <= esp cpu /\ esp cpu + 64 <= LOW_MEMORY;
}.

(** The variables as the loader clears them, and a memory map that ends. *)
Record plausible (es : list mmap_entry) : Prop := {
  pl_paging : pg (machine_of w0) = false;
  pl_handlers : lenZ (interrupt_handlers (descriptors w0)) = 256;
  pl_signals : lenZ (rb_buf (pending_signals (sigs (kern w0)))) = SIGNAL_QUEUE_CAPACITY;
  pl_keys : lenZ (rb_buf (keyboard_buffer (keys (kern w0)))) = KEYBOARD_BUFFER_SIZE;
  pl_pid : 1 <= next_pid (procs (kern w0)) < 4294967295;
  pl_map : Z.land (mb_flags boot_info) MULTIBOOT_INFO_MEM_MAP <> 0 /\ 0 <= mmap_addr boot_info /\ 0 <= mmap_length boot_info /\
    mmap_addr boot_info + mmap_length boot_info < 4294967296;
  pl_walk : mmap_walk boot_memory (mmap_addr boot_info + mmap_length boot_info) (mmap_addr boot_info) es;
  pl_entries : Forall entry_nowrap es;
}.

(** Which frames are in use after the boot. *)
Definition used_at_boot (es : list mmap_entry) (f : Z) : bool :=
  negb (existsb (fun e => entry_frees e f) es) || meets 0 1048576 f ||
  meets (kernel_start at_) (kernel_end at_ - kernel_start at_) f || meets (kernel_end at_) 65536 f || meets heap_area 8388608 f.

(** What the boot establishes: the invariants of the components, at once. *)
Record booted_system (es : list mmap_entry) (w : world) : Prop := {
  bs_interrupts : kernel_idt (descriptors w);
  bs_syscalls : syscall_table (kern w) = syscall_init (syscall_table (kern w0));
  bs_signals : sig_wf (sigs (kern w)) /\ pending (sigs (kern w)) = [] /\ interrupts_enabled (sigs (kern w)) = true;
  bs_keys : kbd_wf (keys (kern w)) /\ typed (keys (kern w)) = [];
  bs_clock : pit_frequency (clock (kern w)) = 50;
  bs_frames : total_frames (frames (machine_of w)) = detect_memory boot_info / 4096 /\
    forall f, 0 <= f < total_frames (frames (machine_of w)) -> is_used (frames (machine_of w)) f = used_at_boot es f;
  bs_memory : vm_ok [kd] (machine_of w) (vm w) [] [];
  bs_processes : table_ok [0] (procs (kern w)) /\ spaces_ok pd kd [0] (procs (kern w)) /\ current_process (procs (kern w)) = 0;
  bs_scheduler : scheduler_enabled (procs (kern w)) = true /\ pending_scheduler_ticks (procs (kern w)) = 0;
}.

Section proof.
Context (es : list mmap_entry) (Hl : layout) (Hp : plausible es).

Lemma heap_area_bounds : kernel_end at_ + 65536 <= heap_area /\ heap_area mod 4096 = 0 /\ heap_area + 8388608 <= LOW_MEMORY.
Proof.
  destruct (ly_heap Hl) as [H _]. pose proof (ly_image Hl) as Hi. unfold heap_area in *.
  rewrite PAGE_ALIGN_UP_eq in * by lia. split; [divlia|]. split; [divlia|done].
Qed.

Definition boot_frames (p : pmm) : Prop := pmm_ok p /\ total_frames p = detect_memory boot_info / 4096 /\
  forall f, 0 <= f < total_frames p -> is_used p f =
    negb (existsb (fun e => entry_frees e f) es) || meets 0 1048576 f ||
    meets (kernel_start at_) (kernel_end at_ - kernel_start at_) f || meets (kernel_end at_) 65536 f.

Lemma boot_total : heap_area + 8388608 <= 4096 * (detect_memory boot_info / 4096).
Proof. destruct heap_area_bounds as (_ & Ha & _). destruct (ly_heap Hl) as [_ H]. divlia. Qed.

Lemma frames_started : exists p, pmm_init (kernel_start at_) (kernel_end at_) (S (Z.to_nat (mmap_length boot_info)))
  boot_memory boot_info = Ret p /\ boot_frames p.
Proof.
  destruct (pl_map _ Hp) as (Hf & Ha & Hlen & Hnw). pose proof (ly_image Hl) as Hi.
  destruct (pmm_init_spec (kernel_start at_) (kernel_end at_) boot_memory boot_info es (S (Z.to_nat (mmap_length boot_info)))
    Hf Ha Hlen Hnw (pl_walk _ Hp) (pl_entries _ Hp)) as (p & E & Hwf & Ht & Hu); [lia|lia|lia|].
  exists p. split; [done|]. split; [|done]. split; [done|]. pose proof boot_total. destruct heap_area_bounds as (? & _).
  rewrite Hu by lia. change (meets 0 1048576 0) with true. by rewrite orb_true_r.
Qed.

(** The pages of the image are in use. *)
Lemma image_used p q : boot_frames p -> q mod 4096 = 0 -> kernel_start at_ <= q < kernel_end at_ -> is_used p (q / 4096) = true.
Proof.
  intros (_ & Ht & Hu) Hq Hi. pose proof (ly_image Hl). pose proof boot_total. destruct heap_area_bounds as (? & _).
  rewrite Hu by (rewrite Ht; divlia). assert (meets (kernel_start at_) (kernel_end at_ - kernel_start at_) (q / 4096) = true) as ->.
  { unfold meets. apply andb_true_iff. rewrite !Z.ltb_lt. divlia. }
  by rewrite orb_true_r.
Qed.

(** The heap takes its frames. *)
Definition heap_frames (p : pmm) : pmm := pmm_mark_region_used p heap_area 8388608.

Lemma heap_frames_eq h p : (kmalloc_init (kernel_end at_) h p).2 = heap_frames p.
Proof.
  destruct heap_area_bounds as (H1 & _ & H2). pose proof (ly_image Hl). unfold kmalloc_init, heap_frames, LOW_MEMORY in *.
  rewrite (u32_id (kernel_end at_ + 65536)) by (unfold is_u32; lia). fold heap_area. change (8 * 1024 * 1024) with 8388608.
  rewrite (u32_id (heap_area + 8388608)) by (unfold is_u32; lia). cbn [snd].
  replace (heap_area + 8388608 - heap_area) with 8388608 by lia. reflexivity.
Qed.

Lemma heap_frames_ok p : boot_frames p -> pmm_ok (heap_frames p) /\ total_frames (heap_frames p) = total_frames p /\
  (forall f, 0 <= f < total_frames p -> is_used (heap_frames p) f = used_at_boot es f) /\
  (forall f, 0 <= f -> is_used p f = true -> is_used (heap_frames p) f = true) /\
  (forall q, q mod 4096 = 0 -> heap_area <= q < heap_area + 8388608 -> is_used (heap_frames p) (q / 4096) = true).
Proof.
  intros ([Hwf H0] & Ht & Hu). destruct heap_area_bounds as (Ha & Hal & Hlow). pose proof (ly_image Hl). unfold LOW_MEMORY in *.
  destruct (mark_used_meets p heap_area 8388608 Hwf) as (Hwf' & Ht' & _ & Hu'); [lia|lia|lia|]. fold (heap_frames p) in *.
  pose proof boot_total as Htot. rewrite <- Ht in Htot. split; [split; [done|rewrite Hu' by lia; by destruct (_ && _)]|].
  split; [done|]. split; [|split].
  - intros f Hf. rewrite Hu', Hu by lia. unfold used_at_boot. destruct (Z.ltb_spec f (total_frames p)); [|lia].
    rewrite andb_true_r. destruct (meets heap_area 8388608 f); [by rewrite orb_true_r|by rewrite orb_false_r].
  - intros f Hf E. rewrite Hu' by done. by destruct (_ && _).
  - intros q Hq Hr. rewrite Hu' by divlia. assert (meets heap_area 8388608 (q / 4096) && (q / 4096 <? total_frames p) = true) as ->; [|done].
    unfold meets. rewrite !andb_true_iff, !Z.ltb_lt. divlia.
Qed.

(** Paging, and the frames of the heap marked. *)
Record paged (p : pmm) (m : machine pmm) : Prop := {
  pa_space : space_wf [kd] m;
  pa_cr3 : cr3 m = kd /\ kernel_directory m = kd;
  pa_frames : frames m = heap_frames p;
  pa_absent k : 4 <= k < 1024 -> present_at (pmem m) kd k = false;
  pa_tables i : 0 <= i < 1024 -> present_at (pmem m) kd i = true -> table_at (pmem m) kd i = kt + 4096 * i;
}.

Lemma paging_started p m0 : boot_frames p -> pg m0 = false -> frames m0 = p ->
  exists m, paging_init kd kt m0 = Ret m /\ frames m = p /\ paged p (with_frames (heap_frames p) m).
Proof.
  intros Hb Hpg Hf. pose proof Hb as (Hok & _). destruct (ly_aligned Hl) as (H1 & H2 & _).
  destruct (ly_inside Hl) as [Hi1 Hi2]. pose proof (ly_image Hl) as Hi. destruct (ly_apart Hl) as (Ha & _).
  unfold apart_from in Ha. cbn [fst snd] in Ha. destruct (heap_frames_ok p Hb) as (Hok' & _ & _ & Hmono & _).
  destruct (paging_init_full kd kt m0 H1 H2 Hpg) as (m & E & Hwf & Hc & Hfr & _ & Hno & Hk & Htab);
    [unfold LOW_MEMORY; lia|lia|unfold LOW_MEMORY; lia|intros i Hii; lia|rewrite Hf; exact Hok| | |].
  - rewrite Hf. apply image_used; [exact Hb|exact H1|lia].
  - intros i Hii. rewrite Hf. replace (kt / 4096 + i) with ((kt + 4096 * i) / 4096) by divlia. apply image_used; [exact Hb|divlia|lia].
  - rewrite Hf in Hfr. exists m. split; [exact E|]. clear E. split; [exact Hfr|].
    split; [|by split|reflexivity|exact Hno|exact Htab].
    assert (with_frames (heap_frames p) m = with_pmem (pmem m) (with_frames (heap_frames p) m)) as -> by by destruct m.
    apply (space_wf_untouched [kd] m); [exact Hwf|done|exact Hok'|]. intros f Hf0 Hu. rewrite Hfr in Hu. by apply Hmono.
Qed.

Lemma bootable_started p m s : boot_frames p -> paged p m -> next_pid s = next_pid (procs (kern w0)) ->
  bootable pd kd (set_mach m s).
Proof.
  intros Hb Hpa Hn. destruct (ly_aligned Hl) as (H1 & H2 & H3). destruct (ly_inside Hl) as [Hi1 Hi2].
  pose proof (ly_image Hl) as Hi. destruct (ly_apart Hl) as (_ & Ha & Hb2). unfold apart_from in *. cbn [fst snd] in *.
  destruct (pa_cr3 _ _ Hpa) as [Hc Hk]. destruct (heap_frames_ok p Hb) as (_ & _ & _ & Hmono & _).
  split; [apply Hpa|]. split; [done|]. split; [done|]. split; [done|]. unfold LOW_MEMORY.
  split; [lia|]. split; [lia|]. split; [change (next_pid (set_mach m s)) with (next_pid s); rewrite Hn; apply (pl_pid _ Hp)|].
  intros q Hq. unfold page_directory_of, PROCESS_MAX_COUNT in *. cbn [mach set_mach]. split.
  - rewrite (pa_frames _ _ Hpa). apply Hmono; [apply Z.div_pos; lia|]. apply image_used; [done|divlia|lia].
  - split; [lia|]. intros i Hii Hpr. rewrite (pa_tables _ _ Hpa) by done.
    assert (i < 4) by (destruct (Z.lt_ge_cases i 4); [done|rewrite (pa_absent _ _ Hpa) in Hpr by lia; done]). lia.
Qed.

(** The memory of the running system. *)
Lemma memory_started p m m' h0 : boot_frames p -> paged p m -> untouched [kd] (pmem m) m' -> space_wf [kd] (with_pmem m' m) ->
  vm_ok [kd] (with_pmem m' m) (vmalloc_init (with_heap (kmalloc_init (kernel_end at_) (vheap h0) p).1 h0)) [] [].
Proof.
  intros Hb Hpa Hun Hwf. destruct heap_area_bounds as (Hh & Hal & Hlow). pose proof (ly_image Hl) as Hi.
  assert (u32 (heap_area + 8 * 1024 * 1024) = heap_area + 8388608) as Emax.
  { change (8 * 1024 * 1024) with 8388608. apply u32_id. unfold is_u32, LOW_MEMORY in *. lia. }
  split; [exact Hwf| | |by intros r ?%elem_of_nil|apply NoDup_nil_2|reflexivity|apply Z.le_refl|by split|by split|by intros r q ?%elem_of_nil|
    by intros r ? ? ?%elem_of_nil|apply NoDup_nil_2].
  - exists []. split; [|reflexivity]. apply (kmalloc_init_rep (kernel_end at_) (in_memory m' (vheap h0)) p). lia.
  - cbn [vheap vmalloc_init with_heap]. unfold kmalloc_init. rewrite (u32_id (kernel_end at_ + 65536)) by (unfold is_u32; lia).
    fold heap_area. cbn [fst]. rewrite Emax. split; [done|]. intros q Hq H1 H2.
    change (ha_start _) with heap_area in H1. change (ha_limit _) with (heap_area + 8388608) in H2.
    assert (heap_area <= q < heap_area + 8388608) as Hr by divlia. destruct (ly_inside Hl) as [Hi1 Hi2].
    destruct (heap_frames_ok p Hb) as (_ & _ & _ & _ & Hu). split.
    + done.
    + lia.
    + cbn [frames with_pmem]. rewrite (pa_frames _ _ Hpa). by apply Hu.
    + intros ->%list_elem_of_singleton. lia.
    + intros d k ->%list_elem_of_singleton Hk Hpr. cbn [pmem with_pmem] in *.
      destruct (untouched_at [kd] (pmem m) m' kd k Hun ltac:(set_solver) Hk) as [E1 E2]. rewrite E1 in Hpr. rewrite E2.
      rewrite (pa_tables _ _ Hpa) by done.
      assert (k < 4) by (destruct (Z.lt_ge_cases k 4); [done|rewrite (pa_absent _ _ Hpa) in Hpr by lia; done]). lia.
Qed.
End proof.
End booted.

(** ** The boot *)

Lemma kernel_idt_booted device stub isr at_ i : lenZ (interrupt_handlers i) = 256 ->
  kernel_idt (idt_register_handler IRQ1_VECTOR (Some keyboard_interrupt) (idt_register_handler IRQ0_VECTOR (Some timer_interrupt)
    (idt_register_handler SYSCALL_VECTOR (Some syscall_interrupt) (idt_init device stub isr at_ i []).1))).
Proof.
  intros Hl. destruct (idt_init_handlers device stub isr at_ i [] Hl) as [Hl1 H1]. intros v.
  rewrite !register_handlers by (unfold idt_register_handler, with_handlers; cbn [interrupt_handlers];
    rewrite ?lenZ_setZ, Hl1; done).
  rewrite H1. unfold IRQ1_VECTOR, IRQ0_VECTOR, SYSCALL_VECTOR.
  destruct (Z.eqb_spec v 33) as [->|]; [done|]. by destruct (Z.eqb_spec v 32) as [->|].
Qed.

Lemma mapped_low ds (m : machine pmm) (a n : Z) : space_wf ds m -> 0 <= a -> a + n <= LOW_MEMORY -> mapped_range m a n = true.
Proof.
  intros H Ha Hn. unfold mapped_range. apply forallb_forall. intros i Hi%list_elem_of_In. apply elem_of_seqZ in Hi.
  unfold LOW_MEMORY in *. rewrite u32_id by (unfold is_u32; lia). rewrite translate_low; [done|by eapply wf_windowed|unfold LOW_MEMORY; lia].
Qed.

(** The processes once the scheduler is on. *)
Lemma scheduler_started pd kd (s : pstate pmm) : table_ok [0] s -> spaces_ok pd kd [0] s ->
  table_ok [0] (scheduler_init s) /\ spaces_ok pd kd [0] (scheduler_init s).
Proof.
  intros H Hs. split; [|by apply (spaces_ok_same _ _ [0] s)]. eapply table_ok_ext; [exact H|done..| | |done].
  - change (scheduler_cursor (scheduler_init s)) with (kernel_process s). rewrite (lk_kernel _ _ (proj1 H)). set_solver.
  - apply (lk_current _ _ (proj1 H)).
Qed.

(** The signals and the keys. *)
Lemma signals_started s : lenZ (rb_buf (pending_signals s)) = SIGNAL_QUEUE_CAPACITY ->
  let s' := interrupts_enable (signals_init s) in sig_wf s' /\ pending s' = [] /\ interrupts_enabled s' = true.
Proof.
  intros H. destruct (signals_init_ok s H) as [[? Hw] Hn]. split; [split; [done|exact Hw]|]. split; [exact Hn|].
  unfold interrupts_enabled, interrupts_enable. cbn [Signals.eflags]. apply negb_true_iff, Z.eqb_neq. intros E.
  assert (Z.testbit (Z.land (Z.lor (Signals.eflags (signals_init s)) EFLAGS_IF) EFLAGS_IF) 9 = false) as Hb by by rewrite E.
  rewrite Z.land_spec, Z.lor_spec in Hb. change (Z.testbit EFLAGS_IF 9) with true in Hb. by rewrite orb_true_r in Hb.
Qed.

Lemma keys_started k : lenZ (rb_buf (keyboard_buffer k)) = KEYBOARD_BUFFER_SIZE ->
  kbd_wf (Keyboard.init_keyboard k) /\ typed (Keyboard.init_keyboard k) = [].
Proof.
  intros H. split; [|done]. unfold kbd_wf, fifo_ok. cbn. unfold ring_ok, KEYBOARD_BUFFER_SIZE in *. cbn. lia.
Qed.

Section boot.
Context (device : trace -> Z -> Z) (polls : nat) (at_ : linked) (cpu : cpu_registers) (w0 : world) (g : gdt).
Context (Hr : responsive device polls) (Hdrain : forall p, exists p', drain_keyboard device polls p = Ret p').

Ltac settle := cbv beta iota zeta delta [with_screen machine_of with_mach with_procs with_kern with_vm with_descriptors with_sigs with_keys timer_at keyboard_at syscalls_at heap_at_boot
  kern vm descriptors screen shell procs keys sigs clock syscall_table table process_head current_process kernel_process scheduler_cursor next_pid
  pending_scheduler_ticks total_scheduler_ticks total_context_switches scheduler_enabled cr3 pg tlb current_directory kernel_directory
  set_mach mach with_heap vheap vmalloc_current region_list total_regions total_pages_allocated vm_warnings pmem frames with_pmem with_frames].
Ltac settle_in H := cbv beta iota zeta delta [with_screen machine_of with_mach with_procs with_kern with_vm with_descriptors with_sigs with_keys timer_at keyboard_at syscalls_at heap_at_boot
  kern vm descriptors screen shell procs keys sigs clock syscall_table table process_head current_process kernel_process scheduler_cursor next_pid
  pending_scheduler_ticks total_scheduler_ticks total_context_switches scheduler_enabled cr3 pg tlb current_directory kernel_directory
  set_mach mach with_heap vheap vmalloc_current region_list total_regions total_pages_allocated vm_warnings pmem frames with_pmem with_frames] in H.
(** What only prints or reads. *)
Ltac boot_prints := repeat (eapply ends_bind;
  [lazymatch goal with
   | |- ends (say _ _ _ _) _ _ _ => apply (ends_put device polls Hr)
   | |- ends (say_line _ _ _ _) _ _ _ => apply (ends_put device polls Hr)
   | |- ends (newline _ _ _) _ _ _ => apply (ends_put device polls Hr)
   | |- ends (put _ _ _ _) _ _ _ => apply (ends_put device polls Hr)
   | |- ends (gets _) _ _ _ => apply ends_gets; intros; settle; reflexivity
   end|cbv beta]).
Ltac boot_step t := eapply ends_bind; [t|cbv beta]; settle; boot_prints.

(** The whole of it, from what the components do. *)
Lemma start_kernel_ends mbi es p m s1 :
  layout at_ cpu w0 g mbi -> plausible w0 g mbi es -> boot_frames at_ w0 g mbi es p ->
  pmm_init (kernel_start at_) (kernel_end at_) (S (Z.to_nat (mmap_length (boot_info w0 g mbi)))) (boot_memory w0 g) (boot_info w0 g mbi) = Ret p ->
  paging_init (kernel_page_directory at_) (kernel_page_tables at_) (with_frames p (with_pmem (boot_memory w0 g) (machine_of w0))) = Ret m ->
  frames m = p ->
  process_init (process_page_directories at_) (set_mach (with_frames (kmalloc_init (kernel_end at_) (vheap (vm w0)) p).2 m) (procs (kern w0))) = Ret s1 ->
  space_wf [kernel_page_directory at_] (mach s1) ->
  let h := (kmalloc_init (kernel_end at_) (vheap (vm w0)) p).1 in
  let i := idt_register_handler IRQ1_VECTOR (Some keyboard_interrupt) (idt_register_handler IRQ0_VECTOR (Some timer_interrupt)
    (idt_register_handler SYSCALL_VECTOR (Some syscall_interrupt)
      (idt_init device (interrupt_stub_table at_) (isr128 at_) (idt_entries_at at_) (descriptors w0) []).1)) in
  exists x, ends (start_kernel device polls at_ cpu 1 MULTIBOOT_BOOTLOADER_MAGIC mbi g) w0 x
    (World (Kernel (scheduler_init s1) (Keyboard.init_keyboard (keys (kern w0))) (interrupts_enable (signals_init (sigs (kern w0))))
        (PitState (pit_ticks (clock (kern w0))) 50) (syscall_init (syscall_table (kern w0))))
      (vmalloc_init (with_heap h (vm w0))) i (screen w0) (shell w0)).
Proof.
  intros Hl Hp Hb Ep Em Hfm Es Hwf h i. pose proof (ends_start_gdt g w0) as Hg. unfold boot_memory, boot_info in *.
  destruct (init_gdt g (pmem (machine_of w0))) as [[g' mg] segs] eqn:Eg. unfold boot_memory in *. rewrite Eg in *. cbn [fst snd] in *.
  eexists. unfold start_kernel. destruct w0 as [[s0 kb0 sg0 tm0 table0] v0 d0 scr0 sh0]. destruct s0 as [tab hd cur kp csr np pt tk cs en [pm0 fr0 cr0 pg0 tlb0 cd0 kd0]].
  destruct v0 as [h0 vc0 rl0 tr0 tp0 vw0]. destruct m as [pm fr cr pg tlb cd kd]. cbn [frames] in Hfm. subst fr.
  settle_in Ep. settle_in Em. settle_in Es. settle_in Hg.
  boot_step ltac:(apply ends_on_screen, initialize_line). boot_step ltac:(exact Hg). cbv iota.
  boot_step ltac:(apply ends_on_screen, print_header_line). boot_step ltac:(apply ends_on_screen; reflexivity).
  boot_step ltac:(apply ends_idt_init).
  boot_step ltac:(eapply ends_modify; intros; settle; reflexivity). boot_step ltac:(apply ends_start_syscalls).
  boot_step ltac:(apply ends_start_frames; settle; exact Ep).
  boot_step ltac:(apply ends_on_machine; settle; exact Em).
  boot_step ltac:(apply ends_start_heap). boot_step ltac:(eapply ends_modify; intros; settle; reflexivity).
  boot_step ltac:(apply ends_on_procs; settle; rewrite Es; reflexivity).
  boot_step ltac:(eapply ends_modify; intros; settle; reflexivity). boot_step ltac:(apply ends_start_timer).
  boot_step ltac:(apply ends_print_stack; [exact Hr|]; settle;
    apply (mapped_low [kernel_page_directory at_]); [exact Hwf|apply (ly_stack _ _ _ _ _ Hl)|apply (ly_stack _ _ _ _ _ Hl)]).
  boot_step ltac:(apply (ends_start_keyboard device polls Hdrain)). boot_step ltac:(eapply ends_modify; intros; settle; reflexivity).
  unfold h, i. settle. apply ends_ret.
Qed.

(** The processes and the scheduler, on the memory of the boot. *)
Lemma process_started mbi es p m : layout at_ cpu w0 g mbi -> plausible w0 g mbi es -> boot_frames at_ w0 g mbi es p ->
  paged at_ p (with_frames (heap_frames at_ p) m) ->
  exists s1, process_init (process_page_directories at_) (set_mach (with_frames (heap_frames at_ p) m) (procs (kern w0))) = Ret s1 /\
    table_ok [0] s1 /\ spaces_ok (process_page_directories at_) (kernel_page_directory at_) [0] s1 /\ current_process s1 = 0 /\
    space_wf [kernel_page_directory at_] (mach s1) /\ frames (mach s1) = heap_frames at_ p /\
    forall h0, vm_ok [kernel_page_directory at_] (mach s1) (vmalloc_init (with_heap (kmalloc_init (kernel_end at_) (vheap h0) p).1 h0)) [] [].
Proof.
  intros Hl Hp Hb Hpa. set (m1 := with_frames (heap_frames at_ p) m) in *.
  pose proof (bootable_started at_ cpu w0 g mbi es Hl Hp p m1 (procs (kern w0)) Hb Hpa eq_refl) as Hbt.
  destruct (process_init_spec _ _ _ Hbt) as (s1 & E & Hok & Hs & Hc & _ & _ & Hf & _).
  destruct (process_init_memory _ _ _ _ Hbt E) as (m' & Em & Hun). exists s1. cbn [mach set_mach] in *.
  pose proof (sp_wf _ _ _ _ Hs) as Hwf. unfold dirs in Hwf. cbn in Hwf.
  split; [exact E|]. split; [exact Hok|]. split; [exact Hs|]. split; [exact Hc|]. split; [exact Hwf|]. split; [by rewrite Hf|].
  intros h0. rewrite Em in *. by apply (memory_started at_ cpu w0 g mbi es Hl).
Qed.

Lemma start_kernel_booted mbi es : layout at_ cpu w0 g mbi -> plausible w0 g mbi es ->
  exists x w, ends (start_kernel device polls at_ cpu 1 MULTIBOOT_BOOTLOADER_MAGIC mbi g) w0 x w /\ booted_system at_ w0 g mbi es w.
Proof.
  intros Hl Hp. destruct (frames_started at_ cpu w0 g mbi es Hl Hp) as (p & Ep & Hb).
  destruct (paging_started at_ cpu w0 g mbi es Hl p (with_frames p (with_pmem (boot_memory w0 g) (machine_of w0))) Hb
    (pl_paging _ _ _ _ Hp) eq_refl) as (m & Em & Hfm & Hpa).
  destruct (process_started mbi es p m Hl Hp Hb Hpa) as (s1 & Es & Hok & Hs & Hc & Hwf & Hf & Hvm).
  rewrite <- (heap_frames_eq at_ cpu w0 g mbi Hl (vheap (vm w0)) p) in Es.
  destruct (start_kernel_ends mbi es p m s1 Hl Hp Hb Ep Em Hfm Es Hwf) as (x & E). eexists x, _. split; [exact E|]. clear E.
  destruct (scheduler_started _ _ s1 Hok Hs) as [Hok' Hs']. destruct (heap_frames_ok at_ cpu w0 g mbi es Hl p Hb) as (_ & Ht & Hu & _).
  constructor; cbn [kern vm descriptors procs keys sigs clock].
  - apply kernel_idt_booted, (pl_handlers _ _ _ _ Hp).
  - reflexivity.
  - apply signals_started, (pl_signals _ _ _ _ Hp).
  - apply keys_started, (pl_keys _ _ _ _ Hp).
  - reflexivity.
  - change (machine_of _) with (mach s1). rewrite Hf, Ht. destruct Hb as (_ & Hbt & _). split; [exact Hbt|exact Hu].
  - apply Hvm.
  - split; [exact Hok'|]. split; [exact Hs'|exact Hc].
  - split; reflexivity.
Qed.

(** Programs that end in a panic. *)
Definition panics {A} (c : cmd A) w msg : Prop := forall t, sane (ports t) -> c (with_screen t w) = Panicked msg.

Lemma panics_bind {A B} (c : cmd A) (f : A -> cmd B) w a w1 msg : ends c w a w1 -> panics (f a) w1 msg -> panics (c ≫= f) w msg.
Proof. intros H1 H2 t Ht. destruct (H1 t Ht) as (t1 & Ht1 & E). unfold mbind, cmd_bind. rewrite E. by apply H2. Qed.

Lemma wrong_magic magic mbi : magic <> MULTIBOOT_BOOTLOADER_MAGIC ->
  panics (start_kernel device polls at_ cpu 1 magic mbi g) w0 "Invalid multiboot magic number!".
Proof.
  intros Hm. pose proof (ends_start_gdt g w0) as Hg. destruct (init_gdt g (pmem (machine_of w0))) as [[g' m] segs].
  unfold start_kernel. eapply panics_bind; [apply ends_on_screen, initialize_line|].
  eapply panics_bind; [exact Hg|]. cbv beta iota. eapply panics_bind; [apply ends_on_screen, print_header_line|].
  eapply panics_bind; [by apply ends_on_screen|]. do 4 (eapply panics_bind; [apply (ends_put device polls Hr)|]).
  rewrite eqb_sym_neg by done. cbn [negb]. by intros t _.
Qed.

(** The serial line is set up before anything is written. *)
Lemma boot_from_serial magic mbi t : lost (line_of (ports t)) = false ->
  exists t', sane (ports t') /\
    boot device polls at_ cpu magic mbi g (with_screen t w0) =
      (s ← start_kernel device polls at_ cpu 1 magic mbi g; mret (1, s)) (with_screen t' w0).
Proof.
  intros Hl. exists (with_ports (serial_init (ports t)).2 t). split; [by apply serial_init_sane|reflexivity].
Qed.

(** C3. The boot.  On a machine the linker and the loader have prepared as they
    should, with a serial line and a keyboard controller that answer in time, the
    kernel reaches the point where it waits for a key, and the system is well
    formed in all its parts at once: the handlers of the ticks, the keys and the
    system calls and no other, an empty signal queue and an empty keyboard buffer,
    interrupts on; the frames in use exactly those that are not available or hold
    the first megabyte, the kernel or its heap; an address space with the first
    16 MB mapped to themselves, an empty heap and no region in it; the kernel
    process alone, the scheduler on with nothing to do.  Without the magic number
    of the boot loader it panics before it touches any of that. *)
Theorem boot_correct magic mbi es t : lost (line_of (ports t)) = false -> layout at_ cpu w0 g mbi -> plausible w0 g mbi es ->
  (magic = MULTIBOOT_BOOTLOADER_MAGIC -> exists s t' w, sane (ports t') /\
     boot device polls at_ cpu magic mbi g (with_screen t w0) = Ret ((1, s), with_screen t' w) /\
     booted_system at_ w0 g mbi es w) /\
  (magic <> MULTIBOOT_BOOTLOADER_MAGIC ->
     boot device polls at_ cpu magic mbi g (with_screen t w0) = Panicked "Invalid multiboot magic number!").
Proof.
  intros Ht Hl Hp. destruct (boot_from_serial magic mbi t Ht) as (t1 & Ht1 & ->). split.
  - intros ->. destruct (start_kernel_booted mbi es Hl Hp) as (x & w & E & Hw). destruct (E t1 Ht1) as (t' & Ht' & E').
    exists x, t', w. split; [exact Ht'|]. split; [|exact Hw]. unfold mbind, cmd_bind. by rewrite E'.
  - intros Hm. unfold mbind, cmd_bind. by rewrite (wrong_magic magic mbi Hm t1 Ht1).
Qed.
End boot.

(** A machine of 32 MB: a memory map of two entries at 0x9000, the structure of
    the boot loader at 0x9500, nothing typed, a serial line that answers the second
    time it is asked. *)
Definition demo_memory : mem :=
  let entry m a base len ty :=
    store32 (store32 (store32 (store32 (store32 (store32 m a 20) (a + 4) base) (a + 8) 0) (a + 12) len) (a + 16) 0) (a + 20) ty in
  let m := entry (entry ∅ 36864 0 654336 1) 36888 1048576 32505856 1 in
  store32 (store32 (store32 (store32 m 38144 65) 38152 31744) 38188 48) 38192 36864.

Definition demo_linked : linked := Linked (fun v => 1048576 + 16 * v) 1057000 1060864 1048576 1310720 1179648 1183744 1200128 573440 589824 1050000.

Definition demo_world : world :=
  World (Kernel (unborn (Machine demo_memory (Pmm [] 0 0 0) 0 false ∅ 0 0)) boot_kbd boot_signals (PitState 0 0) (replicate 8 syscall_not_implemented))
    (VM (KHeap ∅ 0 0 0 0 0 0 []) 0 0 0 0 []) (Idt [] 0 0 (replicate 256 None))
    (Term (replicate 16000 0) (replicate 2000 0) 0 0 0 0 []) (ShellVars 0 0 false {| shell_last_signal := 0; shell_last_signal_value := 0; shell_signal_count := 0 |} 0 false 0 0).

Definition demo_registers : cpu_registers := Registers 16 16 16 16 0 0 0 589760 0 0 0 0 0 0 1048576 8 512.
Definition demo_gdt : gdt := Gdt (replicate 7 zero_entry) 0 0.
Definition demo_map : list mmap_entry :=
  [read_mmap_entry (boot_memory demo_world demo_gdt) 36864; read_mmap_entry (boot_memory demo_world demo_gdt) 36888].

Lemma demo_boot_info : boot_info demo_world demo_gdt 38144 = {| mb_flags := 65; mem_upper := 31744; mmap_length := 48; mmap_addr := 36864 |}.
Proof. by vm_compute. Qed.

Lemma slow_uart_drains p : exists p', drain_keyboard slow_uart 2 p = Ret p'.
Proof.
  assert (Z.land (u8 (slow_uart p KEYBOARD_STATUS_PORT)) 1 = 0) as H
    by (unfold slow_uart; destruct (last p) as [[? v|? v]|]; [destruct v| |]; done).
  eexists. cbn [drain_keyboard]. unfold inb. rewrite H. reflexivity.
Qed.

Lemma demo_layout : layout demo_linked demo_registers demo_world demo_gdt 38144.
Proof.
  split; rewrite ?demo_boot_info; unfold apart_from; cbn [kernel_start kernel_end kernel_page_directory kernel_page_tables process_page_directories demo_linked fst snd]; try lia; try done.
Qed.

Lemma demo_plausible : plausible demo_world demo_gdt 38144 demo_map.
Proof.
  constructor; [reflexivity..|by vm_compute| | |].
  - rewrite demo_boot_info. by vm_compute.
  - rewrite demo_boot_info. cbn [mmap_addr mmap_length]. unfold demo_map.
    apply walk_entry; [by vm_compute..|].
    assert (36864 + load32 (boot_memory demo_world demo_gdt) 36864 + 4 = 36888) as -> by by vm_compute.
    apply walk_entry; [by vm_compute..|]. apply walk_done. by vm_compute.
  - unfold demo_map. repeat constructor; by vm_compute.
Qed.

Lemma boot_correct_witness :
  exists s t' w, sane (ports t') /\
    boot slow_uart 2 demo_linked demo_registers MULTIBOOT_BOOTLOADER_MAGIC 38144 demo_gdt demo_world = Ret ((1, s), with_screen t' w) /\
    booted_system demo_linked demo_world demo_gdt 38144 demo_map w.
Proof.
  exact (proj1 (boot_correct slow_uart 2 demo_linked demo_registers demo_world demo_gdt slow_uart_responsive slow_uart_drains
    MULTIBOOT_BOOTLOADER_MAGIC 38144 demo_map (screen demo_world) eq_refl demo_layout demo_plausible) eq_refl).
Defined.
